(* ===== verification/_CoqProject ===== *)
-Q . S2P
Prelude.v
Pmm.v
Mem.v
Kheap.v
CString.v
Tty.v
Keyboard.v
Kprint.v
Dev.v
BiosDisk.v
Handle.v
Devfs.v
TtyDev.v
Chardev.v
Part.v
Echfs.v
EchfsFile.v
EchfsGrow.v
EchfsFiles.v
EchfsOpen.v
Gdt.v
Task.v
UserMem.v
Streams.v
Vdev.v
Interrupts.v
Panic.v
RealMode.v
Syscalls.v
VfsPath.v
Vfs.v
System.v
Spawn.v
EchfsVfs.v
Boot.v
Transfers.v
Isolation.v
Programs.v
Safety.v
Startup.v
Shell.v
ShellMain.v
