(* ===== verification/Prelude.v ===== *)
(** * A verification library for the echidnaOS kernel

    echidnaOS is a kernel for 32-bit x86 that keeps its tasks apart by segmentation.
    This library models its C code and proves what makes each part correct, or shows
    where it is not.

    ** The program and the files

    The layers, from the bottom, and the file that models each; the definitions have
    the names of the functions, structures and macros they translate.

    - Memory.  [Pmm.v]: the page allocator [mm/pmm.c], a bitmap with a rotating search
      index.  [Kheap.v]: [kalloc], [krealloc] and [kfree] of [klib.c], whose blocks
      live in the byte-addressed memory of [Mem.v].  [CString.v]: the string routines
      of [klib.c] on buffers.
    - Console.  [Tty.v]: the terminals of [drivers/tty.c] with their escape sequences.
      [Keyboard.v]: [drivers/keyboard.c], scan codes, the line being edited and the
      reader.  [Kprint.v]: [lib/kprint.c] and the number printers of [klib.c].
    - Devices.  [Dev.v]: the device list [dev.c], and the interface [Volume] of a
      storage device.  [BiosDisk.v]: [bios_harddisks/bd.c].  [Part.v]: [part.c],
      partition tables and the partition driver.  [TtyDev.v]: [tty/tty.c], terminals as
      devices.  [Chardev.v]: [e9/e9.c], [pcspk/pcspk.c] and [com/com.c] over the
      interface [Ports] of the input and output instructions.  [Streams.v]:
      [streams/streams.c] and [stty/stty.c].  [Vdev.v]: [vdev/vdev.c], devices that a
      task serves.  [RealMode.v]: [lib/real.c], the registers of the BIOS services of
      [bd.c].  [Interrupts.v]: [idt.c], [pic.c], [pit.c], [exceptions.c] and
      [lib/trace.c].  [Panic.v]: [panic.c], on the terminals and the message printer.
    - Files.  [Handle.v]: the allocation of handles in the kernel's four tables.
      [Devfs.v]: [fs/devfs.c].  [Echfs.v] and [EchfsFile.v]: [fs/echfs.c], the
      directory and the open files; [EchfsGrow.v], [EchfsFiles.v] and [EchfsOpen.v]: files
      that grow, all open files of a volume, and files opened again.  [VfsPath.v] and [Vfs.v]: [vfs.c], paths and mount
      points, and the operations that dispatch to the file systems.
    - Tasks.  [Gdt.v]: [drivers/gdt.c].  [Task.v] and [Spawn.v]: [task.c], the table,
      scheduler and exit of tasks, and [task_fork], [general_execute] and [execve].
      [UserMem.v]: the memory of tasks behind the kernel's interface.  [Syscalls.v]:
      [syscalls.c], packets, waiting, signals, segments.
    - The kernel put together.  [System.v]: one state with the tasks, the heap, the
      mount points and the drivers, on which the interfaces below hold, and devfs as a
      file system of it.  [EchfsVfs.v]: echfs as another, its disk reached through the
      virtual file system.  [Transfers.v]: a [read] or [write] of a task from its system
      call to the last visit of the scheduler.  [Isolation.v], [Programs.v] and [Safety.v]:
      the blocks of the tasks in the heap, the start of a program, and the steps of
      running tasks.  [Startup.v] and [Boot.v]:
      [init.c] up to the first task, and from the installation of the file systems on.
    - The shell.  [Shell.v]: the parser of command lines of [shell/shell.c].
      [ShellMain.v]: its loop [main] and its commands, as an interaction tree over the
      system calls and the functions of the C library that it makes.

    The parts meet in interfaces.  A driver is an [io_fn], one function for reading and
    writing a byte.  [Volume] is what a disk promises: the bytes of an array; it is
    implemented by a disk in memory, by the cached BIOS disks ([drive_volume]) and by a
    partition of any volume ([partition_volume]), and the theorems of [Devfs.v] and
    [Part.v] hold for every volume.  [BlockDev] is the same for the two ways in which
    echfs reaches its disk.  [Kernel] with [KernelLaws] is what tasks and system calls
    use of the rest of the kernel, [UserMem] adds the contents of memory, [VfsState]
    the mount points; [System.v] has their instances, [EchfsVfs.v] that of [BlockDev]
    ([blockdev_laws]) for every [Volume] that devfs serves.  [Bios] and [Ports] stand
    for the hardware.

    ** The model

    Integers are [Z] with the wrap-around of their C type written out ([u8], [u16],
    [u32], [u64], [s32]); pointers, [size_t] and [long] have 32 bits.  Arrays are lists,
    and an access outside of one, a null pointer, a panic and an indeterminate value are
    all [None]: a theorem that gives [Some] says that none of them happens.  State is
    passed explicitly, through [option] or the monad [ST]; devices, file systems and
    drivers are functions of the state that calls them.  Buffers that the code does not
    clear are arguments, so the theorems hold for whatever they contain.

    Loops that are not structural have fuel.  Where the bound is known from the
    arguments it is part of the definition ([path_fuel], the length of a format string,
    the pages of a memory map entry) and the theorems show that it is enough.  Where it
    depends on the state (the scheduler, chains and tables on a disk, polling) the fuel
    is an argument and the theorems say how much is enough: two passes over the task
    table for the scheduler, one turn more than the partitions of a disk, more than the
    length of a chain of blocks, more than the number of polls.  That a loop never ends
    is stated as [None] or as no result for every fuel.

    ** The theorems

    - Invariants of memory: no page is handed out twice, allocation and release are
      inverse, blocks of the heap do not overlap and keep their contents when they grow.
    - Refinement: the cached disks, partitions and files behave as arrays of bytes;
      terminals behave as a pure screen; the path resolver of echfs is a walk in the
      directory tree; absolute paths are the normal form of a list of components; the
      keyboard handler is a line editor; [kvprint] is a pure formatter.
    - Safety: whatever tasks store, whatever system calls they make with pointers in
      their own memory, and whenever the timer interrupts them, the memories of two tasks
      are disjoint and neither can change the other's.  [execve] and
      [syscall_new_segment], which break this, and the calls of [vdev.c] that register
      and serve devices are not among the calls.
    - Composition: all open files of a volume are arrays of bytes that do not meet, whatever
      handles they are open through, and what was written is read through a handle
      opened later; an open file of a task is such an array through
      the virtual file system, echfs, devfs and the driver; a long [write] completes, in the system call
      and the visits of the scheduler; the start of the boot leaves the invariants that the
      other theorems begin with, and after it every path leads to its file
      system; a panic prints the registers and the frames; what is typed is what a process reads through the keyboard, the tty
      device and devfs; a handle opened in the virtual file system stays bound to its
      file system; a packet sent is the packet read; a fork has its own copy of the
      memory; a program finds its arguments; the two passes of the shell over a line
      agree with its reading as a list of words, and its loop is the loop that runs
      those words.
    - Scheduling: round robin, no active task is passed over; a task that quits wakes
      the parent that waits for it; a request to a virtual device wakes its task.
    - Flaws, stated as theorems about what the code does: disks without a partition
      table hang the boot, [execve] keeps the old segment limit and overlaps the two
      vectors, serial terminals transfer nothing, handles are closed twice, blocks linked
      twice, segments made and packets stored outside of a task by an overflow, a full
      line locks the keyboard, a long read at the end of a device never returns, a blank
      line repeats the last command.

    ** Not modelled

    Assembly and single instructions (interrupt entries, privilege changes, the switch
    to real mode), the build, and the ports' patches.  The calls of [init.c] that register
    the drivers: what each does is modelled with its component, over that component's
    state.  The device list of the whole kernel has functions over a state that has
    that list, and the streams read through it the files of the running task, so the
    list of [System.v] has the drivers that keep to their own state.
    Concurrency: interrupts are off while the kernel runs, except in a system call,
    where the timer only counts and the keyboard handler is its own operation.
    Messages on the console are parameters or left out where their text does not
    matter; each file says so.  The blocks behind the tables of a task are values, and
    allocations of tables are assumed to succeed where the code does not test them.

    Files: a pointer into the array of cached files is its index, so what happens to an open
    handle when that array moves is not seen; opening a file that is not cached is a
    definition without a theorem about the other handles for that reason.  Closing and
    forking handles of files are definitions; the theorems on sequences of calls have
    reads, writes and seeks. *)

From stdpp Require Export base tactics decidable option list numbers sets.
From Stdlib Require Export ZArith Lia.
From Stdlib Require Ascii String.

#[global] Set Default Proof Using "Type".

(** ** Machine integers

    The kernel is compiled for i386: [size_t], [uintptr_t], [long] and pointers
    are 32 bits wide.  An integer of the C program is the [Z] it denotes and the
    wrap-around of an operation is written out with one of these functions. *)


Local Open Scope Z_scope.

Definition u8 (z : Z) : Z := z mod 2 ^ 8.
Definition u16 (z : Z) : Z := z mod 2 ^ 16.
Definition u32 (z : Z) : Z := z mod 2 ^ 32.
Definition u64 (z : Z) : Z := z mod 2 ^ 64.
Definition s32 (z : Z) : Z := (z + 2 ^ 31) mod 2 ^ 32 - 2 ^ 31.

(** ** Arrays

    A C array is a list; an access outside of it is not a value of the C
    program, and is [None] here. *)

Definition zlen {A} (l : list A) : Z := Z.of_nat (length l).

Definition zget {A} (l : list A) (i : Z) : option A :=
  if decide (0 <= i) then l !! Z.to_nat i else None.

Definition zset {A} (l : list A) (i : Z) (x : A) : option (list A) :=
  if decide (0 <= i < zlen l) then Some (<[Z.to_nat i := x]> l) else None.

(** [zfor n i f a] is [for (k = 0; k < n; k++) a = f(i + k, a)], in the option
    monad of memory errors. *)
Fixpoint zfor {A} (n : nat) (i : Z) (f : Z -> A -> option A) (a : A) : option A :=
  match n with
  | O => Some a
  | S n => a ← f i a; zfor n (i + 1) f a
  end.

(** The bytes of a text of the source. *)
Fixpoint bytes (s : String.string) : list Z :=
  match s with String.EmptyString => [] | String.String a s => Z.of_N (Ascii.N_of_ascii a) :: bytes s end.

#[global] Arguments bytes : simpl never.
#[global] Arguments zfor : simpl never.
#[global] Arguments Z.to_nat : simpl never.

(** ** Automation *)

Create HintDb mach.
Create Rewrite HintDb mach.

Ltac unfold_mach := unfold u8, u16, u32, u64, s32 in *.

(** Linear arithmetic with divisions and remainders by literals. *)
Ltac zdm := Z.div_mod_to_equations; nia.
Ltac zdml := Z.div_mod_to_equations; lia.

(** Destruct the bound of an option bind, or the boolean test, of a hypothesis
    or of the goal. *)
Ltac bsimp :=
  repeat match goal with
  | H : Z.ltb _ _ = true |- _ => apply Z.ltb_lt in H
  | H : Z.ltb _ _ = false |- _ => apply Z.ltb_ge in H
  | H : Z.leb _ _ = true |- _ => apply Z.leb_le in H
  | H : Z.leb _ _ = false |- _ => apply Z.leb_gt in H
  | H : Z.eqb _ _ = true |- _ => apply Z.eqb_eq in H
  | H : Z.eqb _ _ = false |- _ => apply Z.eqb_neq in H
  | H : negb _ = true |- _ => apply negb_true_iff in H
  | H : negb _ = false |- _ => apply negb_false_iff in H
  | H : (_ && _)%bool = true |- _ => apply andb_prop in H as [? ?]
  | H : (_ || _)%bool = false |- _ => apply orb_false_elim in H as [? ?]
  end.

(** Walk a hypothesis [m ≫= k = Some r] one bind at a time. *)
Ltac obind H :=
  let x := fresh "x" in let E := fresh "E" in
  apply bind_Some in H as (x & E & H).

(** ** Lemmas on machine integers *)

Lemma u8_range z : 0 <= u8 z < 2 ^ 8.
Proof. apply Z.mod_pos_bound. lia. Qed.
Lemma u16_range z : 0 <= u16 z < 2 ^ 16.
Proof. apply Z.mod_pos_bound. lia. Qed.
Lemma u32_range z : 0 <= u32 z < 2 ^ 32.
Proof. apply Z.mod_pos_bound. lia. Qed.
Lemma u64_range z : 0 <= u64 z < 2 ^ 64.
Proof. apply Z.mod_pos_bound. lia. Qed.
Lemma s32_range z : - 2 ^ 31 <= s32 z < 2 ^ 31.
Proof. unfold s32. pose proof (Z.mod_pos_bound (z + 2 ^ 31) (2 ^ 32)). lia. Qed.

Lemma u8_small z : 0 <= z < 2 ^ 8 -> u8 z = z.
Proof. apply Z.mod_small. Qed.
Lemma u16_small z : 0 <= z < 2 ^ 16 -> u16 z = z.
Proof. apply Z.mod_small. Qed.
Lemma u32_small z : 0 <= z < 2 ^ 32 -> u32 z = z.
Proof. apply Z.mod_small. Qed.
Lemma u64_small z : 0 <= z < 2 ^ 64 -> u64 z = z.
Proof. apply Z.mod_small. Qed.
Lemma s32_small z : - 2 ^ 31 <= z < 2 ^ 31 -> s32 z = z.
Proof. intros H. unfold s32. rewrite Z.mod_small; lia. Qed.

#[export] Hint Resolve u8_range u16_range u32_range u64_range s32_range : mach.
#[export] Hint Rewrite u8_small u16_small u32_small u64_small s32_small
  using (solve [lia | auto with mach]) : mach.

(** ** Lemmas on arrays *)

Lemma zlen_nonneg {A} (l : list A) : 0 <= zlen l.
Proof. unfold zlen. lia. Qed.
#[export] Hint Resolve zlen_nonneg : mach.

Lemma zlen_nil {A} : zlen (@nil A) = 0.
Proof. done. Qed.
Lemma zlen_cons {A} (x : A) l : zlen (x :: l) = zlen l + 1.
Proof. unfold zlen. simpl. lia. Qed.
Lemma zlen_app {A} (l k : list A) : zlen (l ++ k) = zlen l + zlen k.
Proof. unfold zlen. rewrite length_app. lia. Qed.
Lemma zlen_insert {A} (l : list A) n x : zlen (<[n:=x]> l) = zlen l.
Proof. unfold zlen. by rewrite length_insert. Qed.
Lemma zlen_replicate {A} n (x : A) : zlen (replicate n x) = Z.of_nat n.
Proof. unfold zlen. by rewrite length_replicate. Qed.
#[export] Hint Rewrite @zlen_nil @zlen_cons @zlen_app @zlen_insert @zlen_replicate : mach.

Lemma zget_Some {A} (l : list A) i x :
  zget l i = Some x -> 0 <= i < zlen l.
Proof.
  unfold zget, zlen. case_decide; [|done].
  intros Hl%lookup_lt_Some. lia.
Qed.

Lemma zget_lookup {A} (l : list A) i : 0 <= i -> zget l i = l !! Z.to_nat i.
Proof. intros H. unfold zget. by rewrite decide_True. Qed.

Lemma zget_nat {A} (l : list A) n : zget l (Z.of_nat n) = l !! n.
Proof. rewrite zget_lookup by lia. by rewrite Nat2Z.id. Qed.

Lemma zget_is_Some {A} (l : list A) i : 0 <= i < zlen l -> is_Some (zget l i).
Proof.
  intros H. rewrite zget_lookup by lia. apply lookup_lt_is_Some. unfold zlen in H. lia.
Qed.

Lemma zget_None {A} (l : list A) i : zget l i = None <-> (i < 0 \/ zlen l <= i).
Proof.
  split.
  - intros H. destruct (decide (0 <= i < zlen l)) as [Hi|]; [|lia].
    apply zget_is_Some in Hi as [x Hx]. congruence.
  - intros H. destruct (zget l i) eqn:E; [|done]. apply zget_Some in E. lia.
Qed.

Lemma zset_Some {A} (l : list A) i x l' :
  zset l i x = Some l' -> 0 <= i < zlen l /\ l' = <[Z.to_nat i:=x]> l.
Proof. unfold zset. case_decide; intros Heq; by simplify_eq. Qed.

Lemma zset_len {A} (l : list A) i x l' : zset l i x = Some l' -> zlen l' = zlen l.
Proof. intros [_ ->]%zset_Some. apply zlen_insert. Qed.

Lemma zset_ok {A} (l : list A) i x :
  0 <= i < zlen l -> zset l i x = Some (<[Z.to_nat i:=x]> l).
Proof. intros H. unfold zset. by rewrite decide_True. Qed.

Lemma zset_None {A} (l : list A) i x : zlen l <= i -> zset l i x = None.
Proof. intros H. unfold zset. rewrite decide_False; [done|lia]. Qed.

Lemma zget_zset {A} (l : list A) i j x l' :
  zset l i x = Some l' -> zget l' j = if decide (i = j) then Some x else zget l j.
Proof.
  intros [Hi ->]%zset_Some. unfold zget, zlen in *. case_decide; case_decide; try lia; try done.
  - subst. apply list_lookup_insert_eq. lia.
  - apply list_lookup_insert_ne. lia.
Qed.

Lemma zget_ext {A} (l k : list A) : (forall i, zget l i = zget k i) -> l = k.
Proof.
  intros H. apply list_eq. intros n. specialize (H (Z.of_nat n)). by rewrite !zget_nat in H.
Qed.

Lemma zget_cons {A} (x : A) l i : zget (x :: l) i = if decide (i = 0) then Some x else zget l (i - 1).
Proof.
  unfold zget. destruct (decide (i = 0)) as [->|Hi]; [done|].
  repeat case_decide; try lia; [|done..].
  replace (Z.to_nat i) with (S (Z.to_nat (i - 1))) by lia. done.
Qed.

Lemma zget_app {A} (l k : list A) i :
  zget (l ++ k) i = if decide (i < zlen l) then zget l i else zget k (i - zlen l).
Proof.
  unfold zget, zlen. repeat case_decide; try lia; try done.
  - apply lookup_app_l. lia.
  - rewrite lookup_app_r by lia. f_equal. lia.
Qed.

Lemma zget_middle {A} (l k : list A) x : zget (l ++ x :: k) (zlen l) = Some x.
Proof.
  rewrite zget_app, decide_False by lia. replace (zlen l - zlen l) with 0 by lia. done.
Qed.

Lemma zget_drop {A} (l : list A) n i : 0 <= i -> 0 <= n -> zget (drop (Z.to_nat n) l) i = zget l (n + i).
Proof. intros. rewrite !zget_lookup by lia. rewrite lookup_drop. f_equal. lia. Qed.

(** A buffer filled from the left: storing just after the prefix [p]. *)
Lemma insert_mid {A} (p : list A) x y r n : n = length p -> <[n := y]> (p ++ x :: r) = (p ++ [y]) ++ r.
Proof.
  intros ->. rewrite insert_app_r_alt by done. rewrite Nat.sub_diag. cbn.
  by rewrite <- app_assoc.
Qed.

Lemma zset_mid {A} (p r : list A) y : r <> [] ->
  exists r', zset (p ++ r) (zlen p) y = Some ((p ++ [y]) ++ r') /\ zlen r' + 1 = zlen r.
Proof.
  destruct r as [|x r]; [done|]. intros _. exists r. rewrite zlen_cons. split; [|done].
  rewrite zset_ok by (rewrite zlen_app, zlen_cons; pose proof (zlen_nonneg p);
    pose proof (zlen_nonneg r); lia).
  f_equal. apply insert_mid. unfold zlen. lia.
Qed.

Lemma rest_nonempty {A} (p r : list A) n : zlen (p ++ r) = n -> zlen p < n -> r <> [].
Proof. intros H Hp ->. rewrite app_nil_r in H. lia. Qed.

Lemma zfor_S {A} n i (f : Z -> A -> option A) a :
  zfor (S n) i f a = f i a ≫= zfor n (i + 1) f.
Proof. done. Qed.

(** The loop rule of [zfor]: an invariant on the index and the accumulator. *)
Lemma zfor_inv {A} (I : Z -> A -> Prop) n i (f : Z -> A -> option A) a :
  I i a ->
  (forall k b, i <= k < i + Z.of_nat n -> I k b -> exists b', f k b = Some b' /\ I (k + 1) b') ->
  exists a', zfor n i f a = Some a' /\ I (i + Z.of_nat n) a'.
Proof.
  revert i a. induction n as [|n IH]; intros i a H0 Hstep.
  - exists a. split; [done|]. by rewrite Z.add_0_r.
  - destruct (Hstep i a) as (b & Hb & HI); [lia|done|]. rewrite zfor_S, Hb. simpl.
    destruct (IH (i + 1) b HI) as (a' & Ha & HI').
    + intros k c Hk. apply Hstep. lia.
    + exists a'. split; [done|]. by replace (i + Z.of_nat (S n)) with (i + 1 + Z.of_nat n) by lia.
Qed.

(** ** Stateful computations that may fail *)

Definition ST (W A : Type) : Type := W -> option (A * W).
Definition st_ret {W A} (a : A) : ST W A := fun w => Some (a, w).
Definition st_fail {W A} : ST W A := fun _ => None.
Definition st_bind {W A B} (m : ST W A) (k : A -> ST W B) : ST W B :=
  fun w => match m w with Some (a, w) => k a w | None => None end.
Definition st_lift {W A} (o : option A) : ST W A :=
  fun w => match o with Some a => Some (a, w) | None => None end.

Declare Scope st_scope.
Delimit Scope st_scope with st.
Notation "'let!' x := m 'in' k" := (st_bind m (fun x => k))
  (at level 10, x name, m at level 100, k at level 200) : st_scope.
Notation "m ;; k" := (st_bind m (fun _ => k)) (at level 100, k at level 200, right associativity) : st_scope.

Lemma st_bind_ok {W A B} (m : ST W A) (k : A -> ST W B) w a w' : m w = Some (a, w') -> st_bind m k w = k a w'.
Proof. intros E. unfold st_bind. by rewrite E. Qed.

(** A driver's own variables [S] beside the rest [W] of the state. *)
Definition on_rest {S W A} (m : ST W A) : ST (S * W) A :=
  fun w => match m w.2 with Some (a, w') => Some (a, (w.1, w')) | None => None end.
Definition set_vars {S W} (s : S) : ST (S * W) unit := fun w => Some (tt, (s, w.2)).
Definition get_vars {S W} : ST (S * W) S := fun w => Some (w.1, w).

Lemma on_rest_ok {S W A} (m : ST W A) (s : S) w a w' : m w = Some (a, w') -> on_rest m (s, w) = Some (a, (s, w')).
Proof. intros E. unfold on_rest. cbn [fst snd]. by rewrite E. Qed.
