(* ===== verification/Pmm.v ===== *)
(** * The physical page allocator: [kernel/src/mm/pmm.c]

    The state is the bitmap of used pages, the rotating search index and the
    highest usable address.  [inner_alloc] is the search loop, [pmm_alloc] and
    [pmm_free] the two operations every other allocation goes through and
    [init_pmm] the construction of the bitmap from the memory map. *)

From S2P Require Import Prelude.
From stdpp Require Import relations.
Local Open Scope Z_scope.

Module Pmm.

Definition PAGE_SIZE : Z := 4096.

(** [#define DIV_ROUNDUP(a,b) (((a) + ((b) - 1)) / b)] on 32-bit operands: the
    addition wraps. *)
Definition DIV_ROUNDUP (a b : Z) : Z := u32 (a + (b - 1)) / b.

Definition STIVALE_MMAP_USABLE : Z := 1.

Record mmap_entry := MmapEntry { mbase : Z; mlength : Z; mtype : Z }.

(** One [bool] per bit of the bitmap, [true] for a page in use. *)
Record pmm := MkPmm {
  bitmap_addr : Z;
  bitmap : list bool;
  last_used_index : Z;
  highest_page : Z
}.

Definition bitmap_test (bm : list bool) (bit : Z) : option bool := zget bm bit.
Definition bitmap_set (bm : list bool) (bit : Z) : option (list bool) := zset bm bit true.
Definition bitmap_unset (bm : list bool) (bit : Z) : option (list bool) := zset bm bit false.

(** ** Allocation *)

(** [for (i = page; i < page + count; i++) bitmap_set(bitmap, i)] and the same
    with [bitmap_unset]. *)
Definition set_pages (page count : Z) (bm : list bool) : option (list bool) :=
  zfor (Z.to_nat count) page (fun i b => bitmap_set b i) bm.
Definition unset_pages (page count : Z) (bm : list bool) : option (list bool) :=
  zfor (Z.to_nat count) page (fun i b => bitmap_unset b i) bm.

Definition with_bitmap (st : pmm) (bm : list bool) : pmm :=
  MkPmm (bitmap_addr st) bm (last_used_index st) (highest_page st).
Definition with_last (st : pmm) (i : Z) : pmm :=
  MkPmm (bitmap_addr st) (bitmap st) i (highest_page st).

(** The [while] loop of [inner_alloc]; [p] is the length of the current run of
    free pages.  [None] is an access outside of the bitmap (or a lack of fuel). *)
Fixpoint inner_alloc_loop (fuel : nat) (count limit p : Z) (st : pmm) : option (Z * pmm) :=
  if last_used_index st <? limit then
    match fuel with
    | O => None
    | S fuel =>
      used ← bitmap_test (bitmap st) (last_used_index st);
      let st := with_last st (last_used_index st + 1) in
      if negb used then
        let p := u32 (p + 1) in
        if p =? count then
          let page := u32 (last_used_index st - count) in
          bm ← set_pages page (last_used_index st - page) (bitmap st);
          Some (u32 (page * PAGE_SIZE), with_bitmap st bm)
        else inner_alloc_loop fuel count limit p st
      else inner_alloc_loop fuel count limit 0 st
    end
  else Some (0, st).

Definition inner_alloc (count limit : Z) (st : pmm) : option (Z * pmm) :=
  inner_alloc_loop (Z.to_nat (limit - last_used_index st)) count limit 0 st.

Definition pmm_alloc (count : Z) (st : pmm) : option (Z * pmm) :=
  let l := last_used_index st in
  '(ret, st) ← inner_alloc count (highest_page st / PAGE_SIZE) st;
  if ret =? 0 then inner_alloc count l (with_last st 0)
  else Some (ret, st).

Definition pmm_free (ptr count : Z) (st : pmm) : option pmm :=
  let page := ptr / PAGE_SIZE in
  bm ← unset_pages page (u32 (page + count) - page) (bitmap st);
  Some (with_bitmap st bm).

(** ** Initialisation *)

(** First loop: the highest end of a usable entry ([uintptr_t top]). *)
Fixpoint find_highest (memmap : list mmap_entry) (h : Z) : Z :=
  match memmap with
  | [] => h
  | e :: memmap =>
    if mtype e =? STIVALE_MMAP_USABLE then
      let top := u32 (mbase e + mlength e) in
      find_highest memmap (if h <? top then top else h)
    else find_highest memmap h
  end.

(** Second loop: the first usable entry that can host the bitmap gives up its
    first [bitmap_size] bytes. *)
Fixpoint carve_bitmap (bitmap_size : Z) (memmap : list mmap_entry) : option (Z * list mmap_entry) :=
  match memmap with
  | [] => None
  | e :: rest =>
    if (mtype e =? STIVALE_MMAP_USABLE) && (bitmap_size <=? mlength e) then
      Some (u32 (mbase e),
            MmapEntry (u64 (mbase e + bitmap_size)) (u64 (mlength e - bitmap_size)) (mtype e) :: rest)
    else '(b, rest) ← carve_bitmap bitmap_size rest; Some (b, e :: rest)
  end.

(** Third loop, inner part: [j] is a 32-bit counter compared with a 64-bit length. *)
Fixpoint free_entry (fuel : nat) (e : mmap_entry) (j : Z) (bm : list bool) : option (list bool) :=
  if j <? mlength e then
    match fuel with
    | O => None
    | S fuel =>
      bm ← bitmap_unset bm (u32 (u64 (mbase e + j) / PAGE_SIZE));
      free_entry fuel e (u32 (j + PAGE_SIZE)) bm
    end
  else Some bm.

Definition entry_fuel (e : mmap_entry) : nat := Z.to_nat (mlength e / PAGE_SIZE + 1).

Fixpoint free_entries (memmap : list mmap_entry) (bm : list bool) : option (list bool) :=
  match memmap with
  | [] => Some bm
  | e :: memmap =>
    if mtype e =? STIVALE_MMAP_USABLE then
      bm ← free_entry (entry_fuel e) e 0 bm; free_entries memmap bm
    else free_entries memmap bm
  end.

Definition bitmap_bytes (highest : Z) : Z := DIV_ROUNDUP highest PAGE_SIZE / 8.

(** [None] also when no entry can host the bitmap: the C pointer stays NULL. *)
Definition init_pmm (memmap : list mmap_entry) : option pmm :=
  let highest := find_highest memmap 0 in
  let bitmap_size := bitmap_bytes highest in
  '(addr, memmap) ← carve_bitmap bitmap_size memmap;
  bm ← free_entries memmap (replicate (Z.to_nat (8 * bitmap_size)) true);
  Some (MkPmm addr bm 0 highest).

(** ** Specification *)

(** All the pages of [[page, page + count)] are free. *)
Definition free_run (bm : list bool) (page count : Z) : Prop :=
  forall i, page <= i < page + count -> zget bm i = Some false.
Definition used_run (bm : list bool) (page count : Z) : Prop :=
  forall i, page <= i < page + count -> zget bm i = Some true.

(** [bm'] is [bm] with the pages of [[page, page + count)] set to [v]. *)
Definition filled (page count : Z) (v : bool) (bm bm' : list bool) : Prop :=
  forall i, zget bm' i = if decide (page <= i < page + count) then Some v else zget bm i.

(** The bitmap covers the pages below [highest_page], page 0 is never handed
    out (it is the address NULL) and the search index is in range. *)
Record wf (st : pmm) : Prop := {
  wf_high : 0 <= highest_page st < 2 ^ 32;
  wf_cover : highest_page st / PAGE_SIZE <= zlen (bitmap st);
  wf_last : 0 <= last_used_index st <= highest_page st / PAGE_SIZE;
  wf_page0 : zget (bitmap st) 0 = Some true
}.

(** What a search for [count] pages over [[start, limit)] answers: the first fit,
    then marked as used, or no change of the bitmap when there is none. *)
Inductive alloc_spec (count start limit : Z) (st : pmm) : Z -> pmm -> Prop :=
| alloc_found page bm' :
    start <= page -> page + count <= limit ->
    free_run (bitmap st) page count ->
    (forall s, start <= s < page -> ~ free_run (bitmap st) s count) ->
    filled page count true (bitmap st) bm' ->
    alloc_spec count start limit st (u32 (page * PAGE_SIZE))
      (with_bitmap (with_last st (page + count)) bm')
| alloc_none :
    (forall s, start <= s -> s + count <= limit -> ~ free_run (bitmap st) s count) ->
    alloc_spec count start limit st 0 (with_last st (Z.max start limit)).

(** A usable entry lies in the 32-bit address space, with room for the last
    increment of the 32-bit loop counter. *)
Definition entry_ok (e : mmap_entry) : Prop :=
  mtype e = STIVALE_MMAP_USABLE ->
  0 <= mbase e /\ 0 <= mlength e /\ mbase e + mlength e + PAGE_SIZE <= 2 ^ 32.

(** The number of iterations of the third loop on an entry. *)
Definition entry_pages (e : mmap_entry) : Z := (mlength e + (PAGE_SIZE - 1)) / PAGE_SIZE.

(** The page is one of those the third loop frees for the entry. *)
Definition frees (e : mmap_entry) (page : Z) : Prop :=
  mtype e = STIVALE_MMAP_USABLE /\
  mbase e / PAGE_SIZE <= page < mbase e / PAGE_SIZE + entry_pages e.

(** The page holds a byte of the bitmap. *)
Definition holds_bitmap (st : pmm) (page : Z) : Prop :=
  exists a, bitmap_addr st <= a < bitmap_addr st + zlen (bitmap st) / 8 /\ a / PAGE_SIZE = page.

(** ** Lemmas: filling a range of the bitmap *)

Lemma filled_0 page v bm : filled page 0 v bm bm.
Proof. intros i. rewrite decide_False by lia. done. Qed.

Lemma filled_len page count v bm bm' : filled page count v bm bm' -> 0 <= page ->
  page + count <= zlen bm -> zlen bm' = zlen bm.
Proof.
  intros Hf Hp Hc.
  assert (forall i, is_Some (zget bm' i) <-> is_Some (zget bm i)) as Hdom.
  { intros i. rewrite Hf. case_decide; [|done].
    split; intros _; [apply zget_is_Some; lia|eauto]. }
  pose proof (zlen_nonneg bm). pose proof (zlen_nonneg bm').
  destruct (decide (zlen bm' < zlen bm)) as [Hlt|].
  - destruct (proj2 (Hdom (zlen bm'))) as [x Hx%zget_Some]; [apply zget_is_Some|]; lia.
  - destruct (decide (zlen bm < zlen bm')) as [Hlt|]; [|lia].
    destruct (proj1 (Hdom (zlen bm))) as [x Hx%zget_Some]; [apply zget_is_Some|]; lia.
Qed.

Lemma fill_loop v page count bm :
  0 <= page -> page + Z.max 0 count <= zlen bm ->
  exists bm', zfor (Z.to_nat count) page (fun i b => zset b i v) bm = Some bm' /\
    filled page count v bm bm'.
Proof.
  intros Hp Hc.
  destruct (zfor_inv (fun k b => zlen b = zlen bm /\ filled page (k - page) v bm b)
              (Z.to_nat count) page (fun i b => zset b i v) bm) as (bm' & Hbm & _ & Hf).
  - split; [done|]. rewrite Z.sub_diag. apply filled_0.
  - intros k b Hk [Hl Hb]. rewrite zset_ok by lia. eexists; split; [done|]. split.
    + by rewrite zlen_insert.
    + intros i. rewrite (zget_zset b k i v); [|apply zset_ok; lia]. rewrite Hb.
      repeat case_decide; try done; lia.
  - exists bm'. split; [done|]. intros i. rewrite Hf. repeat case_decide; try done; lia.
Qed.

Lemma set_pages_ok page count bm :
  0 <= page -> page + Z.max 0 count <= zlen bm ->
  exists bm', set_pages page count bm = Some bm' /\ filled page count true bm bm'.
Proof. apply fill_loop. Qed.

Lemma unset_pages_ok page count bm :
  0 <= page -> page + Z.max 0 count <= zlen bm ->
  exists bm', unset_pages page count bm = Some bm' /\ filled page count false bm bm'.
Proof. apply fill_loop. Qed.

(** A run that contains a page in use is not free. *)
Lemma used_not_free bm s count i :
  zget bm i = Some true -> s <= i < s + count -> ~ free_run bm s count.
Proof. intros Hi Hs Hf. rewrite Hf in Hi by lia. done. Qed.

(** ** The search loop *)

Lemma inner_alloc_loop_spec fuel count limit p start st :
  0 < count < 2 ^ 32 -> 0 <= start -> limit <= zlen (bitmap st) -> limit <= 2 ^ 20 ->
  limit - last_used_index st <= Z.of_nat fuel ->
  start <= last_used_index st - p -> 0 <= p < count ->
  free_run (bitmap st) (last_used_index st - p) p ->
  (forall s, start <= s < last_used_index st - p -> ~ free_run (bitmap st) s count) ->
  exists ret st', inner_alloc_loop fuel count limit p st = Some (ret, st') /\
    ((exists page bm', ret = u32 (page * PAGE_SIZE) /\
       st' = with_bitmap (with_last st (page + count)) bm' /\
       start <= page /\ page + count <= limit /\ free_run (bitmap st) page count /\
       (forall s, start <= s < page -> ~ free_run (bitmap st) s count) /\
       filled page count true (bitmap st) bm') \/
     (ret = 0 /\ st' = with_last st (Z.max (last_used_index st) limit) /\
      (forall s, start <= s -> s + count <= limit -> ~ free_run (bitmap st) s count))).
Proof.
  revert p st. induction fuel as [|fuel IH]; intros p st Hc Hs Hl H20 Hfuel Hstart Hp Hrun Hno;
    simpl; destruct (Z.ltb_spec (last_used_index st) limit) as [Hlt|Hge]; try lia.
  1, 3: eexists _, _; split; [done|]; right; rewrite Z.max_l by lia; destruct st; simpl in *;
      repeat split; [done..|]; intros s ? ?; apply Hno; lia.
  destruct (zget_is_Some (bitmap st) (last_used_index st)) as [used Hused]; [lia|].
  unfold bitmap_test. rewrite Hused. simpl. destruct used; simpl.
  - (* a page in use: the run restarts after it *)
    destruct (IH 0 (with_last st (last_used_index st + 1))) as (ret & st' & Heq & Hres);
      simpl; try lia; try done.
    + intros i Hi. lia.
    + intros s Hsr. destruct (decide (s < last_used_index st - p)); [apply Hno; lia|].
      eapply used_not_free; [exact Hused|lia].
    + exists ret, st'. split; [done|]. destruct Hres as [(page & bm' & ? & -> & ?)|(? & -> & ?)].
      * left. exists page, bm'. done.
      * right. split; [done|]. split; [|done]. unfold with_last; simpl. f_equal. lia.
  - rewrite (u32_small (p + 1)) by lia.
    assert (free_run (bitmap st) (last_used_index st - p) (p + 1)) as Hrun'.
    { intros i Hi. destruct (decide (i = last_used_index st)) as [->|]; [done|]. apply Hrun. lia. }
    destruct (Z.eqb_spec (p + 1) count) as [Heq|Hne].
    + rewrite (u32_small (_ - count)) by lia.
      destruct (set_pages_ok (last_used_index st + 1 - count)
        (last_used_index st + 1 - (last_used_index st + 1 - count)) (bitmap st))
        as (bm' & -> & Hf); [lia..|]. simpl.
      replace (last_used_index st + 1 - (last_used_index st + 1 - count)) with count in Hf by lia.
      eexists _, _; split; [done|]. left.
      replace (last_used_index st - p) with (last_used_index st + 1 - count) in * by lia.
      exists (last_used_index st + 1 - count), bm'. subst count.
      replace (last_used_index st + 1 - (p + 1) + (p + 1)) with (last_used_index st + 1) by lia.
      repeat split; try done; lia.
    + destruct (IH (p + 1) (with_last st (last_used_index st + 1))) as (ret & st' & Heq' & Hres);
        simpl; try lia; try done.
      * by replace (last_used_index st + 1 - (p + 1)) with (last_used_index st - p) by lia.
      * replace (last_used_index st + 1 - (p + 1)) with (last_used_index st - p) by lia. done.
      * exists ret, st'. split; [done|]. destruct Hres as [(page & bm' & ? & -> & ?)|(? & -> & ?)].
        -- left. exists page, bm'. done.
        -- right. split; [done|]. split; [|done]. unfold with_last; simpl. f_equal. lia.
Qed.

Lemma inner_alloc_ok count limit st :
  0 < count < 2 ^ 32 -> 0 <= last_used_index st -> limit <= zlen (bitmap st) -> limit <= 2 ^ 20 ->
  exists ret st', inner_alloc count limit st = Some (ret, st') /\
    alloc_spec count (last_used_index st) limit st ret st'.
Proof.
  intros Hc Hl Hlim H20.
  destruct (inner_alloc_loop_spec (Z.to_nat (limit - last_used_index st)) count limit 0
    (last_used_index st) st) as (ret & st' & Heq & Hres); try lia; try done.
  { intros i Hi. lia. }
  exists ret, st'. split; [exact Heq|].
  destruct Hres as [(page & bm' & -> & -> & ? & ? & ? & ? & ?)|(-> & -> & ?)]; by constructor.
Qed.

Lemma highest_index st : wf st -> highest_page st / PAGE_SIZE <= 2 ^ 20.
Proof. intros [Hh _ _ _]. unfold PAGE_SIZE. zdml. Qed.

(** A run found by the search does not start at page 0 and its address is not NULL. *)
Lemma run_addr st page count :
  wf st -> 0 <= page -> 0 < count -> page + count <= highest_page st / PAGE_SIZE ->
  free_run (bitmap st) page count ->
  1 <= page /\ u32 (page * PAGE_SIZE) = page * PAGE_SIZE /\ page * PAGE_SIZE <> 0.
Proof.
  intros Hwf Hp Hc Hle Hrun. pose proof (highest_index st Hwf) as H20.
  assert (page <> 0). { intros ->. pose proof (wf_page0 _ Hwf). rewrite Hrun in H by lia. done. }
  unfold PAGE_SIZE in *. rewrite u32_small; lia.
Qed.

(** ** The two operations *)

Lemma alloc_spec_wf count start limit st ret st' :
  wf st -> alloc_spec count start limit st ret st' ->
  0 < count -> 0 <= start <= highest_page st / PAGE_SIZE -> 
  0 <= limit <= highest_page st / PAGE_SIZE -> wf st'.
Proof.
  intros Hwf Hs Hc Hst Hli. destruct Hs as [page bm' Hp Hpc Hrun Hfirst Hfill|Hno].
  - destruct (run_addr st page count) as (H1 & _ & _); [done|lia..|done|].
    destruct Hwf as [Hh Hcov Hlast H0]. split; simpl; try done; try lia.
    + erewrite filled_len; [done..| |]; [lia|]. lia.
    + rewrite Hfill, decide_False by lia. done.
  - destruct Hwf as [Hh Hcov Hlast H0]. split; simpl; try done; lia.
Qed.

(** The abstract answer of [pmm_alloc]: either a run of free pages, now in use
    and at a non-NULL address, or NULL and no change of the bitmap. *)
Inductive palloc_spec (count : Z) (st : pmm) : Z -> pmm -> Prop :=
| palloc_found page st' :
    1 <= page -> page + count <= highest_page st / PAGE_SIZE ->
    free_run (bitmap st) page count ->
    filled page count true (bitmap st) (bitmap st') ->
    highest_page st' = highest_page st ->
    palloc_spec count st (page * PAGE_SIZE) st'
| palloc_none st' :
    bitmap st' = bitmap st -> highest_page st' = highest_page st ->
    (forall s, last_used_index st <= s -> s + count <= highest_page st / PAGE_SIZE ->
       ~ free_run (bitmap st) s count) ->
    (forall s, 0 <= s -> s + count <= last_used_index st -> ~ free_run (bitmap st) s count) ->
    palloc_spec count st 0 st'.

Lemma pmm_alloc_ok count st :
  wf st -> 0 < count < 2 ^ 32 ->
  exists ret st', pmm_alloc count st = Some (ret, st') /\ palloc_spec count st ret st' /\ wf st'.
Proof.
  intros Hwf Hc. pose proof (highest_index st Hwf) as H20. pose proof Hwf as [Hh Hcov Hlast H0].
  destruct (inner_alloc_ok count (highest_page st / PAGE_SIZE) st) as (r1 & st1 & E1 & S1); [lia..|].
  pose proof (alloc_spec_wf _ _ _ _ _ _ Hwf S1) as Hwf1. unfold pmm_alloc. rewrite E1. simpl.
  destruct S1 as [page bm' Hp Hpc Hrun Hfirst Hfill|Hno].
  - destruct (run_addr st page count) as (H1 & Ha & Hn); [done|lia..|done|].
    rewrite Ha. apply Z.eqb_neq in Hn. rewrite Hn. eexists _, _. split; [done|].
    split; [by econstructor|]. apply Hwf1; lia.
  - simpl. rewrite Z.max_r by lia.
    set (st0 := with_last (with_last st _) 0).
    assert (Hwf0 : wf st0) by (split; simpl; try done; lia).
    destruct (inner_alloc_ok count (last_used_index st) st0) as (r2 & st2 & E2 & S2); simpl; [lia..|].
    rewrite E2. pose proof (alloc_spec_wf _ _ _ _ _ _ Hwf0 S2) as Hwf2.
    eexists _, _. split; [done|]. split; [|apply Hwf2; simpl; lia].
    destruct S2 as [page bm' Hp Hpc Hrun Hfirst Hfill|Hno2]; simpl in *.
    + destruct (run_addr st page count) as (H1 & Ha & Hn); [done|lia..|done|]. rewrite Ha.
      constructor; simpl; try done; lia.
    + by constructor.
Qed.

Lemma pmm_free_ok page count st :
  0 <= page -> 0 <= count -> page + count <= zlen (bitmap st) -> page + count < 2 ^ 32 ->
  exists st', pmm_free (page * PAGE_SIZE) count st = Some st' /\
    filled page count false (bitmap st) (bitmap st') /\
    last_used_index st' = last_used_index st /\ highest_page st' = highest_page st.
Proof.
  intros Hp Hc Hl H32. unfold pmm_free, PAGE_SIZE. rewrite Z.div_mul by lia.
  rewrite u32_small by lia.
  destruct (unset_pages_ok page (page + count - page) (bitmap st)) as (bm' & -> & Hf); [lia..|].
  simpl. eexists. split; [done|]. split; [|done].
  by replace (page + count - page) with count in Hf by lia.
Qed.

Lemma pmm_free_wf page count st st' :
  wf st -> 1 <= page -> 0 <= count -> page + count <= highest_page st / PAGE_SIZE ->
  pmm_free (page * PAGE_SIZE) count st = Some st' -> wf st'.
Proof.
  intros Hwf Hp Hc Hl Heq. pose proof (highest_index st Hwf) as H20.
  pose proof Hwf as [Hh Hcov Hlast H0].
  destruct (pmm_free_ok page count st) as (st2 & Heq2 & Hf & Hla & Hhi); [lia..|].
  rewrite Heq2 in Heq. injection Heq as ->. split; rewrite ?Hla, ?Hhi; try done.
  - erewrite filled_len; [done..| |]; lia.
  - rewrite Hf, decide_False by lia. done.
Qed.

(** ** The allocator as a transition system

    [live] lists the blocks (first page, page count) that have been handed out
    and not yet given back. *)

Record heap := MkHeap { pm : pmm; live : list (Z * Z) }.

Inductive step : heap -> heap -> Prop :=
| step_alloc h count ret pm' :
    0 < count < 2 ^ 32 -> pmm_alloc count (pm h) = Some (ret, pm') -> ret <> 0 ->
    step h (MkHeap pm' ((ret / PAGE_SIZE, count) :: live h))
| step_oom h count pm' :
    0 < count < 2 ^ 32 -> pmm_alloc count (pm h) = Some (0, pm') ->
    step h (MkHeap pm' (live h))
| step_free h l1 page count l2 pm' :
    live h = l1 ++ (page, count) :: l2 ->
    pmm_free (page * PAGE_SIZE) count (pm h) = Some pm' ->
    step h (MkHeap pm' (l1 ++ l2)).

Definition disjoint_blocks (a b : Z * Z) : Prop :=
  a.1 + a.2 <= b.1 \/ b.1 + b.2 <= a.1.

Definition owned_block (st : pmm) (b : Z * Z) : Prop :=
  1 <= b.1 /\ 0 < b.2 /\ b.1 + b.2 <= highest_page st / PAGE_SIZE /\ used_run (bitmap st) b.1 b.2.

Definition heap_inv (h : heap) : Prop :=
  wf (pm h) /\ Forall (owned_block (pm h)) (live h) /\ ForallOrdPairs disjoint_blocks (live h).

Lemma disjoint_sym a b : disjoint_blocks a b -> disjoint_blocks b a.
Proof. unfold disjoint_blocks. lia. Qed.

(** A block that is in use does not meet a run that is free. *)
Lemma free_used_disjoint st page count b :
  0 < count -> free_run (bitmap st) page count -> owned_block st b ->
  disjoint_blocks (page, count) b.
Proof.
  intros Hc Hf (H1 & H2 & H3 & Hu). unfold disjoint_blocks; simpl.
  destruct (decide (page + count <= b.1)), (decide (b.1 + b.2 <= page)); try lia.
  exfalso. specialize (Hf (Z.max page b.1)). specialize (Hu (Z.max page b.1)).
  rewrite Hf in Hu by lia. assert (Some false = Some true) by (apply Hu; lia). done.
Qed.

Lemma owned_fill v page count st st' b :
  filled page count v (bitmap st) (bitmap st') -> highest_page st' = highest_page st ->
  v = true \/ disjoint_blocks (page, count) b ->
  owned_block st b -> owned_block st' b.
Proof.
  intros Hf Hh Hv (H1 & H2 & H3 & Hu). unfold owned_block. rewrite Hh. repeat split; [lia..|].
  intros i Hi. rewrite Hf. case_decide; [|by apply Hu].
  destruct Hv as [->|Hd]; [done|]. unfold disjoint_blocks in Hd; simpl in Hd. lia.
Qed.

Lemma ForallOrdPairs_remove {A} (R : A -> A -> Prop) (l1 l2 : list A) x :
  (forall a b, R a b -> R b a) -> ForallOrdPairs R (l1 ++ x :: l2) ->
  ForallOrdPairs R (l1 ++ l2) /\ Forall (R x) (l1 ++ l2).
Proof.
  intros Hs. induction l1 as [|y l1 IH]; simpl; intros H; inversion H; subst; [done|].
  destruct IH as [IH1 IH2]; [done|].
  apply Forall_app in H2 as [Hy1 Hy2]. inversion Hy2; subst.
  split; constructor; auto. by apply Forall_app.
Qed.

Lemma step_inv h h' : heap_inv h -> step h h' -> heap_inv h'.
Proof.
  intros (Hwf & Hown & Hdis) Hstep. destruct Hstep as
    [h count ret pm' Hc Heq Hret|h count pm' Hc Heq|h l1 page count l2 pm' Hl Heq].
  - destruct (pmm_alloc_ok count (pm h)) as (r & st' & E & S & Hwf'); [done..|].
    rewrite E in Heq. injection Heq as -> ->. destruct S as [page st' H1 H2 Hrun Hfill Hh|]; [|done].
    unfold PAGE_SIZE at 1. rewrite Z.div_mul by lia. split; [done|]. simpl. split; constructor.
    + unfold owned_block; simpl. rewrite Hh. repeat split; [lia..|].
      intros i Hi. rewrite Hfill, decide_True by lia. done.
    + eapply Forall_impl; [exact Hown|]. intros b. eapply owned_fill; eauto.
    + eapply Forall_impl; [exact Hown|]. intros b. apply free_used_disjoint; [lia|done].
    + done.
  - destruct (pmm_alloc_ok count (pm h)) as (r & st' & E & S & Hwf'); [done..|].
    rewrite E in Heq. injection Heq as -> ->. split; [done|]. split; [|done]. simpl.
    inversion S; subst; [unfold PAGE_SIZE in *; lia|].
    eapply Forall_impl; [exact Hown|]. intros b (? & ? & ? & Hu). unfold owned_block, used_run.
    by rewrite H, H0.
  - rewrite Hl in Hown, Hdis. apply Forall_app in Hown as [Ho1 Ho2].
    inversion Ho2 as [|? ? (B1 & B2 & B3 & Bu) Ho2']; subst; simpl in *.
    destruct (ForallOrdPairs_remove _ _ _ _ disjoint_sym Hdis) as [Hd Hx].
    split; [|split; [|done]]; simpl; [by eapply pmm_free_wf; eauto; lia|].
    pose proof (highest_index _ Hwf). pose proof (wf_cover _ Hwf).
    destruct (pmm_free_ok page count (pm h)) as (st2 & Heq2 & Hf & _ & Hh); [lia..|].
    rewrite Heq2 in Heq. injection Heq as ->.
    assert (Forall (owned_block (pm h)) (l1 ++ l2)) as Hall by (by apply Forall_app).
    rewrite Forall_forall in *. intros b Hb. eapply owned_fill; eauto.
Qed.

(** ** Initialisation *)

Lemma free_entry_loop fuel e j bm :
  mtype e = STIVALE_MMAP_USABLE -> entry_ok e ->
  0 <= j -> j mod PAGE_SIZE = 0 -> j < mlength e + PAGE_SIZE ->
  mlength e - j <= Z.of_nat fuel * PAGE_SIZE ->
  (forall page, frees e page -> page < zlen bm) ->
  exists bm', free_entry fuel e j bm = Some bm' /\
    filled (mbase e / PAGE_SIZE + j / PAGE_SIZE) (entry_pages e - j / PAGE_SIZE) false bm bm'.
Proof.
  intros Hu Hok. destruct (Hok Hu) as (Hb & Hl & H32). unfold entry_pages.
  revert j bm. induction fuel as [|fuel IH]; intros j bm Hj Hmod Hjl Hfuel Hbm; simpl;
    destruct (Z.ltb_spec j (mlength e)) as [Hlt|Hge].
  1: unfold PAGE_SIZE in *; lia.
  1, 3: exists bm; split; [done|]; intros i; rewrite decide_False; [done|];
    unfold PAGE_SIZE in *; zdml.
  assert (u32 (u64 (mbase e + j) / PAGE_SIZE) = mbase e / PAGE_SIZE + j / PAGE_SIZE) as ->.
  { unfold PAGE_SIZE in *. rewrite u64_small by lia. rewrite u32_small by zdml. zdml. }
  assert (0 <= mbase e / PAGE_SIZE + j / PAGE_SIZE < zlen bm) as Hin.
  { split; [unfold PAGE_SIZE; zdml|]. apply Hbm. split; [done|]. unfold entry_pages, PAGE_SIZE in *. zdml. }
  unfold bitmap_unset. rewrite zset_ok by exact Hin. simpl.
  rewrite u32_small by (unfold PAGE_SIZE in *; lia).
  set (bm1 := <[_ := false]> bm).
  destruct (IH (j + PAGE_SIZE) bm1) as (bm' & -> & Hf).
  1-4: unfold PAGE_SIZE in *; try lia; zdml.
  { unfold bm1. by rewrite zlen_insert. }
  exists bm'. split; [done|]. intros i. rewrite Hf.
  rewrite (zget_zset bm (mbase e / PAGE_SIZE + j / PAGE_SIZE) i false)
    by (by apply zset_ok).
  unfold PAGE_SIZE in *. repeat case_decide; try done; exfalso; zdml.
Qed.

Lemma free_entry_len fuel e j bm bm' : free_entry fuel e j bm = Some bm' -> zlen bm' = zlen bm.
Proof.
  revert j bm. induction fuel as [|fuel IH]; intros j bm; simpl; destruct (_ <? _); try done; [by intros [= ->]| |by intros [= ->]].
  destruct (bitmap_unset bm _) as [bm1|] eqn:E; [|done]. simpl. intros H. apply IH in H as ->. by apply zset_len in E.
Qed.

(** The loop comes to each of its pages, also to one behind the bitmap. *)
Lemma free_entry_out fuel e page : mtype e = STIVALE_MMAP_USABLE -> entry_ok e -> forall j bm,
  0 <= j -> j mod PAGE_SIZE = 0 -> j < mlength e + PAGE_SIZE ->
  mbase e / PAGE_SIZE + j / PAGE_SIZE <= page < mbase e / PAGE_SIZE + entry_pages e -> zlen bm <= page ->
  free_entry fuel e j bm = None.
Proof.
  intros Hu Hok. destruct (Hok Hu) as (Hb & Hl & H32). unfold entry_pages.
  induction fuel as [|fuel IH]; intros j bm Hj Hmod Hjl Hp Hout; simpl;
    (destruct (Z.ltb_spec j (mlength e)) as [Hlt|Hge]; [|unfold PAGE_SIZE in *; exfalso; zdml]); [done|].
  assert (u32 (u64 (mbase e + j) / PAGE_SIZE) = mbase e / PAGE_SIZE + j / PAGE_SIZE) as ->.
  { unfold PAGE_SIZE in *. rewrite u64_small by lia. rewrite u32_small by zdml. zdml. }
  destruct (bitmap_unset bm _) as [bm1|] eqn:E; [|done]. simpl. apply zset_Some in E as [Hin ->].
  rewrite u32_small by (unfold PAGE_SIZE in *; lia).
  apply IH; rewrite ?zlen_insert; try (unfold PAGE_SIZE in *; lia).
  - unfold PAGE_SIZE in *. zdml.
  - unfold PAGE_SIZE in *. zdml.
Qed.

Lemma free_entry_ok e bm :
  mtype e = STIVALE_MMAP_USABLE -> entry_ok e ->
  (forall page, frees e page -> page < zlen bm) ->
  exists bm', free_entry (entry_fuel e) e 0 bm = Some bm' /\
    filled (mbase e / PAGE_SIZE) (entry_pages e) false bm bm'.
Proof.
  intros Hu Hok Hbm. destruct (Hok Hu) as (Hb & Hl & H32).
  destruct (free_entry_loop (entry_fuel e) e 0 bm) as (bm' & E & Hf); try done.
  1-2: unfold entry_fuel, PAGE_SIZE in *; try lia; zdml.
  exists bm'. split; [done|]. change (0 / PAGE_SIZE) with 0 in Hf.
  by rewrite Z.add_0_r, Z.sub_0_r in Hf.
Qed.

Lemma free_entries_ok mm bm :
  Forall entry_ok mm ->
  (forall page, Exists (fun e => frees e page) mm -> page < zlen bm) ->
  exists bm', free_entries mm bm = Some bm' /\ zlen bm' = zlen bm /\
    forall page, zget bm' page = Some false <->
      zget bm page = Some false \/ Exists (fun e => frees e page) mm.
Proof.
  revert bm. induction mm as [|e mm IH]; intros bm Hok Hfit; simpl.
  - exists bm. split; [done|]. split; [done|]. intros page. rewrite Exists_nil. tauto.
  - inversion Hok as [|? ? Hoke Hokm]; subst.
    assert (forall page, frees e page -> page < zlen bm) as Hfe by (intros page Hp; apply Hfit; by constructor).
    assert (forall page, Exists (fun e => frees e page) mm -> page < zlen bm) as Hfm by (intros page Hp; apply Hfit; by constructor).
    destruct (Z.eqb_spec (mtype e) STIVALE_MMAP_USABLE) as [Hu|Hu].
    + destruct (free_entry_ok e bm) as (bm1 & E1 & Hf1); [auto..|]. rewrite E1. simpl.
      pose proof (free_entry_len _ _ _ _ _ E1) as Hlen.
      destruct (IH bm1) as (bm' & -> & Hlen' & Hiff); [done|by rewrite Hlen|].
      exists bm'. split; [done|]. split; [by rewrite Hlen'|]. intros page.
      rewrite Hiff, Hf1, Exists_cons. unfold frees at 2. case_decide; intuition congruence.
    + destruct (IH bm) as (bm' & -> & Hlen' & Hiff); [done..|].
      exists bm'. split; [done|]. split; [done|]. intros page.
      rewrite Hiff, Exists_cons. unfold frees at 2. tauto.
Qed.

Lemma free_entries_out mm page : Forall entry_ok mm -> Exists (fun e => frees e page) mm -> forall bm, zlen bm <= page ->
  free_entries mm bm = None.
Proof.
  induction mm as [|e mm IH]; intros Hok Hex bm Hp; simpl; [by apply Exists_nil in Hex|].
  apply Forall_cons in Hok as [Hoke Hokm]. apply Exists_cons in Hex.
  destruct (Z.eqb_spec (mtype e) STIVALE_MMAP_USABLE) as [Hu|Hu].
  - destruct (free_entry (entry_fuel e) e 0 bm) as [bm1|] eqn:E; [|done]. simpl. destruct Hex as [[_ Hf]|Hex].
    + rewrite (free_entry_out _ e page) in E; try done; destruct (Hoke Hu) as (? & ? & ?);
        [unfold PAGE_SIZE; lia|change (0 / PAGE_SIZE) with 0; by rewrite Z.add_0_r].
    + apply IH; [done|done|]. by rewrite (free_entry_len _ _ _ _ _ E).
  - destruct Hex as [[? _]|Hex]; [done|by apply IH].
Qed.

Lemma frees_below e page hi : entry_ok e -> frees e page -> mbase e + mlength e <= PAGE_SIZE * hi -> page < hi.
Proof.
  intros Hok [Hu Hp] Hhi. destruct (Hok Hu) as (Hb & Hl & _). unfold entry_pages, PAGE_SIZE in *. zdml.
Qed.

Lemma find_highest_spec mm h :
  Forall entry_ok mm -> 0 <= h < 2 ^ 32 ->
  h <= find_highest mm h < 2 ^ 32 /\
  Forall (fun e => mtype e = STIVALE_MMAP_USABLE -> mbase e + mlength e <= find_highest mm h) mm.
Proof.
  revert h. induction mm as [|e mm IH]; intros h Hok Hh; simpl; [split; [lia|done]|].
  inversion Hok as [|? ? Hoke Hokm]; subst.
  destruct (Z.eqb_spec (mtype e) STIVALE_MMAP_USABLE) as [Hu|Hu].
  - destruct (Hoke Hu) as (Hb & Hl & H32). unfold PAGE_SIZE in H32. rewrite u32_small by lia.
    destruct (IH (if h <? mbase e + mlength e then mbase e + mlength e else h)) as [Hle Hall];
      [done|destruct (Z.ltb_spec h (mbase e + mlength e)); lia|].
    destruct (Z.ltb_spec h (mbase e + mlength e)); split; try lia; constructor; auto; lia.
  - destruct (IH h) as [Hle Hall]; [done..|]. split; [done|]. constructor; [done|done].
Qed.

Lemma carve_bitmap_spec bs mm addr mm' hi :
  0 <= bs -> Forall entry_ok mm ->
  Forall (fun e => mtype e = STIVALE_MMAP_USABLE -> mbase e + mlength e <= hi) mm ->
  carve_bitmap bs mm = Some (addr, mm') ->
  Forall entry_ok mm' /\
  Forall (fun e => mtype e = STIVALE_MMAP_USABLE -> mbase e + mlength e <= hi) mm' /\
  exists l1 e l2, mm = l1 ++ e :: l2 /\ mtype e = STIVALE_MMAP_USABLE /\ bs <= mlength e /\
    addr = mbase e /\ mm' = l1 ++ MmapEntry (mbase e + bs) (mlength e - bs) (mtype e) :: l2.
Proof.
  intros Hbs. revert mm'. induction mm as [|e mm IH]; intros mm' Hok Hhi; simpl; [done|].
  inversion Hok as [|? ? Hoke Hokm]; inversion Hhi as [|? ? Hhe Hhm]; subst.
  destruct ((mtype e =? STIVALE_MMAP_USABLE) && (bs <=? mlength e))%bool eqn:E.
  - bsimp. destruct (Hoke H) as (Hb & Hl & H32). unfold PAGE_SIZE in H32. intros [= <- <-].
    rewrite u32_small, !u64_small by lia.
    split; [|split]; [constructor; [|done]..|].
    + intros _; simpl. unfold PAGE_SIZE. lia.
    + intros _; simpl. specialize (Hhe H). lia.
    + by exists [], e, mm.
  - destruct (carve_bitmap bs mm) as [[b rest]|]; [|done]. intros [= <- <-].
    destruct (IH rest) as (H1 & H2 & l1 & e' & l2 & -> & ?); [done..|].
    split; [|split]; [by constructor..|]. exists (e :: l1), e', l2. naive_solver.
Qed.

Lemma carve_bitmap_total bs mm :
  Exists (fun e => mtype e = STIVALE_MMAP_USABLE /\ bs <= mlength e) mm ->
  is_Some (carve_bitmap bs mm).
Proof.
  induction 1 as [e mm [Hu Hb]|e mm Hex [[b r] Hr]]; simpl.
  - rewrite Hu. apply Z.leb_le in Hb. by rewrite Hb.
  - destruct (_ && _)%bool; [done|]. by rewrite Hr.
Qed.

Lemma bitmap_bytes_nonneg h : 0 <= bitmap_bytes h.
Proof.
  unfold bitmap_bytes, DIV_ROUNDUP, PAGE_SIZE. pose proof (u32_range (h + (4096 - 1))). zdml.
Qed.

(** The bitmap covers the memory exactly when the number of pages is a multiple of 8:
    else [bitmap_size] is rounded down. *)
Definition whole_bitmap (highest : Z) : Prop := DIV_ROUNDUP highest PAGE_SIZE mod 8 = 0.
Lemma whole_bitmap_iff h : 0 <= h -> h + PAGE_SIZE <= 2 ^ 32 ->
  whole_bitmap h <-> h <= PAGE_SIZE * (8 * bitmap_bytes h).
Proof.
  intros Hh H32. unfold whole_bitmap, bitmap_bytes, DIV_ROUNDUP, PAGE_SIZE in *. rewrite u32_small by lia. zdml.
Qed.

Lemma find_highest_room mm h : Forall entry_ok mm -> 0 <= h -> h + PAGE_SIZE <= 2 ^ 32 -> find_highest mm h + PAGE_SIZE <= 2 ^ 32.
Proof.
  revert h. induction mm as [|e mm IH]; intros h Hok H0 Hh; simpl; [done|].
  apply Forall_cons in Hok as [Hoke Hokm]. destruct (Z.eqb_spec (mtype e) STIVALE_MMAP_USABLE) as [Hu|Hu]; [|by apply IH].
  destruct (Hoke Hu) as (Hb & Hl & H32). unfold PAGE_SIZE in *. rewrite u32_small by lia.
  destruct (_ <? _); apply IH; (done || lia).
Qed.

(** [init_pmm] by the pages its third loop comes to. *)
Lemma init_pmm_cases mm :
  Forall entry_ok mm ->
  Exists (fun e => mtype e = STIVALE_MMAP_USABLE /\ bitmap_bytes (find_highest mm 0) <= mlength e) mm ->
  exists addr mm', carve_bitmap (bitmap_bytes (find_highest mm 0)) mm = Some (addr, mm') /\
    ((forall page, Exists (fun e => frees e page) mm' -> page < 8 * bitmap_bytes (find_highest mm 0)) ->
     exists st, init_pmm mm = Some st /\ bitmap_addr st = addr /\
       zlen (bitmap st) = 8 * bitmap_bytes (find_highest mm 0) /\
       last_used_index st = 0 /\ highest_page st = find_highest mm 0 /\
       forall page, zget (bitmap st) page = Some false <-> Exists (fun e => frees e page) mm') /\
    (forall page, Exists (fun e => frees e page) mm' -> 8 * bitmap_bytes (find_highest mm 0) <= page -> init_pmm mm = None).
Proof.
  intros Hok Hex. unfold init_pmm.
  destruct (carve_bitmap_total _ _ Hex) as [[addr mm'] Hc]. exists addr, mm'. rewrite Hc. split; [done|]. simpl.
  destruct (find_highest_spec mm 0 Hok) as [_ Hall]; [lia|].
  pose proof (bitmap_bytes_nonneg (find_highest mm 0)) as Hbs.
  destruct (carve_bitmap_spec _ _ _ _ _ Hbs Hok Hall Hc) as (Hok' & _ & _).
  set (bs := bitmap_bytes (find_highest mm 0)) in *.
  assert (zlen (replicate (Z.to_nat (8 * bs)) true) = 8 * bs) as Hlen by (rewrite zlen_replicate; lia). split.
  - intros Hfit. destruct (free_entries_ok mm' (replicate (Z.to_nat (8 * bs)) true)) as (bm & -> & Hl & Hiff);
      [done|by rewrite Hlen|].
    simpl. eexists. split; [done|]. simpl. repeat split; [lia|..].
    + rewrite Hiff. intros [H|H]; [|done]. exfalso. unfold zget in H. case_decide; [|done].
      by apply lookup_replicate in H as [? _].
    + intros H. apply Hiff. by right.
  - intros page Hf Hp. rewrite (free_entries_out _ page) by (rewrite ?Hlen; done). done.
Qed.

Lemma init_pmm_spec mm :
  Forall entry_ok mm ->
  find_highest mm 0 <= PAGE_SIZE * (8 * bitmap_bytes (find_highest mm 0)) ->
  Exists (fun e => mtype e = STIVALE_MMAP_USABLE /\ bitmap_bytes (find_highest mm 0) <= mlength e) mm ->
  exists st mm', init_pmm mm = Some st /\
    carve_bitmap (bitmap_bytes (find_highest mm 0)) mm = Some (bitmap_addr st, mm') /\
    zlen (bitmap st) = 8 * bitmap_bytes (find_highest mm 0) /\
    last_used_index st = 0 /\ highest_page st = find_highest mm 0 /\
    forall page, zget (bitmap st) page = Some false <-> Exists (fun e => frees e page) mm'.
Proof.
  intros Hok Hcov Hex. destruct (init_pmm_cases mm Hok Hex) as (addr & mm' & Hc & H & _).
  destruct (find_highest_spec mm 0 Hok) as [_ Hall]; [lia|].
  pose proof (bitmap_bytes_nonneg (find_highest mm 0)) as Hbs.
  destruct (carve_bitmap_spec _ _ _ _ _ Hbs Hok Hall Hc) as (Hok' & Hall' & _).
  destruct H as (st & Hi & Ha & H).
  { intros page Hf. rewrite Exists_exists in Hf. destruct Hf as (e & He & Hf). rewrite Forall_forall in Hok', Hall'.
    apply (frees_below e); [by apply Hok'|done|]. destruct Hf as [Hu _]. specialize (Hall' e He Hu). lia. }
  exists st, mm'. rewrite Ha. done.
Qed.

Lemma init_pmm_wf mm st mm' :
  Forall entry_ok mm ->
  find_highest mm 0 <= PAGE_SIZE * (8 * bitmap_bytes (find_highest mm 0)) ->
  init_pmm mm = Some st ->
  carve_bitmap (bitmap_bytes (find_highest mm 0)) mm = Some (bitmap_addr st, mm') ->
  0 < find_highest mm 0 ->
  (forall page, zget (bitmap st) page = Some false <-> Exists (fun e => frees e page) mm') ->
  zlen (bitmap st) = 8 * bitmap_bytes (find_highest mm 0) ->
  last_used_index st = 0 -> highest_page st = find_highest mm 0 ->
  ~ Exists (fun e => frees e 0) mm' -> wf st.
Proof.
  intros Hok Hcov Hi Hc Hpos Hiff Hlen Hlast Hhigh H0.
  destruct (find_highest_spec mm 0 Hok) as [Hr _]; [lia|].
  split; rewrite ?Hlast, ?Hhigh, ?Hlen; try lia; unfold PAGE_SIZE in *; try zdml.
  destruct (zget_is_Some (bitmap st) 0) as [[|] Hb]; [rewrite Hlen; lia|done|].
  by apply Hiff in Hb.
Qed.

(** ** Properties *)

(** C3: [pmm_alloc] never touches the bitmap out of bounds, preserves the
    well-formedness of the allocator, and answers either NULL, with the bitmap
    unchanged, or the address of [count] pages that were all free, which it marks
    as used without touching any other page.  NULL is answered only when neither
    side of the search index holds a free run of [count] pages. *)
Theorem pmm_alloc_correct count st :
  wf st -> 0 < count < 2 ^ 32 ->
  exists ret st', pmm_alloc count st = Some (ret, st') /\ wf st' /\
    ((ret = 0 /\ bitmap st' = bitmap st /\
      forall s, 0 <= s -> s + count <= highest_page st / PAGE_SIZE ->
        free_run (bitmap st) s count -> s < last_used_index st < s + count) \/
     (exists page, ret = page * PAGE_SIZE /\ 1 <= page /\
        page + count <= highest_page st / PAGE_SIZE /\
        free_run (bitmap st) page count /\
        filled page count true (bitmap st) (bitmap st'))).
Proof.
  intros Hwf Hc. destruct (pmm_alloc_ok count st Hwf Hc) as (ret & st' & E & S & Hwf').
  exists ret, st'. split; [done|]. split; [done|].
  destruct S as [page st' H1 H2 Hrun Hfill Hh|st' Hb Hh Hr Hl]; [right|left].
  - by exists page.
  - split; [done|]. split; [done|]. intros s Hs Hsc Hrun.
    split; apply Z.nle_gt; intros Hle; [by eapply Hr|by eapply Hl].
Qed.

(** C2: no page is ever handed out twice.  From any state whose live blocks are
    in use and pairwise disjoint, every sequence of allocations (successful or
    not) and frees of live blocks leads to a state whose live blocks are in use
    and pairwise disjoint. *)
Theorem pmm_no_double_allocation h h' :
  heap_inv h -> rtc step h h' ->
  (forall i j a b, live h' !! i = Some a -> live h' !! j = Some b -> i <> j ->
     disjoint_blocks a b) /\
  (forall i a, live h' !! i = Some a -> used_run (bitmap (pm h')) a.1 a.2).
Proof.
  intros Hinv Hrtc. assert (heap_inv h') as (_ & Hown & Hdis).
  { induction Hrtc; eauto using step_inv. }
  split.
  - clear Hown. induction Hdis as [|x l Hx Hdis IH]; intros [|i] [|j] a b Ha Hb Hij;
      simplify_eq/=; try done.
    + rewrite Forall_lookup in Hx. by eapply Hx.
    + rewrite Forall_lookup in Hx. apply disjoint_sym. by eapply Hx.
    + eapply IH; [exact Ha|exact Hb|lia].
  - intros i a Ha. rewrite Forall_lookup in Hown. by apply (Hown i a).
Qed.

(** Freeing what [pmm_alloc] has just returned restores the bitmap exactly. *)
Theorem pmm_alloc_free_roundtrip count st ptr st1 :
  wf st -> 0 < count < 2 ^ 32 -> pmm_alloc count st = Some (ptr, st1) -> ptr <> 0 ->
  exists st2, pmm_free ptr count st1 = Some st2 /\ bitmap st2 = bitmap st /\ wf st2.
Proof.
  intros Hwf Hc Heq Hp. destruct (pmm_alloc_ok count st Hwf Hc) as (ret & st' & E & S & Hwf').
  rewrite E in Heq. injection Heq as -> ->. destruct S as [page st1 H1 H2 Hrun Hfill Hh|]; [|done].
  pose proof (highest_index st Hwf). pose proof (wf_cover _ Hwf'). rewrite Hh in *.
  destruct (pmm_free_ok page count st1) as (st2 & E2 & Hf2 & Hl2 & Hh2); [lia..|].
  exists st2. split; [done|]. split.
  - apply zget_ext. intros i. rewrite Hf2, Hfill. case_decide; [|done]. by rewrite Hrun.
  - eapply pmm_free_wf; [exact Hwf'|..|exact E2]; rewrite ?Hh; lia.
Qed.

(** C34: For usable entries below 4 GiB, one of which has room for the bitmap: when the
    number of pages below the highest usable address is a multiple of 8, [init_pmm] marks as free exactly the pages that the usable entries span, after the
    entry that hosts the bitmap has given up the bitmap's bytes, and the resulting
    allocator is well formed when page 0 is not among them.  For any number of pages
    it succeeds exactly when each of those pages is below eight times the size of the
    bitmap, which the code rounds down: with a number of pages that is not a multiple
    of 8, when the entry at the top is aligned, not empty and not the host of the
    bitmap, it clears a bit behind the bitmap. *)
Theorem init_pmm_correct mm :
  Forall entry_ok mm -> 0 < find_highest mm 0 ->
  Exists (fun e => mtype e = STIVALE_MMAP_USABLE /\ bitmap_bytes (find_highest mm 0) <= mlength e) mm ->
  exists addr mm', carve_bitmap (bitmap_bytes (find_highest mm 0)) mm = Some (addr, mm') /\
    (DIV_ROUNDUP (find_highest mm 0) PAGE_SIZE mod 8 = 0 -> exists st, init_pmm mm = Some st /\
       bitmap_addr st = addr /\ highest_page st = find_highest mm 0 /\
       (forall page, zget (bitmap st) page = Some false <-> Exists (fun e => frees e page) mm') /\
       (~ Exists (fun e => frees e 0) mm' -> wf st)) /\
    (is_Some (init_pmm mm) <->
       forall page, Exists (fun e => frees e page) mm' -> page < 8 * bitmap_bytes (find_highest mm 0)) /\
    (DIV_ROUNDUP (find_highest mm 0) PAGE_SIZE mod 8 <> 0 -> forall e, e ∈ mm' -> mtype e = STIVALE_MMAP_USABLE ->
       mbase e mod PAGE_SIZE = 0 -> 0 < mlength e -> mbase e + mlength e = find_highest mm 0 -> init_pmm mm = None).
Proof.
  intros Hok Hpos Hex. pose proof (find_highest_room mm 0 Hok ltac:(lia) ltac:(unfold PAGE_SIZE; lia)) as Hroom.
  destruct (init_pmm_cases mm Hok Hex) as (addr & mm' & Hc & Hin & Hout). exists addr, mm'.
  pose proof (whole_bitmap_iff (find_highest mm 0) ltac:(lia) Hroom) as Hw. split; [done|]. split; [|split].
  - intros H8. destruct (init_pmm_spec mm Hok) as (st & mm2 & Hi & Hc2 & Hlen & Hlast & Hhigh & Hiff); [by apply Hw|done|].
    rewrite Hc in Hc2. injection Hc2 as -> ->. exists st. do 4 (split; [done|]).
    apply Hw in H8. eauto using init_pmm_wf.
  - split; [|intros H; destruct (Hin H) as (st & -> & _); eauto].
    intros [st Hi] page Hf. destruct (Z.lt_ge_cases page (8 * bitmap_bytes (find_highest mm 0))) as [|Hge]; [done|].
    by rewrite (Hout page) in Hi.
  - intros H8 e He Hu Hal Hlen Htop. apply (Hout ((find_highest mm 0 - 1) / PAGE_SIZE)).
    + apply Exists_exists. exists e. split; [done|]. split; [done|]. rewrite <- Htop. unfold entry_pages, PAGE_SIZE in *. zdml.
    + assert (~ find_highest mm 0 <= PAGE_SIZE * (8 * bitmap_bytes (find_highest mm 0))) as Hn by (by rewrite <- Hw).
      unfold PAGE_SIZE in *. zdml.
Qed.

(** The page that holds the last bytes of the bitmap is marked as free by
    [init_pmm] whenever the bitmap does not fill its last page: the allocator can
    hand out its own bitmap.  (The host entry is page-aligned and longer than the
    bitmap.) *)
Theorem init_pmm_frees_own_page mm st mm' :
  Forall entry_ok mm ->
  find_highest mm 0 <= PAGE_SIZE * (8 * bitmap_bytes (find_highest mm 0)) ->
  init_pmm mm = Some st ->
  carve_bitmap (bitmap_bytes (find_highest mm 0)) mm = Some (bitmap_addr st, mm') ->
  bitmap_addr st mod PAGE_SIZE = 0 ->
  bitmap_bytes (find_highest mm 0) mod PAGE_SIZE <> 0 ->
  Forall (fun e => mtype e = STIVALE_MMAP_USABLE -> bitmap_bytes (find_highest mm 0) <> mlength e) mm ->
  exists page, holds_bitmap st page /\ zget (bitmap st) page = Some false.
Proof.
  intros Hok Hcov Hi Hc Hal Hbs Hne.
  pose proof (bitmap_bytes_nonneg (find_highest mm 0)) as Hn.
  destruct (find_highest_spec mm 0 Hok) as [_ Hall]; [lia|].
  destruct (carve_bitmap_spec _ _ _ _ _ Hn Hok Hall Hc) as (_ & _ & l1 & e & l2 & Hmm & Hu & Hle & Ha & Hmm').
  assert (Exists (fun e => mtype e = STIVALE_MMAP_USABLE /\ bitmap_bytes (find_highest mm 0) <= mlength e) mm)
    as Hex. { apply Exists_exists. exists e. split; [|done]. rewrite Hmm. set_solver. }
  destruct (init_pmm_spec mm Hok Hcov Hex) as (st' & mm2 & Hi' & Hc' & Hlen & _ & _ & Hiff).
  rewrite Hi in Hi'. injection Hi' as <-. rewrite Hc in Hc'. injection Hc' as <-.
  set (bs := bitmap_bytes (find_highest mm 0)) in *.
  exists ((bitmap_addr st + bs) / PAGE_SIZE). split.
  - exists (bitmap_addr st + bs - 1). rewrite Hlen, (Z.mul_comm 8), Z.div_mul by lia.
    unfold PAGE_SIZE in *. split; [|]; zdml.
  - apply Hiff. rewrite Hmm'. fold bs. apply Exists_app. right. constructor. unfold frees, entry_pages; simpl.
    rewrite Forall_forall in Hne. assert (bs <> mlength e).
    { apply Hne; [|done]. rewrite Hmm. set_solver. }
    split; [done|]. rewrite Ha. unfold PAGE_SIZE in *. zdml.
Qed.

(** ** Witnesses: a machine with 128 KiB of usable memory at 1 MiB *)

Definition demo_map : list mmap_entry :=
  [MmapEntry 0 0x9f000 2; MmapEntry 0x100000 0x20000 1].

Definition demo_pmm : pmm :=
  MkPmm 0x100000 (replicate 256 true ++ replicate 32 false) 0 0x120000.

Lemma demo_wf : wf demo_pmm.
Proof. split; vm_compute; repeat split; try done; intros H; discriminate H. Qed.

Lemma pmm_alloc_correct_witness :
  pmm_alloc 3 demo_pmm = Some (0x100000, MkPmm 0x100000
    (replicate 259 true ++ replicate 29 false) 259 0x120000) /\
  exists ret st', pmm_alloc 3 demo_pmm = Some (ret, st') /\ wf st' /\
    ((ret = 0 /\ bitmap st' = bitmap demo_pmm /\
      forall s, 0 <= s -> s + 3 <= highest_page demo_pmm / PAGE_SIZE ->
        free_run (bitmap demo_pmm) s 3 -> s < last_used_index demo_pmm < s + 3) \/
     (exists page, ret = page * PAGE_SIZE /\ 1 <= page /\
        page + 3 <= highest_page demo_pmm / PAGE_SIZE /\
        free_run (bitmap demo_pmm) page 3 /\
        filled page 3 true (bitmap demo_pmm) (bitmap st'))).
Proof. split; [vm_compute; reflexivity|apply (pmm_alloc_correct 3 demo_pmm demo_wf); lia]. Defined.

Lemma pmm_no_double_allocation_witness :
  disjoint_blocks (258, 1) (256, 2).
Proof.
  pose (h0 := MkHeap demo_pmm []).
  pose (p1 := MkPmm 0x100000 (replicate 258 true ++ replicate 30 false) 258 0x120000).
  pose (p2 := MkPmm 0x100000 (replicate 259 true ++ replicate 29 false) 259 0x120000).
  assert (rtc step h0 (MkHeap p2 [(258, 1); (256, 2)])) as Hs.
  { eapply (rtc_l _ _ (MkHeap p1 [(256, 2)])).
    - apply (step_alloc h0 2 0x100000 p1); [lia|vm_compute; reflexivity|lia].
    - apply rtc_once. apply (step_alloc (MkHeap p1 [(256, 2)]) 1 0x102000 p2);
        [lia|vm_compute; reflexivity|lia]. }
  assert (heap_inv h0) as Hi by (split; [apply demo_wf|split; constructor]).
  exact (proj1 (pmm_no_double_allocation _ _ Hi Hs) 0%nat 1%nat _ _ eq_refl eq_refl ltac:(lia)).
Defined.

Lemma pmm_alloc_free_roundtrip_witness :
  exists st1 st2, pmm_alloc 3 demo_pmm = Some (0x100000, st1) /\
    pmm_free 0x100000 3 st1 = Some st2 /\ bitmap st2 = bitmap demo_pmm.
Proof.
  eexists. assert (pmm_alloc 3 demo_pmm = Some (0x100000, _)) as E by (vm_compute; reflexivity).
  destruct (pmm_alloc_free_roundtrip 3 demo_pmm _ _ demo_wf ltac:(lia) E ltac:(lia))
    as (st2 & H1 & H2 & _).
  exists st2. split; [exact E|]. split; [exact H1|exact H2].
Defined.

Lemma demo_map_ok : Forall entry_ok demo_map.
Proof.
  constructor; [|constructor; [|constructor]]; intros H; try discriminate H; vm_compute;
    repeat split; intros H'; discriminate H'.
Qed.

(** The same machine with one page more: the bitmap has 36 bytes for 289 pages. *)
Definition odd_map : list mmap_entry :=
  [MmapEntry 0x10000 0x10000 1; MmapEntry 0x100000 0x21000 1].

Lemma odd_map_ok : Forall entry_ok odd_map.
Proof.
  constructor; [|constructor; [|constructor]]; intros H; try discriminate H; vm_compute;
    repeat split; intros H'; discriminate H'.
Qed.

Lemma init_pmm_correct_witness :
  (exists st, init_pmm demo_map = Some st /\ st = demo_pmm /\ highest_page st = 0x120000) /\ init_pmm odd_map = None.
Proof.
  split.
  - destruct (init_pmm_correct demo_map demo_map_ok) as (addr & mm' & _ & H & _).
    + vm_compute. reflexivity.
    + right. left. split; [reflexivity|]. vm_compute. intros H; discriminate H.
    + destruct (H eq_refl) as (st & Hi & _ & Hh & _). exists st. split; [exact Hi|]. split; [|exact Hh].
      assert (init_pmm demo_map = Some demo_pmm) as E by (vm_compute; reflexivity). congruence.
  - destruct (init_pmm_correct odd_map odd_map_ok) as (addr & mm' & Hc & _ & _ & H).
    + vm_compute. reflexivity.
    + left. split; [reflexivity|]. vm_compute. intros H; discriminate H.
    + vm_compute in Hc. injection Hc as <- <-.
      apply (H ltac:(vm_compute; intros E; discriminate E) (MmapEntry 0x100000 0x21000 1)).
      * right. left.
      * reflexivity.
      * reflexivity.
      * reflexivity.
      * reflexivity.
Defined.

Lemma init_pmm_frees_own_page_witness :
  exists page, holds_bitmap demo_pmm page /\ zget (bitmap demo_pmm) page = Some false.
Proof.
  eapply (init_pmm_frees_own_page demo_map demo_pmm _ demo_map_ok).
  - vm_compute. intros H; discriminate H.
  - vm_compute. reflexivity.
  - vm_compute. reflexivity.
  - vm_compute. reflexivity.
  - vm_compute. intros H; discriminate H.
  - constructor; [|constructor; [|constructor]]; intros _; vm_compute; intros H; discriminate H.
Defined.

End Pmm.
