(* ===== verification/Mem.v ===== *)
(** * Byte-addressed memory

    The memory the kernel's pointers designate: a total map from addresses to
    bytes.  Two memories are compared pointwise; every operation is proper for
    that equivalence. *)

From S2P Require Import Prelude.
From Stdlib Require Import Morphisms Setoid.
Local Open Scope Z_scope.

Definition mem := Z -> Z.

Definition mem_eq (m m' : mem) : Prop := forall a, m a = m' a.

Declare Scope mem_scope.
Delimit Scope mem_scope with mem.
Infix "≈" := mem_eq (at level 70, no associativity) : mem_scope.
Local Open Scope mem_scope.

#[export] Instance mem_eq_equiv : Equivalence mem_eq.
Proof.
  split; [done| |].
  - intros m m' H a. by rewrite H.
  - intros m1 m2 m3 H1 H2 a. by rewrite H1, H2.
Qed.

Definition store8 (m : mem) (a v : Z) : mem := fun x => if x =? a then u8 v else m x.

(** [memset(a, v, n)] and [memcpy(dst, src, n)] on blocks that do not overlap. *)
Definition memset (m : mem) (a v n : Z) : mem :=
  fun x => if (a <=? x) && (x <? a + n) then u8 v else m x.
Definition memcpy (m : mem) (dst src n : Z) : mem :=
  fun x => if (dst <=? x) && (x <? dst + n) then m (src + (x - dst)) else m x.

(** Little-endian 32-bit accesses. *)
Definition load32 (m : mem) (a : Z) : Z :=
  m a + 2 ^ 8 * m (a + 1) + 2 ^ 16 * m (a + 2) + 2 ^ 24 * m (a + 3).
Definition store32 (m : mem) (a v : Z) : mem :=
  store8 (store8 (store8 (store8 m a v) (a + 1) (v / 2 ^ 8)) (a + 2) (v / 2 ^ 16)) (a + 3) (v / 2 ^ 24).

(** [m'] agrees with [m] outside of [[a, a + n)]. *)
Definition mem_frame (a n : Z) (m m' : mem) : Prop :=
  forall x, x < a \/ a + n <= x -> m' x = m x.

#[export] Instance store8_proper : Proper (mem_eq ==> eq ==> eq ==> mem_eq) store8.
Proof. intros m m' H ? a -> ? v -> x. unfold store8. by destruct (x =? a). Qed.
#[export] Instance memset_proper : Proper (mem_eq ==> eq ==> eq ==> eq ==> mem_eq) memset.
Proof. intros m m' H ? a -> ? v -> ? n -> x. unfold memset. by destruct (_ && _)%bool. Qed.
#[export] Instance memcpy_proper : Proper (mem_eq ==> eq ==> eq ==> eq ==> mem_eq) memcpy.
Proof. intros m m' H ? d -> ? s -> ? n -> x. unfold memcpy. by destruct (_ && _)%bool. Qed.
#[export] Instance load32_proper : Proper (mem_eq ==> eq ==> eq) load32.
Proof. intros m m' H ? a ->. unfold load32. by rewrite !H. Qed.
#[export] Instance store32_proper : Proper (mem_eq ==> eq ==> eq ==> mem_eq) store32.
Proof. intros m m' H ? a -> ? v ->. unfold store32. by rewrite H. Qed.

Lemma store8_eq m a v : store8 m a v a = u8 v.
Proof. unfold store8. by rewrite Z.eqb_refl. Qed.
Lemma store8_ne m a v x : x <> a -> store8 m a v x = m x.
Proof. intros H. unfold store8. apply Z.eqb_neq in H. by rewrite H. Qed.

Lemma memset_in m a v n x : a <= x < a + n -> memset m a v n x = u8 v.
Proof.
  intros H. unfold memset. rewrite (proj2 (Z.leb_le _ _)), (proj2 (Z.ltb_lt _ _)) by lia. done.
Qed.
Lemma memset_out m a v n x : x < a \/ a + n <= x -> memset m a v n x = m x.
Proof.
  intros H. unfold memset. destruct (Z.leb_spec a x), (Z.ltb_spec x (a + n)); try done; lia.
Qed.
Lemma memcpy_in m d s n x : d <= x < d + n -> memcpy m d s n x = m (s + (x - d)).
Proof.
  intros H. unfold memcpy. rewrite (proj2 (Z.leb_le _ _)), (proj2 (Z.ltb_lt _ _)) by lia. done.
Qed.
Lemma memcpy_out m d s n x : x < d \/ d + n <= x -> memcpy m d s n x = m x.
Proof.
  intros H. unfold memcpy. destruct (Z.leb_spec d x), (Z.ltb_spec x (d + n)); try done; lia.
Qed.

Lemma store32_out m a v x : x < a \/ a + 4 <= x -> store32 m a v x = m x.
Proof. intros H. unfold store32. rewrite !store8_ne by lia. done. Qed.

Lemma load32_store32 m a v : load32 (store32 m a v) a = u32 v.
Proof.
  unfold load32, store32.
  repeat first [rewrite store8_eq | rewrite store8_ne by lia].
  unfold u8, u32. zdml.
Qed.

(** A load is unchanged by a change of other bytes. *)
Lemma load32_frame m m' a : (forall x, a <= x < a + 4 -> m' x = m x) -> load32 m' a = load32 m a.
Proof. intros H. unfold load32. rewrite !H by lia. done. Qed.

Lemma load32_frame_out m m' a b n :
  mem_frame b n m m' -> a + 4 <= b \/ b + n <= a -> load32 m' a = load32 m a.
Proof. intros Hf H. apply load32_frame. intros x Hx. apply Hf. lia. Qed.

Lemma store32_frame m a v b n : b <= a -> a + 4 <= b + n -> mem_frame b n m (store32 m a v).
Proof. intros H1 H2 x Hx. apply store32_out. lia. Qed.
Lemma memset_frame m a v n : mem_frame a n m (memset m a v n).
Proof. intros x Hx. by apply memset_out. Qed.
Lemma memcpy_frame m d s n : mem_frame d n m (memcpy m d s n).
Proof. intros x Hx. by apply memcpy_out. Qed.
Lemma mem_frame_refl a n m : mem_frame a n m m.
Proof. done. Qed.
Lemma mem_frame_trans a n m1 m2 m3 : mem_frame a n m1 m2 -> mem_frame a n m2 m3 -> mem_frame a n m1 m3.
Proof. intros H1 H2 x Hx. by rewrite H2, H1. Qed.
Lemma mem_frame_weaken a n b k m m' :
  mem_frame a n m m' -> b <= a -> a + n <= b + k -> mem_frame b k m m'.
Proof. intros H ? ? x Hx. apply H. lia. Qed.

#[export] Hint Resolve store32_frame memset_frame memcpy_frame mem_frame_refl : mach.
