(* ===== verification/Kheap.v ===== *)
(** * The kernel heap: [kalloc], [krealloc] and [kfree] of [kernel/src/klib.c],
    and [pmm_allocz] of [kernel/src/mm/pmm.c]

    A block is one metadata page followed by the pages of the data; the state is
    the page allocator and the memory the blocks live in. *)

From S2P Require Import Prelude Mem Pmm.
Import Pmm.
Local Open Scope Z_scope.

Module Kheap.

Record heap_st := MkHeapSt { hpmm : pmm; hmem : mem }.

Definition with_mem (st : heap_st) (m : mem) : heap_st := MkHeapSt (hpmm st) m.

(** The loop zeroes [count * (PAGE_SIZE / sizeof(uint64_t))] 64-bit words. *)
Definition pmm_allocz (count : Z) (st : heap_st) : option (Z * heap_st) :=
  '(ret, p) ← pmm_alloc count (hpmm st);
  if ret =? 0 then Some (0, MkHeapSt p (hmem st))
  else Some (ret, MkHeapSt p (memset (hmem st) ret 0 (8 * u32 (count * (PAGE_SIZE / 8))))).

(** [struct alloc_metadata { size_t pages; size_t size; }] at an address. *)
Definition meta_pages (m : mem) (a : Z) : Z := load32 m a.
Definition meta_size (m : mem) (a : Z) : Z := load32 m (a + 4).
Definition set_meta_pages (m : mem) (a v : Z) : mem := store32 m a v.
Definition set_meta_size (m : mem) (a v : Z) : mem := store32 m (a + 4) v.

Definition kalloc (size : Z) (st : heap_st) : option (Z * heap_st) :=
  let page_count := DIV_ROUNDUP size PAGE_SIZE in
  '(ptr, st) ← pmm_allocz (u32 (page_count + 1)) st;
  if ptr =? 0 then Some (0, st)
  else
    let metadata := ptr in
    let ptr := u32 (ptr + PAGE_SIZE) in
    let m := set_meta_pages (hmem st) metadata page_count in
    let m := set_meta_size m metadata size in
    Some (ptr, with_mem st m).

Definition kfree (ptr : Z) (st : heap_st) : option heap_st :=
  let metadata := u32 (ptr - PAGE_SIZE) in
  p ← pmm_free metadata (u32 (meta_pages (hmem st) metadata + 1)) (hpmm st);
  Some (MkHeapSt p (hmem st)).

Definition krealloc (ptr new_size : Z) (st : heap_st) : option (Z * heap_st) :=
  if ptr =? 0 then kalloc new_size st
  else
    let metadata := u32 (ptr - PAGE_SIZE) in
    let size := meta_size (hmem st) metadata in
    if DIV_ROUNDUP size PAGE_SIZE =? DIV_ROUNDUP new_size PAGE_SIZE then
      Some (ptr, with_mem st (set_meta_size (hmem st) metadata new_size))
    else
      '(new_ptr, st) ← kalloc new_size st;
      if new_ptr =? 0 then Some (0, st)
      else
        let n := if new_size <? meta_size (hmem st) metadata then new_size
                 else meta_size (hmem st) metadata in
        let st := with_mem st (memcpy (hmem st) new_ptr ptr n) in
        st ← kfree ptr st;
        Some (new_ptr, st).

(** ** Specification: blocks

    An allocated block is its data pointer and its size. *)

Record block := Block { bptr : Z; bsize : Z }.

Definition bpages (b : block) : Z := DIV_ROUNDUP (bsize b) PAGE_SIZE.
Definition bmeta (b : block) : Z := bptr b - PAGE_SIZE.

(** The pages of the block, as the page allocator sees them. *)
Definition bowned (b : block) : Z * Z := (bmeta b / PAGE_SIZE, bpages b + 1).

(** Sizes for which [DIV_ROUNDUP] does not wrap. *)
Definition size_ok (n : Z) : Prop := 0 <= n <= 2 ^ 32 - PAGE_SIZE.

Record block_ok (m : mem) (b : block) : Prop := {
  bk_size : size_ok (bsize b);
  bk_align : bptr b mod PAGE_SIZE = 0;
  bk_pages : meta_pages m (bmeta b) = bpages b;
  bk_msize : meta_size m (bmeta b) = bsize b
}.

(** The blocks are in use, pairwise disjoint, and their metadata is intact. *)
Definition kheap_inv (st : heap_st) (bs : list block) : Prop :=
  heap_inv (MkHeap (hpmm st) (map bowned bs)) /\ Forall (block_ok (hmem st)) bs.

(** The byte [i] of the block. *)
Definition byte_of (st : heap_st) (b : block) (i : Z) : Z := hmem st (bptr b + i).

(** The data of the blocks is the same in the two states. *)
Definition same_data (st st' : heap_st) (bs : list block) : Prop :=
  forall b i, b ∈ bs -> 0 <= i < bsize b -> byte_of st' b i = byte_of st b i.

(** ** Lemmas *)

Lemma roundup_ok n : size_ok n -> DIV_ROUNDUP n PAGE_SIZE = (n + 4095) / 4096.
Proof. intros [H1 H2]. unfold DIV_ROUNDUP, PAGE_SIZE in *. rewrite u32_small; [f_equal|]; lia. Qed.

Lemma bpages_bounds b : size_ok (bsize b) ->
  0 <= bpages b < 2 ^ 20 /\ bsize b <= PAGE_SIZE * bpages b.
Proof.
  intros H. unfold bpages. rewrite roundup_ok by done. destruct H as [H1 H2].
  unfold PAGE_SIZE in *. split; zdml.
Qed.

Lemma block_extent m b : block_ok m b ->
  bmeta b = PAGE_SIZE * (bowned b).1 /\ bptr b = PAGE_SIZE * (bowned b).1 + PAGE_SIZE /\
  0 <= bsize b <= PAGE_SIZE * bpages b.
Proof.
  intros [Hs Ha _ _]. pose proof (bpages_bounds b Hs). destruct Hs as [Hs _].
  unfold bowned, bmeta, PAGE_SIZE in *. simpl. repeat split; zdml.
Qed.

(** A change of other pages leaves a block alone. *)
Lemma block_frame p n m m' b :
  mem_frame (PAGE_SIZE * p) (PAGE_SIZE * n) m m' -> disjoint_blocks (p, n) (bowned b) ->
  block_ok m b ->
  block_ok m' b /\ forall i, 0 <= i < bsize b -> m' (bptr b + i) = m (bptr b + i).
Proof.
  intros Hf Hd Hb. destruct (block_extent m b Hb) as (Hm & Hp & Hs).
  unfold disjoint_blocks in Hd. pose proof (bpages_bounds b (bk_size _ _ Hb)) as [Hpg _].
  unfold bowned at 2 in Hd. simpl in Hd. change ((bowned b).1) with (bmeta b / PAGE_SIZE) in *.
  split.
  - destruct Hb as [H1 H2 H3 H4]. split; [done..| |].
    + rewrite <- H3. unfold meta_pages. eapply load32_frame_out; [exact Hf|].
      unfold PAGE_SIZE in *. lia.
    + rewrite <- H4. unfold meta_size. eapply load32_frame_out; [exact Hf|].
      unfold PAGE_SIZE in *. lia.
  - intros i Hi. apply Hf. unfold PAGE_SIZE in *. lia.
Qed.

Lemma blocks_frame p n m m' bs :
  mem_frame (PAGE_SIZE * p) (PAGE_SIZE * n) m m' ->
  Forall (disjoint_blocks (p, n)) (map bowned bs) ->
  Forall (block_ok m) bs ->
  Forall (block_ok m') bs /\
  forall b i, b ∈ bs -> 0 <= i < bsize b -> m' (bptr b + i) = m (bptr b + i).
Proof.
  intros Hf Hd Hb. rewrite !Forall_forall in *. split.
  - intros b Hin. apply (block_frame p n m m' b); auto. apply Hd. by apply (list_elem_of_fmap_2 bowned).
  - intros b i Hin. apply (block_frame p n m m' b); auto. apply Hd. by apply (list_elem_of_fmap_2 bowned).
Qed.

Lemma heap_inv_bounds h page n : heap_inv h -> (page, n) ∈ live h ->
  1 <= page /\ 0 < n /\ page + n <= 2 ^ 20.
Proof.
  intros (Hwf & Hown & _) Hin. rewrite Forall_forall in Hown.
  destruct (Hown _ Hin) as (H1 & H2 & H3 & _). pose proof (highest_index _ Hwf). simpl in *. lia.
Qed.

Lemma kheap_inv_front st l1 b l2 :
  kheap_inv st (l1 ++ b :: l2) -> kheap_inv st (b :: l1 ++ l2).
Proof.
  unfold kheap_inv, heap_inv. simpl. rewrite !map_app. simpl.
  intros ((Hwf & Hown & Hdis) & Hok). destruct (ForallOrdPairs_remove _ _ _ _ disjoint_sym Hdis).
  rewrite Forall_app, Forall_cons in Hown. rewrite Forall_app, Forall_cons in Hok. split; [split; [done|split]|].
  - constructor; [tauto|]. apply Forall_app. tauto.
  - by constructor.
  - constructor; [tauto|]. apply Forall_app. tauto.
Qed.

Lemma kheap_head_disjoint st b bs :
  kheap_inv st (b :: bs) -> Forall (disjoint_blocks (bowned b)) (map bowned bs).
Proof. intros ((_ & _ & Hd) & _). by inversion Hd. Qed.

Lemma kheap_block st bs b : kheap_inv st bs -> b ∈ bs ->
  block_ok (hmem st) b /\ bptr b = PAGE_SIZE * (bowned b).1 + PAGE_SIZE /\
  1 <= (bowned b).1 /\ (bowned b).1 + bpages b + 1 <= 2 ^ 20.
Proof.
  intros (Hi & Hok) Hin. rewrite Forall_forall in Hok. specialize (Hok b Hin).
  destruct (block_extent _ _ Hok) as (_ & Hp & _).
  destruct (heap_inv_bounds _ (bowned b).1 (bpages b + 1) Hi) as (H1 & H2 & H3).
  { simpl. change ((bowned b).1, bpages b + 1) with (bowned b). by apply (list_elem_of_fmap_2 bowned). }
  do 2 (split; [done|]). lia.
Qed.

(** The metadata address computed by the code is the block's. *)
Lemma meta_addr st bs b : kheap_inv st bs -> b ∈ bs ->
  u32 (bptr b - PAGE_SIZE) = bmeta b /\ bptr b <> 0 /\ bmeta b = (bowned b).1 * PAGE_SIZE /\
  u32 (bpages b + 1) = bpages b + 1.
Proof.
  intros Hi Hin. destruct (kheap_block st bs b Hi Hin) as (Hb & Hp & H1 & H2).
  pose proof (bpages_bounds b (bk_size _ _ Hb)) as [Hpg _].
  unfold bmeta. rewrite Hp. unfold PAGE_SIZE in *. rewrite !u32_small by lia. lia.
Qed.

Lemma meta_pages_set_size m a v : meta_pages (set_meta_size m a v) a = meta_pages m a.
Proof. apply load32_frame. intros x Hx. apply store32_out. lia. Qed.
Lemma meta_size_set_size m a v : meta_size (set_meta_size m a v) a = u32 v.
Proof. apply load32_store32. Qed.
Lemma meta_pages_set_pages m a v : meta_pages (set_meta_pages m a v) a = u32 v.
Proof. apply load32_store32. Qed.

(** The memory of a block that has just been allocated at a page. *)
Definition fresh_mem (m : mem) (page size : Z) : mem :=
  let a := page * PAGE_SIZE in
  let pg := DIV_ROUNDUP size PAGE_SIZE in
  set_meta_size (set_meta_pages (memset m a 0 (PAGE_SIZE * (pg + 1))) a pg) a size.

Lemma fresh_mem_ok m page size :
  size_ok size ->
  let b := Block (page * PAGE_SIZE + PAGE_SIZE) size in
  bowned b = (page, bpages b + 1) /\ block_ok (fresh_mem m page size) b /\
  mem_frame (PAGE_SIZE * page) (PAGE_SIZE * (bpages b + 1)) m (fresh_mem m page size) /\
  forall i, 0 <= i < size -> fresh_mem m page size (bptr b + i) = 0.
Proof.
  intros Hs b. pose proof (bpages_bounds b Hs) as [Hpg Hfit]. subst b.
  set (b := Block _ _) in *. unfold size_ok in Hs.
  assert (bmeta b = page * PAGE_SIZE) as Hm by (unfold bmeta, b; simpl; lia).
  unfold fresh_mem. change (DIV_ROUNDUP size PAGE_SIZE) with (bpages b). split; [|split; [|split]].
  - unfold bowned. rewrite Hm. f_equal. unfold PAGE_SIZE. zdml.
  - split; [done| | |]; rewrite ?Hm.
    + unfold b, PAGE_SIZE. simpl. zdml.
    + rewrite meta_pages_set_size, meta_pages_set_pages. apply u32_small. lia.
    + rewrite meta_size_set_size. apply u32_small. unfold PAGE_SIZE in *. simpl. lia.
  - intros x Hx. unfold set_meta_size, set_meta_pages, PAGE_SIZE in *.
    rewrite !store32_out by lia. by rewrite memset_out by lia.
  - intros i Hi. simpl in *. unfold set_meta_size, set_meta_pages, PAGE_SIZE in *.
    rewrite !store32_out by lia. by rewrite memset_in by lia.
Qed.

(** What [kalloc] computes, from what [pmm_alloc] answers. *)
Lemma kalloc_unfold size st :
  wf (hpmm st) -> size_ok size ->
  exists p', wf p' /\
  ((kalloc size st = Some (0, MkHeapSt p' (hmem st)) /\ bitmap p' = bitmap (hpmm st) /\
    pmm_alloc (DIV_ROUNDUP size PAGE_SIZE + 1) (hpmm st) = Some (0, p')) \/
   exists page, 1 <= page /\ page + (DIV_ROUNDUP size PAGE_SIZE + 1) <= highest_page (hpmm st) / PAGE_SIZE /\
    pmm_alloc (DIV_ROUNDUP size PAGE_SIZE + 1) (hpmm st) = Some (page * PAGE_SIZE, p') /\
    kalloc size st = Some (page * PAGE_SIZE + PAGE_SIZE, MkHeapSt p' (fresh_mem (hmem st) page size))).
Proof.
  intros Hwf Hs. pose proof (bpages_bounds (Block 0 size) Hs) as [Hpg _].
  unfold bpages in Hpg. simpl in Hpg. pose proof (highest_index _ Hwf) as H20.
  destruct (pmm_alloc_ok (DIV_ROUNDUP size PAGE_SIZE + 1) (hpmm st) Hwf)
    as (ret & p' & E & S & Hwf'); [lia|].
  exists p'. split; [done|]. unfold kalloc, pmm_allocz.
  rewrite (u32_small (_ + 1)), E by lia. simpl.
  destruct S as [page p' H1 H2 _ _ _|p' Hb _ _ _]; [right|left].
  - exists page. split; [done|]. split; [done|]. split; [done|].
    assert (page * PAGE_SIZE <> 0) as Hne by (unfold PAGE_SIZE; lia). apply Z.eqb_neq in Hne.
    rewrite Hne. simpl. rewrite Hne. unfold with_mem, fresh_mem. simpl.
    change (PAGE_SIZE / 8) with 512.
    pose proof (wf_high _ Hwf) as Hh. unfold PAGE_SIZE in *.
    rewrite !u32_small by zdml.
    by replace (8 * ((DIV_ROUNDUP size 4096 + 1) * 512)) with (4096 * (DIV_ROUNDUP size 4096 + 1)) by lia.
  - split; [done|]. done.
Qed.

Lemma kalloc_ok size st bs :
  kheap_inv st bs -> size_ok size ->
  exists ptr st', kalloc size st = Some (ptr, st') /\
  ((ptr = 0 /\ kheap_inv st' bs /\ hmem st' = hmem st /\ bitmap (hpmm st') = bitmap (hpmm st)) \/
   (ptr <> 0 /\ kheap_inv st' (Block ptr size :: bs) /\ same_data st st' bs /\
    mem_frame (ptr - PAGE_SIZE) (PAGE_SIZE * (bpages (Block ptr size) + 1)) (hmem st) (hmem st') /\
    forall i, 0 <= i < size -> byte_of st' (Block ptr size) i = 0)).
Proof.
  intros [Hinv Hok] Hs. assert (Hwf : wf (hpmm st)) by apply Hinv.
  pose proof (bpages_bounds (Block 0 size) Hs) as [Hpg _]. unfold bpages in Hpg; simpl in Hpg.
  destruct (kalloc_unfold size st Hwf Hs) as (p' & Hwf' &
    [(E & Hb & Ep)|(page & H1 & H2 & Ep & E)]); eexists _, _; (split; [exact E|]); [left|right].
  - split; [done|]. split; [|done]. split; [|done]. apply (step_inv _ _ Hinv).
    by apply (step_oom (MkHeap (hpmm st) (map bowned bs)) (DIV_ROUNDUP size PAGE_SIZE + 1)); [lia|].
  - destruct (fresh_mem_ok (hmem st) page size Hs) as (Hbo & Hbk & Hfr & Hz).
    assert (kheap_step : heap_inv (MkHeap p' (map bowned (Block (page * PAGE_SIZE + PAGE_SIZE) size :: bs)))).
    { apply (step_inv _ _ Hinv). simpl. rewrite Hbo.
      pose proof (step_alloc (MkHeap (hpmm st) (map bowned bs))
        (DIV_ROUNDUP size PAGE_SIZE + 1) _ _ ltac:(lia) Ep
        ltac:(unfold PAGE_SIZE; lia)) as Hst.
      by rewrite Z.div_mul in Hst by (unfold PAGE_SIZE; lia). }
    assert (Hd : Forall (disjoint_blocks (page, bpages (Block (page * PAGE_SIZE + PAGE_SIZE) size) + 1))
      (map bowned bs)).
    { destruct kheap_step as (_ & _ & Hd). simpl in Hd. rewrite Hbo in Hd. by inversion Hd. }
    destruct (blocks_frame _ _ _ _ _ Hfr Hd Hok) as [Hok' Hdata].
    split; [unfold PAGE_SIZE; lia|]. split; [|split; [|split]]; [split; [done|by constructor]|..].
    + intros b i Hb Hi. by apply Hdata.
    + rewrite Z.add_simpl_r, (Z.mul_comm page). done.
    + intros i Hi. by apply Hz.
Qed.

(** A write inside the data of a block preserves the heap and the other blocks. *)
Lemma kheap_inv_write st b bs m' a k :
  kheap_inv st (b :: bs) -> bptr b <= a -> a + k <= bptr b + bsize b ->
  mem_frame a k (hmem st) m' ->
  kheap_inv (with_mem st m') (b :: bs) /\ same_data st (with_mem st m') bs.
Proof.
  intros Hi Ha Hk Hf. destruct (kheap_block st _ b Hi) as (Hb & Hp & _ & _); [by left|].
  destruct (block_extent _ _ Hb) as (_ & _ & Hfit). pose proof (kheap_head_disjoint _ _ _ Hi) as Hd.
  destruct Hi as [Hinv Hok]. inversion Hok as [|? ? _ Hok']; subst.
  assert (Hfr : mem_frame (PAGE_SIZE * (bowned b).1) (PAGE_SIZE * (bowned b).2) (hmem st) m').
  { eapply mem_frame_weaken; [exact Hf|..]; change ((bowned b).2) with (bpages b + 1);
      unfold PAGE_SIZE in *; lia. }
  destruct (bowned b) as [p n]. destruct (blocks_frame _ _ _ _ _ Hfr Hd Hok') as [Hok2 Hdata].
  split; [|intros c i Hc Hi; by apply Hdata].
  split; [done|]. constructor; [|done]. destruct Hb as [B1 B2 B3 B4]. split; [done..| |].
  - rewrite <- B3. eapply load32_frame_out; [exact Hf|]. unfold bmeta, PAGE_SIZE. lia.
  - rewrite <- B4. eapply load32_frame_out; [exact Hf|]. unfold bmeta, PAGE_SIZE. lia.
Qed.

Lemma kfree_ok st b bs :
  kheap_inv st (b :: bs) ->
  exists st', kfree (bptr b) st = Some st' /\ kheap_inv st' bs /\ hmem st' = hmem st /\
    filled (bowned b).1 (bowned b).2 false (bitmap (hpmm st)) (bitmap (hpmm st')).
Proof.
  intros Hi. destruct (kheap_block st _ b Hi) as (Hb & Hp & H1 & H2); [by left|].
  destruct (meta_addr st _ b Hi) as (Hm & _ & Hmp & Hpg); [by left|].
  pose proof (bpages_bounds b (bk_size _ _ Hb)) as [Hpn _].
  destruct Hi as [Hinv Hok]. pose proof Hinv as (Hwf & Hown & _). simpl in Hown.
  inversion Hown as [|? ? (O1 & O2 & O3 & Ou) _]; subst.
  pose proof (highest_index _ Hwf). pose proof (wf_cover _ Hwf).
  change ((bowned b).2) with (bpages b + 1) in *. simpl pm in *.
  destruct (pmm_free_ok (bowned b).1 (bpages b + 1) (hpmm st)) as (p' & E & Hf & _); [lia..|].
  unfold kfree. rewrite Hm, (bk_pages _ _ Hb), Hpg, Hmp, E. simpl.
  eexists. split; [done|]. split; [split|done].
  - apply (step_inv _ _ Hinv).
    by apply (step_free (MkHeap (hpmm st) (map bowned (b :: bs))) [] (bowned b).1 (bpages b + 1) (map bowned bs)).
  - simpl. by inversion Hok.
Qed.

Lemma set_size_ok m b n :
  block_ok m b -> size_ok n -> DIV_ROUNDUP n PAGE_SIZE = bpages b ->
  let m' := set_meta_size m (bmeta b) n in
  bowned (Block (bptr b) n) = bowned b /\ block_ok m' (Block (bptr b) n) /\
  mem_frame (bmeta b) PAGE_SIZE m m'.
Proof.
  intros [H1 H2 H3 H4] Hn Hr m'.
  assert (bpages (Block (bptr b) n) = bpages b) as Hp by done. split; [|split].
  - unfold bowned. by rewrite Hp.
  - split; [done..| |]; unfold bmeta in *; simpl; subst m'.
    + by rewrite meta_pages_set_size, Hp, H3.
    + rewrite meta_size_set_size. apply u32_small. destruct Hn. unfold PAGE_SIZE in *. lia.
  - subst m'. unfold set_meta_size. apply store32_frame; unfold PAGE_SIZE; lia.
Qed.

(** [krealloc] in place: the rounded sizes are equal. *)
Lemma krealloc_inplace st b bs n :
  kheap_inv st (b :: bs) -> size_ok n -> DIV_ROUNDUP n PAGE_SIZE = bpages b ->
  exists st', krealloc (bptr b) n st = Some (bptr b, st') /\
    kheap_inv st' (Block (bptr b) n :: bs) /\ same_data st st' bs /\
    forall i, 0 <= i -> i < bsize b -> byte_of st' b i = byte_of st b i.
Proof.
  intros Hi Hn Hr. destruct (kheap_block st _ b Hi) as (Hb & Hp & H1 & H2); [by left|].
  destruct (meta_addr st _ b Hi) as (Hm & Hne & Hmp & Hpg); [by left|].
  destruct (set_size_ok _ _ _ Hb Hn Hr) as (Hbo & Hbk & Hfr).
  unfold krealloc. apply Z.eqb_neq in Hne. rewrite Hne, Hm, (bk_msize _ _ Hb).
  change (DIV_ROUNDUP (bsize b) PAGE_SIZE) with (bpages b). rewrite Hr, Z.eqb_refl.
  eexists. split; [done|]. pose proof (kheap_head_disjoint _ _ _ Hi) as Hd.
  destruct (bpages_bounds b (bk_size _ _ Hb)) as [Hpn _].
  assert (mem_frame (PAGE_SIZE * (bowned b).1) (PAGE_SIZE * (bowned b).2) (hmem st)
    (set_meta_size (hmem st) (bmeta b) n)) as Hfr'.
  { eapply mem_frame_weaken; [exact Hfr|..]; change ((bowned b).2) with (bpages b + 1);
      unfold PAGE_SIZE in *; lia. }
  destruct Hi as [Hinv Hok]. inversion Hok as [|? ? _ Hok']; subst.
  destruct (bowned b) as [p k] eqn:Ebo. destruct (blocks_frame _ _ _ _ _ Hfr' Hd Hok') as [Hok2 Hdata].
  split; [split|split].
  - simpl in *. by rewrite Hbo, <- Ebo.
  - by constructor.
  - intros c i Hc Hci. by apply Hdata.
  - intros i Hi0 Hi1. unfold byte_of. simpl. apply Hfr. right.
    unfold bmeta. unfold PAGE_SIZE. lia.
Qed.

(** [krealloc] by moving: a new block, the common prefix copied, the old block freed. *)
Lemma krealloc_move st b bs n :
  kheap_inv st (b :: bs) -> size_ok n -> DIV_ROUNDUP n PAGE_SIZE <> bpages b ->
  exists ptr st', krealloc (bptr b) n st = Some (ptr, st') /\
  ((ptr = 0 /\ kheap_inv st' (b :: bs) /\ hmem st' = hmem st) \/
   (ptr <> 0 /\ kheap_inv st' (Block ptr n :: bs) /\ same_data st st' bs /\
    forall i, 0 <= i < n -> byte_of st' (Block ptr n) i =
      if decide (i < bsize b) then byte_of st b i else 0)).
Proof.
  intros Hi Hn Hr. destruct (kheap_block st _ b Hi) as (Hb & Hp & H1 & H2); [by left|].
  destruct (meta_addr st _ b Hi) as (Hm & Hne & Hmp & Hpg); [by left|].
  unfold krealloc. apply Z.eqb_neq in Hne. rewrite Hne, Hm, (bk_msize _ _ Hb).
  change (DIV_ROUNDUP (bsize b) PAGE_SIZE) with (bpages b).
  destruct (Z.eqb_spec (bpages b) (DIV_ROUNDUP n PAGE_SIZE)) as [|_]; [congruence|].
  destruct (kalloc_ok n st _ Hi Hn) as (ptr & st1 & E & Hres). rewrite E. simpl.
  destruct Hres as [(-> & Hi1 & Hmem & _)|(Hpn & Hi1 & Hsd & _ & Hz)].
  { eexists _, _. split; [done|]. by left. }
  apply Z.eqb_neq in Hpn as Hpn'. rewrite Hpn'.
  destruct (kheap_block st1 _ b Hi1) as (Hb1 & _); [by right; left|]. rewrite (bk_msize _ _ Hb1).
  set (c := if n <? bsize b then n else bsize b).
  assert (0 <= c <= n /\ c <= bsize b) as Hc.
  { subst c. destruct (bk_size _ _ Hb), Hn. destruct (Z.ltb_spec n (bsize b)); lia. }
  set (st2 := with_mem st1 (memcpy (hmem st1) ptr (bptr b) c)).
  destruct (kheap_inv_write st1 (Block ptr n) (b :: bs) (hmem st2) ptr c Hi1) as [Hi2 Hsd2];
    [simpl; lia..|apply memcpy_frame|].
  destruct (kfree_ok st2 b (Block ptr n :: bs)) as (st3 & E3 & Hi3 & Hm3 & _).
  { by apply (kheap_inv_front st2 [Block ptr n] b bs). }
  rewrite E3. simpl. eexists _, _. split; [done|]. right. split; [done|]. split; [done|]. split.
  - intros d i Hd' Hdi. unfold byte_of. rewrite Hm3. etransitivity; [apply (Hsd2 d i); [by right|done]|].
    apply (Hsd d i); [by right|done].
  - intros i Hi'. unfold byte_of. rewrite Hm3. simpl. case_decide.
    + rewrite memcpy_in by (subst c; destruct (Z.ltb_spec n (bsize b)); lia).
      replace (bptr b + (ptr + i - ptr)) with (bptr b + i) by lia. apply (Hsd b i); [by left|lia].
    + rewrite memcpy_out by lia. apply (Hz i Hi').
Qed.

Lemma krealloc_ok st b bs n :
  kheap_inv st (b :: bs) -> size_ok n ->
  exists ptr st', krealloc (bptr b) n st = Some (ptr, st') /\
  ((ptr = 0 /\ kheap_inv st' (b :: bs) /\ hmem st' = hmem st) \/
   (ptr <> 0 /\ kheap_inv st' (Block ptr n :: bs) /\ same_data st st' bs /\
    forall i, 0 <= i < n -> i < bsize b -> byte_of st' (Block ptr n) i = byte_of st b i)).
Proof.
  intros Hi Hn. destruct (decide (DIV_ROUNDUP n PAGE_SIZE = bpages b)) as [Hr|Hr].
  - destruct (krealloc_inplace st b bs n Hi Hn Hr) as (st' & E & Hi' & Hsd & Hb).
    destruct (meta_addr st _ b Hi) as (_ & Hne & _); [by left|].
    eexists _, _. split; [exact E|]. right. do 3 (split; [done|]). intros i Hi0 Hi1. apply Hb; lia.
  - destruct (krealloc_move st b bs n Hi Hn Hr) as (ptr & st' & E & [H|(? & ? & ? & Hb)]);
      eexists _, _; (split; [exact E|]); [by left|right].
    do 3 (split; [done|]). intros i Hi0 Hi1. rewrite Hb by done. by rewrite decide_True.
Qed.

(** ** Properties *)

(** C18: [kalloc] either answers NULL and changes neither the memory nor the
    bitmap, or answers a block of the requested size, all of whose bytes are
    zero, disjoint from every live block, whose data it leaves alone. *)
Theorem kalloc_correct size st bs :
  kheap_inv st bs -> size_ok size ->
  exists ptr st', kalloc size st = Some (ptr, st') /\
  ((ptr = 0 /\ kheap_inv st' bs /\ hmem st' = hmem st /\ bitmap (hpmm st') = bitmap (hpmm st)) \/
   (ptr <> 0 /\ kheap_inv st' (Block ptr size :: bs) /\ same_data st st' bs /\
    forall i, 0 <= i < size -> byte_of st' (Block ptr size) i = 0)).
Proof.
  intros Hi Hs. destruct (kalloc_ok size st bs Hi Hs) as (ptr & st' & E & H).
  exists ptr, st'. split; [done|]. destruct H as [H|(? & ? & ? & _ & ?)]; [by left|by right].
Qed.

(** C19: [krealloc] of a live block either answers NULL, and then the old block is
    still live with its data, or answers a block of the new size that holds the
    common prefix of the old data; no other block's data changes. *)
Theorem krealloc_correct st b bs n :
  kheap_inv st (b :: bs) -> size_ok n ->
  exists ptr st', krealloc (bptr b) n st = Some (ptr, st') /\
  ((ptr = 0 /\ kheap_inv st' (b :: bs) /\ hmem st' = hmem st) \/
   (ptr <> 0 /\ kheap_inv st' (Block ptr n :: bs) /\ same_data st st' bs /\
    forall i, 0 <= i < n -> i < bsize b -> byte_of st' (Block ptr n) i = byte_of st b i)).
Proof. apply krealloc_ok. Qed.

(** C20: [kfree] of a live block gives exactly its pages back to the page
    allocator, and leaves every other block live with its data. *)
Theorem kfree_correct st l1 b l2 :
  kheap_inv st (l1 ++ b :: l2) ->
  exists st', kfree (bptr b) st = Some st' /\ kheap_inv st' (l1 ++ l2) /\
    same_data st st' (l1 ++ l2) /\
    filled (bmeta b / PAGE_SIZE) (bpages b + 1) false (bitmap (hpmm st)) (bitmap (hpmm st')).
Proof.
  intros Hi%kheap_inv_front. destruct (kfree_ok st b (l1 ++ l2) Hi) as (st' & E & Hi' & Hm & Hf).
  exists st'. do 2 (split; [done|]). split; [|done]. intros c i _ _. unfold byte_of. by rewrite Hm.
Qed.

(** For sizes within a page of 2^32 the rounding of [kalloc] wraps: the block
    handed out is the metadata page alone, and the call reports success. *)
Theorem kalloc_size_wraps size st p pm' :
  2 ^ 32 - PAGE_SIZE < size < 2 ^ 32 ->
  pmm_alloc 1 (hpmm st) = Some (p, pm') -> p <> 0 -> 0 <= p < 2 ^ 32 - PAGE_SIZE ->
  exists m', kalloc size st = Some (p + PAGE_SIZE, MkHeapSt pm' m') /\
    meta_pages m' p = 0 /\ meta_size m' p = size.
Proof.
  intros Hs Hp Hne Hr. unfold kalloc, pmm_allocz.
  assert (DIV_ROUNDUP size PAGE_SIZE = 0) as ->.
  { unfold DIV_ROUNDUP, PAGE_SIZE, u32 in *. zdml. }
  change (u32 (0 + 1)) with 1. rewrite Hp. simpl. apply Z.eqb_neq in Hne. rewrite Hne. simpl.
  rewrite Hne, u32_small by (unfold PAGE_SIZE in *; lia). eexists. split; [done|].
  rewrite meta_pages_set_size, meta_pages_set_pages, meta_size_set_size. split; [done|].
  apply u32_small. unfold PAGE_SIZE in *. lia.
Qed.

(** ** Witnesses *)

Definition demo_heap : heap_st := MkHeapSt demo_pmm (fun _ => 0).

Lemma demo_heap_inv : kheap_inv demo_heap [].
Proof. split; [|constructor]. split; [exact demo_wf|split; constructor]. Qed.

(** After [p = kalloc(10)]. *)
Definition demo_heap1 : heap_st :=
  match kalloc 10 demo_heap with Some r => r.2 | None => demo_heap end.

Lemma demo_heap1_inv : kheap_inv demo_heap1 [Block 0x101000 10].
Proof.
  destruct (kalloc_ok 10 demo_heap [] demo_heap_inv) as (ptr & st' & E & H).
  { unfold size_ok, PAGE_SIZE. lia. }
  assert (fst <$> kalloc 10 demo_heap = Some 0x101000) as Ep by (vm_compute; reflexivity).
  unfold demo_heap1. rewrite E in Ep |- *. cbn in Ep. injection Ep as ->.
  destruct H as [[? _]|(_ & H & _)]; [lia|exact H].
Qed.

Lemma kalloc_correct_witness :
  exists ptr st', kalloc 10 demo_heap = Some (ptr, st') /\ 
  ((ptr = 0 /\ kheap_inv st' [] /\ hmem st' = hmem demo_heap /\
    bitmap (hpmm st') = bitmap (hpmm demo_heap)) \/
   (ptr <> 0 /\ kheap_inv st' [Block ptr 10] /\ same_data demo_heap st' [] /\
    forall i, 0 <= i < 10 -> byte_of st' (Block ptr 10) i = 0)).
Proof. apply (kalloc_correct 10 demo_heap [] demo_heap_inv). unfold size_ok, PAGE_SIZE. lia. Defined.

Lemma krealloc_correct_witness :
  exists ptr st', krealloc 0x101000 5000 demo_heap1 = Some (ptr, st') /\
  ((ptr = 0 /\ kheap_inv st' [Block 0x101000 10] /\ hmem st' = hmem demo_heap1) \/
   (ptr <> 0 /\ kheap_inv st' [Block ptr 5000] /\ same_data demo_heap1 st' [] /\
    forall i, 0 <= i < 5000 -> i < 10 ->
      byte_of st' (Block ptr 5000) i = byte_of demo_heap1 (Block 0x101000 10) i)).
Proof.
  apply (krealloc_correct demo_heap1 (Block 0x101000 10) [] 5000 demo_heap1_inv).
  unfold size_ok, PAGE_SIZE. lia.
Defined.

Lemma kfree_correct_witness :
  exists st', kfree 0x101000 demo_heap1 = Some st' /\ kheap_inv st' [] /\
    same_data demo_heap1 st' [] /\
    filled (bmeta (Block 0x101000 10) / PAGE_SIZE) (bpages (Block 0x101000 10) + 1) false
      (bitmap (hpmm demo_heap1)) (bitmap (hpmm st')).
Proof. apply (kfree_correct demo_heap1 [] (Block 0x101000 10) [] demo_heap1_inv). Defined.

Lemma kalloc_size_wraps_witness :
  exists m', kalloc 0xffffffff demo_heap = Some (0x101000, MkHeapSt
      (MkPmm 0x100000 (replicate 257 true ++ replicate 31 false) 257 0x120000) m') /\
    meta_pages m' 0x100000 = 0 /\ meta_size m' 0x100000 = 0xffffffff.
Proof.
  apply (kalloc_size_wraps 0xffffffff demo_heap 0x100000); unfold PAGE_SIZE; try lia.
  vm_compute. reflexivity.
Defined.

End Kheap.
