(* ===== verification/CString.v ===== *)
(** * C strings: the [kstr*] functions of [kernel/src/klib.c]

    A buffer is the list of its bytes; reading or writing outside of it is
    [None].  A C string of text [s] is a buffer that starts with [s] and a zero
    byte ([cstr s b]), where [s] has no zero byte.  The lemmas give the meaning
    of each routine on texts; the file system and device layers work with texts. *)

From S2P Require Import Prelude.
Local Open Scope Z_scope.

Module CString.

(** The scans of [klib.c] have no bound of their own; one step per byte of the
    buffer is enough, since a scan that leaves the buffer is [None]. *)
Fixpoint kstrcpy_from (fuel : nat) (i : Z) (dest source : list Z) : option (list Z) :=
  match fuel with
  | O => None
  | S fuel =>
      c ← zget source i;
      if c =? 0 then zset dest i 0
      else dest ← zset dest i c; kstrcpy_from fuel (i + 1) dest source
  end.
Definition kstrcpy (dest source : list Z) : option (list Z) :=
  kstrcpy_from (S (length source)) 0 dest source.

Fixpoint kstrcmp_from (fuel : nat) (i : Z) (dest source : list Z) : option Z :=
  match fuel with
  | O => None
  | S fuel =>
      a ← zget dest i; b ← zget source i;
      if a =? b then
        if (a =? 0) && (b =? 0) then Some 0 else kstrcmp_from fuel (i + 1) dest source
      else Some 1
  end.
Definition kstrcmp (dest source : list Z) : option Z :=
  kstrcmp_from (S (length dest)) 0 dest source.

Fixpoint kstrncmp_from (len : nat) (i : Z) (dest source : list Z) : option Z :=
  match len with
  | O => Some 0
  | S len =>
      a ← zget dest i; b ← zget source i;
      if a =? b then kstrncmp_from len (i + 1) dest source else Some 1
  end.
Definition kstrncmp (dest source : list Z) (len : Z) : option Z :=
  kstrncmp_from (Z.to_nat len) 0 dest source.

Fixpoint kstrlen_from (fuel : nat) (len : Z) (str : list Z) : option Z :=
  match fuel with
  | O => None
  | S fuel => c ← zget str len; if c =? 0 then Some len else kstrlen_from fuel (len + 1) str
  end.
Definition kstrlen (str : list Z) : option Z := kstrlen_from (S (length str)) 0 str.

(** ** Specification *)

(** A text: the characters of a C string. *)
Definition text (s : list Z) : Prop := Forall (fun c => c <> 0) s.

(** The buffer [b] holds the C string [s]. *)
Definition cstr (s b : list Z) : Prop := text s /\ exists rest, b = s ++ 0 :: rest.

(** A text put in a fresh buffer of [cap] bytes with [kstrcpy]: [None] when it
    does not fit with its terminator. *)
Definition strbuf (cap : Z) (s : list Z) : option (list Z) :=
  if decide (zlen s < cap) then Some s else None.

(** ** Lemmas *)

Lemma zget_app_l {A} (l k : list A) i : 0 <= i < zlen l -> zget (l ++ k) i = zget l i.
Proof. intros H. rewrite zget_app. by rewrite decide_True by lia. Qed.

Lemma zget_middle' {A} (p l k : list A) x : zlen p = zlen l -> zget (l ++ x :: k) (zlen p) = Some x.
Proof. intros ->. apply zget_middle. Qed.

Lemma kstrlen_from_ok fuel p s rest : text s -> (length s < fuel)%nat ->
  kstrlen_from fuel (zlen p) (p ++ s ++ 0 :: rest) = Some (zlen p + zlen s).
Proof.
  revert p s. induction fuel as [|fuel IH]; intros p s Hs Hf; [lia|]. simpl.
  destruct s as [|c s]; simpl in *.
  - rewrite zget_middle. simpl. f_equal. unfold zlen. simpl. lia.
  - inversion Hs as [|? ? Hc Hs']; subst. rewrite zget_middle. simpl.
    apply Z.eqb_neq in Hc. rewrite Hc. specialize (IH (p ++ [c]) s Hs' ltac:(lia)).
    rewrite <- app_assoc, zlen_app in IH. simpl in IH.
    change (zlen [c]) with 1 in IH. rewrite IH, zlen_cons. f_equal. lia.
Qed.

Lemma kstrlen_ok s b : cstr s b -> kstrlen b = Some (zlen s).
Proof.
  intros (Hs & rest & ->). apply (kstrlen_from_ok _ [] s rest Hs). rewrite length_app. simpl. lia.
Qed.

Lemma kstrcmp_from_ok fuel p q s t r1 r2 : text s -> text t -> zlen p = zlen q -> (length s < fuel)%nat ->
  kstrcmp_from fuel (zlen p) (p ++ s ++ 0 :: r1) (q ++ t ++ 0 :: r2) = Some (if decide (s = t) then 0 else 1).
Proof.
  revert p q s t. induction fuel as [|fuel IH]; intros p q s t Hs Ht Hpq Hf; [lia|]. simpl.
  destruct s as [|c s], t as [|d t]; simpl in *; rewrite zget_middle; simpl;
    rewrite (zget_middle' p q) by done; simpl.
  - done.
  - inversion Ht; subst. by destruct d.
  - inversion Hs as [|? ? Hc Hs']; subst. by destruct c.
  - inversion Hs as [|? ? Hc Hs']; inversion Ht as [|? ? Hd Ht']; subst.
    destruct (Z.eqb_spec c d) as [->|Hcd].
    + rewrite (proj2 (Z.eqb_neq d 0)) by done. simpl.
      specialize (IH (p ++ [d]) (q ++ [d]) s t Hs' Ht'). rewrite <- !app_assoc in IH. simpl in IH.
      rewrite !zlen_app in IH. change (zlen [d]) with 1 in IH. rewrite IH by lia.
      repeat case_decide; congruence.
    + case_decide; [congruence|done].
Qed.

Lemma kstrcmp_ok s t b1 b2 : cstr s b1 -> cstr t b2 ->
  kstrcmp b1 b2 = Some (if decide (s = t) then 0 else 1).
Proof.
  intros (Hs & r1 & ->) (Ht & r2 & ->). apply (kstrcmp_from_ok _ [] [] s t r1 r2 Hs Ht); [done|].
  rewrite length_app. simpl. lia.
Qed.

Lemma kstrncmp_from_ok (n : nat) (p q b t : list Z) : zlen p = zlen q -> length t = n ->
  (n <= length b)%nat ->
  kstrncmp_from n (zlen p) (p ++ b) (q ++ t) = Some (if decide (take n b = t) then 0 else 1).
Proof.
  revert p q t b.
  induction n as [|n IH]; intros p q t b Hpq Ht Hb; destruct t as [|d t]; simpl in *; try done.
  destruct b as [|c b]; simpl in *; [lia|].
  rewrite zget_middle. simpl. rewrite (zget_middle' p q) by done. simpl. destruct (Z.eqb_spec c d) as [->|Hcd].
  - specialize (IH (p ++ [d]) (q ++ [d]) t b). rewrite <- !app_assoc, !zlen_app in IH. simpl in IH.
    change (zlen [d]) with 1 in IH. rewrite IH by lia. repeat case_decide; congruence.
  - case_decide; [congruence|done].
Qed.

Lemma kstrncmp_any t b : (length t <= length b)%nat ->
  kstrncmp b t (zlen t) = Some (if decide (take (length t) b = t) then 0 else 1).
Proof.
  intros Hl. unfold kstrncmp, zlen. rewrite (Nat2Z.id (length t)).
  by apply (kstrncmp_from_ok (length t) [] [] b t).
Qed.

(** Comparing the first [length t] bytes of a long enough buffer with [t]. *)
Lemma kstrncmp_ok s t b : cstr s b -> (length t <= length b)%nat ->
  kstrncmp b t (zlen t) = Some (if decide (take (length t) b = t) then 0 else 1).
Proof.
  intros _. apply kstrncmp_any.
Qed.

Lemma kstrcpy_from_ok fuel p q s d r : text s -> zlen p = zlen q -> (length s < fuel)%nat ->
  kstrcpy_from fuel (zlen p) (q ++ d) (p ++ s ++ 0 :: r) =
    if decide (zlen s < zlen d) then Some (q ++ s ++ 0 :: drop (S (length s)) d) else None.
Proof.
  revert p q s d. induction fuel as [|fuel IH]; intros p q s d Hs Hpq Hf; [lia|].
  cbn [kstrcpy_from]. pose proof (zlen_nonneg d). pose proof (zlen_nonneg q).
  destruct s as [|c s]; cbn [app length drop] in *; rewrite zget_middle; cbn [mbind option_bind].
  - rewrite Z.eqb_refl. rewrite (@zlen_nil Z). destruct d as [|x d].
    + rewrite decide_False by done. rewrite zset_None; [done|]. rewrite app_nil_r. lia.
    + rewrite zlen_cons in *. pose proof (zlen_nonneg d).
      rewrite decide_True by lia. rewrite zset_ok by (rewrite zlen_app, zlen_cons; lia).
      f_equal. rewrite Hpq. unfold zlen. rewrite Nat2Z.id.
      rewrite insert_app_r_alt, Nat.sub_diag by lia. done.
  - inversion Hs as [|? ? Hc Hs']; subst. rewrite (proj2 (Z.eqb_neq c 0)) by done.
    rewrite zlen_cons. pose proof (zlen_nonneg s). destruct d as [|x d].
    + rewrite decide_False by (rewrite (@zlen_nil Z) in *; lia).
      rewrite zset_None; [done|]. rewrite app_nil_r. lia.
    + rewrite zlen_cons in *. pose proof (zlen_nonneg d).
      rewrite zset_ok by (rewrite zlen_app, zlen_cons; lia). cbn [mbind option_bind].
      assert (<[Z.to_nat (zlen p):=c]> (q ++ x :: d) = (q ++ [c]) ++ d) as ->.
      { rewrite Hpq. unfold zlen. rewrite Nat2Z.id, insert_app_r_alt, Nat.sub_diag by lia.
        by rewrite <- app_assoc. }
      specialize (IH (p ++ [c]) (q ++ [c]) s d Hs'). rewrite <- (app_assoc p), !zlen_app in IH.
      change (zlen [c]) with 1 in IH. cbn [app] in IH. rewrite IH by lia.
      repeat case_decide; try lia; [|done]. by rewrite <- app_assoc.
Qed.

Lemma kstrcpy_ok s b d : cstr s b ->
  kstrcpy d b = if decide (zlen s < zlen d) then Some (s ++ 0 :: drop (S (length s)) d) else None.
Proof.
  intros (Hs & r & ->). apply (kstrcpy_from_ok _ [] [] s d r Hs); [done|]. rewrite length_app. simpl. lia.
Qed.

(** * Properties *)

(** The string routines of [klib.c] compute on texts.  On buffers that hold
    the C strings [s] and [t]: [kstrlen] is the length of [s]; [kstrcmp] answers 0
    exactly when the texts are equal; [kstrncmp] over the length of a text that is
    no longer than the buffer answers 0 exactly when the buffer starts with it;
    [kstrcpy] makes the destination hold [s] when it has room for [s] and the
    terminator, and otherwise writes past the end of the destination. *)
Theorem kstr_correct (s t b1 b2 d : list Z) : cstr s b1 -> cstr t b2 ->
  kstrlen b1 = Some (zlen s) /\
  kstrcmp b1 b2 = Some (if decide (s = t) then 0 else 1) /\
  (forall u, (length u <= length b1)%nat ->
    kstrncmp b1 u (zlen u) = Some (if decide (take (length u) b1 = u) then 0 else 1)) /\
  (zlen s < zlen d -> exists d', kstrcpy d b1 = Some d' /\ cstr s d' /\ zlen d' = zlen d) /\
  (zlen d <= zlen s -> kstrcpy d b1 = None).
Proof.
  intros H1 H2. split; [by apply kstrlen_ok|]. split; [by apply kstrcmp_ok|].
  split; [intros u; by apply (kstrncmp_ok s)|]. pose proof (kstrcpy_ok s b1 d H1) as Hc.
  split; intros Hl; [rewrite decide_True in Hc by done|rewrite decide_False in Hc by lia; done].
  eexists. split; [exact Hc|]. split.
  - split; [apply H1|by eexists].
  - unfold zlen in *. rewrite length_app. simpl. rewrite length_drop. lia.
Qed.

(** * Witnesses *)

Lemma cstr_intro s rest : text s -> cstr s (s ++ 0 :: rest).
Proof. intros H. split; [done|by eexists]. Qed.

Lemma kstr_correct_witness :
  kstrlen [104; 105; 0; 9] = Some 2 /\ kstrcmp [104; 105; 0; 9] [104; 105; 0] = Some 0 /\
  kstrcpy [7; 7; 7; 7] [104; 105; 0; 9] = Some [104; 105; 0; 7].
Proof.
  assert (text [104; 105]) as Ht.
  { constructor; [lia|]. constructor; [lia|constructor]. }
  destruct (kstr_correct [104; 105] [104; 105] _ _ [7; 7; 7; 7]
    (cstr_intro [104; 105] [9] Ht) (cstr_intro [104; 105] [] Ht)) as (Hl & Hc & _ & _).
  split; [exact Hl|]. split; [exact Hc|]. reflexivity.
Defined.

End CString.
