(* ===== verification/Tty.v ===== *)
(** * The text terminals: [kernel/src/drivers/tty.c]

    Seven terminals share the VGA text memory: each has a field of
    [VD_ROWS * VD_COLS] bytes (a character and an attribute per cell), and the
    current one is mirrored in video memory.  [text_putchar] is the whole
    interface: printable characters, line feed with scrolling, backspace, and an
    ANSI escape sequence parser that is a state machine over the terminal's
    [esc_*] fields.

    A write outside of a field or of video memory is [None]. *)

From S2P Require Import Prelude.
Local Open Scope Z_scope.

Module Tty.

Definition VD_ROWS : Z := 25.
Definition VD_COLS : Z := 160.
Definition KRNL_TTY_COUNT : Z := 7.
Definition TTY_DEF_CUR_PAL : Z := 0x70.
Definition TTY_DEF_TXT_PAL : Z := 0x07.
Definition KB_L1_SIZE : Z := 256.
Definition KB_L2_SIZE : Z := 2048.

(** [#define VIDEO_BOTTOM (VD_ROWS*VD_COLS)-1]; its uses add or subtract, so the
    missing parentheses do not matter. *)
Definition VIDEO_BOTTOM : Z := VD_ROWS * VD_COLS - 1.

(** [int* esc_value] and [int* esc_default] point into the structure itself. *)
Inductive esc_ref := Esc0 | Esc1.

Record tty_t := MkTty {
  cursor_offset : Z;
  cursor_status : Z;
  cursor_palette : Z;
  text_palette : Z;
  field : list Z;
  kb_l1_buffer : list Z;
  kb_l2_buffer : list Z;
  kb_l1_buffer_index : Z;
  kb_l2_buffer_index : Z;
  escape : Z;
  esc_value : esc_ref;
  esc_value0 : Z;
  esc_value1 : Z;
  esc_default : esc_ref;
  esc_default0 : Z;
  esc_default1 : Z;
  raw : Z;
  noblock : Z;
  noscroll : Z
}.

Definition with_cursor_offset (t : tty_t) (v : Z) : tty_t :=
  MkTty v (cursor_status t) (cursor_palette t) (text_palette t) (field t) (kb_l1_buffer t)
    (kb_l2_buffer t) (kb_l1_buffer_index t) (kb_l2_buffer_index t) (escape t) (esc_value t)
    (esc_value0 t) (esc_value1 t) (esc_default t) (esc_default0 t) (esc_default1 t) (raw t)
    (noblock t) (noscroll t).
Definition with_cursor_status (t : tty_t) (v : Z) : tty_t :=
  MkTty (cursor_offset t) v (cursor_palette t) (text_palette t) (field t) (kb_l1_buffer t)
    (kb_l2_buffer t) (kb_l1_buffer_index t) (kb_l2_buffer_index t) (escape t) (esc_value t)
    (esc_value0 t) (esc_value1 t) (esc_default t) (esc_default0 t) (esc_default1 t) (raw t)
    (noblock t) (noscroll t).
Definition with_cursor_palette (t : tty_t) (v : Z) : tty_t :=
  MkTty (cursor_offset t) (cursor_status t) v (text_palette t) (field t) (kb_l1_buffer t)
    (kb_l2_buffer t) (kb_l1_buffer_index t) (kb_l2_buffer_index t) (escape t) (esc_value t)
    (esc_value0 t) (esc_value1 t) (esc_default t) (esc_default0 t) (esc_default1 t) (raw t)
    (noblock t) (noscroll t).
Definition with_text_palette (t : tty_t) (v : Z) : tty_t :=
  MkTty (cursor_offset t) (cursor_status t) (cursor_palette t) v (field t) (kb_l1_buffer t)
    (kb_l2_buffer t) (kb_l1_buffer_index t) (kb_l2_buffer_index t) (escape t) (esc_value t)
    (esc_value0 t) (esc_value1 t) (esc_default t) (esc_default0 t) (esc_default1 t) (raw t)
    (noblock t) (noscroll t).
Definition with_field (t : tty_t) (v : list Z) : tty_t :=
  MkTty (cursor_offset t) (cursor_status t) (cursor_palette t) (text_palette t) v
    (kb_l1_buffer t) (kb_l2_buffer t) (kb_l1_buffer_index t) (kb_l2_buffer_index t) (escape
    t) (esc_value t) (esc_value0 t) (esc_value1 t) (esc_default t) (esc_default0 t)
    (esc_default1 t) (raw t) (noblock t) (noscroll t).
Definition with_kb_l1_buffer (t : tty_t) (v : list Z) : tty_t :=
  MkTty (cursor_offset t) (cursor_status t) (cursor_palette t) (text_palette t) (field t) v
    (kb_l2_buffer t) (kb_l1_buffer_index t) (kb_l2_buffer_index t) (escape t) (esc_value t)
    (esc_value0 t) (esc_value1 t) (esc_default t) (esc_default0 t) (esc_default1 t) (raw t)
    (noblock t) (noscroll t).
Definition with_kb_l2_buffer (t : tty_t) (v : list Z) : tty_t :=
  MkTty (cursor_offset t) (cursor_status t) (cursor_palette t) (text_palette t) (field t)
    (kb_l1_buffer t) v (kb_l1_buffer_index t) (kb_l2_buffer_index t) (escape t) (esc_value
    t) (esc_value0 t) (esc_value1 t) (esc_default t) (esc_default0 t) (esc_default1 t) (raw
    t) (noblock t) (noscroll t).
Definition with_kb_l1_buffer_index (t : tty_t) (v : Z) : tty_t :=
  MkTty (cursor_offset t) (cursor_status t) (cursor_palette t) (text_palette t) (field t)
    (kb_l1_buffer t) (kb_l2_buffer t) v (kb_l2_buffer_index t) (escape t) (esc_value t)
    (esc_value0 t) (esc_value1 t) (esc_default t) (esc_default0 t) (esc_default1 t) (raw t)
    (noblock t) (noscroll t).
Definition with_kb_l2_buffer_index (t : tty_t) (v : Z) : tty_t :=
  MkTty (cursor_offset t) (cursor_status t) (cursor_palette t) (text_palette t) (field t)
    (kb_l1_buffer t) (kb_l2_buffer t) (kb_l1_buffer_index t) v (escape t) (esc_value t)
    (esc_value0 t) (esc_value1 t) (esc_default t) (esc_default0 t) (esc_default1 t) (raw t)
    (noblock t) (noscroll t).
Definition with_escape (t : tty_t) (v : Z) : tty_t :=
  MkTty (cursor_offset t) (cursor_status t) (cursor_palette t) (text_palette t) (field t)
    (kb_l1_buffer t) (kb_l2_buffer t) (kb_l1_buffer_index t) (kb_l2_buffer_index t) v
    (esc_value t) (esc_value0 t) (esc_value1 t) (esc_default t) (esc_default0 t)
    (esc_default1 t) (raw t) (noblock t) (noscroll t).
Definition with_esc_value (t : tty_t) (v : esc_ref) : tty_t :=
  MkTty (cursor_offset t) (cursor_status t) (cursor_palette t) (text_palette t) (field t)
    (kb_l1_buffer t) (kb_l2_buffer t) (kb_l1_buffer_index t) (kb_l2_buffer_index t) (escape
    t) v (esc_value0 t) (esc_value1 t) (esc_default t) (esc_default0 t) (esc_default1 t)
    (raw t) (noblock t) (noscroll t).
Definition with_esc_value0 (t : tty_t) (v : Z) : tty_t :=
  MkTty (cursor_offset t) (cursor_status t) (cursor_palette t) (text_palette t) (field t)
    (kb_l1_buffer t) (kb_l2_buffer t) (kb_l1_buffer_index t) (kb_l2_buffer_index t) (escape
    t) (esc_value t) v (esc_value1 t) (esc_default t) (esc_default0 t) (esc_default1 t) (raw
    t) (noblock t) (noscroll t).
Definition with_esc_value1 (t : tty_t) (v : Z) : tty_t :=
  MkTty (cursor_offset t) (cursor_status t) (cursor_palette t) (text_palette t) (field t)
    (kb_l1_buffer t) (kb_l2_buffer t) (kb_l1_buffer_index t) (kb_l2_buffer_index t) (escape
    t) (esc_value t) (esc_value0 t) v (esc_default t) (esc_default0 t) (esc_default1 t) (raw
    t) (noblock t) (noscroll t).
Definition with_esc_default (t : tty_t) (v : esc_ref) : tty_t :=
  MkTty (cursor_offset t) (cursor_status t) (cursor_palette t) (text_palette t) (field t)
    (kb_l1_buffer t) (kb_l2_buffer t) (kb_l1_buffer_index t) (kb_l2_buffer_index t) (escape
    t) (esc_value t) (esc_value0 t) (esc_value1 t) v (esc_default0 t) (esc_default1 t) (raw
    t) (noblock t) (noscroll t).
Definition with_esc_default0 (t : tty_t) (v : Z) : tty_t :=
  MkTty (cursor_offset t) (cursor_status t) (cursor_palette t) (text_palette t) (field t)
    (kb_l1_buffer t) (kb_l2_buffer t) (kb_l1_buffer_index t) (kb_l2_buffer_index t) (escape
    t) (esc_value t) (esc_value0 t) (esc_value1 t) (esc_default t) v (esc_default1 t) (raw
    t) (noblock t) (noscroll t).
Definition with_esc_default1 (t : tty_t) (v : Z) : tty_t :=
  MkTty (cursor_offset t) (cursor_status t) (cursor_palette t) (text_palette t) (field t)
    (kb_l1_buffer t) (kb_l2_buffer t) (kb_l1_buffer_index t) (kb_l2_buffer_index t) (escape
    t) (esc_value t) (esc_value0 t) (esc_value1 t) (esc_default t) (esc_default0 t) v (raw
    t) (noblock t) (noscroll t).
Definition with_raw (t : tty_t) (v : Z) : tty_t :=
  MkTty (cursor_offset t) (cursor_status t) (cursor_palette t) (text_palette t) (field t)
    (kb_l1_buffer t) (kb_l2_buffer t) (kb_l1_buffer_index t) (kb_l2_buffer_index t) (escape
    t) (esc_value t) (esc_value0 t) (esc_value1 t) (esc_default t) (esc_default0 t)
    (esc_default1 t) v (noblock t) (noscroll t).
Definition with_noblock (t : tty_t) (v : Z) : tty_t :=
  MkTty (cursor_offset t) (cursor_status t) (cursor_palette t) (text_palette t) (field t)
    (kb_l1_buffer t) (kb_l2_buffer t) (kb_l1_buffer_index t) (kb_l2_buffer_index t) (escape
    t) (esc_value t) (esc_value0 t) (esc_value1 t) (esc_default t) (esc_default0 t)
    (esc_default1 t) (raw t) v (noscroll t).
Definition with_noscroll (t : tty_t) (v : Z) : tty_t :=
  MkTty (cursor_offset t) (cursor_status t) (cursor_palette t) (text_palette t) (field t)
    (kb_l1_buffer t) (kb_l2_buffer t) (kb_l1_buffer_index t) (kb_l2_buffer_index t) (escape
    t) (esc_value t) (esc_value0 t) (esc_value1 t) (esc_default t) (esc_default0 t)
    (esc_default1 t) (raw t) (noblock t) v.

(** [tty], [current_tty] and the memory at [video_mem]. *)
Record console := MkConsole {
  ttys : list tty_t;
  current_tty : Z;
  video_mem : list Z
}.

Definition with_video (c : console) (v : list Z) : console := MkConsole (ttys c) (current_tty c) v.

(** [tty[which_tty]], and the assignment of one of its fields. *)
Definition tty_at (which_tty : Z) (c : console) : option tty_t := zget (ttys c) which_tty.
Definition set_tty (which_tty : Z) (t : tty_t) (c : console) : option console :=
  l ← zset (ttys c) which_tty t; Some (MkConsole l (current_tty c) (video_mem c)).
Definition upd_tty (which_tty : Z) (f : tty_t -> tty_t) (c : console) : option console :=
  t ← tty_at which_tty c; set_tty which_tty (f t) c.

(** [tty[which_tty].field[off] = v;
     if (which_tty == current_tty) video_mem[off] = v;] *)
Definition poke (which_tty off v : Z) (c : console) : option console :=
  t ← tty_at which_tty c;
  f ← zset (field t) off (u8 v);
  c ← set_tty which_tty (with_field t f) c;
  if which_tty =? current_tty c then
    m ← zset (video_mem c) off (u8 v); Some (with_video c m)
  else Some c.

Definition clear_cursor (which_tty : Z) (c : console) : option console :=
  t ← tty_at which_tty c;
  poke which_tty (u32 (cursor_offset t + 1)) (text_palette t) c.

Definition draw_cursor (which_tty : Z) (c : console) : option console :=
  t ← tty_at which_tty c;
  if cursor_status t =? 0 then Some c
  else poke which_tty (u32 (cursor_offset t + 1)) (cursor_palette t) c.

(** [memcpy(video_mem, tty[current_tty].field, VD_ROWS*VD_COLS)] *)
Definition tty_refresh (which_tty : Z) (c : console) : option console :=
  if which_tty =? current_tty c then
    t ← tty_at (current_tty c) c;
    m ← zfor (Z.to_nat (VD_ROWS * VD_COLS)) 0
          (fun i m => b ← zget (field t) i; zset m i b) (video_mem c);
    Some (with_video c m)
  else Some c.

(** The two loops of [scroll] on the field. *)
Definition scroll_up (f : list Z) : option (list Z) :=
  zfor (Z.to_nat (VIDEO_BOTTOM - VD_COLS + 1)) 0
    (fun i f => b ← zget f (i + VD_COLS); zset f i b) f.
Definition last_line_step (pal i : Z) (f : list Z) : option (list Z) :=
  f ← zset f i pal; zset f (i - 1) 32.
Definition clear_last_line (pal : Z) (f : list Z) : option (list Z) :=
  zfor (Z.to_nat (VD_COLS / 2)) 0 (fun k f => last_line_step pal (VIDEO_BOTTOM - 2 * k) f) f.

Definition scroll (which_tty : Z) (c : console) : option console :=
  t ← tty_at which_tty c;
  f ← scroll_up (field t);
  f ← clear_last_line (text_palette t) f;
  c ← set_tty which_tty (with_field t f) c;
  tty_refresh which_tty c.

(** [for (i=0; i<VIDEO_BOTTOM; i += 2) { field[i] = ' '; field[i+1] = pal; }] *)
Definition blank_step (pal i : Z) (f : list Z) : option (list Z) :=
  f ← zset f i 32; zset f (i + 1) pal.
Definition blank_field (pal : Z) (f : list Z) : option (list Z) :=
  zfor (Z.to_nat ((VIDEO_BOTTOM + 1) / 2)) 0 (fun k f => blank_step pal (2 * k) f) f.

Definition text_clear (which_tty : Z) (c : console) : option console :=
  c ← clear_cursor which_tty c;
  t ← tty_at which_tty c;
  f ← blank_field (text_palette t) (field t);
  c ← set_tty which_tty (with_cursor_offset (with_field t f) 0) c;
  c ← draw_cursor which_tty c;
  tty_refresh which_tty c.

Definition text_clear_no_move (which_tty : Z) (c : console) : option console :=
  c ← clear_cursor which_tty c;
  t ← tty_at which_tty c;
  f ← blank_field (text_palette t) (field t);
  c ← set_tty which_tty (with_field t f) c;
  c ← draw_cursor which_tty c;
  tty_refresh which_tty c.

Definition text_enable_cursor (which_tty : Z) (c : console) : option console :=
  c ← upd_tty which_tty (fun t => with_cursor_status t 1) c;
  draw_cursor which_tty c.
Definition text_disable_cursor (which_tty : Z) (c : console) : option console :=
  c ← upd_tty which_tty (fun t => with_cursor_status t 0) c;
  clear_cursor which_tty c.

Definition text_set_cursor_palette (pal which_tty : Z) (c : console) : option console :=
  c ← upd_tty which_tty (fun t => with_cursor_palette t pal) c;
  draw_cursor which_tty c.
Definition text_get_cursor_palette (which_tty : Z) (c : console) : option Z :=
  t ← tty_at which_tty c; Some (cursor_palette t).
Definition text_set_text_palette (pal which_tty : Z) (c : console) : option console :=
  upd_tty which_tty (fun t => with_text_palette t pal) c.
Definition text_get_text_palette (which_tty : Z) (c : console) : option Z :=
  t ← tty_at which_tty c; Some (text_palette t).

Definition pos_x (t : tty_t) : Z := cursor_offset t mod VD_COLS / 2.
Definition pos_y (t : tty_t) : Z := cursor_offset t / VD_COLS.
Definition text_get_cursor_pos_x (which_tty : Z) (c : console) : option Z :=
  t ← tty_at which_tty c; Some (pos_x t).
Definition text_get_cursor_pos_y (which_tty : Z) (c : console) : option Z :=
  t ← tty_at which_tty c; Some (pos_y t).

Definition text_set_cursor_pos (x y which_tty : Z) (c : console) : option console :=
  c ← clear_cursor which_tty c;
  c ← upd_tty which_tty (fun t => with_cursor_offset t (u32 (y * VD_COLS + x * 2))) c;
  draw_cursor which_tty c.

(** [text_putchar] once the test of [escape] has failed. *)
Definition putchar_plain (ch which_tty : Z) (c : console) : option console :=
  if ch =? 0x00 then Some c
  else if ch =? 0x1B then upd_tty which_tty (fun t => with_escape t 1) c
  else if ch =? 0x0A then
    y ← text_get_cursor_pos_y which_tty c;
    if y =? VD_ROWS - 1 then
      c ← clear_cursor which_tty c;
      c ← scroll which_tty c;
      text_set_cursor_pos 0 (VD_ROWS - 1) which_tty c
    else text_set_cursor_pos 0 (y + 1) which_tty c
  else if ch =? 0x08 then
    t ← tty_at which_tty c;
    if cursor_offset t =? 0 then Some c
    else
      c ← clear_cursor which_tty c;
      c ← upd_tty which_tty (fun t => with_cursor_offset t (u32 (cursor_offset t - 2))) c;
      t ← tty_at which_tty c;
      c ← poke which_tty (cursor_offset t) 32 c;
      draw_cursor which_tty c
  else
    c ← clear_cursor which_tty c;
    t ← tty_at which_tty c;
    c ← poke which_tty (cursor_offset t) ch c;
    c ← (if VIDEO_BOTTOM - 1 <=? cursor_offset t then
           if noscroll t =? 0 then
             c ← scroll which_tty c;
             upd_tty which_tty (fun t => with_cursor_offset t (VIDEO_BOTTOM - (VD_COLS - 1))) c
           else Some c
         else upd_tty which_tty (fun t => with_cursor_offset t (u32 (cursor_offset t + 2))) c);
    draw_cursor which_tty c.

Definition ansi_colours : list Z := [0; 4; 2; 6; 1; 5; 3; 7].

Definition sgr (which_tty : Z) (c : console) : option console :=
  t ← tty_at which_tty c;
  c ← (if esc_value0 t =? 0 then text_set_text_palette TTY_DEF_TXT_PAL which_tty c else Some c);
  if (30 <=? esc_value0 t) && (esc_value0 t <=? 37) then
    pal ← text_get_text_palette which_tty c;
    col ← zget ansi_colours (esc_value0 t - 30);
    text_set_text_palette (u8 (Z.land pal 0xf0 + col)) which_tty c
  else if (40 <=? esc_value0 t) && (esc_value0 t <=? 47) then
    pal ← text_get_text_palette which_tty c;
    col ← zget ansi_colours (esc_value0 t - 40);
    text_set_text_palette (u8 (Z.land pal 0x0f + col * 0x10)) which_tty c
  else Some c.

(** [*tty[which_tty].esc_value] and [*tty[which_tty].esc_default]. *)
Definition get_esc_value (t : tty_t) : Z :=
  match esc_value t with Esc0 => esc_value0 t | Esc1 => esc_value1 t end.
Definition set_esc_value (t : tty_t) (v : Z) : tty_t :=
  match esc_value t with Esc0 => with_esc_value0 t v | Esc1 => with_esc_value1 t v end.
Definition set_esc_default (t : tty_t) (v : Z) : tty_t :=
  match esc_default t with Esc0 => with_esc_default0 t v | Esc1 => with_esc_default1 t v end.

(** [if (esc_default0) esc_value0 = 1;] *)
Definition default_one (t : tty_t) : tty_t :=
  if esc_default0 t =? 0 then t else with_esc_value0 t 1.

(** The final assignments of [escape_parse]. *)
Definition esc_reset (t : tty_t) : tty_t :=
  with_escape (with_esc_default1 (with_esc_default0 (with_esc_default (with_esc_value1
    (with_esc_value0 (with_esc_value t Esc0) 0) 0) Esc0) 1) 1) 0.

Definition not_int (v : Z) : Z := if v =? 0 then 1 else 0.

(** The cases [A], [B], [C] and [D]: the parameter is clipped, compared as an
    unsigned number, and the cursor moved. *)
Definition cursor_up (which_tty : Z) (c : console) : option console :=
  c ← upd_tty which_tty default_one c;
  c ← upd_tty which_tty (fun t =>
        if pos_y t <? u32 (esc_value0 t) then with_esc_value0 t (pos_y t) else t) c;
  t ← tty_at which_tty c;
  text_set_cursor_pos (pos_x t) (u32 (pos_y t - esc_value0 t)) which_tty c.
Definition cursor_down (which_tty : Z) (c : console) : option console :=
  c ← upd_tty which_tty default_one c;
  c ← upd_tty which_tty (fun t =>
        if VD_ROWS - 1 <? u32 (pos_y t + esc_value0 t)
        then with_esc_value0 t (s32 (VD_ROWS - 1 - pos_y t)) else t) c;
  t ← tty_at which_tty c;
  text_set_cursor_pos (pos_x t) (u32 (pos_y t + esc_value0 t)) which_tty c.
Definition cursor_right (which_tty : Z) (c : console) : option console :=
  c ← upd_tty which_tty default_one c;
  c ← upd_tty which_tty (fun t =>
        if VD_COLS / 2 - 1 <? u32 (pos_x t + esc_value0 t)
        then with_esc_value0 t (s32 (VD_COLS / 2 - 1 - pos_x t)) else t) c;
  t ← tty_at which_tty c;
  text_set_cursor_pos (u32 (pos_x t + esc_value0 t)) (pos_y t) which_tty c.
Definition cursor_left (which_tty : Z) (c : console) : option console :=
  c ← upd_tty which_tty default_one c;
  c ← upd_tty which_tty (fun t =>
        if pos_x t <? u32 (esc_value0 t) then with_esc_value0 t (pos_x t) else t) c;
  t ← tty_at which_tty c;
  text_set_cursor_pos (u32 (pos_x t - esc_value0 t)) (pos_y t) which_tty c.

(** The case [H]: a parameter is decremented, defaulted, and clipped above, as a
    signed number. *)
Definition home_param (dflt v bound : Z) : Z :=
  let v := s32 (v - 1) in
  let v := if dflt =? 0 then v else 0 in
  if bound <=? v then bound - 1 else v.
Definition home_params (t : tty_t) : tty_t :=
  with_esc_value1
    (with_esc_value0 t (home_param (esc_default0 t) (esc_value0 t) VD_ROWS))
    (home_param (esc_default1 t) (esc_value1 t) (VD_COLS / 2)).
Definition cursor_home (which_tty : Z) (c : console) : option console :=
  c ← upd_tty which_tty home_params c;
  t ← tty_at which_tty c;
  text_set_cursor_pos (u32 (esc_value1 t)) (u32 (esc_value0 t)) which_tty c.

(** The [switch] of [escape_parse], for the characters that end a sequence. *)
Definition escape_final (ch which_tty : Z) (c : console) : option console :=
  if ch =? 65 (* A *) then cursor_up which_tty c
  else if ch =? 66 (* B *) then cursor_down which_tty c
  else if ch =? 67 (* C *) then cursor_right which_tty c
  else if ch =? 68 (* D *) then cursor_left which_tty c
  else if ch =? 72 (* H *) then cursor_home which_tty c
  else if ch =? 109 (* m *) then sgr which_tty c
  else if ch =? 74 (* J *) then
    t ← tty_at which_tty c;
    if esc_value0 t =? 2 then text_clear_no_move which_tty c else Some c
  else if ch =? 114 (* r *) then upd_tty which_tty (fun t => with_raw t (not_int (raw t))) c
  else if ch =? 98 (* b *) then upd_tty which_tty (fun t => with_noblock t (not_int (noblock t))) c
  else if ch =? 115 (* s *) then upd_tty which_tty (fun t => with_noscroll t (not_int (noscroll t))) c
  else
    c ← upd_tty which_tty (fun t => with_escape t 0) c;
    putchar_plain 63 (* ? *) which_tty c.

(** The digit case: [int] arithmetic. *)
Definition esc_digit (ch : Z) (t : tty_t) : tty_t :=
  set_esc_default (set_esc_value t (s32 (s32 (get_esc_value t * 10) + (ch - 48)))) 0.

Definition escape_parse (ch which_tty : Z) (c : console) : option console :=
  if (48 <=? ch) && (ch <=? 57) then upd_tty which_tty (esc_digit ch) c
  else if ch =? 91 (* [ *) then Some c
  else if ch =? 59 (* ; *) then
    upd_tty which_tty (fun t => with_esc_default (with_esc_value t Esc1) Esc1) c
  else
    c ← escape_final ch which_tty c;
    upd_tty which_tty esc_reset c.

Definition text_putchar (ch which_tty : Z) (c : console) : option console :=
  t ← tty_at which_tty c;
  if escape t =? 0 then putchar_plain ch which_tty c
  else escape_parse ch which_tty c.

(** [tty_kputs] / [tty_knputs] of [klib.c] on the characters they print. *)
Fixpoint tty_knputs (s : list Z) (which_tty : Z) (c : console) : option console :=
  match s with
  | [] => Some c
  | ch :: s => c ← text_putchar ch which_tty c; tty_knputs s which_tty c
  end.

Definition switch_tty (which_tty : Z) (c : console) : option console :=
  tty_refresh which_tty (MkConsole (ttys c) which_tty (video_mem c)).

(** The body of the loop of [init_tty]. *)
Definition init_one (t : tty_t) : option tty_t :=
  f ← blank_field TTY_DEF_TXT_PAL (field t);
  f ← zset f 1 TTY_DEF_CUR_PAL;
  Some {|
    cursor_offset := 0; cursor_status := 1;
    cursor_palette := TTY_DEF_CUR_PAL; text_palette := TTY_DEF_TXT_PAL;
    field := f;
    kb_l1_buffer := kb_l1_buffer t; kb_l2_buffer := kb_l2_buffer t;
    kb_l1_buffer_index := kb_l1_buffer_index t; kb_l2_buffer_index := kb_l2_buffer_index t;
    escape := 0; esc_value := Esc0; esc_value0 := 0; esc_value1 := 0;
    esc_default := Esc0; esc_default0 := 1; esc_default1 := 1;
    raw := 0; noblock := 0; noscroll := 0
  |}.

Definition init_step (i : Z) (c : console) : option console :=
  t ← tty_at i c; t ← init_one t; set_tty i t c.
Definition init_tty (c : console) : option console :=
  zfor (Z.to_nat KRNL_TTY_COUNT) 0 init_step c.

(** ** Specification: one terminal, without the mirror

    The abstract terminal is the structure [tty_t] alone; the functions below
    give each operation as a total function of it. *)

Definition SCREEN : Z := VD_ROWS * VD_COLS.

Record tty_ok (t : tty_t) : Prop := {
  tok_field : zlen (field t) = SCREEN;
  tok_offset : 0 <= cursor_offset t <= SCREEN - 2;
  tok_even : cursor_offset t mod 2 = 0
}.

(** The seven terminals are well formed and video memory mirrors the current one. *)
Record cons_ok (c : console) : Prop := {
  cok_count : zlen (ttys c) = KRNL_TTY_COUNT;
  cok_cur : 0 <= current_tty c < KRNL_TTY_COUNT;
  cok_ttys : forall i t, tty_at i c = Some t -> tty_ok t;
  cok_video : forall t, tty_at (current_tty c) c = Some t -> video_mem c = field t
}.

(** Replacing a terminal, mirror included. *)
Definition put (w : Z) (t : tty_t) (c : console) : console :=
  MkConsole (<[Z.to_nat w := t]> (ttys c)) (current_tty c)
    (if w =? current_tty c then field t else video_mem c).

(** [n] cells of a character and an attribute. *)
Fixpoint cells (n : nat) (ch attr : Z) : list Z :=
  match n with O => [] | S n => ch :: attr :: cells n ch attr end.
#[global] Arguments cells : simpl never.

Definition p_poke (off v : Z) (t : tty_t) : tty_t :=
  with_field t (<[Z.to_nat off := u8 v]> (field t)).
Definition p_clear_cursor (t : tty_t) : tty_t := p_poke (cursor_offset t + 1) (text_palette t) t.
Definition p_draw_cursor (t : tty_t) : tty_t :=
  if cursor_status t =? 0 then t else p_poke (cursor_offset t + 1) (cursor_palette t) t.
Definition p_scroll (t : tty_t) : tty_t :=
  with_field t (drop (Z.to_nat VD_COLS) (field t) ++ cells (Z.to_nat (VD_COLS / 2)) 32 (text_palette t)).
Definition p_set_pos (x y : Z) (t : tty_t) : tty_t :=
  p_draw_cursor (with_cursor_offset (p_clear_cursor t) (y * VD_COLS + x * 2)).
Definition p_clear_no_move (t : tty_t) : tty_t :=
  p_draw_cursor (with_field t (cells (Z.to_nat (SCREEN / 2)) 32 (text_palette t))).

Definition p_newline (t : tty_t) : tty_t :=
  if pos_y t =? VD_ROWS - 1 then p_set_pos 0 (VD_ROWS - 1) (p_scroll (p_clear_cursor t))
  else p_set_pos 0 (pos_y t + 1) t.
Definition p_backspace (t : tty_t) : tty_t :=
  if cursor_offset t =? 0 then t
  else
    let t := p_clear_cursor t in
    let t := with_cursor_offset t (cursor_offset t - 2) in
    p_draw_cursor (p_poke (cursor_offset t) 32 t).
Definition p_print (ch : Z) (t : tty_t) : tty_t :=
  let t := p_clear_cursor t in
  let t' := p_poke (cursor_offset t) ch t in
  p_draw_cursor
    (if SCREEN - 2 <=? cursor_offset t then
       if noscroll t =? 0 then with_cursor_offset (p_scroll t') (SCREEN - VD_COLS) else t'
     else with_cursor_offset t' (cursor_offset t + 2)).
Definition p_putchar_plain (ch : Z) (t : tty_t) : tty_t :=
  if ch =? 0x00 then t
  else if ch =? 0x1B then with_escape t 1
  else if ch =? 0x0A then p_newline t
  else if ch =? 0x08 then p_backspace t
  else p_print ch t.

Definition p_sgr (t : tty_t) : tty_t :=
  let v := esc_value0 t in
  let t := if v =? 0 then with_text_palette t TTY_DEF_TXT_PAL else t in
  let col k := nth (Z.to_nat k) ansi_colours 0 in
  if (30 <=? v) && (v <=? 37) then
    with_text_palette t (u8 (Z.land (text_palette t) 0xf0 + col (v - 30)))
  else if (40 <=? v) && (v <=? 47) then
    with_text_palette t (u8 (Z.land (text_palette t) 0x0f + col (v - 40) * 0x10))
  else t.

(** The first parameter of a relative move, as the unsigned number it is
    compared as; 1 when it is absent. *)
Definition param (t : tty_t) : Z := if esc_default0 t =? 0 then u32 (esc_value0 t) else 1.

(** A sum clipped to the last row or column. *)
Definition clip (last s : Z) : Z := if last <? s then last else s.

(** A 1-based coordinate of [H]: absent means first, too large means last. *)
Definition home_coord (dflt v last : Z) : Z :=
  if dflt =? 0 then clip last (v - 1) else 0.

Definition p_escape_final (ch : Z) (t : tty_t) : tty_t :=
  if ch =? 65 then p_set_pos (pos_x t) (pos_y t - Z.min (pos_y t) (param t)) t
  else if ch =? 66 then p_set_pos (pos_x t) (clip (VD_ROWS - 1) (u32 (pos_y t + param t))) t
  else if ch =? 67 then p_set_pos (clip (VD_COLS / 2 - 1) (u32 (pos_x t + param t))) (pos_y t) t
  else if ch =? 68 then p_set_pos (pos_x t - Z.min (pos_x t) (param t)) (pos_y t) t
  else if ch =? 72 then
    p_set_pos (home_coord (esc_default1 t) (esc_value1 t) (VD_COLS / 2 - 1))
      (home_coord (esc_default0 t) (esc_value0 t) (VD_ROWS - 1)) t
  else if ch =? 109 then p_sgr t
  else if ch =? 74 then if esc_value0 t =? 2 then p_clear_no_move t else t
  else if ch =? 114 then with_raw t (not_int (raw t))
  else if ch =? 98 then with_noblock t (not_int (noblock t))
  else if ch =? 115 then with_noscroll t (not_int (noscroll t))
  else p_putchar_plain 63 (with_escape t 0).

Definition p_escape_parse (ch : Z) (t : tty_t) : tty_t :=
  if (48 <=? ch) && (ch <=? 57) then esc_digit ch t
  else if ch =? 91 then t
  else if ch =? 59 then with_esc_default (with_esc_value t Esc1) Esc1
  else esc_reset (p_escape_final ch t).

Definition p_putchar (ch : Z) (t : tty_t) : tty_t :=
  if escape t =? 0 then p_putchar_plain ch t else p_escape_parse ch t.

(** The explicit parameters of [H] are at least 1: the terminal is not about to
    leave the screen.  (Every other character is harmless.) *)
Definition home_ok (ch : Z) (t : tty_t) : Prop :=
  escape t <> 0 -> ch = 72 ->
  (esc_default0 t = 0 -> 1 <= esc_value0 t < 2 ^ 31) /\
  (esc_default1 t = 0 -> 1 <= esc_value1 t < 2 ^ 31).

(** [f] acts on terminal [w] as the replacement of [t] by [t'], in every console. *)
Definition acts (w : Z) (f : console -> option console) (t t' : tty_t) : Prop :=
  forall c, cons_ok c -> tty_at w c = Some t -> f c = Some (put w t' c).

(** The same when the mirror may be out of date. *)
Definition acts_dirty (w : Z) (f : console -> option console) (t t' : tty_t) : Prop :=
  forall c, zlen (ttys c) = KRNL_TTY_COUNT -> zlen (video_mem c) = SCREEN ->
    tty_at w c = Some t ->
    exists v, f c = Some (MkConsole (<[Z.to_nat w := t']> (ttys c)) (current_tty c) v) /\
      zlen v = SCREEN /\ (w <> current_tty c -> v = video_mem c).

(** ** Lemmas: replacing a terminal *)

Ltac screen := unfold SCREEN, VIDEO_BOTTOM, VD_ROWS, VD_COLS, KRNL_TTY_COUNT in *.

Lemma tty_at_range w c t : zlen (ttys c) = KRNL_TTY_COUNT -> tty_at w c = Some t -> 0 <= w < KRNL_TTY_COUNT.
Proof. intros Hl H%zget_Some. lia. Qed.

Lemma tty_at_insert w i t' l cur v t :
  zget l w = Some t ->
  tty_at i (MkConsole (<[Z.to_nat w := t']> l) cur v) =
    if decide (w = i) then Some t' else zget l i.
Proof.
  intros Hw. unfold tty_at. simpl. apply (zget_zset l w i t'). apply zset_ok. by eapply zget_Some.
Qed.

Lemma tty_at_put w t t' c : tty_at w c = Some t -> tty_at w (put w t' c) = Some t'.
Proof. intros H. unfold put. erewrite tty_at_insert by exact H. by rewrite decide_True. Qed.

Lemma put_put w t1 t2 c : put w t2 (put w t1 c) = put w t2 c.
Proof. unfold put. simpl. rewrite list_insert_insert_eq. by destruct (w =? current_tty c). Qed.

Lemma put_id w t c : cons_ok c -> tty_at w c = Some t -> put w t c = c.
Proof.
  intros Hc Ht. destruct c as [l cur v]. unfold put; simpl.
  pose proof (tty_at_range _ _ _ (cok_count _ Hc) Ht) as Hw. unfold tty_at in *. simpl in *.
  rewrite list_insert_id by (by rewrite <- zget_lookup by lia).
  destruct (Z.eqb_spec w cur) as [->|]; [|done]. by rewrite <- (cok_video _ Hc t Ht).
Qed.

Lemma put_ok w t t' c : cons_ok c -> tty_at w c = Some t -> tty_ok t' -> cons_ok (put w t' c).
Proof.
  intros Hc Ht Hok. split; simpl.
  - rewrite zlen_insert. apply Hc.
  - apply Hc.
  - intros i u. unfold put. erewrite tty_at_insert by exact Ht. case_decide; [by intros [= <-]|].
    apply (cok_ttys _ Hc).
  - intros u. unfold put. simpl. erewrite tty_at_insert by exact Ht. case_decide.
    + intros [= <-]. subst. by rewrite Z.eqb_refl.
    + apply Z.eqb_neq in H as ->. apply (cok_video _ Hc).
Qed.

Lemma set_tty_eq w t t' c : tty_at w c = Some t ->
  set_tty w t' c = Some (MkConsole (<[Z.to_nat w := t']> (ttys c)) (current_tty c) (video_mem c)).
Proof. intros H. unfold set_tty. rewrite zset_ok by (by eapply zget_Some). done. Qed.

(** ** Lemmas: sequencing *)

Lemma option_bind_assoc' {A B C} (m : option A) (f : A -> option B) (g : B -> option C) :
  (m ≫= fun x => f x ≫= g) = (m ≫= f) ≫= g.
Proof. by destruct m. Qed.

Lemma acts_ret w t : acts w Some t t.
Proof. intros c Hc Ht. by rewrite (put_id w t c). Qed.

Lemma acts_bind w f g t t1 t2 :
  acts w f t t1 -> tty_ok t1 -> acts w g t1 t2 -> acts w (fun c => f c ≫= g) t t2.
Proof.
  intros Hf H1 Hg c Hc Ht. rewrite (Hf c Hc Ht). simpl.
  rewrite Hg; [by rewrite put_put|by eapply put_ok|by eapply tty_at_put].
Qed.

Lemma acts_get w k t t' : acts w (k t) t t' -> acts w (fun c => tty_at w c ≫= fun x => k x c) t t'.
Proof. intros H c Hc Ht. rewrite Ht. simpl. by apply H. Qed.

Lemma acts_upd w f t t' : f t = t' -> field t' = field t -> acts w (upd_tty w f) t t'.
Proof.
  intros <- Hf c Hc Ht. unfold upd_tty. rewrite Ht. simpl. erewrite set_tty_eq by done.
  unfold put. rewrite Hf. destruct (Z.eqb_spec w (current_tty c)) as [->|]; [|done].
  by rewrite (cok_video _ Hc _ Ht).
Qed.

Lemma acts_poke w off v t :
  tty_ok t -> 0 <= off < SCREEN -> acts w (poke w off v) t (p_poke off v t).
Proof.
  intros Hok Hoff c Hc Ht. unfold poke. rewrite Ht. simpl.
  rewrite (zset_ok (field t)) by (rewrite (tok_field _ Hok); lia). simpl.
  erewrite set_tty_eq by done. simpl. unfold put, p_poke.
  destruct (Z.eqb_spec w (current_tty c)) as [->|]; [|done].
  rewrite (cok_video _ Hc _ Ht), zset_ok by (rewrite (tok_field _ Hok); lia). done.
Qed.

Lemma dirty_set w t t' : acts_dirty w (set_tty w t') t t'.
Proof. intros c Hl Hv Ht. eexists. split; [by eapply set_tty_eq|done]. Qed.

Lemma dirty_poke w off v t :
  tty_ok t -> 0 <= off < SCREEN -> acts_dirty w (poke w off v) t (p_poke off v t).
Proof.
  intros Hok Hoff c Hl Hv Ht. unfold poke. rewrite Ht. simpl.
  rewrite (zset_ok (field t)) by (rewrite (tok_field _ Hok); lia). simpl.
  erewrite set_tty_eq by done. simpl. destruct (Z.eqb_spec w (current_tty c)) as [->|]; [|by eexists].
  rewrite zset_ok by lia. simpl. eexists. split; [done|]. by rewrite zlen_insert.
Qed.

Lemma dirty_bind w f g t t1 t2 :
  acts_dirty w f t t1 -> acts_dirty w g t1 t2 -> acts_dirty w (fun c => f c ≫= g) t t2.
Proof.
  intros Hf Hg c Hl Hv Ht. destruct (Hf c Hl Hv Ht) as (v & -> & Hv' & Hne). simpl.
  destruct (Hg (MkConsole (<[Z.to_nat w:=t1]> (ttys c)) (current_tty c) v)) as (v2 & -> & Hv2 & Hne2);
    simpl in *.
  - by rewrite zlen_insert.
  - done.
  - erewrite tty_at_insert by exact Ht. by rewrite decide_True.
  - rewrite list_insert_insert_eq. exists v2. split; [done|]. split; [done|].
    intros H. rewrite Hne2 by done. by apply Hne.
Qed.

Lemma copy_field (f v : list Z) : zlen f = SCREEN -> zlen v = SCREEN ->
  zfor (Z.to_nat SCREEN) 0 (fun i m => b ← zget f i; zset m i b) v = Some f.
Proof.
  intros Hf Hv.
  destruct (zfor_inv (fun k m => zlen m = SCREEN /\ forall i, 0 <= i < k -> zget m i = zget f i)
    (Z.to_nat SCREEN) 0 (fun i m => b ← zget f i; zset m i b) v) as (m & -> & Hm & Hi).
  - split; [done|]. lia.
  - intros k m Hk [Hm Hi]. destruct (zget_is_Some f k) as [b Hb]; [screen; lia|]. rewrite Hb. simpl.
    rewrite zset_ok by (screen; lia). eexists. split; [done|]. split; [by rewrite zlen_insert|].
    intros i Hi'. rewrite (zget_zset m k i b) by (apply zset_ok; screen; lia).
    case_decide; [by subst|]. apply Hi. lia.
  - f_equal. apply zget_ext. intros i. destruct (decide (0 <= i < SCREEN)).
    + apply Hi. screen; lia.
    + rewrite !(proj2 (zget_None _ _)); [done|lia..].
Qed.

Lemma acts_refresh w f t t' :
  tty_ok t' -> acts_dirty w f t t' -> acts w (fun c => f c ≫= tty_refresh w) t t'.
Proof.
  intros Hok Hf c Hc Ht.
  assert (zlen (video_mem c) = SCREEN) as Hv.
  { destruct (zget_is_Some (ttys c) (current_tty c)) as [u Hu].
    { rewrite (cok_count _ Hc). apply Hc. }
    rewrite (cok_video _ Hc u Hu). apply (cok_ttys _ Hc (current_tty c) u Hu). }
  destruct (Hf c (cok_count _ Hc) Hv Ht) as (v & -> & Hv' & Hne). simpl.
  unfold tty_refresh, put. simpl. destruct (Z.eqb_spec w (current_tty c)) as [->|Hw].
  - erewrite tty_at_insert by exact Ht. rewrite decide_True by done. simpl.
    change (VD_ROWS * VD_COLS) with SCREEN. rewrite copy_field; [done|apply Hok|done].
  - by rewrite Hne.
Qed.

(** ** Lemmas: the loops over a field *)

Lemma cells_S n ch a : cells (S n) ch a = ch :: a :: cells n ch a.
Proof. done. Qed.

Lemma cells_len n ch a : zlen (cells n ch a) = 2 * Z.of_nat n.
Proof. induction n as [|n IH]; [done|]. rewrite cells_S. rewrite !zlen_cons, IH. lia. Qed.

Lemma cells_get n ch a i : 0 <= i < 2 * Z.of_nat n ->
  zget (cells n ch a) i = Some (if i mod 2 =? 0 then ch else a).
Proof.
  revert i. induction n as [|n IH]; intros i Hi; [lia|]. rewrite cells_S. rewrite !zget_cons.
  destruct (decide (i = 0)) as [->|]; [done|]. case_decide.
  - by replace i with 1 by lia.
  - rewrite IH by lia. by replace ((i - 1 - 1) mod 2) with (i mod 2) by zdml.
Qed.

Lemma scroll_up_ok f : zlen f = SCREEN ->
  exists f', scroll_up f = Some f' /\ zlen f' = SCREEN /\
    forall i, 0 <= i < SCREEN - VD_COLS -> zget f' i = zget f (i + VD_COLS).
Proof.
  intros Hf. unfold scroll_up.
  destruct (zfor_inv (fun k g => zlen g = SCREEN /\
      (forall i, 0 <= i < k -> zget g i = zget f (i + VD_COLS)) /\
      (forall i, k <= i -> zget g i = zget f i))
    (Z.to_nat (VIDEO_BOTTOM - VD_COLS + 1)) 0
    (fun i f => b ← zget f (i + VD_COLS); zset f i b) f) as (g & -> & Hg & Hi & _).
  - split; [done|]. split; [lia|done].
  - intros k g Hk (Hg & Hlo & Hhi).
    destruct (zget_is_Some g (k + VD_COLS)) as [b Hb]; [screen; lia|]. rewrite Hb. simpl.
    rewrite zset_ok by (screen; lia). eexists. split; [done|]. split; [by rewrite zlen_insert|].
    split; intros i Hi; rewrite (zget_zset g k i b) by (apply zset_ok; screen; lia); case_decide.
    + subst. rewrite <- Hb. apply Hhi. screen; lia.
    + apply Hlo. lia.
    + lia.
    + apply Hhi. lia.
  - exists g. split; [done|]. split; [done|]. intros i Hi'. apply Hi. screen; lia.
Qed.

Lemma clear_last_line_ok pal f : zlen f = SCREEN ->
  exists f', clear_last_line pal f = Some f' /\ zlen f' = SCREEN /\
    (forall i, 0 <= i < SCREEN - VD_COLS -> zget f' i = zget f i) /\
    (forall i, SCREEN - VD_COLS <= i < SCREEN -> zget f' i = Some (if i mod 2 =? 0 then 32 else pal)).
Proof.
  intros Hf. unfold clear_last_line.
  destruct (zfor_inv (fun k g => zlen g = SCREEN /\
      (forall i, 0 <= i < SCREEN - 2 * k -> zget g i = zget f i) /\
      (forall i, SCREEN - 2 * k <= i < SCREEN -> zget g i = Some (if i mod 2 =? 0 then 32 else pal)))
    (Z.to_nat (VD_COLS / 2)) 0
    (fun k f => last_line_step pal (VIDEO_BOTTOM - 2 * k) f) f)
    as (g & -> & Hg & Hlo & Hhi).
  - split; [done|]. split; [done|lia].
  - intros k g Hk (Hg & Hlo & Hhi). change (VD_COLS / 2) with 80 in Hk.
    unfold last_line_step. rewrite (zset_ok g) by (screen; lia). simpl.
    rewrite zset_ok by (rewrite zlen_insert; screen; lia). eexists. split; [done|].
    split; [by rewrite !zlen_insert|].
    split; intros i Hi; rewrite (zget_zset (<[_:=pal]> g) (VIDEO_BOTTOM - 2 * k - 1) i 32)
      by (apply zset_ok; rewrite zlen_insert; screen; lia);
      rewrite (zget_zset g (VIDEO_BOTTOM - 2 * k) i pal) by (apply zset_ok; screen; lia);
      repeat case_decide; screen; try lia.
    + apply Hlo. lia.
    + subst i. by replace ((25 * 160 - 1 - 2 * k - 1) mod 2) with 0 by zdml.
    + subst i. by replace ((25 * 160 - 1 - 2 * k) mod 2) with 1 by zdml.
    + apply Hhi. lia.
  - exists g. split; [done|]. split; [done|]. change (VD_COLS / 2) with 80 in *.
    split; intros i Hi; [apply Hlo|apply Hhi]; screen; lia.
Qed.

Lemma blank_field_ok pal f : zlen f = SCREEN ->
  blank_field pal f = Some (cells (Z.to_nat (SCREEN / 2)) 32 pal).
Proof.
  intros Hf. unfold blank_field.
  destruct (zfor_inv (fun k g => zlen g = SCREEN /\
      (forall i, 0 <= i < 2 * k -> zget g i = Some (if i mod 2 =? 0 then 32 else pal)))
    (Z.to_nat ((VIDEO_BOTTOM + 1) / 2)) 0
    (fun k f => blank_step pal (2 * k) f) f)
    as (g & -> & Hg & Hi).
  - split; [done|]. lia.
  - intros k g Hk (Hg & Hlo). change ((VIDEO_BOTTOM + 1) / 2) with 2000 in Hk.
    unfold blank_step. rewrite (zset_ok g) by (screen; lia). simpl.
    rewrite zset_ok by (rewrite zlen_insert; screen; lia). eexists. split; [done|].
    split; [by rewrite !zlen_insert|].
    intros i Hi; rewrite (zget_zset (<[_:=32]> g) (2 * k + 1) i pal)
      by (apply zset_ok; rewrite zlen_insert; screen; lia);
      rewrite (zget_zset g (2 * k) i 32) by (apply zset_ok; screen; lia);
      repeat case_decide; screen; try lia.
    + subst i. by replace ((2 * k + 1) mod 2) with 1 by zdml.
    + subst i. by replace ((2 * k) mod 2) with 0 by zdml.
    + apply Hlo. lia.
  - f_equal. apply zget_ext. intros i. change ((VIDEO_BOTTOM + 1) / 2) with 2000 in Hi.
    change (SCREEN / 2) with 2000.
    assert (Hlen : zlen (cells (Z.to_nat 2000) 32 pal) = SCREEN) by (rewrite cells_len; done).
    destruct (decide (0 <= i < SCREEN)).
    + rewrite cells_get by (screen; lia). apply Hi. screen; lia.
    + by rewrite !(proj2 (zget_None _ _)) by lia.
Qed.

Lemma scroll_field pal f : zlen f = SCREEN ->
  (f ← scroll_up f; clear_last_line pal f) =
    Some (drop (Z.to_nat VD_COLS) f ++ cells (Z.to_nat (VD_COLS / 2)) 32 pal).
Proof.
  intros Hf. destruct (scroll_up_ok f Hf) as (g & -> & Hg & Hup). simpl.
  destruct (clear_last_line_ok pal g Hg) as (h & -> & Hh & Hlo & Hhi). f_equal.
  assert (Hd : zlen (drop (Z.to_nat VD_COLS) f) = SCREEN - VD_COLS).
  { unfold zlen in *. rewrite length_drop. screen. lia. }
  apply zget_ext. intros i. rewrite zget_app, Hd. case_decide.
  - destruct (decide (0 <= i)).
    + rewrite Hlo, Hup, zget_drop by (screen; lia). f_equal. lia.
    + by rewrite !(proj2 (zget_None _ _)) by lia.
  - assert (Hlen : zlen (cells (Z.to_nat (VD_COLS / 2)) 32 pal) = VD_COLS).
    { rewrite cells_len. done. }
    destruct (decide (i < SCREEN)).
    + rewrite Hhi by lia. rewrite cells_get by (change (VD_COLS / 2) with 80; screen; lia).
      by replace ((i - (SCREEN - VD_COLS)) mod 2) with (i mod 2) by (screen; zdml).
    + rewrite !(proj2 (zget_None _ _)); [done|lia..].
Qed.

(** ** Lemmas: each operation acts as its abstract counterpart *)

Lemma poke_ok off v t : tty_ok t -> tty_ok (p_poke off v t).
Proof. intros [H1 H2 H3]. split; simpl; [by rewrite zlen_insert|done..]. Qed.
Lemma field_ok t f : tty_ok t -> zlen f = SCREEN -> tty_ok (with_field t f).
Proof. intros [H1 H2 H3] Hf. by split. Qed.
Lemma offset_ok t o : tty_ok t -> 0 <= o <= SCREEN - 2 -> o mod 2 = 0 -> tty_ok (with_cursor_offset t o).
Proof. intros [H1 H2 H3] Ho He. by split. Qed.
Lemma same_ok t t' : tty_ok t -> field t' = field t -> cursor_offset t' = cursor_offset t -> tty_ok t'.
Proof. intros [H1 H2 H3] Hf Ho. split; by rewrite ?Hf, ?Ho. Qed.

Lemma clear_cursor_ok t : tty_ok t -> tty_ok (p_clear_cursor t).
Proof. apply poke_ok. Qed.
Lemma draw_cursor_ok t : tty_ok t -> tty_ok (p_draw_cursor t).
Proof. intros H. unfold p_draw_cursor. destruct (cursor_status t =? 0); [done|by apply poke_ok]. Qed.
Lemma scroll_ok t : tty_ok t -> tty_ok (p_scroll t).
Proof.
  intros H. apply field_ok; [done|]. rewrite zlen_app, cells_len. pose proof (tok_field _ H) as Hl.
  unfold zlen in *. rewrite length_drop. change (VD_COLS / 2) with 80. screen. lia.
Qed.
Lemma set_pos_ok x y t : tty_ok t -> 0 <= x < VD_COLS / 2 -> 0 <= y < VD_ROWS -> tty_ok (p_set_pos x y t).
Proof.
  intros H Hx Hy. apply draw_cursor_ok, offset_ok; [by apply clear_cursor_ok|..];
    change (VD_COLS / 2) with 80 in *; screen; [lia|zdml].
Qed.
#[local] Hint Resolve poke_ok clear_cursor_ok draw_cursor_ok scroll_ok set_pos_ok : mach.

Lemma pos_range t : tty_ok t -> 0 <= pos_x t < VD_COLS / 2 /\ 0 <= pos_y t < VD_ROWS.
Proof. intros [_ H _]. unfold pos_x, pos_y. change (VD_COLS / 2) with 80. screen. zdml. Qed.

Lemma acts_clear_cursor w t : tty_ok t -> acts w (clear_cursor w) t (p_clear_cursor t).
Proof.
  intros H. apply (acts_get w (fun t => poke w (u32 (cursor_offset t + 1)) (text_palette t))).
  pose proof (tok_offset _ H). rewrite u32_small by (screen; lia). apply acts_poke; [done|lia].
Qed.

Lemma acts_draw_cursor w t : tty_ok t -> acts w (draw_cursor w) t (p_draw_cursor t).
Proof.
  intros H c Hc Ht. unfold draw_cursor, p_draw_cursor. rewrite Ht. simpl.
  destruct (cursor_status t =? 0); [by rewrite (put_id w t c)|].
  pose proof (tok_offset _ H). rewrite u32_small by (screen; lia). by apply acts_poke; [|lia|..].
Qed.

Lemma dirty_draw_cursor w t : tty_ok t -> acts_dirty w (draw_cursor w) t (p_draw_cursor t).
Proof.
  intros H c Hl Hv Ht. unfold draw_cursor, p_draw_cursor. rewrite Ht. simpl.
  destruct (cursor_status t =? 0).
  - pose proof (tty_at_range _ _ _ Hl Ht) as Hw. unfold tty_at in Ht. exists (video_mem c).
    rewrite list_insert_id by (by rewrite <- zget_lookup by lia). by destruct c.
  - pose proof (tok_offset _ H). rewrite u32_small by (screen; lia). by apply dirty_poke; [|lia|..].
Qed.

Lemma acts_scroll w t : tty_ok t -> acts w (scroll w) t (p_scroll t).
Proof.
  intros H c Hc Ht. unfold scroll. rewrite Ht. simpl.
  pose proof (scroll_field (text_palette t) (field t) (tok_field _ H)) as Hs.
  destruct (scroll_up (field t)) as [g|]; [|done]. simpl in *. rewrite Hs. simpl.
  refine (acts_refresh w (set_tty w (p_scroll t)) t (p_scroll t) _ _ c Hc Ht);
    [by apply scroll_ok|apply dirty_set].
Qed.

Lemma acts_clear_no_move w t : tty_ok t ->
  acts w (text_clear_no_move w) t (p_clear_no_move t).
Proof.
  intros H. unfold text_clear_no_move.
  eapply acts_bind; [by apply acts_clear_cursor|by apply clear_cursor_ok|].
  intros c Hc Ht. rewrite Ht. simpl.
  rewrite blank_field_ok by (simpl; rewrite zlen_insert; apply H). simpl.
  set (f := cells _ _ _).
  assert (tty_ok (with_field t f)) as Hf by (apply field_ok; [done|apply cells_len]).
  change (with_field (p_clear_cursor t) f) with (with_field t f).
  rewrite option_bind_assoc'.
  refine (acts_refresh w (fun c => set_tty w (with_field t f) c ≫= draw_cursor w) _ _ _ _ c Hc Ht).
  - by apply draw_cursor_ok.
  - eapply dirty_bind; [apply dirty_set|by apply dirty_draw_cursor].
Qed.

Lemma acts_set_pos w x y t : tty_ok t -> 0 <= x < VD_COLS / 2 -> 0 <= y < VD_ROWS ->
  acts w (text_set_cursor_pos x y w) t (p_set_pos x y t).
Proof.
  intros H Hx Hy. unfold text_set_cursor_pos, p_set_pos.
  change (VD_COLS / 2) with 80 in *.
  eapply acts_bind; [by apply acts_clear_cursor|by apply clear_cursor_ok|].
  eapply acts_bind; [apply acts_upd; [reflexivity|done]|..].
  - apply offset_ok; [by apply clear_cursor_ok|..]; rewrite u32_small by (screen; lia); screen; [lia|zdml].
  - rewrite u32_small by (screen; lia). apply acts_draw_cursor.
    apply offset_ok; [by apply clear_cursor_ok|..]; screen; [lia|zdml].
Qed.

Lemma acts_newline w t : tty_ok t -> 
  acts w (putchar_plain 0x0A w) t (p_newline t).
Proof.
  intros H. destruct (pos_range t H) as [Hx Hy].
  intros c Hc Ht. unfold putchar_plain, text_get_cursor_pos_y. simpl. rewrite Ht. simpl.
  unfold p_newline. destruct (Z.eqb_spec (pos_y t) (VD_ROWS - 1)).
  - revert c Hc Ht. eapply acts_bind; [by apply acts_clear_cursor|by apply clear_cursor_ok|].
    eapply acts_bind; [by apply acts_scroll, clear_cursor_ok|by apply scroll_ok, clear_cursor_ok|].
    apply acts_set_pos; [by apply scroll_ok, clear_cursor_ok|done|done].
  - revert c Hc Ht. apply acts_set_pos; [done|done|lia].
Qed.

Lemma acts_backspace w t : tty_ok t -> acts w (putchar_plain 0x08 w) t (p_backspace t).
Proof.
  intros H. unfold p_backspace. pose proof H as [_ Ho He].
  intros c Hc Ht. unfold putchar_plain. simpl. rewrite Ht. simpl.
  destruct (Z.eqb_spec (cursor_offset t) 0); [by rewrite (put_id w t c)|]. revert c Hc Ht.
  assert (2 <= cursor_offset t) by zdml. 
  eapply acts_bind; [by apply acts_clear_cursor|by apply clear_cursor_ok|].
  assert (tty_ok (with_cursor_offset (p_clear_cursor t) (cursor_offset t - 2))) as Hok.
  { apply offset_ok; [by apply clear_cursor_ok|screen; lia|zdml]. }
  eapply acts_bind; [apply acts_upd; [simpl; rewrite u32_small by (screen; lia); reflexivity|done]|done|].
  apply (acts_get w (fun t' c => poke w (cursor_offset t') 32 c ≫= draw_cursor w)).
  eapply acts_bind; [apply acts_poke; [done|simpl; screen; lia]|by apply poke_ok|].
  by apply acts_draw_cursor, poke_ok.
Qed.

Lemma print_ok ch t : tty_ok t -> tty_ok (p_print ch t).
Proof.
  intros H. unfold p_print. pose proof H as [_ Ho He].
  apply draw_cursor_ok. simpl. destruct (Z.leb_spec (SCREEN - 2) (cursor_offset t)).
  - destruct (noscroll t =? 0); [|by apply poke_ok, clear_cursor_ok].
    apply offset_ok; [by apply scroll_ok, poke_ok, clear_cursor_ok|screen; lia|done].
  - apply offset_ok; [by apply poke_ok, clear_cursor_ok|screen; zdml|zdml].
Qed.

Lemma acts_print w ch t : tty_ok t -> ch <> 0x00 -> ch <> 0x1B -> ch <> 0x0A -> ch <> 0x08 ->
  acts w (putchar_plain ch w) t (p_print ch t).
Proof.
  intros H N1 N2 N3 N4. unfold putchar_plain. rewrite !(proj2 (Z.eqb_neq _ _)) by done.
  pose proof H as [_ Ho He]. unfold p_print. simpl.
  eapply acts_bind; [by apply acts_clear_cursor|by apply clear_cursor_ok|].
  assert (tty_ok (p_poke (cursor_offset t) ch (p_clear_cursor t))) as Hp by by apply poke_ok, clear_cursor_ok.
  intros c Hc Ht. rewrite Ht. simpl. revert c Hc Ht.
  eapply acts_bind; [apply acts_poke; [by apply clear_cursor_ok|screen; lia]|done|].
  change (VIDEO_BOTTOM - 1) with (SCREEN - 2).
  change (VIDEO_BOTTOM - (VD_COLS - 1)) with (SCREEN - VD_COLS).
  destruct (Z.leb_spec (SCREEN - 2) (cursor_offset t)); [destruct (noscroll t =? 0)|].
  - assert (tty_ok (with_cursor_offset (p_scroll (p_poke (cursor_offset t) ch (p_clear_cursor t)))
      (SCREEN - VD_COLS))) as Hs by (apply offset_ok; [by apply scroll_ok|done|done]).
    eapply acts_bind; [|exact Hs|by apply acts_draw_cursor].
    eapply acts_bind; [by apply acts_scroll|by apply scroll_ok|by apply acts_upd].
  - by apply (acts_draw_cursor w (p_poke (cursor_offset t) ch (p_clear_cursor t))).
  - assert (tty_ok (with_cursor_offset (p_poke (cursor_offset t) ch (p_clear_cursor t))
      (cursor_offset t + 2))) as Hs by (apply offset_ok; [done|screen; zdml|zdml]).
    eapply acts_bind; [|exact Hs|by apply acts_draw_cursor].
    apply acts_upd; [|done]. simpl. by rewrite u32_small by (screen; lia).
Qed.

Lemma newline_ok t : tty_ok t -> tty_ok (p_newline t).
Proof.
  intros H. destruct (pos_range t H) as [_ Hy]. unfold p_newline.
  destruct (Z.eqb_spec (pos_y t) (VD_ROWS - 1)); apply set_pos_ok; auto with mach; change (VD_COLS / 2) with 80; screen; lia.
Qed.

Lemma backspace_ok t : tty_ok t -> tty_ok (p_backspace t).
Proof.
  intros H. pose proof H as [_ Ho He]. unfold p_backspace.
  destruct (Z.eqb_spec (cursor_offset t) 0); [done|].
  apply draw_cursor_ok, poke_ok, offset_ok; [by apply clear_cursor_ok|simpl; zdml..].
Qed.

Lemma putchar_plain_ok ch t : tty_ok t -> tty_ok (p_putchar_plain ch t).
Proof.
  intros H. unfold p_putchar_plain.
  repeat case_match; [done|by apply (same_ok t)|by apply newline_ok|by apply backspace_ok|by apply print_ok].
Qed.

Lemma acts_putchar_plain w ch t : tty_ok t -> acts w (putchar_plain ch w) t (p_putchar_plain ch t).
Proof.
  intros H. unfold p_putchar_plain.
  destruct (Z.eqb_spec ch 0) as [->|N1]; [apply acts_ret|].
  destruct (Z.eqb_spec ch 0x1B) as [->|N2]; [by apply acts_upd|].
  destruct (Z.eqb_spec ch 0x0A) as [->|N3]; [by apply acts_newline|].
  destruct (Z.eqb_spec ch 0x08) as [->|N4]; [by apply acts_backspace|].
  by apply acts_print.
Qed.

(** ** Lemmas: escape sequences *)

Lemma esc0_id t : with_esc_value0 t (esc_value0 t) = t.
Proof. by destruct t. Qed.

Lemma default_one_eq t :
  default_one t = with_esc_value0 t (if esc_default0 t =? 0 then esc_value0 t else 1).
Proof. unfold default_one. destruct (esc_default0 t =? 0); [by rewrite esc0_id|done]. Qed.

Lemma param_eq t : u32 (if esc_default0 t =? 0 then esc_value0 t else 1) = param t.
Proof. unfold param. by destruct (esc_default0 t =? 0). Qed.

Lemma reset_set_pos x y t t1 :
  with_esc_value1 (with_esc_value0 t1 0) 0 = with_esc_value1 (with_esc_value0 t 0) 0 ->
  esc_reset (p_set_pos x y t1) = esc_reset (p_set_pos x y t).
Proof.
  intros E. destruct t, t1. simpl in E. unfold with_esc_value1, with_esc_value0 in E. simpl in E.
  injection E as -> -> -> -> -> -> -> -> -> -> -> -> -> -> -> -> ->.
  unfold p_set_pos, p_draw_cursor. simpl. by destruct (_ =? 0).
Qed.

Lemma acts_move w (upd : tty_t -> tty_t) (X Y : tty_t -> Z) t v x y :
  tty_ok t -> upd (default_one t) = with_esc_value0 t v ->
  X (with_esc_value0 t v) = x -> Y (with_esc_value0 t v) = y ->
  0 <= x < VD_COLS / 2 -> 0 <= y < VD_ROWS ->
  acts w (fun c => c ← upd_tty w default_one c; c ← upd_tty w upd c; t ← tty_at w c;
            text_set_cursor_pos (X t) (Y t) w c) t (p_set_pos x y (with_esc_value0 t v)).
Proof.
  intros H Hu HX HY Hx Hy.
  assert (tty_ok (default_one t)) as Hd by (rewrite default_one_eq; by apply (same_ok t)).
  assert (tty_ok (with_esc_value0 t v)) as Hv by by apply (same_ok t).
  eapply acts_bind; [apply acts_upd; [done|]|done|]; [by rewrite default_one_eq|].
  eapply acts_bind; [apply acts_upd; [exact Hu|]|done|]; [by rewrite default_one_eq|].
  apply (acts_get w (fun t c => text_set_cursor_pos (X t) (Y t) w c)).
  rewrite HX, HY. by apply acts_set_pos.
Qed.

Lemma u32_sub a v : u32 (a - v) = u32 (a - u32 v).
Proof. unfold u32. by rewrite Zminus_mod_idemp_r. Qed.
Lemma u32_add a v : u32 (a + v) = u32 (a + u32 v).
Proof. unfold u32. by rewrite Zplus_mod_idemp_r. Qed.

Lemma param_range t : 0 <= param t.
Proof. unfold param. destruct (_ =? 0); [|done]. pose proof (u32_range (esc_value0 t)). lia. Qed.

(** The first parameter after the default has been applied. *)
Definition arg0 (t : tty_t) : Z := if esc_default0 t =? 0 then esc_value0 t else 1.

Lemma moves_sub p t : 0 <= p < 80 ->
  let v := if p <? u32 (arg0 t) then p else arg0 t in
  u32 (p - v) = p - Z.min p (param t).
Proof.
  intros Hp v. unfold v. rewrite <- (param_eq t). fold (arg0 t).
  pose proof (u32_range (arg0 t)). destruct (Z.ltb_spec p (u32 (arg0 t))).
  - rewrite u32_small by lia. lia.
  - rewrite u32_sub, u32_small by lia. lia.
Qed.

Lemma moves_add p last t : 0 <= p <= last -> last < 80 ->
  let v := if last <? u32 (p + arg0 t) then s32 (last - p) else arg0 t in
  u32 (p + v) = clip last (u32 (p + param t)).
Proof.
  intros Hp Hl v. unfold v. rewrite <- (param_eq t). fold (arg0 t).
  rewrite <- u32_add. unfold clip. destruct (Z.ltb_spec last (u32 (p + arg0 t))); [|done].
  rewrite s32_small, u32_small by lia. lia.
Qed.

Lemma clip_range last s : 0 <= last -> 0 <= s -> 0 <= clip last s < last + 1.
Proof. intros. unfold clip. destruct (Z.ltb_spec last s); lia. Qed.

Ltac default_step t := intros; rewrite default_one_eq; fold (arg0 t); simpl;
  change (pos_y (with_esc_value0 t (arg0 t))) with (pos_y t);
  change (pos_x (with_esc_value0 t (arg0 t))) with (pos_x t);
  destruct (_ <? _); reflexivity.

Lemma acts_up w t : tty_ok t -> exists v,
  acts w (cursor_up w) t (p_set_pos (pos_x t) (pos_y t - Z.min (pos_y t) (param t)) (with_esc_value0 t v)).
Proof.
  intros H. destruct (pos_range t H) as [Hx Hy]. pose proof (param_range t).
  exists (if pos_y t <? u32 (arg0 t) then pos_y t else arg0 t).
  apply (acts_move w _ pos_x (fun t => u32 (pos_y t - esc_value0 t))); try done; [default_step t|..].
  - apply moves_sub. screen. lia.
  - lia.
Qed.

Lemma acts_left w t : tty_ok t -> exists v,
  acts w (cursor_left w) t (p_set_pos (pos_x t - Z.min (pos_x t) (param t)) (pos_y t) (with_esc_value0 t v)).
Proof.
  intros H. destruct (pos_range t H) as [Hx Hy]. pose proof (param_range t).
  change (VD_COLS / 2) with 80 in *.
  exists (if pos_x t <? u32 (arg0 t) then pos_x t else arg0 t).
  apply (acts_move w _ (fun t => u32 (pos_x t - esc_value0 t)) pos_y); try done; [default_step t|..].
  - by apply moves_sub.
  - change (VD_COLS / 2) with 80 in *. lia.
Qed.

Lemma acts_down w t : tty_ok t -> exists v,
  acts w (cursor_down w) t
    (p_set_pos (pos_x t) (clip (VD_ROWS - 1) (u32 (pos_y t + param t))) (with_esc_value0 t v)).
Proof.
  intros H. destruct (pos_range t H) as [Hx Hy]. pose proof (u32_range (pos_y t + param t)).
  exists (if VD_ROWS - 1 <? u32 (pos_y t + arg0 t) then s32 (VD_ROWS - 1 - pos_y t) else arg0 t).
  apply (acts_move w _ pos_x (fun t => u32 (pos_y t + esc_value0 t))); try done; [default_step t|..].
  - apply moves_add; screen; lia.
  - pose proof (clip_range (VD_ROWS - 1) (u32 (pos_y t + param t))). screen. lia.
Qed.

Lemma acts_right w t : tty_ok t -> exists v,
  acts w (cursor_right w) t
    (p_set_pos (clip (VD_COLS / 2 - 1) (u32 (pos_x t + param t))) (pos_y t) (with_esc_value0 t v)).
Proof.
  intros H. destruct (pos_range t H) as [Hx Hy]. pose proof (u32_range (pos_x t + param t)).
  exists (if VD_COLS / 2 - 1 <? u32 (pos_x t + arg0 t) then s32 (VD_COLS / 2 - 1 - pos_x t) else arg0 t).
  apply (acts_move w _ (fun t => u32 (pos_x t + esc_value0 t)) pos_y); try done; [default_step t|..].
  - change (VD_COLS / 2) with 80 in *. apply moves_add; lia.
  - pose proof (clip_range (VD_COLS / 2 - 1) (u32 (pos_x t + param t))).
    change (VD_COLS / 2) with 80 in *. lia.
Qed.

Lemma home_param_eq d v bound : 0 < bound < 2 ^ 31 -> (d = 0 -> 1 <= v < 2 ^ 31) ->
  home_param d v bound = home_coord d v (bound - 1).
Proof.
  intros Hb Hv. unfold home_param, home_coord, clip. destruct (Z.eqb_spec d 0).
  - rewrite s32_small by lia. destruct (Z.leb_spec bound (v - 1)), (Z.ltb_spec (bound - 1) (v - 1)); lia.
  - destruct (Z.leb_spec bound 0); lia.
Qed.

Lemma home_params_eq t : home_ok 72 t -> escape t <> 0 ->
  home_params t = with_esc_value1 (with_esc_value0 t
      (home_coord (esc_default0 t) (esc_value0 t) (VD_ROWS - 1)))
    (home_coord (esc_default1 t) (esc_value1 t) (VD_COLS / 2 - 1)).
Proof.
  intros Hh He. destruct (Hh He eq_refl). unfold home_params. by rewrite !home_param_eq.
Qed.

Lemma home_range d v last : 0 <= last -> (d = 0 -> 1 <= v < 2 ^ 31) ->
  0 <= home_coord d v last < last + 1.
Proof.
  intros. unfold home_coord. destruct (Z.eqb_spec d 0); [|lia]. apply clip_range; lia.
Qed.

Lemma acts_home w t : tty_ok t -> home_ok 72 t -> escape t <> 0 -> exists v0 v1,
  acts w (cursor_home w) t
    (p_set_pos (home_coord (esc_default1 t) (esc_value1 t) (VD_COLS / 2 - 1))
      (home_coord (esc_default0 t) (esc_value0 t) (VD_ROWS - 1))
      (with_esc_value1 (with_esc_value0 t v0) v1)).
Proof.
  intros H Hh He. destruct (Hh He eq_refl) as [H0 H1]. unfold cursor_home.
  pose proof (home_range _ _ (VD_ROWS - 1) ltac:(done) H0) as Hy.
  pose proof (home_range _ _ (VD_COLS / 2 - 1) ltac:(done) H1) as Hx.
  set (y := home_coord (esc_default0 t) _ _) in *. set (x := home_coord (esc_default1 t) _ _) in *.
  exists y, x. change (VD_COLS / 2) with 80 in *.
  eapply acts_bind; [apply acts_upd; [by apply home_params_eq|done]|by apply (same_ok t)|].
  apply (acts_get w (fun t c => text_set_cursor_pos (u32 (esc_value1 t)) (u32 (esc_value0 t)) w c)).
  simpl. fold y. change (home_coord (esc_default1 t) (esc_value1 t) (VD_COLS / 2 - 1)) with x.
  rewrite !u32_small by (screen; lia).
  apply acts_set_pos; [by apply (same_ok t)|change (VD_COLS / 2) with 80; lia|lia].
Qed.

Lemma sgr_colour k : 0 <= k <= 7 -> zget ansi_colours k = Some (nth (Z.to_nat k) ansi_colours 0).
Proof.
  intros H. assert (k = 0 \/ k = 1 \/ k = 2 \/ k = 3 \/ k = 4 \/ k = 5 \/ k = 6 \/ k = 7) as Hk by lia.
  repeat destruct Hk as [->|Hk]; [done..|]. by subst.
Qed.

Lemma sgr_ok t : tty_ok t -> tty_ok (p_sgr t).
Proof. intros H. apply (same_ok t); [done|..]; unfold p_sgr; repeat case_match; done. Qed.

Lemma acts_sgr w t : tty_ok t -> acts w (sgr w) t (p_sgr t).
Proof.
  intros H c Hc Ht. unfold sgr. rewrite Ht. cbn [mbind option_bind].
  set (t1 := if esc_value0 t =? 0 then with_text_palette t TTY_DEF_TXT_PAL else t).
  assert ((if esc_value0 t =? 0 then text_set_text_palette TTY_DEF_TXT_PAL w c else Some c)
    = Some (put w t1 c)) as ->.
  { unfold t1. destruct (esc_value0 t =? 0); [by apply (acts_upd w _ t)|by rewrite (put_id w t c)]. }
  cbn [mbind option_bind]. assert (tty_ok t1) as H1.
  { apply (same_ok t); [done|..]; unfold t1; by destruct (_ =? 0). }
  pose proof (put_ok w t t1 c Hc Ht H1) as Hc1. pose proof (tty_at_put w t t1 c Ht) as Ht1.
  assert (forall v, text_set_text_palette v w (put w t1 c) = Some (put w (with_text_palette t1 v) c)) as Hset.
  { intros v. unfold text_set_text_palette. erewrite (acts_upd w _ t1) by done. by rewrite put_put. }
  unfold p_sgr. fold t1. unfold text_get_text_palette. rewrite Ht1. cbn [mbind option_bind].
  destruct ((30 <=? esc_value0 t) && (esc_value0 t <=? 37)) eqn:E1;
    [|destruct ((40 <=? esc_value0 t) && (esc_value0 t <=? 47)) eqn:E2; [|done]];
    bsimp; rewrite sgr_colour by lia; cbn [mbind option_bind]; apply Hset.
Qed.

(** ** Lemmas: the escape state machine *)

Lemma clear_no_move_ok t : tty_ok t -> tty_ok (p_clear_no_move t).
Proof. intros H. apply draw_cursor_ok, field_ok; [done|apply cells_len]. Qed.

(** A sequence is completed: its last character acts, then the parameters are reset. *)
Definition finishes (w : Z) (f : console -> option console) (t t' : tty_t) : Prop :=
  exists t1, acts w f t t1 /\ tty_ok t1 /\ esc_reset t1 = esc_reset t'.

Lemma finishes_acts w f t t' : finishes w f t t' ->
  acts w (fun c => f c ≫= upd_tty w esc_reset) t (esc_reset t').
Proof.
  intros (t1 & Hf & H1 & <-). eapply acts_bind; [done|done|by apply acts_upd].
Qed.

Lemma finishes_plain w f t t' : acts w f t t' -> tty_ok t' -> finishes w f t t'.
Proof. intros Hf Hok. by exists t'. Qed.

Lemma finishes_move w f t x y : tty_ok t -> 0 <= x < VD_COLS / 2 -> 0 <= y < VD_ROWS ->
  (exists v0 v1, acts w f t (p_set_pos x y (with_esc_value1 (with_esc_value0 t v0) v1))) ->
  finishes w f t (p_set_pos x y t).
Proof.
  intros H Hx Hy (v0 & v1 & Hf). eexists. split; [exact Hf|]. split.
  - apply set_pos_ok; [by apply (same_ok t)|done|done].
  - by apply reset_set_pos.
Qed.

Lemma esc1_id t v : with_esc_value1 (with_esc_value0 t v) (esc_value1 t) = with_esc_value0 t v.
Proof. by destruct t. Qed.

Lemma finishes_move1 w f t x y : tty_ok t -> 0 <= x < VD_COLS / 2 -> 0 <= y < VD_ROWS ->
  (exists v, acts w f t (p_set_pos x y (with_esc_value0 t v))) ->
  finishes w f t (p_set_pos x y t).
Proof.
  intros H Hx Hy (v & Hf). apply finishes_move; [done..|]. exists v, (esc_value1 t).
  by rewrite esc1_id.
Qed.

Lemma acts_escape_final w ch t : tty_ok t -> escape t <> 0 -> home_ok ch t ->
  finishes w (escape_final ch w) t (p_escape_final ch t).
Proof.
  intros H He Hh. destruct (pos_range t H) as [Hx Hy]. pose proof (param_range t).
  unfold escape_final, p_escape_final.
  destruct (ch =? 65); [apply finishes_move1; [done|done|lia|by apply acts_up]|].
  destruct (ch =? 66).
  { pose proof (clip_range (VD_ROWS - 1) (u32 (pos_y t + param t)) ltac:(done) ltac:(apply u32_range)).
    apply finishes_move1; [done|done|lia|by apply acts_down]. }
  destruct (ch =? 67).
  { pose proof (clip_range (VD_COLS / 2 - 1) (u32 (pos_x t + param t)) ltac:(done) ltac:(apply u32_range)).
    apply finishes_move1; [done|lia|lia|by apply acts_right]. }
  destruct (ch =? 68); [apply finishes_move1; [done|lia|done|by apply acts_left]|].
  destruct (Z.eqb_spec ch 72) as [->|_].
  { destruct (Hh He eq_refl). apply finishes_move; [done|..|by apply acts_home].
    - pose proof (home_range (esc_default1 t) (esc_value1 t) (VD_COLS / 2 - 1) ltac:(done)). lia.
    - pose proof (home_range (esc_default0 t) (esc_value0 t) (VD_ROWS - 1) ltac:(done)). lia. }
  destruct (ch =? 109); [apply finishes_plain; [by apply acts_sgr|by apply sgr_ok]|].
  destruct (ch =? 74).
  { destruct (esc_value0 t =? 2) eqn:E2; apply finishes_plain; try done.
    - intros c Hc Ht. rewrite Ht. simpl. rewrite E2. by apply acts_clear_no_move.
    - by apply clear_no_move_ok.
    - intros c Hc Ht. rewrite Ht. simpl. rewrite E2. by apply acts_ret. }
  destruct (ch =? 114); [apply finishes_plain; [by apply acts_upd|by apply (same_ok t)]|].
  destruct (ch =? 98); [apply finishes_plain; [by apply acts_upd|by apply (same_ok t)]|].
  destruct (ch =? 115); [apply finishes_plain; [by apply acts_upd|by apply (same_ok t)]|].
  assert (tty_ok (with_escape t 0)) by by apply (same_ok t).
  apply finishes_plain; [|by apply putchar_plain_ok].
  eapply acts_bind; [by apply acts_upd|done|by apply acts_putchar_plain].
Qed.

Lemma esc_digit_same ch t : field (esc_digit ch t) = field t /\ cursor_offset (esc_digit ch t) = cursor_offset t.
Proof.
  unfold esc_digit, set_esc_default, set_esc_value.
  destruct (esc_value t); simpl; destruct (esc_default t); done.
Qed.

Lemma acts_putchar w ch t : tty_ok t -> home_ok ch t ->
  acts w (text_putchar ch w) t (p_putchar ch t).
Proof.
  intros H Hh c Hc Ht. unfold text_putchar. rewrite Ht. simpl. unfold p_putchar.
  destruct (Z.eqb_spec (escape t) 0) as [|He]; [by apply acts_putchar_plain|].
  unfold escape_parse, p_escape_parse. destruct (esc_digit_same ch t).
  destruct (_ && _); [by apply (acts_upd w (esc_digit ch) t)|]. destruct (ch =? 91); [by apply acts_ret|].
  destruct (ch =? 59); [revert c Hc Ht; by apply acts_upd|].
  revert c Hc Ht. by apply finishes_acts, acts_escape_final.
Qed.

Lemma reset_ok t : tty_ok t -> tty_ok (esc_reset t).
Proof. intros H. by apply (same_ok t). Qed.

Lemma putchar_ok ch t : tty_ok t -> home_ok ch t -> tty_ok (p_putchar ch t).
Proof.
  intros H Hh. unfold p_putchar. destruct (Z.eqb_spec (escape t) 0) as [|He]; [by apply putchar_plain_ok|].
  unfold p_escape_parse. destruct (esc_digit_same ch t).
  destruct (_ && _); [by apply (same_ok t)|]. destruct (ch =? 91); [done|].
  destruct (ch =? 59); [by apply (same_ok t)|].
  destruct (acts_escape_final 0 ch t H He Hh) as (t1 & _ & Ht1 & <-). by apply reset_ok.
Qed.
(** ** Strings *)

(** The abstract terminal after a string, and the condition of [home_ok] along it. *)
Fixpoint p_puts (s : list Z) (t : tty_t) : tty_t :=
  match s with [] => t | ch :: s => p_puts s (p_putchar ch t) end.
Fixpoint homes_ok (s : list Z) (t : tty_t) : Prop :=
  match s with [] => True | ch :: s => home_ok ch t /\ homes_ok s (p_putchar ch t) end.

Lemma acts_knputs w s t : tty_ok t -> homes_ok s t -> acts w (tty_knputs s w) t (p_puts s t).
Proof.
  revert t. induction s as [|ch s IH]; intros t H Hh; simpl; [apply acts_ret|].
  destruct Hh as [Hh Hs]. eapply acts_bind; [by apply acts_putchar|by apply putchar_ok|].
  apply IH; [by apply putchar_ok|done].
Qed.

Lemma puts_ok s t : tty_ok t -> homes_ok s t -> tty_ok (p_puts s t).
Proof.
  revert t. induction s as [|ch s IH]; intros t H Hh; simpl; [done|]. destruct Hh.
  apply IH; [by apply putchar_ok|done].
Qed.

Lemma puts_app s k t : p_puts (s ++ k) t = p_puts k (p_puts s t).
Proof. revert t. induction s as [|ch s IH]; intros t; simpl; [done|apply IH]. Qed.

Lemma homes_ok_app s k t : homes_ok (s ++ k) t <-> homes_ok s t /\ homes_ok k (p_puts s t).
Proof. revert t. induction s as [|ch s IH]; intros t; simpl; [tauto|]. rewrite IH. tauto. Qed.

Lemma homes_ok_free s t : Forall (fun ch => ch <> 72) s -> homes_ok s t.
Proof.
  revert t. induction s as [|ch s IH]; intros t Hs; simpl; [done|]. inversion Hs; subst.
  split; [by intros _ ?|by apply IH].
Qed.

(** ** Lemmas: decimal parameters *)

(** The parser is between two sequences, as [init_tty] and the end of every
    sequence leave it. *)
Definition idle (t : tty_t) : Prop := escape t = 0 /\ esc_reset t = t.

Definition is_digit (ch : Z) : Prop := 48 <= ch <= 57.
Definition dec_value (a : Z) (ds : list Z) : Z := fold_left (fun a d => a * 10 + (d - 48)) ds a.

Lemma dec_value_mono ds a : 0 <= a -> Forall is_digit ds -> a <= dec_value a ds.
Proof.
  revert a. induction ds as [|d ds IH]; intros a Ha Hd; simpl; [lia|].
  inversion Hd as [|? ? Hd1 Hd2]; subst. unfold is_digit in Hd1.
  specialize (IH (a * 10 + (d - 48)) ltac:(lia) Hd2). lia.
Qed.

Lemma puts_digits ds t : escape t <> 0 -> Forall is_digit ds -> 0 <= get_esc_value t ->
  dec_value (get_esc_value t) ds < 2 ^ 31 -> ds <> [] ->
  p_puts ds t = set_esc_default (set_esc_value t (dec_value (get_esc_value t) ds)) 0.
Proof.
  revert t. induction ds as [|d ds IH]; intros t He Hd Hv Hb Hn; [done|].
  inversion Hd as [|? ? Hd1 Hd2]; subst. unfold is_digit in Hd1. simpl.
  assert (p_putchar d t = set_esc_default (set_esc_value t (get_esc_value t * 10 + (d - 48))) 0) as E.
  { unfold p_putchar, p_escape_parse. rewrite (proj2 (Z.eqb_neq _ _)) by done.
    rewrite (proj2 (andb_true_iff _ _)) by (split; apply Z.leb_le; lia). unfold esc_digit.
    simpl in Hb. pose proof (dec_value_mono ds (get_esc_value t * 10 + (d - 48)) ltac:(lia) Hd2).
    unfold dec_value in *.
    rewrite (s32_small (_ * 10)) by lia. by rewrite s32_small by lia. }
  rewrite E. simpl in Hb. set (v := get_esc_value t * 10 + (d - 48)) in *.
  assert (0 <= v) by lia. destruct ds as [|d' ds']; [done|]. clearbody v.
  rewrite IH; [|destruct t as [? ? ? ? ? ? ? ? ? ? [] ? ? [] ? ? ? ? ?]; done|done|..|done].
  - destruct t as [? ? ? ? ? ? ? ? ? ? [] ? ? [] ? ? ? ? ?]; done.
  - destruct t as [? ? ? ? ? ? ? ? ? ? [] ? ? [] ? ? ? ? ?]; exact H.
  - destruct t as [? ? ? ? ? ? ? ? ? ? [] ? ? [] ? ? ? ? ?]; exact Hb.
Qed.

Lemma digits_no_home ds : Forall is_digit ds -> Forall (fun ch => ch <> 72) ds.
Proof. intros H. eapply Forall_impl; [exact H|]. unfold is_digit. lia. Qed.

(** ** Lemmas: the characters on the screen *)

(** The character of cell [k], counted row by row. *)
Definition cell_char (t : tty_t) (k : Z) : option Z := zget (field t) (2 * k).

Lemma poke_get off v t i : 0 <= off < zlen (field t) ->
  zget (field (p_poke off v t)) i = if decide (off = i) then Some (u8 v) else zget (field t) i.
Proof. intros H. apply (zget_zset _ off i (u8 v)). by apply zset_ok. Qed.

Lemma attr_char off v t k : tty_ok t -> 0 <= off < SCREEN -> off mod 2 = 1 ->
  cell_char (p_poke off v t) k = cell_char t k.
Proof.
  intros H Ho He. unfold cell_char. rewrite poke_get by (rewrite (tok_field _ H); done).
  case_decide; [zdml|done].
Qed.

Lemma clear_cursor_char t k : tty_ok t -> cell_char (p_clear_cursor t) k = cell_char t k.
Proof. intros H. pose proof H as [_ Ho He]. apply attr_char; [done|lia|zdml]. Qed.

Lemma draw_cursor_char t k : tty_ok t -> cell_char (p_draw_cursor t) k = cell_char t k.
Proof.
  intros H. pose proof H as [_ Ho He]. unfold p_draw_cursor. destruct (_ =? 0); [done|].
  apply attr_char; [done|lia|zdml].
Qed.

Lemma draw_cursor_offset t : cursor_offset (p_draw_cursor t) = cursor_offset t.
Proof. unfold p_draw_cursor. by destruct (_ =? 0). Qed.
Lemma draw_cursor_escape t : escape (p_draw_cursor t) = escape t.
Proof. unfold p_draw_cursor. by destruct (_ =? 0). Qed.

Lemma set_pos_offset x y t : cursor_offset (p_set_pos x y t) = y * VD_COLS + x * 2.
Proof. unfold p_set_pos. by rewrite draw_cursor_offset. Qed.

Lemma set_pos_char x y t k : tty_ok t -> 0 <= x < VD_COLS / 2 -> 0 <= y < VD_ROWS ->
  cell_char (p_set_pos x y t) k = cell_char t k.
Proof.
  intros H Hx Hy. unfold p_set_pos. rewrite draw_cursor_char; [by apply clear_cursor_char|].
  change (VD_COLS / 2) with 80 in *. apply offset_ok; [by apply clear_cursor_ok|screen; lia|screen; zdml].
Qed.

Lemma pos_of_offset x y t : 0 <= x < VD_COLS / 2 -> cursor_offset t = y * VD_COLS + x * 2 ->
  pos_x t = x /\ pos_y t = y.
Proof. change (VD_COLS / 2) with 80. unfold pos_x, pos_y. intros Hx ->. screen. split; zdml. Qed.

Lemma scroll_char t k : tty_ok t -> 0 <= k < SCREEN / 2 ->
  cell_char (p_scroll t) k = if decide (k < SCREEN / 2 - VD_COLS / 2) then cell_char t (k + VD_COLS / 2) else Some 32.
Proof.
  intros H Hk. unfold cell_char, p_scroll. simpl. change (SCREEN / 2) with 2000 in *.
  change (VD_COLS / 2) with 80.
  assert (zlen (drop (Z.to_nat VD_COLS) (field t)) = SCREEN - VD_COLS) as Hd.
  { pose proof (tok_field _ H) as Hl. unfold zlen in *. rewrite length_drop. screen. lia. }
  rewrite zget_app, Hd. change (SCREEN - VD_COLS) with 3840. repeat case_decide; try lia.
  - rewrite zget_drop by (screen; lia). f_equal. screen. lia.
  - rewrite cells_get by lia. by replace ((2 * k - 3840) mod 2) with 0 by zdml.
Qed.

(** A character that is displayed as itself. *)
Definition printable (ch : Z) : Prop := 0 < ch < 256 /\ ch <> 0x1B /\ ch <> 0x0A /\ ch <> 0x08.

Lemma print_step ch t : tty_ok t -> escape t = 0 -> printable ch -> cursor_offset t < SCREEN - 2 ->
  let t' := p_putchar ch t in
  tty_ok t' /\ escape t' = 0 /\ cursor_offset t' = cursor_offset t + 2 /\
  forall k, cell_char t' k = if decide (k = cursor_offset t / 2) then Some ch else cell_char t k.
Proof.
  intros H He (Hc & N1 & N2 & N3) Hlt t'. pose proof H as [Hf Ho Hev].
  assert (t' = p_print ch t) as ->.
  { unfold t', p_putchar, p_putchar_plain. rewrite He, Z.eqb_refl.
    by rewrite !(proj2 (Z.eqb_neq _ _)) by lia. }
  split; [by apply print_ok|]. unfold p_print. simpl. rewrite (proj2 (Z.leb_gt _ _)) by done.
  rewrite draw_cursor_escape, draw_cursor_offset. split; [done|]. split; [done|]. intros k.
  rewrite draw_cursor_char.
  - change (cell_char (p_poke (cursor_offset t) ch (p_clear_cursor t)) k =
      if decide (k = cursor_offset t / 2) then Some ch else cell_char t k).
    unfold cell_char. rewrite poke_get, u8_small by
      (try (rewrite (tok_field _ (clear_cursor_ok _ H)); lia); lia).
    repeat case_decide; try done; [zdml|zdml|]. by apply clear_cursor_char.
  - apply offset_ok; [by apply poke_ok, clear_cursor_ok|screen; zdml|zdml].
Qed.

Lemma print_all s t : tty_ok t -> escape t = 0 -> Forall printable s ->
  cursor_offset t + 2 * zlen s < SCREEN ->
  homes_ok s t /\ cursor_offset (p_puts s t) = cursor_offset t + 2 * zlen s /\
  forall k, cell_char (p_puts s t) k =
    if decide (cursor_offset t / 2 <= k < cursor_offset t / 2 + zlen s)
    then zget s (k - cursor_offset t / 2) else cell_char t k.
Proof.
  revert t. induction s as [|ch s IH]; intros t H He Hs Hl; cbn [p_puts homes_ok].
  - rewrite (@zlen_nil Z). split; [done|]. split; [lia|]. intros k. case_decide; [lia|done].
  - inversion Hs as [|? ? Hp Hs']; subst. rewrite zlen_cons in *. pose proof (zlen_nonneg s).
    pose proof H as [_ Ho Hev].
    destruct (print_step ch t H He Hp) as (H1 & He1 & Ho1 & Hc1); [screen; zdml|].
    destruct (IH _ H1 He1 Hs') as (Hh & Ho2 & Hc2); [lia|].
    split; [split; [by intros ?|done]|]. split; [lia|]. intros k. rewrite Hc2, Ho1, Hc1, zget_cons.
    replace ((cursor_offset t + 2) / 2) with (cursor_offset t / 2 + 1) by zdml.
    repeat case_decide; try lia; try done. f_equal. lia.
Qed.

Lemma newline_char t k : tty_ok t -> 0 <= k < SCREEN / 2 ->
  cell_char (p_newline t) k =
    if decide (pos_y t = VD_ROWS - 1)
    then if decide (k < SCREEN / 2 - VD_COLS / 2) then cell_char t (k + VD_COLS / 2) else Some 32
    else cell_char t k.
Proof.
  intros H Hk. destruct (pos_range t H) as [_ Hy]. unfold p_newline.
  destruct (Z.eqb_spec (pos_y t) (VD_ROWS - 1)); [rewrite decide_True by done|rewrite decide_False by done].
  - rewrite set_pos_char; [|by apply scroll_ok, clear_cursor_ok|done|done].
    rewrite scroll_char by (try apply clear_cursor_ok; done). case_decide; [|done].
    by apply clear_cursor_char.
  - apply set_pos_char; [done|done|lia].
Qed.

Lemma newline_pos t : tty_ok t -> pos_x (p_newline t) = 0 /\ pos_y (p_newline t) = Z.min (pos_y t + 1) (VD_ROWS - 1).
Proof.
  intros H. destruct (pos_range t H) as [_ Hy]. apply pos_of_offset; [done|]. unfold p_newline.
  destruct (Z.eqb_spec (pos_y t) (VD_ROWS - 1)); rewrite set_pos_offset; f_equal; f_equal; lia.
Qed.

(** ** Lemmas: whole sequences *)

(** The terminal [ESC \[ r ; c] leaves for [H]. *)
Definition with_params (v0 v1 : Z) (t : tty_t) : tty_t :=
  with_esc_default1 (with_esc_value1 (with_esc_default (with_esc_value (with_esc_default0
    (with_esc_value0 (with_escape t 1) v0) 0) Esc1) Esc1) v1) 0.

Lemma idle_fields t : idle t -> escape t = 0 /\ esc_value t = Esc0 /\ esc_value0 t = 0 /\
  esc_value1 t = 0 /\ esc_default t = Esc0 /\ esc_default0 t = 1 /\ esc_default1 t = 1.
Proof. intros [He Hi]. rewrite <- Hi. repeat split. Qed.

Lemma idle_intro t : escape t = 0 -> esc_value t = Esc0 -> esc_value0 t = 0 ->
  esc_value1 t = 0 -> esc_default t = Esc0 -> esc_default0 t = 1 -> esc_default1 t = 1 -> idle t.
Proof. destruct t. simpl. intros. by subst. Qed.

Lemma putchar_esc t : escape t = 0 -> p_putchar 27 t = with_escape t 1.
Proof. intros He. unfold p_putchar. by rewrite He. Qed.
Lemma putchar_in_seq ch t : escape t <> 0 -> p_putchar ch t = p_escape_parse ch t.
Proof. intros He. unfold p_putchar. by rewrite (proj2 (Z.eqb_neq _ _)). Qed.

Lemma puts_params rs cs t : idle t ->
  Forall is_digit rs -> Forall is_digit cs -> rs <> [] -> cs <> [] ->
  dec_value 0 rs < 2 ^ 31 -> dec_value 0 cs < 2 ^ 31 ->
  p_puts (27 :: 91 :: rs ++ 59 :: cs) t = with_params (dec_value 0 rs) (dec_value 0 cs) t.
Proof.
  intros Hi Hr Hc Nr Nc Br Bc. apply idle_fields in Hi as (He & E1 & E2 & E3 & E4 & _ & _).
  cbn [p_puts]. rewrite putchar_esc, putchar_in_seq by done.
  change (p_escape_parse 91 (with_escape t 1)) with (with_escape t 1).
  assert (get_esc_value (with_escape t 1) = 0) as V by (unfold get_esc_value; simpl; by rewrite E1).
  rewrite puts_app, (puts_digits rs) by (rewrite ?V; done). rewrite V.
  assert (set_esc_default (set_esc_value (with_escape t 1) (dec_value 0 rs)) 0 =
    with_esc_default0 (with_esc_value0 (with_escape t 1) (dec_value 0 rs)) 0) as ->.
  { destruct t. simpl in *. by subst. }
  set (t1 := with_esc_default0 _ _). cbn [p_puts].
  rewrite putchar_in_seq by done.
  change (p_escape_parse 59 t1) with (with_esc_default (with_esc_value t1 Esc1) Esc1).
  set (t2 := with_esc_default _ _).
  assert (get_esc_value t2 = 0) as V2 by exact E3.
  rewrite (puts_digits cs) by (rewrite ?V2; done). by rewrite V2.
Qed.

Lemma homes_params rs cs t : Forall is_digit rs -> Forall is_digit cs ->
  homes_ok (27 :: 91 :: rs ++ 59 :: cs) t.
Proof.
  intros Hr Hc. apply homes_ok_free. do 2 (constructor; [done|]). apply Forall_app.
  split; [by apply digits_no_home|]. constructor; [done|by apply digits_no_home].
Qed.

Lemma final_home t : p_escape_final 72 t =
  p_set_pos (home_coord (esc_default1 t) (esc_value1 t) (VD_COLS / 2 - 1))
    (home_coord (esc_default0 t) (esc_value0 t) (VD_ROWS - 1)) t.
Proof.
  unfold p_escape_final. change (72 =? 65) with false. change (72 =? 66) with false.
  change (72 =? 67) with false. change (72 =? 68) with false. by change (72 =? 72) with true.
Qed.

Lemma putchar_home t : escape t <> 0 -> p_putchar 72 t = esc_reset (p_escape_final 72 t).
Proof.
  intros H. rewrite putchar_in_seq by done. unfold p_escape_parse.
  change ((48 <=? 72) && (72 <=? 57)) with false. change (72 =? 91) with false.
  by change (72 =? 59) with false.
Qed.

Lemma init_one_ok t : zlen (field t) = SCREEN ->
  exists t', init_one t = Some t' /\ tty_ok t' /\ idle t' /\ cursor_offset t' = 0 /\ cursor_status t' = 1 /\
    forall k, 0 <= k < SCREEN / 2 -> cell_char t' k = Some 32.
Proof.
  intros Hf. unfold init_one.
  rewrite blank_field_ok by done. cbn [mbind option_bind].
  pose proof (cells_len (Z.to_nat (SCREEN / 2)) 32 TTY_DEF_TXT_PAL) as Hl.
  change (2 * Z.of_nat (Z.to_nat (SCREEN / 2))) with SCREEN in Hl.
  destruct (zset (cells (Z.to_nat (SCREEN / 2)) 32 TTY_DEF_TXT_PAL) 1 TTY_DEF_CUR_PAL) as [f|] eqn:Ef.
  2: { rewrite zset_ok in Ef by (rewrite Hl; done). done. }
  cbn [mbind option_bind]. eexists. split; [done|].
  assert (zlen f = SCREEN) as Hlf by (rewrite (zset_len _ _ _ _ Ef); exact Hl).
  split; [by split|]. split; [apply idle_intro; reflexivity|]. split; [done|]. split; [done|].
  intros k Hk. unfold cell_char. cbn [field].
  rewrite (zget_zset _ _ (2 * k) _ _ Ef).
  case_decide; [lia|]. change (SCREEN / 2) with 2000 in *. rewrite cells_get by lia.
  by replace ((2 * k) mod 2) with 0 by zdml.
Qed.

(** What [init_tty] leaves at each terminal. *)
Definition fresh (t : tty_t) : Prop :=
  tty_ok t /\ idle t /\ cursor_offset t = 0 /\ cursor_status t = 1 /\
  forall k, 0 <= k < SCREEN / 2 -> cell_char t k = Some 32.

(** The invariant of the loop of [init_tty]. *)
Definition init_inv (c : console) (k : Z) (c' : console) : Prop :=
  zlen (ttys c') = KRNL_TTY_COUNT /\ current_tty c' = current_tty c /\
  video_mem c' = video_mem c /\
  (forall i t, i < k -> tty_at i c' = Some t -> fresh t) /\
  (forall i t, tty_at i c' = Some t -> zlen (field t) = SCREEN).

Lemma init_step_ok c k b : 0 <= k < KRNL_TTY_COUNT -> init_inv c k b ->
  exists b', init_step k b = Some b' /\ init_inv c (k + 1) b'.
Proof.
  intros Hk (Hl & Hc & Hv & Hfr & Hff). unfold init_step.
  destruct (tty_at k b) as [t|] eqn:Ht.
  2: { apply zget_None in Ht. lia. }
  cbn [mbind option_bind]. destruct (init_one_ok t (Hff _ _ Ht)) as (t' & E & Hok). rewrite E.
  cbn [mbind option_bind]. erewrite set_tty_eq by done. eexists. split; [done|].
  split; [simpl; by rewrite zlen_insert|]. split; [done|]. split; [done|].
  split; intros i u; erewrite tty_at_insert by exact Ht; case_decide; subst.
  - by intros _ [= <-].
  - intros Hi. apply Hfr. lia.
  - intros [= <-]. apply Hok.
  - apply Hff.
Qed.

Lemma init_tty_ok c : zlen (ttys c) = KRNL_TTY_COUNT ->
  (forall i t, tty_at i c = Some t -> zlen (field t) = SCREEN) ->
  exists c', init_tty c = Some c' /\ init_inv c KRNL_TTY_COUNT c'.
Proof.
  intros Hl Hf. apply (zfor_inv (init_inv c) (Z.to_nat KRNL_TTY_COUNT) 0 init_step c).
  - do 3 (split; [done|]). split; [|done]. intros i t Hi Ht. apply zget_Some in Ht. lia.
  - intros k b Hk. by apply init_step_ok.
Qed.

Lemma switch_ok w c : zlen (ttys c) = KRNL_TTY_COUNT -> zlen (video_mem c) = SCREEN ->
  0 <= w < KRNL_TTY_COUNT -> (forall i t, tty_at i c = Some t -> tty_ok t) ->
  exists t, tty_at w c = Some t /\ switch_tty w c = Some (MkConsole (ttys c) w (field t)) /\
    cons_ok (MkConsole (ttys c) w (field t)).
Proof.
  intros Hl Hv Hw Hok. destruct (zget_is_Some (ttys c) w) as [t Ht]; [lia|]. exists t.
  split; [done|]. unfold switch_tty, tty_refresh, tty_at. simpl. rewrite Z.eqb_refl, Ht.
  cbn [mbind option_bind]. change (VD_ROWS * VD_COLS) with SCREEN.
  rewrite copy_field by (try apply (Hok w); done). split; [done|].
  split; [done|done|exact Hok|]. unfold tty_at. simpl. intros u. rewrite Ht. by intros [= <-].
Qed.

(** Moving a visible cursor off the screen writes outside of the field. *)
Lemma set_pos_outside w x y c t : cons_ok c -> tty_at w c = Some t -> cursor_status t <> 0 ->
  SCREEN <= u32 (u32 (y * VD_COLS + x * 2) + 1) -> text_set_cursor_pos x y w c = None.
Proof.
  intros Hc Ht Hs Ho. pose proof (cok_ttys _ Hc w t Ht) as H. unfold text_set_cursor_pos.
  rewrite (acts_clear_cursor w t) by done. cbn [mbind option_bind].
  unfold upd_tty. rewrite (tty_at_put w t _ c Ht). cbn [mbind option_bind].
  set (t' := with_cursor_offset _ _).
  erewrite set_tty_eq by (by eapply tty_at_put). cbn [mbind option_bind]. unfold draw_cursor.
  erewrite tty_at_insert by (by eapply tty_at_put). rewrite decide_True by done.
  cbn [mbind option_bind]. change (cursor_status t') with (cursor_status t).
  rewrite (proj2 (Z.eqb_neq _ _)) by done. unfold poke.
  erewrite tty_at_insert by (by eapply tty_at_put). rewrite decide_True by done.
  cbn [mbind option_bind]. rewrite zset_None; [done|].
  pose proof (tok_field _ (clear_cursor_ok _ H)) as Hl. change (field t') with (field (p_clear_cursor t)).
  rewrite Hl. change (cursor_offset t') with (u32 (y * VD_COLS + x * 2)). lia.
Qed.

(** * Properties *)

(** C8: Refinement and safety of the terminal driver: printing any string on
    terminal [w] of a well-formed console never writes outside of the terminal's
    field or of video memory, changes terminal [w] as the mirror-free
    specification [p_puts] says and no other terminal, and leaves the console
    well formed: video memory is still the image of the current terminal and
    every cursor is on the screen.  The exception is excluded by [homes_ok]: a
    cursor-position sequence with an explicit parameter 0 (or beyond [int]). *)
Theorem tty_knputs_refines (w : Z) (s : list Z) (c : console) (t : tty_t) :
  cons_ok c -> tty_at w c = Some t -> homes_ok s t ->
  tty_knputs s w c = Some (put w (p_puts s t) c) /\ cons_ok (put w (p_puts s t) c).
Proof.
  intros Hc Ht Hh. pose proof (cok_ttys _ Hc w t Ht) as H. split.
  - by apply acts_knputs.
  - eapply put_ok; [done|done|by apply puts_ok].
Qed.

(** The cursor-position sequence [ESC \[ 0 H] of a terminal whose cursor is
    shown moves the cursor to row [UINT_MAX] and writes outside of the terminal's
    field: the parameter is decremented as an [int] and only clipped above. *)
Theorem home_zero_out_of_bounds (w : Z) (c : console) (t : tty_t) :
  cons_ok c -> tty_at w c = Some t -> idle t -> cursor_status t <> 0 ->
  tty_knputs [27; 91; 48; 72] w c = None.
Proof.
  intros Hc Ht Hi Hs. change [27; 91; 48; 72] with ([27; 91; 48] ++ [72]).
  assert (forall s k c, tty_knputs (s ++ k) w c = tty_knputs s w c ≫= tty_knputs k w) as Happ.
  { induction s as [|ch s IH]; intros k c0; simpl; [done|]. destruct (text_putchar ch w c0); simpl; [|done].
    apply IH. }
  rewrite Happ. clear Happ. pose proof (cok_ttys _ Hc w t Ht) as H.
  rewrite (acts_knputs w [27; 91; 48] t) by (try done; apply homes_ok_free; repeat constructor; done).
  set (t3 := p_puts _ t). assert (t3 = with_esc_default0 (with_escape t 1) 0) as E.
  { unfold t3. apply idle_fields in Hi as (He & E1 & E2 & E3 & E4 & E5 & E6).
    destruct t. simpl in *. by subst. }
  rewrite E. clearbody t3. subst t3. set (t3 := with_esc_default0 _ _).
  assert (tty_ok t3) as H3 by by apply (same_ok t).
  assert (cons_ok (put w t3 c)) as Hc3 by by eapply put_ok.
  pose proof (tty_at_put w t t3 c Ht) as Ht3. cbn [mbind option_bind tty_knputs].
  unfold text_putchar. rewrite Ht3. cbn [mbind option_bind]. change (escape t3 =? 0) with false.
  unfold escape_parse. simpl. unfold escape_final. simpl. unfold cursor_home.
  set (t4 := home_params t3).
  rewrite (acts_upd w home_params t3 t4) by done. rewrite put_put. cbn [mbind option_bind].
  rewrite (tty_at_put w t t4 c Ht). cbn [mbind option_bind].
  assert (tty_ok t4) as H4 by by apply (same_ok t3).
  assert (esc_value0 t4 = -1 /\ esc_value1 t4 = 0) as [-> ->].
  { apply idle_fields in Hi as (He & E1 & E2 & E3 & E4 & E5 & E6).
    unfold t4, t3. destruct t. simpl in *. by subst. }
  rewrite (set_pos_outside w _ _ _ t4); [done|by eapply put_ok|by eapply tty_at_put|done|done].
Qed.

(** The cursor-position sequence [ESC \[ r ; c H], the parameters written in
    decimal digits, moves the cursor to row [r] and column [c] counted from 1,
    clipped to the 25 rows and 80 columns; it changes no character on the screen
    and leaves the parser between sequences. *)
Theorem cursor_position_sequence (w : Z) (rs cs : list Z) (c : console) (t : tty_t) :
  cons_ok c -> tty_at w c = Some t -> idle t ->
  Forall is_digit rs -> Forall is_digit cs ->
  1 <= dec_value 0 rs < 2 ^ 31 -> 1 <= dec_value 0 cs < 2 ^ 31 ->
  exists t', tty_knputs ((27 :: 91 :: rs ++ 59 :: cs) ++ [72]) w c = Some (put w t' c) /\
    pos_y t' = Z.min 25 (dec_value 0 rs) - 1 /\ pos_x t' = Z.min 80 (dec_value 0 cs) - 1 /\
    idle t' /\ (forall k, cell_char t' k = cell_char t k).
Proof.
  intros Hc Ht Hi Hr Hs Vr Vc. pose proof (cok_ttys _ Hc w t Ht) as H.
  assert (rs <> []) as Nr by (intros ->; simpl in Vr; lia). assert (cs <> []) as Nc by (intros ->; simpl in Vc; lia).
  pose proof (puts_params rs cs t Hi Hr Hs Nr Nc ltac:(lia) ltac:(lia)) as E.
  set (t5 := with_params (dec_value 0 rs) (dec_value 0 cs) t) in *.
  assert (tty_ok t5) as H5 by by apply (same_ok t).
  eexists. split; [apply (acts_knputs w _ t); [exact H| |exact Hc|exact Ht]|].
  - apply homes_ok_app. split; [by apply homes_params|]. rewrite E. split; [|done].
    intros _ _. simpl. lia.
  - rewrite puts_app, E. cbn [p_puts]. 
    rewrite putchar_home, final_home by done.
    change (home_coord (esc_default1 t5) (esc_value1 t5) (VD_COLS / 2 - 1))
      with (clip (VD_COLS / 2 - 1) (dec_value 0 cs - 1)).
    change (home_coord (esc_default0 t5) (esc_value0 t5) (VD_ROWS - 1))
      with (clip (VD_ROWS - 1) (dec_value 0 rs - 1)).
    set (x := clip _ _). set (y := clip _ _).
    assert (x = Z.min 80 (dec_value 0 cs) - 1) as Ex.
    { unfold x, clip. change (VD_COLS / 2) with 80. destruct (Z.ltb_spec (80 - 1) (dec_value 0 cs - 1)); lia. }
    assert (y = Z.min 25 (dec_value 0 rs) - 1) as Ey.
    { unfold y, clip. screen. destruct (Z.ltb_spec (25 - 1) (dec_value 0 rs - 1)); lia. }
    assert (0 <= x < VD_COLS / 2) as Hx by (change (VD_COLS / 2) with 80; lia).
    assert (0 <= y < VD_ROWS) as Hy by (screen; lia).
    destruct (pos_of_offset x y (esc_reset (p_set_pos x y t5)) Hx) as [-> ->].
    { simpl. apply set_pos_offset. }
    split; [done|]. split; [done|]. split; [by apply idle_intro|].
    intros k. change (cell_char (p_set_pos x y t5) k = cell_char t5 k). by apply set_pos_char.
Qed.

(** A string of printable characters that fits between the cursor and the last
    cell of the screen is stored character by character from the cursor on, the
    cursor ends after it, every other cell keeps its character, and the console
    stays well formed. *)
Theorem print_string (w : Z) (s : list Z) (c : console) (t : tty_t) :
  cons_ok c -> tty_at w c = Some t -> escape t = 0 -> Forall printable s ->
  cursor_offset t + 2 * zlen s < SCREEN ->
  exists t', tty_knputs s w c = Some (put w t' c) /\ cons_ok (put w t' c) /\
    cursor_offset t' = cursor_offset t + 2 * zlen s /\
    forall k, cell_char t' k =
      if decide (cursor_offset t / 2 <= k < cursor_offset t / 2 + zlen s)
      then zget s (k - cursor_offset t / 2) else cell_char t k.
Proof.
  intros Hc Ht He Hs Hl. pose proof (cok_ttys _ Hc w t Ht) as H.
  destruct (print_all s t H He Hs Hl) as (Hh & Ho & Hk). exists (p_puts s t).
  split; [by apply acts_knputs|]. split; [eapply put_ok; [done|done|by apply puts_ok]|]. done.
Qed.

(** A line feed outside of an escape sequence puts the cursor at the start of
    the next row.  On the last row every row moves up by one and the last one is
    filled with spaces; on another row no character changes. *)
Theorem line_feed (w : Z) (c : console) (t : tty_t) :
  cons_ok c -> tty_at w c = Some t -> escape t = 0 ->
  exists t', text_putchar 0x0A w c = Some (put w t' c) /\ cons_ok (put w t' c) /\
    pos_x t' = 0 /\ pos_y t' = Z.min (pos_y t + 1) (VD_ROWS - 1) /\
    forall k, 0 <= k < SCREEN / 2 -> cell_char t' k =
      if decide (pos_y t = VD_ROWS - 1)
      then if decide (k < SCREEN / 2 - VD_COLS / 2) then cell_char t (k + VD_COLS / 2) else Some 32
      else cell_char t k.
Proof.
  intros Hc Ht He. pose proof (cok_ttys _ Hc w t Ht) as H. exists (p_newline t).
  assert (p_putchar 0x0A t = p_newline t) as E by (unfold p_putchar; by rewrite He).
  split; [rewrite <- E; by apply acts_putchar|].
  split; [eapply put_ok; [done|done|by apply newline_ok]|].
  destruct (newline_pos t H). split; [done|]. split; [done|]. intros k. by apply newline_char.
Qed.

(** [init_tty] followed by [switch_tty(w)], the start of the kernel, makes the
    console well formed whatever the memory held: every terminal is blank, its
    cursor at the first cell and its parser between sequences, and video memory
    shows terminal [w]. *)
Theorem init_tty_correct (w : Z) (c : console) :
  zlen (ttys c) = KRNL_TTY_COUNT -> zlen (video_mem c) = SCREEN ->
  (forall i t, tty_at i c = Some t -> zlen (field t) = SCREEN) -> 0 <= w < KRNL_TTY_COUNT ->
  exists c' c'', init_tty c = Some c' /\ switch_tty w c' = Some c'' /\ cons_ok c'' /\
    current_tty c'' = w /\ forall i t, tty_at i c'' = Some t -> fresh t.
Proof.
  intros Hl Hv Hf Hw. destruct (init_tty_ok c Hl Hf) as (c' & E & Hl' & _ & Hv' & Hfr & _).
  assert (forall i t, tty_at i c' = Some t -> fresh t) as Hall.
  { intros i t Ht. apply (Hfr i); [|done]. apply zget_Some in Ht. lia. }
  destruct (switch_ok w c' Hl') as (t & Ht & Hs & Hok);
    [by rewrite Hv'|done|intros i t Ht; by apply (Hall i)|].
  exists c'. eexists. split; [exact E|]. split; [exact Hs|]. split; [done|]. split; [done|exact Hall].
Qed.

(** * Witnesses *)

(** Seven blank terminals, the first one current. *)
Definition demo_tty : tty_t :=
  MkTty 0 1 TTY_DEF_CUR_PAL TTY_DEF_TXT_PAL (cells 2000 32 TTY_DEF_TXT_PAL) (replicate 256 0)
    (replicate 2048 0) 0 0 0 Esc0 0 0 Esc0 1 1 0 0 0.
Definition demo : console := MkConsole (replicate 7 demo_tty) 0 (field demo_tty).

Lemma demo_tty_ok : tty_ok demo_tty.
Proof. split; [apply cells_len|split; done|done]. Qed.

Lemma demo_at i t : tty_at i demo = Some t -> t = demo_tty.
Proof.
  unfold tty_at, zget. case_decide; [|done]. intros Ht%lookup_replicate_1. by destruct Ht.
Qed.

Lemma demo_ok : cons_ok demo.
Proof.
  split; [done|split; done| |].
  - intros i t ->%demo_at. apply demo_tty_ok.
  - intros t ->%demo_at. done.
Qed.

Lemma tty_knputs_refines_witness :
  tty_knputs [72; 105; 10] 3 demo = Some (put 3 (p_puts [72; 105; 10] demo_tty) demo) /\
  cons_ok (put 3 (p_puts [72; 105; 10] demo_tty) demo).
Proof.
  apply (tty_knputs_refines 3 [72; 105; 10] demo demo_tty); [exact demo_ok|reflexivity|].
  split; [intros He _; destruct (He eq_refl)|]. split; [intros _ E; discriminate E|].
  split; [intros _ E; discriminate E|exact I].
Defined.

Lemma home_zero_out_of_bounds_witness : tty_knputs [27; 91; 48; 72] 0 demo = None.
Proof.
  apply (home_zero_out_of_bounds 0 demo demo_tty); [exact demo_ok|reflexivity|by apply idle_intro|discriminate].
Defined.

Lemma cursor_position_sequence_witness :
  exists t', tty_knputs ((27 :: 91 :: [49; 50] ++ 59 :: [57; 57]) ++ [72]) 0 demo = Some (put 0 t' demo) /\
    pos_y t' = 11 /\ pos_x t' = 79.
Proof.
  destruct (cursor_position_sequence 0 [49; 50] [57; 57] demo demo_tty) as (t' & Ht & Hy & Hx & _);
    [exact demo_ok|reflexivity|by apply idle_intro|..].
  - constructor; [split; lia|]. constructor; [split; lia|constructor].
  - constructor; [split; lia|]. constructor; [split; lia|constructor].
  - cbn. lia.
  - cbn. lia.
  - exists t'. split; [exact Ht|]. split; [exact Hy|exact Hx].
Defined.

Lemma print_string_witness :
  exists t', tty_knputs [72; 101; 108] 2 demo = Some (put 2 t' demo) /\ cursor_offset t' = 6 /\
    cell_char t' 1 = Some 101.
Proof.
  destruct (print_string 2 [72; 101; 108] demo demo_tty) as (t' & Ht & _ & Ho & Hk);
    [exact demo_ok|reflexivity|reflexivity| |reflexivity|].
  - constructor; [split; lia|]. constructor; [split; lia|]. constructor; [split; lia|constructor].
  - exists t'. split; [exact Ht|]. split; [exact Ho|]. exact (Hk 1).
Defined.

Lemma line_feed_witness :
  exists t', text_putchar 0x0A 1 demo = Some (put 1 t' demo) /\ pos_y t' = 1.
Proof.
  destruct (line_feed 1 demo demo_tty) as (t' & Ht & _ & _ & Hy & _);
    [exact demo_ok|reflexivity|reflexivity|].
  exists t'. split; [exact Ht|exact Hy].
Defined.

Lemma init_tty_correct_witness :
  exists c' c'', init_tty demo = Some c' /\ switch_tty 0 c' = Some c'' /\ cons_ok c''.
Proof.
  destruct (init_tty_correct 0 demo) as (c' & c'' & Hi & Hs & Hok & _).
  - reflexivity.
  - apply cells_len.
  - intros i t Ht. rewrite (demo_at i t Ht). apply cells_len.
  - split; reflexivity.
  - exists c', c''. split; [exact Hi|]. split; [exact Hs|exact Hok].
Defined.

End Tty.
