(* ===== verification/Keyboard.v ===== *)
(** * The keyboard: [kernel/src/drivers/keyboard.c]

    The scan code handler with its modifier state, the two buffers of a terminal
    (the line being edited, and the characters a reader may take) and the reader
    [keyboard_fetch_char].  The terminals are those of [Tty.v].

    An access outside of a table or a buffer is [None]. *)

From S2P Require Import Prelude Tty.
Local Open Scope Z_scope.

Module Keyboard.

Import Tty.

Definition MAX_CODE : Z := 0x57.
Definition CAPSLOCK : Z := 0x3A.
Definition RIGHT_SHIFT : Z := 0x36.
Definition LEFT_SHIFT : Z := 0x2A.
Definition RIGHT_SHIFT_REL : Z := 0xB6.
Definition LEFT_SHIFT_REL : Z := 0xAA.
Definition LEFT_CTRL : Z := 0x1D.
Definition LEFT_CTRL_REL : Z := 0x9D.
Definition IO_NOT_READY : Z := -5.

(** The static variables of the file. *)
Record keyboard := MkKeyboard {
  capslock_active : Z;
  shift_active : Z;
  ctrl_active : Z;
  led_status : Z;
  is_eof : Z
}.

Definition ascii_capslock : list Z :=
  [ 0; 63; 49; 50; 51; 52; 53; 54; 55; 56; 57; 48; 45; 61; 8; 9;
   81; 87; 69; 82; 84; 89; 85; 73; 79; 80; 91; 93; 10; 0; 65; 83;
   68; 70; 71; 72; 74; 75; 76; 59; 39; 96; 0; 92; 90; 88; 67; 86;
   66; 78; 77; 44; 46; 47; 0; 0; 0; 32].

Definition ascii_shift : list Z :=
  [ 0; 63; 33; 64; 35; 36; 37; 94; 38; 42; 40; 41; 95; 43; 8; 9;
   81; 87; 69; 82; 84; 89; 85; 73; 79; 80; 123; 125; 10; 0; 65; 83;
   68; 70; 71; 72; 74; 75; 76; 58; 34; 126; 0; 124; 90; 88; 67; 86;
   66; 78; 77; 60; 62; 63; 0; 0; 0; 32].

Definition ascii_shift_capslock : list Z :=
  [ 0; 63; 33; 64; 35; 36; 37; 94; 38; 42; 40; 41; 95; 43; 8; 9;
   113; 119; 101; 114; 116; 121; 117; 105; 111; 112; 123; 125; 10; 0; 97; 115;
   100; 102; 103; 104; 106; 107; 108; 58; 34; 126; 0; 124; 122; 120; 99; 118;
   98; 110; 109; 60; 62; 63; 0; 0; 0; 32].

Definition ascii_nomod : list Z :=
  [ 0; 63; 49; 50; 51; 52; 53; 54; 55; 56; 57; 48; 45; 61; 8; 9;
   113; 119; 101; 114; 116; 121; 117; 105; 111; 112; 91; 93; 10; 0; 97; 115;
   100; 102; 103; 104; 106; 107; 108; 59; 39; 96; 0; 92; 122; 120; 99; 118;
   98; 110; 109; 44; 46; 47; 0; 0; 0; 32].

(** The table the modifiers select. *)
Definition table (k : keyboard) : list Z :=
  if (capslock_active k =? 0) && (shift_active k =? 0) then ascii_nomod
  else if (capslock_active k =? 0) && negb (shift_active k =? 0) then ascii_shift
  else if negb (capslock_active k =? 0) && negb (shift_active k =? 0) then ascii_shift_capslock
  else ascii_capslock.

(** The terminal a shifted function key selects. *)
Definition tty_key (input_byte : Z) : option Z :=
  if input_byte =? 0x58 then Some 0
  else if input_byte =? 0x3b then Some 1
  else if input_byte =? 0x3c then Some 2
  else if input_byte =? 0x3d then Some 3
  else if input_byte =? 0x3e then Some 4
  else if input_byte =? 0x3f then Some 5
  else if input_byte =? 0x40 then Some 6
  else None.

(** [tty[current_tty].kb_l1_buffer[kb_l1_buffer_index++] = ch] *)
Definition push_l1 (ch : Z) (t : tty_t) : option tty_t :=
  b ← zset (kb_l1_buffer t) (kb_l1_buffer_index t) ch;
  Some (with_kb_l1_buffer_index (with_kb_l1_buffer t b) (u16 (kb_l1_buffer_index t + 1))).

(** [kb_l1_buffer[kb_l1_buffer_index--] = 0] *)
Definition pop_l1 (t : tty_t) : option tty_t :=
  b ← zset (kb_l1_buffer t) (kb_l1_buffer_index t) 0;
  Some (with_kb_l1_buffer_index (with_kb_l1_buffer t b) (u16 (kb_l1_buffer_index t - 1))).

Definition push_l2 (ch : Z) (t : tty_t) : option tty_t :=
  b ← zset (kb_l2_buffer t) (kb_l2_buffer_index t) ch;
  Some (with_kb_l2_buffer_index (with_kb_l2_buffer t b) (u16 (kb_l2_buffer_index t + 1))).

(** [memcpy(&dst[off], src, n)] between two buffers. *)
Definition memcpy_at (dst : list Z) (off : Z) (src : list Z) (n : Z) : option (list Z) :=
  zfor (Z.to_nat n) 0 (fun i dst => b ← zget src i; zset dst (off + i) b) dst.

(** The end of the [Enter] case: the line moves to the second buffer. *)
Definition flush_line (t : tty_t) : option tty_t :=
  l2 ← memcpy_at (kb_l2_buffer t) (kb_l2_buffer_index t) (kb_l1_buffer t) (kb_l1_buffer_index t + 1);
  let t := with_kb_l2_buffer t l2 in
  let t := with_kb_l2_buffer_index t (u16 (kb_l2_buffer_index t + kb_l1_buffer_index t)) in
  l1 ← zset (kb_l1_buffer t) 0 0;
  Some (with_kb_l1_buffer_index (with_kb_l1_buffer t l1) 0).

(** A fallible update of the current terminal. *)
Definition upd_cur (f : tty_t -> option tty_t) (c : console) : option console :=
  t ← tty_at (current_tty c) c; t ← f t; set_tty (current_tty c) t c.

(** [keyboard_handler] once the character of the key is known. *)
Definition input_char (ch : Z) (c : console) : option console :=
  t ← tty_at (current_tty c) c;
  if negb (raw t =? 0) then upd_cur (push_l2 ch) c
  else if ch =? 8 then
    if kb_l1_buffer_index t =? 0 then Some c
    else c ← text_putchar ch (current_tty c) c; upd_cur pop_l1 c
  else if ch =? 10 then
    c ← text_putchar ch (current_tty c) c;
    c ← upd_cur (push_l1 ch) c;
    upd_cur flush_line c
  else
    c ← text_putchar ch (current_tty c) c; upd_cur (push_l1 ch) c.

(** The keys that are not shortcuts. *)
Definition plain_key (input_byte : Z) (k : keyboard) (c : console) : option (keyboard * console) :=
  if input_byte =? CAPSLOCK then
    let led := if capslock_active k =? 0 then Z.lor (led_status k) 4
               else Z.land (led_status k) 251 in
    Some (MkKeyboard (not_int (capslock_active k)) (shift_active k) (ctrl_active k) led (is_eof k), c)
  else if (input_byte =? LEFT_SHIFT) || (input_byte =? RIGHT_SHIFT) ||
          (input_byte =? LEFT_SHIFT_REL) || (input_byte =? RIGHT_SHIFT_REL) then
    Some (MkKeyboard (capslock_active k) (not_int (shift_active k)) (ctrl_active k) (led_status k) (is_eof k), c)
  else if (input_byte =? LEFT_CTRL) || (input_byte =? LEFT_CTRL_REL) then
    Some (MkKeyboard (capslock_active k) (shift_active k) (not_int (ctrl_active k)) (led_status k) (is_eof k), c)
  else
    t ← tty_at (current_tty c) c;
    if kb_l1_buffer_index t <? KB_L1_SIZE then
      if input_byte <? MAX_CODE then
        ch ← zget (table k) input_byte;
        c ← input_char ch c;
        Some (k, c)
      else Some (k, c)
    else Some (k, c).

Definition ctrl_key (input_byte : Z) (k : keyboard) (c : console) : option (keyboard * console) :=
  if negb (ctrl_active k =? 0) && (input_byte =? 0x2e) then Some (k, c)
  else plain_key input_byte k c.

Definition keyboard_handler (input_byte : Z) (k : keyboard) (c : console) : option (keyboard * console) :=
  if negb (shift_active k =? 0) then
    match tty_key input_byte with
    | Some which_tty => c ← switch_tty which_tty c; Some (k, c)
    | None => ctrl_key input_byte k c
    end
  else ctrl_key input_byte k c.

(** [for (i = 0; i < (KB_L2_SIZE - 1); i++) l2[i] = l2[i + 1];] *)
Definition shift_l2 (l2 : list Z) : option (list Z) :=
  zfor (Z.to_nat (KB_L2_SIZE - 1)) 0 (fun i l2 => b ← zget l2 (i + 1); zset l2 i b) l2.

Definition set_eof (k : keyboard) (v : Z) : keyboard :=
  MkKeyboard (capslock_active k) (shift_active k) (ctrl_active k) (led_status k) v.

Definition keyboard_fetch_char (which_tty : Z) (k : keyboard) (c : console)
    : option (Z * (keyboard * console)) :=
  if negb (is_eof k =? 0) then Some (-1, (set_eof k 0, c))
  else
    t ← tty_at which_tty c;
    if negb (kb_l2_buffer_index t =? 0) then
      let t := with_kb_l2_buffer_index t (u16 (kb_l2_buffer_index t - 1)) in
      ch ← zget (kb_l2_buffer t) 0;
      l2 ← shift_l2 (kb_l2_buffer t);
      c ← set_tty which_tty (with_kb_l2_buffer t l2) c;
      Some (ch, (if ch =? 10 then set_eof k 1 else k, c))
    else if negb (noblock t =? 0) then Some (0, (k, c))
    else Some (IO_NOT_READY, (k, c)).

(** A sequence of interrupts, and a sequence of reads. *)
Fixpoint type_keys (bs : list Z) (k : keyboard) (c : console) : option (keyboard * console) :=
  match bs with
  | [] => Some (k, c)
  | b :: bs => r ← keyboard_handler b k c; type_keys bs r.1 r.2
  end.
Fixpoint fetch_chars (n : nat) (which_tty : Z) (k : keyboard) (c : console)
    : option (list Z * (keyboard * console)) :=
  match n with
  | O => Some ([], (k, c))
  | S n =>
      r ← keyboard_fetch_char which_tty k c;
      r' ← fetch_chars n which_tty r.2.1 r.2.2;
      Some (r.1 :: r'.1, r'.2)
  end.

(** ** Specification: the line discipline

    What a terminal in line mode promises: the line being edited, the characters
    readers may take, and the screen. *)

Record disc := MkDisc { pend : list Z; rdy : list Z; scr : tty_t }.

(** A terminal without its keyboard buffers. *)
Definition screen_of (t : tty_t) : tty_t :=
  with_kb_l2_buffer_index (with_kb_l1_buffer_index (with_kb_l2_buffer (with_kb_l1_buffer t []) []) 0) 0.

Definition edit1 (ch : Z) (d : disc) : disc :=
  if ch =? 8 then
    match pend d with
    | [] => d
    | _ => MkDisc (removelast (pend d)) (rdy d) (p_putchar 8 (scr d))
    end
  else if ch =? 10 then MkDisc [] (rdy d ++ pend d ++ [10]) (p_putchar 10 (scr d))
  else MkDisc (pend d ++ [ch]) (rdy d) (p_putchar ch (scr d)).
Fixpoint edits (s : list Z) (d : disc) : disc :=
  match s with [] => d | ch :: s => edits s (edit1 ch d) end.

(** The buffers have room: for one more character, and for a whole line. *)
Definition fits1 (ch : Z) (d : disc) : bool :=
  if ch =? 8 then zlen (pend d) <? KB_L1_SIZE
  else if ch =? 10 then (zlen (pend d) + 2 <=? KB_L1_SIZE) && (zlen (rdy d) + zlen (pend d) + 2 <=? KB_L2_SIZE)
  else zlen (pend d) <? KB_L1_SIZE.
Fixpoint fits (s : list Z) (d : disc) : bool :=
  match s with [] => true | ch :: s => fits1 ch d && fits s (edit1 ch d) end.

(** What a reader gets: an end of file after every line. *)
Fixpoint feed (s : list Z) : list Z :=
  match s with [] => [] | ch :: s => if ch =? 10 then ch :: -1 :: feed s else ch :: feed s end.

(** The keys that are neither modifiers nor shortcuts, and their characters. *)
Definition char_key (b : Z) : bool :=
  (0 <=? b) && (b <? CAPSLOCK) && negb (b =? LEFT_SHIFT) && negb (b =? RIGHT_SHIFT) && negb (b =? LEFT_CTRL).
Definition key_char (k : keyboard) (b : Z) : Z := nth (Z.to_nat b) (table k) 0.

(** A terminal in line mode implements a state of the discipline. *)
Record disc_ok (t : tty_t) (d : disc) : Prop := {
  dok_l1 : exists r, kb_l1_buffer t = pend d ++ r;
  dok_l2 : exists r, kb_l2_buffer t = rdy d ++ r;
  dok_len1 : zlen (kb_l1_buffer t) = KB_L1_SIZE;
  dok_len2 : zlen (kb_l2_buffer t) = KB_L2_SIZE;
  dok_i1 : kb_l1_buffer_index t = zlen (pend d);
  dok_i2 : kb_l2_buffer_index t = zlen (rdy d);
  dok_scr : screen_of t = scr d;
  dok_raw : raw t = 0;
  dok_noblock : noblock t = 0;
  dok_escape : escape t = 0
}.

(** ** Lemmas: the screen does not see the buffers *)

(** Printing, computed on a terminal whose fields are variables. *)
Ltac print_cases :=
  cbv -[Z.eqb Z.leb Z.add Z.sub Z.mul Z.div Z.modulo Z.to_nat insert drop app cells u8];
  repeat match goal with |- context [if ?b then _ else _] =>
    lazymatch b with
    | context [if _ then _ else _] => fail
    | _ => destruct b; cbv beta iota
    end end; reflexivity.

Lemma screen_putchar_plain ch t : p_putchar_plain ch (screen_of t) = screen_of (p_putchar_plain ch t).
Proof. destruct t. print_cases. Qed.

Lemma screen_putchar ch t : escape t = 0 -> p_putchar ch (screen_of t) = screen_of (p_putchar ch t).
Proof.
  intros He. unfold p_putchar. change (escape (screen_of t)) with (escape t). rewrite He.
  apply screen_putchar_plain.
Qed.

(** The fields printing does not touch. *)
Definition kb_fields (t : tty_t) :=
  (kb_l1_buffer t, kb_l2_buffer t, kb_l1_buffer_index t, kb_l2_buffer_index t, raw t, noblock t).

Lemma putchar_plain_kb ch t : kb_fields (p_putchar_plain ch t) = kb_fields t.
Proof. destruct t. print_cases. Qed.
Lemma putchar_kb ch t : escape t = 0 -> kb_fields (p_putchar ch t) = kb_fields t.
Proof. intros He. unfold p_putchar. rewrite He. apply putchar_plain_kb. Qed.

Lemma putchar_plain_escape ch t : (ch =? 27) = false -> escape (p_putchar_plain ch t) = escape t.
Proof. intros Hc. unfold p_putchar_plain. change 0x1B with 27. rewrite Hc. destruct t. print_cases. Qed.
Lemma putchar_escape ch t : escape t = 0 -> ch <> 27 -> escape (p_putchar ch t) = 0.
Proof.
  intros He Hc. unfold p_putchar. rewrite He. change (0 =? 0) with true. cbv iota.
  rewrite putchar_plain_escape; [exact He|by apply Z.eqb_neq].
Qed.

Lemma putchar_disc ch t d : disc_ok t d -> ch <> 27 ->
  disc_ok (p_putchar ch t) (MkDisc (pend d) (rdy d) (p_putchar ch (scr d))).
Proof.
  intros [H1 H2 H3 H4 H5 H6 H7 H8 H9 H0] Hc. pose proof (putchar_kb ch t H0) as E.
  unfold kb_fields in E. injection E as E1 E2 E3 E4 E5 E6.
  split; cbn; rewrite ?E1, ?E2, ?E3, ?E4, ?E5, ?E6; try done.
  - by rewrite <- H7, screen_putchar.
  - by apply putchar_escape.
Qed.

(** ** Lemmas: the buffers *)

Lemma memcpy_at_ok dst off src n :
  0 <= off -> 0 <= n <= zlen src -> off + n <= zlen dst ->
  exists d, memcpy_at dst off src n = Some d /\ zlen d = zlen dst /\
    forall j, zget d j = if decide (off <= j < off + n) then zget src (j - off) else zget dst j.
Proof.
  intros Ho Hn Hd. unfold memcpy_at.
  destruct (zfor_inv (fun k d => zlen d = zlen dst /\
    forall j, zget d j = if decide (off <= j < off + k) then zget src (j - off) else zget dst j)
    (Z.to_nat n) 0 (fun i dst => b ← zget src i; zset dst (off + i) b) dst) as (d & E & Hl & Hg).
  - split; [done|]. intros j. by rewrite decide_False by lia.
  - intros k d Hk [Hl Hg]. rewrite Z2Nat.id in Hk by lia.
    destruct (zget_is_Some src k ltac:(lia)) as [b Hb]. rewrite Hb. cbn [mbind option_bind].
    rewrite zset_ok by lia. eexists. split; [done|]. split; [by rewrite zlen_insert|].
    intros j. rewrite (zget_zset d (off + k) j b) by (apply zset_ok; lia).
    rewrite Hg. repeat case_decide; try lia; subst; try done.
    replace (off + k - off) with k by lia. done.
  - rewrite Z2Nat.id in Hg by lia. exists d. done.
Qed.

(** Copying a prefix of [src] at the end of a prefix of [dst]. *)
Lemma memcpy_prefix p r q s x n : zlen q + 1 = n ->
  zlen p + n <= zlen (p ++ r) ->
  exists r', memcpy_at (p ++ r) (zlen p) (q ++ x :: s) n = Some ((p ++ q) ++ r') /\
    zlen ((p ++ q) ++ r') = zlen (p ++ r).
Proof.
  intros Hn Hr. pose proof (zlen_nonneg p). pose proof (zlen_nonneg q). pose proof (zlen_nonneg s).
  destruct (memcpy_at_ok (p ++ r) (zlen p) (q ++ x :: s) n) as (d & E & Hl & Hg);
    [lia|rewrite zlen_app, zlen_cons; lia|done|].
  assert (d = (p ++ q) ++ drop (length (p ++ q)) d) as Ed.
  { assert (take (length (p ++ q)) d = p ++ q) as Et; [|rewrite <- Et at 1; by rewrite take_drop].
    apply zget_ext. intros i. destruct (decide (0 <= i < zlen (p ++ q))) as [Hi|Hi].
    - assert (zget (take (length (p ++ q)) d) i = zget d i) as ->.
      { rewrite !zget_lookup by lia. apply lookup_take_lt. unfold zlen in Hi. lia. }
      rewrite Hg. rewrite zlen_app in Hi. rewrite !zget_app.
      repeat case_decide; try lia; done.
    - rewrite (proj2 (zget_None (p ++ q) i)) by lia. apply zget_None.
      unfold zlen in *. rewrite length_take. lia. }
  exists (drop (length (p ++ q)) d). rewrite <- Ed. split; [exact E|exact Hl].
Qed.

Lemma shift_l2_ok x s : zlen (x :: s) = KB_L2_SIZE ->
  exists y, shift_l2 (x :: s) = Some (s ++ [y]).
Proof.
  intros Hl. unfold shift_l2.
  destruct (zfor_inv (fun k d => zlen d = KB_L2_SIZE /\
    forall j, zget d j = if decide (0 <= j < k) then zget (x :: s) (j + 1) else zget (x :: s) j)
    (Z.to_nat (KB_L2_SIZE - 1)) 0 (fun i l2 => b ← zget l2 (i + 1); zset l2 i b) (x :: s))
    as (d & E & Hd & Hg).
  - split; [done|]. intros j. by rewrite decide_False by lia.
  - intros k d Hk [Hd Hg]. rewrite Z2Nat.id in Hk by done. unfold KB_L2_SIZE in *.
    destruct (zget_is_Some d (k + 1) ltac:(lia)) as [b Hb]. rewrite Hb. cbn [mbind option_bind].
    rewrite zset_ok by lia. eexists. split; [done|]. split; [by rewrite zlen_insert|].
    intros j. rewrite (zget_zset d k j b) by (apply zset_ok; lia). rewrite Hg in Hb.
    rewrite Hg. rewrite decide_False in Hb by lia. repeat case_decide; try lia; subst; congruence.
  - rewrite Z2Nat.id in Hg by done. rewrite zlen_cons in Hl. unfold KB_L2_SIZE in *.
    destruct (zget_is_Some (x :: s) 2047 ltac:(rewrite zlen_cons; lia)) as [y Hy].
    exists y. rewrite E. f_equal. apply zget_ext. intros j. rewrite Hg, zget_app.
    destruct (decide (0 <= j < 0 + (2048 - 1))).
    + rewrite decide_True by lia. rewrite zget_cons, decide_False by lia. f_equal. lia.
    + destruct (decide (j = 2047)) as [->|].
      * rewrite decide_False by lia. rewrite Hy. replace (2047 - zlen s) with 0 by lia. done.
      * destruct (decide (j < 0)).
        -- rewrite decide_True by lia. by rewrite !(proj2 (zget_None _ j)) by lia.
        -- rewrite decide_False by lia. rewrite (proj2 (zget_None (x :: s) j)) by (rewrite zlen_cons; lia).
           symmetry. apply zget_None. change (zlen [y]) with 1. lia.
Qed.

(** ** Lemmas: the buffer operations on the discipline *)

Lemma screen_l1 t b i : screen_of (with_kb_l1_buffer_index (with_kb_l1_buffer t b) i) = screen_of t.
Proof. by destruct t. Qed.

Lemma push_l1_ok ch t d : disc_ok t d -> zlen (pend d) < KB_L1_SIZE -> exists t',
  push_l1 ch t = Some t' /\ disc_ok t' (MkDisc (pend d ++ [ch]) (rdy d) (scr d)) /\ field t' = field t /\
  cursor_offset t' = cursor_offset t.
Proof.
  intros [[r1 H1] [r2 H2] H3 H4 H5 H6 H7 H8 H9 H0] Hp. unfold push_l1. rewrite H5, H1.
  rewrite H1 in H3. destruct (zset_mid (pend d) r1 ch) as (r & E & Hr);
    [by eapply rest_nonempty|]. rewrite E. cbn [mbind option_bind].
  eexists. split; [done|]. pose proof (zlen_nonneg (pend d)). unfold KB_L1_SIZE in *.
  assert (zlen (pend d ++ [ch]) = zlen (pend d) + 1) as El by (rewrite zlen_app; done).
  rewrite zlen_app in H3.
  split; [|done]. split; cbn; try done.
  - by exists r.
  - by exists r2.
  - rewrite zlen_app, El. unfold KB_L1_SIZE. lia.
  - rewrite El, u16_small by lia. done.
Qed.

Lemma pop_l1_ok t d p ch : disc_ok t d -> pend d = p ++ [ch] -> zlen (pend d) < KB_L1_SIZE -> exists t',
  pop_l1 t = Some t' /\ disc_ok t' (MkDisc p (rdy d) (scr d)) /\ field t' = field t /\
  cursor_offset t' = cursor_offset t.
Proof.
  intros [[r1 H1] [r2 H2] H3 H4 H5 H6 H7 H8 H9 H0] Ep Hp. unfold pop_l1. rewrite H5, H1.
  rewrite H1 in H3. destruct (zset_mid (pend d) r1 0) as (r & E & Hr);
    [by eapply rest_nonempty|]. rewrite E. cbn [mbind option_bind].
  eexists. split; [done|]. unfold KB_L1_SIZE in *. pose proof (zlen_nonneg p).
  assert (zlen (pend d) = zlen p + 1) as El by (rewrite Ep, zlen_app; done).
  rewrite zlen_app in H3.
  split; [|done]. split; cbn; try done.
  - exists ([ch; 0] ++ r). by rewrite Ep, <- !app_assoc.
  - by exists r2.
  - rewrite !zlen_app. change (zlen [0]) with 1. unfold KB_L1_SIZE. lia.
  - rewrite El, u16_small by lia. lia.
Qed.

Lemma flush_line_ok t d : disc_ok t d -> pend d <> [] -> zlen (pend d) < KB_L1_SIZE ->
  zlen (rdy d) + zlen (pend d) + 1 <= KB_L2_SIZE -> exists t',
  flush_line t = Some t' /\ disc_ok t' (MkDisc [] (rdy d ++ pend d) (scr d)) /\ field t' = field t /\
  cursor_offset t' = cursor_offset t.
Proof.
  intros [[r1 H1] [r2 H2] H3 H4 H5 H6 H7 H8 H9 H0] Hn Hp Hr. unfold flush_line.
  rewrite H5, H6, H1, H2. rewrite H1 in H3. rewrite H2 in H4.
  destruct r1 as [|x r1]; [by destruct (rest_nonempty _ _ _ H3 Hp)|].
  destruct (memcpy_prefix (rdy d) r2 (pend d) r1 x (zlen (pend d) + 1)) as (r & E & El);
    [done|rewrite H4; lia|].
  rewrite E. cbn [mbind option_bind kb_l1_buffer with_kb_l2_buffer_index with_kb_l2_buffer].
  rewrite H1. pose proof (zlen_nonneg (pend d)). pose proof (zlen_nonneg (rdy d)).
  unfold KB_L1_SIZE, KB_L2_SIZE in *.
  rewrite zset_ok by lia. cbn [mbind option_bind]. eexists. split; [done|].
  split; [|done]. split; cbn; try done.
  - by exists (<[Z.to_nat 0:=0]> (pend d ++ x :: r1)).
  - by exists r.
  - rewrite zlen_insert. done.
  - rewrite El. done.
  - rewrite H5, H6, zlen_app, u16_small by lia. done.
Qed.

(** [upd_cur] with an operation that keeps the screen. *)
Lemma upd_cur_ok f c t t' : cons_ok c -> tty_at (current_tty c) c = Some t -> f t = Some t' ->
  field t' = field t -> upd_cur f c = Some (put (current_tty c) t' c).
Proof.
  intros Hc Ht Hf Hfield. unfold upd_cur. rewrite Ht. cbn [mbind option_bind]. rewrite Hf.
  cbn [mbind option_bind]. erewrite set_tty_eq by exact Ht. unfold put. rewrite Z.eqb_refl, Hfield.
  by rewrite (cok_video _ Hc t Ht).
Qed.

(** A terminal with a well-formed state of the discipline; what the handler keeps. *)
Record cur_ok (c : console) (d : disc) (t : tty_t) : Prop := {
  cur_cons : cons_ok c;
  cur_at : tty_at (current_tty c) c = Some t;
  cur_tty : tty_ok t;
  cur_disc : disc_ok t d
}.

Lemma cur_put c d t d' t' : cur_ok c d t -> tty_ok t' -> disc_ok t' d' ->
  cur_ok (put (current_tty c) t' c) d' t'.
Proof.
  intros [H1 H2 H3 H4] Hok Hd. split; [by eapply put_ok|by eapply tty_at_put|done|done].
Qed.

(** Echoing a character. *)
Lemma echo_ok ch c d t : cur_ok c d t -> ch <> 27 -> exists t',
  text_putchar ch (current_tty c) c = Some (put (current_tty c) t' c) /\
  cur_ok (put (current_tty c) t' c) (MkDisc (pend d) (rdy d) (p_putchar ch (scr d))) t'.
Proof.
  intros H Hc. destruct H as [H1 H2 H3 H4]. pose proof (dok_escape _ _ H4) as He.
  assert (home_ok ch t) as Hh by (intros Hn; done).
  exists (p_putchar ch t). split; [by apply acts_putchar|].
  apply (cur_put c d t); [by split|by apply putchar_ok|by apply putchar_disc].
Qed.

(** A buffer operation, as a step of the console. *)
Lemma upd_step f c d t d' : cur_ok c d t ->
  (exists t', f t = Some t' /\ disc_ok t' d' /\ field t' = field t /\ cursor_offset t' = cursor_offset t) ->
  exists t', upd_cur f c = Some (put (current_tty c) t' c) /\ cur_ok (put (current_tty c) t' c) d' t'.
Proof.
  intros H (t' & Hf & Hd & Hfi & Ho). exists t'. destruct H as [H1 H2 H3 H4]. split.
  - by apply (upd_cur_ok f c t t').
  - apply (cur_put c d t); [by split|by apply (same_ok t)|done].
Qed.

(** ** Lemmas: a key, a sequence of keys *)

Lemma current_put w t c : current_tty (put w t c) = current_tty c.
Proof. done. Qed.

Lemma input_char_ok ch c d t : cur_ok c d t -> ch <> 27 -> fits1 ch d = true -> exists t',
  input_char ch c = Some (put (current_tty c) t' c) /\ cur_ok (put (current_tty c) t' c) (edit1 ch d) t'.
Proof.
  intros H Hc Hf. unfold input_char, fits1, edit1 in *.
  rewrite (cur_at _ _ _ H). cbn [mbind option_bind]. rewrite (dok_raw _ _ (cur_disc _ _ _ H)).
  cbn [Z.eqb negb]. destruct (Z.eqb_spec ch 8) as [->|H8].
  - rewrite (dok_i1 _ _ (cur_disc _ _ _ H)). bsimp.
    destruct (pend d) as [|x p] eqn:Ep.
    + exists t. rewrite (put_id _ t c) by apply H. by split.
    + rewrite (proj2 (Z.eqb_neq (zlen (x :: p)) 0)) by (rewrite zlen_cons; pose proof (zlen_nonneg p); lia).
      destruct (echo_ok 8 c d t H) as (t1 & -> & H1); [done|]. cbn [mbind option_bind].
      destruct (upd_step pop_l1 _ _ t1 (MkDisc (removelast (x :: p)) (rdy d) (p_putchar 8 (scr d))) H1)
        as (t2 & E & H2).
      { apply pop_l1_ok with (d := MkDisc (pend d) (rdy d) (p_putchar 8 (scr d))) (ch := List.last (x :: p) 0);
          [apply H1|change (pend d = removelast (x :: p) ++ [List.last (x :: p) 0]); rewrite Ep; by apply app_removelast_last|cbn; by rewrite Ep]. }
      exists t2. rewrite current_put in E, H2. rewrite put_put in E, H2. by split.
  - destruct (Z.eqb_spec ch 10) as [->|H10].
    + apply andb_prop in Hf as [Hf1 Hf2]. bsimp.
      destruct (echo_ok 10 c d t H) as (t1 & -> & H1); [done|]. cbn [mbind option_bind].
      destruct (upd_step (push_l1 10) _ _ t1 (MkDisc (pend d ++ [10]) (rdy d) (p_putchar 10 (scr d))) H1)
        as (t2 & E & H2).
      { apply push_l1_ok with (d := MkDisc (pend d) (rdy d) (p_putchar 10 (scr d))); [apply H1|cbn; lia]. }
      rewrite E. cbn [mbind option_bind]. rewrite current_put, put_put in H2 |- *.
      assert (zlen (pend d ++ [10]) = zlen (pend d) + 1) as El by (rewrite zlen_app; done).
      destruct (upd_step flush_line _ _ t2 (MkDisc [] (rdy d ++ pend d ++ [10]) (p_putchar 10 (scr d))) H2)
        as (t3 & E3 & H3).
      { apply (flush_line_ok t2 (MkDisc (pend d ++ [10]) (rdy d) (p_putchar 10 (scr d))));
          [apply H2|cbn; by destruct (pend d)|cbn; lia|cbn; lia]. }
      exists t3. rewrite current_put, put_put in E3, H3. by split.
    + bsimp. destruct (echo_ok ch c d t H) as (t1 & -> & H1); [done|]. cbn [mbind option_bind].
      destruct (upd_step (push_l1 ch) _ _ t1 (MkDisc (pend d ++ [ch]) (rdy d) (p_putchar ch (scr d))) H1)
        as (t2 & E & H2).
      { apply push_l1_ok with (d := MkDisc (pend d) (rdy d) (p_putchar ch (scr d))); [apply H1|cbn; lia]. }
      exists t2. rewrite current_put, put_put in E, H2. by split.
Qed.

Lemma ascii_table_len k : zlen (table k) = CAPSLOCK.
Proof.
  unfold table. destruct (_ && _); [done|]. destruct (_ && _); [done|]. by destruct (_ && _).
Qed.

Lemma table_chars k : Forall (fun ch => ch <> 27) (table k).
Proof.
  unfold table. destruct (_ && _); [|destruct (_ && _); [|destruct (_ && _)]];
    (repeat constructor; done).
Qed.

Lemma key_char_table k b : 0 <= b < CAPSLOCK ->
  zget (table k) b = Some (key_char k b) /\ key_char k b <> 27.
Proof.
  intros Hb. destruct (zget_is_Some (table k) b) as [ch E]; [by rewrite ascii_table_len|].
  assert (key_char k b = ch) as <-.
  { rewrite zget_lookup in E by lia. unfold key_char. by apply nth_lookup_Some. }
  split; [exact E|]. rewrite zget_lookup in E by lia.
  exact (proj1 (Forall_lookup _ _) (table_chars k) _ _ E).
Qed.

Lemma char_key_plain k b c t : char_key b = true -> ctrl_active k = 0 ->
  tty_at (current_tty c) c = Some t -> kb_l1_buffer_index t < KB_L1_SIZE ->
  keyboard_handler b k c = c ← input_char (key_char k b) c; Some (k, c).
Proof.
  intros Hb Hk Ht Hi. unfold char_key in Hb. bsimp. unfold CAPSLOCK, LEFT_SHIFT, RIGHT_SHIFT, LEFT_CTRL in *.
  assert (ctrl_key b k c = c ← input_char (key_char k b) c; Some (k, c)) as E.
  { unfold ctrl_key. rewrite Hk. cbn [Z.eqb negb andb]. unfold plain_key.
    unfold CAPSLOCK, LEFT_SHIFT, RIGHT_SHIFT, LEFT_SHIFT_REL, RIGHT_SHIFT_REL, LEFT_CTRL, LEFT_CTRL_REL.
    rewrite !(proj2 (Z.eqb_neq b _)) by lia. cbn [orb].
    rewrite Ht. cbn [mbind option_bind]. rewrite (proj2 (Z.ltb_lt _ _)) by exact Hi.
    rewrite (proj2 (Z.ltb_lt b MAX_CODE)) by (unfold MAX_CODE; lia).
    by rewrite (proj1 (key_char_table k b ltac:(unfold CAPSLOCK; lia))). }
  unfold keyboard_handler. destruct (shift_active k =? 0); [exact E|]. cbn [negb]. unfold tty_key.
  rewrite !(proj2 (Z.eqb_neq b _)) by lia. exact E.
Qed.

Lemma fits1_room ch d : fits1 ch d = true -> zlen (pend d) < KB_L1_SIZE.
Proof.
  unfold fits1. destruct (ch =? 8); [intros; bsimp; lia|].
  destruct (ch =? 10); intros; bsimp; lia.
Qed.

Lemma type_keys_ok bs k c d t : cur_ok c d t -> ctrl_active k = 0 -> forallb char_key bs = true ->
  fits (map (key_char k) bs) d = true -> exists t',
  type_keys bs k c = Some (k, put (current_tty c) t' c) /\
  cur_ok (put (current_tty c) t' c) (edits (map (key_char k) bs) d) t'.
Proof.
  intros H Hk. revert c d t H. induction bs as [|b bs IH]; intros c d t H Hb Hf; cbn [type_keys map edits].
  - exists t. rewrite (put_id _ t c) by apply H. by split.
  - cbn in Hb, Hf. apply andb_prop in Hb as [Hb Hbs]. apply andb_prop in Hf as [Hf Hfs].
    assert (0 <= b < CAPSLOCK) as Hr by (unfold char_key in Hb; bsimp; lia).
    destruct (input_char_ok (key_char k b) c d t H) as (t1 & E & H1);
      [by apply key_char_table|exact Hf|].
    rewrite (char_key_plain k b c t) by (try done; try apply H;
      rewrite (dok_i1 _ _ (cur_disc _ _ _ H)); by eapply fits1_room).
    rewrite E. cbn [mbind option_bind fst snd].
    destruct (IH _ _ _ H1 Hbs Hfs) as (t2 & E2 & H2). exists t2.
    rewrite current_put, put_put in E2, H2. by split.
Qed.

(** ** Lemmas: reading *)

Lemma fetch_char_ok k c d t ch s : cur_ok c d t -> is_eof k = 0 -> rdy d = ch :: s -> exists t',
  keyboard_fetch_char (current_tty c) k c =
    Some (ch, (if ch =? 10 then set_eof k 1 else k, put (current_tty c) t' c)) /\
  cur_ok (put (current_tty c) t' c) (MkDisc (pend d) s (scr d)) t'.
Proof.
  intros H Hk Hs. unfold keyboard_fetch_char. rewrite Hk. cbn [Z.eqb negb].
  pose proof (cur_at _ _ _ H) as Ht. rewrite Ht. cbn [mbind option_bind].
  destruct (cur_disc _ _ _ H) as [H1 [r2 H2] H3 H4 H5 H6 H7 H8 H9 H0].
  rewrite H6. rewrite Hs in *. rewrite zlen_cons. pose proof (zlen_nonneg s).
  rewrite (proj2 (Z.eqb_neq (zlen s + 1) 0)) by lia.
  cbn [negb kb_l2_buffer with_kb_l2_buffer_index]. rewrite H2. cbn [app].
  change (zget (ch :: s ++ r2) 0) with (Some ch). cbn [mbind option_bind].
  rewrite H2 in H4. cbn [app] in H4. destruct (shift_l2_ok ch (s ++ r2) H4) as (y & Ey).
  rewrite Ey. cbn [mbind option_bind]. rewrite zlen_cons, zlen_app in H4.
  pose proof (zlen_nonneg r2). unfold KB_L2_SIZE in H4. rewrite u16_small by lia.
  set (t' := with_kb_l2_buffer _ _).
  exists t'. rewrite (set_tty_eq _ t) by exact Ht. split.
  - cbn [mbind option_bind]. unfold put. rewrite Z.eqb_refl.
    change (field t') with (field t). rewrite (cok_video _ (cur_cons _ _ _ H) t Ht). done.
  - apply (cur_put c d t); [done|by apply (same_ok t), eq_refl; [apply H|]|].
    split; subst t'; cbn; try done.
    + exists (r2 ++ [y]). by rewrite <- app_assoc.
    + rewrite !zlen_app. change (zlen [y]) with 1. unfold KB_L2_SIZE. lia.
    + lia.
Qed.

Lemma set_eof_id k v : is_eof k = 0 -> set_eof (set_eof k v) 0 = k.
Proof. destruct k. cbn. by intros ->. Qed.

Lemma fetch_chars_ok k c d t : cur_ok c d t -> is_eof k = 0 -> exists t',
  fetch_chars (length (feed (rdy d))) (current_tty c) k c =
    Some (feed (rdy d), (k, put (current_tty c) t' c)) /\
  cur_ok (put (current_tty c) t' c) (MkDisc (pend d) [] (scr d)) t'.
Proof.
  intros H Hk. remember (rdy d) as s eqn:Hs. revert c d t H Hs.
  induction s as [|ch s IH]; intros c d t H Hs.
  - exists t. rewrite (put_id _ t c) by apply H. split; [done|].
    destruct d; cbn in *. by subst.
  - destruct (fetch_char_ok k c d t ch s H Hk (eq_sym Hs)) as (t1 & E & H1).
    destruct (IH _ _ _ H1 eq_refl) as (t2 & E2 & H2). exists t2.
    rewrite current_put, put_put in E2, H2. split; [|exact H2].
    cbn [feed]. destruct (ch =? 10) eqn:En; cbn [length fetch_chars]; rewrite E;
      cbn [mbind option_bind fst snd].
    + unfold keyboard_fetch_char at 1. cbn [is_eof set_eof Z.eqb negb mbind option_bind fst snd].
      change (MkKeyboard _ _ _ _ 0) with (set_eof (set_eof k 1) 0).
      rewrite set_eof_id by exact Hk. by rewrite E2.
    + by rewrite E2.
Qed.

Lemma fetch_empty k c d t : cur_ok c d t -> is_eof k = 0 -> rdy d = [] ->
  keyboard_fetch_char (current_tty c) k c = Some (IO_NOT_READY, (k, c)).
Proof.
  intros H Hk Hr. unfold keyboard_fetch_char. rewrite Hk, (cur_at _ _ _ H). cbn [Z.eqb negb mbind option_bind].
  destruct (cur_disc _ _ _ H) as [H1 H2 H3 H4 H5 H6 H7 H8 H9 H0]. rewrite H6, Hr, H9. done.
Qed.

(** ** The full line *)

(** The keys that change something whatever the state of the line. *)
Definition modifier (b : Z) : bool :=
  (b =? CAPSLOCK) || (b =? LEFT_SHIFT) || (b =? RIGHT_SHIFT) || (b =? LEFT_SHIFT_REL) ||
  (b =? RIGHT_SHIFT_REL) || (b =? LEFT_CTRL) || (b =? LEFT_CTRL_REL).

Lemma full_ignores b k c t : modifier b = false -> shift_active k = 0 ->
  tty_at (current_tty c) c = Some t -> KB_L1_SIZE <= kb_l1_buffer_index t ->
  keyboard_handler b k c = Some (k, c).
Proof.
  intros Hm Hs Ht Hi. unfold modifier in Hm.
  repeat match goal with H : (_ || _) = false |- _ => apply orb_false_elim in H as [? ?] end.
  unfold keyboard_handler. rewrite Hs. cbn [Z.eqb negb]. unfold ctrl_key.
  destruct (_ && _); [done|]. unfold plain_key.
  repeat match goal with H : (b =? _) = false |- _ => rewrite H; clear H end.
  cbn [orb]. rewrite Ht. cbn [mbind option_bind]. by rewrite (proj2 (Z.ltb_ge _ _)).
Qed.

Lemma full_ignores_all bs k c t : forallb (fun b => negb (modifier b)) bs = true -> shift_active k = 0 ->
  tty_at (current_tty c) c = Some t -> KB_L1_SIZE <= kb_l1_buffer_index t ->
  type_keys bs k c = Some (k, c).
Proof.
  intros Hb Hs Ht Hi. induction bs as [|b bs IH]; [done|]. cbn in Hb.
  apply andb_prop in Hb as [Hb Hbs]. apply negb_true_iff in Hb. cbn [type_keys].
  rewrite (full_ignores b k c t) by done. by apply IH.
Qed.

(** Ordinary characters accumulate. *)
Definition ordinary (ch : Z) : bool := negb (ch =? 8) && negb (ch =? 10).

Lemma edits_ordinary s d : forallb ordinary s = true ->
  pend (edits s d) = pend d ++ s /\ rdy (edits s d) = rdy d.
Proof.
  revert d. induction s as [|ch s IH]; intros d Hs; cbn in *; [by rewrite app_nil_r|].
  apply andb_prop in Hs as [Hc Hs]. unfold ordinary in Hc. bsimp. destruct (IH (edit1 ch d) Hs) as [-> ->].
  unfold edit1. rewrite !(proj2 (Z.eqb_neq ch _)) by done. cbn. by rewrite <- app_assoc.
Qed.

Lemma fits_ordinary s d : forallb ordinary s = true -> zlen (pend d) + zlen s <= KB_L1_SIZE ->
  fits s d = true.
Proof.
  revert d. induction s as [|ch s IH]; intros d Hs Hl; cbn in *; [done|].
  apply andb_prop in Hs as [Hc Hs]. unfold ordinary in Hc. rewrite zlen_cons in Hl. pose proof (zlen_nonneg s).
  bsimp. unfold fits1, edit1. rewrite !(proj2 (Z.eqb_neq ch _)) by done.
  rewrite (proj2 (Z.ltb_lt _ _)) by lia. apply IH; [done|]. cbn. rewrite zlen_app. change (zlen [ch]) with 1. lia.
Qed.

Lemma fits_app s s' d : fits (s ++ s') d = fits s d && fits s' (edits s d).
Proof. revert d. induction s as [|ch s IH]; intros d; cbn; [done|]. by rewrite IH, andb_assoc. Qed.

Lemma edits_app s s' d : edits (s ++ s') d = edits s' (edits s d).
Proof. revert d. induction s as [|ch s IH]; intros d; cbn; [done|apply IH]. Qed.

(** * Properties *)

(** The keys between the end of the tables (58 entries) and [MAX_CODE] (0x57) -
    the function keys, the numeric pad - are looked up outside of the table. *)
Lemma keyboard_table_overrun (b : Z) (k : keyboard) (c : console) (t : tty_t) :
  CAPSLOCK < b < MAX_CODE -> shift_active k = 0 -> tty_at (current_tty c) c = Some t ->
  kb_l1_buffer_index t < KB_L1_SIZE -> keyboard_handler b k c = None.
Proof.
  intros Hb Hs Ht Hi. unfold keyboard_handler. rewrite Hs. cbn [Z.eqb negb].
  unfold CAPSLOCK, MAX_CODE in Hb. unfold ctrl_key. rewrite (proj2 (Z.eqb_neq b 0x2e)), andb_false_r by lia.
  unfold plain_key.
  unfold CAPSLOCK, LEFT_SHIFT, RIGHT_SHIFT, LEFT_SHIFT_REL, RIGHT_SHIFT_REL, LEFT_CTRL, LEFT_CTRL_REL.
  rewrite !(proj2 (Z.eqb_neq b _)) by lia. cbn [orb]. rewrite Ht. cbn [mbind option_bind].
  rewrite (proj2 (Z.ltb_lt _ _)) by done. rewrite (proj2 (Z.ltb_lt b MAX_CODE)) by (unfold MAX_CODE; lia).
  rewrite (proj2 (zget_None (table k) b)); [done|]. rewrite ascii_table_len. unfold CAPSLOCK. lia.
Qed.

(** C27: what is typed is what is read.  On a terminal in line mode any sequence
    of character keys for which the buffers have room acts as the line
    discipline [edits] prescribes - a backspace takes the last character of the
    line away, Enter hands the line to the readers, everything else is appended,
    each with its echo on the screen - and reading afterwards delivers the
    completed lines, each followed by an end of file, and then
    [IO_NOT_READY]. *)
Theorem keyboard_line_roundtrip (bs : list Z) (k : keyboard) (c : console) (t : tty_t) (d : disc) :
  cons_ok c -> tty_at (current_tty c) c = Some t -> disc_ok t d ->
  ctrl_active k = 0 -> is_eof k = 0 -> forallb char_key bs = true ->
  fits (map (key_char k) bs) d = true ->
  let d' := edits (map (key_char k) bs) d in
  exists c1 c2 t1, type_keys bs k c = Some (k, c1) /\ cons_ok c1 /\
    tty_at (current_tty c) c1 = Some t1 /\ disc_ok t1 d' /\
    fetch_chars (length (feed (rdy d'))) (current_tty c) k c1 = Some (feed (rdy d'), (k, c2)) /\
    keyboard_fetch_char (current_tty c) k c2 = Some (IO_NOT_READY, (k, c2)).
Proof.
  intros Hc Ht Hd Hk He Hb Hf d'.
  assert (cur_ok c d t) as H by (split; [done|done|by eapply cok_ttys|done]).
  destruct (type_keys_ok bs k c d t H Hk Hb Hf) as (t1 & E1 & H1).
  destruct (fetch_chars_ok k _ _ _ H1 He) as (t2 & E2 & H2).
  exists (put (current_tty c) t1 c), (put (current_tty c) t2 c), t1.
  rewrite current_put, put_put in E2, H2.
  split; [exact E1|]. split; [apply H1|]. split; [apply H1|]. split; [apply H1|]. split; [exact E2|].
  exact (fetch_empty k _ _ _ H2 He eq_refl).
Qed.

(** A line of 256 characters locks the keyboard.  After 256 ordinary keys
    the first buffer is full and the handler drops every key but the modifiers,
    Enter and backspace included: whatever is typed, nothing changes, and a
    reader waits forever. *)
Theorem full_line_locks (bs : list Z) (k : keyboard) (c : console) (t : tty_t) :
  cons_ok c -> tty_at (current_tty c) c = Some t -> disc_ok t (MkDisc [] [] (screen_of t)) ->
  ctrl_active k = 0 -> shift_active k = 0 -> is_eof k = 0 ->
  forallb char_key bs = true -> forallb ordinary (map (key_char k) bs) = true -> zlen bs = KB_L1_SIZE ->
  exists c', type_keys bs k c = Some (k, c') /\
    forall ks, forallb (fun b => negb (modifier b)) ks = true ->
      type_keys ks k c' = Some (k, c') /\
      keyboard_fetch_char (current_tty c) k c' = Some (IO_NOT_READY, (k, c')).
Proof.
  intros Hc Ht Hd Hk Hs He Hb Ho Hl.
  assert (cur_ok c (MkDisc [] [] (screen_of t)) t) as H by (split; [done|done|by eapply cok_ttys|done]).
  assert (zlen (map (key_char k) bs) = KB_L1_SIZE) as Hlm by (unfold zlen in *; by rewrite length_map).
  destruct (type_keys_ok bs k c _ t H Hk Hb) as (t1 & E1 & H1).
  { apply fits_ordinary; [done|]. cbn [pend]. rewrite zlen_nil. lia. }
  destruct (edits_ordinary (map (key_char k) bs) (MkDisc [] [] (screen_of t)) Ho) as [Hp Hr].
  cbn [pend rdy app] in Hp, Hr. exists (put (current_tty c) t1 c). split; [exact E1|]. intros ks Hks. split.
  - apply (full_ignores_all ks k _ t1 Hks Hs); [apply H1|].
    rewrite (dok_i1 _ _ (cur_disc _ _ _ H1)), Hp. lia.
  - apply (fetch_empty k _ _ _ H1 He Hr).
Qed.

(** * Witnesses *)

Definition kb0 : keyboard := MkKeyboard 0 0 0 0 0.

Lemma demo_disc : disc_ok demo_tty (MkDisc [] [] (screen_of demo_tty)).
Proof.
  split; try reflexivity.
  - by exists (replicate 256 0).
  - by exists (replicate 2048 0).
Qed.

(** "ls", a mistake corrected, and Enter: l, d, backspace, s, Enter. *)
Lemma keyboard_line_roundtrip_witness :
  exists c1 c2, type_keys [0x26; 0x20; 0x0E; 0x1F; 0x1C] kb0 demo = Some (kb0, c1) /\
    fetch_chars 4 0 kb0 c1 = Some ([108; 115; 10; -1], (kb0, c2)) /\
    keyboard_fetch_char 0 kb0 c2 = Some (IO_NOT_READY, (kb0, c2)).
Proof.
  destruct (keyboard_line_roundtrip [0x26; 0x20; 0x0E; 0x1F; 0x1C] kb0 demo demo_tty
    (MkDisc [] [] (screen_of demo_tty))) as (c1 & c2 & t1 & H1 & _ & _ & _ & H2 & H3);
    [exact demo_ok|reflexivity|exact demo_disc|reflexivity|reflexivity|reflexivity|reflexivity|].
  exists c1, c2. split; [exact H1|]. split; [exact H2|exact H3].
Defined.

Lemma full_line_locks_witness :
  exists c', type_keys (repeat 0x1E 256) kb0 demo = Some (kb0, c') /\
    type_keys [0x1C; 0x0E; 0x10] kb0 c' = Some (kb0, c').
Proof.
  destruct (full_line_locks (repeat 0x1E 256) kb0 demo demo_tty) as (c' & H1 & H2);
    [exact demo_ok|reflexivity|exact demo_disc|reflexivity..|].
  exists c'. split; [exact H1|]. apply (H2 [0x1C; 0x0E; 0x10]). reflexivity.
Defined.

End Keyboard.
