(* ===== verification/Kprint.v ===== *)
(** * Formatted kernel messages: [kernel/src/lib/kprint.c], and the number
    printers of [kernel/src/klib.c]

    [kvprint] formats into a buffer of 256 bytes, dropping what does not fit,
    and then prints the buffer on terminal 0.  An access outside of a buffer, a
    string or the argument list is [None], and so is the overflow of [x = -x]. *)

From S2P Require Import Prelude CString Tty.
Local Open Scope Z_scope.

Module Kprint.

Import CString.

Definition KPRINT_BUF_MAX : Z := 256.

(** [char kprint_buf[KPRINT_BUF_MAX]; size_t kprint_buf_i;] *)
Record kbuf := MkKbuf { kprint_buf : list Z; kprint_buf_i : Z }.

(** [kprint_buf[( *kprint_buf_i)++] = c] *)
Definition store (c : Z) (b : kbuf) : option kbuf :=
  l ← zset (kprint_buf b) (kprint_buf_i b) c; Some (MkKbuf l (u32 (kprint_buf_i b + 1))).
(** [kprint_buf[*kprint_buf_i] = 0] *)
Definition terminate (b : kbuf) : option kbuf :=
  l ← zset (kprint_buf b) (kprint_buf_i b) 0; Some (MkKbuf l (kprint_buf_i b)).

Fixpoint kput_s_loop (string : list Z) (b : kbuf) : option kbuf :=
  match string with
  | [] => None
  | c :: string =>
      if c =? 0 then Some b
      else if kprint_buf_i b =? KPRINT_BUF_MAX - 1 then Some b
      else b ← store c b; kput_s_loop string b
  end.
Definition kput_s (string : list Z) (b : kbuf) : option kbuf :=
  b ← kput_s_loop string b; terminate b.

(** [n] characters are left of [len]. *)
Fixpoint knput_s_loop (n : nat) (string : list Z) (b : kbuf) : option kbuf :=
  match n with
  | O => Some b
  | S n =>
      if kprint_buf_i b =? KPRINT_BUF_MAX - 1 then Some b
      else
        match string with
        | [] => None
        | c :: string => b ← store c b; knput_s_loop n string b
        end
  end.
Definition knput_s (string : list Z) (len : Z) (b : kbuf) : option kbuf :=
  b ← knput_s_loop (Z.to_nat len) string b; terminate b.

Definition kputchar (c : Z) (b : kbuf) : option kbuf :=
  b ← (if kprint_buf_i b <? KPRINT_BUF_MAX - 1 then store c b else Some b); terminate b.

(** ** Numbers *)

(** [for ( ; x; i--) { buf[i] = digit(x % base); x = x / base; }], where [wrap]
    is the type of [i].  The printers start with at most 64 bits, so 65 rounds
    are enough. *)
Fixpoint conv (fuel : nat) (wrap : Z -> Z) (base : Z) (digit : Z -> option Z) (i x : Z) (buf : list Z)
    : option (Z * list Z) :=
  match fuel with
  | O => None
  | S fuel =>
      if x =? 0 then Some (i, buf)
      else
        d ← digit (x mod base);
        buf ← zset buf i d;
        conv fuel wrap base digit (wrap (i - 1)) (x / base) buf
  end.
Definition CONV_FUEL : nat := 65.

Definition dec_digit (r : Z) : option Z := Some (r + 0x30).
Definition hex_to_ascii_tab : list Z := [48; 49; 50; 51; 52; 53; 54; 55; 56; 57; 97; 98; 99; 100; 101; 102].
Definition hex_digit (r : Z) : option Z := zget hex_to_ascii_tab r.
Definition int_id (i : Z) : Z := i.

(** The string at [buf + off]. *)
Definition str_at (buf : list Z) (off : Z) : option (list Z) :=
  if decide (0 <= off <= zlen buf) then Some (drop (Z.to_nat off) buf) else None.

Definition kprn_i (x : Z) (b : kbuf) : option kbuf :=
  let buf := replicate 21 0 in
  if x =? 0 then kputchar 48 b
  else
    let sign := x <? 0 in
    x ← (if sign then if x =? - 2 ^ 63 then None else Some (- x) else Some x);
    '(i, buf) ← conv CONV_FUEL int_id 10 dec_digit 19 x buf;
    '(i, buf) ← (if sign then buf ← zset buf i 45; Some (i, buf) else Some (i + 1, buf));
    s ← str_at buf i;
    kput_s s b.

Definition kprn_ui (x : Z) (b : kbuf) : option kbuf :=
  let buf := replicate 21 0 in
  if x =? 0 then kputchar 48 b
  else
    '(i, buf) ← conv CONV_FUEL int_id 10 dec_digit 19 x buf;
    s ← str_at buf (i + 1);
    kput_s s b.

Definition kprn_x (x pad : Z) (b : kbuf) : option kbuf :=
  let buf := replicate 16 48 ++ [0] in
  '(i, buf) ← (if negb (x =? 0) then
                 '(i, buf) ← conv CONV_FUEL int_id 16 hex_digit 15 x buf; Some (i + 1, buf)
               else Some (15, buf));
  b ← kput_s [48; 120; 0] b;
  s ← str_at buf (if negb (pad =? 0) then 16 - pad else i);
  kput_s s b.

(** [tty_kuitoa] and [tty_kxtoa]; [kuitoa] and [kxtoa] are the same on the
    terminal [kputs] prints on, number 0.  The index is a [uint8_t]. *)
Definition puts_from (buf : list Z) (i which_tty : Z) (c : Tty.console) : option Tty.console :=
  s ← str_at buf i; n ← kstrlen s; Tty.tty_knputs (take (Z.to_nat n) s) which_tty c.

Definition tty_kuitoa (x which_tty : Z) (c : Tty.console) : option Tty.console :=
  let buf := replicate 21 0 in
  if x =? 0 then Tty.tty_knputs [48] which_tty c
  else
    '(i, buf) ← conv CONV_FUEL u8 10 dec_digit 19 x buf;
    puts_from buf (u8 (i + 1)) which_tty c.
Definition kuitoa (x : Z) (c : Tty.console) : option Tty.console := tty_kuitoa x 0 c.

Definition tty_kxtoa (x which_tty : Z) (c : Tty.console) : option Tty.console :=
  let buf := replicate 17 0 in
  if x =? 0 then Tty.tty_knputs [48; 120; 48] which_tty c
  else
    '(i, buf) ← conv CONV_FUEL u8 16 hex_digit 15 x buf;
    c ← Tty.tty_knputs [48; 120] which_tty c;
    puts_from buf (u8 (i + 1)) which_tty c.
Definition kxtoa (x : Z) (c : Tty.console) : option Tty.console := tty_kxtoa x 0 c.

(** ** Messages *)

Definition KPRN_INFO : Z := 0.
Definition KPRN_WARN : Z := 1.
Definition KPRN_ERR : Z := 2.
Definition KPRN_DBG : Z := 3.
Definition KPRN_PANIC : Z := 4.

(** ["\x1b[36m" word "\x1b[37m: "] *)
Definition banner (colour : Z) (word : list Z) : list Z :=
  [27; 91; 51; colour; 109] ++ word ++ [27; 91; 51; 55; 109; 58; 32].
Definition header (type : Z) : list Z :=
  if type =? KPRN_INFO then banner 54 [105; 110; 102; 111]
  else if type =? KPRN_WARN then banner 51 [119; 97; 114; 110; 105; 110; 103]
  else if type =? KPRN_ERR then banner 49 [69; 82; 82; 79; 82]
  else if type =? KPRN_PANIC then banner 49 [80; 65; 78; 73; 67]
  else banner 54 [68; 69; 66; 85; 71].
Definition print_header (type : Z) (b : kbuf) : option kbuf := kput_s (header type ++ [0]) b.

(** The arguments: a 32-bit slot ([int], [unsigned int], [size_t]), a 64-bit one,
    a pointer to characters or a null pointer. *)
Inductive karg :=
  | Word (w : Z)
  | DWord (w : Z)
  | Str (s : option (list Z)).

Definition s64 (z : Z) : Z := (z + 2 ^ 63) mod 2 ^ 64 - 2 ^ 63.
Definition s8 (z : Z) : Z := (z + 2 ^ 7) mod 2 ^ 8 - 2 ^ 7.

Definition va_word (args : list karg) : option (Z * list karg) :=
  match args with Word w :: args => Some (w, args) | _ => None end.
Definition va_dword (args : list karg) : option (Z * list karg) :=
  match args with DWord w :: args => Some (w, args) | _ => None end.
Definition va_str (args : list karg) : option (option (list Z) * list karg) :=
  match args with Str s :: args => Some (s, args) | _ => None end.

Definition null_text : list Z := [40; 110; 117; 108; 108; 41; 0].

(** The [switch] on the conversion character. *)
Definition directive (d val : Z) (args : list karg) (b : kbuf) : option (list karg * kbuf) :=
  if d =? 115 then (* s *)
    '(s, args) ← va_str args;
    b ← kput_s (match s with Some s => s | None => null_text end) b; Some (args, b)
  else if d =? 83 then (* S *)
    '(len, args) ← va_word args;
    '(s, args) ← va_str args;
    s ← (match s with Some s => Some s | None => if u32 len =? 0 then Some [] else None end);
    b ← knput_s s (u32 len) b; Some (args, b)
  else if d =? 100 then (* d *)
    '(w, args) ← va_word args; b ← kprn_i (s32 w) b; Some (args, b)
  else if d =? 68 then (* D *)
    '(w, args) ← va_dword args; b ← kprn_i (s64 w) b; Some (args, b)
  else if d =? 117 then (* u *)
    '(w, args) ← va_word args; b ← kprn_ui (u32 w) b; Some (args, b)
  else if d =? 85 then (* U *)
    '(w, args) ← va_dword args; b ← kprn_ui (u64 w) b; Some (args, b)
  else if d =? 120 then (* x *)
    '(w, args) ← va_word args; b ← kprn_x (u32 w) val b; Some (args, b)
  else if d =? 88 then (* X *)
    '(w, args) ← va_dword args; b ← kprn_x (u64 w) val b; Some (args, b)
  else if d =? 99 then (* c *)
    '(w, args) ← va_word args; b ← kputchar (s8 w) b; Some (args, b)
  else
    b ← kputchar 63 b; Some (args, b).

(** The [while] loop over ordinary characters: the rest of the format starts
    with ['%'] or the terminator. *)
Fixpoint plain (type : Z) (fmt : list Z) (b : kbuf) : option (list Z * kbuf) :=
  match fmt with
  | [] => None
  | c :: fmt' =>
      if (c =? 0) || (c =? 37) then Some (fmt, b)
      else
        b ← kputchar c b;
        b ← (if c =? 10 then print_header type b else Some b);
        plain type fmt' b
  end.

(** [while ( *fmt >= '0' && *fmt <= '9') { val *= 10; val += *fmt - '0'; fmt++; }] *)
Fixpoint number (fmt : list Z) (val : Z) : list Z * Z :=
  match fmt with
  | c :: fmt' =>
      if (48 <=? c) && (c <=? 57) then number fmt' (s32 (s32 (val * 10) + (c - 48))) else (fmt, val)
  | [] => ([], val)
  end.

(** The [for (;;)] loop; every turn but the last consumes a conversion, so as
    many turns as the format has characters are enough. *)
Fixpoint format (fuel : nat) (type : Z) (fmt : list Z) (args : list karg) (b : kbuf) : option kbuf :=
  match fuel with
  | O => None
  | S fuel =>
      '(fmt, b) ← plain type fmt b;
      c ← head fmt;
      if c =? 0 then kputchar 10 b
      else
        let '(fmt, val) := number (tail fmt) 0 in
        d ← head fmt;
        '(args, b) ← directive d val args b;
        format fuel type (tail fmt) args b
  end.

(** [kprint_buf_flush] and [kprint_buf_flush_urgent] are the same code. *)
Definition kprint_buf_flush (b : kbuf) (c : Tty.console) : option Tty.console :=
  zfor (Z.to_nat (kprint_buf_i b)) 0 (fun i c => ch ← zget (kprint_buf b) i; Tty.text_putchar ch 0 c) c.

(** [junk]: the content of the uninitialised [kprint_buf]. *)
Definition kvprint (junk : list Z) (type : Z) (fmt : list Z) (args : list karg) (c : Tty.console)
    : option Tty.console :=
  b ← print_header type (MkKbuf junk 0);
  b ← format (S (length fmt)) type fmt args b;
  kprint_buf_flush b c.
Definition kprint (junk : list Z) (type : Z) (fmt : list Z) (args : list karg) (c : Tty.console)
    : option Tty.console := kvprint junk type fmt args c.

(** ** Specification: the unbounded message

    [render] is the text the format denotes, without a buffer. *)

(** The text of a C string. *)
Fixpoint c_text (l : list Z) : option (list Z) :=
  match l with
  | [] => None
  | c :: l => if c =? 0 then Some [] else s ← c_text l; Some (c :: s)
  end.

(** The digits of a number, the most significant first. *)
Fixpoint digits (fuel : nat) (base x : Z) : list Z :=
  match fuel with
  | O => []
  | S fuel => if x =? 0 then [] else digits fuel base (x / base) ++ [x mod base]
  end.
Definition of_digits (base : Z) (ds : list Z) : Z := fold_left (fun a d => a * base + d) ds 0.

Definition dec_char (d : Z) : Z := d + 0x30.
Definition hex_char (d : Z) : Z := nth (Z.to_nat d) hex_to_ascii_tab 0.
Definition decimal (x : Z) : list Z := if x =? 0 then [48] else map dec_char (digits 64 10 x).
Definition hexadecimal (x : Z) : list Z := if x =? 0 then [48] else map hex_char (digits 64 16 x).
Definition signed_decimal (x : Z) : list Z := if x <? 0 then 45 :: decimal (- x) else decimal x.

(** [%<pad>x]: the last [pad] of 16 digits. *)
Definition padded_hex (pad x : Z) : option (list Z) :=
  if pad =? 0 then Some (hexadecimal x)
  else if decide (1 <= pad <= 16) then
    Some (drop (Z.to_nat (16 - pad))
      (replicate (16 - length (digits 64 16 x)) 48 ++ map hex_char (digits 64 16 x)))
  else None.

Definition render_directive (d val : Z) (args : list karg) : option (list karg * list Z) :=
  if d =? 115 then
    '(s, args) ← va_str args;
    s ← (match s with Some s => c_text s | None => c_text null_text end); Some (args, s)
  else if d =? 83 then
    '(len, args) ← va_word args;
    '(s, args) ← va_str args;
    match s with
    | Some s => if decide (u32 len <= zlen s) then Some (args, take (Z.to_nat (u32 len)) s) else None
    | None => if u32 len =? 0 then Some (args, []) else None
    end
  else if d =? 100 then '(w, args) ← va_word args; Some (args, signed_decimal (s32 w))
  else if d =? 68 then
    '(w, args) ← va_dword args;
    if s64 w =? - 2 ^ 63 then None else Some (args, signed_decimal (s64 w))
  else if d =? 117 then '(w, args) ← va_word args; Some (args, decimal (u32 w))
  else if d =? 85 then '(w, args) ← va_dword args; Some (args, decimal (u64 w))
  else if d =? 120 then
    '(w, args) ← va_word args; s ← padded_hex val (u32 w); Some (args, [48; 120] ++ s)
  else if d =? 88 then
    '(w, args) ← va_dword args; s ← padded_hex val (u64 w); Some (args, [48; 120] ++ s)
  else if d =? 99 then '(w, args) ← va_word args; Some (args, [s8 w])
  else Some (args, [63]).

Fixpoint render_plain (type : Z) (fmt : list Z) : option (list Z * list Z) :=
  match fmt with
  | [] => None
  | c :: fmt' =>
      if (c =? 0) || (c =? 37) then Some (fmt, [])
      else
        '(rest, s) ← render_plain type fmt';
        Some (rest, c :: (if c =? 10 then header type else []) ++ s)
  end.

Fixpoint render_format (fuel : nat) (type : Z) (fmt : list Z) (args : list karg) : option (list Z) :=
  match fuel with
  | O => None
  | S fuel =>
      '(fmt, s) ← render_plain type fmt;
      c ← head fmt;
      if c =? 0 then Some (s ++ [10])
      else
        let '(fmt, val) := number (tail fmt) 0 in
        d ← head fmt;
        '(args, s') ← render_directive d val args;
        s'' ← render_format fuel type (tail fmt) args;
        Some (s ++ s' ++ s'')
  end.

Definition render (type : Z) (fmt : list Z) (args : list karg) : option (list Z) :=
  s ← render_format (S (length fmt)) type fmt args; Some (header type ++ s).

Example render_hello :
  render KPRN_INFO [97; 37; 100; 37; 52; 120; 37; 85; 10; 0] [Word (-15); Word 255; DWord (2^64-1)]
  = Some (header 0 ++ [97; 45; 49; 53; 48; 120; 48; 48; 102; 102] ++
      [49;56;52;52;54;55;52;52;48;55;51;55;48;57;53;53;49;54;49;53;10] ++ header 0 ++ [10]).
Proof. reflexivity. Qed.

(** The buffer holds the first 255 characters of a message. *)
Definition CAP : nat := 255.
Record kbuf_ok (b : kbuf) (out : list Z) : Prop := {
  kok_len : zlen (kprint_buf b) = KPRINT_BUF_MAX;
  kok_index : kprint_buf_i b = zlen (take CAP out);
  kok_text : exists r, kprint_buf b = take CAP out ++ r
}.

(** [f] appends [s] to the message. *)
Definition appends (f : kbuf -> option kbuf) (s : list Z) : Prop :=
  forall b out, kbuf_ok b out -> exists b', f b = Some b' /\ kbuf_ok b' (out ++ s).

(** ** Lemmas: the buffer *)

Lemma take_len (out : list Z) : zlen (take CAP out) = Z.min 255 (zlen out).
Proof. unfold zlen, CAP. rewrite length_take. lia. Qed.

Lemma store_ok c b out : kbuf_ok b out -> kprint_buf_i b <> KPRINT_BUF_MAX - 1 ->
  exists b', store c b = Some b' /\ kbuf_ok b' (out ++ [c]).
Proof.
  intros [H1 H2 [r H3]] Hi. unfold store. rewrite H2, H3. rewrite H2, take_len in Hi.
  unfold KPRINT_BUF_MAX in *. pose proof (zlen_nonneg out).
  assert (take CAP out = out) as Et by (apply take_ge; unfold zlen, CAP in *; lia).
  rewrite Et in *. rewrite H3 in H1.
  destruct (zset_mid out r c) as (r' & E & Hr); [eapply rest_nonempty; [exact H1|lia]|].
  rewrite E. cbn [mbind option_bind]. eexists. split; [done|].
  assert (take CAP (out ++ [c]) = out ++ [c]) as Et'
    by (apply take_ge; rewrite length_app; unfold zlen, CAP in *; cbn; lia).
  rewrite zlen_app in H1. split; cbn [kprint_buf kprint_buf_i]; rewrite ?Et'.
  - rewrite !zlen_app. change (zlen [c]) with 1. unfold KPRINT_BUF_MAX. lia.
  - rewrite zlen_app, u32_small by lia. done.
  - by exists r'.
Qed.

Lemma full_ok s b out : kbuf_ok b out -> kprint_buf_i b = KPRINT_BUF_MAX - 1 -> kbuf_ok b (out ++ s).
Proof.
  intros [H1 H2 H3] Hi. rewrite H2, take_len in Hi. unfold KPRINT_BUF_MAX in Hi.
  assert (take CAP (out ++ s) = take CAP out) as E by (apply take_app_le; unfold zlen, CAP in *; lia).
  split; rewrite ?E; done.
Qed.

Lemma terminate_ok b out : kbuf_ok b out -> exists b', terminate b = Some b' /\ kbuf_ok b' out.
Proof.
  intros [H1 H2 [r H3]]. unfold terminate. rewrite H2, H3. pose proof (take_len out).
  rewrite H3 in H1. unfold KPRINT_BUF_MAX in *.
  destruct (zset_mid (take CAP out) r 0) as (r' & E & Hr); [eapply rest_nonempty; [exact H1|lia]|].
  rewrite E. cbn [mbind option_bind]. eexists. split; [done|].
  rewrite zlen_app in H1. split; cbn [kprint_buf kprint_buf_i].
  - rewrite !zlen_app. change (zlen [0]) with 1. unfold KPRINT_BUF_MAX. lia.
  - done.
  - exists ([0] ++ r'). by rewrite app_assoc.
Qed.

Lemma appends_bind f g s s' : appends f s -> appends g s' -> appends (fun b => f b ≫= g) (s ++ s').
Proof.
  intros Hf Hg b out H. destruct (Hf b out H) as (b1 & -> & H1). cbn [mbind option_bind].
  destruct (Hg b1 _ H1) as (b2 & -> & H2). exists b2. by rewrite app_assoc.
Qed.

Lemma appends_terminate f s : appends f s -> appends (fun b => f b ≫= terminate) s.
Proof.
  intros Hf b out H. destruct (Hf b out H) as (b1 & -> & H1). cbn [mbind option_bind].
  by apply terminate_ok.
Qed.

Lemma kput_s_appends string s : c_text string = Some s -> appends (kput_s string) s.
Proof.
  intros Hs. apply appends_terminate. revert s Hs.
  induction string as [|c string IH]; intros s Hs b out H; cbn [kput_s_loop c_text] in *; [done|].
  destruct (c =? 0); [exists b; simplify_eq; by rewrite app_nil_r|].
  destruct (c_text string) as [s'|]; [|done]. cbn in Hs. simplify_eq.
  destruct (Z.eqb_spec (kprint_buf_i b) (KPRINT_BUF_MAX - 1)) as [Hi|Hi];
    [exists b; split; [done|by apply full_ok]|].
  destruct (store_ok c b out H Hi) as (b1 & -> & H1). cbn [mbind option_bind].
  destruct (IH s' eq_refl b1 _ H1) as (b2 & -> & H2). exists b2. by rewrite <- app_assoc in H2.
Qed.

Lemma knput_s_appends string len : len <= zlen string -> appends (knput_s string len) (take (Z.to_nat len) string).
Proof.
  intros Hl. apply appends_terminate. assert (Z.to_nat len <= length string)%nat as Hn by (unfold zlen in Hl; lia).
  clear Hl. revert string Hn. generalize (Z.to_nat len) as n. clear len.
  induction n as [|n IH]; intros string Hn b out H; cbn [knput_s_loop]; [exists b; by rewrite app_nil_r|].
  destruct (Z.eqb_spec (kprint_buf_i b) (KPRINT_BUF_MAX - 1)) as [Hi|Hi];
    [exists b; split; [done|by apply full_ok]|].
  destruct string as [|c string]; cbn in Hn; [lia|].
  destruct (store_ok c b out H Hi) as (b1 & -> & H1). cbn [mbind option_bind].
  destruct (IH string ltac:(lia) b1 _ H1) as (b2 & -> & H2). exists b2. by rewrite <- app_assoc in H2.
Qed.

Lemma kputchar_appends c : appends (kputchar c) [c].
Proof.
  apply appends_terminate. intros b out H. pose proof (kok_index _ _ H). pose proof (take_len out).
  destruct (Z.ltb_spec (kprint_buf_i b) (KPRINT_BUF_MAX - 1)) as [Hi|Hi].
  - apply store_ok; [done|lia].
  - exists b. split; [done|]. apply full_ok; [done|]. unfold KPRINT_BUF_MAX in *. lia.
Qed.

(** ** Lemmas: digits *)

Lemma of_digits_snoc base ds d : of_digits base (ds ++ [d]) = of_digits base ds * base + d.
Proof. unfold of_digits. by rewrite fold_left_app. Qed.

Lemma conv_S n wrap base digit i x buf : conv (S n) wrap base digit i x buf =
  if x =? 0 then Some (i, buf)
  else d ← digit (x mod base); buf ← zset buf i d; conv n wrap base digit (wrap (i - 1)) (x / base) buf.
Proof. done. Qed.

Lemma digits_0 fuel base : digits fuel base 0 = [].
Proof. by destruct fuel. Qed.

Section Digits.
#[local] Set Default Proof Using "Type*".
Context (base : Z) (Hbase : 2 <= base).

Lemma div_bound n x : 0 <= x < base ^ Z.of_nat (S n) -> 0 <= x / base < base ^ Z.of_nat n.
Proof.
  intros Hx. split; [apply Z.div_pos; lia|]. apply Z.div_lt_upper_bound; [lia|].
  rewrite Nat2Z.inj_succ, Z.pow_succ_r in Hx by lia. lia.
Qed.

Lemma digits_len fuel n x : 0 <= x < base ^ Z.of_nat n -> (length (digits fuel base x) <= n)%nat.
Proof.
  revert n x. induction fuel as [|fuel IH]; intros n x Hx; cbn [digits]; [cbn; lia|].
  destruct (Z.eqb_spec x 0) as [->|H0]; [cbn; lia|].
  destruct n as [|n]; [change (base ^ Z.of_nat 0) with 1 in Hx; lia|].
  rewrite length_app. specialize (IH n (x / base) (div_bound n x Hx)). cbn. lia.
Qed.

Lemma digits_value fuel x : 0 <= x < base ^ Z.of_nat fuel -> of_digits base (digits fuel base x) = x.
Proof.
  revert x. induction fuel as [|fuel IH]; intros x Hx; cbn [digits];
    [change (base ^ Z.of_nat 0) with 1 in Hx; cbn; lia|].
  destruct (Z.eqb_spec x 0) as [->|H0]; [done|].
  rewrite of_digits_snoc, IH by (by apply div_bound). pose proof (Z.div_mod x base). lia.
Qed.

Lemma digits_range fuel x : Forall (fun d => 0 <= d < base) (digits fuel base x).
Proof.
  revert x. induction fuel as [|fuel IH]; intros x; cbn [digits]; [done|].
  destruct (x =? 0); [done|]. apply Forall_app. split; [apply IH|].
  constructor; [|done]. apply Z.mod_pos_bound. lia.
Qed.

Lemma digits_head fuel x : 0 < x < base ^ Z.of_nat fuel ->
  exists d ds, digits fuel base x = d :: ds /\ d <> 0.
Proof.
  revert x. induction fuel as [|fuel IH]; intros x Hx; cbn [digits];
    [change (base ^ Z.of_nat 0) with 1 in Hx; lia|].
  rewrite (proj2 (Z.eqb_neq x 0)) by lia. destruct (decide (x / base = 0)) as [E|E].
  - rewrite E, digits_0. exists (x mod base), []. split; [done|].
    pose proof (Z.div_mod x base). lia.
  - pose proof (div_bound fuel x ltac:(lia)) as Hd.
    destruct (IH (x / base)) as (d & ds & -> & Hn); [lia|]. by exists d, (ds ++ [x mod base]).
Qed.

Context (wrap : Z -> Z) (digit : Z -> option Z) (ch : Z -> Z).
Context (Hwrap : forall i, 0 <= i < 21 -> wrap i = i).
Context (Hdigit : forall d, 0 <= d < base -> digit d = Some (ch d)).

(** The loop writes the digits over the end of [p]. *)
Lemma conv_ok n x p q : 0 <= x < base ^ Z.of_nat n -> zlen p <= 21 ->
  (length (digits n base x) <= length p)%nat ->
  let m := (length p - length (digits n base x))%nat in
  conv (S n) wrap base digit (wrap (zlen p - 1)) x (p ++ q) =
    Some (wrap (Z.of_nat m - 1), take m p ++ map ch (digits n base x) ++ q).
Proof.
  revert x p q. induction n as [|n IH]; intros x p q Hx Hp Hl m.
  - change (base ^ Z.of_nat 0) with 1 in Hx. assert (x = 0) as -> by lia. subst m. cbn [digits length].
    rewrite conv_S.
    rewrite Nat.sub_0_r, firstn_all. done.
  - cbn [digits] in *. rewrite conv_S. destruct (Z.eqb_spec x 0) as [->|H0].
    { subst m. cbn [length]. rewrite Nat.sub_0_r, firstn_all. done. }
    rewrite length_app in Hl. cbn [length] in Hl.
    destruct (exists_last (l := p)) as (p' & y & ->); [by intros ->; cbn in Hl; lia|].
    rewrite length_app in Hl. cbn [length] in Hl.
    rewrite Hdigit by (apply Z.mod_pos_bound; lia). cbn [mbind option_bind].
    rewrite zlen_app in *. change (zlen [y]) with 1 in *. pose proof (zlen_nonneg p').
    replace (zlen p' + 1 - 1) with (zlen p') by lia. rewrite (Hwrap (zlen p')) by lia.
    rewrite <- app_assoc. cbn [app]. rewrite zset_ok by (rewrite zlen_app, zlen_cons;
      pose proof (zlen_nonneg q); lia). cbn [mbind option_bind].
    rewrite insert_mid by (unfold zlen; lia). rewrite <- app_assoc. cbn [app].
    rewrite IH; [|by apply div_bound|lia|lia].
    assert (m = (length p' - length (digits n base (x / base)))%nat) as ->.
    { subst m. rewrite !length_app. cbn. lia. }
    rewrite take_app_le by lia. by rewrite map_app, <- app_assoc.
Qed.
End Digits.

Lemma u8_wrap i : 0 <= i < 21 -> u8 i = i.
Proof. intros H. apply u8_small. lia. Qed.
Lemma u8_next m : (m <= 21)%nat -> u8 (u8 (Z.of_nat m - 1) + 1) = Z.of_nat m.
Proof. intros H. unfold u8. zdml. Qed.

Lemma dec_digit_ok d : 0 <= d < 10 -> dec_digit d = Some (dec_char d).
Proof. done. Qed.
Lemma hex_digit_ok d : 0 <= d < 16 -> hex_digit d = Some (hex_char d).
Proof.
  intros H. unfold hex_digit, hex_char. rewrite zget_lookup by lia.
  destruct (nth_lookup_or_length hex_to_ascii_tab (Z.to_nat d) 0) as [E|E]; [exact E|].
  cbn in E. lia.
Qed.

(** ** Lemmas: the strings of numbers *)

Lemma c_text_app s r : text s -> c_text (s ++ 0 :: r) = Some s.
Proof.
  induction s as [|c s IH]; intros Hs; cbn; [done|]. inversion Hs; subst.
  by rewrite (proj2 (Z.eqb_neq c 0)), IH by done.
Qed.

Lemma str_at_app (a s : list Z) off : off = zlen a -> str_at (a ++ s) off = Some s.
Proof.
  intros ->. unfold str_at. pose proof (zlen_nonneg a). pose proof (zlen_nonneg s).
  rewrite decide_True by (rewrite zlen_app; lia). f_equal.
  unfold zlen. by rewrite Nat2Z.id, drop_app_length.
Qed.

Lemma dec_text fuel x : text (map dec_char (digits fuel 10 x)).
Proof.
  apply Forall_map. eapply Forall_impl; [apply (digits_range 10); lia|].
  intros d Hd. cbn in *. unfold dec_char. lia.
Qed.

Lemma hex_text fuel x : text (map hex_char (digits fuel 16 x)).
Proof.
  apply Forall_map. eapply Forall_impl; [apply (digits_range 16); lia|].
  intros d Hd. cbn beta in Hd. change (hex_char d <> 0).
  pose proof (hex_digit_ok d Hd) as E. unfold hex_digit in E.
  assert (Forall (fun c => c <> 0) hex_to_ascii_tab) as Hf by (repeat constructor; done).
  rewrite zget_lookup in E by lia. exact (proj1 (Forall_lookup _ _) Hf _ _ E).
Qed.

(** The decimal loop on the buffer of the printers, for either type of the index. *)
Lemma conv_dec wrap x n : (forall i, 0 <= i < 21 -> wrap i = i) ->
  0 <= x < 10 ^ Z.of_nat n -> (n <= 20)%nat ->
  exists a, conv CONV_FUEL wrap 10 dec_digit 19 x (replicate 21 0) =
      Some (wrap (zlen a - 1), a ++ map dec_char (digits 64 10 x) ++ [0]) /\
    length a = (20 - length (digits 64 10 x))%nat /\ (20 - n <= length a)%nat.
Proof.
  intros Hw Hx Hn. pose proof (digits_len 10 ltac:(lia) 64 n x Hx) as Hl.
  assert (10 ^ Z.of_nat n <= 10 ^ Z.of_nat 64) by (apply Z.pow_le_mono_r; lia).
  pose proof (conv_ok 10 ltac:(lia) wrap dec_digit dec_char Hw dec_digit_ok 64 x (replicate 20 0) [0]
    ltac:(lia) ltac:(done)) as E. rewrite length_replicate in E. specialize (E ltac:(lia)). cbn zeta in E.
  assert (wrap (zlen (replicate 20 0) - 1) = 19) as Ew by (apply (Hw 19); lia).
  rewrite Ew in E. change (replicate 20 0 ++ [0]) with (replicate 21 0) in E.
  eexists. split; [|split].
  - unfold CONV_FUEL. rewrite E. do 2 f_equal. f_equal. unfold zlen. rewrite length_take, length_replicate.
    f_equal. lia.
  - rewrite length_take, length_replicate. lia.
  - rewrite length_take, length_replicate. lia.
Qed.

(** The hexadecimal loop, on a buffer filled with any character. *)
Lemma conv_hex wrap x c : (forall i, 0 <= i < 21 -> wrap i = i) -> 0 <= x < 2 ^ 64 ->
  exists m, m = (16 - length (digits 64 16 x))%nat /\ (length (digits 64 16 x) <= 16)%nat /\
    conv CONV_FUEL wrap 16 hex_digit 15 x (replicate 16 c ++ [0]) =
      Some (wrap (Z.of_nat m - 1), replicate m c ++ map hex_char (digits 64 16 x) ++ [0]).
Proof.
  intros Hw Hx. change (2 ^ 64) with (16 ^ Z.of_nat 16) in Hx.
  pose proof (digits_len 16 ltac:(lia) 64 16 x Hx) as Hl.
  assert (16 ^ Z.of_nat 16 <= 16 ^ Z.of_nat 64) by (apply Z.pow_le_mono_r; lia).
  pose proof (conv_ok 16 ltac:(lia) wrap hex_digit hex_char Hw hex_digit_ok 64 x (replicate 16 c) [0]
    ltac:(lia) ltac:(done)) as E. rewrite length_replicate in E. specialize (E ltac:(lia)). cbn zeta in E.
  assert (wrap (zlen (replicate 16 c) - 1) = 15) as Ew by (apply (Hw 15); lia).
  rewrite Ew in E. eexists. split; [done|]. split; [done|]. unfold CONV_FUEL. rewrite E.
  by rewrite take_replicate, Nat.min_l by lia.
Qed.

Lemma decimal_text x : text (decimal x).
Proof. unfold decimal. destruct (x =? 0); [by repeat constructor|apply dec_text]. Qed.

Lemma kprn_ui_appends x : 0 <= x < 2 ^ 64 -> appends (kprn_ui x) (decimal x).
Proof.
  intros Hx. unfold kprn_ui, decimal. destruct (x =? 0); [apply kputchar_appends|].
  destruct (conv_dec int_id x 20 ltac:(done) ltac:(lia) ltac:(lia)) as (a & -> & _ & _).
  cbn [mbind option_bind]. rewrite str_at_app by (unfold int_id; lia). cbn [mbind option_bind].
  apply kput_s_appends, c_text_app, dec_text.
Qed.

Lemma kprn_i_appends x : - 2 ^ 63 < x < 2 ^ 63 -> appends (kprn_i x) (signed_decimal x).
Proof.
  intros Hx. unfold kprn_i, signed_decimal, decimal. destruct (Z.eqb_spec x 0) as [->|H0]; [apply kputchar_appends|].
  destruct (Z.ltb_spec x 0) as [Hs|Hs]; cbn [mbind option_bind].
  - rewrite (proj2 (Z.eqb_neq x (- 2 ^ 63))) by lia. rewrite (proj2 (Z.eqb_neq (- x) 0)) by lia.
    cbn [mbind option_bind].
    destruct (conv_dec int_id (- x) 19 ltac:(done) ltac:(lia) ltac:(lia)) as (a & -> & _ & Ha).
    cbn [mbind option_bind]. destruct (exists_last (l := a)) as (a' & y & ->); [by intros ->; cbn in Ha; lia|].
    rewrite zlen_app. change (zlen [y]) with 1. unfold int_id.
    replace (zlen a' + 1 - 1) with (zlen a') by lia. rewrite <- app_assoc. cbn [app].
    rewrite zset_ok by (rewrite zlen_app, zlen_cons; pose proof (zlen_nonneg a');
      pose proof (zlen_nonneg (map dec_char (digits 64 10 (- x)) ++ [0])); lia).
    cbn [mbind option_bind]. rewrite insert_mid by (unfold zlen; lia). rewrite <- app_assoc.
    rewrite str_at_app by done. cbn [mbind option_bind]. apply kput_s_appends.
    apply (c_text_app (45 :: map dec_char (digits 64 10 (- x)))). constructor; [done|apply dec_text].
  - destruct (conv_dec int_id x 20 ltac:(done) ltac:(lia) ltac:(lia)) as (a & -> & _ & _).
    cbn [mbind option_bind]. rewrite str_at_app by (unfold int_id; lia). cbn [mbind option_bind].
    apply kput_s_appends, c_text_app, dec_text.
Qed.

Lemma replicate_text m c : c <> 0 -> text (replicate m c).
Proof. intros H. by apply Forall_replicate. Qed.

(** The buffer of [kprn_x] holds 16 digits; the string starts at the first
    significant one, or where the padding says. *)
Lemma kprn_x_appends x pad s : 0 <= x < 2 ^ 64 -> padded_hex pad x = Some s ->
  appends (kprn_x x pad) ([48; 120] ++ s).
Proof.
  intros Hx Hs. set (m := (16 - length (digits 64 16 x))%nat).
  assert (exists i, (if negb (x =? 0) then
      '(i, buf) ← conv CONV_FUEL int_id 16 hex_digit 15 x (replicate 16 48 ++ [0]); Some (i + 1, buf)
      else Some (15, replicate 16 48 ++ [0])) =
      Some (i, replicate m 48 ++ map hex_char (digits 64 16 x) ++ [0]) /\
      (i = if x =? 0 then 15 else Z.of_nat m)) as (i & E & Hi).
  { destruct (Z.eqb_spec x 0) as [->|H0]; cbn [negb].
    - exists 15. by subst m.
    - destruct (conv_hex int_id x 48 ltac:(done) Hx) as (m' & -> & _ & ->). fold m. cbn [mbind option_bind].
      exists (int_id (Z.of_nat m - 1) + 1). split; [done|unfold int_id; lia]. }
  unfold kprn_x. rewrite E. cbn [mbind option_bind].
  assert (exists r, str_at (replicate m 48 ++ map hex_char (digits 64 16 x) ++ [0])
    (if negb (pad =? 0) then 16 - pad else i) = Some r /\ c_text r = Some s) as (r & Er & Hr).
  { unfold padded_hex in Hs. destruct (Z.eqb_spec pad 0) as [->|Hp]; cbn [negb].
    - injection Hs as <-. unfold hexadecimal. destruct (Z.eqb_spec x 0) as [->|H0].
      + subst i m. by exists [48; 0].
      + rewrite str_at_app by (rewrite zlen_replicate; exact Hi). eexists. split; [done|].
        apply c_text_app, hex_text.
    - case_decide as Hr; [|done]. apply (inj Some) in Hs. subst s. fold m. set (l := replicate m 48 ++ map hex_char (digits 64 16 x)).
      assert (length l = 16%nat) as Hl.
      { subst l m. rewrite length_app, length_replicate, length_map.
        pose proof (digits_len 16 ltac:(lia) 64 16 x Hx). lia. }
      assert (text l) as Ht by (apply Forall_app; split; [by apply replicate_text|apply hex_text]).
      rewrite app_assoc. fold l. unfold str_at.
      rewrite decide_True by (rewrite zlen_app; unfold zlen; rewrite Hl; cbn; lia).
      rewrite drop_app_le by lia. eexists. split; [done|]. apply c_text_app. by apply Forall_drop. }
  rewrite Er. cbn [mbind option_bind].
  apply (appends_bind (kput_s [48; 120; 0]) (kput_s r)); by apply kput_s_appends.
Qed.

(** ** Lemmas: formats *)

Lemma header_text type : text (header type).
Proof.
  unfold header. repeat case_match; repeat constructor; done.
Qed.

Lemma print_header_appends type : appends (print_header type) (header type).
Proof. apply kput_s_appends, c_text_app, header_text. Qed.

Lemma s32_word w : - 2 ^ 63 < s32 w < 2 ^ 63.
Proof. pose proof (s32_range w). lia. Qed.
Lemma s64_range w : - 2 ^ 63 <= s64 w < 2 ^ 63.
Proof. unfold s64. pose proof (Z.mod_pos_bound (w + 2 ^ 63) (2 ^ 64)). lia. Qed.
Lemma u32_word w : 0 <= u32 w < 2 ^ 64.
Proof. pose proof (u32_range w). lia. Qed.

(** A conversion that takes its arguments and appends. *)
Lemma appends_args (f : kbuf -> option kbuf) s (rest : list karg) b out :
  appends f s -> kbuf_ok b out ->
  exists b', (b ← f b; Some (rest, b)) = Some (rest, b') /\ kbuf_ok b' (out ++ s).
Proof. intros Hf H. destruct (Hf b out H) as (b' & -> & H'). by exists b'. Qed.

Lemma directive_ok d val args rest s b out : render_directive d val args = Some (rest, s) ->
  kbuf_ok b out ->
  exists b', directive d val args b = Some (rest, b') /\ kbuf_ok b' (out ++ s).
Proof.
  unfold render_directive, directive. intros Hr H.
  destruct (d =? 115).
  { destruct args as [|[| |str] args]; try done. cbn [va_str mbind option_bind] in *.
    obind Hr. simplify_eq. apply appends_args; [|done]. apply kput_s_appends. by destruct str. }
  destruct (d =? 83).
  { destruct args as [|[len| |] args]; try done. cbn [va_word mbind option_bind] in *.
    destruct args as [|[| |str] args]; try done. cbn [va_str mbind option_bind] in *.
    destruct str as [str|].
    - case_decide; [|done]. simplify_eq. cbn [mbind option_bind]. apply appends_args; [|done].
      by apply knput_s_appends.
    - destruct (Z.eqb_spec (u32 len) 0) as [E|]; [|done]. rewrite E. simplify_eq. cbn [mbind option_bind].
      apply appends_args; [|done]. by apply (knput_s_appends [] 0). }
  destruct (d =? 100).
  { destruct args as [|[w| |] args]; try done. cbn [va_word mbind option_bind] in *. simplify_eq.
    apply appends_args; [|done]. apply kprn_i_appends, s32_word. }
  destruct (d =? 68).
  { destruct args as [|[|w|] args]; try done. cbn [va_dword mbind option_bind] in *.
    destruct (Z.eqb_spec (s64 w) (- 2 ^ 63)) as [|Hn]; [done|]. simplify_eq.
    apply appends_args; [|done]. apply kprn_i_appends. pose proof (s64_range w). lia. }
  destruct (d =? 117).
  { destruct args as [|[w| |] args]; try done. cbn [va_word mbind option_bind] in *. simplify_eq.
    apply appends_args; [|done]. apply kprn_ui_appends, u32_word. }
  destruct (d =? 85).
  { destruct args as [|[|w|] args]; try done. cbn [va_dword mbind option_bind] in *. simplify_eq.
    apply appends_args; [|done]. apply kprn_ui_appends, u64_range. }
  destruct (d =? 120).
  { destruct args as [|[w| |] args]; try done. cbn [va_word mbind option_bind] in *. obind Hr. simplify_eq.
    apply (appends_args (kprn_x (u32 w) val)); [|done]. by apply kprn_x_appends; [apply u32_word|]. }
  destruct (d =? 88).
  { destruct args as [|[|w|] args]; try done. cbn [va_dword mbind option_bind] in *. obind Hr. simplify_eq.
    apply (appends_args (kprn_x (u64 w) val)); [|done]. by apply kprn_x_appends; [apply u64_range|]. }
  destruct (d =? 99).
  { destruct args as [|[w| |] args]; try done. cbn [va_word mbind option_bind] in *. simplify_eq.
    apply appends_args; [|done]. apply kputchar_appends. }
  simplify_eq. apply appends_args; [|done]. apply kputchar_appends.
Qed.

Lemma plain_ok type fmt rest s b out : render_plain type fmt = Some (rest, s) -> kbuf_ok b out ->
  exists b', plain type fmt b = Some (rest, b') /\ kbuf_ok b' (out ++ s).
Proof.
  revert s b out. induction fmt as [|c fmt IH]; intros s b out Hr H; [done|].
  cbn [render_plain plain] in *. destruct (_ || _).
  { simplify_eq. exists b. by rewrite app_nil_r. }
  obind Hr. destruct x as [rest' s']. simplify_eq.
  destruct (kputchar_appends c b out H) as (b1 & -> & H1). cbn [mbind option_bind].
  destruct (c =? 10).
  - destruct (print_header_appends type b1 _ H1) as (b2 & -> & H2). cbn [mbind option_bind].
    destruct (IH s' b2 _ E H2) as (b3 & -> & H3). exists b3. split; [done|].
    by rewrite <- !app_assoc in H3.
  - cbn [mbind option_bind]. destruct (IH s' b1 _ E H1) as (b3 & -> & H3). exists b3. split; [done|].
    by rewrite <- app_assoc in H3.
Qed.

Lemma format_appends fuel type fmt args s : render_format fuel type fmt args = Some s ->
  appends (format fuel type fmt args) s.
Proof.
  revert fmt args s. induction fuel as [|fuel IH]; intros fmt args s Hr b out H; [done|].
  cbn [render_format format] in *. obind Hr. destruct x as [fmt1 s1].
  destruct (plain_ok type fmt fmt1 s1 b out E H) as (b1 & -> & H1). cbn [mbind option_bind].
  obind Hr. rewrite E0. cbn [mbind option_bind]. destruct (x =? 0).
  { simplify_eq. destruct (kputchar_appends 10 b1 _ H1) as (b2 & -> & H2). exists b2.
    split; [done|]. by rewrite app_assoc. }
  destruct (number (tail fmt1) 0) as [fmt2 val]. obind Hr. rewrite E1. cbn [mbind option_bind].
  obind Hr. destruct x1 as [args' s2].
  destruct (directive_ok x0 val args args' s2 b1 _ E2 H1) as (b2 & -> & H2). cbn [mbind option_bind].
  obind Hr. simplify_eq. destruct (IH _ _ _ E3 b2 _ H2) as (b3 & -> & H3). exists b3.
  split; [done|]. by rewrite !app_assoc.
Qed.

(** ** Lemmas: printing the buffer *)

Lemma flush_loop s p r i c : i = zlen p ->
  zfor (length s) i (fun i c => ch ← zget (p ++ s ++ r) i; Tty.text_putchar ch 0 c) c =
  Tty.tty_knputs s 0 c.
Proof.
  revert p i c. induction s as [|ch s IH]; intros p i c Hi; [done|]. cbn [length Tty.tty_knputs].
  rewrite zfor_S. cbn [app]. rewrite Hi, zget_middle. cbn [mbind option_bind].
  destruct (Tty.text_putchar ch 0 c) as [c'|]; [|done]. cbn [mbind option_bind].
  replace (p ++ ch :: s ++ r) with ((p ++ [ch]) ++ s ++ r) by (by rewrite <- app_assoc).
  apply IH. rewrite zlen_app. done.
Qed.

Lemma flush_ok b out c : kbuf_ok b out -> kprint_buf_flush b c = Tty.tty_knputs (take CAP out) 0 c.
Proof.
  intros [H1 H2 [r H3]]. unfold kprint_buf_flush. rewrite H2, H3. unfold zlen. rewrite Nat2Z.id.
  apply (flush_loop (take CAP out) [] r). done.
Qed.

Lemma puts_from_ok a s i w c : text s -> i = zlen a ->
  puts_from (a ++ s ++ [0]) i w c = Tty.tty_knputs s w c.
Proof.
  intros Hs Hi. unfold puts_from. rewrite str_at_app by done. cbn [mbind option_bind].
  rewrite (kstrlen_ok s) by (by split; [|exists []]). cbn [mbind option_bind].
  unfold zlen. by rewrite Nat2Z.id, take_app_length.
Qed.

(** ** Lemmas: the value of a numeral *)

Definition hex_value (c : Z) : Z := if c <? 97 then c - 48 else c - 87.

Lemma hex_value_char d : 0 <= d < 16 -> hex_value (hex_char d) = d.
Proof.
  intros H. assert (Forall (fun d => hex_value (hex_char d) = d) (seqZ 0 16)) as Hf by (repeat constructor).
  rewrite Forall_forall in Hf. apply Hf, elem_of_seqZ. lia.
Qed.

Lemma hexadecimal_value x : 0 <= x < 2 ^ 64 -> of_digits 16 (map hex_value (hexadecimal x)) = x.
Proof.
  intros Hx. unfold hexadecimal. destruct (Z.eqb_spec x 0) as [->|H0]; [done|].
  rewrite map_map. rewrite (map_ext_in _ (fun d => d)).
  - rewrite map_id. apply digits_value; [lia|]. change (2 ^ 64) with (16 ^ Z.of_nat 16) in Hx.
    assert (16 ^ Z.of_nat 16 <= 16 ^ Z.of_nat 64) by (apply Z.pow_le_mono_r; lia). lia.
  - intros d Hd%list_elem_of_In. apply hex_value_char.
    exact (proj1 (Forall_forall _ _) (digits_range 16 ltac:(lia) 64 x) d Hd).
Qed.

Lemma decimal_value x : 0 <= x < 2 ^ 64 -> Tty.dec_value 0 (decimal x) = x.
Proof.
  intros Hx. unfold decimal. destruct (Z.eqb_spec x 0) as [->|H0]; [done|].
  assert (forall ds a, Tty.dec_value a (map dec_char ds) = fold_left (fun a d => a * 10 + d) ds a) as E.
  { induction ds as [|d ds IH]; intros a; [done|]. unfold Tty.dec_value in *. cbn [map fold_left].
    rewrite <- IH. f_equal. unfold dec_char. lia. }
  rewrite E. apply (digits_value 10); [lia|].
  assert (2 ^ 64 <= 10 ^ Z.of_nat 64) by (apply Z.leb_le; reflexivity). lia.
Qed.

(** A nonzero numeral starts with a nonzero digit. *)
Lemma decimal_head x : 0 < x < 2 ^ 64 -> head (decimal x) <> Some 48.
Proof.
  intros Hx. unfold decimal. rewrite (proj2 (Z.eqb_neq x 0)) by lia.
  assert (2 ^ 64 <= 10 ^ Z.of_nat 64) by (apply Z.leb_le; reflexivity).
  destruct (digits_head 10 ltac:(lia) 64 x) as (d & ds & -> & Hd); [lia|].
  cbn. unfold dec_char. intros [= E]. lia.
Qed.

Lemma knputs_app s s' w c : Tty.tty_knputs (s ++ s') w c = Tty.tty_knputs s w c ≫= Tty.tty_knputs s' w.
Proof.
  revert c. induction s as [|ch s IH]; intros c; [done|]. cbn [app Tty.tty_knputs].
  destruct (Tty.text_putchar ch w c) as [c'|]; [|done]. cbn [mbind option_bind]. apply IH.
Qed.

(** ** Lemmas: a whole message *)

Lemma kvprint_ok (junk : list Z) (type : Z) (fmt : list Z) (args : list karg) (out : list Z)
    (c : Tty.console) :
  zlen junk = KPRINT_BUF_MAX -> render type fmt args = Some out ->
  kvprint junk type fmt args c = Tty.tty_knputs (take 255 out) 0 c.
Proof.
  intros Hj Hr. unfold render in Hr. obind Hr. simplify_eq. unfold kvprint.
  assert (kbuf_ok (MkKbuf junk 0) []) as H0 by (split; [done|done|by exists junk]).
  destruct (print_header_appends type _ _ H0) as (b1 & -> & H1). cbn [mbind option_bind].
  destruct (format_appends _ _ _ _ _ E _ _ H1) as (b2 & -> & H2). cbn [mbind option_bind].
  exact (flush_ok b2 _ c H2).
Qed.

(** * Properties *)

(** C31: [kvprint] prints the message its format denotes, cut to 255 characters:
    whatever the stack held, when the unbounded rendering of the format and the
    arguments is defined, the buffer never overflows and exactly the first 255
    characters of the rendering, banner and line ends included, reach terminal
    0 in order. *)
Theorem kvprint_correct (junk : list Z) (type : Z) (fmt : list Z) (args : list karg) (out : list Z)
    (c : Tty.console) :
  zlen junk = KPRINT_BUF_MAX -> render type fmt args = Some out ->
  kvprint junk type fmt args c = Tty.tty_knputs (take 255 out) 0 c.
Proof. apply kvprint_ok. Qed.

(** The number printers are exact.  For every 64-bit value the decimal and
    hexadecimal printers send to the terminal a numeral whose value is the
    number, without leading zeros; the buffers of 21 and 17 bytes and the 8-bit
    index, which wraps to 255 after twenty digits, are enough. *)
Theorem numeral_correct (x which_tty : Z) (c : Tty.console) :
  0 <= x < 2 ^ 64 ->
  tty_kuitoa x which_tty c = Tty.tty_knputs (decimal x) which_tty c /\
  tty_kxtoa x which_tty c = Tty.tty_knputs ([48; 120] ++ hexadecimal x) which_tty c /\
  Tty.dec_value 0 (decimal x) = x /\ of_digits 16 (map hex_value (hexadecimal x)) = x /\
  (0 < x -> head (decimal x) <> Some 48).
Proof.
  intros Hx. split; [|split; [|split; [by apply decimal_value|split; [by apply hexadecimal_value|]]]].
  - unfold tty_kuitoa, decimal. destruct (x =? 0); [done|].
    destruct (conv_dec u8 x 20 u8_wrap ltac:(lia) ltac:(lia)) as (a & -> & Ha & _). cbn [mbind option_bind].
    apply puts_from_ok; [apply dec_text|]. unfold zlen. apply u8_next. lia.
  - unfold tty_kxtoa, hexadecimal. destruct (x =? 0); [done|].
    destruct (conv_hex u8 x 0 u8_wrap Hx) as (m & Hm & _ & E).
    change (replicate 16 0 ++ [0]) with (replicate 17 0) in E. rewrite E. cbn [mbind option_bind].
    rewrite knputs_app. destruct (Tty.tty_knputs [48; 120] which_tty c) as [c'|]; [|done].
    cbn [mbind option_bind]. apply puts_from_ok; [apply hex_text|].
    rewrite zlen_replicate. apply u8_next. lia.
  - intros H. apply decimal_head. lia.
Qed.

(** * Witnesses *)

(** ["a%d%4x%U\n"] with -15, 255 and the largest 64-bit number. *)
Lemma kvprint_correct_witness :
  kvprint (repeat 1 256) KPRN_INFO [97; 37; 100; 37; 52; 120; 37; 85; 10; 0]
    [Word (-15); Word 255; DWord (2 ^ 64 - 1)] Tty.demo =
  Tty.tty_knputs (header 0 ++ [97; 45; 49; 53; 48; 120; 48; 48; 102; 102] ++
      [49;56;52;52;54;55;52;52;48;55;51;55;48;57;53;53;49;54;49;53;10] ++ header 0 ++ [10]) 0 Tty.demo.
Proof.
  apply (kvprint_correct (repeat 1 256) KPRN_INFO [97; 37; 100; 37; 52; 120; 37; 85; 10; 0]
    [Word (-15); Word 255; DWord (2 ^ 64 - 1)]
    (header 0 ++ [97; 45; 49; 53; 48; 120; 48; 48; 102; 102] ++
      [49;56;52;52;54;55;52;52;48;55;51;55;48;57;53;53;49;54;49;53;10] ++ header 0 ++ [10])); reflexivity.
Defined.

Lemma numeral_correct_witness :
  tty_kuitoa 1024 0 Tty.demo = Tty.tty_knputs [49; 48; 50; 52] 0 Tty.demo.
Proof.
  destruct (numeral_correct 1024 0 Tty.demo) as [H _]; [split; [discriminate|reflexivity]|]. exact H.
Defined.

End Kprint.
