(* ===== verification/Dev.v ===== *)
(** * Devices: [kernel/src/dev.c] and the interface of a byte volume

    A driver registers its devices in [device_list] with an [io_wrapper]: one
    function for reading ([type] 0) and writing ([type] 1) a byte at a location.
    [io_wrapper] is modelled as a state transformer over the state [W] of the
    drivers, [None] being a kernel panic.

    [Volume] is what a storage driver promises to the file systems: a fixed size,
    and the byte at each location below it, which reads return and only the write
    at that location changes. *)

From S2P Require Import Prelude.
Local Open Scope Z_scope.

Definition is_byte (v : Z) : Prop := 0 <= v < 256.

(** The type of [io_wrapper]: [gp], [loc], [type] and [payload], then the state. *)
Definition io_fn (W : Type) : Type := Z -> Z -> Z -> Z -> W -> option (Z * W).

Module Dev.

Section Devices.
Context {W : Type}.

Record device_t := MkDevice {
  name : list Z;
  gp_value : Z;
  size : Z;
  io_wrapper : io_fn W
}.

(** [char name[32]] *)
Definition NAME_LEN : Z := 32.

(** [krealloc] is assumed to succeed; [kstrcpy] into [name] must fit. *)
Definition kernel_add_device (nm : list Z) (gp sz : Z) (io : io_fn W) (l : list device_t) :
    option (list device_t) :=
  if decide (zlen nm < NAME_LEN) then Some (l ++ [MkDevice nm gp sz io]) else None.

(** The loop over [device_list] that compares [name]s, from index [i]. *)
Fixpoint find_device_from (path : list Z) (i : Z) (l : list device_t) : option Z :=
  match l with
  | [] => None
  | d :: l => if decide (path = name d) then Some i else find_device_from path (i + 1) l
  end.
Definition find_device (path : list Z) (l : list device_t) : option Z := find_device_from path 0 l.

Lemma find_device_from_spec path i l n :
  find_device_from path i l = Some n -> exists d, zget l (n - i) = Some d /\ name d = path.
Proof.
  revert i. induction l as [|d l IH]; intros i; simpl; [done|]. case_decide as Hd.
  - intros [= <-]. exists d. replace (i - i) with 0 by lia. done.
  - intros H. destruct (IH _ H) as (d' & Hg & Hn). exists d'. split; [|done].
    rewrite zget_cons. apply zget_Some in Hg as Hr. case_decide; [lia|].
    by replace (n - i - 1) with (n - (i + 1)) by lia.
Qed.

Lemma find_device_spec path l n :
  find_device path l = Some n -> exists d, zget l n = Some d /\ name d = path.
Proof. intros H%find_device_from_spec. by rewrite Z.sub_0_r in H. Qed.

End Devices.
#[global] Arguments device_t : clear implicits.

End Dev.

(** ** The interface of a storage device *)

Class Volume {W : Type} (io : Z -> Z -> Z -> W -> option (Z * W)) (sz : Z) := {
  vol_ok : W -> Prop;
  vol_byte : W -> Z -> Z;
  vol_is_byte w loc : vol_ok w -> 0 <= loc < sz -> is_byte (vol_byte w loc);
  vol_read w loc : vol_ok w -> 0 <= loc < sz -> exists w',
    io loc 0 0 w = Some (vol_byte w loc, w') /\ vol_ok w' /\
    forall l, 0 <= l < sz -> vol_byte w' l = vol_byte w l;
  vol_write w loc v : vol_ok w -> 0 <= loc < sz -> is_byte v -> exists w',
    io loc 1 v w = Some (0, w') /\ vol_ok w' /\
    forall l, 0 <= l < sz -> vol_byte w' l = if decide (l = loc) then v else vol_byte w l
}.

(** A sequence of requests to a driver, and to an array of bytes. *)
Inductive request := Get (loc : Z) | Put (loc v : Z).
Definition in_range (sz : Z) (r : request) : Prop :=
  match r with Get loc => 0 <= loc < sz | Put loc v => 0 <= loc < sz /\ is_byte v end.

Fixpoint run_requests {W} (io : Z -> Z -> Z -> W -> option (Z * W)) (rs : list request) (w : W)
    : option (list Z * W) :=
  match rs with
  | [] => Some ([], w)
  | r :: rs =>
      '(v, w) ← (match r with Get loc => io loc 0 0 w | Put loc v => io loc 1 v w end);
      '(vs, w) ← run_requests io rs w;
      Some (v :: vs, w)
  end.
Fixpoint run_array (rs : list request) (f : Z -> Z) : list Z * (Z -> Z) :=
  match rs with
  | [] => ([], f)
  | Get loc :: rs => let r := run_array rs f in (f loc :: r.1, r.2)
  | Put loc v :: rs => let r := run_array rs (fun l => if decide (l = loc) then v else f l) in (0 :: r.1, r.2)
  end.

Lemma run_array_ext rs f g sz : Forall (in_range sz) rs -> (forall l, 0 <= l < sz -> f l = g l) ->
  (run_array rs f).1 = (run_array rs g).1 /\
  forall l, 0 <= l < sz -> (run_array rs f).2 l = (run_array rs g).2 l.
Proof.
  intros Hr. revert f g. induction Hr as [|r rs H Hr IH]; intros f g Hfg; [done|]. destruct r as [loc|loc v]; simpl in *.
  - destruct (IH f g Hfg) as [-> H2]. by rewrite Hfg.
  - edestruct IH as [E H2]; [|rewrite E; split; [done|exact H2]].
    intros l Hl. simpl. case_decide; [done|by apply Hfg].
Qed.

(** A memory-backed volume, the simplest implementation. *)
Definition ram_io (loc type payload : Z) (w : list Z) : option (Z * list Z) :=
  if type =? 0 then v ← zget w loc; Some (v, w)
  else w' ← zset w loc payload; Some (0, w').

#[export] Program Instance ram_volume (sz : Z) : Volume ram_io sz := {
  vol_ok w := zlen w = sz /\ Forall is_byte w;
  vol_byte w loc := default 0 (zget w loc)
}.
Next Obligation.
  intros sz w loc [Hl Hb] Hloc. destruct (zget_is_Some w loc) as [v Hv]; [lia|]. rewrite Hv. simpl.
  rewrite zget_lookup in Hv by lia. by eapply Forall_lookup_1.
Qed.
Next Obligation.
  intros sz w loc [Hl Hb] Hloc. destruct (zget_is_Some w loc) as [v Hv]; [lia|].
  exists w. unfold ram_io. simpl. by rewrite Hv.
Qed.
Next Obligation.
  intros sz w loc v [Hl Hb] Hloc Hv. unfold ram_io. simpl. rewrite zset_ok by lia. simpl.
  eexists. split; [done|]. split.
  - split; [by rewrite zlen_insert|]. by apply Forall_insert.
  - intros l Hl'. rewrite (zget_zset w loc l v) by (apply zset_ok; lia).
    repeat case_decide; subst; done.
Qed.
