(* ===== verification/BiosDisk.v ===== *)
(** * The BIOS hard disks: [kernel/src/drivers/bios_harddisks/bd.c]

    All drives share one cache of 64 sectors.  A byte access that misses writes a
    dirty cache back, reads the 64 sectors around the byte, and answers from the
    cache.  The disk services of the BIOS (interrupt 0x13, functions 0x42 and
    0x43) are the parameter [Bios] of the development, with their documented
    behaviour as the class [BiosLaws]; a failed service ([EFLAGS_CF]) is a kernel
    panic, [None].  [RealMode.v] has the registers and packets of these calls. *)

From S2P Require Import Prelude Dev.
Local Open Scope Z_scope.

Module BiosDisk.

Definition BYTES_PER_SECT : Z := 512.
Definition CACHE_SECTS : Z := 64.
Definition CACHE_SIZE : Z := BYTES_PER_SECT * CACHE_SECTS.
Definition CACHE_NOT_READY : Z := 0.
Definition CACHE_READY : Z := 1.
Definition CACHE_DIRTY : Z := 2.
Definition DF_READ : Z := 0.
Definition DF_WRITE : Z := 1.

(** The disk services: extended read and extended write of one sector. *)
Class Bios := {
  medium : Type;
  int13_read : medium -> Z -> Z -> option (list Z);
  int13_write : medium -> Z -> Z -> list Z -> option medium
}.

(** The documented behaviour: a drive has a fixed number of sectors of 512 bytes;
    a sector on the drive can be read and written, one past its end cannot; a
    written sector is read back and no other sector changes. *)
Class BiosLaws (B : Bios) := {
  drive_sectors : Z -> Z;
  read_inside m d l : 0 <= l < drive_sectors d ->
    exists s, int13_read m d l = Some s /\ zlen s = BYTES_PER_SECT /\ Forall is_byte s;
  read_outside m d l : drive_sectors d <= l -> int13_read m d l = None;
  write_inside m d l s : 0 <= l < drive_sectors d -> zlen s = BYTES_PER_SECT -> Forall is_byte s ->
    exists m', int13_write m d l s = Some m' /\
      int13_read m' d l = Some s /\
      forall d' l', (d', l') <> (d, l) -> int13_read m' d' l' = int13_read m d' l'
}.

Section Disk.
Context `{B : Bios}.

(** [cache_status], [cached_drive], [cached_block], [disk_cache] and the drives. *)
Record hdd := MkHdd {
  cache_status : Z;
  cached_drive : Z;
  cached_block : Z;
  disk_cache : list Z;
  drives : medium
}.

(** [memcpy(buf + BYTES_PER_SECT*i, tmp, BYTES_PER_SECT)] *)
Definition put_sector (i : Z) (tmp buf : list Z) : list Z :=
  take (Z.to_nat (BYTES_PER_SECT * i)) buf ++ tmp ++ drop (Z.to_nat (BYTES_PER_SECT * (i + 1))) buf.
Definition get_sector (i : Z) (buf : list Z) : list Z :=
  take (Z.to_nat BYTES_PER_SECT) (drop (Z.to_nat (BYTES_PER_SECT * i)) buf).

Definition read_step (m : medium) (drive block i : Z) (buf : list Z) : option (list Z) :=
  tmp ← int13_read m drive (u64 (block + i)); Some (put_sector i tmp buf).
Definition disk_read_sector (m : medium) (drive : Z) (buf : list Z) (block : Z) : option (list Z) :=
  zfor (Z.to_nat CACHE_SECTS) 0 (read_step m drive block) buf.

Definition write_step (drive : Z) (buf : list Z) (block i : Z) (m : medium) : option medium :=
  int13_write m drive (u64 (block + i)) (get_sector i buf).
Definition disk_write_sector (m : medium) (drive : Z) (buf : list Z) (block : Z) : option medium :=
  zfor (Z.to_nat CACHE_SECTS) 0 (write_step drive buf block) m.

(** [(block == cached_block) && (drive == cached_drive) && (cache_status)] *)
Definition cache_hit (drive block : Z) (st : hdd) : bool :=
  (block =? cached_block st) && (drive =? cached_drive st) && negb (cache_status st =? 0).

(** The cache miss: flush, then load the block. *)
Definition load_block (drive block : Z) (st : hdd) : option hdd :=
  m ← (if cache_status st =? CACHE_DIRTY
       then disk_write_sector (drives st) (cached_drive st) (disk_cache st)
              (u64 (cached_block st * CACHE_SECTS))
       else Some (drives st));
  c ← disk_read_sector m drive (disk_cache st) (u64 (block * CACHE_SECTS));
  Some (MkHdd (cache_status st) drive block c m).

Definition with_status (s : Z) (st : hdd) : hdd :=
  MkHdd s (cached_drive st) (cached_block st) (disk_cache st) (drives st).
Definition with_cache (c : list Z) (st : hdd) : hdd :=
  MkHdd (cache_status st) (cached_drive st) (cached_block st) c (drives st).

Definition bios_harddisk_read (drive loc : Z) (st : hdd) : option (Z * hdd) :=
  let block := loc / CACHE_SIZE in
  let offset := loc mod CACHE_SIZE in
  if cache_hit drive block st then
    v ← zget (disk_cache st) offset; Some (v, st)
  else
    st ← load_block drive block st;
    v ← zget (disk_cache st) offset;
    Some (v, with_status 1 st).

Definition bios_harddisk_write (drive loc payload : Z) (st : hdd) : option (Z * hdd) :=
  let block := loc / CACHE_SIZE in
  let offset := loc mod CACHE_SIZE in
  if cache_hit drive block st then
    c ← zset (disk_cache st) offset payload;
    Some (0, with_status CACHE_DIRTY (with_cache c st))
  else
    st ← load_block drive block st;
    c ← zset (disk_cache st) offset payload;
    Some (0, with_status CACHE_DIRTY (with_cache c st)).

(** Another [type] returns an indeterminate value: [None]. *)
Definition bios_harddisks_io_wrapper (disk loc type payload : Z) (st : hdd) : option (Z * hdd) :=
  if type =? DF_READ then bios_harddisk_read (u8 disk) loc st
  else if type =? DF_WRITE then bios_harddisk_write (u8 disk) loc payload st
  else None.

(** *** Initialisation

    [read_drive_parameters] is function 0x48 of interrupt 0x13: the sector count
    of a drive, or [None] when the drive does not answer. *)
Definition BIOS_DRIVES_START : Z := 0x80.
Definition BIOS_DRIVES_MAX : Z := 26.
Definition BIOS_DRIVES_LIMIT : Z := 0xfe.

(** The inner loop: the first drive from [j] on that answers, and its sectors. *)
Fixpoint find_drive (fuel : nat) (read_drive_parameters : Z -> option Z) (j : Z) : option (Z * Z) :=
  match fuel with
  | O => None
  | S fuel =>
      if j <? BIOS_DRIVES_LIMIT then
        if j =? 0xe0 then find_drive fuel read_drive_parameters (j + 1)
        else match read_drive_parameters j with
             | Some lba_count => Some (j, lba_count)
             | None => find_drive fuel read_drive_parameters (j + 1)
             end
      else None
  end.

(** The outer loop, [n] turns from [i]: the devices added, as the index of their
    name, the drive, and the size.  After each [device_add] the source also prints the
    name and calls [add_partitioned_medium] for it: that is [Part.v], over the device
    list, and changes nothing this loop reads. *)
Fixpoint init_from (n : nat) (read_drive_parameters : Z -> option Z) (i j : Z) : list (Z * Z * Z) :=
  match n with
  | O => []
  | S n =>
      match find_drive (Z.to_nat (BIOS_DRIVES_LIMIT - j)) read_drive_parameters j with
      | None => []
      | Some (j, lba_count) =>
          (i, j, u64 (lba_count * BYTES_PER_SECT)) ::
          init_from n read_drive_parameters (i + 1) (j + 1)
      end
  end.
Definition init_bios_harddisks (read_drive_parameters : Z -> option Z) : list (Z * Z * Z) :=
  init_from (Z.to_nat BIOS_DRIVES_MAX) read_drive_parameters 0 BIOS_DRIVES_START.

(** ** Specification: drives of bytes *)

(** The byte of a drive on the medium, and behind the cache. *)
Definition medium_byte (m : medium) (drive loc : Z) : option Z :=
  s ← int13_read m drive (loc / BYTES_PER_SECT); zget s (loc mod BYTES_PER_SECT).
Definition view (st : hdd) (drive loc : Z) : option Z :=
  if cache_hit drive (loc / CACHE_SIZE) st then zget (disk_cache st) (loc mod CACHE_SIZE)
  else medium_byte (drives st) drive loc.

Context {L : BiosLaws B}.

(** The whole block of 64 sectors is on the drive. *)
Definition block_ok (drive block : Z) : Prop :=
  0 <= block < 2 ^ 56 /\ (block + 1) * CACHE_SECTS <= drive_sectors drive.

Record hdd_ok (st : hdd) : Prop := {
  hok_len : zlen (disk_cache st) = CACHE_SIZE;
  hok_bytes : Forall is_byte (disk_cache st);
  hok_block : cache_status st <> 0 -> block_ok (cached_drive st) (cached_block st);
  hok_clean : cache_status st <> 0 -> cache_status st <> CACHE_DIRTY ->
    forall o, 0 <= o < CACHE_SIZE ->
      zget (disk_cache st) o = medium_byte (drives st) (cached_drive st) (cached_block st * CACHE_SIZE + o)
}.

(** ** Lemmas: sectors of a buffer *)

Ltac sect := unfold CACHE_SIZE, CACHE_SECTS, BYTES_PER_SECT in *.

Lemma zlen_take {A} (l : list A) n : 0 <= n <= zlen l -> zlen (take (Z.to_nat n) l) = n.
Proof. unfold zlen. intros H. rewrite length_take. lia. Qed.
Lemma zlen_drop {A} (l : list A) n : 0 <= n <= zlen l -> zlen (drop (Z.to_nat n) l) = zlen l - n.
Proof. unfold zlen. intros H. rewrite length_drop. lia. Qed.
Lemma zget_take {A} (l : list A) n i : 0 <= i < n -> zget (take (Z.to_nat n) l) i = zget l i.
Proof. intros H. rewrite !zget_lookup by lia. apply lookup_take_lt. lia. Qed.

Lemma put_sector_get i tmp buf o : 0 <= i < CACHE_SECTS -> zlen buf = CACHE_SIZE ->
  zlen tmp = BYTES_PER_SECT -> 0 <= o ->
  zget (put_sector i tmp buf) o = if decide (o / BYTES_PER_SECT = i) then zget tmp (o mod BYTES_PER_SECT) else zget buf o.
Proof.
  intros Hi Hb Ht Ho. unfold put_sector. sect.
  rewrite zget_app, zlen_take by lia. case_decide as H1; [|rewrite zget_app, Ht; case_decide as H2].
  - rewrite zget_take by lia. case_decide; [zdml|done].
  - case_decide; [f_equal; zdml|zdml].
  - rewrite zget_drop by lia. case_decide; [zdml|f_equal; lia].
Qed.

Lemma put_sector_len i tmp buf : 0 <= i < CACHE_SECTS -> zlen buf = CACHE_SIZE ->
  zlen tmp = BYTES_PER_SECT -> zlen (put_sector i tmp buf) = CACHE_SIZE.
Proof.
  intros Hi Hb Ht. unfold put_sector. sect. rewrite !zlen_app, zlen_take, zlen_drop by lia. lia.
Qed.

Lemma put_sector_bytes i tmp buf : Forall is_byte tmp -> Forall is_byte buf ->
  Forall is_byte (put_sector i tmp buf).
Proof.
  intros Ht Hb. apply Forall_app. split; [by apply Forall_take|].
  apply Forall_app. split; [done|by apply Forall_drop].
Qed.

Lemma get_sector_get i buf o : 0 <= i -> 0 <= o < BYTES_PER_SECT ->
  zget (get_sector i buf) o = zget buf (BYTES_PER_SECT * i + o).
Proof. intros Hi Ho. unfold get_sector. sect. rewrite zget_take, zget_drop by lia. done. Qed.

Lemma get_sector_len i buf : 0 <= i < CACHE_SECTS -> zlen buf = CACHE_SIZE ->
  zlen (get_sector i buf) = BYTES_PER_SECT.
Proof. intros Hi Hb. unfold get_sector. sect. rewrite zlen_take; [done|]. rewrite zlen_drop by lia. lia. Qed.

(** ** Lemmas: whole blocks *)

Lemma read_block_ok m drive block buf : block_ok drive block -> zlen buf = CACHE_SIZE ->
  Forall is_byte buf ->
  exists c, disk_read_sector m drive buf (u64 (block * CACHE_SECTS)) = Some c /\ zlen c = CACHE_SIZE /\
    Forall is_byte c /\
    forall o, 0 <= o < CACHE_SIZE -> zget c o = medium_byte m drive (block * CACHE_SIZE + o).
Proof.
  intros [Hr Hb] Hl Hby. unfold disk_read_sector. rewrite u64_small by (sect; lia).
  destruct (zfor_inv (fun k c => zlen c = CACHE_SIZE /\ Forall is_byte c /\
      forall o, 0 <= o < BYTES_PER_SECT * k -> zget c o = medium_byte m drive (block * CACHE_SIZE + o))
    (Z.to_nat CACHE_SECTS) 0 (read_step m drive (block * CACHE_SECTS)) buf) as (c & -> & Hc & Hcb & Ho).
  - split; [done|]. split; [done|]. sect. lia.
  - intros k c Hk (Hc & Hcb & Ho). unfold read_step. rewrite u64_small by (sect; lia).
    destruct (read_inside m drive (block * CACHE_SECTS + k)) as (s & Hs & Hsl & Hsb); [sect; lia|].
    rewrite Hs. eexists. split; [done|].
    split; [apply put_sector_len; [sect; lia|done|done]|].
    split; [by apply put_sector_bytes|]. intros o Hok.
    rewrite put_sector_get by (sect; lia || done). case_decide as Hd.
    + unfold medium_byte. replace ((block * CACHE_SIZE + o) / BYTES_PER_SECT) with (block * CACHE_SECTS + k)
        by (sect; zdml).
      rewrite Hs. simpl. f_equal. sect. zdml.
    + apply Ho. sect. zdml.
  - exists c. do 3 (split; [done|]). intros o Hok. apply Ho. sect. lia.
Qed.

Lemma write_block_ok m drive block buf : block_ok drive block -> zlen buf = CACHE_SIZE ->
  Forall is_byte buf ->
  exists m', disk_write_sector m drive buf (u64 (block * CACHE_SECTS)) = Some m' /\
    forall d l, int13_read m' d l =
      if decide (d = drive /\ block * CACHE_SECTS <= l < block * CACHE_SECTS + CACHE_SECTS)
      then Some (get_sector (l - block * CACHE_SECTS) buf) else int13_read m d l.
Proof.
  intros [Hr Hb] Hl Hby. unfold disk_write_sector. rewrite u64_small by (sect; lia).
  destruct (zfor_inv (fun k m' => forall d l, int13_read m' d l =
      if decide (d = drive /\ block * CACHE_SECTS <= l < block * CACHE_SECTS + k)
      then Some (get_sector (l - block * CACHE_SECTS) buf) else int13_read m d l)
    (Z.to_nat CACHE_SECTS) 0 (write_step drive buf (block * CACHE_SECTS)) m) as (m' & -> & Hm).
  - intros d l. case_decide; [lia|done].
  - intros k m' Hk Hm. unfold write_step. rewrite u64_small by (sect; lia).
    destruct (write_inside m' drive (block * CACHE_SECTS + k) (get_sector k buf)) as (m2 & -> & Hs & Ho).
    + sect; lia.
    + apply get_sector_len; [sect; lia|done].
    + by apply Forall_take, Forall_drop.
    + exists m2. split; [done|]. intros d l.
      destruct (decide ((d, l) = (drive, block * CACHE_SECTS + k))) as [[= -> ->]|Hne].
      * rewrite Hs, decide_True by lia. by replace (block * CACHE_SECTS + k - block * CACHE_SECTS) with k by lia.
      * rewrite Ho, Hm by done. repeat case_decide; try done; [lia|].
        exfalso. apply Hne. f_equal; [tauto|lia].
  - exists m'. split; [done|]. done.
Qed.

Lemma write_block_byte m m' drive block buf d o : zlen buf = CACHE_SIZE ->
  (forall d l, int13_read m' d l =
      if decide (d = drive /\ block * CACHE_SECTS <= l < block * CACHE_SECTS + CACHE_SECTS)
      then Some (get_sector (l - block * CACHE_SECTS) buf) else int13_read m d l) ->
  medium_byte m' d o = if decide (d = drive /\ o / CACHE_SIZE = block)
    then zget buf (o mod CACHE_SIZE) else medium_byte m d o.
Proof.
  intros Hl Hm. unfold medium_byte. rewrite Hm.
  repeat case_decide; sect; try done; try (exfalso; zdml).
  simpl. rewrite get_sector_get by (sect; zdml). f_equal. sect. zdml.
Qed.

(** ** Lemmas: the cache *)

Lemma hit_spec drive block st : cache_hit drive block st = true <->
  block = cached_block st /\ drive = cached_drive st /\ cache_status st <> 0.
Proof.
  unfold cache_hit. rewrite !andb_true_iff, negb_true_iff, !Z.eqb_eq, Z.eqb_neq. tauto.
Qed.

(** A miss loads the block without changing what the drives hold. *)
Lemma load_block_ok drive block st : hdd_ok st -> block_ok drive block ->
  cache_hit drive block st = false ->
  exists st', load_block drive block st = Some st' /\ zlen (disk_cache st') = CACHE_SIZE /\
    Forall is_byte (disk_cache st') /\ cached_drive st' = drive /\ cached_block st' = block /\
    (forall o, 0 <= o < CACHE_SIZE ->
      zget (disk_cache st') o = medium_byte (drives st') drive (block * CACHE_SIZE + o)) /\
    forall d l, medium_byte (drives st') d l = view st d l.
Proof.
  intros H Hb Hh. unfold load_block.
  assert (exists m, (if cache_status st =? CACHE_DIRTY
    then disk_write_sector (drives st) (cached_drive st) (disk_cache st) (u64 (cached_block st * CACHE_SECTS))
    else Some (drives st)) = Some m /\ forall d l, medium_byte m d l = view st d l) as (m & -> & Hm).
  { destruct (Z.eqb_spec (cache_status st) CACHE_DIRTY) as [Hd|Hd].
    - assert (cache_status st <> 0) as Hn by (rewrite Hd; done).
      destruct (write_block_ok (drives st) _ _ (disk_cache st) (hok_block _ H Hn) (hok_len _ H)
        (hok_bytes _ H)) as (m & -> & Hm).
      exists m. split; [done|]. intros d l.
      rewrite (write_block_byte _ _ _ _ _ d l (hok_len _ H) Hm). unfold view.
      destruct (cache_hit d (l / CACHE_SIZE) st) eqn:E.
      + apply hit_spec in E as (? & ? & _). by rewrite decide_True.
      + rewrite decide_False; [done|]. intros [-> ?]. apply not_true_iff_false in E. apply E, hit_spec. done.
    - exists (drives st). split; [done|]. intros d l. unfold view.
      destruct (cache_hit d (l / CACHE_SIZE) st) eqn:E; [|done].
      apply hit_spec in E as (E1 & -> & E2). rewrite (hok_clean _ H E2 Hd) by (sect; zdml).
      f_equal. rewrite <- E1. sect. zdml. }
  simpl. destruct (read_block_ok m drive block (disk_cache st) Hb (hok_len _ H) (hok_bytes _ H))
    as (c & -> & Hc & Hcb & Ho).
  simpl. eexists. split; [done|]. simpl. done.
Qed.

Lemma view_loaded st' drive block st d l : cached_drive st' = drive -> cached_block st' = block ->
  (forall o, 0 <= o < CACHE_SIZE ->
      zget (disk_cache st') o = medium_byte (drives st') drive (block * CACHE_SIZE + o)) ->
  (forall d l, medium_byte (drives st') d l = view st d l) ->
  (if cache_hit d (l / CACHE_SIZE) st' then zget (disk_cache st') (l mod CACHE_SIZE)
   else medium_byte (drives st') d l) = view st d l.
Proof.
  intros <- <- Hc Hm. destruct (cache_hit d (l / CACHE_SIZE) st') eqn:E; [|apply Hm].
  apply hit_spec in E as (E1 & -> & E2). rewrite Hc by (sect; zdml). rewrite Hm. f_equal.
  rewrite <- E1. sect. zdml.
Qed.

Lemma read_ok drive loc st : hdd_ok st -> 0 <= loc -> block_ok drive (loc / CACHE_SIZE) ->
  exists v st', bios_harddisk_read drive loc st = Some (v, st') /\ hdd_ok st' /\
    view st drive loc = Some v /\ forall d l, view st' d l = view st d l.
Proof.
  intros H Hl Hb. unfold bios_harddisk_read.
  assert (0 <= loc mod CACHE_SIZE < CACHE_SIZE) as Ho by (sect; zdml).
  destruct (cache_hit drive (loc / CACHE_SIZE) st) eqn:E.
  - destruct (zget_is_Some (disk_cache st) (loc mod CACHE_SIZE)) as [v Hv]; [by rewrite (hok_len _ H)|].
    rewrite Hv. simpl. exists v, st. split; [done|]. split; [done|]. split; [|done].
    unfold view. by rewrite E.
  - destruct (load_block_ok drive _ st H Hb E) as (st' & -> & Hlen & Hby & Hd & Hbl & Hc & Hm). simpl.
    destruct (zget_is_Some (disk_cache st') (loc mod CACHE_SIZE)) as [v Hv]; [by rewrite Hlen|].
    rewrite Hv. simpl. eexists v, _. split; [done|]. split; [|split].
    + split; simpl; [done|done|by rewrite Hd, Hbl|]. intros _ _ o Hoo. rewrite Hd, Hbl. by apply Hc.
    + rewrite <- Hm, <- Hv, Hc by done. f_equal. sect. zdml.
    + intros d l. by apply (view_loaded (with_status 1 st') drive (loc / CACHE_SIZE)).
Qed.

Lemma write_ok drive loc v st : hdd_ok st -> is_byte v -> 0 <= loc -> block_ok drive (loc / CACHE_SIZE) ->
  exists st', bios_harddisk_write drive loc v st = Some (0, st') /\ hdd_ok st' /\
    forall d l, 0 <= l -> view st' d l = if decide ((d, l) = (drive, loc)) then Some v else view st d l.
Proof.
  intros H Hv Hl Hb. unfold bios_harddisk_write.
  assert (0 <= loc mod CACHE_SIZE < CACHE_SIZE) as Ho by (sect; zdml).
  assert (forall st1, zlen (disk_cache st1) = CACHE_SIZE -> Forall is_byte (disk_cache st1) ->
    cached_drive st1 = drive ->
    cached_block st1 = loc / CACHE_SIZE ->
    (forall d l, (if (l / CACHE_SIZE =? cached_block st1) && (d =? cached_drive st1)
       then zget (disk_cache st1) (l mod CACHE_SIZE) else medium_byte (drives st1) d l) = view st d l) ->
    exists st', (c ← zset (disk_cache st1) (loc mod CACHE_SIZE) v;
        Some (0, with_status CACHE_DIRTY (with_cache c st1))) = Some (0, st') /\ hdd_ok st' /\
      forall d l, 0 <= l -> view st' d l = if decide ((d, l) = (drive, loc)) then Some v else view st d l) as Hw.
  { intros st1 H1 H1b H2 H3 H4. rewrite zset_ok by (rewrite H1; done). simpl. eexists. split; [done|].
    split; [split; simpl; [by rewrite zlen_insert|by apply Forall_insert|by rewrite H2, H3|done]|].
    intros d l Hl'. rewrite <- H4. unfold view, cache_hit. simpl. rewrite andb_true_r.
    destruct ((l / CACHE_SIZE =? cached_block st1) && (d =? cached_drive st1)) eqn:E.
    - apply andb_prop in E as [E1%Z.eqb_eq E2%Z.eqb_eq].
      rewrite (zget_zset (disk_cache st1) (loc mod CACHE_SIZE) (l mod CACHE_SIZE) v)
        by (apply zset_ok; rewrite H1; done).
      destruct (decide (loc mod CACHE_SIZE = l mod CACHE_SIZE)) as [H5|H5];
        destruct (decide ((d, l) = (drive, loc))) as [H6|H6]; try done.
      + exfalso. apply H6. f_equal; [congruence|]. rewrite H3 in E1. sect. zdml.
      + exfalso. injection H6 as -> ->. done.
    - case_decide as Hd; [|done]. injection Hd as -> ->. by rewrite H2, H3, !Z.eqb_refl in E. }
  destruct (cache_hit drive (loc / CACHE_SIZE) st) eqn:E.
  - pose proof E as E'. apply hit_spec in E' as (E1 & E2 & E3). apply Hw; [apply H|apply H|done|done|].
    intros d l. unfold view, cache_hit. by rewrite (proj2 (Z.eqb_neq _ _) E3), andb_true_r.
  - destruct (load_block_ok drive _ st H Hb E) as (st' & -> & Hlen & Hby & Hd & Hbl & Hc & Hm). simpl.
    apply Hw; [done|done|done|done|]. intros d l.
    rewrite <- (view_loaded (with_status 1 st') drive (loc / CACHE_SIZE) st d l); [|done..].
    unfold cache_hit. simpl. by rewrite andb_true_r.
Qed.

Lemma zget_byte (l : list Z) i v : Forall is_byte l -> zget l i = Some v -> is_byte v.
Proof.
  intros Hl H. pose proof (zget_Some _ _ _ H) as Hi. rewrite zget_lookup in H by lia.
  by eapply Forall_lookup_1.
Qed.

Lemma view_byte st d l v : hdd_ok st -> block_ok d (l / CACHE_SIZE) -> 0 <= l ->
  view st d l = Some v -> is_byte v.
Proof.
  intros H [Hb1 Hb2] Hl. unfold view. destruct (cache_hit _ _ _).
  - apply zget_byte, H.
  - unfold medium_byte. destruct (read_inside (drives st) d (l / BYTES_PER_SECT)) as (s & -> & _ & Hs).
    { sect. zdml. }
    by apply zget_byte.
Qed.

(** *** Sequences of accesses *)

Inductive io_op :=
  | Read (drive loc : Z)
  | Write (drive loc payload : Z).

Definition op_ok (o : io_op) : Prop :=
  match o with
  | Read d l => 0 <= d < 256 /\ 0 <= l /\ block_ok d (l / CACHE_SIZE)
  | Write d l v => 0 <= d < 256 /\ 0 <= l /\ is_byte v /\ block_ok d (l / CACHE_SIZE)
  end.

(** The answers of the driver. *)
Fixpoint run_driver (ops : list io_op) (st : hdd) : option (list Z * hdd) :=
  match ops with
  | [] => Some ([], st)
  | o :: ops =>
      r ← (match o with
           | Read d l => bios_harddisks_io_wrapper d l DF_READ 0 st
           | Write d l v => bios_harddisks_io_wrapper d l DF_WRITE v st
           end);
      rs ← run_driver ops r.2;
      Some (r.1 :: rs.1, rs.2)
  end.

(** The answers of drives that are plain arrays of bytes. *)
Fixpoint run_flat (ops : list io_op) (f : Z -> Z -> option Z) : option (list Z) :=
  match ops with
  | [] => Some []
  | Read d l :: ops => v ← f d l; rs ← run_flat ops f; Some (v :: rs)
  | Write d l v :: ops =>
      rs ← run_flat ops (fun d' l' => if decide ((d', l') = (d, l)) then Some v else f d' l');
      Some (0 :: rs)
  end.

Lemma run_flat_ext ops f g : Forall op_ok ops -> (forall d l, 0 <= l -> f d l = g d l) ->
  run_flat ops f = run_flat ops g.
Proof.
  revert f g. induction ops as [|[d l|d l v] ops IH]; intros f g Ho Hfg; simpl; [done|..];
    inversion Ho as [|? ? Hop Ho']; subst; simpl in Hop.
  - rewrite Hfg by tauto. destruct (g d l); simpl; [|done]. by rewrite (IH f g).
  - erewrite IH; [done..|]. intros d' l' Hl. simpl. case_decide; [done|by apply Hfg].
Qed.

Lemma run_refines ops st : Forall op_ok ops -> hdd_ok st ->
  exists rs st', run_driver ops st = Some (rs, st') /\ hdd_ok st' /\ run_flat ops (view st) = Some rs.
Proof.
  revert st. induction ops as [|[d l|d l v] ops IH]; intros st Ho H; simpl; [by exists [], st|..];
    inversion Ho as [|? ? Hop Ho']; subst; simpl in Hop;
    unfold bios_harddisks_io_wrapper; simpl.
  - destruct Hop as (Hd & Hl & Hb). rewrite u8_small by done.
    destruct (read_ok d l st H Hl Hb) as (v & st1 & -> & H1 & -> & Hv). simpl.
    destruct (IH st1 Ho' H1) as (rs & st2 & -> & H2 & Hf). simpl.
    exists (v :: rs), st2. split; [done|]. split; [done|].
    rewrite (run_flat_ext ops (view st) (view st1)) by done. by rewrite Hf.
  - destruct Hop as (Hd & Hl & Hby & Hb). rewrite u8_small by done.
    destruct (write_ok d l v st H Hby Hl Hb) as (st1 & -> & H1 & Hv). simpl.
    destruct (IH st1 Ho' H1) as (rs & st2 & -> & H2 & Hf). simpl.
    exists (0 :: rs), st2. split; [done|]. split; [done|].
    erewrite (run_flat_ext ops _ (view st1)); [by rewrite Hf|done|].
    intros d' l' Hl'. by rewrite Hv.
Qed.

(** Reading a block whose last sectors are not on the drive fails. *)
Lemma read_block_outside m drive block buf k : 0 <= k < CACHE_SECTS -> 0 <= block < 2 ^ 56 ->
  drive_sectors drive <= block * CACHE_SECTS + k ->
  disk_read_sector m drive buf (u64 (block * CACHE_SECTS)) = None.
Proof.
  intros Hk Hb Ho. unfold disk_read_sector. rewrite u64_small by (sect; lia).
  assert (forall n i b, i <= k < i + Z.of_nat n -> 0 <= i ->
    zfor n i (read_step m drive (block * CACHE_SECTS)) b = None) as Hz.
  { induction n as [|n IH]; intros i b Hi H0; [lia|]. rewrite zfor_S.
    destruct (read_step _ _ _ i b) as [b'|] eqn:E; [|done]. simpl.
    destruct (decide (i = k)) as [->|]; [|apply IH; lia].
    unfold read_step in E. rewrite u64_small, read_outside in E by (sect; lia). done. }
  apply Hz; sect; lia.
Qed.

(** *** The interface of the file systems *)

(** A drive with a whole number of blocks is a [Volume]. *)
#[export] Program Instance drive_volume (d sz : Z)
    (Hd : 0 <= d < 256) (Hs : sz mod CACHE_SIZE = 0) (Hc : sz <= drive_sectors d * BYTES_PER_SECT)
    (Hm : sz <= 2 ^ 64) :
    Volume (bios_harddisks_io_wrapper d) sz := {
  vol_ok := hdd_ok;
  vol_byte st l := default 0 (view st d l)
}.
Next Obligation.
  intros d sz Hd Hs Hc Hm st l H Hl. simpl. destruct (view st d l) as [v|] eqn:E; [|split; done].
  apply (view_byte st d l v H); [|lia|done]. split; sect; zdml.
Qed.
Next Obligation.
  intros d sz Hd Hs Hc Hm st l H Hl. simpl. unfold bios_harddisks_io_wrapper. simpl.
  rewrite u8_small by lia.
  destruct (read_ok d l st H) as (v & st' & -> & H' & -> & Hv); [lia|split; sect; zdml|].
  exists st'. split; [done|]. split; [done|]. intros l' Hl'. by rewrite Hv.
Qed.
Next Obligation.
  intros d sz Hd Hs Hc Hm st l v H Hl Hv. simpl. unfold bios_harddisks_io_wrapper. simpl.
  rewrite u8_small by lia.
  destruct (write_ok d l v st H Hv) as (st' & -> & H' & Hw); [lia|split; sect; zdml|].
  exists st'. split; [done|]. split; [done|]. intros l' Hl'. rewrite Hw by lia.
  destruct (decide (l' = l)) as [->|Hne]; [by rewrite decide_True|rewrite decide_False; congruence].
Qed.

(** * Properties *)

(** C9: Refinement of the disk cache: any sequence of byte reads and writes
    through [bios_harddisks_io_wrapper], on any drives and in any order, never
    panics and answers what the same sequence answers on drives that are plain
    arrays of bytes with the contents seen through the cache; the cache stays
    coherent. *)
Theorem bios_disk_refines (ops : list io_op) (st : hdd) :
  Forall op_ok ops -> hdd_ok st ->
  exists rs st', run_driver ops st = Some (rs, st') /\ hdd_ok st' /\ run_flat ops (view st) = Some rs.
Proof. apply run_refines. Qed.

(** The last sectors of a drive whose sector count is not a multiple of 64
    cannot be read: the cache loads whole blocks of 64 sectors, so a read of a
    byte that is on the drive but in its last, incomplete block is a disk error,
    hence a kernel panic. *)
Theorem bios_disk_tail_panics (drive loc : Z) (st : hdd) :
  hdd_ok st -> 0 <= drive < 256 -> 0 <= loc < 2 ^ 64 ->
  drive_sectors drive < (loc / CACHE_SIZE + 1) * CACHE_SECTS ->
  bios_harddisks_io_wrapper drive loc DF_READ 0 st = None.
Proof.
  intros H Hd Hl Ht. unfold bios_harddisks_io_wrapper. simpl. rewrite u8_small by done.
  unfold bios_harddisk_read. destruct (cache_hit _ _ st) eqn:E.
  - apply hit_spec in E as (E1 & -> & E2). destruct (hok_block _ H E2) as [_ Hb].
    rewrite <- E1 in Hb. lia.
  - unfold load_block. destruct (if cache_status st =? CACHE_DIRTY then _ else _); [|done]. simpl.
    rewrite (read_block_outside _ _ _ _ (CACHE_SECTS - 1)); [done|sect; lia|sect; zdml|sect; lia].
Qed.

End Disk.

(** ** Lemmas: initialisation *)

(** The drives from [j] on that are probed, in order: all but 0xe0. *)
Fixpoint candidates (fuel : nat) (j : Z) : list Z :=
  match fuel with
  | O => []
  | S fuel => if j =? 0xe0 then candidates fuel (j + 1) else j :: candidates fuel (j + 1)
  end.
Definition left (j : Z) : nat := Z.to_nat (BIOS_DRIVES_LIMIT - j).

(** The drives that answer, with their sector counts. *)
Definition answering (probe : Z -> option Z) (js : list Z) : list (Z * Z) :=
  omap (fun j => n ← probe j; Some (j, n)) js.

(** The devices for them, named in order. *)
Fixpoint devices_from (n : nat) (i : Z) (l : list (Z * Z)) : list (Z * Z * Z) :=
  match n, l with
  | S n, (j, c) :: l => (i, j, u64 (c * BYTES_PER_SECT)) :: devices_from n (i + 1) l
  | _, _ => []
  end.

Lemma left_S j : j < BIOS_DRIVES_LIMIT -> left j = S (left (j + 1)).
Proof. unfold left, BIOS_DRIVES_LIMIT. lia. Qed.

Lemma find_drive_ok probe n j : n = left j ->
  match find_drive n probe j with
  | None => answering probe (candidates n j) = []
  | Some (j', c) => answering probe (candidates n j) =
      (j', c) :: answering probe (candidates (left (j' + 1)) (j' + 1))
  end.
Proof.
  revert j. induction n as [|n IH]; intros j Hn; simpl; [done|].
  assert (j < BIOS_DRIVES_LIMIT) as Hj by (unfold left, BIOS_DRIVES_LIMIT in *; lia).
  assert (n = left (j + 1)) as Hn' by (rewrite left_S in Hn by done; lia).
  rewrite (proj2 (Z.ltb_lt _ _)) by done. specialize (IH (j + 1) Hn').
  destruct (j =? 0xe0); [exact IH|]. unfold answering. simpl.
  destruct (probe j) as [c|]; simpl; [by subst|exact IH].
Qed.

Lemma init_from_ok n probe i j :
  init_from n probe i j = devices_from n i (answering probe (candidates (left j) j)).
Proof.
  revert i j. induction n as [|n IH]; intros i j; simpl; [done|].
  pose proof (find_drive_ok probe (left j) j eq_refl) as H. unfold left in H at 1. unfold left.
  destruct (find_drive _ probe j) as [[j' c]|]; unfold left in H; rewrite H; [|done].
  simpl. by rewrite IH.
Qed.

(** [init_bios_harddisks] registers the first 26 drives that answer among
    0x80 .. 0xfd, the BIOS CD drive 0xe0 excluded, in increasing order, the [i]-th
    under the [i]-th name and with 512 bytes per sector. *)
Theorem init_bios_harddisks_correct (probe : Z -> option Z) :
  init_bios_harddisks probe =
    devices_from 26 0 (answering probe (filter (fun j => j <> 0xe0) (seqZ 0x80 126))).
Proof.
  unfold init_bios_harddisks. rewrite init_from_ok.
  assert (candidates (left BIOS_DRIVES_START) BIOS_DRIVES_START =
    filter (fun j => j <> 0xe0) (seqZ 0x80 126)) as -> by (vm_compute; reflexivity).
  reflexivity.
Qed.

(** * Witnesses *)

(** One drive 0x80 of 100 sectors of zeros, and the sectors written since. *)
Definition demo_bios : Bios := {|
  medium := list (Z * Z * list Z);
  int13_read m d l :=
    if decide (d = 0x80 /\ l < 100) then
      Some match find (fun e => (e.1.1 =? d) && (e.1.2 =? l)) m with
           | Some e => if decide (zlen e.2 = 512 /\ Forall is_byte e.2) then e.2 else replicate 512 0
           | None => replicate 512 0
           end
    else None;
  int13_write m d l s :=
    if decide (d = 0x80 /\ l < 100) then Some ((d, l, s) :: m) else None
|}.

Lemma demo_zeros : zlen (replicate 512 0) = 512 /\ Forall is_byte (replicate 512 0).
Proof. split; [done|]. apply Forall_replicate. done. Qed.

#[local] Program Instance demo_laws : BiosLaws demo_bios := {
  drive_sectors d := if decide (d = 0x80) then 100 else 0
}.
Next Obligation.
  intros m d l Hl. simpl in *. destruct (decide (d = 128)) as [->|]; [|lia]. rewrite decide_True by lia.
  eexists. split; [done|]. pose proof demo_zeros.
  destruct (find _ m) as [e|]; [|done]. case_decide; done.
Qed.
Next Obligation.
  intros m d l Hl. simpl. rewrite decide_False; [done|]. intros [-> Hl2].
  rewrite decide_True in Hl by done. lia.
Qed.
Next Obligation.
  intros m d l s Hl Hs Hb. simpl in *. destruct (decide (d = 128)) as [->|]; [|lia]. rewrite decide_True by lia.
  eexists. split; [done|]. split.
  - rewrite decide_True by lia. simpl. rewrite !Z.eqb_refl. simpl. by rewrite decide_True.
  - intros d' l' Hne. case_decide as Hd; [|done]. destruct Hd as [-> Hd]. cbn [find fst snd].
    rewrite Z.eqb_refl. destruct (Z.eqb_spec l l') as [<-|]; done.
Qed.

Definition demo_hdd : hdd (B := demo_bios) := @MkHdd demo_bios 0 0 0 (replicate (Z.to_nat CACHE_SIZE) 0) [].

Lemma demo_hdd_ok : hdd_ok demo_hdd.
Proof.
  split; [apply zlen_replicate|by apply Forall_replicate|intros H; by destruct H|intros H; by destruct H].
Qed.

Lemma bios_disk_refines_witness :
  exists rs st', run_driver [Write 0x80 5 65; Read 0x80 30000; Read 0x80 5] demo_hdd = Some (rs, st') /\
    run_flat [Write 0x80 5 65; Read 0x80 30000; Read 0x80 5] (view demo_hdd) = Some rs /\ rs = [0; 0; 65].
Proof.
  destruct (bios_disk_refines [Write 0x80 5 65; Read 0x80 30000; Read 0x80 5] demo_hdd)
    as (rs & st' & Hr & _ & Hf); [|exact demo_hdd_ok|].
  - repeat (constructor; [vm_compute; intuition congruence|]). constructor.
  - exists rs, st'. split; [exact Hr|]. split; [exact Hf|].
    revert Hf. vm_compute. intros [= <-]. reflexivity.
Defined.

Lemma bios_disk_tail_panics_witness :
  bios_harddisks_io_wrapper 0x80 40000 DF_READ 0 demo_hdd = None.
Proof.
  apply bios_disk_tail_panics; [exact demo_hdd_ok|split; done|split; done|reflexivity].
Defined.

End BiosDisk.
