(* ===== verification/Handle.v ===== *)
(** * Handle tables

    The kernel has four growing tables of handles, all allocated the same way: the
    first entry whose [free] flag is set is reused, else the table grows by one
    entry.  This file holds the routine over any handle type, and the two tables
    of a task: [create_file_handle] and [create_file_handle_v2] of
    [kernel/src/klib.c] (the others are in [devfs.c] and [echfs.c]). *)

From S2P Require Import Prelude.
Local Open Scope Z_scope.

Module Handle.

Section Table.
Context {H : Type} (free : H -> Z).

(** [for (i = 0; i < ptr; i++) if (handles[i].free) { handle_n = i; ... }] *)
Fixpoint first_free (i : Z) (l : list H) : option Z :=
  match l with
  | [] => None
  | h :: l => if free h =? 0 then first_free (i + 1) l else Some i
  end.

(** The entry used and the new table; [krealloc] is assumed to succeed. *)
Definition create_handle (h : H) (l : list H) : Z * list H :=
  match first_free 0 l with
  | Some n => (n, <[Z.to_nat n := h]> l)
  | None => (zlen l, l ++ [h])
  end.

(** Entry [n] of the table is in use by [h]. *)
Definition live (l : list H) (n : Z) (h : H) : Prop := zget l n = Some h /\ free h = 0.

Lemma first_free_spec i l :
  match first_free i l with
  | Some n => i <= n /\ exists h, zget l (n - i) = Some h /\ free h <> 0
  | None => forall n h, zget l n = Some h -> free h = 0
  end.
Proof.
  revert i. induction l as [|h l IH]; intros i; simpl.
  - intros n h Hg. apply zget_Some in Hg. change (zlen (@nil H)) with 0 in Hg. lia.
  - destruct (Z.eqb_spec (free h) 0) as [Hf|Hf].
    + specialize (IH (i + 1)). destruct (first_free (i + 1) l) as [n|].
      * destruct IH as (Hi & h' & Hg & Hf'). split; [lia|]. exists h'. split; [|done].
        rewrite zget_cons. case_decide; [lia|]. by replace (n - i - 1) with (n - (i + 1)) by lia.
      * intros n h'. rewrite zget_cons. case_decide; [by intros [= <-]|apply IH].
    + split; [lia|]. exists h. by replace (i - i) with 0 by lia.
Qed.

Lemma create_handle_ok h l n l' : free h = 0 -> create_handle h l = (n, l') ->
  (forall g, ~ live l n g) /\ live l' n h /\ 0 <= n <= zlen l /\
  (zlen l' = zlen l \/ zlen l' = zlen l + 1) /\
  forall m g, m <> n -> live l' m g <-> live l m g.
Proof.
  intros Hh. unfold create_handle. pose proof (first_free_spec 0 l) as Hs.
  destruct (first_free 0 l) as [k|]; intros [= <- <-].
  - destruct Hs as (Hk & f & Hg & Hf). rewrite Z.sub_0_r in Hg. pose proof (zget_Some _ _ _ Hg).
    assert (zset l k h = Some (<[Z.to_nat k:=h]> l)) as Hset by (apply zset_ok; lia).
    split; [|split; [|split; [lia|split; [left; apply zlen_insert|]]]].
    + intros g [Hg' Hf']. congruence.
    + split; [|done]. rewrite (zget_zset _ _ _ _ _ Hset). by rewrite decide_True.
    + intros m g Hm. unfold live. rewrite (zget_zset _ _ _ _ _ Hset). by rewrite decide_False.
  - pose proof (zlen_nonneg l).
    split; [|split; [|split; [lia|split; [right; rewrite zlen_app; done|]]]].
    + intros g [Hg _]. apply zget_Some in Hg. lia.
    + split; [|done]. rewrite zget_app, decide_False by lia. by replace (zlen l - zlen l) with 0 by lia.
    + intros m g Hm. unfold live. rewrite zget_app. case_decide as Hd; [done|].
      split; intros [Hg Hf]; exfalso; apply zget_Some in Hg; [|lia].
      change (zlen [h]) with 1 in Hg. lia.
Qed.

End Table.

(** The tables of a task. *)
Record file_handle_t := MkFileHandle {
  fh_free : Z; fh_path : list Z; fh_flags : Z; fh_mode : Z;
  fh_ptr : Z; fh_begin : Z; fh_end : Z; fh_isblock : Z
}.
Record file_handle_v2_t := MkFileHandleV2 {
  free : Z; mountpoint : Z; internal_handle : Z
}.

Definition create_file_handle (h : file_handle_t) (l : list file_handle_t) : Z * list file_handle_t :=
  create_handle fh_free h l.
Definition create_file_handle_v2 (h : file_handle_v2_t) (l : list file_handle_v2_t) :
    Z * list file_handle_v2_t :=
  create_handle free h l.

(** * Properties *)

(** Allocating a handle in any of the kernel's handle tables returns an entry
    that no live handle uses, at most one past the end of the table; afterwards the
    entry holds the new handle and every other live handle is unchanged. *)
Theorem create_handle_correct {H : Type} (fr : H -> Z) (h : H) (l l' : list H) (n : Z) :
  fr h = 0 -> create_handle fr h l = (n, l') ->
  (forall g, ~ live fr l n g) /\ live fr l' n h /\ 0 <= n <= zlen l /\
  (zlen l' = zlen l \/ zlen l' = zlen l + 1) /\
  forall m g, m <> n -> live fr l' m g <-> live fr l m g.
Proof. apply create_handle_ok. Qed.

Lemma create_handle_correct_witness :
  create_file_handle_v2 (MkFileHandleV2 0 5 6) [MkFileHandleV2 0 1 1; MkFileHandleV2 1 2 2] =
    (1, [MkFileHandleV2 0 1 1; MkFileHandleV2 0 5 6]) /\
  live free [MkFileHandleV2 0 1 1; MkFileHandleV2 0 5 6] 1 (MkFileHandleV2 0 5 6).
Proof.
  split; [reflexivity|].
  destruct (create_handle_correct free (MkFileHandleV2 0 5 6) [MkFileHandleV2 0 1 1; MkFileHandleV2 1 2 2]
    [MkFileHandleV2 0 1 1; MkFileHandleV2 0 5 6] 1) as (_ & Hl & _); [reflexivity|reflexivity|exact Hl].
Defined.

End Handle.
