(* ===== verification/Devfs.v ===== *)
(** * The device file system: [kernel/src/fs/devfs.c]

    Devfs is flat: a path names a device of [device_list].  Its handles hold a
    byte position that [devfs_seek] moves within the device and that reads and
    writes advance, one [io_wrapper] call per byte.

    The state is the handle table, the device list and the state [W] of the
    drivers.  [None] is a panic, an access outside of a table or a string buffer,
    or an indeterminate result. *)

From S2P Require Import Prelude CString Dev Handle.
Local Open Scope Z_scope.

Module Devfs.
Import CString Dev Handle.

Definition FAILURE : Z := -2.
Definition SUCCESS : Z := 0.
Definition IO_NOT_READY : Z := -5.
Definition FILE_TYPE : Z := 0.
Definition DIRECTORY_TYPE : Z := 1.
Definition DEVICE_TYPE : Z := 2.
Definition O_APPEND : Z := 0x0008.
Definition O_CREAT : Z := 0x0010.
Definition O_TRUNC : Z := 0x0200.
Definition SEEK_SET : Z := 0.
Definition SEEK_END : Z := 1.
Definition SEEK_CUR : Z := 2.

Record vfs_metadata_t := MkMetadata { filename : list Z; filetype : Z; msize : Z }.

Record devfs_handle_t := MkHandle {
  dh_free : Z; path : list Z; flags : Z; mode : Z;
  ptr : Z; begin : Z; end_ : Z; isblock : Z; device : Z
}.
Definition with_ptr (h : devfs_handle_t) (p : Z) : devfs_handle_t :=
  MkHandle (dh_free h) (path h) (flags h) (mode h) p (begin h) (end_ h) (isblock h) (device h).
Definition with_free (h : devfs_handle_t) (f : Z) : devfs_handle_t :=
  MkHandle f (path h) (flags h) (mode h) (ptr h) (begin h) (end_ h) (isblock h) (device h).

Section Devfs.
Context {W : Type}.

(** [devfs_handles], [device_list] and the drivers; [stat] is [read_stat] or
    [write_stat], whichever the last operation set. *)
Record state := MkState {
  handles : list devfs_handle_t;
  device_list : list (device_t W);
  world : W;
  stat : Z
}.
Definition with_handles (hs : list devfs_handle_t) (st : state) : state :=
  MkState hs (device_list st) (world st) (stat st).
Definition with_world (w : W) (st : state) : state :=
  MkState (handles st) (device_list st) w (stat st).
Definition set_handle (n : Z) (h : devfs_handle_t) (st : state) : option state :=
  hs ← zset (handles st) n h; Some (with_handles hs st).

Definition devfs_create_handle (h : devfs_handle_t) (st : state) : Z * state :=
  let '(n, hs) := create_handle dh_free h (handles st) in (n, with_handles hs st).

Definition devfs_list (entry : Z) (st : state) : option (Z * option vfs_metadata_t) :=
  if zlen (device_list st) <=? entry then Some (FAILURE, None)
  else d ← zget (device_list st) entry;
       Some (SUCCESS, Some (MkMetadata (name d) DEVICE_TYPE (size d))).

(** [if ( *path == '/') path++;] *)
Definition strip_slash (p : list Z) : list Z :=
  match p with c :: p' => if c =? 47 then p' else p | [] => p end.

(** [devfs_read] ([type] 0) and [devfs_write] ([type] 1). *)
Definition devfs_io (type : Z) (p : list Z) (loc val : Z) (st : state) : option (Z * state) :=
  match find_device (strip_slash p) (device_list st) with
  | None => Some (FAILURE, st)
  | Some i =>
      d ← zget (device_list st) i;
      r ← io_wrapper d (gp_value d) loc type val (world st);
      Some (r.1, with_world r.2 st)
  end.
Definition devfs_read (p : list Z) (loc : Z) (st : state) : option (Z * state) := devfs_io 0 p loc 0 st.
Definition devfs_write (p : list Z) (val loc : Z) (st : state) : option (Z * state) :=
  devfs_io 1 p loc val st.

(** The loop of [devfs_uread]: the [int] position, the bytes read, the status and
    the drivers. *)
Record progress := MkProgress { i_ptr : Z; data : list Z; pstat : Z; pworld : W }.

Fixpoint uread_loop (len : nat) (io : io_fn W) (gp : Z) (p : progress) : option progress :=
  match len with
  | O => Some p
  | S len =>
      r ← io gp (u64 (i_ptr p)) 0 0 (pworld p);
      let c := r.1 in
      if (c =? FAILURE) || (c =? -1) then Some (MkProgress (i_ptr p) (data p) (pstat p) r.2)
      else if c =? IO_NOT_READY then Some (MkProgress (i_ptr p) (data p) 1 r.2)
      else uread_loop len io gp (MkProgress (s32 (i_ptr p + 1)) (data p ++ [u8 c]) (pstat p) r.2)
  end.

(** The count returned and the bytes stored at [ptr]. *)
Definition devfs_uread (handle len : Z) (st : state) : option (Z * list Z * state) :=
  h ← zget (handles st) handle;
  d ← zget (device_list st) (device h);
  p ← uread_loop (Z.to_nat len) (io_wrapper d) (gp_value d) (MkProgress (s32 (ptr h)) [] 0 (world st));
  st ← set_handle handle (with_ptr h (u64 (i_ptr p)))
         (MkState (handles st) (device_list st) (pworld p) (pstat p));
  Some (zlen (data p), data p, st).

Fixpoint uwrite_loop (bytes : list Z) (io : io_fn W) (gp n : Z) (p : progress) : option (Z * progress) :=
  match bytes with
  | [] => Some (n, p)
  | b :: bytes =>
      r ← io gp (u64 (i_ptr p)) 1 (u8 b) (pworld p);
      let c := r.1 in
      if (c =? FAILURE) || (c =? -1) then Some (n, MkProgress (i_ptr p) [] (pstat p) r.2)
      else if c =? IO_NOT_READY then Some (n, MkProgress (i_ptr p) [] 1 r.2)
      else uwrite_loop bytes io gp (n + 1) (MkProgress (s32 (i_ptr p + 1)) [] (pstat p) r.2)
  end.

Definition devfs_uwrite (handle : Z) (bytes : list Z) (st : state) : option (Z * state) :=
  h ← zget (handles st) handle;
  d ← zget (device_list st) (device h);
  r ← uwrite_loop bytes (io_wrapper d) (gp_value d) 0 (MkProgress (s32 (ptr h)) [] 0 (world st));
  st ← set_handle handle (with_ptr h (u64 (i_ptr r.2)))
         (MkState (handles st) (device_list st) (pworld r.2) (pstat r.2));
  Some (r.1, st).

Definition devfs_remove : Z := FAILURE.
Definition devfs_mkdir : Z := FAILURE.
Definition devfs_create : Z := FAILURE.
Definition devfs_mount : Z := 0.

(** A type other than the three falls off the end of the function: [None]. *)
Definition devfs_get_metadata (p : list Z) (type : Z) (st : state) : option (Z * option vfs_metadata_t) :=
  if type =? DIRECTORY_TYPE then
    if decide (p = [47]) then Some (SUCCESS, Some (MkMetadata [47] type 0))
    else match p with
         | [] => Some (SUCCESS, Some (MkMetadata [47] type 0))
         | _ => Some (FAILURE, None)
         end
  else if type =? DEVICE_TYPE then
    match find_device (strip_slash p) (device_list st) with
    | Some i => d ← zget (device_list st) i;
                Some (SUCCESS, Some (MkMetadata (name d) DEVICE_TYPE (size d)))
    | None => Some (FAILURE, None)
    end
  else if type =? FILE_TYPE then Some (FAILURE, None)
  else None.

Definition has_flag (fl bit : Z) : bool := negb (Z.land fl bit =? 0).

Definition devfs_open (p : list Z) (fl md : Z) (st : state) : option (Z * state) :=
  r ← devfs_get_metadata p DEVICE_TYPE st;
  match r.2 with
  | Some metadata =>
      if has_flag fl O_TRUNC then Some (-1, st)
      else if has_flag fl O_APPEND then Some (-1, st)
      else if has_flag fl O_CREAT then Some (-1, st)
      else
        pth ← strbuf 1024 p;
        let dev := match find_device (strip_slash p) (device_list st) with
                   | Some i => i
                   | None => zlen (device_list st)
                   end in
        Some (devfs_create_handle
          (MkHandle 0 pth fl md 0 0 (msize metadata) (if msize metadata =? 0 then 1 else 0) dev) st)
  | None => Some (-1, st)
  end.

(** The checks that [devfs_close] and [devfs_seek] start with. *)
Definition valid_handle (handle : Z) (st : state) : option devfs_handle_t :=
  if handle <? 0 then None
  else if zlen (handles st) <=? handle then None
  else h ← zget (handles st) handle;
       if dh_free h =? 0 then Some h else None.

Definition devfs_close (handle : Z) (st : state) : option (Z * state) :=
  match valid_handle handle st with
  | None => Some (-1, st)
  | Some h => st ← set_handle handle (with_free h 1) st; Some (0, st)
  end.

(** The bounds check and the move of one [case] of [devfs_seek]; all the fields
    are [uint64_t] and [offset] is an [int]. *)
Definition seek_from (base offset handle : Z) (h : devfs_handle_t) (st : state) : option (Z * state) :=
  let target := u64 (base + offset) in
  if (end_ h <? target) || (target <? begin h) then Some (-1, st)
  else st ← set_handle handle (with_ptr h target) st; Some (s32 target, st).

Definition devfs_seek (handle offset type : Z) (st : state) : option (Z * state) :=
  match valid_handle handle st with
  | None => Some (-1, st)
  | Some h =>
      if negb (isblock h =? 0) then Some (-1, st)
      else if type =? SEEK_SET then seek_from (begin h) offset handle h st
      else if type =? SEEK_END then seek_from (end_ h) offset handle h st
      else if type =? SEEK_CUR then seek_from (ptr h) offset handle h st
      else Some (-1, st)
  end.

Definition devfs_fork (handle : Z) (st : state) : option (Z * state) :=
  h ← zget (handles st) handle; Some (devfs_create_handle h st).

End Devfs.
#[global] Arguments state : clear implicits.
#[global] Arguments progress : clear implicits.

(** ** Lemmas: handles *)

Section Lemmas.
Context {W : Type}.
Implicit Types st : state W.

Lemma valid_handle_live n h st : live dh_free (handles st) n h -> valid_handle n st = Some h.
Proof.
  intros [Hg Hf]. pose proof (zget_Some _ _ _ Hg). unfold valid_handle.
  rewrite (proj2 (Z.ltb_ge _ _)) by lia. rewrite (proj2 (Z.leb_gt _ _)) by lia.
  rewrite Hg. simpl. by rewrite Hf.
Qed.

Lemma set_handle_ok n h h' st : live dh_free (handles st) n h ->
  set_handle n h' st = Some (with_handles (<[Z.to_nat n:=h']> (handles st)) st).
Proof. intros [Hg _]. unfold set_handle. rewrite zset_ok by (by eapply zget_Some). done. Qed.

Lemma live_insert n h h' (l : list devfs_handle_t) : live dh_free l n h -> dh_free h' = 0 ->
  live dh_free (<[Z.to_nat n:=h']> l) n h'.
Proof.
  intros [Hg _] Hf. split; [|done]. rewrite (zget_zset l n n h'); [by rewrite decide_True|].
  apply zset_ok. by eapply zget_Some.
Qed.

Lemma u64_s32 z : 0 <= z < 2 ^ 31 -> u64 (s32 z) = z.
Proof. intros H. by rewrite s32_small, u64_small by lia. Qed.

(** A handle on a seekable device below 2 GiB. *)
Record on_device (h : devfs_handle_t) (sz : Z) : Prop := {
  od_free : dh_free h = 0;
  od_begin : begin h = 0;
  od_end : end_ h = sz;
  od_seek : isblock h = 0;
  od_ptr : 0 <= ptr h <= sz;
  od_size : sz < 2 ^ 31
}.

Lemma seek_from_ok base n h off st sz : live dh_free (handles st) n h -> on_device h sz ->
  0 <= base <= sz -> - 2 ^ 31 <= off < 2 ^ 31 ->
  seek_from base off n h st =
    if decide (0 <= base + off <= sz)
    then Some (base + off, with_handles (<[Z.to_nat n:=with_ptr h (base + off)]> (handles st)) st)
    else Some (-1, st).
Proof.
  intros Hl Hd Hb Ho. destruct Hd as [_ E1 E2 _ _ Hsz]. unfold seek_from. rewrite E1, E2.
  case_decide as Hr.
  - rewrite u64_small by lia. rewrite (proj2 (Z.ltb_ge _ _)), (proj2 (Z.ltb_ge _ _)) by lia. simpl.
    rewrite (set_handle_ok n h) by done. simpl. by rewrite s32_small by lia.
  - assert (sz < u64 (base + off)) as Hu by (unfold u64; zdml).
    by rewrite (proj2 (Z.ltb_lt _ _)).
Qed.

Lemma seek_set_ok n off h st sz : live dh_free (handles st) n h -> on_device h sz -> 0 <= off <= sz ->
  devfs_seek n off SEEK_SET st =
    Some (off, with_handles (<[Z.to_nat n:=with_ptr h off]> (handles st)) st).
Proof.
  intros Hl Hd Ho. pose proof Hd as [_ E1 _ E3 E4 Hs]. unfold devfs_seek.
  rewrite (valid_handle_live n h) by done. rewrite E3. simpl.
  rewrite E1, (seek_from_ok 0 n h off st sz), decide_True by (done || lia). done.
Qed.

(** ** Lemmas: transfers over a volume *)

Section Transfer.
Context {io : Z -> Z -> Z -> W -> option (Z * W)} {sz : Z} {V : Volume io sz}.

(** The driver of device [d] is the volume. *)
Definition drives_volume (d : device_t W) : Prop :=
  forall loc t v w, io_wrapper d (gp_value d) loc t v w = io loc t v w.

(** The bytes [off .. off + len) of the volume. *)
Definition vol_bytes (w : W) (off : Z) (len : nat) : list Z :=
  (fun k => vol_byte w (off + Z.of_nat k)) <$> seq 0 len.

Lemma vol_bytes_S w off len : vol_bytes w off (S len) = vol_byte w off :: vol_bytes w (off + 1) len.
Proof.
  unfold vol_bytes. simpl. f_equal; [by rewrite Z.add_0_r|]. rewrite <- fmap_S_seq, <- list_fmap_compose.
  apply list_fmap_ext. intros i x _. simpl. f_equal. lia.
Qed.

Lemma vol_bytes_len w off len : zlen (vol_bytes w off len) = Z.of_nat len.
Proof. unfold zlen, vol_bytes. by rewrite length_fmap, length_seq. Qed.

Lemma vol_bytes_ext w w' off len : 0 <= off -> off + Z.of_nat len <= sz ->
  (forall l, 0 <= l < sz -> vol_byte w' l = vol_byte w l) -> vol_bytes w' off len = vol_bytes w off len.
Proof.
  revert off. induction len as [|len IH]; intros off H0 Hl Hw; [done|].
  rewrite !vol_bytes_S, Hw, IH by (lia || done). done.
Qed.

Lemma uread_loop_ok len (d : device_t W) p : drives_volume d -> vol_ok (pworld p) ->
  0 <= i_ptr p -> i_ptr p + Z.of_nat len <= sz -> sz < 2 ^ 31 ->
  exists w', uread_loop len (io_wrapper d) (gp_value d) p =
      Some (MkProgress (i_ptr p + Z.of_nat len) (data p ++ vol_bytes (pworld p) (i_ptr p) len) (pstat p) w') /\
    vol_ok w' /\ forall l, 0 <= l < sz -> vol_byte w' l = vol_byte (pworld p) l.
Proof.
  intros Hd. revert p. induction len as [|len IH]; intros p Hok H0 Hl Hs.
  - exists (pworld p). simpl. unfold vol_bytes. simpl. rewrite app_nil_r, Z.add_0_r. by destruct p.
  - simpl. rewrite Hd, u64_small by lia.
    destruct (vol_read (pworld p) (i_ptr p) Hok ltac:(lia)) as (w1 & -> & Hok1 & Hv1). simpl.
    pose proof (vol_is_byte (pworld p) (i_ptr p) Hok ltac:(lia)) as Hb. unfold is_byte in Hb.
    set (v := vol_byte (pworld p) (i_ptr p)) in *.
    rewrite (proj2 (Z.eqb_neq v FAILURE)), (proj2 (Z.eqb_neq v (-1))), (proj2 (Z.eqb_neq v IO_NOT_READY))
      by (unfold FAILURE, IO_NOT_READY; lia).
    simpl. rewrite s32_small, u8_small by lia.
    edestruct (IH (MkProgress (i_ptr p + 1) (data p ++ [v]) (pstat p) w1)) as (w' & -> & Hok' & Hv');
      simpl; [done|lia|lia|done|].
    exists w'. split; [|split; [done|]].
    + f_equal. f_equal; [lia|]. rewrite <- app_assoc, vol_bytes_S. fold v. simpl.
      rewrite (vol_bytes_ext (pworld p) w1) by (lia || done). done.
    + intros l Hl'. simpl in Hv'. by rewrite Hv', Hv1.
Qed.

Lemma uwrite_loop_ok bytes (d : device_t W) n p : drives_volume d -> vol_ok (pworld p) ->
  Forall is_byte bytes -> data p = [] ->
  0 <= i_ptr p -> i_ptr p + zlen bytes <= sz -> sz < 2 ^ 31 ->
  exists w', uwrite_loop bytes (io_wrapper d) (gp_value d) n p =
      Some (n + zlen bytes, MkProgress (i_ptr p + zlen bytes) [] (pstat p) w') /\
    vol_ok w' /\ forall l, 0 <= l < sz -> vol_byte w' l =
      default (vol_byte (pworld p) l) (zget bytes (l - i_ptr p)).
Proof.
  intros Hd. revert n p. induction bytes as [|b bytes IH]; intros n p Hok Hby He H0 Hl Hs.
  - exists (pworld p). simpl. rewrite (@zlen_nil Z), !Z.add_0_r. split; [|split; [done|]].
    + destruct p. simpl in *. by subst.
    + intros l _. unfold zget. by case_decide.
  - inversion Hby as [|? ? Hb Hby']; subst. rewrite zlen_cons in Hl. pose proof (zlen_nonneg bytes).
    simpl. unfold is_byte in Hb. rewrite Hd, u64_small, u8_small by lia.
    destruct (vol_write (pworld p) (i_ptr p) b Hok ltac:(lia) Hb) as (w1 & -> & Hok1 & Hv1). simpl.
    rewrite s32_small by lia.
    edestruct (IH (n + 1) (MkProgress (i_ptr p + 1) [] (pstat p) w1)) as (w' & -> & Hok' & Hv');
      simpl; [done|done|done|lia|lia|done|].
    exists w'. split; [|split; [done|]].
    + rewrite zlen_cons. replace (n + 1 + zlen bytes) with (n + (zlen bytes + 1)) by lia.
      by replace (i_ptr p + 1 + zlen bytes) with (i_ptr p + (zlen bytes + 1)) by lia.
    + intros l Hl'. simpl in Hv'. rewrite Hv', Hv1, zget_cons by lia.
      repeat case_decide; try lia; simpl.
      * subst. rewrite (proj2 (zget_None _ _)) by lia. done.
      * by replace (l - (i_ptr p + 1)) with (l - i_ptr p - 1) by lia.
Qed.

(** Seek and read, seek and write: the final states. *)
Lemma seek_read_ok n off (len : nat) h (d : device_t W) st :
  live dh_free (handles st) n h -> on_device h sz ->
  zget (device_list st) (device h) = Some d -> drives_volume d -> vol_ok (world st) ->
  0 <= off -> off + Z.of_nat len <= sz -> exists st1 w',
  devfs_seek n off SEEK_SET st = Some (off, st1) /\
  devfs_uread n (Z.of_nat len) st1 = Some (Z.of_nat len, vol_bytes (world st) off len,
    MkState (<[Z.to_nat n:=with_ptr h (off + Z.of_nat len)]> (handles st)) (device_list st) w' 0) /\
  vol_ok w' /\ forall l, 0 <= l < sz -> vol_byte w' l = vol_byte (world st) l.
Proof.
  intros Hl Hd Hg Hv Hok H0 Hlen. pose proof Hd as [E0 _ _ _ _ Hs].
  destruct (uread_loop_ok len d (MkProgress off [] 0 (world st)) Hv Hok H0 Hlen Hs)
    as (w' & E & Hok' & Hv'). simpl in *.
  eexists _, w'. split; [by apply (seek_set_ok n off h st sz); [| |lia]|]. split; [|done].
  unfold devfs_uread. destruct (live_insert n h (with_ptr h off) (handles st) Hl E0) as [Hg1 Hf1]. simpl.
  rewrite Hg1. simpl. rewrite Hg. simpl. rewrite Nat2Z.id, s32_small, E by lia. simpl.
  rewrite (set_handle_ok n (with_ptr h off)) by done. simpl.
  by rewrite u64_small, list_insert_insert_eq, vol_bytes_len by lia.
Qed.

Lemma seek_write_ok n off bytes h (d : device_t W) st :
  live dh_free (handles st) n h -> on_device h sz ->
  zget (device_list st) (device h) = Some d -> drives_volume d -> vol_ok (world st) ->
  0 <= off -> Forall is_byte bytes -> off + zlen bytes <= sz -> exists st1 w',
  devfs_seek n off SEEK_SET st = Some (off, st1) /\
  devfs_uwrite n bytes st1 = Some (zlen bytes,
    MkState (<[Z.to_nat n:=with_ptr h (off + zlen bytes)]> (handles st)) (device_list st) w' 0) /\
  vol_ok w' /\
  forall l, 0 <= l < sz -> vol_byte w' l = default (vol_byte (world st) l) (zget bytes (l - off)).
Proof.
  intros Hl Hd Hg Hv Hok H0 Hby Hlen. pose proof Hd as [E0 _ _ _ _ Hs]. pose proof (zlen_nonneg bytes).
  destruct (uwrite_loop_ok bytes d 0 (MkProgress off [] 0 (world st)) Hv Hok Hby eq_refl H0 Hlen Hs)
    as (w' & E & Hok' & Hv'). simpl in *.
  eexists _, w'. split; [by apply (seek_set_ok n off h st sz); [| |lia]|]. split; [|done].
  unfold devfs_uwrite. destruct (live_insert n h (with_ptr h off) (handles st) Hl E0) as [Hg1 Hf1]. simpl.
  rewrite Hg1. simpl. rewrite Hg. simpl. rewrite s32_small, E by lia. simpl.
  rewrite (set_handle_ok n (with_ptr h off)) by done. simpl.
  by rewrite u64_small, list_insert_insert_eq by lia.
Qed.

End Transfer.
End Lemmas.

(** ** Lemmas: a transfer through a handle *)

Section Through.
Context {W : Type}.
Implicit Types st : state W.

(** The handle [n] is open on the device [d]. *)
Definition open_on (n : Z) (h : devfs_handle_t) (d : device_t W) (st : state W) : Prop :=
  live dh_free (handles st) n h /\ zget (device_list st) (device h) = Some d.

Lemma uread_through n h d st (len : nat) p : open_on n h d st ->
  uread_loop len (io_wrapper d) (gp_value d) (MkProgress (s32 (ptr h)) [] 0 (world st)) = Some p ->
  exists st', devfs_uread n (Z.of_nat len) st = Some (zlen (data p), data p, st') /\
    world st' = pworld p.
Proof.
  intros [[Hg _] Hd] E. unfold devfs_uread. rewrite Hg. cbn [mbind option_bind]. rewrite Hd.
  cbn [mbind option_bind]. rewrite Nat2Z.id, E. cbn [mbind option_bind].
  unfold set_handle. cbn [handles]. rewrite zset_ok by (by eapply zget_Some).
  cbn [mbind option_bind]. eexists. split; [done|]. done.
Qed.

Lemma uwrite_through n h d st bytes k p : open_on n h d st ->
  uwrite_loop bytes (io_wrapper d) (gp_value d) 0 (MkProgress (s32 (ptr h)) [] 0 (world st)) =
    Some (k, p) ->
  exists st', devfs_uwrite n bytes st = Some (k, st') /\ world st' = pworld p.
Proof.
  intros [[Hg _] Hd] E. unfold devfs_uwrite. rewrite Hg. cbn [mbind option_bind]. rewrite Hd.
  cbn [mbind option_bind]. rewrite E. cbn [mbind option_bind fst snd].
  unfold set_handle. cbn [handles]. rewrite zset_ok by (by eapply zget_Some).
  cbn [mbind option_bind]. eexists. split; [done|]. done.
Qed.

(** A driver that answers every read with the byte 0 and accepts every write. *)
Lemma uread_zeros (len : nat) (io : io_fn W) gp (p : progress W) :
  (forall loc w, io gp loc 0 0 w = Some (0, w)) -> exists i,
  uread_loop len io gp p =
    Some (MkProgress i (data p ++ replicate len 0) (pstat p) (pworld p)).
Proof.
  intros Hio. revert p. induction len as [|len IH]; intros p; cbn [uread_loop replicate].
  - exists (i_ptr p). rewrite app_nil_r. by destruct p.
  - rewrite Hio. cbn [mbind option_bind fst snd Z.eqb orb FAILURE IO_NOT_READY].
    destruct (IH (MkProgress (s32 (i_ptr p + 1)) (data p ++ [u8 0]) (pstat p) (pworld p)))
      as (i & ->). exists i. cbn [data pstat pworld]. by rewrite <- app_assoc.
Qed.

Lemma uwrite_sink bytes (io : io_fn W) gp k (p : progress W) :
  (forall loc b w, io gp loc 1 b w = Some (0, w)) -> exists p',
  uwrite_loop bytes io gp k p = Some (k + zlen bytes, p') /\ pworld p' = pworld p.
Proof.
  intros Hio. revert k p. induction bytes as [|b bytes IH]; intros k p; cbn [uwrite_loop].
  - exists p. by rewrite zlen_nil, Z.add_0_r.
  - rewrite Hio. cbn [mbind option_bind fst snd Z.eqb orb FAILURE IO_NOT_READY].
    destruct (IH (k + 1) (MkProgress (s32 (i_ptr p + 1)) [] (pstat p) (pworld p)))
      as (p' & -> & E). exists p'. split; [|exact E]. rewrite zlen_cons. do 2 f_equal. lia.
Qed.

(** A driver whose answer to the first request is the end of file. *)
Lemma uread_eof (len : nat) (io : io_fn W) gp (p : progress W) w' : (0 < len)%nat ->
  io gp (u64 (i_ptr p)) 0 0 (pworld p) = Some (-1, w') ->
  uread_loop len io gp p = Some (MkProgress (i_ptr p) (data p) (pstat p) w').
Proof. destruct len; [lia|]. intros _ E. cbn [uread_loop]. rewrite E. done. Qed.

Lemma uwrite_eof b bytes (io : io_fn W) gp k (p : progress W) w' :
  io gp (u64 (i_ptr p)) 1 (u8 b) (pworld p) = Some (-1, w') ->
  uwrite_loop (b :: bytes) io gp k p = Some (k, MkProgress (i_ptr p) [] (pstat p) w').
Proof. intros E. cbn [uwrite_loop]. rewrite E. done. Qed.

End Through.

(** * Properties *)

(** [devfs_seek] on a live handle of a device below 2 GiB moves the position
    to the start, the end or the current position plus [offset], returning it,
    when that is within the device, and otherwise fails and changes nothing: the
    position stays within the device. *)
Theorem devfs_seek_correct {W : Type} (n off type sz : Z) (h : devfs_handle_t) (st : state W) :
  live dh_free (handles st) n h -> on_device h sz -> - 2 ^ 31 <= off < 2 ^ 31 ->
  0 <= type <= 2 ->
  let base := if type =? SEEK_SET then 0 else if type =? SEEK_END then sz else ptr h in
  devfs_seek n off type st =
    if decide (0 <= base + off <= sz)
    then Some (base + off, with_handles (<[Z.to_nat n:=with_ptr h (base + off)]> (handles st)) st)
    else Some (-1, st).
Proof.
  intros Hl Hd Ho Ht base. unfold devfs_seek. rewrite (valid_handle_live n h) by done.
  pose proof Hd as [_ E1 E2 -> E4 _]. simpl. unfold base. rewrite E1, E2.
  destruct (Z.eqb_spec type SEEK_SET); [by apply seek_from_ok; [| |lia|]|].
  destruct (Z.eqb_spec type SEEK_END); [by apply seek_from_ok; [| |lia|]|].
  rewrite (proj2 (Z.eqb_eq type SEEK_CUR)) by (unfold SEEK_SET, SEEK_END, SEEK_CUR in *; lia).
  by apply seek_from_ok.
Qed.

(** C14: A seek followed by a read or a write is a positioned transfer on the
    device: through a handle on any driver that is a [Volume] below 2 GiB,
    [devfs_seek] to [off] and [devfs_uread] of [len] bytes return exactly the
    bytes at [off .. off + len) and leave the device's bytes as they were, and
    [devfs_seek] and [devfs_uwrite] store the bytes there and change no other. *)
Theorem devfs_transfer_correct {W : Type} (io : Z -> Z -> Z -> W -> option (Z * W)) (sz : Z)
    (V : Volume io sz) (n off : Z) (h : devfs_handle_t) (d : device_t W) (st : state W) :
  live dh_free (handles st) n h -> on_device h sz ->
  zget (device_list st) (device h) = Some d -> drives_volume (io := io) d -> vol_ok (world st) ->
  0 <= off ->
  (forall len : nat, off + Z.of_nat len <= sz -> exists st1 st2,
    devfs_seek n off SEEK_SET st = Some (off, st1) /\
    devfs_uread n (Z.of_nat len) st1 = Some (Z.of_nat len, vol_bytes (world st) off len, st2) /\
    live dh_free (handles st2) n (with_ptr h (off + Z.of_nat len)) /\ vol_ok (world st2) /\
    forall l, 0 <= l < sz -> vol_byte (world st2) l = vol_byte (world st) l) /\
  (forall bytes, Forall is_byte bytes -> off + zlen bytes <= sz -> exists st1 st2,
    devfs_seek n off SEEK_SET st = Some (off, st1) /\
    devfs_uwrite n bytes st1 = Some (zlen bytes, st2) /\
    live dh_free (handles st2) n (with_ptr h (off + zlen bytes)) /\ vol_ok (world st2) /\
    forall l, 0 <= l < sz -> vol_byte (world st2) l = default (vol_byte (world st) l) (zget bytes (l - off))).
Proof.
  intros Hl Hd Hg Hv Hok H0. pose proof (od_free _ _ Hd) as E0. split.
  - intros len Hlen.
    destruct (seek_read_ok n off len h d st Hl Hd Hg Hv Hok H0 Hlen) as (st1 & w' & Hs & Hr & Hok' & Hb).
    eexists st1, _. split; [exact Hs|]. split; [exact Hr|]. by split; [apply (live_insert n h)|].
  - intros bytes Hby Hlen.
    destruct (seek_write_ok n off bytes h d st Hl Hd Hg Hv Hok H0 Hby Hlen) as (st1 & w' & Hs & Hr & Hok' & Hb).
    eexists st1, _. split; [exact Hs|]. split; [exact Hr|]. by split; [apply (live_insert n h)|].
Qed.

(** Beyond 2 GiB a device cannot be read through a handle: the position is
    narrowed to an [int], so at a position [p >= 2^31] inside the device the
    driver is asked for the location [p - 2^32] taken modulo [2^64].  On a driver
    that answers end of file past its end, [devfs_uread] then returns 0 bytes
    although the handle is not at the end. *)
Theorem devfs_uread_truncates {W : Type} (n len : Z) (h : devfs_handle_t) (d : device_t W) (st : state W) :
  live dh_free (handles st) n h -> zget (device_list st) (device h) = Some d ->
  2 ^ 31 <= ptr h < 2 ^ 32 -> ptr h < size d < 2 ^ 63 -> 0 < len ->
  (forall loc w, size d <= loc -> io_wrapper d (gp_value d) loc 0 0 w = Some (-1, w)) ->
  exists st', devfs_uread n len st = Some (0, [], st').
Proof.
  intros Hl Hg Hp Hs Hlen Heof. unfold devfs_uread. destruct Hl as [Hh Hf]. rewrite Hh. simpl. rewrite Hg. simpl.
  assert (s32 (ptr h) = ptr h - 2 ^ 32) as -> by (unfold s32; zdml).
  replace (Z.to_nat len) with (S (Z.to_nat (len - 1))) by lia. cbn [uread_loop i_ptr pworld].
  assert (u64 (ptr h - 2 ^ 32) = 2 ^ 64 + ptr h - 2 ^ 32) as -> by (unfold u64; zdml).
  rewrite Heof by lia. simpl. rewrite (set_handle_ok n h) by done. simpl. by eexists.
Qed.

(** * Witnesses *)

Definition demo_dev : device_t (list Z) := MkDevice [98] 7 4 (fun _ => ram_io).
Definition demo_handle : devfs_handle_t := MkHandle 0 [98] 0 0 0 0 4 0 0.
Definition demo_state : state (list Z) := MkState [demo_handle] [demo_dev] [10; 20; 30; 40] 0.

Lemma devfs_seek_correct_witness :
  devfs_seek 0 (-1) SEEK_END demo_state =
    Some (3, with_handles [with_ptr demo_handle 3] demo_state) /\
  devfs_seek 0 5 SEEK_SET demo_state = Some (-1, demo_state).
Proof.
  assert (live dh_free (handles demo_state) 0 demo_handle) as Hl by (split; reflexivity).
  assert (on_device demo_handle 4) as Hd by (split; (reflexivity || (simpl; lia))).
  split.
  - apply (devfs_seek_correct 0 (-1) SEEK_END 4 demo_handle demo_state Hl Hd); unfold SEEK_END; lia.
  - apply (devfs_seek_correct 0 5 SEEK_SET 4 demo_handle demo_state Hl Hd); unfold SEEK_SET; lia.
Defined.

Lemma devfs_transfer_correct_witness : exists st1 st2,
  devfs_seek 0 1 SEEK_SET demo_state = Some (1, st1) /\ devfs_uread 0 2 st1 = Some (2, [20; 30], st2).
Proof.
  destruct (devfs_transfer_correct ram_io 4 (ram_volume 4) 0 1 demo_handle demo_dev demo_state)
    as [Hr _].
  - split; reflexivity.
  - split; (reflexivity || (simpl; lia)).
  - reflexivity.
  - intros loc t v w. reflexivity.
  - split; [reflexivity|]. repeat (constructor; [split; [discriminate|reflexivity]|]). constructor.
  - discriminate.
  - destruct (Hr 2%nat ltac:(simpl; lia)) as (st1 & st2 & Hs & Hu & _). exists st1, st2. split; [exact Hs|exact Hu].
Defined.

Lemma devfs_uread_truncates_witness : exists st',
  devfs_uread 0 1 (MkState [MkHandle 0 [98] 0 0 (2 ^ 31) 0 (2 ^ 31 + 8) 0 0]
    [MkDevice [98] 7 (2 ^ 31 + 8) (fun _ loc _ _ w => if loc <? 2 ^ 31 + 8 then Some (0, w) else Some (-1, w))]
    tt 0) = Some (0, [], st').
Proof.
  eapply devfs_uread_truncates; [split; reflexivity|reflexivity|simpl; lia|simpl; lia|lia|].
  intros loc w Hl. simpl in *. by rewrite (proj2 (Z.ltb_ge _ _)).
Defined.

End Devfs.
