(* ===== verification/TtyDev.v ===== *)
(** * The terminal devices: [kernel/src/drivers/tty/tty.c]

    Each terminal is a device of the device file system: writing a byte prints it
    on the terminal ([Tty.v]), reading one takes it from the keyboard
    ([Keyboard.v]).  This file composes the three: what is typed is what a process
    reads from its terminal through a handle, a line at a time, and what it writes
    is printed. *)

From S2P Require Import Prelude Tty Keyboard Dev Handle Devfs.
Local Open Scope Z_scope.

Module TtyDev.
Import Dev Handle.

(** The state of the driver: the keyboard and the console. *)
Abbreviation world_t := (Keyboard.keyboard * Tty.console)%type.

(** [DF_READ] is 0 and [DF_WRITE] is 1; another type falls off the end. *)
Definition tty_io_wrapper : io_fn world_t := fun tty unused type payload w =>
  if type =? 1 then
    c ← Tty.text_putchar payload (u8 tty) w.2; Some (0, (w.1, c))
  else if type =? 0 then Keyboard.keyboard_fetch_char (u8 tty) w.1 w.2
  else None.

(** ["tty0"], ["tty1"], ... *)
Definition tty_name (i : Z) : list Z := [116; 116; 121; 48 + i].

Fixpoint init_tty_drv_from (n : nat) (i : Z) (l : list (device_t world_t)) : option (list (device_t world_t)) :=
  match n with
  | O => Some l
  | S n => l ← kernel_add_device (tty_name i) i 0 tty_io_wrapper l; init_tty_drv_from n (i + 1) l
  end.
Definition init_tty_drv (l : list (device_t world_t)) : option (list (device_t world_t)) :=
  init_tty_drv_from (Z.to_nat Tty.KRNL_TTY_COUNT) 0 l.

(** ** Lemmas *)

(** The devices registered for the terminals. *)
Definition tty_device (i : Z) : device_t world_t := MkDevice (tty_name i) i 0 tty_io_wrapper.

Lemma init_tty_drv_ok l : init_tty_drv l = Some (l ++ map tty_device [0; 1; 2; 3; 4; 5; 6]).
Proof.
  unfold init_tty_drv. change (Z.to_nat Tty.KRNL_TTY_COUNT) with 7%nat. cbn [init_tty_drv_from].
  unfold kernel_add_device. repeat (rewrite decide_True by done; cbn [mbind option_bind]).
  by rewrite <- !app_assoc.
Qed.

(** A character a reader takes for one. *)
Definition is_char (ch : Z) : Prop := 0 <= ch < 128.

(** The handle [n] is open on the device of terminal [w]. *)
Definition tty_handle (n w : Z) (h : Devfs.devfs_handle_t) (st : Devfs.state world_t) : Prop :=
  Devfs.open_on n h (tty_device w) st /\ 0 <= w < Tty.KRNL_TTY_COUNT.

Lemma tty_read w loc pl k c : tty_io_wrapper w loc 0 pl (k, c) = Keyboard.keyboard_fetch_char (u8 w) k c.
Proof. done. Qed.
Lemma tty_write w loc pl k c : tty_io_wrapper w loc 1 pl (k, c) = c ← Tty.text_putchar pl (u8 w) c; Some (0, (k, c)).
Proof. done. Qed.

(** Reading the rest of a line: [uread_loop] stops at the end of file after it. *)
Lemma uread_line line rest d k c t (p : Devfs.progress world_t) (len : nat) :
  Keyboard.cur_ok c d t -> Keyboard.is_eof k = 0 -> Keyboard.rdy d = line ++ 10 :: rest ->
  Forall is_char line -> Forall (fun ch => ch <> 10) line -> (length line + 1 < len)%nat ->
  Devfs.pworld p = (k, c) -> exists t' i,
  Devfs.uread_loop len tty_io_wrapper (Tty.current_tty c) p =
    Some (Devfs.MkProgress i (Devfs.data p ++ line ++ [10]) (Devfs.pstat p) (k, Tty.put (Tty.current_tty c) t' c)) /\
  Keyboard.cur_ok (Tty.put (Tty.current_tty c) t' c)
    (Keyboard.MkDisc (Keyboard.pend d) rest (Keyboard.scr d)) t'.
Proof.
  intros H Hk Hr Hc Hn Hl Hp. revert d c t p len H Hr Hl Hp.
  induction line as [|ch line IH]; intros d c t p len H Hr Hl Hp; cbn [app] in Hr.
  all: assert (u8 (Tty.current_tty c) = Tty.current_tty c) as Hu
    by (pose proof (Tty.cok_cur _ (Keyboard.cur_cons _ _ _ H)); unfold Tty.KRNL_TTY_COUNT in *; apply u8_small; lia).
  all: destruct len as [|len]; [cbn in Hl; lia|]; cbn [Devfs.uread_loop]; rewrite Hp.
  all: rewrite tty_read, Hu.
  - destruct (Keyboard.fetch_char_ok k c d t 10 rest H Hk Hr) as (t1 & -> & H1).
    cbn [mbind option_bind fst snd Z.eqb orb Devfs.FAILURE Devfs.IO_NOT_READY Pos.eqb].
    destruct len as [|len]; [cbn in Hl; lia|]. cbn [Devfs.uread_loop Devfs.pworld].
    rewrite tty_read. unfold Keyboard.keyboard_fetch_char at 1.
    cbn [Keyboard.is_eof Keyboard.set_eof Z.eqb negb mbind option_bind fst snd orb Devfs.FAILURE Pos.eqb].
    eexists t1, _. split; [|exact H1]. do 2 f_equal. f_equal. by rewrite <- (Keyboard.set_eof_id k 1 Hk).
  - apply Forall_cons in Hc as [Hc Hcs]. apply Forall_cons in Hn as [Hn Hns]. unfold is_char in Hc.
    destruct (Keyboard.fetch_char_ok k c d t ch (line ++ 10 :: rest) H Hk Hr) as (t1 & -> & H1).
    rewrite (proj2 (Z.eqb_neq ch 10)) by done. cbn [mbind option_bind fst snd].
    unfold Devfs.FAILURE, Devfs.IO_NOT_READY. rewrite !(proj2 (Z.eqb_neq ch _)) by lia. cbn [orb].
    rewrite u8_small by lia. cbn in Hl.
    destruct (IH Hcs Hns (Keyboard.MkDisc (Keyboard.pend d) (line ++ 10 :: rest) (Keyboard.scr d)) _ t1
      (Devfs.MkProgress (s32 (Devfs.i_ptr p + 1)) (Devfs.data p ++ [ch]) (Devfs.pstat p)
        (k, Tty.put (Tty.current_tty c) t1 c)) len H1 eq_refl ltac:(lia) eq_refl) as (t2 & i & E & H2).
    rewrite Keyboard.current_put, Tty.put_put in E, H2. exists t2, i. split; [|exact H2].
    rewrite E. cbn [Devfs.data Devfs.pstat]. by rewrite <- app_assoc.
Qed.

(** Writing: one [text_putchar] per byte. *)
Lemma uwrite_text s w k c c' m (p : Devfs.progress world_t) : Tty.tty_knputs s w c = Some c' -> Forall is_byte s -> 0 <= w < 256 ->
  Devfs.pworld p = (k, c) -> exists i,
  Devfs.uwrite_loop s tty_io_wrapper w m p =
    Some (m + zlen s, Devfs.MkProgress i (if decide (s = []) then Devfs.data p else []) (Devfs.pstat p) (k, c')).
Proof.
  intros E Hb Hw. revert c m p E. induction s as [|b s IH]; intros c m p E Hp; cbn [Tty.tty_knputs] in E.
  - simplify_eq. exists (Devfs.i_ptr p). cbn [Devfs.uwrite_loop]. rewrite zlen_nil, Z.add_0_r.
    rewrite decide_True by done. rewrite <- Hp. by destruct p.
  - apply Forall_cons in Hb as [Hb Hbs]. unfold is_byte in Hb. cbn [Devfs.uwrite_loop]. rewrite Hp.
    rewrite tty_write. rewrite (u8_small w), (u8_small b) by lia.
    obind E. rewrite E0. cbn [mbind option_bind fst snd Z.eqb orb Devfs.FAILURE Devfs.IO_NOT_READY].
    destruct (IH Hbs x (m + 1) (Devfs.MkProgress (s32 (Devfs.i_ptr p + 1)) [] (Devfs.pstat p) (k, x)) E eq_refl)
      as (i & ->). exists i.
    rewrite zlen_cons. replace (m + 1 + zlen s) with (m + (zlen s + 1)) by lia.
    cbn [Devfs.data Devfs.pstat]. by destruct (decide (s = [])), (decide (b :: s = [])).
Qed.

(** The Enter key in every table, and what an ordinary line does. *)
Lemma enter_char k : Keyboard.key_char k 0x1C = 10.
Proof.
  unfold Keyboard.key_char, Keyboard.table.
  destruct (_ && _); [done|]. destruct (_ && _); [done|]. by destruct (_ && _).
Qed.

Lemma edits_line s d : forallb Keyboard.ordinary s = true ->
  Keyboard.edits s d =
    Keyboard.MkDisc (Keyboard.pend d ++ s) (Keyboard.rdy d) (Tty.p_puts s (Keyboard.scr d)).
Proof.
  revert d. induction s as [|ch s IH]; intros d Hs; cbn in *; [rewrite app_nil_r; by destruct d|].
  apply andb_prop in Hs as [Hc Hs]. unfold Keyboard.ordinary in Hc. bsimp. rewrite IH by done.
  unfold Keyboard.edit1. rewrite !(proj2 (Z.eqb_neq ch _)) by done. cbn. by rewrite <- app_assoc.
Qed.

Lemma line_edits s u : forallb Keyboard.ordinary s = true -> zlen s <= 254 ->
  let d0 := Keyboard.MkDisc [] [] u in
  Keyboard.fits (s ++ [10]) d0 = true /\
  Keyboard.edits (s ++ [10]) d0 = Keyboard.MkDisc [] (s ++ [10]) (Tty.p_puts (s ++ [10]) u).
Proof.
  intros Hs Hl d0. rewrite Keyboard.edits_app, (edits_line s d0 Hs), Tty.puts_app. split; [|done].
  rewrite Keyboard.fits_app, (edits_line s d0 Hs). apply andb_true_intro. split.
  - apply Keyboard.fits_ordinary; [done|]. cbn [Keyboard.pend d0]. rewrite zlen_nil. unfold Tty.KB_L1_SIZE. lia.
  - cbn. rewrite andb_true_r. apply andb_true_intro. rewrite zlen_nil.
    unfold Tty.KB_L1_SIZE, Tty.KB_L2_SIZE. split; apply Z.leb_le; lia.
Qed.

(** Every character of the tables is ASCII. *)
Lemma typed_chars k bs : forallb Keyboard.char_key bs = true ->
  forallb Keyboard.ordinary (map (Keyboard.key_char k) bs) = true ->
  Forall is_char (map (Keyboard.key_char k) bs) /\ Forall (fun ch => ch <> 10) (map (Keyboard.key_char k) bs).
Proof.
  assert (Forall is_char (Keyboard.table k)) as Ht.
  { unfold Keyboard.table. destruct (_ && _); [|destruct (_ && _); [|destruct (_ && _)]];
      (repeat constructor; done). }
  induction bs as [|b bs IH]; intros Hb Ho; [done|]. cbn in Hb, Ho.
  apply andb_prop in Hb as [Hb Hbs]. apply andb_prop in Ho as [Ho Hos]. destruct (IH Hbs Hos) as [I1 I2].
  assert (0 <= b < Keyboard.CAPSLOCK) as Hr by (unfold Keyboard.char_key in Hb; bsimp; lia).
  destruct (Keyboard.key_char_table k b Hr) as [E _]. rewrite zget_lookup in E by lia.
  unfold Keyboard.ordinary in Ho. bsimp.
  split; constructor; [exact (proj1 (Forall_lookup _ _) Ht _ _ E)|done|done|done].
Qed.

(** * Properties *)

(** C28: A process reads from its terminal the line that was typed.  With a handle
    open on the device of the current terminal, whose buffers are empty, typing
    ordinary characters and then Enter, and reading with [devfs_uread] and a buffer
    longer than the line, delivers exactly the characters of the keys and the line
    end, in one call that stops at the end of file behind the line and leaves
    nothing to read; the terminal shows the echo. *)
Theorem typed_line_is_read (bs : list Z) (n len : Z) (k : Keyboard.keyboard) (c : Tty.console)
    (t : Tty.tty_t) (h : Devfs.devfs_handle_t) (st : Devfs.state world_t) :
  Tty.cons_ok c -> Tty.tty_at (Tty.current_tty c) c = Some t ->
  Keyboard.disc_ok t (Keyboard.MkDisc [] [] (Keyboard.screen_of t)) ->
  Keyboard.ctrl_active k = 0 -> Keyboard.is_eof k = 0 ->
  forallb Keyboard.char_key bs = true ->
  let s := map (Keyboard.key_char k) bs in
  forallb Keyboard.ordinary s = true -> zlen s <= 254 -> zlen s + 1 < len ->
  tty_handle n (Tty.current_tty c) h st -> exists c1 c2 t2 st',
    Keyboard.type_keys (bs ++ [0x1C]) k c = Some (k, c1) /\
    Devfs.devfs_uread n len (Devfs.with_world (k, c1) st) = Some (zlen s + 1, s ++ [10], st') /\
    Devfs.world st' = (k, c2) /\ Tty.tty_at (Tty.current_tty c) c2 = Some t2 /\
    Keyboard.disc_ok t2 (Keyboard.MkDisc [] [] (Tty.p_puts (s ++ [10]) (Keyboard.screen_of t))).
Proof.
  intros Hc Ht Hd Hk He Hb s Ho Hl Hlen Hh. set (d0 := Keyboard.MkDisc [] [] (Keyboard.screen_of t)) in *.
  assert (Keyboard.cur_ok c d0 t) as H by (split; [done|done|by eapply Tty.cok_ttys|done]).
  assert (map (Keyboard.key_char k) (bs ++ [0x1C]) = s ++ [10]) as Em.
  { rewrite map_app. f_equal. cbn. f_equal. apply enter_char. }
  destruct (line_edits s (Keyboard.screen_of t) Ho Hl) as [Ef Ed]. fold d0 in Ef, Ed.
  destruct (Keyboard.type_keys_ok (bs ++ [0x1C]) k c d0 t H Hk) as (t1 & E1 & H1);
    [rewrite forallb_app, Hb; done|by rewrite Em|]. rewrite Em, Ed in H1.
  set (c1 := Tty.put (Tty.current_tty c) t1 c) in *.
  assert (Forall is_char s /\ Forall (fun ch => ch <> 10) s) as [Hs1 Hs2] by by apply typed_chars.
  assert (tty_handle n (Tty.current_tty c) h (Devfs.with_world (k, c1) st)) as Hh'
    by exact Hh.
  destruct (uread_line s [] _ k c1 t1 (Devfs.MkProgress (s32 (Devfs.ptr h)) [] 0 (k, c1)) (Z.to_nat len)
    H1 He eq_refl Hs1 Hs2) as (t2 & i & E2 & H2); [unfold zlen in Hlen; lia|done|].
  destruct (Devfs.uread_through n h _ _ (Z.to_nat len) _ (proj1 Hh') E2) as (st' & E3 & Hw).
  rewrite Z2Nat.id in E3 by (pose proof (zlen_nonneg s); lia).
  exists c1, (Tty.put (Tty.current_tty c1) t2 c1), t2, st'. split; [exact E1|].
  cbn [Devfs.data app] in E3. rewrite zlen_app in E3. split; [exact E3|]. split; [exact Hw|].
  split; [apply H2|apply H2].
Qed.

(** C29: Writing to a terminal through a handle prints: [devfs_uwrite] of any bytes
    that print without leaving the screen returns their number and leaves the
    console [tty_knputs] does, whatever the position of the handle. *)
Theorem written_text_is_printed (s : list Z) (n w : Z) (k : Keyboard.keyboard) (c c' : Tty.console)
    (h : Devfs.devfs_handle_t) (st : Devfs.state world_t) :
  tty_handle n w h st -> Devfs.world st = (k, c) -> Forall is_byte s ->
  Tty.tty_knputs s w c = Some c' -> exists st',
    Devfs.devfs_uwrite n s st = Some (zlen s, st') /\ Devfs.world st' = (k, c').
Proof.
  intros [Ho Hw] Hst Hb E.
  destruct (uwrite_text s w k c c' 0 (Devfs.MkProgress (s32 (Devfs.ptr h)) [] 0 (Devfs.world st)) E Hb)
    as (i & E'); [unfold Tty.KRNL_TTY_COUNT in Hw; lia|exact Hst|].
  destruct (Devfs.uwrite_through n h (tty_device w) st s _ _ Ho E') as (st' & E2 & E3).
  exists st'. split; [exact E2|exact E3].
Qed.

(** * Witnesses *)

Definition demo_handle : Devfs.devfs_handle_t := Devfs.MkHandle 0 [116; 116; 121; 48] 2 0 0 0 0 1 0.
Definition demo_state : Devfs.state world_t :=
  Devfs.MkState [demo_handle] (map tty_device [0; 1; 2; 3; 4; 5; 6]) (Keyboard.kb0, Tty.demo) 0.

Lemma demo_tty_handle : tty_handle 0 0 demo_handle demo_state.
Proof. split; [by split|unfold Tty.KRNL_TTY_COUNT; lia]. Qed.

(** The keys l, s and Enter. *)
Lemma typed_line_is_read_witness : exists c1 st',
  Keyboard.type_keys [0x26; 0x1F; 0x1C] Keyboard.kb0 Tty.demo = Some (Keyboard.kb0, c1) /\
  Devfs.devfs_uread 0 80 (Devfs.with_world (Keyboard.kb0, c1) demo_state) = Some (3, [108; 115; 10], st').
Proof.
  destruct (typed_line_is_read [0x26; 0x1F] 0 80 Keyboard.kb0 Tty.demo Tty.demo_tty demo_handle demo_state)
    as (c1 & c2 & t2 & st' & E1 & E2 & _);
    [exact Tty.demo_ok|reflexivity|exact Keyboard.demo_disc|reflexivity|reflexivity|reflexivity|reflexivity
    |discriminate|reflexivity|exact demo_tty_handle|].
  exists c1, st'. split; [exact E1|exact E2].
Defined.

Lemma written_text_is_printed_witness : exists st',
  Devfs.devfs_uwrite 0 [111; 107] demo_state = Some (2, st') /\
  Devfs.world st' = (Keyboard.kb0, Tty.put 0 (Tty.p_puts [111; 107] Tty.demo_tty) Tty.demo).
Proof.
  apply (written_text_is_printed [111; 107] 0 0 Keyboard.kb0 Tty.demo
    (Tty.put 0 (Tty.p_puts [111; 107] Tty.demo_tty) Tty.demo) demo_handle demo_state).
  - exact demo_tty_handle.
  - reflexivity.
  - constructor; [split; [discriminate|reflexivity]|]. constructor; [split; [discriminate|reflexivity]|constructor].
  - apply (Tty.acts_knputs 0 [111; 107] Tty.demo_tty Tty.demo_tty_ok); [|exact Tty.demo_ok|reflexivity].
    apply Tty.homes_ok_free. constructor; [discriminate|]. constructor; [discriminate|constructor].
Defined.

End TtyDev.
