(* ===== verification/Chardev.v ===== *)
(** * Character devices: the debug console, the speaker and the serial ports

    [kernel/src/drivers/e9/e9.c], [kernel/src/drivers/pcspk/pcspk.c] and
    [kernel/src/drivers/com/com.c]: drivers that only talk to input and output ports.
    The instructions of [kernel/include/cio.h] are the hardware: an interface
    [Ports] with the state [P] of the machine behind them.  The messages of
    [init_com] on the console are not modelled. *)

From S2P Require Import Prelude Dev Handle Devfs.
Local Open Scope Z_scope.
Local Open Scope st_scope.

Module Chardev.
Import Dev Handle.

(** [port_in_b] and [port_out_b]; a byte read is below 256. *)
Class Ports (P : Type) := {
  port_in_b : Z -> ST P Z;
  port_out_b : Z -> Z -> ST P unit
}.

(** [DF_READ] and [DF_WRITE] *)
Definition DF_READ : Z := 0.
Definition DF_WRITE : Z := 1.
Definition IO_NOT_READY : Z := -5.

Section Drivers.
Context {P : Type} {HP : Ports P}.

(** ** The debug console *)

Definition E9_PORT : Z := 0xe9.
Definition MAGIC : Z := 0xe9.

Definition e9_io_read : ST P Z := port_in_b E9_PORT.
Definition e9_io_write (payload : Z) : ST P Z := port_out_b E9_PORT payload ;; st_ret 0.
Definition e9_io_wrapper : io_fn P := fun unused0 unused1 type payload =>
  if type =? DF_READ then e9_io_read
  else if type =? DF_WRITE then e9_io_write payload
  else st_ret (-1).

Definition detect_e9 : ST P bool := let! v := port_in_b E9_PORT in st_ret (v =? MAGIC).
Definition init_e9 (l : list (device_t P)) : ST P (list (device_t P)) :=
  let! found := detect_e9 in
  if found : bool then st_lift (kernel_add_device [101; 57] 0 0 e9_io_wrapper l) else st_ret l.

(** ** The speaker *)

(** The driver's variables; [get_freq] counts the bytes of a frequency still to come. *)
Record speaker := MkSpeaker { div : Z; freq : Z; get_freq : Z }.
Definition speaker0 : speaker := MkSpeaker 0 0 4.

Definition pcspk_io_read : ST (speaker * P) Z := let! s := get_vars in st_ret (div s).

Definition pcspk_io_write (payload : Z) : ST (speaker * P) Z :=
  let! s := get_vars in
  let f := u32 (u32 (freq s * 0x100) + payload) in
  let g := s32 (get_freq s - 1) in
  if g =? 0 then
    if f =? 0 then
      let! v := on_rest (port_in_b 0x61) in
      on_rest (port_out_b 0x61 (Z.land v 252)) ;;
      set_vars (MkSpeaker 0 f 4) ;; st_ret 0
    else
      let d := u16 (1193180 / f) in
      on_rest (port_out_b 0x43 0xb6) ;;
      on_rest (port_out_b 0x42 (Z.land d 0xff)) ;;
      on_rest (port_out_b 0x42 (Z.shiftr (Z.land d 0xff00) 8)) ;;
      let! v := on_rest (port_in_b 0x61) in
      on_rest (port_out_b 0x61 (Z.lor v 3)) ;;
      set_vars (MkSpeaker d 0 4) ;; st_ret 0
  else set_vars (MkSpeaker (div s) f g) ;; st_ret (-1).

Definition pcspk_io_wrapper : io_fn (speaker * P) := fun unused0 unused1 type payload =>
  if type =? DF_READ then pcspk_io_read
  else if type =? DF_WRITE then pcspk_io_write payload
  else st_ret (-1).

Definition init_pcspk (l : list (device_t (speaker * P))) : option (list (device_t (speaker * P))) :=
  kernel_add_device [112; 99; 115; 112; 107; 114] 0 0 pcspk_io_wrapper l.

(** ** The serial ports *)

Definition MAX_PORTS : Z := 4.

Record com_device := MkCom {
  exists_ : Z; data_reg : Z; int_reg : Z; fifo_reg : Z; line_ctrl_reg : Z; mdm_ctrl_reg : Z;
  line_stat_reg : Z; mdm_stat_reg : Z; scratch_reg : Z
}.
(** The registers of the port at [port]. *)
Definition com_at (port ex : Z) : com_device :=
  MkCom ex port (u16 (port + 1)) (u16 (port + 2)) (u16 (port + 3)) (u16 (port + 4)) (u16 (port + 5))
    (u16 (port + 6)) (u16 (port + 7)).

Definition com_name (i : Z) : list Z := [99; 111; 109; 48 + i].
Definition com_ports : list Z := [0x3f8; 0x2f8; 0x3e8; 0x2e8].

(** The static array [devices] before the driver starts. *)
Definition com_devices0 : list com_device := replicate (Z.to_nat MAX_PORTS) (MkCom 0 0 0 0 0 0 0 0 0).

Definition init_com_device (port : Z) : ST P com_device :=
  let dev := com_at port 1 in
  port_out_b (scratch_reg dev) 0x55 ;;
  let! a := port_in_b (scratch_reg dev) in
  let ex := if a =? 0x55 then 1 else 0 in
  port_out_b (scratch_reg dev) 0xaa ;;
  let! b := port_in_b (scratch_reg dev) in
  let ex := if b =? 0xaa then ex else 0 in
  let dev := com_at port ex in
  if ex =? 0 then st_ret dev
  else
    port_out_b (int_reg dev) 0x00 ;;
    port_out_b (line_ctrl_reg dev) 0x80 ;;
    port_out_b (data_reg dev) 0x03 ;;
    port_out_b (int_reg dev) 0x00 ;;
    port_out_b (line_ctrl_reg dev) 0x03 ;;
    port_out_b (fifo_reg dev) 0xC7 ;;
    port_out_b (mdm_ctrl_reg dev) 0x0B ;;
    st_ret dev.

(** [while (!(port_in_b(line_stat_reg) & 0x20));] *)
Fixpoint wait_transmitter (fuel : nat) (reg : Z) : ST P unit :=
  match fuel with
  | O => st_fail
  | S fuel => let! v := port_in_b reg in
              if Z.land v 0x20 =? 0 then wait_transmitter fuel reg else st_ret tt
  end.

(** The driver's variables are the array [devices]. *)
Abbreviation com_world := (list com_device * P)%type.

Definition com_io_wrapper (fuel : nat) : io_fn com_world := fun dev loc type payload =>
  let! devices := get_vars in
  let! d := st_lift (zget devices dev) in
  if type =? DF_READ then
    let! v := on_rest (port_in_b (line_stat_reg d)) in
    if Z.land v 0x01 =? 0 then st_ret IO_NOT_READY else on_rest (port_in_b (data_reg d))
  else if type =? DF_WRITE then
    on_rest (wait_transmitter fuel (line_stat_reg d)) ;;
    on_rest (port_out_b (data_reg d) payload) ;; st_ret 0
  else st_fail.

(** The inner loop of [init_com]: the first port from [ii] on that answers becomes
    [devices[i]]; [None] is the [return] when none does. *)
Fixpoint com_probe (fuel : nat) (i ii : Z) : ST com_world (option Z) :=
  match fuel with
  | O => st_fail
  | S fuel =>
      let! port := st_lift (zget com_ports ii) in
      let! d := on_rest (init_com_device port) in
      let! devices := get_vars in
      let! devices := st_lift (zset devices i d) in
      set_vars devices ;;
      if exists_ d =? 0 then
        if MAX_PORTS <=? ii + 1 then st_ret None else com_probe fuel i (ii + 1)
      else st_ret (Some ii)
  end.

Fixpoint init_com_from (poll n : nat) (i ii : Z) (l : list (device_t com_world)) :
    ST com_world (list (device_t com_world)) :=
  match n with
  | O => st_ret l
  | S n =>
      if MAX_PORTS <=? ii then st_ret l
      else
        let! r := com_probe (Z.to_nat MAX_PORTS) i ii in
        match r with
        | None => st_ret l
        | Some ii =>
            let! l := st_lift (kernel_add_device (com_name i) i 0 (com_io_wrapper poll) l) in
            init_com_from poll n (i + 1) (ii + 1) l
        end
  end.
Definition init_com (poll : nat) (l : list (device_t com_world)) : ST com_world (list (device_t com_world)) :=
  init_com_from poll (Z.to_nat MAX_PORTS) 0 0 l.

End Drivers.

(** ** Lemmas: the speaker *)

Section Speaker.
Context {P : Type} {HP : Ports P}.
Implicit Types p : P.

(** What a frequency makes the driver tell the hardware. *)
Definition silence : ST P unit :=
  let! v := port_in_b 0x61 in port_out_b 0x61 (Z.land v 252).
Definition tone (d : Z) : ST P unit :=
  port_out_b 0x43 0xb6 ;; port_out_b 0x42 (d mod 256) ;; port_out_b 0x42 (d / 256) ;;
  let! v := port_in_b 0x61 in port_out_b 0x61 (Z.lor v 3).
Definition divisor (f : Z) : Z := if f =? 0 then 0 else u16 (1193180 / f).

(** One write of one byte after the other. *)
Fixpoint write_bytes (bs : list Z) : ST (speaker * P) (list Z) :=
  match bs with
  | [] => st_ret []
  | b :: bs => let! r := pcspk_io_wrapper 0 0 DF_WRITE b in
               let! rs := write_bytes bs in st_ret (r :: rs)
  end.

Lemma low_high d : 0 <= d < 2 ^ 16 -> Z.land d 0xff = d mod 256 /\ Z.shiftr (Z.land d 0xff00) 8 = d / 256.
Proof.
  intros Hd. split; [by apply (Z.land_ones d 8)|]. rewrite Z.shiftr_land. change (Z.shiftr 0xff00 8) with (Z.ones 8).
  rewrite Z.land_ones, Z.shiftr_div_pow2 by lia. apply Z.mod_small. split; [apply Z.div_pos; lia|].
  apply Z.div_lt_upper_bound; lia.
Qed.

(** A byte that does not complete a frequency. *)
Lemma pcspk_collect b d f g p : 1 < g <= 4 -> 0 <= f -> f * 256 + b < 2 ^ 32 -> is_byte b ->
  pcspk_io_wrapper 0 0 DF_WRITE b (MkSpeaker d f g, p) = Some (-1, (MkSpeaker d (f * 256 + b) (g - 1), p)).
Proof.
  intros Hg Hf Hb Hbyte. unfold is_byte in Hbyte.
  unfold pcspk_io_wrapper, pcspk_io_write, get_vars, set_vars, st_bind, st_ret.
  change (DF_WRITE =? DF_READ) with false. change (DF_WRITE =? DF_WRITE) with true. cbn [fst snd div freq get_freq].
  rewrite s32_small by lia. rewrite (proj2 (Z.eqb_neq _ _)) by lia.
  change (f * 0x100) with (f * 256). rewrite (u32_small (f * 256)), u32_small by lia. done.
Qed.

(** The byte that completes one. *)
Lemma pcspk_complete b d f p : 0 <= f -> f * 256 + b < 2 ^ 32 -> is_byte b ->
  let v := divisor (f * 256 + b) in
  pcspk_io_wrapper 0 0 DF_WRITE b (MkSpeaker d f 1, p) =
    match (if f * 256 + b =? 0 then silence else tone v) p with
    | Some (_, p') => Some (0, (MkSpeaker v 0 4, p'))
    | None => None
    end.
Proof.
  intros Hf Hb Hbyte v. unfold is_byte in Hbyte.
  unfold pcspk_io_wrapper, pcspk_io_write, get_vars, st_bind at 1.
  change (DF_WRITE =? DF_READ) with false. change (DF_WRITE =? DF_WRITE) with true. cbn [fst snd div freq get_freq].
  change (s32 (1 - 1) =? 0) with true. cbv iota.
  change (f * 0x100) with (f * 256). rewrite (u32_small (f * 256)), u32_small by lia.
  unfold v, divisor. destruct (Z.eqb_spec (f * 256 + b) 0) as [E|E].
  - unfold silence, on_rest, set_vars, st_bind, st_ret. cbn [fst snd].
    destruct (port_in_b 0x61 p) as [[x p1]|]; [|done]. cbn [fst snd].
    destruct (port_out_b 0x61 _ p1) as [[? p2]|]; [|done]. by rewrite E.
  - destruct (low_high (u16 (1193180 / (f * 256 + b)))) as [-> ->]; [apply u16_range|].
    set (q := u16 _). unfold tone, on_rest, set_vars, st_bind, st_ret. cbn [fst snd].
    destruct (port_out_b 0x43 _ p) as [[? p1]|]; [|done]. cbn [fst snd].
    destruct (port_out_b 0x42 _ p1) as [[? p2]|]; [|done]. cbn [fst snd].
    destruct (port_out_b 0x42 _ p2) as [[? p3]|]; [|done]. cbn [fst snd].
    destruct (port_in_b 0x61 p3) as [[x p4]|]; [|done]. cbn [fst snd].
    by destruct (port_out_b 0x61 _ p4) as [[? p5]|].
Qed.

Lemma write_bytes_cons b bs w : write_bytes (b :: bs) w =
  match pcspk_io_wrapper 0 0 DF_WRITE b w with
  | Some (r, w') => match write_bytes bs w' with Some (rs, w'') => Some (r :: rs, w'') | None => None end
  | None => None
  end.
Proof.
  cbn [write_bytes]. unfold st_bind. destruct (pcspk_io_wrapper _ _ _ _ w) as [[r w']|]; [|done].
  by destruct (write_bytes bs w') as [[rs w'']|].
Qed.

(** The driver's device, and the first byte of a write through a handle. *)
Definition pcspk_device : device_t (speaker * P) := MkDevice [112; 99; 115; 112; 107; 114] 0 0 pcspk_io_wrapper.

Lemma pcspk_uwrite b bs n h st d f g p : Devfs.open_on n h pcspk_device st -> Devfs.world st = (MkSpeaker d f g, p) ->
  1 < g <= 4 -> 0 <= f -> f * 256 + b < 2 ^ 32 -> is_byte b -> exists st',
  Devfs.devfs_uwrite n (b :: bs) st = Some (0, st') /\
  Devfs.world st' = (MkSpeaker d (f * 256 + b) (g - 1), p).
Proof.
  intros Ho Hw Hgf Hf Hb Hbyte.
  destruct (Devfs.uwrite_through n h pcspk_device st (b :: bs) 0
    (Devfs.MkProgress (s32 (Devfs.ptr h)) [] 0 (MkSpeaker d (f * 256 + b) (g - 1), p)) Ho) as (st' & E & E').
  - apply Devfs.uwrite_eof. cbn [Devfs.pworld Devfs.i_ptr io_wrapper gp_value pcspk_device].
    rewrite Hw, (u8_small b) by (unfold is_byte in Hbyte; lia).
    rewrite <- (pcspk_collect b d f g p) by done. done.
  - exists st'. split; [exact E|exact E'].
Qed.

End Speaker.

(** ** Lemmas: the serial ports *)

(** The transmitter at status register [reg] becomes ready at the end of a number of
    polls: the state before and after them. *)
Inductive ready_after {P : Type} {HP : Ports P} (reg : Z) : nat -> P -> P -> Prop :=
| ready_now v p p' : port_in_b reg p = Some (v, p') -> Z.land v 0x20 <> 0 -> ready_after reg O p p'
| ready_later n v p p' p'' : port_in_b reg p = Some (v, p') -> Z.land v 0x20 = 0 ->
    ready_after reg n p' p'' -> ready_after reg (S n) p p''.

Lemma wait_transmitter_ok {P : Type} {HP : Ports P} reg n p p' fuel :
  ready_after reg n p p' -> (n < fuel)%nat -> wait_transmitter fuel reg p = Some (tt, p').
Proof.
  intros H. revert fuel. induction H as [v p p' E Hv|n v p p' p'' E Hv H IH]; intros [|fuel] Hf; try lia;
    cbn [wait_transmitter]; erewrite st_bind_ok by exact E.
  - by rewrite (proj2 (Z.eqb_neq _ _)).
  - rewrite (proj2 (Z.eqb_eq _ _)) by done. apply IH. lia.
Qed.

(** Serial hardware: at some of the ports there is a device, whose scratch register
    holds what was last written to it; nothing answers at the others. *)
Record uarts {P : Type} {HP : Ports P} (present : Z -> bool) (hw : P -> Prop) : Prop := {
  hw_out reg v p : hw p -> exists p', port_out_b reg v p = Some (tt, p') /\ hw p';
  hw_scratch port v p p' : In port com_ports -> hw p -> present port = true ->
    port_out_b (port + 7) v p = Some (tt, p') -> exists p'', port_in_b (port + 7) p' = Some (v, p'') /\ hw p'';
  hw_absent port p : In port com_ports -> hw p -> present port = false ->
    exists p', port_in_b (port + 7) p = Some (255, p') /\ hw p'
}.

Section Serial.
Context {P : Type} {HP : Ports P} {present : Z -> bool} {hw : P -> Prop} (HW : uarts present hw).
#[local] Set Default Proof Using "Type*".

Lemma com_port_small port : In port com_ports -> 0 <= port < 65000.
Proof. cbn. intros H. repeat (destruct H as [<-|H]; [lia|]). done. Qed.

(** A register written and then read back. *)
Lemma scratch_test port v p : In port com_ports -> hw p -> exists r p' p'',
  port_out_b (port + 7) v p = Some (tt, p') /\ port_in_b (port + 7) p' = Some (r, p'') /\ hw p'' /\
  r = if present port then v else 255.
Proof.
  intros Hin Hp. destruct (hw_out _ _ HW (port + 7) v p Hp) as (p' & E & Hp').
  destruct (present port) eqn:Ep.
  - destruct (hw_scratch _ _ HW port v p p' Hin Hp Ep E) as (p'' & E' & Hp''). by exists v, p', p''.
  - destruct (hw_absent _ _ HW port p' Hin Hp' Ep) as (p'' & E' & Hp''). by exists 255, p', p''.
Qed.

Lemma init_com_device_ok port p : In port com_ports -> hw p -> exists p',
  init_com_device port p = Some (com_at port (if present port then 1 else 0), p') /\ hw p'.
Proof.
  intros Hin Hp. pose proof (com_port_small port Hin). unfold init_com_device. cbn [scratch_reg com_at].
  rewrite (u16_small (port + 7)) by lia.
  destruct (scratch_test port 0x55 p Hin Hp) as (a & p1 & p2 & E1 & E2 & Hp2 & ->).
  destruct (scratch_test port 0xaa p2 Hin Hp2) as (b & p3 & p4 & E3 & E4 & Hp4 & ->).
  erewrite st_bind_ok by exact E1. erewrite st_bind_ok by exact E2.
  erewrite st_bind_ok by exact E3. erewrite st_bind_ok by exact E4.
  destruct (present port); cbn [Z.eqb Pos.eqb]; [|by exists p4].
  edestruct (fun reg v => hw_out _ _ HW reg v p4 Hp4) as (q1 & F1 & Q1). erewrite st_bind_ok by exact F1.
  edestruct (fun reg v => hw_out _ _ HW reg v q1 Q1) as (q2 & F2 & Q2). erewrite st_bind_ok by exact F2.
  edestruct (fun reg v => hw_out _ _ HW reg v q2 Q2) as (q3 & F3 & Q3). erewrite st_bind_ok by exact F3.
  edestruct (fun reg v => hw_out _ _ HW reg v q3 Q3) as (q4 & F4 & Q4). erewrite st_bind_ok by exact F4.
  edestruct (fun reg v => hw_out _ _ HW reg v q4 Q4) as (q5 & F5 & Q5). erewrite st_bind_ok by exact F5.
  edestruct (fun reg v => hw_out _ _ HW reg v q5 Q5) as (q6 & F6 & Q6). erewrite st_bind_ok by exact F6.
  edestruct (fun reg v => hw_out _ _ HW reg v q6 Q6) as (q7 & F7 & Q7). erewrite st_bind_ok by exact F7.
  by exists q7.
Qed.

(** The ports that answer, from index [ii] of [com_ports] on. *)
Definition found_from (ii : Z) : list Z := List.filter present (drop (Z.to_nat ii) com_ports).

Lemma found_cons ii port : zget com_ports ii = Some port ->
  found_from ii = if present port then port :: found_from (ii + 1) else found_from (ii + 1).
Proof.
  intros Hg. pose proof (zget_Some _ _ _ Hg). rewrite zget_lookup in Hg by lia. unfold found_from.
  rewrite (drop_S _ _ _ Hg). cbn [List.filter]. by replace (Z.to_nat (ii + 1)) with (S (Z.to_nat ii)) by lia.
Qed.

(** One turn of the inner loop. *)
Lemma com_probe_turn fuel i ii devices p : 0 <= ii < MAX_PORTS -> 0 <= i < zlen devices -> hw p ->
  exists port p', zget com_ports ii = Some port /\ hw p' /\
  let ds := <[Z.to_nat i := com_at port (if present port then 1 else 0)]> devices in
  com_probe (S fuel) i ii (devices, p) =
    (if present port then Some (Some ii, (ds, p'))
     else if MAX_PORTS <=? ii + 1 then Some (None, (ds, p'))
     else com_probe fuel i (ii + 1) (ds, p')).
Proof.
  intros Hii Hi Hp. destruct (zget_is_Some com_ports ii) as [port Hport]; [done|].
  assert (In port com_ports) as Hin.
  { rewrite zget_lookup in Hport by lia. apply list_elem_of_In. by eapply list_elem_of_lookup_2. }
  destruct (init_com_device_ok port p Hin Hp) as (p' & E & Hp'). exists port, p'. split; [done|]. split; [done|].
  cbn zeta. cbn [com_probe]. erewrite st_bind_ok by (unfold st_lift; by rewrite Hport).
  erewrite st_bind_ok by (unfold on_rest; cbn [fst snd]; by rewrite E).
  unfold get_vars, set_vars, st_lift, st_bind, st_ret. cbn [fst snd]. rewrite zset_ok by done. cbn [exists_ com_at fst snd].
  destruct (present port); [done|]. cbn [Z.eqb]. by destruct (MAX_PORTS <=? ii + 1).
Qed.

Lemma com_probe_ok fuel i ii devices p : (Z.to_nat (MAX_PORTS - ii) <= fuel)%nat -> 0 <= ii < MAX_PORTS ->
  0 <= i < zlen devices -> hw p -> exists ds p', hw p' /\ zlen ds = zlen devices /\
  (forall j, j <> i -> zget ds j = zget devices j) /\
  match found_from ii with
  | [] => com_probe fuel i ii (devices, p) = Some (None, (ds, p'))
  | port :: more => exists jj, ii <= jj < MAX_PORTS /\ com_probe fuel i ii (devices, p) = Some (Some jj, (ds, p')) /\
      zget ds i = Some (com_at port 1) /\ found_from (jj + 1) = more
  end.
Proof.
  revert ii devices p. induction fuel as [|fuel IH]; intros ii devices p Hf Hii Hi Hp; [lia|].
  destruct (com_probe_turn fuel i ii devices p Hii Hi Hp) as (port & p' & Hport & Hp' & E). cbn zeta in E.
  rewrite E. rewrite (found_cons ii port Hport). set (ds := <[_:=_]> devices) in *.
  assert (forall j, zget ds j = if decide (i = j) then Some (com_at port (if present port then 1 else 0)) else zget devices j)
    as Hds by (intros j; apply zget_zset, zset_ok; done).
  assert (zlen ds = zlen devices) as Hlen by apply zlen_insert.
  assert (forall j, j <> i -> zget ds j = zget devices j) as Hother by (intros j Hj; by rewrite Hds, decide_False).
  destruct (present port).
  { exists ds, p'. do 3 (split; [done|]). exists ii. split; [lia|]. split; [done|]. by rewrite Hds, decide_True. }
  destruct (Z.leb_spec MAX_PORTS (ii + 1)) as [Hlast|Hlast].
  { exists ds, p'. do 3 (split; [done|]). unfold found_from.
    rewrite drop_ge by (unfold MAX_PORTS in Hlast; cbn; lia). done. }
  destruct (IH (ii + 1) ds p') as (ds' & p'' & Hp'' & Hl & Ho & Hm); [lia|lia|by rewrite Hlen|done|].
  exists ds', p''. split; [done|]. split; [congruence|]. split; [intros j Hj; by rewrite Ho, Hother|].
  destruct (found_from (ii + 1)) as [|q more]; [done|]. destruct Hm as (jj & Hj & Ejj & Hg & Hmore).
  exists jj. split; [lia|]. done.
Qed.

(** The devices registered for the ports found, the first as number [i]. *)
Fixpoint com_registered (poll : nat) (i : Z) (found : list Z) : list (device_t (list com_device * P)) :=
  match found with
  | [] => []
  | _ :: more => MkDevice (com_name i) i 0 (com_io_wrapper poll) :: com_registered poll (i + 1) more
  end.

Lemma init_com_from_ok poll n i ii l devices p : 0 <= i <= ii -> i + Z.of_nat n = MAX_PORTS -> zlen devices = MAX_PORTS ->
  hw p -> exists ds p', hw p' /\
  init_com_from poll n i ii l (devices, p) = Some (l ++ com_registered poll i (found_from ii), (ds, p')) /\
  (forall j, j < i -> zget ds j = zget devices j) /\
  forall k port, found_from ii !! k = Some port -> zget ds (i + Z.of_nat k) = Some (com_at port 1).
Proof.
  assert (forall ii, MAX_PORTS <= ii -> found_from ii = []) as Hend.
  { intros jj Hj. unfold found_from. rewrite drop_ge by (unfold MAX_PORTS in Hj; cbn; lia). done. }
  revert i ii l devices p. induction n as [|n IH]; intros i ii l devices p Hi Hn Hl Hp; cbn [init_com_from].
  { rewrite Hend by lia. exists devices, p. cbn. rewrite app_nil_r. done. }
  destruct (Z.leb_spec MAX_PORTS ii) as [Hii|Hii].
  { rewrite Hend by lia. exists devices, p. cbn. rewrite app_nil_r. done. }
  destruct (com_probe_ok (Z.to_nat MAX_PORTS) i ii devices p) as (ds & p' & Hp' & Hlen & Ho & Hm); [lia|lia|lia|done|].
  destruct (found_from ii) as [|port more].
  { erewrite st_bind_ok by exact Hm. exists ds, p'. cbn. rewrite app_nil_r. split; [done|]. split; [done|].
    split; [intros j Hj; apply Ho; lia|done]. }
  destruct Hm as (jj & Hj & E & Hg & Hmore). erewrite st_bind_ok by exact E. cbv beta iota.
  unfold kernel_add_device. rewrite decide_True by done. cbn [st_lift].
  erewrite st_bind_ok by (unfold st_lift; reflexivity).
  destruct (IH (i + 1) (jj + 1) (l ++ [MkDevice (com_name i) i 0 (com_io_wrapper poll)]) ds p')
    as (ds' & p'' & Hp'' & E' & Hlow & Hk); [lia|lia|lia|done|]. rewrite Hmore in E', Hk.
  exists ds', p''. split; [done|]. split; [by rewrite E', <- app_assoc|]. split.
  - intros j Hji. rewrite Hlow by lia. apply Ho. lia.
  - intros [|k] q; cbn [lookup list_lookup].
    + intros [= <-]. rewrite Z.add_0_r, Hlow by lia. exact Hg.
    + intros Hq. replace (i + Z.of_nat (S k)) with (i + 1 + Z.of_nat k) by lia. by apply Hk.
Qed.

End Serial.

(** * Properties *)

(** The speaker takes a frequency in four writes of a byte, most significant
    first: the first three answer -1 and touch no port, the fourth answers 0,
    programs the timer with the divisor nearest below 1193180 / f and switches the
    speaker on, or off for the frequency 0, and leaves the driver ready for the next
    frequency; the divisor fits the timer from 19 Hz on.  Because -1 is the end of
    file for the file system, a single write of all the bytes through a handle stops
    after the first one and reports that it wrote none. *)
Theorem pcspk_frequency {P : Type} {HP : Ports P} (b0 b1 b2 b3 d : Z) (p : P) :
  is_byte b0 -> is_byte b1 -> is_byte b2 -> is_byte b3 ->
  let f := ((b0 * 256 + b1) * 256 + b2) * 256 + b3 in
  write_bytes [b0; b1; b2; b3] (MkSpeaker d 0 4, p) =
    match (if f =? 0 then silence else tone (divisor f)) p with
    | Some (_, p') => Some ([-1; -1; -1; 0], (MkSpeaker (divisor f) 0 4, p'))
    | None => None
    end /\
  (19 <= f -> divisor f * f <= 1193180 < (divisor f + 1) * f) /\
  forall n h st bs, Devfs.open_on n h pcspk_device st -> Devfs.world st = (MkSpeaker d 0 4, p) ->
    exists st', Devfs.devfs_uwrite n (b0 :: bs) st = Some (0, st') /\ Devfs.world st' = (MkSpeaker d b0 3, p).
Proof.
  intros H0 H1 H2 H3 f. pose proof H0 as H0'. unfold is_byte in H0, H1, H2, H3. split; [|split].
  - rewrite write_bytes_cons, pcspk_collect by (unfold is_byte; lia).
    rewrite write_bytes_cons, pcspk_collect by (unfold is_byte; lia).
    rewrite write_bytes_cons, pcspk_collect by (unfold is_byte; lia).
    rewrite write_bytes_cons. change (4 - 1 - 1 - 1) with 1. rewrite pcspk_complete by (unfold is_byte; lia).
    replace (((0 * 256 + b0) * 256 + b1) * 256 + b2) with ((b0 * 256 + b1) * 256 + b2) by lia. fold f.
    set (m := if f =? 0 then silence else tone _). by destruct (m p) as [[? p']|].
  - intros Hf. unfold divisor. rewrite (proj2 (Z.eqb_neq f 0)) by lia.
    rewrite u16_small by (split; [apply Z.div_pos; lia|apply Z.div_lt_upper_bound; lia]).
    pose proof (Z.div_mod 1193180 f ltac:(lia)). pose proof (Z.mod_pos_bound 1193180 f ltac:(lia)). nia.
  - intros n h st bs Ho Hw.
    destruct (pcspk_uwrite b0 bs n h st d 0 4 p Ho Hw) as (st' & E & Ew); [lia..|done|]. by exists st'.
Qed.

(** The serial driver waits for its hardware: a write returns as soon as the
    transmitter is ready, after any number of polls, and sends the byte; it never
    returns while the transmitter is not ready.  A read returns the received byte,
    or [IO_NOT_READY] when there is none. *)
Theorem com_io_correct {P : Type} {HP : Ports P} (dev loc payload : Z) (d : com_device) (ds : list com_device) (p : P) :
  zget ds dev = Some d ->
  (forall n fuel p' p'', ready_after (line_stat_reg d) n p p' -> (n < fuel)%nat ->
     port_out_b (data_reg d) payload p' = Some (tt, p'') ->
     com_io_wrapper fuel dev loc DF_WRITE payload (ds, p) = Some (0, (ds, p''))) /\
  (forall (busy : P -> Prop) fuel, busy p ->
     (forall q, busy q -> exists v q', port_in_b (line_stat_reg d) q = Some (v, q') /\ Z.land v 0x20 = 0 /\ busy q') ->
     com_io_wrapper fuel dev loc DF_WRITE payload (ds, p) = None) /\
  (forall fuel v c p' p'', port_in_b (line_stat_reg d) p = Some (v, p') ->
     port_in_b (data_reg d) p' = Some (c, p'') ->
     com_io_wrapper fuel dev loc DF_READ payload (ds, p) =
       if Z.testbit v 0 then Some (c, (ds, p'')) else Some (IO_NOT_READY, (ds, p'))).
Proof.
  intros Hd. assert (forall fuel type, com_io_wrapper fuel dev loc type payload (ds, p) =
    (if type =? DF_READ then
       let! v := on_rest (port_in_b (line_stat_reg d)) in
       if Z.land v 0x01 =? 0 then st_ret IO_NOT_READY else on_rest (port_in_b (data_reg d))
     else if type =? DF_WRITE then
       on_rest (wait_transmitter fuel (line_stat_reg d)) ;; on_rest (port_out_b (data_reg d) payload) ;; st_ret 0
     else st_fail) (ds, p)) as E.
  { intros fuel type. unfold com_io_wrapper. erewrite st_bind_ok by reflexivity.
    erewrite st_bind_ok by (unfold st_lift; cbn [fst]; by rewrite Hd). done. }
  split; [|split].
  - intros n fuel p' p'' Hr Hf Ho. rewrite E. cbn [DF_WRITE DF_READ Z.eqb Pos.eqb].
    erewrite st_bind_ok by (unfold on_rest; cbn [fst snd]; by rewrite (wait_transmitter_ok _ n p p')).
    erewrite st_bind_ok by (unfold on_rest; cbn [fst snd]; by rewrite Ho). done.
  - intros busy fuel Hp Hb. rewrite E. cbn [DF_WRITE DF_READ Z.eqb Pos.eqb]. unfold st_bind at 1, on_rest. cbn [fst snd].
    assert (forall k q, busy q -> wait_transmitter k (line_stat_reg d) q = None) as ->; [|done|done].
    intros k. induction k as [|k IH]; intros q Hq; [done|]. cbn [wait_transmitter].
    destruct (Hb q Hq) as (v & q' & Ev & Hv & Hq'). erewrite st_bind_ok by exact Ev.
    rewrite (proj2 (Z.eqb_eq _ _)) by done. by apply IH.
  - intros fuel v c p' p'' Ev Ec. rewrite E. cbn [DF_READ Z.eqb].
    erewrite st_bind_ok by (unfold on_rest; cbn [fst snd]; by rewrite Ev).
    change 0x01 with (Z.ones 1). rewrite Z.land_ones by lia. change (2 ^ 1) with 2. rewrite Zmod_odd, <- Z.bit0_odd.
    destruct (Z.testbit v 0); cbn [Z.eqb Pos.eqb]; [|done]. unfold on_rest. cbn [fst snd]. by rewrite Ec.
Qed.

(** C40: [init_com] ends and registers one device for each of the four ports where a
    serial device answers, in the order of the ports and numbered without gaps, and
    device [i] talks to the registers of the [i]-th port that answered. *)
Theorem init_com_correct {P : Type} {HP : Ports P} (present : Z -> bool) (hw : P -> Prop) (poll : nat)
    (l : list (device_t (list com_device * P))) (p : P) :
  uarts present hw -> hw p ->
  let found := List.filter present com_ports in exists ds p', hw p' /\
  init_com poll l (com_devices0, p) = Some (l ++ com_registered poll 0 found, (ds, p')) /\
  forall k port, found !! k = Some port -> zget ds (Z.of_nat k) = Some (com_at port 1).
Proof.
  intros HW Hp found.
  destruct (init_com_from_ok HW poll (Z.to_nat MAX_PORTS) 0 0 l com_devices0 p) as (ds & p' & Hp' & E & _ & Hk);
    [lia|done|done|done|]. exists ds, p'. by split.
Qed.

(** * Witnesses *)

(** A machine that remembers the bytes sent to its ports, the last one first: the
    scratch registers of the second and fourth serial port work, nothing is at the
    first and third one, and the others answer 0x20. *)
Definition machine := list (Z * Z).
Fixpoint last_sent (reg : Z) (m : machine) : Z :=
  match m with [] => 0 | (r, v) :: m => if r =? reg then v else last_sent reg m end.
#[export] Instance machine_ports : Ports machine := {
  port_in_b reg m :=
    Some (if (reg =? 0x2f8 + 7) || (reg =? 0x2e8 + 7) then last_sent reg m
          else if (reg =? 0x3f8 + 7) || (reg =? 0x3e8 + 7) then 255 else 0x20, m);
  port_out_b reg v m := Some (tt, (reg, v) :: m)
}.
Definition demo_present (port : Z) : bool := (port =? 0x2f8) || (port =? 0x2e8).

Lemma demo_uarts : uarts (HP := machine_ports) demo_present (fun _ => True).
Proof.
  split.
  - intros reg v p _. by eexists.
  - intros port v p p' Hin _ Hp. cbn. intros [= <-]. eexists. split; [|done].
    cbn in Hin. repeat (destruct Hin as [<-|Hin]; [cbn; by rewrite ?Z.eqb_refl || discriminate Hp|]). done.
  - intros port p Hin _ Hp. eexists. split; [|done].
    cbn in Hin. repeat (destruct Hin as [<-|Hin]; [reflexivity || discriminate Hp|]). done.
Qed.

Lemma pcspk_frequency_witness :
  write_bytes [0; 0; 1; 184] (MkSpeaker 0 0 4, []) =
    Some ([-1; -1; -1; 0], (MkSpeaker 2711 0 4, [(0x61, 0x23); (0x42, 10); (0x42, 151); (0x43, 0xb6)])) /\
  2711 * 440 <= 1193180 < 2712 * 440.
Proof.
  destruct (pcspk_frequency (HP := machine_ports) 0 0 1 184 0 []) as (H & H' & _); [done..|].
  split; [exact H|exact (H' ltac:(done))].
Defined.

Lemma com_io_correct_witness :
  com_io_wrapper (HP := machine_ports) 1 0 0 DF_WRITE 65 ([com_at 0x2f8 1], []) =
    Some (0, ([com_at 0x2f8 1], [(0x2f8, 65)])).
Proof.
  destruct (com_io_correct (HP := machine_ports) 0 0 65 (com_at 0x2f8 1) [com_at 0x2f8 1] [] eq_refl) as (H & _ & _).
  apply (H O 1%nat [] _); [|lia|reflexivity]. apply (ready_now _ 0x20); [reflexivity|discriminate].
Defined.

Lemma init_com_correct_witness : exists ds p',
  init_com (HP := machine_ports) 5 [] (com_devices0, []) =
    Some ([MkDevice (com_name 0) 0 0 (com_io_wrapper 5); MkDevice (com_name 1) 1 0 (com_io_wrapper 5)], (ds, p')) /\
  zget ds 1 = Some (com_at 0x2e8 1).
Proof.
  destruct (init_com_correct (HP := machine_ports) demo_present (fun _ => True) 5 [] []) as (ds & p' & _ & E & Hk);
    [exact demo_uarts|exact I|]. exists ds, p'. split; [exact E|exact (Hk 1%nat 0x2e8 eq_refl)].
Defined.

End Chardev.
