(* ===== verification/Part.v ===== *)
(** * Partitions: [kernel/src/part.c]

    [add_partitioned_medium] reads the partition table of a device (GPT, or MBR
    when there is none) and registers one device per partition.  The driver of a
    partition, [partitioned_medium_io_wrapper], is a window of the disk behind a
    cache of one sector; it works through a handle of the device file system.

    The state of a partition's driver is its [struct part] and the device file
    system.  A registered device is recorded with its name, its [struct part] and
    its size.  [None] is an access outside of a buffer or the use of a variable
    that was never written. *)

From S2P Require Import Prelude CString Dev Handle Devfs.
Local Open Scope Z_scope.

Module Part.
Import CString Dev Handle Devfs.

Record guid := MkGuid { ga : Z; gb : Z; gc : Z; gd : list Z }.
Definition empty_guid : guid := MkGuid 0 0 0 (replicate 8 0).

Definition CACHE_NOTREADY : Z := 0.
Definition CACHE_READY : Z := 1.
Definition CACHE_DIRTY : Z := 2.

Record part := MkPart {
  fd : Z;
  first_sect : Z;
  sect_count : Z;
  in_cache : Z;
  cache : list Z;
  cache_state : Z;
  pguid : guid
}.
Definition with_cache (p : part) (i : Z) (c : list Z) (s : Z) : part :=
  MkPart (fd p) (first_sect p) (sect_count p) i c s (pguid p).
Definition with_extent (p : part) (first count : Z) (g : guid) : part :=
  MkPart (fd p) first count (in_cache p) (cache p) (cache_state p) g.

Definition NO_PARTITION : Z := -1.
Definition INVALID_TABLE : Z := -2.
Definition END_OF_TABLE : Z := -3.

(** ** On-disk structures: packed, little-endian *)

Fixpoint le_bytes (l : list Z) : Z :=
  match l with [] => 0 | b :: l => b + 256 * le_bytes l end.
Definition bytes_at (l : list Z) (off n : Z) : list Z := take (Z.to_nat n) (drop (Z.to_nat off) l).
Definition field_at (l : list Z) (off n : Z) : Z := le_bytes (bytes_at l off n).
Definition guid_at (l : list Z) (off : Z) : guid :=
  MkGuid (field_at l off 4) (field_at l (off + 4) 2) (field_at l (off + 6) 2) (bytes_at l (off + 8) 8).

Definition GPT_HEADER_SIZE : Z := 92.
Record gpt_table_header := MkHeader {
  signature : list Z;
  revision : Z;
  header_size : Z;
  crc32 : Z;
  _reserved0 : Z;
  my_lba : Z;
  alternate_lba : Z;
  first_usable_lba : Z;
  last_usable_lba : Z;
  disk_guid : guid;
  partition_entry_lba : Z;
  number_of_partition_entries : Z;
  size_of_partition_entry : Z;
  partition_entry_array_crc32 : Z
}.
Definition header_of (l : list Z) : gpt_table_header :=
  MkHeader (bytes_at l 0 8) (field_at l 8 4) (field_at l 12 4) (field_at l 16 4) (field_at l 20 4)
    (field_at l 24 8) (field_at l 32 8) (field_at l 40 8) (field_at l 48 8) (guid_at l 56)
    (field_at l 72 8) (field_at l 80 4) (field_at l 84 4) (field_at l 88 4).

Definition GPT_ENTRY_SIZE : Z := 128.
Record gpt_entry := MkEntry {
  partition_type_guid : guid;
  unique_partition_guid : guid;
  starting_lba : Z;
  ending_lba : Z;
  attributes : Z;
  partition_name : list Z
}.
Definition entry_of (l : list Z) : gpt_entry :=
  MkEntry (guid_at l 0) (guid_at l 16) (field_at l 32 8) (field_at l 40 8) (field_at l 48 8) (bytes_at l 56 72).

Definition MBR_ENTRY_SIZE : Z := 16.
Record mbr_entry := MkMbr {
  mbr_status : Z;
  chs_first_sect : list Z;
  mbr_type : Z;
  chs_last_sect : list Z;
  mbr_first_sect : Z;
  mbr_sect_count : Z
}.
Definition mbr_entry_of (l : list Z) : mbr_entry :=
  MkMbr (field_at l 0 1) (bytes_at l 1 3) (field_at l 4 1) (bytes_at l 5 3) (field_at l 8 4) (field_at l 12 4).

Definition efi_part : list Z := [69; 70; 73; 32; 80; 65; 82; 84].

Section Part.
Context {W : Type}.
Implicit Types st : state W.

(** [devfs_seek(fd, off, SEEK_SET); devfs_uread(fd, buf, len);], where [off] is
    narrowed to an [int] and both results are dropped: the bytes stored. *)
Definition seek_read (fd off len : Z) st : option (list Z * state W) :=
  '(_, st) ← devfs_seek fd (s32 off) SEEK_SET st;
  '(_, data, st) ← devfs_uread fd len st;
  Some (data, st).

(** Into a variable that is initialised to zeros, or not initialised. *)
Definition read_zeroed (fd off len : Z) st : option (list Z * state W) :=
  '(data, st) ← seek_read fd off len st;
  Some (data ++ replicate (Z.to_nat len - length data) 0, st).
Definition read_fresh (fd off len : Z) st : option (list Z * state W) :=
  '(data, st) ← seek_read fd off len st;
  if decide (zlen data = len) then Some (data, st) else None.

Definition gpt_get_part (ret : part) (drive partition : Z) st : option (Z * part * state W) :=
  '(l, st) ← read_zeroed drive 512 GPT_HEADER_SIZE st;
  let header := header_of l in
  c ← kstrncmp (signature header) efi_part 8;
  if negb (c =? 0) then Some (INVALID_TABLE, ret, st)
  else if negb (revision header =? 0x00010000) then Some (END_OF_TABLE, ret, st)
  else if number_of_partition_entries header <=? u32 partition then Some (END_OF_TABLE, ret, st)
  else
    '(l, st) ← read_zeroed drive (u64 (u64 (partition_entry_lba header * 512) + u32 (partition * GPT_ENTRY_SIZE)))
                 GPT_ENTRY_SIZE st;
    let entry := entry_of l in
    if decide (bytes_at l 16 16 = replicate 16 0) then Some (NO_PARTITION, ret, st)
    else Some (0, with_extent ret (starting_lba entry) (u64 (u64 (ending_lba entry - starting_lba entry) + 1))
                    (unique_partition_guid entry), st).

Definition mbr_get_part (ret : part) (drive partition : Z) st : option (Z * part * state W) :=
  '(l, st) ← read_fresh drive 444 2 st;
  let hint := field_at l 0 2 in
  if negb (hint =? 0) && negb (hint =? 0x5a5a) then Some (INVALID_TABLE, ret, st)
  else if 3 <? partition then Some (END_OF_TABLE, ret, st)
  else
    '(l, st) ← read_fresh drive 440 4 st;
    let disk_signature := field_at l 0 4 in
    '(l, st) ← read_fresh drive (u32 (0x1be + MBR_ENTRY_SIZE * partition)) MBR_ENTRY_SIZE st;
    let entry := mbr_entry_of l in
    if mbr_type entry =? 0 then Some (NO_PARTITION, ret, st)
    else Some (0, with_extent ret (mbr_first_sect entry) (mbr_sect_count entry)
                    (MkGuid disk_signature (u16 ((partition + 1) * 256)) 0 (replicate 8 0)), st).

Definition get_part (p : part) (drive partition : Z) st : option (Z * part * state W) :=
  '(ret, p, st) ← gpt_get_part p drive partition st;
  if negb (ret =? INVALID_TABLE) then Some (ret, p, st)
  else
    '(ret, p, st) ← mbr_get_part p drive partition st;
    if negb (ret =? INVALID_TABLE) then Some (ret, p, st)
    else Some (-1, p, st).

(** [devfs_seek(part->fd, (part->first_sect + sect) * 512, SEEK_SET)] *)
Definition sector_pos (p : part) (sect : Z) : Z := u64 ((first_sect p + sect) * 512).

Definition flush_sector (p : part) st : option (state W) :=
  if cache_state p =? CACHE_DIRTY then
    '(_, st) ← devfs_seek (fd p) (s32 (sector_pos p (in_cache p))) SEEK_SET st;
    '(_, st) ← devfs_uwrite (fd p) (cache p) st;
    Some st
  else Some st.

Definition load_sector (p : part) (sect : Z) st : option (part * state W) :=
  if (cache_state p =? CACHE_NOTREADY) || negb (sect =? in_cache p) then
    st ← flush_sector p st;
    '(data, st) ← seek_read (fd p) (sector_pos p sect) 512 st;
    Some (with_cache p sect (data ++ drop (length data) (cache p)) CACHE_READY, st)
  else Some (p, st).

(** [DF_READ] is 0 and [DF_WRITE] is 1; another type falls off the end. *)
Definition partitioned_medium_io_wrapper (loc type payload : Z) (w : part * state W)
    : option (Z * (part * state W)) :=
  let sect := loc / 512 in
  let off := loc mod 512 in
  '(p, st) ← load_sector w.1 sect w.2;
  if type =? 0 then
    v ← zget (cache p) off; Some (v, (p, st))
  else if type =? 1 then
    c ← zset (cache p) off payload;
    Some (0, (with_cache p (in_cache p) c CACHE_DIRTY, st))
  else None.

(** ** The partitions of a medium *)

Record partition := MkPartition { pname : list Z; ppart : part; psize : Z }.

(** [medium], ['p'] and [i + '0'], in the 32 bytes of a device's name. *)
Definition part_name (medium : list Z) (i : Z) : option (list Z) :=
  strbuf NAME_LEN (medium ++ 112 :: (if u8 (i + 48) =? 0 then [] else [u8 (i + 48)])).

Definition O_RDONLY : Z := 2.

(** One turn of the loop: [None] when the loop goes on, or the value returned. *)
Definition add_step (junk : part) (medium : list Z) (i : Z) (s : state W * list partition)
    : option (option Z * (state W * list partition)) :=
  '(fd, st) ← devfs_open medium O_RDONLY 0 s.1;
  if fd =? -1 then Some (Some (-1), (st, s.2))
  else
    '(ret, p, st) ← get_part junk fd (s32 i) st;
    if ret =? NO_PARTITION then '(_, st) ← devfs_close fd st; Some (None, (st, s.2))
    else if ret =? END_OF_TABLE then '(_, st) ← devfs_close fd st; Some (Some 0, (st, s.2))
    else
      let p := MkPart fd (first_sect p) (sect_count p) (2 ^ 64 - 1) (cache p) (cache_state p) (pguid p) in
      nm ← part_name medium i;
      Some (None, (st, s.2 ++ [MkPartition nm p (u64 (sect_count p * 512))])).

(** [add_partitioned_medium] from index [i]; [None] as the value when [fuel] turns
    were not enough.  The junk is the content of the uninitialised [struct part]. *)
Fixpoint add_loop (fuel : nat) (junk : part) (medium : list Z) (i : Z) (s : state W * list partition)
    : option (option Z * (state W * list partition)) :=
  match fuel with
  | O => Some (None, s)
  | S fuel =>
      '(r, s) ← add_step junk medium i s;
      match r with
      | Some v => Some (Some v, s)
      | None => add_loop fuel junk medium (u32 (i + 1)) s
      end
  end.
Definition add_partitioned_medium (fuel : nat) (junk : part) (medium : list Z) (st : state W)
    : option (option Z * (state W * list partition)) :=
  add_loop fuel junk medium 0 (st, []).

End Part.

(** ** Specification: the table as a function of the bytes of the disk *)

Inductive table_entry :=
  | Found (first count : Z) (g : guid)
  | Empty
  | EndOfTable
  | Invalid.

(** The [n] bytes at [off]. *)
Definition disk (f : Z -> Z) (off n : Z) : list Z :=
  (fun k => f (off + Z.of_nat k)) <$> seq 0 (Z.to_nat n).

Definition gpt_header (f : Z -> Z) : gpt_table_header := header_of (disk f 512 GPT_HEADER_SIZE).
Definition gpt_entry_loc (f : Z -> Z) (i : Z) : Z :=
  partition_entry_lba (gpt_header f) * 512 + i * GPT_ENTRY_SIZE.

Definition gpt_spec (f : Z -> Z) (i : Z) : table_entry :=
  if decide (signature (gpt_header f) = efi_part) then
    if revision (gpt_header f) =? 0x00010000 then
      if number_of_partition_entries (gpt_header f) <=? i then EndOfTable
      else
        let l := disk f (gpt_entry_loc f i) GPT_ENTRY_SIZE in
        let e := entry_of l in
        if decide (bytes_at l 16 16 = replicate 16 0) then Empty
        else Found (starting_lba e) (u64 (u64 (ending_lba e - starting_lba e) + 1)) (unique_partition_guid e)
    else EndOfTable
  else Invalid.

Definition mbr_spec (f : Z -> Z) (i : Z) : table_entry :=
  let hint := field_at (disk f 444 2) 0 2 in
  if (hint =? 0) || (hint =? 0x5a5a) then
    if 3 <? i then EndOfTable
    else
      let e := mbr_entry_of (disk f (0x1be + MBR_ENTRY_SIZE * i) MBR_ENTRY_SIZE) in
      if mbr_type e =? 0 then Empty
      else Found (mbr_first_sect e) (mbr_sect_count e)
             (MkGuid (field_at (disk f 440 4) 0 4) (u16 ((i + 1) * 256)) 0 (replicate 8 0))
  else Invalid.

Definition part_spec (f : Z -> Z) (i : Z) : table_entry :=
  match gpt_spec f i with Invalid => mbr_spec f i | e => e end.

(** The entries of the table lie on the disk. *)
Definition table_fits (f : Z -> Z) (sz : Z) : Prop :=
  signature (gpt_header f) = efi_part ->
  0 <= partition_entry_lba (gpt_header f) /\
  gpt_entry_loc f (number_of_partition_entries (gpt_header f)) <= sz.

(** The value [get_part] gives for an entry, and the extent it sets. *)
Definition code (e : table_entry) : Z :=
  match e with Found _ _ _ => 0 | Empty => NO_PARTITION | EndOfTable => END_OF_TABLE | Invalid => -1 end.
Definition set_extent (p : part) (e : table_entry) : part :=
  match e with Found a n g => with_extent p a n g | _ => p end.

(** ** Lemmas: on-disk fields *)

Lemma le_bytes_range l : Forall is_byte l -> 0 <= le_bytes l < 256 ^ zlen l.
Proof.
  induction 1 as [|b l Hb Hl IH]; [by split|]. rewrite zlen_cons, Z.pow_add_r by (lia || apply zlen_nonneg).
  unfold is_byte in Hb. cbn [le_bytes]. change (256 ^ 1) with 256. lia.
Qed.

Lemma field_at_range l off n : Forall is_byte l -> 0 <= n -> 0 <= field_at l off n < 256 ^ n.
Proof.
  intros Hl Hn. unfold field_at, bytes_at. set (k := take _ _).
  assert (Forall is_byte k) as Hk by (by apply Forall_take, Forall_drop).
  pose proof (le_bytes_range k Hk) as Hr.
  assert (zlen k <= n) as Hle by (unfold zlen, k; rewrite length_take; lia).
  pose proof (Z.pow_le_mono_r 256 (zlen k) n ltac:(lia) Hle). lia.
Qed.

Lemma disk_len f off n : 0 <= n -> zlen (disk f off n) = n.
Proof. intros Hn. unfold zlen, disk. rewrite length_fmap, length_seq. lia. Qed.

Lemma disk_bytes f off n sz : (forall l, 0 <= l < sz -> is_byte (f l)) -> 0 <= off -> off + n <= sz ->
  Forall is_byte (disk f off n).
Proof.
  intros Hf H0 Hn. apply Forall_fmap, Forall_forall. intros k Hk%elem_of_seq. apply Hf. lia.
Qed.

Lemma disk_ext f g off n sz : (forall l, 0 <= l < sz -> f l = g l) -> 0 <= off -> off + n <= sz ->
  disk f off n = disk g off n.
Proof.
  intros Hf H0 Hn. apply list_fmap_ext. intros i k Hk%lookup_seq. apply Hf. lia.
Qed.

(** ** Lemmas: reading through a handle of the medium *)

Section Medium.
Context {W : Type} {io : Z -> Z -> Z -> W -> option (Z * W)} {sz : Z} {V : Volume io sz}.
Context (path : list Z) (di : Z) (d : device_t W).
Implicit Types (st : state W) (f : Z -> Z).

(** The medium is device [di] of the list, a volume whose bytes are [f]. *)
Record base_ok f st : Prop := {
  bo_find : find_device (strip_slash path) (device_list st) = Some di;
  bo_dev : zget (device_list st) di = Some d;
  bo_drives : drives_volume (io := io) d;
  bo_vol : vol_ok (world st);
  bo_bytes : forall l, 0 <= l < sz -> vol_byte (world st) l = f l;
  bo_size : size d = sz;
  bo_range : 1024 <= sz < 2 ^ 31
}.

(** [n] is an open handle of the medium. *)
Definition fd_ok (n : Z) st : Prop :=
  exists h, live dh_free (handles st) n h /\ on_device h sz /\ device h = di.

(** The other handles are left alone. *)
Definition frame (n : Z) st st' : Prop :=
  forall m h, m <> n -> live dh_free (handles st') m h <-> live dh_free (handles st) m h.

Lemma frame_refl n st : frame n st st.
Proof. by intros m h _. Qed.
Lemma frame_trans n st1 st2 st3 : frame n st1 st2 -> frame n st2 st3 -> frame n st1 st3.
Proof. intros H1 H2 m h Hm. by rewrite (H2 m h Hm), (H1 m h Hm). Qed.

Lemma fd_ok_frame n m st st' : frame n st st' -> m <> n -> fd_ok m st -> fd_ok m st'.
Proof. intros Hf Hm (h & Hl & H). exists h. split; [by apply Hf|done]. Qed.

Lemma bo_is_byte f st l : base_ok f st -> 0 <= l < sz -> is_byte (f l).
Proof. intros H Hl. rewrite <- (bo_bytes _ _ H) by done. by apply vol_is_byte; [apply H|]. Qed.

(** The state after a transfer that moved the position of handle [n] to [p]. *)
Lemma after_io f g n h p w b st : base_ok f st -> live dh_free (handles st) n h -> on_device h sz ->
  device h = di -> 0 <= p <= sz -> vol_ok w -> (forall l, 0 <= l < sz -> vol_byte w l = g l) ->
  let st' := MkState (<[Z.to_nat n:=with_ptr h p]> (handles st)) (device_list st) w b in
  base_ok g st' /\ fd_ok n st' /\ frame n st st'.
Proof.
  intros Hb Hl Hd Hi Hp Hw Hg st'. pose proof Hb as [H1 H2 H3 H4 H5 H6 H7].
  assert (forall m, zget (handles st') m = if decide (n = m) then Some (with_ptr h p) else zget (handles st) m) as E.
  { intros m. apply (zget_zset (handles st) n m). apply zset_ok. by eapply zget_Some, Hl. }
  split; [by split|split].
  - exists (with_ptr h p). split; [|split; [destruct Hd; by split|done]].
    split; [by rewrite E, decide_True|apply Hd].
  - intros m g' Hm. unfold live. by rewrite E, decide_False.
Qed.

Lemma seek_read_ok' f n off len st : base_ok f st -> fd_ok n st -> 0 <= off -> 0 <= len -> off + len <= sz ->
  exists st', seek_read n off len st = Some (disk f off len, st') /\
    base_ok f st' /\ fd_ok n st' /\ frame n st st'.
Proof.
  intros Hb (h & Hl & Hd & Hi) H0 Hn Hs. pose proof (bo_range _ _ Hb).
  destruct (seek_read_ok n off (Z.to_nat len) h d st Hl Hd) as (st1 & w' & E1 & E2 & Hok & Hw);
    [rewrite Hi; by apply Hb|by apply Hb|by apply Hb|done|lia|].
  rewrite Z2Nat.id in E2 by lia. eexists. split.
  - unfold seek_read. rewrite s32_small by lia. rewrite E1. cbn [mbind option_bind]. rewrite E2. cbn [mbind option_bind].
    f_equal. f_equal. change (vol_bytes (world st) off (Z.to_nat len)) with (disk (vol_byte (world st)) off len).
    apply (disk_ext _ _ _ _ sz); [apply Hb|lia|lia].
  - apply after_io with f; try done; [lia|]. intros l Hl'. rewrite Hw by done. by apply Hb.
Qed.

Lemma read_zeroed_ok f n off len st : base_ok f st -> fd_ok n st -> 0 <= off -> 0 <= len -> off + len <= sz ->
  exists st', read_zeroed n off len st = Some (disk f off len, st') /\
    base_ok f st' /\ fd_ok n st' /\ frame n st st'.
Proof.
  intros Hb Hf H0 Hn Hs. destruct (seek_read_ok' f n off len st) as (st' & E & H); [done..|].
  exists st'. split; [|done]. unfold read_zeroed. rewrite E. cbn [mbind option_bind].
  pose proof (disk_len f off len Hn) as Hl. unfold zlen in Hl.
  replace (Z.to_nat len - length (disk f off len))%nat with 0%nat by lia. by rewrite app_nil_r.
Qed.

Lemma read_fresh_ok f n off len st : base_ok f st -> fd_ok n st -> 0 <= off -> 0 <= len -> off + len <= sz ->
  exists st', read_fresh n off len st = Some (disk f off len, st') /\
    base_ok f st' /\ fd_ok n st' /\ frame n st st'.
Proof.
  intros Hb Hf H0 Hn Hs. destruct (seek_read_ok' f n off len st) as (st' & E & H); [done..|].
  exists st'. split; [|done]. unfold read_fresh. rewrite E. cbn [mbind option_bind].
  by rewrite decide_True by by apply disk_len.
Qed.

(** ** Lemmas: [get_part] computes the specification *)

Lemma signature_len f : length (signature (gpt_header f)) = 8%nat.
Proof.
  unfold gpt_header, header_of. cbn [signature]. unfold bytes_at. rewrite length_take, length_drop.
  pose proof (disk_len f 512 GPT_HEADER_SIZE ltac:(done)) as H. unfold zlen, GPT_HEADER_SIZE in H.
  change (Z.to_nat 0) with 0%nat. change (Z.to_nat 8) with 8%nat. unfold GPT_HEADER_SIZE. lia.
Qed.

Lemma signature_cmp f :
  kstrncmp (signature (gpt_header f)) efi_part 8 =
  Some (if decide (signature (gpt_header f) = efi_part) then 0 else 1).
Proof.
  change 8 with (zlen efi_part). rewrite kstrncmp_any by (rewrite signature_len; done).
  rewrite take_ge by (rewrite signature_len; done). done.
Qed.

Lemma number_nonneg f st : base_ok f st -> 0 <= number_of_partition_entries (gpt_header f).
Proof.
  intros Hb. pose proof (bo_range _ _ Hb). apply (field_at_range _ 80 4); [|done].
  apply (disk_bytes f _ _ sz); [|done|unfold GPT_HEADER_SIZE; lia]. intros l. by eapply bo_is_byte.
Qed.

(** The result of reading a table, whatever the table. *)
Definition gets (f : Z -> Z) (n : Z) st (r : option (Z * part * state W)) (c : Z) (p : part) : Prop :=
  exists st', r = Some (c, p, st') /\ base_ok f st' /\ fd_ok n st' /\ frame n st st'.

Lemma gpt_get_part_ok f p n i st : base_ok f st -> fd_ok n st -> table_fits f sz -> 0 <= i < 2 ^ 31 ->
  gets f n st (gpt_get_part p n i st)
    (match gpt_spec f i with Invalid => INVALID_TABLE | e => code e end) (set_extent p (gpt_spec f i)).
Proof.
  intros Hb Hf Ht Hi. pose proof (bo_range _ _ Hb). unfold gpt_get_part.
  destruct (read_zeroed_ok f n 512 GPT_HEADER_SIZE st) as (st1 & -> & Hb1 & Hf1 & Hr1);
    [done|done|done|done|unfold GPT_HEADER_SIZE; lia|].
  cbn [mbind option_bind]. fold (gpt_header f). rewrite signature_cmp. cbn [mbind option_bind].
  unfold gpt_spec. case_decide as Hs; [|by exists st1]. cbn [Z.eqb negb].
  destruct (revision (gpt_header f) =? 65536); cbn [negb]; [|by exists st1].
  rewrite u32_small by lia. destruct (Z.leb_spec (number_of_partition_entries (gpt_header f)) i) as [Hn|Hn];
    [by exists st1|].
  destruct (Ht Hs) as [Hl0 Hl]. unfold gpt_entry_loc, GPT_ENTRY_SIZE in Hl.
  assert (u64 (u64 (partition_entry_lba (gpt_header f) * 512) + u32 (i * GPT_ENTRY_SIZE)) = gpt_entry_loc f i) as ->.
  { unfold gpt_entry_loc, GPT_ENTRY_SIZE. rewrite (u64_small (_ * 512)), u32_small by lia. by rewrite u64_small by lia. }
  destruct (read_zeroed_ok f n (gpt_entry_loc f i) GPT_ENTRY_SIZE st1) as (st2 & -> & Hb2 & Hf2 & Hr2);
    [done|done|unfold gpt_entry_loc, GPT_ENTRY_SIZE; lia|done|unfold gpt_entry_loc, GPT_ENTRY_SIZE; lia|].
  cbn [mbind option_bind]. pose proof (frame_trans n _ _ _ Hr1 Hr2). case_decide; by exists st2.
Qed.

Lemma mbr_get_part_ok f p n i st : base_ok f st -> fd_ok n st -> 0 <= i < 2 ^ 31 ->
  gets f n st (mbr_get_part p n i st)
    (match mbr_spec f i with Invalid => INVALID_TABLE | e => code e end) (set_extent p (mbr_spec f i)).
Proof.
  intros Hb Hf Hi. pose proof (bo_range _ _ Hb). unfold mbr_get_part.
  destruct (read_fresh_ok f n 444 2 st) as (st1 & -> & Hb1 & Hf1 & Hr1); [done|done|done|done|lia|].
  cbn [mbind option_bind]. unfold mbr_spec.
  destruct (field_at (disk f 444 2) 0 2 =? 0); cbn [negb andb orb];
    [|destruct (field_at (disk f 444 2) 0 2 =? 23130); cbn [negb]; [|by exists st1]].
  all: destruct (Z.ltb_spec 3 i); [by exists st1|].
  all: destruct (read_fresh_ok f n 440 4 st1) as (st2 & -> & Hb2 & Hf2 & Hr2); [done|done|done|done|lia|];
    cbn [mbind option_bind]; rewrite u32_small by (unfold MBR_ENTRY_SIZE; lia);
    destruct (read_fresh_ok f n (0x1be + MBR_ENTRY_SIZE * i) MBR_ENTRY_SIZE st2) as (st3 & -> & Hb3 & Hf3 & Hr3);
      [done|done|unfold MBR_ENTRY_SIZE; lia|done|unfold MBR_ENTRY_SIZE; lia|]; cbn [mbind option_bind];
    pose proof (frame_trans n _ _ _ (frame_trans n _ _ _ Hr1 Hr2) Hr3);
    destruct (mbr_type _ =? 0); by exists st3.
Qed.

Lemma get_part_ok f p n i st : base_ok f st -> fd_ok n st -> table_fits f sz -> 0 <= i < 2 ^ 31 ->
  gets f n st (get_part p n i st) (code (part_spec f i)) (set_extent p (part_spec f i)).
Proof.
  intros Hb Hf Ht Hi. unfold get_part, part_spec.
  destruct (gpt_get_part_ok f p n i st Hb Hf Ht Hi) as (st1 & -> & Hb1 & Hf1 & Hr1).
  cbn [mbind option_bind]. destruct (gpt_spec f i) eqn:E; try by exists st1.
  cbn [set_extent]. change (negb (INVALID_TABLE =? INVALID_TABLE)) with false. cbv iota.
  destruct (mbr_get_part_ok f p n i st1 Hb1 Hf1 Hi) as (st2 & -> & Hb2 & Hf2 & Hr2).
  cbn [mbind option_bind]. pose proof (frame_trans n _ _ _ Hr1 Hr2).
  destruct (mbr_spec f i); by exists st2.
Qed.

(** A disk without a table is recognised whatever the index. *)
Definition no_table f : Prop :=
  signature (gpt_header f) <> efi_part /\
  field_at (disk f 444 2) 0 2 <> 0 /\ field_at (disk f 444 2) 0 2 <> 0x5a5a.

Lemma get_part_invalid f p n i st : base_ok f st -> fd_ok n st -> no_table f ->
  gets f n st (get_part p n i st) (-1) p.
Proof.
  intros Hb Hf (Hs & H0 & H1). pose proof (bo_range _ _ Hb). unfold get_part, gpt_get_part.
  destruct (read_zeroed_ok f n 512 GPT_HEADER_SIZE st) as (st1 & -> & Hb1 & Hf1 & Hr1);
    [done|done|done|done|unfold GPT_HEADER_SIZE; lia|].
  cbn [mbind option_bind]. fold (gpt_header f). rewrite signature_cmp, decide_False by done.
  cbn [mbind option_bind]. change (negb (1 =? 0)) with true. cbv iota.
  cbn [mbind option_bind]. change (negb (INVALID_TABLE =? INVALID_TABLE)) with false. cbv iota.
  unfold mbr_get_part.
  destruct (read_fresh_ok f n 444 2 st1) as (st2 & -> & Hb2 & Hf2 & Hr2); [done|done|done|done|lia|].
  cbn [mbind option_bind]. rewrite !(proj2 (Z.eqb_neq _ _)) by done. cbn [negb andb mbind option_bind].
  change (negb (INVALID_TABLE =? INVALID_TABLE)) with false. cbv iota.
  pose proof (frame_trans n _ _ _ Hr1 Hr2). by exists st2.
Qed.

(** ** Lemmas: opening and closing the medium *)

Lemma open_ok f st : base_ok f st -> zlen path < 30 -> exists n st',
  devfs_open path O_RDONLY 0 st = Some (n, st') /\ 0 <= n /\ base_ok f st' /\ fd_ok n st' /\
  frame n st st' /\ forall g, ~ live dh_free (handles st) n g.
Proof.
  intros Hb Hp. pose proof Hb as [H1 H2 H3 H4 H5 H6 H7]. unfold devfs_open, devfs_get_metadata.
  change (DEVICE_TYPE =? DIRECTORY_TYPE) with false. change (DEVICE_TYPE =? DEVICE_TYPE) with true. cbv iota.
  rewrite H1. rewrite H2. cbn [mbind option_bind snd fst].
  change (has_flag O_RDONLY O_TRUNC) with false. change (has_flag O_RDONLY O_APPEND) with false.
  change (has_flag O_RDONLY O_CREAT) with false. cbv iota.
  unfold strbuf. rewrite decide_True by lia. cbn [mbind option_bind msize]. rewrite H6.
  rewrite (proj2 (Z.eqb_neq sz 0)) by lia. unfold devfs_create_handle.
  set (h := MkHandle _ _ _ _ _ _ _ _ _).
  destruct (create_handle dh_free h (handles st)) as [n hs] eqn:E.
  destruct (create_handle_ok dh_free h (handles st) n hs eq_refl E) as (Hn & Hl & Hr & _ & Hfr).
  exists n, (with_handles hs st). split; [done|]. split; [lia|]. split; [by split|]. split; [|by split].
  exists h. split; [exact Hl|]. split; [|done]. split; subst h; cbn; (done || lia).
Qed.

Lemma close_ok f n st : base_ok f st -> fd_ok n st -> exists st',
  devfs_close n st = Some (0, st') /\ base_ok f st' /\ frame n st st'.
Proof.
  intros Hb (h & Hl & _). unfold devfs_close. rewrite (valid_handle_live n h) by done.
  rewrite (set_handle_ok n h) by done. cbn [mbind option_bind]. eexists. split; [done|].
  destruct Hb. split; [by split|]. intros m g Hm. unfold live. cbn.
  rewrite (zget_zset (handles st) n m (with_free h 1)) by (apply zset_ok; by eapply zget_Some, Hl).
  by rewrite decide_False.
Qed.

(** ** Lemmas: the loop of [add_partitioned_medium] *)

(** What a registered partition is made of. *)
Record made (junk : part) (e : table_entry) (i : Z) (st : state W) (p : partition) : Prop := {
  mk_name : part_name path i = Some (pname p);
  mk_extent : e = Found (first_sect (ppart p)) (sect_count (ppart p)) (pguid (ppart p));
  mk_size : psize p = u64 (sect_count (ppart p) * 512);
  mk_fd : fd_ok (fd (ppart p)) st;
  mk_cache : cache (ppart p) = cache junk;
  mk_state : cache_state (ppart p) = cache_state junk;
  mk_in : in_cache (ppart p) = 2 ^ 64 - 1
}.

Lemma part_name_ok i : zlen path < 30 -> is_Some (part_name path i).
Proof.
  intros Hp. unfold part_name, strbuf. rewrite decide_True; [done|].
  rewrite zlen_app, zlen_cons. unfold NAME_LEN. destruct (u8 (i + 48) =? 0); [rewrite zlen_nil; lia|].
  change (zlen [u8 (i + 48)]) with 1. lia.
Qed.

(** A handle that is open stays open while others come and go. *)
Lemma fd_ok_other n m st st' : frame n st st' -> (forall g, ~ live dh_free (handles st) n g) ->
  fd_ok m st -> fd_ok m st'.
Proof.
  intros Hf Hn (h & Hl & H). apply (fd_ok_frame n m st st' Hf); [|by exists h].
  intros ->. by apply (Hn h).
Qed.

Lemma made_other junk e i n st st' p : frame n st st' -> (forall g, ~ live dh_free (handles st) n g) ->
  made junk e i st p -> made junk e i st' p.
Proof. intros Hf Hn [H1 H2 H3 H4 H5 H6 H7]. split; try done. by eapply fd_ok_other. Qed.

Lemma add_step_ok f junk i st ps : base_ok f st -> zlen path < 30 -> table_fits f sz -> 0 <= i < 2 ^ 31 ->
  part_spec f i <> Invalid -> exists st',
  base_ok f st' /\
  (forall e j p, made junk e j st p -> made junk e j st' p) /\
  match part_spec f i with
  | EndOfTable => add_step junk path i (st, ps) = Some (Some 0, (st', ps))
  | Found _ _ _ => exists p, add_step junk path i (st, ps) = Some (None, (st', ps ++ [p])) /\
      made junk (part_spec f i) i st' p
  | _ => add_step junk path i (st, ps) = Some (None, (st', ps))
  end.
Proof.
  intros Hb Hp Ht Hi Hv. unfold add_step. cbn [fst snd].
  destruct (open_ok f st Hb Hp) as (n & st1 & -> & Hn & Hb1 & Hf1 & Hr1 & Hnew). cbn [mbind option_bind].
  rewrite (proj2 (Z.eqb_neq n (-1))) by lia. rewrite s32_small by lia.
  destruct (get_part_ok f junk n i st1 Hb1 Hf1 Ht Hi) as (st2 & -> & Hb2 & Hf2 & Hr2). cbn [mbind option_bind].
  pose proof (frame_trans n _ _ _ Hr1 Hr2) as Hr12.
  destruct (close_ok f n st2 Hb2 Hf2) as (st3 & E3 & Hb3 & Hr3).
  pose proof (frame_trans n _ _ _ Hr12 Hr3) as Hr13.
  destruct (part_spec f i) as [a c g| | |]; [| | |done].
  - change (code _ =? NO_PARTITION) with false. change (code _ =? END_OF_TABLE) with false. cbv iota.
    destruct (part_name_ok i Hp) as [nm Enm]. rewrite Enm. cbn [mbind option_bind].
    exists st2. split; [done|]. split; [intros e j p; by apply (made_other junk e j n)|].
    eexists. split; [done|]. by split.
  - change (code _ =? NO_PARTITION) with true. cbv iota. rewrite E3. cbn [mbind option_bind].
    exists st3. split; [done|]. split; [intros e j p; by apply (made_other junk e j n)|done].
  - change (code _ =? NO_PARTITION) with false. change (code _ =? END_OF_TABLE) with true. cbv iota.
    rewrite E3. cbn [mbind option_bind].
    exists st3. split; [done|]. split; [intros e j p; by apply (made_other junk e j n)|done].
Qed.

(** The indices of the partitions below [n]. *)
Definition is_found f (i : Z) : bool := match part_spec f i with Found _ _ _ => true | _ => false end.
Definition found_indices f (i : Z) (n : nat) : list Z := List.filter (is_found f) (seqZ i (Z.of_nat n)).

Lemma add_loop_ok f junk (n fuel : nat) i st ps : base_ok f st -> zlen path < 30 -> table_fits f sz ->
  0 <= i -> i + Z.of_nat n < 2 ^ 31 -> (n < fuel)%nat ->
  (forall j, i <= j < i + Z.of_nat n -> part_spec f j <> Invalid /\ part_spec f j <> EndOfTable) ->
  part_spec f (i + Z.of_nat n) = EndOfTable -> exists st' ps',
  add_loop fuel junk path i (st, ps) = Some (Some 0, (st', ps ++ ps')) /\ base_ok f st' /\
  (forall e j p, made junk e j st p -> made junk e j st' p) /\
  Forall2 (fun j p => made junk (part_spec f j) j st' p) (found_indices f i n) ps'.
Proof.
  intros Hb Hp Ht. revert i fuel st ps Hb. induction n as [|n IH]; intros i fuel st ps Hb H0 Hlt Hfu Hj He;
    (destruct fuel as [|fuel]; [lia|]); cbn [add_loop].
  - change (Z.of_nat 0) with 0 in *. rewrite Z.add_0_r in He.
    destruct (add_step_ok f junk i st ps Hb Hp Ht ltac:(lia) ltac:(by rewrite He)) as (st1 & Hb1 & Hm1 & E).
    rewrite He in E. rewrite E. cbn [mbind option_bind]. exists st1, []. rewrite app_nil_r.
    split; [done|]. split; [done|]. split; [done|]. constructor.
  - destruct (Hj i ltac:(lia)) as [Hi1 Hi2].
    destruct (add_step_ok f junk i st ps Hb Hp Ht ltac:(lia) Hi1) as (st1 & Hb1 & Hm1 & E).
    assert (found_indices f i (S n) = (if is_found f i then [i] else []) ++ found_indices f (i + 1) n) as ->.
    { unfold found_indices. rewrite seqZ_cons by lia. cbn [List.filter].
      replace (Z.pred (Z.of_nat (S n))) with (Z.of_nat n) by lia. replace (Z.succ i) with (i + 1) by lia.
      by destruct (is_found f i). }
    assert (forall ps1, exists st' ps', add_loop fuel junk path (i + 1) (st1, ps1) = Some (Some 0, (st', ps1 ++ ps')) /\
      base_ok f st' /\ (forall e j p, made junk e j st1 p -> made junk e j st' p) /\
      Forall2 (fun j p => made junk (part_spec f j) j st' p) (found_indices f (i + 1) n) ps') as IH'.
    { intros ps1. apply IH; [done|lia|lia|lia|intros j Hj'; apply Hj; lia|].
      by replace (i + 1 + Z.of_nat n) with (i + Z.of_nat (S n)) by lia. }
    unfold is_found in *. destruct (part_spec f i) as [a c g| | |] eqn:Es; try done.
    + destruct E as (p & E & Hmp). rewrite E. cbn [mbind option_bind]. rewrite u32_small by lia.
      destruct (IH' (ps ++ [p])) as (st' & ps' & -> & Hb' & Hm' & Hps). exists st', ([p] ++ ps').
      rewrite <- app_assoc. split; [done|]. split; [done|]. split; [by auto|].
      constructor; [rewrite Es; by apply Hm'|done].
    + rewrite E. cbn [mbind option_bind]. rewrite u32_small by lia.
      destruct (IH' ps) as (st' & ps' & -> & Hb' & Hm' & Hps). exists st', ps'.
      split; [done|]. split; [done|]. split; [by auto|]. exact Hps.
Qed.

(** Without a table every turn asks for another one. *)
Lemma add_loop_invalid f junk fuel i st ps : base_ok f st -> zlen path < 30 -> no_table f -> exists st',
  add_loop fuel junk path i (st, ps) = Some (None, (st', ps)) /\ base_ok f st'.
Proof.
  intros Hb Hp Hn. revert i st Hb. induction fuel as [|fuel IH]; intros i st Hb; cbn [add_loop]; [by exists st|].
  unfold add_step. cbn [fst snd].
  destruct (open_ok f st Hb Hp) as (n & st1 & -> & H0 & Hb1 & Hf1 & _ & _). cbn [mbind option_bind].
  rewrite (proj2 (Z.eqb_neq n (-1))) by lia.
  destruct (get_part_invalid f junk n (s32 i) st1 Hb1 Hf1 Hn) as (st2 & -> & Hb2 & Hf2 & _). cbn [mbind option_bind].
  change (-1 =? NO_PARTITION) with true. cbv iota.
  destruct (close_ok f n st2 Hb2 Hf2) as (st3 & -> & Hb3 & _). cbn [mbind option_bind]. by apply IH.
Qed.

(** ** The driver of a partition is a window of the disk *)

Record window_ok (n : Z) (w : part * state W) : Prop := {
  wo_base : base_ok (vol_byte (world w.2)) w.2;
  wo_fd : fd_ok (fd w.1) w.2;
  wo_count : sect_count w.1 = n;
  wo_first : 0 <= first_sect w.1;
  wo_fits : (first_sect w.1 + n) * 512 <= sz;
  wo_len : zlen (cache w.1) = 512;
  wo_bytes : Forall is_byte (cache w.1);
  wo_state : 0 <= cache_state w.1 <= 2;
  wo_in : cache_state w.1 <> CACHE_NOTREADY -> 0 <= in_cache w.1 < n;
  wo_ready : cache_state w.1 = CACHE_READY ->
    cache w.1 = disk (vol_byte (world w.2)) ((first_sect w.1 + in_cache w.1) * 512) 512
}.

(** The byte at [loc] of the partition: the cache hides its sector of the disk. *)
Definition window (w : part * state W) (loc : Z) : Z :=
  if decide (cache_state w.1 <> CACHE_NOTREADY /\ loc / 512 = in_cache w.1)
  then default 0 (zget (cache w.1) (loc mod 512))
  else vol_byte (world w.2) (first_sect w.1 * 512 + loc).

(** The disk outside of the partition. *)
Definition outside (p : part) (l : Z) : Prop :=
  0 <= l < sz /\ (l < first_sect p * 512 \/ (first_sect p + sect_count p) * 512 <= l).

Lemma disk_get f off n k : 0 <= k < n -> zget (disk f off n) k = Some (f (off + k)).
Proof.
  intros Hk. rewrite zget_lookup by lia. unfold disk. rewrite list_lookup_fmap, lookup_seq_lt by lia.
  cbn. do 2 f_equal. lia.
Qed.

Lemma base_ok_self f st : base_ok f st -> base_ok (vol_byte (world st)) st.
Proof. intros [H1 H2 H3 H4 H5 H6 H7]. by split. Qed.

(** Writing the cached sector to where the driver puts it. *)
Lemma write_back_ok p pos st : base_ok (vol_byte (world st)) st -> fd_ok (fd p) st ->
  cache_state p = CACHE_DIRTY -> sector_pos p (in_cache p) = pos -> 0 <= pos -> pos + 512 <= sz ->
  zlen (cache p) = 512 -> Forall is_byte (cache p) -> exists st',
  flush_sector p st = Some st' /\ base_ok (vol_byte (world st')) st' /\ fd_ok (fd p) st' /\
  forall l, 0 <= l < sz -> vol_byte (world st') l = default (vol_byte (world st) l) (zget (cache p) (l - pos)).
Proof.
  intros Hb (h & Hl & Hd & Hi) Hs Hpos H0 Hsz Hlen Hby. pose proof (bo_range _ _ Hb).
  unfold flush_sector. rewrite Hs, Hpos. change (CACHE_DIRTY =? CACHE_DIRTY) with true. cbv iota.
  rewrite s32_small by lia.
  destruct (seek_write_ok (fd p) pos (cache p) h d st Hl Hd) as (st1 & w' & E1 & E2 & Hok & Hw);
    [rewrite Hi; by apply Hb|by apply Hb|by apply Hb|done|done|lia|].
  rewrite E1. cbn [mbind option_bind]. rewrite E2. cbn [mbind option_bind]. eexists. split; [done|].
  destruct (after_io (vol_byte (world st)) (vol_byte w') (fd p) h (pos + zlen (cache p)) w' 0 st)
    as (Hb' & Hf' & _); [done|done|done|done|lia|done|done|]. done.
Qed.

Lemma pos_small p sect n : 0 <= first_sect p -> (first_sect p + n) * 512 <= sz -> sz < 2 ^ 31 -> 0 <= sect < n ->
  sector_pos p sect = (first_sect p + sect) * 512.
Proof. intros H0 Hn Hs Hr. unfold sector_pos. apply u64_small. lia. Qed.

Lemma flush_window n p st : window_ok n (p, st) -> exists st',
  flush_sector p st = Some st' /\ base_ok (vol_byte (world st')) st' /\ fd_ok (fd p) st' /\
  (forall loc, 0 <= loc < n * 512 -> vol_byte (world st') (first_sect p * 512 + loc) = window (p, st) loc) /\
  forall l, outside p l -> vol_byte (world st') l = vol_byte (world st) l.
Proof.
  intros [Hb Hf Hc H0 Hfit Hlen Hby Hst Hin Hrd]. cbn [fst snd] in *. pose proof (bo_range _ _ Hb) as Hsz.
  assert (cache_state p <> CACHE_DIRTY -> flush_sector p st = Some st /\ forall loc, 0 <= loc < n * 512 ->
    vol_byte (world st) (first_sect p * 512 + loc) = window (p, st) loc) as Hclean.
  { intros Hd. unfold flush_sector, window. cbn [fst snd]. rewrite (proj2 (Z.eqb_neq _ _)) by done.
    split; [done|]. intros loc Hloc. case_decide as Hw; [|done]. destruct Hw as [Hw1 Hw2].
    rewrite Hrd by (unfold CACHE_READY, CACHE_DIRTY, CACHE_NOTREADY in *; lia).
    rewrite disk_get by zdml. cbn. f_equal. rewrite <- Hw2. zdml. }
  destruct (decide (cache_state p = CACHE_DIRTY)) as [Hd|Hd].
  - assert (0 <= in_cache p < n) as Hi by (apply Hin; by rewrite Hd).
    destruct (write_back_ok p ((first_sect p + in_cache p) * 512) st Hb Hf Hd) as (st' & E & Hb' & Hf' & Hw);
      [by eapply pos_small; [| |lia|]|lia|lia|done|done|].
    exists st'. split; [done|]. split; [done|]. split; [done|]. split.
    + intros loc Hloc. rewrite Hw by lia. unfold window. cbn [fst snd]. rewrite Hd.
      set (k := first_sect p * 512 + loc - (first_sect p + in_cache p) * 512).
      case_decide as Hc2.
      * destruct Hc2 as [_ Hc2]. assert (k = loc mod 512) as -> by (subst k; zdml).
        destruct (zget_is_Some (cache p) (loc mod 512)) as [v ->]; [rewrite Hlen; zdml|]. done.
      * assert (~ (0 <= k < 512)) as Hk by (intros Hk; apply Hc2; split; [done|]; subst k; zdml).
        by rewrite (proj2 (zget_None (cache p) k)) by lia.
    + intros l [Hl1 Hl2]. rewrite Hw by lia. rewrite (proj2 (zget_None _ _)); [done|]. lia.
  - destruct (Hclean Hd) as [E Hw]. exists st. by repeat (split; [done|]).
Qed.

Lemma load_ok n p sect st : window_ok n (p, st) -> 0 <= sect < n -> exists p' st',
  load_sector p sect st = Some (p', st') /\ window_ok n (p', st') /\
  in_cache p' = sect /\ cache_state p' <> CACHE_NOTREADY /\ first_sect p' = first_sect p /\
  (forall loc, 0 <= loc < n * 512 -> window (p', st') loc = window (p, st) loc) /\
  forall l, outside p l -> vol_byte (world st') l = vol_byte (world st) l.
Proof.
  intros Hw Hs. unfold load_sector. destruct ((cache_state p =? CACHE_NOTREADY) || negb (sect =? in_cache p)) eqn:E.
  - destruct (flush_window n p st Hw) as (st1 & -> & Hb1 & Hf1 & Hv1 & Ho1).
    destruct Hw as [Hb Hf Hc H0 Hfit Hlen Hby Hst Hin Hrd]. cbn [fst snd] in *. pose proof (bo_range _ _ Hb) as Hsz.
    cbn [mbind option_bind]. rewrite (pos_small p sect n) by (done || lia).
    destruct (seek_read_ok' _ (fd p) ((first_sect p + sect) * 512) 512 st1 Hb1 Hf1)
      as (st2 & -> & Hb2 & Hf2 & _); [lia|done|lia|].
    cbn [mbind option_bind]. set (l := disk _ _ _). assert (zlen l = 512) as Hl by by apply disk_len.
    rewrite drop_ge, app_nil_r by (unfold zlen in *; lia).
    exists (with_cache p sect l CACHE_READY), st2. split; [done|].
    assert (forall k, 0 <= k < sz -> vol_byte (world st2) k = vol_byte (world st1) k) as Hv2 by apply Hb2.
    split; [|split; [done|split; [done|split; [done|split]]]].
    + split; cbn [fst snd with_cache fd first_sect sect_count in_cache cache cache_state pguid]; try done.
      * by eapply base_ok_self.
      * apply (disk_bytes _ _ _ sz); [|lia|lia]. intros k Hk. by eapply (bo_is_byte _ st1).
      * intros _. subst l. apply (disk_ext _ _ _ _ sz); [|lia|lia]. intros k Hk. by rewrite Hv2.
    + intros loc Hloc. rewrite <- Hv1 by done. unfold window. cbn [fst snd with_cache first_sect in_cache cache cache_state].
      case_decide as Hd; [|apply Hv2; lia]. destruct Hd as [_ Hd]. subst l. rewrite disk_get by zdml. cbn.
      f_equal. rewrite <- Hd. zdml.
    + intros k Hk. rewrite Hv2 by apply Hk. by apply Ho1.
  - apply orb_false_elim in E as [E1 E2]. bsimp. exists p, st. by subst.
Qed.

(** The byte read and the byte stored, once the sector is in the cache. *)
Lemma read_loaded n p p' loc st st' : load_sector p (loc / 512) st = Some (p', st') -> window_ok n (p', st') ->
  in_cache p' = loc / 512 -> cache_state p' <> CACHE_NOTREADY ->
  partitioned_medium_io_wrapper loc 0 0 (p, st) = Some (window (p', st') loc, (p', st')).
Proof.
  intros E Hw Hi Hc. unfold partitioned_medium_io_wrapper. cbn [fst snd]. rewrite E.
  cbn [mbind option_bind]. change (0 =? 0) with true. cbv iota.
  pose proof (wo_len _ _ Hw) as Hlen. cbn [fst snd] in Hlen.
  destruct (zget_is_Some (cache p') (loc mod 512)) as [v Ev]; [rewrite Hlen; zdml|].
  rewrite Ev. cbn [mbind option_bind]. f_equal. f_equal. unfold window. cbn [fst snd].
  rewrite decide_True by done. by rewrite Ev.
Qed.

Lemma write_loaded n p p' loc v st st' : load_sector p (loc / 512) st = Some (p', st') -> window_ok n (p', st') ->
  in_cache p' = loc / 512 -> cache_state p' <> CACHE_NOTREADY -> 0 <= loc < n * 512 -> is_byte v -> exists p2,
  partitioned_medium_io_wrapper loc 1 v (p, st) = Some (0, (p2, st')) /\ window_ok n (p2, st') /\
  first_sect p2 = first_sect p' /\
  forall l, 0 <= l < n * 512 -> window (p2, st') l = if decide (l = loc) then v else window (p', st') l.
Proof.
  intros E Hw Hi Hc Hl Hby. unfold partitioned_medium_io_wrapper. cbn [fst snd]. rewrite E.
  cbn [mbind option_bind]. change (1 =? 0) with false. change (1 =? 1) with true. cbv iota.
  pose proof (wo_len _ _ Hw) as Hlen. cbn [fst snd] in Hlen.
  assert (zset (cache p') (loc mod 512) v = Some (<[Z.to_nat (loc mod 512):=v]> (cache p'))) as Ez
    by (apply zset_ok; rewrite Hlen; zdml).
  rewrite Ez. cbn [mbind option_bind]. eexists. split; [done|].
  set (p2 := with_cache _ _ _ _). pose proof Hw as [H1 H2 H3 H4 H5 _ H7 H8 H9 H10]. cbn [fst snd] in *.
  split; [|split; [done|]].
  - split; cbn; try done.
    + by rewrite zlen_insert.
    + by apply Forall_insert.
    + intros _. rewrite Hi. zdml.
  - intros l Hl'. unfold window. cbn [fst snd p2 with_cache cache_state in_cache cache first_sect].
    rewrite Hi.
    destruct (decide (l / 512 = loc / 512)) as [Hd|Hd].
    + rewrite decide_True by done. rewrite (zget_zset _ _ _ _ _ Ez).
      destruct (decide (l = loc)) as [->|Hne]; [by rewrite decide_True|].
      rewrite decide_False by zdml. by rewrite decide_True.
    + rewrite decide_False by tauto. rewrite (decide_False (P := l = loc)) by (intros ->; done).
      by rewrite decide_False by tauto.
Qed.

Lemma wrapper_read n w loc : window_ok n w -> 0 <= loc < n * 512 -> exists w',
  partitioned_medium_io_wrapper loc 0 0 w = Some (window w loc, w') /\ window_ok n w' /\
  first_sect w'.1 = first_sect w.1 /\
  (forall l, 0 <= l < n * 512 -> window w' l = window w l) /\
  forall l, outside w.1 l -> vol_byte (world w'.2) l = vol_byte (world w.2) l.
Proof.
  intros Hw Hl. destruct w as [p st].
  destruct (load_ok n p (loc / 512) st Hw ltac:(zdml)) as (p' & st' & E & Hw' & Hi & Hc & Hf & Hv & Ho).
  exists (p', st'). split; [|done]. rewrite (read_loaded n p p' loc st st') by done. by rewrite Hv.
Qed.

Lemma wrapper_write n w loc v : window_ok n w -> 0 <= loc < n * 512 -> is_byte v -> exists w',
  partitioned_medium_io_wrapper loc 1 v w = Some (0, w') /\ window_ok n w' /\
  first_sect w'.1 = first_sect w.1 /\
  (forall l, 0 <= l < n * 512 -> window w' l = if decide (l = loc) then v else window w l) /\
  forall l, outside w.1 l -> vol_byte (world w'.2) l = vol_byte (world w.2) l.
Proof.
  intros Hw Hl Hby. destruct w as [p st].
  destruct (load_ok n p (loc / 512) st Hw ltac:(zdml)) as (p' & st' & E & Hw' & Hi & Hc & Hf & Hv & Ho).
  destruct (write_loaded n p p' loc v st st' E Hw' Hi Hc Hl Hby) as (p2 & E2 & Hw2 & Hf2 & Hv2).
  exists (p2, st'). split; [done|]. split; [done|]. split; [cbn [fst snd] in *; congruence|]. split; [|done].
  intros l Hl'. by rewrite Hv2, Hv.
Qed.

(** A partition is itself a volume, whatever the disk below. *)
#[export] Program Instance partition_volume (n : Z) : Volume partitioned_medium_io_wrapper (n * 512) := {
  vol_ok w := window_ok n w;
  vol_byte w loc := window w loc
}.
Next Obligation.
  intros n w loc Hw Hl. destruct (wrapper_read n w loc Hw Hl) as (w' & _ & Hw' & Hf & Hv & _).
  unfold window. case_decide as Hd.
  - destruct (zget_is_Some (cache w.1) (loc mod 512)) as [v Ev]; [rewrite (wo_len _ _ Hw); zdml|].
    rewrite Ev. cbn. rewrite zget_lookup in Ev by zdml. eapply Forall_lookup_1; [apply Hw|exact Ev].
  - apply vol_is_byte; [apply (wo_base _ _ Hw)|]. pose proof (wo_fits _ _ Hw). pose proof (wo_first _ _ Hw). lia.
Qed.
Next Obligation.
  intros n w loc Hw Hl. destruct (wrapper_read n w loc Hw Hl) as (w' & E & Hw' & _ & Hv & _). by exists w'.
Qed.
Next Obligation.
  intros n w loc v Hw Hl Hb. destruct (wrapper_write n w loc v Hw Hl Hb) as (w' & E & Hw' & _ & Hv & _). by exists w'.
Qed.

Lemma run_window n rs w : window_ok n w -> Forall (in_range (n * 512)) rs -> exists vs w',
  run_requests partitioned_medium_io_wrapper rs w = Some (vs, w') /\ window_ok n w' /\
  vs = (run_array rs (window w)).1 /\
  (forall l, 0 <= l < n * 512 -> window w' l = (run_array rs (window w)).2 l) /\
  forall l, outside w.1 l -> vol_byte (world w'.2) l = vol_byte (world w.2) l.
Proof.
  intros Hw Hr. revert w Hw. induction Hr as [|r rs H Hr IH]; intros w Hw; [by exists [], w|].
  cbn [run_requests]. destruct r as [loc|loc v]; cbn [in_range run_array fst snd] in *.
  - destruct (wrapper_read n w loc Hw H) as (w1 & -> & Hw1 & Hf1 & Hv1 & Ho1). cbn [mbind option_bind].
    destruct (IH w1 Hw1) as (vs & w2 & -> & Hw2 & -> & Hv2 & Ho2). cbn [mbind option_bind].
    destruct (run_array_ext rs (window w1) (window w) (n * 512) Hr Hv1) as [E1 E2].
    eexists _, w2. split; [done|]. split; [done|]. split; [by rewrite E1|]. split.
    + intros l Hl. by rewrite Hv2, E2.
    + intros l Hl. rewrite Ho2, Ho1; [done|exact Hl|]. unfold outside in *.
      by rewrite Hf1, (wo_count _ _ Hw1), <- (wo_count _ _ Hw).
  - destruct H as [H Hb].
    destruct (wrapper_write n w loc v Hw H Hb) as (w1 & -> & Hw1 & Hf1 & Hv1 & Ho1). cbn [mbind option_bind].
    destruct (IH w1 Hw1) as (vs & w2 & -> & Hw2 & -> & Hv2 & Ho2). cbn [mbind option_bind].
    destruct (run_array_ext rs (window w1) (fun l => if decide (l = loc) then v else window w l) (n * 512) Hr Hv1)
      as [E1 E2].
    eexists _, w2. split; [done|]. split; [done|]. split; [by rewrite E1|]. split.
    + intros l Hl. by rewrite Hv2, E2.
    + intros l Hl. rewrite Ho2, Ho1; [done|exact Hl|]. unfold outside in *.
      by rewrite Hf1, (wo_count _ _ Hw1), <- (wo_count _ _ Hw).
Qed.

(** ** The first request of a registered partition *)

(** A partition as it is registered ([made_fresh]): [in_cache] is -1; [cache_state] and
    the cache are whatever the uninitialised [struct part] held. *)
Record fresh (n : Z) (w : part * state W) : Prop := {
  fr_base : base_ok (vol_byte (world w.2)) w.2;
  fr_fd : fd_ok (fd w.1) w.2;
  fr_count : sect_count w.1 = n;
  fr_size : 0 <= n;
  fr_first : 1 <= first_sect w.1;
  fr_fits : (first_sect w.1 + n) * 512 <= sz;
  fr_len : zlen (cache w.1) = 512;
  fr_bytes : Forall is_byte (cache w.1);
  fr_in : in_cache w.1 = 2 ^ 64 - 1
}.

Lemma made_fresh junk e i st b : made junk e i st b -> base_ok (vol_byte (world st)) st -> 0 <= sect_count (ppart b) ->
  1 <= first_sect (ppart b) -> (first_sect (ppart b) + sect_count (ppart b)) * 512 <= sz ->
  zlen (cache junk) = 512 -> Forall is_byte (cache junk) -> fresh (sect_count (ppart b)) (ppart b, st).
Proof. intros [H1 H2 H3 H4 H5 H6 H7] Hb Hn Hf Hs Hl Hj. split; cbn [fst snd]; try done; try (by rewrite ?H5, ?H6). Qed.

(** The disk after a first request: the junk of a cache that was taken for dirty is in
    the sector before the partition. *)
Definition spilled (p : part) (f : Z -> Z) (l : Z) : Z :=
  if cache_state p =? CACHE_DIRTY then default (f l) (zget (cache p) (l - (first_sect p - 1) * 512)) else f l.

Lemma fresh_flush n p st : fresh n (p, st) -> exists st', flush_sector p st = Some st' /\
  base_ok (vol_byte (world st')) st' /\ fd_ok (fd p) st' /\
  forall l, 0 <= l < sz -> vol_byte (world st') l = spilled p (vol_byte (world st)) l.
Proof.
  intros [Hb Hf Hc Hn H1 Hfit Hlen Hby Hin]. cbn [fst snd] in *. pose proof (bo_range _ _ Hb) as Hsz.
  unfold spilled. destruct (Z.eqb_spec (cache_state p) CACHE_DIRTY) as [Hd|Hd].
  - apply (write_back_ok p ((first_sect p - 1) * 512)); try done; [rewrite Hin; unfold sector_pos, u64; zdml|lia|lia].
  - exists st. unfold flush_sector. rewrite (proj2 (Z.eqb_neq _ _)) by done. done.
Qed.

Lemma fresh_load n p sect st : fresh n (p, st) -> 0 <= sect < n -> exists p' st',
  load_sector p sect st = Some (p', st') /\ window_ok n (p', st') /\
  in_cache p' = sect /\ cache_state p' <> CACHE_NOTREADY /\ first_sect p' = first_sect p /\
  (forall loc, 0 <= loc < n * 512 -> window (p', st') loc = vol_byte (world st) (first_sect p * 512 + loc)) /\
  forall l, outside p l -> vol_byte (world st') l = spilled p (vol_byte (world st)) l.
Proof.
  intros Hw Hs. destruct (fresh_flush n p st Hw) as (st1 & E1 & Hb1 & Hf1 & Hv1).
  destruct Hw as [Hb Hf Hc Hn H0 Hfit Hlen Hby Hin]. cbn [fst snd] in *. pose proof (bo_range _ _ Hb) as Hsz.
  unfold load_sector. assert ((cache_state p =? CACHE_NOTREADY) || negb (sect =? in_cache p) = true) as ->
    by (rewrite (proj2 (Z.eqb_neq sect _)) by (rewrite Hin; lia); apply orb_true_r).
  rewrite E1. cbn [mbind option_bind]. rewrite (pos_small p sect n) by (done || lia).
  destruct (seek_read_ok' _ (fd p) ((first_sect p + sect) * 512) 512 st1 Hb1 Hf1)
    as (st2 & -> & Hb2 & Hf2 & _); [lia|done|lia|].
  cbn [mbind option_bind]. set (l := disk _ _ _). assert (zlen l = 512) as Hl by by apply disk_len.
  rewrite drop_ge, app_nil_r by (unfold zlen in *; lia).
  exists (with_cache p sect l CACHE_READY), st2. split; [done|].
  assert (forall k, 0 <= k < sz -> vol_byte (world st2) k = vol_byte (world st1) k) as Hv2 by apply Hb2.
  split; [|split; [done|split; [done|split; [done|split]]]].
  - split; cbn [fst snd with_cache fd first_sect sect_count in_cache cache cache_state pguid]; try done; [|lia| |].
    + by eapply base_ok_self.
    + apply (disk_bytes _ _ _ sz); [|lia|lia]. intros k Hk. by eapply (bo_is_byte _ st1).
    + intros _. subst l. apply (disk_ext _ _ _ _ sz); [|lia|lia]. intros k Hk. by rewrite Hv2.
  - intros loc Hloc. assert (vol_byte (world st1) (first_sect p * 512 + loc) = vol_byte (world st) (first_sect p * 512 + loc)) as E.
    { rewrite Hv1 by lia. unfold spilled. destruct (_ =? _); [|done]. by rewrite (proj2 (zget_None (cache p) _)) by lia. }
    rewrite <- E. unfold window. cbn [fst snd with_cache first_sect in_cache cache cache_state].
    case_decide as Hd; [|apply Hv2; lia]. destruct Hd as [_ Hd]. subst l. rewrite disk_get by zdml. cbn.
    f_equal. rewrite <- Hd. zdml.
  - intros k Hk. rewrite Hv2 by apply Hk. apply Hv1, Hk.
Qed.

Definition answer (f : Z -> Z) (r : request) : Z := match r with Get loc => f loc | Put _ _ => 0 end.
Definition updated (f : Z -> Z) (r : request) (l : Z) : Z :=
  match r with Get _ => f l | Put loc v => if decide (l = loc) then v else f l end.
Lemma run_array_cons r rs f : run_array (r :: rs) f = (answer f r :: (run_array rs (updated f r)).1, (run_array rs (updated f r)).2).
Proof using. by destruct r. Qed.

Lemma fresh_request n r w : fresh n w -> in_range (n * 512) r -> exists w',
  match r with
  | Get loc => partitioned_medium_io_wrapper loc 0 0 w
  | Put loc v => partitioned_medium_io_wrapper loc 1 v w
  end = Some (answer (fun l => vol_byte (world w.2) (first_sect w.1 * 512 + l)) r, w') /\ window_ok n w' /\
  first_sect w'.1 = first_sect w.1 /\
  (forall l, 0 <= l < n * 512 -> window w' l = updated (fun l => vol_byte (world w.2) (first_sect w.1 * 512 + l)) r l) /\
  forall l, outside w.1 l -> vol_byte (world w'.2) l = spilled w.1 (vol_byte (world w.2)) l.
Proof.
  intros Hw Hr. destruct w as [p st].
  assert (exists loc, 0 <= loc < n * 512 /\ match r with Get l => l = loc | Put l _ => l = loc end) as (loc & Hloc & Hl)
    by (destruct r as [l|l v]; exists l; [|destruct Hr]; done).
  destruct (fresh_load n p (loc / 512) st Hw ltac:(zdml)) as (p' & st' & E & Hw' & Hi & Hc & Hf & Hv & Ho).
  destruct r as [l|l v]; subst l; cbn [answer updated].
  - exists (p', st'). split; [|done]. rewrite (read_loaded n p p' loc st st') by done. by rewrite Hv.
  - destruct Hr as [_ Hby]. destruct (write_loaded n p p' loc v st st' E Hw' Hi Hc Hloc Hby) as (p2 & E2 & Hw2 & Hf2 & Hv2).
    exists (p2, st'). split; [done|]. split; [done|]. split; [cbn [fst snd] in *; congruence|]. split; [|done].
    intros l Hl'. rewrite Hv2, Hv by done. done.
Qed.

Lemma run_fresh n rs w : fresh n w -> Forall (in_range (n * 512)) rs -> rs <> [] -> let f := fun l => vol_byte (world w.2) (first_sect w.1 * 512 + l) in
  exists vs w', run_requests partitioned_medium_io_wrapper rs w = Some (vs, w') /\ window_ok n w' /\
  vs = (run_array rs f).1 /\
  (forall l, 0 <= l < n * 512 -> window w' l = (run_array rs f).2 l) /\
  forall l, outside w.1 l -> vol_byte (world w'.2) l = spilled w.1 (vol_byte (world w.2)) l.
Proof.
  intros Hw Hrs Hne f. destruct rs as [|r rs]; [done|]. apply Forall_cons in Hrs as [Hr Hrs].
  destruct (fresh_request n r w Hw Hr) as (w1 & E1 & Hw1 & Hf1 & Hv1 & Ho1). fold f in E1, Hv1.
  destruct (run_window n rs w1 Hw1 Hrs) as (vs & w' & E & Hw' & Evs & Hv & Ho).
  destruct (run_array_ext rs (window w1) (updated f r) (n * 512) Hrs Hv1) as [A1 A2].
  exists (answer f r :: vs), w'. split; [|split; [done|split; [|split]]].
  - cbn [run_requests]. rewrite E1. cbn [mbind option_bind]. by rewrite E.
  - rewrite run_array_cons. cbn [fst]. by rewrite Evs, A1.
  - intros l Hl. rewrite run_array_cons. cbn [snd]. by rewrite Hv, A2.
  - intros l Hl. rewrite Ho, Ho1; [done|exact Hl|]. unfold outside in *.
    by rewrite Hf1, (wo_count _ _ Hw1), <- (fr_count _ _ Hw).
Qed.

End Medium.

(** * Properties *)

(** C11: The driver of a partition is a window of the disk, from its registration on.  For
    a partition that [add_partitioned_medium] has just registered, inside a disk below
    2 GiB and not at its sector 0, any sequence of reads and writes within the partition
    answers as an array of bytes that starts as the partition's part of the disk, through
    the sector cache and its delayed writes.  No byte of the disk outside of the
    partition changes, with one exception: the registration leaves [cache_state] as the
    uninitialised stack had it, and when that is [CACHE_DIRTY] the first request stores
    the junk in the cache over the sector before the partition. *)
Theorem partition_driver_refines {W : Type} {io : Z -> Z -> Z -> W -> option (Z * W)} {sz : Z}
    (V : Volume io sz) (path : list Z) (di n : Z) (d : device_t W) (rs : list request) (w : part * state W) :
  fresh path di d n w -> Forall (in_range (n * 512)) rs -> rs <> [] ->
  let f := fun l => vol_byte (world w.2) (first_sect w.1 * 512 + l) in exists vs w',
    run_requests partitioned_medium_io_wrapper rs w = Some (vs, w') /\ window_ok path di d n w' /\
    vs = (run_array rs f).1 /\
    (forall l, 0 <= l < n * 512 -> window w' l = (run_array rs f).2 l) /\
    (cache_state w.1 <> CACHE_DIRTY -> forall l, outside (sz := sz) w.1 l -> vol_byte (world w'.2) l = vol_byte (world w.2) l) /\
    (cache_state w.1 = CACHE_DIRTY -> forall l, outside (sz := sz) w.1 l -> vol_byte (world w'.2) l =
       if decide ((first_sect w.1 - 1) * 512 <= l < first_sect w.1 * 512)
       then default 0 (zget (cache w.1) (l - (first_sect w.1 - 1) * 512)) else vol_byte (world w.2) l).
Proof.
  intros Hw Hrs Hne f. destruct (run_fresh path di d n rs w Hw Hrs Hne) as (vs & w' & E & Hw' & Hvs & Hv & Ho).
  exists vs, w'. do 4 (split; [done|]). unfold spilled in Ho. pose proof (fr_len _ _ _ _ _ Hw) as Hlen. split; intros Hd l Hl; rewrite Ho by done.
  - by rewrite (proj2 (Z.eqb_neq _ _)).
  - rewrite (proj2 (Z.eqb_eq _ _)) by done. case_decide as Hin.
    + by destruct (zget_is_Some (cache w.1) (l - (first_sect w.1 - 1) * 512)) as [v ->]; [lia|].
    + by rewrite (proj2 (zget_None _ _)) by lia.
Qed.

(** C33: [add_partitioned_medium] terminates on a partitioned disk and registers
    its table: if entry [n] is the end of the table and every entry below is a
    partition or empty, [n + 1] turns are enough, the result is 0, and the devices
    registered are exactly the nonempty entries in order, each with its name,
    extent, identifier and size, and its own open handle of the disk. *)
Theorem add_partitioned_medium_correct {W : Type} {io : Z -> Z -> Z -> W -> option (Z * W)} {sz : Z}
    (V : Volume io sz) (path : list Z) (di : Z) (d : device_t W) (f : Z -> Z) (junk : part) (n fuel : nat)
    (st : state W) :
  base_ok path di d f st -> zlen path < 30 -> table_fits f sz -> Z.of_nat n < 2 ^ 31 -> (n < fuel)%nat ->
  (forall j, 0 <= j < Z.of_nat n -> part_spec f j <> Invalid /\ part_spec f j <> EndOfTable) ->
  part_spec f (Z.of_nat n) = EndOfTable -> exists st' ps,
    add_partitioned_medium fuel junk path st = Some (Some 0, (st', ps)) /\ base_ok path di d f st' /\
    Forall2 (fun j p => made (sz := sz) path di junk (part_spec f j) j st' p) (found_indices f 0 n) ps.
Proof.
  intros Hb Hp Ht Hn Hf Hj He.
  destruct (add_loop_ok path di d f junk n fuel 0 st [] Hb Hp Ht) as (st' & ps & E & Hb' & _ & Hps);
    [done|lia|done|exact Hj|exact He|].
  by exists st', ps.
Qed.

(** On a disk without a partition table [add_partitioned_medium] never
    returns: [get_part] answers -1, which is [NO_PARTITION], so that the loop
    always goes on to the next index.  Whatever the number of turns, it is still
    running, and has registered nothing. *)
Theorem add_partitioned_medium_diverges {W : Type} {io : Z -> Z -> Z -> W -> option (Z * W)} {sz : Z}
    (V : Volume io sz) (path : list Z) (di : Z) (d : device_t W) (f : Z -> Z) (junk : part) (st : state W) :
  base_ok path di d f st -> zlen path < 30 -> no_table f -> forall fuel, exists st',
    add_partitioned_medium fuel junk path st = Some (None, (st', [])).
Proof.
  intros Hb Hp Hn fuel. destruct (add_loop_invalid path di d f junk fuel 0 st [] Hb Hp Hn) as (st' & E & _).
  by exists st'.
Qed.

(** A registered partition starts with [in_cache] = -1 and a [cache_state]
    that was never initialised.  If the stack held [CACHE_DIRTY], the first read
    of the partition writes 512 bytes of that junk over the disk sector before the
    partition. *)
Theorem junk_cache_overwrites {W : Type} {io : Z -> Z -> Z -> W -> option (Z * W)} {sz : Z}
    (V : Volume io sz) (path : list Z) (di loc : Z) (d : device_t W) (p : part) (st : state W) :
  base_ok path di d (vol_byte (world st)) st -> fd_ok (sz := sz) di (fd p) st ->
  in_cache p = 2 ^ 64 - 1 -> cache_state p = CACHE_DIRTY ->
  zlen (cache p) = 512 -> Forall is_byte (cache p) ->
  1 <= first_sect p -> (first_sect p + sect_count p) * 512 <= sz -> 0 <= loc < sect_count p * 512 ->
  exists v p' st', partitioned_medium_io_wrapper loc 0 0 (p, st) = Some (v, (p', st')) /\
    forall k, 0 <= k < 512 ->
      Some (vol_byte (world st') ((first_sect p - 1) * 512 + k)) = zget (cache p) k.
Proof.
  intros Hb Hf Hi Hs Hlen Hby H1 Hfit Hloc. pose proof (bo_range _ _ _ _ _ Hb) as Hsz.
  unfold partitioned_medium_io_wrapper, load_sector. cbn [fst snd]. rewrite Hs, Hi.
  rewrite (proj2 (Z.eqb_neq (loc / 512) (2 ^ 64 - 1))) by zdml. rewrite orb_true_r.
  destruct (write_back_ok path di d p ((first_sect p - 1) * 512) st Hb Hf Hs) as (st1 & -> & Hb1 & Hf1 & Hw1);
    [rewrite Hi; unfold sector_pos, u64; zdml|lia|lia|done|done|].
  cbn [mbind option_bind]. rewrite (pos_small (sz := sz) p (loc / 512) (sect_count p)) by (lia || zdml).
  destruct (seek_read_ok' path di d _ (fd p) ((first_sect p + loc / 512) * 512) 512 st1 Hb1 Hf1)
    as (st2 & -> & Hb2 & _); [zdml|done|zdml|].
  cbn [mbind option_bind]. set (l := disk _ _ _). assert (zlen l = 512) as Hl by by apply disk_len.
  rewrite drop_ge, app_nil_r by (unfold zlen in *; lia). change (0 =? 0) with true. cbv iota.
  cbn [cache with_cache]. destruct (zget_is_Some l (loc mod 512)) as [v Ev]; [rewrite Hl; zdml|].
  rewrite Ev. cbn [mbind option_bind]. exists v. eexists _, st2. split; [done|].
  intros k Hk. rewrite (bo_bytes _ _ _ _ _ Hb2) by lia. rewrite Hw1 by lia.
  replace ((first_sect p - 1) * 512 + k - (first_sect p - 1) * 512) with k by lia.
  destruct (zget_is_Some (cache p) k ltac:(lia)) as [x ->]. done.
Qed.

(** * Witnesses *)

(** A memory disk of two sectors whose MBR holds one partition, the second
    sector; and one whose first sector is not a table. *)
Definition demo_disk : list Z :=
  <[450%nat := 131]> (<[454%nat := 1]> (<[458%nat := 1]> (replicate 1024 0))).
Definition demo_raw : list Z := <[444%nat := 17]> (replicate 1024 0).
Definition demo_dev : device_t (list Z) := MkDevice [98] 7 1024 (fun _ => ram_io).
Definition demo_state (l : list Z) (hs : list devfs_handle_t) : state (list Z) := MkState hs [demo_dev] l 0.
Definition demo_handle : devfs_handle_t := MkHandle 0 [98] 2 0 0 0 1024 0 0.
Definition demo_bytes (l : list Z) (k : Z) : Z := default 0 (zget l k).
Definition demo_part (s : Z) : part :=
  MkPart 0 1 1 (2 ^ 64 - 1) (replicate 512 7) s empty_guid.

#[local] Existing Instance ram_volume.

Lemma demo_vol l : zlen l = 1024 -> Forall is_byte l -> vol_ok (Volume := ram_volume 1024) l.
Proof. intros H1 H2. by split. Qed.

Lemma demo_base l hs : zlen l = 1024 -> Forall is_byte l ->
  base_ok (V := ram_volume 1024) [98] 0 demo_dev (demo_bytes l) (demo_state l hs).
Proof. intros H1 H2. by split. Qed.

Lemma demo_disk_ok : zlen demo_disk = 1024 /\ Forall is_byte demo_disk.
Proof.
  split; [done|]. unfold demo_disk. repeat (apply Forall_insert; [|done]). by apply Forall_replicate.
Qed.
Lemma demo_raw_ok : zlen demo_raw = 1024 /\ Forall is_byte demo_raw.
Proof.
  split; [done|]. unfold demo_raw. repeat (apply Forall_insert; [|done]). by apply Forall_replicate.
Qed.

Lemma demo_fd l : fd_ok (sz := 1024) 0 0 (demo_state l [demo_handle]).
Proof. exists demo_handle. split; [by split|]. split; [|done]. split; cbn; (done || lia). Qed.

Lemma demo_entry j : 0 <= j < 4 ->
  part_spec (demo_bytes demo_disk) j <> Invalid /\ part_spec (demo_bytes demo_disk) j <> EndOfTable.
Proof.
  intros Hj. assert (j = 0 \/ j = 1 \/ j = 2 \/ j = 3) as H by lia.
  repeat destruct H as [->|H]; [..|subst]; split; vm_compute; discriminate.
Qed.

Lemma demo_fresh c : fresh (V := ram_volume 1024) [98] 0 demo_dev 1 (demo_part c, demo_state demo_disk [demo_handle]).
Proof.
  destruct demo_disk_ok as [H1 H2]. split; cbn [fst snd].
  - by apply demo_base.
  - apply demo_fd.
  - done.
  - done.
  - cbn. lia.
  - cbn. lia.
  - done.
  - by apply Forall_replicate.
  - done.
Qed.

(** Whatever the stack held, the answers are those of the disk; with [CACHE_DIRTY] the
    first byte of the disk, of the sector before the partition, is lost. *)
Lemma partition_driver_refines_witness :
  (exists w', run_requests partitioned_medium_io_wrapper [Put 3 65; Get 3; Get 4]
    (demo_part 77, demo_state demo_disk [demo_handle]) = Some ([0; 65; 0], w') /\ demo_bytes (world w'.2) 0 = 0) /\
  exists w', run_requests partitioned_medium_io_wrapper [Put 3 65; Get 3; Get 4]
    (demo_part CACHE_DIRTY, demo_state demo_disk [demo_handle]) = Some ([0; 65; 0], w') /\ demo_bytes (world w'.2) 0 = 7.
Proof.
  assert (Forall (in_range (1 * 512)) [Put 3 65; Get 3; Get 4]) as Hr
    by (constructor; [|constructor; [|constructor; [|constructor]]]; cbn; unfold is_byte; lia).
  split.
  - destruct (partition_driver_refines (ram_volume 1024) [98] 0 1 demo_dev [Put 3 65; Get 3; Get 4]
      (demo_part 77, demo_state demo_disk [demo_handle]) (demo_fresh 77) Hr) as (vs & w' & E & _ & -> & _ & Ho & _); [discriminate|].
    exists w'. split; [exact E|]. apply Ho; [discriminate|]. unfold outside. cbn. lia.
  - destruct (partition_driver_refines (ram_volume 1024) [98] 0 1 demo_dev [Put 3 65; Get 3; Get 4]
      (demo_part CACHE_DIRTY, demo_state demo_disk [demo_handle]) (demo_fresh CACHE_DIRTY) Hr) as (vs & w' & E & _ & -> & _ & _ & Ho); [discriminate|].
    exists w'. split; [exact E|]. apply (Ho eq_refl 0). unfold outside. cbn. lia.
Defined.

Lemma add_partitioned_medium_correct_witness : exists st' ps,
  add_partitioned_medium 5 (demo_part 0) [98] (demo_state demo_disk []) = Some (Some 0, (st', ps)) /\
  length ps = 1%nat.
Proof.
  destruct (add_partitioned_medium_correct (ram_volume 1024) [98] 0 demo_dev (demo_bytes demo_disk)
    (demo_part 0) 4 5 (demo_state demo_disk [])) as (st' & ps & E & _ & H).
  - apply demo_base; apply demo_disk_ok.
  - reflexivity.
  - intros Hs. exfalso. revert Hs. vm_compute. discriminate.
  - reflexivity.
  - lia.
  - exact demo_entry.
  - vm_compute. reflexivity.
  - exists st', ps. split; [exact E|]. rewrite <- (Forall2_length _ _ _ H). vm_compute. reflexivity.
Defined.

Lemma add_partitioned_medium_diverges_witness : exists st',
  add_partitioned_medium 20 (demo_part 0) [98] (demo_state demo_raw []) = Some (None, (st', [])).
Proof.
  apply (add_partitioned_medium_diverges (ram_volume 1024) [98] 0 demo_dev (demo_bytes demo_raw)).
  - apply demo_base; apply demo_raw_ok.
  - reflexivity.
  - split; [vm_compute; discriminate|]. split; vm_compute; discriminate.
Defined.

Lemma junk_cache_overwrites_witness : exists v p' st',
  partitioned_medium_io_wrapper 0 0 0 (demo_part CACHE_DIRTY, demo_state demo_disk [demo_handle]) =
    Some (v, (p', st')) /\
  forall k, 0 <= k < 512 -> Some (demo_bytes (world st') (0 * 512 + k)) = zget (replicate 512 7) k.
Proof.
  apply (junk_cache_overwrites (ram_volume 1024) [98] 0 0 demo_dev (demo_part CACHE_DIRTY)
    (demo_state demo_disk [demo_handle])); try reflexivity.
  - apply demo_base; apply demo_disk_ok.
  - apply demo_fd.
  - apply Forall_replicate. split; [discriminate|reflexivity].
  - cbn. lia.
Defined.

End Part.
