(* ===== verification/Echfs.v ===== *)
(** * The echidna file system: [kernel/src/fs/echfs.c]

    An echfs volume is a block device of 32 KiB blocks: 16 reserved blocks, the
    allocation table (one 64-bit word per block), the directory table (256-byte
    entries), then the data.

    The file system reaches its device in two ways, through [vfs_kread] and
    [vfs_kwrite] on the device's path and through a kernel handle it seeks, reads
    and writes.  Both are operations of the interface [BlockDev]; its laws
    [BlockDevLaws] are those of a volume below 2 GiB, and a byte image satisfies them
    (instance [image_laws]).

    A computation over the device is an [ST W]: [None] is a panic, an access
    outside of a buffer, or a loop that did not end within its fuel. *)

From S2P Require Import Prelude Dev.
Local Open Scope Z_scope.
Local Open Scope st_scope.

(** What the file system calls. *)
Class BlockDev (W : Type) := {
  vfs_kread : Z -> ST W Z;                       (** at a location *)
  vfs_kwrite : Z -> Z -> ST W Z;                 (** location, byte *)
  kseek_uread : Z -> Z -> Z -> ST W (list Z);    (** handle, (int) offset, length *)
  kseek_uwrite : Z -> Z -> list Z -> ST W Z;     (** handle, (int) offset, bytes *)
  vfs_kopen : ST W Z;
  vfs_kclose : Z -> ST W Z;
  vfs_kfork : Z -> ST W Z
}.

(** A volume of [sz] bytes, below 2 GiB: reads return its bytes and change none,
    writes change the bytes written. *)
Class BlockDevLaws {W : Type} (D : BlockDev W) (sz : Z) := {
  bd_ok : W -> Prop;
  img : W -> Z -> Z;
  bd_small : sz < 2 ^ 31;
  img_byte w l : bd_ok w -> 0 <= l < sz -> is_byte (img w l);
  kread_ok w l : bd_ok w -> 0 <= l < sz -> exists w',
    vfs_kread l w = Some (img w l, w') /\ bd_ok w' /\ forall k, 0 <= k < sz -> img w' k = img w k;
  kwrite_ok w l v : bd_ok w -> 0 <= l < sz -> is_byte v -> exists r w',
    vfs_kwrite l v w = Some (r, w') /\ bd_ok w' /\
    forall k, 0 <= k < sz -> img w' k = if decide (k = l) then v else img w k;
  good_handle : Z -> Prop;
  pread_ok w h off (len : nat) : bd_ok w -> good_handle h -> 0 <= off -> off + Z.of_nat len <= sz ->
    exists w', kseek_uread h off (Z.of_nat len) w =
        Some ((fun k => img w (off + Z.of_nat k)) <$> seq 0 len, w') /\
      bd_ok w' /\ forall k, 0 <= k < sz -> img w' k = img w k;
  pwrite_ok w h off bytes : bd_ok w -> good_handle h -> Forall is_byte bytes ->
    0 <= off -> off + zlen bytes <= sz ->
    exists r w', kseek_uwrite h off bytes w = Some (r, w') /\ bd_ok w' /\
      forall k, 0 <= k < sz -> img w' k = default (img w k) (zget bytes (k - off))
}.

Module Echfs.

Definition SEARCH_FAILURE : Z := 0xffffffffffffffff.
Definition ROOT_ID : Z := 0xffffffffffffffff.
Definition ENTRIES_PER_BLOCK : Z := 2.
Definition FILENAME_LEN : Z := 218.
Definition RESERVED_BLOCKS : Z := 16.
Definition BYTES_PER_BLOCK : Z := 32768.
Definition FILE_TYPE : Z := 0.
Definition DIRECTORY_TYPE : Z := 1.
Definition DELETED_ENTRY : Z := 0xfffffffffffffffe.
Definition END_OF_CHAIN : Z := 0xffffffffffffffff.
Definition FAILURE : Z := -2.
Definition EOF : Z := -1.
Definition SUCCESS : Z := 0.
Definition CACHE_NOTREADY : Z := 0.
Definition CACHE_READY : Z := 1.
Definition CACHE_DIRTY : Z := 2.
Definition DF_WRITE : Z := 1.
Definition ENTRY_SIZE : Z := 256.

(** The geometry of a mounted volume; an operation first copies that of its
    volume into globals ([blocks], [fatsize], ...), which are this argument. *)
Record mount_t := MkMount {
  mname : list Z;
  blocks : Z; fatsize : Z; fatstart : Z; dirsize : Z; dirstart : Z; datastart : Z
}.

(** [name] is the text of the [char] array. *)
Record entry_t := MkEntry {
  parent_id : Z; type : Z; name : list Z; perms : Z; owner : Z; group : Z;
  hundreths : Z; seconds : Z; minutes : Z; hours : Z; day : Z; month : Z; year : Z;
  payload : Z; size : Z
}.
Definition empty_entry : entry_t := MkEntry 0 0 [] 0 0 0 0 0 0 0 0 0 0 0 0.

Record path_result_t := MkPathResult {
  target_entry : Z; target : entry_t; parent : entry_t; rname : list Z;
  failure : bool; not_found : bool
}.

Section Disk.
Context {W : Type} {D : BlockDev W}.

(** ** Reading and writing integers *)

Definition rd_byte (loc : Z) : ST W Z := let! c := vfs_kread (u64 loc) in st_ret (u8 c).
Definition wr_byte (loc x : Z) : ST W unit := vfs_kwrite (u64 loc) (u8 x) ;; st_ret tt.

(** [for (i = 0; i < n; i++) x += vfs_kread(device, loc++) * power(0x100, i);] in
    an unsigned type of [n] bytes. *)
Fixpoint rd_le (n : nat) (i : Z) (width loc x : Z) : ST W Z :=
  match n with
  | O => st_ret x
  | S n => let! c := vfs_kread (u64 loc) in
           rd_le n (i + 1) width (loc + 1) ((x + c * 256 ^ i) mod 2 ^ width)
  end.
Definition rd_word (loc : Z) : ST W Z := rd_le 2 0 16 loc 0.
Definition rd_dword (loc : Z) : ST W Z := rd_le 4 0 32 loc 0.
Definition rd_qword (loc : Z) : ST W Z := rd_le 8 0 64 loc 0.

(** [vfs_kwrite(device, loc++, (int)(x / (power(0x100, i)) & 0xff));] *)
Fixpoint wr_le (n : nat) (i : Z) (loc x : Z) : ST W unit :=
  match n with
  | O => st_ret tt
  | S n => vfs_kwrite (u64 loc) (Z.land (x / 256 ^ i) 0xff) ;; wr_le n (i + 1) (loc + 1) x
  end.
Definition wr_word (loc x : Z) : ST W unit := wr_le 2 0 loc x.
Definition wr_dword (loc x : Z) : ST W unit := wr_le 4 0 loc x.
Definition wr_qword (loc x : Z) : ST W unit := wr_le 8 0 loc x.

(** [while (rd_byte(loc)) str[i++] = (char)rd_byte(loc++); str[i] = 0;] into a
    buffer of which [room] bytes are left. *)
Fixpoint fstrcpy_in (room : nat) (loc : Z) (str : list Z) : ST W (list Z) :=
  match room with
  | O => st_fail
  | S room =>
      let! c := rd_byte loc in
      if c =? 0 then st_ret str
      else let! c := rd_byte loc in fstrcpy_in room (loc + 1) (str ++ [c])
  end.

Fixpoint fstrcpy_out (loc : Z) (str : list Z) : ST W unit :=
  match str with
  | [] => wr_byte loc 0
  | c :: str => wr_byte loc c ;; fstrcpy_out (loc + 1) str
  end.

(** Comparisons of the device with a text. Past the end of [str], [fstrcmp] compares
    with its terminator. *)
Fixpoint fstrcmp (loc : Z) (str : list Z) : ST W bool :=
  let! b := rd_byte loc in
  match str with
  | [] => if b =? 0 then st_ret true
          else let! b := rd_byte loc in if b =? 0 then st_fail else st_ret false
  | c :: str => let! b := rd_byte loc in if b =? c then fstrcmp (loc + 1) str else st_ret false
  end.
Fixpoint fstrncmp (loc : Z) (str : list Z) : ST W bool :=
  match str with
  | [] => st_ret true
  | c :: str => let! b := rd_byte loc in
                if b =? c then fstrncmp (loc + 1) str else st_ret false
  end.

(** ** Directory entries *)

Definition entry_loc (m : mount_t) (entry : Z) : Z := dirstart m * BYTES_PER_BLOCK + entry * ENTRY_SIZE.

Definition rd_entry (m : mount_t) (entry : Z) : ST W entry_t :=
  let loc := entry_loc m entry in
  let! pid := rd_qword loc in
  let! ty := rd_byte (loc + 8) in
  let! nm := fstrcpy_in (Z.to_nat FILENAME_LEN) (loc + 9) [] in
  let! pe := rd_byte (loc + 227) in
  let! ow := rd_word (loc + 228) in
  let! gr := rd_word (loc + 230) in
  let! hu := rd_byte (loc + 232) in
  let! se := rd_byte (loc + 233) in
  let! mi := rd_byte (loc + 234) in
  let! ho := rd_byte (loc + 235) in
  let! da := rd_byte (loc + 236) in
  let! mo := rd_byte (loc + 237) in
  let! ye := rd_word (loc + 238) in
  let! pa := rd_qword (loc + 240) in
  let! si := rd_qword (loc + 248) in
  st_ret (MkEntry pid ty nm pe ow gr hu se mi ho da mo ye pa si).

Definition wr_entry (m : mount_t) (entry : Z) (e : entry_t) : ST W unit :=
  let loc := entry_loc m entry in
  wr_qword loc (parent_id e) ;;
  wr_byte (loc + 8) (type e) ;;
  fstrcpy_out (loc + 9) (name e) ;;
  wr_byte (loc + 227) (perms e) ;;
  wr_word (loc + 228) (owner e) ;;
  wr_word (loc + 230) (group e) ;;
  wr_byte (loc + 232) (hundreths e) ;;
  wr_byte (loc + 233) (seconds e) ;;
  wr_byte (loc + 234) (minutes e) ;;
  wr_byte (loc + 235) (hours e) ;;
  wr_byte (loc + 236) (day e) ;;
  wr_byte (loc + 237) (month e) ;;
  wr_word (loc + 238) (year e) ;;
  wr_qword (loc + 240) (payload e) ;;
  wr_qword (loc + 248) (size e).

(** ** The directory table *)

(** [search]: the loop from entry [i].  It ends at the latest when [i] reaches
    [dirsize * ENTRIES_PER_BLOCK], which bounds the fuel. *)
Fixpoint search_from (fuel : nat) (m : mount_t) (nm : list Z) (par ty i : Z) : ST W Z :=
  match fuel with
  | O => st_fail
  | S fuel =>
      let! e := rd_entry m i in
      if parent_id e =? 0 then st_ret SEARCH_FAILURE
      else if u64 (dirsize m * ENTRIES_PER_BLOCK) <=? i then st_ret SEARCH_FAILURE
      else if (parent_id e =? par) && (type e =? ty) && bool_decide (name e = nm) then st_ret i
      else search_from fuel m nm par ty (i + 1)
  end.
Definition search (m : mount_t) (nm : list Z) (par ty : Z) : ST W Z :=
  search_from (S (Z.to_nat (u64 (dirsize m * ENTRIES_PER_BLOCK)))) m nm par ty 0.

(** [get_free_id]; the loop ends at the first entry with no parent. *)
Fixpoint get_free_id_from (fuel : nat) (m : mount_t) (i id : Z) : ST W Z :=
  match fuel with
  | O => st_fail
  | S fuel =>
      let! e := rd_entry m i in
      if parent_id e =? 0 then st_ret id
      else get_free_id_from fuel m (i + 1)
             (if (type e =? DF_WRITE) && (payload e =? id) then u64 (payload e + 1) else id)
  end.
Definition get_free_id (fuel : nat) (m : mount_t) : ST W Z := get_free_id_from fuel m 0 1.

(** One path component: the characters up to the next [/] or the end, the path
    after it, and whether it is the last one. *)
Fixpoint component (p : list Z) : list Z * list Z * bool :=
  match p with
  | [] => ([], [], true)
  | c :: p => if c =? 47 then ([], p, false)
              else let '(nm, rest, last) := component p in (c :: nm, rest, last)
  end.

(** From the label [next] on; [char name[FILENAME_LEN]] must hold the component. *)
Fixpoint resolve (fuel : nat) (m : mount_t) (p : list Z) (par : entry_t) (ty : Z) : ST W path_result_t :=
  match fuel with
  | O => st_fail
  | S fuel =>
      let '(nm, rest, last) := component p in
      if decide (zlen nm < FILENAME_LEN) then
        if last then
          let! i := search m nm (payload par) ty in
          if i =? SEARCH_FAILURE then st_ret (MkPathResult 0 empty_entry par nm false true)
          else
            let! i1 := search m nm (payload par) ty in
            let! e := rd_entry m i1 in
            let! i2 := search m nm (payload par) ty in
            st_ret (MkPathResult i2 e par nm false false)
        else
          let! i := search m nm (payload par) DIRECTORY_TYPE in
          if i =? SEARCH_FAILURE then st_ret (MkPathResult 0 empty_entry empty_entry [] true false)
          else
            let! i1 := search m nm (payload par) DIRECTORY_TYPE in
            let! e := rd_entry m i1 in
            resolve fuel m rest e ty
      else st_fail
  end.

Definition with_payload (e : entry_t) (p : Z) : entry_t :=
  MkEntry (parent_id e) (type e) (name e) (perms e) (owner e) (group e) (hundreths e) (seconds e)
    (minutes e) (hours e) (day e) (month e) (year e) p (size e).
Definition with_size (e : entry_t) (s : Z) : entry_t :=
  MkEntry (parent_id e) (type e) (name e) (perms e) (owner e) (group e) (hundreths e) (seconds e)
    (minutes e) (hours e) (day e) (month e) (year e) (payload e) s.

Definition root : entry_t := with_payload empty_entry ROOT_ID.

Definition path_resolver (m : mount_t) (p : list Z) (ty : Z) : ST W path_result_t :=
  if (ty =? DIRECTORY_TYPE) && bool_decide (p = [47]) then
    st_ret (MkPathResult 0 root empty_entry [] false false)
  else if (ty =? FILE_TYPE) && bool_decide (p = [47]) then
    st_ret (MkPathResult 0 empty_entry empty_entry [] true false)
  else
    let p := match p with c :: p' => if c =? 47 then p' else p | [] => p end in
    resolve (S (length p)) m p root ty.

(** [echfs_list]: the next entry of directory [id] from entry [ii] on, names [.]
    and [..] skipped; [None] when the directory ends. *)
Fixpoint next_in_dir (fuel : nat) (m : mount_t) (id ii : Z) : ST W (option (Z * entry_t)) :=
  match fuel with
  | O => st_fail
  | S fuel =>
      let! e := rd_entry m ii in
      if bool_decide (name e = [46]) || bool_decide (name e = [46; 46]) then next_in_dir fuel m id (u32 (ii + 1))
      else if parent_id e =? id then st_ret (Some (ii, e))
      else if parent_id e =? 0 then st_ret None
      else next_in_dir fuel m id (u32 (ii + 1))
  end.
Fixpoint list_from (fuel n : nat) (m : mount_t) (id ii : Z) : ST W (option entry_t) :=
  let! r := next_in_dir fuel m id ii in
  match r with
  | None => st_ret None
  | Some (ii, e) => match n with
                    | O => st_ret (Some e)
                    | S n => list_from fuel n m id (u32 (ii + 1))
                    end
  end.
Definition echfs_list (fuel : nat) (m : mount_t) (p : list Z) (entry : Z) : ST W (option (list Z * Z)) :=
  let! r := (match p with [] => st_ret (MkPathResult 0 root empty_entry [] false false)
             | _ => path_resolver m p DIRECTORY_TYPE end) in
  if not_found r then st_ret None
  else
    let! e := list_from fuel (Z.to_nat entry) m (payload (target r)) 0 in
    st_ret (match e with Some e => Some (name e, type e) | None => None end).

(** [for (i = 0; ; i++) { ... if (parent_id == 0 || parent_id == DELETED_ENTRY) break; }] *)
Fixpoint empty_slot (fuel : nat) (m : mount_t) (i : Z) : ST W Z :=
  match fuel with
  | O => st_fail
  | S fuel =>
      let! e := rd_entry m i in
      if (parent_id e =? 0) || (parent_id e =? DELETED_ENTRY) then st_ret i
      else empty_slot fuel m (i + 1)
  end.

Definition new_entry (par ty : Z) (nm : list Z) (pl : Z) : entry_t :=
  MkEntry par ty nm 0 0 0 0 0 0 0 0 0 0 pl 0.

Definition echfs_mkdir (fuel : nat) (m : mount_t) (p : list Z) : ST W Z :=
  let! r := path_resolver m p DIRECTORY_TYPE in
  let! i := empty_slot fuel m 0 in
  let! id := get_free_id fuel m in
  wr_entry m i (new_entry (payload (parent r)) DIRECTORY_TYPE (rname r) id) ;;
  st_ret SUCCESS.

Definition echfs_create (fuel : nat) (m : mount_t) (p : list Z) : ST W Z :=
  let! r := path_resolver m p FILE_TYPE in
  if failure r then st_ret FAILURE
  else
    let! i := empty_slot fuel m 0 in
    wr_entry m i (new_entry (payload (parent r)) FILE_TYPE (rname r) END_OF_CHAIN) ;;
    st_ret SUCCESS.

(** The name, type and size, or [FAILURE]. *)
Definition echfs_get_metadata (m : mount_t) (p : list Z) (ty : Z) : ST W (option (list Z * Z * Z)) :=
  if (bool_decide (p = [47]) || bool_decide (p = [])) && (ty =? DIRECTORY_TYPE) then
    st_ret (Some ([47], ty, 0))
  else
    let! r := path_resolver m p ty in
    if failure r then st_ret None
    else if not_found r then st_ret None
    else st_ret (Some (name (target r), ty, size (target r))).

(** ** The allocation table *)

Definition fat_loc (m : mount_t) (block : Z) : Z := fatstart m * BYTES_PER_BLOCK + block * 8.

(** The freeing loop of [echfs_remove]. *)
Fixpoint free_chain (fuel : nat) (m : mount_t) (block : Z) : ST W unit :=
  match fuel with
  | O => st_fail
  | S fuel =>
      if block =? END_OF_CHAIN then st_ret tt
      else
        let! new_block := rd_qword (fat_loc m block) in
        wr_qword (fat_loc m block) 0 ;;
        free_chain fuel m new_block
  end.

(** The end of [echfs_remove], from the resolved path on. *)
Definition remove_resolved (fuel : nat) (m : mount_t) (r : path_result_t) : ST W Z :=
  if not_found r then st_ret FAILURE
  else
    free_chain fuel m (payload (target r)) ;;
    wr_entry m (target_entry r) (new_entry DELETED_ENTRY 0 [] 0) ;;
    st_ret SUCCESS.

(** The signature [_ECH_FS_] and the geometry; the device's name is copied into
    [char name[128]]. *)
Definition signature : list Z := [95; 69; 67; 72; 95; 70; 83; 95].
Definition echfs_mount (dev : list Z) (mounts : list mount_t) : ST W (Z * list mount_t) :=
  let! ok := fstrncmp 4 signature in
  if negb ok then st_ret (FAILURE, mounts)
  else if decide (zlen dev < 128) then
    let! bl := rd_qword 12 in
    let bytes := u64 (bl * 8) in
    let fs := u64 (bytes / BYTES_PER_BLOCK + (if bytes mod BYTES_PER_BLOCK =? 0 then 0 else 1)) in
    let! ds := rd_qword 20 in
    st_ret (SUCCESS, mounts ++
      [MkMount dev bl fs RESERVED_BLOCKS ds (u64 (RESERVED_BLOCKS + fs)) (u64 (RESERVED_BLOCKS + fs + ds))])
  else st_fail.

End Disk.

(** ** Specification: images

    An image is the function from locations to bytes that a volume holds. *)

Definition image : Type := Z -> Z.

(** Little-endian integers and texts of an image. *)
Fixpoint le (f : image) (n : nat) (loc : Z) : Z :=
  match n with O => 0 | S n => f loc + 256 * le f n (loc + 1) end.
Fixpoint text_at (f : image) (room : nat) (loc : Z) : list Z :=
  match room with O => [] | S room => if f loc =? 0 then [] else f loc :: text_at f room (loc + 1) end.

Definition upd (f : image) (loc v : Z) : image := fun l => if decide (l = loc) then v else f l.
Fixpoint upd_le (f : image) (n : nat) (loc x : Z) : image :=
  match n with O => f | S n => upd_le (upd f loc (x mod 256)) n (loc + 1) (x / 256) end.
Fixpoint upd_text (f : image) (loc : Z) (s : list Z) : image :=
  match s with [] => upd f loc 0 | c :: s => upd_text (upd f loc c) (loc + 1) s end.

(** Entry [i] of the directory table of an image. *)
Definition ent (f : image) (m : mount_t) (i : Z) : entry_t :=
  let loc := entry_loc m i in
  MkEntry (le f 8 loc) (f (loc + 8)) (text_at f (Z.to_nat FILENAME_LEN) (loc + 9)) (f (loc + 227))
    (le f 2 (loc + 228)) (le f 2 (loc + 230)) (f (loc + 232)) (f (loc + 233)) (f (loc + 234))
    (f (loc + 235)) (f (loc + 236)) (f (loc + 237)) (le f 2 (loc + 238)) (le f 8 (loc + 240))
    (le f 8 (loc + 248)).

(** The name of entry [i] has its terminator. *)
Definition named (f : image) (m : mount_t) (i : Z) : Prop :=
  exists k, 0 <= k < FILENAME_LEN /\ f (entry_loc m i + 9 + k) = 0.

(** The image after entry [i] is written. *)
Definition put_entry (f : image) (m : mount_t) (i : Z) (e : entry_t) : image :=
  let loc := entry_loc m i in
  let f := upd_le f 8 loc (parent_id e) in
  let f := upd f (loc + 8) (type e) in
  let f := upd_text f (loc + 9) (name e) in
  let f := upd f (loc + 227) (perms e) in
  let f := upd_le f 2 (loc + 228) (owner e) in
  let f := upd_le f 2 (loc + 230) (group e) in
  let f := upd f (loc + 232) (hundreths e) in
  let f := upd f (loc + 233) (seconds e) in
  let f := upd f (loc + 234) (minutes e) in
  let f := upd f (loc + 235) (hours e) in
  let f := upd f (loc + 236) (day e) in
  let f := upd f (loc + 237) (month e) in
  let f := upd_le f 2 (loc + 238) (year e) in
  let f := upd_le f 8 (loc + 240) (payload e) in
  upd_le f 8 (loc + 248) (size e).

(** The fields fit their types, the name its array. *)
Record entry_ok (e : entry_t) : Prop := {
  eok_parent : 0 <= parent_id e < 2 ^ 64;
  eok_type : is_byte (type e);
  eok_name : Forall (fun c => is_byte c /\ c <> 0) (name e);
  eok_len : zlen (name e) < FILENAME_LEN;
  eok_perms : is_byte (perms e);
  eok_owner : 0 <= owner e < 2 ^ 16;
  eok_group : 0 <= group e < 2 ^ 16;
  eok_hundreths : is_byte (hundreths e);
  eok_seconds : is_byte (seconds e);
  eok_minutes : is_byte (minutes e);
  eok_hours : is_byte (hours e);
  eok_day : is_byte (day e);
  eok_month : is_byte (month e);
  eok_year : 0 <= year e < 2 ^ 16;
  eok_payload : 0 <= payload e < 2 ^ 64;
  eok_size : 0 <= size e < 2 ^ 64
}.

(** ** Lemmas: images *)

Lemma upd_eq f a v : upd f a v a = v.
Proof. unfold upd. by rewrite decide_True. Qed.
Lemma upd_ne f a v l : l <> a -> upd f a v l = f l.
Proof. intros H. unfold upd. by rewrite decide_False. Qed.

Lemma upd_le_out f n a x l : l < a \/ a + Z.of_nat n <= l -> upd_le f n a x l = f l.
Proof.
  revert f a x. induction n as [|n IH]; intros f a x H; simpl; [done|].
  rewrite IH by lia. apply upd_ne. lia.
Qed.
Lemma upd_text_out f a s l : l < a \/ a + zlen s < l -> upd_text f a s l = f l.
Proof.
  revert f a. induction s as [|c s IH]; intros f a H; simpl.
  - change (zlen (@nil Z)) with 0 in H. apply upd_ne. lia.
  - rewrite zlen_cons in H. pose proof (zlen_nonneg s). rewrite IH by lia. apply upd_ne. lia.
Qed.

Lemma le_ext f g n b : (forall l, b <= l < b + Z.of_nat n -> f l = g l) -> le f n b = le g n b.
Proof.
  revert b. induction n as [|n IH]; intros b H; cbn [le]; [done|].
  rewrite H by lia. rewrite IH; [done|]. intros l Hl. apply H. lia.
Qed.
Lemma text_at_ext f g n b : (forall l, b <= l < b + Z.of_nat n -> f l = g l) -> text_at f n b = text_at g n b.
Proof.
  revert b. induction n as [|n IH]; intros b H; cbn [text_at]; [done|].
  rewrite H by lia. rewrite IH; [done|]. intros l Hl. apply H. lia.
Qed.

Lemma le_upd_le f n a x : le (upd_le f n a x) n a = x mod 256 ^ Z.of_nat n.
Proof.
  revert f a x. induction n as [|n IH]; intros f a x; cbn [le upd_le].
  - change (256 ^ Z.of_nat 0) with 1. by rewrite Z.mod_1_r.
  - rewrite IH, upd_le_out, upd_eq by lia. rewrite Nat2Z.inj_succ, Z.pow_succ_r by lia.
    rewrite Z.rem_mul_r by lia. done.
Qed.

Lemma text_at_upd_text f room a s : Forall (fun c => is_byte c /\ c <> 0) s -> zlen s < Z.of_nat room ->
  text_at (upd_text f a s) room a = s.
Proof.
  revert f room a. induction s as [|c s IH]; intros f room a Hs Hl; destruct room as [|room];
    [change (zlen (@nil Z)) with 0 in Hl; lia| |pose proof (zlen_nonneg (c :: s)); lia|]; cbn [upd_text text_at].
  - by rewrite upd_eq.
  - inversion Hs as [|? ? [_ Hc] Hs']; subst. rewrite zlen_cons in Hl.
    rewrite upd_text_out, upd_eq by lia. rewrite (proj2 (Z.eqb_neq _ _)) by done. f_equal. apply IH; [done|lia].
Qed.

Lemma le_upd_le_ne f n a x k b : b + Z.of_nat k <= a \/ a + Z.of_nat n <= b ->
  le (upd_le f n a x) k b = le f k b.
Proof. intros H. apply le_ext. intros l Hl. apply upd_le_out. lia. Qed.
Lemma le_upd_ne f a v k b : b + Z.of_nat k <= a \/ a < b -> le (upd f a v) k b = le f k b.
Proof. intros H. apply le_ext. intros l Hl. apply upd_ne. lia. Qed.
Lemma le_upd_text_ne f a s k b : b + Z.of_nat k <= a \/ a + zlen s < b ->
  le (upd_text f a s) k b = le f k b.
Proof. intros H. apply le_ext. intros l Hl. apply upd_text_out. lia. Qed.
Lemma text_upd_le_ne f n a x k b : b + Z.of_nat k <= a \/ a + Z.of_nat n <= b ->
  text_at (upd_le f n a x) k b = text_at f k b.
Proof. intros H. apply text_at_ext. intros l Hl. apply upd_le_out. lia. Qed.
Lemma text_upd_ne f a v k b : b + Z.of_nat k <= a \/ a < b -> text_at (upd f a v) k b = text_at f k b.
Proof. intros H. apply text_at_ext. intros l Hl. apply upd_ne. lia. Qed.

(** Skip the updates that do not concern the bytes read. *)
Ltac peel := repeat first
  [ rewrite le_upd_le_ne by lia | rewrite le_upd_ne by lia | rewrite le_upd_text_ne by lia
  | rewrite text_upd_le_ne by lia | rewrite text_upd_ne by lia
  | rewrite upd_le_out by lia | rewrite upd_ne by lia | rewrite upd_text_out by lia ].

Lemma put_entry_out f m i e l : zlen (name e) < FILENAME_LEN ->
  l < entry_loc m i \/ entry_loc m i + 256 <= l -> put_entry f m i e l = f l.
Proof.
  unfold FILENAME_LEN. intros Hn Hl. unfold put_entry. pose proof (zlen_nonneg (name e)).
  set (loc := entry_loc m i) in *. by peel.
Qed.

Lemma le8_back f a x : 0 <= x < 2 ^ 64 -> le (upd_le f 8 a x) 8 a = x.
Proof. intros H. rewrite le_upd_le. change (256 ^ Z.of_nat 8) with (2 ^ 64). by rewrite Z.mod_small. Qed.
Lemma le2_back f a x : 0 <= x < 2 ^ 16 -> le (upd_le f 2 a x) 2 a = x.
Proof. intros H. rewrite le_upd_le. change (256 ^ Z.of_nat 2) with (2 ^ 16). by rewrite Z.mod_small. Qed.

Lemma ent_put_entry f m i e : entry_ok e -> ent (put_entry f m i e) m i = e.
Proof.
  destruct e as [pid ty nm pe ow gr hu se mi ho da mo ye pa si]. intros H.
  destruct H as [? ? Hn Hl]. unfold ent, put_entry.
  cbn [parent_id type name perms owner group hundreths seconds minutes hours day month year payload size] in *.
  set (loc := entry_loc m i). pose proof (zlen_nonneg nm). unfold FILENAME_LEN in *.
  f_equal; peel; first [apply le8_back; assumption | apply le2_back; assumption | apply upd_eq
    | apply text_at_upd_text; [assumption|lia]].
Qed.

Section Laws.
Context {W : Type} {D : BlockDev W} {sz : Z} {L : BlockDevLaws D sz}.

(** The device holds image [f]; a computation run on [f] answers [a] and leaves [g]. *)
Definition agrees (w : W) (f : image) : Prop := bd_ok w /\ forall l, 0 <= l < sz -> img w l = f l.
Definition runs {A} (f : image) (m : ST W A) (a : A) (g : image) : Prop :=
  forall w, agrees w f -> exists w', m w = Some (a, w') /\ agrees w' g.

(** ** Lemmas: running computations *)

Lemma runs_ret {A} f (a : A) : runs f (st_ret a) a f.
Proof. intros w Hw. by exists w. Qed.

Lemma runs_bind {A B} f g h (m : ST W A) (k : A -> ST W B) a b :
  runs f m a g -> runs g (k a) b h -> runs f (st_bind m k) b h.
Proof.
  intros Hm Hk w Hw. destruct (Hm w Hw) as (w1 & E1 & Hw1). destruct (Hk w1 Hw1) as (w2 & E2 & Hw2).
  exists w2. unfold st_bind. by rewrite E1.
Qed.

Lemma runs_kread f loc : 0 <= loc < sz -> runs f (vfs_kread (u64 loc)) (f loc) f.
Proof.
  intros Hl w [Hok Hf]. pose proof bd_small. rewrite u64_small by lia.
  destruct (kread_ok w loc Hok Hl) as (w' & E & Hok' & Hi). exists w'. rewrite E, Hf by done.
  split; [done|]. split; [done|]. intros l Hl'. by rewrite Hi, Hf.
Qed.

Lemma runs_kwrite f loc v : 0 <= loc < sz -> is_byte v ->
  runs f (vfs_kwrite (u64 loc) v ;; st_ret tt) tt (upd f loc v).
Proof.
  intros Hl Hv w [Hok Hf]. pose proof bd_small. rewrite u64_small by lia.
  destruct (kwrite_ok w loc v Hok Hl Hv) as (r & w' & E & Hok' & Hi). exists w'. unfold st_bind. rewrite E.
  split; [done|]. split; [done|]. intros l Hl'. unfold upd. rewrite Hi by done. case_decide; [done|by apply Hf].
Qed.

Lemma agrees_byte w f l : agrees w f -> 0 <= l < sz -> is_byte (f l).
Proof. intros [Hok Hf] Hl. rewrite <- Hf by done. by apply img_byte. Qed.

(** A fact about the bytes of the image may be used to run on it. *)
Lemma runs_bytes {A} f (m : ST W A) a g :
  ((forall l, 0 <= l < sz -> is_byte (f l)) -> runs f m a g) -> runs f m a g.
Proof. intros H w Hw. apply H; [|done]. intros l Hl. by eapply agrees_byte. Qed.

Lemma runs_rd_byte f loc : 0 <= loc < sz -> runs f (rd_byte loc) (f loc) f.
Proof.
  intros Hl. apply runs_bytes. intros Hb. specialize (Hb loc Hl). unfold is_byte in Hb. unfold rd_byte.
  eapply runs_bind; [by apply runs_kread|]. rewrite u8_small by done. apply runs_ret.
Qed.

Lemma runs_wr_byte f loc v : 0 <= loc < sz -> is_byte v -> runs f (wr_byte loc v) tt (upd f loc v).
Proof. intros Hl Hv. unfold wr_byte. rewrite u8_small by done. by apply runs_kwrite. Qed.

Lemma le_range f n loc : (forall l, loc <= l < loc + Z.of_nat n -> is_byte (f l)) ->
  0 <= le f n loc < 256 ^ Z.of_nat n.
Proof.
  revert loc. induction n as [|n IH]; intros loc Hb; cbn [le]; [done|].
  assert (is_byte (f loc)) as H0 by (apply Hb; lia). unfold is_byte in H0.
  specialize (IH (loc + 1)). rewrite Nat2Z.inj_succ, Z.pow_succ_r by lia.
  destruct IH as [H1 H2]; [intros l Hl; apply Hb; lia|]. lia.
Qed.

Lemma runs_rd_le n i width f loc x : 0 <= loc -> loc + Z.of_nat n <= sz -> 0 <= i ->
  width = 8 * (i + Z.of_nat n) -> 0 <= x < 256 ^ i ->
  runs f (rd_le n i width loc x) (x + 256 ^ i * le f n loc) f.
Proof.
  intros Hl Hs Hi -> Hx. apply runs_bytes. intros Hb. revert i loc x Hl Hs Hi Hx.
  induction n as [|n IH]; intros i loc x Hl Hs Hi Hx; simpl.
  - rewrite Z.mul_0_r, Z.add_0_r. apply runs_ret.
  - eapply runs_bind; [apply runs_kread; lia|].
    assert (is_byte (f loc)) as H0 by (apply Hb; lia). unfold is_byte in H0.
    assert (0 <= x + f loc * 256 ^ i < 256 ^ (i + 1)) as Hr.
    { rewrite Z.pow_add_r by lia. change (256 ^ 1) with 256. nia. }
    assert (256 ^ (i + 1) <= 2 ^ (8 * (i + Z.of_nat (S n)))) as Hw.
    { change 256 with (2 ^ 8). rewrite <- Z.pow_mul_r by lia. apply Z.pow_le_mono_r; lia. }
    rewrite Z.mod_small by lia.
    replace (8 * (i + Z.of_nat (S n))) with (8 * (i + 1 + Z.of_nat n)) by lia.
    replace (x + 256 ^ i * (f loc + 256 * le f n (loc + 1)))
      with (x + f loc * 256 ^ i + 256 ^ (i + 1) * le f n (loc + 1))
      by (rewrite Z.pow_add_r by lia; change (256 ^ 1) with 256; ring).
    apply IH; lia.
Qed.

Lemma runs_rd_word f loc : 0 <= loc -> loc + 2 <= sz -> runs f (rd_word loc) (le f 2 loc) f.
Proof. intros H1 H2. pose proof (runs_rd_le 2 0 16 f loc 0) as H. rewrite Z.mul_1_l in H. apply H; lia. Qed.
Lemma runs_rd_qword f loc : 0 <= loc -> loc + 8 <= sz -> runs f (rd_qword loc) (le f 8 loc) f.
Proof. intros H1 H2. pose proof (runs_rd_le 8 0 64 f loc 0) as H. rewrite Z.mul_1_l in H. apply H; lia. Qed.

Lemma runs_wr_le n i f loc x : 0 <= loc -> loc + Z.of_nat n <= sz -> 0 <= i ->
  runs f (wr_le n i loc x) tt (upd_le f n loc (x / 256 ^ i)).
Proof.
  revert i f loc. induction n as [|n IH]; intros i f loc Hl Hs Hi; simpl; [apply runs_ret|].
  assert (Z.land (x / 256 ^ i) 255 = x / 256 ^ i mod 256) as ->.
  { change 255 with (Z.ones 8). by rewrite Z.land_ones by lia. }
  assert (is_byte (x / 256 ^ i mod 256)) as Hb by (apply Z.mod_pos_bound; lia).
  intros w Hw. destruct (runs_kwrite f loc _ ltac:(lia) Hb w Hw) as (w1 & E & Hw1).
  unfold st_bind in *. destruct (vfs_kwrite (u64 loc) (x / 256 ^ i mod 256) w) as [[r w2]|]; [|done].
  injection E as <-.
  replace (x / 256 ^ i / 256) with (x / 256 ^ (i + 1)).
  - apply IH; [lia|lia|lia|done].
  - rewrite Z.pow_add_r, Z.div_div by lia. done.
Qed.

Lemma runs_wr_word f loc x : 0 <= loc -> loc + 2 <= sz -> runs f (wr_word loc x) tt (upd_le f 2 loc x).
Proof. intros H1 H2. pose proof (runs_wr_le 2 0 f loc x) as H. rewrite Z.div_1_r in H. apply H; lia. Qed.
Lemma runs_wr_qword f loc x : 0 <= loc -> loc + 8 <= sz -> runs f (wr_qword loc x) tt (upd_le f 8 loc x).
Proof. intros H1 H2. pose proof (runs_wr_le 8 0 f loc x) as H. rewrite Z.div_1_r in H. apply H; lia. Qed.

Lemma runs_fstrcpy_out s f loc : 0 <= loc -> loc + zlen s < sz -> Forall is_byte s ->
  runs f (fstrcpy_out loc s) tt (upd_text f loc s).
Proof.
  revert f loc. induction s as [|c s IH]; intros f loc Hl Hs Hb; simpl.
  - apply runs_wr_byte; [change (zlen (@nil Z)) with 0 in Hs; lia|done].
  - inversion Hb; subst. rewrite zlen_cons in Hs. pose proof (zlen_nonneg s).
    eapply runs_bind; [apply runs_wr_byte; [lia|done]|]. apply IH; [lia|lia|done].
Qed.

Lemma runs_fstrcpy_in room f loc acc k : 0 <= loc -> loc + Z.of_nat room <= sz ->
  0 <= k < Z.of_nat room -> f (loc + k) = 0 ->
  runs f (fstrcpy_in room loc acc) (acc ++ text_at f room loc) f.
Proof.
  revert loc acc k. induction room as [|room IH]; intros loc acc k Hl Hs Hk H0; [lia|]. simpl.
  eapply runs_bind; [apply runs_rd_byte; lia|]. destruct (Z.eqb_spec (f loc) 0) as [Hz|Hz].
  - rewrite app_nil_r. apply runs_ret.
  - eapply runs_bind; [apply runs_rd_byte; lia|].
    replace (acc ++ f loc :: text_at f room (loc + 1)) with ((acc ++ [f loc]) ++ text_at f room (loc + 1))
      by (by rewrite <- app_assoc).
    destruct (decide (k = 0)) as [->|]; [by rewrite Z.add_0_r in H0|].
    apply (IH _ _ (k - 1)); [lia|lia|lia|]. by replace (loc + 1 + (k - 1)) with (loc + k) by lia.
Qed.

(** ** Lemmas: entries *)

(** Entry [i] is on the volume. *)
Definition in_volume (m : mount_t) (i : Z) : Prop := 0 <= entry_loc m i /\ entry_loc m i + 256 <= sz.

Ltac run_step :=
  eapply runs_bind;
  [first [apply runs_rd_byte; lia | apply runs_rd_word; lia | apply runs_rd_qword; lia] | cbv beta].

Lemma runs_rd_entry f m i : in_volume m i -> named f m i -> runs f (rd_entry m i) (ent f m i) f.
Proof.
  intros [H0 H1] (k & Hk & Hz). unfold rd_entry, ent. set (loc := entry_loc m i) in *.
  unfold FILENAME_LEN in *. do 2 run_step.
  eapply runs_bind; [apply (runs_fstrcpy_in _ f (loc + 9) [] k); lia || done|cbv beta].
  do 12 run_step. apply runs_ret.
Qed.

Ltac write_step :=
  eapply runs_bind;
  [first [apply runs_wr_qword; lia | apply runs_wr_word; lia | apply runs_wr_byte; [lia|assumption]]
  | cbv beta].

Lemma runs_wr_entry f m i e : in_volume m i -> entry_ok e ->
  runs f (wr_entry m i e) tt (put_entry f m i e).
Proof.
  intros [H0 H1] He. destruct He as [? ? Hn Hl]. unfold wr_entry, put_entry.
  set (loc := entry_loc m i) in *. unfold FILENAME_LEN in *.
  do 2 write_step. eapply runs_bind; [apply runs_fstrcpy_out; [lia|lia|]|cbv beta].
  { eapply Forall_impl; [exact Hn|]. by intros c [Hc _]. }
  do 11 write_step. apply runs_wr_qword; lia.
Qed.

End Laws.

(** ** Specification: the directory table

    The entries of a well-formed table, up to its terminator. *)

Definition table (f : image) (m : mount_t) (n : nat) : list entry_t :=
  (fun k => ent f m (Z.of_nat k)) <$> seq 0 n.

(** The part of the table that [search] looks at. *)
Definition visible (m : mount_t) (t : list entry_t) : list entry_t :=
  take (Z.to_nat (dirsize m * ENTRIES_PER_BLOCK)) t.

Definition matches (nm : list Z) (par ty : Z) (e : entry_t) : bool :=
  (parent_id e =? par) && (type e =? ty) && bool_decide (name e = nm).

(** The first entry of the list that matches, counted from [i]. *)
Fixpoint find_from (nm : list Z) (par ty i : Z) (t : list entry_t) : option (Z * entry_t) :=
  match t with
  | [] => None
  | e :: t => if matches nm par ty e then Some (i, e) else find_from nm par ty (i + 1) t
  end.
Definition lookup_entry (t : list entry_t) (nm : list Z) (par ty : Z) : option (Z * entry_t) :=
  find_from nm par ty 0 t.

(** Walking down the directories named by the components [cs], from directory
    [d]. *)
Fixpoint walk (t : list entry_t) (d : entry_t) (cs : list (list Z)) : option entry_t :=
  match cs with
  | [] => Some d
  | c :: cs => match lookup_entry t c (payload d) DIRECTORY_TYPE with
               | Some (_, d) => walk t d cs
               | None => None
               end
  end.

(** The result of resolving the directories [cs] and the last component [nm]. *)
Definition resolved (t : list entry_t) (cs : list (list Z)) (nm : list Z) (ty : Z) : path_result_t :=
  match walk t root cs with
  | None => MkPathResult 0 empty_entry empty_entry [] true false
  | Some par => match lookup_entry t nm (payload par) ty with
                | Some (i, e) => MkPathResult i e par nm false false
                | None => MkPathResult 0 empty_entry par nm false true
                end
  end.

(** The slot a new entry takes: the first deleted entry, else the terminator. *)
Fixpoint free_slot (t : list entry_t) : nat :=
  match t with [] => O | e :: t => if parent_id e =? DELETED_ENTRY then O else S (free_slot t) end.

(** The identifier [get_free_id] computes. *)
Fixpoint free_id (id : Z) (t : list entry_t) : Z :=
  match t with
  | [] => id
  | e :: t => free_id (if (type e =? DF_WRITE) && (payload e =? id) then u64 (payload e + 1) else id) t
  end.

(** The text of a path with these components. *)
Fixpoint join (cs : list (list Z)) (nm : list Z) : list Z :=
  match cs with [] => nm | c :: cs => c ++ 47 :: join cs nm end.

(** A path component: no [/], and it fits [char name[FILENAME_LEN]]. *)
Definition comp_ok (c : list Z) : Prop := Forall (fun x => x <> 47) c /\ zlen c < FILENAME_LEN.

(** The table of [f] has [n] entries before its terminator, all on the volume and
    with terminated names, and is small enough to be numbered. *)
Record dir_ok (sz : Z) (f : image) (m : mount_t) (n : nat) : Prop := {
  dok_on i : 0 <= i <= Z.of_nat n -> in_volume (sz := sz) m i;
  dok_named i : 0 <= i <= Z.of_nat n -> named f m i;
  dok_live i : 0 <= i < Z.of_nat n -> parent_id (ent f m i) <> 0;
  dok_end : parent_id (ent f m (Z.of_nat n)) = 0;
  dok_size : 0 <= dirsize m < 2 ^ 62;
  dok_count : Z.of_nat n < SEARCH_FAILURE
}.

Lemma table_S_drop f m n k : (k < n)%nat ->
  drop k (table f m n) = ent f m (Z.of_nat k) :: drop (S k) (table f m n).
Proof.
  intros Hk. apply drop_S. unfold table. rewrite list_lookup_fmap, lookup_seq_lt by done. done.
Qed.
Lemma table_len f m n : length (table f m n) = n.
Proof. unfold table. by rewrite length_fmap, length_seq. Qed.
Lemma table_lookup f m n k : (k < n)%nat -> table f m n !! k = Some (ent f m (Z.of_nat k)).
Proof. intros Hk. unfold table. rewrite list_lookup_fmap, lookup_seq_lt by done. done. Qed.

Lemma find_from_spec nm par ty i t r e : find_from nm par ty i t = Some (r, e) ->
  i <= r < i + zlen t /\ t !! Z.to_nat (r - i) = Some e /\ matches nm par ty e = true.
Proof.
  revert i. induction t as [|x t IH]; intros i; simpl; [done|]. rewrite zlen_cons. pose proof (zlen_nonneg t).
  destruct (matches nm par ty x) eqn:E.
  - intros [= -> ->]. split; [lia|]. by replace (Z.to_nat (r - r)) with 0%nat by lia.
  - intros H1. destruct (IH _ H1) as (Hr & Hl & Hm). split; [lia|]. split; [|done].
    replace (Z.to_nat (r - i)) with (S (Z.to_nat (r - (i + 1)))) by lia. done.
Qed.

Lemma component_slash c rest : Forall (fun x => x <> 47) c -> component (c ++ 47 :: rest) = (c, rest, false).
Proof.
  induction 1 as [|x c Hx Hc IH]; simpl; [done|].
  rewrite (proj2 (Z.eqb_neq _ _)) by done. by rewrite IH.
Qed.
Lemma component_last c : Forall (fun x => x <> 47) c -> component c = (c, [], true).
Proof.
  induction 1 as [|x c Hx Hc IH]; simpl; [done|].
  rewrite (proj2 (Z.eqb_neq _ _)) by done. by rewrite IH.
Qed.

Section Directory.
Context {W : Type} {D : BlockDev W} {sz : Z} {L : BlockDevLaws D sz}.
Context (f : image) (m : mount_t) (n : nat) (Hd : dir_ok sz f m n).
#[local] Set Default Proof Using "Type*".

Lemma run_entry i : 0 <= i <= Z.of_nat n -> runs f (rd_entry m i) (ent f m i) f.
Proof. intros Hi. by apply runs_rd_entry; apply Hd. Qed.

Lemma limit_eq : u64 (dirsize m * ENTRIES_PER_BLOCK) = dirsize m * ENTRIES_PER_BLOCK.
Proof. pose proof (dok_size _ _ _ _ Hd). unfold ENTRIES_PER_BLOCK. rewrite u64_small; lia. Qed.

Definition found (r : option (Z * entry_t)) : Z := match r with Some (i, _) => i | None => SEARCH_FAILURE end.

Lemma runs_search_from fuel nm par ty k :
  (k <= n)%nat -> Z.of_nat k <= dirsize m * ENTRIES_PER_BLOCK ->
  dirsize m * ENTRIES_PER_BLOCK - Z.of_nat k < Z.of_nat fuel ->
  runs f (search_from fuel m nm par ty (Z.of_nat k))
    (found (find_from nm par ty (Z.of_nat k)
      (take (Z.to_nat (dirsize m * ENTRIES_PER_BLOCK) - k) (drop k (table f m n))))) f.
Proof.
  revert k. induction fuel as [|fuel IH]; intros k Hk Hl Hf; [lia|]. cbn [search_from].
  eapply runs_bind; [apply run_entry; lia|cbv beta]. rewrite limit_eq.
  destruct (decide (k = n)) as [->|Hkn].
  - rewrite (dok_end _ _ _ _ Hd). simpl. rewrite drop_ge by (by rewrite table_len).
    rewrite take_nil. apply runs_ret.
  - rewrite (proj2 (Z.eqb_neq _ _)) by (apply (dok_live _ _ _ _ Hd); lia).
    destruct (Z.leb_spec (dirsize m * ENTRIES_PER_BLOCK) (Z.of_nat k)).
    + replace (Z.to_nat (dirsize m * ENTRIES_PER_BLOCK) - k)%nat with 0%nat by lia. apply runs_ret.
    + rewrite table_S_drop by lia.
      replace (Z.to_nat (dirsize m * ENTRIES_PER_BLOCK) - k)%nat
        with (S (Z.to_nat (dirsize m * ENTRIES_PER_BLOCK) - S k)) by lia.
      cbn [take find_from]. unfold matches at 1.
      destruct (_ && _ && _); [apply runs_ret|].
      replace (Z.of_nat k + 1) with (Z.of_nat (S k)) by lia. apply IH; lia.
Qed.

Lemma runs_search nm par ty :
  runs f (search m nm par ty) (found (lookup_entry (visible m (table f m n)) nm par ty)) f.
Proof.
  pose proof (dok_size _ _ _ _ Hd). unfold search. rewrite limit_eq.
  pose proof (runs_search_from (S (Z.to_nat (dirsize m * ENTRIES_PER_BLOCK))) nm par ty 0) as Hs.
  rewrite Nat.sub_0_r in Hs. apply Hs; unfold ENTRIES_PER_BLOCK; lia.
Qed.

(** What [lookup_entry] finds is an entry of the table. *)
Lemma lookup_ent nm par ty i e :
  lookup_entry (visible m (table f m n)) nm par ty = Some (i, e) ->
  0 <= i < Z.of_nat n /\ e = ent f m i /\ (i =? SEARCH_FAILURE) = false.
Proof.
  intros H. apply find_from_spec in H as (Hi & Hl & _). rewrite Z.sub_0_r in Hl.
  apply lookup_take_Some in Hl as [Hl _]. pose proof (lookup_lt_Some _ _ _ Hl) as Hlt.
  rewrite table_len in Hlt. rewrite table_lookup in Hl by done. injection Hl as <-.
  pose proof (dok_count _ _ _ _ Hd). rewrite Z2Nat.id by lia. split; [lia|]. split; [done|].
  apply Z.eqb_neq. lia.
Qed.

Lemma runs_resolve fuel cs nm par ty : Forall comp_ok cs -> comp_ok nm ->
  (length cs < fuel)%nat ->
  runs f (resolve fuel m (join cs nm) par ty)
    (match walk (visible m (table f m n)) par cs with
     | None => MkPathResult 0 empty_entry empty_entry [] true false
     | Some par => match lookup_entry (visible m (table f m n)) nm (payload par) ty with
                   | Some (i, e) => MkPathResult i e par nm false false
                   | None => MkPathResult 0 empty_entry par nm false true
                   end
     end) f.
Proof.
  revert fuel par. induction cs as [|c cs IH]; intros fuel par Hcs Hnm Hf;
    (destruct fuel as [|fuel]; [simpl in Hf; lia|]); cbn [resolve join walk].
  - destruct Hnm as [Hn Hlen]. rewrite (component_last nm Hn).
    rewrite decide_True by done.
    eapply runs_bind; [apply runs_search|cbv beta].
    destruct (lookup_entry _ nm _ ty) as [[i e]|] eqn:E; cbn [found].
    + destruct (lookup_ent _ _ _ _ _ E) as (Hi & -> & ->).
      eapply runs_bind; [apply runs_search|cbv beta]. rewrite E. cbn [found].
      eapply runs_bind; [apply run_entry; lia|cbv beta].
      eapply runs_bind; [apply runs_search|cbv beta]. rewrite E. apply runs_ret.
    + rewrite Z.eqb_refl. apply runs_ret.
  - inversion Hcs as [|? ? [Hc Hlen] Hcs']; subst.
    rewrite (component_slash c (join cs nm) Hc). rewrite decide_True by done.
    eapply runs_bind; [apply runs_search|cbv beta].
    destruct (lookup_entry _ c _ _) as [[i e]|] eqn:E; cbn [found].
    + destruct (lookup_ent _ _ _ _ _ E) as (Hi & -> & ->).
      eapply runs_bind; [apply runs_search|cbv beta]. rewrite E. cbn [found].
      eapply runs_bind; [apply run_entry; lia|cbv beta].
      apply IH; [done|done|simpl in Hf; lia].
    + rewrite Z.eqb_refl. apply runs_ret.
Qed.

Lemma join_long cs nm : (length cs <= length (join cs nm))%nat.
Proof. induction cs as [|c cs IH]; simpl; [lia|]. rewrite length_app. simpl. lia. Qed.

Lemma runs_path_resolver cs nm ty : Forall comp_ok cs -> comp_ok nm -> nm <> [] ->
  runs f (path_resolver m (47 :: join cs nm) ty) (resolved (visible m (table f m n)) cs nm ty) f.
Proof.
  intros Hcs Hnm Hne. unfold path_resolver.
  assert (47 :: join cs nm <> [47]) as Hp.
  { intros [= Hj]. destruct cs; simpl in Hj; [done|]. by apply app_nil in Hj as [_ ?]. }
  rewrite (bool_decide_eq_false_2 _ Hp), !andb_false_r. cbn [Z.eqb Pos.eqb].
  apply runs_resolve; [done|done|]. pose proof (join_long cs nm). lia.
Qed.

Lemma runs_get_metadata cs nm ty : Forall comp_ok cs -> comp_ok nm -> nm <> [] ->
  runs f (echfs_get_metadata m (47 :: join cs nm) ty)
    (let r := resolved (visible m (table f m n)) cs nm ty in
     if failure r || not_found r then None else Some (name (target r), ty, size (target r))) f.
Proof.
  intros Hcs Hnm Hne. unfold echfs_get_metadata.
  assert (47 :: join cs nm <> [47]) as Hp.
  { intros [= Hj]. destruct cs; simpl in Hj; [done|]. by apply app_nil in Hj as [_ ?]. }
  rewrite (bool_decide_eq_false_2 _ Hp), (bool_decide_eq_false_2 (_ = [])) by done. cbn [orb andb].
  eapply runs_bind; [by apply runs_path_resolver|cbv beta zeta].
  destruct (failure _); [apply runs_ret|]. destruct (not_found _); apply runs_ret.
Qed.

Lemma runs_empty_slot fuel k : (k <= n)%nat ->
  let s := (k + free_slot (drop k (table f m n)))%nat in (s < k + fuel)%nat ->
  runs f (empty_slot fuel m (Z.of_nat k)) (Z.of_nat s) f.
Proof.
  revert k. induction fuel as [|fuel IH]; intros k Hk s Hf; [unfold s in Hf; lia|]. cbn [empty_slot].
  eapply runs_bind; [apply run_entry; lia|cbv beta].
  destruct (decide (k = n)) as [->|Hkn].
  - rewrite (dok_end _ _ _ _ Hd). cbn [Z.eqb orb]. unfold s. rewrite drop_ge by (by rewrite table_len).
    rewrite Nat.add_0_r. apply runs_ret.
  - rewrite (proj2 (Z.eqb_neq _ _)) by (apply (dok_live _ _ _ _ Hd); lia). cbn [orb].
    unfold s in *. rewrite table_S_drop in * by lia. cbn [free_slot] in *.
    destruct (parent_id _ =? DELETED_ENTRY); [rewrite Nat.add_0_r; apply runs_ret|].
    replace (Z.of_nat k + 1) with (Z.of_nat (S k)) by lia. rewrite Nat.add_succ_r in *.
    apply IH; lia.
Qed.

Lemma runs_get_free_id_from fuel k id : (k <= n)%nat -> (n - k < fuel)%nat ->
  runs f (get_free_id_from fuel m (Z.of_nat k) id) (free_id id (drop k (table f m n))) f.
Proof.
  revert k id. induction fuel as [|fuel IH]; intros k id Hk Hf; [lia|]. cbn [get_free_id_from].
  eapply runs_bind; [apply run_entry; lia|cbv beta].
  destruct (decide (k = n)) as [->|Hkn].
  - rewrite (dok_end _ _ _ _ Hd), drop_ge by (by rewrite table_len). apply runs_ret.
  - rewrite (proj2 (Z.eqb_neq _ _)) by (apply (dok_live _ _ _ _ Hd); lia).
    rewrite table_S_drop by lia. cbn [free_id].
    replace (Z.of_nat k + 1) with (Z.of_nat (S k)) by lia. apply IH; lia.
Qed.

Lemma free_slot_le t : (free_slot t <= length t)%nat.
Proof. induction t as [|e t IH]; simpl; [lia|]. destruct (_ =? _); lia. Qed.

Lemma slot_entry : let s := free_slot (table f m n) in
  (s <= n)%nat /\ (parent_id (ent f m (Z.of_nat s)) = 0 \/ parent_id (ent f m (Z.of_nat s)) = DELETED_ENTRY).
Proof.
  intros s. assert (s <= n)%nat as Hs by (pose proof (free_slot_le (table f m n)); rewrite table_len in *; done).
  split; [done|]. destruct (decide (s = n)) as [->|]; [left; apply Hd|]. right.
  assert (forall t, (free_slot t < length t)%nat ->
    exists e, t !! free_slot t = Some e /\ parent_id e = DELETED_ENTRY) as Hf.
  { induction t as [|e t IH]; simpl; [lia|]. destruct (Z.eqb_spec (parent_id e) DELETED_ENTRY) as [E|].
    - intros _. by exists e.
    - intros Hl. apply IH. lia. }
  destruct (Hf (table f m n)) as (e & He & Hp); [rewrite table_len; fold s; lia|].
  fold s in He. rewrite table_lookup in He by lia. by injection He as <-.
Qed.

(** The payload of any entry fits, on an image of bytes. *)
Lemma payload_range i : (forall l, 0 <= l < sz -> is_byte (f l)) -> in_volume (sz := sz) m i ->
  0 <= payload (ent f m i) < 2 ^ 64.
Proof.
  intros Hb [H0 H1]. change (2 ^ 64) with (256 ^ Z.of_nat 8). apply le_range. intros l Hl. apply Hb. lia.
Qed.

Lemma walk_range cs par d : (forall l, 0 <= l < sz -> is_byte (f l)) ->
  0 <= payload d < 2 ^ 64 -> walk (visible m (table f m n)) d cs = Some par -> 0 <= payload par < 2 ^ 64.
Proof.
  intros Hb. revert d. induction cs as [|c cs IH]; intros d Hp; cbn [walk]; [by intros [= <-]|].
  destruct (lookup_entry _ c _ _) as [[i e]|] eqn:E; [|done].
  destruct (lookup_ent _ _ _ _ _ E) as (Hi & -> & _). apply IH. apply payload_range; [done|]. apply Hd. lia.
Qed.

Lemma runs_create fuel cs nm par : Forall comp_ok cs -> comp_ok nm -> nm <> [] ->
  Forall (fun c => is_byte c /\ c <> 0) nm ->
  walk (visible m (table f m n)) root cs = Some par ->
  (free_slot (table f m n) < fuel)%nat ->
  let s := Z.of_nat (free_slot (table f m n)) in
  let e := new_entry (payload par) FILE_TYPE nm END_OF_CHAIN in
  runs f (echfs_create fuel m (47 :: join cs nm)) SUCCESS (put_entry f m s e).
Proof.
  intros Hcs Hnm Hne Hby Hw Hf s e. apply runs_bytes. intros Hb. unfold echfs_create.
  eapply runs_bind; [by apply runs_path_resolver|cbv beta]. unfold resolved. rewrite Hw.
  set (r := match lookup_entry _ _ _ _ with Some _ => _ | None => _ end).
  assert (failure r = false /\ parent r = par /\ rname r = nm) as (-> & -> & ->).
  { unfold r. destruct (lookup_entry _ _ _ _) as [[? ?]|]; done. }
  eapply runs_bind; [apply (runs_empty_slot fuel 0); simpl; rewrite ?drop_0; lia|cbv beta].
  rewrite drop_0. cbn [Nat.add]. fold s. fold e.
  eapply runs_bind; [apply runs_wr_entry|apply runs_ret].
  - apply Hd. unfold s. destruct slot_entry. lia.
  - assert (0 <= payload root < 2 ^ 64) as Hr by (split; done).
    pose proof (walk_range cs par root Hb Hr Hw).
    split; simpl; try done; apply Hnm.
Qed.

(** With a missing directory on the path, [echfs_mkdir] still writes an entry. *)
Lemma runs_mkdir_missing fuel cs nm : Forall comp_ok cs -> comp_ok nm -> nm <> [] ->
  walk (visible m (table f m n)) root cs = None -> (n < fuel)%nat ->
  0 <= free_id 1 (table f m n) < 2 ^ 64 ->
  let s := Z.of_nat (free_slot (table f m n)) in
  runs f (echfs_mkdir fuel m (47 :: join cs nm)) SUCCESS
    (put_entry f m s (new_entry 0 DIRECTORY_TYPE [] (free_id 1 (table f m n)))).
Proof.
  intros Hcs Hnm Hne Hw Hf Hid s. unfold echfs_mkdir. destruct slot_entry as [Hs _].
  eapply runs_bind; [by apply runs_path_resolver|cbv beta]. unfold resolved. rewrite Hw.
  eapply runs_bind; [apply (runs_empty_slot fuel 0); simpl; rewrite ?drop_0; lia|cbv beta].
  rewrite drop_0. cbn [Nat.add].
  eapply runs_bind; [apply (runs_get_free_id_from fuel 0); lia|cbv beta]. rewrite drop_0.
  cbn [parent rname]. eapply runs_bind; [apply runs_wr_entry|apply runs_ret].
  - apply Hd. lia.
  - split; simpl; try done.
Qed.

End Directory.

(** ** Lemmas: tables after a write *)

Lemma entry_loc_apart m i j : i <> j ->
  entry_loc m i + 256 <= entry_loc m j \/ entry_loc m j + 256 <= entry_loc m i.
Proof. unfold entry_loc, ENTRY_SIZE. lia. Qed.

Lemma put_other f m i j e l : zlen (name e) < FILENAME_LEN -> i <> j ->
  entry_loc m i <= l < entry_loc m i + 256 -> put_entry f m j e l = f l.
Proof. intros Hn Hij Hl. apply put_entry_out; [done|]. pose proof (entry_loc_apart m i j Hij). lia. Qed.

Lemma ent_put_ne f m i j e : zlen (name e) < FILENAME_LEN -> i <> j ->
  ent (put_entry f m j e) m i = ent f m i.
Proof.
  intros Hn Hij. pose proof (put_other f m i j e) as Ho. unfold ent, FILENAME_LEN in *.
  f_equal; first [apply le_ext; intros l Hl; apply Ho; lia | apply text_at_ext; intros l Hl; apply Ho; lia
    | apply Ho; lia].
Qed.

Lemma named_put_ne f m i j e : zlen (name e) < FILENAME_LEN -> i <> j -> named f m i ->
  named (put_entry f m j e) m i.
Proof.
  intros Hn Hij (k & Hk & Hz). exists k. split; [done|]. rewrite (put_other f m i j e); [done|done|done|].
  unfold FILENAME_LEN in *. lia.
Qed.

Lemma text_terminated f a s : upd_text f a s (a + zlen s) = 0.
Proof.
  revert f a. induction s as [|c s IH]; intros f a; cbn [upd_text].
  - change (zlen (@nil Z)) with 0. rewrite Z.add_0_r. apply upd_eq.
  - rewrite zlen_cons. replace (a + (zlen s + 1)) with (a + 1 + zlen s) by lia. apply IH.
Qed.

Lemma named_put f m i e : zlen (name e) < FILENAME_LEN -> named (put_entry f m i e) m i.
Proof.
  intros Hn. exists (zlen (name e)). pose proof (zlen_nonneg (name e)). split; [done|].
  unfold put_entry. set (loc := entry_loc m i). unfold FILENAME_LEN in *.
  rewrite !upd_le_out, !upd_ne, !upd_le_out, !upd_ne by lia. apply text_terminated.
Qed.

(** Writing a live entry in the table, or at its end when another terminator follows. *)
Lemma dir_ok_put sz f m n s e : dir_ok sz f m n -> entry_ok e -> parent_id e <> 0 -> 0 <= s < Z.of_nat n ->
  dir_ok sz (put_entry f m s e) m n.
Proof.
  intros H He Hp Hs. pose proof (eok_len _ He) as Hn. split.
  - apply H.
  - intros i Hi. destruct (decide (i = s)) as [->|]; [by apply named_put|]. apply named_put_ne; [done|done|by apply H].
  - intros i Hi. destruct (decide (i = s)) as [->|]; [by rewrite ent_put_entry|].
    rewrite ent_put_ne by done. by apply H.
  - rewrite ent_put_ne by (done || lia). apply H.
  - apply H.
  - apply H.
Qed.

Definition spare (sz : Z) (f : image) (m : mount_t) (n : nat) : Prop :=
  in_volume (sz := sz) m (Z.of_nat (S n)) /\ named f m (Z.of_nat (S n)) /\
  parent_id (ent f m (Z.of_nat (S n))) = 0 /\ Z.of_nat (S n) < SEARCH_FAILURE.

Lemma dir_ok_extend sz f m n e : dir_ok sz f m n -> entry_ok e -> parent_id e <> 0 ->
  spare sz f m n -> dir_ok sz (put_entry f m (Z.of_nat n) e) m (S n).
Proof.
  intros H He Hp (Hv & Hnm & Hz & Hc). pose proof (eok_len _ He) as Hn. split.
  - intros i Hi. destruct (decide (i = Z.of_nat (S n))) as [->|]; [done|apply H; lia].
  - intros i Hi. destruct (decide (i = Z.of_nat n)) as [->|]; [by apply named_put|].
    apply named_put_ne; [done|done|]. destruct (decide (i = Z.of_nat (S n))) as [->|]; [done|apply H; lia].
  - intros i Hi. destruct (decide (i = Z.of_nat n)) as [->|]; [by rewrite ent_put_entry|].
    rewrite ent_put_ne by done. apply H. lia.
  - rewrite ent_put_ne by (done || lia). done.
  - apply H.
  - done.
Qed.

(** Writing an entry without parent ends the table there. *)
Lemma dir_ok_cut sz f m n s e : dir_ok sz f m n -> entry_ok e -> parent_id e = 0 -> (s <= n)%nat ->
  dir_ok sz (put_entry f m (Z.of_nat s) e) m s.
Proof.
  intros H He Hp Hs. pose proof (eok_len _ He) as Hn. split.
  - intros i Hi. apply H. lia.
  - intros i Hi. destruct (decide (i = Z.of_nat s)) as [->|]; [by apply named_put|].
    apply named_put_ne; [done|done|apply H; lia].
  - intros i Hi. rewrite ent_put_ne by (done || lia). apply H. lia.
  - by rewrite ent_put_entry.
  - apply H.
  - pose proof (dok_count _ _ _ _ H). lia.
Qed.

(** ** Lemmas: looking up *)

Definition match_at (nm : list Z) (par ty : Z) (t : list entry_t) (k : nat) : option entry_t :=
  match t !! k with
  | Some e => if matches nm par ty e then Some e else None
  | None => None
  end.

Lemma find_from_ext nm par ty i t t' : (forall k, match_at nm par ty t k = match_at nm par ty t' k) ->
  find_from nm par ty i t = find_from nm par ty i t'.
Proof.
  assert (forall u j, (forall k, match_at nm par ty u k = None) -> find_from nm par ty j u = None) as Hnone.
  { induction u as [|e u IH]; intros j H; cbn [find_from]; [done|]. pose proof (H O) as H0.
    unfold match_at in H0. simpl in H0. destruct (matches _ _ _ e); [done|]. apply IH.
    intros k. apply (H (S k)). }
  revert i t'. induction t as [|e t IH]; intros i t' H; cbn [find_from].
  - symmetry. apply Hnone. intros k. by rewrite <- H.
  - destruct t' as [|e' t']; [apply (Hnone (e :: t)), H|]. cbn [find_from].
    pose proof (H O) as H0. unfold match_at in H0. simpl in H0.
    destruct (matches _ _ _ e), (matches _ _ _ e'); try done; [by injection H0 as ->|].
    apply IH. intros k. apply (H (S k)).
Qed.

Lemma find_from_first nm par ty i t k e : (forall j, (j < k)%nat -> match_at nm par ty t j = None) ->
  match_at nm par ty t k = Some e -> find_from nm par ty i t = Some (i + Z.of_nat k, e).
Proof.
  revert i k. induction t as [|x t IH]; intros i k Hb Hk; cbn [find_from]; [done|].
  destruct k as [|k].
  - unfold match_at in Hk. simpl in Hk. destruct (matches _ _ _ x); [|done]. injection Hk as ->.
    by rewrite Z.add_0_r.
  - pose proof (Hb O ltac:(lia)) as H0. unfold match_at in H0. simpl in H0.
    destruct (matches _ _ _ x); [done|]. rewrite (IH (i + 1) k); [do 2 f_equal; lia| |done].
    intros j Hj. apply (Hb (S j)). lia.
Qed.

Lemma find_from_none nm par ty i t k : find_from nm par ty i t = None -> match_at nm par ty t k = None.
Proof.
  revert i k. induction t as [|x t IH]; intros i k; cbn [find_from]; [by destruct k|].
  destruct (matches nm par ty x) eqn:E; [done|]. intros H. destruct k as [|k].
  - unfold match_at. simpl. by rewrite E.
  - apply (IH _ _ H).
Qed.

(** ** Lemmas: the table after a creation *)

(** No directory has the identifier 0 or that of a deleted entry. *)
Definition ids_ok (f : image) (m : mount_t) (n : nat) : Prop :=
  forall i, 0 <= i < Z.of_nat n -> type (ent f m i) = DIRECTORY_TYPE ->
    payload (ent f m i) <> 0 /\ payload (ent f m i) <> DELETED_ENTRY.

Lemma visible_lookup m t k :
  visible m t !! k = if decide (Z.of_nat k < dirsize m * ENTRIES_PER_BLOCK) then t !! k else None.
Proof.
  unfold visible. case_decide.
  - apply lookup_take_lt. lia.
  - apply lookup_take_ge. lia.
Qed.

Section Ids.
Context {W : Type} {D : BlockDev W} {sz : Z} {L : BlockDevLaws D sz}.
Context (f : image) (m : mount_t) (n : nat) (Hd : dir_ok sz f m n) (Hi : ids_ok f m n).
#[local] Set Default Proof Using "Type*".

Lemma lookup_dir_ids c par i d :
  lookup_entry (visible m (table f m n)) c par DIRECTORY_TYPE = Some (i, d) ->
  payload d <> 0 /\ payload d <> DELETED_ENTRY.
Proof.
  intros H. destruct (lookup_ent f m n Hd _ _ _ _ _ H) as (Hr & -> & _). apply Hi; [done|].
  apply find_from_spec in H as (_ & _ & Hm). unfold matches in Hm. bsimp. done.
Qed.

Lemma walk_ids cs d par : payload d <> 0 -> payload d <> DELETED_ENTRY ->
  walk (visible m (table f m n)) d cs = Some par -> payload par <> 0 /\ payload par <> DELETED_ENTRY.
Proof.
  revert d. induction cs as [|c cs IH]; intros d H0 H1; cbn [walk]; [by intros [= <-]|].
  destruct (lookup_entry _ c _ _) as [[i d']|] eqn:E; [|done].
  destruct (lookup_dir_ids _ _ _ _ E). by apply IH.
Qed.

End Ids.

Section Create.
Context {W : Type} {D : BlockDev W} {sz : Z} {L : BlockDevLaws D sz}.
Context (f : image) (m : mount_t) (n : nat) (Hd : dir_ok sz f m n) (Hs : spare sz f m n) (Hi : ids_ok f m n).
Context (e : entry_t) (He : entry_ok e) (Hp : parent_id e <> 0) (Ht : type e = FILE_TYPE).
#[local] Set Default Proof Using "Type*".

Let s : nat := free_slot (table f m n).
Let n' : nat := Nat.max n (S s).
Let g : image := put_entry f m (Z.of_nat s) e.

Lemma slot_cases : (s < n)%nat /\ n' = n /\ parent_id (ent f m (Z.of_nat s)) = DELETED_ENTRY \/ s = n /\ n' = S n.
Proof.
  destruct (slot_entry f m n Hd) as [Hle Hpid]. fold s in Hle, Hpid.
  destruct (decide (s = n)); [right; unfold n'; lia|left].
  split; [lia|]. split; [unfold n'; lia|]. destruct Hpid as [H0|]; [|done].
  exfalso. apply (dok_live _ _ _ _ Hd (Z.of_nat s)); [lia|done].
Qed.

Lemma created_dir : dir_ok sz g m n'.
Proof.
  destruct slot_cases as [(Hsn & -> & _)|[Es ->]]; unfold g.
  - apply dir_ok_put; [done|done|done|lia].
  - rewrite Es. by apply dir_ok_extend.
Qed.

Lemma created_lookup k : table g m n' !! k = if decide (k = s) then Some e else table f m n !! k.
Proof.
  assert (s < n')%nat by (unfold n'; lia).
  destruct (decide (k < n')%nat) as [Hk|Hk].
  - rewrite table_lookup by done. case_decide as Hks; [subst k; unfold g; by rewrite ent_put_entry|].
    unfold g. rewrite ent_put_ne by (apply He || lia). symmetry. apply table_lookup.
    destruct slot_cases as [(? & ? & _)|[? ?]]; lia.
  - rewrite decide_False by lia. rewrite !lookup_ge_None_2; [done|rewrite table_len|rewrite table_len];
      destruct slot_cases as [(? & ? & _)|[? ?]]; lia.
Qed.

Lemma match_created nm par ty k : par <> DELETED_ENTRY -> k <> s \/ matches nm par ty e = false ->
  match_at nm par ty (visible m (table g m n')) k = match_at nm par ty (visible m (table f m n)) k.
Proof.
  intros Hpar Hk. unfold match_at. rewrite !visible_lookup, created_lookup.
  case_decide; [|done]. case_decide as Hks; [|done]. subst k. destruct Hk as [?| ->]; [done|].
  destruct slot_cases as [(Hsn & _ & Hdel)|[Es _]].
  - rewrite table_lookup by done. unfold matches. rewrite Hdel.
    by rewrite (proj2 (Z.eqb_neq DELETED_ENTRY par)) by done.
  - by rewrite lookup_ge_None_2 by (rewrite table_len; lia).
Qed.

Lemma match_slot nm par ty : par <> DELETED_ENTRY ->
  match_at nm par ty (visible m (table f m n)) s = None.
Proof.
  intros Hpar. unfold match_at. rewrite visible_lookup. case_decide; [|done].
  destruct slot_cases as [(Hsn & _ & Hdel)|[Es _]].
  - rewrite table_lookup by done. unfold matches. rewrite Hdel.
    by rewrite (proj2 (Z.eqb_neq DELETED_ENTRY par)) by done.
  - by rewrite lookup_ge_None_2 by (rewrite table_len; lia).
Qed.

Lemma lookup_dir_created c par : par <> DELETED_ENTRY ->
  lookup_entry (visible m (table g m n')) c par DIRECTORY_TYPE =
  lookup_entry (visible m (table f m n)) c par DIRECTORY_TYPE.
Proof.
  intros Hpar. apply find_from_ext. intros k. apply match_created; [done|]. right.
  unfold matches. rewrite Ht. cbn [Z.eqb FILE_TYPE DIRECTORY_TYPE Pos.eqb]. by rewrite andb_false_r.
Qed.

Lemma walk_created cs d : payload d <> DELETED_ENTRY ->
  walk (visible m (table g m n')) d cs = walk (visible m (table f m n)) d cs.
Proof.
  revert d. induction cs as [|c cs IH]; intros d Hdel; cbn [walk]; [done|].
  rewrite lookup_dir_created by done.
  destruct (lookup_entry _ c _ _) as [[i d']|] eqn:E; [|done]. apply IH.
  by destruct (lookup_dir_ids f m n Hd Hi _ _ _ _ E).
Qed.

Lemma lookup_created : parent_id e <> DELETED_ENTRY ->
  lookup_entry (visible m (table f m n)) (name e) (parent_id e) FILE_TYPE = None ->
  lookup_entry (visible m (table g m n')) (name e) (parent_id e) FILE_TYPE =
    if decide (Z.of_nat s < dirsize m * ENTRIES_PER_BLOCK) then Some (Z.of_nat s, e) else None.
Proof.
  intros Hdel Hnone. case_decide as Hv.
  - apply (find_from_first _ _ _ 0 _ s).
    + intros j Hj. rewrite match_created by (done || lia). by apply (find_from_none _ _ _ 0).
    + unfold match_at. rewrite visible_lookup, created_lookup, !decide_True by done. unfold matches.
      rewrite Ht, !Z.eqb_refl. by rewrite bool_decide_eq_true_2.
  - rewrite <- Hnone. apply find_from_ext. intros k. destruct (decide (k = s)) as [->|Hks]; [|apply match_created; [done|by left]].
    rewrite match_slot by done. unfold match_at. rewrite visible_lookup. by rewrite decide_False.
Qed.

End Create.

(** * Properties *)

(** The codec of directory entries: writing entry [i] and reading it back
    returns every field, the name as a text, on any entry whose fields fit their
    types; no byte outside of the 256 bytes of the entry changes, and no other
    entry. *)
Theorem entry_roundtrip {W : Type} {D : BlockDev W} {sz : Z} {L : BlockDevLaws D sz}
    (f : image) (m : mount_t) (i : Z) (e : entry_t) :
  in_volume (sz := sz) m i -> entry_ok e ->
  exists g, runs f (wr_entry m i e) tt g /\ runs g (rd_entry m i) e g /\
    (forall l, l < entry_loc m i \/ entry_loc m i + 256 <= l -> g l = f l) /\
    forall j, j <> i -> ent g m j = ent f m j.
Proof.
  intros Hv He. pose proof (eok_len _ He) as Hn. exists (put_entry f m i e).
  split; [by apply runs_wr_entry|]. split; [|split].
  - pose proof (runs_rd_entry (put_entry f m i e) m i Hv (named_put f m i e Hn)) as H.
    by rewrite ent_put_entry in H.
  - intros l. by apply put_entry_out.
  - intros j Hj. by apply ent_put_ne.
Qed.

(** C7: Path resolution walks the directory tree: on a volume whose directory table
    is well formed, [path_resolver] of [/c1/../ck/nm] returns exactly what walking
    the directories [c1] .. [ck] from the root in the entries it can see and
    looking [nm] up in the last one gives: the entry, its number and its parent; the
    parent and [not_found]; or [failure] when a directory is missing. *)
Theorem path_resolver_correct {W : Type} {D : BlockDev W} {sz : Z} {L : BlockDevLaws D sz}
    (f : image) (m : mount_t) (n : nat) (cs : list (list Z)) (nm : list Z) (ty : Z) :
  dir_ok sz f m n -> Forall comp_ok cs -> comp_ok nm -> nm <> [] ->
  runs f (path_resolver m (47 :: join cs nm) ty) (resolved (visible m (table f m n)) cs nm ty) f.
Proof. intros Hd. by apply runs_path_resolver. Qed.

(** C36: Creating a file: on a well-formed directory table with a spare terminator,
    [echfs_create] of a new name in an existing directory returns [SUCCESS],
    changes only the 256 bytes of the first free entry and keeps the table well
    formed; afterwards [echfs_get_metadata] finds the file, empty, when that entry
    lies in the part of the table [search] looks at, [2 * dirsize] entries, and does
    not find it otherwise, although the table holds 128 entries per block. *)
Theorem echfs_create_correct {W : Type} {D : BlockDev W} {sz : Z} {L : BlockDevLaws D sz}
    (f : image) (m : mount_t) (n fuel : nat) (cs : list (list Z)) (nm : list Z) (par : entry_t) :
  dir_ok sz f m n -> spare sz f m n -> ids_ok f m n ->
  Forall comp_ok cs -> comp_ok nm -> nm <> [] -> Forall (fun c => is_byte c /\ c <> 0) nm ->
  0 <= payload par < 2 ^ 64 ->
  walk (visible m (table f m n)) root cs = Some par ->
  lookup_entry (visible m (table f m n)) nm (payload par) FILE_TYPE = None ->
  (free_slot (table f m n) < fuel)%nat ->
  let s := Z.of_nat (free_slot (table f m n)) in
  exists g n', runs f (echfs_create fuel m (47 :: join cs nm)) SUCCESS g /\ dir_ok sz g m n' /\
    (forall l, l < entry_loc m s \/ entry_loc m s + 256 <= l -> g l = f l) /\
    runs g (echfs_get_metadata m (47 :: join cs nm) FILE_TYPE)
      (if decide (s < dirsize m * ENTRIES_PER_BLOCK) then Some (nm, FILE_TYPE, 0) else None) g.
Proof.
  intros Hd Hsp Hi Hcs Hnm Hne Hby Hpr Hw Hl Hf s.
  pose proof (walk_ids f m n Hd Hi cs root par ltac:(done) ltac:(done) Hw) as [Hp0 Hpd].
  set (e := new_entry (payload par) FILE_TYPE nm END_OF_CHAIN).
  assert (entry_ok e) as He by (split; simpl; try done; apply Hnm).
  exists (put_entry f m s e), (Nat.max n (S (free_slot (table f m n)))).
  pose proof (created_dir f m n Hd Hsp Hi e He Hp0 eq_refl) as Hd'.
  split; [by apply runs_create|]. split; [done|].
  split; [intros l; apply put_entry_out; apply He|].
  pose proof (runs_get_metadata _ m _ Hd' cs nm FILE_TYPE Hcs Hnm Hne) as Hg. fold s in Hg.
  unfold resolved in Hg. rewrite (walk_created f m n Hd Hsp Hi e He Hp0 eq_refl), Hw in Hg by done.
  pose proof (lookup_created f m n Hd Hsp Hi e He Hp0 eq_refl Hpd Hl) as Hlk. simpl in Hlk. fold s e in Hlk.
  rewrite Hlk in Hg. case_decide; exact Hg.
Qed.

(** [echfs_mkdir] ignores a failed resolution: given a path with a missing
    directory it still returns [SUCCESS] and writes an entry without parent, the
    mark of the end of the table, into the first free entry; when that is a deleted
    entry inside the table, the table is cut there and every later entry is lost. *)
Theorem echfs_mkdir_cuts_table {W : Type} {D : BlockDev W} {sz : Z} {L : BlockDevLaws D sz}
    (f : image) (m : mount_t) (n fuel : nat) (cs : list (list Z)) (nm : list Z) :
  dir_ok sz f m n -> Forall comp_ok cs -> comp_ok nm -> nm <> [] ->
  walk (visible m (table f m n)) root cs = None -> (n < fuel)%nat ->
  0 <= free_id 1 (table f m n) < 2 ^ 64 ->
  exists g, runs f (echfs_mkdir fuel m (47 :: join cs nm)) SUCCESS g /\
    dir_ok sz g m (free_slot (table f m n)).
Proof.
  intros Hd Hcs Hnm Hne Hw Hf Hid. eexists. split; [by apply (runs_mkdir_missing f m n)|].
  destruct (slot_entry f m n Hd). apply (dir_ok_cut sz f m n); [done| |done|done].
  by split.
Qed.

(** [get_free_id] makes one pass and so can return an identifier in use: when
    directory 2 comes before directory 1 in the table, as after a file entry before
    directory 1 was deleted and its slot reused, it returns 2. *)
Theorem get_free_id_collides {W : Type} {D : BlockDev W} {sz : Z} {L : BlockDevLaws D sz}
    (f : image) (m : mount_t) (fuel : nat) :
  dir_ok sz f m 2 -> (2 < fuel)%nat ->
  type (ent f m 0) = DIRECTORY_TYPE -> payload (ent f m 0) = 2 ->
  type (ent f m 1) = DIRECTORY_TYPE -> payload (ent f m 1) = 1 ->
  runs f (get_free_id fuel m) (payload (ent f m 0)) f.
Proof.
  intros Hd Hf T0 P0 T1 P1. pose proof (runs_get_free_id_from f m 2 Hd fuel 0 1 ltac:(lia) ltac:(lia)) as H.
  rewrite drop_0 in H. unfold table in H. cbn [seq fmap list_fmap free_id] in H.
  change (Z.of_nat 0) with 0 in H. change (Z.of_nat 1) with 1 in H.
  rewrite T0, P0, T1, P1 in H. rewrite P0. exact H.
Qed.

(** * Witnesses *)

(** Images as devices of 1 GiB. *)
#[export] Instance image_dev : BlockDev image := {
  vfs_kread l := fun w => Some (w l, w);
  vfs_kwrite l v := fun w => Some (0, upd w l v);
  kseek_uread _ off len := fun w => Some ((fun k => w (off + Z.of_nat k)) <$> seq 0 (Z.to_nat len), w);
  kseek_uwrite _ off bytes := fun w => Some (zlen bytes, fun l => default (w l) (zget bytes (l - off)));
  vfs_kopen := st_ret 0; vfs_kclose _ := st_ret 0; vfs_kfork _ := st_ret 0
}.
#[export] Program Instance image_laws : BlockDevLaws image_dev (2 ^ 30) := {
  bd_ok w := forall l, is_byte (w l);
  img w := w;
  good_handle _ := True
}.
Next Obligation. done. Qed.
Next Obligation. intros w l Hw _. apply Hw. Qed.
Next Obligation. intros w l Hw _. by exists w. Qed.
Next Obligation.
  intros w l v Hw _ Hv. exists 0, (upd w l v). split; [done|]. split; [|done].
  intros k. unfold upd. by case_decide.
Qed.
Next Obligation. intros w h off len Hw _ _ _. exists w. simpl. by rewrite Nat2Z.id. Qed.
Next Obligation.
  intros w h off bytes Hw _ Hb _ _. eexists _, _. split; [done|]. split; [|done]. intros l.
  destruct (zget bytes (l - off)) as [v|] eqn:E; simpl; [|apply Hw].
  pose proof (zget_Some _ _ _ E). rewrite zget_lookup in E by lia. by eapply Forall_lookup_1.
Qed.

Definition demo_mount : mount_t := MkMount [98] 1000 1 16 1 17 18.
Definition dir_entry (par : Z) (nm : list Z) (id : Z) : entry_t := new_entry par DIRECTORY_TYPE nm id.

Lemma dir_entry_ok nm id : Forall (fun c => is_byte c /\ c <> 0) nm -> zlen nm < FILENAME_LEN ->
  0 <= id < 2 ^ 64 -> entry_ok (dir_entry ROOT_ID nm id).
Proof. intros Hn Hl Hid. by split. Qed.

Definition blank : image := fun _ => 0.
Lemma blank_dir : dir_ok (2 ^ 30) blank demo_mount 0.
Proof.
  split; try done.
  - intros i Hi. assert (i = 0) as -> by lia. split; done.
  - intros i Hi. exists 0. done.
  - intros i Hi. lia.
Qed.
Lemma blank_spare n f : (forall l, entry_loc demo_mount (Z.of_nat (S n)) <= l -> f l = 0) -> (n < 100)%nat ->
  spare (2 ^ 30) f demo_mount n.
Proof.
  intros Hf Hn. assert (in_volume (sz := 2 ^ 30) demo_mount (Z.of_nat (S n))) as Hv.
  { unfold in_volume, entry_loc. change (dirstart demo_mount * BYTES_PER_BLOCK) with 557056.
    unfold ENTRY_SIZE. lia. }
  split; [done|]. split; [exists 0; split; [done|apply Hf; lia]|]. split; [|unfold SEARCH_FAILURE; lia].
  unfold ent. cbn [parent_id]. rewrite (le_ext f blank); [done|]. intros l Hl. rewrite Hf by lia. done.
Qed.

(** Directory 2 named [b], then directory 1 named [a]. *)
Definition one_dir : image := put_entry blank demo_mount 0 (dir_entry ROOT_ID [98] 2).
Definition two_dirs : image := put_entry one_dir demo_mount 1 (dir_entry ROOT_ID [97] 1).

Lemma one_dir_ok : dir_ok (2 ^ 30) one_dir demo_mount 1.
Proof.
  apply (dir_ok_extend _ blank demo_mount 0); [apply blank_dir| |done|by apply blank_spare; [|lia]].
  apply dir_entry_ok; [|done|done]. by constructor.
Qed.
Lemma two_dirs_ok : dir_ok (2 ^ 30) two_dirs demo_mount 2.
Proof.
  apply (dir_ok_extend _ one_dir demo_mount 1); [apply one_dir_ok| |done|].
  - apply dir_entry_ok; [|done|done]. by constructor.
  - apply blank_spare; [|lia]. intros l Hl. unfold one_dir. rewrite put_entry_out; [done|done|].
    right. unfold entry_loc in *. change (dirstart demo_mount * BYTES_PER_BLOCK) with 557056 in *.
    unfold ENTRY_SIZE in *. lia.
Qed.

Lemma two_dirs_ent : ent two_dirs demo_mount 0 = dir_entry ROOT_ID [98] 2 /\
  ent two_dirs demo_mount 1 = dir_entry ROOT_ID [97] 1.
Proof.
  assert (forall c id, is_byte c /\ c <> 0 -> 0 <= id < 2 ^ 64 -> entry_ok (dir_entry ROOT_ID [c] id)) as He.
  { intros c id Hc Hid. apply dir_entry_ok; [|done|done]. by constructor. }
  split; unfold two_dirs.
  - rewrite ent_put_ne by done. unfold one_dir. apply ent_put_entry. by apply He.
  - apply ent_put_entry. by apply He.
Qed.

Lemma entry_roundtrip_witness : exists g,
  runs (L := image_laws) blank (wr_entry demo_mount 3 (dir_entry ROOT_ID [97] 1)) tt g /\
  runs (L := image_laws) g (rd_entry demo_mount 3) (dir_entry ROOT_ID [97] 1) g.
Proof.
  destruct (entry_roundtrip (L := image_laws) blank demo_mount 3 (dir_entry ROOT_ID [97] 1))
    as (g & Hw & Hr & _).
  - split; discriminate.
  - apply dir_entry_ok; [|reflexivity|split; [discriminate|reflexivity]].
    constructor; [|constructor]. split; [split; [discriminate|reflexivity]|discriminate].
  - exists g. split; [exact Hw|exact Hr].
Defined.

Lemma path_resolver_correct_witness :
  runs (L := image_laws) two_dirs (path_resolver demo_mount (47 :: join [[97]] [98]) FILE_TYPE)
    (resolved (visible demo_mount (table two_dirs demo_mount 2)) [[97]] [98] FILE_TYPE) two_dirs /\
  resolved (visible demo_mount (table two_dirs demo_mount 2)) [[97]] [98] FILE_TYPE =
    MkPathResult 0 empty_entry (dir_entry ROOT_ID [97] 1) [98] false true.
Proof.
  split.
  - apply path_resolver_correct; [exact two_dirs_ok|..].
    + constructor; [|constructor]. split; [|reflexivity]. constructor; [discriminate|constructor].
    + split; [|reflexivity]. constructor; [discriminate|constructor].
    + discriminate.
  - unfold table. cbn [seq fmap list_fmap]. change (Z.of_nat 0) with 0. change (Z.of_nat 1) with 1.
    destruct two_dirs_ent as [-> ->]. vm_compute. reflexivity.
Defined.

Lemma echfs_create_correct_witness : exists g,
  runs (L := image_laws) blank (echfs_create 5 demo_mount (47 :: join [] [102])) SUCCESS g /\
  runs (L := image_laws) g (echfs_get_metadata demo_mount (47 :: join [] [102]) FILE_TYPE)
    (Some ([102], FILE_TYPE, 0)) g.
Proof.
  destruct (echfs_create_correct (L := image_laws) blank demo_mount 0 5 [] [102] root)
    as (g & n' & Hc & _ & _ & Hg).
  - exact blank_dir.
  - apply blank_spare; [reflexivity|lia].
  - intros i Hi. lia.
  - constructor.
  - split; [|reflexivity]. constructor; [discriminate|constructor].
  - discriminate.
  - constructor; [|constructor]. split; [split; [discriminate|reflexivity]|discriminate].
  - split; [discriminate|reflexivity].
  - reflexivity.
  - reflexivity.
  - cbn. lia.
  - exists g. split; [exact Hc|exact Hg].
Defined.

Lemma echfs_mkdir_cuts_table_witness : exists g,
  runs (L := image_laws) two_dirs (echfs_mkdir 5 demo_mount (47 :: join [[120]] [121])) SUCCESS g.
Proof.
  destruct (echfs_mkdir_cuts_table (L := image_laws) two_dirs demo_mount 2 5 [[120]] [121])
    as (g & Hm & _).
  - exact two_dirs_ok.
  - constructor; [|constructor]. split; [|reflexivity]. constructor; [discriminate|constructor].
  - split; [|reflexivity]. constructor; [discriminate|constructor].
  - discriminate.
  - unfold table. cbn [seq fmap list_fmap]. change (Z.of_nat 0) with 0. change (Z.of_nat 1) with 1.
    destruct two_dirs_ent as [-> ->]. vm_compute. reflexivity.
  - lia.
  - unfold table. cbn [seq fmap list_fmap]. change (Z.of_nat 0) with 0. change (Z.of_nat 1) with 1.
    destruct two_dirs_ent as [-> ->]. vm_compute. split; [discriminate|reflexivity].
  - exists g. exact Hm.
Defined.

Lemma get_free_id_collides_witness :
  runs (L := image_laws) two_dirs (get_free_id 5 demo_mount) 2 two_dirs.
Proof.
  pose proof (get_free_id_collides (L := image_laws) two_dirs demo_mount 5 two_dirs_ok ltac:(lia)) as H.
  destruct two_dirs_ent as [E0 E1]. rewrite E0, E1 in H. apply H; reflexivity.
Defined.

End Echfs.
