(* ===== verification/EchfsFile.v ===== *)
(** * Open files of the echidna file system: the rest of [kernel/src/fs/echfs.c]

    Every file that has been opened, read or written is a [cached_file_t]: its
    resolved path, its allocation map (the block numbers of its chain), and one
    cached block.  [echfs_uread] and [echfs_uwrite] go through a handle that points
    to one of these; [echfs_read] and [echfs_write] find it by path.

    A pointer to an element of [cached_files] is its index. *)

From S2P Require Import Prelude Dev Handle Echfs.
Local Open Scope Z_scope.
Local Open Scope st_scope.

Module EchfsFile.
Import Handle Echfs.

Definition O_APPEND : Z := 0x0008.
Definition O_CREAT : Z := 0x0010.
Definition O_TRUNC : Z := 0x0200.

Record cached_file_t := MkCachedFile {
  cpath : list Z;
  path_result : path_result_t;
  cached_block : Z;
  cache : list Z;
  cache_status : Z;
  alloc_map : list Z
}.

Record echfs_handle_t := MkHandle {
  hfree : Z; hpath : list Z; hflags : Z; hmode : Z;
  ptr : Z; begin : Z; end_ : Z; device : Z; dev_handle : Z;
  cached_file : Z
}.

(** [mounts], [cached_files] and [echfs_handles]. *)
Record fs := MkFs {
  mounts : list mount_t;
  cached_files : list cached_file_t;
  handles : list echfs_handle_t
}.

Definition with_result (r : path_result_t) (c : cached_file_t) : cached_file_t :=
  MkCachedFile (cpath c) r (cached_block c) (cache c) (cache_status c) (alloc_map c).
Definition with_cache (b : Z) (bytes : list Z) (s : Z) (c : cached_file_t) : cached_file_t :=
  MkCachedFile (cpath c) (path_result c) b bytes s (alloc_map c).
Definition with_map (m : list Z) (c : cached_file_t) : cached_file_t :=
  MkCachedFile (cpath c) (path_result c) (cached_block c) (cache c) (cache_status c) m.
Definition with_target (e : entry_t) (r : path_result_t) : path_result_t :=
  MkPathResult (target_entry r) e (parent r) (rname r) (failure r) (not_found r).
Definition set_target (e : entry_t) (c : cached_file_t) : cached_file_t :=
  with_result (with_target e (path_result c)) c.
Definition file_entry (c : cached_file_t) : entry_t := target (path_result c).

Section Files.
Context {W : Type} {D : BlockDev W}.

(** [rd_qword_u] and the like: [vfs_kseek(cur_handle, (int)loc, SEEK_SET)] and the
    transfer; a short read leaves an indeterminate buffer. *)
Fixpoint of_bytes (l : list Z) : Z := match l with [] => 0 | b :: l => b + 256 * of_bytes l end.
Fixpoint to_bytes (n : nat) (x : Z) : list Z :=
  match n with O => [] | S n => x mod 256 :: to_bytes n (x / 256) end.

Definition rd_le_u (n h loc : Z) : ST W Z :=
  let! buf := kseek_uread h (s32 loc) n in
  if decide (zlen buf = n) then st_ret (of_bytes buf) else st_fail.
Definition rd_byte_u (h loc : Z) : ST W Z := rd_le_u 1 h loc.
Definition rd_word_u (h loc : Z) : ST W Z := rd_le_u 2 h loc.
Definition rd_dword_u (h loc : Z) : ST W Z := rd_le_u 4 h loc.
Definition rd_qword_u (h loc : Z) : ST W Z := rd_le_u 8 h loc.
Definition wr_byte_u (h loc x : Z) : ST W unit := kseek_uwrite h (s32 loc) [x] ;; st_ret tt.
Definition wr_word_u (h loc x : Z) : ST W unit := kseek_uwrite h (s32 loc) (to_bytes 2 x) ;; st_ret tt.
Definition wr_dword_u (h loc x : Z) : ST W unit := kseek_uwrite h (s32 loc) (to_bytes 4 x) ;; st_ret tt.
Definition wr_qword_u (h loc x : Z) : ST W unit := kseek_uwrite h (s32 loc) (to_bytes 8 x) ;; st_ret tt.

(** [fstrcpy_out_u] writes a string with its terminator; [fstrcpy_in_u] reads as many
    bytes as the string in its destination [str] has. *)
Definition fstrcpy_out_u (h loc : Z) (str : list Z) : ST W unit :=
  kseek_uwrite h (s32 loc) (str ++ [0]) ;; st_ret tt.
Definition fstrcpy_in_u (h loc : Z) (str : list Z) : ST W (list Z) :=
  kseek_uread h (s32 loc) (zlen str + 1).

(** [rd_entry_u]: the fields of the packed structure. *)
Fixpoint text_of (l : list Z) : list Z :=
  match l with [] => [] | c :: l => if c =? 0 then [] else c :: text_of l end.
Definition field (l : list Z) (at_ n : nat) : Z := of_bytes (take n (drop at_ l)).
Definition entry_of_bytes (l : list Z) : entry_t :=
  MkEntry (field l 0 8) (field l 8 1) (text_of (take (Z.to_nat FILENAME_LEN) (drop 9 l))) (field l 227 1)
    (field l 228 2) (field l 230 2) (field l 232 1) (field l 233 1) (field l 234 1) (field l 235 1)
    (field l 236 1) (field l 237 1) (field l 238 2) (field l 240 8) (field l 248 8).
Definition rd_entry_u (m : mount_t) (h entry : Z) : ST W entry_t :=
  let! buf := kseek_uread h (s32 (entry_loc m entry)) ENTRY_SIZE in
  if decide (zlen buf = ENTRY_SIZE) then st_ret (entry_of_bytes buf) else st_fail.

(** [wr_entry_u]: the packed structure.  An [entry_t] of the model has its name as a
    text, without what the [char] array holds behind the terminator: zeros are written
    there, the source writes the bytes it has.  Nothing reads them: names are compared
    and copied up to the terminator. *)
Definition entry_bytes (e : entry_t) : list Z :=
  to_bytes 8 (parent_id e) ++ [type e] ++
  (name e ++ replicate (Z.to_nat FILENAME_LEN - length (name e)) 0) ++ [perms e] ++
  to_bytes 2 (owner e) ++ to_bytes 2 (group e) ++
  [hundreths e; seconds e; minutes e; hours e; day e; month e] ++ to_bytes 2 (year e) ++
  to_bytes 8 (payload e) ++ to_bytes 8 (size e).
Definition wr_entry_u (m : mount_t) (h entry : Z) (e : entry_t) : ST W unit :=
  kseek_uwrite h (s32 (entry_loc m entry)) (entry_bytes e) ;; st_ret tt.

(** The location of a block of the file. *)
Definition block_loc (c : cached_file_t) (block : Z) : ST W Z :=
  let! b := st_lift (zget (alloc_map c) block) in st_ret (b * BYTES_PER_BLOCK).

(** "write possible dirty cache", then "copy block in cache" with the new status. *)
Definition flush_u (h : Z) (c : cached_file_t) : ST W unit :=
  if cache_status c =? CACHE_DIRTY then
    let! loc := block_loc c (cached_block c) in
    kseek_uwrite h (s32 loc) (cache c) ;; st_ret tt
  else st_ret tt.
Definition load_u (h block status : Z) (c : cached_file_t) : ST W cached_file_t :=
  flush_u h c ;;
  let! loc := block_loc c block in
  let! buf := kseek_uread h (s32 loc) BYTES_PER_BLOCK in
  st_ret (with_cache block (buf ++ drop (length buf) (cache c)) status c).

(** [cur_cached_file], [cur_loc] and [cur_end]. *)
Record cursor := MkCursor { cur_cached_file : cached_file_t; cur_loc : Z; cur_end : Z }.

Definition cache_hit (block : Z) (c : cached_file_t) : bool :=
  negb (cache_status c =? 0) && (cached_block c =? block).

Definition echfs_ureadbyte (h : Z) (c : cursor) : ST W (Z * cursor) :=
  if cur_end c <=? cur_loc c then st_ret (-1, c)
  else
    let block := cur_loc c / BYTES_PER_BLOCK in
    let offset := cur_loc c mod BYTES_PER_BLOCK in
    let! cf := (if cache_hit block (cur_cached_file c) then st_ret (cur_cached_file c)
                else load_u h block CACHE_READY (cur_cached_file c)) in
    let! v := st_lift (zget (cache cf) offset) in
    st_ret (v, MkCursor cf (cur_loc c + 1) (cur_end c)).

Fixpoint uread_loop (len : nat) (h : Z) (c : cursor) (acc : list Z) : ST W (list Z * cursor) :=
  match len with
  | O => st_ret (acc, c)
  | S len =>
      let! r := echfs_ureadbyte h c in
      if r.1 =? -1 then st_ret (acc, r.2) else uread_loop len h r.2 (acc ++ [r.1])
  end.

(** Storing a cached file and a handle back. *)
Definition put_file (i : Z) (c : cached_file_t) (st : fs) : option fs :=
  l ← zset (cached_files st) i c; Some (MkFs (mounts st) l (handles st)).
Definition put_handle (i : Z) (h : echfs_handle_t) (st : fs) : option fs :=
  l ← zset (handles st) i h; Some (MkFs (mounts st) (cached_files st) l).
Definition with_ptr (h : echfs_handle_t) (p : Z) : echfs_handle_t :=
  MkHandle (hfree h) (hpath h) (hflags h) (hmode h) p (begin h) (end_ h) (device h) (dev_handle h)
    (cached_file h).
Definition with_hfree (h : echfs_handle_t) (f : Z) : echfs_handle_t :=
  MkHandle f (hpath h) (hflags h) (hmode h) (ptr h) (begin h) (end_ h) (device h) (dev_handle h)
    (cached_file h).

Definition echfs_uread (handle len : Z) (st : fs) : ST W (list Z * fs) :=
  let! h := st_lift (zget (handles st) handle) in
  let! cf := st_lift (zget (cached_files st) (cached_file h)) in
  let! r := uread_loop (Z.to_nat len) (dev_handle h) (MkCursor cf (ptr h) (end_ h)) [] in
  let! st := st_lift (put_file (cached_file h) (cur_cached_file r.2) st) in
  let! st := st_lift (put_handle handle (with_ptr h (cur_loc r.2)) st) in
  st_ret (r.1, st).

(** ** Growing a file *)

Definition block_count (bytes : Z) : Z :=
  bytes / BYTES_PER_BLOCK + (if bytes mod BYTES_PER_BLOCK =? 0 then 0 else 1).

(** [krealloc(alloc_map, sizeof(uint64_t) * (i + 1)); alloc_map[i] = v;] *)
Definition amap_put (i v : Z) (l : list Z) : option (list Z) :=
  if decide (0 <= i <= zlen l) then Some (take (Z.to_nat i) l ++ [v]) else None.

(** [for (t_block = 0; rd_qword(t_loc); t_block++) t_loc += sizeof(uint64_t);] *)
Fixpoint find_free (fuel : nat) (rd : Z -> ST W Z) (m : mount_t) (t : Z) : ST W Z :=
  match fuel with
  | O => st_fail
  | S fuel => let! w := rd (fat_loc m t) in
              if w =? 0 then st_ret t else find_free fuel rd m (t + 1)
  end.

(** One turn of the loop: block [i] of the file; [first] does the work of [if (!i)]. *)
Definition grow_step (fuel : nat) (rd : Z -> ST W Z) (wr : Z -> Z -> ST W unit)
    (first : Z -> cached_file_t -> ST W cached_file_t) (m : mount_t) (i : Z) (c : cached_file_t) :
    ST W cached_file_t :=
  let! t := find_free fuel rd m 0 in
  let! l := st_lift (amap_put i t (alloc_map c)) in
  let c := with_map l c in
  if i =? 0 then first t c
  else
    let! prev := st_lift (zget (alloc_map c) (i - 1)) in
    wr (fat_loc m prev) t ;; st_ret c.

Fixpoint grow_loop (n fuel : nat) (rd : Z -> ST W Z) (wr : Z -> Z -> ST W unit)
    (first : Z -> cached_file_t -> ST W cached_file_t) (m : mount_t) (i : Z) (c : cached_file_t) :
    ST W cached_file_t :=
  match n with
  | O => st_ret c
  | S n => let! c := grow_step fuel rd wr first m i c in grow_loop n fuel rd wr first m (i + 1) c
  end.

(** [for (i = block_count; alloc_map[i] != END_OF_CHAIN; i++)] zero out the block. *)
Fixpoint zero_bytes (n : nat) (wrb : Z -> Z -> ST W unit) (loc : Z) : ST W unit :=
  match n with O => st_ret tt | S n => wrb loc 0 ;; zero_bytes n wrb (loc + 1) end.
Fixpoint zero_blocks (l : list Z) (wrb : Z -> Z -> ST W unit) : ST W unit :=
  match l with
  | [] => st_fail
  | b :: l => if b =? END_OF_CHAIN then st_ret tt
              else zero_bytes (Z.to_nat BYTES_PER_BLOCK) wrb (b * BYTES_PER_BLOCK) ;; zero_blocks l wrb
  end.

(** The whole of [if (new_block_count > block_count) { ... }]. *)
Definition grow (fuel : nat) (rd : Z -> ST W Z) (wr wrb : Z -> Z -> ST W unit)
    (first : Z -> cached_file_t -> ST W cached_file_t) (m : mount_t) (old new : Z)
    (c : cached_file_t) : ST W cached_file_t :=
  if new <=? old then st_ret c
  else
    let! c := grow_loop (Z.to_nat (new - old)) fuel rd wr first m old c in
    let! prev := st_lift (zget (alloc_map c) (new - 1)) in
    wr (fat_loc m prev) END_OF_CHAIN ;;
    let! l := st_lift (amap_put new END_OF_CHAIN (alloc_map c)) in
    let c := with_map l c in
    zero_blocks (drop (Z.to_nat old) (alloc_map c)) wrb ;;
    st_ret c.

(** The [if (!i)] of [echfs_uwritebyte]: the first block becomes the payload. *)
Definition first_u (t : Z) (c : cached_file_t) : ST W cached_file_t :=
  st_ret (set_target (with_payload (file_entry c) t) c).

(** Storing the byte in the cached block. *)
Definition store_cached (offset val : Z) (c : cached_file_t) : option cached_file_t :=
  l ← zset (cache c) offset val; Some (with_cache (cached_block c) l CACHE_DIRTY c).

Definition echfs_uwritebyte (fuel : nat) (m : mount_t) (h val : Z) (c : cursor) : ST W cursor :=
  let cf := cur_cached_file c in
  let loc := cur_loc c in
  let sz := size (file_entry cf) in
  let old := block_count sz in
  let new := block_count (loc + 1) in
  let cf := if sz <=? loc then set_target (with_size (file_entry cf) (loc + 1)) cf else cf in
  let! cf := grow fuel (rd_qword_u h) (wr_qword_u h) (wr_byte_u h) first_u m old new cf in
  let block := loc / BYTES_PER_BLOCK in
  let offset := loc mod BYTES_PER_BLOCK in
  let! cf := (if cache_hit block cf then st_ret cf else load_u h block CACHE_DIRTY cf) in
  let! cf := st_lift (store_cached offset val cf) in
  st_ret (MkCursor cf (loc + 1) (cur_end c)).

Fixpoint uwrite_loop (fuel : nat) (m : mount_t) (h : Z) (bytes : list Z) (c : cursor) : ST W cursor :=
  match bytes with
  | [] => st_ret c
  | b :: bytes => let! c := echfs_uwritebyte fuel m h (u8 b) c in uwrite_loop fuel m h bytes c
  end.

Definition echfs_uwrite (fuel : nat) (handle : Z) (bytes : list Z) (st : fs) : ST W (Z * fs) :=
  let! h := st_lift (zget (handles st) handle) in
  let! m := st_lift (zget (mounts st) (device h)) in
  let! cf := st_lift (zget (cached_files st) (cached_file h)) in
  let! c := uwrite_loop fuel m (dev_handle h) bytes (MkCursor cf (ptr h) (end_ h)) in
  wr_entry_u m (dev_handle h) (target_entry (path_result (cur_cached_file c)))
    (file_entry (cur_cached_file c)) ;;
  let! st := st_lift (put_file (cached_file h) (cur_cached_file c) st) in
  let! st := st_lift (put_handle handle (with_ptr h (cur_loc c)) st) in
  st_ret (zlen bytes, st).

(** ** Access by path *)

(** The loop over [cached_files] that compares paths. *)
Fixpoint find_cached_from (p : list Z) (i : Z) (l : list cached_file_t) : option Z :=
  match l with
  | [] => None
  | c :: l => if decide (cpath c = p) then Some i else find_cached_from p (i + 1) l
  end.
Definition find_cached (p : list Z) (st : fs) : option Z := find_cached_from p 0 (cached_files st).

(** Following a chain in the allocation table up to its end. *)
Fixpoint chain_map (fuel : nat) (m : mount_t) (block : Z) : ST W (list Z) :=
  match fuel with
  | O => st_fail
  | S fuel =>
      if block =? END_OF_CHAIN then st_ret [block]
      else let! next := rd_qword (fat_loc m block) in
           let! l := chain_map fuel m next in
           st_ret (block :: l)
  end.

(** [skip_search] .. [cached_files_ptr++]: resolving a path and caching its
    allocation map.  [char path[2048]] must hold it.  The new element of the array
    is zeroed memory. *)
Definition add_cached (fuel : nat) (m : mount_t) (p : list Z) (st : fs) : ST W (Z * fs) :=
  if decide (zlen p < 2048) then
    let! r := path_resolver m p FILE_TYPE in
    let! l := chain_map fuel m (payload (target r)) in
    st_ret (zlen (cached_files st),
      MkFs (mounts st)
        (cached_files st ++
          [MkCachedFile p r 0 (replicate (Z.to_nat BYTES_PER_BLOCK) 0) CACHE_NOTREADY l])
        (handles st))
  else st_fail.

Definition lookup_cached (fuel : nat) (m : mount_t) (p : list Z) (st : fs) : ST W (Z * fs) :=
  match find_cached p st with
  | Some i => st_ret (i, st)
  | None => add_cached fuel m p st
  end.

Definition find_device (dev : list Z) (st : fs) : option Z :=
  (fix go i l := match l with
                 | [] => None
                 | m :: l => if decide (mname m = dev) then Some i else go (i + 1) l
                 end) 0 (mounts st).
Definition mount_of (dev : list Z) (st : fs) : option mount_t := i ← find_device dev st; zget (mounts st) i.

(** Transfers of a whole block, byte by byte. *)
Fixpoint wr_block (loc : Z) (l : list Z) : ST W unit :=
  match l with [] => st_ret tt | b :: l => wr_byte loc b ;; wr_block (loc + 1) l end.
Fixpoint rd_block (n : nat) (loc : Z) : ST W (list Z) :=
  match n with
  | O => st_ret []
  | S n => let! b := rd_byte loc in let! l := rd_block n (loc + 1) in st_ret (b :: l)
  end.
Definition load (block status : Z) (c : cached_file_t) : ST W cached_file_t :=
  (if cache_status c =? CACHE_DIRTY then
     let! loc := block_loc c (cached_block c) in wr_block loc (cache c)
   else st_ret tt) ;;
  let! loc := block_loc c block in
  let! buf := rd_block (Z.to_nat BYTES_PER_BLOCK) loc in
  st_ret (with_cache block buf status c).

Definition echfs_read (fuel : nat) (p : list Z) (loc : Z) (dev : list Z) (st : fs) : ST W (Z * fs) :=
  let! m := st_lift (mount_of dev st) in
  let! r := lookup_cached fuel m p st in
  let st := r.2 in
  let! cf := st_lift (zget (cached_files st) r.1) in
  if not_found (path_result cf) then st_ret (FAILURE, st)
  else if size (file_entry cf) <=? loc then st_ret (EOF, st)
  else
    let block := loc / BYTES_PER_BLOCK in
    let offset := loc mod BYTES_PER_BLOCK in
    let! cf := (if cache_hit block cf then st_ret cf else load block CACHE_READY cf) in
    let! v := st_lift (zget (cache cf) offset) in
    let! st := st_lift (put_file r.1 cf st) in
    st_ret (v, st).

(** The [if (!i)] of [echfs_write]. *)
Definition first_w (m : mount_t) (t : Z) (c : cached_file_t) : ST W cached_file_t :=
  let c := set_target (with_payload (file_entry c) t) c in
  wr_entry m (target_entry (path_result c)) (file_entry c) ;; st_ret c.

Definition echfs_write (fuel : nat) (p : list Z) (val loc : Z) (dev : list Z) (st : fs) : ST W (Z * fs) :=
  let! m := st_lift (mount_of dev st) in
  let! r := lookup_cached fuel m p st in
  let st := r.2 in
  let! cf := st_lift (zget (cached_files st) r.1) in
  if not_found (path_result cf) then st_ret (FAILURE, st)
  else
    let sz := size (file_entry cf) in
    let old := block_count sz in
    let new := block_count (u64 (loc + 1)) in
    let! cf := (if sz <=? loc then
                  let cf := set_target (with_size (file_entry cf) (u64 (loc + 1))) cf in
                  wr_entry m (target_entry (path_result cf)) (file_entry cf) ;; st_ret cf
                else st_ret cf) in
    let! cf := grow fuel rd_qword wr_qword wr_byte (first_w m) m old new cf in
    let block := loc / BYTES_PER_BLOCK in
    let offset := loc mod BYTES_PER_BLOCK in
    let! cf := (if cache_hit block cf then st_ret cf else load block CACHE_DIRTY cf) in
    let! cf := st_lift (store_cached offset (u8 val) cf) in
    let! st := st_lift (put_file r.1 cf st) in
    st_ret (SUCCESS, st).

(** The shift of [cached_files] down over a removed element reads one element past
    the last; that element is then cut off. *)
Definition drop_cached (i : Z) (st : fs) : fs :=
  MkFs (mounts st) (take (Z.to_nat i) (cached_files st) ++ drop (S (Z.to_nat i)) (cached_files st))
    (handles st).

Definition echfs_remove (fuel : nat) (p dev : list Z) (st : fs) : ST W (Z * fs) :=
  let! m := st_lift (mount_of dev st) in
  let! r := (match find_cached p st with
             | Some i => let! cf := st_lift (zget (cached_files st) i) in
                         st_ret (path_result cf, drop_cached i st)
             | None => let! pr := path_resolver m p FILE_TYPE in st_ret (pr, st)
             end) in
  let! v := remove_resolved fuel m r.1 in
  st_ret (v, r.2).

(** ** Handles *)

Definition echfs_create_handle (h : echfs_handle_t) (st : fs) : Z * fs :=
  let '(n, hs) := create_handle hfree h (handles st) in (n, MkFs (mounts st) (cached_files st) hs).

Definition has_flag (fl bit : Z) : bool := negb (Z.land fl bit =? 0).

Definition echfs_open (fuel : nat) (p : list Z) (fl md : Z) (dev : list Z) (st : fs) : ST W (Z * fs) :=
  let! m := st_lift (mount_of dev st) in
  let! dn := st_lift (find_device dev st) in
  let! md1 := echfs_get_metadata m p FILE_TYPE in
  let! md2 := (match md1 with
               | Some md1 => st_ret (Some md1)
               | None => if has_flag fl O_CREAT then
                           let! r := echfs_create fuel m p in
                           if r =? -2 then st_ret None
                           else let! md := echfs_get_metadata m p FILE_TYPE in
                                match md with
                                | Some md => st_ret (Some md)
                                | None => st_fail          (* [metadata] is not set *)
                                end
                         else st_ret None
               end) in
  match md2 with
  | None => st_ret (-1, st)
  | Some md2 =>
      let! r := (if has_flag fl O_TRUNC then
                   let! rm := echfs_remove fuel p dev st in
                   echfs_create fuel m p ;;
                   let! md3 := echfs_get_metadata m p FILE_TYPE in
                   st_ret (default md2 md3, rm.2)
                 else st_ret (md2, st)) in
      let sz := r.1.2 in
      let start := if has_flag fl O_APPEND then sz else 0 in
      let! c := lookup_cached fuel m p r.2 in
      let! dh := vfs_kopen in
      if decide (zlen p < 1024) then
        st_ret (echfs_create_handle
          (MkHandle 0 p fl md (s32 start) (s32 start) (s32 sz) dn dh c.1) c.2)
      else st_fail
  end.

(** The checks that [echfs_close] and [echfs_seek] start with. *)
Definition valid_handle (handle : Z) (st : fs) : option echfs_handle_t :=
  if handle <? 0 then None
  else if zlen (handles st) <=? handle then None
  else h ← zget (handles st) handle; if hfree h =? 0 then Some h else None.

Definition echfs_close (handle : Z) (st : fs) : ST W (Z * fs) :=
  match valid_handle handle st with
  | None => st_ret (-1, st)
  | Some h =>
      vfs_kclose (dev_handle h) ;;
      let! st := st_lift (put_handle handle (with_hfree h 1) st) in
      st_ret (0, st)
  end.

Definition echfs_fork (handle : Z) (st : fs) : ST W (Z * fs) :=
  let! h := st_lift (zget (handles st) handle) in
  let! dh := vfs_kfork (dev_handle h) in
  st_ret (echfs_create_handle
    (MkHandle (hfree h) (hpath h) (hflags h) (hmode h) (ptr h) (begin h) (end_ h) (device h) dh
      (cached_file h)) st).

(** The positions are [long], 32 bits wide. *)
Definition seek_from (base offset handle : Z) (h : echfs_handle_t) (st : fs) : ST W (Z * fs) :=
  let target := s32 (base + offset) in
  if (end_ h <? target) || (target <? begin h) then st_ret (-1, st)
  else let! st := st_lift (put_handle handle (with_ptr h target) st) in st_ret (target, st).

Definition echfs_seek (handle offset type : Z) (st : fs) : ST W (Z * fs) :=
  match valid_handle handle st with
  | None => st_ret (-1, st)
  | Some h =>
      if type =? 0 then seek_from (begin h) offset handle h st
      else if type =? 1 then seek_from (end_ h) offset handle h st
      else if type =? 2 then seek_from (ptr h) offset handle h st
      else st_ret (-1, st)
  end.

End Files.
(** ** Specification: an open file is an array of bytes *)

Ltac bpb := unfold BYTES_PER_BLOCK in *.

(** The block number of block [i] of the file, and the byte at [o], seen through
    the cached block. *)
Definition block_no (c : cached_file_t) (i : Z) : Z := default 0 (zget (alloc_map c) i).
Definition medium_byte (f : image) (c : cached_file_t) (o : Z) : Z :=
  f (block_no c (o / BYTES_PER_BLOCK) * BYTES_PER_BLOCK + o mod BYTES_PER_BLOCK).
Definition content (f : image) (c : cached_file_t) (o : Z) : Z :=
  if cache_hit (o / BYTES_PER_BLOCK) c then default 0 (zget (cache c) (o mod BYTES_PER_BLOCK))
  else medium_byte f c o.

Definition file_blocks (c : cached_file_t) : Z := block_count (size (file_entry c)).

Record file_ok (sz : Z) (f : image) (c : cached_file_t) : Prop := {
  fok_image l : 0 <= l < sz -> is_byte (f l);
  fok_size : 0 <= size (file_entry c);
  fok_block i : 0 <= i < file_blocks c ->
    exists b, zget (alloc_map c) i = Some b /\ 0 <= b /\ (b + 1) * BYTES_PER_BLOCK <= sz;
  fok_distinct i j b : 0 <= i < file_blocks c -> 0 <= j < file_blocks c ->
    zget (alloc_map c) i = Some b -> zget (alloc_map c) j = Some b -> i = j;
  fok_cache : zlen (cache c) = BYTES_PER_BLOCK;
  fok_bytes : Forall is_byte (cache c);
  fok_cached : cache_status c <> 0 -> 0 <= cached_block c < file_blocks c;
  fok_clean : cache_status c <> 0 -> cache_status c <> CACHE_DIRTY ->
    forall o, 0 <= o < BYTES_PER_BLOCK ->
      zget (cache c) o = Some (f (block_no c (cached_block c) * BYTES_PER_BLOCK + o))
}.

Lemma block_of_size o n : 0 <= o < n -> 0 <= o / BYTES_PER_BLOCK < block_count n.
Proof.
  unfold block_count. bpb. intros H. destruct (Z.eqb_spec (n mod 32768) 0); zdml.
Qed.

Lemma cache_hit_spec b c : cache_hit b c = true <-> cache_status c <> 0 /\ cached_block c = b.
Proof. unfold cache_hit. rewrite andb_true_iff, negb_true_iff, Z.eqb_neq, Z.eqb_eq. tauto. Qed.

(** The [n] bytes of an image from [loc] on, and an image with a list stored at [loc]. *)
Definition bytes_at (f : image) (loc : Z) (n : nat) : list Z := (fun k => f (loc + Z.of_nat k)) <$> seq 0 n.
Definition put_bytes (f : image) (loc : Z) (l : list Z) : image := fun x => default (f x) (zget l (x - loc)).

Lemma bytes_at_len f loc n : zlen (bytes_at f loc n) = Z.of_nat n.
Proof. unfold bytes_at, zlen. by rewrite length_fmap, length_seq. Qed.
Lemma bytes_at_get f loc n i : 0 <= i < Z.of_nat n -> zget (bytes_at f loc n) i = Some (f (loc + i)).
Proof.
  intros H. rewrite zget_lookup by lia. unfold bytes_at. rewrite list_lookup_fmap, lookup_seq_lt by lia.
  simpl. by rewrite Z2Nat.id by lia.
Qed.
Lemma bytes_at_S f loc n : bytes_at f loc (S n) = f loc :: bytes_at f (loc + 1) n.
Proof.
  unfold bytes_at. simpl. rewrite Z.add_0_r. f_equal. rewrite <- fmap_S_seq, <- list_fmap_compose.
  apply list_fmap_ext. intros i x _. simpl. f_equal. lia.
Qed.

(** A region of the volume that holds none of the file's blocks. *)
Definition apart (c : cached_file_t) (loc n : Z) : Prop := forall i b,
  0 <= i < file_blocks c -> zget (alloc_map c) i = Some b ->
  loc + n <= b * BYTES_PER_BLOCK \/ (b + 1) * BYTES_PER_BLOCK <= loc.

(** The allocation table of an image, and chains of blocks in it. *)
Definition fat (f : image) (m : mount_t) (b : Z) : Z := le f 8 (fat_loc m b).
Definition set_fat (f : image) (m : mount_t) (b v : Z) : image := upd_le f 8 (fat_loc m b) v.
Definition fat_word_ok (sz : Z) (m : mount_t) (b : Z) : Prop := 0 <= fat_loc m b /\ fat_loc m b + 8 <= sz.
Fixpoint chain (sz : Z) (f : image) (m : mount_t) (b : Z) (l : list Z) : Prop :=
  match l with
  | [] => b = END_OF_CHAIN
  | x :: l => b = x /\ x <> END_OF_CHAIN /\ fat_word_ok sz m x /\ chain sz f m (fat f m x) l
  end.
Fixpoint freed (f : image) (m : mount_t) (l : list Z) : image :=
  match l with [] => f | x :: l => freed (set_fat f m x 0) m l end.

Lemma fat_set_eq f m b v : 0 <= v < 2 ^ 64 -> fat (set_fat f m b v) m b = v.
Proof. apply le8_back. Qed.
Lemma fat_set_ne f m b b' v : b <> b' -> fat (set_fat f m b v) m b' = fat f m b'.
Proof. intros Hb. apply le_upd_le_ne. unfold fat_loc. lia. Qed.
Lemma fat_freed f m l b : NoDup l -> fat (freed f m l) m b = if decide (b ∈ l) then 0 else fat f m b.
Proof.
  revert f. induction l as [|x l IH]; intros f Hn; cbn [freed]; [by rewrite decide_False by apply not_elem_of_nil|].
  apply NoDup_cons in Hn as [Hx Hn]. rewrite IH by done. destruct (decide (b = x)) as [->|Hne].
  - rewrite decide_False by done. rewrite decide_True by left. by apply fat_set_eq.
  - rewrite fat_set_ne by done. destruct (decide (b ∈ l)) as [Hi|Hi].
    + by rewrite decide_True by (by right).
    + rewrite decide_False; [done|]. intros [?|?]%elem_of_cons; done.
Qed.
Lemma chain_set_fat sz f m x b l v : chain sz f m b l -> x ∉ l -> chain sz (set_fat f m x v) m b l.
Proof.
  revert b. induction l as [|y l IH]; intros b; cbn [chain]; [done|].
  intros (-> & Hy & Hw & Hc) Hx. apply not_elem_of_cons in Hx as [Hxy Hx].
  split; [done|]. split; [done|]. split; [done|]. rewrite fat_set_ne by done. by apply IH.
Qed.

Lemma to_bytes_len n x : zlen (to_bytes n x) = Z.of_nat n.
Proof. revert x. induction n as [|n IH]; intros x; [done|]. cbn [to_bytes]. rewrite zlen_cons, IH. lia. Qed.
Lemma to_bytes_ok n x : Forall is_byte (to_bytes n x).
Proof.
  revert x. induction n as [|n IH]; intros x; constructor; [|apply IH]. apply Z.mod_pos_bound. lia.
Qed.

Lemma entry_bytes_ok e : entry_ok e -> Forall is_byte (entry_bytes e) /\ zlen (entry_bytes e) = ENTRY_SIZE.
Proof.
  intros He. pose proof (eok_len _ He) as Hl. split; unfold entry_bytes.
  - repeat first [apply Forall_app; split | apply to_bytes_ok | apply Forall_replicate; done
      | apply Forall_nil; exact I | apply Forall_cons; split; [apply He|] ].
    eapply Forall_impl; [apply (eok_name _ He)|]. by intros c [Hc _].
  - unfold FILENAME_LEN, ENTRY_SIZE in *. autorewrite with mach. rewrite !to_bytes_len.
    unfold zlen in *. lia.
Qed.

Lemma runs_lift {W : Type} {D : BlockDev W} {sz : Z} {L : BlockDevLaws D sz} {A} f (o : option A) a :
  o = Some a -> runs f (st_lift o) a f.
Proof. intros -> w Hw. by exists w. Qed.

Section Laws.
Context {W : Type} {D : BlockDev W} {sz : Z} {L : BlockDevLaws D sz}.
Context (h : Z) (Hh : good_handle h).
#[local] Set Default Proof Using "Type*".

(** ** Lemmas: transfers *)

Lemma runs_uread f loc n : 0 <= loc -> loc + Z.of_nat n <= sz ->
  runs f (kseek_uread h (s32 loc) (Z.of_nat n)) (bytes_at f loc n) f.
Proof.
  intros H0 H1 w [Hok Hf]. pose proof bd_small. rewrite s32_small by lia.
  destruct (pread_ok w h loc n Hok Hh H0 H1) as (w' & -> & Hok' & Hi). exists w'. split.
  - do 2 f_equal. apply list_fmap_ext. intros i x Hx. apply lookup_seq in Hx. apply Hf. lia.
  - split; [done|]. intros l Hl. by rewrite Hi, Hf.
Qed.

Lemma runs_uread_Z f loc n : 0 <= loc -> 0 <= n -> loc + n <= sz ->
  runs f (kseek_uread h (s32 loc) n) (bytes_at f loc (Z.to_nat n)) f.
Proof.
  intros H0 Hn H1. pose proof (runs_uread f loc (Z.to_nat n) H0) as H.
  rewrite Z2Nat.id in H by done. by apply H.
Qed.

Lemma runs_uwrite f loc l : 0 <= loc -> loc + zlen l <= sz -> Forall is_byte l ->
  runs f (kseek_uwrite h (s32 loc) l ;; st_ret tt) tt (put_bytes f loc l).
Proof.
  intros H0 H1 Hb w [Hok Hf]. pose proof bd_small. pose proof (zlen_nonneg l). rewrite s32_small by lia.
  destruct (pwrite_ok w h loc l Hok Hh Hb H0 H1) as (r & w' & E & Hok' & Hi). exists w'.
  unfold st_bind. rewrite E. split; [done|]. split; [done|]. intros x Hx.
  unfold put_bytes. by rewrite Hi, Hf.
Qed.

(** ** Lemmas: the cached block *)

Lemma runs_block_loc f c i b : zget (alloc_map c) i = Some b ->
  runs f (block_loc c i) (b * BYTES_PER_BLOCK) f.
Proof. intros Hb. eapply runs_bind; [by apply runs_lift|apply runs_ret]. Qed.

(** The image after the flush of a dirty cache. *)
Definition flushed (f : image) (c : cached_file_t) : image :=
  if cache_status c =? CACHE_DIRTY
  then put_bytes f (block_no c (cached_block c) * BYTES_PER_BLOCK) (cache c) else f.

Lemma runs_flush f c : file_ok sz f c -> runs f (flush_u h c) tt (flushed f c).
Proof.
  intros H. unfold flush_u, flushed. destruct (Z.eqb_spec (cache_status c) CACHE_DIRTY) as [E|]; [|apply runs_ret].
  assert (cache_status c <> 0) as Hn by (rewrite E; done).
  destruct (fok_block _ _ _ H _ (fok_cached _ _ _ H Hn)) as (b & Hb & H0 & H1).
  eapply runs_bind; [by apply runs_block_loc|cbv beta].
  assert (block_no c (cached_block c) = b) as -> by (unfold block_no; by rewrite Hb).
  apply runs_uwrite; [bpb; lia|rewrite (fok_cache _ _ _ H); bpb; lia|apply H].
Qed.

Lemma flushed_medium f c o : file_ok sz f c -> 0 <= o -> o / BYTES_PER_BLOCK < file_blocks c ->
  medium_byte (flushed f c) c o = content f c o.
Proof.
  intros H H0 H1. unfold content, flushed.
  assert (0 <= o / BYTES_PER_BLOCK < file_blocks c) as Ho by (split; [bpb; zdml|done]).
  destruct (cache_hit (o / BYTES_PER_BLOCK) c) eqn:Eh.
  - apply cache_hit_spec in Eh as [Hn Hc]. unfold medium_byte. rewrite <- Hc.
    destruct (Z.eqb_spec (cache_status c) CACHE_DIRTY) as [E|E].
    + unfold put_bytes. replace (_ + o mod BYTES_PER_BLOCK - _) with (o mod BYTES_PER_BLOCK) by lia.
      destruct (zget_is_Some (cache c) (o mod BYTES_PER_BLOCK)) as [v ->]; [|done].
      rewrite (fok_cache _ _ _ H). bpb. zdml.
    + rewrite (fok_clean _ _ _ H Hn E) by (bpb; zdml). done.
  - destruct (Z.eqb_spec (cache_status c) CACHE_DIRTY) as [E|E]; [|done].
    assert (cache_status c <> 0) as Hn by (rewrite E; done).
    assert (cached_block c <> o / BYTES_PER_BLOCK) as Hne.
    { intros Hc. apply not_true_iff_false in Eh. apply Eh. by apply cache_hit_spec. }
    destruct (fok_block _ _ _ H _ (fok_cached _ _ _ H Hn)) as (b & Hb & _).
    destruct (fok_block _ _ _ H _ Ho) as (b' & Hb' & _).
    unfold medium_byte, put_bytes, block_no. rewrite Hb, Hb'. simpl.
    assert (b <> b') as Hbb.
    { intros ->. apply Hne. by apply (fok_distinct _ _ _ H _ _ b' (fok_cached _ _ _ H Hn) Ho). }
    rewrite (proj2 (zget_None _ _)); [done|]. rewrite (fok_cache _ _ _ H). bpb. zdm.
Qed.

(** One block of an image. *)
Lemma block_bytes f b : exists buf,
  bytes_at f (b * BYTES_PER_BLOCK) (Z.to_nat BYTES_PER_BLOCK) = buf /\ zlen buf = BYTES_PER_BLOCK /\
  forall o, 0 <= o < BYTES_PER_BLOCK -> zget buf o = Some (f (b * BYTES_PER_BLOCK + o)).
Proof.
  assert (Z.of_nat (Z.to_nat BYTES_PER_BLOCK) = BYTES_PER_BLOCK) as HN by (by apply Z2Nat.id).
  revert HN. generalize (Z.to_nat BYTES_PER_BLOCK). intros N HN.
  eexists. split; [reflexivity|]. split; [by rewrite bytes_at_len|].
  intros o Ho. apply bytes_at_get. by rewrite HN.
Qed.

Lemma flushed_byte f c : file_ok sz f c -> forall l, 0 <= l < sz -> is_byte (flushed f c l).
Proof.
  intros H l Hl. unfold flushed. destruct (_ =? _); [|by apply H]. unfold put_bytes.
  destruct (zget (cache c) _) as [v|] eqn:E; [|by apply H]. cbn [default from_option id].
  pose proof (zget_Some _ _ _ E). rewrite zget_lookup in E by lia.
  by apply (Forall_lookup_1 _ _ _ _ (fok_bytes _ _ _ H) E).
Qed.

Lemma runs_load_bytes f c block st : file_ok sz f c -> 0 <= block < file_blocks c -> exists buf,
  runs f (load_u h block st c) (with_cache block buf st c) (flushed f c) /\ zlen buf = BYTES_PER_BLOCK /\
  forall o, 0 <= o < BYTES_PER_BLOCK ->
    zget buf o = Some (flushed f c (block_no c block * BYTES_PER_BLOCK + o)).
Proof.
  intros H Hb. destruct (fok_block _ _ _ H _ Hb) as (b & Eb & H0 & H1).
  assert (block_no c block = b) as -> by (unfold block_no; by rewrite Eb).
  destruct (block_bytes (flushed f c) b) as (buf & Ebuf & Hlen & Hget).
  exists buf. split; [|done].
  unfold load_u. eapply runs_bind; [by apply runs_flush|cbv beta].
  eapply runs_bind; [by apply runs_block_loc|cbv beta].
  eapply runs_bind; [apply runs_uread_Z; [bpb; lia|done|bpb; lia]|cbv beta].
  rewrite Ebuf, drop_ge, app_nil_r; [apply runs_ret|].
  pose proof (fok_cache _ _ _ H). unfold zlen in *. lia.
Qed.

(** Loading another block: the file keeps its content. *)
Lemma runs_load f c block st : file_ok sz f c -> 0 <= block < file_blocks c ->
  st = CACHE_READY \/ st = CACHE_DIRTY -> exists c',
  runs f (load_u h block st c) c' (flushed f c) /\ file_ok sz (flushed f c) c' /\
  alloc_map c' = alloc_map c /\ path_result c' = path_result c /\ cpath c' = cpath c /\
  cached_block c' = block /\ cache_status c' <> 0 /\
  forall o, 0 <= o -> o / BYTES_PER_BLOCK < file_blocks c -> content (flushed f c) c' o = content f c o.
Proof.
  intros H Hb Hst. pose proof (flushed_byte f c H) as Hg.
  destruct (runs_load_bytes f c block st H Hb) as (buf & Hrun & Hlen & Hget).
  assert (st <> 0) as Hst0 by (destruct Hst as [E|E]; rewrite E; discriminate).
  exists (with_cache block buf st c). split; [exact Hrun|].
  split; [|repeat (split; [reflexivity|]); split; [exact Hst0|]].
  - split; [exact Hg|exact (fok_size _ _ _ H)|exact (fok_block _ _ _ H)|exact (fok_distinct _ _ _ H)
      |exact Hlen| |exact (fun _ => Hb)|exact (fun _ _ => Hget)].
    apply Forall_lookup. intros k v Hk. change (buf !! k = Some v) in Hk.
    pose proof (lookup_lt_Some _ _ _ Hk) as Hlt.
    destruct (fok_block _ _ _ H _ Hb) as (b & Eb & H0 & H1).
    unfold block_no in Hget. rewrite Eb in Hget. cbn [default from_option id] in Hget.
    specialize (Hget (Z.of_nat k)). rewrite zget_nat, Hk in Hget.
    unfold zlen in Hlen. assert (Some v = Some (flushed f c (b * BYTES_PER_BLOCK + Z.of_nat k))) as [= ->]
      by (apply Hget; lia). apply Hg. bpb. lia.
  - intros o H2 H3. rewrite <- (flushed_medium f c o H H2 H3). unfold content.
    destruct (cache_hit (o / BYTES_PER_BLOCK) (with_cache block buf st c)) eqn:Eh; [|reflexivity].
    apply cache_hit_spec in Eh as [_ Hc]. cbn in Hc. unfold medium_byte. cbn [cache with_cache].
    rewrite Hget by (bpb; zdml). cbn [default from_option id]. by rewrite Hc.
Qed.

(** ** Lemmas: reading *)

Lemma content_byte f c o : file_ok sz f c -> 0 <= o < size (file_entry c) -> is_byte (content f c o).
Proof.
  intros H Ho. pose proof (block_of_size o _ Ho) as Hb. unfold content.
  destruct (cache_hit _ c).
  - destruct (zget_is_Some (cache c) (o mod BYTES_PER_BLOCK)) as [v E];
      [rewrite (fok_cache _ _ _ H); bpb; zdml|]. rewrite E. simpl.
    pose proof (zget_Some _ _ _ E). rewrite zget_lookup in E by lia.
    by apply (Forall_lookup_1 _ _ _ _ (fok_bytes _ _ _ H) E).
  - destruct (fok_block _ _ _ H _ Hb) as (b & Eb & H0 & H1).
    unfold medium_byte, block_no. rewrite Eb. simpl. apply H. bpb. zdml.
Qed.

(** A location outside of the blocks of the file. *)
Definition outside (c : cached_file_t) (x : Z) : Prop := forall i b, 0 <= i < file_blocks c ->
  zget (alloc_map c) i = Some b -> x < b * BYTES_PER_BLOCK \/ (b + 1) * BYTES_PER_BLOCK <= x.

Lemma flushed_outside f c x : file_ok sz f c -> outside c x -> flushed f c x = f x.
Proof.
  intros H Hx. unfold flushed. destruct (Z.eqb_spec (cache_status c) CACHE_DIRTY) as [E|]; [|done].
  assert (cache_status c <> 0) as Hn by (rewrite E; done). pose proof (fok_cached _ _ _ H Hn) as Hc.
  destruct (fok_block _ _ _ H _ Hc) as (b & Hb & _). unfold block_no. rewrite Hb. cbn [default from_option id].
  unfold put_bytes. rewrite (proj2 (zget_None _ _)); [done|]. rewrite (fok_cache _ _ _ H).
  destruct (Hx _ _ Hc Hb); bpb; lia.
Qed.

(** A step keeps the file: its content, map and size, and the rest of the volume. *)
Record same_file (f : image) (c : cached_file_t) (g : image) (c' : cached_file_t) : Prop := {
  sf_map : alloc_map c' = alloc_map c;
  sf_result : path_result c' = path_result c;
  sf_content o : 0 <= o < size (file_entry c) -> content g c' o = content f c o;
  sf_outside x : outside c x -> g x = f x;
  sf_path : cpath c' = cpath c
}.

Lemma same_refl f c : same_file f c f c.
Proof. by split. Qed.
Lemma same_trans f c g c' k c2 : same_file f c g c' -> same_file g c' k c2 -> same_file f c k c2.
Proof.
  intros [A1 A2 A3 A4 A5] [B1 B2 B3 B4 B5]. split; [congruence|congruence| | |congruence].
  - intros o Ho. rewrite B3; [by apply A3|]. unfold file_entry in *. by rewrite A2.
  - intros x Hx. rewrite B4; [by apply A4|]. intros i b. unfold file_blocks, file_entry. rewrite A1, A2. apply Hx.
Qed.

(** The file with the block of [o] in its cache. *)
Lemma runs_cached f c o st : file_ok sz f c -> 0 <= o < size (file_entry c) ->
  st = CACHE_READY \/ st = CACHE_DIRTY -> exists c' g,
  runs f (if cache_hit (o / BYTES_PER_BLOCK) c then st_ret c else load_u h (o / BYTES_PER_BLOCK) st c) c' g /\
  file_ok sz g c' /\ same_file f c g c' /\ cache_hit (o / BYTES_PER_BLOCK) c' = true.
Proof.
  intros H Ho Hst. pose proof (block_of_size o _ Ho) as Hb. destruct (cache_hit _ c) eqn:Eh.
  - exists c, f. split; [apply runs_ret|]. split; [done|]. split; [apply same_refl|done].
  - destruct (runs_load f c (o / BYTES_PER_BLOCK) st H Hb Hst) as (c' & Hr & Hok & Hm & Hp & Hpath & Hcb & Hcs & Hc).
    exists c', (flushed f c). split; [done|]. split; [done|]. split.
    + split; [done|done| | |done].
      * intros o' Ho'. apply Hc; [lia|]. by apply block_of_size.
      * intros x. by apply flushed_outside.
    + by apply cache_hit_spec.
Qed.

Lemma runs_ureadbyte f c : file_ok sz f (cur_cached_file c) -> 0 <= cur_loc c < cur_end c ->
  cur_end c <= size (file_entry (cur_cached_file c)) -> exists c' g,
  runs f (echfs_ureadbyte h c) (content f (cur_cached_file c) (cur_loc c), MkCursor c' (cur_loc c + 1) (cur_end c)) g /\
  file_ok sz g c' /\ same_file f (cur_cached_file c) g c'.
Proof.
  intros H Hl He. unfold echfs_ureadbyte. rewrite (proj2 (Z.leb_gt _ _)) by lia.
  destruct (runs_cached f _ (cur_loc c) CACHE_READY H) as (c' & g & Hr & Hok & Hs & Hh'); [lia|by left|].
  exists c', g. split; [|done]. eapply runs_bind; [exact Hr|cbv beta].
  rewrite <- (sf_content _ _ _ _ Hs) by lia. unfold content. rewrite Hh'.
  destruct (zget_is_Some (cache c') (cur_loc c mod BYTES_PER_BLOCK)) as [v Ev];
    [rewrite (fok_cache _ _ _ Hok); bpb; zdml|].
  eapply runs_bind; [by apply runs_lift|cbv beta]. rewrite Ev. apply runs_ret.
Qed.

Lemma runs_uread_loop f n c acc : file_ok sz f (cur_cached_file c) -> 0 <= cur_loc c <= cur_end c ->
  cur_end c <= size (file_entry (cur_cached_file c)) ->
  let k := Z.to_nat (Z.min (Z.of_nat n) (cur_end c - cur_loc c)) in exists c' g,
  runs f (uread_loop n h c acc)
    (acc ++ bytes_at (content f (cur_cached_file c)) (cur_loc c) k, MkCursor c' (cur_loc c + Z.of_nat k) (cur_end c)) g /\
  file_ok sz g c' /\ same_file f (cur_cached_file c) g c'.
Proof.
  revert f c acc. induction n as [|n IH]; intros f c acc H Hl He k; cbn [uread_loop].
  - unfold k. replace (Z.to_nat _) with 0%nat by lia. exists (cur_cached_file c), f.
    rewrite app_nil_r, Z.add_0_r. split; [|split; [done|apply same_refl]].
    destruct c. apply runs_ret.
  - destruct (decide (cur_loc c < cur_end c)) as [Hlt|Hge].
    + destruct (runs_ureadbyte f c H ltac:(lia) He) as (c' & g & Hr & Hok & Hs).
      pose proof (content_byte f _ (cur_loc c) H ltac:(lia)) as Hb. unfold is_byte in Hb.
      destruct (IH g (MkCursor c' (cur_loc c + 1) (cur_end c)) (acc ++ [content f (cur_cached_file c) (cur_loc c)]))
        as (c2 & g2 & Hr2 & Hok2 & Hs2); simpl; [done|lia| |].
      { unfold file_entry in *. by rewrite (sf_result _ _ _ _ Hs). }
      exists c2, g2. split; [|split; [done|by eapply same_trans]].
      eapply runs_bind; [exact Hr|cbv beta]. cbn [fst snd].
      rewrite (proj2 (Z.eqb_neq _ (-1))) by lia.
      simpl in Hr2. set (k' := Z.to_nat (Z.min (Z.of_nat n) (cur_end c - (cur_loc c + 1)))) in *.
      assert (k = S k') as Hk by (unfold k, k'; lia). rewrite Hk, bytes_at_S.
      replace (cur_loc c + Z.of_nat (S k')) with (cur_loc c + 1 + Z.of_nat k') by lia.
      assert (bytes_at (content f (cur_cached_file c)) (cur_loc c + 1) k' =
        bytes_at (content g c') (cur_loc c + 1) k') as ->.
      { apply list_fmap_ext. intros i x Hx. apply lookup_seq in Hx. symmetry. apply Hs. lia. }
      rewrite <- app_assoc in Hr2. exact Hr2.
    + unfold k. replace (Z.to_nat _) with 0%nat by lia. exists (cur_cached_file c), f.
      rewrite app_nil_r, Z.add_0_r. split; [|split; [done|apply same_refl]].
      eapply runs_bind.
      * unfold echfs_ureadbyte. rewrite (proj2 (Z.leb_le _ _)) by lia. apply runs_ret.
      * simpl. destruct c. apply runs_ret.
Qed.

(** ** Lemmas: overwriting *)

Lemma file_ok_store f c o v l : file_ok sz f c -> cache_status c <> 0 ->
  zset (cache c) o v = Some l -> is_byte v ->
  file_ok sz f (with_cache (cached_block c) l CACHE_DIRTY c).
Proof.
  intros H Hc Hl Hv. pose proof (zset_Some _ _ _ _ Hl) as [Hr ->].
  split; try apply H.
  - cbn [cache with_cache]. rewrite zlen_insert. apply H.
  - cbn [cache with_cache]. apply Forall_insert; [apply H|done].
  - intros _. exact (fok_cached _ _ _ H Hc).
  - intros _ Hn. by destruct Hn.
Qed.

(** Where the byte goes: the content of a file after [v] is stored at [loc]. *)
Definition set_content (f : image) (c : cached_file_t) (loc v : Z) (g : image) (c' : cached_file_t) : Prop :=
  forall o, 0 <= o < size (file_entry c) -> content g c' o = if decide (o = loc) then v else content f c o.

Lemma block_count_mono a b : 0 <= a <= b -> block_count a <= block_count b.
Proof.
  unfold block_count. bpb. intros H.
  destruct (Z.eqb_spec (a mod 32768) 0), (Z.eqb_spec (b mod 32768) 0); zdml.
Qed.

Lemma runs_store f c loc v : file_ok sz f c -> 0 <= loc < size (file_entry c) ->
  cache_hit (loc / BYTES_PER_BLOCK) c = true -> is_byte v -> exists c',
  store_cached (loc mod BYTES_PER_BLOCK) v c = Some c' /\ file_ok sz f c' /\
  alloc_map c' = alloc_map c /\ path_result c' = path_result c /\ cpath c' = cpath c /\ set_content f c loc v f c'.
Proof.
  intros H Hl Hc Hv. pose proof Hc as [Hs Hb]%cache_hit_spec.
  assert (0 <= loc mod BYTES_PER_BLOCK < zlen (cache c)) as Hr by (rewrite (fok_cache _ _ _ H); bpb; zdml).
  set (l := <[Z.to_nat (loc mod BYTES_PER_BLOCK):=v]> (cache c)).
  assert (zset (cache c) (loc mod BYTES_PER_BLOCK) v = Some l) as El by (by apply zset_ok).
  exists (with_cache (cached_block c) l CACHE_DIRTY c).
  split; [unfold store_cached; by rewrite El|].
  split; [by apply (file_ok_store f c (loc mod BYTES_PER_BLOCK) v)|]. do 3 (split; [reflexivity|]).
  intros o Ho. unfold content.
  assert (cache_hit (o / BYTES_PER_BLOCK) (with_cache (cached_block c) l CACHE_DIRTY c) =
    cache_hit (o / BYTES_PER_BLOCK) c) as ->.
  { unfold cache_hit. cbn [cache_status cached_block with_cache].
    rewrite (proj2 (Z.eqb_neq (cache_status c) 0)) by done. done. }
  cbn [cache with_cache]. rewrite (zget_zset _ _ _ _ _ El).
  destruct (cache_hit (o / BYTES_PER_BLOCK) c) eqn:Eh.
  - apply cache_hit_spec in Eh as [_ Hb']. rewrite Hb in Hb'.
    destruct (decide (o = loc)) as [->|Hne]; [by rewrite decide_True|].
    rewrite decide_False; [done|]. intros Hm. apply Hne. bpb. zdml.
  - rewrite decide_False; [done|]. intros ->. congruence.
Qed.

Lemma runs_uwritebyte fuel m f c v : file_ok sz f (cur_cached_file c) -> is_byte v ->
  0 <= cur_loc c < size (file_entry (cur_cached_file c)) -> exists c' g,
  runs f (echfs_uwritebyte fuel m h v c) (MkCursor c' (cur_loc c + 1) (cur_end c)) g /\
  file_ok sz g c' /\ alloc_map c' = alloc_map (cur_cached_file c) /\
  path_result c' = path_result (cur_cached_file c) /\
  set_content f (cur_cached_file c) (cur_loc c) v g c'.
Proof.
  intros H Hv Hl. destruct (runs_cached f _ _ CACHE_DIRTY H Hl) as (c1 & g & Hr & Hok & Hs & Hh'); [by right|].
  assert (file_entry c1 = file_entry (cur_cached_file c)) as He
    by (unfold file_entry; by rewrite (sf_result _ _ _ _ Hs)).
  destruct (runs_store g c1 (cur_loc c) v Hok) as (c2 & Es & Hok2 & Hm & Hp & _ & Hc); [by rewrite He|done|done|].
  exists c2, g. split; [|split; [done|]; split; [by rewrite Hm; apply Hs|]; split; [by rewrite Hp; apply Hs|]].
  - unfold echfs_uwritebyte. rewrite (proj2 (Z.leb_gt _ _)) by lia.
    eapply runs_bind; [|cbv beta].
    { unfold grow. rewrite (proj2 (Z.leb_le _ _)); [apply runs_ret|]. apply block_count_mono. lia. }
    eapply runs_bind; [exact Hr|cbv beta]. eapply runs_bind; [by apply runs_lift|apply runs_ret].
  - intros o Ho. rewrite (Hc o) by (by rewrite He). case_decide; [done|]. by apply Hs.
Qed.

Lemma runs_uwrite_loop fuel m bytes : forall f c, file_ok sz f (cur_cached_file c) -> Forall is_byte bytes ->
  0 <= cur_loc c -> cur_loc c + zlen bytes <= size (file_entry (cur_cached_file c)) -> exists c' g,
  runs f (uwrite_loop fuel m h bytes c) (MkCursor c' (cur_loc c + zlen bytes) (cur_end c)) g /\
  file_ok sz g c' /\ alloc_map c' = alloc_map (cur_cached_file c) /\
  path_result c' = path_result (cur_cached_file c) /\
  forall o, 0 <= o < size (file_entry (cur_cached_file c)) ->
    content g c' o = put_bytes (content f (cur_cached_file c)) (cur_loc c) bytes o.
Proof.
  induction bytes as [|b bytes IH]; intros f c H Hb Hl He.
  - exists (cur_cached_file c), f. rewrite zlen_nil, Z.add_0_r. split; [destruct c; apply runs_ret|].
    do 3 (split; [done|]). intros o _. unfold put_bytes, zget. by case_decide.
  - inversion Hb as [|?? Hb0 Hb1]; subst. rewrite zlen_cons in He. pose proof (zlen_nonneg bytes).
    destruct (runs_uwritebyte fuel m f c b H Hb0) as (c1 & g & Hr & Hok & Hm & Hp & Hc); [lia|].
    assert (file_entry c1 = file_entry (cur_cached_file c)) as Hf by (unfold file_entry; by rewrite Hp).
    destruct (IH g (MkCursor c1 (cur_loc c + 1) (cur_end c))) as (c2 & g2 & Hr2 & Hok2 & Hm2 & Hp2 & Hc2);
      cbn [cur_cached_file cur_loc] in *; [done|done|lia|rewrite Hf; lia|].
    exists c2, g2. split; [|split; [done|]; split; [congruence|]; split; [congruence|]].
    + cbn [uwrite_loop]. rewrite u8_small by (unfold is_byte in Hb0; lia).
      eapply runs_bind; [exact Hr|cbv beta]. rewrite zlen_cons.
      replace (cur_loc c + (zlen bytes + 1)) with (cur_loc c + 1 + zlen bytes) by lia. exact Hr2.
    + intros o Ho. rewrite Hc2 by (by rewrite Hf). unfold put_bytes. rewrite zget_cons.
      rewrite Hc by done. destruct (decide (o = cur_loc c)) as [->|Hne].
      * rewrite Z.sub_diag, decide_True by done. unfold zget. rewrite decide_False by lia. done.
      * rewrite decide_False by lia. by replace (o - (cur_loc c + 1)) with (o - cur_loc c - 1) by lia.
Qed.

(** ** Lemmas: writing the entry back *)

Lemma runs_wr_entry_u f m i e : entry_ok e -> 0 <= entry_loc m i -> entry_loc m i + ENTRY_SIZE <= sz ->
  runs f (wr_entry_u m h i e) tt (put_bytes f (entry_loc m i) (entry_bytes e)).
Proof. intros He H0 H1. destruct (entry_bytes_ok e He) as [Hb Hl]. apply runs_uwrite; [done|by rewrite Hl|done]. Qed.

Lemma file_ok_apart f c loc l : file_ok sz f c -> apart c loc (zlen l) -> Forall is_byte l ->
  file_ok sz (put_bytes f loc l) c /\
  forall o, 0 <= o < size (file_entry c) -> content (put_bytes f loc l) c o = content f c o.
Proof.
  intros H Ha Hl.
  assert (forall b o i, 0 <= i < file_blocks c -> zget (alloc_map c) i = Some b -> 0 <= o < BYTES_PER_BLOCK ->
    put_bytes f loc l (b * BYTES_PER_BLOCK + o) = f (b * BYTES_PER_BLOCK + o)) as Hout.
  { intros b o i Hi Hb Ho. unfold put_bytes.
    destruct (zget l (b * BYTES_PER_BLOCK + o - loc)) eqn:E; [|done].
    apply zget_Some in E. destruct (Ha i b Hi Hb); bpb; lia. }
  split.
  - split; try apply H.
    + intros x Hx. unfold put_bytes. destruct (zget l (x - loc)) as [v|] eqn:E; [|by apply H].
      pose proof (zget_Some _ _ _ E). rewrite zget_lookup in E by lia.
      by apply (Forall_lookup_1 _ _ _ _ Hl E).
    + intros Hs Hd o Ho. rewrite (fok_clean _ _ _ H Hs Hd o Ho). f_equal.
      destruct (fok_block _ _ _ H _ (fok_cached _ _ _ H Hs)) as (b & Hb & _).
      unfold block_no. rewrite Hb. symmetry. exact (Hout b o _ (fok_cached _ _ _ H Hs) Hb Ho).
  - intros o Ho. pose proof (block_of_size o _ Ho) as Hi. unfold content. destruct (cache_hit _ c); [done|].
    unfold medium_byte. destruct (fok_block _ _ _ H _ Hi) as (b & Hb & _). unfold block_no. rewrite Hb.
    apply (Hout b _ _ Hi Hb). bpb. zdml.
Qed.

End Laws.

Section Chains.
Context {W : Type} {D : BlockDev W} {sz : Z} {L : BlockDevLaws D sz}.
#[local] Set Default Proof Using "Type*".

(** ** Lemmas: chains *)

Lemma runs_fat f m b : fat_word_ok sz m b -> runs f (rd_qword (fat_loc m b)) (fat f m b) f.
Proof. intros [H0 H1]. by apply runs_rd_qword. Qed.
Lemma runs_set_fat f m b v : fat_word_ok sz m b -> runs f (wr_qword (fat_loc m b) v) tt (set_fat f m b v).
Proof. intros [H0 H1]. by apply runs_wr_qword. Qed.

Lemma runs_chain_map m l : forall fuel f b, chain sz f m b l -> (length l < fuel)%nat ->
  runs f (chain_map fuel m b) (l ++ [END_OF_CHAIN]) f.
Proof.
  induction l as [|x l IH]; intros [|fuel] f b Hc Hf; cbn [length] in Hf; try lia; cbn [chain_map chain] in *.
  - rewrite (proj2 (Z.eqb_eq b END_OF_CHAIN) Hc), Hc. apply runs_ret.
  - destruct Hc as (-> & Hx & Hw & Hc). rewrite (proj2 (Z.eqb_neq _ _) Hx).
    eapply runs_bind; [by apply runs_fat|cbv beta].
    eapply runs_bind; [apply IH; [exact Hc|lia]|apply runs_ret].
Qed.

Lemma runs_free_chain m l : forall fuel f b, chain sz f m b l -> NoDup l -> (length l < fuel)%nat ->
  runs f (free_chain fuel m b) tt (freed f m l).
Proof.
  induction l as [|x l IH]; intros [|fuel] f b Hc Hn Hf; cbn [length] in Hf; try lia;
    cbn [free_chain chain freed] in *.
  - rewrite (proj2 (Z.eqb_eq b END_OF_CHAIN) Hc). apply runs_ret.
  - destruct Hc as (-> & Hx & Hw & Hc). rewrite (proj2 (Z.eqb_neq _ _) Hx).
    apply NoDup_cons in Hn as [Hnx Hn].
    eapply runs_bind; [by apply runs_fat|cbv beta].
    eapply runs_bind; [by apply runs_set_fat|cbv beta].
    apply IH; [|done|lia]. by apply chain_set_fat.
Qed.

(** ** Lemmas: growing *)

(** [t] is the first free block. *)
Definition first_free (f : image) (m : mount_t) (t : Z) : Prop :=
  0 <= t /\ fat f m t = 0 /\ forall j, 0 <= j <= t -> fat_word_ok sz m j /\ (j < t -> fat f m j <> 0).

(** By locations or by a handle. *)
Section Growing.
Context (rd : Z -> ST W Z) (wr : Z -> Z -> ST W unit).
Context (Hrd : forall f loc, 0 <= loc -> loc + 8 <= sz -> runs f (rd loc) (le f 8 loc) f)
  (Hwr : forall f loc v, 0 <= loc -> loc + 8 <= sz -> runs f (wr loc v) tt (upd_le f 8 loc v)).

Lemma runs_find_free f m t fuel k : first_free f m t -> 0 <= k <= t -> (Z.to_nat (t - k) < fuel)%nat ->
  runs f (find_free fuel rd m k) t f.
Proof.
  intros (H0 & Hz & Ht). revert k. induction fuel as [|fuel IH]; intros k Hk Hf; [lia|]. cbn [find_free].
  destruct (Ht k Hk) as [Hw Hnz]. eapply runs_bind; [apply Hrd; apply Hw|cbv beta].
  change (le f 8 (fat_loc m k)) with (fat f m k). destruct (Z.eqb_spec (fat f m k) 0) as [E|E].
  - destruct (decide (k = t)) as [->|]; [apply runs_ret|]. destruct (Hnz ltac:(lia) E).
  - assert (k <> t) by congruence. apply IH; lia.
Qed.

Lemma runs_grow_step f m t fuel first i c prev : first_free f m t -> (Z.to_nat t < fuel)%nat ->
  0 < i <= zlen (alloc_map c) -> zget (alloc_map c) (i - 1) = Some prev -> fat_word_ok sz m prev ->
  runs f (grow_step fuel rd wr first m i c)
    (with_map (take (Z.to_nat i) (alloc_map c) ++ [t]) c) (set_fat f m prev t).
Proof.
  intros Ht Hf Hi Hp Hw. unfold grow_step.
  eapply runs_bind; [apply runs_find_free; [exact Ht|destruct Ht; lia|by rewrite Z.sub_0_r]|cbv beta].
  eapply runs_bind.
  { apply runs_lift. unfold amap_put. rewrite decide_True by lia. reflexivity. }
  cbv beta. rewrite (proj2 (Z.eqb_neq _ _)) by lia. cbn [alloc_map with_map].
  assert (zget (take (Z.to_nat i) (alloc_map c) ++ [t]) (i - 1) = Some prev) as E.
  { rewrite zget_app. assert (zlen (take (Z.to_nat i) (alloc_map c)) = i) as ->
      by (unfold zlen in *; rewrite length_take; lia).
    rewrite decide_True by lia. rewrite <- Hp, !zget_lookup by lia. apply lookup_take_lt. lia. }
  eapply runs_bind; [by apply runs_lift|cbv beta].
  eapply runs_bind; [apply Hwr; apply Hw|apply runs_ret].
Qed.

End Growing.

(** ** Lemmas: a removal that does not end *)

Lemma u64_succ loc : u64 (u64 loc + 1) = u64 (loc + 1).
Proof. unfold u64. by rewrite Zplus_mod_idemp_l. Qed.
Lemma rd_le_wraps n : forall i width loc x (w : W), rd_le n i width loc x w = rd_le n i width (u64 loc) x w.
Proof.
  induction n as [|n IH]; intros i width loc x w; [done|]. cbn [rd_le]. unfold st_bind.
  assert (forall a, u64 (u64 a) = u64 a) as Hu by (intros a; apply u64_small, u64_range). rewrite Hu.
  destruct (vfs_kread (u64 loc) w) as [[c w']|]; [|done]. by rewrite IH, (IH _ _ (u64 loc + 1)), u64_succ.
Qed.
Lemma wr_le_wraps n : forall i loc x (w : W), wr_le n i loc x w = wr_le n i (u64 loc) x w.
Proof.
  induction n as [|n IH]; intros i loc x w; [done|]. cbn [wr_le]. unfold st_bind.
  assert (forall a, u64 (u64 a) = u64 a) as Hu by (intros a; apply u64_small, u64_range). rewrite Hu.
  destruct (vfs_kwrite (u64 loc) _ w) as [[c w']|]; [|done]. by rewrite IH, (IH _ (u64 loc + 1)), u64_succ.
Qed.

Lemma free_chain_step f m b (w : W) fuel : agrees w f -> b <> END_OF_CHAIN ->
  let loc := u64 (fat_loc m b) in loc + 8 <= sz ->
  exists w', free_chain (S fuel) m b w = free_chain fuel m (le f 8 loc) w' /\ agrees w' (upd_le f 8 loc 0).
Proof.
  intros Hw Hb loc Hl. pose proof (u64_range (fat_loc m b)). fold loc in H. cbn [free_chain].
  rewrite (proj2 (Z.eqb_neq _ _) Hb). unfold st_bind, rd_qword. rewrite rd_le_wraps. fold loc.
  destruct (runs_rd_qword f loc ltac:(lia) Hl w Hw) as (w1 & E1 & Hw1). unfold rd_qword in E1. rewrite E1.
  unfold wr_qword. rewrite wr_le_wraps. fold loc.
  destruct (runs_wr_qword f loc 0 ltac:(lia) Hl w1 Hw1) as (w2 & E2 & Hw2). unfold wr_qword in E2. rewrite E2.
  by exists w2.
Qed.

Lemma free_zero_diverges m fuel : forall f (w : W), agrees w f -> fat_word_ok sz m 0 -> fat f m 0 = 0 ->
  free_chain fuel m 0 w = None.
Proof.
  induction fuel as [|fuel IH]; intros f w Hw Hok Hz; [done|]. pose proof Hok as [H0 H1].
  pose proof (bd_small (sz := sz)). assert (u64 (fat_loc m 0) = fat_loc m 0) as Eu by (apply u64_small; lia).
  pose proof (free_chain_step f m 0 w fuel Hw ltac:(done)) as Hs. cbv zeta in Hs. rewrite Eu in Hs.
  destruct (Hs H1) as (w' & -> & Hw').
  change (le f 8 (fat_loc m 0)) with (fat f m 0). rewrite Hz. apply (IH _ _ Hw' Hok). by apply fat_set_eq.
Qed.

Lemma free_reserved_diverges m f (w : W) fuel : agrees w f -> fat_word_ok sz m 0 ->
  fat f m 0 <> END_OF_CHAIN -> let loc := u64 (fat_loc m (fat f m 0)) in
  loc + 8 <= fat_loc m 0 -> le f 8 loc = 0 -> free_chain fuel m 0 w = None.
Proof.
  intros Hw Hok Hne loc Hl Hz. destruct fuel as [|fuel]; [done|]. pose proof Hok as [H0 H1].
  pose proof (bd_small (sz := sz)). assert (u64 (fat_loc m 0) = fat_loc m 0) as Eu by (apply u64_small; lia).
  pose proof (u64_range (fat_loc m (fat f m 0))) as Hr. fold loc in Hr.
  pose proof (free_chain_step f m 0 w fuel Hw ltac:(done)) as Hs. cbv zeta in Hs. rewrite Eu in Hs.
  destruct (Hs H1) as (w1 & -> & Hw1).
  change (le f 8 (fat_loc m 0)) with (fat f m 0). destruct fuel as [|fuel]; [done|].
  destruct (free_chain_step _ m (fat f m 0) w1 fuel Hw1 Hne ltac:(fold loc; lia)) as (w2 & -> & Hw2).
  fold loc. fold loc in Hw2.
  rewrite le_upd_le_ne, Hz by lia. apply (free_zero_diverges m fuel _ _ Hw2 Hok).
  unfold fat. rewrite le_upd_le_ne by lia. by apply le8_back.
Qed.

End Chains.

(** ** Lemmas: a transfer through a handle *)

(** The cached file [c] and the handle [h'] stored back. *)
Definition stored_back (handle : Z) (h' : echfs_handle_t) (c : cached_file_t) (st : fs) : fs :=
  MkFs (mounts st) (<[Z.to_nat (cached_file h') := c]> (cached_files st)) (<[Z.to_nat handle := h']> (handles st)).

Lemma put_both_ok handle h h' c c' st : zget (handles st) handle = Some h -> cached_file h' = cached_file h ->
  zget (cached_files st) (cached_file h) = Some c -> exists st1,
  put_file (cached_file h) c' st = Some st1 /\ put_handle handle h' st1 = Some (stored_back handle h' c' st).
Proof.
  intros Eh%zget_Some Ef Ec%zget_Some. unfold put_file, put_handle, stored_back. rewrite zset_ok by done. cbn [mbind option_bind].
  eexists. split; [reflexivity|]. cbn [handles mounts cached_files]. rewrite zset_ok by done. by rewrite Ef.
Qed.

Section Through.
Context {W : Type} {D : BlockDev W} {sz : Z} {L : BlockDevLaws D sz}.
Context (f : image) (st : fs) (handle : Z) (h : echfs_handle_t) (c : cached_file_t).
Context (Eh : zget (handles st) handle = Some h) (Hh : good_handle (dev_handle h))
  (Ec : zget (cached_files st) (cached_file h) = Some c) (Hok : file_ok sz f c).
#[local] Set Default Proof Using "Type*".

Lemma echfs_uread_through len : 0 <= ptr h <= end_ h -> end_ h <= size (file_entry c) -> 0 <= len ->
  let k := Z.min len (end_ h - ptr h) in exists c' g,
  runs f (echfs_uread handle len st)
    (bytes_at (content f c) (ptr h) (Z.to_nat k), stored_back handle (with_ptr h (ptr h + k)) c' st) g /\
  file_ok sz g c' /\ same_file f c g c'.
Proof.
  intros Hp He Hl k.
  destruct (runs_uread_loop (dev_handle h) Hh f (Z.to_nat len) (MkCursor c (ptr h) (end_ h)) [])
    as (c' & g & Hr & Hok' & Hs); cbn [cur_cached_file cur_loc cur_end]; [done|done|done|].
  cbn [cur_cached_file cur_loc cur_end] in Hr, Hs. rewrite Z2Nat.id in Hr by done. fold k in Hr.
  rewrite Z2Nat.id in Hr by lia.
  destruct (put_both_ok handle h (with_ptr h (ptr h + k)) c c' st Eh eq_refl Ec) as (st1 & E1 & E2).
  exists c', g. split; [|done]. unfold echfs_uread.
  do 2 (eapply runs_bind; [by apply runs_lift|cbv beta]).
  eapply runs_bind; [exact Hr|cbv beta]. cbn [fst snd cur_cached_file cur_loc].
  eapply runs_bind; [by apply runs_lift|cbv beta]. eapply runs_bind; [by apply runs_lift|apply runs_ret].
Qed.

Lemma echfs_uwrite_through m bytes fuel : zget (mounts st) (device h) = Some m ->
  Forall is_byte bytes -> 0 <= ptr h -> ptr h + zlen bytes <= size (file_entry c) ->
  let el := entry_loc m (target_entry (path_result c)) in
  entry_ok (file_entry c) -> 0 <= el -> el + ENTRY_SIZE <= sz -> apart c el ENTRY_SIZE -> exists c' g,
  runs f (echfs_uwrite fuel handle bytes st)
    (zlen bytes, stored_back handle (with_ptr h (ptr h + zlen bytes)) c' st) g /\
  file_ok sz g c' /\ alloc_map c' = alloc_map c /\ path_result c' = path_result c /\
  forall o, 0 <= o < size (file_entry c) -> content g c' o = put_bytes (content f c) (ptr h) bytes o.
Proof.
  intros Em Hb Hp Hs el He H0 H1 Ha.
  destruct (runs_uwrite_loop (dev_handle h) Hh fuel m bytes f (MkCursor c (ptr h) (end_ h)))
    as (c' & g & Hr & Hok' & Hm & Hpr & Hc); cbn [cur_cached_file cur_loc cur_end] in *; [done..|].
  assert (file_entry c' = file_entry c) as Hf by (unfold file_entry; by rewrite Hpr).
  destruct (entry_bytes_ok (file_entry c) He) as [Heb Hel].
  destruct (file_ok_apart (dev_handle h) Hh g c' el (entry_bytes (file_entry c)) Hok') as [Hok2 Hc2]; [|done|].
  { intros i b. unfold file_blocks. rewrite Hf, Hm, Hel. apply Ha. }
  destruct (put_both_ok handle h (with_ptr h (ptr h + zlen bytes)) c c' st Eh eq_refl Ec) as (st1 & E1 & E2).
  exists c', (put_bytes g el (entry_bytes (file_entry c))).
  split; [|split; [done|]; split; [done|]; split; [done|]].
  - unfold echfs_uwrite. do 3 (eapply runs_bind; [by apply runs_lift|cbv beta]).
    eapply runs_bind; [exact Hr|cbv beta]. cbn [cur_cached_file cur_loc]. rewrite Hf, Hpr.
    eapply runs_bind; [by apply runs_wr_entry_u|cbv beta].
    eapply runs_bind; [by apply runs_lift|cbv beta]. eapply runs_bind; [by apply runs_lift|apply runs_ret].
  - intros o Ho. rewrite Hc2 by (by rewrite Hf). by apply Hc.
Qed.

End Through.

(** * Properties *)

(** Reading an open file: when the cached file is well formed, [echfs_uread]
    returns the bytes of its content from the handle's position on, as many as were
    asked for and lie before the end the handle was opened with, and advances the
    position by as many; afterwards the cached file is well formed and has the same
    blocks, entry and content, whatever block was evicted, written back or loaded, and
    the disk is the same outside of those blocks. *)
Theorem echfs_uread_correct {W : Type} {D : BlockDev W} {sz : Z} {L : BlockDevLaws D sz}
    (f : image) (st : fs) (handle len : Z) (h : echfs_handle_t) (c : cached_file_t) :
  zget (handles st) handle = Some h -> good_handle (dev_handle h) ->
  zget (cached_files st) (cached_file h) = Some c -> file_ok sz f c ->
  0 <= ptr h <= end_ h -> end_ h <= size (file_entry c) -> 0 <= len ->
  let k := Z.min len (end_ h - ptr h) in
  exists c' g st1 st2,
    put_file (cached_file h) c' st = Some st1 /\ put_handle handle (with_ptr h (ptr h + k)) st1 = Some st2 /\
    runs f (echfs_uread handle len st) (bytes_at (content f c) (ptr h) (Z.to_nat k), st2) g /\
    file_ok sz g c' /\ same_file f c g c'.
Proof.
  intros Eh Hh Ec Hok Hp He Hl k. destruct (echfs_uread_through f st handle h c Eh Hh Ec Hok len Hp He Hl) as (c' & g & Hr & Hok' & Hs).
  destruct (put_both_ok handle h (with_ptr h (ptr h + k)) c c' st Eh eq_refl Ec) as (st1 & E1 & E2).
  by exists c', g, st1, (stored_back handle (with_ptr h (ptr h + k)) c' st).
Qed.

(** Writing inside an open file: when the bytes end within the file,
    [echfs_uwrite] returns their number, and afterwards the file's content is the old
    one with the bytes in their place; its blocks and its entry stay the same, and
    the entry's own region of the volume, off the file's blocks, is written back. *)
Theorem echfs_uwrite_overwrites {W : Type} {D : BlockDev W} {sz : Z} {L : BlockDevLaws D sz}
    (f : image) (st : fs) (handle : Z) (bytes : list Z) (fuel : nat)
    (h : echfs_handle_t) (m : mount_t) (c : cached_file_t) :
  zget (handles st) handle = Some h -> good_handle (dev_handle h) ->
  zget (mounts st) (device h) = Some m ->
  zget (cached_files st) (cached_file h) = Some c -> file_ok sz f c ->
  Forall is_byte bytes -> 0 <= ptr h -> ptr h + zlen bytes <= size (file_entry c) ->
  let el := entry_loc m (target_entry (path_result c)) in
  entry_ok (file_entry c) -> 0 <= el -> el + ENTRY_SIZE <= sz -> apart c el ENTRY_SIZE ->
  exists c' g st1 st2,
    put_file (cached_file h) c' st = Some st1 /\
    put_handle handle (with_ptr h (ptr h + zlen bytes)) st1 = Some st2 /\
    runs f (echfs_uwrite fuel handle bytes st) (zlen bytes, st2) g /\
    file_ok sz g c' /\ alloc_map c' = alloc_map c /\ path_result c' = path_result c /\
    forall o, 0 <= o < size (file_entry c) ->
      content g c' o = put_bytes (content f c) (ptr h) bytes o.
Proof.
  intros Eh Hh Em Ec Hok Hb Hp Hs el He H0 H1 Ha.
  destruct (echfs_uwrite_through f st handle h c Eh Hh Ec Hok m bytes fuel Em Hb Hp Hs He H0 H1 Ha) as (c' & g & Hr & H).
  destruct (put_both_ok handle h (with_ptr h (ptr h + zlen bytes)) c c' st Eh eq_refl Ec) as (st1 & E1 & E2).
  by exists c', g, st1, (stored_back handle (with_ptr h (ptr h + zlen bytes)) c' st).
Qed.

(** C35: Removing a file ends and frees exactly its blocks: for a file whose blocks
    form a chain in the allocation table without repetition, [echfs_remove], from the
    resolved path on, returns [SUCCESS] with fuel for the blocks; then the table has 0
    for each of them and the old word for every other block outside the entry, and
    the entry is marked deleted.  Opening it before would have cached that chain. *)
Theorem echfs_remove_frees {W : Type} {D : BlockDev W} {sz : Z} {L : BlockDevLaws D sz}
    (f : image) (m : mount_t) (r : path_result_t) (l : list Z) (fuel : nat) :
  not_found r = false -> chain sz f m (payload (target r)) l -> NoDup l -> (length l < fuel)%nat ->
  in_volume (sz := sz) m (target_entry r) ->
  runs f (chain_map fuel m (payload (target r))) (l ++ [END_OF_CHAIN]) f /\
  exists g, runs f (remove_resolved fuel m r) SUCCESS g /\
    parent_id (ent g m (target_entry r)) = DELETED_ENTRY /\
    forall b, fat_loc m b + 8 <= entry_loc m (target_entry r) \/
              entry_loc m (target_entry r) + ENTRY_SIZE <= fat_loc m b ->
      fat g m b = if decide (b ∈ l) then 0 else fat f m b.
Proof.
  intros Hnf Hc Hn Hf Hv. split; [by apply runs_chain_map|].
  set (e := new_entry DELETED_ENTRY 0 [] 0).
  assert (entry_ok e) as He by (split; done || constructor).
  exists (put_entry (freed f m l) m (target_entry r) e). split; [|split].
  - unfold remove_resolved. rewrite Hnf. eapply runs_bind; [by apply runs_free_chain|cbv beta].
    eapply runs_bind; [by apply runs_wr_entry|apply runs_ret].
  - by rewrite ent_put_entry.
  - intros b Hb. rewrite <- (fat_freed f m l b Hn). apply le_ext. intros x Hx.
    apply put_entry_out; [reflexivity|]. unfold ENTRY_SIZE in Hb. lia.
Qed.

(** Growing a file by two blocks gives it the same block twice: a block taken
    from the table is recorded there only when the next one is appended, so the
    second search finds it again; both entries of the file's map are the first free
    block, and the table chains that block to itself. *)
Theorem grow_two_blocks_aliases {W : Type} {D : BlockDev W} {sz : Z} {L : BlockDevLaws D sz}
    (f : image) (m : mount_t) (t : Z) (fuel : nat) (i : Z) (c : cached_file_t) (prev : Z)
    (first : Z -> cached_file_t -> ST W cached_file_t) :
  first_free (sz := sz) f m t -> t < 2 ^ 64 -> (Z.to_nat t < fuel)%nat -> fat f m 0 <> 0 ->
  0 < i <= zlen (alloc_map c) -> zget (alloc_map c) (i - 1) = Some prev ->
  fat_word_ok sz m prev -> prev <> t ->
  exists c' g, runs f (grow_loop 2 fuel rd_qword wr_qword first m i c) c' g /\
    zget (alloc_map c') i = Some t /\ zget (alloc_map c') (i + 1) = Some t /\ fat g m t = t.
Proof.
  intros Ht H64 Hf H0 Hi Hp Hw Hne. pose proof Ht as (Ht0 & Hz & Hmin).
  assert (t <> 0) as Htn by (intros ->; done).
  set (f1 := set_fat f m prev t). set (m1 := take (Z.to_nat i) (alloc_map c) ++ [t]).
  assert (zlen (take (Z.to_nat i) (alloc_map c)) = i) as Hti by (unfold zlen in *; rewrite length_take; lia).
  assert (zget m1 i = Some t) as E1.
  { unfold m1. rewrite zget_app, Hti, decide_False by lia. by rewrite Z.sub_diag. }
  assert (zlen m1 = i + 1) as Hm1 by (unfold m1; rewrite zlen_app, Hti; done).
  assert (first_free (sz := sz) f1 m t) as Ht1.
  { split; [done|]. split; [unfold f1; by rewrite fat_set_ne|]. intros j Hj. split; [by apply Hmin|].
    intros Hjt. destruct (decide (prev = j)) as [->|Hpj]; unfold f1.
    - rewrite fat_set_eq by lia. done.
    - rewrite fat_set_ne by done. by apply Hmin. }
  assert (fat_word_ok sz m t) as Hwt by (apply Hmin; lia).
  exists (with_map (take (Z.to_nat (i + 1)) m1 ++ [t]) (with_map m1 c)), (set_fat f1 m t t).
  split; [|split; [|split]].
  - cbn [grow_loop]. eapply runs_bind; [by apply (runs_grow_step _ _ runs_rd_qword runs_wr_qword)|cbv beta].
    eapply runs_bind; [|apply runs_ret]. apply (runs_grow_step _ _ runs_rd_qword runs_wr_qword); cbn [alloc_map with_map]; try done; [lia|].
    by replace (i + 1 - 1) with i by lia.
  - cbn [alloc_map with_map]. rewrite zget_app. unfold zlen. rewrite length_take.
    unfold zlen in Hm1. rewrite decide_True by lia. rewrite <- E1, !zget_lookup by lia.
    apply lookup_take_lt. lia.
  - cbn [alloc_map with_map]. rewrite zget_app. unfold zlen in *. rewrite length_take, decide_False by lia.
    rewrite zget_cons, decide_True by lia. done.
  - by apply fat_set_eq.
Qed.

(** [echfs_remove] of a path with a missing directory never returns: it does not
    test the resolution's [failure], takes the file's first block to be block 0, and
    the chain from there never reaches [END_OF_CHAIN], when the word for block 0 is
    that of a reserved block (0xfffffffffffffff0 in [RESERVED_BLOCK]), whose own word
    would be at a location before the table that holds 0. *)
Theorem echfs_remove_hangs {W : Type} {D : BlockDev W} {sz : Z} {L : BlockDevLaws D sz}
    (f : image) (m : mount_t) (n : nat) (st : fs) (dev : list Z) (cs : list (list Z)) (nm : list Z) :
  mount_of dev st = Some m -> find_cached (47 :: join cs nm) st = None ->
  dir_ok sz f m n -> Forall comp_ok cs -> comp_ok nm -> nm <> [] ->
  walk (visible m (table f m n)) root cs = None ->
  fat_word_ok sz m 0 -> fat f m 0 <> END_OF_CHAIN ->
  u64 (fat_loc m (fat f m 0)) + 8 <= fat_loc m 0 -> le f 8 (u64 (fat_loc m (fat f m 0))) = 0 ->
  forall (fuel : nat) (w : W), agrees w f -> echfs_remove fuel (47 :: join cs nm) dev st w = None.
Proof.
  intros Em Ef Hd Hcs Hnm Hne Hw H0 H1 H2 H3 fuel w Ha.
  unfold echfs_remove. unfold st_bind at 1. unfold st_lift at 1. rewrite Em, Ef.
  destruct (runs_path_resolver f m n Hd cs nm FILE_TYPE Hcs Hnm Hne w Ha) as (w1 & E1 & Ha1).
  unfold st_bind at 1 2. rewrite E1. unfold resolved. rewrite Hw. cbn [st_ret fst].
  unfold st_bind at 1. unfold remove_resolved, st_bind. cbn [not_found target payload fst].
  change (payload empty_entry) with 0. by rewrite (free_reserved_diverges m f w1 fuel Ha1 H0 H1 H2 H3).
Qed.

(** * Witnesses *)

(** A file of the two bytes [Hi] in block 20 of [demo_mount], just opened. *)
Definition demo_image : image := upd (upd (fun _ => 0) (20 * BYTES_PER_BLOCK) 72) (20 * BYTES_PER_BLOCK + 1) 105.
Definition demo_entry : entry_t := with_size (new_entry ROOT_ID FILE_TYPE [102] 20) 2.
Definition demo_file : cached_file_t :=
  MkCachedFile [47; 102] (MkPathResult 0 demo_entry root [102] false false) 0
    (replicate (Z.to_nat BYTES_PER_BLOCK) 0) CACHE_NOTREADY [20; END_OF_CHAIN].
Definition demo_handle : echfs_handle_t := MkHandle 0 [47; 102] 0 0 0 0 2 0 0 0.
Definition demo_fs : fs := MkFs [demo_mount] [demo_file] [demo_handle].

Lemma demo_file_ok : file_ok (2 ^ 30) demo_image demo_file.
Proof.
  assert (forall i, 0 <= i < file_blocks demo_file -> i = 0) as Hi
    by (intros i; change (file_blocks demo_file) with 1; lia).
  split.
  - intros l _. unfold demo_image, upd. repeat case_decide; split; done.
  - discriminate.
  - intros i ->%Hi. exists 20. split; [reflexivity|]. split; [discriminate|]. unfold BYTES_PER_BLOCK. lia.
  - by intros i j b ->%Hi ->%Hi.
  - cbn [cache demo_file]. rewrite zlen_replicate. by apply Z2Nat.id.
  - apply Forall_replicate. done.
  - by intros [].
  - by intros [].
Qed.
Lemma demo_entry_ok : entry_ok demo_entry.
Proof.
  split; try done. constructor; [|constructor]. split; [split; done|done].
Qed.
Lemma demo_content i : 0 <= i < 2 -> content demo_image demo_file i = nth (Z.to_nat i) [72; 105] 0.
Proof. intros Hi. assert (i = 0 \/ i = 1) as [-> | ->] by lia; reflexivity. Qed.

Lemma echfs_uread_correct_witness : exists g st2,
  runs (L := image_laws) demo_image (echfs_uread 0 5 demo_fs) ([72; 105], st2) g.
Proof.
  destruct (echfs_uread_correct (L := image_laws) demo_image demo_fs 0 5 demo_handle demo_file)
    as (c' & g & st1 & st2 & _ & _ & Hr & _).
  - reflexivity.
  - exact I.
  - reflexivity.
  - exact demo_file_ok.
  - split; discriminate.
  - discriminate.
  - discriminate.
  - exists g, st2. exact Hr.
Defined.

Lemma echfs_uwrite_overwrites_witness : exists g st2 c',
  runs (L := image_laws) demo_image (echfs_uwrite 0 0 [89] demo_fs) (1, st2) g /\
  content g c' 0 = 89 /\ content g c' 1 = 105.
Proof.
  destruct (echfs_uwrite_overwrites (L := image_laws) demo_image demo_fs 0 [89] 0 demo_handle demo_mount demo_file)
    as (c' & g & st1 & st2 & _ & _ & Hr & _ & _ & _ & Hc).
  - reflexivity.
  - exact I.
  - reflexivity.
  - reflexivity.
  - exact demo_file_ok.
  - constructor; [split; [discriminate|reflexivity]|constructor].
  - discriminate.
  - discriminate.
  - exact demo_entry_ok.
  - discriminate.
  - discriminate.
  - intros i b Hi Hb. assert (i = 0) as -> by (revert Hi; change (file_blocks demo_file) with 1; lia).
    injection Hb as <-. left. discriminate.
  - exists g, st2, c'. split; [exact Hr|]. split; (rewrite Hc; [reflexivity|split; [discriminate|reflexivity]]).
Defined.

(** The table's first word as [RESERVED_BLOCK]. *)
Definition reserved_image : image := set_fat blank demo_mount 0 0xfffffffffffffff0.

Lemma echfs_remove_frees_witness : exists g,
  runs (L := image_laws) (set_fat blank demo_mount 20 END_OF_CHAIN)
    (remove_resolved 2 demo_mount (path_result demo_file)) SUCCESS g /\ fat g demo_mount 20 = 0.
Proof.
  destruct (echfs_remove_frees (L := image_laws) (set_fat blank demo_mount 20 END_OF_CHAIN) demo_mount
    (path_result demo_file) [20] 2) as (_ & g & Hr & _ & Hf).
  - reflexivity.
  - split; [reflexivity|]. split; [discriminate|]. split; [split; discriminate|]. vm_compute. reflexivity.
  - apply NoDup_singleton.
  - cbn. lia.
  - split; discriminate.
  - exists g. split; [exact Hr|]. rewrite Hf; [by rewrite decide_True by (by left)|]. left. discriminate.
Defined.

Lemma grow_two_blocks_aliases_witness : exists c' g,
  runs (L := image_laws) reserved_image
    (grow_loop 2 5 rd_qword wr_qword (first_w demo_mount) demo_mount 1 demo_file) c' g /\
  zget (alloc_map c') 1 = Some 1 /\ zget (alloc_map c') 2 = Some 1.
Proof.
  destruct (grow_two_blocks_aliases (L := image_laws) reserved_image demo_mount 1 5 1 demo_file 20
    (first_w demo_mount)) as (c' & g & Hr & E1 & E2 & _).
  - split; [discriminate|]. split; [vm_compute; reflexivity|]. intros j Hj.
    assert (j = 0 \/ j = 1) as [-> | ->] by lia; (split; [split; discriminate|]).
    + intros _. vm_compute. discriminate.
    + lia.
  - reflexivity.
  - cbn. lia.
  - vm_compute. discriminate.
  - split; [reflexivity|discriminate].
  - reflexivity.
  - split; discriminate.
  - discriminate.
  - exists c', g. split; [exact Hr|]. split; [exact E1|exact E2].
Defined.

Lemma reserved_dir : dir_ok (2 ^ 30) reserved_image demo_mount 0.
Proof.
  split; try done; intros i Hi.
  - assert (i = 0) as -> by lia. split; discriminate.
  - assert (i = 0) as -> by lia. exists 0. split; [done|]. vm_compute. reflexivity.
  - lia.
Qed.

Lemma echfs_remove_hangs_witness :
  agrees (L := image_laws) reserved_image reserved_image /\
  forall fuel, echfs_remove fuel (47 :: join [[120]] [121]) [98] (MkFs [demo_mount] [] []) reserved_image = None.
Proof.
  assert (agrees (L := image_laws) reserved_image reserved_image) as Ha.
  { split; [|done]. intros l. unfold reserved_image, set_fat. cbn [upd_le]. unfold upd, blank.
    repeat case_decide; split; done. }
  split; [exact Ha|]. intros fuel.
  apply (echfs_remove_hangs (L := image_laws) reserved_image demo_mount 0 (MkFs [demo_mount] [] []) [98]
    [[120]] [121]).
  - reflexivity.
  - reflexivity.
  - exact reserved_dir.
  - constructor; [|constructor]. split; [|reflexivity]. constructor; [discriminate|constructor].
  - split; [|reflexivity]. constructor; [discriminate|constructor].
  - discriminate.
  - reflexivity.
  - split; discriminate.
  - vm_compute. discriminate.
  - vm_compute. discriminate.
  - vm_compute. reflexivity.
  - exact Ha.
Defined.

End EchfsFile.
