(* ===== verification/EchfsGrow.v ===== *)
(** * Appending to files: the growth of an open file of [kernel/src/fs/echfs.c]

    [echfs_uwrite] of [EchfsFile.v] at any position of a file: a byte after the end
    takes a block from the allocation table when the last one is full, links it to the
    file's chain, and clears it.  [on_disk] is the state of an open file with its blocks
    [l], chained in the table of the image, and the free blocks [ts]. *)

From Stdlib Require Import Sorting.Sorted.
From S2P Require Import Prelude Dev Echfs EchfsFile.
Local Open Scope Z_scope.
Local Open Scope st_scope.

Module EchfsGrow.
Import Echfs EchfsFile.

(** ** Lemmas: little-endian words by a handle *)

Lemma of_bytes_at f loc n : of_bytes (bytes_at f loc n) = le f n loc.
Proof. revert loc. induction n as [|n IH]; intros loc; [done|]. rewrite bytes_at_S. cbn [of_bytes le]. by rewrite IH. Qed.

Lemma put_bytes_nil f loc l : put_bytes f loc [] l = f l.
Proof. unfold put_bytes, zget. by case_decide. Qed.
Lemma put_bytes_cons f loc b bs l : put_bytes f loc (b :: bs) l = put_bytes (upd f loc b) (loc + 1) bs l.
Proof.
  unfold put_bytes, upd. rewrite zget_cons. destruct (decide (l = loc)) as [->|Hne].
  - rewrite Z.sub_diag, decide_True by done. unfold zget. by rewrite decide_False by lia.
  - rewrite decide_False by lia. by replace (l - (loc + 1)) with (l - loc - 1) by lia.
Qed.
Lemma put_to_bytes n : forall f loc x l, put_bytes f loc (to_bytes n x) l = upd_le f n loc x l.
Proof.
  induction n as [|n IH]; intros f loc x l; [apply put_bytes_nil|]. cbn [to_bytes upd_le].
  by rewrite put_bytes_cons, IH.
Qed.
Lemma put_bytes_out f loc bs l : l < loc \/ loc + zlen bs <= l -> put_bytes f loc bs l = f l.
Proof. intros H. unfold put_bytes. by rewrite (proj2 (zget_None _ _)) by lia. Qed.

Lemma take_zlen {A} (l k : list A) : take (Z.to_nat (zlen l)) (l ++ k) = l.
Proof. unfold zlen. by rewrite Nat2Z.id, take_app_length. Qed.
Lemma drop_zlen {A} (l k : list A) : drop (Z.to_nat (zlen l)) (l ++ k) = k.
Proof. unfold zlen. by rewrite Nat2Z.id, drop_app_length. Qed.

Section Growing.
Context {W : Type} {D : BlockDev W} {sz : Z} {L : BlockDevLaws D sz} (h : Z) (Hh : good_handle h).
#[local] Set Default Proof Using "Type*".

Lemma runs_ext {A} f (m : ST W A) a g g' : runs f m a g -> (forall l, 0 <= l < sz -> g l = g' l) -> runs f m a g'.
Proof using Type.
  intros H Hg w Hw. destruct (H w Hw) as (w' & E & Hok & Hi). exists w'. split; [done|]. split; [done|].
  intros l Hl. rewrite Hi by done. by apply Hg.
Qed.

Lemma runs_rd_qword_u f loc : 0 <= loc -> loc + 8 <= sz -> runs f (rd_qword_u h loc) (le f 8 loc) f.
Proof.
  intros H0 H1. unfold rd_qword_u, rd_le_u. eapply runs_bind; [apply (runs_uread h Hh f loc 8); lia|cbv beta].
  rewrite decide_True by (by rewrite bytes_at_len). rewrite of_bytes_at. apply runs_ret.
Qed.
Lemma runs_wr_qword_u f loc v : 0 <= loc -> loc + 8 <= sz -> runs f (wr_qword_u h loc v) tt (upd_le f 8 loc v).
Proof.
  intros H0 H1. eapply runs_ext; [apply (runs_uwrite h Hh f loc (to_bytes 8 v)); [lia|by rewrite to_bytes_len|apply to_bytes_ok]|].
  intros l _. apply put_to_bytes.
Qed.
Lemma runs_zero_bytes n : forall f loc, 0 <= loc -> loc + Z.of_nat n <= sz ->
  runs f (zero_bytes n (wr_byte_u h) loc) tt (put_bytes f loc (replicate n 0)).
Proof.
  induction n as [|n IH]; intros f loc H0 H1; cbn [zero_bytes replicate].
  - eapply runs_ext; [apply runs_ret|]. intros l _. by rewrite put_bytes_nil.
  - eapply runs_bind.
    { apply (runs_uwrite h Hh f loc [0]); [done|change (zlen [0]) with 1; lia|by repeat constructor]. }
    eapply runs_ext; [apply IH; lia|]. intros l _. rewrite put_bytes_cons. unfold put_bytes at 1 3.
    destruct (zget (replicate n 0) _); [done|]. cbn [default from_option id]. by rewrite put_bytes_cons, put_bytes_nil.
Qed.

End Growing.

(** ** Specification: a file, its chain of blocks and the free blocks

    The table of the volume has words for [lim] blocks; it lies before the entry of the
    file, at [el], and all files have their blocks from [dlo] on. *)

Section Table.
Context (sz : Z) (m : mount_t) (lim dlo el : Z).

Definition data_block (b : Z) : Prop := 0 <= b < lim /\ dlo <= b * BYTES_PER_BLOCK /\ (b + 1) * BYTES_PER_BLOCK <= sz.
Record layout : Prop := {
  ly_table : 0 <= fat_loc m 0;
  ly_entry : fat_loc m lim <= el;
  ly_data : el + ENTRY_SIZE <= dlo;
  ly_end : dlo <= sz;
  ly_small : sz < 2 ^ 31;
  ly_blocks : 0 <= lim
}.

(** [ts] are the blocks whose word is 0, in order. *)
Record free_list (f : image) (ts : list Z) : Prop := {
  fl_sorted : StronglySorted Z.lt ts;
  fl_zero j : 0 <= j < lim -> fat f m j = 0 <-> j ∈ ts;
  fl_data : Forall data_block ts
}.

Record on_disk (f : image) (c : cached_file_t) (l ts : list Z) : Prop := {
  od_file : file_ok sz f c;
  od_map : alloc_map c = l ++ [END_OF_CHAIN];
  od_len : zlen l = file_blocks c;
  od_data : Forall data_block l;
  od_chain : chain sz f m (payload (file_entry c)) l;
  od_free : free_list f ts;
  od_entry : entry_ok (file_entry c)
}.

Context (Hlay : layout).
#[local] Set Default Proof Using "Type*".

Lemma word_ok j : 0 <= j < lim -> fat_word_ok sz m j.
Proof. intros Hj. destruct Hlay as [H1 H2 H3 H4 H5 H6]. unfold fat_word_ok, fat_loc, ENTRY_SIZE in *. lia. Qed.
Lemma word_before j : 0 <= j < lim -> fat_loc m j + 8 <= el.
Proof. intros Hj. destruct Hlay as [H1 H2 H3 H4 H5 H6]. unfold fat_loc in *. lia. Qed.

Lemma data_not_end b : data_block b -> b <> END_OF_CHAIN.
Proof. intros (H0 & _ & H1). destruct Hlay as [_ _ _ _ Hs _]. unfold END_OF_CHAIN. bpb. lia. Qed.

(** Images with the same table. *)
Definition same_table (f g : image) : Prop := forall j, 0 <= j < lim -> fat g m j = fat f m j.

Lemma same_before f g : (forall x, x < el -> g x = f x) -> same_table f g.
Proof. intros H j Hj. apply le_ext. intros x Hx. apply H. pose proof (word_before j Hj). lia. Qed.

Lemma chain_table f g b l : same_table f g -> Forall data_block l -> chain sz f m b l -> chain sz g m b l.
Proof using Type.
  intros H Hl. revert b. induction Hl as [|x l [Hx _] _ IH]; intros b; cbn [chain]; [done|].
  intros (E1 & E2 & E3 & E4). rewrite H by done. auto.
Qed.
Lemma free_table f g ts : same_table f g -> free_list f ts -> free_list g ts.
Proof using Type. intros H [H1 H2 H3]. split; [done| |done]. intros j Hj. rewrite H by done. by apply H2. Qed.

Lemma chain_nonzero f b l x : chain sz f m b l -> Forall (fun y => y <> 0) l -> x ∈ l -> fat f m x <> 0.
Proof using Type.
  revert b. induction l as [|y l IH]; intros b Hc Hl Hx; [by apply not_elem_of_nil in Hx|].
  destruct Hc as (-> & _ & _ & Hc). apply Forall_cons in Hl as [_ Hl]. apply elem_of_cons in Hx as [->|Hx]; [|by eapply IH].
  destruct l as [|z l]; cbn [chain] in Hc; [by rewrite Hc|]. destruct Hc as [-> _]. by apply Forall_cons in Hl as [? _].
Qed.

(** A block linked at the end of a chain. *)
Lemma chain_snoc f g t l : forall b, chain sz f m b l -> NoDup l -> t <> END_OF_CHAIN -> fat_word_ok sz m t ->
  fat g m t = END_OF_CHAIN ->
  (forall x, x ∈ l -> fat g m x = if decide (last l = Some x) then t else fat f m x) ->
  chain sz g m (match l with [] => t | _ => b end) (l ++ [t]).
Proof using Type.
  induction l as [|x l IH]; intros b Hc Hn Ht Hw Hg Hx; cbn [app chain].
  - split; [done|]. split; [done|]. by split.
  - destruct Hc as (-> & Hne & Hxw & Hc). apply NoDup_cons in Hn as [Hxl Hn]. split; [done|]. split; [done|]. split; [done|].
    rewrite Hx by left. specialize (IH _ Hc Hn Ht Hw Hg). destruct l as [|y l].
    + rewrite decide_True by done. apply IH. intros z Hz. by apply not_elem_of_nil in Hz.
    + rewrite decide_False.
      * apply IH. intros z Hz. rewrite Hx by (by right). done.
      * change (last (x :: y :: l)) with (last (y :: l)). intros Hl%last_Some_elem_of. done.
Qed.

(** ** Lemmas: the first free block taken *)

Definition taken (f : image) (l : list Z) (t : Z) : image :=
  set_fat (match last l with None => f | Some p => set_fat f m p t end) m t END_OF_CHAIN.
Definition zeroed (g : image) (t : Z) : image := put_bytes g (t * BYTES_PER_BLOCK) (replicate (Z.to_nat BYTES_PER_BLOCK) 0).

Lemma fat_taken f l t j : 0 <= t < 2 ^ 64 ->
  fat (taken f l t) m j = if decide (j = t) then END_OF_CHAIN else if decide (last l = Some j) then t else fat f m j.
Proof using Type.
  intros Ht. unfold taken. case_decide as Hj; [subst j; by apply fat_set_eq|]. rewrite fat_set_ne by done.
  destruct (last l) as [p|]; [|by rewrite decide_False]. case_decide as Hp.
  - injection Hp as ->. by apply fat_set_eq.
  - apply fat_set_ne. congruence.
Qed.

Lemma data_pos b : data_block b -> 0 < b < 2 ^ 31.
Proof.
  intros (H0 & H1 & H2). destruct Hlay as [L1 L2 L3 L4 L5 L6]. unfold fat_loc, ENTRY_SIZE in *. bpb. nia.
Qed.

Lemma free_first f t ts : free_list f (t :: ts) -> first_free (sz := sz) f m t.
Proof.
  intros [Hs Hz Hd]. apply Forall_cons in Hd as [[Ht _] _]. apply StronglySorted_inv in Hs as [_ Hs].
  rewrite Forall_forall in Hs. split; [lia|]. split; [apply Hz; [done|left]|]. intros j Hj.
  split; [apply word_ok; lia|]. intros Hjt Hf. apply Hz in Hf; [|lia].
  apply elem_of_cons in Hf as [->|Hf]; [lia|]. specialize (Hs _ Hf). lia.
Qed.

Lemma free_taken f l t ts : free_list f (t :: ts) -> (forall p, last l = Some p -> fat f m p <> 0) ->
  free_list (taken f l t) ts.
Proof.
  intros [Hs Hz Hd] Hl. pose proof Hd as [Ht Hd']%Forall_cons. pose proof (data_pos t Ht).
  apply StronglySorted_inv in Hs as [Hs1 Hs2]. rewrite Forall_forall in Hs2. split; [done| |done].
  intros j Hj. rewrite fat_taken by lia. repeat case_decide.
  - subst j. split; [done|]. intros Hf. specialize (Hs2 _ Hf). lia.
  - split; [lia|]. intros Hf. destruct (Hl _ ltac:(eassumption)). apply Hz; [done|by right].
  - rewrite Hz by done. rewrite elem_of_cons. naive_solver.
Qed.

Lemma zeroed_out g t x : x < t * BYTES_PER_BLOCK \/ (t + 1) * BYTES_PER_BLOCK <= x -> zeroed g t x = g x.
Proof using Type. intros H. apply put_bytes_out. rewrite zlen_replicate, Z2Nat.id by done. bpb. lia. Qed.

Lemma set_fat_out f j v x : 0 <= j < lim -> el <= x -> set_fat f m j v x = f x.
Proof. intros Hj Hx. apply upd_le_out. pose proof (word_before j Hj). lia. Qed.

(** The other data blocks stay. *)
Lemma taken_data f l t x : Forall data_block l -> data_block t -> dlo <= x -> taken f l t x = f x.
Proof.
  intros Hl [Ht _] Hx. destruct Hlay as [L1 L2 L3 L4 L5 L6]. unfold ENTRY_SIZE in *. unfold taken. rewrite set_fat_out by lia.
  destruct (last l) as [p|] eqn:E; [|done]. apply last_Some_elem_of in E. rewrite Forall_forall in Hl.
  destruct (Hl _ E) as [Hp _]. apply set_fat_out; lia.
Qed.
Lemma grown_data f l t b o : Forall data_block l -> data_block t -> data_block b -> b <> t -> 0 <= o < BYTES_PER_BLOCK ->
  zeroed (taken f l t) t (b * BYTES_PER_BLOCK + o) = f (b * BYTES_PER_BLOCK + o).
Proof.
  intros Hl Ht (H0 & H1 & H2) Hne Ho. rewrite zeroed_out by (bpb; nia). apply taken_data; [done|done|bpb; nia].
Qed.

Lemma upd_le_byte n : forall f loc v x, is_byte (f x) -> is_byte (upd_le f n loc v x).
Proof using Type.
  induction n as [|n IH]; intros f loc v x Hf; [done|]. cbn [upd_le]. apply IH. unfold upd. case_decide; [|done].
  apply Z.mod_pos_bound. lia.
Qed.
Lemma put_bytes_byte f loc bs x : Forall is_byte bs -> is_byte (f x) -> is_byte (put_bytes f loc bs x).
Proof using Type.
  intros Hb Hf. unfold put_bytes. destruct (zget bs _) as [v|] eqn:E; [|done]. cbn. pose proof (zget_Some _ _ _ E).
  rewrite zget_lookup in E by lia. by apply (Forall_lookup_1 _ _ _ _ Hb E).
Qed.
Lemma grown_byte f l t x : is_byte (f x) -> is_byte (zeroed (taken f l t) t x).
Proof using Type.
  intros Hf. apply put_bytes_byte; [by apply Forall_replicate|]. apply upd_le_byte. destruct (last l); [|done]. by apply upd_le_byte.
Qed.

(** ** Lemmas: the file with one block more *)

Lemma od_get f c l ts i : on_disk f c l ts -> 0 <= i < zlen l -> exists b,
  zget (alloc_map c) i = Some b /\ l !! Z.to_nat i = Some b /\ data_block b.
Proof using Type.
  intros [_ Hm _ Hd _ _ _] Hi. unfold zlen in Hi. destruct (lookup_lt_is_Some_2 l (Z.to_nat i)) as [b Hb]; [lia|].
  exists b. split; [|split; [done|by apply (Forall_lookup_1 _ _ _ _ Hd Hb)]].
  rewrite Hm, zget_lookup, lookup_app_l by lia. done.
Qed.

Lemma od_nodup f c l ts : on_disk f c l ts -> NoDup l.
Proof using Type.
  intros [Hf Hm Hn _ _ _ _]. apply NoDup_alt. intros i j x Hi Hj.
  pose proof (lookup_lt_Some _ _ _ Hi). pose proof (lookup_lt_Some _ _ _ Hj). unfold zlen in Hn.
  apply Nat2Z.inj, (fok_distinct _ _ _ Hf _ _ x); [lia|lia|rewrite Hm, zget_nat; by apply lookup_app_l_Some..].
Qed.

Lemma file_ok_list g c l rest : alloc_map c = l ++ rest -> zlen l = file_blocks c -> Forall data_block l -> NoDup l ->
  (forall x, 0 <= x < sz -> is_byte (g x)) -> 0 <= size (file_entry c) ->
  zlen (cache c) = BYTES_PER_BLOCK -> Forall is_byte (cache c) ->
  (cache_status c <> 0 -> 0 <= cached_block c < file_blocks c) ->
  (cache_status c <> 0 -> cache_status c <> CACHE_DIRTY -> forall o, 0 <= o < BYTES_PER_BLOCK ->
     zget (cache c) o = Some (g (block_no c (cached_block c) * BYTES_PER_BLOCK + o))) -> file_ok sz g c.
Proof using Type.
  intros Hm Hn Hd Hu Hg Hs Hc Hb Hcb Hcl.
  assert (forall i b, 0 <= i < file_blocks c -> zget (alloc_map c) i = Some b -> l !! Z.to_nat i = Some b) as Hget.
  { intros i b Hi. rewrite <- Hn in Hi. unfold zlen in Hi. rewrite Hm, zget_lookup, lookup_app_l by lia. done. }
  split; try done.
  - intros i Hi. pose proof Hi as Hi'. rewrite <- Hn in Hi'. unfold zlen in Hi'.
    destruct (lookup_lt_is_Some_2 l (Z.to_nat i)) as [b Eb]; [lia|]. exists b.
    destruct (Forall_lookup_1 _ _ _ _ Hd Eb) as (A & B & C). split; [|lia]. rewrite Hm, zget_lookup, lookup_app_l by lia. done.
  - intros i j b Hi Hj Ei%Hget Ej%Hget; [|done..]. pose proof (NoDup_lookup _ _ _ _ Hu Ei Ej). lia.
Qed.

(** Growth keeps the path, the number of the entry, and who the entry names. *)
Record same_entry (c c' : cached_file_t) : Prop := {
  se_path : cpath c' = cpath c;
  se_target : target_entry (path_result c') = target_entry (path_result c);
  se_parent : parent_id (file_entry c') = parent_id (file_entry c);
  se_type : type (file_entry c') = type (file_entry c);
  se_name : name (file_entry c') = name (file_entry c)
}.

Lemma same_entry_refl c : same_entry c c.
Proof using Type. by split. Qed.
Lemma same_entry_trans c c' d : same_entry c c' -> same_entry c' d -> same_entry c d.
Proof using Type. intros [] []. split; congruence. Qed.
#[export] Instance same_entry_preorder : PreOrder same_entry.
Proof using Type. split; [exact same_entry_refl|exact same_entry_trans]. Qed.
Lemma same_entry_result c c' : cpath c' = cpath c -> path_result c' = path_result c -> same_entry c c'.
Proof using Type. intros H1 H2. unfold file_entry. split; unfold file_entry; by rewrite ?H1, ?H2. Qed.

(** The length of the file one byte more. *)
Definition longer (c : cached_file_t) : cached_file_t := set_target (with_size (file_entry c) (size (file_entry c) + 1)) c.
Definition grown_file (c : cached_file_t) (l : list Z) (t : Z) : cached_file_t :=
  with_map (l ++ [t; END_OF_CHAIN])
    (match l with [] => set_target (with_payload (file_entry (longer c)) t) (longer c) | _ => longer c end).

Lemma block_count_same s : 0 <= s -> s mod BYTES_PER_BLOCK <> 0 -> block_count (s + 1) = block_count s.
Proof using Type.
  unfold block_count. bpb. intros H Hm. rewrite (proj2 (Z.eqb_neq (s mod 32768) 0)) by done.
  destruct (Z.eqb_spec ((s + 1) mod 32768) 0); zdml.
Qed.
Lemma block_count_next s : 0 <= s -> s mod BYTES_PER_BLOCK = 0 -> block_count (s + 1) = block_count s + 1.
Proof using Type.
  unfold block_count. bpb. intros H Hm. rewrite Hm. cbn [Z.eqb].
  destruct (Z.eqb_spec ((s + 1) mod 32768) 0); zdml.
Qed.

Lemma entry_ok_longer e s : entry_ok e -> 0 <= s < 2 ^ 64 -> entry_ok (with_size e s).
Proof using Type. intros [] Hs. by split. Qed.
Lemma entry_ok_payload e t : entry_ok e -> 0 <= t < 2 ^ 64 -> entry_ok (with_payload e t).
Proof using Type. intros [] Hs. by split. Qed.

Lemma longer_ok f c l ts : on_disk f c l ts -> let s := size (file_entry c) in s mod BYTES_PER_BLOCK <> 0 -> s + 1 < 2 ^ 64 ->
  on_disk f (longer c) l ts /\ forall o, 0 <= o < s -> content f (longer c) o = content f c o.
Proof using Type.
  intros Ho s Hs Hs64. pose proof (od_nodup _ _ _ _ Ho) as Hu. destruct Ho as [Hf Hm Hn Hd Hc Hfr He].
  pose proof (fok_size _ _ _ Hf) as H0. fold s in H0.
  assert (file_blocks (longer c) = file_blocks c) as Hb by (by apply block_count_same). split; [|done].
  split; try done; [|by rewrite Hb|apply entry_ok_longer; [done|unfold s in *; lia]].
  apply (file_ok_list _ _ l [END_OF_CHAIN]); try done; rewrite ?Hb; try done; try apply Hf. cbn. fold s. lia.
Qed.

Lemma grown_fields c l t : let c2 := grown_file c l t in
  alloc_map c2 = l ++ [t; END_OF_CHAIN] /\ cache c2 = cache c /\ cache_status c2 = cache_status c /\
  cached_block c2 = cached_block c /\ size (file_entry c2) = size (file_entry c) + 1 /\
  payload (file_entry c2) = (match l with [] => t | _ => payload (file_entry c) end) /\
  same_entry c c2.
Proof using Type. by destruct l. Qed.

(** The table after the growth. *)
Lemma fat_grown f l t j : Forall data_block l -> data_block t -> 0 <= j < lim ->
  fat (zeroed (taken f l t) t) m j = if decide (j = t) then END_OF_CHAIN else if decide (last l = Some j) then t else fat f m j.
Proof.
  intros Hl Ht Hj. pose proof (data_pos t Ht). rewrite <- fat_taken by lia. apply (same_before (taken f l t)); [|done].
  intros x Hx. apply zeroed_out. destruct Ht as (_ & Ht & _), Hlay. unfold ENTRY_SIZE in *. lia.
Qed.

Lemma grown_table f c l t ts : on_disk f c l (t :: ts) -> let g := zeroed (taken f l t) t in
  free_list g ts /\ chain sz g m (match l with [] => t | _ => payload (file_entry c) end) (l ++ [t]).
Proof.
  intros Ho g. pose proof (od_nodup _ _ _ _ Ho) as Hu. destruct Ho as [Hf Hm Hn Hd Hc Hfr He].
  pose proof (fl_data _ _ Hfr) as [Ht _]%Forall_cons. pose proof (data_pos t Ht).
  assert (Forall (fun y => y <> 0) l) as Hnz by (eapply Forall_impl; [exact Hd|]; intros y Hy; pose proof (data_pos y Hy); lia).
  assert (fat f m t = 0) as Htz by (apply (fl_zero _ _ Hfr); [apply Ht|left]).
  assert (forall x, x ∈ l -> fat f m x <> 0) as Hx by (intros x; exact (chain_nonzero f _ l x Hc Hnz)).
  split.
  - apply (free_table (taken f l t)).
    + intros j Hj. unfold g. rewrite fat_grown, fat_taken by (done || lia). done.
    + apply free_taken; [done|]. intros p Hp. apply Hx. by apply last_Some_elem_of.
  - apply (chain_snoc f); [done|done|by apply data_not_end|apply word_ok, Ht| |].
    + unfold g. rewrite fat_grown by (done || apply Ht). by rewrite decide_True.
    + intros x Hxl. rewrite Forall_forall in Hd. unfold g. rewrite fat_grown by (by (apply Forall_forall; done) || apply Hd, Hxl || done).
      rewrite decide_False; [done|]. intros ->. by apply (Hx t).
Qed.

Lemma grown_ok f c l t ts : on_disk f c l (t :: ts) -> let s := size (file_entry c) in
  s mod BYTES_PER_BLOCK = 0 -> s + 1 < 2 ^ 64 -> let g := zeroed (taken f l t) t in let c2 := grown_file c l t in
  on_disk g c2 (l ++ [t]) ts /\ forall o, 0 <= o < s -> content g c2 o = content f c o.
Proof.
  intros Ho s Hs Hs64 g c2. pose proof (od_nodup _ _ _ _ Ho) as Hu. pose proof (grown_table _ _ _ _ _ Ho) as [Hfree Hchain].
  pose proof Ho as [Hf Hm Hn Hd Hc Hfr He]. pose proof (fl_data _ _ Hfr) as [Ht _]%Forall_cons. pose proof (data_pos t Ht) as Htp.
  destruct (grown_fields c l t) as (F1 & F2 & F3 & F4 & F5 & F6 & F7). fold c2 in F1, F2, F3, F4, F5, F6, F7.
  pose proof (fok_size _ _ _ Hf) as H0. fold s in H0, F5.
  assert (file_blocks c2 = file_blocks c + 1) as Hb by (unfold file_blocks; rewrite F5; by apply block_count_next).
  assert (t ∉ l) as Htl.
  { intros Hin. apply (chain_nonzero f _ l t Hc); [|done|by apply (fl_zero _ _ Hfr); [apply Ht|left]].
    eapply Forall_impl; [exact Hd|]; intros y Hy; pose proof (data_pos y Hy); lia. }
  (* the blocks of the file keep their numbers and their bytes *)
  assert (forall i o, 0 <= i < zlen l -> 0 <= o < BYTES_PER_BLOCK ->
    g (block_no c2 i * BYTES_PER_BLOCK + o) = f (block_no c i * BYTES_PER_BLOCK + o)) as Hsame.
  { intros i o Hi Hio. destruct (od_get _ _ _ _ _ Ho Hi) as (b & E1 & E2 & Eb). unfold block_no. rewrite E1, F1.
    rewrite zget_lookup, lookup_app_l, E2 by (unfold zlen in Hi; lia). cbn [default from_option id].
    apply grown_data; try done. intros ->. by apply list_elem_of_lookup_2 in E2. }
  split.
  - split; [|by rewrite F1, <- app_assoc|rewrite Hb, zlen_app, Hn; done|by apply Forall_app; auto|by rewrite F6|done|].
    + apply (file_ok_list g c2 (l ++ [t]) [END_OF_CHAIN]).
      * by rewrite F1, <- app_assoc.
      * rewrite Hb, zlen_app, Hn. done.
      * by apply Forall_app; auto.
      * apply NoDup_app. split; [done|]. split; [|apply NoDup_singleton]. intros x Hx ->%list_elem_of_singleton. done.
      * intros x Hx. by apply grown_byte, Hf.
      * rewrite F5. lia.
      * rewrite F2. apply Hf.
      * rewrite F2. apply Hf.
      * rewrite F3, F4, Hb. intros Hst. pose proof (fok_cached _ _ _ Hf Hst). lia.
      * rewrite F2, F3, F4. intros Hst Hnd o Hoo. pose proof (fok_cached _ _ _ Hf Hst). rewrite Hsame by lia.
        by apply (fok_clean _ _ _ Hf Hst Hnd).
    + unfold c2, grown_file. destruct l; cbn; [apply entry_ok_payload; [|lia]|]; (apply entry_ok_longer; [done|unfold s in *; lia]).
  - intros o Hoo. unfold content, cache_hit. rewrite F2, F3, F4. destruct (_ && _); [done|]. unfold medium_byte.
    apply Hsame; [rewrite Hn; by apply block_of_size|bpb; zdml].
Qed.

(** ** Lemmas: what a transfer leaves alone

    Outside of the blocks [l], their words and the entry at [el] the image is the
    same: the words of the other blocks, the other entries, the other data. *)

Definition off_block (b x : Z) : Prop := x < b * BYTES_PER_BLOCK \/ (b + 1) * BYTES_PER_BLOCK <= x.
Record frame (f : image) (l : list Z) (g : image) : Prop := {
  fr_table j : 0 <= j < lim -> j ∉ l -> fat g m j = fat f m j;
  fr_rest x : fat_loc m lim <= x -> (forall b, b ∈ l -> off_block b x) -> x < el \/ el + ENTRY_SIZE <= x -> g x = f x
}.

Lemma untouched_refl f l : frame f l f.
Proof using Type. by split. Qed.
Lemma untouched_trans f g k l l' : frame f l g -> l ⊆ l' -> frame g l' k -> frame f l' k.
Proof using Type.
  intros [A1 A2] Hl [B1 B2]. split.
  - intros j Hj Hn. rewrite B1 by done. apply A1; [done|]. by intros ?%Hl.
  - intros x Hx Hb He. rewrite B2 by done. apply A2; [done| |done]. intros b ?%Hl. by apply Hb.
Qed.

Lemma frame_same_file f c l ts g c' : on_disk f c l ts -> same_file f c g c' -> frame f l g.
Proof.
  intros Ho [_ _ _ Hs _].
  assert (forall x, (forall b, b ∈ l -> off_block b x) -> g x = f x) as Hout.
  { intros x Hx. apply Hs. intros i b Hi Hb. rewrite <- (od_len _ _ _ _ Ho) in Hi.
    destruct (od_get _ _ _ _ _ Ho Hi) as (b' & Eb & El & _). rewrite Hb in Eb. injection Eb as <-.
    apply Hx. by eapply list_elem_of_lookup_2. }
  split; [|intros x _ Hx _; by apply Hout]. intros j Hj _. apply same_before; [|done]. intros x Hx. apply Hout.
  intros b Hb. left. pose proof (od_data _ _ _ _ Ho) as Hd. rewrite Forall_forall in Hd. destruct (Hd _ Hb) as (_ & ? & _).
  destruct Hlay. unfold ENTRY_SIZE in *. lia.
Qed.

Lemma frame_grown f c l t ts : on_disk f c l (t :: ts) -> frame f (l ++ [t]) (zeroed (taken f l t) t).
Proof.
  intros [Hf Hm Hn Hd Hc Hfr He]. pose proof (fl_data _ _ Hfr) as [Ht _]%Forall_cons.
  assert (forall h j v x, 0 <= j < lim -> fat_loc m lim <= x -> set_fat h m j v x = h x) as Hset.
  { intros h j v x Hj Hx. apply upd_le_out. unfold fat_loc in *. lia. }
  split.
  - intros j Hj Hl. rewrite not_elem_of_app, list_elem_of_singleton in Hl. rewrite fat_grown by done.
    rewrite decide_False by tauto. rewrite decide_False; [done|]. intros ?%last_Some_elem_of. tauto.
  - intros x Hx Hl _. rewrite zeroed_out by (apply Hl, elem_of_app; right; by apply list_elem_of_singleton).
    unfold taken. rewrite Hset by (done || apply Ht). destruct (last l) as [p|] eqn:E; [|done]. apply Hset; [|done].
    apply last_Some_elem_of in E. rewrite Forall_forall in Hd. apply (Hd _ E).
Qed.

Lemma frame_entry f l bs : zlen bs = ENTRY_SIZE -> frame f l (put_bytes f el bs).
Proof.
  intros Hb. split.
  - intros j Hj _. apply same_before; [|done]. intros x Hx. apply put_bytes_out. lia.
  - intros x _ _ Hx. apply put_bytes_out. by rewrite Hb.
Qed.

(** A file on other blocks stays what it is. *)
Lemma od_frame f g c l ts l1 ts1 : on_disk f c l ts -> frame f l1 g -> (forall x, x ∈ l -> x ∉ l1) -> Forall data_block l1 ->
  free_list g ts1 -> (forall x, 0 <= x < sz -> is_byte (g x)) ->
  on_disk g c l ts1 /\ forall o, 0 <= o < size (file_entry c) -> content g c o = content f c o.
Proof.
  intros Ho [Ht Hr] Hd1 Hl1 Hfree Hg. pose proof (od_nodup _ _ _ _ Ho) as Hu. pose proof Ho as [Hf Hm Hn Hd Hc Hfr He].
  assert (forall i o, 0 <= i < file_blocks c -> 0 <= o < BYTES_PER_BLOCK ->
    g (block_no c i * BYTES_PER_BLOCK + o) = f (block_no c i * BYTES_PER_BLOCK + o)) as Hsame.
  { intros i o Hi Hio. rewrite <- Hn in Hi. destruct (od_get _ _ _ _ _ Ho Hi) as (b & E1 & E2%list_elem_of_lookup_2 & Eb).
    unfold block_no. rewrite E1. cbn [default from_option id]. destruct Eb as (Eb0 & Eb1 & Eb2), Hlay.
    unfold fat_loc, ENTRY_SIZE in *. apply Hr; [bpb; lia| |bpb; lia]. intros b1 Hb1.
    assert (b <> b1) by (intros ->; by apply (Hd1 b1)). unfold off_block. bpb. lia. }
  split; [split; try done|].
  - apply (file_ok_list g c l [END_OF_CHAIN]); try done; try apply Hf. intros Hs Hnd o Hoo.
    rewrite Hsame by (done || by apply (fok_cached _ _ _ Hf)). by apply (fok_clean _ _ _ Hf).
  - clear Hm Hn Hu Ho Hf Hsame. revert Hc. generalize (payload (file_entry c)). induction l as [|x l IH]; intros b; [done|].
    apply Forall_cons in Hd as [[Hx _] Hd]. intros (E1 & E2 & E3 & E4). split; [done|]. split; [done|]. split; [done|].
    rewrite Ht; [|done|apply Hd1; left]. apply IH; [|done|done]. intros y Hy. apply Hd1. by right.
  - intros o Hoo. unfold content. destruct (cache_hit _ c); [done|]. unfold medium_byte.
    apply Hsame; [by apply block_of_size|bpb; zdml].
Qed.

End Table.

(** ** Lemmas: running the growth *)

Section Run.
Context {W : Type} {D : BlockDev W} {sz : Z} {L : BlockDevLaws D sz} (h : Z) (Hh : good_handle h).
Context (m : mount_t) (lim dlo el : Z) (Hlay : layout sz m lim dlo el) (fuel : nat) (Hfuel : (Z.to_nat lim <= fuel)%nat).
#[local] Set Default Proof Using "Type*".
#[local] Notation on_disk := (on_disk sz m lim dlo).
#[local] Notation grow := (grow fuel (rd_qword_u h) (wr_qword_u h) (wr_byte_u h) first_u m).
#[local] Notation rdq := (runs_rd_qword_u h Hh).
#[local] Notation wrq := (runs_wr_qword_u h Hh).

(** The step that takes the block. *)
Lemma runs_take_block f c l t ts : on_disk f c l (t :: ts) ->
  runs f (grow_step fuel (rd_qword_u h) (wr_qword_u h) first_u m (zlen l) (longer c))
    (match l with [] => set_target (with_payload (file_entry (longer c)) t) (with_map [t] (longer c))
                | _ => with_map (l ++ [t]) (longer c) end)
    (match last l with None => f | Some p => set_fat f m p t end).
Proof.
  intros Ho. pose proof Ho as [Hf Hm Hn Hd Hc Hfr He]. pose proof (fl_data _ _ _ _ _ _ Hfr) as [Ht _]%Forall_cons.
  pose proof (free_first _ _ _ _ _ Hlay _ _ _ Hfr) as Hff.
  assert (Z.to_nat t < fuel)%nat as Htf by (destruct Ht as [? _]; lia).
  destruct (decide (l = [])) as [->|Hl].
  - unfold grow_step. eapply runs_bind.
    { apply (runs_find_free _ _ rdq wrq f m t fuel 0 Hff); [destruct Ht; lia|by rewrite Z.sub_0_r]. }
    cbv beta. eapply runs_bind; [apply runs_lift; unfold amap_put; rewrite decide_True; [reflexivity|]|apply runs_ret].
    change (alloc_map (longer c)) with (alloc_map c). rewrite Hm. done.
  - destruct (exists_last Hl) as (l' & p & ->). rewrite last_snoc. clear Hl.
    assert (zlen (l' ++ [p]) = zlen l' + 1) as El by (by rewrite zlen_app). pose proof (zlen_nonneg l').
    pose proof (runs_grow_step _ _ rdq wrq f m t fuel first_u (zlen (l' ++ [p])) (longer c) p Hff Htf) as Hr.
    change (alloc_map (longer c)) with (alloc_map c) in Hr. rewrite Hm, take_zlen in Hr.
    assert (forall A (a b : A), match l' ++ [p] with [] => a | _ => b end = b) as -> by (intros; by destruct l').
    apply Hr; [rewrite !zlen_app; change (zlen [p]) with 1; change (zlen [END_OF_CHAIN]) with 1; lia| |].
    + rewrite El. replace (zlen l' + 1 - 1) with (zlen l') by lia. rewrite <- app_assoc. apply zget_middle.
    + apply (word_ok _ _ _ _ _ Hlay). apply Forall_app in Hd as [_ Hd]. by apply Forall_cons in Hd as [[? _] _].
Qed.

Lemma runs_grow_one f c l t ts : on_disk f c l (t :: ts) ->
  runs f (grow (zlen l) (zlen l + 1) (longer c)) (grown_file c l t) (zeroed (taken m f l t) t).
Proof.
  intros Ho. pose proof (runs_take_block f c l t ts Ho) as Hstep. pose proof Ho as [Hf Hm Hn Hd Hc Hfr He].
  pose proof (fl_data _ _ _ _ _ _ Hfr) as [Ht _]%Forall_cons. pose proof (zlen_nonneg l) as Hl0.
  unfold EchfsFile.grow. rewrite (proj2 (Z.leb_gt _ _)) by lia. replace (zlen l + 1 - zlen l) with 1 by lia.
  change (Z.to_nat 1) with 1%nat. cbn [grow_loop]. set (c1 := match l with [] => _ | _ => _ end) in Hstep.
  assert (alloc_map c1 = l ++ [t]) as E1 by (unfold c1; by destruct l).
  eapply runs_bind; [eapply runs_bind; [exact Hstep|apply runs_ret]|cbv beta].
  rewrite E1. replace (zlen l + 1 - 1) with (zlen l) by lia.
  eapply runs_bind; [apply runs_lift; apply zget_middle|cbv beta].
  pose proof (word_ok _ _ _ _ _ Hlay t (proj1 Ht)) as [Hw0 Hw1].
  eapply runs_bind; [by apply wrq|cbv beta].
  assert (zlen (l ++ [t]) = zlen l + 1) as Elen by (by rewrite zlen_app).
  eapply runs_bind.
  { apply runs_lift. unfold amap_put. rewrite decide_True by lia. rewrite <- Elen. unfold zlen. by rewrite Nat2Z.id, firstn_all. }
  cbv beta. cbn [alloc_map with_map]. rewrite <- app_assoc, drop_zlen. cbn [app zero_blocks].
  rewrite (proj2 (Z.eqb_neq _ _)) by (by apply (data_not_end _ _ _ _ _ Hlay)). rewrite Z.eqb_refl.
  eapply runs_bind.
  { eapply runs_bind; [|apply runs_ret]. apply (runs_zero_bytes h Hh); destruct Ht as (A & B & C); [bpb; lia|].
    rewrite Z2Nat.id by done. bpb. lia. }
  cbv beta. assert (grown_file c l t = with_map ((l ++ [t]) ++ [END_OF_CHAIN]) c1) as -> by (rewrite <- app_assoc; unfold c1; by destruct l).
  rewrite <- app_assoc. apply runs_ret.
Qed.

(** ** Lemmas: one byte *)

Lemma od_same f c l ts g c' : on_disk f c l ts -> file_ok sz g c' -> alloc_map c' = alloc_map c ->
  path_result c' = path_result c -> (forall x, x < el -> g x = f x) -> on_disk g c' l ts.
Proof.
  intros [Hf Hm Hn Hd Hc Hfr He] Hg Em Er Hx. pose proof (same_before _ _ _ _ _ Hlay f g Hx) as Ht.
  assert (file_entry c' = file_entry c) as Ee by (unfold file_entry; by rewrite Er).
  split; unfold file_blocks; rewrite ?Em, ?Ee; try done; [by apply (chain_table _ _ lim dlo f)|by apply (free_table _ _ _ _ f)].
Qed.

Lemma od_outside f c l ts x : on_disk f c l ts -> x < dlo -> outside c x.
Proof.
  intros Ho Hx i b Hi Hb. rewrite <- (od_len _ _ _ _ _ _ _ _ Ho) in Hi.
  destruct (od_get _ _ _ _ _ _ _ _ _ Ho Hi) as (b' & Eb & _ & _ & Hd & _). rewrite Hb in Eb. injection Eb as <-. lia.
Qed.

(** A step that keeps the file keeps its place on the disk. *)
Lemma od_same_file f c l ts g c' : on_disk f c l ts -> file_ok sz g c' -> same_file f c g c' -> on_disk g c' l ts.
Proof.
  intros Ho Hg [S1 S2 S3 S4 _]. apply (od_same f c); [done..|]. intros x Hx. apply S4, (od_outside f _ l ts); [done|].
  destruct Hlay. unfold ENTRY_SIZE in *. lia.
Qed.

(** Room for a byte at [loc]: the length, and a block when the last one is full. *)
Lemma runs_room f c l ts loc : on_disk f c l ts -> 0 <= loc <= size (file_entry c) -> loc + 1 < 2 ^ 64 ->
  block_count (loc + 1) <= zlen l + zlen ts -> exists c2 g l' ts',
  runs f (grow (block_count (size (file_entry c))) (block_count (loc + 1))
    (if size (file_entry c) <=? loc then set_target (with_size (file_entry c) (loc + 1)) c else c)) c2 g /\
  on_disk g c2 l' ts' /\ l' ++ ts' = l ++ ts /\ size (file_entry c2) = Z.max (size (file_entry c)) (loc + 1) /\
  same_entry c c2 /\
  frame m lim el f l' g /\ l ⊆ l' /\
  forall o, 0 <= o < size (file_entry c) -> content g c2 o = content f c o.
Proof.
  intros Ho Hl H64 Hr. destruct (Z.leb_spec (size (file_entry c)) loc) as [Hge|Hlt].
  - assert (loc = size (file_entry c)) as -> by lia. change (set_target _ c) with (longer c). rewrite Z.max_r by lia.
    destruct (decide (size (file_entry c) mod BYTES_PER_BLOCK = 0)) as [Hm|Hm].
    + pose proof (od_len _ _ _ _ _ _ _ _ Ho) as Hn. unfold file_blocks in Hn. rewrite block_count_next in Hr |- * by lia.
      destruct ts as [|t ts]; [change (zlen []) with 0 in Hr; lia|].
      destruct (grown_ok _ _ _ _ _ Hlay f c l t ts Ho Hm H64) as [Ho' Hc]. rewrite <- Hn.
      exists (grown_file c l t), (zeroed (taken m f l t) t), (l ++ [t]), ts.
      split; [by apply (runs_grow_one _ _ _ _ ts)|]. split; [done|]. split; [by rewrite <- app_assoc|].
      split; [by destruct l|]. split; [by destruct l; split|]. split; [by apply (frame_grown sz m lim dlo el Hlay f c l t ts)|].
      split; [by apply list_subseteq_app_l|done].
    + destruct (longer_ok _ _ _ _ f c l ts Ho Hm H64) as [Ho' Hc]. rewrite block_count_same by (done || lia).
      exists (longer c), f, l, ts. split; [unfold EchfsFile.grow; rewrite Z.leb_refl; apply runs_ret|]. pose proof (untouched_refl m lim el f l). by do 3 (split; [done|]); split; [split|].
  - exists c, f, l, ts. rewrite Z.max_l by lia. pose proof (untouched_refl m lim el f l). pose proof (same_entry_refl c). split; [|done]. unfold EchfsFile.grow.
    rewrite (proj2 (Z.leb_le _ _)) by (apply block_count_mono; lia). apply runs_ret.
Qed.

Lemma runs_uwritebyte_any f cur v l ts : let c := cur_cached_file cur in let loc := cur_loc cur in
  on_disk f c l ts -> is_byte v -> 0 <= loc <= size (file_entry c) -> loc + 1 < 2 ^ 64 ->
  block_count (loc + 1) <= zlen l + zlen ts -> exists c' g l' ts',
  runs f (echfs_uwritebyte fuel m h v cur) (MkCursor c' (loc + 1) (cur_end cur)) g /\
  on_disk g c' l' ts' /\ l' ++ ts' = l ++ ts /\ size (file_entry c') = Z.max (size (file_entry c)) (loc + 1) /\
  same_entry c c' /\
  frame m lim el f l' g /\ l ⊆ l' /\
  forall o, 0 <= o < size (file_entry c') -> content g c' o = if decide (o = loc) then v else content f c o.
Proof.
  intros c loc Ho Hv Hl H64 Hr. destruct (runs_room f c l ts loc Ho Hl H64 Hr) as (c2 & g & l' & ts' & Hg & Ho2 & Ell & Es & Et & Hfr & Hsub & Hc2).
  destruct (runs_cached h Hh g c2 loc CACHE_DIRTY (od_file _ _ _ _ _ _ _ _ Ho2)) as (c3 & g3 & Hr3 & Hok3 & Hs3 & Hh3); [lia|by right|].
  assert (file_entry c3 = file_entry c2) as He3 by (unfold file_entry; by rewrite (sf_result _ _ _ _ Hs3)).
  destruct (runs_store h Hh g3 c3 loc v Hok3) as (c4 & Es4 & Hok4 & Hm4 & Hp4 & Hq4 & Hc4); [by rewrite He3; lia|done|done|].
  assert (path_result c4 = path_result c2) as Hp by (by rewrite Hp4, (sf_result _ _ _ _ Hs3)).
  assert (file_entry c4 = file_entry c2) as He4 by (unfold file_entry; by rewrite Hp).
  exists c4, g3, l', ts'. split; [|split; [|split; [done|split; [by rewrite He4|split; [|split; [|split; [done|]]]]]]].
  - unfold echfs_uwritebyte. fold c loc. eapply runs_bind; [exact Hg|cbv beta]. eapply runs_bind; [exact Hr3|cbv beta].
    eapply runs_bind; [by apply runs_lift|apply runs_ret].
  - by apply (od_same g3 c3); [apply (od_same_file g c2)|..].
  - apply (same_entry_trans c c2); [done|]. apply same_entry_result; [by rewrite Hq4, (sf_path _ _ _ _ Hs3)|done].
  - apply (untouched_trans m lim el f g g3 l' l'); [done|done|]. by apply (frame_same_file sz m lim dlo el Hlay g c2 l' ts' g3 c3).
  - rewrite He4. intros o Hoo. rewrite (Hc4 o) by (by rewrite He3). case_decide as Hne; [done|].
    rewrite (sf_content _ _ _ _ Hs3) by done. apply Hc2. lia.
Qed.

(** ** Lemmas: a whole write *)

Lemma runs_uwrite_any bytes : forall f cur l ts, let c := cur_cached_file cur in let loc := cur_loc cur in
  on_disk f c l ts -> Forall is_byte bytes -> 0 <= loc <= size (file_entry c) -> loc + zlen bytes < 2 ^ 64 ->
  block_count (loc + zlen bytes) <= zlen l + zlen ts -> exists c' g l' ts',
  runs f (uwrite_loop fuel m h bytes cur) (MkCursor c' (loc + zlen bytes) (cur_end cur)) g /\
  on_disk g c' l' ts' /\ l' ++ ts' = l ++ ts /\ size (file_entry c') = Z.max (size (file_entry c)) (loc + zlen bytes) /\
  same_entry c c' /\
  frame m lim el f l' g /\ l ⊆ l' /\
  forall o, 0 <= o < size (file_entry c') -> content g c' o = put_bytes (content f c) loc bytes o.
Proof.
  induction bytes as [|b bytes IH]; intros f cur l ts c loc Ho Hb Hl H64 Hr.
  - exists c, f, l, ts. rewrite zlen_nil, Z.add_0_r, Z.max_l by lia. split; [destruct cur; apply runs_ret|].
    do 3 (split; [done|]). split; [apply same_entry_refl|]. split; [apply untouched_refl|]. split; [done|]. intros o _. by rewrite put_bytes_nil.
  - apply Forall_cons in Hb as [Hb Hbs]. rewrite zlen_cons in *. pose proof (zlen_nonneg bytes).
    destruct (runs_uwritebyte_any f cur b l ts Ho Hb Hl) as (c1 & g1 & l1 & ts1 & Hg1 & Ho1 & E1 & S1 & T1 & F1 & L1 & C1); [fold loc; lia| |].
    { pose proof (block_count_mono (loc + 1) (loc + (zlen bytes + 1))). fold loc. lia. }
    fold c loc in Hg1, S1, T1, C1.
    destruct (IH g1 (MkCursor c1 (loc + 1) (cur_end cur)) l1 ts1 Ho1 Hbs) as (c2 & g2 & l2 & ts2 & Hg2 & Ho2 & E2 & S2 & T2 & F2 & L2 & C2);
      cbn [cur_cached_file cur_loc cur_end] in *; [lia|lia| |].
    { replace (loc + 1 + zlen bytes) with (loc + (zlen bytes + 1)) by lia. apply (f_equal length) in E1. rewrite !length_app in E1.
      unfold zlen in *. lia. }
    exists c2, g2, l2, ts2. split; [|split; [done|split; [congruence|split; [lia|split; [by apply (same_entry_trans _ c1)|split; [by apply (untouched_trans m lim el f g1 g2 l1 l2)|split; [by etrans|]]]]]]].
    + cbn [uwrite_loop]. rewrite u8_small by (unfold is_byte in Hb; lia). eapply runs_bind; [exact Hg1|cbv beta].
      replace (loc + (zlen bytes + 1)) with (loc + 1 + zlen bytes) by lia. exact Hg2.
    + intros o Hoo. rewrite C2 by done. unfold put_bytes at 1 2. rewrite zget_cons.
      destruct (decide (o - loc = 0)) as [E|E].
      * replace (o - (loc + 1)) with (-1) by lia. cbn. rewrite C1 by lia. by rewrite decide_True by lia.
      * replace (o - (loc + 1)) with (o - loc - 1) by lia. destruct (zget bytes (o - loc - 1)) eqn:Ez; [done|].
        cbn [default from_option id].
        destruct (decide (o < size (file_entry c1))) as [Hlt|Hge]; [rewrite C1 by lia; by rewrite decide_False by lia|].
        apply zget_None in Ez; lia.
Qed.

End Run.
Lemma bytes_at_put f loc l : bytes_at (put_bytes f loc l) loc (length l) = l.
Proof.
  apply list_eq. intros i. unfold bytes_at. rewrite list_lookup_fmap. destruct (decide (i < length l)%nat) as [Hi|Hi].
  - rewrite lookup_seq_lt by done. cbn. unfold put_bytes. replace (loc + Z.of_nat i - loc) with (Z.of_nat i) by lia.
    rewrite zget_nat. by destruct (lookup_lt_is_Some_2 l i Hi) as [x ->].
  - rewrite lookup_seq_ge, lookup_ge_None_2 by lia. done.
Qed.

(** ** Lemmas: a transfer through a handle *)

Section Through.
Context {W : Type} {D : BlockDev W} {sz : Z} {L : BlockDevLaws D sz}.
Context (f : image) (st : fs) (handle : Z) (h : echfs_handle_t) (m : mount_t) (c : cached_file_t) (l ts : list Z) (lim dlo : Z).
Context (Eh : zget (handles st) handle = Some h) (Hh : good_handle (dev_handle h)) (Em : zget (mounts st) (device h) = Some m)
  (Ec : zget (cached_files st) (cached_file h) = Some c).
#[local] Notation el := (entry_loc m (target_entry (path_result c))).
Context (Hlay : layout sz m lim dlo el) (fuel : nat) (Hfuel : (Z.to_nat lim <= fuel)%nat) (Ho : on_disk sz m lim dlo f c l ts).
#[local] Set Default Proof Using "Type*".

Lemma echfs_uread_on_disk len : 0 <= ptr h -> end_ h <= size (file_entry c) -> 0 <= len ->
  let k := Z.max 0 (Z.min len (end_ h - ptr h)) in exists c' g,
  runs f (echfs_uread handle len st)
    (bytes_at (content f c) (ptr h) (Z.to_nat k), stored_back handle (with_ptr h (ptr h + k)) c' st) g /\
  on_disk sz m lim dlo g c' l ts /\ same_file f c g c'.
Proof.
  intros Hp He Hl k. pose proof (od_file _ _ _ _ _ _ _ _ Ho) as Hok. destruct (decide (ptr h <= end_ h)) as [Hle|Hgt].
  - destruct (echfs_uread_through f st handle h c Eh Hh Ec Hok len) as (c' & g & Hr & Hok' & Hs); [lia|done|done|].
    exists c', g. unfold k. rewrite Z.max_r by lia. split; [done|]. split; [|done].
    by apply (od_same_file (dev_handle h) Hh m lim dlo el Hlay fuel Hfuel f c).
  - exists c, f. unfold k. rewrite Z.max_l by lia. split; [|split; [done|apply same_refl]].
    destruct (put_both_ok handle h (with_ptr h (ptr h + 0)) c c st Eh eq_refl Ec) as (st1 & E1 & E2).
    unfold echfs_uread. do 2 (eapply runs_bind; [by apply runs_lift|cbv beta]).
    eapply (runs_bind _ _ _ _ _ ([], MkCursor c (ptr h + 0) (end_ h))); [rewrite Z.add_0_r|].
    + destruct (Z.to_nat len) as [|n]; [apply runs_ret|]. cbn [uread_loop]. unfold echfs_ureadbyte.
      rewrite (proj2 (Z.leb_le _ _)) by (cbn; lia). eapply runs_bind; [apply runs_ret|]. cbn. apply runs_ret.
    + cbv beta. cbn [fst snd cur_cached_file cur_loc].
      eapply runs_bind; [by apply runs_lift|cbv beta]. eapply runs_bind; [by apply runs_lift|apply runs_ret].
Qed.

Lemma echfs_uwrite_on_disk bytes : Forall is_byte bytes -> 0 <= ptr h <= size (file_entry c) -> ptr h + zlen bytes < 2 ^ 64 ->
  block_count (ptr h + zlen bytes) <= zlen l + zlen ts -> exists c' g l' ts',
  runs f (echfs_uwrite fuel handle bytes st) (zlen bytes, stored_back handle (with_ptr h (ptr h + zlen bytes)) c' st) g /\
  on_disk sz m lim dlo g c' l' ts' /\ l' ++ ts' = l ++ ts /\
  size (file_entry c') = Z.max (size (file_entry c)) (ptr h + zlen bytes) /\
  same_entry c c' /\
  bytes_at g el (Z.to_nat ENTRY_SIZE) = entry_bytes (file_entry c') /\ frame m lim el f l' g /\ l ⊆ l' /\
  forall o, 0 <= o < size (file_entry c') -> content g c' o = put_bytes (content f c) (ptr h) bytes o.
Proof.
  intros Hb Hp H64 Hr.
  destruct (runs_uwrite_any (dev_handle h) Hh m lim dlo el Hlay fuel Hfuel bytes f (MkCursor c (ptr h) (end_ h)) l ts Ho Hb Hp H64 Hr)
    as (c' & g & l' & ts' & Hg & Ho' & Ell & Es & Et & Hfr & Hsub & Hc).
  cbn [cur_cached_file cur_loc cur_end] in *. destruct (entry_bytes_ok _ (od_entry _ _ _ _ _ _ _ _ Ho')) as [Heb Hel].
  pose proof Hlay as [L1 L2 L3 L4 L5 L6]. pose proof (od_data _ _ _ _ _ _ _ _ Ho') as Hd. rewrite Forall_forall in Hd.
  destruct (file_ok_apart (dev_handle h) Hh g c' el (entry_bytes (file_entry c')) (od_file _ _ _ _ _ _ _ _ Ho')) as [Hok2 Hc2]; [|done|].
  { intros i b Hi Hbk. rewrite <- (od_len _ _ _ _ _ _ _ _ Ho') in Hi. destruct (od_get _ _ _ _ _ _ _ _ _ Ho' Hi) as (b' & E1 & _ & _ & Hbd & _).
    rewrite Hbk in E1. injection E1 as <-. left. rewrite Hel. lia. }
  destruct (put_both_ok handle h (with_ptr h (ptr h + zlen bytes)) c c' st Eh eq_refl Ec) as (st1 & E1 & E2).
  exists c', (put_bytes g el (entry_bytes (file_entry c'))), l', ts'.
  split; [|split; [|split; [done|split; [done|split; [done|split; [|split; [|split]]]]]]].
  - unfold echfs_uwrite. do 3 (eapply runs_bind; [by apply runs_lift|cbv beta]).
    eapply runs_bind; [exact Hg|cbv beta]. cbn [cur_cached_file cur_loc]. rewrite (se_target _ _ Et).
    eapply runs_bind; [apply (runs_wr_entry_u _ Hh); [by apply Ho'| |]; unfold fat_loc, ENTRY_SIZE in *; lia|cbv beta].
    eapply runs_bind; [by apply runs_lift|cbv beta]. eapply runs_bind; [by apply runs_lift|apply runs_ret].
  - apply (od_same (dev_handle h) Hh m lim dlo el Hlay fuel Hfuel g c'); [done..|]. intros x Hx. apply put_bytes_out. lia.
  - rewrite <- Hel. unfold zlen. rewrite Nat2Z.id. apply bytes_at_put.
  - apply (untouched_trans m lim el f g _ l' l'); [done..|]. by apply (frame_entry sz m lim dlo el Hlay).
  - done.
  - intros o Hoo. rewrite Hc2 by done. by apply Hc.
Qed.

End Through.

(** * Properties *)

(** Writing to an open file, past its end too: for a file whose blocks are chained
    in the allocation table and an ordered list of the free blocks, with enough of
    them for the bytes, [echfs_uwrite] at a position up to the end returns the number
    of bytes; afterwards the content is the old one with the bytes in their place, the
    length is the larger one, the new blocks are the first free ones, in order, linked
    to the chain that ends in [END_OF_CHAIN], the rest of the free blocks is still free,
    and the entry on the disk has the new length and first block.  The end of the
    handle stays what it was when the file was opened, so the bytes that were appended
    cannot be read through it. *)
Theorem echfs_uwrite_appends {W : Type} {D : BlockDev W} {sz : Z} {L : BlockDevLaws D sz}
    (f : image) (st : fs) (handle : Z) (bytes : list Z) (fuel : nat)
    (h : echfs_handle_t) (m : mount_t) (c : cached_file_t) (l ts : list Z) (lim dlo : Z) :
  zget (handles st) handle = Some h -> good_handle (dev_handle h) ->
  zget (mounts st) (device h) = Some m -> zget (cached_files st) (cached_file h) = Some c ->
  let el := entry_loc m (target_entry (path_result c)) in
  layout sz m lim dlo el -> (Z.to_nat lim <= fuel)%nat -> on_disk sz m lim dlo f c l ts ->
  Forall is_byte bytes -> 0 <= ptr h <= size (file_entry c) -> ptr h + zlen bytes < 2 ^ 64 ->
  block_count (ptr h + zlen bytes) <= zlen l + zlen ts ->
  exists c' g l' ts', let st' := stored_back handle (with_ptr h (ptr h + zlen bytes)) c' st in
    runs f (echfs_uwrite fuel handle bytes st) (zlen bytes, st') g /\
    on_disk sz m lim dlo g c' l' ts' /\ l' ++ ts' = l ++ ts /\
    size (file_entry c') = Z.max (size (file_entry c)) (ptr h + zlen bytes) /\
    bytes_at g el (Z.to_nat ENTRY_SIZE) = entry_bytes (file_entry c') /\
    (forall o, 0 <= o < size (file_entry c') -> content g c' o = put_bytes (content f c) (ptr h) bytes o) /\
    end_ <$> zget (handles st') handle = Some (end_ h).
Proof.
  intros Eh Hh Em Ec el Hlay Hfuel Ho Hb Hp H64 Hr.
  destruct (echfs_uwrite_on_disk f st handle h m c l ts lim dlo Eh Hh Em Ec Hlay fuel Hfuel Ho bytes Hb Hp H64 Hr)
    as (c' & g & l' & ts' & H1 & H2 & H3 & H4 & _ & H5 & _ & _ & H6).
  exists c', g, l', ts'. cbv zeta. do 6 (split; [done|]).
  pose proof (zget_Some _ _ _ Eh). unfold stored_back. cbn [handles]. rewrite zget_lookup, list_lookup_insert_eq by (unfold zlen in *; lia). done.
Qed.

(** * Witness: two bytes after a full block

    The words of blocks 0 to 20 of the table are [END_OF_CHAIN], that of block 21 is 0;
    the file has block 20. *)

Definition full_image : image := fun x => if (fat_loc demo_mount 0 <=? x) && (x <? fat_loc demo_mount 21) then 255 else 0.
Definition full_entry : entry_t := with_size (new_entry ROOT_ID FILE_TYPE [102] 20) BYTES_PER_BLOCK.
Definition full_file : cached_file_t :=
  MkCachedFile [47; 102] (MkPathResult 0 full_entry root [102] false false) 0
    (replicate (Z.to_nat BYTES_PER_BLOCK) 0) CACHE_NOTREADY [20; END_OF_CHAIN].
Definition full_handle : echfs_handle_t := MkHandle 0 [47; 102] 0 0 BYTES_PER_BLOCK 0 BYTES_PER_BLOCK 0 0 0.
Definition full_fs : fs := MkFs [demo_mount] [full_file] [full_handle].
Definition demo_dlo : Z := 18 * BYTES_PER_BLOCK.

Lemma grow_layout : layout (2 ^ 30) demo_mount 22 demo_dlo (entry_loc demo_mount 0).
Proof. by split. Qed.

Lemma full_free : free_list (2 ^ 30) demo_mount 22 demo_dlo full_image [21].
Proof.
  split; [by repeat constructor| |].
  - intros j Hj. rewrite list_elem_of_singleton.
    assert (Forall (fun k => fat full_image demo_mount (Z.of_nat k) = 0 <-> Z.of_nat k = 21) (seq 0 22)) as H
      by (apply (bool_decide_unpack _); vm_compute; exact I).
    rewrite Forall_forall in H. specialize (H (Z.to_nat j)). rewrite Z2Nat.id in H by lia. apply H, elem_of_seq. lia.
  - constructor; [|constructor]. split; [split; [discriminate|reflexivity]|]. split; discriminate.
Qed.

Lemma full_on_disk : on_disk (2 ^ 30) demo_mount 22 demo_dlo full_image full_file [20] [21].
Proof.
  assert (Forall (data_block (2 ^ 30) 22 demo_dlo) [20]) as Hd.
  { constructor; [|constructor]. split; [split; [discriminate|reflexivity]|]. split; discriminate. }
  split; [|reflexivity|reflexivity|exact Hd| |exact full_free|].
  - apply (file_ok_list _ 22 demo_dlo full_image full_file [20] [END_OF_CHAIN]); try reflexivity.
    + exact Hd.
    + apply NoDup_singleton.
    + intros x _. unfold full_image. destruct (_ && _); split; done.
    + discriminate.
    + by apply Forall_replicate.
    + by intros [].
    + by intros [].
  - split; [reflexivity|]. split; [discriminate|]. split; [split; discriminate|]. vm_compute. reflexivity.
  - split; try done. constructor; [|constructor]. split; [split; done|done].
Qed.

Lemma echfs_uwrite_appends_witness : exists c' g st',
  runs (L := image_laws) full_image (echfs_uwrite 22 0 [65; 66] full_fs) (2, st') g /\
  size (file_entry c') = BYTES_PER_BLOCK + 2 /\ content g c' BYTES_PER_BLOCK = 65 /\ content g c' (BYTES_PER_BLOCK + 1) = 66.
Proof.
  destruct (echfs_uwrite_appends (L := image_laws) full_image full_fs 0 [65; 66] 22 full_handle demo_mount full_file [20] [21] 22 demo_dlo)
    as (c' & g & l' & ts' & Hr & _ & _ & Hs & _ & Hc & _).
  - reflexivity.
  - exact I.
  - reflexivity.
  - reflexivity.
  - exact grow_layout.
  - reflexivity.
  - exact full_on_disk.
  - repeat constructor; discriminate.
  - split; discriminate.
  - reflexivity.
  - discriminate.
  - exists c', g. eexists. split; [exact Hr|]. split; [exact Hs|].
    split; (rewrite Hc; [reflexivity|rewrite Hs; split; [discriminate|reflexivity]]).
Defined.

End EchfsGrow.
