(* ===== verification/EchfsFiles.v ===== *)
(** * All open files of a volume: [kernel/src/fs/echfs.c]

    [EchfsFile.v] and [EchfsGrow.v] treat one open file.  Here any number of files of a
    volume are open at the same time, each by any number of handles, and their reads,
    writes and seeks come in any order.  Every cached file keeps a block of its own in
    memory, all take their blocks from one allocation table, and handles on the same
    file share its cached copy.  [volume] relates the cached files, the handles and the
    disk to arrays of bytes with positions in them: it holds from when the files have been
    opened, and a handle has the index of its cached file where the code has a pointer. *)

From S2P Require Import Prelude Dev Echfs EchfsFile EchfsGrow.
Local Open Scope Z_scope.
Local Open Scope st_scope.

Module EchfsFiles.
Import Echfs EchfsFile EchfsGrow.

(** ** Specification: arrays of bytes and positions in them

    [room] is the number of free blocks of the volume. *)

Record array := MkArray { alen : Z; abytes : Z -> Z }.
Record place := MkPlace { pfile : Z; ppos : Z; pbegin : Z; pend : Z; pfree : Z }.
Record files := MkFiles { arrays : list array; places : list place; room : Z }.
Inductive op := Read (handle len : Z) | Write (handle : Z) (bytes : list Z) | Seek (handle offset type : Z).
Inductive answer := Bytes (l : list Z) | Number (n : Z).
#[export] Instance answer_eq_dec : EqDecision answer.
Proof. solve_decision. Defined.

Definition moved (p : place) (n : Z) : place := MkPlace (pfile p) n (pbegin p) (pend p) (pfree p).
Definition move (h : Z) (p : place) (n : Z) (s : files) : files :=
  MkFiles (arrays s) (<[Z.to_nat h := moved p n]> (places s)) (room s).

Definition array_read (h len : Z) (s : files) : option (answer * files) :=
  p ← zget (places s) h; a ← zget (arrays s) (pfile p);
  let k := Z.max 0 (Z.min len (pend p - ppos p)) in
  Some (Bytes (bytes_at (abytes a) (ppos p) (Z.to_nat k)), move h p (ppos p + k) s).

(** The blocks that an array of [n] bytes needs beyond those it has. *)
Definition extra (n : Z) (a : array) : Z := block_count (Z.max (alen a) n) - block_count (alen a).
Definition stored (p : place) (bytes : list Z) (a : array) : array :=
  MkArray (Z.max (alen a) (ppos p + zlen bytes)) (put_bytes (abytes a) (ppos p) bytes).
Definition array_write (h : Z) (bytes : list Z) (s : files) : option (answer * files) :=
  p ← zget (places s) h; a ← zget (arrays s) (pfile p);
  let n := ppos p + zlen bytes in
  if decide (n < 2 ^ 31 /\ extra n a <= room s) then
    Some (Number (zlen bytes),
      MkFiles (<[Z.to_nat (pfile p) := stored p bytes a]> (arrays s))
        (<[Z.to_nat h := moved p n]> (places s)) (room s - extra n a))
  else None.

Definition base (type : Z) (p : place) : option Z :=
  if type =? 0 then Some (pbegin p) else if type =? 1 then Some (pend p)
  else if type =? 2 then Some (ppos p) else None.
Definition seek_at (h b offset : Z) (p : place) (s : files) : answer * files :=
  if decide (pfree p = 0 /\ pbegin p <= b + offset <= pend p) then (Number (b + offset), move h p (b + offset) s)
  else (Number (-1), s).
Definition array_seek (h offset type : Z) (s : files) : answer * files :=
  match zget (places s) h with
  | Some p => match base type p with Some b => seek_at h b offset p s | None => (Number (-1), s) end
  | None => (Number (-1), s)
  end.

(** [None]: a handle out of range, or a write for which there is no room. *)
Definition array_step (o : op) (s : files) : option (answer * files) :=
  match o with
  | Read h len => array_read h len s
  | Write h bytes => array_write h bytes s
  | Seek h offset type => Some (array_seek h offset type s)
  end.
Fixpoint array_run (ops : list op) (s : files) : option (list answer * files) :=
  match ops with
  | [] => Some ([], s)
  | o :: ops => r ← array_step o s; t ← array_run ops r.2; Some (r.1 :: t.1, t.2)
  end.

(** The arguments have the types of the calls. *)
Definition op_ok (o : op) : Prop :=
  match o with
  | Read _ len => 0 <= len
  | Write _ bytes => Forall is_byte bytes
  | Seek _ offset _ => - 2 ^ 31 <= offset < 2 ^ 31
  end.

(** The same calls of the file system. *)
Section Calls.
Context {W : Type} {D : BlockDev W}.

Definition echfs_step (fuel : nat) (o : op) (st : fs) : ST W (answer * fs) :=
  match o with
  | Read h len => let! r := echfs_uread h len st in st_ret (Bytes r.1, r.2)
  | Write h bytes => let! r := echfs_uwrite fuel h bytes st in st_ret (Number r.1, r.2)
  | Seek h offset type => let! r := echfs_seek h offset type st in st_ret (Number r.1, r.2)
  end.
Fixpoint echfs_run (fuel : nat) (ops : list op) (st : fs) : ST W (list answer * fs) :=
  match ops with
  | [] => st_ret ([], st)
  | o :: ops => let! r := echfs_step fuel o st in let! t := echfs_run fuel ops r.2 in st_ret (r.1 :: t.1, t.2)
  end.
End Calls.

(** ** Specification: the volume *)

Section Volume.
Context (sz : Z) (m : mount_t) (lim dlo : Z).
#[local] Notation el c := (entry_loc m (target_entry (path_result c))).

(** A cached file, its blocks [l], and the array it holds; its directory entry on the
    disk is the cached one. *)
Record array_at (f : image) (ts : list Z) (c : cached_file_t) (l : list Z) (a : array) : Prop := {
  aa_layout : layout sz m lim dlo (el c);
  aa_disk : on_disk sz m lim dlo f c l ts;
  aa_len : size (file_entry c) = alen a;
  aa_bytes o : 0 <= o < alen a -> content f c o = abytes a o;
  aa_entry : bytes_at f (el c) (Z.to_nat ENTRY_SIZE) = entry_bytes (file_entry c)
}.

Record place_ok (good : Z -> Prop) (ms : list mount_t) (l : list array) (h : echfs_handle_t) (p : place) : Prop := {
  po_file : cached_file h = pfile p;
  po_pos : ptr h = ppos p;
  po_begin : begin h = pbegin p;
  po_end : end_ h = pend p;
  po_free : hfree h = pfree p;
  po_mount : zget ms (device h) = Some m;
  po_device : good (dev_handle h);
  po_range : exists a, zget l (pfile p) = Some a /\ 0 <= ppos p <= alen a /\ pend p <= alen a;
  po_ints : ppos p < 2 ^ 31 /\ 0 <= pbegin p < 2 ^ 31 /\ 0 <= pend p < 2 ^ 31
}.

Record volume (good : Z -> Prop) (f : image) (st : fs) (s : files) (ls : list (list Z)) (ts : list Z) : Prop := {
  vo_lens : length ls = length (cached_files st) /\ length (arrays s) = length (cached_files st);
  vo_file i c l a : cached_files st !! i = Some c -> ls !! i = Some l -> arrays s !! i = Some a -> array_at f ts c l a;
  vo_apart i j c d l k : i <> j -> cached_files st !! i = Some c -> cached_files st !! j = Some d ->
    ls !! i = Some l -> ls !! j = Some k ->
    target_entry (path_result c) <> target_entry (path_result d) /\ forall x, x ∈ l -> x ∉ k;
  vo_places : Forall2 (place_ok good (mounts st) (arrays s)) (handles st) (places s);
  vo_room : zlen ts = room s
}.

(** The blocks that are free or belong to one of the files. *)
Definition owned (ls : list (list Z)) (ts : list Z) (b : Z) : Prop := b ∈ ts \/ exists i l, ls !! i = Some l /\ b ∈ l.
(** Between [f], [st] and [g], [st']: the files keep their paths and entry numbers, no block is
    lost or gained, the other blocks and their words in the table are the same, and so is
    what lies between the table and the data, the directory entries of the other files. *)
Record kept (f : image) (st : fs) (ls : list (list Z)) (ts : list Z) (g : image) (st' : fs) (ls' : list (list Z)) (ts' : list Z) : Prop := {
  kp_files : Forall2 same_entry (cached_files st) (cached_files st');
  kp_mounts : mounts st' = mounts st;
  kp_owned b : owned ls' ts' b <-> owned ls ts b;
  kp_words b : 0 <= b < lim -> ~ owned ls ts b -> fat g m b = fat f m b;
  kp_blocks b o : data_block sz lim dlo b -> ~ owned ls ts b -> 0 <= o < BYTES_PER_BLOCK ->
    g (b * BYTES_PER_BLOCK + o) = f (b * BYTES_PER_BLOCK + o);
  kp_entries x : fat_loc m lim <= x < dlo ->
    (forall i c, cached_files st !! i = Some c -> x < el c \/ el c + ENTRY_SIZE <= x) -> g x = f x
}.

(** ** Lemmas *)

Lemma insert_cases {A} (l : list A) (i j : nat) x y : <[i := x]> l !! j = Some y -> (j = i /\ y = x) \/ (j <> i /\ l !! j = Some y).
Proof using Type. intros [(-> & <- & _)|(Hn & H)]%list_lookup_insert_Some; [by left|right]. split; [congruence|done]. Qed.

(** A free block is in no file. *)
Lemma free_apart f ts c l a x : array_at f ts c l a -> x ∈ ts -> x ∉ l.
Proof using Type.
  intros [Hl [Hf _ _ Hd Hc Hfr _] _ _ _] Hx Hin. pose proof (fl_data _ _ _ _ _ _ Hfr) as Ht. rewrite Forall_forall in Ht.
  apply (chain_nonzero sz m f _ l x Hc); [|done|by apply (fl_zero _ _ _ _ _ _ Hfr); [apply Ht|]].
  eapply Forall_impl; [exact Hd|]. intros y Hy. pose proof (data_pos _ _ _ _ _ Hl y Hy). lia.
Qed.

(** The file at another entry and on other blocks stays. *)
Lemma array_frame f g ts ts' c l a c' l' a' : array_at f ts c l a -> array_at g ts' c' l' a' ->
  target_entry (path_result c) <> target_entry (path_result c') -> (forall x, x ∈ l -> x ∉ l') ->
  frame m lim (el c') f l' g -> array_at g ts' c l a.
Proof using Type.
  intros [A1 A2 A3 A4 A5] [B1 B2 _ _ _] Hne Hd Hfr.
  destruct (od_frame sz m lim dlo (el c') B1 f g c l ts l' ts' A2 Hfr Hd) as [Ho Hc]; [apply B2..|].
  rewrite A3 in Hc. split; [done..| |].
  - intros o Hoo. by rewrite Hc, A4.
  - rewrite <- A5. unfold bytes_at. apply list_fmap_ext. intros i x Hx%lookup_seq.
    change (Z.to_nat ENTRY_SIZE) with 256%nat in Hx. destruct A1 as [_ A1 A1' _ _ _], Hfr as [_ Hr].
    unfold entry_loc, ENTRY_SIZE in *. apply Hr; [lia| |lia]. intros b Hb. left.
    pose proof (od_data _ _ _ _ _ _ _ _ B2) as Hd'. rewrite Forall_forall in Hd'. destruct (Hd' _ Hb) as (_ & ? & _). lia.
Qed.

Lemma owned_insert ls ts ts' i l l' b : ls !! i = Some l -> (forall x, x ∈ l' \/ x ∈ ts' <-> x ∈ l \/ x ∈ ts) ->
  owned (<[i := l']> ls) ts' b <-> owned ls ts b.
Proof using Type.
  intros Hi Hl. pose proof (lookup_lt_Some _ _ _ Hi).
  assert (forall (ls : list (list Z)) ts k, ls !! i = Some k -> owned ls ts b <->
    (b ∈ k \/ b ∈ ts) \/ exists j k', j <> i /\ ls !! j = Some k' /\ b ∈ k') as Hsplit.
  { intros ls1 ts1 k Hk. unfold owned. split.
    - intros [Hb|(j & k' & Hj & Hb)]; [by left; right|]. destruct (decide (j = i)) as [->|Hne]; [|by right; exists j, k'].
      simplify_eq. by left; left.
    - intros [[Hb|Hb]|(j & k' & _ & Hj & Hb)]; [right; by exists i, k|by left|right; by exists j, k']. }
  rewrite (Hsplit ls ts l Hi), (Hsplit (<[i := l']> ls) ts' l'), Hl by (by apply list_lookup_insert_eq).
  f_equiv. do 2 (f_equiv; intros ?). split; intros (Hne & Hj & Hb); (split; [done|]); (split; [|done]); by rewrite list_lookup_insert_ne in *.
Qed.
Lemma kept_same f st st' ls ts : cached_files st' = cached_files st -> mounts st' = mounts st -> kept f st ls ts f st' ls ts.
Proof using Type. intros Hc Hm. split; try done. by rewrite Hc. Qed.
Lemma kept_trans f st ls ts g st' ls' ts' k st2 ls2 ts2 : kept f st ls ts g st' ls' ts' -> kept g st' ls' ts' k st2 ls2 ts2 ->
  kept f st ls ts k st2 ls2 ts2.
Proof using Type.
  intros [A1 A2 A3 A4 A5 A6] [B1 B2 B3 B4 B5 B6]. split.
  - by etrans.
  - congruence.
  - intros b. by rewrite B3.
  - intros b Hb Hn. rewrite B4; [by apply A4|done|by rewrite A3].
  - intros b o Hb Hn Ho. rewrite B5; [by apply A5|done|by rewrite A3|done].
  - intros x Hx Hc. rewrite B6; [by apply A6|done|]. intros i c' Hc'. destruct (Forall2_lookup_r _ _ _ _ _ A1 Hc') as (c & E & Hs).
    rewrite (se_target _ _ Hs). by eapply Hc.
Qed.

(** A transfer of one file. *)
Lemma kept_frame f st ls ts g hd h i c c' l l' ts' : layout sz m lim dlo (el c) -> Forall (data_block sz lim dlo) l' ->
  cached_files st !! i = Some c -> ls !! i = Some l -> cached_file h = Z.of_nat i -> same_entry c c' ->
  frame m lim (el c) f l' g -> (forall x, x ∈ l' \/ x ∈ ts' <-> x ∈ l \/ x ∈ ts) ->
  kept f st ls ts g (stored_back hd h c' st) (<[i := l']> ls) ts'.
Proof using Type.
  intros Hly Hd Ec El Ei Hs [H1 H2] Hl. pose proof (owned_insert ls ts ts' i l l') as Ho.
  assert (forall b, ~ owned ls ts b -> b ∉ l') as Hn.
  { intros b Hb Hin. destruct (proj1 (Hl b) (or_introl Hin)); apply Hb; [right; by exists i, l|by left]. }
  unfold stored_back. rewrite Ei, Nat2Z.id. split; cbn [cached_files mounts].
  - rewrite <- (list_insert_id (cached_files st) i c Ec) at 1. apply Forall2_insert; done.
  - done.
  - intros b. by apply Ho.
  - intros b Hb Hnb. apply H1; [done|by apply Hn].
  - intros b o (Hb0 & Hb1 & _) Hnb Hoo. destruct Hly. unfold ENTRY_SIZE in *. apply H2; [bpb; lia| |bpb; lia]. intros x Hx.
    assert (b <> x) by (intros ->; by apply (Hn x)). unfold off_block. bpb. lia.
  - intros x Hx Hc. apply H2; [lia| |by apply (Hc i)]. intros b Hb. left. rewrite Forall_forall in Hd.
    destruct (Hd _ Hb) as (_ & ? & _). lia.
Qed.

Section Steps.
Context (good : Z -> Prop).
#[local] Notation volume := (volume good).

(** The cached file of an array. *)
Lemma volume_array f st s ls ts i a : volume f st s ls ts -> arrays s !! i = Some a -> exists c l,
  cached_files st !! i = Some c /\ ls !! i = Some l /\ array_at f ts c l a.
Proof using Type.
  intros [[V1 V1'] V2 _ _ _] Ha. pose proof (lookup_lt_Some _ _ _ Ha).
  destruct (lookup_lt_is_Some_2 (cached_files st) i) as [c Hc]; [lia|]. destruct (lookup_lt_is_Some_2 ls i) as [l Hl]; [lia|].
  exists c, l. split; [done|]. split; [done|by apply (V2 i)].
Qed.

(** The handle, the cached file and the array of a call. *)
Lemma volume_get f st s ls ts hd p : volume f st s ls ts -> zget (places s) hd = Some p -> exists h i c l a,
  zget (handles st) hd = Some h /\ place_ok good (mounts st) (arrays s) h p /\ cached_file h = Z.of_nat i /\
  cached_files st !! i = Some c /\ ls !! i = Some l /\ arrays s !! i = Some a /\ array_at f ts c l a /\
  0 <= ppos p <= alen a /\ pend p <= alen a.
Proof using Type.
  intros Hv Hp. pose proof (zget_Some _ _ _ Hp). rewrite zget_lookup in Hp by lia.
  destruct (Forall2_lookup_r _ _ _ _ _ (vo_places _ _ _ _ _ _ Hv) Hp) as (h & Hh & Hpo).
  pose proof (po_range _ _ _ _ _ Hpo) as (a & Ha & H1 & H2). pose proof (zget_Some _ _ _ Ha). rewrite zget_lookup in Ha by lia.
  destruct (volume_array _ _ _ _ _ _ _ Hv Ha) as (c & l & Hc & Hl & Hat).
  exists h, (Z.to_nat (pfile p)), c, l, a. rewrite zget_lookup by lia. rewrite (po_file _ _ _ _ _ Hpo).
  do 2 (split; [done|]). split; [lia|]. done.
Qed.

(** Longer arrays keep the positions. *)
Lemma place_longer ms as_ i a a' h p : place_ok good ms as_ h p -> as_ !! i = Some a -> alen a <= alen a' ->
  place_ok good ms (<[i := a']> as_) h p.
Proof using Type.
  intros [P1 P2 P3 P4 P5 P6 P7 (b & Hb & H1 & H2) P9] Ha Hle. split; try done.
  pose proof (zget_Some _ _ _ Hb). rewrite zget_lookup in * by lia. destruct (decide (i = Z.to_nat (pfile p))) as [->|Hne].
  - exists a'. rewrite list_lookup_insert_eq by (unfold zlen in *; lia). simplify_eq. split; [done|lia].
  - exists b. by rewrite list_lookup_insert_ne.
Qed.
Lemma place_moved ms as_ h p n a : place_ok good ms as_ h p -> zget as_ (pfile p) = Some a -> 0 <= n <= alen a -> n < 2 ^ 31 ->
  place_ok good ms as_ (with_ptr h n) (moved p n).
Proof using Type.
  intros [P1 P2 P3 P4 P5 P6 P7 (b & Hb & H1 & H2) P9] Ha Hn H31. split; try done; [|by split; [|apply P9]].
  exists a. simplify_eq. done.
Qed.

(** One file changed, and the position of one handle on it. *)
Lemma volume_insert f g st s ls ts ts' hd h p i c c' l l' a a' n : volume f st s ls ts ->
  zget (handles st) hd = Some h -> zget (places s) hd = Some p -> cached_file h = Z.of_nat i ->
  cached_files st !! i = Some c -> ls !! i = Some l -> arrays s !! i = Some a ->
  array_at g ts' c' l' a' -> target_entry (path_result c') = target_entry (path_result c) ->
  frame m lim (el c) f l' g -> (forall x, x ∈ l' -> x ∈ l \/ x ∈ ts) ->
  alen a <= alen a' -> 0 <= n <= alen a' -> n < 2 ^ 31 ->
  volume g (stored_back hd (with_ptr h n) c' st)
    (MkFiles (<[i := a']> (arrays s)) (<[Z.to_nat hd := moved p n]> (places s)) (zlen ts')) (<[i := l']> ls) ts'.
Proof using Type.
  intros [[V1 V1'] V2 V3 V4 V5] Eh Ep Ei Ec El Ea Hat Hte Hfr Hl' Hle Hn H31.
  assert (forall j d k, j <> i -> cached_files st !! j = Some d -> ls !! j = Some k ->
    target_entry (path_result d) <> target_entry (path_result c) /\ (forall x, x ∈ k -> x ∉ l')) as Hap.
  { intros j d k Hj Hd Hk. destruct (V3 j i d c k l Hj Hd Ec Hk El) as [Hne Hx]. split; [done|]. intros x Hxk Hxl.
    destruct (lookup_lt_is_Some_2 (arrays s) j) as [b Hb]; [apply lookup_lt_Some in Hd; lia|].
    destruct (Hl' x Hxl) as [?|Ht]; [by apply (Hx x)|]. by apply (free_apart f ts d k b x (V2 j d k b Hd Hk Hb) Ht). }
  unfold stored_back. cbn [cached_file with_ptr]. rewrite Ei, Nat2Z.id.
  split; cbn [cached_files arrays places handles mounts room].
  - by rewrite !length_insert.
  - intros j d k b [[-> ->]|[Hj Hd]]%insert_cases.
    + rewrite !list_lookup_insert_eq by (apply lookup_lt_Some in El, Ea; done). by intros [= <-] [= <-].
    + rewrite !list_lookup_insert_ne by done. intros Hk Hb. destruct (Hap j d k Hj Hd Hk) as [Hne Hx].
      apply (array_frame f g ts ts' d k b c' l' a'); [by apply (V2 j)|done|by rewrite Hte|done|by rewrite Hte].
  - intros j j' d d' k k' Hjj [[-> ->]|[Hj Hd]]%insert_cases [[-> ->]|[Hj' Hd']]%insert_cases;
      rewrite ?list_lookup_insert_eq, ?list_lookup_insert_ne by (done || by apply lookup_lt_Some in El); [done| | |by apply (V3 j j')].
    + intros [= <-] Hk'. destruct (Hap j' d' k' Hj' Hd' Hk') as [Hne Hx]. rewrite Hte. split; [done|]. intros x Hx1 Hx2. by apply (Hx x).
    + intros Hk [= <-]. rewrite Hte. by apply (Hap j).
  - apply Forall2_insert.
    + eapply Forall2_impl; [exact V4|]. intros h1 p1 H1. by apply (place_longer _ _ _ a).
    + pose proof (zget_Some _ _ _ Eh). pose proof (zget_Some _ _ _ Ep). rewrite zget_lookup in Eh by lia. rewrite zget_lookup in Ep by lia.
      pose proof (Forall2_lookup_lr _ _ _ _ _ _ V4 Eh Ep) as Hpo.
      apply (place_moved _ _ _ _ _ a'); [by apply (place_longer _ _ _ a)| |done|done].
      rewrite <- (po_file _ _ _ _ _ Hpo), Ei, zget_nat. apply list_lookup_insert_eq. by apply lookup_lt_Some in Ea.
  - done.
Qed.

Lemma volume_moved f st s ls ts hd p n h : volume f st s ls ts -> zget (places s) hd = Some p -> zget (handles st) hd = Some h ->
  0 <= n <= pend p ->
  volume f (MkFs (mounts st) (cached_files st) (<[Z.to_nat hd := with_ptr h n]> (handles st))) (move hd p n s) ls ts.
Proof using Type.
  intros Hv Hp Hh Hn. destruct (volume_get _ _ _ _ _ _ _ Hv Hp) as (h' & i & c & l & a & E & Hpo & Ei & Ec & El & Ea & Hat & H1 & H2).
  rewrite Hh in E. injection E as <-. destruct Hv as [V1 V2 V3 V4 V5]. split; try done. cbn [handles places move mounts arrays].
  apply Forall2_insert; [done|]. apply (place_moved _ _ _ _ _ a); [done| |lia|pose proof (po_ints _ _ _ _ _ Hpo); lia].
  by rewrite <- (po_file _ _ _ _ _ Hpo), Ei, zget_nat.
Qed.

End Steps.
End Volume.

(** ** Lemmas: the calls *)

Section Run.
Context {W : Type} {D : BlockDev W} {sz : Z} {L : BlockDevLaws D sz}.
Context (m : mount_t) (lim dlo : Z) (fuel : nat) (Hfuel : (Z.to_nat lim <= fuel)%nat).
#[local] Set Default Proof Using "Type*".
#[local] Notation volume := (volume sz m lim dlo good_handle).
#[local] Notation kept := (kept sz m lim dlo).

(** A call answers what the arrays answer, and keeps the volume. *)
Definition answers (o : op) (f : image) (st : fs) (ls : list (list Z)) (ts : list Z) (r : answer) (s' : files) : Prop :=
  exists g st' ls' ts', runs f (echfs_step fuel o st) (r, st') g /\ volume g st' s' ls' ts' /\
    kept f st ls ts g st' ls' ts'.

Lemma read_answers hd len f st s ls ts r s' : volume f st s ls ts -> 0 <= len -> array_read hd len s = Some (r, s') ->
  answers (Read hd len) f st ls ts r s'.
Proof.
  intros Hv Hl Hr. unfold array_read in Hr. destruct (zget (places s) hd) as [p|] eqn:Ep; [|done].
  destruct (volume_get _ _ _ _ _ _ _ _ _ _ _ _ Hv Ep) as (h & i & c & l & a & Eh & Hpo & Ei & Ec & El & Ea & Hat & Hp & He).
  pose proof Hpo as [P1 P2 P3 P4 P5 P6 P7 _ [P10 P11]]. cbn [mbind option_bind] in Hr.
  rewrite <- P1, Ei, zget_nat, Ea in Hr. cbn [mbind option_bind] in Hr. injection Hr as <- <-.
  pose proof Hat as [A1 A2 A3 A4 A5].
  destruct (echfs_uread_on_disk f st hd h m c l ts lim dlo Eh P7 P6) with (fuel := fuel) (len := len) as (c' & g & Hrun & Ho & Hs);
    [by rewrite Ei, zget_nat|done|done|done|lia|lia|done|]. rewrite P2, P4 in Hrun. set (k := Z.max 0 _) in *.
  pose proof (frame_same_file sz m lim dlo _ A1 f c l ts g c' A2 Hs) as Hfr. pose proof Hs as [S1 S2 S3 S4 S5].
  assert (array_at sz m lim dlo g ts c' l a) as Hat'.
  { assert (file_entry c' = file_entry c) as Ef by (unfold file_entry; by rewrite S2). split; rewrite ?S2, ?Ef; try done.
    - intros o Hoo. rewrite S3 by (by rewrite A3). by apply A4.
    - rewrite <- A5. unfold bytes_at. apply list_fmap_ext. intros j x Hx%lookup_seq. change (Z.to_nat ENTRY_SIZE) with 256%nat in Hx.
      apply S4, (od_outside (dev_handle h) P7 m lim dlo _ A1 fuel Hfuel f c l ts); [done|]. destruct A1. unfold ENTRY_SIZE in *. lia. }
  exists g, (stored_back hd (with_ptr h (ppos p + k)) c' st), ls, ts. split; [|split].
  - cbn [echfs_step]. eapply runs_bind; [exact Hrun|]. cbn [fst snd].
    assert (bytes_at (content f c) (ppos p) (Z.to_nat k) = bytes_at (abytes a) (ppos p) (Z.to_nat k)) as ->; [|apply runs_ret].
    apply list_fmap_ext. intros j x Hx%lookup_seq. apply A4. lia.
  - pose proof (volume_insert sz m lim dlo good_handle f g st s ls ts ts hd h p i c c' l l a a (ppos p + k) Hv Eh Ep Ei Ec El Ea Hat') as Hv'.
    rewrite (list_insert_id ls i l El), (list_insert_id (arrays s) i a Ea), (vo_room _ _ _ _ _ _ _ _ _ _ Hv) in Hv'. apply Hv'; [by rewrite S2|done|by left|lia|lia|lia].
  - rewrite <- (list_insert_id ls i l El) at 2. apply (kept_frame sz m lim dlo f st ls ts g hd _ i c c' l l ts A1); try done.
    + apply A2.
    + by apply same_entry_result.
Qed.

Lemma write_answers hd bytes f st s ls ts r s' : volume f st s ls ts -> Forall is_byte bytes -> array_write hd bytes s = Some (r, s') ->
  answers (Write hd bytes) f st ls ts r s'.
Proof.
  intros Hv Hb Hr. unfold array_write in Hr. destruct (zget (places s) hd) as [p|] eqn:Ep; [|done].
  destruct (volume_get _ _ _ _ _ _ _ _ _ _ _ _ Hv Ep) as (h & i & c & l & a & Eh & Hpo & Ei & Ec & El & Ea & Hat & Hp & He).
  pose proof Hpo as [P1 P2 P3 P4 P5 P6 P7 _ [P10 P11]]. cbn [mbind option_bind] in Hr.
  rewrite <- P1, Ei, zget_nat, Ea in Hr. cbn [mbind option_bind] in Hr. case_decide as Hroom; [|done]. injection Hr as <- <-.
  pose proof Hat as [A1 A2 A3 A4 A5]. destruct Hroom as [H31 Hroom]. unfold extra in *. rewrite Nat2Z.id.
  pose proof (od_len _ _ _ _ _ _ _ _ A2) as Hlen. unfold file_blocks in Hlen. rewrite A3 in Hlen.
  rewrite <- (vo_room _ _ _ _ _ _ _ _ _ _ Hv) in *. pose proof (zlen_nonneg bytes).
  destruct (echfs_uwrite_on_disk f st hd h m c l ts lim dlo Eh P7 P6) with (fuel := fuel) (bytes := bytes)
    as (c' & g & l' & ts' & Hrun & Ho & Ell & Es & Et & Een & Hfr & Hsub & Hc); rewrite ?P2, ?A3 in *;
    [by rewrite Ei, zget_nat|done|done|done|done|lia|lia| |].
  { pose proof (block_count_mono (ppos p + zlen bytes) (Z.max (alen a) (ppos p + zlen bytes))). lia. }
  assert (forall x, x ∈ l' \/ x ∈ ts' -> x ∈ l \/ x ∈ ts) as Hin by (intros x; by rewrite <- !elem_of_app, Ell).
  assert (array_at sz m lim dlo g ts' c' l' (stored p bytes a)) as Hat'.
  { split; rewrite ?(se_target _ _ Et); try done. intros o Hoo. cbn [alen abytes stored] in *. rewrite Hc by lia. unfold put_bytes.
    destruct (zget bytes _) eqn:E; [done|]. cbn. apply A4. apply zget_None in E. lia. }
  pose proof (volume_insert sz m lim dlo good_handle f g st s ls ts ts' hd h p i c c' l l' a _ (ppos p + zlen bytes) Hv Eh Ep Ei Ec El Ea Hat' (se_target _ _ Et) Hfr)
    as Hv'. exists g, (stored_back hd (with_ptr h (ppos p + zlen bytes)) c' st), (<[i := l']> ls), ts'. split; [|split].
  - cbn [echfs_step]. eapply runs_bind; [exact Hrun|]. apply runs_ret.
  - replace (zlen ts - _) with (zlen ts').
    + apply Hv'; [intros x Hx; by apply Hin; left|cbn; lia..].
    + pose proof (od_len _ _ _ _ _ _ _ _ Ho) as Hlen'. unfold file_blocks in Hlen'. rewrite Es in Hlen'.
      apply (f_equal zlen) in Ell. rewrite !zlen_app in Ell. lia.
  - apply (kept_frame sz m lim dlo f st ls ts g hd _ i c c' l l' ts' A1); try done; [apply Ho|].
    intros x. by rewrite <- !elem_of_app, Ell.
Qed.

Lemma seek_at_answers hd offset b f st s ls ts h p : volume f st s ls ts -> zget (handles st) hd = Some h ->
  zget (places s) hd = Some p -> pfree p = 0 -> 0 <= b < 2 ^ 31 -> - 2 ^ 31 <= offset < 2 ^ 31 -> exists st',
  runs f (let! r := seek_from b offset hd h st in st_ret (Number r.1, r.2)) ((seek_at hd b offset p s).1, st') f /\
  volume f st' (seek_at hd b offset p s).2 ls ts /\ cached_files st' = cached_files st /\ mounts st' = mounts st.
Proof.
  intros Hv Eh Ep Ef Hb Ho. pose proof (zget_Some _ _ _ Eh) as Hhd.
  destruct (volume_get _ _ _ _ _ _ _ _ _ _ _ _ Hv Ep) as (h' & i & c & l & a & E & Hpo & _ & _ & _ & _ & _ & _ & _).
  rewrite Eh in E. injection E as <-. destruct Hpo as [_ _ P3 P4 _ _ _ _ (_ & Hp1 & Hp2)]. unfold seek_from, seek_at. rewrite P3, P4.
  case_decide as Hin.
  - destruct Hin as [_ Hin]. rewrite s32_small by lia. rewrite (proj2 (Z.ltb_ge _ _)), (proj2 (Z.ltb_ge _ _)) by lia. cbn [orb].
    eexists. split; [|split; [by apply (volume_moved sz m lim dlo good_handle f st s ls ts hd p (b + offset) h); [| | |lia]|done]].
    eapply runs_bind; [eapply runs_bind; [|apply runs_ret]|apply runs_ret]. apply runs_lift. unfold put_handle. by rewrite zset_ok by done.
  - exists st. split; [|done].
    assert ((pend p <? s32 (b + offset)) || (s32 (b + offset) <? pbegin p) = true) as ->; [|eapply runs_bind; apply runs_ret].
    rewrite orb_true_iff, !Z.ltb_lt. unfold s32. pose proof (Z.mod_pos_bound (b + offset + 2 ^ 31) (2 ^ 32)).
    destruct (decide (b + offset < 2 ^ 31)); [rewrite Z.mod_small by lia; lia|].
    rewrite <- (Z.mod_unique (b + offset + 2 ^ 31) (2 ^ 32) 1 (b + offset + 2 ^ 31 - 2 ^ 32)) by lia. lia.
Qed.

(** The checks of the handle. *)
Lemma valid_place f st s ls ts hd : volume f st s ls ts ->
  match valid_handle hd st with
  | Some h => zget (handles st) hd = Some h /\ exists p, zget (places s) hd = Some p /\ pfree p = 0
  | None => forall p, zget (places s) hd = Some p -> pfree p <> 0
  end.
Proof.
  intros Hv. pose proof (Forall2_length _ _ _ (vo_places _ _ _ _ _ _ _ _ _ _ Hv)) as Hn. unfold valid_handle.
  destruct (Z.ltb_spec hd 0); [intros p Hp%zget_Some; lia|]. destruct (Z.leb_spec (zlen (handles st)) hd).
  { intros p Hp%zget_Some. unfold zlen in *. lia. }
  destruct (zget_is_Some (places s) hd) as [p Ep]; [unfold zlen in *; lia|].
  destruct (volume_get _ _ _ _ _ _ _ _ _ _ _ _ Hv Ep) as (h & i & c & l & a & Eh & Hpo & _). rewrite Eh, Ep.
  cbn [mbind option_bind]. rewrite (po_free _ _ _ _ _ _ Hpo). destruct (Z.eqb_spec (pfree p) 0).
  - split; [done|]. by exists p.
  - by intros p' [= <-].
Qed.

Lemma seek_answers hd offset type f st s ls ts : volume f st s ls ts -> - 2 ^ 31 <= offset < 2 ^ 31 ->
  answers (Seek hd offset type) f st ls ts (array_seek hd offset type s).1 (array_seek hd offset type s).2.
Proof.
  intros Hv Ho.
  enough (exists st', runs f (echfs_step fuel (Seek hd offset type) st) ((array_seek hd offset type s).1, st') f /\
    volume f st' (array_seek hd offset type s).2 ls ts /\ cached_files st' = cached_files st /\ mounts st' = mounts st)
    as (st' & H1 & H2 & H3 & H4) by (exists f, st', ls, ts; split; [done|]; split; [done|]; by apply kept_same).
  pose proof (valid_place f st s ls ts hd Hv) as Hvalid. cbn [echfs_step]. unfold array_seek, echfs_seek, seek_at.
  destruct (valid_handle hd st) as [h|].
  - destruct Hvalid as (Eh & p & Ep & Hfree). rewrite Ep.
    destruct (volume_get _ _ _ _ _ _ _ _ _ _ _ _ Hv Ep) as (h' & i & c & l & a & E & Hpo & _ & _ & _ & _ & _ & Hp & _).
    rewrite Eh in E. injection E as <-. pose proof Hpo as [_ P2 P3 P4 _ _ _ _ (P5 & P6 & P7)]. rewrite P2, P3, P4. unfold base.
    repeat (case_match; [by apply (seek_at_answers hd offset _ f st s ls ts h p Hv Eh Ep Hfree); [lia|]|]).
    exists st. split; [eapply runs_bind; apply runs_ret|done].
  - exists st. destruct (zget (places s) hd) as [p|] eqn:E.
    + destruct (base type p); [rewrite decide_False by (specialize (Hvalid p eq_refl); tauto)|]; (split; [eapply runs_bind; apply runs_ret|done]).
    + split; [eapply runs_bind; apply runs_ret|done].
Qed.

(** ** Lemmas: a sequence of calls *)

Lemma step_answers o f st s ls ts r s' : volume f st s ls ts -> op_ok o -> array_step o s = Some (r, s') -> answers o f st ls ts r s'.
Proof.
  intros Hv Ho Hs. destruct o as [hd len|hd bytes|hd offset type]; cbn in Ho, Hs.
  - by apply (read_answers hd len f st s).
  - by apply (write_answers hd bytes f st s).
  - injection Hs as Hs. rewrite (surjective_pairing (array_seek hd offset type s)) in Hs. injection Hs as <- <-. by apply seek_answers.
Qed.

Lemma run_answers ops f st s ls ts rs s' : volume f st s ls ts -> Forall op_ok ops -> array_run ops s = Some (rs, s') ->
  exists g st' ls' ts', runs f (echfs_run fuel ops st) (rs, st') g /\ volume g st' s' ls' ts' /\ kept f st ls ts g st' ls' ts'.
Proof.
  revert f st s ls ts rs. induction ops as [|o ops IH]; intros f st s ls ts rs Hv Hops Hrun; cbn in Hrun.
  - injection Hrun as <- <-. exists f, st, ls, ts. split; [apply runs_ret|]. split; [done|by apply kept_same].
  - apply Forall_cons in Hops as [Ho Hops]. destruct (array_step o s) as [[r s1]|] eqn:E; [|done]. cbn in Hrun.
    destruct (array_run ops s1) as [[rs' s2]|] eqn:E2; [|done]. injection Hrun as <- <-.
    destruct (step_answers o f st s ls ts r s1 Hv Ho E) as (g1 & st1 & ls1 & ts1 & R1 & V1 & F1).
    destruct (IH g1 st1 s1 ls1 ts1 rs' V1 Hops E2) as (g2 & st2 & ls2 & ts2 & R2 & V2 & F2).
    exists g2, st2, ls2, ts2. split; [|split; [done|by apply (kept_trans sz m lim dlo f st ls ts g1 st1 ls1 ts1)]].
    cbn [echfs_run]. eapply runs_bind; [exact R1|]. cbn [fst snd]. eapply runs_bind; [exact R2|apply runs_ret].
Qed.

End Run.

(** * Properties *)

(** C5: Any number of open files are arrays of bytes that do not meet.  Whatever reads,
    writes and seeks come through the handles of the open files of a volume, in any
    order and with several handles on one file: as long as the free blocks suffice for
    the writes, each call returns what the arrays return (a read the bytes of its own
    array, those that another handle on the file has written too), and at the end the
    cached files, the allocation table and the disk stand for the arrays again: no block
    is in two chains, in a chain and free, or lost; the directory entry of every file on the disk
    has its length and first block; and the blocks that were in use by files that are not
    open, their words in the table and all other directory entries have not changed. *)
Theorem open_files_refine {W : Type} {D : BlockDev W} {sz : Z} {L : BlockDevLaws D sz}
    (m : mount_t) (lim dlo : Z) (fuel : nat) (ops : list op) (f : image) (st : fs) (s : files)
    (ls : list (list Z)) (ts : list Z) (rs : list answer) (s' : files) :
  (Z.to_nat lim <= fuel)%nat -> volume sz m lim dlo good_handle f st s ls ts -> Forall op_ok ops ->
  array_run ops s = Some (rs, s') ->
  exists g st' ls' ts', runs f (echfs_run fuel ops st) (rs, st') g /\ volume sz m lim dlo good_handle g st' s' ls' ts' /\
    kept sz m lim dlo f st ls ts g st' ls' ts'.
Proof.
  intros Hfuel Hv Ho Hr. by apply (run_answers m lim dlo fuel Hfuel ops f st s).
Qed.

(** * Witness: two files, three handles

    Two bytes of file a in block 19, the full block 20 of file b, and block 21 free;
    handle 0 is on a, handles 1, at the end, and 2, at the beginning, are on b. *)

Definition demo_file_entry (name : Z) (n block : Z) : entry_t := with_size (new_entry ROOT_ID FILE_TYPE [name] block) n.
Definition demo_cached (name i n block : Z) : cached_file_t :=
  MkCachedFile [47; name] (MkPathResult i (demo_file_entry name n block) root [name] false false) 0
    (replicate (Z.to_nat BYTES_PER_BLOCK) 0) CACHE_NOTREADY [block; END_OF_CHAIN].
Definition files_image : image := put_bytes (put_bytes full_image (entry_loc demo_mount 0) (entry_bytes (demo_file_entry 97 2 19)))
  (entry_loc demo_mount 1) (entry_bytes (demo_file_entry 98 BYTES_PER_BLOCK 20)).
Definition demo_at (file pos n : Z) : echfs_handle_t := MkHandle 0 [47; 97 + file] 0 0 pos 0 n 0 0 file.
Definition files_fs : fs := MkFs [demo_mount] [demo_cached 97 0 2 19; demo_cached 98 1 BYTES_PER_BLOCK 20]
  [demo_at 0 0 2; demo_at 1 BYTES_PER_BLOCK BYTES_PER_BLOCK; demo_at 1 0 BYTES_PER_BLOCK].
Definition files_arrays : files := MkFiles [MkArray 2 (fun _ => 0); MkArray BYTES_PER_BLOCK (fun _ => 0)]
  [MkPlace 0 0 0 2 0; MkPlace 1 BYTES_PER_BLOCK 0 BYTES_PER_BLOCK 0; MkPlace 1 0 0 BYTES_PER_BLOCK 0] 1.

Lemma files_word j : fat files_image demo_mount j = fat full_image demo_mount j \/ 21 < j.
Proof.
  destruct (decide (j <= 21)) as [Hj|]; [left|lia]. apply le_ext. intros x Hx. unfold files_image.
  assert (fat_loc demo_mount j = 524288 + 8 * j) as E by (unfold fat_loc; cbn; bpb; lia).
  assert (entry_loc demo_mount 0 = 557056 /\ entry_loc demo_mount 1 = 557312) as [E0 E1] by done.
  by rewrite E0, E1, !put_bytes_out by lia.
Qed.
Lemma files_free : free_list (2 ^ 30) demo_mount 22 demo_dlo files_image [21].
Proof.
  destruct full_free as [H1 H2 H3]. split; [done| |done]. intros j Hj. rewrite <- H2 by done.
  destruct (files_word j) as [-> | ?]; [done|lia].
Qed.
Lemma files_zero x : demo_dlo <= x -> files_image x = 0.
Proof.
  intros Hx. assert (demo_dlo = 589824 /\ entry_loc demo_mount 0 = 557056 /\ entry_loc demo_mount 1 = 557312) as (E & E0 & E1) by done.
  unfold files_image. rewrite E in Hx. rewrite E0, E1, !put_bytes_out by (change (zlen (entry_bytes _)) with 256; lia).
  unfold full_image. change (fat_loc demo_mount 21) with 524456. rewrite (proj2 (Z.ltb_ge _ _)) by lia. by rewrite andb_false_r.
Qed.
Lemma files_entry name n b : name = 97 \/ name = 98 -> 0 <= n < 2 ^ 31 -> b = 19 \/ b = 20 -> entry_ok (demo_file_entry name n b).
Proof.
  intros Hname Hn Hb. split; try done; try (cbn; lia). constructor; [split; [split; lia|lia]|constructor].
Qed.
Lemma files_bytes x : is_byte (files_image x).
Proof.
  unfold files_image. do 2 (apply put_bytes_byte; [apply entry_bytes_ok; by apply files_entry; auto|]).
  unfold full_image. destruct (_ && _); split; done.
Qed.

Lemma files_array name i n b : name = 97 \/ name = 98 -> i = 0 \/ i = 1 -> 0 <= n < 2 ^ 31 -> block_count n = 1 -> b = 19 \/ b = 20 ->
  bytes_at files_image (entry_loc demo_mount i) (Z.to_nat ENTRY_SIZE) = entry_bytes (demo_file_entry name n b) ->
  array_at (2 ^ 30) demo_mount 22 demo_dlo files_image [21] (demo_cached name i n b) [b] (MkArray n (fun _ => 0)).
Proof.
  intros Hname Hi Hn Hbc Hb He.
  assert (Forall (data_block (2 ^ 30) 22 demo_dlo) [b]) as Hd.
  { constructor; [|constructor]. unfold demo_dlo. split; [lia|bpb; lia]. }
  assert (forall o, 0 <= o < BYTES_PER_BLOCK -> files_image (b * BYTES_PER_BLOCK + o) = 0) as Hz.
  { intros o Ho. apply files_zero. unfold demo_dlo. bpb. lia. }
  assert (file_blocks (demo_cached name i n b) = 1) as Hfb by exact Hbc.
  split; [by destruct Hi as [-> | ->]; split| |done| |done].
  - split; [|done|by rewrite Hfb|exact Hd| |exact files_free|].
    + apply (file_ok_list _ 22 demo_dlo files_image _ [b] [END_OF_CHAIN]).
      * reflexivity.
      * by rewrite Hfb.
      * exact Hd.
      * apply NoDup_singleton.
      * intros x _. apply files_bytes.
      * apply Hn.
      * unfold demo_cached. cbn [cache]. by rewrite zlen_replicate, Z2Nat.id.
      * unfold demo_cached. cbn [cache]. by apply Forall_replicate.
      * by intros [].
      * by intros [].
    + split; [done|]. split; [by destruct Hb as [-> | ->]|]. split; [unfold fat_word_ok, fat_loc; cbn; bpb; lia|].
      destruct (files_word b) as [-> | ?]; [|lia]. by destruct Hb as [-> | ->]; vm_compute.
    + change (file_entry (demo_cached name i n b)) with (demo_file_entry name n b). by apply files_entry.
  - intros o Ho. cbn [alen abytes] in *. unfold content. change (cache_hit _ (demo_cached name i n b)) with false. cbv iota.
    assert (o / BYTES_PER_BLOCK = 0) as E by (pose proof (block_of_size o n Ho); lia).
    unfold medium_byte, block_no. rewrite E. change (zget (alloc_map (demo_cached name i n b)) 0) with (Some b).
    cbn [default from_option id]. apply Hz. by apply Z.mod_pos_bound.
Qed.

Lemma files_volume : volume (2 ^ 30) demo_mount 22 demo_dlo (fun _ => True) files_image files_fs files_arrays [[19]; [20]] [21].
Proof.
  split.
  - done.
  - assert (array_at (2 ^ 30) demo_mount 22 demo_dlo files_image [21] (demo_cached 97 0 2 19) [19] (MkArray 2 (fun _ => 0))) as H0.
    { apply files_array; [by left|by left|done|done|by left|]. apply (bool_decide_unpack _). vm_compute. exact I. }
    assert (array_at (2 ^ 30) demo_mount 22 demo_dlo files_image [21] (demo_cached 98 1 BYTES_PER_BLOCK 20) [20] (MkArray BYTES_PER_BLOCK (fun _ => 0))) as H1.
    { apply files_array; [by right|by right|done|done|by right|]. apply (bool_decide_unpack _). vm_compute. exact I. }
    intros [|[|i]] c l a; [by intros [= <-] [= <-] [= <-]..|done].
  - intros [|[|i]] [|[|j]] c d l k Hij; try done; intros [= <-] [= <-] [= <-] [= <-]; (split; [done|]);
      intros x ->%list_elem_of_singleton ?%list_elem_of_singleton; done.
  - repeat constructor; try done; eexists; (split; [reflexivity|done]).
  - done.
Qed.

Definition demo_ops : list op := [Write 0 [65]; Write 1 [66; 67]; Seek 2 0 0; Write 2 [68]; Seek 1 0 0; Read 1 2; Seek 0 0 0; Read 0 9; Seek 1 1 1].
Definition demo_answers : list answer :=
  [Number 1; Number 2; Number 0; Number 1; Number 0; Bytes [68; 0]; Number 0; Bytes [65; 0]; Number (-1)].

Definition demo_after : files := default files_arrays (snd <$> array_run demo_ops files_arrays).

Lemma demo_run : array_run demo_ops files_arrays = Some (demo_answers, demo_after).
Proof.
  assert (fst <$> array_run demo_ops files_arrays = Some demo_answers) as E by (apply (bool_decide_unpack _); vm_compute; exact I).
  unfold demo_after. destruct (array_run demo_ops files_arrays) as [[rs s]|]; [|done]. cbn in *. congruence.
Qed.

Lemma open_files_refine_witness : exists g st',
  array_run demo_ops files_arrays = Some (demo_answers, demo_after) /\
  runs (L := image_laws) files_image (echfs_run 22 demo_ops files_fs) (demo_answers, st') g.
Proof.
  destruct (open_files_refine (L := image_laws) demo_mount 22 demo_dlo 22 demo_ops files_image files_fs files_arrays [[19]; [20]] [21]
    demo_answers demo_after) as (g & st' & ls' & ts' & Hr & _).
  - reflexivity.
  - exact files_volume.
  - repeat constructor; discriminate.
  - exact demo_run.
  - exists g, st'. split; [exact demo_run|exact Hr].
Defined.

End EchfsFiles.
