(* ===== verification/EchfsOpen.v ===== *)
(** * Opening again what was written: [echfs_open] of [kernel/src/fs/echfs.c]

    A handle keeps the end of its file as it was when the handle was opened, so what a
    write appends can be read only through a handle opened later.  [echfs_open] finds
    the length in the directory on the disk and the content in the cached file.  Here
    the calls of [EchfsFiles.v] keep a directory in which every cached file is found by its
    path, and a later [echfs_open] returns a handle on all of the array.  *)

From S2P Require Import Prelude Handle Dev Echfs EchfsFile EchfsGrow EchfsFiles.
Local Open Scope Z_scope.
Local Open Scope st_scope.

Module EchfsOpen.
Import Echfs EchfsFile EchfsGrow EchfsFiles.

(** What opening needs of a volume beyond [BlockDevLaws]: [vfs_kopen] returns a handle
    on the device and changes no byte. *)
Class BlockDevOpen {W : Type} (D : BlockDev W) (sz : Z) {L : BlockDevLaws D sz} := {
  kopen_ok w f : agrees w f -> exists h w', vfs_kopen w = Some (h, w') /\ good_handle h /\ agrees w' f
}.

(** ** Specification: opening an array

    The new position is the first free entry of the table, else a new one; it starts at 0, or
    at the end with [O_APPEND], which is also where seeks count from. *)

Definition array_open (i fl : Z) (s : files) : option (Z * files) :=
  a ← zget (arrays s) i;
  let start := if has_flag fl O_APPEND then alen a else 0 in
  let r := Handle.create_handle pfree (MkPlace i start start (alen a) 0) (places s) in
  Some (r.1, MkFiles (arrays s) r.2 (room s)).

(** ** Specification: the directory

    [n] entries of the table, between the allocation table and the data; every cached
    file is the first with its path, and its path leads to its entry. *)

Section Directory.
Context (sz : Z) (m : mount_t) (lim dlo : Z) (n : nat).

Definition leads (f : image) (p : list Z) (c : cached_file_t) : Prop := exists cs nm d,
  p = 47 :: join cs nm /\ Forall comp_ok cs /\ comp_ok nm /\ nm <> [] /\
  walk (visible m (table f m n)) root cs = Some d /\
  exists e, lookup_entry (visible m (table f m n)) nm (payload d) FILE_TYPE = Some (target_entry (path_result c), e).

Record directory (f : image) (st : fs) : Prop := {
  di_ok : dir_ok sz f m n;
  di_low : fat_loc m lim <= entry_loc m 0;
  di_high : entry_loc m (Z.of_nat n + 1) <= dlo;
  di_leads i c : cached_files st !! i = Some c -> leads f (cpath c) c;
  di_first i c : cached_files st !! i = Some c -> find_cached (cpath c) st = Some (Z.of_nat i)
}.
End Directory.

(** ** Lemmas: the bytes of an entry *)

Lemma bytes_at_plus f loc a b : bytes_at f loc (a + b) = bytes_at f loc a ++ bytes_at f (loc + Z.of_nat a) b.
Proof.
  unfold bytes_at. rewrite seq_app, fmap_app. f_equal. rewrite <- (Nat.add_0_r (0 + a)), <- fmap_add_seq, <- list_fmap_compose.
  apply list_fmap_ext. intros i x _. cbn. f_equal. lia.
Qed.
Lemma of_to_bytes k : forall x, 0 <= x < 256 ^ Z.of_nat k -> of_bytes (to_bytes k x) = x.
Proof.
  induction k as [|k IH]; intros x Hx; cbn [to_bytes of_bytes]; [lia|]. rewrite IH; [rewrite (Z.div_mod x 256) at 3; lia|].
  replace (256 ^ Z.of_nat (S k)) with (256 * 256 ^ Z.of_nat k) in Hx by (rewrite Nat2Z.inj_succ, Z.pow_succ_r; lia).
  split; [apply Z.div_pos; lia|apply Z.div_lt_upper_bound; lia].
Qed.
Lemma text_of_padded s k : Forall (fun c => is_byte c /\ c <> 0) s -> text_of (s ++ replicate (S k) 0) = s.
Proof.
  induction 1 as [|c s [_ Hc] Hs IH]; [done|]. cbn [app text_of]. rewrite (proj2 (Z.eqb_neq _ _)) by done. by rewrite IH.
Qed.
Lemma text_at_bytes f k : forall loc, text_at f k loc = text_of (bytes_at f loc k).
Proof.
  induction k as [|k IH]; intros loc; [done|]. rewrite bytes_at_S. cbn [text_at text_of]. by rewrite IH.
Qed.

(** A field of the entry, and what follows it. *)
Lemma bytes_split f loc k r x y : bytes_at f loc (k + r) = x ++ y -> length x = k ->
  bytes_at f loc k = x /\ bytes_at f (loc + Z.of_nat k) r = y.
Proof.
  intros H Hx. rewrite bytes_at_plus in H. apply app_inj_1 in H; [done|]. rewrite Hx. unfold bytes_at. by rewrite length_fmap, length_seq.
Qed.
Lemma le_bytes f loc k x : bytes_at f loc k = to_bytes k x -> 0 <= x < 256 ^ Z.of_nat k -> le f k loc = x.
Proof. intros H Hx. by rewrite <- of_bytes_at, H, of_to_bytes. Qed.
Lemma byte_bytes f loc x : bytes_at f loc 1 = [x] -> f loc = x.
Proof. rewrite bytes_at_S. by intros [= ->]. Qed.
Lemma to_bytes_length k x : length (to_bytes k x) = k.
Proof. pose proof (to_bytes_len k x). unfold zlen in *. lia. Qed.

Lemma ent_of_bytes f m i e : entry_ok e -> bytes_at f (entry_loc m i) (Z.to_nat ENTRY_SIZE) = entry_bytes e ->
  ent f m i = e /\ named f m i.
Proof.
  intros He H. set (loc := entry_loc m i) in *. set (pad := (Z.to_nat FILENAME_LEN - length (name e))%nat).
  pose proof (eok_len _ He) as Hn. unfold FILENAME_LEN, zlen in Hn.
  assert (length (name e ++ replicate pad 0) = 218%nat) as Hlen.
  { rewrite length_app, length_replicate. unfold pad. change (Z.to_nat FILENAME_LEN) with 218%nat. lia. }
  unfold entry_bytes in H. change (Z.to_nat ENTRY_SIZE) with (8 + (1 + (218 + (1 + (2 + (2 + (6 + (2 + (8 + 8)))))))))%nat in H.
  repeat match type of H with bytes_at _ _ (?k + ?r) = _ ++ _ =>
    let E := fresh "E" in apply bytes_split in H as [E H]; [|first [apply to_bytes_length|exact Hlen|reflexivity]] end.
  fold pad in E1. assert (forall x k, loc + x + k = loc + (x + k)) as Eadd by (intros; lia). rewrite !bytes_at_S in E5. rewrite !Eadd in *.
  repeat match goal with Hx : context [loc + ?k] |- _ => let v := eval vm_compute in k in progress change k with v in Hx end.
  injection E5 as X1 X2 X3 X4 X5 X6.
  assert (pad = S (pred pad)) as Hpad by (unfold pad; change (Z.to_nat FILENAME_LEN) with 218%nat; lia).
  split.
  - destruct He. unfold ent. fold loc. change (Z.to_nat FILENAME_LEN) with 218%nat. rewrite text_at_bytes, E1, Hpad, text_of_padded by done.
    rewrite (le_bytes f loc 8 (parent_id e)), (le_bytes f _ 2 (owner e)), (le_bytes f _ 2 (group e)), (le_bytes f _ 2 (year e)),
      (le_bytes f _ 8 (payload e)), (le_bytes f _ 8 (size e)) by done.
    rewrite (byte_bytes _ _ _ E0), (byte_bytes _ _ _ E2), X1, X2, X3, X4, X5, X6. by destruct e.
  - exists (Z.of_nat (length (name e))). split; [unfold FILENAME_LEN; lia|]. fold loc.
    assert (zget (bytes_at f (loc + 9) 218) (Z.of_nat (length (name e))) = Some 0) as Ez.
    { rewrite E1, zget_nat, lookup_app_r, Nat.sub_diag, Hpad by lia. done. }
    rewrite bytes_at_get in Ez by lia. congruence.
Qed.
Lemma ent_ext f g m i : (forall x, entry_loc m i <= x < entry_loc m i + ENTRY_SIZE -> g x = f x) ->
  ent g m i = ent f m i /\ (named f m i -> named g m i).
Proof.
  unfold ENTRY_SIZE. intros H. split.
  - unfold ent. cbv zeta. f_equal; try (apply le_ext; intros; apply H; lia); try (apply H; lia).
    apply text_at_ext. change (Z.of_nat (Z.to_nat FILENAME_LEN)) with 218. intros; apply H; lia.
  - intros (k & Hk & E). exists k. unfold FILENAME_LEN in *. split; [done|]. by rewrite H by lia.
Qed.

(** ** Lemmas: the entries of files get other lengths and first blocks *)

Definition same_id (e e' : entry_t) : Prop :=
  parent_id e' = parent_id e /\ type e' = type e /\ name e' = name e /\ (type e <> FILE_TYPE -> e' = e).

Lemma find_from_same nm par ty t t' : Forall2 same_id t t' -> forall i,
  match find_from nm par ty i t with
  | Some (k, e) => exists e', find_from nm par ty i t' = Some (k, e') /\ same_id e e'
  | None => find_from nm par ty i t' = None
  end.
Proof.
  induction 1 as [|e e' t t' He _ IH]; intros i; [done|]. cbn [find_from].
  assert (matches nm par ty e' = matches nm par ty e) as -> by (destruct He as (E1 & E2 & E3 & _); unfold matches; by rewrite E1, E2, E3).
  destruct (matches nm par ty e); [by exists e'|apply IH].
Qed.
Lemma find_from_type nm par ty t : forall i k e, find_from nm par ty i t = Some (k, e) -> type e = ty.
Proof.
  intros i k e H. apply find_from_spec in H as (_ & _ & H). unfold matches in H. rewrite !andb_true_iff, Z.eqb_eq, Z.eqb_eq in H. tauto.
Qed.
Lemma walk_same t t' cs : Forall2 same_id t t' -> forall d r, walk t d cs = Some r -> walk t' d cs = Some r.
Proof.
  intros Ht. induction cs as [|c cs IH]; intros d r; [done|]. cbn [walk]. unfold lookup_entry.
  pose proof (find_from_same c (payload d) DIRECTORY_TYPE t t' Ht 0) as Hf.
  destruct (find_from c _ _ _ t) as [[k e]|] eqn:E; [|done]. destruct Hf as (e' & -> & _ & _ & _ & He).
  rewrite He by (by rewrite (find_from_type _ _ _ _ _ _ _ E)). apply IH.
Qed.

Lemma find_cached_same p l l' : Forall2 same_entry l l' -> forall i, find_cached_from p i l' = find_cached_from p i l.
Proof.
  induction 1 as [|c c' l l' Hc _ IH]; intros i; [done|]. cbn [find_cached_from]. by rewrite (se_path _ _ Hc), IH.
Qed.

Section Kept.
Context {W : Type} {D : BlockDev W} {sz : Z} {L : BlockDevLaws D sz}.
Context (m : mount_t) (lim dlo : Z) (n : nat).
#[local] Notation directory := (directory sz m lim dlo n).
#[local] Notation volume := (volume sz m lim dlo good_handle).
#[local] Notation kept := (kept sz m lim dlo).

(** The entry of a cached file on the disk. *)
Lemma cached_ent f st s ls ts i c : volume f st s ls ts -> cached_files st !! i = Some c ->
  ent f m (target_entry (path_result c)) = file_entry c /\ named f m (target_entry (path_result c)).
Proof.
  intros [[V1 V1'] V2 _ _ _] Hc. pose proof (lookup_lt_Some _ _ _ Hc).
  destruct (lookup_lt_is_Some_2 ls i) as [l Hl]; [lia|]. destruct (lookup_lt_is_Some_2 (arrays s) i) as [a Ha]; [lia|].
  destruct (V2 i c l a Hc Hl Ha) as [_ A2 _ _ A5]. by apply ent_of_bytes; [apply A2|].
Qed.

Lemma directory_entry f st i c : directory f st -> cached_files st !! i = Some c ->
  0 <= target_entry (path_result c) < Z.of_nat n /\ type (ent f m (target_entry (path_result c))) = FILE_TYPE.
Proof using D W L.
  intros [D1 D2 D3 D4 D5] Hc. destruct (D4 i c Hc) as (cs & nm & d & _ & _ & _ & _ & _ & e & E).
  pose proof (find_from_type _ _ _ _ _ _ _ E). destruct (lookup_ent f m n D1 nm (payload d) FILE_TYPE _ e E) as (H1 & -> & _). done.
Qed.

Lemma entries_kept f st s ls ts g st' s' ls' ts' j : volume f st s ls ts -> directory f st -> volume g st' s' ls' ts' ->
  kept f st ls ts g st' ls' ts' -> 0 <= j <= Z.of_nat n ->
  same_id (ent f m j) (ent g m j) /\ named g m j /\ (j = Z.of_nat n -> ent g m j = ent f m j).
Proof using D W L.
  intros Hv Hd Hv' [K1 K2 K3 K4 K5 K6] Hj. pose proof Hd as [D1 D2 D3 D4 D5].
  destruct (decide (Exists (fun c => target_entry (path_result c) = j) (cached_files st))) as [He|He].
  - apply Exists_exists in He as (c & Hc & <-). apply list_elem_of_lookup_1 in Hc as (i & Hc).
    destruct (Forall2_lookup_l _ _ _ _ _ K1 Hc) as (c' & Hc' & [S1 S2 S3 S4 S5]).
    destruct (directory_entry f st i c Hd Hc) as [Hlt Hty]. destruct (cached_ent _ _ _ _ _ _ _ Hv Hc) as [E _].
    destruct (cached_ent _ _ _ _ _ _ _ Hv' Hc') as [E' Hn]. rewrite S2 in E', Hn. rewrite E in Hty. split; [|split; [done|lia]].
    rewrite E, E'. unfold same_id. by rewrite S3, S4, S5.
  - assert (forall x, entry_loc m j <= x < entry_loc m j + ENTRY_SIZE -> g x = f x) as Hx.
    { intros x Hx. apply K6.
      - unfold entry_loc, ENTRY_SIZE in *. lia.
      - intros i c Hc. assert (target_entry (path_result c) <> j).
        { intros <-. apply He, Exists_exists. exists c. split; [by eapply list_elem_of_lookup_2|done]. }
        unfold entry_loc, ENTRY_SIZE in *. lia. }
    destruct (ent_ext f g m j Hx) as [-> Hn]. split; [by repeat split|]. split; [by apply Hn, (dok_named _ _ _ _ D1)|done].
Qed.

(** The calls keep the directory. *)
Lemma directory_kept f st s ls ts g st' s' ls' ts' : volume f st s ls ts -> directory f st -> volume g st' s' ls' ts' ->
  kept f st ls ts g st' ls' ts' -> directory g st'.
Proof using D W L.
  intros Hv Hd Hv' Hk. pose proof (fun j => entries_kept f st s ls ts g st' s' ls' ts' j Hv Hd Hv' Hk) as He.
  pose proof Hd as [[O1 O2 O3 O4 O5 O6] D2 D3 D4 D5]. pose proof (kp_files _ _ _ _ _ _ _ _ _ _ _ _ Hk) as K1.
  assert (Forall2 same_id (visible m (table f m n)) (visible m (table g m n))) as Ht.
  { apply Forall2_take, Forall2_same_length_lookup. split; [by rewrite !table_len|]. intros k x y Hx Hy.
    pose proof (lookup_lt_Some _ _ _ Hx) as Hl. rewrite table_len in Hl. rewrite table_lookup in Hx, Hy by done. simplify_eq. apply He. lia. }
  split; [split; try done| | | |]; try done.
  - intros i Hi. by apply He.
  - intros i Hi. destruct (He i ltac:(lia)) as [(-> & _) _]. by apply O3.
  - destruct (He (Z.of_nat n) ltac:(lia)) as (_ & _ & ->); done.
  - intros i c' Hc'. destruct (Forall2_lookup_r _ _ _ _ _ K1 Hc') as (c & Hc & Hs).
    destruct (D4 i c Hc) as (cs & nm & d & E1 & E2 & E3 & E4 & E5 & e & E6). exists cs, nm, d. rewrite (se_path _ _ Hs), (se_target _ _ Hs).
    do 4 (split; [done|]). split; [by apply (walk_same _ _ _ Ht)|].
    pose proof (find_from_same nm (payload d) FILE_TYPE _ _ Ht 0) as Hf. unfold lookup_entry in *. rewrite E6 in Hf.
    destruct Hf as (e' & -> & _). by exists e'.
  - intros i c' Hc'. destruct (Forall2_lookup_r _ _ _ _ _ K1 Hc') as (c & Hc & Hs).
    unfold find_cached. rewrite (find_cached_same _ _ _ K1), (se_path _ _ Hs). by apply D5.
Qed.
End Kept.

(** ** Lemmas: opening *)

(** Two tables with the same entries in use. *)
Lemma create_same {A B} (free : A -> Z) (free' : B -> Z) (R : A -> B -> Prop) l l' x y : (forall a b, R a b -> free a = free' b) ->
  Forall2 R l l' -> R x y ->
  (Handle.create_handle free x l).1 = (Handle.create_handle free' y l').1 /\
  Forall2 R (Handle.create_handle free x l).2 (Handle.create_handle free' y l').2.
Proof.
  intros Hf Hl Hx. unfold Handle.create_handle.
  assert (forall i, Handle.first_free free i l = Handle.first_free free' i l') as ->.
  { induction Hl as [|a b l l' Hab _ IH]; intros i; [done|]. cbn [Handle.first_free]. by rewrite (Hf a b Hab), IH. }
  pose proof (Forall2_length _ _ _ Hl) as Hn. destruct (Handle.first_free free' 0 l').
  - split; [done|]. by apply Forall2_insert.
  - split; [unfold zlen; by rewrite Hn|]. apply Forall2_app; [done|by constructor].
Qed.

Section Open.
Context {W : Type} {D : BlockDev W} {sz : Z} {L : BlockDevLaws D sz} {LO : BlockDevOpen D sz}.
Context (m : mount_t) (lim dlo : Z) (n : nat) (fuel : nat).
#[local] Notation directory := (directory sz m lim dlo n).
#[local] Notation volume := (volume sz m lim dlo good_handle).

(** The new handle is the new position. *)
Lemma volume_opened f st s ls ts i a hd s' st' h fl : volume f st s ls ts -> zget (arrays s) i = Some a -> alen a < 2 ^ 31 ->
  array_open i fl s = Some (hd, s') -> good_handle (dev_handle h) -> zget (mounts st) (device h) = Some m ->
  cached_file h = i -> hfree h = 0 -> end_ h = s32 (alen a) -> ptr h = s32 (if has_flag fl O_APPEND then alen a else 0) ->
  begin h = ptr h -> echfs_create_handle h st = (hd, st') ->
  volume f st' s' ls ts /\ cached_files st' = cached_files st /\ mounts st' = mounts st.
Proof using Type.
  intros Hv Ha H31 Ho Hg Hm Hi Hf He Hp Hb Hc. unfold array_open in Ho. rewrite Ha in Ho. cbn [mbind option_bind] in Ho.
  set (start := if has_flag fl O_APPEND then alen a else 0) in *.
  assert (0 <= alen a) as H0.
  { pose proof (zget_Some _ _ _ Ha). rewrite zget_lookup in Ha by lia.
    destruct (volume_array _ _ _ _ _ _ _ _ _ _ _ _ Hv Ha) as (c & l & _ & _ & [_ A2 A3 _ _]). rewrite <- A3. apply (od_file _ _ _ _ _ _ _ _ A2). }
  assert (0 <= start <= alen a) as Hs by (unfold start; destruct (has_flag fl O_APPEND); lia).
  rewrite s32_small in He, Hp by lia.
  assert (place_ok m good_handle (mounts st) (arrays s) h (MkPlace i start start (alen a) 0)) as Hpo.
  { split; cbn [pfile ppos pbegin pend pfree]; try done; [congruence| |lia]. exists a. split; [done|lia]. }
  destruct Hv as [V1 V2 V3 V4 V5].
  destruct (create_same hfree pfree _ _ _ _ _ (po_free _ _ _ _) V4 Hpo) as [E1 E2].
  unfold echfs_create_handle in Hc. destruct (Handle.create_handle hfree h (handles st)) as [k hs] eqn:Ek. injection Hc as <- <-.
  injection Ho as <- <-. by split; [split|].
Qed.

(** A file that is cached is opened without a change on the disk. *)
Lemma open_cached f st s ls ts i c a dev dn fl md hd s' w : agrees w f -> volume f st s ls ts -> directory f st ->
  cached_files st !! i = Some c -> arrays s !! i = Some a -> alen a < 2 ^ 31 -> zlen (cpath c) < 1024 ->
  find_device dev st = Some dn -> zget (mounts st) dn = Some m -> has_flag fl O_TRUNC = false ->
  array_open (Z.of_nat i) fl s = Some (hd, s') -> exists st' w',
  echfs_open fuel (cpath c) fl md dev st w = Some ((hd, st'), w') /\ agrees w' f /\ volume f st' s' ls ts /\
  cached_files st' = cached_files st /\ mounts st' = mounts st.
Proof using LO.
  intros Hw Hv Hd Hc Ha H31 Hp Hdn Hm Htr Ho.
  destruct (directory_entry m lim dlo n f st i c Hd Hc) as [Hlt Hty]. destruct (cached_ent m lim dlo f st s ls ts i c Hv Hc) as [Een _].
  pose proof Hd as [D1 D2 D3 D4 D5]. destruct (D4 i c Hc) as (cs & nm & d & E1 & E2 & E3 & E4 & E5 & e & E6).
  destruct (lookup_ent f m n D1 _ _ _ _ _ E6) as (_ & -> & _).
  assert (size (file_entry c) = alen a) as Hs.
  { destruct (volume_array _ _ _ _ _ _ _ _ _ _ _ _ Hv Ha) as (c' & l & Hc' & _ & [_ _ A3 _ _]). by simplify_eq. }
  pose proof (runs_get_metadata f m n D1 cs nm FILE_TYPE E2 E3 E4) as Hmd. rewrite <- E1 in Hmd. cbv zeta in Hmd.
  unfold resolved in Hmd. rewrite E5, E6 in Hmd. cbn [failure not_found orb target] in Hmd. rewrite Een, Hs in Hmd.
  destruct (Hmd w Hw) as (w1 & Emd & Hw1). destruct (kopen_ok w1 f Hw1) as (kh1 & w2 & Ew2 & Hg2 & Hw2).
  set (start := if has_flag fl O_APPEND then alen a else 0).
  set (h := MkHandle 0 (cpath c) fl md (s32 start) (s32 start) (s32 (alen a)) dn kh1 (Z.of_nat i)).
  destruct (echfs_create_handle h st) as [hd' st'] eqn:Ech.
  assert (hd' = hd) as ->.
  { unfold echfs_create_handle in Ech. unfold array_open in Ho. rewrite zget_nat, Ha in Ho. cbn [mbind option_bind] in Ho. injection Ho as <- _.
    pose proof (Forall2_impl _ _ _ _ (vo_places _ _ _ _ _ _ _ _ _ _ Hv) (po_free _ _ _ _)) as Hfree.
    pose proof (create_same hfree pfree (fun h p => hfree h = pfree p) _ _ h (MkPlace (Z.of_nat i) start start (alen a) 0) (fun _ _ E => E) Hfree eq_refl) as [E _].
    destruct (Handle.create_handle hfree h (handles st)) as [k hs]. injection Ech as <- _. exact E. }
  exists st', w2. split; [|split; [done|]].
  - unfold echfs_open, mount_of. rewrite Hdn. cbn [mbind option_bind]. rewrite Hm. unfold st_bind at 1 2, st_lift.
    rewrite (st_bind_ok _ _ _ _ _ Emd). unfold st_bind at 1, st_ret at 1. rewrite Htr. unfold st_bind at 1, st_ret at 1. cbn [fst snd].
    unfold lookup_cached. rewrite (D5 i c Hc). unfold st_bind at 1, st_ret at 1. cbn [fst snd].
    rewrite (st_bind_ok _ _ _ _ _ Ew2). rewrite decide_True by done. unfold st_ret. do 2 f_equal. exact Ech.
  - by apply (volume_opened f st s ls ts (Z.of_nat i) a hd s' st' h fl); rewrite ?zget_nat.
Qed.

(** A read through the new position. *)
Lemma opened_read f st s ls ts i a fl hd s' len : volume f st s ls ts -> array_open (Z.of_nat i) fl s = Some (hd, s') ->
  arrays s !! i = Some a -> has_flag fl O_APPEND = false -> 0 <= len -> exists s2,
  array_run [Read hd len] s' = Some ([Bytes (bytes_at (abytes a) 0 (Z.to_nat (Z.min len (alen a))))], s2).
Proof using Type.
  intros Hv Ho Ha Hap Hl. unfold array_open in Ho. rewrite zget_nat, Ha in Ho. cbn [mbind option_bind] in Ho. rewrite Hap in Ho.
  assert (0 <= alen a) as H0.
  { destruct (volume_array _ _ _ _ _ _ _ _ _ _ _ _ Hv Ha) as (c & l & _ & _ & [_ A2 A3 _ _]). rewrite <- A3. apply (od_file _ _ _ _ _ _ _ _ A2). }
  destruct (Handle.create_handle pfree (MkPlace (Z.of_nat i) 0 0 (alen a) 0) (places s)) as [k ps] eqn:Ek. injection Ho as <- <-.
  destruct (Handle.create_handle_ok pfree (MkPlace (Z.of_nat i) 0 0 (alen a) 0) _ _ _ eq_refl Ek) as (_ & [Hk _] & _). cbn [array_run array_step array_read places arrays].
  unfold array_read. cbn [places arrays]. rewrite Hk. cbn [mbind option_bind pfile ppos pend]. rewrite zget_nat, Ha. cbn [mbind option_bind].
  rewrite Z.sub_0_r, Z.max_r by lia. cbn [fst snd]. by eexists.
Qed.

End Open.

(** * Properties *)

(** C6: What is written is read back through a handle that is opened later.  From a volume
    whose cached files are found by their paths, after any reads, writes and seeks through
    any handles for which there is room, [echfs_open] of the path of a cached file,
    without [O_TRUNC] and [O_APPEND], returns a handle, and a read of any length returns
    the bytes of its array from the start, up to the length asked for or the end, with
    everything the calls before have written to it and appended: the new handle takes
    the length from the directory entry, which every write keeps up to date, and the
    bytes from the cached block and the disk. *)
Theorem written_is_reread {W : Type} {D : BlockDev W} {sz : Z} {L : BlockDevLaws D sz} {LO : BlockDevOpen D sz}
    (m : mount_t) (lim dlo : Z) (n fuel : nat) (ops : list op) (f : image) (st : fs) (s : files) (ls : list (list Z)) (ts : list Z)
    (rs : list answer) (s' : files) (i : nat) (c : cached_file_t) (a : array) (dev : list Z) (dn fl md len : Z) (w : W) :
  (Z.to_nat lim <= fuel)%nat -> volume sz m lim dlo good_handle f st s ls ts -> directory sz m lim dlo n f st ->
  Forall op_ok ops -> array_run ops s = Some (rs, s') -> agrees w f ->
  cached_files st !! i = Some c -> arrays s' !! i = Some a -> alen a < 2 ^ 31 -> zlen (cpath c) < 1024 ->
  find_device dev st = Some dn -> zget (mounts st) dn = Some m ->
  has_flag fl O_TRUNC = false -> has_flag fl O_APPEND = false -> 0 <= len ->
  exists w',
    (let! r := echfs_run fuel ops st in
     let! o := echfs_open fuel (cpath c) fl md dev r.2 in
     let! t := echfs_run fuel [Read o.1 len] o.2 in
     st_ret (r.1, t.1)) w = Some ((rs, [Bytes (bytes_at (abytes a) 0 (Z.to_nat (Z.min len (alen a))))]), w').
Proof.
  intros Hfuel Hv Hd Hops Hrun Hw Hc Ha H31 Hp Hdn Hm Htr Hap Hl.
  destruct (run_answers m lim dlo fuel Hfuel ops f st s ls ts rs s' Hv Hops Hrun) as (g & st1 & ls1 & ts1 & R1 & V1 & K1).
  pose proof (directory_kept m lim dlo n f st s ls ts g st1 s' ls1 ts1 Hv Hd V1 K1) as Hd1.
  destruct (Forall2_lookup_l _ _ _ _ _ (kp_files _ _ _ _ _ _ _ _ _ _ _ _ K1) Hc) as (c1 & Hc1 & Hs1).
  pose proof (kp_mounts _ _ _ _ _ _ _ _ _ _ _ _ K1) as Hms. destruct (R1 w Hw) as (w1 & E1 & Hw1).
  destruct (array_open (Z.of_nat i) fl s') as [[hd s2]|] eqn:Eo; [|unfold array_open in Eo; by rewrite zget_nat, Ha in Eo].
  destruct (open_cached m lim dlo n fuel g st1 s' ls1 ts1 i c1 a dev dn fl md hd s2 w1 Hw1 V1 Hd1 Hc1 Ha H31) as (st2 & w2 & E2 & Hw2 & V2 & _ & _);
    [by rewrite (se_path _ _ Hs1)|unfold find_device in *; by rewrite Hms|by rewrite Hms|done|done|].
  rewrite (se_path _ _ Hs1) in E2.
  assert (exists s3, array_run [Read hd len] s2 = Some ([Bytes (bytes_at (abytes a) 0 (Z.to_nat (Z.min len (alen a))))], s3)) as (s3 & Hread).
  { eapply opened_read; [exact V1|exact Eo|exact Ha|done|done]. }
  assert (Forall op_ok [Read hd len]) as Hok by (by repeat constructor).
  destruct (run_answers m lim dlo fuel Hfuel _ g st2 s2 ls1 ts1 _ s3 V2 Hok Hread) as (g3 & st3 & ls3 & ts3 & R3 & _ & _).
  destruct (R3 w2 Hw2) as (w3 & E3 & _).
  exists w3. rewrite (st_bind_ok _ _ _ _ _ E1). cbn [fst snd]. rewrite (st_bind_ok _ _ _ _ _ E2). cbn [fst snd].
  by rewrite (st_bind_ok _ _ _ _ _ E3).
Qed.

(** * Witness: a byte appended to the file a of [EchfsFiles.v]

    The file has two bytes; three are written from its start. *)

#[export] Instance image_open : BlockDevOpen image_dev (2 ^ 30).
Proof. split. intros w f Hw. by exists 0, w. Qed.

Lemma files_entry_at i : i = 0 \/ i = 1 -> ent files_image demo_mount i = demo_file_entry (97 + i) (if decide (i = 0) then 2 else BYTES_PER_BLOCK) (19 + i) /\
  named files_image demo_mount i.
Proof.
  intros [-> | ->]; (apply ent_of_bytes; [by apply files_entry; auto|]); apply (bool_decide_unpack _); vm_compute; exact I.
Qed.
Lemma files_end : ent files_image demo_mount 2 = empty_entry /\ named files_image demo_mount 2.
Proof.
  split; [vm_compute; reflexivity|]. exists 0. split; [done|]. vm_compute. reflexivity.
Qed.

Lemma files_dir : dir_ok (2 ^ 30) files_image demo_mount 2.
Proof.
  assert (forall i, 0 <= i < 2 -> i = 0 \/ i = 1) as H2 by (intros; lia).
  split; [| | | |done|done].
  - intros i Hi. unfold in_volume, entry_loc, ENTRY_SIZE. change (dirstart demo_mount * BYTES_PER_BLOCK) with 557056. lia.
  - intros i Hi. destruct (decide (i = 2)) as [-> |]; [apply files_end|]. apply files_entry_at, H2. lia.
  - intros i Hi. by destruct (files_entry_at i (H2 i Hi)) as [-> _].
  - change (Z.of_nat 2) with 2. by rewrite (proj1 files_end).
Qed.
Lemma files_table : table files_image demo_mount 2 = [demo_file_entry 97 2 19; demo_file_entry 98 BYTES_PER_BLOCK 20].
Proof.
  unfold table. cbn [seq fmap list_fmap]. change (Z.of_nat 0) with 0. change (Z.of_nat 1) with 1.
  destruct (files_entry_at 0) as [-> _]; [by left|]. by destruct (files_entry_at 1) as [-> _]; [by right|].
Qed.
Lemma files_directory : directory (2 ^ 30) demo_mount 22 demo_dlo 2 files_image files_fs.
Proof.
  split; [exact files_dir|discriminate|discriminate| |].
  - assert (forall name, name = 97 \/ name = 98 -> comp_ok [name]) as Hc.
    { intros name Hn. split; [constructor; [lia|constructor]|reflexivity]. }
    intros [|[|i]] c; try done; intros [= <-].
    + exists [], [97], root. do 4 (split; [by auto|]). split; [reflexivity|]. rewrite files_table. by eexists.
    + exists [], [98], root. do 4 (split; [by auto|]). split; [reflexivity|]. rewrite files_table. by eexists.
  - intros [|[|i]] c; try done; by intros [= <-].
Qed.

Lemma written_is_reread_witness : exists w',
  (let! r := echfs_run 22 [Write 0 [65; 66; 67]] files_fs in
   let! o := echfs_open 22 [47; 97] 0 0 [98] r.2 in
   let! t := echfs_run 22 [Read o.1 9] o.2 in
   st_ret (r.1, t.1)) files_image = Some (([Number 3], [Bytes [65; 66; 67]]), w').
Proof.
  destruct (written_is_reread (L := image_laws) demo_mount 22 demo_dlo 2 22 [Write 0 [65; 66; 67]] files_image files_fs files_arrays
    [[19]; [20]] [21] [Number 3] (MkFiles [MkArray 3 (put_bytes (fun _ => 0) 0 [65; 66; 67]); MkArray BYTES_PER_BLOCK (fun _ => 0)]
      [MkPlace 0 3 0 2 0; MkPlace 1 BYTES_PER_BLOCK 0 BYTES_PER_BLOCK 0; MkPlace 1 0 0 BYTES_PER_BLOCK 0] 1)
    0 (demo_cached 97 0 2 19) (MkArray 3 (put_bytes (fun _ => 0) 0 [65; 66; 67])) [98] 0 0 0 9 files_image) as (w' & E).
  - reflexivity.
  - exact files_volume.
  - exact files_directory.
  - constructor; [|constructor]. repeat constructor; discriminate.
  - reflexivity.
  - split; [intros l; apply files_bytes|done].
  - reflexivity.
  - reflexivity.
  - reflexivity.
  - reflexivity.
  - reflexivity.
  - reflexivity.
  - reflexivity.
  - reflexivity.
  - discriminate.
  - exists w'. exact E.
Defined.

End EchfsOpen.
