(* ===== verification/Gdt.v ===== *)
(** * Descriptor tables: [kernel/src/drivers/gdt.c]

    The global descriptor table, whose entries 5 and 6 are the code and data
    segments of the running task and whose entry 10 is the local descriptor table
    of that task.  The values of [TSS] and [TSS_size], symbols of an assembly file,
    are arguments; [lgdt], [ltr] and [lldt] and the changes of privilege level are
    not modelled. *)

From S2P Require Import Prelude.
Local Open Scope Z_scope.

Module Gdt.

(** [struct dt_entry] *)
Record dt_entry := MkEntry {
  limit_low : Z; base_low : Z; base_mid : Z; access : Z; granularity : Z; base_high : Z
}.

Definition GDT_ENTRIES : Z := 11.
(** [sizeof(struct dt_entry)] *)
Definition ENTRY_BYTES : Z := 8.

(** An entry with this base and limit fields and the flags of [e]; [high] has bits
    16 to 19 of the limit. *)
Definition with_segment (base low high : Z) (e : dt_entry) : dt_entry :=
  MkEntry (Z.land low 0xffff) (Z.land base 0xffff) (Z.shiftr (Z.land base 0xff0000) 16) (access e)
    (Z.lor (Z.land (granularity e) 240) (Z.shiftr (Z.land high 0xf0000) 16))
    (Z.shiftr (Z.land base 0xff000000) 24).

(** The high bits of the limit are those of [page_count], not of [page_count - 1]. *)
Definition set_segment (dt : list dt_entry) (entry base page_count : Z) : option (list dt_entry) :=
  e ← zget dt entry; zset dt entry (with_segment base (u32 (page_count - 1)) page_count e).

Definition flat (acc gran : Z) : dt_entry := MkEntry 0xffff 0 0 acc gran 0.
Definition blank (acc gran : Z) : dt_entry := MkEntry 0 0 0 acc gran 0.

(** The table [load_gdt] fills, every field of every entry. *)
Definition load_gdt (TSS TSS_size : Z) : list dt_entry := [
  blank 0 0;
  flat 154 207; flat 146 207;      (* ring 0 *)
  flat 186 207; flat 178 207;      (* kernel *)
  blank 250 192; blank 242 192;    (* user *)
  flat 154 143; flat 146 143;      (* 16 bits *)
  MkEntry (Z.land TSS_size 0xffff) (Z.land TSS 0xffff) (Z.land TSS 0xff0000 / 0x10000) 169 0
    (Z.land TSS 0xff000000 / 0x1000000);
  blank 162 0].

Definition load_ldt (gdt : list dt_entry) (base entries : Z) : option (list dt_entry) :=
  let limit := if entries =? 0 then 0 else u32 (entries * ENTRY_BYTES - 1) in
  e ← zget gdt 10; zset gdt 10 (with_segment base limit limit e).

(** ** Specification: what the processor reads in an entry *)

Definition seg_base (e : dt_entry) : Z := base_low e + base_mid e * 2 ^ 16 + base_high e * 2 ^ 24.
Definition seg_limit (e : dt_entry) : Z := limit_low e + granularity e mod 16 * 2 ^ 16.
Definition seg_ring (e : dt_entry) : Z := access e / 32 mod 4.

(** The table as the scheduler leaves it: the segments of the task in ring 3, the
    others as they were loaded. *)
Definition gdt_ok (TSS TSS_size : Z) (gdt : list dt_entry) : Prop :=
  zlen gdt = GDT_ENTRIES /\
  forall i e, zget gdt i = Some e -> exists e0, zget (load_gdt TSS TSS_size) i = Some e0 /\
    access e = access e0 /\ granularity e / 16 = granularity e0 / 16 /\
    (i <> 5 -> i <> 6 -> i <> 10 -> e = e0).

(** ** Lemmas *)

Lemma land_low x n : 0 <= n -> Z.land x (Z.ones n) = x mod 2 ^ n.
Proof. intros. by apply Z.land_ones. Qed.

Lemma land_field x k n : 0 <= k -> 0 <= n -> Z.shiftr (Z.land x (Z.shiftl (Z.ones n) k)) k = x / 2 ^ k mod 2 ^ n.
Proof.
  intros Hk Hn. rewrite Z.shiftr_land, Z.shiftr_shiftl_l, Z.sub_diag, Z.shiftl_0_r by lia.
  rewrite Z.land_ones, Z.shiftr_div_pow2 by lia. done.
Qed.

Lemma land_disjoint k h : 0 <= h < 16 -> Z.land (Z.shiftl k 4) h = 0.
Proof.
  intros Hh. apply Z.bits_inj'. intros n Hn. rewrite Z.bits_0, Z.land_spec, Z.shiftl_spec by lia.
  destruct (decide (n < 4)); [by rewrite (Z.testbit_neg_r _ (n - 4)) by lia|].
  rewrite (Z.bits_above_log2 h), andb_false_r; [done|lia|].
  destruct (decide (h = 0)) as [->|]; [simpl; lia|].
  assert (Z.log2 h < 4) by (apply Z.log2_lt_pow2; lia). lia.
Qed.

Lemma lor_split g h : 0 <= h < 16 -> Z.lor (Z.land g 240) h = 16 * (g / 16 mod 16) + h.
Proof.
  intros Hh. assert (Z.land g 240 = Z.shiftl (g / 16 mod 16) 4) as ->.
  { pose proof (land_field g 4 4 ltac:(lia) ltac:(lia)) as H.
    change (Z.shiftl (Z.ones 4) 4) with 240 in H. change (2 ^ 4) with 16 in H. rewrite <- H.
    rewrite Z.shiftr_div_pow2, Z.shiftl_mul_pow2 by lia.
    assert (Z.land g 240 mod 2 ^ 4 = 0) as Hz.
    { rewrite <- land_low, <- Z.land_assoc by lia. apply Z.land_0_r. }
    change (2 ^ 4) with 16 in *. zdml. }
  rewrite <- Z.lxor_lor, <- Z.add_nocarry_lxor by (by apply land_disjoint).
  rewrite Z.shiftl_mul_pow2 by lia. lia.
Qed.

Lemma with_segment_spec base low high e : let e' := with_segment base low high e in
  0 <= base < 2 ^ 32 ->
  seg_base e' = base /\ seg_limit e' = low mod 2 ^ 16 + high / 2 ^ 16 mod 16 * 2 ^ 16 /\
  access e' = access e /\ granularity e' / 16 = granularity e / 16 mod 16.
Proof.
  intros e' Hb. unfold seg_base, seg_limit, e', with_segment. cbn [limit_low base_low base_mid base_high access granularity].
  change 0xffff with (Z.ones 16). rewrite !land_low by lia.
  change 0xff0000 with (Z.shiftl (Z.ones 8) 16). change 0xff000000 with (Z.shiftl (Z.ones 8) 24).
  change 0xf0000 with (Z.shiftl (Z.ones 4) 16). rewrite !land_field by lia.
  change (2 ^ 4) with 16. rewrite lor_split by (apply Z.mod_pos_bound; lia).
  change (2 ^ 16) with 65536 in *. change (2 ^ 24) with 16777216. change (2 ^ 8) with 256.
  change (2 ^ 32) with 4294967296 in *.
  split; [zdml|]. split; [|split; [done|zdml]]. f_equal. zdml.
Qed.

Lemma load_gdt_ok TSS n : gdt_ok TSS n (load_gdt TSS n).
Proof. split; [done|]. intros i e He. by exists e. Qed.

(** The flags of the entries that change. *)
Lemma load_gdt_flags TSS n i e0 : i = 5 \/ i = 6 \/ i = 10 -> zget (load_gdt TSS n) i = Some e0 ->
  granularity e0 / 16 mod 16 = granularity e0 / 16 /\ seg_ring e0 = if decide (i = 10) then 1 else 3.
Proof. intros [-> |[-> | ->]] [= <-]; by vm_compute. Qed.

Lemma put_segment TSS n gdt i base low high : gdt_ok TSS n gdt -> i = 5 \/ i = 6 \/ i = 10 ->
  0 <= base < 2 ^ 32 -> exists e gdt', zget gdt i = Some e /\
  zset gdt i (with_segment base low high e) = Some gdt' /\ gdt_ok TSS n gdt' /\
  exists e', zget gdt' i = Some e' /\ seg_base e' = base /\
    seg_limit e' = low mod 2 ^ 16 + high / 2 ^ 16 mod 16 * 2 ^ 16 /\
    seg_ring e' = if decide (i = 10) then 1 else 3.
Proof.
  intros [Hl Hg] Hi Hb. assert (0 <= i < zlen gdt) as Hr by (rewrite Hl; unfold GDT_ENTRIES; lia).
  destruct (zget_is_Some gdt i Hr) as [e He]. destruct (Hg i e He) as (e0 & H0 & Ha & Hf & _).
  destruct (load_gdt_flags TSS n i e0 Hi H0) as [Hfl Hri].
  destruct (with_segment_spec base low high e Hb) as (S1 & S2 & S3 & S4).
  pose proof (zset_ok gdt i (with_segment base low high e) Hr) as Es.
  eexists e, _. split; [done|]. split; [exact Es|]. split.
  - split; [by rewrite (zset_len _ _ _ _ Es)|]. intros j f Hj. rewrite (zget_zset _ _ _ _ _ Es) in Hj.
    case_decide as Hij; [|by apply Hg]. subst j. injection Hj as <-. exists e0.
    split; [done|]. split; [congruence|]. split; [by rewrite S4, Hf|]. lia.
  - exists (with_segment base low high e). rewrite (zget_zset _ _ _ _ _ Es), decide_True by done.
    split; [done|]. split; [done|]. split; [done|]. unfold seg_ring in *. by rewrite S3, Ha.
Qed.

(** * Properties *)

(** The descriptor table keeps its shape: the table [load_gdt] fills, and every
    table it becomes by [set_segment] on the task's two segments and by [load_ldt],
    has the privilege levels and flags it was loaded with.  [set_segment] makes the
    segment start at the base in ring 3; its limit is the last page asked for, except
    that a page count that is a multiple of 65536 gives 65536 pages too many, the high
    bits being taken from the count and not from the last page.  [load_ldt] gives the
    base and the last byte of the entries. *)
Theorem segments_correct (TSS n : Z) (gdt : list dt_entry) (i base pages entries : Z) :
  gdt_ok TSS n gdt -> i = 5 \/ i = 6 -> 0 <= base < 2 ^ 32 ->
  0 < pages < 2 ^ 20 -> 0 < entries < 2 ^ 17 ->
  gdt_ok TSS n (load_gdt TSS n) /\
  (exists gdt' e, set_segment gdt i base pages = Some gdt' /\ gdt_ok TSS n gdt' /\
     zget gdt' i = Some e /\ seg_base e = base /\ seg_ring e = 3 /\
     seg_limit e = pages - 1 + (if decide (pages mod 65536 = 0) then 65536 else 0)) /\
  (exists gdt' e, load_ldt gdt base entries = Some gdt' /\ gdt_ok TSS n gdt' /\
     zget gdt' 10 = Some e /\ seg_base e = base /\ seg_ring e = 1 /\ seg_limit e = entries * 8 - 1).
Proof.
  intros Hg Hi Hb Hp He. split; [apply load_gdt_ok|]. split.
  - destruct (put_segment TSS n gdt i base (u32 (pages - 1)) pages Hg ltac:(tauto) Hb)
      as (e & gdt' & E1 & E2 & Hg' & e' & E3 & S1 & S2 & S3).
    exists gdt', e'. unfold set_segment. rewrite E1. split; [exact E2|]. do 3 (split; [done|]).
    rewrite decide_False in S3 by lia. split; [done|]. rewrite S2. unfold u32.
    change (2 ^ 16) with 65536. change (2 ^ 32) with 4294967296. case_decide; zdml.
  - destruct (put_segment TSS n gdt 10 base (u32 (entries * 8 - 1)) (u32 (entries * 8 - 1)) Hg ltac:(tauto) Hb)
      as (e & gdt' & E1 & E2 & Hg' & e' & E3 & S1 & S2 & S3).
    exists gdt', e'. unfold load_ldt, ENTRY_BYTES. rewrite (proj2 (Z.eqb_neq _ _)) by lia. rewrite E1.
    split; [exact E2|]. do 3 (split; [done|]). split; [done|]. rewrite S2. unfold u32.
    change (2 ^ 16) with 65536. change (2 ^ 32) with 4294967296. zdml.
Qed.

(** * Witnesses *)

(** A task of 256 MiB can reach the next 256 MiB as well. *)
Lemma segments_correct_witness : exists gdt' e,
  set_segment (load_gdt 0 104) 5 0x400000 65536 = Some gdt' /\ zget gdt' 5 = Some e /\
  seg_limit e = 131071.
Proof.
  destruct (segments_correct 0 104 (load_gdt 0 104) 5 0x400000 65536 1)
    as (_ & (gdt' & e & E1 & _ & E2 & _ & _ & E3) & _).
  - apply load_gdt_ok.
  - left. reflexivity.
  - split; [discriminate|reflexivity].
  - split; reflexivity.
  - split; reflexivity.
  - exists gdt', e. split; [exact E1|]. split; [exact E2|exact E3].
Defined.

End Gdt.
