(* ===== verification/Task.v ===== *)
(** * Tasks: the table and the scheduler of [kernel/src/task.c]

    A task is a [task_t]; the task table is an array of pointers, each null, the mark
    [EMPTY_PID] of a task that has quit, or a task.  The state of this file is the
    part [sched] of the kernel's state [W], reached through the interface [Kernel],
    which also has what the code calls: the kernel heap, the memory of the tasks and
    the transfers a task can wait for.  [None] is a panic or an access outside of an
    array or through a null or [EMPTY_PID] pointer.

    [task_scheduler] never returns to its caller: its result is the task whose
    registers it loads, or that the processor idles until an interrupt. *)

From S2P Require Import Prelude Handle Gdt.
Local Open Scope Z_scope.
Local Open Scope st_scope.

Module Task.
Import Gdt Handle.

Definition KRN_STAT_ACTIVE_TASK : Z := 1.
Definition KRN_STAT_RES_TASK : Z := 2.
Definition KRN_STAT_IOWAIT_TASK : Z := 3.
Definition KRN_STAT_IPCWAIT_TASK : Z := 4.
Definition KRN_STAT_PROCWAIT_TASK : Z := 5.
Definition KRN_STAT_VDEVWAIT_TASK : Z := 6.
Definition KRNL_MAX_TASKS : Z := 65536.
Definition PAGE_SIZE : Z := 4096.
Definition IO_NOT_READY : Z := -5.
Definition FAILURE : Z := -1.

(** [struct gpr_state] *)
Record gpr_state := MkGpr {
  eax : Z; ebx : Z; ecx : Z; edx : Z; esi : Z; edi : Z; ebp : Z;
  ds : Z; es : Z; fs : Z; gs : Z;
  eip : Z; cs : Z; eflags : Z; esp : Z; ss : Z
}.
Definition default_cpu_status : gpr_state := MkGpr 0 0 0 0 0 0 0 0x33 0x33 0x33 0x33 0 0x2b 0x1202 0 0x33.

Definition with_eax (v : Z) (c : gpr_state) : gpr_state :=
  MkGpr v (ebx c) (ecx c) (edx c) (esi c) (edi c) (ebp c) (ds c) (es c) (fs c) (gs c) (eip c) (cs c)
    (eflags c) (esp c) (ss c).
Definition with_edx (v : Z) (c : gpr_state) : gpr_state :=
  MkGpr (eax c) (ebx c) (ecx c) v (esi c) (edi c) (ebp c) (ds c) (es c) (fs c) (gs c) (eip c) (cs c)
    (eflags c) (esp c) (ss c).
Definition with_entry (ip sp : Z) (c : gpr_state) : gpr_state :=
  MkGpr (eax c) (ebx c) (ecx c) (edx c) (esi c) (edi c) (ebp c) (ds c) (es c) (fs c) (gs c) ip (cs c)
    (eflags c) sp (ss c).

(** A received packet; [payload] is its block of the kernel heap, [None] once freed. *)
Record ipc_packet_t := MkPacket { sender : Z; plength : Z; payload : option (list Z) }.

(** [iowait_dev], [iowait_loc], ... of a task. *)
Record iowait_t := MkIowait {
  dev : list Z; loc : Z; type : Z; wpayload : Z; handle : Z; ptr : Z; len : Z; done_ : Z
}.
Definition no_iowait : iowait_t := MkIowait [] 0 0 0 0 0 0 0.

(** The texts of a task. *)
Record names_t := MkNames {
  name : list Z; server_name : list Z; stdin : list Z; stdout : list Z; stderr : list Z
}.

(** The [char] arrays are their texts, the tables behind pointers are lists; the
    counts [ipc_queue_ptr], [file_handles_ptr] and [file_handles_v2_ptr] are their
    lengths, and [ldt] holds the whole entries of its block. *)
Record task_t := MkTask {
  status : Z; parent : Z; base : Z; pages : Z; cpu : gpr_state;
  pwd : list Z; names : names_t; iowait : iowait_t; ipc_queue : list ipc_packet_t;
  heap_base : Z; heap_size : Z; ldt : list dt_entry; ldt_entries : Z; ldt_ptr : Z;
  signals : list Z;
  file_handles : list file_handle_t; file_handles_v2 : list file_handle_v2_t
}.

Definition with_status (v0 : Z) (t : task_t) : task_t :=
  MkTask v0 (parent t) (base t) (pages t) (cpu t) (pwd t) (names t) (iowait t) (ipc_queue t)
    (heap_base t) (heap_size t) (ldt t) (ldt_entries t) (ldt_ptr t) (signals t) (file_handles t)
    (file_handles_v2 t).
Definition with_parent (v0 : Z) (t : task_t) : task_t :=
  MkTask (status t) v0 (base t) (pages t) (cpu t) (pwd t) (names t) (iowait t) (ipc_queue t)
    (heap_base t) (heap_size t) (ldt t) (ldt_entries t) (ldt_ptr t) (signals t) (file_handles t)
    (file_handles_v2 t).
Definition with_cpu (v0 : gpr_state) (t : task_t) : task_t :=
  MkTask (status t) (parent t) (base t) (pages t) v0 (pwd t) (names t) (iowait t) (ipc_queue t)
    (heap_base t) (heap_size t) (ldt t) (ldt_entries t) (ldt_ptr t) (signals t) (file_handles t)
    (file_handles_v2 t).
Definition with_base (v0 : Z) (v1 : Z) (t : task_t) : task_t :=
  MkTask (status t) (parent t) v0 v1 (cpu t) (pwd t) (names t) (iowait t) (ipc_queue t) (heap_base
    t) (heap_size t) (ldt t) (ldt_entries t) (ldt_ptr t) (signals t) (file_handles t)
    (file_handles_v2 t).
Definition with_pwd (v0 : list Z) (t : task_t) : task_t :=
  MkTask (status t) (parent t) (base t) (pages t) (cpu t) v0 (names t) (iowait t) (ipc_queue t)
    (heap_base t) (heap_size t) (ldt t) (ldt_entries t) (ldt_ptr t) (signals t) (file_handles t)
    (file_handles_v2 t).
Definition with_names (v0 : names_t) (t : task_t) : task_t :=
  MkTask (status t) (parent t) (base t) (pages t) (cpu t) (pwd t) v0 (iowait t) (ipc_queue t)
    (heap_base t) (heap_size t) (ldt t) (ldt_entries t) (ldt_ptr t) (signals t) (file_handles t)
    (file_handles_v2 t).
Definition with_iowait (v0 : iowait_t) (t : task_t) : task_t :=
  MkTask (status t) (parent t) (base t) (pages t) (cpu t) (pwd t) (names t) v0 (ipc_queue t)
    (heap_base t) (heap_size t) (ldt t) (ldt_entries t) (ldt_ptr t) (signals t) (file_handles t)
    (file_handles_v2 t).
Definition with_ipc_queue (v0 : list ipc_packet_t) (t : task_t) : task_t :=
  MkTask (status t) (parent t) (base t) (pages t) (cpu t) (pwd t) (names t) (iowait t) v0 (heap_base
    t) (heap_size t) (ldt t) (ldt_entries t) (ldt_ptr t) (signals t) (file_handles t)
    (file_handles_v2 t).
Definition with_heap (v0 : Z) (v1 : Z) (t : task_t) : task_t :=
  MkTask (status t) (parent t) (base t) (pages t) (cpu t) (pwd t) (names t) (iowait t) (ipc_queue t)
    v0 v1 (ldt t) (ldt_entries t) (ldt_ptr t) (signals t) (file_handles t) (file_handles_v2 t).
Definition with_ldt (v0 : list dt_entry) (v1 : Z) (v2 : Z) (t : task_t) : task_t :=
  MkTask (status t) (parent t) (base t) (pages t) (cpu t) (pwd t) (names t) (iowait t) (ipc_queue t)
    (heap_base t) (heap_size t) v0 v1 v2 (signals t) (file_handles t) (file_handles_v2 t).
Definition with_signals (v0 : list Z) (t : task_t) : task_t :=
  MkTask (status t) (parent t) (base t) (pages t) (cpu t) (pwd t) (names t) (iowait t) (ipc_queue t)
    (heap_base t) (heap_size t) (ldt t) (ldt_entries t) (ldt_ptr t) v0 (file_handles t)
    (file_handles_v2 t).
Definition with_file_handles (v0 : list file_handle_t) (t : task_t) : task_t :=
  MkTask (status t) (parent t) (base t) (pages t) (cpu t) (pwd t) (names t) (iowait t) (ipc_queue t)
    (heap_base t) (heap_size t) (ldt t) (ldt_entries t) (ldt_ptr t) (signals t) v0 (file_handles_v2
    t).
Definition with_file_handles_v2 (v0 : list file_handle_v2_t) (t : task_t) : task_t :=
  MkTask (status t) (parent t) (base t) (pages t) (cpu t) (pwd t) (names t) (iowait t) (ipc_queue t)
    (heap_base t) (heap_size t) (ldt t) (ldt_entries t) (ldt_ptr t) (signals t) (file_handles t) v0.

(** An entry of [task_table]. *)
Inductive slot := NoTask | EmptyPid | Task (t : task_t).

Record sched := MkSched {
  task_table : list slot;
  current_task : Z;
  idle_cpu : Z;
  gdt : list dt_entry
}.
Definition with_table (l : list slot) (s : sched) : sched := MkSched l (current_task s) (idle_cpu s) (gdt s).
Definition with_current (c : Z) (s : sched) : sched := MkSched (task_table s) c (idle_cpu s) (gdt s).
Definition with_idle (i : Z) (s : sched) : sched := MkSched (task_table s) (current_task s) i (gdt s).
Definition with_gdt (g : list dt_entry) (s : sched) : sched := MkSched (task_table s) (current_task s) (idle_cpu s) g.

(** What the rest of the kernel provides. *)
Class Kernel (W : Type) := {
  get_sched : W -> sched;
  set_sched : sched -> W -> W;
  kalloc : Z -> ST W Z;                          (** size; 0 when there is no memory *)
  kfree : Z -> ST W unit;
  krealloc : Z -> Z -> ST W Z;                   (** address, new size *)
  mem_read : Z -> Z -> ST W (list Z);            (** address, length *)
  mem_write : Z -> list Z -> ST W unit;
  mem_str : Z -> ST W (list Z);                  (** the C string at an address *)
  tty_kputs : list Z -> ST W unit;
  vfs_kread : list Z -> Z -> ST W Z;
  vfs_kwrite : list Z -> Z -> Z -> ST W Z;
  read : Z -> Z -> Z -> ST W (Z * Z);            (** the result and [read_stat] *)
  write : Z -> Z -> Z -> ST W (Z * Z)            (** the result and [write_stat] *)
}.

(** A computation that neither reads nor changes the scheduler's state. *)
Definition frame {W : Type} {K : Kernel W} {A} (m : ST W A) : Prop := forall s w,
  m (set_sched s w) = match m w with Some (a, w') => Some (a, set_sched s w') | None => None end.

(** The scheduler's state is a part of the kernel's, which the heap, the memory of the
    tasks and the messages leave alone. *)
Class KernelLaws {W : Type} (K : Kernel W) := {
  get_set s w : get_sched (set_sched s w) = s;
  set_set s s' w : set_sched s (set_sched s' w) = set_sched s w;
  set_get w : set_sched (get_sched w) w = w;
  kalloc_frame n : frame (kalloc n);
  kfree_frame a : frame (kfree a);
  mem_read_frame a n : frame (mem_read a n);
  mem_write_frame a l : frame (mem_write a l);
  tty_kputs_frame l : frame (tty_kputs l)
}.

Section Tasks.
Context {W : Type} {K : Kernel W}.

Definition st_get : ST W sched := fun w => Some (get_sched w, w).
Definition st_put (s : sched) : ST W unit := fun w => Some (tt, set_sched s w).
Definition st_modify (f : sched -> sched) : ST W unit := fun w => Some (tt, set_sched (f (get_sched w)) w).

(** [task_table[pid]] as a pointer to a task that is read, and stored through. *)
Definition get_task (pid : Z) : ST W task_t :=
  let! s := st_get in
  let! e := st_lift (zget (task_table s) pid) in
  match e with Task t => st_ret t | _ => st_fail end.
Definition set_slot (pid : Z) (e : slot) : ST W unit :=
  let! s := st_get in
  let! l := st_lift (zset (task_table s) pid e) in
  st_put (with_table l s).
Definition put_task (pid : Z) (t : task_t) : ST W unit := set_slot pid (Task t).
Definition current : ST W Z := let! s := st_get in st_ret (current_task s).
Definition this_task : ST W task_t := let! c := current in get_task c.
Definition put_this (t : task_t) : ST W unit := let! c := current in put_task c t.

(** ** [task_create] *)

Definition is_task (e : slot) : bool := match e with Task _ => true | _ => false end.

(** The first index whose entry is null or [EMPTY_PID], the length if there is none. *)
Fixpoint find_slot (i : Z) (l : list slot) : Z :=
  match l with [] => i | e :: l => if is_task e then find_slot (i + 1) l else i end.

(** [sizeof(task_t)] is an argument. *)
Definition task_create (sizeof_task : Z) (new_task : task_t) : ST W Z :=
  let! s := st_get in
  let new_pid := find_slot 0 (task_table s) in
  if new_pid =? KRNL_MAX_TASKS then st_ret FAILURE
  else
    let! p := kalloc sizeof_task in
    if p =? 0 then set_slot new_pid EmptyPid ;; st_ret FAILURE
    else put_task new_pid new_task ;; st_ret new_pid.

(** ** [task_scheduler] *)

Inductive outcome := Run (pid : Z) | Idle.

Definition next_task : ST W (option outcome) :=
  st_modify (fun s => with_current (current_task s + 1) s) ;; st_ret None.

(** [KRN_STAT_ACTIVE_TASK]: the segments of the task, then its registers. *)
Definition run_task : ST W (option outcome) :=
  st_modify (with_idle 0) ;;
  let! s := st_get in
  let! t := this_task in
  let! g := st_lift (set_segment (gdt s) 5 (base t) (pages t)) in
  let! g := st_lift (set_segment g 6 (base t) (pages t)) in
  let! g := st_lift (load_ldt g (ldt_ptr t) (ldt_entries t)) in
  st_put (with_gdt g s) ;;
  st_ret (Some (Run (current_task s))).

(** A wait that is over: its result in [eax], then on to [KRN_STAT_ACTIVE_TASK]. *)
Definition finish_wait (v : Z) : ST W (option outcome) :=
  let! t := this_task in
  put_this (with_status KRN_STAT_ACTIVE_TASK (with_cpu (with_eax (u32 v) (cpu t)) t)) ;;
  run_task.

(** [iowait_type] 0 and 1. *)
Definition poll_dev (poll : ST W Z) : ST W (option outcome) :=
  let! c := poll in
  if c =? IO_NOT_READY then next_task else finish_wait c.

(** [iowait_type] 2 and 3. *)
Definition poll_handle (poll : ST W (Z * Z)) : ST W (option outcome) :=
  let! r := poll in
  let! t := this_task in
  let w := iowait t in
  if r.2 =? 0 then finish_wait (done_ w + r.1)
  else
    put_this (with_iowait (MkIowait (dev w) (loc w) (type w) (wpayload w) (handle w) (ptr w) (len w)
      (s32 (done_ w + r.1))) t) ;;
    next_task.

Definition poll_wait (w : iowait_t) : ST W (option outcome) :=
  if type w =? 0 then poll_dev (vfs_kread (dev w) (loc w))
  else if type w =? 1 then poll_dev (vfs_kwrite (dev w) (loc w) (wpayload w))
  else if type w =? 2 then poll_handle (read (handle w) (u32 (ptr w + done_ w)) (s32 (len w - done_ w)))
  else if type w =? 3 then poll_handle (write (handle w) (u32 (ptr w + done_ w)) (s32 (len w - done_ w)))
  else st_fail.

(** One turn of the loop: [None] is [continue]. *)
Definition scheduler_turn : ST W (option outcome) :=
  let! s := st_get in
  let! e := st_lift (zget (task_table s) (current_task s)) in
  match e with
  | NoTask =>
      st_put (with_current 0 s) ;;
      if idle_cpu s =? 0 then st_modify (with_idle 1) ;; st_ret None else st_ret (Some Idle)
  | EmptyPid => next_task
  | Task t =>
      if status t =? KRN_STAT_IOWAIT_TASK then poll_wait (iowait t)
      else if status t =? KRN_STAT_ACTIVE_TASK then run_task
      else if (status t =? KRN_STAT_IPCWAIT_TASK) || (status t =? KRN_STAT_PROCWAIT_TASK) ||
              (status t =? KRN_STAT_VDEVWAIT_TASK) || (status t =? KRN_STAT_RES_TASK) then next_task
      else st_fail
  end.

Fixpoint task_scheduler (fuel : nat) : ST W outcome :=
  match fuel with
  | O => st_fail
  | S fuel => let! r := scheduler_turn in
              match r with Some o => st_ret o | None => task_scheduler fuel end
  end.

Definition task_switch (fuel : nat) (c : gpr_state) : ST W outcome :=
  let! t := this_task in
  put_this (with_cpu c t) ;;
  st_modify (fun s => with_current (current_task s + 1) s) ;;
  task_scheduler fuel.

(** ** [task_quit]

    The blocks of the task's two tables and of the task itself are values here, so
    the only [kfree] with an address is that of the task's memory.  A task that quits
    itself does not come back: the result is what the scheduler runs next. *)
Definition task_quit (fuel : nat) (pid return_value : Z) : ST W (option outcome) :=
  let! t := get_task pid in
  let! p := get_task (parent t) in
  (if status p =? KRN_STAT_PROCWAIT_TASK then
     put_task (parent t) (with_status KRN_STAT_ACTIVE_TASK
       (with_cpu (with_edx (u32 (Z.shiftr return_value 32)) (with_eax (u32 return_value) (cpu p))) p))
   else st_ret tt) ;;
  let! t := get_task pid in
  kfree (base t) ;;
  set_slot pid EmptyPid ;;
  let! c := current in
  if pid =? c then let! o := task_scheduler fuel in st_ret (Some o) else st_ret None.

Definition task_quit_self (fuel : nat) (return_value : Z) : ST W (option outcome) :=
  let! c := current in task_quit fuel c return_value.

(** ** [task_init] *)

Definition kernel_task : task_t :=
  MkTask KRN_STAT_RES_TASK 0 0 0 (MkGpr 0 0 0 0 0 0 0 0 0 0 0 0 0 0 0 0) [47]
    (MkNames [107; 101; 114; 110; 101; 108] [] [] [] []) no_iowait [] 0 0 [] 0 0 (replicate 6 0) [] [].

Definition task_init (sizeof_task : Z) : ST W unit :=
  let! p := kalloc (KRNL_MAX_TASKS * 4) in
  if p =? 0 then st_fail
  else
    let! q := kalloc sizeof_task in
    if q =? 0 then st_fail
    else st_modify (with_table (Task kernel_task :: replicate (Z.to_nat (KRNL_MAX_TASKS - 1)) NoTask)).

End Tasks.

(** ** Specification: round robin *)

(** The first active task of the table from index [i] on, up to the first null entry. *)
Fixpoint find_active (i : Z) (l : list slot) : option Z :=
  match l with
  | [] | NoTask :: _ => None
  | EmptyPid :: l => find_active (i + 1) l
  | Task t :: l => if status t =? KRN_STAT_ACTIVE_TASK then Some i else find_active (i + 1) l
  end.

(** The task to run after index [c]: the first active one from there on, else the
    first one of the table. *)
Definition round_robin (c : Z) (l : list slot) : option Z :=
  match find_active c (drop (Z.to_nat c) l) with Some p => Some p | None => find_active 0 l end.

(** No entry up to the first null one waits for a transfer, and there is a null one. *)
Fixpoint settled (l : list slot) : Prop :=
  match l with
  | [] => False
  | NoTask :: _ => True
  | EmptyPid :: l => settled l
  | Task t :: l => (status t = 1 \/ status t = 2 \/ 4 <= status t <= 6) /\ settled l
  end.

Lemma settled_suffix c l : 0 <= c -> settled (drop (Z.to_nat c) l) -> c < zlen l.
Proof.
  intros Hc H. destruct (decide (c < zlen l)) as [|Hge]; [done|]. unfold zlen in *.
  rewrite drop_ge in H by lia. done.
Qed.

Section Laws.
Context {W : Type} {K : Kernel W} {L : KernelLaws K}.
#[local] Set Default Proof Using "Type*".

(** ** Lemmas: one turn *)

(** In [k] turns the scheduler gets from [s] to [s']. *)
Definition reaches (k : nat) (s s' : sched) : Prop := forall fuel w,
  task_scheduler (k + fuel) (set_sched s w) = task_scheduler fuel (set_sched s' w).

Lemma reaches_refl s : reaches 0 s s.
Proof. by intros fuel w. Qed.
Lemma reaches_step k s s1 s2 : (forall w, scheduler_turn (set_sched s w) = Some (None, set_sched s1 w)) ->
  reaches k s1 s2 -> reaches (S k) s s2.
Proof.
  intros Hs Hk fuel w. cbn [Nat.add task_scheduler]. erewrite st_bind_ok by apply Hs. apply Hk.
Qed.
Lemma reaches_trans k j s s1 s2 : reaches k s s1 -> reaches j s1 s2 -> reaches (k + j) s s2.
Proof. intros Hk Hj fuel w. rewrite <- Nat.add_assoc, Hk. apply Hj. Qed.

Lemma turn_entry s e w : zget (task_table s) (current_task s) = Some e ->
  scheduler_turn (set_sched s w) =
  match e with
  | NoTask => if idle_cpu s =? 0 then Some (None, set_sched (with_idle 1 (with_current 0 s)) w)
              else Some (Some Idle, set_sched (with_current 0 s) w)
  | EmptyPid => next_task (set_sched s w)
  | Task t =>
      (if status t =? KRN_STAT_IOWAIT_TASK then poll_wait (iowait t)
       else if status t =? KRN_STAT_ACTIVE_TASK then run_task
       else if (status t =? KRN_STAT_IPCWAIT_TASK) || (status t =? KRN_STAT_PROCWAIT_TASK) ||
               (status t =? KRN_STAT_VDEVWAIT_TASK) || (status t =? KRN_STAT_RES_TASK) then next_task
       else st_fail) (set_sched s w)
  end.
Proof.
  intros He. unfold scheduler_turn, st_get, st_bind at 1. rewrite get_set. unfold st_bind at 1, st_lift.
  rewrite He. destruct e; [|done..]. unfold st_bind at 1, st_put. rewrite set_set.
  destruct (idle_cpu s =? 0); [|done]. unfold st_bind, st_modify, st_ret. by rewrite get_set, set_set.
Qed.

Lemma next_task_ok s w : next_task (set_sched s w) = Some (None, set_sched (with_current (current_task s + 1) s) w).
Proof. unfold next_task, st_bind, st_modify, st_ret. by rewrite get_set, set_set. Qed.

(** Running a task leaves only the descriptors and the idle mark changed. *)
Lemma run_task_ok s t w : zget (task_table s) (current_task s) = Some (Task t) -> zlen (gdt s) = GDT_ENTRIES ->
  exists g, run_task (set_sched s w) =
    Some (Some (Run (current_task s)), set_sched (MkSched (task_table s) (current_task s) 0 g) w) /\
    zlen g = GDT_ENTRIES.
Proof.
  intros Ht Hg. unfold GDT_ENTRIES in *.
  destruct (zget_is_Some (gdt s) 5) as [e1 E1]; [lia|].
  pose proof (zset_ok (gdt s) 5 (with_segment (base t) (u32 (pages t - 1)) (pages t) e1) ltac:(lia)) as S1.
  set (g1 := <[Z.to_nat 5:=_]> (gdt s)) in S1.
  assert (zlen g1 = 11) as L1 by (by rewrite (zset_len _ _ _ _ S1)).
  destruct (zget_is_Some g1 6) as [e2 E2]; [lia|].
  pose proof (zset_ok g1 6 (with_segment (base t) (u32 (pages t - 1)) (pages t) e2) ltac:(lia)) as S2.
  set (g2 := <[Z.to_nat 6:=_]> g1) in S2.
  assert (zlen g2 = 11) as L2 by (by rewrite (zset_len _ _ _ _ S2)).
  destruct (zget_is_Some g2 10) as [e3 E3]; [lia|].
  set (lim := if ldt_entries t =? 0 then 0 else u32 (ldt_entries t * ENTRY_BYTES - 1)).
  pose proof (zset_ok g2 10 (with_segment (ldt_ptr t) lim lim e3) ltac:(lia)) as S3.
  eexists. split; [|by rewrite (zset_len _ _ _ _ S3)].
  unfold run_task, this_task, current, get_task, st_bind, st_get, st_modify, st_lift, st_put, st_ret.
  repeat (rewrite get_set || rewrite set_set). cbn [task_table current_task with_idle gdt]. rewrite Ht.
  unfold set_segment. rewrite E1. cbn [mbind option_bind]. rewrite S1, E2. cbn [mbind option_bind]. rewrite S2.
  unfold load_ldt. rewrite E3. cbn [mbind option_bind]. fold lim. rewrite S3, set_set. done.
Qed.

(** ** Lemmas: the walk *)

Lemma find_active_spec i l p : find_active i l = Some p ->
  exists t, zget l (p - i) = Some (Task t) /\ status t = KRN_STAT_ACTIVE_TASK /\ i <= p.
Proof.
  revert i. induction l as [|[| |t] l IH]; intros i; cbn [find_active]; try done.
  - intros H. destruct (IH _ H) as (t & Hg & Ht & Hp). exists t. split; [|split; [done|lia]].
    rewrite zget_cons, decide_False by lia. by replace (p - i - 1) with (p - (i + 1)) by lia.
  - destruct (Z.eqb_spec (status t) KRN_STAT_ACTIVE_TASK) as [Et|Et].
    + intros [= <-]. exists t. rewrite Z.sub_diag. done.
    + intros H. destruct (IH _ H) as (t' & Hg & Ht & Hp). exists t'. split; [|split; [done|lia]].
      rewrite zget_cons, decide_False by lia. by replace (p - i - 1) with (p - (i + 1)) by lia.
Qed.

Lemma walk_ok l : forall s, 0 <= current_task s -> drop (Z.to_nat (current_task s)) (task_table s) = l -> settled l ->
  match find_active (current_task s) l with
  | Some p => exists k, (k < List.length l)%nat /\ reaches k s (with_current p s)
  | None => exists k n, (k < List.length l)%nat /\ reaches k s (with_current n s) /\
              zget (task_table s) n = Some NoTask
  end.
Proof.
  induction l as [|e l IH]; intros s Hc Hd Hs; [done|].
  assert (zget (task_table s) (current_task s) = Some e) as He.
  { rewrite zget_lookup by done. rewrite <- (Nat.add_0_r (Z.to_nat _)), <- lookup_drop, Hd. done. }
  assert (drop (Z.to_nat (current_task s + 1)) (task_table s) = l) as Hd'.
  { replace (Z.to_nat (current_task s + 1)) with (Z.to_nat (current_task s) + 1)%nat by lia.
    by rewrite <- drop_drop, Hd. }
  assert (with_current (current_task s) s = s) as Hsame by (by destruct s).
  assert ((forall w, scheduler_turn (set_sched s w) = Some (None, set_sched (with_current (current_task s + 1) s) w)) ->
    settled l -> match find_active (current_task s + 1) l with
    | Some p => exists k, (k < List.length (e :: l))%nat /\ reaches k s (with_current p s)
    | None => exists k n, (k < List.length (e :: l))%nat /\ reaches k s (with_current n s) /\
                zget (task_table s) n = Some NoTask
    end) as Hskip.
  { intros Ht Hl. specialize (IH (with_current (current_task s + 1) s) ltac:(cbn; lia) Hd' Hl).
    cbn [current_task with_current task_table] in IH. destruct (find_active _ l) as [p|].
    - destruct IH as (k & Hk & Hr). exists (S k). split; [cbn [List.length]; lia|]. by eapply reaches_step.
    - destruct IH as (k & n & Hk & Hr & Hn). exists (S k), n. split; [cbn [List.length]; lia|].
      split; [by eapply reaches_step|done]. }
  destruct e as [| |t]; cbn [find_active].
  - exists 0%nat, (current_task s). split; [cbn [List.length]; lia|]. split; [|done].
    rewrite Hsame. apply reaches_refl.
  - apply Hskip; [|done]. intros w. rewrite (turn_entry s EmptyPid) by done. apply next_task_ok.
  - destruct Hs as [Hst Hl]. destruct (Z.eqb_spec (status t) KRN_STAT_ACTIVE_TASK) as [Et|Et].
    + exists 0%nat. split; [cbn [List.length]; lia|]. rewrite Hsame. apply reaches_refl.
    + apply Hskip; [|done]. intros w. rewrite (turn_entry s (Task t)) by done.
      unfold KRN_STAT_ACTIVE_TASK, KRN_STAT_IOWAIT_TASK, KRN_STAT_RES_TASK, KRN_STAT_IPCWAIT_TASK,
        KRN_STAT_PROCWAIT_TASK, KRN_STAT_VDEVWAIT_TASK in *.
      rewrite (proj2 (Z.eqb_neq _ 3)), (proj2 (Z.eqb_neq _ 1)) by lia.
      assert ((status t =? 4) || (status t =? 5) || (status t =? 6) || (status t =? 2) = true) as ->.
      { rewrite !orb_true_iff, !Z.eqb_eq. lia. }
      apply next_task_ok.
Qed.

(** What [task_scheduler] runs next from a settled table. *)
Definition next_of (s : sched) : option Z :=
  if idle_cpu s =? 0 then round_robin (current_task s) (task_table s)
  else find_active (current_task s) (drop (Z.to_nat (current_task s)) (task_table s)).

Definition ran (s : sched) (w : W) (r : option (outcome * W)) : Prop :=
  match next_of s with
  | Some p => exists g, r = Some (Run p, set_sched (MkSched (task_table s) p 0 g) w) /\ zlen g = GDT_ENTRIES
  | None => r = Some (Idle, set_sched (MkSched (task_table s) 0 1 (gdt s)) w)
  end.

(** Running the task at [p], which the walk has reached. *)
Lemma run_at fuel s i p w : find_active i (drop (Z.to_nat i) (task_table s)) = Some p -> 0 <= i ->
  zlen (gdt s) = GDT_ENTRIES -> exists g,
  task_scheduler (S fuel) (set_sched (with_current p s) w) =
    Some (Run p, set_sched (MkSched (task_table s) p 0 g) w) /\ zlen g = GDT_ENTRIES.
Proof.
  intros Hf Hi Hg. destruct (find_active_spec _ _ _ Hf) as (t & Ht & Est & Hp).
  assert (zget (task_table s) p = Some (Task t)) as Ht'.
  { rewrite zget_drop in Ht by lia. by replace (i + (p - i)) with p in Ht by lia. }
  destruct (run_task_ok (with_current p s) t w Ht' Hg) as (g & Hr & Hl). exists g. split; [|done].
  cbn [task_scheduler]. unfold st_bind. rewrite (turn_entry (with_current p s) (Task t)) by done.
  rewrite Est. cbn [Z.eqb Pos.eqb KRN_STAT_ACTIVE_TASK KRN_STAT_IOWAIT_TASK]. by rewrite Hr.
Qed.

Lemma scheduler_ok s w fuel : 0 <= current_task s -> settled (task_table s) ->
  settled (drop (Z.to_nat (current_task s)) (task_table s)) -> zlen (gdt s) = GDT_ENTRIES ->
  idle_cpu s = 0 \/ idle_cpu s = 1 ->
  (2 * List.length (task_table s) < fuel)%nat -> ran s w (task_scheduler fuel (set_sched s w)).
Proof.
  intros Hc H0 H1 Hg Hidle Hf. unfold ran, next_of, round_robin.
  assert (List.length (drop (Z.to_nat (current_task s)) (task_table s)) <= List.length (task_table s))%nat as Hlen
    by (rewrite length_drop; lia).
  pose proof (walk_ok _ s Hc eq_refl H1) as Hw.
  destruct (find_active (current_task s) _) as [p|] eqn:Ef.
  - destruct Hw as (k & Hk & Hr). destruct (run_at (fuel - S k) s (current_task s) p w Ef Hc Hg) as (g & Hg' & Hl).
    replace fuel with (k + S (fuel - S k))%nat by lia. rewrite (Hr _ w).
    destruct (idle_cpu s =? 0); by exists g.
  - destruct Hw as (k & n & Hk & Hr & Hn).
    assert (forall w0, scheduler_turn (set_sched (with_current n s) w0) =
      if idle_cpu s =? 0 then Some (None, set_sched (with_idle 1 (with_current 0 s)) w0)
      else Some (Some Idle, set_sched (with_current 0 s) w0)) as Hnull
      by (intros w0; by rewrite (turn_entry (with_current n s) NoTask)).
    destruct (Z.eqb_spec (idle_cpu s) 0) as [Ei|Ei].
    + set (s1 := with_idle 1 (with_current 0 s)) in *.
      assert (reaches (S k) s s1) as Hr1.
      { replace (S k) with (k + 1)%nat by lia. eapply reaches_trans; [exact Hr|].
        eapply reaches_step; [exact Hnull|apply reaches_refl]. }
      pose proof (walk_ok (task_table s) s1 ltac:(done) ltac:(done) H0) as Hw1.
      change (current_task s1) with 0 in Hw1. destruct (find_active 0 (task_table s)) as [p|] eqn:Ef0.
      * destruct Hw1 as (j & Hj & Hrj).
        destruct (run_at (fuel - S (S k + j)) s1 0 p w Ef0 ltac:(done) Hg) as (g & Hg' & Hl).
        replace fuel with (S k + j + S (fuel - S (S k + j)))%nat by lia.
        rewrite (reaches_trans _ _ _ _ _ Hr1 Hrj _ w). by exists g.
      * destruct Hw1 as (j & m & Hj & Hrj & Hm).
        replace fuel with (S k + j + S (fuel - S (S k + j)))%nat by lia.
        rewrite (reaches_trans _ _ _ _ _ Hr1 Hrj _ w). cbn [task_scheduler]. unfold st_bind.
        by rewrite (turn_entry (with_current m s1) NoTask).
    + replace fuel with (k + S (fuel - S k))%nat by lia. rewrite (Hr _ w). cbn [task_scheduler]. unfold st_bind.
      rewrite Hnull. destruct Hidle as [|Hidle]; [done|]. unfold with_current. cbn [task_table gdt idle_cpu]. by rewrite Hidle.
Qed.

(** ** Lemmas: switching *)

(** An entry the walk passes over or runs. *)
Definition settling (e : slot) : Prop :=
  match e with NoTask => False | EmptyPid => True | Task t => status t = 1 \/ status t = 2 \/ 4 <= status t <= 6 end.
Lemma settled_set l k t e : l !! k = Some (Task t) -> settling e -> settled l -> settled (<[k:=e]> l).
Proof using.
  intros Hk He. revert k Hk. induction l as [|e0 l IH]; intros [|k]; cbn; try done.
  - intros [= ->] [_ H]. by destruct e.
  - intros Hk. destruct e0; [done|by apply IH|]. intros [? ?]. split; [done|by apply IH].
Qed.
Lemma settled_drop_set l n k t e : l !! k = Some (Task t) -> settling e -> settled (drop n l) -> settled (drop n (<[k:=e]> l)).
Proof using.
  intros Hk He H. destruct (decide (k < n)%nat) as [Hn|Hn]; [by rewrite drop_insert_lt|].
  rewrite drop_insert_ge by lia. apply (settled_set _ _ t); [|done|done].
  rewrite lookup_drop. by replace (n + (k - n))%nat with k by lia.
Qed.

Lemma settled_put l k t c : l !! k = Some (Task t) -> settled l -> settled (<[k:=Task (with_cpu c t)]> l).
Proof.
  revert k. induction l as [|e l IH]; intros [|k]; cbn; try done.
  - by intros [= ->].
  - intros Hk. destruct e; [done|by apply IH|]. intros [? ?]. split; [done|by apply IH].
Qed.

Lemma find_active_exists i l k t : l !! k = Some (Task t) -> status t = KRN_STAT_ACTIVE_TASK ->
  Forall (fun e => e <> NoTask) (take k l) -> exists p, find_active i l = Some p.
Proof.
  revert i k. induction l as [|e l IH]; intros i [|k]; cbn; try done.
  - intros [= ->] -> _. rewrite Z.eqb_refl. by eexists.
  - intros Hk Ht Hn. apply Forall_cons in Hn as [He Hn]. destruct e as [| |t']; [done| |destruct (_ =? _); [by eexists|]];
      by apply (IH (i + 1) k).
Qed.

End Laws.

(** ** Lemmas: tasks *)

Lemma find_slot_spec i l : let p := find_slot i l in i <= p <= i + zlen l /\
  (forall j, i <= j < p -> exists t, zget l (j - i) = Some (Task t)) /\
  (p < i + zlen l -> forall t, zget l (p - i) <> Some (Task t)).
Proof.
  revert i. induction l as [|e l IH]; intros i; cbn [find_slot].
  - rewrite zlen_nil. split; [lia|]. split; intros; lia.
  - rewrite zlen_cons. pose proof (zlen_nonneg l). destruct e as [| |t]; cbn [is_task].
    1,2: split; [lia|]; split; [lia|]; rewrite Z.sub_diag; done.
    destruct (IH (i + 1)) as (H0 & H1 & H2). split; [lia|]. split.
    + intros j Hj. destruct (decide (j = i)) as [->|]; [exists t; by rewrite Z.sub_diag|].
      destruct (H1 j) as (t' & Ht'); [lia|]. exists t'. rewrite zget_cons, decide_False by lia.
      by replace (j - i - 1) with (j - (i + 1)) by lia.
    + intros Hp t'. rewrite zget_cons, decide_False by lia.
      replace (find_slot (i + 1) l - i - 1) with (find_slot (i + 1) l - (i + 1)) by lia. apply H2. lia.
Qed.

Section Access.
Context {W : Type} {K : Kernel W} {L : KernelLaws K}.
#[local] Set Default Proof Using "Type*".

Lemma get_task_ok s w i t : zget (task_table s) i = Some (Task t) ->
  get_task i (set_sched s w) = Some (t, set_sched s w).
Proof. intros Ht. unfold get_task, st_bind, st_get, st_lift, st_ret. by rewrite get_set, Ht. Qed.
Lemma get_task_none s w i : (forall t, zget (task_table s) i <> Some (Task t)) -> get_task i (set_sched s w) = None.
Proof.
  intros Ht. unfold get_task, st_bind, st_get, st_lift, st_ret. rewrite get_set.
  destruct (zget _ i) as [[| |t]|]; [done|done|by destruct (Ht t)|done].
Qed.
Lemma set_slot_ok s w i e l : zset (task_table s) i e = Some l ->
  set_slot i e (set_sched s w) = Some (tt, set_sched (with_table l s) w).
Proof. intros El. unfold set_slot, st_bind, st_get, st_lift, st_put. by rewrite get_set, El, set_set. Qed.
Lemma current_ok s w : current (set_sched s w) = Some (current_task s, set_sched s w).
Proof. unfold current, st_bind, st_get, st_ret. by rewrite get_set. Qed.
Lemma this_task_ok s w t : zget (task_table s) (current_task s) = Some (Task t) ->
  this_task (set_sched s w) = Some (t, set_sched s w).
Proof. intros Ht. unfold this_task, st_bind. by rewrite current_ok, (get_task_ok s w _ t). Qed.
Lemma put_this_ok s w t l : zset (task_table s) (current_task s) (Task t) = Some l ->
  put_this t (set_sched s w) = Some (tt, set_sched (with_table l s) w).
Proof. intros El. unfold put_this, put_task, st_bind. by rewrite current_ok, (set_slot_ok s w _ _ l). Qed.
Lemma frame_ok {A} (m : ST W A) s w a w' : frame m -> m w = Some (a, w') ->
  m (set_sched s w) = Some (a, set_sched s w').
Proof. intros Hm E. by rewrite Hm, E. Qed.

(** ** Lemmas: quitting *)

(** The parent [p] of a task that quits with [v]. *)
Definition told (v : Z) (p : task_t) : task_t :=
  if status p =? KRN_STAT_PROCWAIT_TASK
  then with_status KRN_STAT_ACTIVE_TASK (with_cpu (with_edx (u32 (Z.shiftr v 32)) (with_eax (u32 v) (cpu p))) p)
  else p.
(** The table after the task [pid] has quit. *)
Definition quit_table (pid par v : Z) (p : task_t) (l : list slot) : list slot :=
  <[Z.to_nat pid := EmptyPid]> (<[Z.to_nat par := Task (told v p)]> l).

Lemma quit_ok s w w' pid v t p fuel : zget (task_table s) pid = Some (Task t) -> parent t <> pid ->
  zget (task_table s) (parent t) = Some (Task p) -> kfree (base t) w = Some (tt, w') ->
  task_quit fuel pid v (set_sched s w) =
    (if pid =? current_task s then let! o := task_scheduler fuel in st_ret (Some o) else st_ret None)
    (set_sched (with_table (quit_table pid (parent t) v p (task_table s)) s) w').
Proof.
  intros Ht Hp Ep Hk. pose proof (zget_Some _ _ _ Ep) as Hr. pose proof (zget_Some _ _ _ Ht) as Hr'.
  set (l0 := <[Z.to_nat (parent t):=Task (told v p)]> (task_table s)).
  pose proof (zset_ok (task_table s) (parent t) (Task (told v p)) Hr) as El. fold l0 in El.
  unfold task_quit. erewrite st_bind_ok by (by apply get_task_ok). erewrite st_bind_ok by (by apply get_task_ok).
  erewrite (st_bind_ok _ _ _ tt (set_sched (with_table l0 s) w)).
  2:{ unfold told in El, l0. destruct (status p =? _); [unfold put_task; by apply set_slot_ok|].
      unfold l0. rewrite list_insert_id by (by rewrite <- zget_lookup by lia). by destruct s. }
  erewrite st_bind_ok.
  2:{ apply (get_task_ok _ _ _ t). cbn [task_table with_table]. rewrite (zget_zset _ _ _ _ _ El). by rewrite decide_False. }
  erewrite st_bind_ok by (by apply frame_ok; [apply kfree_frame|]).
  erewrite st_bind_ok by (apply set_slot_ok; cbn [task_table with_table]; apply zset_ok; by rewrite (zset_len _ _ _ _ El)).
  erewrite st_bind_ok by (apply current_ok). cbn [current_task with_table]. by destruct (pid =? _).
Qed.

Lemma quit_table_get pid par v p t q l : zget l pid = Some (Task t) -> zget l par = Some (Task q) -> par <> pid ->
  forall i, zget (quit_table pid par v p l) i =
    if decide (i = pid) then Some EmptyPid else if decide (i = par) then Some (Task (told v p)) else zget l i.
Proof using.
  intros Ht Hq Hne i. pose proof (zset_ok l par (Task (told v p)) (zget_Some _ _ _ Hq)) as E0.
  pose proof (zset_ok (<[Z.to_nat par:=Task (told v p)]> l) pid EmptyPid) as E1.
  rewrite (zset_len _ _ _ _ E0) in E1. specialize (E1 (zget_Some _ _ _ Ht)).
  unfold quit_table. rewrite (zget_zset _ _ _ _ _ E1), (zget_zset _ _ _ _ _ E0). repeat case_decide; congruence.
Qed.

Lemma quit_settled n pid par v p t l : zget l pid = Some (Task t) -> zget l par = Some (Task p) -> par <> pid ->
  (status p = KRN_STAT_PROCWAIT_TASK \/ told v p = p) -> settled (drop n l) -> settled (drop n (quit_table pid par v p l)).
Proof using.
  intros Ht Hp Hne Hs H. pose proof (zget_Some _ _ _ Ht). pose proof (zget_Some _ _ _ Hp).
  rewrite zget_lookup in Ht, Hp by lia. unfold quit_table. apply (settled_drop_set _ _ _ t); [|done|].
  { rewrite list_lookup_insert_ne by lia. done. }
  destruct Hs as [Hs| ->]; [|by rewrite list_insert_id].
  apply (settled_drop_set _ _ _ p); [done| |done]. unfold told. rewrite Hs. by left.
Qed.

Lemma quit_runs_next s w w' pid v t p fuel : zget (task_table s) pid = Some (Task t) -> parent t <> pid ->
  zget (task_table s) (parent t) = Some (Task p) -> kfree (base t) w = Some (tt, w') ->
  pid = current_task s -> settled (task_table s) -> settled (drop (Z.to_nat pid) (task_table s)) ->
  idle_cpu s = 0 -> zlen (gdt s) = GDT_ENTRIES -> (2 * List.length (task_table s) < fuel)%nat ->
  let l := quit_table pid (parent t) v p (task_table s) in
  match round_robin pid l with
  | Some q => exists g, zlen g = GDT_ENTRIES /\
      task_quit fuel pid v (set_sched s w) = Some (Some (Run q), set_sched (MkSched l q 0 g) w')
  | None => task_quit fuel pid v (set_sched s w) = Some (Some Idle, set_sched (MkSched l 0 1 (gdt s)) w')
  end.
Proof.
  intros Ht Hne Hp Hk Hc H0 H1 Hi Hg Hf l. pose proof (zget_Some _ _ _ Ht) as Hr.
  assert (status p = KRN_STAT_PROCWAIT_TASK \/ told v p = p) as Hs
    by (unfold told; destruct (Z.eqb_spec (status p) KRN_STAT_PROCWAIT_TASK); [by left|by right]).
  rewrite (quit_ok s w w' pid v t p fuel Ht Hne Hp Hk). fold l. rewrite (proj2 (Z.eqb_eq _ _)) by done.
  assert (ran (with_table l s) w' (task_scheduler fuel (set_sched (with_table l s) w'))) as Hran.
  { apply scheduler_ok; cbn [with_table task_table current_task idle_cpu gdt]; rewrite <- ?Hc; [lia| | |done|by left|].
    - apply (quit_settled 0 _ _ _ _ t); done.
    - by apply (quit_settled _ _ _ _ _ t).
    - unfold l, quit_table. by rewrite !length_insert. }
  unfold ran, next_of in Hran. cbn [with_table task_table current_task idle_cpu gdt] in Hran.
  rewrite Hi, <- Hc in Hran. cbn [Z.eqb] in Hran.
  destruct (round_robin pid l) as [q|]; [destruct Hran as (g & E & Hl); exists g; split; [done|]|rename Hran into E];
    by erewrite st_bind_ok by exact E.
Qed.

End Access.

(** * Properties *)

(** C15: Scheduling is round robin.  When the running task is preempted and no task
    waits for a transfer, [task_switch] saves its registers, ends, with fuel for two
    passes over the table, and runs the first active task after it, going back to the
    start of the table at its end: no active task is passed over, and one is always
    found.  Nothing else of the task table changes. *)
Theorem task_switch_round_robin {W : Type} {K : Kernel W} {L : KernelLaws K}
    (s : sched) (w : W) (c : gpr_state) (t : task_t) (fuel : nat) :
  let p := current_task s in
  zget (task_table s) p = Some (Task t) -> status t = KRN_STAT_ACTIVE_TASK ->
  settled (task_table s) -> settled (drop (Z.to_nat (p + 1)) (task_table s)) ->
  Forall (fun e => e <> NoTask) (take (Z.to_nat p) (task_table s)) ->
  idle_cpu s = 0 -> zlen (gdt s) = GDT_ENTRIES -> (2 * List.length (task_table s) < fuel)%nat ->
  exists l q g, zset (task_table s) p (Task (with_cpu c t)) = Some l /\
    round_robin (p + 1) l = Some q /\ zlen g = GDT_ENTRIES /\
    task_switch fuel c (set_sched s w) = Some (Run q, set_sched (MkSched l q 0 g) w).
Proof.
  intros p Ht Est H0 H1 Hn Hi Hg Hf. pose proof (zget_Some _ _ _ Ht) as Hp.
  set (l := <[Z.to_nat p:=Task (with_cpu c t)]> (task_table s)).
  pose proof (zset_ok (task_table s) p (Task (with_cpu c t)) Hp) as El. fold l in El.
  assert (task_table s !! Z.to_nat p = Some (Task t)) as Ht' by (by rewrite zget_lookup in Ht by lia).
  set (s1 := MkSched l (p + 1) 0 (gdt s)).
  assert (exists q, round_robin (p + 1) l = Some q) as [q Hq].
  { unfold round_robin. destruct (find_active (p + 1) _) as [q|]; [by exists q|].
    apply (find_active_exists 0 l (Z.to_nat p) (with_cpu c t)); [|done|].
    - apply list_lookup_insert_eq. unfold zlen in Hp. lia.
    - unfold l. by rewrite take_insert_ge by lia. }
  assert (ran s1 w (task_scheduler fuel (set_sched s1 w))) as Hr.
  { apply scheduler_ok; cbn [s1 current_task task_table gdt idle_cpu]; [lia|by apply settled_put| |done|by left|].
    - unfold l. by rewrite drop_insert_lt by lia.
    - unfold l. by rewrite length_insert. }
  unfold ran, next_of in Hr. cbn [s1 idle_cpu current_task task_table Z.eqb] in Hr. rewrite Hq in Hr.
  destruct Hr as (g & Hr & Hl). exists l, q, g. split; [done|]. split; [done|]. split; [done|].
  rewrite <- Hr. unfold task_switch, this_task, put_this, current, get_task, put_task, set_slot, st_bind, st_get,
    st_put, st_modify, st_lift, st_ret.
  rewrite !get_set. fold p. rewrite Ht. rewrite !get_set. fold p. rewrite El.
  repeat (rewrite get_set || rewrite set_set). cbn [with_table with_current current_task]. fold p.
  unfold s1. by rewrite <- Hi.
Qed.

(** C39: The exit of a task reaches its parent, and the next task runs.  When [pid] quits
    with a value and its parent waits for a child, the parent becomes active with the
    value in [edx:eax]; a parent that does not wait is unchanged; the entry becomes
    [EMPTY_PID] and no other entry changes.  When [pid] is the running task, as in
    [task_quit_self] and every other call of the code, the call does not come back:
    with no task waiting for a transfer and fuel for two passes, [task_scheduler] runs
    the first active task after [pid], going back to the start of the table at its
    end, or idles when there is none; there is one when the parent waited and no null
    entry is before it.  When [pid] is another task the call returns to the running
    one.  When the parent has itself quit, the code reads the status behind
    [EMPTY_PID], outside of any task. *)
Theorem task_quit_correct {W : Type} {K : Kernel W} {L : KernelLaws K}
    (s : sched) (w w' : W) (pid v : Z) (t : task_t) (fuel : nat) :
  zget (task_table s) pid = Some (Task t) -> parent t <> pid -> kfree (base t) w = Some (tt, w') ->
  let r := task_quit fuel pid v (set_sched s w) in
  (pid = current_task s -> task_quit_self fuel v (set_sched s w) = r) /\
  (forall p, zget (task_table s) (parent t) = Some (Task p) -> exists l,
     zget l pid = Some EmptyPid /\
     zget l (parent t) = Some (Task (if status p =? KRN_STAT_PROCWAIT_TASK
       then with_status KRN_STAT_ACTIVE_TASK
              (with_cpu (with_edx (u32 (Z.shiftr v 32)) (with_eax (u32 v) (cpu p))) p)
       else p)) /\
     (forall i, i <> pid -> i <> parent t -> zget l i = zget (task_table s) i) /\
     (pid <> current_task s -> r = Some (None, set_sched (with_table l s) w')) /\
     (pid = current_task s -> settled (task_table s) -> settled (drop (Z.to_nat pid) (task_table s)) ->
        idle_cpu s = 0 -> zlen (gdt s) = GDT_ENTRIES -> (2 * List.length (task_table s) < fuel)%nat ->
        match round_robin pid l with
        | Some q => exists g, zlen g = GDT_ENTRIES /\ r = Some (Some (Run q), set_sched (MkSched l q 0 g) w')
        | None => r = Some (Some Idle, set_sched (MkSched l 0 1 (gdt s)) w')
        end) /\
     (status p = KRN_STAT_PROCWAIT_TASK ->
        Forall (fun e => e <> NoTask) (take (Z.to_nat (parent t)) (task_table s)) -> round_robin pid l <> None)) /\
  (zget (task_table s) (parent t) = Some EmptyPid -> r = None).
Proof.
  intros Ht Hp Hk r. split; [|split].
  - intros Hc. unfold task_quit_self. erewrite st_bind_ok by apply current_ok. by rewrite <- Hc.
  - intros p Ep. pose proof (quit_table_get pid (parent t) v p t p _ Ht Ep Hp) as Hl.
    exists (quit_table pid (parent t) v p (task_table s)). split; [by rewrite Hl, decide_True|].
    split; [by rewrite Hl, decide_False, decide_True|]. split; [|split; [|split]].
    + intros i Hi Hi'. by rewrite Hl, !decide_False.
    + intros Hc. unfold r. rewrite (quit_ok s w w' pid v t p fuel Ht Hp Ep Hk). by rewrite (proj2 (Z.eqb_neq _ _)).
    + intros. by apply quit_runs_next.
    + intros Hs Hn. pose proof (zget_Some _ _ _ Ep) as Hr.
      destruct (find_active_exists 0 (quit_table pid (parent t) v p (task_table s)) (Z.to_nat (parent t)) (told v p)) as [q Hq].
      * rewrite <- zget_lookup by lia. by rewrite Hl, decide_False, decide_True.
      * unfold told. by rewrite Hs.
      * unfold quit_table. apply Forall_lookup_2. intros i e. rewrite lookup_take_Some. intros [He Hi].
        rewrite list_lookup_insert_Some in He. destruct He as [(_ & <- & _)|[_ He]]; [done|].
        rewrite list_lookup_insert_ne in He by lia. eapply (Forall_lookup_1 _ _ i e Hn). by rewrite lookup_take_Some.
      * unfold round_robin. by destruct (find_active pid _); [|rewrite Hq].
  - intros Ep. unfold r, task_quit. erewrite st_bind_ok by (by apply get_task_ok).
    unfold st_bind at 1. by rewrite get_task_none by (intros p; rewrite Ep; discriminate).
Qed.

(** A new task takes the first entry without a task: when a task structure can be
    allocated and the table is not full, [task_create] returns that entry's index,
    stores the task there and changes no other entry; it fails, changing nothing,
    when every entry has a task, and leaves [EMPTY_PID] when there is no memory. *)
Theorem task_create_correct {W : Type} {K : Kernel W} {L : KernelLaws K}
    (s : sched) (w w' : W) (t : task_t) (n p : Z) :
  zlen (task_table s) = KRNL_MAX_TASKS -> kalloc n w = Some (p, w') ->
  let pid := find_slot 0 (task_table s) in
  let r := task_create n t (set_sched s w) in
  (forall i, 0 <= i < pid -> exists t', zget (task_table s) i = Some (Task t')) /\
  (pid = KRNL_MAX_TASKS -> r = Some (FAILURE, set_sched s w)) /\
  (pid <> KRNL_MAX_TASKS -> (forall t', zget (task_table s) pid <> Some (Task t')) /\ exists l,
     zset (task_table s) pid (if p =? 0 then EmptyPid else Task t) = Some l /\
     r = Some (if p =? 0 then FAILURE else pid, set_sched (with_table l s) w')).
Proof.
  intros Hlen Hk pid r. destruct (find_slot_spec 0 (task_table s)) as (H0 & H1 & H2). fold pid in H0, H1, H2.
  rewrite Hlen in *. split; [|split].
  - intros i Hi. destruct (H1 i Hi) as (t' & Ht'). exists t'. by rewrite Z.sub_0_r in Ht'.
  - intros Hp. unfold r, task_create. erewrite st_bind_ok by (unfold st_get; by rewrite get_set).
    fold pid. by rewrite (proj2 (Z.eqb_eq _ _)) by done.
  - intros Hp. rewrite Z.sub_0_r in H2. split; [apply H2; lia|].
    pose proof (zset_ok (task_table s) pid (if p =? 0 then EmptyPid else Task t) ltac:(lia)) as El.
    eexists. split; [exact El|]. unfold r, task_create.
    erewrite st_bind_ok by (unfold st_get; by rewrite get_set).
    fold pid. rewrite (proj2 (Z.eqb_neq _ _)) by done.
    erewrite st_bind_ok by (by apply frame_ok; [apply kalloc_frame|]).
    destruct (p =? 0); unfold put_task; (erewrite st_bind_ok by (by apply set_slot_ok)); reflexivity.
Qed.

(** * Witnesses *)

(** A kernel with a memory of its own, a heap that hands out increasing addresses,
    and no devices. *)
Record demo := MkDemo { dsched : sched; dmem : list Z; dnext : Z }.
#[export] Instance demo_kernel : Kernel demo := {
  get_sched := dsched;
  set_sched s w := MkDemo s (dmem w) (dnext w);
  kalloc n w := Some (dnext w, MkDemo (dsched w) (dmem w) (dnext w + n));
  kfree _ w := Some (tt, w);
  krealloc _ n w := Some (dnext w, MkDemo (dsched w) (dmem w) (dnext w + n));
  mem_read a n w := Some (take (Z.to_nat n) (drop (Z.to_nat a) (dmem w)), w);
  mem_write a l w := Some (tt, MkDemo (dsched w)
    (take (Z.to_nat a) (dmem w) ++ l ++ drop (Z.to_nat a + List.length l) (dmem w)) (dnext w));
  mem_str a w := Some ([], w);
  tty_kputs _ w := Some (tt, w);
  vfs_kread _ _ := st_ret (-1);
  vfs_kwrite _ _ _ := st_ret (-1);
  read _ _ _ := st_ret (0, 0);
  write _ _ _ := st_ret (0, 0)
}.
#[export] Instance demo_laws : KernelLaws demo_kernel.
Proof. by split; try done; intros w; destruct w. Qed.

Definition idle_task (st par : Z) : task_t :=
  with_parent par (with_status st kernel_task).
Definition demo_sched : sched :=
  MkSched [Task kernel_task; Task (idle_task 5 0); Task (idle_task 1 1); EmptyPid; Task (idle_task 1 3); NoTask]
    4 0 (load_gdt 0 104).

Lemma task_switch_round_robin_witness : exists l g,
  task_switch 20 default_cpu_status (set_sched demo_sched (MkDemo demo_sched [] 0)) =
    Some (Run 2, set_sched (MkSched l 2 0 g) (MkDemo demo_sched [] 0)).
Proof.
  destruct (task_switch_round_robin demo_sched (MkDemo demo_sched [] 0) default_cpu_status (idle_task 1 3) 20)
    as (l & q & g & E & Hq & _ & Hr).
  - reflexivity.
  - reflexivity.
  - cbn. unfold KRN_STAT_RES_TASK. lia.
  - exact I.
  - repeat (constructor; [discriminate|]). constructor.
  - reflexivity.
  - reflexivity.
  - cbn. lia.
  - injection E as <-. vm_compute in Hq. injection Hq as <-. eexists _, g. exact Hr.
Defined.

(** The running task quits; its parent waits for it. *)
Definition quit_sched : sched :=
  MkSched [Task kernel_task; Task (idle_task 5 0); Task (idle_task 1 1); NoTask] 2 0 (load_gdt 0 104).

Lemma task_quit_correct_witness : exists l g,
  task_quit_self 10 7 (set_sched quit_sched (MkDemo quit_sched [] 0)) =
    Some (Some (Run 1), set_sched (MkSched l 1 0 g) (MkDemo quit_sched [] 0)) /\ zget l 2 = Some EmptyPid /\
  exists p, zget l 1 = Some (Task p) /\ status p = KRN_STAT_ACTIVE_TASK /\ eax (cpu p) = 7.
Proof.
  destruct (task_quit_correct quit_sched (MkDemo quit_sched [] 0) (MkDemo quit_sched [] 0) 2 7 (idle_task 1 1) 10)
    as (Hself & H & _).
  - reflexivity.
  - discriminate.
  - reflexivity.
  - destruct (H (idle_task 5 0) eq_refl) as (l & Hq & Hp & Hl & _ & Hrun & Hsome). exists l.
    assert (round_robin 2 l <> None) as Hne by (apply Hsome; [reflexivity|repeat (constructor; [discriminate|]); constructor]).
    specialize (Hrun eq_refl). rewrite (Hself eq_refl). destruct (round_robin 2 l) as [q|] eqn:Er; [|congruence].
    destruct Hrun as (g & _ & Hr).
    + cbn. unfold KRN_STAT_RES_TASK. lia.
    + vm_compute. split; [by left|exact I].
    + reflexivity.
    + reflexivity.
    + cbn. lia.
    + assert (q = 1) as ->.
      { vm_compute in Hr. injection Hr as E _. congruence. }
      exists g. split; [exact Hr|]. split; [exact Hq|]. eexists. split; [exact Hp|]. split; reflexivity.
Defined.

(** A full table but for one entry. *)
Definition full_sched : sched :=
  MkSched (replicate (Z.to_nat 65535) (Task kernel_task) ++ [NoTask]) 0 0 (load_gdt 0 104).

Lemma task_create_correct_witness : exists r,
  task_create 100 kernel_task (set_sched full_sched (MkDemo full_sched [] 4096)) = r /\
  forall i, 0 <= i < find_slot 0 (task_table full_sched) -> exists t', zget (task_table full_sched) i = Some (Task t').
Proof.
  destruct (task_create_correct full_sched (MkDemo full_sched [] 4096) (MkDemo full_sched [] 4196)
    kernel_task 100 4096) as (H & _).
  - unfold full_sched, task_table. rewrite zlen_app, zlen_replicate. by rewrite Z2Nat.id.
  - reflexivity.
  - eexists. split; [reflexivity|exact H].
Defined.

End Task.
