(* ===== verification/UserMem.v ===== *)
(** * The memory behind the kernel's interface

    [Kernel] of [Task.v] has the accesses to memory as operations; this file says
    what they do to the bytes of the machine ([Mem.v]).  [UserMem] is the interface:
    reads return the bytes at an address, writes replace them and change no other,
    and the task table is not part of the memory.  It also has the 32-bit words and
    C strings the kernel reads and writes in a task's memory. *)

From S2P Require Import Prelude Mem Dev Handle Gdt Task.
Local Open Scope Z_scope.
Local Open Scope st_scope.

Module UserMem.
Import Task.

(** The [n] bytes at [a], and the memory with the bytes [l] stored at [a]. *)
Definition bytes_at (m : mem) (a : Z) (n : nat) : list Z := (fun k => m (a + Z.of_nat k)) <$> seq 0 n.
Definition store_bytes (m : mem) (a : Z) (l : list Z) : mem :=
  fun x => if (a <=? x) && (x <? a + zlen l) then default 0 (zget l (x - a)) else m x.

(** The C string [s] is at [a]. *)
Definition cstr_at (m : mem) (a : Z) (s : list Z) : Prop :=
  bytes_at m a (length s) = s /\ Forall (fun c => c <> 0) s /\ m (a + zlen s) = 0.

(** A length no text of the kernel exceeds. *)
Definition TEXT_MAX : Z := 0x10000.

Class UserMem {W : Type} (K : Kernel W) := {
  mbytes : W -> mem;
  mbytes_byte w x : is_byte (mbytes w x);
  mbytes_sched s w x : mbytes (set_sched s w) x = mbytes w x;
  mem_read_ok a n w : 0 <= a -> a + Z.of_nat n <= 2 ^ 32 ->
    mem_read a (Z.of_nat n) w = Some (bytes_at (mbytes w) a n, w);
  mem_write_ok a l w : 0 <= a -> a + zlen l <= 2 ^ 32 -> Forall is_byte l -> exists w',
    mem_write a l w = Some (tt, w') /\ mem_eq (mbytes w') (store_bytes (mbytes w) a l) /\
    get_sched w' = get_sched w;
  mem_str_ok a s w : 0 <= a -> a + zlen s < 2 ^ 32 -> zlen s < TEXT_MAX -> cstr_at (mbytes w) a s ->
    mem_str a w = Some (s, w)
}.

(** ** Words *)

Definition le32 (v : Z) : list Z := [u8 v; u8 (v / 2 ^ 8); u8 (v / 2 ^ 16); u8 (v / 2 ^ 24)].
Definition word (l : list Z) : option Z :=
  match l with [a; b; c; d] => Some (a + 2 ^ 8 * b + 2 ^ 16 * c + 2 ^ 24 * d) | _ => None end.

Definition read_word {W : Type} {K : Kernel W} (a : Z) : ST W Z :=
  let! l := mem_read a 4 in st_lift (word l).
Definition write_word {W : Type} {K : Kernel W} (a v : Z) : ST W unit := mem_write a (le32 v).

(** ** Lemmas *)

Lemma mem_bytes_len m a n : zlen (bytes_at m a n) = Z.of_nat n.
Proof. unfold zlen, bytes_at. by rewrite length_fmap, length_seq. Qed.

Lemma mem_bytes_get m a n i : 0 <= i < Z.of_nat n -> zget (bytes_at m a n) i = Some (m (a + i)).
Proof.
  intros Hi. unfold bytes_at. rewrite zget_lookup, list_lookup_fmap, lookup_seq_lt by lia. cbn.
  do 2 f_equal. lia.
Qed.

(** Two lists of bytes of a memory are equal when the bytes are. *)
Lemma bytes_at_eq m a l : bytes_at m a (length l) = l <-> forall i c, zget l i = Some c -> m (a + i) = c.
Proof.
  split.
  - intros E i c Hc. pose proof (zget_Some _ _ _ Hc) as Hi. unfold zlen in Hi.
    pose proof (mem_bytes_get m a (length l) i ltac:(lia)) as Hg. rewrite E in Hg. congruence.
  - intros H. apply zget_ext. intros i. destruct (decide (0 <= i < zlen l)) as [Hi|Hi].
    + destruct (zget_is_Some l i Hi) as [c Hc]. rewrite mem_bytes_get by (unfold zlen in Hi; lia).
      by rewrite Hc, (H i c).
    + rewrite !(proj2 (zget_None _ _)); [done|lia|rewrite mem_bytes_len; unfold zlen in Hi; lia].
Qed.

Lemma bytes_at_ext m m' a n : (forall x, a <= x < a + Z.of_nat n -> m' x = m x) -> bytes_at m' a n = bytes_at m a n.
Proof.
  intros H. unfold bytes_at. apply list_fmap_ext. intros i x Hx. apply lookup_seq in Hx. apply H. lia.
Qed.

Lemma store_in m a l i c : zget l i = Some c -> store_bytes m a l (a + i) = c.
Proof.
  intros Hc. pose proof (zget_Some _ _ _ Hc). unfold store_bytes.
  rewrite (proj2 (Z.leb_le _ _)), (proj2 (Z.ltb_lt _ _)) by lia. cbn [andb].
  by replace (a + i - a) with i by lia; rewrite Hc.
Qed.
Lemma store_out m a l x : x < a \/ a + zlen l <= x -> store_bytes m a l x = m x.
Proof.
  intros H. unfold store_bytes. destruct (Z.leb_spec a x), (Z.ltb_spec x (a + zlen l)); try done; lia.
Qed.
Lemma store_bytes_at m a l : bytes_at (store_bytes m a l) a (length l) = l.
Proof. apply bytes_at_eq. intros i c Hc. by apply store_in. Qed.
Lemma store_bytes_ext m m' a l : mem_eq m m' -> mem_eq (store_bytes m a l) (store_bytes m' a l).
Proof. intros H x. unfold store_bytes. destruct (_ && _); [done|apply H]. Qed.

#[export] Instance store_bytes_proper : Proper (mem_eq ==> eq ==> eq ==> mem_eq) store_bytes.
Proof. intros m m' H a ? <- l ? <-. by apply store_bytes_ext. Qed.
#[export] Instance bytes_at_proper : Proper (mem_eq ==> eq ==> eq ==> eq) bytes_at.
Proof. intros m m' H a ? <- n ? <-. symmetry. apply bytes_at_ext. intros x _. symmetry. apply H. Qed.

Lemma cstr_ext m m' a s : cstr_at m a s -> (forall x, a <= x <= a + zlen s -> m' x = m x) -> cstr_at m' a s.
Proof.
  intros (H1 & H2 & H3) E. pose proof (zlen_nonneg s). split; [|split; [done|]].
  - rewrite (bytes_at_ext m m'); [done|]. intros x Hx. apply E. unfold zlen. lia.
  - by rewrite E by lia.
Qed.

(** [kstrcpy] of a string leaves it at its destination. *)
Lemma store_cstr m a s : Forall (fun c => c <> 0) s -> cstr_at (store_bytes m a (s ++ [0])) a s.
Proof.
  intros Hs. split; [|split; [done|]].
  - apply bytes_at_eq. intros i c Hc. apply store_in. rewrite zget_app.
    pose proof (zget_Some _ _ _ Hc). by rewrite decide_True by lia.
  - apply store_in. rewrite zget_app, decide_False by lia. by rewrite Z.sub_diag.
Qed.

Lemma le32_bytes v : Forall is_byte (le32 v).
Proof. repeat constructor; apply u8_range. Qed.

Lemma word_le32 v : word (le32 v) = Some (u32 v).
Proof. cbn. f_equal. unfold u8, u32. zdml. Qed.

Lemma word_bytes m a : word (bytes_at m a 4) = Some (load32 m a).
Proof. cbn. rewrite Z.add_0_r. done. Qed.

Lemma store_word m a v : load32 (store_bytes m a (le32 v)) a = u32 v.
Proof.
  pose proof (word_bytes (store_bytes m a (le32 v)) a) as H.
  change 4%nat with (length (le32 v)) in H. rewrite store_bytes_at, word_le32 in H. by injection H.
Qed.

Section Access.
Context {W : Type} {K : Kernel W} {U : UserMem K}.
Implicit Types w : W.

Lemma read_word_ok a w : 0 <= a -> a + 4 <= 2 ^ 32 -> read_word a w = Some (load32 (mbytes w) a, w).
Proof.
  intros H0 H1. unfold read_word. erewrite st_bind_ok by (apply (mem_read_ok a 4 w); lia).
  unfold st_lift. by rewrite word_bytes.
Qed.

Lemma write_word_ok a v w : 0 <= a -> a + 4 <= 2 ^ 32 -> exists w',
  write_word a v w = Some (tt, w') /\ mem_eq (mbytes w') (store_bytes (mbytes w) a (le32 v)) /\
  get_sched w' = get_sched w.
Proof. intros H0 H1. apply mem_write_ok; [done|exact H1|apply le32_bytes]. Qed.

End Access.

(** ** An implementation *)

(** A kernel whose memory is a function and whose heap hands out increasing addresses. *)
Record machine := MkMachine { msched : sched; mmem : mem; mnext : Z }.

Fixpoint text_at (fuel : nat) (m : mem) (a : Z) : option (list Z) :=
  match fuel with
  | O => None
  | S fuel => if m a =? 0 then Some [] else s ← text_at fuel m (a + 1); Some (m a :: s)
  end.

#[export] Instance machine_kernel : Kernel machine := {
  get_sched := msched;
  set_sched s w := MkMachine s (mmem w) (mnext w);
  kalloc n w := let a := Z.abs (mnext w) + 4096 in Some (a, MkMachine (msched w) (mmem w) (a + n));
  kfree _ w := Some (tt, w);
  krealloc _ n w := Some (mnext w, MkMachine (msched w) (mmem w) (mnext w + n));
  mem_read a n w := Some (bytes_at (fun x => u8 (mmem w x)) a (Z.to_nat n), w);
  mem_write a l w := Some (tt, MkMachine (msched w) (store_bytes (mmem w) a l) (mnext w));
  mem_str a w := s ← text_at (Z.to_nat TEXT_MAX) (fun x => u8 (mmem w x)) a; Some (s, w);
  tty_kputs _ w := Some (tt, w);
  vfs_kread _ _ := st_ret (-1);
  vfs_kwrite _ _ _ := st_ret 0;
  read _ _ _ := st_ret (0, 0);
  write _ _ _ := st_ret (0, 0)
}.
#[export] Instance machine_laws : KernelLaws machine_kernel.
Proof.
  split; try done; try (by intros w; destruct w).
Qed.

Lemma text_at_ok m a s fuel : (length s < fuel)%nat -> cstr_at m a s -> text_at fuel m a = Some s.
Proof.
  intros Hf (H1 & H2 & H3). revert a fuel Hf H1 H3. induction H2 as [|c s Hc Hs IH]; intros a [|fuel] Hf H1 H3; cbn in Hf; try lia.
  - cbn [text_at]. rewrite zlen_nil, Z.add_0_r in H3. by rewrite H3.
  - cbn [text_at]. pose proof (proj1 (bytes_at_eq m a (c :: s)) H1) as Hb.
    assert (m a = c) as -> by (rewrite <- (Z.add_0_r a); apply Hb; done).
    rewrite (proj2 (Z.eqb_neq _ _)) by done. rewrite (IH (a + 1) fuel); [done|lia| |].
    + apply bytes_at_eq. intros i d Hd. pose proof (zget_Some _ _ _ Hd). replace (a + 1 + i) with (a + (i + 1)) by lia.
      apply Hb. rewrite zget_cons, decide_False by lia. by replace (i + 1 - 1) with i by lia.
    + rewrite zlen_cons in H3. by replace (a + 1 + zlen s) with (a + (zlen s + 1)) by lia.
Qed.

#[export] Program Instance machine_mem : UserMem machine_kernel := {
  mbytes w x := u8 (mmem w x)
}.
Next Obligation. intros w x. apply u8_range. Qed.
Next Obligation. done. Qed.
Next Obligation. intros a n w _ _. cbn. by rewrite Nat2Z.id. Qed.
Next Obligation.
  intros a l w _ _ Hl. eexists. split; [reflexivity|]. split; [|done]. intros x. cbn. unfold store_bytes.
  destruct (_ && _) eqn:E; [|done]. bsimp. destruct (zget_is_Some l (x - a)) as [c Hc]; [lia|]. rewrite Hc. cbn.
  apply u8_small. rewrite zget_lookup in Hc by lia. by eapply Forall_lookup_1 in Hl.
Qed.
Next Obligation.
  intros a s w _ _ Hs Ha. cbn. rewrite (text_at_ok _ a s); [done| |exact Ha]. unfold zlen, TEXT_MAX in *. lia.
Qed.

End UserMem.
