(* ===== verification/Streams.v ===== *)
(** * Stream devices and serial terminals

    [kernel/src/drivers/streams/streams.c]: the devices [stdin], [stdout] and
    [stderr], which stand for those of the running task, [null] and [zero]; and
    [kernel/src/drivers/stty/stty.c], a terminal on a serial port.  They call the
    virtual file system through the interface [Kernel] of [Task.v].  The messages of
    [init_stty] on the console are not modelled. *)

From S2P Require Import Prelude Mem Dev Handle Devfs Gdt Task UserMem.
Local Open Scope Z_scope.
Local Open Scope st_scope.

Module Streams.
Import Dev Handle Task UserMem.

Definition EOF : Z := -1.

Section Streams.
Context {W : Type} {K : Kernel W}.

(** ** Streams: a type of request other than the two falls off the end of the function *)

Definition stdin_io_wrapper : io_fn W := fun unused loc type payload =>
  if type =? 0 then let! t := this_task in vfs_kread (stdin (names t)) loc
  else if type =? 1 then st_ret 0 else st_fail.
Definition stdout_io_wrapper : io_fn W := fun unused loc type payload =>
  if type =? 0 then st_ret 0
  else if type =? 1 then let! t := this_task in vfs_kwrite (stdout (names t)) loc payload else st_fail.
Definition stderr_io_wrapper : io_fn W := fun unused loc type payload =>
  if type =? 0 then st_ret 0
  else if type =? 1 then let! t := this_task in vfs_kwrite (stderr (names t)) loc payload else st_fail.
Definition null_io_wrapper : io_fn W := fun unused loc type payload =>
  if type =? 0 then st_ret EOF else if type =? 1 then st_ret 0 else st_fail.
Definition zero_io_wrapper : io_fn W := fun unused loc type payload =>
  if type =? 0 then st_ret 0 else if type =? 1 then st_ret 0 else st_fail.

(** ["stdin"], ["stdout"], ["stderr"], ["null"], ["zero"] *)
Definition init_streams (l : list (device_t W)) : option (list (device_t W)) :=
  l ← kernel_add_device [115; 116; 100; 105; 110] 0 0 stdin_io_wrapper l;
  l ← kernel_add_device [115; 116; 100; 111; 117; 116] 0 0 stdout_io_wrapper l;
  l ← kernel_add_device [115; 116; 100; 101; 114; 114] 0 0 stderr_io_wrapper l;
  l ← kernel_add_device [110; 117; 108; 108] 0 0 null_io_wrapper l;
  kernel_add_device [122; 101; 114; 111] 0 0 zero_io_wrapper l.

(** ** Serial terminals *)

Definition MAX_STTY : Z := 1.
Definition IO_NOT_READY : Z := -5.

(** [devices] are addresses, null until something is stored there. *)
Record stty := MkStty { devices : list Z; is_eof : Z }.
Definition stty0 : stty := MkStty [0] 0.

Definition stty_name (i : Z) : list Z := [115; 116; 116; 121; 48 + i].
(** [":://com0"], ... *)
Definition com_device (i : Z) : list Z := [58; 58; 47; 47; 99; 111; 109; 48 + i].

(** [vfs_kwrite(devices[dev], 0, v)] and [vfs_kread(devices[dev], 0)] *)
Definition send (dev v : Z) : ST (stty * W) Z :=
  let! s := get_vars in
  let! a := st_lift (zget (devices s) dev) in
  on_rest (let! path := mem_str a in vfs_kwrite path 0 (u8 v)).
Definition receive (dev : Z) : ST (stty * W) Z :=
  let! s := get_vars in
  let! a := st_lift (zget (devices s) dev) in
  on_rest (let! path := mem_str a in vfs_kread path 0).

Definition stty_io_read (dev loc : Z) : ST (stty * W) Z :=
  let! s := get_vars in
  if negb (is_eof s =? 0) then set_vars (MkStty (devices s) 0) ;; st_ret (-1)
  else
    let! val := receive dev in
    if val =? IO_NOT_READY then st_ret IO_NOT_READY
    else if val =? 0x0d then
      send dev 0x0d ;; send dev 0x0a ;;
      let! s := get_vars in set_vars (MkStty (devices s) 1) ;; st_ret 0x0a
    else if val =? 0x08 then
      send dev 0x08 ;; send dev 0x20 ;; send dev 0x08 ;; st_ret 0x08
    else send dev val ;; st_ret val.

Definition stty_io_write (dev loc payload : Z) : ST (stty * W) Z :=
  if payload =? 0x0a then send dev 0x0d ;; send dev 0x0a ;; st_ret 0
  else if payload =? 0x08 then send dev 0x08 ;; send dev 0x20 ;; send dev 0x08 ;; st_ret 0
  else send dev payload.

(** The cases of the [switch] have no [return]: each falls through to the next. *)
Definition stty_io_wrapper : io_fn (stty * W) := fun dev loc type payload =>
  if type =? 0 then stty_io_read dev loc ;; stty_io_write dev loc payload ;; st_ret (-1)
  else if type =? 1 then stty_io_write dev loc payload ;; st_ret (-1)
  else st_ret (-1).

(** [kstrcpy(devices[i], com_devices[i])] stores at the address [devices[i]]. *)
Fixpoint init_stty_from (n : nat) (i : Z) (l : list (device_t (stty * W))) :
    ST (stty * W) (list (device_t (stty * W))) :=
  match n with
  | O => st_ret l
  | S n =>
      let! s := get_vars in
      let! a := st_lift (zget (devices s) i) in
      on_rest (mem_write a (com_device i ++ [0])) ;;
      let! l := st_lift (kernel_add_device (stty_name i) i 0 stty_io_wrapper l) in
      init_stty_from n (i + 1) l
  end.
Definition init_stty (l : list (device_t (stty * W))) : ST (stty * W) (list (device_t (stty * W))) :=
  init_stty_from (Z.to_nat MAX_STTY) 0 l.

End Streams.

(** ** Lemmas *)

Section Devices.
Context {W : Type} {K : Kernel W}.

(** The devices as they are registered. *)
Definition null_device : device_t W := MkDevice [110; 117; 108; 108] 0 0 null_io_wrapper.
Definition zero_device : device_t W := MkDevice [122; 101; 114; 111] 0 0 zero_io_wrapper.
Definition stty_device (i : Z) : device_t (stty * W) := MkDevice (stty_name i) i 0 stty_io_wrapper.

Lemma stty_read_eof i loc w v w1 r w2 : stty_io_read i loc w = Some (v, w1) -> stty_io_write i loc 0 w1 = Some (r, w2) ->
  stty_io_wrapper i loc 0 0 w = Some (-1, w2).
Proof.
  intros E1 E2. unfold stty_io_wrapper. cbn [Z.eqb Pos.eqb]. erewrite st_bind_ok by exact E1. by erewrite st_bind_ok by exact E2.
Qed.
Lemma stty_write_eof i loc b w r w1 : stty_io_write i loc b w = Some (r, w1) ->
  stty_io_wrapper i loc 1 b w = Some (-1, w1).
Proof. intros E1. unfold stty_io_wrapper. cbn [Z.eqb Pos.eqb]. by erewrite st_bind_ok by exact E1. Qed.

End Devices.

(** * Properties *)

(** The stream devices through a handle: any read of [zero] delivers that many
    zero bytes, a read of [null] is at the end of file, and both accept all the bytes
    of any write and drop them. *)
Theorem streams_transfer {W : Type} {K : Kernel W} (n : Z) (h : Devfs.devfs_handle_t) (st : Devfs.state W) :
  (Devfs.open_on n h zero_device st -> forall len : nat, exists st',
     Devfs.devfs_uread n (Z.of_nat len) st = Some (Z.of_nat len, replicate len 0, st') /\
     Devfs.world st' = Devfs.world st) /\
  (Devfs.open_on n h null_device st -> forall len : nat, exists st',
     Devfs.devfs_uread n (Z.of_nat len) st = Some (0, [], st') /\ Devfs.world st' = Devfs.world st) /\
  (Devfs.open_on n h zero_device st \/ Devfs.open_on n h null_device st -> forall bytes, exists st',
     Devfs.devfs_uwrite n bytes st = Some (zlen bytes, st') /\ Devfs.world st' = Devfs.world st).
Proof.
  split; [|split].
  - intros Ho len. destruct (Devfs.uread_zeros len (zero_io_wrapper (W := W)) 0
      (Devfs.MkProgress (s32 (Devfs.ptr h)) [] 0 (Devfs.world st)) ltac:(done)) as (i & E).
    destruct (Devfs.uread_through n h zero_device st len _ Ho E) as (st' & E' & Hw). exists st'. split; [|exact Hw].
    rewrite E'. cbn [Devfs.data app]. by rewrite zlen_replicate.
  - intros Ho [|len].
    + destruct (Devfs.uread_through n h null_device st 0 _ Ho eq_refl) as (st' & E' & Hw). by exists st'.
    + edestruct (Devfs.uread_through n h null_device st (S len)) as (st' & E' & Hw); [exact Ho|by apply Devfs.uread_eof; [lia|]|].
      by exists st'.
  - intros Ho bytes. assert (exists d, Devfs.open_on n h d st /\ forall loc b w, io_wrapper d (gp_value d) loc 1 b w = Some (0, w))
      as (d & Hd & Hio) by (destruct Ho as [Ho|Ho]; eexists; (split; [exact Ho|done])).
    destruct (Devfs.uwrite_sink bytes (io_wrapper d) (gp_value d) 0
      (Devfs.MkProgress (s32 (Devfs.ptr h)) [] 0 (Devfs.world st)) Hio) as (p' & E & Ep).
    destruct (Devfs.uwrite_through n h d st bytes _ _ Hd E) as (st' & E' & Hw). exists st'. split; [exact E'|].
    by rewrite Hw, Ep.
Qed.

(** A serial terminal transfers nothing: the cases of [stty_io_wrapper] fall
    through to the answer -1, the end of file.  A read takes a character from the
    line, echoes it, sends a zero byte too, and delivers no byte; a write sends its
    first byte only and reports that it wrote none.  [init_stty] stores the name of
    the line through a null pointer, over the nine bytes at address 0. *)
Theorem stty_transfers_nothing {W : Type} {K : Kernel W} {U : UserMem K} :
  (forall n h i (st : Devfs.state (stty * W)) (len : nat) v w1 r w2,
     Devfs.open_on n h (stty_device i) st -> (0 < len)%nat ->
     stty_io_read i (u64 (s32 (Devfs.ptr h))) (Devfs.world st) = Some (v, w1) ->
     stty_io_write i (u64 (s32 (Devfs.ptr h))) 0 w1 = Some (r, w2) -> exists st',
     Devfs.devfs_uread n (Z.of_nat len) st = Some (0, [], st') /\ Devfs.world st' = w2) /\
  (forall n h i (st : Devfs.state (stty * W)) b bytes r w1,
     Devfs.open_on n h (stty_device i) st ->
     stty_io_write i (u64 (s32 (Devfs.ptr h))) (u8 b) (Devfs.world st) = Some (r, w1) -> exists st',
     Devfs.devfs_uwrite n (b :: bytes) st = Some (0, st') /\ Devfs.world st' = w1) /\
  (forall l (w : W), exists w', init_stty l (stty0, w) = Some (l ++ [stty_device 0], (stty0, w')) /\
     mem_eq (mbytes w') (store_bytes (mbytes w) 0 (com_device 0 ++ [0]))).
Proof.
  split; [|split].
  - intros n h i st len v w1 r w2 Ho Hl E1 E2. pose proof (stty_read_eof i _ _ v w1 r w2 E1 E2) as E.
    edestruct (Devfs.uread_through n h (stty_device i) st len) as (st' & E' & Hw); [exact Ho|by apply Devfs.uread_eof|].
    by exists st'.
  - intros n h i st b bytes r w1 Ho E1. pose proof (stty_write_eof i _ _ _ r w1 E1) as E.
    edestruct (Devfs.uwrite_through n h (stty_device i) st (b :: bytes)) as (st' & E' & Hw); [exact Ho|by apply Devfs.uwrite_eof|].
    by exists st'.
  - intros l w. destruct (mem_write_ok 0 (com_device 0 ++ [0]) w) as (w' & E & Hm & _);
      [lia|done|repeat constructor; done|]. exists w'. split; [|exact Hm].
    unfold init_stty. change (Z.to_nat MAX_STTY) with 1%nat. cbn [init_stty_from].
    erewrite st_bind_ok by reflexivity. erewrite st_bind_ok by reflexivity.
    erewrite st_bind_ok by (apply on_rest_ok; exact E). erewrite st_bind_ok by (unfold st_lift; reflexivity). done.
Qed.

(** * Witnesses *)

Definition demo_handle : Devfs.devfs_handle_t := Devfs.MkHandle 0 [122] 2 0 0 0 0 1 0.
Definition demo_world : machine := MkMachine demo_sched (fun _ => 0) 0.

Lemma streams_transfer_witness : exists st',
  Devfs.devfs_uread 0 3 (Devfs.MkState [demo_handle] [zero_device] demo_world 0) = Some (3, [0; 0; 0], st').
Proof.
  destruct (streams_transfer 0 demo_handle (Devfs.MkState [demo_handle] [zero_device] demo_world 0)) as (H & _).
  destruct (H ltac:(by split) 3%nat) as (st' & E & _). exists st'. exact E.
Defined.

(** The line is the device [:://com0]; the machine answers -1 to a read of it. *)
Lemma stty_transfers_nothing_witness : exists w' st',
  init_stty (K := machine_kernel) [] (stty0, demo_world) = Some ([stty_device 0], (stty0, w')) /\
  mbytes w' 4 = 99 /\
  Devfs.devfs_uread 0 2 (Devfs.MkState [demo_handle] [stty_device 0] (stty0, w') 0) = Some (0, [], st').
Proof.
  destruct (stty_transfers_nothing (K := machine_kernel)) as (Hr & _ & Hi).
  destruct (Hi [] demo_world) as (w' & E & Hm).
  assert (Some w' = Some (MkMachine demo_sched (store_bytes (fun _ => 0) 0 (com_device 0 ++ [0])) 0)) as [= ->].
  { transitivity (option_map (fun r => snd (snd r)) (init_stty (K := machine_kernel) [] (stty0, demo_world)));
      [by rewrite E|reflexivity]. }
  edestruct (Hr 0 demo_handle 0 (Devfs.MkState [demo_handle] [stty_device 0] (stty0,
    MkMachine demo_sched (store_bytes (fun _ => 0) 0 (com_device 0 ++ [0])) 0) 0) 2%nat)
    as (st' & E' & _); [by split|lia|reflexivity|reflexivity|].
  eexists _, st'. split; [exact E|]. split; [reflexivity|exact E'].
Defined.

End Streams.
