(* ===== verification/Vdev.v ===== *)
(** * Virtual devices: [kernel/src/drivers/vdev/vdev.c]

    A task can register a device of which it is the driver: [register_vdev] takes
    the addresses, in its own memory, of a byte and a flag for each direction.  The
    task says that it is ready for a byte in one direction with [vdev_in_ready] or
    [vdev_out_ready]; the next request of that kind moves the byte, sets the flag,
    wakes the task if it waits for it, and ends the readiness. *)

From S2P Require Import Prelude Mem Dev Handle Gdt Task UserMem.
Local Open Scope Z_scope.
Local Open Scope st_scope.

Module Vdev.
Import Dev Task UserMem.

Definition VDEV_MAX : Z := 12.
Definition READY : Z := 0.
Definition NOT_READY : Z := -1.
Definition IO_NOT_READY : Z := -5.

Record vdev_t := MkVdev {
  pid : Z;
  status_in : Z; payload_in_addr : Z; payload_in_flag : Z;
  status_out : Z; payload_out_addr : Z; payload_out_flag : Z
}.
Definition SIZEOF_VDEV : Z := 28.
Definition with_in (s : Z) (v : vdev_t) : vdev_t :=
  MkVdev (pid v) s (payload_in_addr v) (payload_in_flag v) (status_out v) (payload_out_addr v) (payload_out_flag v).
Definition with_out (s : Z) (v : vdev_t) : vdev_t :=
  MkVdev (pid v) (status_in v) (payload_in_addr v) (payload_in_flag v) s (payload_out_addr v) (payload_out_flag v).

(** [vdevs], its address and its entries; [vdev_ptr] is their number. *)
Record vdevs_t := MkVdevs { address : Z; table : list vdev_t }.
Definition vdevs0 : vdevs_t := MkVdevs 0 [].

(** ["vdev0"], ...; there are [VDEV_MAX] names. *)
Definition vdev_name (i : Z) : list Z :=
  [118; 100; 101; 118] ++ (if i <? 10 then [48 + i] else [49; 48 + (i - 10)]).

Section Vdev.
Context {W : Type} {K : Kernel W}.

Definition get_vdev (n : Z) : ST (vdevs_t * W) vdev_t :=
  let! vs := get_vars in st_lift (zget (table vs) n).
Definition put_vdev (n : Z) (v : vdev_t) : ST (vdevs_t * W) unit :=
  let! vs := get_vars in
  let! t := st_lift (zset (table vs) n v) in
  set_vars (MkVdevs (address vs) t).

Definition vdev_in_ready (vdev : Z) : ST (vdevs_t * W) Z :=
  let! v := get_vdev vdev in
  let! c := on_rest current in
  if negb (pid v =? c) then st_ret (-1)
  else put_vdev vdev (with_in READY v) ;; st_ret 0.
Definition vdev_out_ready (vdev : Z) : ST (vdevs_t * W) Z :=
  let! v := get_vdev vdev in
  let! c := on_rest current in
  if negb (pid v =? c) then st_ret (-1)
  else put_vdev vdev (with_out READY v) ;; st_ret 0.

(** The manager of a device that waits for a request becomes active, with the
    device's number in [eax]. *)
Definition wake (vdev m : Z) : ST W unit :=
  let! t := get_task m in
  if status t =? KRN_STAT_VDEVWAIT_TASK then
    put_task m (with_cpu (with_eax vdev (cpu t)) (with_status KRN_STAT_ACTIVE_TASK t))
  else st_ret tt.

Definition vdev_io_wrapper : io_fn (vdevs_t * W) := fun vdev unused type payload =>
  if type =? 0 then
    let! v := get_vdev vdev in
    if negb (status_out v =? READY) then st_ret IO_NOT_READY
    else
      on_rest (wake vdev (pid v)) ;;
      put_vdev vdev (with_out NOT_READY v) ;;
      let! t := on_rest (get_task (pid v)) in
      on_rest (write_word (u32 (payload_out_flag v + base t)) 1) ;;
      let! b := on_rest (mem_read (u32 (payload_out_addr v + base t)) 1) in
      st_lift (zget b 0)
  else if type =? 1 then
    let! v := get_vdev vdev in
    if negb (status_in v =? READY) then st_ret IO_NOT_READY
    else
      on_rest (wake vdev (pid v)) ;;
      put_vdev vdev (with_in NOT_READY v) ;;
      let! t := on_rest (get_task (pid v)) in
      on_rest (write_word (u32 (payload_in_flag v + base t)) 1) ;;
      on_rest (mem_write (u32 (payload_in_addr v + base t)) [payload]) ;;
      st_ret 0
  else st_fail.

(** The greatest address [register_vdev] accepts, of a task's [pages]. *)
Definition last_address (t : task_t) : Z := u32 (u32 (pages t * PAGE_SIZE) - 4).

(** The result and the devices registered afterwards. *)
Definition register_vdev (in_addr in_flag out_addr out_flag : Z) (l : list (device_t (vdevs_t * W))) :
    ST (vdevs_t * W) (Z * list (device_t (vdevs_t * W))) :=
  let! vs := get_vars in
  let vdev_ptr := zlen (table vs) in
  if VDEV_MAX <=? vdev_ptr then st_ret (-1, l)
  else
    let! t := on_rest this_task in
    if (last_address t <? in_addr) || (last_address t <? in_flag) ||
       (last_address t <? out_addr) || (last_address t <? out_flag) then st_ret (-1, l)
    else
      let! tmp_ptr := on_rest (krealloc (address vs) ((vdev_ptr + 1) * SIZEOF_VDEV)) in
      if tmp_ptr =? 0 then st_ret (-1, l)
      else
        let! c := on_rest current in
        set_vars (MkVdevs tmp_ptr
          (table vs ++ [MkVdev c NOT_READY in_addr in_flag NOT_READY out_addr out_flag])) ;;
        let! l := st_lift (kernel_add_device (vdev_name vdev_ptr) vdev_ptr 0 vdev_io_wrapper l) in
        st_ret (vdev_ptr, l).

End Vdev.

(** ** Lemmas *)

(** The manager after a request of device [n]. *)
Definition woken (n : Z) (t : task_t) : task_t :=
  if status t =? KRN_STAT_VDEVWAIT_TASK then with_cpu (with_eax n (cpu t)) (with_status KRN_STAT_ACTIVE_TASK t) else t.

Lemma woken_base n t : base (woken n t) = base t.
Proof. unfold woken. by destruct (_ =? _). Qed.

(** The entry of the manager [m] is the task [t'], the others are those of [l]. *)
Definition table_with (l l' : list slot) (m : Z) (t' : task_t) : Prop :=
  zget l' m = Some (Task t') /\ forall i, i <> m -> zget l' i = zget l i.

Section Requests.
Context {W : Type} {K : Kernel W} {L : KernelLaws K} {U : UserMem K}.
#[local] Set Default Proof Using "Type*".
Implicit Types (s : sched) (w : W) (vs : vdevs_t) (v : vdev_t).

Lemma get_vdev_ok vs n v (w : W) : zget (table vs) n = Some v -> get_vdev n (vs, w) = Some (v, (vs, w)).
Proof. intros Hv. unfold get_vdev. erewrite st_bind_ok by reflexivity. unfold st_lift. cbn [fst]. by rewrite Hv. Qed.

Lemma put_vdev_ok vs n v (w : W) : 0 <= n < zlen (table vs) ->
  put_vdev n v (vs, w) = Some (tt, (MkVdevs (address vs) (<[Z.to_nat n := v]> (table vs)), w)).
Proof.
  intros Hn. unfold put_vdev. erewrite st_bind_ok by reflexivity. cbn [fst].
  erewrite st_bind_ok by (unfold st_lift; by rewrite (zset_ok _ _ _ Hn)). done.
Qed.

Lemma wake_ok n s w m t : zget (task_table s) m = Some (Task t) -> exists l,
  wake n m (set_sched s w) = Some (tt, set_sched (with_table l s) w) /\ table_with (task_table s) l m (woken n t).
Proof.
  intros Ht. pose proof (zget_Some _ _ _ Ht) as Hm. unfold wake, woken.
  destruct (status t =? KRN_STAT_VDEVWAIT_TASK) eqn:Es.
  - pose proof (zset_ok (task_table s) m (Task (with_cpu (with_eax n (cpu t)) (with_status KRN_STAT_ACTIVE_TASK t))) Hm) as El.
    eexists. split.
    + erewrite st_bind_ok by (by apply get_task_ok). rewrite Es. unfold put_task. by apply set_slot_ok.
    + split; [|intros i Hi]; rewrite (zget_zset _ _ _ _ _ El); [by rewrite decide_True|by rewrite decide_False].
  - exists (task_table s). split; [|by split]. erewrite st_bind_ok by (by apply get_task_ok). rewrite Es.
    by destruct s.
Qed.

(** A word and some bytes of the memory replaced. *)
Lemma flag_ok s w a : 0 <= a -> a + 4 <= 2 ^ 32 -> exists w',
  write_word a 1 (set_sched s w) = Some (tt, set_sched s w') /\ mem_eq (mbytes w') (store_bytes (mbytes w) a (le32 1)).
Proof.
  intros H0 H1. destruct (write_word_ok a 1 w H0 H1) as (w' & E & Hm & _). exists w'. split; [|done].
  by apply frame_ok; [apply mem_write_frame|].
Qed.
Lemma payload_ok s w a b : 0 <= a -> a + 4 <= 2 ^ 32 -> is_byte b -> exists w',
  mem_write a [b] (set_sched s w) = Some (tt, set_sched s w') /\ mem_eq (mbytes w') (store_bytes (mbytes w) a [b]).
Proof.
  intros H0 H1 Hb. destruct (mem_write_ok a [b] w H0) as (w' & E & Hm & _); [change (zlen [b]) with 1; lia|by constructor|].
  exists w'. split; [|done]. by apply frame_ok; [apply mem_write_frame|].
Qed.

(** The address [a] of the manager [t] with the word behind it. *)
Definition reachable (t : task_t) (a : Z) : Prop := 0 <= a /\ 0 <= base t /\ a + base t + 4 <= 2 ^ 32.

Lemma vdev_write_ok n v m t vs s w loc b : zget (table vs) n = Some v -> status_in v = READY -> pid v = m ->
  zget (task_table s) m = Some (Task t) -> reachable t (payload_in_flag v) -> reachable t (payload_in_addr v) ->
  is_byte b -> exists l w',
  vdev_io_wrapper n loc 1 b (vs, set_sched s w) =
    Some (0, (MkVdevs (address vs) (<[Z.to_nat n := with_in NOT_READY v]> (table vs)), set_sched (with_table l s) w')) /\
  table_with (task_table s) l m (woken n t) /\
  mem_eq (mbytes w') (store_bytes (store_bytes (mbytes w) (payload_in_flag v + base t) (le32 1)) (payload_in_addr v + base t) [b]).
Proof.
  intros Hv Hr Hp Ht (F1 & F2 & F3) (A1 & A2 & A3) Hb. destruct (wake_ok n s w m t Ht) as (l & E1 & Hl).
  destruct (flag_ok (with_table l s) w (payload_in_flag v + base t)) as (w1 & E2 & M1); [lia..|].
  destruct (payload_ok (with_table l s) w1 (payload_in_addr v + base t) b) as (w2 & E3 & M2); [lia..|done|].
  exists l, w2. split; [|split; [done|by rewrite M2, M1]].
  unfold vdev_io_wrapper. cbn [Z.eqb Pos.eqb]. erewrite st_bind_ok by (by apply get_vdev_ok). rewrite Hr, Hp. cbn [negb Z.eqb READY].
  erewrite st_bind_ok by (apply on_rest_ok; exact E1).
  erewrite st_bind_ok by (apply put_vdev_ok; by eapply zget_Some).
  erewrite st_bind_ok by (apply on_rest_ok, get_task_ok; exact (proj1 Hl)). rewrite woken_base, !u32_small by lia.
  erewrite st_bind_ok by (apply on_rest_ok; exact E2). by erewrite st_bind_ok by (apply on_rest_ok; exact E3).
Qed.

Lemma vdev_read_ok n v m t vs s w loc : zget (table vs) n = Some v -> status_out v = READY -> pid v = m ->
  zget (task_table s) m = Some (Task t) -> reachable t (payload_out_flag v) -> reachable t (payload_out_addr v) ->
  (payload_out_addr v < payload_out_flag v \/ payload_out_flag v + 4 <= payload_out_addr v) -> exists l w',
  vdev_io_wrapper n loc 0 0 (vs, set_sched s w) =
    Some (mbytes w (payload_out_addr v + base t),
      (MkVdevs (address vs) (<[Z.to_nat n := with_out NOT_READY v]> (table vs)), set_sched (with_table l s) w')) /\
  table_with (task_table s) l m (woken n t) /\
  mem_eq (mbytes w') (store_bytes (mbytes w) (payload_out_flag v + base t) (le32 1)).
Proof.
  intros Hv Hr Hp Ht (F1 & F2 & F3) (A1 & A2 & A3) Hd. destruct (wake_ok n s w m t Ht) as (l & E1 & Hl).
  destruct (flag_ok (with_table l s) w (payload_out_flag v + base t)) as (w1 & E2 & M1); [lia..|].
  pose proof (mem_read_ok (payload_out_addr v + base t) 1 w1 ltac:(lia) ltac:(lia)) as E3.
  apply (frame_ok _ (with_table l s) _ _ _ (mem_read_frame _ _)) in E3.
  exists l, w1. split; [|split; [done|done]].
  unfold vdev_io_wrapper. cbn [Z.eqb Pos.eqb]. erewrite st_bind_ok by (by apply get_vdev_ok). rewrite Hr, Hp. cbn [negb Z.eqb READY].
  erewrite st_bind_ok by (apply on_rest_ok; exact E1).
  erewrite st_bind_ok by (apply put_vdev_ok; by eapply zget_Some).
  erewrite st_bind_ok by (apply on_rest_ok, get_task_ok; exact (proj1 Hl)). rewrite woken_base, !u32_small by lia.
  erewrite st_bind_ok by (apply on_rest_ok; exact E2). erewrite st_bind_ok by (apply on_rest_ok; exact E3).
  unfold st_lift. rewrite mem_bytes_get by lia. rewrite M1, store_out by (change (zlen (le32 1)) with 4; lia).
  by rewrite Z.add_0_r.
Qed.

(** A request while the task is not ready. *)
Lemma vdev_not_ready n v vs (w : W) loc b : zget (table vs) n = Some v ->
  (status_in v <> READY -> vdev_io_wrapper n loc 1 b (vs, w) = Some (IO_NOT_READY, (vs, w))) /\
  (status_out v <> READY -> vdev_io_wrapper n loc 0 b (vs, w) = Some (IO_NOT_READY, (vs, w))).
Proof.
  intros Hv. split; intros Hr; unfold vdev_io_wrapper; cbn [Z.eqb Pos.eqb];
    (erewrite st_bind_ok by (by apply get_vdev_ok)); by rewrite (proj2 (Z.eqb_neq _ _)).
Qed.

End Requests.

(** * Properties *)

(** C38: The handshake of a virtual device.  A request while its task is not ready for
    it answers [IO_NOT_READY] and changes nothing.  When it is ready, a write stores
    the byte, and a read delivers the byte stored, at the address the task registered
    in its own memory; the flag becomes 1, no other byte of the memory changes, the
    task is woken with the device's number if it waits, no other task changes, and the
    device is no longer ready, so that the next request answers [IO_NOT_READY].  Only
    the task that registered the device makes it ready again. *)
Theorem vdev_handshake {W : Type} {K : Kernel W} {L : KernelLaws K} {U : UserMem K}
    (n : Z) (v : vdev_t) (t : task_t) (vs : vdevs_t) (s : sched) (w : W) (loc b : Z) :
  zget (table vs) n = Some v -> zget (task_table s) (pid v) = Some (Task t) -> is_byte b ->
  reachable t (payload_in_flag v) -> reachable t (payload_in_addr v) ->
  reachable t (payload_out_flag v) -> reachable t (payload_out_addr v) ->
  (payload_out_addr v < payload_out_flag v \/ payload_out_flag v + 4 <= payload_out_addr v) ->
  let st := (vs, set_sched s w) in
  (status_in v <> READY -> vdev_io_wrapper n loc 1 b st = Some (IO_NOT_READY, st)) /\
  (status_out v <> READY -> vdev_io_wrapper n loc 0 0 st = Some (IO_NOT_READY, st)) /\
  (status_in v = READY -> exists vs' l w', vdev_io_wrapper n loc 1 b st = Some (0, (vs', set_sched (with_table l s) w')) /\
     table_with (task_table s) l (pid v) (woken n t) /\
     mem_eq (mbytes w') (store_bytes (store_bytes (mbytes w) (payload_in_flag v + base t) (le32 1)) (payload_in_addr v + base t) [b]) /\
     forall b' w1, vdev_io_wrapper n loc 1 b' (vs', w1) = Some (IO_NOT_READY, (vs', w1))) /\
  (status_out v = READY -> exists vs' l w',
     vdev_io_wrapper n loc 0 0 st = Some (mbytes w (payload_out_addr v + base t), (vs', set_sched (with_table l s) w')) /\
     table_with (task_table s) l (pid v) (woken n t) /\
     mem_eq (mbytes w') (store_bytes (mbytes w) (payload_out_flag v + base t) (le32 1)) /\
     forall w1, vdev_io_wrapper n loc 0 0 (vs', w1) = Some (IO_NOT_READY, (vs', w1))) /\
  (pid v <> current_task s -> vdev_in_ready n st = Some (-1, st) /\ vdev_out_ready n st = Some (-1, st)).
Proof.
  intros Hv Ht Hb HF HA HG HO Hd st. pose proof (zget_Some _ _ _ Hv) as Hn.
  assert (forall v', zget (table (MkVdevs (address vs) (<[Z.to_nat n := v']> (table vs)))) n = Some v') as Hg.
  { intros v'. cbn [table]. rewrite (zget_zset _ _ _ _ _ (zset_ok _ _ _ Hn)). by rewrite decide_True. }
  split; [apply (vdev_not_ready n v vs (set_sched s w) loc b Hv)|].
  split; [apply (vdev_not_ready n v vs (set_sched s w) loc 0 Hv)|]. split; [|split].
  - intros Hr. destruct (vdev_write_ok n v _ t vs s w loc b Hv Hr eq_refl Ht HF HA Hb) as (l & w' & E & Hl & Hm).
    eexists _, l, w'. split; [exact E|]. split; [done|]. split; [done|]. intros b' w1.
    by apply (proj1 (vdev_not_ready n _ _ w1 loc b' (Hg _))).
  - intros Hr. destruct (vdev_read_ok n v _ t vs s w loc Hv Hr eq_refl Ht HG HO Hd) as (l & w' & E & Hl & Hm).
    eexists _, l, w'. split; [exact E|]. split; [done|]. split; [done|]. intros w1.
    by apply (proj2 (vdev_not_ready n _ _ w1 loc 0 (Hg _))).
  - intros Hc. unfold vdev_in_ready, vdev_out_ready.
    split; (erewrite st_bind_ok by (by apply get_vdev_ok)); (erewrite st_bind_ok by (apply on_rest_ok, current_ok));
      by rewrite (proj2 (Z.eqb_neq _ _)).
Qed.

(** Registration of a virtual device: when fewer than [VDEV_MAX] are registered
    and a word at each of the four addresses lies in the task's memory, the device
    gets the next number, is registered under its name with that number, belongs to
    the running task and is not ready in either direction; the other devices are
    unchanged.  With an address beyond, or [VDEV_MAX] devices, the answer is -1 and
    nothing changes. *)
Theorem register_vdev_correct {W : Type} {K : Kernel W} {L : KernelLaws K} (vs : vdevs_t) (s : sched) (w w' : W)
    (t : task_t) (ia if_ oa of_ p : Z) (l : list (device_t (vdevs_t * W))) :
  zget (task_table s) (current_task s) = Some (Task t) -> 1 <= pages t < 2 ^ 20 ->
  let n := zlen (table vs) in
  let inside a := a + 4 <= pages t * PAGE_SIZE in
  krealloc (address vs) ((n + 1) * SIZEOF_VDEV) (set_sched s w) = Some (p, set_sched s w') -> p <> 0 ->
  (n < VDEV_MAX -> inside ia -> inside if_ -> inside oa -> inside of_ ->
     register_vdev ia if_ oa of_ l (vs, set_sched s w) =
       Some ((n, l ++ [MkDevice (vdev_name n) n 0 vdev_io_wrapper]),
         (MkVdevs p (table vs ++ [MkVdev (current_task s) NOT_READY ia if_ NOT_READY oa of_]), set_sched s w'))) /\
  (VDEV_MAX <= n \/ ~ inside ia \/ ~ inside if_ \/ ~ inside oa \/ ~ inside of_ ->
     register_vdev ia if_ oa of_ l (vs, set_sched s w) = Some ((-1, l), (vs, set_sched s w))).
Proof.
  intros Ht Hp n inside Hk Hp0. assert (last_address t = pages t * PAGE_SIZE - 4) as Hlast
    by (unfold last_address, PAGE_SIZE; rewrite !u32_small by (rewrite ?u32_small by lia; lia); done).
  unfold register_vdev. split.
  - intros Hn H1 H2 H3 H4. unfold inside in *. erewrite st_bind_ok by reflexivity. cbn [fst]. fold n.
    rewrite (proj2 (Z.leb_gt _ _)) by done. erewrite st_bind_ok by (by apply on_rest_ok, this_task_ok).
    rewrite Hlast, !(proj2 (Z.ltb_ge _ _)) by lia. cbn [orb].
    erewrite st_bind_ok by (by apply on_rest_ok). rewrite (proj2 (Z.eqb_neq _ _)) by done.
    erewrite st_bind_ok by (apply on_rest_ok, current_ok). erewrite st_bind_ok by reflexivity.
    unfold kernel_add_device. rewrite decide_True by (unfold vdev_name; by destruct (n <? 10)).
    by erewrite st_bind_ok by (unfold st_lift; reflexivity).
  - intros Hbad. erewrite st_bind_ok by reflexivity. cbn [fst]. fold n.
    destruct (Z.leb_spec VDEV_MAX n) as [|Hn]; [done|]. erewrite st_bind_ok by (by apply on_rest_ok, this_task_ok).
    rewrite Hlast. unfold inside in Hbad.
    destruct (Z.ltb_spec (pages t * PAGE_SIZE - 4) ia); [done|]. destruct (Z.ltb_spec (pages t * PAGE_SIZE - 4) if_); [done|].
    destruct (Z.ltb_spec (pages t * PAGE_SIZE - 4) oa); [done|]. destruct (Z.ltb_spec (pages t * PAGE_SIZE - 4) of_); [done|]. lia.
Qed.

(** * Witnesses *)

(** Task 1 waits for a request of device 0 and keeps its bytes at offsets 16 to 31. *)
Definition manager : task_t := with_base 4096 2 (idle_task KRN_STAT_VDEVWAIT_TASK 0).
Definition demo_table : sched := MkSched [Task kernel_task; Task manager] 0 0 [].
Definition demo_vdev : vdev_t := MkVdev 1 READY 16 20 READY 24 28.
Definition demo_machine : machine := MkMachine demo_table (fun x => if x =? 4120 then 77 else 0) 0.

Lemma vdev_handshake_witness : exists vs' l w',
  vdev_io_wrapper (K := machine_kernel) 0 0 0 0 (MkVdevs 0 [demo_vdev], set_sched demo_table demo_machine) =
    Some (77, (vs', set_sched (with_table l demo_table) w')) /\
  exists t', zget l 1 = Some (Task t') /\ status t' = KRN_STAT_ACTIVE_TASK /\ mbytes w' 4124 = 1.
Proof.
  destruct (vdev_handshake 0 demo_vdev manager (MkVdevs 0 [demo_vdev]) demo_table demo_machine 0 5)
    as (_ & _ & _ & H & _); [reflexivity|reflexivity|by split|..|left; reflexivity|].
  1-4: unfold reachable; cbn; lia.
  - destruct (H eq_refl) as (vs' & l & w' & E & [Hl _] & Hm & _). exists vs', l, w'. split; [exact E|].
    eexists. split; [exact Hl|]. split; [reflexivity|]. rewrite Hm. reflexivity.
Defined.

Lemma register_vdev_correct_witness : exists vs' w',
  register_vdev (K := machine_kernel) 0 4 8 8188 []
    (MkVdevs 0 [], set_sched (with_current 1 demo_table) (MkMachine demo_table (fun _ => 0) 64)) =
  Some ((0, [MkDevice (vdev_name 0) 0 0 vdev_io_wrapper]), (vs', w')) /\
  register_vdev (K := machine_kernel) 0 4 8 8189 []
    (MkVdevs 0 [], set_sched (with_current 1 demo_table) (MkMachine demo_table (fun _ => 0) 64)) =
  Some ((-1, []), (MkVdevs 0 [], set_sched (with_current 1 demo_table) (MkMachine demo_table (fun _ => 0) 64))).
Proof.
  assert (1 <= pages manager < 2 ^ 20) as Hp by (cbn; lia). assert (64 <> 0) as H64 by discriminate.
  pose proof (fun of_ => register_vdev_correct (MkVdevs 0 []) (with_current 1 demo_table)
    (MkMachine demo_table (fun _ => 0) 64) (MkMachine demo_table (fun _ => 0) 92) manager 0 4 8 of_ 64 []
    eq_refl Hp eq_refl H64) as H.
  eexists _, _. split.
  - apply (proj1 (H 8188)); first [reflexivity|discriminate].
  - apply (proj2 (H 8189)). do 4 right. intros Hi. by apply Hi.
Defined.

End Vdev.
