(* ===== verification/Interrupts.v ===== *)
(** * Interrupts, the timer and stack traces

    The interrupt descriptor table of [kernel/src/drivers/idt.c], the interrupt
    controllers of [kernel/src/drivers/pic.c], the timer of [kernel/src/drivers/pit.c],
    [exception_handler] of [kernel/src/drivers/exceptions.c] and the symbol search and
    the stack walk of [kernel/src/lib/trace.c].

    The entry points of the handlers are assembly: their addresses are arguments, like
    the symbol list, which the build generates.  The changes of privilege level and
    [lidt] are not modelled; the messages go to a parameter. *)

From S2P Require Import Prelude Mem Dev Handle Devfs Chardev Gdt Task.
Local Open Scope Z_scope.
Local Open Scope st_scope.

Module Interrupts.
Import Chardev Task.

(** ** The interrupt descriptor table *)

Record idt_entry := MkGate { offset_low16 : Z; gate_cs : Z; zero : Z; attributes : Z; offset_high16 : Z }.
Definition no_gate : idt_entry := MkGate 0 0 0 0 0.
Definition idt0 : list idt_entry := replicate (Z.to_nat 256) no_gate.

Definition register_interrupt_handler (vec cs handler type : Z) (idt : list idt_entry) : option (list idt_entry) :=
  zset idt vec (MkGate (u16 handler) cs 0 type (u16 (Z.shiftr handler 16))).

(** [exception_thunks] from index [i] on, [n] of them. *)
Fixpoint register_exceptions (n : nat) (i : Z) (thunks : list Z) (idt : list idt_entry) : option (list idt_entry) :=
  match n with
  | O => Some idt
  | S n => h ← zget thunks i; idt ← register_interrupt_handler i 0x08 h 0x8e idt;
           register_exceptions n (i + 1) thunks idt
  end.

Definition load_idt (thunks : list Z) (irq0 keyboard syscall escalate : Z) (idt : list idt_entry) :
    option (list idt_entry) :=
  idt ← register_exceptions 32 0 thunks idt;
  idt ← register_interrupt_handler 0x20 0x08 irq0 0x8e idt;
  idt ← register_interrupt_handler 0x21 0x08 keyboard 0x8e idt;
  idt ← register_interrupt_handler 0x80 0x19 syscall 0xee idt;
  register_interrupt_handler 0x90 0x08 escalate 0xae idt.

(** ** The interrupt controllers and the timer *)

Section Hardware.
Context {P : Type} {HP : Ports P}.

Definition set_PIC0_mask (mask : Z) : ST P unit := port_out_b 0x21 mask.
Definition set_PIC1_mask (mask : Z) : ST P unit := port_out_b 0xA1 mask.
Definition get_PIC0_mask : ST P Z := port_in_b 0x21.
Definition get_PIC1_mask : ST P Z := port_in_b 0xA1.

Definition map_PIC (PIC0Offset PIC1Offset : Z) : ST P unit :=
  let! mask0 := get_PIC0_mask in
  let! mask1 := get_PIC1_mask in
  port_out_b 0x20 0x11 ;; port_out_b 0xA0 0x11 ;;
  port_out_b 0x21 PIC0Offset ;; port_out_b 0xA1 PIC1Offset ;;
  port_out_b 0x21 0x04 ;; port_out_b 0xA1 0x02 ;;
  port_out_b 0x21 0x01 ;; port_out_b 0xA1 0x01 ;;
  set_PIC0_mask mask0 ;; set_PIC1_mask mask1.

(** The divisor, rounded to the nearest; a division by 0 is [None]. *)
Definition pit_divisor (frequency : Z) : option Z :=
  if frequency =? 0 then None
  else
    let x := u16 (1193182 / frequency) in
    Some (if frequency / 2 <? 1193182 mod frequency then u16 (x + 1) else x).
Definition set_pit_freq (frequency : Z) : ST P unit :=
  let! x := st_lift (pit_divisor frequency) in
  port_out_b 0x40 (Z.land x 0xff) ;; port_out_b 0x40 (u8 (x / 0x100)).

End Hardware.

(** ** Exceptions

    [exception_names] has a text for the exceptions 0 to 30.  [say fmt args] is
    [kprint(KPRN_WARN, ...)]; a panic is [None]. *)

Section Exceptions.
Context {W : Type} {K : Kernel W} (say : list Z -> list Z -> ST W unit).

Definition EXCEPTION_NAMES : Z := 31.

Definition exception_handler (fuel : nat) (fmt_at fmt_code fmt_call fmt_end : list Z) (last_syscall : Z)
    (exception_number : Z) (state : gpr_state) (has_error_code error_code : Z) : ST W (option outcome) :=
  if (0 <=? exception_number) && (exception_number <? EXCEPTION_NAMES) then
    say fmt_at [exception_number; cs state; eip state] ;;
    (if has_error_code =? 0 then st_ret tt else say fmt_code [error_code]) ;;
    if (cs state =? 0x08) || (cs state =? 0x19) then st_fail
    else
      say fmt_call [last_syscall] ;;
      say fmt_end [] ;;
      let! c := current in
      task_quit fuel c (-1)
  else st_fail.

End Exceptions.

(** ** Stack traces *)

Record symlist_t := MkSym { addr : Z; sname : list Z }.

(** The loop of [trace_address]: [prev] is the entry before, if there is one. *)
Fixpoint trace_from (prev : option symlist_t) (a : Z) (l : list symlist_t) : option (Z * list Z) :=
  match l with
  | [] => None
  | s :: l => if a <=? addr s then p ← prev; Some (u32 (a - addr p), sname p) else trace_from (Some s) a l
  end.
Definition trace_address (symlist : list symlist_t) (a : Z) : option (Z * list Z) := trace_from None a symlist.

(** The return addresses [print_stacktrace] prints, with their symbols and offsets;
    [None] also when the chain of frames is longer than the fuel. *)
Fixpoint stacktrace (fuel : nat) (symlist : list symlist_t) (m : mem) (base_ptr : Z) : option (list (Z * Z * list Z)) :=
  match fuel with
  | O => None
  | S fuel =>
      let old_bp := load32 m base_ptr in
      let ret_addr := load32 m (u32 (base_ptr + 4)) in
      if ret_addr =? 0 then Some []
      else
        '(off, nm) ← trace_address symlist ret_addr;
        if old_bp =? 0 then Some [(ret_addr, off, nm)]
        else l ← stacktrace fuel symlist m old_bp; Some ((ret_addr, off, nm) :: l)
  end.

(** ** Lemmas *)

(** The address a gate leads to. *)
Definition gate_target (g : idt_entry) : Z := offset_low16 g + 2 ^ 16 * offset_high16 g.
Definition gate (cs handler type : Z) (g : idt_entry) : Prop :=
  gate_target g = handler /\ gate_cs g = cs /\ attributes g = type /\ zero g = 0.

Lemma register_ok vec cs h type idt : 0 <= vec < zlen idt -> 0 <= h < 2 ^ 32 -> exists idt' g,
  register_interrupt_handler vec cs h type idt = Some idt' /\ zlen idt' = zlen idt /\
  zget idt' vec = Some g /\ gate cs h type g /\ forall i, i <> vec -> zget idt' i = zget idt i.
Proof.
  intros Hv Hh. unfold register_interrupt_handler. rewrite (zset_ok _ _ _ Hv).
  pose proof (zset_ok idt vec (MkGate (u16 h) cs 0 type (u16 (Z.shiftr h 16))) Hv) as E.
  eexists _, _. split; [done|]. split; [apply zlen_insert|].
  split; [by rewrite (zget_zset _ _ _ _ _ E), decide_True|]. split.
  - split; [|done]. unfold gate_target, u16. cbn [offset_low16 offset_high16]. rewrite Z.shiftr_div_pow2 by lia. zdml.
  - intros i Hi. by rewrite (zget_zset _ _ _ _ _ E), decide_False by done.
Qed.

Lemma register_exceptions_ok thunks n i idt : 0 <= i -> i + Z.of_nat n <= zlen thunks -> i + Z.of_nat n <= zlen idt ->
  Forall (fun h => 0 <= h < 2 ^ 32) thunks -> exists idt',
  register_exceptions n i thunks idt = Some idt' /\ zlen idt' = zlen idt /\
  (forall j, i <= j < i + Z.of_nat n -> exists h g, zget thunks j = Some h /\ zget idt' j = Some g /\ gate 0x08 h 0x8e g) /\
  forall j, j < i \/ i + Z.of_nat n <= j -> zget idt' j = zget idt j.
Proof.
  intros Hi Ht Hl Hth. revert i idt Hi Ht Hl. induction n as [|n IH]; intros i idt Hi Ht Hl; cbn [register_exceptions].
  { exists idt. split; [done|]. split; [done|]. split; [intros j Hj; lia|done]. }
  destruct (zget_is_Some thunks i) as [h Hh]; [lia|]. rewrite Hh. cbn [mbind option_bind].
  assert (0 <= h < 2 ^ 32) as Hr by (rewrite zget_lookup in Hh by lia; by eapply Forall_lookup_1 in Hth).
  destruct (register_ok i 0x08 h 0x8e idt) as (idt1 & g & -> & Hl1 & Hg & Hgate & Ho); [lia|done|].
  cbn [mbind option_bind]. destruct (IH (i + 1) idt1) as (idt' & -> & Hl' & Hin & Hout); [lia..|].
  exists idt'. split; [done|]. split; [congruence|]. split.
  - intros j Hj. destruct (decide (j = i)) as [->|]; [|apply Hin; lia].
    exists h, g. rewrite Hout by lia. done.
  - intros j Hj. rewrite Hout by lia. apply Ho. lia.
Qed.

Lemma trace_from_ok prev a l : (forall p, prev = Some p -> addr p < a) -> Exists (fun s => a <= addr s) l ->
  (exists p l1 l2 s, from_option (fun p => [p]) [] prev ++ l = l1 ++ p :: s :: l2 /\ addr p < a <= addr s /\
     Forall (fun q => addr q < a) l1 /\ trace_from prev a l = Some (u32 (a - addr p), sname p)) \/
  (prev = None /\ trace_from prev a l = None).
Proof.
  intros Hp Hl. revert prev Hp. induction l as [|s l IH]; intros prev Hp; [by inversion Hl|]. cbn [trace_from].
  destruct (Z.leb_spec a (addr s)) as [Hs|Hs].
  - destruct prev as [p|]; [left|by right]. exists p, [], l, s. specialize (Hp p eq_refl). by repeat split.
  - apply Exists_cons in Hl as [Hl|Hl]; [lia|].
    destruct (IH Hl (Some s)) as [(p & l1 & l2 & q & E & Ha & HF & Et)|[? _]]; [by intros p [= <-]| |done].
    left. destruct prev as [p0|].
    + exists p, (p0 :: l1), l2, q. cbn in E |- *. split; [by rewrite E|]. split; [done|]. split; [|done].
      constructor; [by apply Hp|done].
    + exists p, l1, l2, q. cbn in E |- *. by rewrite E.
Qed.

(** * Properties *)

(** After [load_idt] the processor finds the handlers: for every exception, the
    timer, the keyboard, the system call and the privilege gate, the entry of its
    vector leads to exactly the address of its handler in the intended code segment
    and with its attributes, and every other vector has no gate. *)
Theorem load_idt_correct (thunks : list Z) (irq0 keyboard syscall escalate : Z) :
  zlen thunks = 32 -> Forall (fun h => 0 <= h < 2 ^ 32) (irq0 :: keyboard :: syscall :: escalate :: thunks) ->
  exists idt, load_idt thunks irq0 keyboard syscall escalate idt0 = Some idt /\ zlen idt = 256 /\
  (forall i, 0 <= i < 32 -> exists h g, zget thunks i = Some h /\ zget idt i = Some g /\ gate 0x08 h 0x8e g) /\
  (exists g, zget idt 0x20 = Some g /\ gate 0x08 irq0 0x8e g) /\
  (exists g, zget idt 0x21 = Some g /\ gate 0x08 keyboard 0x8e g) /\
  (exists g, zget idt 0x80 = Some g /\ gate 0x19 syscall 0xee g) /\
  (exists g, zget idt 0x90 = Some g /\ gate 0x08 escalate 0xae g) /\
  forall i, 32 <= i < 256 -> i <> 0x20 -> i <> 0x21 -> i <> 0x80 -> i <> 0x90 -> zget idt i = Some no_gate.
Proof.
  intros Hlen Hall. apply Forall_cons in Hall as [H0 Hall]. apply Forall_cons in Hall as [H1 Hall].
  apply Forall_cons in Hall as [H2 Hall]. apply Forall_cons in Hall as [H3 Hall].
  assert (zlen idt0 = 256) as Hz by (unfold idt0; by rewrite zlen_replicate).
  destruct (register_exceptions_ok thunks 32 0 idt0) as (i1 & E1 & L1 & X1 & O1); [lia..|done|].
  destruct (register_ok 0x20 0x08 irq0 0x8e i1) as (i2 & g2 & E2 & L2 & X2 & G2 & O2); [lia|done|].
  destruct (register_ok 0x21 0x08 keyboard 0x8e i2) as (i3 & g3 & E3 & L3 & X3 & G3 & O3); [lia|done|].
  destruct (register_ok 0x80 0x19 syscall 0xee i3) as (i4 & g4 & E4 & L4 & X4 & G4 & O4); [lia|done|].
  destruct (register_ok 0x90 0x08 escalate 0xae i4) as (i5 & g5 & E5 & L5 & X5 & G5 & O5); [lia|done|].
  exists i5. split; [|split; [congruence|split; [|split; [|split; [|split; [|split]]]]]].
  - unfold load_idt. rewrite E1. cbn [mbind option_bind]. rewrite E2. cbn [mbind option_bind].
    rewrite E3. cbn [mbind option_bind]. rewrite E4. exact E5.
  - intros i Hi. destruct (X1 i) as (h & g & A & B & C); [lia|]. exists h, g. rewrite O5, O4, O3, O2 by lia. done.
  - exists g2. by rewrite O5, O4, O3 by lia.
  - exists g3. by rewrite O5, O4 by lia.
  - exists g4. by rewrite O5 by lia.
  - by exists g5.
  - intros i Hi N1 N2 N3 N4. rewrite O5, O4, O3, O2, O1 by lia. unfold idt0.
    rewrite zget_lookup by lia. apply lookup_replicate_2. lia.
Qed.

(** The timer divisor is the nearest one: for every frequency from 19 Hz to the
    timer's own, [set_pit_freq] sends, low byte first, a 16-bit divisor whose product
    with the frequency is within half of the frequency of 1193182. *)
Theorem set_pit_freq_nearest {P : Type} {HP : Ports P} (f : Z) (p : P) : 19 <= f <= 1193182 -> exists x,
  0 < x < 2 ^ 16 /\ 2 * Z.abs (x * f - 1193182) <= f /\
  set_pit_freq f p = (port_out_b 0x40 (x mod 256) ;; port_out_b 0x40 (x / 256)) p.
Proof.
  intros Hf. pose proof (Z.div_mod 1193182 f ltac:(lia)) as Hdm. pose proof (Z.mod_pos_bound 1193182 f ltac:(lia)) as Hm.
  set (q := 1193182 / f) in *. set (r := 1193182 mod f) in *.
  assert (0 < q <= 62799) as Hq by nia.
  exists (if f / 2 <? r then q + 1 else q).
  assert (pit_divisor f = Some (if f / 2 <? r then q + 1 else q)) as Ex.
  { unfold pit_divisor. rewrite (proj2 (Z.eqb_neq f 0)) by lia. fold q r. rewrite !u16_small by (rewrite ?u16_small by lia; lia). done. }
  split; [destruct (_ <? _); lia|]. split.
  - pose proof (Z.div_mod f 2 ltac:(lia)). pose proof (Z.mod_pos_bound f 2 ltac:(lia)).
    destruct (Z.ltb_spec (f / 2) r); nia.
  - unfold set_pit_freq. erewrite st_bind_ok by (unfold st_lift; by rewrite Ex).
    set (x := if _ : bool then _ else _). assert (0 < x < 2 ^ 16) as Hx by (unfold x; destruct (_ <? _); lia).
    change 0xff with (Z.ones 8). rewrite Z.land_ones by lia. change (2 ^ 8) with 256. change 0x100 with 256.
    rewrite u8_small; [done|]. split; [apply Z.div_pos; lia|apply Z.div_lt_upper_bound; lia].
Qed.

(** A stack trace names the function an address is in: for an address behind the
    first symbol, and a list that ends with the sentinel, [trace_address] gives the
    last symbol below the address and the distance from it; for an address at or below
    the first symbol it reads before the list. *)
Theorem trace_address_correct (symlist : list symlist_t) (a : Z) :
  0 <= a < 2 ^ 32 -> Forall (fun s => 0 <= addr s) symlist -> Exists (fun s => a <= addr s) symlist ->
  (exists p l1 l2 s, symlist = l1 ++ p :: s :: l2 /\ addr p < a <= addr s /\ Forall (fun q => addr q < a) l1 /\
     trace_address symlist a = Some (a - addr p, sname p)) \/
  ((exists s l, symlist = s :: l /\ a <= addr s) /\ trace_address symlist a = None).
Proof.
  intros Ha Hs Hl. destruct (trace_from_ok None a symlist) as [(p & l1 & l2 & s & E & Hp & HF & Et)|[_ Et]]; [done|done| |].
  - left. exists p, l1, l2, s. split; [exact E|]. split; [done|]. split; [done|]. unfold trace_address. rewrite Et.
    cbn in E. subst symlist. apply Forall_app in Hs as [_ Hs]. apply Forall_cons in Hs as [Hp0 _]. by rewrite u32_small by lia.
  - destruct symlist as [|s l]; [by inversion Hl|]. right. split; [|exact Et]. exists s, l. split; [done|].
    destruct (Z.le_gt_cases a (addr s)) as [|Hgt]; [done|]. exfalso. unfold trace_address in Et. cbn [trace_from] in Et.
    rewrite (proj2 (Z.leb_gt _ _)) in Et by lia. apply Exists_cons in Hl as [Hl|Hl]; [lia|].
    destruct (trace_from_ok (Some s) a l) as [(p & l1 & l2 & q & _ & _ & _ & E2)|[? _]]; [by intros p [= <-]|done| |done].
    rewrite Et in E2. discriminate.
Qed.

(** * Witnesses *)

Lemma load_idt_correct_witness : exists idt g,
  load_idt (replicate 32 0x1000) 0x2000 0x3000 0x12345678 0x5000 idt0 = Some idt /\
  zget idt 0x80 = Some g /\ gate_target g = 0x12345678.
Proof.
  destruct (load_idt_correct (replicate 32 0x1000) 0x2000 0x3000 0x12345678 0x5000)
    as (idt & E & _ & _ & _ & _ & (g & Hg & Ht & _) & _);
    [reflexivity|repeat (constructor; [lia|]); constructor|].
  exists idt, g. split; [exact E|]. split; [exact Hg|exact Ht].
Defined.

Lemma set_pit_freq_nearest_witness : exists x, 2 * Z.abs (x * 4000 - 1193182) <= 4000 /\
  set_pit_freq (HP := machine_ports) 4000 [] = Some (tt, [(0x40, x / 256); (0x40, x mod 256)]).
Proof.
  destruct (set_pit_freq_nearest (HP := machine_ports) 4000 []) as (x & _ & H & E); [lia|].
  exists x. split; [exact H|exact E].
Defined.

Lemma trace_address_correct_witness :
  trace_address [MkSym 0x1000 [97]; MkSym 0x1010 [98]; MkSym 0xffffffff []] 0x1014 = Some (4, [98]) /\
  exists p, In p [MkSym 0x1000 [97]; MkSym 0x1010 [98]; MkSym 0xffffffff []] /\ addr p < 0x1014.
Proof.
  destruct (trace_address_correct [MkSym 0x1000 [97]; MkSym 0x1010 [98]; MkSym 0xffffffff []] 0x1014)
    as [(p & l1 & l2 & s & E & Hp & _ & Et)|[_ Et]];
    [lia|repeat (constructor; [cbn; lia|]); constructor|do 2 right; left; cbn; lia| |discriminate Et].
  split; [reflexivity|]. exists p. split; [|lia]. rewrite E. apply in_or_app. right. by left.
Defined.

End Interrupts.
