(* ===== verification/Panic.v ===== *)
(** * The end of the kernel: [kernel/src/drivers/panic.c]

    [panic] prints its message, the registers at the fault and a stack trace with
    [kprint], then halts; [exception_handler] of [kernel/src/drivers/exceptions.c] ends in
    it for a fault of the kernel's own.  The result here is the console when the
    processor halts.  The symbol list is an argument (the build generates it), and so
    are the memory with the frames and the frame pointer [ebp] of [panic] itself.
    [junk] gives the contents of the buffer of each message. *)

From Stdlib Require Import Ascii String.
From S2P Require Import Prelude Mem Tty Kprint Task Interrupts.
Local Open Scope Z_scope.

Module Panic.
Import Kprint Task Interrupts.

(** A text with its terminator. *)
Definition cstr (s : string) : list Z := bytes s ++ [0].

Section Panic.
Context (junk : Z -> list Z) (symlist : list symlist_t) (m : mem).

(** The loop of [print_stacktrace]; [k] counts the messages. *)
Fixpoint print_frames (fuel : nat) (k type base_ptr : Z) (c : Tty.console) : option Tty.console :=
  match fuel with
  | O => None
  | S fuel =>
      let old_bp := load32 m base_ptr in
      let ret_addr := load32 m (u32 (base_ptr + 4)) in
      if ret_addr =? 0 then Some c
      else
        '(off, nm) ← trace_address symlist ret_addr;
        c ← kprint (junk k) type (cstr "  [%x] <%s+%x>") [Word ret_addr; Str (Some (nm ++ [0])); Word off] c;
        if old_bp =? 0 then Some c else print_frames fuel (k + 1) type old_bp c
  end.

Definition print_stacktrace (fuel : nat) (k type ebp base_ptr : Z) (c : Tty.console) : option Tty.console :=
  let base_ptr := if base_ptr =? 0 then ebp else base_ptr in
  c ← kprint (junk k) type (cstr "Stacktrace:") [] c;
  print_frames fuel (k + 1) type base_ptr c.

(** The five lines of the registers. *)
Definition print_registers (k : Z) (regs : gpr_state) (c : Tty.console) : option Tty.console :=
  c ← kprint (junk k) KPRN_PANIC (cstr "CPU state at fault:") [] c;
  c ← kprint (junk (k + 1)) KPRN_PANIC (cstr "  EAX: %8x  EBX: %8x  ECX: %8x  EDX: %8x")
        [Word (eax regs); Word (ebx regs); Word (ecx regs); Word (edx regs)] c;
  c ← kprint (junk (k + 2)) KPRN_PANIC (cstr "  ESI: %8x  EDI: %8x  EBP: %8x  ESP: %8x")
        [Word (esi regs); Word (edi regs); Word (ebp regs); Word (esp regs)] c;
  c ← kprint (junk (k + 3)) KPRN_PANIC (cstr "  EIP: %8x  EFLAGS: %8x") [Word (eip regs); Word (eflags regs)] c;
  kprint (junk (k + 4)) KPRN_PANIC (cstr "  CS: %4x SS: %4x DS: %4x ES: %4x FS: %4x GS: %4x")
    [Word (cs regs); Word (ss regs); Word (ds regs); Word (es regs); Word (fs regs); Word (gs regs)] c.

Definition panic (fuel : nat) (ebp0 : Z) (regs : option gpr_state) (print_trace : bool) (fmt : list Z)
    (args : list karg) (c : Tty.console) : option Tty.console :=
  c ← kprint (junk 0) KPRN_PANIC (cstr "Kernel panic:") [] c;
  c ← kvprint (junk 1) KPRN_PANIC fmt args c;
  c ← (match regs with Some r => print_registers 2 r c | None => Some c end);
  if print_trace then
    print_stacktrace fuel 7 KPRN_PANIC ebp0 (match regs with Some r => ebp r | None => 0 end) c
  else Some c.

End Panic.

(** ** [exception_handler] of [exceptions.c]: a fault of the kernel's own *)

Definition exception_names : list (list Z) := map cstr [
  "Division by 0"; "Debug"; "NMI"; "Breakpoint"; "Overflow"; "Bound range exceeded"; "Invalid opcode";
  "Device not available"; "Double fault"; "???"; "Invalid TSS"; "Segment not present"; "Stack-segment fault";
  "General protection fault"; "Page fault"; "???"; "x87 exception"; "Alignment check"; "Machine check";
  "SIMD exception"; "Virtualisation"; "???"; "???"; "???"; "???"; "???"; "???"; "???"; "???"; "???"; "Security"]%string.

(** The console when the processor halts; a fault of a task is that of [Interrupts.v]. *)
Definition kernel_fault (warn junk : Z -> list Z) (symlist : list symlist_t) (m : mem) (fuel : nat) (ebp0 exception_number : Z)
    (state : gpr_state) (has_error_code error_code : Z) (c : Tty.console) : option Tty.console :=
  nm ← zget exception_names exception_number;
  c ← kprint (warn 0) KPRN_WARN (cstr "%s occurred at: %x:%x") [Str (Some nm); Word (cs state); Word (eip state)] c;
  c ← (if has_error_code =? 0 then Some c
       else kprint (warn 1) KPRN_WARN (cstr "Error code: %x") [Word error_code] c);
  if (cs state =? 0x08) || (cs state =? 0x19) then
    c ← Tty.switch_tty 0 c;
    panic junk symlist m fuel ebp0 (Some state) true (cstr "In-kernel exception, system halted.") [] c
  else None.

(** ** Specification: the report *)

(** The last [n] hexadecimal digits of a number. *)
Fixpoint fixed_hex (n : nat) (x : Z) : list Z :=
  match n with O => [] | S n => fixed_hex n (x / 16) ++ [hex_char (x mod 16)] end.
Definition reg (name : string) (n : nat) (x : Z) : list Z := bytes name ++ [48; 120] ++ fixed_hex n x.

(** A message of one line, as it is printed: the buffer holds 255 characters. *)
Definition message (type : Z) (s : list Z) : list Z := take 255 (header type ++ s ++ [10]).

Definition registers_report (r : gpr_state) : list Z :=
  message KPRN_PANIC (bytes "CPU state at fault:") ++
  message KPRN_PANIC (reg "  EAX: " 8 (eax r) ++ reg "  EBX: " 8 (ebx r) ++ reg "  ECX: " 8 (ecx r) ++ reg "  EDX: " 8 (edx r)) ++
  message KPRN_PANIC (reg "  ESI: " 8 (esi r) ++ reg "  EDI: " 8 (edi r) ++ reg "  EBP: " 8 (ebp r) ++ reg "  ESP: " 8 (esp r)) ++
  message KPRN_PANIC (reg "  EIP: " 8 (eip r) ++ reg "  EFLAGS: " 8 (eflags r)) ++
  message KPRN_PANIC (reg "  CS: " 4 (cs r) ++ reg " SS: " 4 (ss r) ++ reg " DS: " 4 (ds r) ++ reg " ES: " 4 (es r) ++
    reg " FS: " 4 (fs r) ++ reg " GS: " 4 (gs r)).

(** A frame: the return address, its offset in its function and the function. *)
Definition frame_report (type : Z) (f : Z * Z * list Z) : list Z :=
  message type (bytes "  [0x" ++ hexadecimal f.1.1 ++ bytes "] <" ++ f.2 ++ bytes "+0x" ++ hexadecimal f.1.2 ++ bytes ">").
Definition trace_report (type : Z) (l : list (Z * Z * list Z)) : list Z :=
  message type (bytes "Stacktrace:") ++ concat (frame_report type <$> l).

(** The registers are 32 bits wide. *)
Definition regs_ok (r : gpr_state) : Prop :=
  Forall (fun x => 0 <= x < 2 ^ 32) [eax r; ebx r; ecx r; edx r; esi r; edi r; ebp r; esp r; eip r; eflags r;
    cs r; ss r; ds r; es r; fs r; gs r].

(** ** Lemmas *)

Lemma fixed_hex_len n x : List.length (fixed_hex n x) = n.
Proof. revert x. induction n as [|n IH]; intros x; [done|]. cbn. rewrite length_app, IH. cbn. lia. Qed.

Lemma fixed_hex_digits fuel n x : (n <= fuel)%nat -> 0 <= x < 16 ^ Z.of_nat n ->
  fixed_hex n x = replicate (n - List.length (digits fuel 16 x)) 48 ++ map hex_char (digits fuel 16 x).
Proof.
  revert n x. induction fuel as [|fuel IH]; intros n x Hn Hx.
  - replace n with 0%nat in * by lia. done.
  - destruct n as [|n].
    + change (16 ^ Z.of_nat 0) with 1 in Hx. replace x with 0 by lia. done.
    + rewrite Nat2Z.inj_succ, Z.pow_succ_r in Hx by lia. cbn [fixed_hex digits].
      rewrite (IH n) by (first [split; [apply Z.div_pos; lia|apply Z.div_lt_upper_bound; lia]|lia]).
      destruct (Z.eqb_spec x 0) as [->|Hne].
      * change (0 / 16) with 0. rewrite digits_0. cbn [List.length map]. rewrite !app_nil_r, !Nat.sub_0_r.
        change (hex_char (0 mod 16)) with 48. symmetry. apply replicate_cons_app.
      * rewrite length_app, map_app, app_assoc. cbn [List.length map].
        replace (S n - (List.length (digits fuel 16 (x / 16)) + 1))%nat with (n - List.length (digits fuel 16 (x / 16)))%nat by lia.
        done.
Qed.

Lemma fixed_hex_drop k n x : drop k (fixed_hex (k + n) x) = fixed_hex n x.
Proof.
  revert x. induction n as [|n IH]; intros x.
  - rewrite Nat.add_0_r. apply drop_ge. by rewrite fixed_hex_len.
  - rewrite Nat.add_succ_r. cbn [fixed_hex]. rewrite drop_app_le by (rewrite fixed_hex_len; lia). by rewrite IH.
Qed.

Lemma padded_hex_fixed (n : nat) x : (1 <= n <= 16)%nat -> 0 <= x < 2 ^ 64 -> padded_hex (Z.of_nat n) x = Some (fixed_hex n x).
Proof.
  intros Hn Hx. unfold padded_hex. rewrite (proj2 (Z.eqb_neq _ _)) by lia. rewrite decide_True by lia. f_equal.
  rewrite <- (fixed_hex_digits 64 16) by (try lia; exact Hx).
  replace (Z.to_nat (16 - Z.of_nat n)) with (16 - n)%nat by lia.
  rewrite <- (fixed_hex_drop (16 - n) n). do 2 f_equal. lia.
Qed.
Lemma reg8 x : 0 <= x < 2 ^ 32 -> padded_hex 8 (u32 x) = Some (fixed_hex 8 x).
Proof. intros H. rewrite u32_small by done. apply (padded_hex_fixed 8); lia. Qed.
Lemma reg4 x : 0 <= x < 2 ^ 32 -> padded_hex 4 (u32 x) = Some (fixed_hex 4 x).
Proof. intros H. rewrite u32_small by done. apply (padded_hex_fixed 4); lia. Qed.

(** ** Lemmas: what a format renders to *)

(** Ordinary characters, on one line. *)
Definition ordinary (c : Z) : Prop := c <> 0 /\ c <> 37 /\ c <> 10.
#[local] Instance ordinary_dec c : Decision (ordinary c).
Proof. unfold ordinary. apply _. Defined.

(** With fuel from [k] on the rest of a format renders to [s]. *)
Definition renders (k : nat) (type : Z) (fmt : list Z) (args : list karg) (s : list Z) : Prop :=
  forall fuel, (k <= fuel)%nat -> render_format fuel type fmt args = Some s.

Lemma render_plain_ok type lit c rest : Forall ordinary lit -> c = 0 \/ c = 37 ->
  render_plain type (lit ++ c :: rest) = Some (c :: rest, lit).
Proof.
  intros Hl Hc. induction Hl as [|x lit (H0 & H37 & H10) _ IH]; cbn [app render_plain].
  - by destruct Hc as [-> | ->].
  - rewrite (proj2 (Z.eqb_neq x 0) H0), (proj2 (Z.eqb_neq x 37) H37), (proj2 (Z.eqb_neq x 10) H10). cbn [orb]. by rewrite IH.
Qed.

Lemma renders_end type lit : Forall ordinary lit -> renders 1 type (lit ++ [0]) [] (lit ++ [10]).
Proof.
  intros Hl [|fuel] Hf; [lia|]. cbn [render_format]. rewrite render_plain_ok by (done || by left). reflexivity.
Qed.

(** The literal text before a conversion, the conversion and the rest. *)
Lemma renders_step k type lit spec d val a out rest args s : Forall ordinary lit ->
  (forall r, number (spec ++ d :: r) 0 = (d :: r, val)) ->
  (forall l, render_directive d val (a :: l) = Some (l, out)) -> renders k type rest args s ->
  renders (S k) type (lit ++ 37 :: spec ++ d :: rest) (a :: args) (lit ++ out ++ s).
Proof.
  intros Hl Hn Hd Hr [|fuel] Hf; [lia|]. cbn [render_format]. rewrite render_plain_ok by (done || by right).
  cbn [mbind option_bind head tail]. change (37 =? 0) with false. cbv iota. rewrite Hn. cbn [head tail mbind option_bind].
  rewrite Hd. cbn [mbind option_bind]. rewrite Hr by lia. done.
Qed.

Lemma renders_hex8 k type lit x rest args s : Forall ordinary lit -> 0 <= x < 2 ^ 32 -> renders k type rest args s ->
  renders (S k) type (lit ++ 37 :: 56 :: 120 :: rest) (Word x :: args) (lit ++ ([48; 120] ++ fixed_hex 8 x) ++ s).
Proof.
  intros Hl Hx Hr. apply (renders_step k type lit [56] 120 8 (Word x)); [done|done| |done].
  intros l. cbn [render_directive Z.eqb Pos.eqb va_word mbind option_bind]. by rewrite reg8.
Qed.
Lemma renders_hex4 k type lit x rest args s : Forall ordinary lit -> 0 <= x < 2 ^ 32 -> renders k type rest args s ->
  renders (S k) type (lit ++ 37 :: 52 :: 120 :: rest) (Word x :: args) (lit ++ ([48; 120] ++ fixed_hex 4 x) ++ s).
Proof.
  intros Hl Hx Hr. apply (renders_step k type lit [52] 120 4 (Word x)); [done|done| |done].
  intros l. cbn [render_directive Z.eqb Pos.eqb va_word mbind option_bind]. by rewrite reg4.
Qed.
Lemma renders_hex k type lit x rest args s : Forall ordinary lit -> 0 <= x < 2 ^ 32 -> renders k type rest args s ->
  renders (S k) type (lit ++ 37 :: 120 :: rest) (Word x :: args) (lit ++ ([48; 120] ++ hexadecimal x) ++ s).
Proof.
  intros Hl Hx Hr. apply (renders_step k type lit [] 120 0 (Word x)); [done|done| |done].
  intros l. cbn [render_directive Z.eqb Pos.eqb va_word mbind option_bind]. by rewrite u32_small.
Qed.
Lemma c_text_ok nm : Forall (fun c => c <> 0) nm -> c_text (nm ++ [0]) = Some nm.
Proof.
  induction 1 as [|c nm Hc _ IH]; [done|]. cbn [app c_text]. rewrite (proj2 (Z.eqb_neq _ _) Hc). by rewrite IH.
Qed.
Lemma renders_text k type lit nm rest args s : Forall ordinary lit -> Forall (fun c => c <> 0) nm -> renders k type rest args s ->
  renders (S k) type (lit ++ 37 :: 115 :: rest) (Str (Some (nm ++ [0])) :: args) (lit ++ nm ++ s).
Proof.
  intros Hl Hx Hr. apply (renders_step k type lit [] 115 0 (Str (Some (nm ++ [0])))); [done|done| |done].
  intros l. cbn [render_directive Z.eqb Pos.eqb va_str mbind option_bind]. by rewrite c_text_ok.
Qed.

Lemma renders_ok k type fmt args s : (k <= S (List.length fmt))%nat -> renders k type fmt args s ->
  render type fmt args = Some (header type ++ s).
Proof. intros Hk Hr. unfold render. by rewrite Hr. Qed.

(** A message by its format. *)
Lemma kprint_message junk k type fmt args s c : zlen junk = KPRINT_BUF_MAX -> (k <= S (List.length fmt))%nat ->
  renders k type fmt args (s ++ [10]) -> kprint junk type fmt args c = Tty.tty_knputs (message type s) 0 c.
Proof. intros Hj Hk Hr. unfold kprint. by apply kvprint_ok, (renders_ok k). Qed.

(** ** Lemmas: the messages of a panic *)

Lemma renders_eq k type fmt fmt' args s s' : renders k type fmt args s -> fmt = fmt' -> s = s' -> renders k type fmt' args s'.
Proof. by intros H <- <-. Qed.

(** A text that is ordinary, by evaluation. *)
Ltac plain_text := apply (bool_decide_unpack _); vm_compute; exact I.

Section Report.
Context (junk : Z -> list Z) (symlist : list symlist_t) (m : mem) (Hjunk : forall k, zlen (junk k) = KPRINT_BUF_MAX).
#[local] Set Default Proof Using "Type*".

Lemma say_ok k type str c : Forall ordinary (bytes str) ->
  kprint (junk k) type (cstr str) [] c = Tty.tty_knputs (message type (bytes str)) 0 c.
Proof.
  intros Hp. apply (kprint_message _ 1); [done|unfold cstr; rewrite length_app; cbn; lia|]. by apply renders_end.
Qed.

Lemma say4_ok k n1 n2 n3 n4 x1 x2 x3 x4 str c :
  0 <= x1 < 2 ^ 32 -> 0 <= x2 < 2 ^ 32 -> 0 <= x3 < 2 ^ 32 -> 0 <= x4 < 2 ^ 32 ->
  Forall ordinary (bytes n1) -> Forall ordinary (bytes n2) -> Forall ordinary (bytes n3) -> Forall ordinary (bytes n4) ->
  cstr str = bytes n1 ++ 37 :: 56 :: 120 :: bytes n2 ++ 37 :: 56 :: 120 :: bytes n3 ++ 37 :: 56 :: 120 ::
    bytes n4 ++ 37 :: 56 :: 120 :: [] ++ [0] ->
  kprint (junk k) KPRN_PANIC (cstr str) [Word x1; Word x2; Word x3; Word x4] c =
    Tty.tty_knputs (message KPRN_PANIC (reg n1 8 x1 ++ reg n2 8 x2 ++ reg n3 8 x3 ++ reg n4 8 x4)) 0 c.
Proof.
  intros H1 H2 H3 H4 P1 P2 P3 P4 E.
  apply (kprint_message _ 5); [done|rewrite E; rewrite !length_app; cbn; rewrite !length_app; cbn; lia|].
  eapply renders_eq; [|symmetry; exact E|]; [do 4 (apply renders_hex8; [done|done|]); by apply renders_end|].
  unfold reg. cbn [app]. by rewrite <- !app_assoc.
Qed.

Lemma registers_ok r k c : regs_ok r -> print_registers junk k r c = Tty.tty_knputs (registers_report r) 0 c.
Proof.
  unfold regs_ok. rewrite !Forall_cons.
  intros (R1 & R2 & R3 & R4 & R5 & R6 & R7 & R8 & R9 & R10 & R11 & R12 & R13 & R14 & R15 & R16 & _).
  unfold print_registers, registers_report. rewrite say_ok by plain_text. rewrite knputs_app.
  destruct (Tty.tty_knputs _ 0 c) as [c1|]; [|done]. cbn [mbind option_bind].
  rewrite (say4_ok _ "  EAX: " "  EBX: " "  ECX: " "  EDX: "); [|exact R1|exact R2|exact R3|exact R4|plain_text..|reflexivity].
  rewrite knputs_app. destruct (Tty.tty_knputs _ 0 c1) as [c2|]; [|done]. cbn [mbind option_bind].
  rewrite (say4_ok _ "  ESI: " "  EDI: " "  EBP: " "  ESP: "); [|exact R5|exact R6|exact R7|exact R8|plain_text..|reflexivity].
  rewrite knputs_app. destruct (Tty.tty_knputs _ 0 c2) as [c3|]; [|done]. cbn [mbind option_bind].
  rewrite knputs_app. erewrite (kprint_message (junk (k + 3)) 3); [|done|apply Nat.leb_le; vm_compute; reflexivity|].
  2:{ eapply (renders_eq _ _ (bytes "  EIP: " ++ 37 :: 56 :: 120 :: bytes "  EFLAGS: " ++ 37 :: 56 :: 120 :: [] ++ [0]));
        [apply renders_hex8; [plain_text|done|]; apply renders_hex8; [plain_text|done|]; by apply renders_end|reflexivity|].
      instantiate (1 := reg "  EIP: " 8 (eip r) ++ reg "  EFLAGS: " 8 (eflags r)). unfold reg. cbn [app]. by rewrite <- !app_assoc. }
  destruct (Tty.tty_knputs _ 0 c3) as [c4|]; [|done]. cbn [mbind option_bind].
  apply (kprint_message (junk (k + 4)) 7); [done|apply Nat.leb_le; vm_compute; reflexivity|].
  eapply (renders_eq _ _ (bytes "  CS: " ++ 37 :: 52 :: 120 :: bytes " SS: " ++ 37 :: 52 :: 120 :: bytes " DS: " ++ 37 :: 52 :: 120 ::
    bytes " ES: " ++ 37 :: 52 :: 120 :: bytes " FS: " ++ 37 :: 52 :: 120 :: bytes " GS: " ++ 37 :: 52 :: 120 :: [] ++ [0]));
    [do 6 (apply renders_hex4; [plain_text|done|]); by apply renders_end|reflexivity|].
  unfold reg. cbn [app]. by rewrite <- !app_assoc.
Qed.

(** The names of the frames are texts, their numbers 32 bits wide. *)
Definition frames_ok (l : list (Z * Z * list Z)) : Prop :=
  Forall (fun f => 0 <= f.1.1 < 2 ^ 32 /\ 0 <= f.1.2 < 2 ^ 32 /\ Forall (fun c => c <> 0) f.2) l.

Lemma frame_line_ok k type a off nm c : 0 <= a < 2 ^ 32 -> 0 <= off < 2 ^ 32 -> Forall (fun c => c <> 0) nm ->
  kprint (junk k) type (cstr "  [%x] <%s+%x>") [Word a; Str (Some (nm ++ [0])); Word off] c =
  Tty.tty_knputs (frame_report type (a, off, nm)) 0 c.
Proof.
  intros Ha Ho Hn. apply (kprint_message (junk k) 4); [done|apply Nat.leb_le; vm_compute; reflexivity|].
  eapply (renders_eq _ _ (bytes "  [" ++ 37 :: 120 :: bytes "] <" ++ 37 :: 115 :: bytes "+" ++ 37 :: 120 :: bytes ">" ++ [0]));
    [apply renders_hex; [plain_text|done|]; apply renders_text; [plain_text|done|]; apply renders_hex; [plain_text|done|];
     apply renders_end; plain_text|reflexivity|].
  cbn [fst snd]. change (bytes "  [0x") with (bytes "  [" ++ [48; 120]). change (bytes "+0x") with (bytes "+" ++ [48; 120]).
  by rewrite <- !app_assoc.
Qed.

Lemma frames_print fuel k type b l c : stacktrace fuel symlist m b = Some l -> frames_ok l ->
  print_frames junk symlist m fuel k type b c = Tty.tty_knputs (concat (frame_report type <$> l)) 0 c.
Proof.
  revert k b l c. induction fuel as [|fuel IH]; intros k b l c H Hl; [done|]. cbn [stacktrace print_frames] in *.
  destruct (_ =? 0); [by injection H as <-|]. destruct (trace_address symlist _) as [[off nm]|]; [|done].
  cbn [mbind option_bind] in H |- *. destruct (load32 m b =? 0).
  - injection H as <-. apply Forall_cons in Hl as [(Ha & Ho & Hn) _]. cbn [fmap list_fmap concat]. rewrite app_nil_r.
    rewrite frame_line_ok by done. by destruct (Tty.tty_knputs _ 0 c).
  - obind H. injection H as <-. apply Forall_cons in Hl as [(Ha & Ho & Hn) Hl]. cbn [fmap list_fmap concat].
    rewrite frame_line_ok by done. rewrite knputs_app. destruct (Tty.tty_knputs _ 0 c) as [c1|]; [|done]. cbn [mbind option_bind].
    by apply IH.
Qed.

Lemma trace_ok fuel k type ebp0 b l c : stacktrace fuel symlist m (if b =? 0 then ebp0 else b) = Some l -> frames_ok l ->
  print_stacktrace junk symlist m fuel k type ebp0 b c = Tty.tty_knputs (trace_report type l) 0 c.
Proof.
  intros Hs Hl. unfold print_stacktrace, trace_report. rewrite say_ok by plain_text. rewrite knputs_app.
  destruct (Tty.tty_knputs _ 0 c) as [c1|]; [|done]. cbn [mbind option_bind]. by apply frames_print.
Qed.

(** The whole report: [out] is the rendering of the message. *)
Definition panic_text (out : list Z) (regs : option gpr_state) (print_trace : bool) (l : list (Z * Z * list Z)) : list Z :=
  message KPRN_PANIC (bytes "Kernel panic:") ++ take 255 out ++ default [] (registers_report <$> regs) ++
  (if print_trace then trace_report KPRN_PANIC l else []).

Lemma panic_ok fuel ebp0 regs print_trace fmt args out l c : render KPRN_PANIC fmt args = Some out ->
  (forall r, regs = Some r -> regs_ok r) ->
  (print_trace = true -> let b := match regs with Some r => ebp r | None => 0 end in
     stacktrace fuel symlist m (if b =? 0 then ebp0 else b) = Some l /\ frames_ok l) ->
  panic junk symlist m fuel ebp0 regs print_trace fmt args c =
    Tty.tty_knputs (panic_text out regs print_trace l) 0 c.
Proof.
  intros Ho Hr Ht. unfold panic, panic_text. rewrite say_ok by plain_text.
  rewrite (knputs_app (message _ _)). destruct (Tty.tty_knputs _ 0 c) as [c1|]; [|done]. cbn [mbind option_bind].
  rewrite (kvprint_ok _ _ _ _ out) by done. rewrite (knputs_app (take 255 out)).
  destruct (Tty.tty_knputs _ 0 c1) as [c2|]; [|done]. cbn [mbind option_bind].
  rewrite knputs_app.
  replace (match regs with Some r => print_registers junk 2 r c2 | None => Some c2 end)
    with (Tty.tty_knputs (default [] (registers_report <$> regs)) 0 c2)
    by (destruct regs as [r|]; [symmetry; apply registers_ok; by apply Hr|done]).
  destruct (Tty.tty_knputs (default _ _) 0 c2) as [c3|]; [|done]. cbn [mbind option_bind].
  destruct print_trace; [|done]. destruct (Ht eq_refl) as [Hs Hl]. by apply trace_ok.
Qed.

End Report.

(** The warnings of [exception_handler]. *)
Definition fault_text (nm : list Z) (r : gpr_state) (has_error_code error_code : Z) : list Z :=
  message KPRN_WARN (nm ++ bytes " occurred at: 0x" ++ hexadecimal (cs r) ++ bytes ":0x" ++ hexadecimal (eip r)) ++
  (if has_error_code =? 0 then [] else message KPRN_WARN (bytes "Error code: 0x" ++ hexadecimal error_code)).

Lemma warnings_ok junk nm r has err c : (forall k, zlen (junk k) = KPRINT_BUF_MAX) -> Forall (fun c => c <> 0) nm ->
  0 <= cs r < 2 ^ 32 -> 0 <= eip r < 2 ^ 32 -> 0 <= err < 2 ^ 32 ->
  (c ← kprint (junk 0) KPRN_WARN (cstr "%s occurred at: %x:%x") [Str (Some (nm ++ [0])); Word (cs r); Word (eip r)] c;
   if has =? 0 then Some c else kprint (junk 1) KPRN_WARN (cstr "Error code: %x") [Word err] c) =
  Tty.tty_knputs (fault_text nm r has err) 0 c.
Proof.
  intros Hj Hn Hc He Herr. unfold fault_text. rewrite knputs_app.
  erewrite (kprint_message (junk 0) 4); [|done|apply Nat.leb_le; vm_compute; reflexivity|].
  2:{ eapply (renders_eq _ _ ([] ++ 37 :: 115 :: bytes " occurred at: " ++ 37 :: 120 :: bytes ":" ++ 37 :: 120 :: [] ++ [0]));
        [apply renders_text; [constructor|done|]; apply renders_hex; [plain_text|done|]; apply renders_hex; [plain_text|done|];
         apply renders_end; constructor|reflexivity|].
      instantiate (1 := nm ++ bytes " occurred at: 0x" ++ hexadecimal (cs r) ++ bytes ":0x" ++ hexadecimal (eip r)).
      change (bytes " occurred at: 0x") with (bytes " occurred at: " ++ [48; 120]).
      change (bytes ":0x") with (bytes ":" ++ [48; 120]). cbn [app]. by rewrite <- !app_assoc. }
  destruct (Tty.tty_knputs _ 0 c) as [c1|]; [|done]. cbn [mbind option_bind]. destruct (has =? 0); [done|].
  apply (kprint_message (junk 1) 2); [done|apply Nat.leb_le; vm_compute; reflexivity|].
  eapply (renders_eq _ _ (bytes "Error code: " ++ 37 :: 120 :: [] ++ [0]));
    [apply renders_hex; [plain_text|done|]; apply renders_end; constructor|reflexivity|].
  change (bytes "Error code: 0x") with (bytes "Error code: " ++ [48; 120]). by rewrite <- !app_assoc.
Qed.

(** * Properties *)

(** C32: What the kernel prints before it halts.  [panic] prints on terminal 0, each on its
    line and in this order: that it panics, the message its format denotes (cut to 255
    characters), the sixteen registers as eight hexadecimal digits (segment registers
    as four), and for each frame of the stack the return address with its function and
    offset.  A fault of the kernel's own prints which exception it was, where, and its
    error code, switches to terminal 0 and panics with the registers and the trace. *)
Theorem panic_report (junk warn : Z -> list Z) (symlist : list symlist_t) (m : mem) (fuel : nat) (ebp0 : Z) (c : Tty.console) :
  (forall k, zlen (junk k) = KPRINT_BUF_MAX) -> (forall k, zlen (warn k) = KPRINT_BUF_MAX) ->
  (forall regs print_trace fmt args out l, render KPRN_PANIC fmt args = Some out ->
     (forall r, regs = Some r -> regs_ok r) ->
     (print_trace = true -> let b := match regs with Some r => ebp r | None => 0 end in
        stacktrace fuel symlist m (if b =? 0 then ebp0 else b) = Some l /\ frames_ok l) ->
     panic junk symlist m fuel ebp0 regs print_trace fmt args c =
       Tty.tty_knputs (panic_text out regs print_trace l) 0 c) /\
  (forall n nm r has err l, zget exception_names n = Some (nm ++ [0]) -> Forall (fun c => c <> 0) nm -> regs_ok r ->
     0 <= err < 2 ^ 32 -> cs r = 0x08 \/ cs r = 0x19 ->
     stacktrace fuel symlist m (if ebp r =? 0 then ebp0 else ebp r) = Some l -> frames_ok l ->
     kernel_fault warn junk symlist m fuel ebp0 n r has err c =
       (c ← Tty.tty_knputs (fault_text nm r has err) 0 c;
        c ← Tty.switch_tty 0 c;
        Tty.tty_knputs (panic_text (header KPRN_PANIC ++ bytes "In-kernel exception, system halted." ++ [10])
          (Some r) true l) 0 c)).
Proof.
  intros Hj Hw. split; [intros regs tr fmt args out l Ho Hr Ht; by apply panic_ok|].
  intros n nm r has err l Hn Htx Hr Herr Hcs Hs Hl. unfold kernel_fault. rewrite Hn. cbn [mbind option_bind].
  pose proof Hr as Hr'. unfold regs_ok in Hr'. rewrite !Forall_cons in Hr'.
  destruct Hr' as (_ & _ & _ & _ & _ & _ & _ & _ & Hip & _ & Hc & _).
  rewrite <- (warnings_ok warn nm r has err c Hw Htx Hc Hip Herr).
  destruct (kprint (warn 0) _ _ _ c) as [c1|]; [|done]. cbn [mbind option_bind].
  destruct (if has =? 0 then _ else _) as [c2|]; [|done]. cbn [mbind option_bind].
  replace ((cs r =? 0x08) || (cs r =? 0x19)) with true by (destruct Hcs as [-> | ->]; reflexivity).
  destruct (Tty.switch_tty 0 c2) as [c3|]; [|done]. cbn [mbind option_bind].
  apply panic_ok; [done| |intros r' [= <-]; exact Hr|intros _; by split].
  apply (renders_ok 1); [apply Nat.leb_le; vm_compute; reflexivity|]. apply renders_end. plain_text.
Qed.

(** * Witnesses *)

(** A general protection fault in a function [f], called from the one frame there is. *)
Definition demo_regs : gpr_state := MkGpr 1 2 3 4 5 6 0x8000 0x10 0x10 0x10 0x10 0x1005 0x08 0x202 0x7ff0 0x10.
Definition demo_symlist : list symlist_t := [MkSym 0x1000 (bytes "f"); MkSym 0x2000 (bytes "g")].
Definition demo_stack : mem := fun x => if x =? 0x8004 then 9 else if x =? 0x8005 then 16 else 0.

Lemma panic_report_witness :
  let junk := fun _ : Z => replicate 256 0 in
  let l := [(0x1009, 9, bytes "f")] in
  kernel_fault junk junk demo_symlist demo_stack 2 0 13 demo_regs 1 0x33 Tty.demo =
    (c ← Tty.tty_knputs (fault_text (bytes "General protection fault") demo_regs 1 0x33) 0 Tty.demo;
     c ← Tty.switch_tty 0 c;
     Tty.tty_knputs (panic_text (header KPRN_PANIC ++ bytes "In-kernel exception, system halted." ++ [10])
       (Some demo_regs) true l) 0 c) /\
  registers_report demo_regs =
    take 255 (header KPRN_PANIC ++ bytes "CPU state at fault:" ++ [10]) ++
    take 255 (header KPRN_PANIC ++ bytes "  EAX: 0x00000001  EBX: 0x00000002  ECX: 0x00000003  EDX: 0x00000004" ++ [10]) ++
    take 255 (header KPRN_PANIC ++ bytes "  ESI: 0x00000005  EDI: 0x00000006  EBP: 0x00008000  ESP: 0x00007ff0" ++ [10]) ++
    take 255 (header KPRN_PANIC ++ bytes "  EIP: 0x00001005  EFLAGS: 0x00000202" ++ [10]) ++
    take 255 (header KPRN_PANIC ++ bytes "  CS: 0x0008 SS: 0x0010 DS: 0x0010 ES: 0x0010 FS: 0x0010 GS: 0x0010" ++ [10]) /\
  frame_report KPRN_PANIC (0x1009, 9, bytes "f") = header KPRN_PANIC ++ bytes "  [0x1009] <f+0x9>" ++ [10].
Proof.
  intros junk l.
  destruct (panic_report junk junk demo_symlist demo_stack 2 0 Tty.demo) as [_ H].
  - intros k. reflexivity.
  - intros k. reflexivity.
  - split; [|split; [vm_compute; reflexivity|vm_compute; reflexivity]].
    apply (H 13 (bytes "General protection fault") demo_regs 1 0x33 l).
    + vm_compute. reflexivity.
    + apply (bool_decide_unpack _). vm_compute. exact I.
    + apply (bool_decide_unpack _). vm_compute. exact I.
    + split; [discriminate|reflexivity].
    + by left.
    + vm_compute. reflexivity.
    + constructor; [|constructor]. split; [split; [discriminate|reflexivity]|]. split; [split; [discriminate|reflexivity]|].
      apply (bool_decide_unpack _). vm_compute. exact I.
Defined.

End Panic.
