(* ===== verification/RealMode.v ===== *)
(** * The BIOS services: [kernel/src/lib/real.c] and its use in
    [kernel/src/drivers/bios_harddisks/bd.c]

    A BIOS service is an interrupt in real mode: [rm_int] gives the interrupt
    controllers the vectors of real mode, jumps through a trampoline that loads the
    registers, and gives the controllers back their vectors.  The disk functions pass a
    packet ([struct dap]) and a buffer by their segments and offsets.

    The trampoline ([asm/real.asm]) and the BIOS behind it are the parameter
    [trampoline]; [Int13] states the documented behaviour of the disk functions 0x42,
    0x43 and 0x48 when the copy of the trampoline is in place.  The trampoline stores
    into that copy (the number of the interrupt, the pointers to the registers, the
    stack pointer and the old interrupt table), it and the BIOS use the stack and store
    the registers, and the BIOS has data of its own: these [areas] may change in any way
    in a call, and the buffers of a call have to be apart from them.  With that the
    transfers of this file are those of [BiosDisk.v], whose interface is the sectors
    themselves.  The changes of privilege level are left out. *)

From S2P Require Import Prelude Mem UserMem Dev Gdt Chardev Task Interrupts BiosDisk.
Local Open Scope Z_scope.
Local Open Scope st_scope.

Module RealMode.
Import Chardev Interrupts BiosDisk UserMem.

Definition EFLAGS_CF : Z := 1.

(** [struct rm_regs] *)
Record rm_regs := MkRegs {
  rgs : Z; rfs : Z; res : Z; rds : Z;
  reflags : Z; rebp : Z; redi : Z; resi : Z; redx : Z; recx : Z; rebx : Z; reax : Z
}.
Definition rm_seg (x : Z) : Z := u16 (Z.shiftr (Z.land x 0xffff0) 4).
Definition rm_off (x : Z) : Z := u16 (Z.land x 0xf).
Definition rm_desegment (seg off : Z) : Z := u32 (u32 (seg * 16) + off).

Definition le16 (v : Z) : list Z := [u8 v; u8 (v / 2 ^ 8)].
Definition le64 (v : Z) : list Z := le32 v ++ le32 (v / 2 ^ 32).
Definition load16 (m : mem) (a : Z) : Z := m a + 2 ^ 8 * m (a + 1).
Definition load64 (m : mem) (a : Z) : Z := load32 m a + 2 ^ 32 * load32 m (a + 4).

(** [struct bios_drive_params] *)
Record bios_drive_params := MkParams {
  buf_size : Z; info_flags : Z; cyl : Z; heads : Z; sects : Z; lba_count : Z; bytes_per_sect : Z; edd : Z
}.
Definition SIZEOF_DRIVE_PARAMS : Z := 30.
Definition params_at (m : mem) (a : Z) : bios_drive_params :=
  MkParams (load16 m a) (load16 m (a + 2)) (load32 m (a + 4)) (load32 m (a + 8)) (load32 m (a + 12))
    (load64 m (a + 16)) (load16 m (a + 24)) (load32 m (a + 26)).

(** [memcpy(0xf000, rm_int_begin, rm_int_end - rm_int_begin)] *)
Definition init_realmode (rm_int_begin rm_int_end : Z) (m : mem) : mem :=
  memcpy m 0xf000 rm_int_begin (rm_int_end - rm_int_begin).

Section RealMode.
Context {P : Type} {HP : Ports P} {B : Bios}.
Context (trampoline : Z -> rm_regs -> mem -> medium -> option (rm_regs * mem * medium)).

(** The ports, the memory and the drives. *)
Definition machine : Type := P * (mem * medium).
Definition on_ports {A} (f : ST P A) : ST machine A :=
  fun w => match f w.1 with Some (a, p) => Some (a, (p, w.2)) | None => None end.
Definition get_mem : ST machine mem := fun w => Some (w.2.1, w).
Definition put_mem (m : mem) : ST machine unit := fun w => Some (tt, (w.1, (m, w.2.2))).
Definition call_trampoline (int_no : Z) (r : rm_regs) : ST machine rm_regs :=
  fun w => match trampoline int_no r w.2.1 w.2.2 with
           | Some (r, m, d) => Some (r, (w.1, (m, d)))
           | None => None
           end.

Definition rm_int (int_no : Z) (in_regs : rm_regs) : ST machine rm_regs :=
  on_ports (map_PIC 0x08 0x70) ;;
  let! out_regs := call_trampoline int_no in_regs in
  on_ports (map_PIC 0x20 0x28) ;;
  st_ret out_regs.

(** The registers of a call with a structure at [p]. *)
Definition disk_regs (fn drive p : Z) : rm_regs := MkRegs 0 0 0 (rm_seg p) 0 0 0 (rm_off p) drive 0 0 fn.

(** The fields of [dap] before the loop. *)
Definition dap_init (dap tmp : Z) (m : mem) : mem :=
  store_bytes (store_bytes m dap (le16 16 ++ le16 1)) (dap + 4) (le16 (rm_off tmp) ++ le16 (rm_seg tmp)).
Definition dap_lba (dap lba : Z) (m : mem) : mem := store_bytes m (dap + 8) (le64 (u64 lba)).

Definition st_mem (f : mem -> mem) : ST machine unit := let! m := get_mem in put_mem (f m).

(** [EFLAGS_CF] after a call: the panic of a disk error is [None]. *)
Definition check_disk (r : rm_regs) : ST machine unit :=
  if Z.land (reflags r) EFLAGS_CF =? 0 then st_ret tt else st_fail.

(** The loops, [n] turns from [i]; the buffers are at [tmp] and [dap] on the stack. *)
Fixpoint read_sectors (n : nat) (i drive block tmp dap : Z) (buf : list Z) : ST machine (list Z) :=
  match n with
  | O => st_ret buf
  | S n =>
      st_mem (dap_lba dap (block + i)) ;;
      let! r := rm_int 0x13 (disk_regs 0x4200 drive dap) in
      check_disk r ;;
      let! m := get_mem in
      read_sectors n (i + 1) drive block tmp dap (put_sector i (bytes_at m tmp (Z.to_nat BYTES_PER_SECT)) buf)
  end.
Definition disk_read_sector (drive block tmp dap : Z) (buf : list Z) : ST machine (list Z) :=
  st_mem (dap_init dap tmp) ;; read_sectors (Z.to_nat CACHE_SECTS) 0 drive block tmp dap buf.

Fixpoint write_sectors (n : nat) (i drive block tmp dap : Z) (buf : list Z) : ST machine unit :=
  match n with
  | O => st_ret tt
  | S n =>
      st_mem (dap_lba dap (block + i)) ;;
      st_mem (fun m => store_bytes m tmp (get_sector i buf)) ;;
      let! r := rm_int 0x13 (disk_regs 0x4300 drive dap) in
      check_disk r ;;
      write_sectors n (i + 1) drive block tmp dap buf
  end.
Definition disk_write_sector (drive block tmp dap : Z) (buf : list Z) : ST machine unit :=
  st_mem (dap_init dap tmp) ;; write_sectors (Z.to_nat CACHE_SECTS) 0 drive block tmp dap buf.

(** [drive_params] is at [p] on the stack; [None] is [false]. *)
Definition read_drive_parameters (drive p : Z) : ST machine (option bios_drive_params) :=
  st_mem (fun m => store_bytes m p (le16 SIZEOF_DRIVE_PARAMS)) ;;
  let! r := rm_int 0x13 (disk_regs 0x4800 drive p) in
  if Z.land (reflags r) EFLAGS_CF =? 0 then let! m := get_mem in st_ret (Some (params_at m p)) else st_ret None.

(** ** The documented behaviour of the disk functions *)

(** The packet at [a]: one sector, number [l], buffer at [t]. *)
Definition dap_at (m : mem) (a t l : Z) : Prop :=
  load16 m a = 16 /\ load16 m (a + 2) = 1 /\ load16 m (a + 6) * 16 + load16 m (a + 4) = t /\ load64 m (a + 8) = l.
Definition carry (r : rm_regs) (b : bool) : Prop := Z.land (reflags r) EFLAGS_CF = if b then 1 else 0.

(** What a call may change besides its buffers: the copy of the trampoline at 0xf000, of
    [rm_code] bytes, which stores into itself; the stack below the caller's buffers and
    the caller's registers; the data of the BIOS. *)
Record areas := MkAreas { rm_code : Z; frames : Z -> Prop; bios_data : Z -> Prop }.
Definition in_copy (A : areas) (x : Z) : Prop := 0xf000 <= x < 0xf000 + rm_code A.
Definition scratch (A : areas) (x : Z) : Prop := in_copy A x \/ frames A x \/ bios_data A x.
(** The [n] bytes at [a] are apart from that. *)
Definition clear (A : areas) (a n : Z) : Prop := forall x, a <= x < a + n -> ~ scratch A x.
(** Memory after a call that should leave it as [m]. *)
Definition same_but (A : areas) (m m' : mem) : Prop := forall x, ~ scratch A x -> m' x = m x.

Context (A : areas).
(** Extended read, extended write, and the parameters of a drive: its sectors, [None]
    for a drive that does not answer.  [loaded]: the copy of the trampoline is in
    place; a call leaves it so, and so does what does not store into the copy. *)
Class Int13 := {
  loaded : mem -> Prop;
  loaded_ext m m' : loaded m -> (forall x, in_copy A x -> m' x = m x) -> loaded m';
  drive_count : medium -> Z -> option Z;
  int_read r m d a t l : loaded m -> reax r = 0x4200 -> rds r * 16 + resi r = a -> dap_at m a t l ->
    clear A a 16 -> clear A t BYTES_PER_SECT ->
    match int13_read d (u8 (redx r)) l with
    | Some s => zlen s = BYTES_PER_SECT /\ exists r' m', trampoline 0x13 r m d = Some (r', m', d) /\ carry r' false /\
        loaded m' /\ same_but A (store_bytes m t s) m'
    | None => exists r' m', trampoline 0x13 r m d = Some (r', m', d) /\ carry r' true
    end;
  int_write r m d a t l : loaded m -> reax r = 0x4300 -> rds r * 16 + resi r = a -> dap_at m a t l ->
    clear A a 16 -> clear A t BYTES_PER_SECT ->
    match int13_write d (u8 (redx r)) l (bytes_at m t (Z.to_nat BYTES_PER_SECT)) with
    | Some d' => exists r' m', trampoline 0x13 r m d = Some (r', m', d') /\ carry r' false /\ loaded m' /\ same_but A m m'
    | None => exists r' m', trampoline 0x13 r m d = Some (r', m', d) /\ carry r' true
    end;
  int_params r m d a : loaded m -> reax r = 0x4800 -> rds r * 16 + resi r = a -> load16 m a = SIZEOF_DRIVE_PARAMS ->
    clear A a SIZEOF_DRIVE_PARAMS ->
    exists r' m', trampoline 0x13 r m d = Some (r', m', d) /\ loaded m' /\
      (forall x, ~ scratch A x -> x < a \/ a + SIZEOF_DRIVE_PARAMS <= x -> m' x = m x) /\
      match drive_count d (u8 (redx r)) with
      | Some n => carry r' false /\ load64 m' (a + 16) = n
      | None => carry r' true
      end
}.

End RealMode.

(** ** Lemmas: segments and little-endian fields *)

Lemma rm_seg_spec x : 0 <= x < 2 ^ 20 -> rm_seg x = x / 16 /\ rm_off x = x mod 16.
Proof.
  intros Hx. unfold rm_seg, rm_off. change 0xffff0 with (Z.shiftl (Z.ones 16) 4). change 0xf with (Z.ones 4).
  rewrite Gdt.land_field, Gdt.land_low by lia. change (2 ^ 4) with 16. unfold u16. split; zdml.
Qed.
Lemma rm_address x : 0 <= x < 2 ^ 20 -> rm_seg x * 16 + rm_off x = x.
Proof. intros Hx. destruct (rm_seg_spec x Hx) as [-> ->]. zdml. Qed.

Lemma load16_bytes m a v : (forall i c, zget (le16 v) i = Some c -> m (a + i) = c) -> load16 m a = u16 v.
Proof.
  intros H. unfold load16. rewrite (H 1 (u8 (v / 2 ^ 8)) eq_refl). pose proof (H 0 (u8 v) eq_refl) as H0.
  rewrite Z.add_0_r in H0. rewrite H0. unfold u8, u16. change (2 ^ 16) with (2 ^ 8 * 2 ^ 8). rewrite Z.rem_mul_r by lia. lia.
Qed.
Lemma load32_bytes m a v : (forall i c, zget (le32 v) i = Some c -> m (a + i) = c) -> load32 m a = u32 v.
Proof.
  intros H. apply (bytes_at_eq m a (le32 v)) in H. pose proof (word_bytes m a) as E.
  change 4%nat with (length (le32 v)) in E. rewrite H, word_le32 in E. by injection E.
Qed.
Lemma load64_bytes m a v : 0 <= v < 2 ^ 64 -> (forall i c, zget (le64 v) i = Some c -> m (a + i) = c) -> load64 m a = v.
Proof.
  intros Hv H. unfold load64. rewrite (load32_bytes m a v), (load32_bytes m (a + 4) (v / 2 ^ 32)).
  - unfold u32. zdml.
  - intros i c Hc. rewrite <- Z.add_assoc. apply H. unfold le64. rewrite zget_app. change (zlen (le32 v)) with 4.
    pose proof (zget_Some _ _ _ Hc). case_decide; [lia|]. by replace (4 + i - 4) with i by lia.
  - intros i c Hc. apply H. unfold le64. rewrite zget_app. change (zlen (le32 v)) with 4.
    pose proof (zget_Some _ _ _ Hc) as Hi. change (zlen (le32 v)) with 4 in Hi. by case_decide; [|lia].
Qed.
Lemma load16_frame m m' a : m' a = m a -> m' (a + 1) = m (a + 1) -> load16 m' a = load16 m a.
Proof. unfold load16. by intros -> ->. Qed.

(** ** Lemmas: the packet *)

(** The packet but for the sector number. *)
Definition dap_head (m : mem) (dap tmp : Z) : Prop :=
  load16 m dap = 16 /\ load16 m (dap + 2) = 1 /\ load16 m (dap + 6) * 16 + load16 m (dap + 4) = tmp.

Lemma dap_head_frame m m' dap tmp : (forall x, dap <= x < dap + 8 -> m' x = m x) -> dap_head m dap tmp -> dap_head m' dap tmp.
Proof. intros H. unfold dap_head. rewrite !(load16_frame m m') by (apply H; lia). done. Qed.

Lemma dap_head_init m dap tmp : 0 <= tmp < 2 ^ 20 -> dap_head (dap_init dap tmp m) dap tmp.
Proof.
  intros Ht. unfold dap_init. set (m1 := store_bytes m dap _).
  assert (forall x, x < dap + 4 \/ dap + 8 <= x -> store_bytes m1 (dap + 4) (le16 (rm_off tmp) ++ le16 (rm_seg tmp)) x = m1 x) as Ho
    by (intros x Hx; apply store_out; change (zlen _) with 4; lia).
  destruct (rm_seg_spec tmp Ht) as [Es Eo]. split; [|split].
  - rewrite (load16_frame m1) by (apply Ho; lia). apply (load16_bytes m1 dap 16). intros i c Hc. apply store_in.
    rewrite zget_app. pose proof (zget_Some _ _ _ Hc). case_decide; [done|lia].
  - rewrite (load16_frame m1) by (apply Ho; lia). apply (load16_bytes m1 (dap + 2) 1). intros i c Hc.
    rewrite <- Z.add_assoc. apply store_in. rewrite zget_app. pose proof (zget_Some _ _ _ Hc).
    change (zlen (le16 16)) with 2. case_decide; [lia|]. by replace (2 + i - 2) with i by lia.
  - rewrite (load16_bytes _ (dap + 6) (rm_seg tmp)), (load16_bytes _ (dap + 4) (rm_off tmp)).
    + rewrite <- (rm_address tmp Ht) at 3. rewrite Es, Eo. unfold u16. zdml.
    + intros i c Hc. apply store_in. rewrite zget_app. pose proof (zget_Some _ _ _ Hc). case_decide; [done|lia].
    + intros i c Hc. replace (dap + 6 + i) with (dap + 4 + (2 + i)) by lia. apply store_in. rewrite zget_app.
      pose proof (zget_Some _ _ _ Hc). change (zlen (le16 (rm_off tmp))) with 2. case_decide; [lia|].
      by replace (2 + i - 2) with i by lia.
Qed.

Lemma dap_lba_ok m dap tmp l : dap_head m dap tmp -> dap_at (dap_lba dap l m) dap tmp (u64 l) /\ dap_head (dap_lba dap l m) dap tmp.
Proof.
  intros Hd. assert (dap_head (dap_lba dap l m) dap tmp) as Hh.
  { eapply dap_head_frame; [|exact Hd]. intros x Hx. apply store_out. change (zlen _) with 8. lia. }
  split; [|exact Hh]. destruct Hh as (H1 & H2 & H3). split; [done|]. split; [done|]. split; [done|].
  apply load64_bytes; [apply u64_range|]. intros i c Hc. by apply store_in.
Qed.

Lemma regs_fields drive a fn : 0 <= drive < 256 -> 0 <= a < 2 ^ 20 ->
  reax (disk_regs fn drive a) = fn /\ rds (disk_regs fn drive a) * 16 + resi (disk_regs fn drive a) = a /\
  u8 (redx (disk_regs fn drive a)) = drive.
Proof. intros Hd Ha. split; [done|]. split; [by apply rm_address|]. unfold u8. cbn. apply Z.mod_small. lia. Qed.

(** ** Lemmas: the transfers *)

Section Transfers.
Context {P : Type} {HP : Ports P} {B : Bios}.
Context (trampoline : Z -> rm_regs -> mem -> medium -> option (rm_regs * mem * medium)) (A : areas) {I : Int13 trampoline A}.
Context (Hpic : forall a b (p : P), exists p', map_PIC a b p = Some (tt, p')).
Context (drive tmp dap : Z) (Hdrive : 0 <= drive < 256) (Htmp : 0 <= tmp /\ tmp + 512 <= 2 ^ 20)
  (Hdap : 0 <= dap /\ dap + 16 <= 2 ^ 20) (Hapart : tmp + 512 <= dap \/ dap + 16 <= tmp)
  (Hct : clear A tmp BYTES_PER_SECT) (Hcd : clear A dap 16).
#[local] Set Default Proof Using "Type*".

(** A service between the two settings of the interrupt controllers. *)
Lemma rm_int_ok n r p m d r' m' d' : trampoline n r m d = Some (r', m', d') ->
  exists p', rm_int trampoline n r (p, (m, d)) = Some (r', (p', (m', d'))).
Proof using Hpic.
  intros H. destruct (Hpic 0x08 0x70 p) as [p1 E1]. destruct (Hpic 0x20 0x28 p1) as [p2 E2]. exists p2.
  unfold rm_int, on_ports, call_trampoline, st_bind, st_ret. cbn [fst snd]. rewrite E1. cbn [fst snd].
  rewrite H. cbn [fst snd]. by rewrite E2.
Qed.

Lemma check_ok r (w : machine (P := P)) : carry r false -> check_disk (P := P) r w = Some (tt, w).
Proof. intros H. unfold check_disk. rewrite H. done. Qed.
Lemma check_fails r (w : machine (P := P)) : carry r true -> check_disk (P := P) r w = None.
Proof. intros H. unfold check_disk. rewrite H. done. Qed.


(** Memory that changes only in the two buffers and in what the calls use. *)
Definition only_buffers (m m' : mem) : Prop :=
  forall x, ~ scratch A x -> x < tmp \/ tmp + 512 <= x -> x < dap \/ dap + 16 <= x -> m' x = m x.

Lemma only_trans m1 m2 m3 : only_buffers m1 m2 -> only_buffers m2 m3 -> only_buffers m1 m3.
Proof using. intros H1 H2 x Hs Hx Hx'. rewrite H2, H1; done. Qed.
Lemma only_lba m l : only_buffers m (dap_lba dap l m).
Proof using. intros x _ _ Hx. apply store_out. change (zlen _) with 8. lia. Qed.
Lemma only_tmp m s : zlen s = 512 -> only_buffers m (store_bytes m tmp s).
Proof using. intros Hs x _ Hx _. apply store_out. lia. Qed.
Lemma only_same m m' : same_but A m m' -> only_buffers m m'.
Proof using. intros H x Hs _ _. by apply H. Qed.

(** Stores into a buffer leave the copy of the trampoline. *)
Lemma loaded_store m a n l : clear A a n -> zlen l <= n -> loaded trampoline A m -> loaded trampoline A (store_bytes m a l).
Proof using.
  intros Hc Hl Hm. apply (loaded_ext trampoline A m); [done|]. intros x Hx. apply store_out.
  destruct (decide (a <= x < a + zlen l)) as [Hin|]; [|lia]. exfalso. apply (Hc x); [lia|by left].
Qed.
Lemma clear_part a n b k : clear A a n -> a <= b -> b + k <= a + n -> clear A b k.
Proof using. intros H Hb Hk x Hx. apply H. lia. Qed.
Lemma loaded_lba m l : loaded trampoline A m -> loaded trampoline A (dap_lba dap l m).
Proof. apply (loaded_store m (dap + 8) 8); [eapply clear_part; [exact Hcd|lia|lia]|reflexivity]. Qed.
Lemma loaded_tmp m l : zlen l = 512 -> loaded trampoline A m -> loaded trampoline A (store_bytes m tmp l).
Proof. intros Hl. apply (loaded_store m tmp 512 l Hct). lia. Qed.
Lemma loaded_init m : loaded trampoline A m -> loaded trampoline A (dap_init dap tmp m).
Proof using Hcd.
  intros Hm. unfold dap_init. apply (loaded_store _ (dap + 4) 4); [eapply clear_part; [exact Hcd|lia|lia]|reflexivity|].
  apply (loaded_store _ dap 4); [eapply clear_part; [exact Hcd|lia|lia]|reflexivity|done].
Qed.

(** One sector. *)
Lemma read_one m d l : loaded trampoline A m -> dap_head m dap tmp -> 0 <= l < 2 ^ 64 -> let m1 := dap_lba dap l m in
  match int13_read d drive l with
  | Some s => zlen s = 512 /\ exists r' m', trampoline 0x13 (disk_regs 0x4200 drive dap) m1 d = Some (r', m', d) /\
      carry r' false /\ loaded trampoline A m' /\ bytes_at m' tmp 512 = s /\ dap_head m' dap tmp /\ only_buffers m m'
  | None => exists r' m', trampoline 0x13 (disk_regs 0x4200 drive dap) m1 d = Some (r', m', d) /\ carry r' true
  end.
Proof.
  intros Hm0 Hh Hl m1. destruct (dap_lba_ok m dap tmp l Hh) as [Hat Hh1]. rewrite u64_small in Hat by done.
  destruct (regs_fields drive dap 0x4200 Hdrive ltac:(lia)) as (E1 & E2 & E3).
  pose proof (int_read trampoline A (disk_regs 0x4200 drive dap) m1 d dap tmp l (loaded_lba m l Hm0) E1 E2 Hat Hcd Hct) as H. rewrite E3 in H.
  destruct (int13_read d drive l) as [s|]; [|done]. destruct H as (Hs & r' & m' & E & Hc & Hl' & Hm). change BYTES_PER_SECT with 512 in Hs.
  split; [done|]. exists r', m'. split; [done|]. split; [done|]. split; [done|]. split; [|split].
  - rewrite (bytes_at_ext (store_bytes m1 tmp s)) by (intros x Hx; apply Hm, Hct; unfold BYTES_PER_SECT; lia).
    assert (512%nat = length s) as -> by (unfold zlen in Hs; lia). apply store_bytes_at.
  - eapply dap_head_frame; [|exact Hh1]. intros x Hx. rewrite Hm by (apply Hcd; lia). apply store_out. lia.
  - eapply only_trans; [apply only_lba|]. eapply only_trans; [by apply only_tmp|by apply only_same].
Qed.

Lemma read_sectors_S n i block buf p m d : read_sectors trampoline (S n) i drive block tmp dap buf (p, (m, d)) =
  (let! r := rm_int trampoline 0x13 (disk_regs 0x4200 drive dap) in
   check_disk r ;;
   let! m := get_mem in
   read_sectors trampoline n (i + 1) drive block tmp dap (put_sector i (bytes_at m tmp (Z.to_nat BYTES_PER_SECT)) buf))
  (p, (dap_lba dap (block + i) m, d)).
Proof using. done. Qed.
Lemma write_sectors_S n i block buf p m d : write_sectors trampoline (S n) i drive block tmp dap buf (p, (m, d)) =
  (let! r := rm_int trampoline 0x13 (disk_regs 0x4300 drive dap) in
   check_disk r ;; write_sectors trampoline n (i + 1) drive block tmp dap buf)
  (p, (store_bytes (dap_lba dap (block + i) m) tmp (get_sector i buf), d)).
Proof using. done. Qed.

Lemma read_sectors_ok block d n : forall i buf p m, loaded trampoline A m -> dap_head m dap tmp ->
  match zfor n i (read_step d drive block) buf with
  | Some buf' => exists p' m', read_sectors trampoline n i drive block tmp dap buf (p, (m, d)) = Some (buf', (p', (m', d))) /\
      loaded trampoline A m' /\ only_buffers m m'
  | None => read_sectors trampoline n i drive block tmp dap buf (p, (m, d)) = None
  end.
Proof.
  induction n as [|n IH]; intros i buf p m Hm Hh; [by exists p, m|]. rewrite zfor_S.
  change (read_step d drive block i buf) with (s ← int13_read d drive (u64 (block + i)); Some (put_sector i s buf)).
  rewrite read_sectors_S.
  pose proof (read_one m d (u64 (block + i)) Hm Hh (u64_range _)) as H1. cbv zeta in H1.
  assert (dap_lba dap (u64 (block + i)) m = dap_lba dap (block + i) m) as El
    by (unfold dap_lba; by rewrite (u64_small (u64 _)) by apply u64_range).
  rewrite El in H1. destruct (int13_read d drive _) as [s|]; cbn [mbind option_bind].
  - destruct H1 as (Hs & r' & m' & Et & Hc & Hl & Hb & Hh' & Ho).
    destruct (rm_int_ok 0x13 _ p _ _ _ _ _ Et) as [p1 Er]. rewrite (st_bind_ok _ _ _ _ _ Er).
    rewrite (st_bind_ok _ _ _ _ _ (check_ok r' _ Hc)). erewrite st_bind_ok by reflexivity.
    change (Z.to_nat BYTES_PER_SECT) with 512%nat. cbn [fst snd]. rewrite Hb. specialize (IH (i + 1) (put_sector i s buf) p1 m' Hl Hh').
    destruct (zfor n (i + 1) (read_step d drive block) (put_sector i s buf)) as [buf'|]; [|exact IH].
    destruct IH as (p' & m2 & E & Hl2 & Ho'). exists p', m2. split; [exact E|]. split; [exact Hl2|]. by eapply only_trans.
  - destruct H1 as (r' & m' & Et & Hc). destruct (rm_int_ok 0x13 _ p _ _ _ _ _ Et) as [p1 Er].
    rewrite (st_bind_ok _ _ _ _ _ Er). unfold st_bind at 1. by rewrite check_fails.
Qed.

Lemma write_sectors_ok block buf n : zlen buf = CACHE_SIZE -> forall i p m d, 0 <= i -> i + Z.of_nat n <= CACHE_SECTS ->
  loaded trampoline A m -> dap_head m dap tmp ->
  match zfor n i (write_step drive buf block) d with
  | Some d' => exists p' m', write_sectors trampoline n i drive block tmp dap buf (p, (m, d)) = Some (tt, (p', (m', d'))) /\
      loaded trampoline A m' /\ only_buffers m m'
  | None => write_sectors trampoline n i drive block tmp dap buf (p, (m, d)) = None
  end.
Proof.
  intros Hbuf. induction n as [|n IH]; intros i p m d Hi Hn Hm0 Hh; [by exists p, m|]. rewrite zfor_S.
  change (write_step drive buf block i d) with (int13_write d drive (u64 (block + i)) (get_sector i buf)).
  rewrite write_sectors_S. set (s := get_sector i buf).
  assert (zlen s = 512) as Hs.
  { unfold s, get_sector, zlen, CACHE_SIZE, CACHE_SECTS, BYTES_PER_SECT in *. rewrite length_take, length_drop. lia. }
  destruct (dap_lba_ok m dap tmp (block + i) Hh) as [_ Hh1]. set (m1 := store_bytes (dap_lba dap (block + i) m) tmp s).
  assert (dap_head m1 dap tmp) as Hh2
    by (eapply dap_head_frame; [|exact Hh1]; intros x Hx; apply store_out; lia).
  assert (dap_at m1 dap tmp (u64 (block + i))) as Hat.
  { destruct Hh2 as (H1 & H2 & H3). do 3 (split; [done|]). apply load64_bytes; [apply u64_range|]. intros j c Hc.
    pose proof (zget_Some _ _ _ Hc) as Hj. change (zlen _) with 8 in Hj. unfold m1. rewrite store_out by lia.
    rewrite <- Z.add_assoc. rewrite Z.add_assoc. by apply store_in. }
  destruct (regs_fields drive dap 0x4300 Hdrive ltac:(lia)) as (E1 & E2 & E3).
  pose proof (int_write trampoline A (disk_regs 0x4300 drive dap) m1 d dap tmp (u64 (block + i))
    (loaded_tmp _ _ Hs (loaded_lba m (block + i) Hm0)) E1 E2 Hat Hcd Hct) as H. rewrite E3 in H.
  assert (bytes_at m1 tmp (Z.to_nat BYTES_PER_SECT) = s) as Eb.
  { replace (Z.to_nat BYTES_PER_SECT) with (length s) by (unfold zlen in Hs; unfold BYTES_PER_SECT; lia). apply store_bytes_at. }
  rewrite Eb in H. destruct (int13_write d drive _ s) as [d'|]; cbn [mbind option_bind].
  - destruct H as (r' & m' & Et & Hc & Hl & Hm). destruct (rm_int_ok 0x13 _ p _ _ _ _ _ Et) as [p1 Er].
    rewrite (st_bind_ok _ _ _ _ _ Er), (st_bind_ok _ _ _ _ _ (check_ok r' _ Hc)).
    assert (dap_head m' dap tmp) as Hh' by (eapply dap_head_frame; [|exact Hh2]; intros x Hx; apply Hm, Hcd; lia).
    specialize (IH (i + 1) p1 m' d' ltac:(lia) ltac:(lia) Hl Hh').
    destruct (zfor n (i + 1) (write_step drive buf block) d') as [d2|]; [|exact IH].
    destruct IH as (p' & m2 & E & Hl2 & Ho). exists p', m2. split; [exact E|]. split; [exact Hl2|].
    eapply only_trans; [apply only_lba|]. eapply only_trans; [by apply only_tmp|]. eapply only_trans; [by apply only_same|exact Ho].
  - destruct H as (r' & m' & Et & Hc). destruct (rm_int_ok 0x13 _ p _ _ _ _ _ Et) as [p1 Er].
    rewrite (st_bind_ok _ _ _ _ _ Er). unfold st_bind at 1. by rewrite check_fails.
Qed.

Lemma only_init m : only_buffers m (dap_init dap tmp m).
Proof using. intros x _ _ Hx. unfold dap_init. rewrite !store_out by (change (zlen _) with 4; lia). done. Qed.

End Transfers.

(** The parameters of a drive, with the structure at [dp]. *)
Lemma params_ok {P : Type} {HP : Ports P} {B : Bios}
    (trampoline : Z -> rm_regs -> mem -> medium -> option (rm_regs * mem * medium)) (A : areas) {I : Int13 trampoline A}
    (drive dp : Z) (p : P) (m : mem) (d : medium) :
  (forall a b (p : P), exists p', map_PIC a b p = Some (tt, p')) -> 0 <= drive < 256 -> 0 <= dp < 2 ^ 20 ->
  clear A dp SIZEOF_DRIVE_PARAMS -> loaded trampoline A m ->
  exists r p' m', read_drive_parameters trampoline drive dp (p, (m, d)) = Some (r, (p', (m', d))) /\
    lba_count <$> r = drive_count trampoline A d drive /\ loaded trampoline A m' /\
    forall x, ~ scratch A x -> x < dp \/ dp + SIZEOF_DRIVE_PARAMS <= x -> m' x = m x.
Proof.
  intros Hpic Hdrive Hdp Hc Hl. set (m1 := store_bytes m dp (le16 SIZEOF_DRIVE_PARAMS)).
  assert (load16 m1 dp = SIZEOF_DRIVE_PARAMS) as E0
    by (apply (load16_bytes m1 dp SIZEOF_DRIVE_PARAMS); intros i c Hi; by apply store_in).
  assert (loaded trampoline A m1) as Hl1
    by (apply (loaded_store trampoline A m dp SIZEOF_DRIVE_PARAMS); [done|unfold SIZEOF_DRIVE_PARAMS; change (zlen _) with 2; lia|done]).
  destruct (regs_fields drive dp 0x4800 Hdrive Hdp) as (E1 & E2 & E3).
  destruct (int_params trampoline A (disk_regs 0x4800 drive dp) m1 d dp Hl1 E1 E2 E0 Hc) as (r' & m' & Et & Hl' & Hm & H).
  rewrite E3 in H. destruct (rm_int_ok trampoline Hpic 0x13 _ p _ _ _ _ _ Et) as [p1 Er].
  assert (forall x, ~ scratch A x -> x < dp \/ dp + SIZEOF_DRIVE_PARAMS <= x -> m' x = m x) as Hm'.
  { intros x Hs Hx. rewrite Hm by done. apply store_out. change (zlen _) with 2. unfold SIZEOF_DRIVE_PARAMS in Hx. lia. }
  assert (read_drive_parameters trampoline drive dp (p, (m, d)) =
    (let! r := rm_int trampoline 0x13 (disk_regs 0x4800 drive dp) in
     if Z.land (reflags r) EFLAGS_CF =? 0 then let! m := get_mem in st_ret (Some (params_at m dp)) else st_ret None)
    (p, (m1, d))) as -> by done.
  rewrite (st_bind_ok _ _ _ _ _ Er).
  destruct (drive_count trampoline A d drive) as [n|]; [destruct H as [Hcar Hn]|rename H into Hcar]; rewrite Hcar; cbn [Z.eqb].
  - eexists (Some _), p1, m'. split; [reflexivity|]. split; [cbn; by rewrite Hn|]. by split.
  - eexists None, p1, m'. split; [reflexivity|]. by repeat split.
Qed.

(** * Properties *)

(** C10: The disk functions do through the BIOS what [BiosDisk.v] takes them to do.  With a
    copy of the trampoline in place, a BIOS that behaves as documented, interrupt
    controllers that answer, and buffers below 1 MiB that are apart from each other and
    from what the trampoline and the BIOS use for themselves (the copy at 0xf000, which
    stores into itself, the stack below the buffers and the registers, and the BIOS's
    data), the 64 calls of a transfer read the sectors [BiosDisk.disk_read_sector]
    reads and write those [BiosDisk.disk_write_sector] writes, or panic when one of them
    does not exist; outside of those areas only the two buffers on the stack change, and
    the copy of the trampoline is still in place for the next call.
    [read_drive_parameters] gives the number of sectors of a drive that answers, and
    changes nothing else but its structure. *)
Theorem disk_services_refine {P : Type} {HP : Ports P} {B : Bios}
    (trampoline : Z -> rm_regs -> mem -> medium -> option (rm_regs * mem * medium)) (A : areas) {I : Int13 trampoline A}
    (drive tmp dap dp block : Z) (buf : list Z) (p : P) (m : mem) (d : medium) :
  (forall a b (p : P), exists p', map_PIC a b p = Some (tt, p')) -> 0 <= drive < 256 ->
  0 <= tmp /\ tmp + 512 <= 2 ^ 20 -> 0 <= dap /\ dap + 16 <= 2 ^ 20 -> tmp + 512 <= dap \/ dap + 16 <= tmp ->
  0 <= dp < 2 ^ 20 -> clear A tmp 512 -> clear A dap 16 -> clear A dp SIZEOF_DRIVE_PARAMS ->
  loaded trampoline A m -> zlen buf = CACHE_SIZE ->
  (match BiosDisk.disk_read_sector d drive buf block with
   | Some buf' => exists p' m', disk_read_sector trampoline drive block tmp dap buf (p, (m, d)) = Some (buf', (p', (m', d))) /\
       loaded trampoline A m' /\ only_buffers A tmp dap m m'
   | None => disk_read_sector trampoline drive block tmp dap buf (p, (m, d)) = None
   end) /\
  (match BiosDisk.disk_write_sector d drive buf block with
   | Some d' => exists p' m', disk_write_sector trampoline drive block tmp dap buf (p, (m, d)) = Some (tt, (p', (m', d'))) /\
       loaded trampoline A m' /\ only_buffers A tmp dap m m'
   | None => disk_write_sector trampoline drive block tmp dap buf (p, (m, d)) = None
   end) /\
  exists r p' m', read_drive_parameters trampoline drive dp (p, (m, d)) = Some (r, (p', (m', d))) /\
    lba_count <$> r = drive_count trampoline A d drive /\ loaded trampoline A m' /\
    forall x, ~ scratch A x -> x < dp \/ dp + SIZEOF_DRIVE_PARAMS <= x -> m' x = m x.
Proof.
  intros Hpic Hd Ht Hdap Ha Hdp Hct Hcd Hcp Hm Hbuf. pose proof (dap_head_init m dap tmp ltac:(lia)) as Hh.
  pose proof (loaded_init trampoline A tmp dap Hcd m Hm) as Hl.
  split; [|split; [|by apply params_ok]].
  - pose proof (read_sectors_ok trampoline A Hpic drive tmp dap Hd Ht Hdap Ha Hct Hcd block d (Z.to_nat CACHE_SECTS) 0 buf p _ Hl Hh) as H.
    change (zfor _ 0 _ buf) with (BiosDisk.disk_read_sector d drive buf block) in H.
    destruct (BiosDisk.disk_read_sector d drive buf block); [|exact H]. destruct H as (p' & m' & E & Hl' & Ho).
    exists p', m'. split; [exact E|]. split; [exact Hl'|]. eapply only_trans; [apply only_init|exact Ho].
  - pose proof (write_sectors_ok trampoline A Hpic drive tmp dap Hd Ht Hdap Ha Hct Hcd block buf (Z.to_nat CACHE_SECTS) Hbuf 0 p _ d
      ltac:(done) ltac:(done) Hl Hh) as H.
    change (zfor _ 0 _ d) with (BiosDisk.disk_write_sector d drive buf block) in H.
    destruct (BiosDisk.disk_write_sector d drive buf block); [|exact H]. destruct H as (p' & m' & E & Hl' & Ho).
    exists p', m'. split; [exact E|]. split; [exact Hl'|]. eapply only_trans; [apply only_init|exact Ho].
Qed.

(** * Witnesses

    A BIOS in front of the drive of [BiosDisk.v], behind a trampoline that needs its first
    byte and stores the number of the interrupt into itself and a word on the stack; its
    ports are taken by a machine that accepts every byte. *)

Definition demo_areas : areas := MkAreas 0x200 (fun x => 0x6000 <= x < 0x7000) (fun x => 0x400 <= x < 0x500).
Definition demo_loaded (m : mem) : Prop := m 0xf000 = 0x8a.
Definition demo_scribble (n : Z) (m : mem) : mem := store_bytes (store_bytes m 0xf010 [n]) 0x6ffc (le32 0x1000).

Definition demo_sector (m : mem) (a : Z) : Z * Z := (load16 m (a + 6) * 16 + load16 m (a + 4), load64 m (a + 8)).
Definition with_carry (b : Z) (r : rm_regs) : rm_regs :=
  MkRegs (rgs r) (rfs r) (res r) (rds r) b (rebp r) (redi r) (resi r) (redx r) (recx r) (rebx r) (reax r).
Definition demo_trampoline (n : Z) (r : rm_regs) (m : mem) (d : medium (Bios := demo_bios)) :
    option (rm_regs * mem * medium (Bios := demo_bios)) :=
  let a := rds r * 16 + resi r in
  let '(t, l) := demo_sector m a in
  if m 0xf000 =? 0x8a then
    Some (if reax r =? 0x4200 then
            match int13_read (Bios := demo_bios) d (u8 (redx r)) l with
            | Some s => (with_carry 0 r, demo_scribble n (store_bytes m t s), d)
            | None => (with_carry 1 r, demo_scribble n m, d)
            end
          else if reax r =? 0x4300 then
            match int13_write (Bios := demo_bios) d (u8 (redx r)) l (bytes_at m t (Z.to_nat BYTES_PER_SECT)) with
            | Some d' => (with_carry 0 r, demo_scribble n m, d')
            | None => (with_carry 1 r, demo_scribble n m, d)
            end
          else if u8 (redx r) =? 0x80 then (with_carry 0 r, demo_scribble n (store_bytes m (a + 16) (le64 100)), d)
          else (with_carry 1 r, demo_scribble n m, d))
  else None.

Lemma scribble_same n m : same_but demo_areas m (demo_scribble n m).
Proof.
  intros x Hx. unfold demo_scribble. rewrite !store_out; [done|..].
  - change (zlen _) with 1. destruct (decide (x = 0xf010)) as [->|]; [|lia]. destruct Hx. left. split; [discriminate|reflexivity].
  - change (zlen _) with 4. destruct (decide (0x6000 <= x < 0x7000)); [destruct Hx; by right; left|lia].
Qed.
Lemma scribble_loaded n m : demo_loaded m -> demo_loaded (demo_scribble n m).
Proof. intros H. unfold demo_loaded, demo_scribble. by rewrite !store_out by (cbv; lia || (right; discriminate) || (left; reflexivity)). Qed.
Lemma store_loaded m a n l : clear demo_areas a n -> zlen l <= n -> demo_loaded m -> demo_loaded (store_bytes m a l).
Proof.
  intros Hc Hl H. unfold demo_loaded. rewrite store_out; [done|].
  destruct (decide (a <= 0xf000 < a + zlen l)); [|lia]. destruct (Hc 0xf000); [lia|left; split; [discriminate|reflexivity]].
Qed.

#[local] Program Instance demo_int13 : Int13 (B := demo_bios) demo_trampoline demo_areas := {
  loaded := demo_loaded;
  drive_count _ n := if n =? 0x80 then Some 100 else None
}.
Next Obligation. intros m m' H E. unfold demo_loaded. by rewrite E by (split; [discriminate|reflexivity]). Qed.
Next Obligation.
  intros r m d a t l Hm E1 E2 (_ & _ & H3 & H4) _ Ht. unfold demo_trampoline, demo_sector. rewrite E1, E2, H3, H4, Hm.
  cbn [Z.eqb Pos.eqb]. cbv beta iota zeta.
  destruct (int13_read (Bios := demo_bios) d (u8 (redx r)) l) as [s|] eqn:Es; [|by eexists _, _].
  assert (zlen s = BYTES_PER_SECT) as Hs.
  { cbn in Es. destruct (decide _); [|done]. injection Es as <-.
    destruct (find _ d) as [e|]; [|done]. case_decide as Hd; [by destruct Hd|done]. }
  split; [done|]. eexists _, _. split; [reflexivity|]. split; [done|]. split; [|apply scribble_same].
  apply scribble_loaded, (store_loaded _ _ BYTES_PER_SECT); [done|lia|done].
Qed.
Next Obligation.
  intros r m d a t l Hm E1 E2 (_ & _ & H3 & H4) _ _. unfold demo_trampoline, demo_sector. rewrite E1, E2, H3, H4, Hm.
  cbn [Z.eqb Pos.eqb]. cbv beta iota zeta.
  destruct (int13_write (Bios := demo_bios) d (u8 (redx r)) l _) as [d'|]; eexists _, _; (split; [reflexivity|]); [|done].
  split; [done|]. split; [by apply scribble_loaded|apply scribble_same].
Qed.
Next Obligation.
  intros r m d a Hm E1 E2 _ Hc. unfold demo_trampoline, demo_sector. rewrite E1, E2, Hm. cbn [Z.eqb Pos.eqb]. cbv beta iota zeta.
  unfold SIZEOF_DRIVE_PARAMS in *.
  destruct (u8 (redx r) =? 0x80); eexists _, _; (split; [reflexivity|]); (split; [|split; [|]]).
  - apply scribble_loaded, (store_loaded _ _ 8); [intros x Hx; apply Hc; lia|change (zlen (le64 100)) with 8; lia|done].
  - intros x Hs Hx. rewrite scribble_same by done. apply store_out. change (zlen (le64 100)) with 8. lia.
  - split; [done|]. apply load64_bytes; [by split|]. intros i c Hi. pose proof (zget_Some _ _ _ Hi) as Hr. change (zlen (le64 100)) with 8 in Hr.
    rewrite scribble_same by (apply Hc; lia). by apply store_in.
  - by apply scribble_loaded.
  - intros x Hs Hx. by apply scribble_same.
  - done.
Qed.

#[local] Instance demo_ports : Ports unit := { port_in_b _ := st_ret 0; port_out_b _ _ := st_ret tt }.

Definition zeros : list Z := replicate (Z.to_nat CACHE_SIZE) 0.
Lemma demo_read_first : BiosDisk.disk_read_sector (B := demo_bios) [] 0x80 zeros 0 = Some zeros.
Proof. apply (bool_decide_unpack _). vm_compute. exact I. Qed.
Lemma demo_read_past : BiosDisk.disk_read_sector (B := demo_bios) [] 0x80 zeros 64 = None.
Proof. apply (bool_decide_unpack _). vm_compute. exact I. Qed.
Lemma zeros_len : zlen zeros = CACHE_SIZE.
Proof. unfold zeros. by rewrite zlen_replicate. Qed.

Definition demo_mem : mem := fun x => if x =? 0xf000 then 0x8a else 0.
Lemma demo_clear a n : 0x7000 <= a -> a + n <= 0xf000 -> clear demo_areas a n.
Proof. intros Ha Hn x Hx [[H _]|[H|H]]; cbn in H; lia. Qed.

Lemma disk_services_refine_witness :
  (exists m', disk_read_sector (B := demo_bios) demo_trampoline 0x80 0 0x7000 0x7200 zeros (tt, (demo_mem, [])) =
     Some (zeros, (tt, (m', [])))) /\
  disk_read_sector (B := demo_bios) demo_trampoline 0x80 64 0x7000 0x7200 zeros (tt, (demo_mem, [])) = None /\
  exists m' dp, read_drive_parameters (B := demo_bios) demo_trampoline 0x80 0x7300 (tt, (demo_mem, [])) =
     Some (Some dp, (tt, (m', []))) /\ lba_count dp = 100.
Proof.
  assert (forall a b (p : unit), exists p', map_PIC a b p = Some (tt, p')) as Hpic by (intros a b []; by exists tt).
  destruct (disk_services_refine (B := demo_bios) demo_trampoline demo_areas 0x80 0x7000 0x7200 0x7300 0 zeros tt demo_mem [] Hpic)
    as (H1 & _ & H3); [split; [discriminate|reflexivity]|split; discriminate|split; discriminate|left; discriminate|
      split; [discriminate|reflexivity]|by apply demo_clear|by apply demo_clear|by apply demo_clear|reflexivity|exact zeros_len|].
  destruct (disk_services_refine (B := demo_bios) demo_trampoline demo_areas 0x80 0x7000 0x7200 0x7300 64 zeros tt demo_mem [] Hpic)
    as (H2 & _ & _); [split; [discriminate|reflexivity]|split; discriminate|split; discriminate|left; discriminate|
      split; [discriminate|reflexivity]|by apply demo_clear|by apply demo_clear|by apply demo_clear|reflexivity|exact zeros_len|].
  split; [|split].
  - rewrite demo_read_first in H1. destruct H1 as ([] & m' & H1 & _). exists m'. exact H1.
  - rewrite demo_read_past in H2. exact H2.
  - destruct H3 as (r & [] & m' & H3 & Hn & _). change (lba_count <$> r = Some 100) in Hn.
    destruct r as [dp|]; [|discriminate Hn]. exists m', dp. split; [exact H3|]. by injection Hn.
Defined.

End RealMode.
