(* ===== verification/Syscalls.v ===== *)
(** * System calls on tasks: [kernel/src/syscalls.c]

    Inter-process packets, the wait states, signals, the heap of a task and its
    local descriptor table.  Pointers of a task are offsets from its [base].
    [lseek], [read], [write], [open] and [close] are those of the virtual file system.

    A call ends by returning to the task, or, when the task is terminated, with what
    the scheduler runs instead. *)

From S2P Require Import Prelude Gdt Task.
Local Open Scope Z_scope.
Local Open Scope st_scope.

Module Syscalls.
Import Gdt Task.

Inductive result (A : Type) := Ret (a : A) | Quit (o : option outcome).
#[global] Arguments Ret {A} a.
#[global] Arguments Quit {A} o.

Definition SIG_ERR : Z := 0xffffffff.

Section Calls.
Context {W : Type} {K : Kernel W}.

(** [task_quit(current_task, -1)] after its messages. *)
Definition terminate {A} (fuel : nat) (msg1 msg2 : list Z) : ST W (result A) :=
  tty_kputs msg1 ;; tty_kputs msg2 ;;
  let! c := current in
  let! o := task_quit fuel c (-1) in
  st_ret (Quit o).

(** The bytes of "Task terminated." and the other messages are arguments. *)
Definition memory_size (t : task_t) : Z := u32 (pages t * PAGE_SIZE).

(** ** Packets *)

(** [krealloc] of the queue is assumed to succeed; [kalloc(len)] is not tested. *)
Definition ipc_send_packet (fuel : nat) (msgs : list Z * list Z * list Z) (pid pl len : Z) :
    ST W (result unit) :=
  let! t := this_task in
  if memory_size t <=? u32 (pl + len) then terminate fuel msgs.1.1 msgs.2
  else
    let! s := st_get in
    let! e := st_lift (zget (task_table s) pid) in
    if negb (is_task e) then terminate fuel msgs.1.2 msgs.2
    else
      let! p := kalloc len in
      if p =? 0 then st_fail
      else
        let! bytes := mem_read (u32 (pl + base t)) len in
        let! r := get_task pid in
        let r := with_ipc_queue (ipc_queue r ++ [MkPacket (current_task s) len (Some bytes)]) r in
        put_task pid (if status r =? KRN_STAT_IPCWAIT_TASK then with_status KRN_STAT_ACTIVE_TASK r else r) ;;
        st_ret (Ret tt).

Definition ipc_payload_length : ST W Z :=
  let! t := this_task in st_ret (match ipc_queue t with p :: _ => plength p | [] => 0 end).
Definition ipc_payload_sender : ST W Z :=
  let! t := this_task in st_ret (match ipc_queue t with p :: _ => sender p | [] => 0 end).

(** The loop over the task table, which ends at the first null entry. *)
Fixpoint resolve_from (nm : list Z) (i : Z) (l : list slot) : option Z :=
  match l with
  | [] => None
  | NoTask :: _ => Some 0
  | EmptyPid :: l => resolve_from nm (i + 1) l
  | Task t :: l => if decide (nm = server_name (names t)) then Some i else resolve_from nm (i + 1) l
  end.
Definition ipc_resolve_name (fuel : nat) (msgs : list Z * list Z) (nm : Z) : ST W (result Z) :=
  let! t := this_task in
  let! str := mem_str (u32 (nm + base t)) in
  if memory_size t <=? u32 (nm + zlen str) then terminate fuel msgs.1 msgs.2
  else
    let! s := st_get in
    let! r := st_lift (resolve_from str 0 (task_table s)) in
    st_ret (Ret r).

(** [for (i = ipc_queue_ptr - 1; i; i--) queue[i-1] = queue[i];] on the queue of the
    sender, with the number of packets of the receiver. *)
Fixpoint push_back (i : nat) (q : list ipc_packet_t) : option (list ipc_packet_t) :=
  match i with
  | O => Some q
  | S j => p ← zget q (Z.of_nat i); q ← zset q (Z.of_nat j) p; push_back j q
  end.

Definition free_payload (p : ipc_packet_t) : ipc_packet_t := MkPacket (sender p) (plength p) None.

Definition ipc_read_packet (fuel : nat) (msgs : list Z * list Z) (pl : Z) : ST W (result Z) :=
  let! t := this_task in
  match ipc_queue t with
  | [] => st_ret (Ret 0)
  | p :: q =>
      if memory_size t <=? u32 (pl + plength p) then terminate fuel msgs.1 msgs.2
      else
        let! bytes := st_lift (payload p) in
        mem_write (u32 (pl + base t)) bytes ;;
        put_this (with_ipc_queue (free_payload p :: q) t) ;;
        let n := List.length q in
        (match n with
         | O => st_ret tt
         | _ => let! r := get_task (sender p) in
                let! rq := st_lift (push_back n (ipc_queue r)) in
                put_task (sender p) (with_ipc_queue rq r)
         end) ;;
        let! t := this_task in
        put_this (with_ipc_queue (take n (ipc_queue t)) t) ;;
        st_ret (Ret (sender p))
  end.

(** ** Waiting *)

(** [char iowait_dev[2048]] must hold the name. *)
Definition enter_iowait_status (dv lc pl ty : Z) : ST W unit :=
  let! t := this_task in
  let! str := mem_str (u32 (dv + base t)) in
  if decide (zlen str < 2048) then
    let w := iowait t in
    put_this (with_status KRN_STAT_IOWAIT_TASK
      (with_iowait (MkIowait str lc ty pl (handle w) (ptr w) (len w) (done_ w)) t))
  else st_fail.

Definition enter_iowait_status1 (hd pt ln ty dn : Z) : ST W unit :=
  let! t := this_task in
  let w := iowait t in
  put_this (with_status KRN_STAT_IOWAIT_TASK
    (with_iowait (MkIowait (dev w) (loc w) ty (wpayload w) hd pt ln dn) t)).

Definition enter_vdevwait_status : ST W unit :=
  let! t := this_task in put_this (with_status KRN_STAT_VDEVWAIT_TASK t).

Definition enter_ipcwait_status : ST W unit :=
  let! t := this_task in
  match ipc_queue t with
  | [] => put_this (with_status KRN_STAT_IPCWAIT_TASK t)
  | _ => st_ret tt
  end.

(** ** Texts and numbers of the running task *)

Definition getpid : ST W Z := current.

Definition dump (f : task_t -> list Z) (to : Z) : ST W unit :=
  let! t := this_task in mem_write (u32 (to + base t)) (f t ++ [0]).
Definition pwd (to : Z) : ST W unit := dump Task.pwd to.
Definition what_stdin (to : Z) : ST W unit := dump (fun t => stdin (names t)) to.
Definition what_stdout (to : Z) : ST W unit := dump (fun t => stdout (names t)) to.
Definition what_stderr (to : Z) : ST W unit := dump (fun t => stderr (names t)) to.

(** The six handlers are the list [signals], by number. *)
Definition signal (sig handler : Z) : ST W Z :=
  let! t := this_task in
  match zget (signals t) sig with
  | Some old => let! l := st_lift (zset (signals t) sig handler) in
                put_this (with_signals l t) ;; st_ret old
  | None => st_ret SIG_ERR
  end.

(** The bytes [syscall_log] sends to port 0xe9. *)
Definition syscall_log (msg : Z) : ST W (list Z) :=
  let! t := this_task in let! str := mem_str (u32 (msg + base t)) in st_ret (str ++ [10]).

(** ** Memory of the running task *)

Definition get_heap_base : ST W Z := let! t := this_task in st_ret (heap_base t).
Definition get_heap_size : ST W Z := let! t := this_task in st_ret (heap_size t).

Definition reload_segments : ST W unit :=
  let! t := this_task in
  let! s := st_get in
  let! g := st_lift (set_segment (gdt s) 5 (base t) (pages t)) in
  let! g := st_lift (set_segment g 6 (base t) (pages t)) in
  let! g := st_lift (load_ldt g (ldt_ptr t) (ldt_entries t)) in
  st_put (with_gdt g s).

Definition resize_heap (size : Z) : ST W Z :=
  let heap_pages := size / PAGE_SIZE + (if size mod PAGE_SIZE =? 0 then 0 else 1) in
  let! t := this_task in
  let! new_ptr := krealloc (base t) (u32 (heap_base t + heap_pages * PAGE_SIZE)) in
  if new_ptr =? 0 then st_ret (-1)
  else
    put_this (with_heap (heap_base t) size (with_base new_ptr (u32 (heap_base t / PAGE_SIZE + heap_pages)) t)) ;;
    reload_segments ;;
    st_ret 0.

(** [alloc], [free] and [realloc] do nothing. *)
Definition alloc (size : Z) : Z := 0.
Definition realloc (prev_ptr size : Z) : Z := 0.

(** The new block has [entry_count + 1 * sizeof(struct dt_entry)] bytes, and what it
    holds of the old one; a whole entry past it is outside of it.  The contents of a
    grown block are those of zeroed memory. *)
Definition grow_ldt (l : list dt_entry) (bytes : Z) : list dt_entry :=
  let n := Z.to_nat (bytes / ENTRY_BYTES) in
  take n (l ++ replicate n (blank 0 0)).

Definition syscall_new_segment (sbase page_count code : Z) : ST W Z :=
  let! t := this_task in
  if memory_size t <=? u32 (sbase + page_count * PAGE_SIZE) then st_ret 65535
  else
    let entry_count := ldt_entries t in
    let bytes := entry_count + 1 * ENTRY_BYTES in
    let! p := krealloc (ldt_ptr t) bytes in
    if p =? 0 then st_ret 65535
    else
      let l := grow_ldt (ldt t) bytes in
      let! l := st_lift (set_segment l entry_count (u32 (sbase + base t)) page_count) in
      let! e := st_lift (zget l entry_count) in
      let! l := st_lift (zset l entry_count (MkEntry (limit_low e) (base_low e) (base_mid e)
        (if code =? 0 then 242 else 250) 192 (base_high e))) in
      put_this (with_ldt l (entry_count + 1) p t) ;;
      let! s := st_get in
      let! g := st_lift (load_ldt (gdt s) p (entry_count + 1)) in
      st_put (with_gdt g s) ;;
      st_ret (u16 (Z.lor (Z.lor (entry_count * ENTRY_BYTES) 4) 3)).

End Calls.

(** ** Lemmas: packets *)

Section Packets.
#[local] Set Default Proof Using "Type*".
Context {W : Type} {K : Kernel W} {L : KernelLaws K}.
Implicit Types (s : sched) (w : W).

(** The receiver of a packet, woken if it waits for one. *)
Definition woken (r : task_t) : Z :=
  if status r =? KRN_STAT_IPCWAIT_TASK then KRN_STAT_ACTIVE_TASK else status r.
Definition delivered (pkt : ipc_packet_t) (r : task_t) : task_t :=
  with_status (woken r) (with_ipc_queue (ipc_queue r ++ [pkt]) r).

Lemma send_ok s w w1 w2 pid pl len p bytes t r fuel msgs :
  zget (task_table s) (current_task s) = Some (Task t) -> zget (task_table s) pid = Some (Task r) ->
  u32 (pl + len) < memory_size t -> kalloc len w = Some (p, w1) -> p <> 0 ->
  mem_read (u32 (pl + base t)) len w1 = Some (bytes, w2) ->
  ipc_send_packet fuel msgs pid pl len (set_sched s w) =
    Some (Ret tt, set_sched (with_table
      (<[Z.to_nat pid := Task (delivered (MkPacket (current_task s) len (Some bytes)) r)]> (task_table s)) s) w2).
Proof.
  intros Ht Hr Hfit Hk Hp Hread. unfold ipc_send_packet. erewrite st_bind_ok by (by apply this_task_ok).
  rewrite (proj2 (Z.leb_gt _ _)) by done. erewrite st_bind_ok by (unfold st_get; by rewrite get_set).
  erewrite st_bind_ok by (unfold st_lift; by rewrite Hr). cbn [is_task negb].
  erewrite st_bind_ok by (by apply frame_ok; [apply kalloc_frame|]). rewrite (proj2 (Z.eqb_neq _ _)) by done.
  erewrite st_bind_ok by (by apply frame_ok; [apply mem_read_frame|]).
  erewrite st_bind_ok by (by apply get_task_ok). set (pkt := MkPacket _ _ _).
  assert ((if status r =? KRN_STAT_IPCWAIT_TASK
    then with_status KRN_STAT_ACTIVE_TASK (with_ipc_queue (ipc_queue r ++ [pkt]) r)
    else with_ipc_queue (ipc_queue r ++ [pkt]) r) = delivered pkt r) as E
    by (unfold delivered, woken; destruct (status r =? _); [done|by destruct r]).
  cbn [status with_ipc_queue]. rewrite E. unfold put_task.
  erewrite st_bind_ok by (apply set_slot_ok, zset_ok; by eapply zget_Some). reflexivity.
Qed.

Lemma read_single_ok s w w' fuel msgs to r pkt b :
  zget (task_table s) (current_task s) = Some (Task r) -> ipc_queue r = [pkt] -> payload pkt = Some b ->
  u32 (to + plength pkt) < memory_size r -> mem_write (u32 (to + base r)) b w = Some (tt, w') ->
  exists l, ipc_read_packet fuel msgs to (set_sched s w) =
      Some (Ret (sender pkt), set_sched (with_table l s) w') /\
    zget l (current_task s) = Some (Task (with_ipc_queue [] r)).
Proof.
  intros Ht Hq Hb Hfit Hwrite. set (ra := with_ipc_queue [free_payload pkt] r). set (rb := with_ipc_queue [] ra).
  pose proof (zset_ok (task_table s) (current_task s) (Task ra) ltac:(by eapply zget_Some)) as Ea.
  set (la := <[_:=_]> (task_table s)) in Ea.
  assert (zget la (current_task s) = Some (Task ra)) as Hla
    by (rewrite (zget_zset _ _ _ _ _ Ea); by rewrite decide_True).
  pose proof (zset_ok la (current_task s) (Task rb) ltac:(by eapply zget_Some)) as Eb.
  eexists. split; [|rewrite (zget_zset _ _ _ _ _ Eb), decide_True by done; by destruct r].
  unfold ipc_read_packet. erewrite st_bind_ok by (by apply this_task_ok). rewrite Hq.
  rewrite (proj2 (Z.leb_gt _ _)) by done. rewrite Hb. erewrite st_bind_ok by done.
  erewrite st_bind_ok by (by apply frame_ok; [apply mem_write_frame|]).
  erewrite st_bind_ok by (by apply put_this_ok). cbn [List.length].
  erewrite st_bind_ok by done. erewrite st_bind_ok by (by apply this_task_ok).
  change (take 0 (ipc_queue ra)) with (@nil ipc_packet_t). fold rb.
  erewrite st_bind_ok by (by apply put_this_ok). reflexivity.
Qed.

(** With a second packet the queue of the sender is shifted; it is empty. *)
Lemma read_second_fails s w w' fuel msgs to r t p1 p2 b :
  zget (task_table s) (current_task s) = Some (Task r) -> ipc_queue r = [p1; p2] -> payload p1 = Some b ->
  sender p1 <> current_task s -> zget (task_table s) (sender p1) = Some (Task t) -> ipc_queue t = [] ->
  u32 (to + plength p1) < memory_size r -> mem_write (u32 (to + base r)) b w = Some (tt, w') ->
  ipc_read_packet fuel msgs to (set_sched s w) = None.
Proof.
  intros Ht Hq Hb Hne Hs Hqt Hfit Hwrite. set (ra := with_ipc_queue [free_payload p1; p2] r).
  pose proof (zset_ok (task_table s) (current_task s) (Task ra) ltac:(by eapply zget_Some)) as Ea.
  set (la := <[_:=_]> (task_table s)) in Ea.
  assert (zget la (sender p1) = Some (Task t)) as Hc
    by (rewrite (zget_zset _ _ _ _ _ Ea), decide_False by done; exact Hs).
  unfold ipc_read_packet. erewrite st_bind_ok by (by apply this_task_ok). rewrite Hq.
  rewrite (proj2 (Z.leb_gt _ _)) by done. rewrite Hb. erewrite st_bind_ok by done.
  erewrite st_bind_ok by (by apply frame_ok; [apply mem_write_frame|]).
  erewrite st_bind_ok by (by apply put_this_ok). cbn [List.length].
  unfold st_bind at 1. erewrite st_bind_ok by (by apply get_task_ok).
  rewrite Hqt. done.
Qed.

(** ** Lemmas: segments *)

(** The descriptor of a first segment. *)
Definition first_segment (sbase page_count code : Z) (d : dt_entry) : dt_entry :=
  let e := with_segment sbase (u32 (page_count - 1)) page_count d in
  MkEntry (limit_low e) (base_low e) (base_mid e) (if code =? 0 then 242 else 250) 192 (base_high e).

Lemma first_segment_spec sbase page_count code d : 0 <= sbase < 2 ^ 32 ->
  let e := first_segment sbase page_count code d in
  seg_base e = sbase /\ seg_limit e = u32 (page_count - 1) mod 2 ^ 16 /\ seg_ring e = 3.
Proof.
  intros Hb e. destruct (with_segment_spec sbase (u32 (page_count - 1)) page_count d Hb) as (S1 & _).
  split; [exact S1|]. split.
  - unfold seg_limit, e, first_segment, with_segment. cbn [limit_low granularity].
    change 0xffff with (Z.ones 16). rewrite land_low by lia. change (192 mod 16) with 0. lia.
  - unfold seg_ring, e. cbn [first_segment access]. by destruct (code =? 0).
Qed.

(** [syscall_new_segment] once its checks have passed. *)
Lemma new_segment_body s w w' t sbase page_count code p :
  zget (task_table s) (current_task s) = Some (Task t) ->
  u32 (sbase + page_count * PAGE_SIZE) < memory_size t -> frame (krealloc (ldt_ptr t) (ldt_entries t + 8)) ->
  krealloc (ldt_ptr t) (ldt_entries t + 8) w = Some (p, w') -> p <> 0 ->
  syscall_new_segment sbase page_count code (set_sched s w) =
    (let! l := st_lift (set_segment (grow_ldt (ldt t) (ldt_entries t + 8)) (ldt_entries t)
                          (u32 (sbase + base t)) page_count) in
     let! e := st_lift (zget l (ldt_entries t)) in
     let! l := st_lift (zset l (ldt_entries t) (MkEntry (limit_low e) (base_low e) (base_mid e)
        (if code =? 0 then 242 else 250) 192 (base_high e))) in
     put_this (with_ldt l (ldt_entries t + 1) p t) ;;
     let! s := st_get in
     let! g := st_lift (load_ldt (gdt s) p (ldt_entries t + 1)) in
     st_put (with_gdt g s) ;;
     st_ret (u16 (Z.lor (Z.lor (ldt_entries t * ENTRY_BYTES) 4) 3))) (set_sched s w').
Proof.
  intros Ht Hm Hfr Hk Hp. unfold syscall_new_segment. erewrite st_bind_ok by (by apply this_task_ok).
  rewrite (proj2 (Z.leb_gt _ _)) by done.
  change (ldt_entries t + 1 * ENTRY_BYTES) with (ldt_entries t + 8).
  erewrite st_bind_ok by (by apply frame_ok). by rewrite (proj2 (Z.eqb_neq _ _)).
Qed.

Lemma first_segment_ok s w w' t sbase page_count code p :
  zget (task_table s) (current_task s) = Some (Task t) -> zlen (gdt s) = GDT_ENTRIES -> ldt_entries t = 0 ->
  u32 (sbase + page_count * PAGE_SIZE) < memory_size t -> frame (krealloc (ldt_ptr t) (ldt_entries t + 8)) ->
  krealloc (ldt_ptr t) (ldt_entries t + 8) w = Some (p, w') -> p <> 0 -> exists s' d,
  syscall_new_segment sbase page_count code (set_sched s w) = Some (7, set_sched s' w') /\
  zget (task_table s') (current_task s') =
    Some (Task (with_ldt [first_segment (u32 (sbase + base t)) page_count code d] 1 p t)).
Proof.
  intros Ht Hg He Hm Hfr Hk Hp. rewrite (new_segment_body s w w' t sbase page_count code p) by done. rewrite He.
  assert (exists d, grow_ldt (ldt t) (0 + 8) = [d]) as [d ->].
  { change (grow_ldt (ldt t) (0 + 8)) with (take 1 (ldt t ++ [blank 0 0])). destruct (ldt t); by eexists. }
  set (e := first_segment (u32 (sbase + base t)) page_count code d).
  pose proof (zget_Some _ _ _ Ht) as Hr.
  pose proof (zset_ok (task_table s) (current_task s) (Task (with_ldt [e] 1 p t)) Hr) as El.
  set (lt := <[_:=_]> (task_table s)) in El.
  destruct (zget_is_Some (gdt s) 10) as [g0 Eg0]; [rewrite Hg; split; [discriminate|reflexivity]|].
  pose proof (zset_ok (gdt s) 10 (with_segment p (u32 7) (u32 7) g0)
    ltac:(rewrite Hg; split; [discriminate|reflexivity])) as Eg.
  eexists (with_gdt _ (with_table lt s)), d. split.
  - erewrite st_bind_ok by reflexivity. erewrite st_bind_ok by reflexivity.
    erewrite st_bind_ok by reflexivity. erewrite st_bind_ok by (apply put_this_ok; exact El).
    erewrite st_bind_ok by (unfold st_get; by rewrite get_set). cbn [gdt with_table].
    erewrite st_bind_ok.
    2:{ unfold st_lift, load_ldt. rewrite Eg0. cbn [mbind option_bind].
        change (if 0 + 1 =? 0 then 0 else u32 ((0 + 1) * ENTRY_BYTES - 1)) with (u32 7). by rewrite Eg. }
    unfold st_put, st_bind, st_ret. rewrite set_set. reflexivity.
  - cbn [task_table with_gdt with_table current_task]. rewrite (zget_zset _ _ _ _ _ El). by rewrite decide_True.
Qed.

(** [reload_segments] describes the task's memory in both of its segments. *)
Lemma reload_ok s t w : zget (task_table s) (current_task s) = Some (Task t) -> zlen (gdt s) = GDT_ENTRIES ->
  0 <= base t < 2 ^ 32 -> exists g, reload_segments (set_sched s w) = Some (tt, set_sched (with_gdt g s) w) /\
  forall i, i = 5 \/ i = 6 -> exists e, zget g i = Some e /\ seg_base e = base t /\
    seg_limit e = u32 (pages t - 1) mod 2 ^ 16 + pages t / 2 ^ 16 mod 16 * 2 ^ 16.
Proof.
  intros Ht Hg Hb. unfold GDT_ENTRIES in Hg.
  destruct (zget_is_Some (gdt s) 5) as [e1 E1]; [lia|].
  pose proof (zset_ok (gdt s) 5 (with_segment (base t) (u32 (pages t - 1)) (pages t) e1) ltac:(lia)) as S1.
  set (g1 := <[Z.to_nat 5:=_]> (gdt s)) in S1. assert (zlen g1 = 11) as L1 by (by rewrite (zset_len _ _ _ _ S1)).
  destruct (zget_is_Some g1 6) as [e2 E2]; [lia|].
  pose proof (zset_ok g1 6 (with_segment (base t) (u32 (pages t - 1)) (pages t) e2) ltac:(lia)) as S2.
  set (g2 := <[Z.to_nat 6:=_]> g1) in S2. assert (zlen g2 = 11) as L2 by (by rewrite (zset_len _ _ _ _ S2)).
  destruct (zget_is_Some g2 10) as [e3 E3]; [lia|].
  set (lim := if ldt_entries t =? 0 then 0 else u32 (ldt_entries t * ENTRY_BYTES - 1)).
  pose proof (zset_ok g2 10 (with_segment (ldt_ptr t) lim lim e3) ltac:(lia)) as S3. set (g3 := <[Z.to_nat 10:=_]> g2) in S3.
  exists g3. split.
  - unfold reload_segments. erewrite st_bind_ok by (by apply this_task_ok).
    erewrite st_bind_ok by (unfold st_get; by rewrite get_set). unfold set_segment. rewrite E1. cbn [mbind option_bind].
    rewrite S1. erewrite st_bind_ok by done. rewrite E2. cbn [mbind option_bind]. rewrite S2. erewrite st_bind_ok by done.
    unfold load_ldt. rewrite E3. cbn [mbind option_bind]. fold lim. rewrite S3. erewrite st_bind_ok by done.
    unfold st_put. by rewrite set_set.
  - intros i Hi. rewrite (zget_zset _ _ i _ _ S3), (zget_zset _ _ i _ _ S2), (zget_zset _ _ i _ _ S1).
    destruct Hi as [-> | ->]; repeat (case_decide; [try lia|]); try lia; eexists; (split; [reflexivity|]);
      by destruct (with_segment_spec (base t) (u32 (pages t - 1)) (pages t) e1 Hb) as (? & ? & _),
        (with_segment_spec (base t) (u32 (pages t - 1)) (pages t) e2 Hb) as (? & ? & _).
Qed.

End Packets.

(** * Properties *)

(** C21: A packet arrives: sending [len] bytes to another task queues them for it with
    the sender's number and wakes it when it waits for packets; when it then reads its
    only packet, exactly those bytes are stored at its address, the sender's number is
    returned and its queue is empty.  With a second packet waiting, from a sender
    whose own queue is empty, reading the first leaves the bounds of the sender's
    queue, which the code shifts instead of the reader's. *)
Theorem ipc_roundtrip {W : Type} {K : Kernel W} {L : KernelLaws K}
    (s : sched) (w w1 w2 w3 : W) (pid pl len p to : Z) (bytes : list Z) (t r : task_t) (fuel : nat)
    (msgs : list Z * list Z * list Z) (rmsgs : list Z * list Z) :
  let c := current_task s in
  zget (task_table s) c = Some (Task t) -> zget (task_table s) pid = Some (Task r) -> pid <> c ->
  u32 (pl + len) < memory_size t -> kalloc len w = Some (p, w1) -> p <> 0 ->
  mem_read (u32 (pl + base t)) len w1 = Some (bytes, w2) ->
  u32 (to + len) < memory_size r -> mem_write (u32 (to + base r)) bytes w2 = Some (tt, w3) ->
  let pkt := MkPacket c len (Some bytes) in
  let st' := if status r =? KRN_STAT_IPCWAIT_TASK then KRN_STAT_ACTIVE_TASK else status r in
  exists l, ipc_send_packet fuel msgs pid pl len (set_sched s w) = Some (Ret tt, set_sched (with_table l s) w2) /\
    zget l pid = Some (Task (with_status st' (with_ipc_queue (ipc_queue r ++ [pkt]) r))) /\
    (forall i, i <> pid -> zget l i = zget (task_table s) i) /\
    (ipc_queue r = [] -> exists l', ipc_read_packet fuel rmsgs to (set_sched (with_current pid (with_table l s)) w2) =
        Some (Ret c, set_sched (with_current pid (with_table l' s)) w3) /\
      zget l' pid = Some (Task (with_status st' (with_ipc_queue [] r)))) /\
    (forall b, ipc_queue r = [MkPacket c len (Some b)] -> ipc_queue t = [] ->
      mem_write (u32 (to + base r)) b w2 = Some (tt, w3) ->
      ipc_read_packet fuel rmsgs to (set_sched (with_current pid (with_table l s)) w2) = None).
Proof.
  intros c Ht Hr Hpc Hfit Hk Hp Hread Hfit' Hwrite pkt st'.
  set (r' := delivered pkt r). set (l := <[Z.to_nat pid := Task r']> (task_table s)).
  assert (zset (task_table s) pid (Task r') = Some l) as El by (apply zset_ok; by eapply zget_Some).
  assert (forall i, zget l i = if decide (pid = i) then Some (Task r') else zget (task_table s) i) as Hl
    by (intros i; by apply zget_zset).
  assert (zget l pid = Some (Task r')) as Hlp by (by rewrite Hl, decide_True).
  exists l. split; [by eapply send_ok|]. split; [exact Hlp|].
  split; [intros i Hi; rewrite Hl; by rewrite decide_False by congruence|].
  set (s1 := with_current pid (with_table l s)). split.
  - intros Hq. assert (ipc_queue r' = [pkt]) as Hq' by (unfold r', delivered; cbn; by rewrite Hq).
    destruct (read_single_ok s1 w2 w3 fuel rmsgs to r' pkt bytes Hlp Hq' eq_refl Hfit' Hwrite) as (l' & E & Hz).
    exists l'. split; [exact E|]. cbn in Hz. rewrite Hz. by destruct r.
  - intros b Hq Hqt Hwb.
    assert (ipc_queue r' = [MkPacket c len (Some b); pkt]) as Hq' by (unfold r', delivered; cbn; by rewrite Hq).
    apply (read_second_fails s1 w2 w3 fuel rmsgs to r' t (MkPacket c len (Some b)) pkt b); try done.
    cbn. by rewrite Hl, decide_False by done.
Qed.

(** C23: The test of [ipc_read_packet] does not keep the packet in the memory of the
    task: the sum of the address and the length wraps around 2^32, so a task that gives
    the address -[d] has the kernel store the first [d] bytes of the packet below its
    memory, and the rest at the start of it. *)
Theorem read_packet_escapes {W : Type} {K : Kernel W} {L : KernelLaws K}
    (s : sched) (w w' : W) (r : task_t) (pkt : ipc_packet_t) (b : list Z) (d : Z) (fuel : nat) (msgs : list Z * list Z) :
  zget (task_table s) (current_task s) = Some (Task r) -> ipc_queue r = [pkt] -> payload pkt = Some b ->
  0 < d <= plength pkt -> plength pkt - d < memory_size r -> d <= base r < 2 ^ 32 ->
  mem_write (base r - d) b w = Some (tt, w') ->
  exists l, ipc_read_packet fuel msgs (2 ^ 32 - d) (set_sched s w) =
      Some (Ret (sender pkt), set_sched (with_table l s) w') /\
    zget l (current_task s) = Some (Task (with_ipc_queue [] r)).
Proof.
  intros Ht Hq Hb Hd Hfit Hbase Hw. pose proof (u32_range (pages r * PAGE_SIZE)). unfold memory_size in *.
  assert (u32 (2 ^ 32 - d + plength pkt) = plength pkt - d) as E1.
  { unfold u32. replace (2 ^ 32 - d + plength pkt) with (plength pkt - d + 1 * 2 ^ 32) by lia.
    rewrite Z.mod_add by lia. apply Z.mod_small. lia. }
  assert (u32 (2 ^ 32 - d + base r) = base r - d) as E2.
  { unfold u32. replace (2 ^ 32 - d + base r) with (base r - d + 1 * 2 ^ 32) by lia.
    rewrite Z.mod_add by lia. apply Z.mod_small. lia. }
  apply (read_single_ok s w w' fuel msgs (2 ^ 32 - d) r pkt b); [done..|by rewrite E1|by rewrite E2].
Qed.

(** C22: A task can get all the memory above its own with [resize_heap]: the size it asks
    [krealloc] for wraps around 2^32, so for a heap of 2^32 - [heap_base] bytes the
    task's block shrinks to 0 bytes, the call reports success, the task has 2^20 pages
    and its two segments cover 2^16 pages from the block on. *)
Theorem resize_heap_escapes {W : Type} {K : Kernel W} {L : KernelLaws K} (s : sched) (w w' : W) (t : task_t) (p : Z) :
  zget (task_table s) (current_task s) = Some (Task t) -> zlen (gdt s) = GDT_ENTRIES ->
  0 < heap_base t < 2 ^ 32 -> heap_base t mod PAGE_SIZE = 0 -> frame (krealloc (base t) 0) ->
  krealloc (base t) 0 w = Some (p, w') -> 0 < p < 2 ^ 32 ->
  exists s' t', resize_heap (2 ^ 32 - heap_base t) (set_sched s w) = Some (0, set_sched s' w') /\
    zget (task_table s') (current_task s') = Some (Task t') /\ base t' = p /\ pages t' = 2 ^ 20 /\
    forall i, i = 5 \/ i = 6 -> exists e, zget (gdt s') i = Some e /\ seg_base e = p /\ seg_limit e = 2 ^ 16 - 1.
Proof.
  intros Ht Hg Hb Hal Hfr Hk Hp. set (k := heap_base t / PAGE_SIZE).
  assert (heap_base t = PAGE_SIZE * k) as Ek by (apply Z_div_exact_full_2; [done|exact Hal]).
  assert (2 ^ 32 - heap_base t = (2 ^ 20 - k) * PAGE_SIZE) as Es by (rewrite Ek; unfold PAGE_SIZE; lia).
  assert ((2 ^ 32 - heap_base t) / PAGE_SIZE = 2 ^ 20 - k) as Ed by (rewrite Es; by apply Z.div_mul).
  assert ((2 ^ 32 - heap_base t) mod PAGE_SIZE = 0) as Em by (rewrite Es; by apply Z.mod_mul).
  set (t' := with_heap (heap_base t) (2 ^ 32 - heap_base t) (with_base p (2 ^ 20) t)).
  pose proof (zset_ok (task_table s) (current_task s) (Task t') ltac:(by eapply zget_Some)) as El.
  set (l := <[_:=_]> (task_table s)) in El.
  assert (zget l (current_task s) = Some (Task t')) as Hl by (rewrite (zget_zset _ _ _ _ _ El); by rewrite decide_True).
  destruct (reload_ok (with_table l s) t' w' Hl Hg ltac:(cbn; lia)) as (g & Er & Hseg).
  exists (with_gdt g (with_table l s)), t'. split; [|split; [exact Hl|]].
  - unfold resize_heap. erewrite st_bind_ok by (by apply this_task_ok). rewrite Em, Ed, Z.eqb_refl, Z.add_0_r. fold k.
    replace (heap_base t + (2 ^ 20 - k) * PAGE_SIZE) with (2 ^ 32) by lia. change (u32 (2 ^ 32)) with 0.
    erewrite st_bind_ok by (by apply frame_ok). rewrite (proj2 (Z.eqb_neq _ _)) by lia.
    replace (k + (2 ^ 20 - k)) with (2 ^ 20) by lia. change (u32 (2 ^ 20)) with (2 ^ 20). fold t'.
    erewrite st_bind_ok by (by apply put_this_ok). by erewrite st_bind_ok by exact Er.
  - split; [done|]. split; [done|]. intros i Hi. destruct (Hseg i Hi) as (e & He & Hbe & Hle). by exists e.
Qed.

(** A task can get a segment outside of its memory: the test of
    [syscall_new_segment] wraps around 2^32, so asking for 0xfffff pages at offset 4096
    succeeds for every task, and gives it a descriptor of ring 3 for 65535 pages from
    there on, whatever memory it has.  A second segment is stored past the block of
    the table, which grows by one byte and not by one entry. *)
Theorem new_segment_escapes {W : Type} {K : Kernel W} {L : KernelLaws K}
    (s : sched) (w w' : W) (t : task_t) (code p : Z) :
  zget (task_table s) (current_task s) = Some (Task t) -> 0 < memory_size t -> zlen (gdt s) = GDT_ENTRIES ->
  0 <= base t < 2 ^ 31 -> frame (krealloc (ldt_ptr t) (ldt_entries t + 8)) ->
  krealloc (ldt_ptr t) (ldt_entries t + 8) w = Some (p, w') -> p <> 0 ->
  (ldt_entries t = 0 -> exists s' t' e,
     syscall_new_segment 4096 0xfffff code (set_sched s w) = Some (7, set_sched s' w') /\
     zget (task_table s') (current_task s') = Some (Task t') /\ pages t' = pages t /\
     zget (ldt t') 0 = Some e /\ seg_base e = base t + 4096 /\ seg_limit e = 65534 /\ seg_ring e = 3) /\
  (ldt_entries t = 1 -> syscall_new_segment 4096 0xfffff code (set_sched s w) = None).
Proof.
  intros Ht Hm Hg Hb Hfr Hk Hp.
  assert (u32 (4096 + 0xfffff * PAGE_SIZE) < memory_size t) as Hchk by exact Hm. split; intros He.
  - destruct (first_segment_ok s w w' t 4096 0xfffff code p Ht Hg He Hchk Hfr Hk Hp) as (s' & d & E & Hz).
    destruct (first_segment_spec (u32 (4096 + base t)) 0xfffff code d (u32_range _)) as (S1 & S2 & S3).
    eexists s', _, _. split; [exact E|]. split; [exact Hz|]. split; [done|]. split; [reflexivity|].
    split; [|by split]. rewrite S1, (Z.add_comm (base t)). apply u32_small. lia.
  - rewrite (new_segment_body s w w' t 4096 0xfffff code p) by done. rewrite He.
    assert (grow_ldt (ldt t) (1 + 8) = take 1 (ldt t ++ [blank 0 0])) as -> by reflexivity.
    unfold st_bind at 1, st_lift at 1, set_segment.
    rewrite (proj2 (zget_None _ _)); [done|]. unfold zlen. rewrite length_take. lia.
Qed.

(** * Witnesses *)

Definition user_task : task_t :=
  with_base 0 16 (with_status KRN_STAT_IPCWAIT_TASK kernel_task).
Definition user_sched : sched := MkSched [Task user_task; Task user_task; NoTask] 0 0 (load_gdt 0 104).
Definition user_demo : demo := MkDemo user_sched [72; 105; 0; 0] 4096.

Lemma ipc_roundtrip_witness : exists l l',
  ipc_send_packet 0 ([], [], []) 1 0 2 (set_sched user_sched user_demo) =
    Some (Ret tt, set_sched (with_table l user_sched) (MkDemo user_sched [72; 105; 0; 0] 4098)) /\
  ipc_read_packet 0 ([], []) 2 (set_sched (with_current 1 (with_table l user_sched))
      (MkDemo user_sched [72; 105; 0; 0] 4098)) =
    Some (Ret 0, set_sched (with_current 1 (with_table l' user_sched)) (MkDemo user_sched [72; 105; 72; 105] 4098)).
Proof.
  destruct (ipc_roundtrip user_sched user_demo (MkDemo user_sched [72; 105; 0; 0] 4098)
    (MkDemo user_sched [72; 105; 0; 0] 4098) (MkDemo user_sched [72; 105; 72; 105] 4098)
    1 0 2 4096 2 [72; 105] user_task user_task 0 ([], [], []) ([], []))
    as (l & Hs & _ & _ & Hr & _); try reflexivity; try discriminate.
  destruct (Hr eq_refl) as (l' & Hr' & _). exists l, l'. split; [exact Hs|exact Hr'].
Defined.

(** A packet of three bytes, stored from the byte before the task's memory on. *)
Definition packet_task : task_t := with_ipc_queue [MkPacket 2 3 (Some [1; 2; 3])] (with_base 2 16 user_task).
Definition packet_sched : sched := with_table [Task packet_task] user_sched.

Lemma read_packet_escapes_witness : exists l,
  ipc_read_packet 0 ([], []) 0xffffffff (set_sched packet_sched user_demo) =
    Some (Ret 2, set_sched (with_table l packet_sched) (MkDemo user_sched [72; 1; 2; 3] 4096)) /\
  zget l 0 = Some (Task (with_ipc_queue [] packet_task)).
Proof.
  apply (read_packet_escapes packet_sched user_demo (MkDemo user_sched [72; 1; 2; 3] 4096) packet_task
    (MkPacket 2 3 (Some [1; 2; 3])) [1; 2; 3] 1 0 ([], [])); try reflexivity.
  - split; [reflexivity|discriminate].
  - split; [discriminate|reflexivity].
Defined.

(** The demo task with a heap after its 16 pages. *)
Definition heap_sched : sched := with_table [Task (with_heap 0x10000 0 user_task)] user_sched.

Lemma resize_heap_escapes_witness : exists s' t',
  resize_heap 0xffff0000 (set_sched heap_sched user_demo) =
    Some (0, set_sched s' (MkDemo user_sched [72; 105; 0; 0] 4096)) /\
  zget (task_table s') (current_task s') = Some (Task t') /\ base t' = 4096 /\ pages t' = 0x100000 /\
  exists e, zget (gdt s') 6 = Some e /\ seg_base e = 4096 /\ seg_limit e = 0xffff.
Proof.
  destruct (resize_heap_escapes heap_sched user_demo (MkDemo user_sched [72; 105; 0; 0] 4096)
    (with_heap 0x10000 0 user_task) 4096) as (s' & t' & E1 & E2 & E3 & E4 & H).
  - reflexivity.
  - reflexivity.
  - split; reflexivity.
  - reflexivity.
  - intros s w. reflexivity.
  - reflexivity.
  - split; reflexivity.
  - exists s', t'. split; [exact E1|]. split; [exact E2|]. split; [exact E3|]. split; [exact E4|].
    exact (H 6 (or_intror eq_refl)).
Defined.

Lemma new_segment_escapes_witness : exists s' t' e,
  syscall_new_segment 4096 0xfffff 0 (set_sched user_sched user_demo) =
    Some (7, set_sched s' (MkDemo user_sched [72; 105; 0; 0] 4104)) /\
  zget (task_table s') (current_task s') = Some (Task t') /\ pages t' = 16 /\
  zget (ldt t') 0 = Some e /\ seg_limit e = 65534.
Proof.
  destruct (new_segment_escapes user_sched user_demo (MkDemo user_sched [72; 105; 0; 0] 4104) user_task 0 4096)
    as [H _].
  - reflexivity.
  - reflexivity.
  - reflexivity.
  - split; [discriminate|reflexivity].
  - intros s w. reflexivity.
  - reflexivity.
  - discriminate.
  - destruct (H eq_refl) as (s' & t' & e & E1 & E2 & E3 & E4 & _ & E5 & _).
    exists s', t', e. split; [exact E1|]. split; [exact E2|]. split; [exact E3|]. split; [exact E4|exact E5].
Defined.

End Syscalls.
