(* ===== verification/VfsPath.v ===== *)
(** * Paths of the virtual file system: [kernel/src/vfs.c]

    [vfs_get_absolute_path] writes the absolute form of a path into a buffer of
    2048 bytes on the caller's stack, which it does not clear first; the buffer is
    an argument here.  [vfs_translate_mnt] finds the mount point a path is under,
    [vfs_translate_fs] the file system of a mount point.

    The specification reads a path as a list of components: empty ones and [.] are
    skipped, [..] removes the last one kept. *)

From S2P Require Import Prelude CString.
Local Open Scope Z_scope.

Module VfsPath.
Import CString.

(** ** [vfs_get_absolute_path] *)

(** [while ( *path_ptr != '/') path_ptr--;] from index [pos] of the buffer. *)
Fixpoint back (fuel : nat) (pos : Z) (buf : list Z) : option Z :=
  match fuel with
  | O => None
  | S fuel => c ← zget buf pos; if c =? 47 then Some pos else back fuel (pos - 1) buf
  end.

(** Then [if (path_ptr == orig_ptr) path_ptr++;]. *)
Definition up (pos : Z) (buf : list Z) : option Z :=
  p ← back (S (Z.to_nat pos)) pos buf; Some (if p =? 0 then p + 1 else p).

(** The label [term]. *)
Definition term (pos : Z) (buf : list Z) : option (list Z) :=
  c ← zget buf (pos - 1);
  zset buf (if (c =? 47) && negb (pos - 1 =? 0) then pos - 1 else pos) 0.

(** The separator before the next component. *)
Definition separator (pos : Z) (buf : list Z) : option (Z * list Z) :=
  if pos - 1 =? 0 then Some (pos, buf)
  else c ← zget buf (pos - 1);
       if c =? 47 then Some (pos, buf) else buf ← zset buf pos 47; Some (pos + 1, buf).

(** The loop: [first] is its entry at the label [first_run]; the tests are those of
    the code with [kstrncmp], which a path ends with its terminator. *)
Fixpoint scan (fuel : nat) (first : bool) (path : list Z) (pos : Z) (buf : list Z) : option (list Z) :=
  match fuel with
  | O => None
  | S fuel =>
      if first then
        if decide (take 1 path = [47]) then scan fuel false path pos buf
        else if decide (path = [46] \/ path = [46; 47]) then term pos buf
        else if decide (path = [46; 46] \/ path = [46; 46; 47]) then pos ← up pos buf; term pos buf
        else if decide (take 3 path = [46; 46; 47]) then
          pos ← up pos buf; buf ← zset buf pos 0; scan fuel false (drop 2 path) pos buf
        else if decide (take 2 path = [46; 47]) then scan fuel false (drop 1 path) pos buf
        else r ← separator pos buf; scan fuel false path r.1 r.2
      else
        match path with
        | [] => term pos buf
        | c :: p => if c =? 47 then scan fuel true p pos buf
                    else buf ← zset buf pos c; scan fuel false p (pos + 1) buf
        end
  end.

(** Two turns of the loop per character of the path are enough. *)
Definition path_fuel (path : list Z) : nat := S (S (2 * length path)).

(** [pwd] is that of the current task; the result is the buffer. *)
Definition vfs_get_absolute_path (pwd path buf : list Z) : option (list Z) :=
  match path with
  | [] => kstrcpy buf (pwd ++ [0])
  | c :: p => if c =? 47 then buf ← zset buf 0 47; scan (path_fuel p) true p 1 buf
              else buf ← kstrcpy buf (pwd ++ [0]); pos ← kstrlen buf; scan (path_fuel path) true path pos buf
  end.

(** ** Mount points *)

Record mountpoint_t := MkMountpoint {
  mountpoint : list Z;
  mdevice : list Z;
  filesystem : list Z
}.

Definition FAILURE : Z := -2.

(** The test of the loop of [vfs_translate_mnt], for a mount point and the longest
    so far. *)
Definition better (path : list Z) (m : mountpoint_t) (guess_size : Z) : bool :=
  let mountpoint_len := zlen (mountpoint m) in
  bool_decide (take (length (mountpoint m)) path = mountpoint m) &&
  ((match zget path mountpoint_len with None => true | Some c => c =? 47 end
    || bool_decide (mountpoint m = [47])) && (guess_size <? mountpoint_len)).

Fixpoint translate_from (path : list Z) (i guess guess_size : Z) (l : list mountpoint_t) : Z * Z :=
  match l with
  | [] => (guess, guess_size)
  | m :: l => if better path m guess_size then translate_from path (i + 1) i (zlen (mountpoint m)) l
              else translate_from path (i + 1) guess guess_size l
  end.

(** The mount point and the local path.  [if ( **local_path == '/') *local_path++;]
    increments the pointer [local_path], not the path it points to, so the local
    path keeps its leading [/]. *)
Definition vfs_translate_mnt (path : list Z) (l : list mountpoint_t) : Z * list Z :=
  let '(guess, guess_size) := translate_from path 0 FAILURE 0 l in
  (guess, drop (Z.to_nat guess_size) path).

(** The loop of [vfs_translate_fs] over the names of the file systems. *)
Fixpoint fs_from (fsname : list Z) (i : Z) (names : list (list Z)) : Z :=
  match names with
  | [] => FAILURE
  | n :: names => if decide (n = fsname) then i else fs_from fsname (i + 1) names
  end.
Definition vfs_translate_fs (names : list (list Z)) (mnt : Z) (l : list mountpoint_t) : option Z :=
  match names with
  | [] => Some FAILURE
  | _ => m ← zget l mnt; Some (fs_from (filesystem m) 0 names)
  end.

(** ** Specification: normal paths

    A normal path is a stack of components, the last one first. *)

Definition push (st : list (list Z)) (c : list Z) : list (list Z) :=
  if decide (c = [] \/ c = [46]) then st else if decide (c = [46; 46]) then tail st else c :: st.

Fixpoint body (st : list (list Z)) : list Z := match st with [] => [] | c :: st => body st ++ 47 :: c end.
Definition render (st : list (list Z)) : list Z := match st with [] => [47] | _ => body st end.

(** The components of a path, the first one begun with [cur]. *)
Fixpoint comps (cur path : list Z) : list (list Z) :=
  match path with
  | [] => [cur]
  | c :: p => if c =? 47 then cur :: comps [] p else comps (cur ++ [c]) p
  end.
Definition normalise (st : list (list Z)) (path : list Z) : list (list Z) := foldl push st (comps [] path).

(** The components of a normal path, and the texts among them. *)
Definition comp_ok (c : list Z) : Prop := c <> [] /\ Forall (fun x => x <> 0 /\ x <> 47) c.
Definition stack_ok (st : list (list Z)) : Prop := Forall comp_ok st.

(** ** Lemmas: the buffer *)

(** The buffer starts with [s] and has no [/] after it. *)
Definition holds (s buf : list Z) : Prop := exists rest, buf = s ++ rest /\ Forall (fun x => x <> 47) rest.

Lemma holds_len s buf : holds s buf -> zlen s <= zlen buf.
Proof. intros (r & -> & _). rewrite zlen_app. pose proof (zlen_nonneg r). lia. Qed.

Lemma zset_app (s : list Z) x r v : zset (s ++ x :: r) (zlen s) v = Some (s ++ v :: r).
Proof.
  rewrite zset_ok by (rewrite zlen_app, zlen_cons; pose proof (zlen_nonneg s); pose proof (zlen_nonneg r); lia).
  f_equal. unfold zlen. rewrite Nat2Z.id, insert_app_r_alt by lia. by rewrite Nat.sub_diag.
Qed.

(** Writing a byte after the text. *)
Lemma holds_put s buf v : holds s buf -> zlen s < zlen buf -> exists r,
  buf = s ++ r /\ zset buf (zlen s) v = Some (s ++ v :: tail r) /\ Forall (fun x => x <> 47) (tail r).
Proof.
  intros (r & -> & Hr) Hl. rewrite zlen_app in Hl. destruct r as [|x r].
  - rewrite zlen_nil in Hl. lia.
  - exists (x :: r). split; [done|]. rewrite zset_app. split; [done|]. by inversion Hr.
Qed.

Lemma holds_snoc s buf v : holds s buf -> zlen s < zlen buf -> exists buf',
  zset buf (zlen s) v = Some buf' /\ holds (s ++ [v]) buf' /\ zlen buf' = zlen buf.
Proof.
  intros H Hl. destruct (holds_put s buf v H Hl) as (r & Hb & E & Hr). exists (s ++ v :: tail r).
  split; [done|]. split; [exists (tail r); by rewrite <- app_assoc|]. by apply zset_len in E.
Qed.

(** Cutting the text at a [/]: the rest of the buffer has none when the part cut off
    has no other. *)
Lemma holds_cut s t buf v : holds (s ++ 47 :: t) buf -> Forall (fun x => x <> 47) t -> v <> 47 ->
  exists buf', zset buf (zlen s) v = Some buf' /\ holds s buf' /\ zlen buf' = zlen buf.
Proof.
  intros (r & -> & Hr) Ht Hv. rewrite <- app_assoc. cbn [app]. rewrite zset_app.
  eexists. split; [done|]. split; [|by rewrite !zlen_app, !zlen_cons].
  exists (v :: t ++ r). split; [done|]. constructor; [done|]. by apply Forall_app.
Qed.

Lemma zget_last (s r : list Z) x : zget ((s ++ [x]) ++ r) (zlen (s ++ [x]) - 1) = Some x.
Proof.
  rewrite <- app_assoc. replace (zlen (s ++ [x]) - 1) with (zlen s).
  - apply zget_middle.
  - rewrite zlen_app, zlen_cons, zlen_nil. lia.
Qed.

Lemma holds_last s x buf : holds (s ++ [x]) buf -> zget buf (zlen (s ++ [x]) - 1) = Some x.
Proof. intros (r & -> & _). apply zget_last. Qed.

(** Going back to the last [/]. *)
Lemma back_ok fuel k p buf : 0 <= k <= p -> zget buf k = Some 47 ->
  (forall i, k < i <= p -> exists c, zget buf i = Some c /\ c <> 47) -> (Z.to_nat (p - k) < fuel)%nat ->
  back fuel p buf = Some k.
Proof.
  revert p. induction fuel as [|fuel IH]; intros p Hp Hk Hi Hf; [lia|]. cbn [back].
  destruct (decide (k = p)) as [->|Hne].
  - rewrite Hk. done.
  - destruct (Hi p) as (c & Ec & Hc); [lia|]. rewrite Ec. cbn [mbind option_bind].
    rewrite (proj2 (Z.eqb_neq _ _) Hc). apply IH; [lia|done| |lia]. intros i Hr. apply Hi. lia.
Qed.

Lemma up_ok s t buf : holds (s ++ 47 :: t) buf -> Forall (fun x => x <> 47) t ->
  zlen (s ++ 47 :: t) < zlen buf ->
  up (zlen (s ++ 47 :: t)) buf = Some (if zlen s =? 0 then 1 else zlen s).
Proof.
  intros (r & -> & Hr) Ht Hl. pose proof (zlen_nonneg s). pose proof (zlen_nonneg t). unfold up.
  rewrite (back_ok _ (zlen s)).
  - cbn [mbind option_bind]. by destruct (Z.eqb_spec (zlen s) 0) as [->|].
  - rewrite zlen_app, zlen_cons. lia.
  - rewrite <- app_assoc. apply zget_middle.
  - intros i Hi. rewrite <- app_assoc. cbn [app]. rewrite zget_app, decide_False by lia.
    rewrite zget_cons, decide_False by lia.
    rewrite !zlen_app, zlen_cons in *.
    destruct (zget_is_Some (t ++ r) (i - zlen s - 1)) as [c Hc]; [rewrite zlen_app; lia|].
    exists c. split; [done|]. rewrite zget_lookup in Hc by lia.
    assert (Forall (fun x => x <> 47) (t ++ r)) as Htr by (by apply Forall_app).
    by apply (Forall_lookup_1 _ _ _ _ Htr Hc).
  - rewrite zlen_app, zlen_cons. lia.
Qed.

(** ** Lemmas: normal paths *)

Lemma comp_ok_slash c : comp_ok c -> Forall (fun x => x <> 47) c.
Proof. intros [_ H]. eapply Forall_impl; [exact H|]. by intros x []. Qed.

Lemma body_text st : stack_ok st -> text (body st).
Proof.
  induction 1 as [|c st [_ Hc] _ IH]; cbn [body]; [constructor|]. apply Forall_app. split; [done|].
  constructor; [done|]. eapply Forall_impl; [exact Hc|]. by intros x [].
Qed.
Lemma render_text st : stack_ok st -> text (render st).
Proof. destruct st; [by repeat constructor|apply body_text]. Qed.

Lemma render_cons c st : render (c :: st) = body st ++ 47 :: c.
Proof. done. Qed.
Lemma body_len st : st <> [] -> 0 < zlen (body st).
Proof.
  destruct st as [|c st]; [done|]. intros _. cbn [body]. rewrite zlen_app, zlen_cons.
  pose proof (zlen_nonneg (body st)). pose proof (zlen_nonneg c). lia.
Qed.
Lemma render_snoc st : stack_ok st -> st <> [] -> exists s x, render st = s ++ [x] /\ x <> 47 /\ s <> [].
Proof.
  destruct st as [|c st]; [done|]. intros Hs _. apply Forall_cons in Hs as [Hc _].
  pose proof (comp_ok_slash _ Hc) as Hx. destruct Hc as [Hc _].
  destruct (exists_last Hc) as (c' & x & ->). apply Forall_app in Hx as [_ Hx]. apply Forall_cons in Hx as [Hx _].
  exists (body st ++ 47 :: c'), x. split; [cbn [render body]; by rewrite <- app_assoc|]. split; [done|].
  by destruct (body st).
Qed.

Lemma term_render st buf r : stack_ok st -> buf = render st ++ r -> zlen (render st) < zlen buf ->
  exists buf', term (zlen (render st)) buf = Some buf' /\ cstr (render st) buf' /\ zlen buf' = zlen buf.
Proof.
  intros Hs -> Hl. destruct r as [|y r]; [rewrite app_nil_r in Hl; lia|].
  exists (render st ++ 0 :: r). split; [|split; [split; [by apply render_text|by eexists]|]].
  2:{ by rewrite !zlen_app, !zlen_cons. }
  unfold term. destruct (decide (st = [])) as [->|Hne].
  { change (render [] ++ y :: r) with (47 :: y :: r). rewrite zget_cons, decide_True by done.
    cbn [mbind option_bind]. exact (zset_app [47] y r 0). }
  destruct (render_snoc st Hs Hne) as (s & x & Er & Hx & _).
  assert (zget (render st ++ y :: r) (zlen (render st) - 1) = Some x) as -> by (rewrite Er; apply zget_last).
  cbn [mbind option_bind]. rewrite (proj2 (Z.eqb_neq _ _) Hx). cbn [andb]. apply zset_app.
Qed.

Lemma up_render st buf : stack_ok st -> holds (render st) buf -> zlen (render st) < zlen buf ->
  up (zlen (render st)) buf = Some (zlen (render (tail st))) /\
  exists buf', zset buf (zlen (render (tail st))) 0 = Some buf' /\
    holds (render (tail st)) buf' /\ zlen buf' = zlen buf.
Proof.
  intros Hs H Hl. destruct st as [|c st].
  - split; [by apply (up_ok [] [] buf H)|]. cbn [tail].
    destruct (holds_put _ _ 0 H Hl) as (r & Hb & E & Hr). exists (render [] ++ 0 :: tail r).
    split; [done|]. split; [by exists (0 :: tail r); split; [|constructor]|]. by apply zset_len in E.
  - apply Forall_cons in Hs as [Hc Hs]. cbn [tail]. rewrite render_cons in *.
    pose proof (comp_ok_slash _ Hc) as Hns. rewrite (up_ok _ _ _ H Hns Hl). destruct st as [|d st].
    + split; [done|]. cbn [body app render] in *. destruct H as (r & -> & Hr).
      destruct Hc as [Hc _]. destruct c as [|x c]; [done|]. apply Forall_cons in Hns as [_ Hns].
      exists (47 :: 0 :: c ++ r). split; [exact (zset_app [47] x (c ++ r) 0)|].
      split; [|cbn [app]; by rewrite !zlen_cons]. exists (0 :: c ++ r). split; [done|]. constructor; [done|].
      by apply Forall_app.
    + pose proof (body_len (d :: st) ltac:(done)). rewrite (proj2 (Z.eqb_neq _ _)) by lia.
      split; [done|]. by apply (holds_cut (body (d :: st)) c).
Qed.

(** ** Lemmas: the loop *)

Lemma comps_head cur path : exists c cs, comps cur path = c :: cs /\ exists t, c = cur ++ t.
Proof.
  revert cur. induction path as [|x p IH]; intros cur; cbn [comps].
  - exists cur, []. split; [done|]. exists []. by rewrite app_nil_r.
  - destruct (x =? 47); [exists cur; eexists; split; [done|]; exists []; by rewrite app_nil_r|].
    destruct (IH (cur ++ [x])) as (c & cs & -> & t & ->). exists ((cur ++ [x]) ++ t), cs.
    split; [done|]. exists (x :: t). by rewrite <- app_assoc.
Qed.

(** The component that is being copied is neither [.] nor [..], and is empty only at
    the end of the path. *)
Definition plain (cur path : list Z) : Prop :=
  let c := hd [] (comps cur path) in c <> [46] /\ c <> [46; 46] /\ (c = [] -> path = []).

(** What the loop computes, from the two places it can be in. *)
Definition ends_as (st : list (list Z)) (n : Z) (r : option (list Z)) : Prop :=
  exists buf', r = Some buf' /\ cstr (render st) buf' /\ zlen buf' = n.

Lemma separator_ok st buf : stack_ok st -> holds (render st) buf -> zlen (render st) < zlen buf ->
  exists buf', separator (zlen (render st)) buf = Some (zlen (body st ++ [47]), buf') /\
    holds (body st ++ [47]) buf' /\ zlen buf' = zlen buf.
Proof.
  intros Hs H Hl. unfold separator. destruct (decide (st = [])) as [->|Hne]; [by exists buf|].
  destruct (render_snoc st Hs Hne) as (s & x & Er & Hx & Hs0).
  assert (zlen (render st) - 1 <> 0) as Hn.
  { rewrite Er, zlen_app, zlen_cons, zlen_nil. destruct s; [done|]. rewrite zlen_cons.
    pose proof (zlen_nonneg s). lia. }
  rewrite (proj2 (Z.eqb_neq _ _) Hn).
  assert (zget buf (zlen (render st) - 1) = Some x) as -> by (rewrite Er in *; by apply holds_last).
  cbn [mbind option_bind]. rewrite (proj2 (Z.eqb_neq _ _) Hx).
  assert (render st = body st) as Eb by (by destruct st). rewrite Eb in *.
  destruct (H) as (r' & Hb' & Hr'). rewrite Hb' in Hl |- *. rewrite zlen_app in Hl.
  destruct r' as [|y r']; [rewrite zlen_nil in Hl; lia|]. rewrite zset_app. cbn [mbind option_bind].
  exists (body st ++ 47 :: r'). split; [by rewrite zlen_app, zlen_cons, zlen_nil|].
  split; [|by rewrite !zlen_app, !zlen_cons]. exists r'. split; [by rewrite <- app_assoc|]. by inversion Hr'.
Qed.

Lemma render_tail_len st : zlen (render (tail st)) <= zlen (render st).
Proof.
  destruct st as [|c [|d st]]; cbn [tail]; [lia| |].
  - change (zlen (render [])) with 1. change (render [c]) with (47 :: c). rewrite zlen_cons.
    pose proof (zlen_nonneg c). lia.
  - rewrite (render_cons c). change (render (d :: st)) with (body (d :: st)).
    rewrite zlen_app. pose proof (zlen_nonneg (47 :: c)). lia.
Qed.
Lemma body_render_len st : zlen (body st) <= zlen (render st).
Proof. destruct st; [done|]. change (render (l :: st)) with (body (l :: st)). lia. Qed.
Lemma render_tail_prefix st : exists t, render st = render (tail st) ++ t.
Proof. destruct st as [|c [|d st]]; [by exists []|by exists c|by exists (47 :: c)]. Qed.
Lemma stack_tail st : stack_ok st -> stack_ok (tail st).
Proof. destruct st; [done|]. by intros [_ H]%Forall_cons. Qed.

Lemma normalise_slash st p : normalise st (47 :: p) = normalise st p.
Proof. done. Qed.
Lemma push_plain st c : c <> [] -> c <> [46] -> c <> [46; 46] -> push st c = c :: st.
Proof. intros. unfold push. rewrite decide_False by (by intros []). by rewrite decide_False. Qed.

(** A path that is not one of the cases of [first_run] starts a component. *)
Lemma plain_start path : text path -> take 1 path <> [47] -> ~ (path = [46] \/ path = [46; 47]) ->
  ~ (path = [46; 46] \/ path = [46; 46; 47]) -> take 3 path <> [46; 46; 47] -> take 2 path <> [46; 47] ->
  plain [] path.
Proof.
  intros Ht H1 H2 H3 H4 H5. unfold plain. destruct path as [|a p]; [by repeat split|]. cbn [comps].
  destruct (Z.eqb_spec a 47) as [->|Ha]; [done|]. cbn [app].
  destruct p as [|b p]; cbn [comps].
  - cbn [hd]. split; [intros [= ->]; apply H2; by left|done].
  - destruct (Z.eqb_spec b 47) as [->|Hb]; cbn [hd app].
    + split; [intros [= ->]; done|done].
    + destruct p as [|c p]; cbn [comps].
      * cbn [hd]. split; [done|]. split; [intros [= -> ->]; apply H3; by left|done].
      * destruct (Z.eqb_spec c 47) as [->|Hc]; cbn [hd app].
        -- split; [done|]. split; [intros [= -> ->]; done|done].
        -- destruct (comps_head [a; b; c] p) as (k & ks & -> & t & ->). done.
Qed.

(** What is to be shown of the loop with this fuel, from the two places it can be in. *)
Definition first_ok (fuel : nat) : Prop := forall path st buf,
  stack_ok st -> text path -> holds (render st) buf -> zlen (render st) + zlen path + 1 < zlen buf ->
  (2 * length path + 2 <= fuel)%nat ->
  ends_as (normalise st path) (zlen buf) (scan fuel true path (zlen (render st)) buf).
Definition mid_ok (fuel : nat) : Prop := forall path st cur buf,
  stack_ok st -> Forall (fun x => x <> 0 /\ x <> 47) cur -> text path ->
  plain cur path -> holds (body st ++ 47 :: cur) buf ->
  zlen (body st ++ 47 :: cur) + zlen path < zlen buf -> (2 * length path + 1 <= fuel)%nat ->
  ends_as (foldl push st (comps cur path)) (zlen buf) (scan fuel false path (zlen (body st ++ 47 :: cur)) buf).

Lemma ends_len st n n' r : n = n' -> ends_as st n r -> ends_as st n' r.
Proof. by intros ->. Qed.

Lemma term_cut st buf : stack_ok st -> st <> [] -> holds (body st ++ [47]) buf ->
  zlen (body st ++ [47]) < zlen buf -> ends_as st (zlen buf) (term (zlen (body st ++ [47])) buf).
Proof.
  intros Hs Hne (r & -> & Hr) Hl. unfold term. rewrite zget_last. cbn [mbind option_bind].
  pose proof (body_len st Hne).
  assert (zlen (body st ++ [47]) = zlen (body st) + 1) as -> by (by rewrite zlen_app).
  replace (zlen (body st) + 1 - 1) with (zlen (body st)) by lia.
  rewrite (proj2 (Z.eqb_neq (zlen (body st)) 0)) by lia. cbn [negb andb Z.eqb Pos.eqb].
  rewrite <- app_assoc. cbn [app]. rewrite zset_app. exists (body st ++ 0 :: r). split; [done|].
  assert (render st = body st) as -> by (by destruct st).
  split; [split; [by apply body_text|by eexists]|by rewrite !zlen_app, !zlen_cons].
Qed.

Lemma scan_mid fuel : (forall k, (k < fuel)%nat -> first_ok k /\ mid_ok k) -> mid_ok fuel.
Proof.
  intros IH path st cur buf Hs Hc Ht Hp Hh Hl Hf. destruct fuel as [|fuel]; [lia|].
  destruct (IH fuel ltac:(lia)) as [IHf IHm]. cbn [scan]. destruct path as [|c p].
  - rewrite zlen_nil, Z.add_0_r in Hl. cbn [comps foldl].
    destruct (decide (cur = [])) as [->|Hne].
    + change (push st []) with st. destruct (decide (st = [])) as [->|Hst].
      * destruct Hh as (r & Hb & _). by apply (term_render [] buf r).
      * by apply term_cut.
    + destruct Hp as (H1 & H2 & _). cbn [comps hd] in H1, H2. rewrite push_plain by done.
      destruct Hh as (r & Hb & _). apply (term_render (cur :: st) buf r); [by constructor; [split|]|done|done].
  - apply Forall_cons in Ht as [Hc0 Ht]. rewrite zlen_cons in Hl. cbn [length] in Hf.
    unfold plain in Hp. cbn [comps] in *.
    destruct (Z.eqb_spec c 47) as [->|Hc47].
    + destruct Hp as (H1 & H2 & H3). cbn [hd foldl] in *.
      assert (cur <> []) as Hne by (intros E; by apply H3 in E). rewrite push_plain by done.
      apply (IHf p (cur :: st) buf); [by constructor; [split|]|done|done|rewrite render_cons; lia|lia].
    + destruct (holds_snoc _ buf c Hh) as (buf' & E & Hh' & Hlen); [pose proof (zlen_nonneg p); lia|].
      rewrite E. cbn [mbind option_bind]. rewrite <- app_assoc in Hh'. cbn [app] in Hh'.
      assert (zlen (body st ++ 47 :: cur) + 1 = zlen (body st ++ 47 :: cur ++ [c])) as ->
        by (autorewrite with mach; lia).
      rewrite <- Hlen. apply IHm; [done|apply Forall_app; by repeat constructor|done| |done| |lia].
      * unfold plain. destruct Hp as (H1 & H2 & _). split; [done|]. split; [done|].
        destruct (comps_head (cur ++ [c]) p) as (k & ks & -> & t & ->). cbn [hd]. by destruct cur.
      * rewrite Hlen. autorewrite with mach in *. lia.
Qed.

Lemma scan_first fuel : (forall k, (k < fuel)%nat -> first_ok k /\ mid_ok k) -> first_ok fuel.
Proof.
  intros IH path st buf Hs Ht Hh Hl Hf. destruct fuel as [|fuel]; [lia|]. pose proof (zlen_nonneg path).
  assert (forall p st buf, stack_ok st -> text p -> holds (render st) buf ->
    zlen (render st) + zlen p + 1 < zlen buf -> (2 * length p + 3 <= fuel)%nat ->
    ends_as (normalise st p) (zlen buf) (scan fuel false (47 :: p) (zlen (render st)) buf)) as Hslash.
  { intros p st' buf' Hs' Ht' Hh' Hl' Hf'. destruct fuel as [|fuel']; [lia|]. cbn [scan].
    rewrite Z.eqb_refl. apply (IH fuel'); [lia|done..|lia]. }
  cbn [scan]. destruct (decide (take 1 path = [47])) as [E1|E1].
  { destruct path as [|c p]; [done|]. injection E1 as ->. apply Forall_cons in Ht as [_ Ht].
    rewrite zlen_cons in Hl. cbn [length] in Hf. apply (Hslash p st buf); [done|done|done|lia|lia]. }
  case_decide as E2.
  { assert (normalise st path = st) as -> by (by destruct E2 as [-> | ->]).
    destruct Hh as (r & Hb & _). apply (term_render st buf r); [done|done|lia]. }
  case_decide as E3.
  { assert (normalise st path = tail st) as -> by (by destruct E3 as [-> | ->]).
    destruct (up_render st buf Hs Hh ltac:(lia)) as (-> & buf' & _ & Hb). cbn [mbind option_bind].
    destruct Hh as (r & -> & _). destruct (render_tail_prefix st) as (t & Er).
    rewrite Er, <- app_assoc. pose proof (render_tail_len st). rewrite Er, <- app_assoc in Hl.
    eapply term_render; [by apply stack_tail|done|]. rewrite Er in H0. lia. }
  case_decide as E4.
  { destruct path as [|? [|? [|? p]]]; try done. injection E4 as -> -> ->. cbn [drop].
    do 3 apply Forall_cons in Ht as [_ Ht]. rewrite !zlen_cons in Hl. cbn [length] in Hf.
    destruct (up_render st buf Hs Hh) as (-> & buf' & E & Hh' & Hlen); [pose proof (zlen_nonneg p); lia|].
    cbn [mbind option_bind]. rewrite E. cbn [mbind option_bind]. pose proof (render_tail_len st).
    rewrite <- Hlen. apply (Hslash p (tail st)); [by apply stack_tail|done|done|lia|lia]. }
  case_decide as E5.
  { destruct path as [|? [|? p]]; try done. injection E5 as -> ->. cbn [drop].
    do 2 apply Forall_cons in Ht as [_ Ht]. rewrite !zlen_cons in Hl. cbn [length] in Hf.
    apply (Hslash p st); [done|done|done|lia|lia]. }
  destruct (separator_ok st buf Hs Hh ltac:(lia)) as (buf' & -> & Hh' & Hlen). cbn [mbind option_bind fst snd].
  rewrite <- Hlen. apply (IH fuel ltac:(lia)); [done|constructor|done|by apply plain_start|done| |lia].
  rewrite zlen_app, zlen_cons, zlen_nil. pose proof (body_render_len st). lia.
Qed.

Lemma scan_ok fuel : first_ok fuel /\ mid_ok fuel.
Proof.
  induction fuel as [fuel IH] using lt_wf_ind.
  split; [by apply scan_first|by apply scan_mid].
Qed.

(** ** Specification: mount points *)

(** The path is the mount point, or below it. *)
Definition under (path : list Z) (m : mountpoint_t) : Prop := mountpoint m <> [] /\
  exists rest, path = mountpoint m ++ rest /\ (rest = [] \/ hd 0 rest = 47 \/ mountpoint m = [47]).

Lemma better_spec path m n : 0 <= n -> better path m n = true <-> n < zlen (mountpoint m) /\ under path m.
Proof.
  intros Hn. unfold better. rewrite andb_true_iff, andb_true_iff, orb_true_iff, !bool_decide_eq_true, Z.ltb_lt.
  split.
  - intros (Ht & Hm & Hl). split; [done|]. split; [intros E; rewrite E, zlen_nil in Hl; lia|].
    exists (drop (length (mountpoint m)) path). split; [by rewrite <- Ht at 1; rewrite take_drop|].
    destruct Hm as [Hm|Hm]; [|by right; right].
    rewrite zget_lookup in Hm by apply zlen_nonneg. unfold zlen in Hm. rewrite Nat2Z.id in Hm.
    rewrite <- (Nat.add_0_r (length (mountpoint m))), <- lookup_drop in Hm.
    destruct (drop _ path) as [|c r]; [by left|]. right. left. by apply Z.eqb_eq in Hm.
  - intros (Hl & _ & rest & -> & Hr). split; [by rewrite take_app_length|]. split; [|done].
    destruct Hr as [-> |[Hr|Hr]]; [left|left|by right].
    + rewrite app_nil_r, (proj2 (zget_None _ _)); [done|lia].
    + destruct rest as [|c r]; [done|]. cbn [hd] in Hr. subst. by rewrite zget_middle.
Qed.

(** The best guess over the mount points seen so far. *)
Definition best (path : list Z) (l : list mountpoint_t) (g n : Z) : Prop :=
  (forall i m, zget l i = Some m -> under path m -> zlen (mountpoint m) <= n) /\
  (g = FAILURE /\ n = 0 \/ exists m, zget l g = Some m /\ under path m /\ n = zlen (mountpoint m)).

Lemma best_snoc path l m g n : best path l g n -> 0 <= n ->
  let r := if better path m n then (zlen l, zlen (mountpoint m)) else (g, n) in best path (l ++ [m]) r.1 r.2.
Proof.
  intros [Hmax Hg] Hn r.
  assert (forall k, n <= k -> (under path m -> zlen (mountpoint m) <= k) ->
    forall i m', zget (l ++ [m]) i = Some m' -> under path m' -> zlen (mountpoint m') <= k) as Hall.
  { intros k Hk Hm i m' Hi Hu. rewrite zget_app in Hi. case_decide.
    - pose proof (Hmax _ _ Hi Hu). lia.
    - pose proof (zget_Some _ _ _ Hi) as Hz. change (zlen [m]) with 1 in Hz.
      replace (i - zlen l) with 0 in Hi by lia. injection Hi as <-. by apply Hm. }
  unfold r. destruct (better path m n) eqn:Eb; cbn [fst snd].
  - apply better_spec in Eb as [Hl Hu]; [|done]. split; [apply Hall; lia|]. right. exists m.
    by rewrite zget_middle.
  - split.
    + apply Hall; [lia|]. intros Hu. apply not_true_iff_false in Eb.
      destruct (decide (n < zlen (mountpoint m))); [|lia]. destruct Eb. by apply better_spec.
    + destruct Hg as [?|(m' & E & H)]; [by left|]. right. exists m'. split; [|done].
      apply zget_Some in E as Hz. rewrite zget_app. by rewrite decide_True by lia.
Qed.

Lemma translate_from_ok path l : forall l0 g n, best path l0 g n -> 0 <= n ->
  let r := translate_from path (zlen l0) g n l in best path (l0 ++ l) r.1 r.2 /\ 0 <= r.2.
Proof.
  induction l as [|m l IH]; intros l0 g n Hb Hn; cbn [translate_from].
  - by rewrite app_nil_r.
  - pose proof (best_snoc path l0 m g n Hb Hn) as Hs. cbv zeta in Hs.
    replace (zlen l0 + 1) with (zlen (l0 ++ [m])) by (by rewrite zlen_app).
    replace (l0 ++ m :: l) with ((l0 ++ [m]) ++ l) by (by rewrite <- app_assoc).
    pose proof (zlen_nonneg (mountpoint m)). destruct (better path m n); apply IH; done.
Qed.

Lemma zlen_render st : 1 <= zlen (render st).
Proof. destruct st; [done|]. rewrite render_cons, zlen_app, zlen_cons. pose proof (zlen_nonneg (body st)). pose proof (zlen_nonneg l). lia. Qed.

(** A [/] left in the buffer stops [..] where it starts. *)
Lemma stale_slash pwd x y rest :
  vfs_get_absolute_path pwd [47; 97; 47; 46; 46] (x :: y :: 47 :: rest) = Some (47 :: 97 :: 0 :: rest).
Proof.
  assert (forall v, zset (x :: y :: 47 :: rest) 0 v = Some (v :: y :: 47 :: rest)) as E0 by (intros; exact (zset_app [] _ _ _)).
  assert (forall v, zset (47 :: y :: 47 :: rest) 1 v = Some (47 :: v :: 47 :: rest)) as E1 by (intros; exact (zset_app [47] _ _ _)).
  assert (forall v, zset (47 :: 97 :: 47 :: rest) 2 v = Some (47 :: 97 :: v :: rest)) as E2 by (intros; exact (zset_app [47; 97] _ _ _)).
  assert (forall b, scan (path_fuel [97; 47; 46; 46]) true [97; 47; 46; 46] 1 b =
    b1 ← zset b 1 97; pos ← up 2 b1; term pos b1) as Hs by reflexivity.
  unfold vfs_get_absolute_path. cbn [Z.eqb Pos.eqb]. rewrite E0. cbn [mbind option_bind].
  rewrite Hs, E1. cbn [mbind option_bind].
  change (up 2 (47 :: 97 :: 47 :: rest)) with (Some 2). exact (E2 0).
Qed.

(** * Properties *)

(** C26: [vfs_get_absolute_path] normalises: for a normal working directory and a
    buffer with room for both that holds no [/], the buffer ends up with the normal
    path of the components of the path, taken from the root or from the working
    directory, with [.] and empty components skipped and [..] removing the last one,
    the root having no parent.  The condition on the buffer is needed, since [..]
    reads the byte after the text: with a [/] left there by an earlier call, [/a/..]
    is [/a]. *)
Theorem vfs_get_absolute_path_correct (st : list (list Z)) (path buf : list Z) :
  stack_ok st -> text path -> zlen (render st) + zlen path + 1 < zlen buf ->
  (Forall (fun x => x <> 47) buf ->
   exists buf', vfs_get_absolute_path (render st) path buf = Some buf' /\ zlen buf' = zlen buf /\
     cstr (render (normalise (if bool_decide (hd 0 path = 47) then [] else st) path)) buf') /\
  (forall x y rest, buf = x :: y :: 47 :: rest ->
   vfs_get_absolute_path (render st) [47; 97; 47; 46; 46] buf = Some (47 :: 97 :: 0 :: rest)).
Proof.
  intros Hs Ht Hl. split; [|intros x y rest ->; apply stale_slash].
  intros Hb. pose proof (zlen_nonneg path).
  assert (cstr (render st) (render st ++ [0])) as Hcs by (split; [by apply render_text|by eexists]).
  pose proof (kstrcpy_ok _ _ buf Hcs) as Ecpy. rewrite decide_True in Ecpy by lia.
  set (b := render st ++ 0 :: drop (S (length (render st))) buf) in *.
  assert (holds (render st) b) as Hh.
  { eexists. split; [done|]. constructor; [done|]. by apply Forall_drop. }
  assert (zlen b = zlen buf) as Hlb.
  { unfold b, zlen in *. rewrite length_app. cbn [length]. rewrite length_drop. lia. }
  assert (cstr (render st) b) as Hcb by (split; [by apply render_text|by eexists]).
  destruct path as [|c p].
  - by exists b.
  - unfold vfs_get_absolute_path. rewrite zlen_cons in Hl. cbn [hd].
    destruct (Z.eqb_spec c 47) as [->|Hc].
    + rewrite bool_decide_true by done. apply Forall_cons in Ht as [_ Ht]. destruct buf as [|x buf].
      { rewrite zlen_nil in Hl. pose proof (zlen_nonneg (render st)). pose proof (zlen_nonneg p). lia. }
      change (zset (x :: buf) 0 47) with (zset ([] ++ x :: buf) (zlen (@nil Z)) 47). rewrite zset_app.
      cbn [mbind option_bind app]. apply Forall_cons in Hb as [_ Hb].
      destruct (proj1 (scan_ok (path_fuel p)) p [] (47 :: buf)) as (b' & E & H1 & H2);
        [constructor|done|by exists buf| |unfold path_fuel; lia|].
      * rewrite zlen_cons in *. pose proof (zlen_render st). change (zlen (render [])) with 1. lia.
      * exists b'. split; [exact E|]. split; [by rewrite H2, !zlen_cons|exact H1].
    + rewrite bool_decide_false by done. rewrite Ecpy. cbn [mbind option_bind].
      rewrite (kstrlen_ok _ _ Hcb). cbn [mbind option_bind].
      destruct (proj1 (scan_ok (path_fuel (c :: p))) (c :: p) st b) as (b' & E & H1 & H2);
        [done|done|done|rewrite zlen_cons; lia|unfold path_fuel; lia|].
      exists b'. split; [exact E|]. split; [lia|exact H1].
Qed.

(** [vfs_translate_mnt] finds the longest mount point that the path is under, as a
    whole number of components, and [FAILURE] exactly when there is none; the local
    path is what follows it, which keeps its leading [/] except under [/]. *)
Theorem vfs_translate_mnt_correct (path : list Z) (l : list mountpoint_t) :
  let '(guess, local_path) := vfs_translate_mnt path l in
  (guess = FAILURE /\ local_path = path /\ forall i m, zget l i = Some m -> ~ under path m) \/
  exists m, zget l guess = Some m /\ under path m /\ path = mountpoint m ++ local_path /\
    forall i m', zget l i = Some m' -> under path m' -> zlen (mountpoint m') <= zlen (mountpoint m).
Proof.
  unfold vfs_translate_mnt. pose proof (translate_from_ok path l [] FAILURE 0) as H.
  change (zlen (@nil mountpoint_t)) with 0 in H. cbn [app] in H.
  destruct (translate_from path 0 FAILURE 0 l) as [g n]. cbn [fst snd] in H.
  destruct H as [[Hmax Hg] Hn]; [split; [|by left]|done|].
  { intros i m Hi. apply zget_Some in Hi. change (zlen (@nil mountpoint_t)) with 0 in Hi. lia. }
  destruct Hg as [[-> ->]|(m & E & Hu & ->)].
  - left. split; [done|]. split; [done|]. intros i m Hi Hu. pose proof (Hmax _ _ Hi Hu).
    destruct Hu as [Hu _]. destruct (mountpoint m) as [|x r]; [done|]. rewrite zlen_cons in *.
    pose proof (zlen_nonneg r). lia.
  - right. exists m. split; [done|]. split; [done|]. split; [|done].
    destruct Hu as (_ & rest & -> & _). unfold zlen. by rewrite Nat2Z.id, drop_app_length.
Qed.

(** * Witnesses *)

Lemma vfs_get_absolute_path_correct_witness :
  vfs_get_absolute_path [47; 97] [46; 46; 47; 98] (replicate 16 0) =
    Some (47 :: 98 :: replicate 14 0) /\
  exists buf', vfs_get_absolute_path (render [[97]]) [46; 46; 47; 98] (replicate 16 0) = Some buf' /\
    cstr (render [[98]]) buf'.
Proof.
  split; [vm_compute; reflexivity|].
  destruct (vfs_get_absolute_path_correct [[97]] [46; 46; 47; 98] (replicate 16 0)) as [H _].
  - constructor; [|constructor]. split; [discriminate|]. constructor; [split; discriminate|constructor].
  - repeat (constructor; [discriminate|]). constructor.
  - reflexivity.
  - destruct H as (buf' & E & _ & Hc); [apply Forall_replicate; discriminate|].
    exists buf'. split; [exact E|exact Hc].
Defined.

End VfsPath.
