(* ===== verification/Vfs.v ===== *)
(** * The virtual file system: [kernel/src/vfs.c]

    Every operation on a path makes the path absolute, finds its mount point and the
    file system mounted there, and calls that file system with the local path.  An
    open file is an entry of the handle table of a task, of task 0 for the kernel's
    own: the mount point and the file system's handle.

    The installed file systems are an argument, a table of their operations
    ([filesystem_t]); so is the buffer [absolute_path[2048]] as the call finds it on
    its stack.  A path given to a system call is an address of the running task, one
    given to a [vfs_k*] function is its text. *)

From S2P Require Import Prelude Dev Handle Task VfsPath.
Local Open Scope Z_scope.
Local Open Scope st_scope.

Module Vfs.
Import Task VfsPath.

Definition FAILURE : Z := -2.
Definition SUCCESS : Z := 0.
Definition FILE_TYPE : Z := 0.
Definition DIRECTORY_TYPE : Z := 1.
Definition MAX_SIMULTANOUS_VFS_ACCESS : Z := 4096.

Record vfs_metadata_t := MkMetadata { filename : list Z; filetype : Z; msize : Z }.

(** [filesystem_t]: [get_metadata] and [list] give [None] for [FAILURE]; [uread] gives
    the result and the bytes it stored. *)
Record filesystem_t (W : Type) := MkFilesystem {
  fname : list Z;
  fs_read : list Z -> Z -> list Z -> ST W Z;
  fs_write : list Z -> Z -> Z -> list Z -> ST W Z;
  fs_remove : list Z -> list Z -> ST W Z;
  fs_mkdir : list Z -> Z -> list Z -> ST W Z;
  fs_create : list Z -> Z -> list Z -> ST W Z;
  fs_get_metadata : list Z -> Z -> list Z -> ST W (option vfs_metadata_t);
  fs_list : list Z -> Z -> list Z -> ST W (option vfs_metadata_t);
  fs_mount : list Z -> ST W Z;
  fs_open : list Z -> Z -> Z -> list Z -> ST W Z;
  fs_close : Z -> ST W Z;
  fs_fork : Z -> ST W Z;
  fs_uread : Z -> Z -> ST W (Z * list Z);
  fs_uwrite : Z -> list Z -> ST W Z;
  fs_seek : Z -> Z -> Z -> ST W Z
}.
#[global] Arguments fname {W} _.
#[global] Arguments fs_read {W} _. #[global] Arguments fs_write {W} _. #[global] Arguments fs_remove {W} _.
#[global] Arguments fs_mkdir {W} _. #[global] Arguments fs_create {W} _. #[global] Arguments fs_get_metadata {W} _.
#[global] Arguments fs_list {W} _. #[global] Arguments fs_mount {W} _. #[global] Arguments fs_open {W} _.
#[global] Arguments fs_close {W} _. #[global] Arguments fs_fork {W} _. #[global] Arguments fs_uread {W} _.
#[global] Arguments fs_uwrite {W} _. #[global] Arguments fs_seek {W} _.

(** [char name[128]]; [krealloc] is assumed to succeed. *)
Definition vfs_install_fs {W : Type} (f : filesystem_t W) (l : list (filesystem_t W)) : option (list (filesystem_t W)) :=
  if decide (zlen (fname f) < 128) then Some (l ++ [f]) else None.

(** The state of [vfs.c] in the kernel's: the mount points, and the marks [read_stat]
    and [write_stat] of an unfinished transfer. *)
Class VfsState (W : Type) := {
  mountpoints : W -> list mountpoint_t;
  set_mountpoints : list mountpoint_t -> W -> W;
  set_read_stat : Z -> W -> W;
  set_write_stat : Z -> W -> W
}.

Section Vfs.
Context {W : Type} {K : Kernel W} {V : VfsState W}.
Context (filesystems : list (filesystem_t W)) (devices : list (Dev.device_t W)).

(** The text of a buffer. *)
Fixpoint buf_text (b : list Z) : option (list Z) :=
  match b with
  | [] => None
  | c :: b => if c =? 0 then Some [] else s ← buf_text b; Some (c :: s)
  end.

Definition mount_table : ST W (list mountpoint_t) := fun w => Some (mountpoints w, w).

(** The file system of mount point [mnt]: the code indexes [filesystems] with the
    result of [vfs_translate_fs]. *)
Definition fs_index (mnt : Z) : ST W Z :=
  let! l := mount_table in st_lift (vfs_translate_fs (fname <$> filesystems) mnt l).
Definition fs_of (mnt : Z) : ST W (filesystem_t W) :=
  let! i := fs_index mnt in st_lift (zget filesystems i).

(** The beginning of every operation on a path: the mount point's number, the file
    system, the local path and the mount point's device, [None] for [FAILURE]. *)
Definition translate (abs : list Z) : ST W (option (Z * filesystem_t W * list Z * list Z)) :=
  let! l := mount_table in
  let '(mnt, local_path) := vfs_translate_mnt abs l in
  if mnt =? FAILURE then st_ret None
  else
    let! i := fs_index mnt in
    if i =? FAILURE then st_ret None
    else
      let! f := st_lift (zget filesystems i) in
      let! m := st_lift (zget l mnt) in
      st_ret (Some (mnt, f, local_path, mdevice m)).

Definition absolute (stk path : list Z) : ST W (list Z) :=
  let! t := this_task in
  let! b := st_lift (vfs_get_absolute_path (pwd t) path stk) in
  st_lift (buf_text b).

Definition on_path {A} (stk path : list Z) (fail : A)
    (k : Z -> filesystem_t W -> list Z -> list Z -> ST W A) : ST W A :=
  let! abs := absolute stk path in
  let! r := translate abs in
  match r with None => st_ret fail | Some (mnt, f, lp, d) => k mnt f lp d end.

(** [path += task_table[current_task]->base] *)
Definition user_path (path : Z) : ST W (list Z) :=
  let! t := this_task in mem_str (u32 (path + base t)).

(** [":://"], the prefix of a device. *)
Definition dev_prefix : list Z := [58; 58; 47; 47].
Definition device_path (path : list Z) : option (list Z) :=
  if decide (take 4 path = dev_prefix) then Some (drop 4 path) else None.

Definition device_io (nm : list Z) (loc type val : Z) : ST W Z :=
  match Dev.find_device nm devices with
  | None => st_ret FAILURE
  | Some i => let! d := st_lift (zget devices i) in
              let! r := Dev.io_wrapper d (Dev.gp_value d) loc type val in
              st_ret (s32 r)
  end.

Definition vfs_kread (stk path : list Z) (loc : Z) : ST W Z :=
  match device_path path with
  | Some nm => device_io nm loc 0 0
  | None => on_path stk path FAILURE (fun _ f lp d => fs_read f lp loc d)
  end.
Definition vfs_kwrite (stk path : list Z) (loc val : Z) : ST W Z :=
  match device_path path with
  | Some nm => device_io nm loc 1 val
  | None => on_path stk path FAILURE (fun _ f lp d => fs_write f lp val loc d)
  end.
Definition vfs_kremove (stk path : list Z) : ST W Z :=
  on_path stk path FAILURE (fun _ f lp d => fs_remove f lp d).
Definition vfs_kget_metadata (stk path : list Z) (type : Z) : ST W (option vfs_metadata_t) :=
  on_path stk path None (fun _ f lp d => fs_get_metadata f lp type d).
Definition vfs_kmkdir (stk path : list Z) (perms : Z) : ST W Z :=
  let! md := vfs_kget_metadata stk path DIRECTORY_TYPE in
  match md with
  | Some _ => st_ret FAILURE
  | None => on_path stk path FAILURE (fun _ f lp d => fs_mkdir f lp perms d)
  end.
Definition vfs_kcreate (stk path : list Z) (perms : Z) : ST W Z :=
  let! md := vfs_kget_metadata stk path FILE_TYPE in
  match md with
  | Some _ => st_ret FAILURE
  | None => on_path stk path FAILURE (fun _ f lp d => fs_create f lp perms d)
  end.

Definition vfs_read (stk : list Z) (path loc : Z) : ST W Z := let! p := user_path path in vfs_kread stk p loc.
Definition vfs_write (stk : list Z) (path loc val : Z) : ST W Z :=
  let! p := user_path path in vfs_kwrite stk p loc val.
Definition vfs_remove (stk : list Z) (path : Z) : ST W Z := let! p := user_path path in vfs_kremove stk p.
Definition vfs_mkdir (stk : list Z) (path perms : Z) : ST W Z := let! p := user_path path in vfs_kmkdir stk p perms.
Definition vfs_create (stk : list Z) (path perms : Z) : ST W Z := let! p := user_path path in vfs_kcreate stk p perms.
Definition vfs_get_metadata (stk : list Z) (path type : Z) : ST W (option vfs_metadata_t) :=
  let! p := user_path path in vfs_kget_metadata stk p type.
Definition vfs_list (stk : list Z) (path entry : Z) : ST W (option vfs_metadata_t) :=
  let! p := user_path path in on_path stk p None (fun _ f lp d => fs_list f lp entry d).

(** [vfs_cd]; the buffer of [vfs_kget_metadata] is another one, [stk2]. *)
Definition vfs_cd (stk stk2 : list Z) (path : Z) : ST W Z :=
  let! p := user_path path in
  let! abs := absolute stk p in
  let! md := vfs_kget_metadata stk2 abs DIRECTORY_TYPE in
  match md with
  | None => st_ret FAILURE
  | Some _ => let! t := this_task in put_this (with_pwd abs t) ;; st_ret SUCCESS
  end.

(** ** Handles *)

(** [create_file_handle_v2(pid, handle)] *)
Definition create_file_handle_v2 (pid : Z) (h : Handle.file_handle_v2_t) : ST W Z :=
  let! t := get_task pid in
  let '(n, l) := Handle.create_file_handle_v2 h (file_handles_v2 t) in
  put_task pid (with_file_handles_v2 l t) ;; st_ret n.

(** [vfs_open] and [vfs_kopen], for the task that gets the handle. *)
Definition open_for (pid : ST W Z) (stk path : list Z) (flags mode : Z) : ST W Z :=
  let! abs := (match device_path path with
               | Some nm => if decide (zlen nm + 5 < 2048) then st_ret ([47; 100; 101; 118; 47] ++ nm) else st_fail
               | None => absolute stk path
               end) in
  let! r := translate abs in
  match r with
  | None => st_ret (-1)
  | Some (mnt, f, lp, d) =>
      let! ih := fs_open f lp flags mode d in
      if ih =? -1 then st_ret (-1)
      else let! p := pid in create_file_handle_v2 p (Handle.MkFileHandleV2 0 mnt ih)
  end.
Definition vfs_open (stk : list Z) (path flags mode : Z) : ST W Z :=
  let! p := user_path path in open_for current stk p flags mode.
Definition vfs_kopen (stk path : list Z) (flags mode : Z) : ST W Z :=
  open_for (st_ret 0) stk path flags mode.

(** The entry of a handle: there is no check that it is in the table. *)
Definition handle_of (pid handle : Z) : ST W Handle.file_handle_v2_t :=
  let! t := get_task pid in st_lift (zget (file_handles_v2 t) handle).
Definition on_handle {A} (pid handle : Z) (k : filesystem_t W -> Z -> ST W A) : ST W A :=
  let! h := handle_of pid handle in
  let! f := fs_of (Handle.mountpoint h) in
  k f (Handle.internal_handle h).

Definition st_set (f : W -> W) : ST W unit := fun w => Some (tt, f w).

(** The bytes read are stored at the task's address by the file system. *)
Definition vfs_uread (handle len : Z) : ST W (Z * list Z) :=
  let! c := current in
  on_handle c handle (fun f ih =>
    if len <=? MAX_SIMULTANOUS_VFS_ACCESS then fs_uread f ih len
    else let! r := fs_uread f ih MAX_SIMULTANOUS_VFS_ACCESS in
         st_set (set_read_stat 1) ;; st_ret r).
Definition vfs_kuread (handle len : Z) : ST W (Z * list Z) := on_handle 0 handle (fun f ih => fs_uread f ih len).

(** The [len] bytes at the task's address are the argument. *)
Definition vfs_uwrite (handle : Z) (bytes : list Z) : ST W Z :=
  let! c := current in
  on_handle c handle (fun f ih =>
    if zlen bytes <=? MAX_SIMULTANOUS_VFS_ACCESS then fs_uwrite f ih bytes
    else let! r := fs_uwrite f ih (take (Z.to_nat MAX_SIMULTANOUS_VFS_ACCESS) bytes) in
         st_set (set_write_stat 1) ;; st_ret r).
Definition vfs_kuwrite (handle : Z) (bytes : list Z) : ST W Z := on_handle 0 handle (fun f ih => fs_uwrite f ih bytes).

Definition vfs_seek (handle offset type : Z) : ST W Z :=
  let! c := current in on_handle c handle (fun f ih => fs_seek f ih offset type).
Definition vfs_kseek (handle offset type : Z) : ST W Z := on_handle 0 handle (fun f ih => fs_seek f ih offset type).

Definition vfs_kfork (handle : Z) : ST W Z :=
  let! h := handle_of 0 handle in
  let! i := fs_index (Handle.mountpoint h) in
  if i =? FAILURE then st_ret FAILURE
  else
    let! f := st_lift (zget filesystems i) in
    let! ih := fs_fork f (Handle.internal_handle h) in
    if ih =? FAILURE then st_ret FAILURE
    else create_file_handle_v2 0 (Handle.MkFileHandleV2 0 (Handle.mountpoint h) ih).

(** The checks come after the file system's handle has been closed. *)
Definition close_for (pid handle : Z) : ST W Z :=
  let! ret := on_handle pid handle fs_close in
  if ret =? -1 then st_ret (-1)
  else if handle <? 0 then st_ret (-1)
  else
    let! t := get_task pid in
    if zlen (file_handles_v2 t) <=? handle then st_ret (-1)
    else
      let! h := st_lift (zget (file_handles_v2 t) handle) in
      if negb (Handle.free h =? 0) then st_ret (-1)
      else
        let! l := st_lift (zset (file_handles_v2 t) handle
          (Handle.MkFileHandleV2 1 (Handle.mountpoint h) (Handle.internal_handle h))) in
        put_task pid (with_file_handles_v2 l t) ;; st_ret 0.
Definition vfs_close (handle : Z) : ST W Z := let! c := current in close_for c handle.
Definition vfs_kclose (handle : Z) : ST W Z := close_for 0 handle.

(** The name of the file system is compared at the address as it is, the three texts
    copied are at the task's addresses; the messages are not modelled. *)
Definition vfs_mount (mp dv fsn : Z) : ST W Z :=
  let! raw := mem_str (u32 fsn) in
  let! raw_dev := mem_str (u32 dv) in
  let i := fs_from raw 0 (fname <$> filesystems) in
  let! f := st_lift (zget filesystems i) in
  let! r := fs_mount f raw_dev in
  if r =? FAILURE then st_ret FAILURE
  else
    let! t := this_task in
    let! a := mem_str (u32 (mp + base t)) in
    let! b := mem_str (u32 (dv + base t)) in
    let! c := mem_str (u32 (fsn + base t)) in
    if decide (zlen a < 2048 /\ zlen b < 2048 /\ zlen c < 128) then
      st_set (fun w => set_mountpoints (mountpoints w ++ [MkMountpoint a b c]) w) ;; st_ret SUCCESS
    else st_fail.

(** System calls that are these functions. *)
Definition open := vfs_open.
Definition close := vfs_close.
Definition lseek := vfs_seek.
Definition read := vfs_uread.
Definition write := vfs_uwrite.

End Vfs.

(** ** Lemmas *)

(** The mount points are not part of the scheduler's state. *)
Class VfsLaws {W : Type} (K : Kernel W) (V : VfsState W) := {
  mounts_sched s w : mountpoints (set_sched s w) = mountpoints w
}.

Section Laws.
Context {W : Type} {K : Kernel W} {L : KernelLaws K} {V : VfsState W} {VL : VfsLaws K V}.
#[local] Set Default Proof Using "Type*".

Lemma vfs_create_handle_ok s w pid t h n l : zget (task_table s) pid = Some (Task t) ->
  Handle.create_file_handle_v2 h (file_handles_v2 t) = (n, l) -> exists tbl,
  create_file_handle_v2 pid h (set_sched s w) = Some (n, set_sched (with_table tbl s) w) /\
  zset (task_table s) pid (Task (with_file_handles_v2 l t)) = Some tbl.
Proof.
  intros Ht Eh. pose proof (zset_ok (task_table s) pid (Task (with_file_handles_v2 l t))
    ltac:(by eapply zget_Some)) as El.
  eexists. split; [|exact El]. unfold create_file_handle_v2. erewrite st_bind_ok by (by apply get_task_ok).
  rewrite Eh. unfold put_task. erewrite st_bind_ok by (by apply set_slot_ok). done.
Qed.

Lemma handle_of_ok s w pid t n h : zget (task_table s) pid = Some (Task t) ->
  zget (file_handles_v2 t) n = Some h -> handle_of pid n (set_sched s w) = Some (h, set_sched s w).
Proof.
  intros Ht Hn. unfold handle_of. erewrite st_bind_ok by (by apply get_task_ok). unfold st_lift. by rewrite Hn.
Qed.

Context (filesystems : list (filesystem_t W)).

Lemma fs_index_ok mnt w w' i : mountpoints w = mountpoints w' ->
  fs_index filesystems mnt w = Some (i, w) -> fs_index filesystems mnt w' = Some (i, w').
Proof.
  intros Hm. unfold fs_index, st_bind, mount_table, st_lift. rewrite Hm.
  destruct (vfs_translate_fs _ _ _); [|done]. by intros [= ->].
Qed.

Lemma fs_index_same mnt w i w' : fs_index filesystems mnt w = Some (i, w') -> w' = w.
Proof.
  unfold fs_index, st_bind, mount_table, st_lift. destruct (vfs_translate_fs _ _ _); [|done]. by intros [= _ ->].
Qed.

(** A path that translates has a file system, found again from its mount point. *)
Lemma translate_ok abs w mnt f lp d w' : translate filesystems abs w = Some (Some (mnt, f, lp, d), w') ->
  w' = w /\ exists i, fs_index filesystems mnt w = Some (i, w) /\ zget filesystems i = Some f.
Proof.
  unfold translate. unfold st_bind at 1, mount_table. destruct (vfs_translate_mnt _ _) as [m p].
  destruct (m =? FAILURE); [done|]. unfold st_bind at 1. destruct (fs_index filesystems m w) as [[i w1]|] eqn:Ei; [|done].
  pose proof (fs_index_same _ _ _ _ Ei) as ->. destruct (i =? FAILURE); [done|].
  unfold st_bind, st_lift, st_ret. destruct (zget filesystems i) as [f'|] eqn:Ef; [|done].
  destruct (zget (mountpoints w) m); [|done]. intros [= -> -> _ _ ->]. split; [done|]. by exists i.
Qed.

Lemma fs_of_ok mnt w i f : fs_index filesystems mnt w = Some (i, w) -> zget filesystems i = Some f ->
  fs_of filesystems mnt w = Some (f, w).
Proof. intros Ei Ef. unfold fs_of. erewrite st_bind_ok by done. unfold st_lift. by rewrite Ef. Qed.

End Laws.

(** * Properties *)

(** C37: An open file stays bound to its file system: when [vfs_open] or [vfs_kopen]
    translates the path to a file system that opens it, the result is an entry of the
    task's table that no live handle used, every other live handle and every other
    task is unchanged, and from then on an operation through the handle is that
    operation of the same file system on the handle it returned. *)
Theorem vfs_open_binds {W : Type} {K : Kernel W} {L : KernelLaws K} {V : VfsState W} {VL : VfsLaws K V}
    (fss : list (filesystem_t W)) (pid : ST W Z) (stk path abs lp d : list Z) (flags mode mnt ih p : Z)
    (f : filesystem_t W) (w w1 : W) (s : sched) (t : task_t) :
  device_path path = None -> absolute stk path w = Some (abs, w) ->
  translate fss abs w = Some (Some (mnt, f, lp, d), w) ->
  fs_open f lp flags mode d w = Some (ih, set_sched s w1) -> ih <> -1 -> mountpoints w1 = mountpoints w ->
  pid (set_sched s w1) = Some (p, set_sched s w1) -> zget (task_table s) p = Some (Task t) ->
  exists n l tbl, let w2 := set_sched (with_table tbl s) w1 in
    open_for fss pid stk path flags mode w = Some (n, w2) /\
    zset (task_table s) p (Task (with_file_handles_v2 l t)) = Some tbl /\
    (forall g, ~ Handle.live Handle.free (file_handles_v2 t) n g) /\
    (forall m g, m <> n -> Handle.live Handle.free l m g <-> Handle.live Handle.free (file_handles_v2 t) m g) /\
    forall (A : Type) (k : filesystem_t W -> Z -> ST W A), on_handle fss p n k w2 = k f ih w2.
Proof.
  intros Hd Ha Ht Ho Hih Hm Hp Htask. destruct (translate_ok _ _ _ _ _ _ _ _ Ht) as (_ & i & Ei & Ef).
  set (h := Handle.MkFileHandleV2 0 mnt ih).
  destruct (Handle.create_file_handle_v2 h (file_handles_v2 t)) as [n l] eqn:Eh.
  destruct (Handle.create_handle_ok Handle.free h _ n l eq_refl Eh) as (Hfree & [Hlive _] & _ & _ & Hother).
  destruct (vfs_create_handle_ok s w1 p t h n l Htask Eh) as (tbl & Ec & Etbl).
  exists n, l, tbl. intros w2. split; [|split; [done|split; [done|split; [done|]]]].
  - unfold open_for. rewrite Hd. erewrite st_bind_ok by exact Ha. erewrite st_bind_ok by exact Ht. cbv beta iota.
    erewrite st_bind_ok by exact Ho. rewrite (proj2 (Z.eqb_neq _ _)) by done.
    erewrite st_bind_ok by exact Hp. exact Ec.
  - intros A k. assert (zget (task_table (with_table tbl s)) p = Some (Task (with_file_handles_v2 l t))) as Hp'.
    { cbn [task_table with_table]. rewrite (zget_zset _ _ _ _ _ Etbl). by rewrite decide_True. }
    unfold on_handle. erewrite st_bind_ok by (by apply (handle_of_ok _ _ _ _ _ h Hp')).
    erewrite st_bind_ok; [reflexivity|]. apply (fs_of_ok _ _ _ i); [|exact Ef].
    apply (fs_index_ok _ _ w); [|exact Ei]. by rewrite mounts_sched.
Qed.

(** [vfs_close] closes before it checks: on a handle that is already free it runs
    the file system's [close] on the handle recorded there, by then possibly another
    file's, and only then answers -1; on a number outside of the table it reads past
    the table. *)
Theorem vfs_close_unchecked {W : Type} {K : Kernel W} {L : KernelLaws K} {V : VfsState W} {VL : VfsLaws K V}
    (fss : list (filesystem_t W)) (s : sched) (w w1 : W) (t : task_t) (handle r i : Z)
    (h : Handle.file_handle_v2_t) (f : filesystem_t W) :
  zget (task_table s) (current_task s) = Some (Task t) ->
  (zget (file_handles_v2 t) handle = Some h -> Handle.free h <> 0 ->
   fs_index fss (Handle.mountpoint h) (set_sched s w) = Some (i, set_sched s w) -> zget fss i = Some f ->
   fs_close f (Handle.internal_handle h) (set_sched s w) = Some (r, set_sched s w1) ->
   vfs_close fss handle (set_sched s w) = Some (-1, set_sched s w1)) /\
  (handle < 0 \/ zlen (file_handles_v2 t) <= handle -> vfs_close fss handle (set_sched s w) = None).
Proof.
  intros Ht. assert (forall k, vfs_close fss handle (set_sched s k) = close_for fss (current_task s) handle (set_sched s k))
    as Hc by (intros k; unfold vfs_close; by erewrite st_bind_ok by apply current_ok).
  rewrite Hc. unfold close_for. split.
  - intros Hh Hf Hi Ef Ecl.
    erewrite (st_bind_ok (on_handle fss (current_task s) handle fs_close)).
    2:{ unfold on_handle. erewrite st_bind_ok by (by apply (handle_of_ok _ _ _ _ _ h Ht)).
        erewrite st_bind_ok by (by apply (fs_of_ok _ _ _ i)). exact Ecl. }
    destruct (r =? -1); [done|]. pose proof (zget_Some _ _ _ Hh). rewrite (proj2 (Z.ltb_ge _ _)) by lia.
    erewrite st_bind_ok by (by apply get_task_ok). rewrite (proj2 (Z.leb_gt _ _)) by lia.
    erewrite st_bind_ok by (unfold st_lift; by rewrite Hh). by rewrite (proj2 (Z.eqb_neq _ _)) by done.
  - intros Hr. unfold st_bind at 1, on_handle. unfold st_bind at 1, handle_of. erewrite st_bind_ok by (by apply get_task_ok).
    unfold st_lift. assert (zget (file_handles_v2 t) handle = None) as ->; [|done].
    unfold zget. case_decide; [|done]. apply lookup_ge_None_2. unfold zlen in *. lia.
Qed.

(** * Witnesses *)

(** One file system, mounted on the root. *)
#[export] Instance demo_vfs : VfsState demo := {
  mountpoints _ := [MkMountpoint [47] [100] [102]];
  set_mountpoints _ w := w; set_read_stat _ w := w; set_write_stat _ w := w
}.
#[export] Instance demo_vfs_laws : VfsLaws demo_kernel demo_vfs.
Proof. by split. Qed.

(** Its [open] answers 5, its [close] counts the calls in the heap pointer. *)
Definition demo_filesystem : filesystem_t demo := MkFilesystem demo [102]
  (fun _ _ _ => st_ret 0) (fun _ _ _ _ => st_ret 0) (fun _ _ => st_ret 0) (fun _ _ _ => st_ret 0)
  (fun _ _ _ => st_ret 0) (fun _ _ _ => st_ret None) (fun _ _ _ => st_ret None) (fun _ => st_ret 0)
  (fun _ _ _ _ => st_ret 5) (fun _ w => Some (0, MkDemo (dsched w) (dmem w) (dnext w + 1))) (fun _ => st_ret 0)
  (fun _ _ => st_ret (2, [1; 2])) (fun _ l => st_ret (zlen l)) (fun _ o _ => st_ret o).

Definition freed_sched : sched :=
  with_table [Task (with_file_handles_v2 [Handle.MkFileHandleV2 1 0 5] kernel_task); NoTask] demo_sched.
Definition vfs_demo (s : sched) : demo := MkDemo (with_current 0 s) [] 0.

Lemma vfs_open_binds_witness : exists n w2,
  vfs_kopen [demo_filesystem] (replicate 16 0) [97] 0 0 (vfs_demo demo_sched) = Some (n, w2) /\
  vfs_kuread [demo_filesystem] n 2 w2 = Some ((2, [1; 2]), w2).
Proof.
  destruct (vfs_open_binds [demo_filesystem] (st_ret 0) (replicate 16 0) [97] [47; 97] [97] [100] 0 0 0 5 0
    demo_filesystem (vfs_demo demo_sched) (vfs_demo demo_sched) (with_current 0 demo_sched) kernel_task)
    as (n & l & tbl & Ho & _ & _ & _ & Hk); try reflexivity; try discriminate.
  exists n. eexists. split; [exact Ho|]. unfold vfs_kuread. rewrite Hk. reflexivity.
Defined.

Lemma vfs_close_unchecked_witness :
  vfs_close [demo_filesystem] 0 (vfs_demo freed_sched) =
    Some (-1, MkDemo (with_current 0 freed_sched) [] 1) /\
  vfs_close [demo_filesystem] 9 (vfs_demo freed_sched) = None.
Proof.
  destruct (vfs_close_unchecked [demo_filesystem] (with_current 0 freed_sched) (vfs_demo freed_sched)
    (MkDemo (with_current 0 freed_sched) [] 1) (with_file_handles_v2 [Handle.MkFileHandleV2 1 0 5] kernel_task)
    0 0 0 (Handle.MkFileHandleV2 1 0 5) demo_filesystem) as [H _]; [reflexivity|].
  destruct (vfs_close_unchecked [demo_filesystem] (with_current 0 freed_sched) (vfs_demo freed_sched)
    (MkDemo (with_current 0 freed_sched) [] 1) (with_file_handles_v2 [Handle.MkFileHandleV2 1 0 5] kernel_task)
    9 0 0 (Handle.MkFileHandleV2 1 0 5) demo_filesystem) as [_ H']; [reflexivity|].
  split; [apply H; [reflexivity|discriminate|reflexivity|reflexivity|reflexivity]|apply H'; right; discriminate].
Defined.

End Vfs.
