(* ===== verification/System.v ===== *)
(** * The kernel put together

    [Task.v] and the files above it see the rest of the kernel through the interfaces
    [Kernel], [UserMem] and [Vfs.VfsState].  This file makes one state of the parts
    that the other files model, the task table, the kernel heap and its memory, the
    mount points and the devices, and proves the interfaces for it.  The calls of the
    scheduler into the virtual file system ([vfs_kread], [vfs_kwrite], [read] and
    [write]) are those of [Vfs.v], over the file systems that are installed; the device
    file system of [Devfs.v] is one of them ([install_devfs] of
    [kernel/src/fs/devfs.c]).

    The devices run over their own state [DV]; the devices that call back into the
    virtual file system ([Streams.v], [Vdev.v]) are not among them.  [print] is the
    console for the kernel's own messages. *)

From S2P Require Import Prelude Mem Pmm Kheap Dev Handle Devfs Gdt Task UserMem VfsPath Vfs.
Local Open Scope Z_scope.
Local Open Scope st_scope.

Module System.
Import Dev Task UserMem.

(** The state of the kernel; [wdrv] has the handles of devfs, the device list and the
    state of the drivers. *)
Record world (DV : Type) := MkWorld {
  wsched : sched;
  wheap : Kheap.heap_st;
  wmounts : list VfsPath.mountpoint_t;
  wread_stat : Z;
  wwrite_stat : Z;
  wdrv : Devfs.state DV
}.
#[global] Arguments MkWorld {DV} _ _ _ _ _ _.
#[global] Arguments wsched {DV} _. #[global] Arguments wheap {DV} _. #[global] Arguments wmounts {DV} _.
#[global] Arguments wread_stat {DV} _. #[global] Arguments wwrite_stat {DV} _. #[global] Arguments wdrv {DV} _.

Section System.
Context {DV : Type}.

Definition with_wsched (s : sched) (w : world DV) : world DV :=
  MkWorld s (wheap w) (wmounts w) (wread_stat w) (wwrite_stat w) (wdrv w).
Definition with_wheap (h : Kheap.heap_st) (w : world DV) : world DV :=
  MkWorld (wsched w) h (wmounts w) (wread_stat w) (wwrite_stat w) (wdrv w).
Definition with_wmounts (l : list VfsPath.mountpoint_t) (w : world DV) : world DV :=
  MkWorld (wsched w) (wheap w) l (wread_stat w) (wwrite_stat w) (wdrv w).
Definition with_rstat (i : Z) (w : world DV) : world DV :=
  MkWorld (wsched w) (wheap w) (wmounts w) i (wwrite_stat w) (wdrv w).
Definition with_wstat (i : Z) (w : world DV) : world DV :=
  MkWorld (wsched w) (wheap w) (wmounts w) (wread_stat w) i (wdrv w).
Definition with_wdrv (d : Devfs.state DV) (w : world DV) : world DV :=
  MkWorld (wsched w) (wheap w) (wmounts w) (wread_stat w) (wwrite_stat w) d.

(** ** Memory: the heap of [Kheap.v], its bytes for the tasks *)

Definition on_heap {A} (m : Kheap.heap_st -> option (A * Kheap.heap_st)) : ST (world DV) A :=
  fun w => match m (wheap w) with Some (a, h) => Some (a, with_wheap h w) | None => None end.
Definition free_block (ptr : Z) (h : Kheap.heap_st) : option (unit * Kheap.heap_st) :=
  match Kheap.kfree ptr h with Some h => Some (tt, h) | None => None end.

Definition wbytes (w : world DV) : mem := fun x => u8 (Kheap.hmem (wheap w) x).
Definition write_bytes (a : Z) (l : list Z) (w : world DV) : world DV :=
  with_wheap (Kheap.with_mem (wheap w) (store_bytes (Kheap.hmem (wheap w)) a l)) w.

(** The kernel, for the four calls it makes into the virtual file system. *)
Definition kernel_over (print : list Z -> ST DV unit) (kr : list Z -> Z -> ST (world DV) Z)
    (kw : list Z -> Z -> Z -> ST (world DV) Z) (rd wr : Z -> Z -> Z -> ST (world DV) (Z * Z)) :
    Kernel (world DV) := {|
  get_sched := wsched;
  set_sched := with_wsched;
  kalloc n := on_heap (Kheap.kalloc n);
  kfree a := on_heap (free_block a);
  krealloc a n := on_heap (Kheap.krealloc a n);
  mem_read a n w := Some (bytes_at (wbytes w) a (Z.to_nat n), w);
  mem_write a l w := Some (tt, write_bytes a l w);
  mem_str a w := match text_at (Z.to_nat TEXT_MAX) (wbytes w) a with Some s => Some (s, w) | None => None end;
  tty_kputs l w := match print l (Devfs.world (wdrv w)) with
                   | Some (_, d) => Some (tt, with_wdrv (Devfs.with_world d (wdrv w)) w)
                   | None => None
                   end;
  vfs_kread := kr; vfs_kwrite := kw; read := rd; write := wr
|}.

(** Before the virtual file system. *)
Definition base_kernel (print : list Z -> ST DV unit) : Kernel (world DV) :=
  kernel_over print (fun _ _ => st_fail) (fun _ _ _ => st_fail) (fun _ _ _ => st_fail) (fun _ _ _ => st_fail).

#[export] Instance world_vfs : Vfs.VfsState (world DV) := {
  mountpoints := wmounts;
  set_mountpoints := with_wmounts;
  set_read_stat := with_rstat;
  set_write_stat := with_wstat
}.

(** ** The calls into the virtual file system

    [stk] is the buffer [absolute_path] on the stack of each call. *)

Section Full.
Context (print : list Z -> ST DV unit) (filesystems : list (Vfs.filesystem_t (world DV))) (stk : list Z).
#[local] Instance kernel0 : Kernel (world DV) := base_kernel print.

(** A device, as the kernel calls it. *)
Definition world_device (d : device_t DV) : device_t (world DV) :=
  MkDevice (Dev.name d) (gp_value d) (size d) (fun gp loc type payload w =>
    match io_wrapper d gp loc type payload (Devfs.world (wdrv w)) with
    | Some (r, dv) => Some (r, with_wdrv (Devfs.with_world dv (wdrv w)) w)
    | None => None
    end).
Definition world_devices (w : world DV) : list (device_t (world DV)) := world_device <$> Devfs.device_list (wdrv w).

Definition sys_kread (path : list Z) (loc : Z) : ST (world DV) Z :=
  fun w => Vfs.vfs_kread filesystems (world_devices w) stk path loc w.
Definition sys_kwrite (path : list Z) (loc val : Z) : ST (world DV) Z :=
  fun w => Vfs.vfs_kwrite filesystems (world_devices w) stk path loc val w.

(** [read] and [write]: the bytes of the transfer are at the task's address. *)
Definition sys_read (handle ptr len : Z) : ST (world DV) (Z * Z) :=
  let! t := this_task in
  let! r := Vfs.vfs_uread filesystems handle len in
  mem_write (u32 (ptr + base t)) r.2 ;;
  (fun w => Some ((r.1, wread_stat w), w)).
Definition sys_write (handle ptr len : Z) : ST (world DV) (Z * Z) :=
  let! t := this_task in
  let! bytes := mem_read (u32 (ptr + base t)) len in
  let! n := Vfs.vfs_uwrite filesystems handle bytes in
  (fun w => Some ((n, wwrite_stat w), w)).

(** The kernel with its file systems. *)
Definition kernel : Kernel (world DV) := kernel_over print sys_kread sys_kwrite sys_read sys_write.

End Full.

(** ** The device file system as a file system of the kernel *)

Definition metadata_of (m : Devfs.vfs_metadata_t) : Vfs.vfs_metadata_t :=
  Vfs.MkMetadata (Devfs.filename m) (Devfs.filetype m) (Devfs.msize m).

Definition on_devfs {A} (m : Devfs.state DV -> option (A * Devfs.state DV)) : ST (world DV) A :=
  fun w => match m (wdrv w) with Some (a, d) => Some (a, with_wdrv d w) | None => None end.
Definition ask_devfs (m : Devfs.state DV -> option (Z * option Devfs.vfs_metadata_t)) :
    ST (world DV) (option Vfs.vfs_metadata_t) :=
  fun w => match m (wdrv w) with Some (_, r) => Some (metadata_of <$> r, w) | None => None end.

(** [read_stat] and [write_stat] are the last field of the state of devfs. *)
Definition devfs_uread (h len : Z) : ST (world DV) (Z * list Z) :=
  let! r := on_devfs (Devfs.devfs_uread h len) in
  (fun w => Some (r, with_rstat (Devfs.stat (wdrv w)) w)).
Definition devfs_uwrite (h : Z) (bytes : list Z) : ST (world DV) Z :=
  let! r := on_devfs (Devfs.devfs_uwrite h bytes) in
  (fun w => Some (r, with_wstat (Devfs.stat (wdrv w)) w)).

(** ["devfs"] *)
Definition devfs : Vfs.filesystem_t (world DV) := Vfs.MkFilesystem (world DV) [100; 101; 118; 102; 115]
  (fun p loc _ => on_devfs (Devfs.devfs_read p loc))
  (fun p val loc _ => on_devfs (Devfs.devfs_write p val loc))
  (fun _ _ => st_ret Devfs.devfs_remove)
  (fun _ _ _ => st_ret Devfs.devfs_mkdir)
  (fun _ _ _ => st_ret Devfs.devfs_create)
  (fun p type _ => ask_devfs (Devfs.devfs_get_metadata p type))
  (fun _ entry _ => ask_devfs (Devfs.devfs_list entry))
  (fun _ => st_ret Devfs.devfs_mount)
  (fun p flags mode _ => on_devfs (Devfs.devfs_open p flags mode))
  (fun h => on_devfs (Devfs.devfs_close h))
  (fun h => on_devfs (Devfs.devfs_fork h))
  devfs_uread
  devfs_uwrite
  (fun h offset type => on_devfs (Devfs.devfs_seek h offset type)).

Definition install_devfs (l : list (Vfs.filesystem_t (world DV))) : option (list (Vfs.filesystem_t (world DV))) :=
  Vfs.vfs_install_fs devfs l.

End System.

(** ** The interfaces hold *)

Section Laws.
Context {DV : Type}.

#[export] Instance kernel_over_laws print (kr : list Z -> Z -> ST (world DV) Z) kw rd wr :
  KernelLaws (kernel_over print kr kw rd wr).
Proof.
  split; try done; try (by intros w; destruct w).
  - intros n s w. cbn. unfold on_heap. cbn. by destruct (Kheap.kalloc n (wheap w)) as [[a h]|].
  - intros n s w. cbn. unfold on_heap. cbn. by destruct (free_block n (wheap w)) as [[a h]|].
  - intros l s w. cbn. by destruct (print l (Devfs.world (wdrv w))) as [[a d]|].
Qed.

#[export] Program Instance kernel_over_mem print (kr : list Z -> Z -> ST (world DV) Z) kw rd wr :
    UserMem (kernel_over print kr kw rd wr) := {
  mbytes := wbytes
}.
Next Obligation. intros. apply u8_range. Qed.
Next Obligation. done. Qed.
Next Obligation. intros print kr kw rd wr a n w _ _. cbn. by rewrite Nat2Z.id. Qed.
Next Obligation.
  intros print kr kw rd wr a l w _ _ Hl. eexists. split; [reflexivity|]. split; [|done]. intros x.
  unfold wbytes, write_bytes. cbn. unfold store_bytes. destruct (_ && _) eqn:E; [|done]. bsimp.
  destruct (zget_is_Some l (x - a)) as [c Hc]; [lia|]. rewrite Hc. cbn.
  apply u8_small. rewrite zget_lookup in Hc by lia. by eapply Forall_lookup_1 in Hl.
Qed.
Next Obligation.
  intros print kr kw rd wr a s w _ _ Hs Ha. cbn. rewrite (text_at_ok _ a s); [done| |exact Ha].
  unfold zlen, TEXT_MAX in *. lia.
Qed.

#[export] Instance kernel_over_vfs print (kr : list Z -> Z -> ST (world DV) Z) kw rd wr :
  Vfs.VfsLaws (kernel_over print kr kw rd wr) world_vfs.
Proof. by split. Qed.

(** [krealloc] is also outside of the scheduler's state. *)
Lemma krealloc_frame print (kr : list Z -> Z -> ST (world DV) Z) kw rd wr a n :
  frame (K := kernel_over print kr kw rd wr) (krealloc (Kernel := kernel_over print kr kw rd wr) a n).
Proof. intros s w. cbn. unfold on_heap. cbn. by destruct (Kheap.krealloc a n (wheap w)) as [[p h]|]. Qed.

End Laws.

End System.
