(* ===== verification/Spawn.v ===== *)
(** * Making tasks: [task_fork], [general_execute] and [execve] of [kernel/src/task.c]

    The memory of a task is a block of the kernel heap; its program is at offset
    [TASK_RESERVED_SPACE], the number of its arguments, their addresses and their
    texts are in the reserved space before it.  [task_fork] copies the running task,
    [general_execute] makes a new task from a program, [execve] replaces the running
    task by a program.

    The installed file systems are an argument, and [stk] gives the buffer
    [absolute_path] that each call of the virtual file system finds on its stack. *)

From S2P Require Import Prelude Mem Pmm Kheap Dev Handle Devfs Gdt Task VfsPath Vfs UserMem System.
Local Open Scope Z_scope.
Local Open Scope st_scope.

Module Spawn.
Import Gdt Task UserMem.

Definition TASK_RESERVED_SPACE : Z := 0x10000.
Definition DEFAULT_STACK : Z := 0x10000.
Definition O_RDONLY : Z := 2.
Definition O_RDWR : Z := 3.
Definition O_WRONLY : Z := 5.
Definition SIZEOF_FILE_HANDLE : Z := 1052.
Definition SIZEOF_FILE_HANDLE_V2 : Z := 12.

Section Spawn.
Context {W : Type} {K : Kernel W} {V : Vfs.VfsState W}.
Context (filesystems : list (Vfs.filesystem_t W)).

(** ** [task_fork] *)

(** A failure: -1 in the registers of the running task. *)
Definition fork_fail (fuel : nat) : ST W outcome :=
  let! t := this_task in
  put_this (with_cpu (with_eax (u32 FAILURE) (cpu t)) t) ;;
  task_scheduler fuel.

(** The handles of the new task: a free entry has nothing but its mark in the new
    block, another one the mount point and a handle forked by its file system. *)
Fixpoint fork_handles (l : list Handle.file_handle_v2_t) : ST W (list Handle.file_handle_v2_t) :=
  match l with
  | [] => st_ret []
  | h :: l =>
      let! h' := (if negb (Handle.free h =? 0) then st_ret (Handle.MkFileHandleV2 1 0 0)
                  else
                    let! f := Vfs.fs_of filesystems (Handle.mountpoint h) in
                    let! ih := Vfs.fs_fork f (Handle.internal_handle h) in
                    st_ret (Handle.MkFileHandleV2 0 (Handle.mountpoint h) ih)) in
      let! l := fork_handles l in
      st_ret (h' :: l)
  end.

(** The new task: the copy of the running one with its own memory, handles and
    queue.  Its pointer [ldt] is the same, so that the [memcpy] of the descriptors
    copies them onto themselves. *)
Definition forked (parent b : Z) (v2 : list Handle.file_handle_v2_t) (t : task_t) : task_t :=
  let n := names t in
  with_file_handles_v2 v2 (with_ipc_queue [] (with_base b (pages t) (with_parent parent
    (with_names (MkNames (name n) [] (stdin n) (stdout n) (stderr n)) t)))).

Definition task_fork (fuel : nat) (sizeof_task : Z) (c : gpr_state) : ST W outcome :=
  let! t := this_task in
  put_this (with_cpu c t) ;;
  let! cur := current in
  let! t := this_task in
  let task_size := u32 (pages t * PAGE_SIZE) in
  let! b := kalloc task_size in
  if b =? 0 then fork_fail fuel
  else
    let! fh := kalloc (u32 (zlen (file_handles t) * SIZEOF_FILE_HANDLE)) in
    if fh =? 0 then kfree b ;; fork_fail fuel
    else
      let! fh2 := kalloc (u32 (zlen (file_handles_v2 t) * SIZEOF_FILE_HANDLE_V2)) in
      if fh2 =? 0 then kfree b ;; kfree fh ;; fork_fail fuel
      else
        let! v2 := fork_handles (file_handles_v2 t) in
        let! m := mem_read (base t) task_size in
        mem_write b m ;;
        let! new_pid := task_create sizeof_task (forked cur b v2 t) in
        if new_pid =? FAILURE then kfree b ;; kfree fh ;; kfree fh2 ;; fork_fail fuel
        else
          let! t := this_task in
          put_this (with_cpu (with_eax (u32 new_pid) (cpu t)) t) ;;
          let! n := get_task new_pid in
          put_task new_pid (with_cpu (with_eax 0 (cpu n)) n) ;;
          task_scheduler fuel.

(** ** Programs *)

(** The size of a task with a program of [size] bytes, in bytes and in pages. *)
Definition task_bytes (size : Z) : Z := u64 (TASK_RESERVED_SPACE + size + DEFAULT_STACK).
Definition task_pages (size : Z) : Z :=
  u32 (u32 (task_bytes size / PAGE_SIZE) + (if task_bytes size mod PAGE_SIZE =? 0 then 0 else 1)).
Definition stack_top (size : Z) : Z := Z.land (u64 (task_bytes size - 1)) 0xfffffff0.

(** The program at [path] is read into the task's memory at [b]. *)
Definition load_program (stk path : list Z) (b size : Z) : ST W unit :=
  let! h := Vfs.vfs_kopen filesystems stk path O_RDWR 0 in
  let! r := Vfs.vfs_kuread filesystems h (s32 size) in
  mem_write (u32 (b + TASK_RESERVED_SPACE)) r.2 ;;
  Vfs.vfs_kclose filesystems h ;;
  st_ret tt.

(** ** [general_execute] *)

(** [kstrcpy] of a text of the running task into an array of [n] bytes. *)
Definition text_into (n : Z) (a : Z) : ST W (list Z) :=
  let! s := mem_str a in if zlen s <? n then st_ret s else st_fail.

(** [create_file_handle(pid, handle)] *)
Definition create_file_handle (pid : Z) (h : Handle.file_handle_t) : ST W Z :=
  let! t := get_task pid in
  let '(n, l) := Handle.create_file_handle h (file_handles t) in
  put_task pid (with_file_handles l t) ;; st_ret n.

(** One of the handles 0, 1 and 2 of each table. *)
Definition std_handle (pid path flags : Z) : ST W Z :=
  let! p := text_into 1024 path in
  create_file_handle pid (Handle.MkFileHandle 0 p flags 0 0 0 0 1).
Definition std_stream (stk : list Z) (pid path flags : Z) : ST W unit :=
  let! p := mem_str path in
  let! k := Vfs.vfs_kopen filesystems stk p flags 0 in
  let! h := Vfs.handle_of 0 k in
  Vfs.create_file_handle_v2 pid h ;;
  let! t := get_task 0 in
  let! h := st_lift (zget (file_handles_v2 t) k) in
  let! l := st_lift (zset (file_handles_v2 t) k
    (Handle.MkFileHandleV2 1 (Handle.mountpoint h) (Handle.internal_handle h))) in
  put_task 0 (with_file_handles_v2 l t).

(** The loop that copies the arguments, from argument [i] on: [dst] is the new task's
    memory, [src] the running task's, [vec] the address of its vector. *)
Fixpoint copy_args (n : nat) (i argv_limit dst src vec : Z) : ST W unit :=
  match n with
  | O => write_word (u32 (dst + 0x1010 + 4 * i)) 0
  | S n =>
      let! p := read_word (u32 (vec + 4 * i)) in
      let! s := mem_str (u32 (p + src)) in
      mem_write (u32 (dst + argv_limit)) (s ++ [0]) ;;
      write_word (u32 (dst + 0x1010 + 4 * i)) (u32 argv_limit) ;;
      let! p := read_word (u32 (vec + 4 * i)) in
      let! s := mem_str (u32 (p + src)) in
      copy_args n (i + 1) (s32 (argv_limit + zlen s + 1)) dst src vec
  end.

(** [task_info_t]: nine words. *)
Definition info_word (info k : Z) : ST W Z := read_word (u32 (info + 4 * k)).

Definition execute_args (pid info : Z) : ST W unit :=
  let! argc := info_word info 7 in
  let! n := get_task pid in
  write_word (u32 (base n + 0x1000)) argc ;;
  let! argv := info_word info 8 in
  let! t := this_task in
  copy_args (Z.to_nat (s32 argc)) 0 0x4000 (base n) (base t) (u32 (argv + base t)).

(** The texts of the new task. *)
Definition execute_texts (pid pwd_p name_p server_p in_p out_p err_p : Z) : ST W unit :=
  let! pw := text_into 2048 pwd_p in
  let! nm := text_into 128 name_p in
  let! sv := text_into 128 server_p in
  let! i := text_into 2048 in_p in
  let! o := text_into 2048 out_p in
  let! e := text_into 2048 err_p in
  let! t := get_task pid in
  put_task pid (with_names (MkNames nm sv i o e) (with_pwd pw t)).

Definition new_task (par b pgs : Z) : task_t :=
  MkTask KRN_STAT_ACTIVE_TASK par b pgs default_cpu_status [] (MkNames [] [] [] [] []) no_iowait []
    0 0 [] 0 0 (replicate 6 0) [] [].

Definition general_execute (sizeof_task : Z) (stk : Z -> list Z) (task_info : Z) : ST W Z :=
  let! cur := current in
  let! t := this_task in
  let info := u32 (task_info + base t) in
  let arg k := (let! p := info_word info k in st_ret (u32 (p + base t))) in
  let! path := arg 0 in let! pwd_p := arg 4 in let! name_p := arg 5 in let! server_p := arg 6 in
  let! in_p := arg 1 in let! out_p := arg 2 in let! err_p := arg 3 in
  let! file := mem_str path in
  let! md := Vfs.vfs_kget_metadata filesystems (stk 0) file Vfs.FILE_TYPE in
  match md with
  | None => st_ret FAILURE
  | Some metadata =>
      let size := Vfs.msize metadata in
      let pgs := task_pages size in
      let! b := kalloc (u32 (pgs * PAGE_SIZE)) in
      if b =? 0 then st_ret FAILURE
      else
        load_program (stk 1) file b size ;;
        let! new_pid := task_create sizeof_task (new_task cur b pgs) in
        if new_pid =? FAILURE then kfree b ;; st_ret FAILURE
        else
          let! n := get_task new_pid in
          put_task new_pid (with_heap (u32 (pgs * PAGE_SIZE)) 0
            (with_cpu (with_entry TASK_RESERVED_SPACE (stack_top size) (cpu n)) n)) ;;
          execute_texts new_pid pwd_p name_p server_p in_p out_p err_p ;;
          std_handle new_pid in_p O_RDONLY ;;
          std_handle new_pid out_p O_WRONLY ;;
          std_handle new_pid err_p O_WRONLY ;;
          std_stream (stk 2) new_pid in_p O_RDONLY ;;
          std_stream (stk 3) new_pid out_p O_WRONLY ;;
          std_stream (stk 4) new_pid err_p O_WRONLY ;;
          execute_args new_pid info ;;
          st_ret new_pid
  end.

Definition general_execute_block (sizeof_task : Z) (stk : Z -> list Z) (task_info : Z) : ST W Z :=
  let! r := general_execute sizeof_task stk task_info in
  if r =? FAILURE then st_ret (-1)
  else let! t := this_task in put_this (with_status KRN_STAT_PROCWAIT_TASK t) ;; st_ret 0.

(** ** [execve] *)

(** The loop that copies a vector of at most [n] texts of the running task into blocks
    of the kernel, whose addresses are stored at [tmp]: the block is as long as the text
    at [p + base], the text copied into it is the one at the address [p] itself.  The
    result is the number of texts. *)
Fixpoint save_args (n : nat) (i vec tmp b : Z) : ST W Z :=
  match n with
  | O => st_ret i
  | S n =>
      let! p := read_word (u32 (vec + 4 * i)) in
      if p =? 0 then st_ret i
      else
        let! s := mem_str (u32 (p + b)) in
        let! q := kalloc (u32 (zlen s + 1)) in
        write_word (u32 (tmp + 4 * i)) q ;;
        let! raw := mem_str p in
        mem_write q (raw ++ [0]) ;;
        save_args n (i + 1) vec tmp b
  end.
Definition save_vector (vec tmp b : Z) : ST W Z :=
  let! n := save_args 256 0 vec tmp b in
  write_word (u32 (tmp + 4 * n)) 0 ;; st_ret n.

(** The loop that puts the saved texts into the new memory at [dst] from offset [limit]
    on, and their offsets into the table at [tbl]. *)
Fixpoint place_args (fuel : nat) (i limit dst tbl tmp : Z) : ST W unit :=
  match fuel with
  | O => st_fail
  | S fuel =>
      let! p := read_word (u32 (tmp + 4 * i)) in
      if p =? 0 then write_word (u32 (tbl + 4 * i)) 0
      else
        let! s := mem_str p in
        mem_write (u32 (dst + limit)) (s ++ [0]) ;;
        write_word (u32 (tbl + 4 * i)) (u32 limit) ;;
        let! s := mem_str p in
        kfree p ;;
        place_args fuel (i + 1) (s32 (limit + zlen s + 1)) dst tbl tmp
  end.

(** What the running task becomes; its [pages] stay. *)
Definition exec_task (b size : Z) (t : task_t) : task_t :=
  with_heap (u32 (task_pages size * PAGE_SIZE)) 0
    (with_cpu (with_entry TASK_RESERVED_SPACE (stack_top size) (cpu t))
      (with_base b (pages t) (with_status KRN_STAT_ACTIVE_TASK t))).
Definition exec_enter (b size : Z) : ST W unit :=
  let! t := this_task in put_this (exec_task b size t).

(** The arguments and the environment, in that order, in the memory at [b]. *)
Definition exec_args (b argc tmp_argv tmp_envp : Z) : ST W unit :=
  write_word (u32 (b + 0x1000)) argc ;;
  place_args 257 0 0x4000 b (u32 (b + 0x1010)) tmp_argv ;;
  place_args 257 0 0x8000 b (u32 (b + 0x1020)) tmp_envp.

(** [None] is the return to the caller with [FAILURE]. *)
Definition execve (fuel : nat) (stk : Z -> list Z) (path argv envp : Z) : ST W (option outcome) :=
  let! tmp_argv := kalloc (4 * 256) in
  let! tmp_envp := kalloc (4 * 256) in
  let! t := this_task in
  let prev_base := base t in
  let! file := mem_str (u32 (path + base t)) in
  let! md := Vfs.vfs_kget_metadata filesystems (stk 0) file Vfs.FILE_TYPE in
  match md with
  | None => st_ret None
  | Some metadata =>
      let size := Vfs.msize metadata in
      let! argc := save_vector (u32 (argv + base t)) tmp_argv (base t) in
      let! envc := save_vector (u32 (envp + base t)) tmp_envp (base t) in
      let! t := this_task in
      put_this (with_cpu default_cpu_status t) ;;
      let! b := kalloc (u32 (task_pages size * PAGE_SIZE)) in
      let! file := mem_str (u32 (path + base t)) in
      load_program (stk 1) file b size ;;
      exec_enter b size ;;
      exec_args b argc tmp_argv tmp_envp ;;
      kfree prev_base ;; kfree tmp_argv ;; kfree tmp_envp ;;
      let! o := task_scheduler fuel in st_ret (Some o)
  end.

End Spawn.

(** ** Lemmas: the table of tasks *)

Lemma find_slot_insert i l k t t' : zget l k = Some (Task t) -> find_slot i (<[Z.to_nat k := Task t']> l) = find_slot i l.
Proof.
  intros Hk. pose proof (zget_Some _ _ _ Hk) as Hr. rewrite zget_lookup in Hk by lia. remember (Z.to_nat k) as n eqn:En.
  clear En Hr. revert i n Hk. induction l as [|e l IH]; intros i [|n] Hk; try done; cbn in Hk |- *.
  - by injection Hk as ->.
  - destruct (is_task e); [by apply IH|done].
Qed.

(** The size of a task's memory, when nothing wraps. *)
Lemma task_bytes_eq size : 0 <= size < 2 ^ 31 -> task_bytes size = 0x20000 + size.
Proof. intros Hs. unfold task_bytes, TASK_RESERVED_SPACE, DEFAULT_STACK. rewrite u64_small; lia. Qed.
Lemma task_pages_eq size : 0 <= size < 2 ^ 31 -> task_pages size = (0x20000 + size + 4095) / 4096.
Proof.
  intros Hs. pose proof (task_bytes_eq size Hs) as Hb.
  unfold task_pages, PAGE_SIZE. rewrite Hb.
  assert (0 <= (0x20000 + size) / 4096 < 2 ^ 20) as Hq by (split; [apply Z.div_pos; lia|apply Z.div_lt_upper_bound; lia]).
  rewrite (u32_small ((0x20000 + size) / 4096)) by lia.
  destruct (Z.eqb_spec ((0x20000 + size) mod 4096) 0); rewrite u32_small by lia; zdml.
Qed.

Section Fork.
Context {W : Type} {K : Kernel W} {L : KernelLaws K} {V : Vfs.VfsState W} {U : UserMem K}.
#[local] Set Default Proof Using "Type*".
Implicit Types (s : sched) (w : W) (t : task_t).

(** A task created in the first entry without one. *)
Lemma create_ok s w w' n t p : let pid := find_slot 0 (task_table s) in
  pid <> KRNL_MAX_TASKS -> pid < zlen (task_table s) -> kalloc n w = Some (p, w') -> p <> 0 ->
  task_create n t (set_sched s w) =
    Some (pid, set_sched (with_table (<[Z.to_nat pid := Task t]> (task_table s)) s) w').
Proof using L.
  intros pid Hp Hl Hk Hp0. pose proof (find_slot_spec 0 (task_table s)) as (H0 & _ & _). fold pid in H0.
  unfold task_create. erewrite st_bind_ok by (unfold st_get; by rewrite get_set). fold pid.
  rewrite (proj2 (Z.eqb_neq _ _)) by done. erewrite st_bind_ok by (by apply frame_ok; [apply kalloc_frame|]).
  rewrite (proj2 (Z.eqb_neq p 0)) by done. unfold put_task.
  erewrite st_bind_ok by (apply set_slot_ok, zset_ok; lia). done.
Qed.

(** The copy of the memory at [a] in the block at [b]. *)
Lemma copy_memory_ok s w a b n : 0 <= a -> a + Z.of_nat n <= 2 ^ 32 -> 0 <= b -> b + Z.of_nat n <= 2 ^ 32 ->
  let m := bytes_at (mbytes w) a n in
  exists w', mem_read a (Z.of_nat n) (set_sched s w) = Some (m, set_sched s w) /\ mem_write b m w = Some (tt, w') /\
    mem_write b m (set_sched s w) = Some (tt, set_sched s w') /\ bytes_at (mbytes w') b n = bytes_at (mbytes w) a n /\
    forall x, x < b \/ b + Z.of_nat n <= x -> mbytes w' x = mbytes w x.
Proof.
  intros Ha Ha' Hb Hb' m.
  assert (zlen m = Z.of_nat n) as Hm by apply mem_bytes_len.
  destruct (mem_write_ok b m w Hb) as (w' & E & Hw & _); [lia|apply Forall_fmap, Forall_forall; intros x _; apply mbytes_byte|].
  exists w'. split; [|split; [exact E|split; [|split]]].
  - apply frame_ok; [apply mem_read_frame|by apply mem_read_ok].
  - by apply frame_ok; [apply mem_write_frame|].
  - rewrite Hw. replace n with (length m) at 1 by (unfold zlen in Hm; lia). apply store_bytes_at.
  - intros x Hx. rewrite Hw. apply store_out. lia.
Qed.

(** The entries of the parent and of the child after a fork. *)
Definition forked_table (l l' : list slot) (cur pid : Z) (par child : task_t) : Prop :=
  zget l' cur = Some (Task par) /\ zget l' pid = Some (Task child) /\
  forall i, i <> cur -> i <> pid -> zget l' i = zget l i.

(** The end of a fork: the numbers in the registers of the two tasks. *)
Lemma fork_finish_ok s w cur pid t n fuel : cur = current_task s -> cur <> pid ->
  zget (task_table s) cur = Some (Task t) -> zget (task_table s) pid = Some (Task n) -> exists l,
  (let! t := this_task in
   put_this (with_cpu (with_eax (u32 pid) (cpu t)) t) ;;
   let! n := get_task pid in
   put_task pid (with_cpu (with_eax 0 (cpu n)) n) ;;
   task_scheduler fuel) (set_sched s w) = task_scheduler fuel (set_sched (with_table l s) w) /\
  forked_table (task_table s) l cur pid (with_cpu (with_eax (u32 pid) (cpu t)) t) (with_cpu (with_eax 0 (cpu n)) n).
Proof using L.
  intros -> Hne Ht Hn. set (t' := with_cpu _ t). set (n' := with_cpu _ n).
  pose proof (zset_ok (task_table s) (current_task s) (Task t') ltac:(by eapply zget_Some)) as E1.
  set (l1 := <[_:=_]> (task_table s)) in E1.
  assert (zget l1 pid = Some (Task n)) as Hn1 by (by rewrite (zget_zset _ _ _ _ _ E1), decide_False).
  pose proof (zset_ok l1 pid (Task n') ltac:(by eapply zget_Some)) as E2.
  eexists. split; [|split; [|split]].
  - erewrite st_bind_ok by (by apply this_task_ok). erewrite st_bind_ok by (by apply put_this_ok).
    erewrite st_bind_ok by (by apply get_task_ok). unfold put_task.
    erewrite st_bind_ok by (by apply set_slot_ok). done.
  - cbn [task_table with_table]. by rewrite (zget_zset _ _ _ _ _ E2), decide_False, (zget_zset _ _ _ _ _ E1), decide_True.
  - by rewrite (zget_zset _ _ _ _ _ E2), decide_True.
  - intros i Hi Hi'. by rewrite (zget_zset _ _ _ _ _ E2), decide_False, (zget_zset _ _ _ _ _ E1), decide_False.
Qed.

Context (filesystems : list (Vfs.filesystem_t W)).

(** The handles of a forked task, one by one. *)
Definition forked_handle (h h' : Handle.file_handle_v2_t) : Prop :=
  (Handle.free h = 0 -> Handle.free h' = 0 /\ Handle.mountpoint h' = Handle.mountpoint h) /\
  (Handle.free h <> 0 -> Handle.free h' <> 0).

Lemma fork_handles_ok l w v2 w' : fork_handles filesystems l w = Some (v2, w') -> Forall2 forked_handle l v2.
Proof.
  revert w v2. induction l as [|h l IH]; intros w v2; cbn [fork_handles].
  - intros [= <- <-]. constructor.
  - unfold st_bind at 1. destruct (Z.eqb_spec (Handle.free h) 0) as [Hf|Hf]; cbn [negb].
    + unfold st_bind at 1 2. destruct (Vfs.fs_of _ _ w) as [[f w1]|]; [|done].
      destruct (Vfs.fs_fork f _ w1) as [[ih w2]|]; [|done]. unfold st_ret at 1, st_bind.
      destruct (fork_handles filesystems l w2) as [[v w3]|] eqn:E; [|done]. intros [= <- <-].
      constructor; [by split|by eapply IH].
    + unfold st_ret at 1, st_bind. destruct (fork_handles filesystems l w) as [[v w3]|] eqn:E; [|done].
      intros [= <- <-]. constructor; [by split|by eapply IH].
Qed.

(** ** Lemmas: the ways out of a fork *)

(** The table after a fork that has failed: -1 for the task, and nothing else. *)
Definition fork_failed (c : gpr_state) (t : task_t) (cur : Z) (l l' : list slot) : Prop :=
  zget l' cur = Some (Task (with_cpu (with_eax (u32 FAILURE) c) t)) /\ forall i, i <> cur -> zget l' i = zget l i.

(** The running task with its registers saved. *)
Definition saved_cpu (c : gpr_state) (t : task_t) (s : sched) : sched :=
  with_table (<[Z.to_nat (current_task s) := Task (with_cpu c t)]> (task_table s)) s.
Lemma saved_cpu_get c t t0 s i : zget (task_table s) (current_task s) = Some (Task t0) ->
  zget (task_table (saved_cpu c t s)) i = if decide (current_task s = i) then Some (Task (with_cpu c t)) else zget (task_table s) i.
Proof using. intros Ht. apply zget_zset, zset_ok. by eapply zget_Some. Qed.

Lemma fork_fail_ok c t s w fuel : zget (task_table s) (current_task s) = Some (Task (with_cpu c t)) -> exists l,
  fork_fail fuel (set_sched s w) = task_scheduler fuel (set_sched (with_table l s) w) /\
  fork_failed c t (current_task s) (task_table s) l.
Proof using L.
  intros Ht. set (t2 := with_cpu (with_eax (u32 FAILURE) c) t).
  pose proof (zset_ok (task_table s) (current_task s) (Task t2) ltac:(by eapply zget_Some)) as E.
  eexists. split; [|split].
  - unfold fork_fail. erewrite st_bind_ok by (by apply this_task_ok). by erewrite st_bind_ok by (by apply put_this_ok).
  - by rewrite (zget_zset _ _ _ _ _ E), decide_True.
  - intros i Hi. by rewrite (zget_zset _ _ _ _ _ E), decide_False.
Qed.

(** A failing end from the state with the saved registers. *)
Lemma fork_gives_up c t s w fuel : zget (task_table s) (current_task s) = Some (Task t) -> exists l,
  fork_fail fuel (set_sched (saved_cpu c t s) w) = task_scheduler fuel (set_sched (with_table l s) w) /\
  fork_failed c t (current_task s) (task_table s) l.
Proof using L.
  intros Ht. destruct (fork_fail_ok c t (saved_cpu c t s) w fuel) as (l & E & F1 & F2);
    [rewrite (saved_cpu_get _ _ t) by done; by rewrite decide_True|].
  exists l. split; [exact E|]. split; [exact F1|]. intros i Hi. rewrite F2 by done.
  rewrite (saved_cpu_get _ _ t) by done. by rewrite decide_False.
Qed.

(** [task_fork] up to its first allocation, and an allocation or release in it. *)
Ltac fork_enter :=
  unfold task_fork; erewrite st_bind_ok by (by apply this_task_ok);
  erewrite st_bind_ok by (apply put_this_ok, zset_ok; by eapply zget_Some);
  match goal with |- context [with_table (<[_ := Task (with_cpu ?c ?t)]> _) ?s] => fold (saved_cpu c t s) end;
  erewrite st_bind_ok by apply current_ok;
  erewrite st_bind_ok by (apply this_task_ok; erewrite saved_cpu_get by done; by rewrite decide_True);
  cbn [pages with_cpu file_handles file_handles_v2 base];
  try match goal with H : u32 (pages _ * _) = _ |- _ => rewrite H end.
Ltac fork_alloc := erewrite st_bind_ok by (by apply frame_ok; [apply kalloc_frame|]);
  first [rewrite (proj2 (Z.eqb_neq _ 0)) by done | rewrite Z.eqb_refl].
Ltac fork_free := erewrite st_bind_ok by (by apply frame_ok; [apply kfree_frame|]).

Section Ends.
Context (s : sched) (c : gpr_state) (t : task_t) (fuel : nat) (sz : Z).
Context (Ht : zget (task_table s) (current_task s) = Some (Task t)).

(** What [task_fork] does, by the state of the rest of the kernel. *)
Definition fork_ends (w : W) (l : list slot) (x : W) : Prop :=
  task_fork filesystems fuel sz c (set_sched s w) = task_scheduler fuel (set_sched (with_table l s) x).
Definition fork_fails (w x : W) : Prop :=
  exists l, fork_ends w l x /\ fork_failed c t (current_task s) (task_table s) l.

(** [task_fork] from [task_create] on. *)
Definition fork_end (b fh fh2 : Z) (v2 : list Handle.file_handle_v2_t) : ST W outcome :=
  let! new_pid := task_create sz (forked (current_task s) b v2 (with_cpu c t)) in
  if new_pid =? FAILURE then kfree b ;; kfree fh ;; kfree fh2 ;; fork_fail fuel
  else
    let! t := this_task in
    put_this (with_cpu (with_eax (u32 new_pid) (cpu t)) t) ;;
    let! n := get_task new_pid in
    put_task new_pid (with_cpu (with_eax 0 (cpu n)) n) ;;
    task_scheduler fuel.

Section Blocks.
Context (n : nat) (Hn : u32 (pages t * PAGE_SIZE) = Z.of_nat n).

Lemma fork_no_memory w w1 : kalloc (Z.of_nat n) w = Some (0, w1) -> fork_fails w w1.
Proof.
  intros K1. destruct (fork_gives_up c t s w1 fuel Ht) as (l & E & HF). exists l. split; [|exact HF].
  unfold fork_ends. fork_enter. fork_alloc. exact E.
Qed.

Lemma fork_no_handles w w1 w2 u b : kalloc (Z.of_nat n) w = Some (b, w1) -> b <> 0 ->
  kalloc (u32 (zlen (file_handles t) * SIZEOF_FILE_HANDLE)) w1 = Some (0, w2) -> kfree b w2 = Some (tt, u) ->
  fork_fails w u.
Proof.
  intros K1 Hb K2 F1. destruct (fork_gives_up c t s u fuel Ht) as (l & E & HF). exists l. split; [|exact HF].
  unfold fork_ends. fork_enter. do 2 fork_alloc. fork_free. exact E.
Qed.

Lemma fork_no_handles_v2 w w1 w2 w3 u u' b fh : kalloc (Z.of_nat n) w = Some (b, w1) -> b <> 0 ->
  kalloc (u32 (zlen (file_handles t) * SIZEOF_FILE_HANDLE)) w1 = Some (fh, w2) -> fh <> 0 ->
  kalloc (u32 (zlen (file_handles_v2 t) * SIZEOF_FILE_HANDLE_V2)) w2 = Some (0, w3) ->
  kfree b w3 = Some (tt, u) -> kfree fh u = Some (tt, u') -> fork_fails w u'.
Proof.
  intros K1 Hb K2 Hfh K3 F1 F2. destruct (fork_gives_up c t s u' fuel Ht) as (l & E & HF). exists l. split; [|exact HF].
  unfold fork_ends. fork_enter. do 3 fork_alloc. do 2 fork_free. exact E.
Qed.

(** With the three blocks, up to the new task. *)
Context (w w1 w2 w3 w4 : W) (b fh fh2 : Z) (v2 : list Handle.file_handle_v2_t).
Context (K1 : kalloc (Z.of_nat n) w = Some (b, w1)) (B0 : 0 < b) (B1 : b + Z.of_nat n <= 2 ^ 32)
  (T0 : 0 <= base t) (T1 : base t + Z.of_nat n <= 2 ^ 32)
  (K2 : kalloc (u32 (zlen (file_handles t) * SIZEOF_FILE_HANDLE)) w1 = Some (fh, w2)) (Hfh : fh <> 0)
  (K3 : kalloc (u32 (zlen (file_handles_v2 t) * SIZEOF_FILE_HANDLE_V2)) w2 = Some (fh2, w3)) (Hfh2 : fh2 <> 0)
  (Hv : fork_handles filesystems (file_handles_v2 t) (set_sched (saved_cpu c t s) w3) = Some (v2, set_sched (saved_cpu c t s) w4)).

Lemma fork_copies : exists w5, mem_write b (bytes_at (mbytes w4) (base t) n) w4 = Some (tt, w5) /\
  bytes_at (mbytes w5) b n = bytes_at (mbytes w4) (base t) n /\
  (forall x, x < b \/ b + Z.of_nat n <= x -> mbytes w5 x = mbytes w4 x) /\
  task_fork filesystems fuel sz c (set_sched s w) = fork_end b fh fh2 v2 (set_sched (saved_cpu c t s) w5).
Proof.
  destruct (copy_memory_ok (saved_cpu c t s) w4 (base t) b n) as (w5 & Er & E5 & Ew & Hm & Hout); [lia..|].
  exists w5. split; [exact E5|]. split; [exact Hm|]. split; [exact Hout|]. assert (b <> 0) by lia. fork_enter. do 3 fork_alloc.
  erewrite st_bind_ok by exact Hv. erewrite st_bind_ok by exact Er. by erewrite st_bind_ok by exact Ew.
Qed.

End Blocks.

Context (b fh fh2 : Z) (v2 : list Handle.file_handle_v2_t).

Lemma fork_full w5 u u' u'' : find_slot 0 (task_table s) = KRNL_MAX_TASKS ->
  kfree b w5 = Some (tt, u) -> kfree fh u = Some (tt, u') -> kfree fh2 u' = Some (tt, u'') -> exists l,
  fork_end b fh fh2 v2 (set_sched (saved_cpu c t s) w5) = task_scheduler fuel (set_sched (with_table l s) u'') /\
  fork_failed c t (current_task s) (task_table s) l.
Proof using L Ht.
  intros Hp F1 F2 F3. destruct (fork_gives_up c t s u'' fuel Ht) as (l & E & HF). exists l. split; [|exact HF].
  assert (task_create sz (forked (current_task s) b v2 (with_cpu c t)) (set_sched (saved_cpu c t s) w5) =
    Some (FAILURE, set_sched (saved_cpu c t s) w5)) as Ec.
  { unfold task_create. erewrite st_bind_ok by (unfold st_get; by rewrite get_set).
    unfold saved_cpu. cbn [task_table with_table]. by rewrite (find_slot_insert 0 _ _ t), Hp. }
  unfold fork_end. erewrite st_bind_ok by exact Ec. change (FAILURE =? FAILURE) with true. cbv iota. do 3 fork_free. exact E.
Qed.

Context (Hpid : find_slot 0 (task_table s) < zlen (task_table s)) (Hmax : find_slot 0 (task_table s) <> KRNL_MAX_TASKS).

Lemma fork_slot : find_slot 0 (task_table (saved_cpu c t s)) = find_slot 0 (task_table s) /\
  current_task s <> find_slot 0 (task_table s) /\ 0 <= find_slot 0 (task_table s) < zlen (task_table (saved_cpu c t s)).
Proof using Ht Hpid Hmax.
  pose proof (find_slot_spec 0 (task_table s)) as (P0 & _ & P2). split; [by apply (find_slot_insert 0 _ _ t)|]. split.
  - intros E. eapply (P2 ltac:(lia) t). by rewrite Z.sub_0_r, <- E.
  - unfold saved_cpu. cbn [task_table with_table]. rewrite zlen_insert. lia.
Qed.

Lemma fork_no_task w5 w6 u u' u'' : kalloc sz w5 = Some (0, w6) ->
  kfree b w6 = Some (tt, u) -> kfree fh u = Some (tt, u') -> kfree fh2 u' = Some (tt, u'') -> exists l,
  fork_end b fh fh2 v2 (set_sched (saved_cpu c t s) w5) = task_scheduler fuel (set_sched (with_table l s) u'') /\
  fork_failed c t (current_task s) (<[Z.to_nat (find_slot 0 (task_table s)) := EmptyPid]> (task_table s)) l.
Proof using L Ht Hpid Hmax.
  intros K4 F1 F2 F3. destruct fork_slot as (Es & Hne & Hr). set (pid := find_slot 0 (task_table s)) in *.
  pose proof (zset_ok (task_table (saved_cpu c t s)) pid EmptyPid Hr) as E1. set (l1 := <[_ := _]> _) in E1.
  pose proof (zset_ok (task_table s) pid EmptyPid ltac:(unfold pid in *; lia)) as E0.
  assert (task_create sz (forked (current_task s) b v2 (with_cpu c t)) (set_sched (saved_cpu c t s) w5) =
    Some (FAILURE, set_sched (with_table l1 (saved_cpu c t s)) w6)) as Ec.
  { unfold task_create. erewrite st_bind_ok by (unfold st_get; by rewrite get_set). rewrite Es. fold pid.
    rewrite (proj2 (Z.eqb_neq _ _)) by done. fork_alloc. by erewrite st_bind_ok by (by apply set_slot_ok). }
  destruct (fork_fail_ok c t (with_table l1 (saved_cpu c t s)) u'' fuel) as (l & E & G1 & G2).
  { cbn [task_table with_table current_task]. rewrite (zget_zset _ _ _ _ _ E1), decide_False by done.
    erewrite saved_cpu_get by done. by rewrite decide_True. }
  exists l. split; [|split; [exact G1|]].
  - unfold fork_end. erewrite st_bind_ok by exact Ec. change (FAILURE =? FAILURE) with true. cbv iota. do 3 fork_free. exact E.
  - intros i Hi. rewrite G2 by done. cbn [task_table with_table]. rewrite (zget_zset _ _ _ _ _ E1), (zget_zset _ _ _ _ _ E0).
    case_decide; [done|]. erewrite saved_cpu_get by done. by rewrite decide_False.
Qed.

Lemma fork_makes_task w5 w6 q : kalloc sz w5 = Some (q, w6) -> q <> 0 -> exists l,
  fork_end b fh fh2 v2 (set_sched (saved_cpu c t s) w5) = task_scheduler fuel (set_sched (with_table l s) w6) /\
  forked_table (task_table s) l (current_task s) (find_slot 0 (task_table s))
    (with_cpu (with_eax (u32 (find_slot 0 (task_table s))) c) t) (with_cpu (with_eax 0 c) (forked (current_task s) b v2 t)).
Proof using L Ht Hpid Hmax.
  intros K4 Hq. destruct fork_slot as (Es & Hne & Hr). set (pid := find_slot 0 (task_table s)) in *.
  set (child := forked (current_task s) b v2 (with_cpu c t)).
  assert (task_create sz child (set_sched (saved_cpu c t s) w5) =
    Some (pid, set_sched (with_table (<[Z.to_nat pid := Task child]> (task_table (saved_cpu c t s))) (saved_cpu c t s)) w6)) as Ec.
  { rewrite <- Es. apply (create_ok _ w5 w6 sz child q); rewrite ?Es; (done || lia). }
  pose proof (zset_ok (task_table (saved_cpu c t s)) pid (Task child) Hr) as E2.
  set (l2 := <[Z.to_nat pid:=_]> _) in Ec, E2.
  destruct (fork_finish_ok (with_table l2 (saved_cpu c t s)) w6 (current_task s) pid (with_cpu c t) child fuel eq_refl Hne)
    as (l & Ef & F1 & F2 & F3);
    [cbn [task_table with_table]; rewrite (zget_zset _ _ _ _ _ E2), decide_False by done; erewrite saved_cpu_get by done; by rewrite decide_True
    |cbn [task_table with_table]; by rewrite (zget_zset _ _ _ _ _ E2), decide_True|].
  exists l. split; [|split; [exact F1|split; [exact F2|]]].
  - unfold fork_end. erewrite st_bind_ok by exact Ec. rewrite (proj2 (Z.eqb_neq pid FAILURE)) by (unfold FAILURE; lia). exact Ef.
  - intros i Hi Hi'. rewrite F3 by done. cbn [task_table with_table]. rewrite (zget_zset _ _ _ _ _ E2), decide_False by done.
    erewrite saved_cpu_get by done. by rewrite decide_False.
Qed.

End Ends.
End Fork.

(** ** Lemmas: arguments *)

(** The argument vector from entry [i] of the table at [tbl] on: the offset and the
    text of each argument, then the null entry. *)
Fixpoint arg_block (m : mem) (dst tbl i limit : Z) (args : list (list Z)) : Prop :=
  match args with
  | [] => load32 m (tbl + 4 * i) = 0
  | s :: args => load32 m (tbl + 4 * i) = limit /\ cstr_at m (dst + limit) s /\
                 arg_block m dst tbl (i + 1) (limit + zlen s + 1) args
  end.

Fixpoint texts_size (args : list (list Z)) : Z :=
  match args with [] => 0 | s :: args => zlen s + 1 + texts_size args end.

(** The vector at [vec] from entry [i] on holds the arguments: [f] is the address of
    the text for an entry, and all lies outside of [[lo, hi)]. *)
Definition apart (lo hi a n : Z) : Prop := a + n <= lo \/ hi <= a.
Fixpoint arg_source (f : Z -> Z) (lo hi : Z) (m : mem) (vec i : Z) (args : list (list Z)) : Prop :=
  match args with
  | [] => True
  | s :: args =>
      let a := f (load32 m (vec + 4 * i)) in
      0 <= a /\ a + zlen s < 2 ^ 32 /\ zlen s < TEXT_MAX /\ cstr_at m a s /\ apart lo hi a (zlen s + 1) /\
      apart lo hi (vec + 4 * i) 4 /\ vec + 4 * i + 4 <= 2 ^ 32 /\
      arg_source f lo hi m vec (i + 1) args
  end.

Lemma texts_size_nonneg args : 0 <= texts_size args.
Proof. induction args as [|s args IH]; cbn; [lia|]. pose proof (zlen_nonneg s). lia. Qed.

Lemma arg_source_ext f lo hi m m' vec i args : arg_source f lo hi m vec i args ->
  (forall x, x < lo \/ hi <= x -> m' x = m x) -> lo <= hi -> arg_source f lo hi m' vec i args.
Proof.
  intros H E Hlh. revert i H. induction args as [|s args IH]; intros i; cbn; [done|].
  intros (H1 & H2 & H3 & H4 & H5 & H6 & H7 & H8). pose proof (zlen_nonneg s).
  assert (load32 m' (vec + 4 * i) = load32 m (vec + 4 * i)) as -> by
    (apply load32_frame; intros x Hx; apply E; unfold apart in H6; lia).
  do 3 (split; [done|]). split; [|split; [done|split; [done|split; [done|by apply IH]]]].
  apply (cstr_ext m m'); [done|]. intros x Hx. apply E. unfold apart in H5. lia.
Qed.

Lemma arg_block_ext m m' dst tbl i limit args : arg_block m dst tbl i limit args ->
  (forall x, tbl + 4 * i <= x < tbl + 4 * (i + zlen args + 1) -> m' x = m x) ->
  (forall x, dst + limit <= x < dst + limit + texts_size args -> m' x = m x) ->
  arg_block m' dst tbl i limit args.
Proof.
  revert i limit. induction args as [|s args IH]; intros i limit; cbn [arg_block texts_size].
  - intros H Ht _. rewrite <- H. apply load32_frame. intros x Hx. apply Ht. rewrite zlen_nil. lia.
  - intros (H1 & H2 & H3) Ht Hx. rewrite zlen_cons in Ht. pose proof (zlen_nonneg args). pose proof (zlen_nonneg s).
    pose proof (texts_size_nonneg args). split; [|split].
    + rewrite <- H1. apply load32_frame. intros x Hr. apply Ht. lia.
    + apply (cstr_ext m m'); [done|]. intros x Hr. apply Hx. lia.
    + apply IH; [done|intros x Hr; apply Ht; lia|intros x Hr; apply Hx; lia].
Qed.

Section Args.
Context {W : Type} {K : Kernel W} {U : UserMem K}.
#[local] Set Default Proof Using "Type*".
Implicit Types w : W.

Lemma cstr_bytes w a s : cstr_at (mbytes w) a s -> Forall is_byte (s ++ [0]).
Proof.
  intros (<- & _ & _). apply Forall_app. split; [|by repeat constructor].
  apply Forall_fmap, Forall_forall. intros x _. apply mbytes_byte.
Qed.

(** One argument: its text, then its entry. *)
Lemma put_arg_ok dst tbl i limit s w a : 0 <= dst -> 0 <= tbl + 4 * i -> tbl + 4 * i + 4 <= dst + limit ->
  0 <= limit < 2 ^ 32 -> dst + limit + zlen s + 1 <= 2 ^ 32 -> cstr_at (mbytes w) a s -> exists w1 w2,
  mem_write (u32 (dst + limit)) (s ++ [0]) w = Some (tt, w1) /\
  write_word (u32 (tbl + 4 * i)) (u32 limit) w1 = Some (tt, w2) /\ get_sched w2 = get_sched w /\
  load32 (mbytes w2) (tbl + 4 * i) = limit /\ cstr_at (mbytes w2) (dst + limit) s /\
  forall x, x < tbl + 4 * i \/ tbl + 4 * i + 4 <= x -> x < dst + limit \/ dst + limit + zlen s + 1 <= x ->
    mbytes w2 x = mbytes w x.
Proof.
  intros Hd Ht Hlow Hlim Hend Hs. pose proof (zlen_nonneg s). pose proof (cstr_bytes w a s Hs) as Hb.
  destruct Hs as (_ & Hnz & _). rewrite !u32_small by lia.
  assert (zlen (s ++ [0]) = zlen s + 1) as Hz by (by rewrite zlen_app).
  destruct (mem_write_ok (dst + limit) (s ++ [0]) w) as (w1 & E1 & M1 & S1); [lia|lia|done|].
  destruct (write_word_ok (tbl + 4 * i) limit w1) as (w2 & E2 & M2 & S2); [lia|lia|].
  exists w1, w2. do 2 (split; [done|]). split; [congruence|]. split; [|split].
  - rewrite M2, store_word. by apply u32_small.
  - apply (cstr_ext (mbytes w1)).
    + apply (cstr_ext _ _ _ _ (store_cstr (mbytes w) (dst + limit) s Hnz)). intros x _. apply M1.
    + intros x Hx. rewrite M2. apply store_out. change (zlen (le32 limit)) with 4. lia.
  - intros x Hx Hx'. rewrite M2, store_out by (change (zlen (le32 limit)) with 4; lia).
    rewrite M1. apply store_out. lia.
Qed.

(** The null entry. *)
Lemma end_args_ok dst tbl i limit w : 0 <= tbl + 4 * i -> tbl + 4 * i + 4 <= 2 ^ 32 -> exists w',
  write_word (u32 (tbl + 4 * i)) 0 w = Some (tt, w') /\ get_sched w' = get_sched w /\
  arg_block (mbytes w') dst tbl i limit [] /\
  forall x, x < tbl + 4 * i \/ tbl + 4 * i + 4 <= x -> mbytes w' x = mbytes w x.
Proof.
  intros H0 H1. rewrite u32_small by lia. destruct (write_word_ok (tbl + 4 * i) 0 w H0 H1) as (w' & E & M & Hs).
  exists w'. split; [done|]. split; [done|]. split.
  - cbn. by rewrite M, store_word.
  - intros x Hx. rewrite M. apply store_out. change (zlen (le32 0)) with 4. lia.
Qed.

(** What a loop over the rest of the arguments promises: the block is there, and
    nothing but the table and the texts has changed. *)
Definition placed (dst tbl i limit : Z) (args : list (list Z)) (w w' : W) : Prop :=
  get_sched w' = get_sched w /\ arg_block (mbytes w') dst tbl i limit args /\
  forall x, x < tbl + 4 * i \/ tbl + 4 * (i + zlen args + 1) <= x ->
    x < dst + limit \/ dst + limit + texts_size args <= x -> mbytes w' x = mbytes w x.

Lemma placed_nil dst tbl i limit w w' : get_sched w' = get_sched w -> arg_block (mbytes w') dst tbl i limit [] ->
  (forall x, x < tbl + 4 * i \/ tbl + 4 * i + 4 <= x -> mbytes w' x = mbytes w x) -> placed dst tbl i limit [] w w'.
Proof. intros H1 H2 H3. split; [done|]. split; [done|]. intros x Hx _. apply H3. rewrite zlen_nil in Hx. lia. Qed.

Lemma placed_cons dst tbl i limit s args w w2 w' : get_sched w2 = get_sched w ->
  load32 (mbytes w2) (tbl + 4 * i) = limit -> cstr_at (mbytes w2) (dst + limit) s ->
  (forall x, x < tbl + 4 * i \/ tbl + 4 * i + 4 <= x -> x < dst + limit \/ dst + limit + zlen s + 1 <= x ->
    mbytes w2 x = mbytes w x) ->
  tbl + 4 * (i + zlen args + 2) <= dst + limit -> placed dst tbl (i + 1) (limit + zlen s + 1) args w2 w' ->
  placed dst tbl i limit (s :: args) w w'.
Proof.
  intros S2 H1 H2 H3 Hlow (S' & B & F). pose proof (zlen_nonneg s). pose proof (zlen_nonneg args).
  pose proof (texts_size_nonneg args). split; [congruence|]. split.
  - cbn [arg_block]. split; [|split; [|exact B]].
    + rewrite <- H1. apply load32_frame. intros x Hx. apply F; lia.
    + apply (cstr_ext (mbytes w2)); [done|]. intros x Hx. apply F; lia.
  - intros x Hx Hx'. rewrite zlen_cons in Hx. cbn [texts_size] in Hx'. rewrite F by lia. apply H3; lia.
Qed.

(** The loop of [general_execute]. *)
Lemma copy_args_ok dst src vec args : 0 <= dst -> dst + 0x10000 <= 2 ^ 32 -> 0 <= vec -> forall i limit w,
  0 <= i -> 0x1010 + 4 * (i + zlen args + 1) <= 0x4000 -> 0x4000 <= limit -> limit + texts_size args <= 0x10000 ->
  arg_source (fun p => u32 (p + src)) (dst + 0x1000) (dst + 0x10000) (mbytes w) vec i args -> exists w',
  copy_args (length args) i limit dst src vec w = Some (tt, w') /\ placed dst (dst + 0x1010) i limit args w w'.
Proof.
  intros Hd Hd' Hvec. induction args as [|s args IH]; intros i limit w Hi Htbl Hlim Hend Hsrc.
  - rewrite zlen_nil in Htbl. destruct (end_args_ok dst (dst + 0x1010) i limit w) as (w' & E & S1 & B & F); [lia..|].
    exists w'. split; [exact E|]. by apply placed_nil.
  - rewrite zlen_cons in Htbl. cbn [texts_size arg_source] in Hend, Hsrc. pose proof (zlen_nonneg s).
    pose proof (zlen_nonneg args). pose proof (texts_size_nonneg args).
    destruct Hsrc as (A0 & A1 & A2 & A3 & A4 & A5 & A6 & A7).
    set (p := load32 (mbytes w) (vec + 4 * i)) in *. set (a := u32 (p + src)) in *.
    destruct (put_arg_ok dst (dst + 0x1010) i limit s w a) as (w1 & w2 & E1 & E2 & S2 & P1 & P2 & P3); [lia..|done|].
    assert (forall x, x < dst + 0x1000 \/ dst + 0x10000 <= x -> mbytes w2 x = mbytes w x) as Hout
      by (intros x Hx; apply P3; lia).
    assert (load32 (mbytes w2) (vec + 4 * i) = p) as Hp2
      by (apply load32_frame; intros x Hx; apply Hout; unfold apart in A5; lia).
    assert (cstr_at (mbytes w2) a s) as Hs2
      by (apply (cstr_ext (mbytes w)); [done|intros x Hx; apply Hout; unfold apart in A4; lia]).
    destruct (IH (i + 1) (limit + zlen s + 1) w2) as (w' & E' & HP); [lia..| |].
    { apply (arg_source_ext _ _ _ (mbytes w)); [done|exact Hout|lia]. }
    exists w'. split; [|apply (placed_cons _ _ _ _ _ _ w w2); [done..|lia|exact HP]].
    cbn [length copy_args]. rewrite (u32_small (vec + 4 * i)) by lia.
    erewrite st_bind_ok by (apply read_word_ok; lia). fold p. fold a.
    erewrite st_bind_ok by (by apply mem_str_ok). erewrite st_bind_ok by exact E1. erewrite st_bind_ok by exact E2.
    erewrite st_bind_ok by (apply read_word_ok; lia). rewrite Hp2. fold a.
    erewrite st_bind_ok by (by apply mem_str_ok). rewrite s32_small by lia. exact E'.
Qed.

(** The saved vector at [tmp]: addresses, then a null one. *)
Fixpoint saved (lo hi : Z) (m : mem) (tmp i : Z) (n : nat) : Prop :=
  apart lo hi (tmp + 4 * i) 4 /\ tmp + 4 * i + 4 <= 2 ^ 32 /\
  match n with
  | O => load32 m (tmp + 4 * i) = 0
  | S n => load32 m (tmp + 4 * i) <> 0 /\ saved lo hi m tmp (i + 1) n
  end.

Lemma saved_ext lo hi m m' tmp i n : saved lo hi m tmp i n -> (forall x, x < lo \/ hi <= x -> m' x = m x) -> lo <= hi ->
  saved lo hi m' tmp i n.
Proof.
  intros H E Hlh. revert i H. induction n as [|n IH]; intros i; cbn [saved]; intros (H1 & H2 & H3);
    assert (load32 m' (tmp + 4 * i) = load32 m (tmp + 4 * i)) as -> by
      (apply load32_frame; intros x Hx; apply E; unfold apart in H1; lia); [done|].
  destruct H3 as [H3 H4]. do 3 (split; [done|]). by apply IH.
Qed.

(** The loops of [execve]; [kfree] leaves the memory as it is. *)
Lemma place_args_ok dst tbl low tmp args :
  (forall a w, exists w', kfree a w = Some (tt, w') /\ mem_eq (mbytes w') (mbytes w) /\ get_sched w' = get_sched w) ->
  0 <= dst -> dst + 0x10000 <= 2 ^ 32 -> 0 <= tmp -> dst + 0x1000 <= tbl -> low <= 0x10000 -> forall i limit w fuel,
  0 <= i -> tbl + 4 * (i + zlen args + 1) <= dst + low -> low <= limit -> limit + texts_size args <= 0x10000 ->
  (length args < fuel)%nat ->
  arg_source (fun p => p) (dst + 0x1000) (dst + 0x10000) (mbytes w) tmp i args ->
  saved (dst + 0x1000) (dst + 0x10000) (mbytes w) tmp i (length args) -> exists w',
  place_args fuel i limit dst tbl tmp w = Some (tt, w') /\ placed dst tbl i limit args w w'.
Proof.
  intros Hfree Hd Hd' Htmp Htl Hlow. induction args as [|s args IH]; intros i limit w [|fuel] Hi Htbl Hlim Hend Hf Hsrc Hsv;
    cbn in Hf; try lia; cbn [length saved] in Hsv; destruct Hsv as (V1 & V2 & V3); cbn [place_args];
    rewrite (u32_small (tmp + 4 * i)) by lia; (erewrite st_bind_ok by (apply read_word_ok; lia)).
  - rewrite V3. cbn [Z.eqb]. rewrite zlen_nil in Htbl.
    destruct (end_args_ok dst tbl i limit w) as (w' & E & S1 & B & F); [lia..|].
    exists w'. split; [exact E|]. by apply placed_nil.
  - rewrite zlen_cons in Htbl. cbn [texts_size arg_source] in Hend, Hsrc. pose proof (zlen_nonneg s).
    pose proof (zlen_nonneg args). pose proof (texts_size_nonneg args).
    destruct Hsrc as (A0 & A1 & A2 & A3 & A4 & A5 & A6 & A7). destruct V3 as [V3 V4].
    set (p := load32 (mbytes w) (tmp + 4 * i)) in *.
    destruct (put_arg_ok dst tbl i limit s w p) as (w1 & w2 & E1 & E2 & S2 & P1 & P2 & P3); [lia..|done|].
    destruct (Hfree p w2) as (w3 & E3 & M3 & S3).
    assert (forall x, x < dst + 0x1000 \/ dst + 0x10000 <= x -> mbytes w2 x = mbytes w x) as Hout
      by (intros x Hx; apply P3; lia).
    assert (cstr_at (mbytes w2) p s) as Hs2
      by (apply (cstr_ext (mbytes w)); [done|intros x Hx; apply Hout; unfold apart in A4; lia]).
    assert (forall x, x < dst + 0x1000 \/ dst + 0x10000 <= x -> mbytes w3 x = mbytes w x) as Hout3
      by (intros x Hx; rewrite M3; by apply Hout).
    destruct (IH (i + 1) (limit + zlen s + 1) w3 fuel) as (w' & E' & HP); [lia..| | |].
    { apply (arg_source_ext _ _ _ (mbytes w)); [done|exact Hout3|lia]. }
    { apply (saved_ext _ _ (mbytes w)); [done|exact Hout3|lia]. }
    rewrite (proj2 (Z.eqb_neq p 0)) by done. exists w'. split.
    + erewrite st_bind_ok by (by apply mem_str_ok). erewrite st_bind_ok by exact E1. erewrite st_bind_ok by exact E2.
      erewrite st_bind_ok by (by apply mem_str_ok). erewrite st_bind_ok by exact E3. rewrite s32_small by lia. exact E'.
    + apply (placed_cons _ _ _ _ _ _ w w3); [congruence| | | |lia|exact HP].
      * rewrite <- P1. apply load32_frame. intros x _. apply M3.
      * apply (cstr_ext (mbytes w2)); [done|]. intros x _. apply M3.
      * intros x Hx Hx'. rewrite M3. by apply P3.
Qed.

End Args.

(** * Properties *)

(** C17: A fork makes a copy of the running task, or fails without a trace in the table.
    [task_fork] ends in the scheduler in every case, according to what its allocations
    and releases return in this run, and when the file systems fork the handles and
    leave the table of tasks alone.  When the memory for the copy, a block for either handle table,
    a free entry of the task table or the task structure is missing, the blocks already
    allocated are freed and the parent gets -1 in [eax]; no other entry changes, except
    that without a task structure the free entry is [EMPTY_PID].  Else there are two
    tasks: the parent, with the child's number in [eax], and in the free entry the
    child, with the parent's registers but 0 in [eax], its own copy of the parent's
    memory (if the last allocation leaves the child's block alone), the same texts but
    no server name, an empty queue, and for each handle of the parent a handle of its
    own on the same mount point; no other entry changes.  The child's local descriptor
    table is not a copy: it is the parent's, at the same address. *)
Theorem task_fork_correct {W : Type} {K : Kernel W} {L : KernelLaws K} {V : Vfs.VfsState W} {U : UserMem K}
    (filesystems : list (Vfs.filesystem_t W)) (s : sched) (w w1 : W) (c : gpr_state) (t : task_t)
    (b : Z) (fuel n : nat) (sz : Z) :
  let cur := current_task s in
  let pid := find_slot 0 (task_table s) in
  let ends := fork_ends filesystems s c fuel sz w in
  let fails := fork_fails filesystems s c t fuel sz w in
  zget (task_table s) cur = Some (Task t) -> u32 (pages t * PAGE_SIZE) = Z.of_nat n ->
  kalloc (Z.of_nat n) w = Some (b, w1) ->
  (b = 0 -> fails w1) /\
  (b <> 0 -> forall fh w2, kalloc (u32 (zlen (file_handles t) * SIZEOF_FILE_HANDLE)) w1 = Some (fh, w2) ->
   (fh = 0 -> forall u, kfree b w2 = Some (tt, u) -> fails u) /\
   (fh <> 0 -> forall fh2 w3, kalloc (u32 (zlen (file_handles_v2 t) * SIZEOF_FILE_HANDLE_V2)) w2 = Some (fh2, w3) ->
    (fh2 = 0 -> forall u u', kfree b w3 = Some (tt, u) -> kfree fh u = Some (tt, u') -> fails u') /\
    (fh2 <> 0 -> 0 <= base t -> base t + Z.of_nat n <= 2 ^ 32 -> 0 < b -> b + Z.of_nat n <= 2 ^ 32 -> forall v2 w4,
     fork_handles filesystems (file_handles_v2 t) (set_sched (saved_cpu c t s) w3) = Some (v2, set_sched (saved_cpu c t s) w4) ->
     Forall2 forked_handle (file_handles_v2 t) v2 /\
     exists w5, mem_write b (bytes_at (mbytes w4) (base t) n) w4 = Some (tt, w5) /\
       bytes_at (mbytes w5) b n = bytes_at (mbytes w4) (base t) n /\
       (forall x, x < b \/ b + Z.of_nat n <= x -> mbytes w5 x = mbytes w4 x) /\
       (pid = KRNL_MAX_TASKS -> forall u u' u'',
          kfree b w5 = Some (tt, u) -> kfree fh u = Some (tt, u') -> kfree fh2 u' = Some (tt, u'') -> fails u'') /\
       (pid <> KRNL_MAX_TASKS -> pid < zlen (task_table s) -> forall q w6, kalloc sz w5 = Some (q, w6) ->
          (q = 0 -> forall u u' u'',
             kfree b w6 = Some (tt, u) -> kfree fh u = Some (tt, u') -> kfree fh2 u' = Some (tt, u'') ->
             exists l, ends l u'' /\ fork_failed c t cur (<[Z.to_nat pid := EmptyPid]> (task_table s)) l) /\
          (q <> 0 -> exists l, ends l w6 /\
             forked_table (task_table s) l cur pid (with_cpu (with_eax (u32 pid) c) t)
               (with_cpu (with_eax 0 c) (forked cur b v2 t)) /\
             ldt_ptr (forked cur b v2 t) = ldt_ptr t /\
             ((forall x, b <= x < b + Z.of_nat n -> mbytes w6 x = mbytes w5 x) ->
                bytes_at (mbytes w6) b n = bytes_at (mbytes w4) (base t) n)))))).
Proof.
  intros cur pid ends fails Ht Hn K1. split; [intros ->; by apply (fork_no_memory filesystems s c t fuel sz Ht n Hn)|].
  intros Hb fh w2 K2. split; [intros -> u; by apply (fork_no_handles filesystems s c t fuel sz Ht n Hn w w1 w2)|].
  intros Hfh fh2 w3 K3. split; [intros -> u u'; by apply (fork_no_handles_v2 filesystems s c t fuel sz Ht n Hn w w1 w2 w3 _ _ b fh)|].
  intros Hfh2 T0 T1 B0 B1 v2 w4 Hv. split; [by eapply fork_handles_ok|].
  destruct (fork_copies filesystems s c t fuel sz Ht n Hn w w1 w2 w3 w4 b fh fh2 v2) as (w5 & E5 & Hm & Hout & E); [done..|].
  exists w5. split; [exact E5|]. split; [exact Hm|]. split; [exact Hout|]. unfold ends, fails, fork_fails, fork_ends. rewrite E. split.
  - intros Hp u u' u''. by apply fork_full.
  - intros Hmax Hpid q w6 K4. split; [intros -> u u' u''; by apply fork_no_task|]. intros Hq.
    destruct (fork_makes_task s c t fuel sz Ht b fh fh2 v2 Hpid Hmax w5 w6 q K4 Hq) as (l & El & Hl).
    exists l. split; [exact El|]. split; [exact Hl|]. split; [done|]. intros Hkeep. rewrite <- Hm.
    by apply bytes_at_ext.
Qed.

(** C25: A program started by [general_execute] finds its arguments.  When they fit the
    reserved space, the number of arguments is at offset 0x1000, the vector at 0x1010
    holds the offset of each argument's text, in order, and a null entry behind them,
    each text is at its offset, and nothing outside of the new task's reserved space
    from 0x1000 on has changed: neither the program above it nor the caller's memory. *)
Theorem execute_args_layout {W : Type} {K : Kernel W} {L : KernelLaws K} {U : UserMem K} (s : sched) (w : W)
    (pid info argv : Z) (n t : task_t) (args : list (list Z)) :
  let lo := base n + 0x1000 in
  let hi := base n + 0x10000 in
  zget (task_table s) pid = Some (Task n) -> zget (task_table s) (current_task s) = Some (Task t) ->
  0 <= base n -> hi <= 2 ^ 32 -> 0 <= info -> info + 36 <= 2 ^ 32 -> apart lo hi info 36 ->
  load32 (mbytes w) (info + 28) = zlen args -> load32 (mbytes w) (info + 32) = argv ->
  arg_source (fun p => u32 (p + base t)) lo hi (mbytes w) (u32 (argv + base t)) 0 args ->
  0x1010 + 4 * (zlen args + 1) <= 0x4000 -> 0x4000 + texts_size args <= 0x10000 -> exists w',
  execute_args pid info (set_sched s w) = Some (tt, w') /\ get_sched w' = s /\
  load32 (mbytes w') (base n + 0x1000) = zlen args /\
  arg_block (mbytes w') (base n) (base n + 0x1010) 0 0x4000 args /\
  forall x, x < lo \/ hi <= x -> mbytes w' x = mbytes w x.
Proof.
  intros lo hi Hn Ht B0 B1 I0 I1 Iap Hargc Hargv Hsrc Htbl Htxt. pose proof (zlen_nonneg args). unfold apart in Iap.
  set (w0 := set_sched s w). assert (mem_eq (mbytes w0) (mbytes w)) as M0 by (intros x; apply mbytes_sched).
  destruct (write_word_ok (base n + 0x1000) (zlen args) w0) as (w1 & E1 & M1 & S1); [lia..|].
  assert (forall x, x < lo \/ hi <= x -> mbytes w1 x = mbytes w x) as Hout.
  { intros x Hx. rewrite M1, store_out, M0; [done|]. change (zlen (le32 (zlen args))) with 4. lia. }
  assert (get_sched w1 = s) as Hs1 by (rewrite S1; apply get_set).
  destruct (copy_args_ok (base n) (base t) (u32 (argv + base t)) args B0 ltac:(lia)
    ltac:(pose proof (u32_range (argv + base t)); lia) 0 0x4000 w1) as (w' & E & S' & HB & F); [lia..| |].
  { apply (arg_source_ext _ _ _ (mbytes w)); [done|exact Hout|lia]. }
  pose proof (texts_size_nonneg args). exists w'. split; [|split; [congruence|split; [|split; [exact HB|]]]].
  - unfold execute_args, info_word. change (4 * 7) with 28. change (4 * 8) with 32. rewrite !u32_small by lia.
    erewrite st_bind_ok by (apply read_word_ok; lia).
    assert (load32 (mbytes w0) (info + 28) = zlen args) as -> by (rewrite <- Hargc; apply load32_frame; intros x _; apply M0).
    erewrite st_bind_ok by (by apply get_task_ok). rewrite u32_small by lia. erewrite st_bind_ok by exact E1.
    erewrite st_bind_ok by (apply read_word_ok; lia).
    assert (load32 (mbytes w1) (info + 32) = argv) as -> by (rewrite <- Hargv; apply load32_frame; intros x Hx; apply Hout; lia).
    assert (this_task w1 = Some (t, w1)) as Ht1.
    { rewrite <- (set_get w1), Hs1. by apply this_task_ok. }
    erewrite st_bind_ok by exact Ht1. rewrite s32_small by lia. unfold zlen at 1. rewrite Nat2Z.id. exact E.
  - rewrite <- (u32_small (zlen args)) by lia. rewrite <- (store_word (mbytes w0) (base n + 0x1000) (zlen args)).
    apply load32_frame. intros x Hx. rewrite F by lia. apply M1.
  - intros x Hx. rewrite F by lia. by apply Hout.
Qed.

(** The vectors of a program started by [execve]: the environment is complete, at
    0x1020 and 0x8000; the arguments are complete, at 0x1010 and 0x4000, when there are
    at most three.  The table at 0x1010 has room for four entries before the one of the
    environment: with four arguments or more, the entry behind the fourth one, that
    should be the fifth argument or the null entry, is the first string of the
    environment, or null when that is empty. *)
Theorem execve_args_layout {W : Type} {K : Kernel W} {U : UserMem K} (w : W) (b argc tmp_argv tmp_envp : Z)
    (args envs : list (list Z)) :
  let lo := b + 0x1000 in
  let hi := b + 0x10000 in
  (forall a w, exists w', kfree a w = Some (tt, w') /\ mem_eq (mbytes w') (mbytes w) /\ get_sched w' = get_sched w) ->
  0 <= b -> hi <= 2 ^ 32 -> 0 <= argc < 2 ^ 32 -> 0 <= tmp_argv -> 0 <= tmp_envp ->
  zlen args <= 256 -> zlen envs <= 256 -> texts_size args <= 0x4000 -> texts_size envs <= 0x8000 ->
  arg_source (fun p => p) lo hi (mbytes w) tmp_argv 0 args -> saved lo hi (mbytes w) tmp_argv 0 (length args) ->
  arg_source (fun p => p) lo hi (mbytes w) tmp_envp 0 envs -> saved lo hi (mbytes w) tmp_envp 0 (length envs) ->
  exists w', exec_args b argc tmp_argv tmp_envp w = Some (tt, w') /\ get_sched w' = get_sched w /\
  load32 (mbytes w') (b + 0x1000) = argc /\
  arg_block (mbytes w') b (b + 0x1020) 0 0x8000 envs /\
  (zlen args <= 3 -> arg_block (mbytes w') b (b + 0x1010) 0 0x4000 args) /\
  (4 <= zlen args -> load32 (mbytes w') (b + 0x1010 + 4 * 4) = match envs with [] => 0 | _ => 0x8000 end) /\
  forall x, x < lo \/ hi <= x -> mbytes w' x = mbytes w x.
Proof.
  intros lo hi Hfree B0 B1 Hargc T0 T1 Ha He Xa Xe Sa Va Se Ve.
  pose proof (zlen_nonneg args). pose proof (zlen_nonneg envs). pose proof (texts_size_nonneg args).
  pose proof (texts_size_nonneg envs).
  destruct (write_word_ok (b + 0x1000) argc w) as (w1 & E1 & M1 & S1); [lia..|].
  assert (forall x, x < lo \/ hi <= x -> mbytes w1 x = mbytes w x) as O1.
  { intros x Hx. rewrite M1. apply store_out. change (zlen (le32 argc)) with 4. lia. }
  destruct (place_args_ok b (b + 0x1010) 0x4000 tmp_argv args Hfree B0 ltac:(lia) T0 ltac:(lia) ltac:(lia) 0 0x4000 w1 257)
    as (w2 & E2 & S2 & B2 & F2); [lia..|unfold zlen in Ha; lia| | |].
  { apply (arg_source_ext _ _ _ (mbytes w)); [done|exact O1|lia]. }
  { apply (saved_ext _ _ (mbytes w)); [done|exact O1|lia]. }
  assert (forall x, x < lo \/ hi <= x -> mbytes w2 x = mbytes w x) as O2 by (intros x Hx; rewrite F2 by lia; by apply O1).
  destruct (place_args_ok b (b + 0x1020) 0x8000 tmp_envp envs Hfree B0 ltac:(lia) T1 ltac:(lia) ltac:(lia) 0 0x8000 w2 257)
    as (w3 & E3 & S3 & B3 & F3); [lia..|unfold zlen in He; lia| | |].
  { apply (arg_source_ext _ _ _ (mbytes w)); [done|exact O2|lia]. }
  { apply (saved_ext _ _ (mbytes w)); [done|exact O2|lia]. }
  exists w3. split; [|split; [congruence|split; [|split; [exact B3|split; [|split]]]]].
  - unfold exec_args. rewrite !u32_small by lia. erewrite st_bind_ok by exact E1. erewrite st_bind_ok by exact E2. exact E3.
  - rewrite <- (u32_small argc) by lia. rewrite <- (store_word (mbytes w) (b + 0x1000) argc).
    apply load32_frame. intros x Hx. rewrite F3, F2 by lia. apply M1.
  - intros H3. apply (arg_block_ext (mbytes w2)); [exact B2|intros x Hx; apply F3; lia|intros x Hx; apply F3; lia].
  - intros _. change (4 * 4) with 16. replace (b + 0x1010 + 16) with (b + 0x1020 + 4 * 0) by lia.
    destruct envs as [|e envs]; cbn [arg_block] in B3; [exact B3|by destruct B3].
  - intros x Hx. rewrite F3 by lia. by apply O2.
Qed.

(** [execve] forgets the size of the new memory: the task gets the new block, a
    heap behind its pages, and a stack that ends below the top of the new memory, but
    keeps the number of pages of the old one, which is the limit of its segments.  When
    the new program needs more pages, its first push is outside of its segments. *)
Theorem execve_keeps_pages {W : Type} {K : Kernel W} {L : KernelLaws K} (s : sched) (w : W) (t : task_t) (b size : Z) :
  zget (task_table s) (current_task s) = Some (Task t) -> 0 <= size < 2 ^ 31 -> exists l t',
  exec_enter b size (set_sched s w) = Some (tt, set_sched (with_table l s) w) /\
  zget l (current_task s) = Some (Task t') /\ base t' = b /\ pages t' = pages t /\
  heap_base t' = task_pages size * PAGE_SIZE /\ eip (cpu t') = TASK_RESERVED_SPACE /\
  (task_pages size - 1) * PAGE_SIZE <= esp (cpu t') < task_pages size * PAGE_SIZE /\
  (pages t < task_pages size -> pages t * PAGE_SIZE <= esp (cpu t')).
Proof.
  intros Ht Hs. set (t' := exec_task b size t).
  pose proof (zset_ok (task_table s) (current_task s) (Task t') ltac:(by eapply zget_Some)) as El.
  set (l := <[_:=_]> _) in El. exists l, t'.
  pose proof (task_bytes_eq size Hs) as Hb. pose proof (task_pages_eq size Hs) as Hp.
  assert (stack_top size = (0x20000 + size - 1) / 16 * 16) as Htop.
  { unfold stack_top. rewrite Hb, u64_small by lia. change 0xfffffff0 with (Z.ldiff (Z.ones 32) (Z.ones 4)).
    rewrite Z.ldiff_land, Z.land_assoc, Z.land_ones, Z.mod_small, <- Z.ldiff_land, Z.ldiff_ones_r by lia.
    rewrite Z.shiftl_mul_pow2, Z.shiftr_div_pow2 by lia. done. }
  split; [|split; [|split; [done|split; [done|]]]].
  - unfold exec_enter. erewrite st_bind_ok by (by apply this_task_ok). by apply put_this_ok.
  - by rewrite (zget_zset _ _ _ _ _ El), decide_True.
  - cbn [t' exec_task heap_base with_heap cpu with_cpu with_entry eip esp]. rewrite Htop.
    unfold PAGE_SIZE. rewrite u32_small by (rewrite Hp; zdml). rewrite Hp.
    split; [done|]. split; [done|]. split; zdml.
Qed.

(** * Witnesses *)

(** Task 1, with one page at 0x100000, is running; the next entry is free. *)
Definition demo_parent : task_t := with_ldt [] 0 0x7000 (with_base 0x100000 1 (idle_task KRN_STAT_ACTIVE_TASK 0)).
Definition spawn_sched : sched := MkSched [Task kernel_task; Task demo_parent; NoTask] 1 0 (load_gdt 0 104).
Definition spawn_machine (m : mem) : machine := MkMachine spawn_sched m 0x200000.

(** The kernel of [System.v] with devfs at ["/"].  The running task has the page at
    0x101000, two handles of the first table and one of devfs; [free] pages behind it
    are free. *)
#[local] Instance fork_kernel : Kernel (System.world unit) := System.kernel (fun _ => st_ret tt) [System.devfs] [].
#[local] Existing Instance System.world_vfs.
#[local] Instance fork_laws : KernelLaws fork_kernel := System.kernel_over_laws _ _ _ _ _.
#[local] Instance fork_mem : UserMem fork_kernel := System.kernel_over_mem _ _ _ _ _.
Definition fork_parent : task_t :=
  with_file_handles (replicate 2 (Handle.MkFileHandle 1 [] 0 0 0 0 0 0))
    (with_file_handles_v2 [Handle.MkFileHandleV2 0 0 0] (with_base 0x101000 1 demo_parent)).
Definition fork_sched : sched := MkSched [Task kernel_task; Task fork_parent; NoTask] 1 0 (load_gdt 0 104).
Definition fork_world (free : nat) : System.world unit :=
  System.MkWorld fork_sched
    (Kheap.MkHeapSt (Pmm.MkPmm 0x80000 (replicate 258 true ++ replicate free false) 0 ((258 + Z.of_nat free) * 4096))
      (fun x => x mod 256))
    [VfsPath.MkMountpoint [47] [] [100; 101; 118; 102; 115]] 0 0
    (Devfs.MkState [Devfs.MkHandle 0 [] 0 0 0 0 0 0 0] [] tt 0).

(** The state a call leaves, and its result by evaluation. *)
Definition after {A W} (w : W) (o : option (A * W)) : W := match o with Some r => r.2 | None => w end.
Definition gives {W} (o : option (Z * W)) (a : Z) : bool := match o with Some r => r.1 =? a | None => false end.
Definition works {W} (o : option (unit * W)) : bool := match o with Some _ => true | None => false end.
Lemma gives_ok {W} (w : W) o a : gives o a = true -> o = Some (a, after w o).
Proof. destruct o as [[a' w']|]; [|done]. cbn. by intros ->%Z.eqb_eq. Qed.
Lemma works_ok {W} (w : W) o : works o = true -> o = Some (tt, after w o).
Proof. by destruct o as [[[] w']|]. Qed.

(** The states of a fork in [fork_world]: the three blocks, the handles, the copy. *)
Definition fh_bytes : Z := u32 (zlen (file_handles fork_parent) * SIZEOF_FILE_HANDLE).
Definition fh_v2_bytes : Z := u32 (zlen (file_handles_v2 fork_parent) * SIZEOF_FILE_HANDLE_V2).
Definition fork_w1 (free : nat) : System.world unit := after (fork_world free) (kalloc 4096 (fork_world free)).
Definition fork_w2 (free : nat) : System.world unit := after (fork_w1 free) (kalloc fh_bytes (fork_w1 free)).
Definition fork_w3 (free : nat) : System.world unit := after (fork_w2 free) (kalloc fh_v2_bytes (fork_w2 free)).
Definition fork_w4 (free : nat) : System.world unit :=
  System.with_wdrv (Devfs.MkState (replicate 2 (Devfs.MkHandle 0 [] 0 0 0 0 0 0 0)) [] tt 0) (fork_w3 free).
Definition fork_w5 (free : nat) : System.world unit :=
  after (fork_w4 free) (mem_write 0x103000 (bytes_at (mbytes (fork_w4 free)) (base fork_parent) (Z.to_nat 4096)) (fork_w4 free)).
Definition fork_w6 (free : nat) : System.world unit := after (fork_w5 free) (kalloc 9000 (fork_w5 free)).

Lemma fork_handles_eq c (w : System.world unit) : System.wmounts w = System.wmounts (fork_world 0) ->
  System.wdrv w = System.wdrv (fork_world 0) ->
  fork_handles [System.devfs] (file_handles_v2 fork_parent) (set_sched (saved_cpu c fork_parent fork_sched) w) =
    Some ([Handle.MkFileHandleV2 0 0 1], set_sched (saved_cpu c fork_parent fork_sched)
      (System.with_wdrv (Devfs.MkState (replicate 2 (Devfs.MkHandle 0 [] 0 0 0 0 0 0 0)) [] tt 0) w)).
Proof. destruct w. cbn [System.wmounts System.wdrv]. intros -> ->. reflexivity. Qed.

(** An allocation leaves the memory below its pages alone. *)
Lemma kalloc_above n (w : System.world unit) ret x :
  fst <$> Pmm.pmm_alloc (u32 (Pmm.DIV_ROUNDUP n Pmm.PAGE_SIZE + 1)) (Kheap.hpmm (System.wheap w)) = Some ret -> 0 <= x < ret ->
  mbytes (after w (kalloc n w)) x = mbytes w x.
Proof.
  intros E Hx. cbn [kalloc fork_kernel System.kernel System.kernel_over]. unfold System.on_heap, Kheap.kalloc, Kheap.pmm_allocz.
  destruct (Pmm.pmm_alloc _ _) as [[r p]|]; [|done]. injection E as ->. cbn [mbind option_bind].
  rewrite (proj2 (Z.eqb_neq ret 0)) by lia. cbn [mbind option_bind]. rewrite (proj2 (Z.eqb_neq ret 0)) by lia.
  cbn [after snd]. unfold mbytes, fork_mem, System.kernel_over_mem, System.wbytes.
  cbn [Kheap.hmem System.wheap System.with_wheap Kheap.with_mem]. unfold Kheap.set_meta_size, Kheap.set_meta_pages.
  by rewrite !store32_out, memset_out by lia.
Qed.

(** The pages of the parent and of the copy are below the later blocks. *)
Lemma fork_w6_memory x : 0x103000 <= x < 0x103000 + 4096 ->
  mbytes (after (fork_w5 16) (kalloc 9000 (fork_w5 16))) x = mbytes (fork_w5 16) x.
Proof. intros Hx. apply (kalloc_above 9000 (fork_w5 16) 0x108000); [vm_compute; reflexivity|lia]. Qed.
Lemma fork_w3_memory x : 0x101000 <= x < 0x102000 -> mbytes (fork_w3 16) x = mbytes (fork_world 16) x.
Proof.
  intros Hx. unfold fork_w3. rewrite (kalloc_above fh_v2_bytes (fork_w2 16) 0x106000); [|vm_compute; reflexivity|lia].
  unfold fork_w2. rewrite (kalloc_above fh_bytes (fork_w1 16) 0x104000); [|vm_compute; reflexivity|lia].
  unfold fork_w1. apply (kalloc_above 4096 (fork_world 16) 0x102000); [vm_compute; reflexivity|lia].
Qed.
Lemma fork_w4_memory : bytes_at (mbytes (fork_w4 16)) (base fork_parent) (Z.to_nat 4096) =
  bytes_at (mbytes (fork_world 16)) 0x101000 (Z.to_nat 4096).
Proof.
  assert (Z.of_nat (Z.to_nat 4096) = 4096) as En by (by apply Z2Nat.id).
  apply bytes_at_ext. rewrite En. intros x Hx. change (base fork_parent) with 0x101000 in Hx.
  rewrite <- fork_w3_memory by lia. unfold fork_w4. by destruct (fork_w3 16).
Qed.

(** The clause for a missing or present task structure, with [f] pages. *)
Ltac fork_case H f :=
  let G1 := fresh in let G2 := fresh in let G3 := fresh in let H2 := fresh in let H3 := fresh in
  let E5 := fresh in let w5 := fresh in
  assert (gives (kalloc 4096 (fork_world f)) 0x103000 = true) as G1 by (vm_compute; reflexivity);
  assert (gives (kalloc fh_bytes (fork_w1 f)) 0x105000 = true) as G2 by (vm_compute; reflexivity);
  assert (gives (kalloc fh_v2_bytes (fork_w2 f)) 0x107000 = true) as G3 by (vm_compute; reflexivity);
  destruct (H f G1 _ _ (gives_ok (fork_w1 f) _ _ G2)) as (_ & H2);
  destruct (H2 ltac:(discriminate) _ _ (gives_ok (fork_w2 f) _ _ G3)) as (_ & H3);
  destruct (H3 ltac:(discriminate) ltac:(discriminate) ltac:(rewrite Z2Nat.id; discriminate) ltac:(reflexivity)
    ltac:(rewrite Z2Nat.id; discriminate) [Handle.MkFileHandleV2 0 0 1] (fork_w4 f)
    ltac:(apply (fork_handles_eq default_cpu_status (fork_w3 f)); reflexivity)) as (_ & w5 & E5 & _ & _ & _ & C);
  assert (w5 = fork_w5 f) as -> by (unfold fork_w5; by rewrite E5);
  specialize (C ltac:(discriminate) ltac:(reflexivity)).

(** With 16 pages the fork succeeds, with none there is no memory for the copy, with
    eight none for the task structure. *)
Lemma task_fork_correct_witness :
  (exists l w', task_fork [System.devfs] 10 9000 default_cpu_status (fork_world 16) =
      task_scheduler 10 (set_sched (with_table l fork_sched) w') /\
    forked_table (task_table fork_sched) l 1 2 (with_cpu (with_eax 2 default_cpu_status) fork_parent)
      (with_cpu (with_eax 0 default_cpu_status) (forked 1 0x103000 [Handle.MkFileHandleV2 0 0 1] fork_parent)) /\
    bytes_at (mbytes w') 0x103000 (Z.to_nat 4096) = bytes_at (mbytes (fork_world 16)) 0x101000 (Z.to_nat 4096)) /\
  (exists l w', task_fork [System.devfs] 10 9000 default_cpu_status (fork_world 0) =
      task_scheduler 10 (set_sched (with_table l fork_sched) w') /\
    fork_failed default_cpu_status fork_parent 1 (task_table fork_sched) l) /\
  (exists l w', task_fork [System.devfs] 10 9000 default_cpu_status (fork_world 8) =
      task_scheduler 10 (set_sched (with_table l fork_sched) w') /\
    fork_failed default_cpu_status fork_parent 1 (<[2%nat := EmptyPid]> (task_table fork_sched)) l).
Proof.
  assert (Z.of_nat (Z.to_nat 4096) = 4096) as En by (by apply Z2Nat.id).
  assert (forall f b, gives (kalloc 4096 (fork_world f)) b = true ->
    kalloc (Z.of_nat (Z.to_nat 4096)) (fork_world f) = Some (b, fork_w1 f)) as K1
    by (intros f b Hg; rewrite En; by apply gives_ok).
  assert (u32 (pages fork_parent * PAGE_SIZE) = Z.of_nat (Z.to_nat 4096)) as Ep by (rewrite En; reflexivity).
  destruct (task_fork_correct [System.devfs] fork_sched (fork_world 0) (fork_w1 0) default_cpu_status fork_parent
    0 10 (Z.to_nat 4096) 9000 eq_refl Ep) as (H0 & _); [apply K1; vm_compute; reflexivity|].
  assert (forall f, gives (kalloc 4096 (fork_world f)) 0x103000 = true -> _) as H
    by (intros f Hg; exact (proj2 (task_fork_correct [System.devfs] fork_sched (fork_world f) (fork_w1 f) default_cpu_status
      fork_parent 0x103000 10 (Z.to_nat 4096) 9000 eq_refl Ep (K1 f 0x103000 Hg)) ltac:(discriminate))).
  split; [|split].
  - fork_case H 16%nat. assert (gives (kalloc 9000 (fork_w5 16)) 0x109000 = true) as G by (vm_compute; reflexivity).
    destruct (C _ _ (gives_ok (fork_w5 16) _ _ G)) as (_ & C').
    destruct (C' ltac:(discriminate)) as (l & E & Hl & _ & Hm). exists l, (fork_w6 16). split; [exact E|]. split; [exact Hl|].
    unfold fork_w6. rewrite Hm; [by apply fork_w4_memory|]. rewrite En. intros x Hx. by apply fork_w6_memory.
  - destruct (H0 eq_refl) as (l & E & Hl). exists l, (fork_w1 0). by split.
  - fork_case H 8%nat. assert (gives (kalloc 9000 (fork_w5 8)) 0 = true) as G by (vm_compute; reflexivity).
    destruct (C _ _ (gives_ok (fork_w5 8) _ _ G)) as (C' & _).
    set (w6 := after (fork_w5 8) _) in C'.
    assert (works (kfree 0x103000 w6) = true) as F1 by (vm_compute; reflexivity).
    pose proof (works_ok w6 _ F1) as R1. set (u := after w6 _) in R1.
    assert (works (kfree 0x105000 u) = true) as F2 by (vm_compute; reflexivity).
    pose proof (works_ok u _ F2) as R2. set (u' := after u _) in R2.
    assert (works (kfree 0x107000 u') = true) as F3 by (vm_compute; reflexivity).
    pose proof (works_ok u' _ F3) as R3. set (u'' := after u' _) in R3.
    destruct (C' eq_refl u u' u'' R1 R2 R3) as (l & E & Hl). exists l, u''. split; [exact E|exact Hl].
Defined.

(** The task at 1 starts the task at 2 with the argument ["ls"]. *)
Definition demo_child : task_t := with_base 0x200000 33 (idle_task KRN_STAT_ACTIVE_TASK 1).
Definition exec_sched : sched := MkSched [Task kernel_task; Task demo_parent; Task demo_child] 1 0 [].
Definition info_mem : mem :=
  store_bytes (store_bytes (store_bytes (fun _ => 0) 0x12001C (le32 1 ++ le32 0x20100)) 0x120100 (le32 0x20200))
    0x120200 [108; 115; 0].

Lemma execute_args_layout_witness : exists w',
  execute_args (K := machine_kernel) 2 0x120000 (set_sched exec_sched (spawn_machine info_mem)) = Some (tt, w') /\
  load32 (mbytes w') 0x201010 = 0x4000 /\ cstr_at (mbytes w') 0x204000 [108; 115].
Proof.
  destruct (execute_args_layout (K := machine_kernel) exec_sched (spawn_machine info_mem) 2 0x120000 0x20100
    demo_child demo_parent [[108; 115]]) as (w' & E & _ & _ & (H1 & H2 & _) & _);
    [reflexivity|reflexivity|discriminate|discriminate|discriminate|discriminate|left; discriminate|reflexivity
    |reflexivity| |discriminate|discriminate|].
  - cbn [arg_source]. repeat (split; [first [discriminate|reflexivity|left; discriminate]|]).
    repeat split; first [repeat constructor; discriminate|discriminate|reflexivity|left; discriminate].
  - exists w'. split; [exact E|]. split; [exact H1|exact H2].
Defined.

(** Four arguments and one environment string, saved at 0x310000 and 0x311000. *)
Definition saved_mem : mem :=
  store_bytes (store_bytes (store_bytes (fun _ => 0)
    0x310000 (le32 0x300000 ++ le32 0x300002 ++ le32 0x300004 ++ le32 0x300006 ++ le32 0))
    0x311000 (le32 0x300008 ++ le32 0))
    0x300000 [97; 0; 98; 0; 99; 0; 100; 0; 69; 0].

Lemma execve_args_layout_witness : exists w',
  exec_args (K := machine_kernel) 0x200000 4 0x310000 0x311000 (spawn_machine saved_mem) = Some (tt, w') /\
  load32 (mbytes w') (0x200000 + 0x1010 + 4 * 4) = 0x8000.
Proof.
  destruct (execve_args_layout (K := machine_kernel) (spawn_machine saved_mem) 0x200000 4 0x310000 0x311000
    [[97]; [98]; [99]; [100]] [[69]]) as (w' & E & _ & _ & _ & _ & H & _);
    [intros a w; exists w; split; [reflexivity|split; [intros x|]; reflexivity]
    |discriminate|discriminate|split; [discriminate|reflexivity]|discriminate|discriminate|discriminate|discriminate
    |discriminate|discriminate| | | | |].
  - cbn [arg_source]. repeat split; first [repeat constructor; discriminate|discriminate|reflexivity|right; discriminate].
  - cbn [saved length]. repeat split; first [discriminate|reflexivity|right; discriminate].
  - cbn [arg_source]. repeat split; first [repeat constructor; discriminate|discriminate|reflexivity|right; discriminate].
  - cbn [saved length]. repeat split; first [discriminate|reflexivity|right; discriminate].
  - exists w'. split; [exact E|]. apply H. discriminate.
Defined.

(** A task of one page becomes a program of 100000 bytes. *)
Lemma execve_keeps_pages_witness : exists l t',
  exec_enter 0x400000 100000 (set_sched spawn_sched (spawn_machine (fun _ => 0))) =
    Some (tt, set_sched (with_table l spawn_sched) (spawn_machine (fun _ => 0))) /\
  zget l 1 = Some (Task t') /\ pages t' = 1 /\ 1 * PAGE_SIZE <= esp (cpu t').
Proof.
  destruct (execve_keeps_pages spawn_sched (spawn_machine (fun _ => 0)) demo_parent 0x400000 100000)
    as (l & t' & E & Hl & _ & Hp & _ & _ & _ & H); [reflexivity|split; [discriminate|reflexivity]|].
  exists l, t'. split; [exact E|]. split; [exact Hl|]. split; [exact Hp|apply H; reflexivity].
Defined.

End Spawn.
