(* ===== verification/EchfsVfs.v ===== *)
(** * The echidna file system in the kernel: [install_echfs] of [kernel/src/fs/echfs.c]

    Echfs sits twice in the virtual file system: its operations are called through the
    table of file systems, and it reaches its device through the virtual file system,
    by [vfs_kread] and [vfs_kwrite] on the device's path and by a kernel handle on the
    device, which devfs serves.  Here both sides are put together over the state of
    [System.v]: [echfs] is the entry of the table, and [blockdev] the interface
    [BlockDev] of [Echfs.v] made of the calls of [Vfs.v].

    The state of echfs is the first component of the drivers' state; [D] is the rest.
    A kernel handle on the device that leads back into echfs (there is no [/dev]) is
    [None]. *)

From S2P Require Import Prelude Mem Kheap Dev Handle Devfs Echfs EchfsFile EchfsGrow Gdt Task UserMem VfsPath Vfs System.
Local Open Scope Z_scope.
Local Open Scope st_scope.

Module EchfsVfs.
Import System.

Definition O_RDWR : Z := 3.

Section Echfs.
Context {D : Type}.
(** The drivers' state, and the kernel's. *)
#[local] Notation drivers := (EchfsFile.fs * D)%type.
#[local] Notation kworld := (world drivers).

Definition efs (w : kworld) : EchfsFile.fs := (Devfs.world (wdrv w)).1.
Definition with_efs (st : EchfsFile.fs) (w : kworld) : kworld :=
  with_wdrv (Devfs.with_world (st, (Devfs.world (wdrv w)).2) (wdrv w)) w.

(** A driver beside echfs. *)
Definition beside (d : Dev.device_t D) : Dev.device_t drivers :=
  Dev.MkDevice (Dev.name d) (Dev.gp_value d) (Dev.size d) (fun gp loc type payload s =>
    match Dev.io_wrapper d gp loc type payload s.2 with Some (r, x) => Some (r, (s.1, x)) | None => None end).

Context (print : list Z -> ST drivers unit) (stk : list Z) (fuel : nat).
#[local] Instance kernel0 : Task.Kernel kworld := base_kernel print.

(** An entry of the table that is not called. *)
Definition no_call (nm : list Z) : Vfs.filesystem_t kworld := Vfs.MkFilesystem kworld nm
  (fun _ _ _ => st_fail) (fun _ _ _ _ => st_fail) (fun _ _ => st_fail) (fun _ _ _ => st_fail) (fun _ _ _ => st_fail)
  (fun _ _ _ => st_fail) (fun _ _ _ => st_fail) (fun _ => st_fail) (fun _ _ _ _ => st_fail) (fun _ => st_fail)
  (fun _ => st_fail) (fun _ _ => st_fail) (fun _ _ => st_fail) (fun _ _ _ => st_fail).

(** ["echfs"] *)
Definition ECHFS : list Z := [101; 99; 104; 102; 115].
(** The table as echfs finds it when it calls the virtual file system. *)
Definition below : list (Vfs.filesystem_t kworld) := [devfs; no_call ECHFS].

(** The device [dev] of a volume. *)
Definition blockdev (dev : list Z) : BlockDev kworld := {|
  vfs_kread loc := fun w => Vfs.vfs_kread below (world_devices w) stk dev loc w;
  vfs_kwrite loc val := fun w => Vfs.vfs_kwrite below (world_devices w) stk dev loc val w;
  kseek_uread h off len := Vfs.vfs_kseek below h off 0 ;; let! r := Vfs.vfs_kuread below h len in st_ret r.2;
  kseek_uwrite h off bytes := Vfs.vfs_kseek below h off 0 ;; Vfs.vfs_kuwrite below h bytes;
  vfs_kopen := Vfs.vfs_kopen below stk dev O_RDWR 0;
  vfs_kclose h := Vfs.vfs_kclose below h;
  vfs_kfork h := Vfs.vfs_kfork below h
|}.

(** ** The operations *)

(** An operation on the variables of echfs. *)
Definition on_efs {A} (m : EchfsFile.fs -> ST kworld (A * EchfsFile.fs)) : ST kworld A :=
  fun w => match m (efs w) w with Some ((a, st), w) => Some (a, with_efs st w) | None => None end.
(** One on a mounted volume, which does not change them. *)
Definition on_volume {A} (dev : list Z) (m : Echfs.mount_t -> ST kworld A) : ST kworld A :=
  on_efs (fun st => let! v := st_lift (EchfsFile.mount_of dev st) in let! a := m v in st_ret (a, st)).
Definition st_world (f : kworld -> kworld) : ST kworld unit := fun w => Some (tt, f w).

Definition metadata_of (r : option (list Z * Z * Z)) : option Vfs.vfs_metadata_t :=
  (fun x => Vfs.MkMetadata x.1.1 x.1.2 x.2) <$> r.

(** The device of a handle; an operation on a handle does not use its path. *)
Definition dev_of (h : Z) (st : EchfsFile.fs) : list Z :=
  default [] (h ← zget (EchfsFile.handles st) h; v ← zget (EchfsFile.mounts st) (EchfsFile.device h); Some (Echfs.mname v)).
Definition on_handle {A} (h : Z) (m : BlockDev kworld -> EchfsFile.fs -> ST kworld (A * EchfsFile.fs)) : ST kworld A :=
  on_efs (fun st => m (blockdev (dev_of h st)) st).

(** [echfs_uread] and [echfs_uwrite] begin with [read_stat = 0], [write_stat = 0]. *)
Definition echfs_uread (h len : Z) : ST kworld (Z * list Z) :=
  st_world (with_rstat 0) ;;
  let! r := on_handle h (fun D => EchfsFile.echfs_uread (D := D) h len) in st_ret (zlen r, r).
Definition echfs_uwrite (h : Z) (bytes : list Z) : ST kworld Z :=
  st_world (with_wstat 0) ;; on_handle h (fun D => EchfsFile.echfs_uwrite (D := D) fuel h bytes).

Definition echfs_mount (dev : list Z) : ST kworld Z :=
  on_efs (fun st =>
    let! r := Echfs.echfs_mount (D := blockdev dev) dev (EchfsFile.mounts st) in
    st_ret (r.1, EchfsFile.MkFs r.2 (EchfsFile.cached_files st) (EchfsFile.handles st))).

(** [old] is [metadata->size], which [echfs_list] leaves as it was. *)
Context (old : Z).
Definition echfs_list (p : list Z) (entry : Z) (dev : list Z) : ST kworld (option Vfs.vfs_metadata_t) :=
  on_volume dev (fun v =>
    let! r := Echfs.echfs_list (D := blockdev dev) fuel v p entry in
    st_ret (metadata_of ((fun x => (x.1, x.2, old)) <$> r))).

Definition echfs : Vfs.filesystem_t kworld := Vfs.MkFilesystem kworld ECHFS
  (fun p loc dev => on_efs (EchfsFile.echfs_read (D := blockdev dev) fuel p loc dev))
  (fun p val loc dev => on_efs (EchfsFile.echfs_write (D := blockdev dev) fuel p val loc dev))
  (fun p dev => on_efs (EchfsFile.echfs_remove (D := blockdev dev) fuel p dev))
  (fun p _ dev => on_volume dev (fun v => Echfs.echfs_mkdir (D := blockdev dev) fuel v p))
  (fun p _ dev => on_volume dev (fun v => Echfs.echfs_create (D := blockdev dev) fuel v p))
  (fun p type dev => on_volume dev (fun v =>
     let! r := Echfs.echfs_get_metadata (D := blockdev dev) v p type in st_ret (metadata_of r)))
  echfs_list
  echfs_mount
  (fun p flags mode dev => on_efs (EchfsFile.echfs_open (D := blockdev dev) fuel p flags mode dev))
  (fun h => on_handle h (fun D => EchfsFile.echfs_close (D := D) h))
  (fun h => on_handle h (fun D => EchfsFile.echfs_fork (D := D) h))
  echfs_uread
  echfs_uwrite
  (fun h offset type => on_efs (EchfsFile.echfs_seek h offset type)).

Definition install_echfs (l : list (Vfs.filesystem_t kworld)) : option (list (Vfs.filesystem_t kworld)) :=
  Vfs.vfs_install_fs echfs l.

(** The table after both installations. *)
Definition filesystems : list (Vfs.filesystem_t kworld) := [devfs; echfs].
End Echfs.

(** ** The device under echfs behaves as a volume

    The device [nm] is device [i], [d0], a driver that is a volume; the kernel handle
    [kh] is the handle [ih] of devfs on it.  The scheduler's state [s0] and the mount
    points [mp] do not change. *)

Import Task.

Lemma zlen_take_min {A} (l : list A) k : 0 <= k -> zlen (take (Z.to_nat k) l) = Z.min (zlen l) k.
Proof. intros H. unfold zlen. rewrite length_take. lia. Qed.

Section Laws.
Context {D : Type} {io : Z -> Z -> Z -> D -> option (Z * D)} {sz : Z} {V : Volume io sz}.
#[local] Notation drivers := (EchfsFile.fs * D)%type.
#[local] Notation kworld := (world drivers).
Context (print : list Z -> ST drivers unit) (stk : list Z).
Context (d0 : Dev.device_t D) (Hd0 : Devfs.drives_volume (io := io) d0) (Hsz : sz < 2 ^ 31).
Context (nm : list Z) (i kh mnt ih : Z) (s0 : sched) (mp : list VfsPath.mountpoint_t).
Context (t0 : task_t) (gk : Z) (p0 : VfsPath.mountpoint_t).
Context (Ht0 : zget (task_table s0) 0 = Some (Task t0))
  (Hkh : zget (file_handles_v2 t0) kh = Some (Handle.MkFileHandleV2 gk mnt ih))
  (Hmnt : zget mp mnt = Some p0) (Hp0 : VfsPath.filesystem p0 = Vfs.fname (devfs (DV := drivers))).
#[local] Set Default Proof Using "Type".

(** The volume beside the variables of echfs. *)
Definition beside_io (loc type payload : Z) (s : drivers) : option (Z * drivers) :=
  match io loc type payload s.2 with Some (r, x) => Some (r, (s.1, x)) | None => None end.
#[local] Program Instance beside_volume : Volume beside_io sz := {
  vol_ok s := vol_ok s.2;
  vol_byte s l := vol_byte s.2 l
}.
Next Obligation. intros s l. apply vol_is_byte. Qed.
Next Obligation.
  intros s l Hs Hl. destruct (vol_read s.2 l Hs Hl) as (x & E & Hx & Hb). exists (s.1, x). unfold beside_io. by rewrite E.
Qed.
Next Obligation.
  intros s l v Hs Hl Hv. destruct (vol_write s.2 l v Hs Hl Hv) as (x & E & Hx & Hb). exists (s.1, x). unfold beside_io. by rewrite E.
Qed.

Record disk_ok (w : kworld) : Prop := {
  dk_sched : wsched w = s0;
  dk_mounts : wmounts w = mp;
  dk_find : Dev.find_device nm (Devfs.device_list (wdrv w)) = Some i;
  dk_device : zget (Devfs.device_list (wdrv w)) i = Some (beside d0);
  dk_volume : vol_ok (Devfs.world (wdrv w));
  dk_handle : exists h, Handle.live Devfs.dh_free (Devfs.handles (wdrv w)) ih h /\ Devfs.on_device h sz /\ Devfs.device h = i
}.

Lemma beside_drives : Devfs.drives_volume (io := beside_io) (beside d0).
Proof using Hd0. intros loc type v s. cbn. unfold beside_io. by rewrite Hd0. Qed.

(** ** Lemmas: a byte by the path of the device *)

Lemma find_world_device (w : kworld) :
  Dev.find_device nm (world_devices w) = Dev.find_device nm (Devfs.device_list (wdrv w)).
Proof.
  unfold Dev.find_device, world_devices. generalize 0. induction (Devfs.device_list (wdrv w)) as [|d l IH]; intros k; [done|].
  cbn. destruct (decide _); [done|apply IH].
Qed.

#[local] Instance kernel1 : Kernel (kworld) := base_kernel print.
Definition devname : list Z := Vfs.dev_prefix ++ nm.
Lemma device_path_ok : Vfs.device_path devname = Some nm.
Proof. done. Qed.

(** One call of the driver, and the state after it. *)
Definition with_volume (x : D) (w : kworld) : kworld :=
  with_wdrv (Devfs.with_world ((Devfs.world (wdrv w)).1, x) (wdrv w)) w.
Lemma with_volume_ok x w : disk_ok w -> vol_ok x -> disk_ok (with_volume x w).
Proof. intros [H1 H2 H3 H4 H5 H6] Hx. by split. Qed.

Lemma device_io_ok w loc type val r x : disk_ok w -> io loc type val (Devfs.world (wdrv w)).2 = Some (r, x) ->
  Vfs.device_io (world_devices w) nm loc type val w = Some (s32 r, with_volume x w).
Proof using Hd0.
  intros Hw E. unfold Vfs.device_io. rewrite (find_world_device w), (dk_find w Hw).
  erewrite st_bind_ok by (unfold st_lift, world_devices; rewrite zget_lookup, list_lookup_fmap, <- zget_lookup
    by (pose proof (zget_Some _ _ _ (dk_device w Hw)); lia); rewrite (dk_device w Hw); reflexivity).
  erewrite st_bind_ok; [reflexivity|]. cbn. rewrite Hd0, E. done.
Qed.

#[local] Notation image_of w := (vol_byte (Devfs.world (wdrv w)).2).

Lemma disk_read_ok w loc : disk_ok w -> 0 <= loc < sz -> exists w',
  Vfs.vfs_kread below (world_devices w) stk devname loc w = Some (image_of w loc, w') /\ disk_ok w' /\
  forall l, 0 <= l < sz -> image_of w' l = image_of w l.
Proof using Hd0.
  intros Hw Hl. destruct (vol_read _ loc (dk_volume w Hw) Hl) as (x & E & Hx & Hb).
  pose proof (vol_is_byte _ loc (dk_volume w Hw) Hl) as Hv. unfold is_byte in Hv.
  exists (with_volume x.2 w). split; [|split; [by apply with_volume_ok|exact Hb]].
  unfold Vfs.vfs_kread. rewrite device_path_ok. cbn in E. unfold beside_io in E.
  destruct (io loc 0 0 _) as [[r y]|] eqn:Eio; [|done]. injection E as -> <-.
  rewrite (device_io_ok w loc 0 0 _ y Hw Eio). cbn. by rewrite s32_small by (cbn in Hv; lia).
Qed.

Lemma disk_write_ok w loc v : disk_ok w -> 0 <= loc < sz -> is_byte v -> exists w',
  Vfs.vfs_kwrite below (world_devices w) stk devname loc v w = Some (0, w') /\ disk_ok w' /\
  forall l, 0 <= l < sz -> image_of w' l = if decide (l = loc) then v else image_of w l.
Proof using Hd0.
  intros Hw Hl Hv. destruct (vol_write _ loc v (dk_volume w Hw) Hl Hv) as (x & E & Hx & Hb).
  exists (with_volume x.2 w). split; [|split; [by apply with_volume_ok|exact Hb]].
  unfold Vfs.vfs_kwrite. rewrite device_path_ok. cbn in E. unfold beside_io in E.
  destruct (io loc 1 v _) as [[r y]|] eqn:Eio; [|done]. injection E as -> <-.
  by rewrite (device_io_ok w loc 1 v _ y Hw Eio).
Qed.

(** ** Lemmas: the kernel handle on the device *)

Lemma kernel_handle_ok {A} w (k : Vfs.filesystem_t (kworld) -> Z -> ST kworld A) : disk_ok w ->
  Vfs.on_handle below 0 kh k w = k devfs ih w.
Proof using Ht0 Hkh Hmnt Hp0.
  intros Hw. unfold Vfs.on_handle.
  assert (Vfs.handle_of 0 kh w = Some (Handle.MkFileHandleV2 gk mnt ih, w)) as E.
  { rewrite <- (set_get (K := kernel1) w). change (get_sched w) with (wsched w). rewrite (dk_sched w Hw).
    by apply (Vfs.handle_of_ok s0 w 0 t0). }
  rewrite (st_bind_ok _ _ _ _ _ E). clear E.
  assert (Vfs.fs_of below mnt w = Some (devfs, w)) as E.
  { apply (Vfs.fs_of_ok _ _ _ 0); [|done]. unfold Vfs.fs_index, st_bind, Vfs.mount_table, st_lift, VfsPath.vfs_translate_fs.
    cbn [below fmap list_fmap Vfs.mountpoints world_vfs]. rewrite (dk_mounts w Hw), Hmnt. cbn [mbind option_bind VfsPath.fs_from].
    by rewrite Hp0, decide_True. }
  by rewrite (st_bind_ok _ _ _ _ _ E).
Qed.

Lemma seek_through (w : kworld) off r st : disk_ok w -> Devfs.devfs_seek ih off 0 (wdrv w) = Some (r, st) ->
  Vfs.vfs_kseek below kh off 0 w = Some (r, with_wdrv st w).
Proof using Ht0 Hkh Hmnt Hp0.
  intros Hw E. unfold Vfs.vfs_kseek. rewrite kernel_handle_ok by done. cbn. unfold on_devfs. by rewrite E.
Qed.

(** The handle moved, the volume changed, and a mark of the last transfer. *)
Lemma moved_ok w h p x k : disk_ok w -> Handle.live Devfs.dh_free (Devfs.handles (wdrv w)) ih h ->
  Devfs.on_device h sz -> Devfs.device h = i -> 0 <= p <= sz -> vol_ok x ->
  disk_ok (with_wdrv (Devfs.MkState (<[Z.to_nat ih := Devfs.with_ptr h p]> (Devfs.handles (wdrv w)))
    (Devfs.device_list (wdrv w)) x k) w).
Proof.
  intros [H1 H2 H3 H4 H5 _] Hl Hon Hi Hp Hx. split; cbn; [done..|].
  exists (Devfs.with_ptr h p). destruct Hon as [E0 E1 E2 E3 E4 E5]. split; [by apply (Devfs.live_insert ih h)|by split].
Qed.
Lemma stat_ok w k : disk_ok w -> disk_ok (with_rstat k w) /\ disk_ok (with_wstat k w).
Proof. by intros [H1 H2 H3 H4 H5 H6]; split; split. Qed.

Lemma disk_uread_ok w off (len : nat) : disk_ok w -> 0 <= off -> off + Z.of_nat len <= sz -> exists w',
  (Vfs.vfs_kseek below kh off 0 ;; let! r := Vfs.vfs_kuread below kh (Z.of_nat len) in st_ret r.2) w =
    Some ((fun k => image_of w (off + Z.of_nat k)) <$> seq 0 len, w') /\ disk_ok w' /\
  forall l, 0 <= l < sz -> image_of w' l = image_of w l.
Proof using Hd0 Hsz Ht0 Hkh Hmnt Hp0.
  intros Hw H0 Hl. destruct (dk_handle w Hw) as (h & Hlive & Hon & Hi). pose proof (dk_device w Hw) as Hdev. rewrite <- Hi in Hdev.
  destruct (Devfs.seek_read_ok (io := beside_io) ih off len h (beside d0) (wdrv w) Hlive Hon Hdev beside_drives (dk_volume w Hw) H0 Hl)
    as (st1 & x & Es & Er & Hx & Hb).
  rewrite (st_bind_ok _ _ _ _ _ (seek_through w off off st1 Hw Es)).
  rewrite (Devfs.seek_set_ok ih off h (wdrv w) sz) in Es by (done || lia). injection Es as <-.
  set (w1 := with_wdrv _ w).
  assert (disk_ok w1) as Hw1 by (apply (moved_ok w h off _ _ Hw Hlive Hon Hi); [lia|by apply dk_volume]).
  eexists. split; [|split].
  - assert (Vfs.vfs_kuread below kh (Z.of_nat len) w1 = Some ((Z.of_nat len, Devfs.vol_bytes (Devfs.world (wdrv w)) off len),
      with_rstat 0 (with_wdrv (Devfs.MkState (<[Z.to_nat ih := Devfs.with_ptr h (off + Z.of_nat len)]> (Devfs.handles (wdrv w)))
        (Devfs.device_list (wdrv w)) x 0) w))) as E.
    { unfold Vfs.vfs_kuread. rewrite kernel_handle_ok by done. cbn [Vfs.fs_uread devfs]. unfold devfs_uread.
      unfold st_bind, on_devfs. cbn [w1 wdrv with_wdrv]. by rewrite Er. }
    rewrite (st_bind_ok _ _ _ _ _ E). reflexivity.
  - apply stat_ok. apply (moved_ok w h _ _ _ Hw Hlive Hon Hi); [lia|done].
  - intros l Hl'. by apply Hb.
Qed.

Lemma disk_uwrite_ok w off bytes : disk_ok w -> Forall is_byte bytes -> 0 <= off -> off + zlen bytes <= sz -> exists r w',
  (Vfs.vfs_kseek below kh off 0 ;; Vfs.vfs_kuwrite below kh bytes) w = Some (r, w') /\ disk_ok w' /\
  forall l, 0 <= l < sz -> image_of w' l = default (image_of w l) (zget bytes (l - off)).
Proof using Hd0 Hsz Ht0 Hkh Hmnt Hp0.
  intros Hw Hby H0 Hl. destruct (dk_handle w Hw) as (h & Hlive & Hon & Hi). pose proof (dk_device w Hw) as Hdev. rewrite <- Hi in Hdev.
  pose proof (zlen_nonneg bytes).
  destruct (Devfs.seek_write_ok (io := beside_io) ih off bytes h (beside d0) (wdrv w) Hlive Hon Hdev beside_drives (dk_volume w Hw) H0 Hby Hl)
    as (st1 & x & Es & Er & Hx & Hb).
  rewrite (st_bind_ok _ _ _ _ _ (seek_through w off off st1 Hw Es)).
  rewrite (Devfs.seek_set_ok ih off h (wdrv w) sz) in Es by (done || lia). injection Es as <-.
  set (w1 := with_wdrv _ w).
  assert (disk_ok w1) as Hw1 by (apply (moved_ok w h off _ _ Hw Hlive Hon Hi); [lia|by apply dk_volume]).
  eexists _, _. split; [|split].
  - unfold Vfs.vfs_kuwrite. rewrite kernel_handle_ok by done. cbn [Vfs.fs_uwrite devfs]. unfold devfs_uwrite.
    unfold st_bind, on_devfs. cbn [w1 wdrv with_wdrv]. rewrite Er. reflexivity.
  - apply stat_ok. apply (moved_ok w h _ _ _ Hw Hlive Hon Hi); [lia|done].
  - intros l Hl'. by apply Hb.
Qed.

(** The interface [BlockDev] of echfs holds for the device behind the kernel's calls. *)
#[local] Program Instance blockdev_laws : BlockDevLaws (blockdev print stk devname) sz := {
  bd_ok := disk_ok;
  img w := image_of w;
  good_handle h := h = kh
}.
Next Obligation. exact Hsz. Qed.
Next Obligation. intros w l Hw Hl. by apply vol_is_byte; [apply (dk_volume w Hw)|]. Qed.
Next Obligation. intros w l Hw Hl. by apply disk_read_ok. Qed.
Next Obligation. intros w l v Hw Hl Hv. destruct (disk_write_ok w l v Hw Hl Hv) as (w' & E & H). by exists 0, w'. Qed.
Next Obligation. intros w h off len Hw -> H0 Hl. by apply disk_uread_ok. Qed.
Next Obligation. intros w h off bytes Hw -> Hb H0 Hl. by apply disk_uwrite_ok. Qed.

(** ** Specification: the calls on an open file act on an array of bytes

    A file is a position, a length and the bytes.  A handle reads and seeks up to the
    end [n] that it was opened with, and writes anywhere up to the length; there are
    [total] blocks, those of the file and the free ones.  [returned] is the value of
    the call, [got] the bytes stored at the task's address.  A transfer is cut at
    [MAX_SIMULTANOUS_VFS_ACCESS]. *)

Inductive fop := FRead (len : Z) | FWrite (bytes : list Z) | FSeek (offset : Z).
Record answer := MkAnswer { returned : Z; got : list Z }.
Record file := MkFile { fpos : Z; flen : Z; fdata : Z -> Z }.
#[local] Notation MAX := Vfs.MAX_SIMULTANOUS_VFS_ACCESS.

Definition file_read (n len : Z) (s : file) : answer * file :=
  let k := Z.max 0 (Z.min len (n - fpos s)) in
  (MkAnswer k (EchfsFile.bytes_at (fdata s) (fpos s) (Z.to_nat k)), MkFile (fpos s + k) (flen s) (fdata s)).
Definition file_write (l : list Z) (s : file) : answer * file :=
  (MkAnswer (zlen l) [], MkFile (fpos s + zlen l) (Z.max (flen s) (fpos s + zlen l)) (EchfsFile.put_bytes (fdata s) (fpos s) l)).
Definition file_seek (n off : Z) (s : file) : answer * file :=
  if (0 <=? off) && (off <=? n) then (MkAnswer off [], MkFile off (flen s) (fdata s)) else (MkAnswer (-1) [], s).
Definition file_step (n : Z) (op : fop) (s : file) : answer * file :=
  match op with
  | FRead len => file_read n (Z.min len MAX) s
  | FWrite bytes => file_write (take (Z.to_nat MAX) bytes) s
  | FSeek off => file_seek n off s
  end.

(** A write has blocks. *)
Definition fop_ok (total : Z) (s : file) (op : fop) : Prop :=
  match op with
  | FRead len => 0 <= len
  | FWrite bytes => let e := fpos s + Z.min (zlen bytes) MAX in
      Forall is_byte bytes /\ e < 2 ^ 31 /\ EchfsFile.block_count e <= total
  | FSeek off => - 2 ^ 31 <= off < 2 ^ 31
  end.
Fixpoint file_run (n : Z) (ops : list fop) (s : file) : list answer * file :=
  match ops with
  | [] => ([], s)
  | op :: ops => let r := file_step n op s in let t := file_run n ops r.2 in (r.1 :: t.1, t.2)
  end.
Fixpoint fops_ok (n total : Z) (s : file) (ops : list fop) : Prop :=
  match ops with [] => True | op :: ops => fop_ok total s op /\ fops_ok n total (file_step n op s).2 ops end.

(** The same calls of the kernel. *)
Definition kernel_step (fss : list (Vfs.filesystem_t kworld)) (uh : Z) (op : fop) : ST kworld answer :=
  match op with
  | FRead len => let! r := Vfs.vfs_uread fss uh len in st_ret (MkAnswer r.1 r.2)
  | FWrite bytes => let! r := Vfs.vfs_uwrite fss uh bytes in st_ret (MkAnswer r [])
  | FSeek off => let! r := Vfs.vfs_seek fss uh off 0 in st_ret (MkAnswer r [])
  end.
Fixpoint kernel_run (fss : list (Vfs.filesystem_t kworld)) (uh : Z) (ops : list fop) : ST kworld (list answer) :=
  match ops with
  | [] => st_ret []
  | op :: ops => let! r := kernel_step fss uh op in let! l := kernel_run fss uh ops in st_ret (r :: l)
  end.

(** ** An open file of a task

    The handle [uh] of the running task is the handle [eh] of echfs. *)

Context (fuel : nat) (old : Z) (uh me eh gu : Z) (tc : task_t) (pe : VfsPath.mountpoint_t).
Context (Htc : zget (task_table s0) (current_task s0) = Some (Task tc))
  (Huh : zget (file_handles_v2 tc) uh = Some (Handle.MkFileHandleV2 gu me eh))
  (Hme : zget mp me = Some pe) (Hpe : VfsPath.filesystem pe = ECHFS).
#[local] Notation fss := (filesystems print stk fuel old).

(** The volume: [EchfsGrow.layout], the entry of the file at [el]. *)
Context (m : Echfs.mount_t) (lim dlo el total n : Z) (Hmn : Echfs.mname m = devname)
  (Hlay : EchfsGrow.layout sz m lim dlo el) (Hfuel : (Z.to_nat lim <= fuel)%nat) (Hn : 0 <= n < 2 ^ 31).

(** [Echfs.agrees], for the laws of the device. *)
Definition disk_agrees (w : kworld) (f : Echfs.image) : Prop :=
  disk_ok w /\ forall l, 0 <= l < sz -> image_of w l = f l.
Record file_open (w : kworld) (s : file) (f : Echfs.image) (h : EchfsFile.echfs_handle_t)
    (c : EchfsFile.cached_file_t) (l ts : list Z) : Prop := {
  fo_disk : disk_agrees w f;
  fo_handle : zget (EchfsFile.handles (efs w)) eh = Some h;
  fo_live : EchfsFile.hfree h = 0;
  fo_device : EchfsFile.dev_handle h = kh;
  fo_mount : zget (EchfsFile.mounts (efs w)) (EchfsFile.device h) = Some m;
  fo_cached : zget (EchfsFile.cached_files (efs w)) (EchfsFile.cached_file h) = Some c;
  fo_on_disk : EchfsGrow.on_disk sz m lim dlo f c l ts;
  fo_total : zlen l + zlen ts = total;
  fo_entry : Echfs.entry_loc m (Echfs.target_entry (EchfsFile.path_result c)) = el;
  fo_size : Echfs.size (EchfsFile.file_entry c) = flen s;
  fo_ptr : EchfsFile.ptr h = fpos s /\ 0 <= fpos s <= flen s;
  fo_range : EchfsFile.begin h = 0 /\ EchfsFile.end_ h = n /\ n <= flen s;
  fo_data o : 0 <= o < flen s -> EchfsFile.content f c o = fdata s o
}.
Definition opened (w : kworld) (s : file) : Prop := exists f h c l ts, file_open w s f h c l ts.

(** ** Lemmas: the handle of the task *)

Lemma sched_is w : disk_ok w -> w = set_sched (Kernel := kernel1) s0 w.
Proof. intros Hw. rewrite <- (dk_sched w Hw). by destruct w. Qed.

Lemma user_handle_ok {A} w (k : Vfs.filesystem_t kworld -> Z -> ST kworld A) : disk_ok w ->
  (let! c := current in Vfs.on_handle fss c uh k) w = k (echfs print stk fuel old) eh w.
Proof using Htc Huh Hme Hpe.
  intros Hw. assert (current w = Some (current_task s0, w)) as E.
  { unfold current, st_get, st_bind. cbn. by rewrite (dk_sched w Hw). }
  rewrite (st_bind_ok _ _ _ _ _ E). clear E. unfold Vfs.on_handle.
  assert (Vfs.handle_of (current_task s0) uh w = Some (Handle.MkFileHandleV2 gu me eh, w)) as E.
  { rewrite (sched_is w Hw). by apply (Vfs.handle_of_ok s0 w _ tc). }
  rewrite (st_bind_ok _ _ _ _ _ E). clear E.
  assert (Vfs.fs_of fss me w = Some (echfs print stk fuel old, w)) as E.
  { apply (Vfs.fs_of_ok _ _ _ 1); [|done]. unfold Vfs.fs_index, st_bind, Vfs.mount_table, st_lift, VfsPath.vfs_translate_fs.
    cbn [filesystems fmap list_fmap Vfs.mountpoints world_vfs]. rewrite (dk_mounts w Hw), Hme.
    cbn [mbind option_bind VfsPath.fs_from Vfs.fname devfs echfs]. rewrite Hpe. done. }
  by rewrite (st_bind_ok _ _ _ _ _ E).
Qed.

(** What a transfer leaves: other variables of echfs, a volume with another image. *)
Lemma with_efs_ok w st g : disk_agrees w g ->
  disk_agrees (with_efs st w) g /\ efs (with_efs st w) = st.
Proof. intros [[H1 H2 H3 H4 H5 H6] Hi]. split; [|done]. split; [by split|exact Hi]. Qed.

Lemma with_efs_id (w : kworld) : with_efs (efs w) w = w.
Proof. by destruct w as [? ? ? ? ? [? ? [? ?] ?]]. Qed.

Lemma rstat_agrees w k g : disk_agrees w g ->
  disk_agrees (with_rstat k w) g /\ disk_agrees (with_wstat k w) g.
Proof. intros [[H1 H2 H3 H4 H5 H6] Hi]. by split; (split; [split|]). Qed.

(** ** Lemmas: one operation *)

#[local] Set Default Proof Using "Type*".

Lemma zget_put {A} (l : list A) j x y : zget l j = Some y -> zget (<[Z.to_nat j := x]> l) j = Some x.
Proof using Type. intros H%zget_Some. rewrite (zget_zset l j j x) by (by apply zset_ok). by rewrite decide_True. Qed.

(** The file after a transfer that left the handle at [p'], the file [c'], the image [g]. *)
Lemma transferred w w' s p' s' f g h c c' l ts l' ts' : file_open w s f h c l ts ->
  disk_agrees w' g -> efs w' = EchfsFile.stored_back eh (EchfsFile.with_ptr h p') c' (efs w) ->
  EchfsGrow.on_disk sz m lim dlo g c' l' ts' -> l' ++ ts' = l ++ ts ->
  Echfs.target_entry (EchfsFile.path_result c') = Echfs.target_entry (EchfsFile.path_result c) ->
  Echfs.size (EchfsFile.file_entry c') = flen s' -> p' = fpos s' -> 0 <= fpos s' <= flen s' -> flen s <= flen s' ->
  (forall o, 0 <= o < flen s' -> EchfsFile.content g c' o = fdata s' o) -> file_open w' s' g (EchfsFile.with_ptr h p') c' l' ts'.
Proof.
  intros [F1 F2 F3 F4 F5 F6 F7 F8 F9 F10 F11 (F12 & F13 & F14) F15] Ha Ee Hok El Et Es -> Hp Hle Hd.
  split; rewrite ?Ee, ?Et; try done; cbn [EchfsFile.stored_back EchfsFile.handles EchfsFile.mounts EchfsFile.cached_files].
  - by eapply zget_put.
  - by eapply zget_put.
  - apply (f_equal length) in El. rewrite !length_app in El. unfold zlen in *. lia.
  - split; [done|]. split; [done|]. cbn. lia.
Qed.

Lemma dev_of_open w s f h c l ts : file_open w s f h c l ts -> dev_of eh (efs w) = devname.
Proof. intros H. unfold dev_of. rewrite (fo_handle _ _ _ _ _ _ _ H). cbn. rewrite (fo_mount _ _ _ _ _ _ _ H). exact Hmn. Qed.

Lemma echfs_read_ok w s len : opened w s -> 0 <= len -> exists w',
  echfs_uread print stk eh len w = Some ((returned (file_read n len s).1, got (file_read n len s).1), w') /\
  opened w' (file_read n len s).2.
Proof.
  intros (f & h & c & l & ts & Ho) Hl. pose proof Ho as [F1 F2 F3 F4 F5 F6 F7 F8 F9 F10 [F11 Hp] (F12 & F13 & F14) F15].
  pose proof Hlay as Hly. rewrite <- F9 in Hly.
  destruct (EchfsGrow.echfs_uread_on_disk (L := blockdev_laws) f (efs w) eh h m c l ts lim dlo F2 F4 F5 F6 Hly fuel Hfuel F7 len)
    as (c' & g & Hr & Hod & Hs); [lia|lia|done|]. rewrite F11, F13 in Hr.
  unfold file_read. cbn [fst snd returned got]. set (k := Z.max 0 _) in *.
  destruct (Hr (with_rstat 0 w)) as (w1 & E & Ha); [by apply rstat_agrees|].
  set (st := EchfsFile.stored_back eh (EchfsFile.with_ptr h (fpos s + k)) c' (efs w)) in *.
  destruct (with_efs_ok w1 st g Ha) as [Ha' Ee]. exists (with_efs st w1). split.
  - unfold echfs_uread, on_handle. unfold st_bind at 1, st_world. unfold st_bind at 1, on_efs.
    change (efs (with_rstat 0 w)) with (efs w). rewrite (dev_of_open _ _ _ _ _ _ _ Ho), E. unfold st_ret. do 2 f_equal. f_equal.
    + rewrite EchfsFile.bytes_at_len. lia.
    + apply list_fmap_ext. intros j x Hx%lookup_seq. apply F15. lia.
  - destruct Hs as [S1 S2 S3 _]. assert (EchfsFile.file_entry c' = EchfsFile.file_entry c) as Ec by (unfold EchfsFile.file_entry; by rewrite S2).
    exists g, (EchfsFile.with_ptr h (fpos s + k)), c', l, ts.
    eapply transferred; [exact Ho|exact Ha'|exact Ee|exact Hod|done|by rewrite S2|by rewrite Ec|done|cbn; lia|cbn; lia|].
    cbn [flen fdata]. intros o Hoo. rewrite S3 by lia. by apply F15.
Qed.

Lemma echfs_write_ok w s bytes : opened w s -> Forall is_byte bytes -> fpos s + zlen bytes < 2 ^ 31 ->
  EchfsFile.block_count (fpos s + zlen bytes) <= total -> exists w',
  echfs_uwrite print stk fuel eh bytes w = Some (returned (file_write bytes s).1, w') /\ opened w' (file_write bytes s).2.
Proof.
  intros (f & h & c & l & ts & Ho) Hb H31 Ht. pose proof Ho as [F1 F2 F3 F4 F5 F6 F7 F8 F9 F10 [F11 Hp] (F12 & F13 & F14) F15].
  pose proof Hlay as Hly. rewrite <- F9 in Hly. rewrite <- F11 in *. rewrite <- F8 in Ht. pose proof (zlen_nonneg bytes).
  destruct (EchfsGrow.echfs_uwrite_on_disk (L := blockdev_laws) f (efs w) eh h m c l ts lim dlo F2 F4 F5 F6 Hly fuel Hfuel F7 bytes)
    as (c' & g & l' & ts' & Hr & Hod & Ell & Es & Et & _ & _ & _ & Hc); [done|lia|lia|done|].
  destruct (Hr (with_wstat 0 w)) as (w1 & E & Ha); [by apply rstat_agrees|].
  set (st := EchfsFile.stored_back eh (EchfsFile.with_ptr h (EchfsFile.ptr h + zlen bytes)) c' (efs w)) in *.
  destruct (with_efs_ok w1 st g Ha) as [Ha' Ee]. exists (with_efs st w1). split.
  - unfold echfs_uwrite, on_handle. unfold st_bind at 1, st_world. unfold on_efs.
    change (efs (with_wstat 0 w)) with (efs w). rewrite (dev_of_open _ _ _ _ _ _ _ Ho), E. done.
  - exists g, (EchfsFile.with_ptr h (EchfsFile.ptr h + zlen bytes)), c', l', ts'. rewrite F10 in Es.
    eapply transferred; [exact Ho|exact Ha'|exact Ee|exact Hod|done|exact (EchfsGrow.se_target _ _ Et)| | | | |]; cbn [file_write flen fpos fdata fst snd];
      [by rewrite <- F11|by rewrite F11|lia|lia|].
    intros o Hoo. rewrite Hc by lia. rewrite <- F11. unfold EchfsFile.put_bytes.
    destruct (zget bytes _) eqn:Eb; [done|]. apply F15. apply zget_None in Eb. lia.
Qed.

Lemma echfs_seek_ok w s off : opened w s -> - 2 ^ 31 <= off < 2 ^ 31 -> exists w',
  on_efs (EchfsFile.echfs_seek eh off 0) w = Some (returned (file_seek n off s).1, w') /\ opened w' (file_seek n off s).2.
Proof.
  intros Hop Hoff. pose proof Hop as (f & h & c & l & ts & Ho). pose proof Ho as [F1 F2 F3 F4 F5 F6 F7 F8 F9 F10 [F11 Hp] (F12 & F13 & F14) F15].
  set (st := EchfsFile.stored_back eh (EchfsFile.with_ptr h off) c (efs w)). destruct (with_efs_ok w st f F1) as [Ha' Ee].
  unfold on_efs, EchfsFile.echfs_seek, EchfsFile.valid_handle. pose proof (zget_Some _ _ _ F2).
  rewrite (proj2 (Z.ltb_ge _ _)), (proj2 (Z.leb_gt _ _)), F2 by lia. cbn [mbind option_bind].
  rewrite F3, Z.eqb_refl. cbn [Z.eqb]. unfold EchfsFile.seek_from. rewrite F12, F13, Z.add_0_l, s32_small by lia.
  unfold file_seek. destruct (Z.leb_spec 0 off), (Z.leb_spec off n), (Z.ltb_spec n off), (Z.ltb_spec off 0); try lia; cbn [andb orb fst snd returned];
    [|exists w; split; [unfold st_ret; by rewrite with_efs_id|done]..].
  exists (with_efs st w). split.
  - unfold EchfsFile.put_handle. rewrite zset_ok by done. cbn [mbind option_bind]. unfold st_bind, st_lift, st_ret.
    do 4 f_equal. unfold st, EchfsFile.stored_back. f_equal. cbn [EchfsFile.cached_file EchfsFile.with_ptr]. symmetry.
    apply list_insert_id. rewrite <- zget_lookup; [done|]. apply zget_Some in F6; lia.
  - exists f, (EchfsFile.with_ptr h off), c, l, ts. eapply transferred; [exact Ho|exact Ha'|exact Ee|done..|cbn; lia|cbn; lia|done].
Qed.

(** ** Lemmas: through the virtual file system *)

Lemma opened_stat w s k : opened w s -> opened (with_rstat k w) s /\ opened (with_wstat k w) s.
Proof.
  intros (f & h & c & l & ts & [F1 F2 F3 F4 F5 F6 F7 F8 F9 F10 F11 F12 F13]).
  destruct (rstat_agrees w k f F1). split; exists f, h, c, l, ts; by split.
Qed.
Lemma opened_disk w s : opened w s -> disk_ok w.
Proof. intros (f & h & c & l & ts & Ho). apply (fo_disk _ _ _ _ _ _ _ Ho). Qed.

Lemma step_ok op w s : opened w s -> fop_ok total s op -> exists w',
  kernel_step fss uh op w = Some ((file_step n op s).1, w') /\ opened w' (file_step n op s).2.
Proof.
  intros Ho Hop. pose proof (opened_disk _ _ Ho) as Hw. destruct op as [len|bytes|off]; cbn [kernel_step file_step fop_ok] in *.
  - unfold Vfs.vfs_uread. unfold st_bind at 1. rewrite user_handle_ok by done. cbn [Vfs.fs_uread echfs].
    destruct (echfs_read_ok w s (Z.min len MAX) Ho) as (w' & E & H'); [unfold Vfs.MAX_SIMULTANOUS_VFS_ACCESS; lia|].
    destruct (Z.leb_spec len MAX).
    + rewrite Z.min_l in * by lia. rewrite E. by exists w'.
    + rewrite Z.min_r in * by lia. rewrite (st_bind_ok _ _ _ _ _ E). exists (with_rstat 1 w'). split; [done|]. by apply opened_stat.
  - destruct Hop as (Hb & H31 & Hr). assert (0 <= MAX) as H0 by done. rewrite <- zlen_take_min in H31, Hr by done.
    destruct (echfs_write_ok w s (take (Z.to_nat MAX) bytes) Ho) as (w' & E & H'); [by apply Forall_take|done|done|].
    unfold Vfs.vfs_uwrite. unfold st_bind at 1. rewrite user_handle_ok by done. cbn [Vfs.fs_uwrite echfs].
    destruct (Z.leb_spec (zlen bytes) MAX).
    + rewrite take_ge in * by (unfold zlen in *; lia). rewrite E. by exists w'.
    + rewrite (st_bind_ok _ _ _ _ _ E). exists (with_wstat 1 w'). split; [done|]. by apply opened_stat.
  - unfold Vfs.vfs_seek. unfold st_bind at 1. rewrite user_handle_ok by done. cbn [Vfs.fs_seek echfs].
    destruct (echfs_seek_ok w s off Ho Hop) as (w' & E & H'). rewrite E. exists w'. split; [|done].
    unfold file_seek. by destruct (_ && _).
Qed.

(** C4: An open file of a task is an array of bytes, down to the driver of the disk.
    Whatever calls [vfs_uread], [vfs_uwrite] and [vfs_seek] the task makes on its
    handle, in any order, reads of any length, writes as long as there are free blocks
    and seeks to any offset: each returns what the array returns, reads store the bytes
    of the array, and the file is left with the bytes, the length and the position of
    the array.  Here echfs caches a block of the file, finds its blocks through its
    allocation map, takes new ones from the table of the disk, and moves all of them by
    a kernel handle on the device, which the virtual file system sends to devfs and
    devfs to the driver. *)
Theorem files_refine ops w s : opened w s -> fops_ok n total s ops -> exists w',
  kernel_run fss uh ops w = Some ((file_run n ops s).1, w') /\ opened w' (file_run n ops s).2.
Proof.
  revert w s. induction ops as [|op ops IH]; intros w s Ho Hops; [by exists w|]. destruct Hops as [Hop Hops].
  destruct (step_ok op w s Ho Hop) as (w1 & E1 & H1). destruct (IH w1 _ H1 Hops) as (w2 & E2 & H2).
  exists w2. split; [|exact H2]. cbn [kernel_run file_run]. rewrite (st_bind_ok _ _ _ _ _ E1). by rewrite (st_bind_ok _ _ _ _ _ E2).
Qed.

End Laws.

(** * Witness: the file of [EchfsGrow.v], with a full block, at handle 1 of the kernel's task *)

(** A driver whose state is the bytes of its disk. *)
Definition image_io (loc type payload : Z) (f : Echfs.image) : option (Z * Echfs.image) :=
  if type =? 0 then Some (f loc, f) else Some (0, Echfs.upd f loc payload).
#[local] Program Instance image_volume : Volume image_io (2 ^ 30) := {
  vol_ok f := forall l, is_byte (f l);
  vol_byte f l := f l
}.
Next Obligation. intros f l H _. apply H. Qed.
Next Obligation. intros f l H _. by exists f. Qed.
Next Obligation.
  intros f l v H _ Hv. exists (Echfs.upd f l v). split; [done|]. unfold Echfs.upd. split.
  - intros k. by case_decide.
  - intros k _. done.
Qed.

Definition demo_disk : Dev.device_t Echfs.image := Dev.MkDevice [48] 0 (2 ^ 30) (fun _ => image_io).
Lemma demo_disk_drives : Devfs.drives_volume (io := image_io) demo_disk.
Proof. done. Qed.

(** Handle 0 is echfs's, on the device. *)
Definition demo_task : task_t :=
  with_file_handles_v2 [Handle.MkFileHandleV2 0 0 0; Handle.MkFileHandleV2 0 1 0] kernel_task.
Definition demo_sched : sched := MkSched [Task demo_task] 0 0 (Gdt.load_gdt 0 104).
Definition dev_mount : VfsPath.mountpoint_t := VfsPath.MkMountpoint [47; 100; 101; 118] [100; 101; 118; 102; 115] (Vfs.fname (devfs (DV := unit))).
Definition root_mount : VfsPath.mountpoint_t := VfsPath.MkMountpoint [47] (devname [48]) ECHFS.
Definition demo_mounted : Echfs.mount_t := Echfs.MkMount (devname [48]) 1000 1 16 1 17 18.
Definition demo_world : world (EchfsFile.fs * Echfs.image) :=
  MkWorld demo_sched Kheap.demo_heap [dev_mount; root_mount] 0 0
    (Devfs.MkState [Devfs.MkHandle 0 [48] 3 0 0 0 (2 ^ 30) 0 0] [beside demo_disk]
       (EchfsFile.MkFs [demo_mounted] [EchfsGrow.full_file] [EchfsGrow.full_handle], EchfsGrow.full_image) 0).
Definition silent : list Z -> ST (EchfsFile.fs * Echfs.image) unit := fun _ => st_ret tt.
Definition demo_el : Z := Echfs.entry_loc Echfs.demo_mount 0.
(** A block of zeros, the position at its end. *)
Definition demo_bytes : file := MkFile Echfs.BYTES_PER_BLOCK Echfs.BYTES_PER_BLOCK (fun _ => 0).

Lemma mounted_layout : EchfsGrow.layout (2 ^ 30) demo_mounted 22 EchfsGrow.demo_dlo demo_el.
Proof. by split. Qed.

Lemma demo_open : opened (io := image_io) (sz := 2 ^ 30) demo_disk [48] 0 0 0 demo_sched [dev_mount; root_mount] 0
  demo_mounted 22 EchfsGrow.demo_dlo demo_el 2 Echfs.BYTES_PER_BLOCK demo_world demo_bytes.
Proof.
  exists EchfsGrow.full_image, EchfsGrow.full_handle, EchfsGrow.full_file, [20], [21].
  split; try reflexivity.
  - split; [|done]. split; try reflexivity.
    + intros l. cbn. unfold EchfsGrow.full_image. destruct (_ && _); split; done.
    + eexists. split; [|split]; [split; reflexivity|by split|reflexivity].
  - destruct EchfsGrow.full_on_disk as [O1 O2 O3 O4 O5 [O6 O7 O8] O9]. by split.
  - split; [reflexivity|]. split; discriminate.
  - split; [reflexivity|]. split; [reflexivity|discriminate].
  - intros o [H0 H1]. change (flen demo_bytes) with Echfs.BYTES_PER_BLOCK in H1. unfold EchfsFile.content, EchfsFile.medium_byte.
    change (EchfsFile.cache_hit (o / Echfs.BYTES_PER_BLOCK) EchfsGrow.full_file) with false. cbv iota.
    rewrite Z.div_small by done. change (EchfsFile.block_no EchfsGrow.full_file 0) with 20. unfold EchfsGrow.full_image.
    rewrite (proj2 (Z.ltb_ge _ _)), andb_false_r; [done|].
    pose proof (Z.mod_pos_bound o Echfs.BYTES_PER_BLOCK ltac:(done)).
    change (Echfs.fat_loc Echfs.demo_mount 21) with 524456. change (20 * Echfs.BYTES_PER_BLOCK) with 655360. lia.
Qed.

(** Appending takes a block; the byte 121 is written over the second one and read back;
    the end of the handle does not move. *)
Lemma files_refine_witness :
  let ops := [FWrite [65; 66]; FSeek 1; FWrite [121]; FSeek 0; FRead 3; FSeek (Echfs.BYTES_PER_BLOCK + 1)] in exists w',
  kernel_run silent (filesystems silent [] 22 0) 1 ops demo_world =
    Some ([MkAnswer 2 []; MkAnswer 1 []; MkAnswer 1 []; MkAnswer 0 []; MkAnswer 3 [0; 121; 0]; MkAnswer (-1) []], w').
Proof.
  intros ops.
  destruct (files_refine (io := image_io) (sz := 2 ^ 30) silent [] demo_disk demo_disk_drives eq_refl [48] 0 0 0 0
    demo_sched [dev_mount; root_mount] demo_task 0 dev_mount eq_refl eq_refl eq_refl eq_refl 22 0 1 1 0 0 demo_task root_mount
    eq_refl eq_refl eq_refl eq_refl demo_mounted 22 EchfsGrow.demo_dlo demo_el 2 Echfs.BYTES_PER_BLOCK eq_refl
    mounted_layout ltac:(reflexivity) ltac:(split; [discriminate|reflexivity]) ops demo_world demo_bytes) as (w' & E & _).
  - exact demo_open.
  - cbn. repeat split; try discriminate; repeat constructor; discriminate.
  - exists w'. exact E.
Defined.

End EchfsVfs.
