(* ===== verification/Boot.v ===== *)
(** * The end of the boot: [kernel_init] of [kernel/init.c], from the file systems on

    The file systems are installed, the disk is mounted on [/] and the devices on
    [/dev], and the shell is started on three terminals.  When the disk is not an
    echidna file system the kernel stays in [for(;;)]; otherwise it waits for the
    timer in [ENTER_IDLE].

    The texts and buffers of [kernel_init] are at addresses of the kernel's memory,
    a [locals]; the drivers' state answers the ports. *)

From Stdlib Require Import Ascii String.
From S2P Require Import Prelude Pmm Mem Kheap Chardev Interrupts Dev Handle Devfs Echfs EchfsFile Gdt Task UserMem VfsPath Vfs Spawn System EchfsVfs.
Local Open Scope Z_scope.
Local Open Scope st_scope.

Module Boot.
Import System Task UserMem EchfsVfs.

(** Addresses: the literals passed to [vfs_mount], and the variables of [kernel_init]. *)
Record locals := MkLocals {
  lit_root : Z; lit_disk : Z; lit_echfs : Z; lit_dev : Z; lit_devfs : Z;
  shell_path : Z; tty_path : Z; root_path : Z; shell_name : Z; shell_ser_name : Z;
  shell_exec : Z
}.

(** The timer's handler does nothing while [ts_enable] is 0. *)
Record boot_st (D : Type) := MkBoot { kstate : world (EchfsFile.fs * D); ts_enable : Z }.
#[global] Arguments MkBoot {D} _ _. #[global] Arguments kstate {D} _. #[global] Arguments ts_enable {D} _.

(** How [kernel_init] ends. *)
Inductive ending := Hung | Idle.

Section Boot.
Context {D : Type} {HP : Chardev.Ports D}.
#[local] Notation drivers := (EchfsFile.fs * D)%type.
#[local] Notation kworld := (world drivers).
Context (print : list Z -> ST drivers unit) (stk : list Z) (fuel : nat) (old sizeof_task : Z) (xstk : Z -> list Z).

Definition install_file_systems : option (list (Vfs.filesystem_t kworld)) :=
  l ← install_devfs []; install_echfs print stk fuel old l.

Section Mounted.
Context (fss : list (Vfs.filesystem_t kworld)).
#[local] Instance kernel0 : Kernel kworld := kernel print fss stk.

(** [vfs_mount("/", ":://bd0p0", "echfs")] and [vfs_mount("/dev", "devfs", "devfs")];
    [false] when the first one fails. *)
Definition mount_file_systems (a : locals) : ST kworld bool :=
  let! r := Vfs.vfs_mount fss (lit_root a) (lit_disk a) (lit_echfs a) in
  if r =? Vfs.FAILURE then st_ret false
  else Vfs.vfs_mount fss (lit_dev a) (lit_devfs a) (lit_devfs a) ;; st_ret true.

Definition put_text (a : Z) (s : list Z) : ST kworld unit := mem_write a (s ++ [0]).
Fixpoint put_words (a : Z) (l : list Z) : ST kworld unit :=
  match l with [] => st_ret tt | v :: l => write_word a v ;; put_words (a + 4) l end.

(** The variables: [tty_path] is not initialised. *)
Definition init_locals (a : locals) : ST kworld unit :=
  put_text (shell_path a) (bytes "/sys/init") ;;
  put_text (root_path a) (bytes "/") ;;
  put_text (shell_name a) (bytes "shell") ;;
  put_text (shell_ser_name a) (bytes "") ;;
  put_words (shell_exec a) [shell_path a; tty_path a; tty_path a; tty_path a; root_path a; shell_name a; shell_ser_name a; 0; 0].

Definition start_shell (a : locals) (tty : list Z) : ST kworld unit :=
  put_text (tty_path a) tty ;; Spawn.general_execute fss sizeof_task xstk (shell_exec a) ;; st_ret tt.
Definition start_shells (a : locals) : ST kworld unit :=
  tty_kputs (10 :: bytes "KERNEL INIT DONE!" ++ [10]) ;;
  start_shell a (bytes "/dev/tty0") ;; start_shell a (bytes "/dev/tty2") ;; start_shell a (bytes "/dev/tty3").
End Mounted.

(** The kernel's state, the drivers', and [ts_enable]. *)
Definition on_kernel {A} (m : ST kworld A) : ST (boot_st D) A :=
  fun s => match m (kstate s) with Some (x, w) => Some (x, MkBoot w (ts_enable s)) | None => None end.
Definition on_ports {A} (m : ST D A) : ST kworld A :=
  fun w => let d := Devfs.world (wdrv w) in
    match m d.2 with Some (x, y) => Some (x, with_wdrv (Devfs.with_world (d.1, y) (wdrv w)) w) | None => None end.
Definition set_ts_enable (i : Z) : ST (boot_st D) unit := fun s => Some (tt, MkBoot (kstate s) i).

(** [kernel_init] from the installation of the file systems on. *)
Definition kernel_init (a : locals) : ST (boot_st D) ending :=
  on_kernel (tty_kputs (Kernel := base_kernel print) (10 :: bytes "Initialising file systems...")) ;;
  let! fss := st_lift install_file_systems in
  set_ts_enable 0 ;;
  on_kernel (on_ports (Interrupts.set_PIC0_mask 0xfc ;; Interrupts.set_PIC1_mask 0xff)) ;;
  on_kernel (init_locals fss a) ;;
  let! mounted := on_kernel (mount_file_systems fss a) in
  if mounted : bool then on_kernel (start_shells fss a) ;; set_ts_enable 1 ;; st_ret Idle
  else st_ret Hung.

End Boot.

(** * Specification: where a path leads after the boot *)

Definition DISK : list Z := bytes ":://bd0p0".
(** [/dev] and what is under it. *)
Definition under_dev (abs : list Z) : bool :=
  bool_decide (take 4 abs = bytes "/dev") && match zget abs 4 with None => true | Some c => c =? 47 end.

Section Laws.
Context {D : Type} (print : list Z -> ST (EchfsFile.fs * D) unit) (stk : list Z) (fuel : nat) (old : Z).
#[local] Notation kworld := (world (EchfsFile.fs * D)).
#[local] Notation fss := (filesystems print stk fuel old).
#[local] Instance kernel1 : Kernel kworld := kernel print fss stk.

(** The file system, the local path and its device. *)
Definition route (abs : list Z) : Z * Vfs.filesystem_t kworld * list Z * list Z :=
  if under_dev abs then (1, devfs, drop 4 abs, bytes "devfs") else (0, echfs print stk fuel old, drop 1 abs, DISK).

(** The literals are in the kernel's memory. *)
Definition text_of (w : kworld) (p : Z) (s : list Z) : Prop := mem_str (u32 p) w = Some (s, w).
Record literals (a : locals) (w : kworld) : Prop := {
  li_root : text_of w (lit_root a) (bytes "/");
  li_disk : text_of w (lit_disk a) DISK;
  li_echfs : text_of w (lit_echfs a) ECHFS;
  li_dev : text_of w (lit_dev a) (bytes "/dev");
  li_devfs : text_of w (lit_devfs a) (bytes "devfs")
}.

(** ** Lemmas: mounting changes the drivers only *)

Definition drivers_only {A} (P : A -> Prop) (m : ST kworld A) : Prop :=
  forall w r w', m w = Some (r, w') -> P r /\ exists d, w' = with_wdrv d w.

Lemma only_ret {A} (P : A -> Prop) x : P x -> drivers_only P (st_ret x).
Proof. intros Hx w r w' [= <- <-]. split; [done|]. exists (wdrv w). by destruct w. Qed.
Lemma only_bind {A B} (P : B -> Prop) (m : ST kworld A) (k : A -> ST kworld B) :
  drivers_only (fun _ => True) m -> (forall x, drivers_only P (k x)) -> drivers_only P (st_bind m k).
Proof.
  intros Hm Hk w r w'. unfold st_bind. destruct (m w) as [[x w1]|] eqn:E; [|done]. intros E'.
  destruct (Hm _ _ _ E) as [_ [d ->]]. destruct (Hk _ _ _ _ E') as [Hr [d' ->]]. split; [done|]. by exists d'.
Qed.
Create HintDb boot.
#[local] Hint Resolve only_ret only_bind : boot.

Section Mounting.
Context (nm : list Z).
#[local] Instance disk : BlockDev kworld := blockdev print stk (devname nm).

Lemma only_kread loc : drivers_only (fun _ => True) (Echfs.vfs_kread loc).
Proof.
  intros w r w' H. split; [done|]. revert H. cbn [Echfs.vfs_kread disk blockdev]. unfold Vfs.vfs_kread.
  rewrite device_path_ok. unfold Vfs.device_io.
  destruct (Dev.find_device nm (world_devices w)) as [i|]; [|by intros [= <- <-]; exists (wdrv w); destruct w].
  unfold st_bind, st_lift, world_devices, st_ret. destruct (zget _ i) as [d|] eqn:Ed; [|done].
  unfold zget in Ed. case_decide; [|done]. rewrite list_lookup_fmap in Ed.
  destruct (_ !! _) as [d'|]; [|done]. injection Ed as <-. cbn.
  destruct (Dev.io_wrapper d' _ _ _ _ _) as [[x dv]|]; [|done]. intros [= _ <-]. by eexists.
Qed.
#[local] Hint Resolve only_kread : boot.

Lemma only_rd_le n i width loc x : drivers_only (fun _ => True) (Echfs.rd_le n i width loc x).
Proof. revert i loc x. induction n as [|n IH]; intros i loc x; cbn [Echfs.rd_le]; auto with boot. Qed.
Lemma only_fstrncmp str loc : drivers_only (fun _ => True) (Echfs.fstrncmp loc str).
Proof.
  revert loc. induction str as [|c str IH]; intros loc; cbn [Echfs.fstrncmp]; [auto with boot|].
  apply only_bind; [unfold Echfs.rd_byte; auto with boot|]. intros b. destruct (b =? c); auto with boot.
Qed.
#[local] Hint Resolve only_rd_le only_fstrncmp : boot.

(** Mounting answers [SUCCESS] or [FAILURE]. *)
Lemma echfs_mount_only : drivers_only (fun r => r = 0 \/ r = Vfs.FAILURE) (EchfsVfs.echfs_mount print stk (devname nm)).
Proof.
  intros w r w1. unfold EchfsVfs.echfs_mount, on_efs. set (m := st_bind _ _).
  assert (drivers_only (fun x => x.1 = 0 \/ x.1 = Vfs.FAILURE) m) as Hm.
  { unfold m, st_bind at 1. intros w0 x w2. destruct (Echfs.echfs_mount _ _ w0) as [[y w']|] eqn:E; [|done]. intros [= <- <-]. cbn [fst].
    revert E. generalize w0, y, w'. change (drivers_only (fun y : Z * _ => y.1 = 0 \/ y.1 = Vfs.FAILURE)
      (Echfs.echfs_mount (D := disk) (devname nm) (EchfsFile.mounts (efs w)))).
    unfold Echfs.echfs_mount, Echfs.rd_qword. apply only_bind; [auto with boot|]. intros ok.
    destruct (negb ok); [apply only_ret; auto|]. case_decide; [|done].
    apply only_bind; [auto with boot|]. intros bl. apply only_bind; [auto with boot|]. intros ds. apply only_ret. auto. }
  destruct (m w) as [[[x st] w0]|] eqn:E; [|done]. intros [= <- <-]. destruct (Hm _ _ _ E) as [Hx [d ->]].
  split; [exact Hx|]. by eexists.
Qed.
End Mounting.

(** ** Lemmas: one mount *)

Lemma text_other w d p s : text_of w p s -> text_of (with_wdrv d w) p s.
Proof. unfold text_of. cbn. change (wbytes (with_wdrv d w)) with (wbytes w). by destruct (text_at _ _ _) as [x|]; [intros [= ->]|]. Qed.
Lemma text_mounts w l p s : text_of w p s -> text_of (with_wmounts l w) p s.
Proof. unfold text_of. cbn. change (wbytes (with_wmounts l w)) with (wbytes w). by destruct (text_at _ _ _) as [x|]; [intros [= ->]|]. Qed.

Lemma mount_ok w mp dv fsn x y z i f r w1 t : text_of w mp x -> text_of w dv y -> text_of w fsn z ->
  zget (task_table (wsched w)) (current_task (wsched w)) = Some (Task t) -> base t = 0 ->
  zlen x < 2048 -> zlen y < 2048 -> zlen z < 128 ->
  VfsPath.fs_from z 0 (Vfs.fname <$> fss) = i -> zget fss i = Some f ->
  Vfs.fs_mount f y w = Some (r, w1) -> (exists d, w1 = with_wdrv d w) ->
  Vfs.vfs_mount fss mp dv fsn w =
    if r =? Vfs.FAILURE then Some (Vfs.FAILURE, w1)
    else Some (Vfs.SUCCESS, with_wmounts (wmounts w ++ [VfsPath.MkMountpoint x y z]) w1).
Proof.
  intros Hx Hy Hz Ht Hb Lx Ly Lz Ei Ef Em [d ->]. unfold Vfs.vfs_mount.
  rewrite (st_bind_ok _ _ _ _ _ Hz), (st_bind_ok _ _ _ _ _ Hy), Ei.
  erewrite st_bind_ok by (unfold st_lift; by rewrite Ef). rewrite (st_bind_ok _ _ _ _ _ Em).
  destruct (r =? Vfs.FAILURE); [done|].
  assert (this_task (with_wdrv d w) = Some (t, with_wdrv d w)) as E.
  { unfold this_task, current, get_task, st_bind, st_get, st_lift, st_ret. cbn. by rewrite Ht. }
  rewrite (st_bind_ok _ _ _ _ _ E), Hb, !Z.add_0_r. clear E.
  rewrite (st_bind_ok _ _ _ _ _ (text_other _ _ _ _ Hx)), (st_bind_ok _ _ _ _ _ (text_other _ _ _ _ Hy)),
    (st_bind_ok _ _ _ _ _ (text_other _ _ _ _ Hz)).
  by rewrite decide_True by done.
Qed.

Definition boot_mounts : list VfsPath.mountpoint_t :=
  [VfsPath.MkMountpoint (bytes "/") DISK ECHFS; VfsPath.MkMountpoint (bytes "/dev") (bytes "devfs") (bytes "devfs")].

Lemma route_ok abs w : hd 0 abs = 47 -> wmounts w = boot_mounts -> Vfs.translate fss abs w = Some (Some (route abs), w).
Proof.
  intros Ha Hm. destruct abs as [|c p]; [done|]. cbn [hd] in Ha. subst c. set (abs := 47 :: p).
  assert (VfsPath.vfs_translate_mnt abs boot_mounts = (if under_dev abs then 1 else 0, if under_dev abs then drop 4 abs else drop 1 abs)) as E.
  { unfold VfsPath.vfs_translate_mnt, boot_mounts. cbn [VfsPath.translate_from].
    assert (VfsPath.better abs (VfsPath.MkMountpoint (bytes "/") DISK ECHFS) 0 = true) as ->.
    { unfold VfsPath.better. by rewrite !bool_decide_true, orb_true_r by done. }
    cbn [VfsPath.mountpoint].
    assert (VfsPath.better abs (VfsPath.MkMountpoint (bytes "/dev") (bytes "devfs") (bytes "devfs")) (zlen (bytes "/")) = under_dev abs) as ->.
    { unfold VfsPath.better, under_dev. cbn [VfsPath.mountpoint]. change (zlen (bytes "/dev")) with 4. change (length (bytes "/dev")) with 4%nat.
      f_equal. change (zlen (bytes "/") <? 4) with true. rewrite andb_true_r, (bool_decide_false (bytes "/dev" = [47])), orb_false_r by done. done. }
    by destruct (under_dev abs). }
  assert (forall k, Vfs.fs_index fss k w = st_lift (VfsPath.vfs_translate_fs (Vfs.fname <$> fss) k boot_mounts) w) as Ei
    by (intros k; unfold Vfs.fs_index, Vfs.mount_table, st_bind; cbn; by rewrite Hm).
  unfold Vfs.translate. unfold st_bind at 1, Vfs.mount_table. cbn [Vfs.mountpoints world_vfs]. rewrite Hm, E. unfold route.
  destruct (under_dev abs); [change (1 =? Vfs.FAILURE) with false|change (0 =? Vfs.FAILURE) with false];
    unfold st_bind at 1; cbv beta iota; rewrite Ei; reflexivity.
Qed.

(** C13: After the boot's mounts every absolute path has a file system.  With the disk's
    signature right, [/] is the echidna file system on the device [bd0p0] and [/dev]
    the device file system: the path [/dev], and those under it, go to devfs without
    that prefix, every other absolute path to echfs without its [/], also [/devices].
    With the signature wrong nothing is mounted and the answer is [false], on which
    [kernel_init] stays in its loop. *)
Theorem boot_routes a w t r w1 : literals a w ->
  zget (task_table (wsched w)) (current_task (wsched w)) = Some (Task t) -> base t = 0 -> wmounts w = [] ->
  EchfsVfs.echfs_mount print stk DISK w = Some (r, w1) ->
  if r =? Vfs.FAILURE then mount_file_systems print stk fss a w = Some (false, w1) /\ wmounts w1 = []
  else exists w2, mount_file_systems print stk fss a w = Some (true, w2) /\ wmounts w2 = boot_mounts /\
    forall abs, hd 0 abs = 47 -> Vfs.translate fss abs w2 = Some (Some (route abs), w2).
Proof.
  intros [L1 L2 L3 L4 L5] Ht Hb Hm E.
  destruct (echfs_mount_only (bytes "bd0p0") w r w1 E) as [Hr [d ->]].
  pose proof (mount_ok w _ _ _ _ _ _ 1 (echfs print stk fuel old) r _ t L1 L2 L3 Ht Hb eq_refl eq_refl eq_refl eq_refl eq_refl E
    ltac:(by eexists)) as E1.
  unfold mount_file_systems. destruct (Z.eqb_spec r Vfs.FAILURE) as [->|Hne].
  - by rewrite (st_bind_ok _ _ _ _ _ E1).
  - rewrite Hm in E1. rewrite (st_bind_ok _ _ _ _ _ E1). cbn [app].
    set (w2 := with_wmounts _ _).
    pose proof (mount_ok w2 _ _ _ _ _ _ 0 devfs Devfs.devfs_mount w2 t
      (text_mounts _ _ _ _ (text_other _ d _ _ L4)) (text_mounts _ _ _ _ (text_other _ d _ _ L5))
      (text_mounts _ _ _ _ (text_other _ d _ _ L5)) Ht Hb eq_refl eq_refl eq_refl eq_refl eq_refl eq_refl) as E2.
    change (Vfs.SUCCESS =? Vfs.FAILURE) with false. cbv iota.
    rewrite (st_bind_ok _ _ _ _ _ (E2 ltac:(by exists (wdrv w2)))). eexists. split; [reflexivity|]. split; [done|].
    intros abs Ha. by apply route_ok.
Qed.

End Laws.
(** * Witness: a disk with a signature *)

Definition demo_text : list Z :=
  bytes "/" ++ 0 :: DISK ++ 0 :: ECHFS ++ 0 :: bytes "/dev" ++ 0 :: bytes "devfs" ++ [0].
Definition demo_locals : locals := MkLocals 0x1000 0x1002 0x100c 0x1012 0x1017 0 0 0 0 0 0.
Definition demo_boot : world (EchfsFile.fs * Echfs.image) :=
  MkWorld (MkSched [Task kernel_task] 0 0 (Gdt.load_gdt 0 104))
    (Kheap.MkHeapSt Pmm.demo_pmm (fun x => default 0 (zget demo_text (x - 0x1000)))) [] 0 0
    (Devfs.MkState [] [beside (Dev.MkDevice (bytes "bd0p0") 0 (2 ^ 30) (fun _ => image_io))]
       (EchfsFile.MkFs [] [] [], Echfs.upd_text (fun _ => 0) 4 Echfs.signature) 0).

Lemma demo_text_of p s : zlen s < 100 -> cstr_at (wbytes demo_boot) (u32 p) s -> text_of silent [] 0 0 demo_boot p s.
Proof.
  intros Hl Hs. unfold text_of. cbn. rewrite (text_at_ok _ _ s); [done| |exact Hs]. unfold zlen, TEXT_MAX in *. lia.
Qed.
Lemma demo_literals : literals silent [] 0 0 demo_locals demo_boot.
Proof.
  split; (apply demo_text_of; [reflexivity|]); (split; [vm_compute; reflexivity|split; [|vm_compute; reflexivity]]);
    apply (bool_decide_unpack _); vm_compute; exact I.
Qed.

Lemma boot_routes_witness : let fss := filesystems silent [] 0 0 in exists w2,
  mount_file_systems silent [] fss demo_locals demo_boot = Some (true, w2) /\
  Vfs.translate fss (bytes "/dev/tty0") w2 = Some (Some (1, devfs, bytes "/tty0", bytes "devfs"), w2) /\
  Vfs.translate fss (bytes "/sys/init") w2 = Some (Some (0, echfs silent [] 0 0, bytes "sys/init", DISK), w2).
Proof.
  intros fss. assert (fst <$> EchfsVfs.echfs_mount silent [] DISK demo_boot = Some 0) as E by (vm_compute; reflexivity).
  destruct (EchfsVfs.echfs_mount silent [] DISK demo_boot) as [[r w1]|] eqn:Em; [|discriminate]. injection E as ->.
  destruct (boot_routes silent [] 0 0 demo_locals demo_boot kernel_task 0 w1) as (w2 & E1 & _ & E2).
  - exact demo_literals.
  - reflexivity.
  - reflexivity.
  - reflexivity.
  - exact Em.
  - exists w2. split; [exact E1|]. split; (rewrite E2 by reflexivity; reflexivity).
Defined.

End Boot.
