(* ===== verification/Transfers.v ===== *)
(** * Transfers of any length

    A task reads and writes through the system calls [read] and [write].  A call moves
    at most [MAX_SIMULTANOUS_VFS_ACCESS] bytes; when there is more to do it leaves the
    mark [read_stat] or [write_stat], the entry point ([read_isr] and [write_isr] of
    [kernel/asm/isr.asm]) puts the task into the state that waits for a transfer, and
    from then on the scheduler continues the transfer each time it comes to the task,
    until a call leaves no mark.  This file composes the kernel of [System.v], the
    scheduler of [Task.v] and [enter_iowait_status1] of [Syscalls.v] into whole
    transfers on a device. *)

From S2P Require Import Prelude Mem Pmm Kheap Tty Keyboard Dev Handle Devfs TtyDev Gdt Task UserMem VfsPath Vfs.
From S2P Require Import Streams Syscalls System.
Local Open Scope Z_scope.
Local Open Scope st_scope.

Module Transfers.
Import Dev Task UserMem System.

(** The type of wait for a read and for a write. *)
Definition IO_READ : Z := 2.
Definition IO_WRITE : Z := 3.

Section Calls.
Context {W : Type} {K : Kernel W}.

(** The entry point of the two calls, once [read] or [write] has returned: [None] when
    the task waits, else the result for the task. *)
Definition io_call (type : Z) (m : Z -> Z -> Z -> ST W (Z * Z)) (handle ptr len : Z) : ST W (option Z) :=
  let! r := m handle ptr len in
  if r.2 =? 1 then Syscalls.enter_iowait_status1 handle ptr len type r.1 ;; st_ret None
  else st_ret (Some r.1).

(** [n] times the scheduler comes to the task [p]; it stops when the task runs. *)
Fixpoint poll_turns (n : nat) (p : Z) : ST W (option outcome) :=
  match n with
  | O => st_ret None
  | S n => st_modify (with_current p) ;;
           let! r := scheduler_turn in
           match r with Some o => st_ret (Some o) | None => poll_turns n p end
  end.

End Calls.

(** ** Lemmas: a device that takes everything *)

(** [emit bytes] is what writing the bytes one by one does to the driver. *)
Definition sink {DV} (d : device_t DV) (emit : list Z -> DV -> option DV) : Prop :=
  forall bytes n p dv, Forall is_byte bytes -> emit bytes (Devfs.pworld p) = Some dv -> exists i dat,
  Devfs.uwrite_loop bytes (io_wrapper d) (gp_value d) n p =
    Some (n + zlen bytes, Devfs.MkProgress i dat (Devfs.pstat p) dv).
Definition splits {DV} (emit : list Z -> DV -> option DV) : Prop :=
  forall a b dv dv', emit (a ++ b) dv = Some dv' -> exists dv1, emit a dv = Some dv1 /\ emit b dv1 = Some dv'.

Lemma uwrite_to_sink {DV} n h (d : device_t DV) emit (st : Devfs.state DV) bytes dv :
  sink d emit -> Devfs.open_on n h d st -> Forall is_byte bytes -> emit bytes (Devfs.world st) = Some dv ->
  exists st' h', Devfs.devfs_uwrite n bytes st = Some (zlen bytes, st') /\ Devfs.world st' = dv /\
    Devfs.stat st' = 0 /\ Devfs.open_on n h' d st'.
Proof.
  intros Hs [Hl Hd] Hb He. pose proof Hl as [Hg Hf].
  destruct (Hs bytes 0 (Devfs.MkProgress (s32 (Devfs.ptr h)) [] 0 (Devfs.world st)) dv Hb He) as (i & dat & E).
  unfold Devfs.devfs_uwrite. rewrite Hg. cbn [mbind option_bind]. rewrite Hd. cbn [mbind option_bind].
  rewrite E. cbn [mbind option_bind fst snd]. unfold Devfs.set_handle. cbn [Devfs.handles Devfs.pworld Devfs.pstat Devfs.i_ptr].
  rewrite zset_ok by (by eapply zget_Some). cbn [mbind option_bind].
  eexists _, (Devfs.with_ptr h (u64 i)). split; [by rewrite Z.add_0_l|]. split; [done|]. split; [done|].
  split; [|exact Hd]. by apply (Devfs.live_insert n h).
Qed.

Lemma tty_splits tw : splits (fun s (x : TtyDev.world_t) => c ← Tty.tty_knputs s tw x.2; Some (x.1, c)).
Proof.
  intros a b dv dv'. destruct dv as [k c]. cbn [fst snd]. revert c. induction a as [|x a IH]; intros c E.
  - exists (k, c). by split.
  - cbn [app Tty.tty_knputs] in E |- *. destruct (Tty.text_putchar x tw c) as [c1|]; [|done].
    cbn [mbind option_bind] in E |- *. by apply IH.
Qed.

Lemma tty_sink tw : 0 <= tw < 256 ->
  sink (TtyDev.tty_device tw) (fun s x => c ← Tty.tty_knputs s tw x.2; Some (x.1, c)).
Proof.
  intros Hw bytes n p dv Hb E. destruct (Devfs.pworld p) as [k c] eqn:Ep. cbn [fst snd] in E.
  obind E. injection E as <-. destruct (TtyDev.uwrite_text bytes tw k c x n p E0 Hb Hw Ep) as (i & E).
  by eexists i, _.
Qed.

(** ** Lemmas: one call *)

Section Transfer.
Context {DV : Type} (print : list Z -> ST DV unit) (filesystems : list (Vfs.filesystem_t (world DV))) (stk : list Z).
#[local] Instance K : Kernel (world DV) := kernel print filesystems stk.
Implicit Types (w : world DV) (t : task_t).

(** The handle [n] of the task [t] is the handle [ih] of devfs. *)
Definition bound (n ih : Z) t w : Prop := exists h i,
  zget (file_handles_v2 t) n = Some h /\ Handle.internal_handle h = ih /\
  Vfs.fs_index filesystems (Handle.mountpoint h) w = Some (i, w) /\ zget filesystems i = Some devfs.
(** The device behind a handle of devfs. *)
Definition drives (ih : Z) (d : device_t DV) w : Prop := exists h, Devfs.open_on ih h d (wdrv w).
Definition running (p : Z) t w : Prop := current_task (wsched w) = p /\ zget (task_table (wsched w)) p = Some (Task t).

Lemma this_task_world p t w K' : running p t w -> get_sched (Kernel := K') w = wsched w -> this_task (K := K') w = Some (t, w).
Proof.
  intros [Hc Ht] E. unfold this_task, current, get_task, st_bind, st_get, st_lift, st_ret. rewrite E.
  by rewrite Hc, Ht.
Qed.

Lemma on_handle_bound {A} (k : Vfs.filesystem_t (world DV) -> Z -> ST (world DV) A) n ih p t w :
  zget (task_table (wsched w)) p = Some (Task t) -> bound n ih t w ->
  Vfs.on_handle (K := base_kernel print) filesystems p n k w = k devfs ih w.
Proof.
  intros Ht (h & i & Hn & <- & Hi & Hf). unfold Vfs.on_handle, Vfs.handle_of, get_task, st_bind, st_get, st_lift, st_ret.
  cbn [get_sched base_kernel kernel_over]. rewrite Ht, Hn. unfold Vfs.fs_of, st_bind. rewrite Hi. unfold st_lift. by rewrite Hf.
Qed.

(** What a call changes: the devices and the marks. *)
Definition same_but_drivers (w w' : world DV) : Prop :=
  wsched w' = wsched w /\ wheap w' = wheap w /\ wmounts w' = wmounts w.

Lemma bound_same n ih t w w' : wmounts w' = wmounts w -> bound n ih t w -> bound n ih t w'.
Proof.
  intros Hm (h & i & Hn & Hih & Hi & Hf). exists h, i. do 2 (split; [done|]). split; [|done].
  revert Hi. unfold Vfs.fs_index, st_bind, Vfs.mount_table, st_lift. cbn [Vfs.mountpoints world_vfs]. rewrite Hm.
  destruct (VfsPath.vfs_translate_fs _ _ _); [|done]. by intros [= ->].
Qed.

(** A chunk: the bytes of the call, at most [MAX_SIMULTANOUS_VFS_ACCESS]. *)
Definition chunk (l : list Z) : list Z := take (Z.to_nat Vfs.MAX_SIMULTANOUS_VFS_ACCESS) l.

Lemma sys_write_ok p t n ih d emit ptr l dv w :
  sink d emit -> running p t w -> bound n ih t w -> drives ih d w -> Forall is_byte l ->
  bytes_at (wbytes w) (u32 (ptr + base t)) (length l) = l -> emit (chunk l) (Devfs.world (wdrv w)) = Some dv ->
  exists w', sys_write print filesystems n ptr (zlen l) w =
      Some ((zlen (chunk l), if zlen l <=? Vfs.MAX_SIMULTANOUS_VFS_ACCESS then 0 else 1), w') /\
    same_but_drivers w w' /\ drives ih d w' /\ Devfs.world (wdrv w') = dv.
Proof.
  intros Hs [Hc Ht] Hb (h & Ho) Hl Hm He.
  assert (Forall is_byte (chunk l)) as Hl' by by apply Forall_take.
  destruct (uwrite_to_sink ih h d emit (wdrv w) (chunk l) dv Hs Ho Hl' He) as (st' & h' & E & Hw & Hst & Ho').
  set (w1 := with_wstat 0 (with_wdrv st' w)).
  assert (devfs_uwrite ih (chunk l) w = Some (zlen (chunk l), w1)) as Eu.
  { unfold devfs_uwrite, on_devfs, st_bind. rewrite E. cbn [wdrv with_wdrv]. by rewrite Hst. }
  set (w' := if zlen l <=? Vfs.MAX_SIMULTANOUS_VFS_ACCESS then w1 else with_wstat 1 w1).
  exists w'. split; [|unfold w'; destruct (_ <=? _); repeat split; try done; by exists h'].
  assert (Vfs.vfs_uwrite (K := base_kernel print) filesystems n l w = Some (zlen (chunk l), w')) as Ev.
  { unfold Vfs.vfs_uwrite. unfold st_bind at 1, current, st_bind at 1, st_get, st_ret.
    cbn [get_sched base_kernel kernel_over]. rewrite Hc, (on_handle_bound _ n ih p t w Ht Hb).
    cbn [Vfs.fs_uwrite devfs]. unfold w'. destruct (Z.leb_spec (zlen l) Vfs.MAX_SIMULTANOUS_VFS_ACCESS) as [Hle|Hgt].
    - assert (chunk l = l) as Ec by (unfold chunk; apply take_ge; unfold zlen in Hle; lia).
      rewrite Ec in Eu |- *. exact Eu.
    - fold (chunk l). unfold st_bind. rewrite Eu. unfold Vfs.st_set, st_ret. done. }
  unfold sys_write. erewrite st_bind_ok by (by apply (this_task_world p t)).
  erewrite st_bind_ok by (cbn; reflexivity). unfold zlen at 1. rewrite Nat2Z.id, Hm.
  erewrite st_bind_ok by exact Ev. unfold w'. by destruct (_ <=? _).
Qed.

(** ** Lemmas: one poll *)

(** The task [p] waits in the middle of writing [l] from its address [ptr]. *)
Record pending (p n ih : Z) (d : device_t DV) (ptr : Z) (l : list Z) (done : Z) (t : task_t) (w : world DV) : Prop := {
  pe_task : zget (task_table (wsched w)) p = Some (Task t);
  pe_gdt : zlen (gdt (wsched w)) = Gdt.GDT_ENTRIES;
  pe_bound : bound n ih t w;
  pe_drives : drives ih d w;
  pe_bytes : Forall is_byte l;
  pe_mem : bytes_at (wbytes w) (base t + ptr) (length l) = l;
  pe_fit : 0 <= base t /\ 0 <= ptr /\ base t + ptr + zlen l <= 2 ^ 32 /\ zlen l < 2 ^ 31;
  pe_done : 0 <= done < zlen l
}.

(** Its wait. *)
Definition waits (n ptr len done : Z) t : Prop :=
  status t = KRN_STAT_IOWAIT_TASK /\ type (iowait t) = IO_WRITE /\ handle (iowait t) = n /\
  Task.ptr (iowait t) = ptr /\ Task.len (iowait t) = len /\ done_ (iowait t) = done.

(** What is left to write. *)
Definition rest (l : list Z) (done : Z) : list Z := drop (Z.to_nat done) l.

Lemma rest_len l done : 0 <= done <= zlen l -> zlen (rest l done) = zlen l - done.
Proof. unfold zlen, rest. rewrite length_drop. lia. Qed.

Lemma chunk_len l : zlen (chunk l) = Z.min (zlen l) Vfs.MAX_SIMULTANOUS_VFS_ACCESS.
Proof. unfold chunk, zlen. rewrite length_take. unfold Vfs.MAX_SIMULTANOUS_VFS_ACCESS. lia. Qed.

Lemma chunk_rest l done : 0 <= done -> rest (rest l done) Vfs.MAX_SIMULTANOUS_VFS_ACCESS = rest l (done + Vfs.MAX_SIMULTANOUS_VFS_ACCESS).
Proof. intros H. unfold rest. rewrite drop_drop. f_equal. unfold Vfs.MAX_SIMULTANOUS_VFS_ACCESS. lia. Qed.

Lemma bytes_at_drop m a l k : 0 <= k <= zlen l -> bytes_at m a (length l) = l ->
  bytes_at m (a + k) (length (rest l k)) = rest l k.
Proof.
  intros Hk Hm. apply bytes_at_eq. intros i c Hc. pose proof (zget_Some _ _ _ Hc).
  unfold rest in Hc. rewrite zget_drop in Hc by lia.
  replace (a + k + i) with (a + (k + i)) by lia. by apply (proj1 (bytes_at_eq m a l) Hm).
Qed.

(** The call the scheduler makes for the waiting task. *)
Lemma poll_call p n ih d emit ptr l done t dv w :
  sink d emit -> pending p n ih d ptr l done t w -> current_task (wsched w) = p ->
  emit (chunk (rest l done)) (Devfs.world (wdrv w)) = Some dv -> exists w',
  sys_write print filesystems n (u32 (ptr + done)) (s32 (zlen l - done)) w =
    Some ((zlen (chunk (rest l done)), if zlen l - done <=? Vfs.MAX_SIMULTANOUS_VFS_ACCESS then 0 else 1), w') /\
  same_but_drivers w w' /\ drives ih d w' /\ Devfs.world (wdrv w') = dv.
Proof.
  intros Hs [Ht Hg Hb Hd Hl Hm Hf Hdn] Hc He. pose proof (rest_len l done ltac:(lia)) as Hr.
  destruct (sys_write_ok p t n ih d emit (u32 (ptr + done)) (rest l done) dv w Hs) as (w' & E & H); try done.
  - by apply Forall_drop.
  - pose proof (zlen_nonneg l). rewrite (u32_small (ptr + done)) by lia.
    rewrite u32_small by lia. replace (ptr + done + base t) with (base t + ptr + done) by lia.
    by apply bytes_at_drop; [lia|].
  - exists w'. split; [|exact H]. rewrite Hr in E. rewrite s32_small by lia. exact E.
Qed.

(** ** Lemmas: one turn of the scheduler *)

Lemma set_get_world w : set_sched (Kernel := K) (wsched w) w = w.
Proof. by destruct w. Qed.

(** Only the entry of [p] and the current task differ. *)
Definition others_kept (p : Z) w w' : Prop :=
  wheap w' = wheap w /\ wmounts w' = wmounts w /\
  forall i, i <> p -> zget (task_table (wsched w')) i = zget (task_table (wsched w)) i.

Lemma poll_start p n ih d emit ptr l done t dv w :
  sink d emit -> pending p n ih d ptr l done t w -> waits n ptr (zlen l) done t -> current_task (wsched w) = p ->
  emit (chunk (rest l done)) (Devfs.world (wdrv w)) = Some dv -> exists w1,
  same_but_drivers w w1 /\ drives ih d w1 /\ Devfs.world (wdrv w1) = dv /\
  scheduler_turn w =
    (if zlen l - done <=? Vfs.MAX_SIMULTANOUS_VFS_ACCESS then finish_wait (done + zlen (chunk (rest l done)))
     else put_this (with_iowait (MkIowait (dev (iowait t)) (loc (iowait t)) IO_WRITE (wpayload (iowait t)) n ptr (zlen l)
            (s32 (done + zlen (chunk (rest l done))))) t) ;; next_task) w1.
Proof.
  intros Hs Hp (W1 & W2 & W3 & W4 & W5 & W6) Hc He.
  destruct (poll_call p n ih d emit ptr l done t dv w Hs Hp Hc He) as (w1 & E & Hsame & Hd & Hdv).
  exists w1. do 3 (split; [done|]). rewrite <- (set_get_world w) at 1.
  rewrite (turn_entry (wsched w) (Task t) w) by (rewrite Hc; by apply Hp).
  rewrite W1. cbn [Z.eqb Pos.eqb KRN_STAT_IOWAIT_TASK]. rewrite set_get_world. unfold poll_wait. rewrite W2.
  cbn [Z.eqb Pos.eqb IO_WRITE]. unfold poll_handle. rewrite W3, W4, W5, W6.
  erewrite st_bind_ok by exact E.
  assert (running p t w1) as Hr by (destruct Hsame as (S1 & _); unfold running; rewrite S1; split; [done|by apply Hp]).
  erewrite st_bind_ok by (by apply (this_task_world p)). cbn [fst snd].
  rewrite W2, W3, W4, W5, W6. by destruct (_ <=? _).
Qed.

(** A chunk that is not the last. *)
Lemma turn_more p n ih d emit ptr l done t dv w :
  sink d emit -> pending p n ih d ptr l done t w -> waits n ptr (zlen l) done t -> current_task (wsched w) = p ->
  Vfs.MAX_SIMULTANOUS_VFS_ACCESS < zlen l - done ->
  emit (chunk (rest l done)) (Devfs.world (wdrv w)) = Some dv -> exists w' t',
  scheduler_turn w = Some (None, w') /\ others_kept p w w' /\ Devfs.world (wdrv w') = dv /\
  pending p n ih d ptr l (done + Vfs.MAX_SIMULTANOUS_VFS_ACCESS) t' w' /\
  waits n ptr (zlen l) (done + Vfs.MAX_SIMULTANOUS_VFS_ACCESS) t' /\ cpu t' = cpu t.
Proof.
  intros Hs Hp Hw Hc Hlong He.
  destruct (poll_start p n ih d emit ptr l done t dv w Hs Hp Hw Hc He) as (w1 & (S1 & S2 & S3) & Hd & Hdv & E).
  destruct Hp as [P1 P2 P3 P4 P5 P6 P7 P8]. pose proof (rest_len l done ltac:(lia)) as Hr.
  rewrite (proj2 (Z.leb_gt _ _)) in E by lia. rewrite chunk_len, Hr, Z.min_r in E by lia.
  unfold Vfs.MAX_SIMULTANOUS_VFS_ACCESS in *. rewrite s32_small in E by lia.
  set (t' := with_iowait _ t) in E.
  pose proof (zset_ok (task_table (wsched w)) p (Task t') ltac:(by eapply zget_Some)) as El.
  set (tbl := <[_:=_]> (task_table (wsched w))) in El.
  set (w2 := with_wsched (with_table tbl (wsched w)) w1).
  assert (put_this t' w1 = Some (tt, w2)) as Ep.
  { rewrite <- (set_get_world w1), S1. exact (put_this_ok (wsched w) w1 t' tbl ltac:(by rewrite Hc)). }
  erewrite st_bind_ok in E by exact Ep.
  set (w3 := with_wsched (with_current (p + 1) (with_table tbl (wsched w))) w1).
  assert (next_task w2 = Some (None, w3)) as En.
  { pose proof (next_task_ok (with_table tbl (wsched w)) w1) as En. cbn [current_task with_table] in En.
    rewrite Hc in En. exact En. }
  assert (zget tbl p = Some (Task t')) as Ht by (by rewrite (zget_zset _ _ _ _ _ El), decide_True).
  exists w3, t'. split; [by rewrite E, En|]. split; [|split; [done|split; [|split; [|done]]]].
  - split; [exact S2|]. split; [exact S3|]. intros i Hi. cbn. by rewrite (zget_zset _ _ _ _ _ El), decide_False.
  - split; try done.
    + by apply (bound_same _ _ _ w).
    + assert (mem_eq (wbytes w3) (wbytes w)) as M by (intros x; unfold wbytes; cbn; by rewrite S2).
      by rewrite M.
    + cbn. lia.
  - by destruct Hw.
Qed.

(** The last chunk. *)
Lemma turn_last p n ih d emit ptr l done t dv w :
  sink d emit -> pending p n ih d ptr l done t w -> waits n ptr (zlen l) done t -> current_task (wsched w) = p ->
  zlen l - done <= Vfs.MAX_SIMULTANOUS_VFS_ACCESS ->
  emit (chunk (rest l done)) (Devfs.world (wdrv w)) = Some dv -> exists w',
  scheduler_turn w = Some (Some (Run p), w') /\ others_kept p w w' /\ Devfs.world (wdrv w') = dv /\
  zget (task_table (wsched w')) p =
    Some (Task (with_status KRN_STAT_ACTIVE_TASK (with_cpu (with_eax (u32 (zlen l)) (cpu t)) t))).
Proof.
  intros Hs Hp Hw Hc Hshort He.
  destruct (poll_start p n ih d emit ptr l done t dv w Hs Hp Hw Hc He) as (w1 & (S1 & S2 & S3) & Hd & Hdv & E).
  destruct Hp as [P1 P2 P3 P4 P5 P6 P7 P8]. pose proof (rest_len l done ltac:(lia)) as Hr.
  rewrite (proj2 (Z.leb_le _ _)) in E by lia. rewrite chunk_len, Hr, Z.min_l in E by lia.
  replace (done + (zlen l - done)) with (zlen l) in E by lia.
  set (t' := with_status KRN_STAT_ACTIVE_TASK _).
  pose proof (zset_ok (task_table (wsched w)) p (Task t') ltac:(by eapply zget_Some)) as El.
  set (tbl := <[_:=_]> (task_table (wsched w))) in El.
  assert (zget tbl p = Some (Task t')) as Ht by (by rewrite (zget_zset _ _ _ _ _ El), decide_True).
  destruct (run_task_ok (K := K) (with_table tbl (wsched w)) t' w1) as (g & Eg & _);
    [cbn [task_table current_task with_table]; by rewrite Hc|exact P2|].
  cbn [task_table current_task with_table] in Eg. rewrite Hc in Eg.
  exists (set_sched (Kernel := K) (MkSched tbl p 0 g) w1). split; [|split; [|split; [exact Hdv|exact Ht]]].
  - rewrite E. unfold finish_wait.
    erewrite st_bind_ok by (apply (this_task_world p t w1 K); [split; by rewrite S1|done]).
    erewrite st_bind_ok; [exact Eg|].
    pose proof (put_this_ok (K := K) (wsched w) w1 t' tbl ltac:(by rewrite Hc)) as Ep.
    rewrite <- S1 in Ep at 1. rewrite set_get_world in Ep. exact Ep.
  - split; [exact S2|]. split; [exact S3|]. intros i Hi. cbn. by rewrite (zget_zset _ _ _ _ _ El), decide_False.
Qed.

(** The turns of the scheduler that a waiting task needs. *)
Definition turns (left : Z) : nat := Z.to_nat ((left + Vfs.MAX_SIMULTANOUS_VFS_ACCESS - 1) / Vfs.MAX_SIMULTANOUS_VFS_ACCESS).

Lemma polls_ok p n ih d emit ptr l : sink d emit -> splits emit -> forall k done t w dv,
  pending p n ih d ptr l done t w -> waits n ptr (zlen l) done t ->
  Vfs.MAX_SIMULTANOUS_VFS_ACCESS * (Z.of_nat k - 1) < zlen l - done <= Vfs.MAX_SIMULTANOUS_VFS_ACCESS * Z.of_nat k ->
  emit (rest l done) (Devfs.world (wdrv w)) = Some dv -> exists w' t',
  poll_turns k p w = Some (Some (Run p), w') /\ others_kept p w w' /\ Devfs.world (wdrv w') = dv /\
  zget (task_table (wsched w')) p = Some (Task t') /\ status t' = KRN_STAT_ACTIVE_TASK /\
  cpu t' = with_eax (u32 (zlen l)) (cpu t).
Proof.
  intros Hs Hsp. induction k as [|k IH]; intros done t w dv Hp Hw Hk He;
    [unfold Vfs.MAX_SIMULTANOUS_VFS_ACCESS in Hk; destruct (pe_done _ _ _ _ _ _ _ _ _ Hp); lia|].
  set (w0 := with_wsched (with_current p (wsched w)) w).
  assert (pending p n ih d ptr l done t w0) as Hp0 
    by (destruct Hp; split; try done; by apply (bound_same _ _ _ w)).
  assert (chunk (rest l done) ++ rest l (done + Vfs.MAX_SIMULTANOUS_VFS_ACCESS) = rest l done) as Ec.
  { rewrite <- chunk_rest by (destruct (pe_done _ _ _ _ _ _ _ _ _ Hp); lia). apply take_drop. }
  rewrite <- Ec in He. destruct (Hsp _ _ _ _ He) as (dv1 & He1 & He2). cbn [poll_turns].
  erewrite (st_bind_ok _ _ _ tt w0) by done.
  destruct (decide (zlen l - done <= Vfs.MAX_SIMULTANOUS_VFS_ACCESS)) as [Hle|Hgt].
  - destruct (turn_last p n ih d emit ptr l done t dv1 w0 Hs Hp0 Hw eq_refl Hle He1) as (w' & E & Ho & Hdv & Ht).
    erewrite st_bind_ok by exact E. eexists w', _. split; [done|]. split; [exact Ho|]. split; [|split; [exact Ht|done]].
    rewrite Hdv. assert (rest l (done + Vfs.MAX_SIMULTANOUS_VFS_ACCESS) = []) as En
      by (unfold rest; apply drop_ge; unfold zlen in Hle; lia). rewrite En in He2.
    destruct (Hs [] 0 (Devfs.MkProgress 0 [] 0 dv1) dv ltac:(constructor) He2) as (i & dat & E2). by injection E2.
  - destruct (turn_more p n ih d emit ptr l done t dv1 w0 Hs Hp0 Hw eq_refl ltac:(lia) He1)
      as (w1 & t1 & E & (O1 & O2 & O3) & Hdv & Hp1 & Hw1 & Hcpu).
    erewrite st_bind_ok by exact E. rewrite <- Hdv in He2.
    destruct (IH _ t1 w1 dv Hp1 Hw1 ltac:(unfold Vfs.MAX_SIMULTANOUS_VFS_ACCESS in *; lia) He2)
      as (w' & t' & E' & (Q1 & Q2 & Q3) & Hdv' & Ht' & Hst & Hcpu').
    exists w', t'. split; [exact E'|]. split; [|split; [done|split; [done|split; [done|by rewrite Hcpu', Hcpu]]]].
    split; [by rewrite Q1, O1|]. split; [by rewrite Q2, O2|]. intros i Hi. by rewrite Q3, O3.
Qed.

(** ** Lemmas: waiting *)

(** [enter_iowait_status1] *)
Lemma enter_wait_ok p t h q len ty dn w : running p t w -> exists t' w',
  Syscalls.enter_iowait_status1 h q len ty dn w = Some (tt, w') /\ running p t' w' /\
  status t' = KRN_STAT_IOWAIT_TASK /\
  iowait t' = MkIowait (dev (iowait t)) (loc (iowait t)) ty (wpayload (iowait t)) h q len dn /\
  file_handles_v2 t' = file_handles_v2 t /\ base t' = base t /\ cpu t' = cpu t /\
  others_kept p w w' /\ wdrv w' = wdrv w /\ gdt (wsched w') = gdt (wsched w).
Proof.
  intros Hr. pose proof Hr as [Hc Ht]. set (io := MkIowait (dev (iowait t)) (loc (iowait t)) ty (wpayload (iowait t)) h q len dn).
  set (t' := with_status KRN_STAT_IOWAIT_TASK (with_iowait io t)).
  pose proof (zset_ok (task_table (wsched w)) p (Task t') ltac:(by eapply zget_Some)) as El.
  set (tbl := <[_:=_]> (task_table (wsched w))) in El.
  exists t', (with_wsched (with_table tbl (wsched w)) w). split; [|split; [split; [done|]|]].
  - unfold Syscalls.enter_iowait_status1. erewrite st_bind_ok by (by apply (this_task_world p)).
    rewrite <- (set_get_world w) at 1. exact (put_this_ok (K := K) (wsched w) w t' tbl ltac:(by rewrite Hc)).
  - cbn. by rewrite (zget_zset _ _ _ _ _ El), decide_True.
  - do 5 (split; [done|]). split; [|done]. split; [done|]. split; [done|]. intros i Hi. cbn.
    by rewrite (zget_zset _ _ _ _ _ El), decide_False.
Qed.

(** ** Lemmas: a device that has nothing to read *)

Definition ended (d : device_t DV) (dv : DV) : Prop := forall loc, io_wrapper d (gp_value d) loc 0 0 dv = Some (-1, dv).

Lemma uread_ended ih h d (st : Devfs.state DV) len : 0 < len -> Devfs.open_on ih h d st -> ended d (Devfs.world st) ->
  exists st' h', Devfs.devfs_uread ih len st = Some (0, [], st') /\ Devfs.world st' = Devfs.world st /\
    Devfs.stat st' = 0 /\ Devfs.open_on ih h' d st'.
Proof.
  intros Hlen [Hl Hd] He. pose proof Hl as [Hg Hf]. unfold Devfs.devfs_uread. rewrite Hg. cbn [mbind option_bind].
  rewrite Hd. cbn [mbind option_bind]. rewrite (Devfs.uread_eof _ _ _ _ (Devfs.world st)) by (lia || apply He).
  cbn [mbind option_bind]. unfold Devfs.set_handle. cbn [Devfs.handles]. rewrite zset_ok by (by eapply zget_Some).
  cbn [mbind option_bind]. eexists _, (Devfs.with_ptr h _). do 3 (split; [done|]). split; [|exact Hd].
  by apply (Devfs.live_insert ih h).
Qed.

(** Nothing but the marks and the position of the handle changes. *)
Definition idle_read (w w' : world DV) : Prop :=
  wsched w' = wsched w /\ wmounts w' = wmounts w /\ mem_eq (wbytes w') (wbytes w) /\
  Devfs.world (wdrv w') = Devfs.world (wdrv w).

Lemma sys_read_ended p t n ih d ptr len w :
  running p t w -> bound n ih t w -> drives ih d w -> ended d (Devfs.world (wdrv w)) -> 0 < len -> exists w',
  sys_read print filesystems n ptr len w =
    Some ((0, if len <=? Vfs.MAX_SIMULTANOUS_VFS_ACCESS then 0 else 1), w') /\ idle_read w w' /\ drives ih d w'.
Proof.
  intros [Hc Ht] Hb (h & Ho) He Hlen.
  set (k := if len <=? Vfs.MAX_SIMULTANOUS_VFS_ACCESS then len else Vfs.MAX_SIMULTANOUS_VFS_ACCESS).
  assert (0 < k) as Hk by (unfold k, Vfs.MAX_SIMULTANOUS_VFS_ACCESS; destruct (len <=? _); lia).
  destruct (uread_ended ih h d (wdrv w) k Hk Ho He) as (st' & h' & E & Hw & Hst & Ho').
  set (w1 := with_rstat 0 (with_wdrv st' w)).
  assert (devfs_uread ih k w = Some ((0, []), w1)) as Eu.
  { unfold devfs_uread, on_devfs, st_bind. rewrite E. cbn [wdrv with_wdrv]. by rewrite Hst. }
  set (w2 := if len <=? Vfs.MAX_SIMULTANOUS_VFS_ACCESS then w1 else with_rstat 1 w1).
  assert (Vfs.vfs_uread (K := base_kernel print) filesystems n len w = Some ((0, []), w2)) as Ev.
  { unfold Vfs.vfs_uread. unfold st_bind at 1, current, st_bind at 1, st_get, st_ret.
    cbn [get_sched base_kernel kernel_over]. rewrite Hc, (on_handle_bound _ n ih p t w Ht Hb).
    cbn [Vfs.fs_uread devfs]. unfold w2, k in *. destruct (len <=? _); [exact Eu|].
    unfold st_bind. rewrite Eu. done. }
  exists (write_bytes (u32 (ptr + base t)) [] w2). split; [|split].
  - unfold sys_read. erewrite st_bind_ok by (by apply (this_task_world p)).
    erewrite st_bind_ok by exact Ev. cbn [snd]. erewrite st_bind_ok by (cbn; reflexivity).
    unfold w2. by destruct (len <=? _).
  - unfold w2. assert (forall m a, mem_eq (store_bytes m a []) m) as Hm
      by (intros m a x; apply store_out; rewrite zlen_nil; lia).
    destruct (len <=? _); (split; [done|]; split; [done|]; split; [|exact Hw]);
      intros x; unfold wbytes, write_bytes; cbn; by rewrite Hm.
  - exists h'. unfold w2. by destruct (len <=? _).
Qed.

(** The task [p] waits to read more than a call transfers from a device at its end. *)
Record stuck (p n ih : Z) (d : device_t DV) (len done : Z) t (w : world DV) : Prop := {
  sk_task : zget (task_table (wsched w)) p = Some (Task t);
  sk_status : status t = KRN_STAT_IOWAIT_TASK;
  sk_wait : type (iowait t) = IO_READ /\ handle (iowait t) = n /\ Task.len (iowait t) = len /\ done_ (iowait t) = done;
  sk_bound : bound n ih t w;
  sk_drives : drives ih d w;
  sk_ended : ended d (Devfs.world (wdrv w));
  sk_long : 0 <= done /\ Vfs.MAX_SIMULTANOUS_VFS_ACCESS < len - done /\ len < 2 ^ 31
}.

Lemma stuck_turn p n ih d len done t w : stuck p n ih d len done t w -> current_task (wsched w) = p -> exists w' t',
  scheduler_turn w = Some (None, w') /\ stuck p n ih d len done t' w' /\ cpu t' = cpu t /\
  mem_eq (wbytes w') (wbytes w) /\ Devfs.world (wdrv w') = Devfs.world (wdrv w).
Proof.
  intros [Ht Hst (W1 & W2 & W3 & W4) Hb Hd He (D1 & D2 & D3)] Hc.
  assert (running p t w) as Hr by done. unfold Vfs.MAX_SIMULTANOUS_VFS_ACCESS in *.
  destruct (sys_read_ended p t n ih d (u32 (Task.ptr (iowait t) + done)) (s32 (len - done)) w Hr Hb Hd He)
    as (w1 & E & (S1 & S2 & S3 & S4) & Hd1); [rewrite s32_small by lia; lia|].
  unfold Vfs.MAX_SIMULTANOUS_VFS_ACCESS in E. rewrite (s32_small (len - done)) in E by lia.
  rewrite (proj2 (Z.leb_gt _ _)) in E by lia. set (io := iowait t) in *.
  set (t' := with_iowait (MkIowait (dev io) (loc io) (type io) (wpayload io) (handle io) (Task.ptr io) (Task.len io)
    (s32 (done_ io + 0))) t).
  pose proof (zset_ok (task_table (wsched w)) p (Task t') ltac:(by eapply zget_Some)) as El.
  set (tbl := <[_:=_]> (task_table (wsched w))) in El.
  set (w3 := with_wsched (with_current (p + 1) (with_table tbl (wsched w))) w1).
  exists w3, t'. split; [|split; [|split; [done|split; [exact S3|exact S4]]]].
  - rewrite <- (set_get_world w) at 1. rewrite (turn_entry (wsched w) (Task t) w) by (by rewrite Hc).
    rewrite Hst. cbn [Z.eqb Pos.eqb KRN_STAT_IOWAIT_TASK]. rewrite set_get_world. unfold poll_wait. fold io.
    rewrite W1. cbn [Z.eqb Pos.eqb IO_READ]. unfold poll_handle. rewrite W2, W3, W4.
    erewrite st_bind_ok by (rewrite (s32_small (len - done)) by lia; exact E).
    erewrite st_bind_ok by (apply (this_task_world p t w1 K); [split; by rewrite S1|done]). cbn [fst snd Z.eqb].
    erewrite st_bind_ok.
    2:{ pose proof (put_this_ok (K := K) (wsched w) w1 t' tbl ltac:(by rewrite Hc)) as Ep.
        rewrite <- S1 in Ep at 1. rewrite set_get_world in Ep. exact Ep. }
    pose proof (next_task_ok (K := K) (with_table tbl (wsched w)) w1) as En. cbn [current_task with_table] in En.
    rewrite Hc in En. exact En.
  - split; try done.
    + cbn. by rewrite (zget_zset _ _ _ _ _ El), decide_True.
    + cbn [iowait t' with_iowait type handle Task.len done_]. split; [done|]. split; [done|]. split; [done|].
      rewrite W4, Z.add_0_r. apply s32_small. lia.
    + by apply (bound_same _ _ _ w).
    + cbn. by rewrite S4.
Qed.

Lemma stuck_forever p n ih d len done k : forall t w, stuck p n ih d len done t w -> exists w' t',
  poll_turns k p w = Some (None, w') /\ stuck p n ih d len done t' w' /\ cpu t' = cpu t /\
  mem_eq (wbytes w') (wbytes w) /\ Devfs.world (wdrv w') = Devfs.world (wdrv w).
Proof.
  induction k as [|k IH]; intros t w Hs; [by exists w, t|]. cbn [poll_turns].
  set (w0 := with_wsched (with_current p (wsched w)) w). erewrite (st_bind_ok _ _ _ tt w0) by done.
  assert (stuck p n ih d len done t w0) as Hs0 by (destruct Hs; split; try done; by apply (bound_same _ _ _ w)).
  destruct (stuck_turn _ _ _ _ _ _ _ _ Hs0 eq_refl) as (w1 & t1 & E & Hs1 & C1 & M1 & V1).
  erewrite st_bind_ok by exact E. destruct (IH t1 w1 Hs1) as (w' & t' & E' & Hs' & C' & M' & V').
  exists w', t'. split; [exact E'|]. split; [done|]. split; [congruence|]. split; [|by rewrite V', V1].
  intros x. by rewrite M', M1.
Qed.

End Transfer.

(** * Properties *)

(** C16: A write of any length to a device that takes everything is done, in order.  With
    a handle of the task open on the device through devfs and the bytes in the task's
    memory, the call writes the first 4096 bytes; when that is all it returns their
    number, and otherwise the task waits, and after one turn of the scheduler for each
    further 4096 bytes it runs again with the length in [eax]: the driver has then got
    exactly the bytes, one after the other, and no other task and no byte of memory has
    changed. *)
Theorem write_completes {DV : Type} (print : list Z -> ST DV unit) (filesystems : list (Vfs.filesystem_t (world DV)))
    (stk : list Z) (p n ih ptr : Z) (d : device_t DV) (emit : list Z -> DV -> option DV) (l : list Z)
    (t : task_t) (w : world DV) (dv : DV) :
  sink d emit -> splits emit -> running p t w -> bound filesystems n ih t w -> drives ih d w ->
  zlen (gdt (wsched w)) = Gdt.GDT_ENTRIES -> Forall is_byte l -> 0 < zlen l < 2 ^ 31 ->
  0 <= base t -> 0 <= ptr -> base t + ptr + zlen l <= 2 ^ 32 -> bytes_at (wbytes w) (base t + ptr) (length l) = l ->
  emit l (Devfs.world (wdrv w)) = Some dv ->
  let K := kernel print filesystems stk in
  let call := io_call (K := K) IO_WRITE (write (Kernel := K)) n ptr (zlen l) w in
  (zlen l <= Vfs.MAX_SIMULTANOUS_VFS_ACCESS -> exists w',
     call = Some (Some (zlen l), w') /\ same_but_drivers w w' /\ Devfs.world (wdrv w') = dv) /\
  (Vfs.MAX_SIMULTANOUS_VFS_ACCESS < zlen l -> exists w1 w' t',
     call = Some (None, w1) /\
     poll_turns (K := K) (turns (zlen l - Vfs.MAX_SIMULTANOUS_VFS_ACCESS)) p w1 = Some (Some (Run p), w') /\
     Devfs.world (wdrv w') = dv /\ others_kept p w w' /\ zget (task_table (wsched w')) p = Some (Task t') /\
     status t' = KRN_STAT_ACTIVE_TASK /\ cpu t' = with_eax (zlen l) (cpu t)).
Proof.
  intros Hs Hsp Hr Hb Hd Hg Hl Hlen Hbase Hptr Hfit Hm He K call.
  assert (chunk l ++ rest l Vfs.MAX_SIMULTANOUS_VFS_ACCESS = l) as Ec by apply take_drop.
  assert (exists dv1, emit (chunk l) (Devfs.world (wdrv w)) = Some dv1 /\
    emit (rest l Vfs.MAX_SIMULTANOUS_VFS_ACCESS) dv1 = Some dv) as (dv1 & He1 & He2) by (apply Hsp; by rewrite Ec).
  destruct (sys_write_ok print filesystems p t n ih d emit ptr l dv1 w Hs Hr Hb Hd Hl) as (w1 & E & Hsame & Hd1 & Hdv1);
    [rewrite u32_small by lia; by rewrite Z.add_comm|done|].
  unfold call, io_call. erewrite st_bind_ok by exact E. rewrite chunk_len. split; intros Hle.
  - rewrite Z.min_l, (proj2 (Z.leb_le _ _)) by lia. cbn [fst snd Z.eqb].
    exists w1. split; [done|]. split; [done|].
    assert (rest l Vfs.MAX_SIMULTANOUS_VFS_ACCESS = []) as En by (unfold rest; apply drop_ge; unfold zlen in Hle; lia).
    rewrite En in He2. destruct (Hs [] 0 (Devfs.MkProgress 0 [] 0 dv1) dv ltac:(constructor) He2) as (i & dat & E2).
    rewrite Hdv1. by injection E2.
  - rewrite Z.min_r, (proj2 (Z.leb_gt _ _)) by lia. cbn [fst snd Z.eqb Pos.eqb].
    destruct Hsame as (S1 & S2 & S3).
    destruct (enter_wait_ok print filesystems stk p t n ptr (zlen l) IO_WRITE Vfs.MAX_SIMULTANOUS_VFS_ACCESS w1)
      as (t2 & w2 & E2 & [Hc2 Ht2] & Hst & Hio & Hfh & Hbt & Hcpu & (O1 & O2 & O3) & Hv & Hgd);
      [unfold running; rewrite S1; exact Hr|].
    erewrite st_bind_ok by exact E2.
    assert (wmounts w2 = wmounts w) as Hm2 by congruence.
    assert (mem_eq (wbytes w2) (wbytes w)) as M2 by (intros x; unfold wbytes; by rewrite O1, S2).
    destruct (polls_ok print filesystems stk p n ih d emit ptr l Hs Hsp
      (turns (zlen l - Vfs.MAX_SIMULTANOUS_VFS_ACCESS)) Vfs.MAX_SIMULTANOUS_VFS_ACCESS t2 w2 dv)
      as (w' & t' & E' & (Q1 & Q2 & Q3) & Hdv' & Ht' & Hst' & Hcpu').
    + split; try done; [by rewrite Hgd, S1| |by unfold drives; rewrite Hv|rewrite Hbt, M2; exact Hm|rewrite Hbt; lia].
      destruct (bound_same filesystems n ih t w w2 Hm2 Hb) as (h & i & B1 & B2). exists h, i. by rewrite Hfh.
    + unfold waits. by rewrite Hst, Hio.
    + unfold turns, Vfs.MAX_SIMULTANOUS_VFS_ACCESS in *. rewrite Z2Nat.id by (apply Z.div_pos; lia). zdml.
    + by rewrite Hv, Hdv1.
    + exists w2, w', t'. split; [done|]. split; [exact E'|]. split; [done|]. split.
      * split; [congruence|]. split; [congruence|]. intros i Hi. by rewrite Q3, O3, S1.
      * split; [done|]. split; [done|]. rewrite Hcpu', Hcpu. f_equal. apply u32_small. lia.
Qed.

(** C24: A read of more than 4096 bytes cannot end at the end of a device.  On a device
    with nothing left to read, a call for at most 4096 bytes returns 0; a call for more
    makes the task wait, because [vfs_uread] sets the mark of an unfinished transfer
    whenever more than 4096 bytes are asked for, and however often the scheduler comes
    to the task it waits on: no turn finishes the call or changes memory. *)
Theorem long_read_at_end_hangs {DV : Type} (print : list Z -> ST DV unit)
    (filesystems : list (Vfs.filesystem_t (world DV))) (stk : list Z) (p n ih ptr len : Z) (d : device_t DV)
    (t : task_t) (w : world DV) :
  running p t w -> bound filesystems n ih t w -> drives ih d w -> ended d (Devfs.world (wdrv w)) -> 0 < len < 2 ^ 31 ->
  let K := kernel print filesystems stk in
  let call := io_call (K := K) IO_READ (read (Kernel := K)) n ptr len w in
  (len <= Vfs.MAX_SIMULTANOUS_VFS_ACCESS -> exists w', call = Some (Some 0, w') /\ idle_read w w') /\
  (Vfs.MAX_SIMULTANOUS_VFS_ACCESS < len -> exists w1, call = Some (None, w1) /\
     forall k, exists w' t', poll_turns (K := K) k p w1 = Some (None, w') /\
       zget (task_table (wsched w')) p = Some (Task t') /\ status t' = KRN_STAT_IOWAIT_TASK /\ cpu t' = cpu t /\
       mem_eq (wbytes w') (wbytes w)).
Proof.
  intros Hr Hb Hd He Hlen K call.
  destruct (sys_read_ended print filesystems p t n ih d ptr len w Hr Hb Hd He ltac:(lia)) as (w1 & E & Hi & Hd1).
  unfold call, io_call. erewrite st_bind_ok by exact E. split; intros Hle.
  - rewrite (proj2 (Z.leb_le _ _)) by lia. cbn [fst snd Z.eqb]. by exists w1.
  - rewrite (proj2 (Z.leb_gt _ _)) by lia. cbn [fst snd Z.eqb Pos.eqb]. destruct Hi as (S1 & S2 & S3 & S4).
    destruct (enter_wait_ok print filesystems stk p t n ptr len IO_READ 0 w1)
      as (t2 & w2 & E2 & [Hc2 Ht2] & Hst & Hio & Hfh & Hbt & Hcpu & (O1 & O2 & O3) & Hv & Hgd);
      [unfold running; rewrite S1; exact Hr|].
    erewrite st_bind_ok by exact E2. exists w2. split; [done|]. intros k.
    assert (wmounts w2 = wmounts w) as Hm2 by congruence.
    destruct (stuck_forever print filesystems stk p n ih d len 0 k t2 w2) as (w' & t' & E' & [Q1 Q2] & Q3 & Q4 & _).
    + split; try done; [by rewrite Hio| |by unfold drives; rewrite Hv|by rewrite Hv, S4|
        unfold Vfs.MAX_SIMULTANOUS_VFS_ACCESS in *; lia].
      destruct (bound_same filesystems n ih t w w2 Hm2 Hb) as (h & i & B1 & B2). exists h, i. by rewrite Hfh.
    + exists w', t'. split; [exact E'|]. split; [done|]. split; [done|]. split; [congruence|].
      intros x. rewrite Q4. rewrite <- S3. unfold wbytes. by rewrite O1.
Qed.

(** * Witnesses *)

(** The running task has handle 0 open on the first device of the list. *)
Definition demo_task : task_t :=
  with_file_handles_v2 [Handle.MkFileHandleV2 0 0 0] (with_base 0x200000 16 (idle_task KRN_STAT_ACTIVE_TASK 0)).
Definition demo_world (m : mem) (l : list (device_t TtyDev.world_t)) : world TtyDev.world_t :=
  MkWorld (MkSched [Task kernel_task; Task demo_task; NoTask] 1 0 (Gdt.load_gdt 0 104))
    (Kheap.MkHeapSt Pmm.demo_pmm m) [VfsPath.MkMountpoint [47] [100] [100; 101; 118; 102; 115]] 0 0
    (Devfs.MkState [TtyDev.demo_handle] l (Keyboard.kb0, Tty.demo) 0).
Definition silent : list Z -> ST TtyDev.world_t unit := fun _ => st_ret tt.

Lemma demo_bound m l : bound [devfs] 0 0 demo_task (demo_world m l).
Proof. by exists (Handle.MkFileHandleV2 0 0 0), 0. Qed.

(** 5000 times the letter a on the first terminal. *)
Lemma write_completes_witness :
  let K := kernel silent [devfs] [] in
  let w := demo_world (fun _ => 97) (map TtyDev.tty_device [0]) in
  exists l w1 w' t' c', zlen l = 5000 /\ Tty.tty_knputs l 0 Tty.demo = Some c' /\
    io_call (K := K) IO_WRITE (write (Kernel := K)) 0 0 5000 w = Some (None, w1) /\
    poll_turns (K := K) 1 1 w1 = Some (Some (Run 1), w') /\ Devfs.world (wdrv w') = (Keyboard.kb0, c') /\
    zget (task_table (wsched w')) 1 = Some (Task t') /\ eax (cpu t') = 5000.
Proof.
  intros K w. assert (Z.of_nat (Z.to_nat 5000) = 5000) as Hk by (by apply Z2Nat.id).
  revert Hk. generalize (Z.to_nat 5000). intros k Hk. set (l := replicate k 97).
  assert (zlen l = 5000) as Hl by (unfold l; by rewrite zlen_replicate).
  set (c' := Tty.put 0 (Tty.p_puts l Tty.demo_tty) Tty.demo).
  assert (Forall (fun x => x <> 72) l) as Hf by (apply Forall_replicate; discriminate).
  assert (Tty.tty_knputs l 0 Tty.demo = Some c') as E
    by (apply (Tty.acts_knputs 0 l Tty.demo_tty Tty.demo_tty_ok (Tty.homes_ok_free _ _ Hf)); [exact Tty.demo_ok|reflexivity]).
  destruct (write_completes silent [devfs] [] 1 0 0 0 (TtyDev.tty_device 0)
    (fun s x => c ← Tty.tty_knputs s 0 x.2; Some (x.1, c)) l demo_task w (Keyboard.kb0, c')) as [_ H].
  - apply tty_sink. split; [discriminate|reflexivity].
  - apply tty_splits.
  - split; reflexivity.
  - apply demo_bound.
  - exists TtyDev.demo_handle. split; [split|]; reflexivity.
  - reflexivity.
  - apply Forall_replicate. split; [discriminate|reflexivity].
  - rewrite Hl. split; reflexivity.
  - discriminate.
  - discriminate.
  - rewrite Hl. discriminate.
  - apply bytes_at_eq. intros i c Hc. unfold l in Hc. unfold zget in Hc. case_decide; [|discriminate].
    apply lookup_replicate_1 in Hc as [-> _]. reflexivity.
  - cbn [Devfs.world wdrv w demo_world snd fst]. rewrite E. reflexivity.
  - destruct (H ltac:(rewrite Hl; reflexivity)) as (w1 & w' & t' & E1 & E2 & E3 & _ & E4 & _ & E5).
    rewrite Hl in E1, E2, E5. exists l, w1, w', t', c'. split; [exact Hl|]. split; [exact E|]. split; [exact E1|].
    split; [exact E2|]. split; [exact E3|]. split; [exact E4|]. rewrite E5. reflexivity.
Defined.

(** 8192 bytes from the device [null]. *)
Lemma long_read_at_end_hangs_witness :
  let K := kernel silent [devfs] [] in
  let w := demo_world (fun _ => 0) [MkDevice [110; 117; 108; 108] 0 0 Streams.null_io_wrapper] in
  exists w1, io_call (K := K) IO_READ (read (Kernel := K)) 0 0 8192 w = Some (None, w1) /\
    forall k, exists w' t', poll_turns (K := K) k 1 w1 = Some (None, w') /\
      zget (task_table (wsched w')) 1 = Some (Task t') /\ status t' = KRN_STAT_IOWAIT_TASK.
Proof.
  intros K w. destruct (long_read_at_end_hangs silent [devfs] [] 1 0 0 0 8192
    (MkDevice [110; 117; 108; 108] 0 0 Streams.null_io_wrapper) demo_task w) as [_ H].
  - split; reflexivity.
  - apply demo_bound.
  - exists TtyDev.demo_handle. split; [split|]; reflexivity.
  - intros loc. reflexivity.
  - split; reflexivity.
  - destruct (H ltac:(reflexivity)) as (w1 & E1 & Hk). exists w1. split; [exact E1|]. intros k.
    destruct (Hk k) as (w' & t' & Q1 & Q2 & Q3 & _). exists w', t'. split; [exact Q1|]. split; [exact Q2|exact Q3].
Defined.

End Transfers.
