(* ===== verification/Isolation.v ===== *)
(** * What keeps the tasks apart

    Each task has a block of the kernel heap for its memory, and its segments cover
    that block.  This file states the invariant that makes tasks separate, on the
    kernel of [System.v]: the blocks are live and pairwise disjoint, each task's pages
    are within its own block, and what a waiting task waits for lies within its memory;
    and shows which calls keep it. *)

From S2P Require Import Prelude Mem Pmm Kheap Dev Handle Devfs Gdt Task UserMem VfsPath Vfs Spawn Syscalls System.
Local Open Scope Z_scope.
Local Open Scope st_scope.

Module Isolation.
Import Pmm Dev Task UserMem Spawn System.

(** ** The part of a task the invariant is about *)

Record footprint := MkFoot {
  fbase : Z; fpages : Z; fheap_base : Z; fwait : option iowait_t; fqueue : list ipc_packet_t
}.
Definition foot (t : task_t) : footprint :=
  MkFoot (base t) (pages t) (heap_base t)
    (if status t =? KRN_STAT_IOWAIT_TASK then Some (iowait t) else None) (ipc_queue t).
Definition view (s : sched) (i : Z) : option footprint :=
  match zget (task_table s) i with Some (Task t) => Some (foot t) | _ => None end.

(** A packet whose payload has its length, or has been freed. *)
Definition whole (p : ipc_packet_t) : Prop := match payload p with Some l => zlen l = plength p | None => True end.

(** The bytes a waiting reader still gets are within its memory. *)
Definition wait_ok (f : footprint) (io : iowait_t) : Prop :=
  type io = 2 -> 0 <= ptr io /\ 0 <= done_ io <= len io /\ len io < 2 ^ 31 /\ ptr io + len io <= fpages f * PAGE_SIZE.

(** The block of a task. *)
Definition block_of (f : footprint) (b : Kheap.block) : Prop :=
  Kheap.bptr b = fbase f /\ 0 <= fpages f /\ fpages f * PAGE_SIZE <= Kheap.bsize b /\
  0 <= fheap_base f < 2 ^ 32 /\ fheap_base f mod PAGE_SIZE = 0.
(** Task 0, the kernel's own, never waits. *)
Definition sane (i : Z) (f : footprint) : Prop :=
  Forall whole (fqueue f) /\ forall io, fwait f = Some io -> 0 < i /\ wait_ok f io.

(** The heap [h] and the tasks [v], beside the blocks [own] that the running call has
    allocated and not yet given to a task. *)
Definition held (h : Kheap.heap_st) (v : Z -> option footprint) (own : list Kheap.block) : Prop := exists bs,
  Kheap.kheap_inv h (own ++ bs) /\
  (forall i f, 0 < i -> v i = Some f -> exists b, b ∈ bs /\ block_of f b) /\
  (forall i j f g, 0 < i -> 0 < j -> i <> j -> v i = Some f -> v j = Some g -> fbase f <> fbase g) /\
  (forall i f, v i = Some f -> sane i f).

(** The invariant of the kernel between two calls. *)
Definition isolated {DV} (w : world DV) : Prop := held (wheap w) (view (wsched w)) [].

(** The memory of a task, as addresses. *)
Definition in_task (f : footprint) (x : Z) : Prop := fbase f <= x < fbase f + fpages f * PAGE_SIZE.

Definition vset (v : Z -> option footprint) (i : Z) (o : option footprint) : Z -> option footprint :=
  fun j => if decide (j = i) then o else v j.

(** ** Lemmas: blocks *)

Lemma kheap_front st l1 b l2 : Kheap.kheap_inv st (b :: l1 ++ l2) -> Kheap.kheap_inv st (l1 ++ b :: l2).
Proof.
  intros ((Hwf & Hown & Hdis) & Hok). cbn in Hown, Hdis. rewrite map_app in Hown, Hdis.
  apply Forall_cons in Hown as [O1 O2]. apply Forall_cons in Hok as [K1 K2].
  apply Forall_app in O2 as [O2 O3]. apply Forall_app in K2 as [K2 K3].
  split; [split; [done|split]|].
  - cbn. rewrite map_app. apply Forall_app. split; [done|]. by constructor.
  - cbn. rewrite map_app. cbn. inversion Hdis as [|? ? Hb Hr]; subst. apply Forall_app in Hb as [B1 B2].
    clear - Hr B1 B2. induction (map Kheap.bowned l1) as [|c l IH]; cbn in *; [by constructor|].
    inversion Hr as [|? ? Hc Hr']; subst. apply Forall_cons in B1 as [B0 B1]. apply Forall_app in Hc as [C1 C2].
    constructor; [|by apply IH]. apply Forall_app. split; [done|]. constructor; [by apply disjoint_sym|done].
  - apply Forall_app. split; [done|]. by constructor.
Qed.

Lemma kheap_perm st l l' : l ≡ₚ l' -> Kheap.kheap_inv st l -> Kheap.kheap_inv st l'.
Proof.
  intros Hp. assert (forall k, Kheap.kheap_inv st (k ++ l) -> Kheap.kheap_inv st (k ++ l')) as H; [|apply (H [])].
  induction Hp as [|b l l' Hp IH|b c l|l l' l'' H1 IH1 H2 IH2]; intros k; try done.
  - rewrite !(cons_middle b), !app_assoc. apply IH.
  - intros H. apply Kheap.kheap_inv_front in H. apply (Kheap.kheap_inv_front _ (c :: k) b l) in H.
    apply (Kheap.kheap_inv_front st [b] c (k ++ l)) in H. apply (kheap_front st (b :: k) c l) in H.
    by apply (kheap_front st k b (c :: l)).
  - intros H. by apply IH2, IH1.
Qed.

Lemma fresh_ptr st b bs c : Kheap.kheap_inv st (b :: bs) -> c ∈ bs -> Kheap.bptr c <> Kheap.bptr b.
Proof.
  intros Hi Hc E. pose proof (Kheap.kheap_head_disjoint _ _ _ Hi) as Hd. rewrite Forall_forall in Hd.
  specialize (Hd (Kheap.bowned c) (list_elem_of_fmap_2 Kheap.bowned _ _ Hc)).
  destruct (Kheap.kheap_block st _ c Hi ltac:(by right)) as (Hb & _ & _ & _).
  destruct (Kheap.kheap_block st _ b Hi ltac:(by left)) as (Hb' & _ & _ & _).
  pose proof (Kheap.bpages_bounds c (Kheap.bk_size _ _ Hb)). pose proof (Kheap.bpages_bounds b (Kheap.bk_size _ _ Hb')).
  unfold Pmm.disjoint_blocks, Kheap.bowned, Kheap.bmeta in Hd. cbn in Hd. rewrite E in Hd. lia.
Qed.

(** The data of two blocks is apart. *)
Lemma blocks_apart st b bs c x : Kheap.kheap_inv st (b :: bs) -> c ∈ bs ->
  Kheap.bptr b <= x < Kheap.bptr b + Kheap.bsize b -> ~ Kheap.bptr c <= x < Kheap.bptr c + Kheap.bsize c.
Proof.
  intros Hi Hc Hx Hx'. pose proof (Kheap.kheap_head_disjoint _ _ _ Hi) as Hd. rewrite Forall_forall in Hd.
  specialize (Hd (Kheap.bowned c) (list_elem_of_fmap_2 Kheap.bowned _ _ Hc)).
  destruct (Kheap.kheap_block st _ c Hi ltac:(by right)) as (Hb & P1 & _ & _).
  destruct (Kheap.kheap_block st _ b Hi ltac:(by left)) as (Hb' & P2 & _ & _).
  pose proof (Kheap.bpages_bounds c (Kheap.bk_size _ _ Hb)). pose proof (Kheap.bpages_bounds b (Kheap.bk_size _ _ Hb')).
  unfold Pmm.disjoint_blocks in Hd. cbn [Kheap.bowned fst snd] in *. unfold Pmm.PAGE_SIZE in *. lia.
Qed.

(** ** Lemmas: the invariant *)

Section Held.

Implicit Types (h : Kheap.heap_st) (v : Z -> option footprint) (own : list Kheap.block) (f : footprint).

Lemma held_ext h v v' own : (forall i, v' i = v i) -> held h v own -> held h v' own.
Proof.
  intros E (bs & H1 & H2 & H3 & H4). exists bs. split; [done|]. split; [|split].
  - intros i f Hi. rewrite E. by apply H2.
  - intros i j f g Hi Hj Hij. rewrite !E. by apply (H3 i j).
  - intros i f. rewrite E. apply H4.
Qed.

Lemma held_perm h v own own' : own ≡ₚ own' -> held h v own -> held h v own'.
Proof.
  intros Hp (bs & H1 & H). exists bs. split; [|done]. eapply kheap_perm; [|exact H1]. by rewrite Hp.
Qed.

Lemma held_drop h v b own : held h v (b :: own) -> held h v own.
Proof.
  intros (bs & H1 & H2 & H). exists (b :: bs). split; [|split; [|done]].
  - eapply kheap_perm; [|exact H1]. cbn. by rewrite Permutation_middle.
  - intros i f Hi Hf. destruct (H2 i f Hi Hf) as (c & Hc & Hb). exists c. split; [by right|done].
Qed.

(** A larger set of blocks: what holds of the tasks does not depend on it. *)
Lemma held_more h' v own own' bs : Kheap.kheap_inv h' (own' ++ bs) ->
  (forall i f, 0 < i -> v i = Some f -> exists b, b ∈ bs /\ block_of f b) ->
  (forall i j f g, 0 < i -> 0 < j -> i <> j -> v i = Some f -> v j = Some g -> fbase f <> fbase g) ->
  (forall i f, v i = Some f -> sane i f) -> held h' v own'.
Proof. intros H1 H2 H3 H4. by exists bs. Qed.

Lemma held_alloc h v own n p h' : held h v own -> Kheap.size_ok n -> Kheap.kalloc n h = Some (p, h') ->
  (p = 0 /\ held h' v own) \/ (p <> 0 /\ held h' v (Kheap.Block p n :: own)).
Proof.
  intros (bs & H1 & H2 & H3 & H4) Hn E.
  destruct (Kheap.kalloc_ok n h _ H1 Hn) as (p' & h1 & E' & HH). rewrite E in E'. injection E' as <- <-.
  destruct HH as [(-> & Hi & _)|(Hp & Hi & _)]; [left|right]; (split; [done|]; by exists bs).
Qed.

Lemma held_free h v own b h' : held h v (b :: own) -> free_block (Kheap.bptr b) h = Some (tt, h') ->
  held h' v own /\ Kheap.hmem h' = Kheap.hmem h.
Proof.
  intros (bs & H1 & H2 & H3 & H4) E. destruct (Kheap.kfree_ok h b (own ++ bs) H1) as (h1 & E1 & Hi & Hm & _).
  unfold free_block in E. rewrite E1 in E. injection E as <-. split; [|done]. by exists bs.
Qed.

(** Taking the block of a task away from it, and giving a block to a task. *)
Lemma held_take h v own i f : held h v own -> 0 < i -> v i = Some f -> exists b,
  block_of f b /\ held h (vset v i None) (b :: own).
Proof.
  intros (bs & H1 & H2 & H3 & H4) Hi Hf. destruct (H2 i f Hi Hf) as (b & Hb & Hbo).
  apply elem_of_Permutation in Hb as (bs' & Hb). exists b. split; [done|].
  exists bs'. split; [|split; [|split]].
  - eapply kheap_perm; [|exact H1]. rewrite Hb. cbn. by rewrite Permutation_middle.
  - unfold vset. intros j g Hj. case_decide as Hij; [done|]. intros Hg. destruct (H2 j g Hj Hg) as (c & Hc & Hco).
    exists c. split; [|done]. rewrite Hb in Hc. apply elem_of_cons in Hc as [->|Hc]; [|done].
    exfalso. apply (H3 i j f g Hi Hj ltac:(congruence) Hf Hg). destruct Hbo as [<- _], Hco as [<- _]. done.
  - unfold vset. intros j k g g' Hj Hk Hjk. repeat case_decide; try done. by apply (H3 j k).
  - unfold vset. intros j g. case_decide; [done|]. apply (H4 j g).
Qed.

Lemma held_give h v own b i f : held h v (b :: own) -> block_of f b -> sane i f ->
  held h (vset v i (Some f)) own.
Proof.
  intros (bs & H1 & H2 & H3 & H4) Hbo Hs.
  assert (forall j g, 0 < j -> v j = Some g -> fbase g <> fbase f) as Hfresh.
  { intros j g Hj Hg. destruct (H2 j g Hj Hg) as (c & Hc & [<- _]). destruct Hbo as [<- _].
    apply (fresh_ptr h b (own ++ bs) c H1). apply elem_of_app. by right. }
  exists (b :: bs). split; [|split; [|split]].
  - eapply kheap_perm; [|exact H1]. cbn. by rewrite Permutation_middle.
  - unfold vset. intros j g Hj. case_decide.
    + intros [= <-]. exists b. split; [by left|done].
    + intros Hg. destruct (H2 j g Hj Hg) as (c & Hc & Hco). exists c. split; [by right|done].
  - unfold vset. intros j k g g' Hj Hk Hjk. repeat case_decide; subst; try done.
    + intros [= <-] Hg' E. by apply (Hfresh k g').
    + intros Hg [= <-]. by apply (Hfresh j g).
    + by apply (H3 j k).
  - unfold vset. intros j g. case_decide; [|apply (H4 j g)]. intros [= <-]. by subst j.
Qed.

(** Changing what a task waits for and its queue. *)
Lemma held_update h v own i f f' : held h v own -> v i = Some f ->
  fbase f' = fbase f -> fpages f' = fpages f -> fheap_base f' = fheap_base f ->
  sane i f' -> held h (vset v i (Some f')) own.
Proof.
  intros (bs & H1 & H2 & H3 & H4) Hf E1 E2 E3 Hs. exists bs. split; [done|]. unfold vset. split; [|split].
  - intros j g Hj. case_decide as Hij; [|by apply H2]. subst j. intros [= <-].
    destruct (H2 i f Hj Hf) as (b & Hb & Hbo). exists b. split; [done|]. unfold block_of in *. by rewrite E1, E2, E3.
  - intros j k g g' Hj Hk Hjk. repeat case_decide; subst; try done.
    + intros [= <-] Hg'. rewrite E1. by apply (H3 i k).
    + intros Hg [= <-]. rewrite E1. by apply (H3 j i).
    + by apply (H3 j k).
  - intros j g. case_decide; [|apply (H4 j g)]. subst j. by intros [= <-].
Qed.

Lemma held_remove h v own i : held h v own -> held h (vset v i None) own.
Proof.
  intros (bs & H1 & H2 & H3 & H4). exists bs. split; [done|]. unfold vset. split; [|split].
  - intros j g Hj. case_decide; [done|]. by apply H2.
  - intros j k g g' Hj Hk Hjk. repeat case_decide; try done. by apply (H3 j k).
  - intros j g. case_decide; [done|]. apply H4.
Qed.

(** Two tasks have no address in common. *)
Lemma held_apart h v own i j f g x : held h v own -> 0 < i -> 0 < j -> i <> j -> v i = Some f -> v j = Some g ->
  in_task f x -> ~ in_task g x.
Proof.
  intros Hh Hi Hj Hij Hf Hg Hx Hx'. destruct (held_take h v own i f Hh Hi Hf) as (b & (B1 & B2 & B3 & _) & bs & K1 & K2 & _).
  destruct (K2 j g Hj) as (c & Hc & (C1 & C2 & C3 & _)); [unfold vset; by rewrite decide_False by congruence|].
  apply (blocks_apart h b (own ++ bs) c x K1); [apply elem_of_app; by right| |];
    unfold in_task in *; unfold PAGE_SIZE in *; lia.
Qed.

Lemma held_write_own h v b own m' a k : held h v (b :: own) -> Kheap.bptr b <= a ->
  a + k <= Kheap.bptr b + Kheap.bsize b -> mem_frame a k (Kheap.hmem h) m' -> held (Kheap.with_mem h m') v (b :: own).
Proof.
  intros (bs & H1 & H) Ha Hk Hf. exists bs. split; [|done]. cbn in H1 |- *.
  by apply (Kheap.kheap_inv_write h b (own ++ bs) m' a k).
Qed.

Lemma held_write_task h v own i f m' a k : held h v own -> 0 < i -> v i = Some f -> fbase f <= a ->
  a + k <= fbase f + fpages f * PAGE_SIZE -> mem_frame a k (Kheap.hmem h) m' -> held (Kheap.with_mem h m') v own.
Proof.
  intros (bs & H1 & H2 & H3) Hi Hf Ha Hk Hm. destruct (H2 i f Hi Hf) as (b & Hb & (B1 & B2 & B3 & _)).
  exists bs. split; [|done]. apply elem_of_Permutation in Hb as (bs' & Hb).
  assert (own ++ bs ≡ₚ b :: own ++ bs') as Hp by (rewrite Hb; by rewrite Permutation_middle).
  eapply kheap_perm; [symmetry; exact Hp|]. apply (Kheap.kheap_inv_write h b (own ++ bs') m' a k); [|lia..|done].
  by eapply kheap_perm.
Qed.

Lemma held_realloc h v own i f n p h' pg : held h v own -> 0 < i -> v i = Some f -> Kheap.size_ok n ->
  Kheap.krealloc (fbase f) n h = Some (p, h') ->
  let f' := MkFoot p pg (fheap_base f) (fwait f) (fqueue f) in
  0 <= pg -> pg * PAGE_SIZE <= n -> (forall io, fwait f = Some io -> wait_ok f' io) ->
  (p = 0 /\ held h' v own) \/ (p <> 0 /\ held h' (vset v i (Some f')) own).
Proof.
  intros Hh Hi Hf Hn E f' Hpg Hfit Hw.
  destruct (held_take h v own i f Hh Hi Hf) as (b & (B1 & B2 & B3 & B4 & B5) & bs & K1 & K2 & K3 & K4).
  destruct (Kheap.krealloc_ok h b (own ++ bs) n K1 Hn) as (p' & h1 & E' & HH).
  rewrite B1, E in E'. injection E' as <- <-.
  assert (sane i f) as [Hq Hs] by (destruct Hh as (? & _ & _ & _ & H4); by apply (H4 i f)).
  assert (forall h2 c g, Kheap.kheap_inv h2 (c :: own ++ bs) -> block_of g c -> sane i g -> held h2 (vset (vset v i None) i (Some g)) own) as Hgive.
  { intros h2 c g Hc Hcb Hsg. apply (held_give _ _ _ c); [by exists bs|done|done]. }
  destruct HH as [(-> & Hi' & _)|(Hp & Hi' & _)]; [left|right]; (split; [done|]).
  - eapply held_ext; [|apply (Hgive h' b f); [done| |done]]; [|by split].
    intros j. unfold vset. case_decide; [by subst|done].
  - eapply held_ext; [|apply (Hgive h' (Kheap.Block p n) f'); [done| |]].
    + intros j. unfold vset. by case_decide.
    + by split.
    + split; [done|]. intros io Hio. split; [done|by apply Hw].
Qed.

End Held.

(** ** Lemmas: calls that change neither the heap nor the tasks' memory *)

Lemma st_bind_inv {W A B} (m : ST W A) (k : A -> ST W B) w r : st_bind m k w = Some r ->
  exists a w1, m w = Some (a, w1) /\ k a w1 = Some r.
Proof. unfold st_bind. destruct (m w) as [[a w1]|]; [|done]. intros H. by exists a, w1. Qed.

(** Walk a hypothesis [st_bind m k w = Some r]. *)
Ltac sinv H :=
  let a := fresh "a" in let w1 := fresh "w" in let E := fresh "E" in
  apply st_bind_inv in H as (a & w1 & E & H).

Section Logic.
Context {DV : Type}.
Implicit Types w : world DV.

Definition quiet w w' : Prop :=
  wheap w' = wheap w /\ current_task (wsched w') = current_task (wsched w) /\
  forall i, view (wsched w') i = view (wsched w) i.
Definition quietly {A} (m : ST (world DV) A) : Prop := forall w a w', m w = Some (a, w') -> quiet w w'.
(** A computation that keeps the invariant. *)
Definition safe {A} (m : ST (world DV) A) : Prop := forall w a w', isolated w -> m w = Some (a, w') -> isolated w'.

Lemma quiet_refl w : quiet w w.
Proof. done. Qed.
Lemma quiet_trans w1 w2 w3 : quiet w1 w2 -> quiet w2 w3 -> quiet w1 w3.
Proof. intros (A1 & A2 & A3) (B1 & B2 & B3). split; [congruence|]. split; [congruence|]. intros i. by rewrite B3. Qed.
Lemma quiet_held w w' own : quiet w w' -> held (wheap w) (view (wsched w)) own -> held (wheap w') (view (wsched w')) own.
Proof. intros (-> & _ & E) H. by apply (held_ext _ (view (wsched w))). Qed.

Lemma quietly_ret {A} (a : A) : quietly (st_ret a).
Proof. intros w b w' [= _ <-]. apply quiet_refl. Qed.
Lemma quietly_fail {A} : quietly (@st_fail (world DV) A).
Proof. done. Qed.
Lemma quietly_lift {A} (o : option A) : quietly (st_lift o).
Proof. intros w b w'. unfold st_lift. destruct o; [|done]. intros [= _ <-]. apply quiet_refl. Qed.
Lemma quietly_bind {A B} (m : ST (world DV) A) (k : A -> ST (world DV) B) :
  quietly m -> (forall a, quietly (k a)) -> quietly (st_bind m k).
Proof. intros Hm Hk w b w' H. sinv H. eapply quiet_trans; [by eapply Hm|by eapply Hk]. Qed.
Lemma quietly_safe {A} (m : ST (world DV) A) : quietly m -> safe m.
Proof. intros Hm w a w' H E. apply Hm in E. by eapply quiet_held. Qed.
Lemma safe_bind {A B} (m : ST (world DV) A) (k : A -> ST (world DV) B) :
  safe m -> (forall a, safe (k a)) -> safe (st_bind m k).
Proof. intros Hm Hk w b w' Hw H. sinv H. eapply Hk; [|exact H]. by eapply Hm. Qed.
Lemma safe_fail {A} : safe (@st_fail (world DV) A).
Proof. done. Qed.

(** The accessors of the task table, for every choice of the file systems' calls. *)
Section Access.
Context (print : list Z -> ST DV unit) (kr : list Z -> Z -> ST (world DV) Z)
  (kw : list Z -> Z -> Z -> ST (world DV) Z) (rd wr : Z -> Z -> Z -> ST (world DV) (Z * Z)).
#[local] Instance KO : Kernel (world DV) := kernel_over print kr kw rd wr.

Lemma st_get_inv w (s : sched) w' : st_get w = Some (s, w') -> s = wsched w /\ w' = w.
Proof. by intros [= <- <-]. Qed.
Lemma current_inv w c w' : current w = Some (c, w') -> c = current_task (wsched w) /\ w' = w.
Proof. by intros [= <- <-]. Qed.
Lemma get_task_inv w i t w' : get_task i w = Some (t, w') -> zget (task_table (wsched w)) i = Some (Task t) /\ w' = w.
Proof.
  unfold get_task, st_bind, st_get, st_lift, st_ret. cbn [get_sched KO kernel_over].
  destruct (zget _ i) as [[| |u]|]; try done. by intros [= -> ->].
Qed.
Lemma this_task_inv w t w' : this_task w = Some (t, w') ->
  zget (task_table (wsched w)) (current_task (wsched w)) = Some (Task t) /\ w' = w.
Proof. intros H. unfold this_task in H. sinv H. apply current_inv in E as [-> ->]. by apply get_task_inv. Qed.
Lemma set_slot_inv w i e u w' : set_slot i e w = Some (u, w') ->
  w' = with_wsched (with_table (<[Z.to_nat i := e]> (task_table (wsched w))) (wsched w)) w /\
  0 <= i < zlen (task_table (wsched w)).
Proof.
  unfold set_slot. intros H. sinv H. apply st_get_inv in E as [-> ->]. sinv H. unfold st_lift in E.
  destruct (zset _ i e) as [l|] eqn:El; [|done]. injection E as -> ->. injection H as _ <-.
  apply zset_Some in El as [Hi ->]. done.
Qed.

(** The view after a store into the table. *)
Definition slot_foot (e : slot) : option footprint := match e with Task t => Some (foot t) | _ => None end.
Lemma view_slot s i e j : 0 <= i < zlen (task_table s) ->
  view (with_table (<[Z.to_nat i := e]> (task_table s)) s) j = vset (view s) i (slot_foot e) j.
Proof.
  intros Hi. unfold view, vset. cbn [task_table with_table].
  rewrite (zget_zset (task_table s) i j e) by (by apply zset_ok). repeat case_decide; try congruence. by destruct e.
Qed.

Lemma put_quiet w i t t' u w' : zget (task_table (wsched w)) i = Some (Task t) -> foot t' = foot t ->
  put_task i t' w = Some (u, w') -> quiet w w'.
Proof.
  intros Ht Hf H. apply set_slot_inv in H as [-> Hi]. split; [done|]. split; [done|]. intros j.
  cbn [wsched with_wsched]. rewrite view_slot by done. unfold vset. case_decide; [|done]. subst j. cbn [slot_foot].
  unfold view. by rewrite Ht, Hf.
Qed.
Lemma put_this_quiet w t t' u w' : zget (task_table (wsched w)) (current_task (wsched w)) = Some (Task t) ->
  foot t' = foot t -> put_this t' w = Some (u, w') -> quiet w w'.
Proof. intros Ht Hf H. unfold put_this in H. sinv H. apply current_inv in E as [-> ->]. by eapply put_quiet. Qed.

Lemma quietly_st_get : quietly st_get.
Proof. intros w s w' [-> ->]%st_get_inv. apply quiet_refl. Qed.
Lemma quietly_current : quietly current.
Proof. intros w s w' [-> ->]%current_inv. apply quiet_refl. Qed.
Lemma quietly_get_task i : quietly (get_task i).
Proof. intros w s w' [_ ->]%get_task_inv. apply quiet_refl. Qed.
Lemma quietly_this_task : quietly this_task.
Proof. intros w s w' [_ ->]%this_task_inv. apply quiet_refl. Qed.
Lemma quietly_mem_read a n : quietly (mem_read a n).
Proof. intros w l w' [= _ <-]. apply quiet_refl. Qed.
Lemma quietly_mem_str a : quietly (mem_str a).
Proof. intros w l w'. cbn. destruct (text_at _ _ a); [|done]. intros [= _ <-]. apply quiet_refl. Qed.
Lemma quietly_tty_kputs l : quietly (tty_kputs l).
Proof. intros w u w'. cbn. destruct (print l _) as [[? d]|]; [|done]. intros [= _ <-]. done. Qed.
Lemma quietly_read_word a : quietly (read_word a).
Proof. apply quietly_bind; [apply quietly_mem_read|]. intros l. apply quietly_lift. Qed.

(** A task read and stored again with the same footprint. *)
Lemma quietly_task i (k : task_t -> ST (world DV) unit) :
  (forall t w u w', zget (task_table (wsched w)) i = Some (Task t) -> k t w = Some (u, w') -> quiet w w') ->
  quietly (let! t := get_task i in k t).
Proof. intros Hk w u w' H. sinv H. apply get_task_inv in E as [Ht ->]. by eapply Hk. Qed.

End Access.
End Logic.

Create HintDb quiet.
#[export] Hint Resolve quietly_ret quietly_fail quietly_lift : quiet.
#[export] Hint Extern 1 (quietly st_get) => apply quietly_st_get : quiet.
#[export] Hint Extern 1 (quietly current) => apply quietly_current : quiet.
#[export] Hint Extern 1 (quietly (get_task _)) => apply quietly_get_task : quiet.
#[export] Hint Extern 1 (quietly this_task) => apply quietly_this_task : quiet.
#[export] Hint Extern 1 (quietly (mem_read _ _)) => apply quietly_mem_read : quiet.
#[export] Hint Extern 1 (quietly (mem_str _)) => apply quietly_mem_str : quiet.
#[export] Hint Extern 1 (quietly (tty_kputs _)) => apply quietly_tty_kputs : quiet.
#[export] Hint Extern 1 (quietly (read_word _)) => apply quietly_read_word : quiet.

(** Prove [quietly m] along the structure of [m]. *)
Ltac quiet_step :=
  lazymatch goal with
  | |- quietly (st_bind _ _) => apply quietly_bind; [|intros ?]
  | |- quietly (match ?x with _ => _ end) => destruct x
  | |- quietly _ => solve [auto with quiet]
  end.
Ltac quiet := repeat quiet_step.

(** ** File systems that leave the memory of the tasks alone *)

Section Tame.
Context {DV : Type}.

(** The operations change only what is the file system's and the devices'; a read
    stores at most as many bytes as were asked for, and says how many. *)
Record tame (f : Vfs.filesystem_t (world DV)) : Prop := {
  tm_read p l d : quietly (Vfs.fs_read f p l d);
  tm_write p x l d : quietly (Vfs.fs_write f p x l d);
  tm_remove p d : quietly (Vfs.fs_remove f p d);
  tm_mkdir p pm d : quietly (Vfs.fs_mkdir f p pm d);
  tm_create p pm d : quietly (Vfs.fs_create f p pm d);
  tm_metadata p ty d : quietly (Vfs.fs_get_metadata f p ty d);
  tm_list p n d : quietly (Vfs.fs_list f p n d);
  tm_open p fl md d : quietly (Vfs.fs_open f p fl md d);
  tm_close ih : quietly (Vfs.fs_close f ih);
  tm_fork ih : quietly (Vfs.fs_fork f ih);
  tm_seek ih o ty : quietly (Vfs.fs_seek f ih o ty);
  tm_uread ih n : quietly (Vfs.fs_uread f ih n);
  tm_uread_len ih n w r w' : Vfs.fs_uread f ih n w = Some (r, w') -> 0 <= r.1 <= Z.max 0 n /\ zlen r.2 <= Z.max 0 n;
  tm_uwrite ih l : quietly (Vfs.fs_uwrite f ih l)
}.

Lemma quietly_on_devfs {A} (m : Devfs.state DV -> option (A * Devfs.state DV)) : quietly (on_devfs m).
Proof. intros w a w'. unfold on_devfs. destruct (m _) as [[? ?]|]; [|done]. by intros [= _ <-]. Qed.
Lemma quietly_ask_devfs (m : Devfs.state DV -> option (Z * option Devfs.vfs_metadata_t)) : quietly (ask_devfs m).
Proof. intros w a w'. unfold ask_devfs. destruct (m _) as [[? ?]|]; [|done]. by intros [= _ <-]. Qed.

Lemma uread_loop_len len (io : io_fn DV) gp p q : Devfs.uread_loop len io gp p = Some q ->
  zlen (Devfs.data q) <= zlen (Devfs.data p) + Z.of_nat len.
Proof.
  revert p. induction len as [|len IH]; intros p; cbn [Devfs.uread_loop].
  - intros [= <-]. lia.
  - destruct (io _ _ _ _ _) as [[c w]|]; [|done]. cbn [mbind option_bind fst snd].
    destruct (_ || _); [intros [= <-]; cbn; lia|]. destruct (_ =? _); [intros [= <-]; cbn; lia|].
    intros H%IH. cbn [Devfs.data] in H. rewrite zlen_app, zlen_cons, zlen_nil in H. lia.
Qed.

(** The device file system is one. *)
Lemma devfs_tame : tame devfs.
Proof.
  split; intros; cbn; try apply quietly_on_devfs; try apply quietly_ask_devfs; try apply quietly_ret.
  - apply quietly_bind; [apply quietly_on_devfs|]. intros r w a w' [= _ <-]. done.
  - cbn [Vfs.fs_uread devfs] in H. unfold devfs_uread in H. sinv H. injection H as <- <-.
    unfold on_devfs in E. destruct (Devfs.devfs_uread ih n (wdrv w)) as [[x d]|] eqn:Eu; [|done]. injection E as -> <-.
    unfold Devfs.devfs_uread in Eu. obind Eu. obind Eu. obind Eu. obind Eu. injection Eu as <- <-. cbn [fst snd].
    apply uread_loop_len in E1. cbn [Devfs.data] in E1. rewrite zlen_nil in E1. pose proof (zlen_nonneg (Devfs.data x1)). lia.
  - apply quietly_bind; [apply quietly_on_devfs|]. intros r w a w' [= _ <-]. done.
Qed.

Context (print : list Z -> ST DV unit) (filesystems : list (Vfs.filesystem_t (world DV))) (stk : list Z).
Context (Htame : Forall tame filesystems).
#[local] Set Default Proof Using "Type*".
#[local] Instance KB : Kernel (world DV) := base_kernel print.

(** A file system found in the table is tame. *)
Lemma quietly_lift_fs {B} i (k : Vfs.filesystem_t (world DV) -> ST (world DV) B) :
  (forall f, tame f -> quietly (k f)) -> quietly (let! f := st_lift (zget filesystems i) in k f).
Proof.
  intros Hk w b w' H. sinv H. unfold st_lift in E. destruct (zget filesystems i) as [f|] eqn:Ef; [|done].
  injection E as -> ->. eapply Hk; [|exact H]. unfold zget in Ef. case_decide; [|done].
  by eapply Forall_lookup_1.
Qed.

Lemma quietly_mount_table : quietly (Vfs.mount_table (W := world DV)).
Proof. intros w a w' [= _ <-]. done. Qed.
Lemma quietly_fs_index m : quietly (Vfs.fs_index filesystems m).
Proof. apply quietly_bind; [apply quietly_mount_table|]. intros l. apply quietly_lift. Qed.

Lemma quietly_absolute s p : quietly (Vfs.absolute (K := KB) s p).
Proof. unfold Vfs.absolute. quiet. Qed.

Lemma translate_inv abs w a w' : Vfs.translate filesystems abs w = Some (a, w') ->
  quiet w w' /\ forall m f lp d, a = Some (m, f, lp, d) -> tame f /\ f ∈ filesystems.
Proof.
  intros E. unfold Vfs.translate in E. sinv E. injection E0 as <- <-.
  destruct (VfsPath.vfs_translate_mnt _ _) as [mnt lp]. destruct (mnt =? _).
  { injection E as <- <-. by split. }
  sinv E. apply quietly_fs_index in E0 as Hq1. destruct (_ =? _).
  { injection E as <- <-. by split. }
  sinv E. unfold st_lift in E1. destruct (zget filesystems a0) as [f|] eqn:Ef; [|done]. injection E1 as <- <-.
  sinv E. unfold st_lift in E1. destruct (zget (wmounts w) mnt) as [x|]; [|done]. injection E1 as <- <-.
  injection E as <- <-. split; [done|]. intros m f' lp' d' [= _ <- _ _]. unfold zget in Ef. case_decide; [|done].
  split; [by eapply Forall_lookup_1|by eapply list_elem_of_lookup_2].
Qed.

(** A file system found for a path is tame. *)
Lemma quietly_translate {A} abs (fail : ST (world DV) A) k : quietly fail -> (forall m f lp d, tame f -> quietly (k m f lp d)) ->
  quietly (let! r := Vfs.translate filesystems abs in
           match r with None => fail | Some (m, f, lp, d) => k m f lp d end).
Proof.
  intros Hfail Hk w b w' H. sinv H. destruct (translate_inv _ _ _ _ E) as [Hq Hf].
  eapply quiet_trans; [exact Hq|]. destruct a as [[[[m f] lp] d]|].
  - eapply Hk; [|exact H]. by eapply Hf.
  - by eapply Hfail.
Qed.

Lemma quietly_on_path {A} s p (fail : A) k : (forall m f lp d, tame f -> quietly (k m f lp d)) ->
  quietly (Vfs.on_path (K := KB) filesystems s p fail k).
Proof.
  intros Hk. unfold Vfs.on_path. apply quietly_bind; [apply quietly_absolute|]. intros abs.
  apply quietly_translate; [apply quietly_ret|exact Hk].
Qed.

Lemma quietly_device_io ds nm l ty x (w : world DV) b w' : ds = world_devices w ->
  Vfs.device_io ds nm l ty x w = Some (b, w') -> quiet w w'.
Proof.
  intros ->. unfold Vfs.device_io. destruct (Dev.find_device nm _) as [i|]; [|by intros [= _ <-]].
  intros H. sinv H. unfold st_lift in E. destruct (zget _ i) as [d|] eqn:Ed; [|done]. injection E as <- <-.
  sinv H. injection H as _ <-. unfold zget, world_devices in Ed. case_decide; [|done].
  rewrite list_lookup_fmap in Ed. destruct (_ !! _) as [d0|]; [|done]. injection Ed as <-.
  cbn in E. destruct (io_wrapper d0 _ _ _ _ _) as [[r dv]|]; [|done]. by injection E as _ <-.
Qed.

Lemma quietly_sys_kread p l : quietly (sys_kread print filesystems stk p l).
Proof.
  intros w b w'. unfold sys_kread, Vfs.vfs_kread. destruct (Vfs.device_path p); [by apply quietly_device_io|].
  apply quietly_on_path. intros m f lp d Hf. by apply tm_read.
Qed.
Lemma quietly_sys_kwrite p l x : quietly (sys_kwrite print filesystems stk p l x).
Proof.
  intros w b w'. unfold sys_kwrite, Vfs.vfs_kwrite. destruct (Vfs.device_path p); [by apply quietly_device_io|].
  apply quietly_on_path. intros m f lp d Hf. by apply tm_write.
Qed.

Lemma quietly_fs_of {B} m (k : Vfs.filesystem_t (world DV) -> ST (world DV) B) : (forall f, tame f -> quietly (k f)) ->
  quietly (let! f := Vfs.fs_of filesystems m in k f).
Proof.
  intros Hk w b w' H. sinv H. unfold Vfs.fs_of in E. sinv E. apply quietly_fs_index in E0 as Hq.
  eapply quiet_trans; [exact Hq|]. eapply (quietly_lift_fs a0 k Hk). unfold st_bind. by rewrite E.
Qed.
Lemma quietly_on_handle {A} c n (k : Vfs.filesystem_t (world DV) -> Z -> ST (world DV) A) :
  (forall f ih, tame f -> quietly (k f ih)) -> quietly (Vfs.on_handle (K := KB) filesystems c n k).
Proof.
  intros Hk. unfold Vfs.on_handle, Vfs.handle_of. apply quietly_bind; [quiet|]. intros h.
  apply quietly_fs_of. intros f Hf. by apply Hk.
Qed.

Lemma quietly_st_set (g : world DV -> world DV) : (forall w, quiet w (g w)) -> quietly (Vfs.st_set g).
Proof. intros Hg w u w' [= _ <-]. apply Hg. Qed.

Lemma vfs_uread_inv n len w r w' : Vfs.vfs_uread (K := KB) filesystems n len w = Some (r, w') ->
  quiet w w' /\ 0 <= r.1 <= Z.max 0 len /\ zlen r.2 <= Z.max 0 len.
Proof.
  intros H. split.
  - revert w r w' H. change (quietly (Vfs.vfs_uread (K := KB) filesystems n len)). unfold Vfs.vfs_uread.
    apply quietly_bind; [auto with quiet|]. intros c. apply quietly_on_handle. intros f ih Hf.
    destruct (_ <=? _); [by apply tm_uread|]. apply quietly_bind; [by apply tm_uread|]. intros r.
    apply quietly_bind; [by apply quietly_st_set|]. intros _. apply quietly_ret.
  - unfold Vfs.vfs_uread in H. sinv H. unfold Vfs.on_handle in H. sinv H. unfold Vfs.fs_of in H. sinv H. sinv E1.
    unfold st_lift in E1. destruct (zget filesystems a2) as [f|] eqn:Ef; [|done]. injection E1 as <- <-.
    assert (tame f) as Hf by (unfold zget in Ef; case_decide; [|done]; by eapply Forall_lookup_1).
    unfold Vfs.MAX_SIMULTANOUS_VFS_ACCESS in *. destruct (Z.leb_spec len 4096).
    + by eapply tm_uread_len.
    + sinv H. sinv H. injection H as <- <-. apply (tm_uread_len _ Hf) in E1. lia.
Qed.

Lemma quietly_vfs_uwrite n l : quietly (Vfs.vfs_uwrite (K := KB) filesystems n l).
Proof.
  unfold Vfs.vfs_uwrite. apply quietly_bind; [auto with quiet|]. intros c. apply quietly_on_handle. intros f ih Hf.
  destruct (_ <=? _); [by apply tm_uwrite|]. apply quietly_bind; [by apply tm_uwrite|]. intros r.
  apply quietly_bind; [by apply quietly_st_set|]. intros _. apply quietly_ret.
Qed.

Lemma quietly_sys_write n q len : quietly (sys_write print filesystems n q len).
Proof.
  unfold sys_write. apply quietly_bind; [auto with quiet|]. intros t. apply quietly_bind; [auto with quiet|]. intros l.
  apply quietly_bind; [apply quietly_vfs_uwrite|]. intros r w a w' [= _ <-]. apply quiet_refl.
Qed.

(** The calls on paths and handles. *)
Lemma quietly_user_path p : quietly (Vfs.user_path (K := KB) p).
Proof. unfold Vfs.user_path. quiet. Qed.
Lemma quietly_metadata s p ty : quietly (Vfs.vfs_kget_metadata (K := KB) filesystems s p ty).
Proof. apply quietly_on_path. intros m f lp d Hf. by apply tm_metadata. Qed.

Lemma quietly_new_handle i h : quietly (Vfs.create_file_handle_v2 (K := KB) i h).
Proof.
  intros w r w' H. unfold Vfs.create_file_handle_v2 in H. sinv H. apply get_task_inv in E as [Ht ->].
  destruct (Handle.create_file_handle_v2 _ _) as [n l]. sinv H. injection H as _ <-. by eapply put_quiet; [exact Ht| |exact E].
Qed.

Lemma quietly_open_for (pid : ST (world DV) Z) s path fl md : quietly pid ->
  quietly (Vfs.open_for (K := KB) filesystems pid s path fl md).
Proof.
  intros Hpid. apply quietly_bind.
  - destruct (Vfs.device_path path); [case_decide; [apply quietly_ret|apply quietly_fail]|apply quietly_absolute].
  - intros abs. apply quietly_translate; [apply quietly_ret|]. intros m f lp d Hf.
    apply quietly_bind; [by apply tm_open|]. intros ih. destruct (_ =? _); [apply quietly_ret|].
    apply quietly_bind; [exact Hpid|]. intros c. apply quietly_new_handle.
Qed.
Lemma quietly_vfs_open s p fl md : quietly (Vfs.vfs_open (K := KB) filesystems s p fl md).
Proof.
  apply quietly_bind; [apply quietly_user_path|]. intros path. apply quietly_open_for. auto with quiet.
Qed.

Lemma quietly_close_for i n : quietly (Vfs.close_for (K := KB) filesystems i n).
Proof.
  apply quietly_bind; [apply quietly_on_handle; intros f ih Hf; by apply tm_close|]. intros r.
  destruct (_ =? _); [apply quietly_ret|]. destruct (_ <? _); [apply quietly_ret|].
  intros w b w' H. sinv H. apply get_task_inv in E as [Ht ->]. destruct (_ <=? _); [by injection H as _ <-|].
  sinv H. apply quietly_lift in E as Hq1. destruct (negb _); [by injection H as _ <-|].
  unfold st_lift in E. destruct (zget _ n); [|done]. injection E as _ <-.
  sinv H. unfold st_lift in E. destruct (zset _ n _); [|done]. injection E as _ <-.
  sinv H. injection H as _ <-. by eapply put_quiet; [exact Ht| |exact E].
Qed.

Lemma quietly_vfs_close n : quietly (Vfs.vfs_close (K := KB) filesystems n).
Proof. apply quietly_bind; [auto with quiet|]. intros c. apply quietly_close_for. Qed.
Lemma quietly_vfs_seek n o ty : quietly (Vfs.vfs_seek (K := KB) filesystems n o ty).
Proof.
  apply quietly_bind; [auto with quiet|]. intros c. apply quietly_on_handle. intros f ih Hf. by apply tm_seek.
Qed.

Lemma quietly_vfs_cd s s2 p : quietly (Vfs.vfs_cd (K := KB) filesystems s s2 p).
Proof.
  apply quietly_bind; [apply quietly_user_path|]. intros path. apply quietly_bind; [apply quietly_absolute|]. intros abs.
  apply quietly_bind; [apply quietly_metadata|]. intros [md|]; [|apply quietly_ret].
  intros w b w' H. sinv H. apply this_task_inv in E as [Ht ->]. sinv H. injection H as _ <-.
  by eapply put_this_quiet; [exact Ht| |exact E].
Qed.

Lemma quietly_vfs_remove s p : quietly (Vfs.vfs_remove (K := KB) filesystems s p).
Proof.
  apply quietly_bind; [apply quietly_user_path|]. intros path. apply quietly_on_path. intros m f lp d Hf. by apply tm_remove.
Qed.
Lemma quietly_vfs_mkdir s p pm : quietly (Vfs.vfs_mkdir (K := KB) filesystems s p pm).
Proof.
  apply quietly_bind; [apply quietly_user_path|]. intros path. apply quietly_bind; [apply quietly_metadata|].
  intros [md|]; [apply quietly_ret|]. apply quietly_on_path. intros m f lp d Hf. by apply tm_mkdir.
Qed.
Lemma quietly_vfs_create s p pm : quietly (Vfs.vfs_create (K := KB) filesystems s p pm).
Proof.
  apply quietly_bind; [apply quietly_user_path|]. intros path. apply quietly_bind; [apply quietly_metadata|].
  intros [md|]; [apply quietly_ret|]. apply quietly_on_path. intros m f lp d Hf. by apply tm_create.
Qed.

Lemma quietly_vfs_get_metadata s p ty : quietly (Vfs.vfs_get_metadata (K := KB) filesystems s p ty).
Proof. apply quietly_bind; [apply quietly_user_path|]. intros path. apply quietly_metadata. Qed.
Lemma quietly_vfs_list s p n : quietly (Vfs.vfs_list (K := KB) filesystems s p n).
Proof.
  apply quietly_bind; [apply quietly_user_path|]. intros path. apply quietly_on_path. intros m f lp d Hf. by apply tm_list.
Qed.

(** The same tasks, with contents of memory that may differ. *)
Definition same_view (w w' : world DV) : Prop :=
  current_task (wsched w') = current_task (wsched w) /\ forall i, view (wsched w') i = view (wsched w) i.

Lemma write_isolated (w : world DV) i f a l : isolated w -> 0 < i -> view (wsched w) i = Some f -> fbase f <= a ->
  a + zlen l <= fbase f + fpages f * PAGE_SIZE -> isolated (write_bytes a l w).
Proof using.
  intros Hw Hi Hf Ha Hl. unfold isolated, write_bytes. cbn [wheap wsched with_wheap].
  apply (held_write_task _ _ _ i f _ a (zlen l)); try done. intros x Hx. apply store_out. lia.
Qed.

Lemma task_address (w : world DV) i f o : isolated w -> 0 < i -> view (wsched w) i = Some f -> 0 <= o -> o <= fpages f * PAGE_SIZE ->
  u32 (o + fbase f) = fbase f + o \/ o = fpages f * PAGE_SIZE.
Proof using.
  intros Hw Hi Hf Ho Hle. destruct (decide (o = fpages f * PAGE_SIZE)) as [|Hne]; [by right|]. left.
  destruct Hw as (bs & K1 & K2 & _). destruct (K2 i f Hi Hf) as (b & Hb & (B1 & B2 & B3 & _)).
  destruct (Kheap.kheap_block _ _ b K1 Hb) as (Hok & Hp & H1 & H2).
  destruct (Kheap.bpages_bounds b (Kheap.bk_size _ _ Hok)) as [Hp1 Hp2].
  unfold PAGE_SIZE, Pmm.PAGE_SIZE in *. rewrite u32_small; lia.
Qed.

Lemma sys_read_isolated n q len w r w' f : isolated w -> 0 < current_task (wsched w) ->
  view (wsched w) (current_task (wsched w)) = Some f -> 0 <= q -> 0 <= len -> q + len <= fpages f * PAGE_SIZE ->
  sys_read print filesystems n q len w = Some (r, w') -> isolated w' /\ same_view w w' /\ 0 <= r.1 <= len.
Proof.
  intros Hw Hc Hf Hq Hlen Hfit H. unfold sys_read in H. sinv H. apply this_task_inv in E as [Ht ->].
  assert (f = foot a) as -> by (unfold view in Hf; rewrite Ht in Hf; by injection Hf).
  sinv H. apply vfs_uread_inv in E as ((Q1 & Q2 & Q3) & Hr1 & Hr2). sinv H. injection E as _ <-. injection H as <- <-.
  cbn [fst snd] in *. assert (isolated w0) as Hw0 by (by apply (quiet_held w)).
  assert (view (wsched w0) (current_task (wsched w0)) = Some (foot a)) as Hf0 by (by rewrite Q3, Q2).
  split; [|split; [by split|lia]].
  destruct (decide (a0.2 = [])) as [->|Hne].
  - unfold isolated, write_bytes. cbn [wheap wsched with_wheap].
    apply (held_write_task _ _ _ (current_task (wsched w0)) (foot a) _ (fbase (foot a)) 0); try done; try lia.
    intros x Hx. apply store_out. rewrite zlen_nil. lia.
  - assert (0 < zlen a0.2) as Hz by (destruct a0.2; [done|]; rewrite zlen_cons; pose proof (zlen_nonneg l); lia).
    destruct (task_address w0 (current_task (wsched w0)) _ q Hw0 ltac:(by rewrite Q2) Hf0 Hq ltac:(lia)) as [Ea|Ea]; [|lia].
    change (base a) with (fbase (foot a)). rewrite Ea.
    apply (write_isolated w0 (current_task (wsched w0)) (foot a)); try done; [by rewrite Q2|lia|lia].
Qed.

End Tame.

(** ** Lemmas: the table, the scheduler *)

Section Sched.
Context {DV : Type} (print : list Z -> ST DV unit) (filesystems : list (Vfs.filesystem_t (world DV))) (stk : list Z).
#[local] Instance K : Kernel (world DV) := kernel print filesystems stk.
Implicit Types (w : world DV) (t : task_t).

(** A change of the view at one entry. *)
Lemma put_isolated w i t t' u w' : isolated w -> zget (task_table (wsched w)) i = Some (Task t) ->
  put_task i t' w = Some (u, w') -> base t' = base t -> pages t' = pages t -> heap_base t' = heap_base t ->
  sane i (foot t') -> isolated w'.
Proof.
  intros Hw Ht H E1 E2 E3 Hs. apply set_slot_inv in H as [-> Hi]. unfold isolated.
  eapply held_ext; [intros j; cbn [wsched with_wsched]; by rewrite view_slot|]. cbn [wheap with_wsched slot_foot].
  apply (held_update _ _ _ i (foot t)); try done. unfold view. by rewrite Ht.
Qed.
Lemma put_this_isolated w t t' u w' : isolated w ->
  zget (task_table (wsched w)) (current_task (wsched w)) = Some (Task t) ->
  put_this t' w = Some (u, w') -> base t' = base t -> pages t' = pages t -> heap_base t' = heap_base t ->
  sane (current_task (wsched w)) (foot t') -> isolated w'.
Proof. intros Hw Ht H. unfold put_this in H. sinv H. apply current_inv in E as [-> ->]. by eapply put_isolated. Qed.
Lemma sane_at w i t : isolated w -> zget (task_table (wsched w)) i = Some (Task t) -> sane i (foot t).
Proof. intros (bs & _ & _ & _ & H) Ht. apply H. unfold view. by rewrite Ht. Qed.

Lemma safe_view {A} (m : ST (world DV) A) :
  (forall w a w', m w = Some (a, w') -> wheap w' = wheap w /\ forall i, view (wsched w') i = view (wsched w) i) -> safe m.
Proof.
  intros Hm w a w' Hw H. apply Hm in H as [E1 E2]. unfold isolated. rewrite E1. by eapply held_ext; [|exact Hw].
Qed.
Lemma safe_modify g : (forall s, task_table (g s) = task_table s) -> safe (st_modify g).
Proof. intros Hg. apply safe_view. intros w a w' [= _ <-]. split; [done|]. intros i. unfold view. cbn. by rewrite Hg. Qed.
Lemma safe_next_task : safe next_task.
Proof. apply safe_bind; [by apply safe_modify|]. intros _. apply quietly_safe, quietly_ret. Qed.

Lemma safe_run_task : safe run_task.
Proof.
  apply safe_view. intros w a w' H. unfold run_task in H. sinv H. injection E as _ <-.
  sinv H. apply st_get_inv in E as [-> ->]. sinv H. apply this_task_inv in E as [_ ->].
  do 3 (sinv H; unfold st_lift in E; destruct (_ : option (list Gdt.dt_entry)); [|done]; injection E as _ <-).
  sinv H. injection E as _ <-. injection H as _ <-. done.
Qed.

(** A task that does not wait any more. *)
Lemma awake_sane i t t' : sane i (foot t) -> status t' <> KRN_STAT_IOWAIT_TASK -> ipc_queue t' = ipc_queue t -> sane i (foot t').
Proof. intros [H _] Hs Hq. split; [cbn; by rewrite Hq|]. cbn. by rewrite (proj2 (Z.eqb_neq _ _)). Qed.

Lemma safe_finish_wait x : safe (finish_wait x).
Proof.
  intros w a w' Hw H. unfold finish_wait in H. sinv H. apply this_task_inv in E as [Ht ->]. sinv H.
  eapply safe_run_task; [|exact H]. eapply put_this_isolated; [exact Hw|exact Ht|exact E|done..|].
  apply (awake_sane _ a0); [by apply (sane_at w)|discriminate|done].
Qed.

Context (Htame : Forall tame filesystems).
#[local] Set Default Proof Using "Type*".

Lemma safe_poll_dev (m : ST (world DV) Z) : quietly m -> safe (poll_dev m).
Proof.
  intros Hm. apply safe_bind; [by apply quietly_safe|]. intros c. destruct (_ =? _); [apply safe_next_task|apply safe_finish_wait].
Qed.

(** The continuation of a transfer: [r] is what the call has moved. *)
Lemma poll_handle_isolated w (m : ST (world DV) (Z * Z)) t i a w' : i = current_task (wsched w) ->
  isolated w -> zget (task_table (wsched w)) i = Some (Task t) -> status t = KRN_STAT_IOWAIT_TASK ->
  (forall r w1, m w = Some (r, w1) -> isolated w1 /\ same_view w w1 /\
     (type (iowait t) = 2 -> 0 <= r.1 <= len (iowait t) - done_ (iowait t))) ->
  poll_handle m w = Some (a, w') -> isolated w'.
Proof.
  intros -> Hw Ht Hst Hm H. unfold poll_handle in H. sinv H.
  destruct (Hm _ _ E) as (Hw1 & [S1 S2] & Hr). sinv H. apply this_task_inv in E0 as [Ht1 ->].
  assert (foot a1 = foot t) as Ef.
  { specialize (S2 (current_task (wsched w))). unfold view in S2. rewrite S1 in Ht1. rewrite Ht, Ht1 in S2. exact (inj Some _ _ S2). }
  destruct (a0.2 =? 0); [by eapply safe_finish_wait|]. sinv H. eapply safe_next_task; [|exact H].
  pose proof (sane_at _ _ _ Hw1 Ht1) as [Hq Hio].
  assert (status a1 = KRN_STAT_IOWAIT_TASK /\ iowait a1 = iowait t) as [Es Ei].
  { assert (fwait (foot a1) = Some (iowait t)) as Hfw by (rewrite Ef; cbn; by rewrite Hst). cbn in Hfw.
    destruct (Z.eqb_spec (status a1) KRN_STAT_IOWAIT_TASK) as [Es|]; [|done]. injection Hfw as Hfw. by split. }
  eapply put_this_isolated; [exact Hw1|exact Ht1|exact E0|done..|]. split; [exact Hq|].
  cbn [foot fwait status with_iowait iowait]. rewrite Es. cbn [Z.eqb Pos.eqb KRN_STAT_IOWAIT_TASK].
  intros io [= <-]. destruct (Hio (iowait a1)) as [Hpos Hok]; [cbn; by rewrite Es|]. split; [done|].
  unfold wait_ok in *. cbn [type ptr done_ len]. intros Hty. specialize (Hok Hty). rewrite Ei in *. specialize (Hr Hty).
  change (fpages (foot (with_iowait _ a1))) with (fpages (foot a1)). rewrite s32_small by lia. lia.
Qed.

Lemma safe_scheduler_turn : safe scheduler_turn.
Proof.
  intros w a w' Hw H. unfold scheduler_turn in H. sinv H. apply st_get_inv in E as [-> ->].
  sinv H. unfold st_lift in E. destruct (zget (task_table (wsched w)) (current_task (wsched w))) as [e|] eqn:Ee; [|done].
  injection E as -> <-. destruct a0 as [| |t].
  - sinv H. injection E as _ <-. match type of H with (if _ then _ else _) ?x = _ => set (w1 := x) in H end.
    assert (isolated w1) as Hw1 by exact Hw.
    destruct (_ =? 0); [|by injection H as _ <-]. sinv H. injection E as _ <-. injection H as _ <-. exact Hw.
  - by eapply safe_next_task.
  - destruct (Z.eqb_spec (status t) KRN_STAT_IOWAIT_TASK) as [Es|Es].
    + pose proof (sane_at _ _ _ Hw Ee) as [_ Hio]. destruct (Hio (iowait t)) as [Hpos Hok]; [cbn; by rewrite Es|].
      unfold poll_wait in H. destruct (_ =? 0); [exact (safe_poll_dev _ (quietly_sys_kread print filesystems stk Htame _ _) w a w' Hw H)|].
      destruct (_ =? 1); [exact (safe_poll_dev _ (quietly_sys_kwrite print filesystems stk Htame _ _ _) w a w' Hw H)|].
      destruct (Z.eqb_spec (type (iowait t)) 2) as [Ety|Ety].
      * specialize (Hok Ety). cbn [foot fpages] in Hok.
        destruct Hw as (bs & Hbs). pose proof Hbs as (K1 & K2 & _).
        destruct (K2 _ (foot t) Hpos) as (b & Hb & (B1 & B2 & B3 & _)); [unfold view; by rewrite Ee|].
        destruct (Kheap.kheap_block _ _ b K1 Hb) as (Hbk & Hp & P1 & P2).
        destruct (Kheap.bpages_bounds b (Kheap.bk_size _ _ Hbk)) as [Hp1 Hp2].
        cbn [foot fpages] in *. unfold PAGE_SIZE, Pmm.PAGE_SIZE in *.
        rewrite u32_small, s32_small in H by lia.
        eapply (poll_handle_isolated w); [done|by exists bs|exact Ee|exact Es| |exact H].
        intros r w1 E1. apply (sys_read_isolated print filesystems Htame _ _ _ _ _ _ (foot t)) in E1
          as (R1 & R2 & R3); [split; [done|split; [done|lia]]|by exists bs|done|unfold view; by rewrite Ee|lia|lia|].
        cbn [foot fpages]. unfold PAGE_SIZE. lia.
      * destruct (_ =? 3); [|done].
        eapply (poll_handle_isolated w); [done|done|exact Ee|exact Es| |exact H].
        intros r w1 E1. apply quietly_sys_write in E1 as Hq; [|done].
        split; [by eapply quiet_held|]. split; [|done]. by destruct Hq as (_ & ? & ?).
    + destruct (_ =? _); [by eapply safe_run_task|]. destruct (_ || _); [by eapply safe_next_task|done].
Qed.

Lemma safe_task_scheduler fuel : safe (task_scheduler fuel).
Proof.
  induction fuel as [|fuel IH]; [apply safe_fail|]. cbn [task_scheduler]. apply safe_bind; [apply safe_scheduler_turn|].
  intros [o|]; [apply quietly_safe, quietly_ret|exact IH].
Qed.

(** ** Lemmas: allocation, release and creation in a call *)

Definition owned w own : Prop := held (wheap w) (view (wsched w)) own.

Lemma kalloc_owned w own n p w' : owned w own -> Kheap.size_ok n -> kalloc n w = Some (p, w') ->
  wsched w' = wsched w /\ ((p = 0 /\ owned w' own) \/ (p <> 0 /\ owned w' (Kheap.Block p n :: own))).
Proof.
  intros Hw Hn H. cbn in H. unfold on_heap in H. destruct (Kheap.kalloc n (wheap w)) as [[q h]|] eqn:E; [|done].
  injection H as <- <-. split; [done|]. unfold owned in *. cbn [wheap wsched with_wheap].
  exact (held_alloc _ _ _ _ _ _ Hw Hn E).
Qed.

Lemma kfree_owned w own b u w' : owned w (b :: own) -> kfree (Kheap.bptr b) w = Some (u, w') ->
  wsched w' = wsched w /\ owned w' own.
Proof.
  intros Hw H. cbn in H. unfold on_heap in H. destruct (free_block _ (wheap w)) as [[[] h]|] eqn:E; [|done].
  injection H as _ <-. split; [done|]. unfold owned in *. cbn [wheap wsched with_wheap].
  by apply (held_free _ _ _ b _ Hw).
Qed.

Lemma owned_quiet w w' own : quiet w w' -> owned w own -> owned w' own.
Proof using. apply quiet_held. Qed.
Lemma owned_weaken w own : owned w own -> isolated w.
Proof using. unfold owned, isolated. induction own as [|b own IH]; [done|]. intros H. by apply IH, (held_drop _ _ b). Qed.

Lemma set_slot_owned w own i e u w' : set_slot i e w = Some (u, w') ->
  held (wheap w) (vset (view (wsched w)) i (slot_foot e)) own -> owned w' own.
Proof.
  intros H Hh. apply set_slot_inv in H as [-> Hi]. unfold owned. cbn [wheap wsched with_wsched].
  eapply held_ext; [intros j; by rewrite view_slot|exact Hh].
Qed.

Lemma create_owned w own b sz t r w' : owned w (b :: own) -> Kheap.size_ok sz ->
  block_of (foot t) b -> (forall i, sane i (foot t)) -> task_create sz t w = Some (r, w') ->
  (r = FAILURE /\ owned w' (b :: own)) \/
  (0 <= r /\ owned w' own /\ zget (task_table (wsched w')) r = Some (Task t) /\
   current_task (wsched w') = current_task (wsched w) /\
   forall j, j <> r -> zget (task_table (wsched w')) j = zget (task_table (wsched w)) j).
Proof.
  intros Hw Hsz Hb Hs H. unfold task_create in H. sinv H. apply st_get_inv in E as [-> ->].
  destruct (find_slot_spec 0 (task_table (wsched w))) as (F0 & _ & F2).
  set (i := find_slot 0 (task_table (wsched w))) in *.
  destruct (i =? KRNL_MAX_TASKS). { injection H as <- <-. by left. }
  sinv H. destruct (kalloc_owned _ _ _ _ _ Hw Hsz E) as [S1 Hc]. destruct (Z.eqb_spec a 0) as [->|Ha].
  - destruct Hc as [[_ Hc]|[? _]]; [|done]. sinv H. injection H as <- <-. left. split; [done|].
    eapply set_slot_owned; [exact E0|]. by apply held_remove.
  - destruct Hc as [[? _]|[_ Hc]]; [done|]. sinv H. injection H as <- <-. right.
    apply set_slot_inv in E0 as Hi. destruct Hi as [Ew Hi]. split; [lia|]. split; [|split; [|split]].
    + eapply set_slot_owned; [exact E0|]. cbn [slot_foot]. apply (held_give _ _ _ b); [|done|apply Hs].
      apply (held_drop _ _ (Kheap.Block a sz)). exact Hc.
    + rewrite Ew. cbn [wsched with_wsched task_table with_table].
      rewrite (zget_zset _ i i (Task t) _ (zset_ok _ _ _ Hi)). by rewrite decide_True.
    + by rewrite Ew, <- S1.
    + intros j Hj. rewrite Ew. cbn [wsched with_wsched task_table with_table].
      rewrite (zget_zset _ i j (Task t) _ (zset_ok _ _ _ Hi)), decide_False by congruence. by rewrite S1.
Qed.

(** ** Lemmas: the calls *)

(** The memory of a task that has quit is given back. *)
Lemma quit_isolated w fuel i x r w' : isolated w -> 0 < i -> task_quit fuel i x w = Some (r, w') -> isolated w'.
Proof.
  intros Hw Hi H. unfold task_quit in H. sinv H. apply get_task_inv in E as [Ht ->].
  sinv H. apply get_task_inv in E as [Hp ->]. sinv H.
  assert (isolated w0) as Hw0.
  { destruct (Z.eqb_spec (status a0) KRN_STAT_PROCWAIT_TASK) as [Es|]; [|by injection E as _ <-].
    eapply put_isolated; [exact Hw|exact Hp|exact E|done..|].
    apply (awake_sane _ a0); [by apply (sane_at w)|discriminate|done]. }
  sinv H. apply get_task_inv in E0 as [Ht2 ->].
  destruct (held_take _ _ _ i (foot a2) Hw0 Hi) as (b & (B1 & _) & Hb); [unfold view; by rewrite Ht2|].
  sinv H. unfold on_heap in E0. cbn in E0. unfold on_heap in E0.
  destruct (free_block (base a2) (wheap w0)) as [[[] h]|] eqn:Ef; [|done]. injection E0 as _ <-.
  change (base a2) with (fbase (foot a2)) in Ef. rewrite <- B1 in Ef. apply (held_free _ _ _ _ _ Hb) in Ef as [Hh _].
  sinv H. apply (set_slot_owned _ [] i EmptyPid) in E0; [|exact Hh].
  sinv H. apply current_inv in E1 as [-> ->]. destruct (i =? _); [|by injection H as _ <-].
  sinv H. injection H as _ <-. eapply safe_task_scheduler; [exact E0|exact E1].
Qed.

Lemma fork_fail_isolated w fuel o w' : isolated w -> fork_fail fuel w = Some (o, w') -> isolated w'.
Proof.
  intros Hw H. unfold fork_fail in H. sinv H. apply this_task_inv in E as [Ht ->]. sinv H.
  eapply safe_task_scheduler; [|exact H]. eapply (quiet_held w); [|exact Hw].
  by eapply put_this_quiet; [exact Ht| |exact E].
Qed.

Lemma quietly_fork_handles l : quietly (fork_handles filesystems l).
Proof.
  induction l as [|x l IH]; cbn [fork_handles]; [apply quietly_ret|]. apply quietly_bind.
  - destruct (negb _); [apply quietly_ret|]. apply (quietly_fs_of print filesystems Htame). intros f Hf.
    apply quietly_bind; [by apply tm_fork|]. intros ih. apply quietly_ret.
  - intros h'. apply quietly_bind; [exact IH|]. intros l'. apply quietly_ret.
Qed.

(** What the invariant says of the running task. *)
Lemma task_block w i t own : owned w own -> 0 < i -> zget (task_table (wsched w)) i = Some (Task t) ->
  0 <= pages t /\ pages t * PAGE_SIZE <= 2 ^ 32 - 2 * PAGE_SIZE /\ 0 < base t /\ base t + pages t * PAGE_SIZE <= 2 ^ 32 /\
  0 <= heap_base t < 2 ^ 32 /\ heap_base t mod PAGE_SIZE = 0.
Proof using.
  intros (bs & K1 & K2 & _) Hi Ht. destruct (K2 i (foot t) Hi) as (b & Hb & (B1 & B2 & B3 & B4 & B5)); [unfold view; by rewrite Ht|].
  destruct (Kheap.kheap_block _ _ b K1) as (Hok & Hp & P1 & P2); [apply elem_of_app; by right|].
  destruct (Kheap.bpages_bounds b (Kheap.bk_size _ _ Hok)) as [Hp1 Hp2].
  cbn [foot fbase fpages fheap_base] in *. unfold PAGE_SIZE, Pmm.PAGE_SIZE in *. lia.
Qed.

(** The sizes of the blocks a fork allocates for the tables. *)
Definition tables_ok (t : task_t) : Prop :=
  Kheap.size_ok (u32 (zlen (file_handles t) * SIZEOF_FILE_HANDLE)) /\
  Kheap.size_ok (u32 (zlen (file_handles_v2 t) * SIZEOF_FILE_HANDLE_V2)).

(** The copy of the memory in the new block. *)
Lemma copy_owned w own p n a u w1 w2 l : owned w (Kheap.Block p n :: own) -> 0 <= n -> p + n <= 2 ^ 32 ->
  mem_read a n w = Some (l, w1) -> mem_write p l w1 = Some (u, w2) ->
  wsched w2 = wsched w /\ owned w2 (Kheap.Block p n :: own).
Proof.
  intros Hw Hn Hp H1 H2. injection H1 as <- <-. injection H2 as _ <-. split; [done|].
  unfold owned, write_bytes. cbn [wheap wsched with_wheap].
  apply (held_write_own _ _ _ _ _ p n); [exact Hw|cbn; lia..|].
  intros x Hx. apply store_out. rewrite mem_bytes_len, Z2Nat.id by done. done.
Qed.

(** The end of a fork, when the new task is in the table. *)
Lemma fork_end_isolated w i t fuel o w' : isolated w -> zget (task_table (wsched w)) i = Some (Task t) ->
  (let! t := this_task in
   put_this (with_cpu (with_eax (u32 i) (cpu t)) t) ;;
   let! n := get_task i in
   put_task i (with_cpu (with_eax 0 (cpu n)) n) ;;
   task_scheduler fuel) w = Some (o, w') -> isolated w'.
Proof.
  intros Hw Hi H. sinv H. apply this_task_inv in E as [Ht ->]. sinv H.
  apply (put_this_quiet _ _ _ _ _ w a) in E; [|exact Ht|done].
  assert (isolated w0) as Hw0 by by apply (quiet_held w).
  sinv H. apply get_task_inv in E0 as [Hi0 ->]. sinv H.
  apply (put_quiet _ _ _ _ _ w0 i a1) in E0; [|exact Hi0|done].
  eapply safe_task_scheduler; [|exact H]. by apply (quiet_held w0).
Qed.

Lemma kfree_at w l1 p n l2 u w' : owned w (l1 ++ Kheap.Block p n :: l2) -> kfree p w = Some (u, w') ->
  owned w' (l1 ++ l2).
Proof.
  intros Hw H. apply (kfree_owned w (l1 ++ l2) (Kheap.Block p n) u w'); [|done].
  eapply held_perm; [|exact Hw]. by rewrite Permutation_middle.
Qed.
Lemma fork_fail_owned w own fuel o w' : owned w own -> fork_fail fuel w = Some (o, w') -> isolated w'.
Proof. intros Hw%owned_weaken. by apply fork_fail_isolated. Qed.

(** The new task of a fork. *)
Lemma forked_block w own i t b v2 par : owned w own -> 0 < i -> zget (task_table (wsched w)) i = Some (Task t) ->
  status t <> KRN_STAT_IOWAIT_TASK ->
  block_of (foot (forked par b v2 t)) (Kheap.Block b (u32 (pages t * PAGE_SIZE))) /\
  forall j, sane j (foot (forked par b v2 t)).
Proof.
  intros Hw Hi Ht Hs. destruct (task_block w i t own Hw Hi Ht) as (T1 & T2 & T3 & T4 & T5 & T6).
  split.
  - unfold block_of. cbn. rewrite u32_small by (unfold PAGE_SIZE in *; lia). repeat split; try done; lia.
  - intros j. split; [constructor|]. cbn. by rewrite (proj2 (Z.eqb_neq _ _)).
Qed.

(** The second half of a fork, when the three blocks are there. *)
Lemma fork_copy_isolated w fuel sz t b n fh k fh2 k2 o w' : owned w [Kheap.Block b n; Kheap.Block fh2 k2; Kheap.Block fh k] ->
  0 < current_task (wsched w) -> zget (task_table (wsched w)) (current_task (wsched w)) = Some (Task t) ->
  status t <> KRN_STAT_IOWAIT_TASK -> Kheap.size_ok sz -> n = u32 (pages t * PAGE_SIZE) ->
  (let! v2 := fork_handles filesystems (file_handles_v2 t) in
   let! m := mem_read (base t) n in
   mem_write b m ;;
   let! new_pid := task_create sz (forked (current_task (wsched w)) b v2 t) in
   if new_pid =? FAILURE then kfree b ;; kfree fh ;; kfree fh2 ;; fork_fail fuel
   else
     let! t := this_task in
     put_this (with_cpu (with_eax (u32 new_pid) (cpu t)) t) ;;
     let! n := get_task new_pid in
     put_task new_pid (with_cpu (with_eax 0 (cpu n)) n) ;;
     task_scheduler fuel) w = Some (o, w') -> isolated w'.
Proof.
  intros Hw Hc Ht Hst Hsz Hn H. sinv H. apply quietly_fork_handles in E as Hq.
  apply (owned_quiet _ _ _ Hq) in Hw as H0.
  destruct (task_block w _ t _ Hw Hc Ht) as (T1 & T2 & T3 & T4 & T5 & T6).
  destruct (forked_block w _ _ t b a (current_task (wsched w)) Hw Hc Ht Hst) as [Fb Fs].
  sinv H. sinv H.
  assert (0 <= n /\ b + n <= 2 ^ 32) as [Hn0 Hb].
  { destruct H0 as (bs & K1 & _). destruct (Kheap.kheap_block _ _ (Kheap.Block b n) K1 ltac:(by left)) as (Hok & Hp & P1 & P2).
    destruct (Kheap.bpages_bounds _ (Kheap.bk_size _ _ Hok)) as [Hp1 Hp2]. destruct (Kheap.bk_size _ _ Hok).
    cbn [Kheap.bptr Kheap.bsize] in *. unfold Pmm.PAGE_SIZE in *. lia. }
  destruct (copy_owned w0 _ b n (base t) _ _ _ _ H0 Hn0 Hb E0 E1) as [S2 H2].
  sinv H. rewrite <- Hn in Fb. destruct (create_owned w2 _ _ sz _ _ _ H2 Hsz Fb Fs E2) as [[-> H3]|(Hp & H3 & Hz & _)].
  - cbn [Z.eqb FAILURE] in H. change (-1 =? -1) with true in H. cbv iota in H.
    sinv H. eapply (kfree_at _ []) in E3; [|exact H3]. cbn [app] in E3.
    sinv H. eapply (kfree_at _ [Kheap.Block fh2 k2]) in E4; [|exact E3]. cbn [app] in E4.
    sinv H. eapply (kfree_at _ []) in E5; [|exact E4]. exact (fork_fail_owned _ _ _ _ _ E5 H).
  - rewrite (proj2 (Z.eqb_neq _ _)) in H by (unfold FAILURE; lia).
    eapply fork_end_isolated; [by eapply owned_weaken|exact Hz|exact H].
Qed.

Lemma this_task_after w t' u w' : put_this t' w = Some (u, w') ->
  zget (task_table (wsched w')) (current_task (wsched w')) = Some (Task t') /\
  current_task (wsched w') = current_task (wsched w).
Proof.
  intros H. unfold put_this in H. sinv H. apply current_inv in E as [-> ->]. apply set_slot_inv in H as [-> Hi].
  cbn [wsched with_wsched task_table with_table current_task].
  rewrite (zget_zset _ _ _ (Task t') _ (zset_ok _ _ _ Hi)). by rewrite decide_True.
Qed.

Lemma fork_isolated w fuel sz c t o w' : isolated w -> 0 < current_task (wsched w) ->
  zget (task_table (wsched w)) (current_task (wsched w)) = Some (Task t) -> status t <> KRN_STAT_IOWAIT_TASK ->
  Kheap.size_ok sz -> tables_ok t -> task_fork filesystems fuel sz c w = Some (o, w') -> isolated w'.
Proof.
  intros Hw Hc Ht Hst Hsz [Hfh Hfh2] H. unfold task_fork in H.
  sinv H. apply this_task_inv in E as [Ht' ->]. rewrite Ht in Ht'. injection Ht' as <-.
  sinv H. apply this_task_after in E as Ha. destruct Ha as [Ht1 Hcur].
  apply (put_this_quiet _ _ _ _ _ w t) in E; [|exact Ht|done]. set (t1 := with_cpu c t) in *.
  apply (quiet_held _ _ _ E) in Hw. assert (0 < current_task (wsched w0)) as Hc0 by lia.
  sinv H. apply current_inv in E0 as [-> ->]. sinv H.
  apply this_task_inv in E0 as [Ht1' ->]. rewrite Ht1 in Ht1'. injection Ht1' as <-.
  destruct (task_block w0 _ t1 [] Hw Hc0 Ht1) as (T1 & T2 & _).
  set (n := u32 (pages t1 * PAGE_SIZE)) in *.
  assert (Kheap.size_ok n) as Hn.
  { unfold n, Kheap.size_ok. unfold PAGE_SIZE, Pmm.PAGE_SIZE in *. rewrite u32_small by lia. lia. }
  sinv H. destruct (kalloc_owned w0 [] n _ _ Hw Hn E0) as [S1 [[-> H1]|[Hb H1]]]; [exact (fork_fail_owned w1 [] fuel o w' H1 H)|].
  rewrite (proj2 (Z.eqb_neq _ 0)) in H by done.
  sinv H. destruct (kalloc_owned w1 _ _ _ _ H1 Hfh E1) as [S2 [[-> H2]|[Hfb H2]]].
  { cbn [Z.eqb] in H. sinv H. eapply (kfree_at _ [] _ n []) in E2; [|exact H2]. exact (fork_fail_owned _ _ _ _ _ E2 H). }
  rewrite (proj2 (Z.eqb_neq _ 0)) in H by done.
  sinv H. destruct (kalloc_owned w2 _ _ _ _ H2 Hfh2 E2) as [S3 [[-> H3]|[Hfb2 H3]]].
  { cbn [Z.eqb] in H. sinv H. eapply (kfree_at _ [_] _ n []) in E3; [|exact H3]. cbn [app] in E3.
    sinv H. eapply (kfree_at _ [] a1 _ []) in E4; [|exact E3]. exact (fork_fail_owned _ _ _ _ _ E4 H). }
  rewrite (proj2 (Z.eqb_neq _ 0)) in H by done.
  assert (wsched w3 = wsched w0) as S by congruence. rewrite <- S in Hc0, Ht1, H.
  eapply (fork_copy_isolated w3 fuel sz t1 a0 n a1 _ a2); [|exact Hc0|exact Ht1|exact Hst|exact Hsz|done|exact H].
  eapply held_perm; [|exact H3]. apply (Permutation_app_comm [_; _] [_]).
Qed.

End Sched.

End Isolation.
