(* ===== verification/Programs.v ===== *)
(** * What the start of a program keeps

    [general_execute] ([Spawn.v]) on the kernel of [System.v]: it allocates the memory
    of a new task, loads the program into it, makes the task and copies the arguments of
    the caller.  When these fit, the invariant of [Isolation.v] is kept: every store of
    the call is in the new block, and the caller's memory is what it was. *)

From S2P Require Import Prelude Mem Pmm Kheap Dev Handle Devfs Gdt Task UserMem VfsPath Vfs Spawn System Isolation.
Local Open Scope Z_scope.
Local Open Scope st_scope.

Module Programs.
Import Dev Task UserMem Spawn System Isolation.

(** ** Lemmas: the memory of a task during a call *)

(** An allocation and a store in a block of the call's own leave it alone. *)
Lemma alloc_keeps h v own n p h' i f x : held h v own -> Kheap.size_ok n -> Kheap.kalloc n h = Some (p, h') ->
  0 < i -> v i = Some f -> in_task f x -> Kheap.hmem h' x = Kheap.hmem h x.
Proof.
  intros (bs & H1 & H2 & _) Hn E Hi Hf Hx. destruct (H2 i f Hi Hf) as (b & Hb & B1 & B2 & B3 & _).
  destruct (Kheap.kalloc_ok n h _ H1 Hn) as (p' & h1 & E' & HH). rewrite E in E'. injection E' as <- <-.
  destruct HH as [(_ & _ & -> & _)|(_ & _ & Hs & _)]; [done|].
  specialize (Hs b (x - Kheap.bptr b) ltac:(apply elem_of_app; by right)). unfold Kheap.byte_of, in_task in *.
  replace (Kheap.bptr b + (x - Kheap.bptr b)) with x in Hs by lia. apply Hs. lia.
Qed.
Lemma own_keeps h v b own i f x : held h v (b :: own) -> 0 < i -> v i = Some f -> in_task f x ->
  ~ Kheap.bptr b <= x < Kheap.bptr b + Kheap.bsize b.
Proof.
  intros (bs & H1 & H2 & _) Hi Hf Hx Hb. destruct (H2 i f Hi Hf) as (c & Hc & B1 & B2 & B3 & _).
  apply (blocks_apart h b (own ++ bs) c x H1); [apply elem_of_app; by right|done|]. unfold in_task in Hx. lia.
Qed.
(** A block is below the end of the address space. *)
Lemma own_bounds h v p n own : held h v (Kheap.Block p n :: own) -> 0 < p /\ p + n <= 2 ^ 32.
Proof.
  intros (bs & H1 & _). destruct (Kheap.kheap_block _ _ (Kheap.Block p n) H1) as (Hok & Hp & P1 & P2); [by left|].
  destruct (Kheap.bpages_bounds (Kheap.Block p n) (Kheap.bk_size _ _ Hok)). cbn [Kheap.bptr Kheap.bsize Kheap.bowned fst snd] in *.
  unfold Pmm.PAGE_SIZE in *. lia.
Qed.

Lemma view_task s i f : view s i = Some f -> exists t, zget (task_table s) i = Some (Task t) /\ foot t = f.
Proof.
  unfold view. destruct (zget (task_table s) i) as [[| |t]|]; try done. intros H. exists t. split; [done|exact (inj Some _ _ H)].
Qed.

(** Another beginning of the heap of a task. *)
Lemma held_heap h v own i f hb : held h v own -> v i = Some f -> 0 <= hb < 2 ^ 32 -> hb mod PAGE_SIZE = 0 ->
  held h (vset v i (Some (MkFoot (fbase f) (fpages f) hb (fwait f) (fqueue f)))) own.
Proof.
  intros (bs & H1 & H2 & H3 & H4) Hf Hb Hm. exists bs. split; [done|]. unfold vset. split; [|split].
  - intros j g Hj. case_decide as Hij; [|by apply H2]. subst j. intros [= <-].
    destruct (H2 i f Hj Hf) as (b & Hin & B1 & B2 & B3 & _). exists b. split; [done|]. exact (conj B1 (conj B2 (conj B3 (conj Hb Hm)))).
  - intros j k g g' Hj Hk Hjk. repeat case_decide; subst; try done.
    + intros [= <-] Hg'. exact (H3 _ _ _ _ Hj Hk Hjk Hf Hg').
    + intros Hg [= <-]. exact (H3 _ _ _ _ Hj Hk Hjk Hg Hf).
    + by apply (H3 j k).
  - intros j g. case_decide; [|apply (H4 j g)]. subst j. intros [= <-]. exact (H4 i f Hf).
Qed.

(** The size of the new task. *)
Lemma pages_fit size : 0 <= size < 2 ^ 31 ->
  let n := u32 (task_pages size * PAGE_SIZE) in
  n = task_pages size * PAGE_SIZE /\ 0 <= task_pages size /\ TASK_RESERVED_SPACE + 0x10000 + size <= n < 2 ^ 32 - 2 * PAGE_SIZE.
Proof.
  intros Hs n. pose proof (task_pages_eq size Hs) as E.
  assert (0x20000 + size <= task_pages size * 4096 < 0x20000 + size + 4096) as Hp by (rewrite E; zdml).
  unfold n, PAGE_SIZE, TASK_RESERVED_SPACE. rewrite u32_small; lia.
Qed.

Lemma new_task_block par b size n : 0 <= size < 2 ^ 31 -> n = u32 (task_pages size * PAGE_SIZE) ->
  block_of (foot (new_task par b (task_pages size))) (Kheap.Block b n) /\
  forall j, sane j (foot (new_task par b (task_pages size))).
Proof.
  intros Hs ->. destruct (pages_fit size Hs) as (E & H0 & _). split.
  - unfold block_of. cbn [foot new_task base pages heap_base Kheap.bptr Kheap.bsize fbase fpages fheap_base].
    repeat split; try done; lia.
  - intros j. split; [constructor|done].
Qed.

Section Programs.
Context {DV : Type} (print : list Z -> ST DV unit) (filesystems : list (Vfs.filesystem_t (world DV))) (stk : list Z).
Context (Htame : Forall tame filesystems).
#[local] Instance K : Kernel (world DV) := kernel print filesystems stk.
#[local] Instance U : UserMem K := kernel_over_mem _ _ _ _ _.
#[local] Set Default Proof Using "Type*".
Implicit Types (w : world DV) (t : task_t) (f : footprint).

(** A state within a call of task [i], whose footprint is [f] and whose memory is as it
    was in [w0]; [own] are the blocks the call has allocated. *)
Definition during w0 i f own w : Prop :=
  owned w own /\ current_task (wsched w) = i /\ view (wsched w) i = Some f /\
  forall x, in_task f x -> wbytes w x = wbytes w0 x.

Section During.
Context (w0 : world DV) (i : Z) (f : footprint) (Hi : 0 < i).

Lemma during_quiet own w w' : quiet w w' -> during w0 i f own w -> during w0 i f own w'.
Proof using.
  intros Hq (H1 & H2 & H3 & H4). split; [by eapply owned_quiet|]. destruct Hq as (Q1 & Q2 & Q3).
  split; [congruence|]. split; [by rewrite Q3|]. intros x Hx. unfold wbytes. rewrite Q1. by apply H4.
Qed.

Lemma during_alloc own w n p w' : during w0 i f own w -> Kheap.size_ok n -> kalloc n w = Some (p, w') ->
  wsched w' = wsched w /\ ((p = 0 /\ during w0 i f own w') \/ (p <> 0 /\ during w0 i f (Kheap.Block p n :: own) w')).
Proof.
  intros (H1 & H2 & H3 & H4) Hn E. destruct (kalloc_owned print filesystems stk Htame w own n p w' H1 Hn E) as [S1 HH].
  split; [done|].
  assert (forall x, in_task f x -> wbytes w' x = wbytes w0 x) as Hb.
  { intros x Hx. rewrite <- H4 by done. cbn in E. unfold on_heap in E.
    destruct (Kheap.kalloc n (wheap w)) as [[q h]|] eqn:Ek; [|done]. injection E as -> <-. unfold wbytes. f_equal.
    cbn [wheap with_wheap]. by eapply alloc_keeps. }
  unfold during. rewrite S1. destruct HH as [[-> HH]|[Hp HH]]; [left|right]; done.
Qed.

Lemma during_write own w p n a l u w' : during w0 i f (Kheap.Block p n :: own) w -> p <= a -> a + zlen l <= p + n ->
  mem_write a l w = Some (u, w') -> during w0 i f (Kheap.Block p n :: own) w' /\ wsched w' = wsched w.
Proof.
  intros (H1 & H2 & H3 & H4) Ha Hl [= _ <-]. split; [|done]. split; [|split; [done|split; [done|]]].
  - unfold owned, write_bytes. cbn [wheap wsched with_wheap].
    apply (held_write_own _ _ _ _ _ a (zlen l)); [exact H1|done|done|]. intros x Hx. apply store_out. lia.
  - intros x Hx. rewrite <- H4 by done. unfold wbytes, write_bytes. cbn [wheap with_wheap Kheap.hmem Kheap.with_mem]. f_equal.
    apply store_out. pose proof (own_keeps _ _ _ _ i f x H1 Hi H3 Hx) as Hn. cbn [Kheap.bptr Kheap.bsize] in Hn. lia.
Qed.

(** The new task: its block is no longer the call's own. *)
Lemma during_create own b w sz t r w' : during w0 i f (b :: own) w -> Kheap.size_ok sz -> block_of (foot t) b ->
  (forall j, sane j (foot t)) -> view (wsched w) 0 <> None -> task_create sz t w = Some (r, w') ->
  (r = FAILURE /\ owned w' (b :: own)) \/
  (0 < r /\ r <> i /\ during w0 i f own w' /\ zget (task_table (wsched w')) r = Some (Task t)).
Proof.
  intros (H1 & H2 & H3 & H4) Hsz Hb Hs H0 H.
  destruct (create_owned print filesystems stk Htame w own b sz t r w' H1 Hsz Hb Hs H) as [HF|(R0 & Ho & Ht & Hc & Hr)]; [by left|].
  right. assert (view (wsched w) r = None) as Hfree.
  { unfold task_create in H. sinv H. apply st_get_inv in E as [-> ->].
    destruct (find_slot_spec 0 (task_table (wsched w))) as (F0 & _ & F2). unfold view.
    set (k := find_slot 0 (task_table (wsched w))) in *. destruct (Z.eqb_spec k KRNL_MAX_TASKS) as [Ek|Ek].
    - injection H as <- _. unfold FAILURE in R0. lia.
    - sinv H. destruct (a =? 0); sinv H; injection H as <- _; [unfold FAILURE in R0; lia|].
      destruct (zget (task_table (wsched w)) k) as [[| |t0]|] eqn:Ez; try done.
      apply zget_Some in Ez as Hk. destruct (F2 ltac:(lia) t0). by rewrite Z.sub_0_r. }
  assert (r <> i) as Hri by (intros ->; by rewrite H3 in Hfree).
  assert (r <> 0) by (intros ->; by apply H0). split; [lia|]. split; [done|]. split; [|done].
  split; [done|]. split; [congruence|]. split; [unfold view in *; by rewrite Hr by congruence|].
  intros x Hx. rewrite <- H4 by done. unfold task_create in H. sinv H. apply st_get_inv in E as [-> ->].
  destruct (_ =? KRNL_MAX_TASKS); [by injection H as _ <-|]. sinv H. cbn in E. unfold on_heap in E.
  destruct (Kheap.kalloc sz (wheap w)) as [[q h]|] eqn:Ek; [|done]. injection E as -> <-.
  assert (wbytes (with_wheap h w) x = wbytes w x) as Hk
    by (unfold wbytes; f_equal; cbn [wheap with_wheap]; by eapply alloc_keeps).
  destruct (a =? 0); sinv H; injection H as _ <-; apply set_slot_inv in E as [-> _]; exact Hk.
Qed.

End During.

(** A store in the new task's memory. *)
Lemma during_store w0 i f r g a l u w w' : 0 < i -> 0 < r -> r <> i -> during w0 i f [] w -> view (wsched w) r = Some g ->
  fbase g <= a -> a + zlen l <= fbase g + fpages g * PAGE_SIZE -> mem_write a l w = Some (u, w') ->
  during w0 i f [] w' /\ wsched w' = wsched w.
Proof.
  intros Hi Hr Hri (H1 & H2 & H3 & H4) Hg Ha Hl [= _ <-]. split; [|done]. split; [|split; [done|split; [done|]]].
  - by apply (write_isolated w r g).
  - intros x Hx. rewrite <- H4 by done. unfold wbytes, write_bytes. cbn [wheap with_wheap Kheap.hmem Kheap.with_mem]. f_equal.
    apply store_out. destruct (decide (a <= x < a + zlen l)) as [Hin|]; [|lia]. exfalso.
    apply (held_apart _ _ _ i r f g x H1 Hi Hr ltac:(congruence) H3 Hg Hx). unfold in_task. lia.
Qed.

(** ** Lemmas: the calls into the virtual file system *)

Lemma quietly_kmetadata s p ty : quietly (Vfs.vfs_kget_metadata (K := K) filesystems s p ty).
Proof. exact (quietly_metadata print filesystems Htame s p ty). Qed.
Lemma quietly_kopen s p fl md : quietly (Vfs.vfs_kopen (K := K) filesystems s p fl md).
Proof. exact (quietly_open_for print filesystems Htame (st_ret 0) s p fl md (quietly_ret 0)). Qed.
Lemma quietly_kclose n : quietly (Vfs.vfs_kclose (K := K) filesystems n).
Proof. exact (quietly_close_for print filesystems Htame 0 n). Qed.

Lemma kuread_inv h n w r w' : Vfs.vfs_kuread (K := K) filesystems h n w = Some (r, w') ->
  quiet w w' /\ zlen r.2 <= Z.max 0 n /\ view (wsched w') 0 <> None.
Proof.
  intros H. assert (quiet w w') as Hq.
  { refine (quietly_on_handle print filesystems Htame 0 h _ _ w r w' H). intros f ih Hf. by apply tm_uread. }
  split; [done|]. unfold Vfs.vfs_kuread, Vfs.on_handle, Vfs.handle_of in H. sinv H. sinv E. apply get_task_inv in E0 as [Ht ->].
  split; [|destruct Hq as (_ & _ & ->); unfold view; by rewrite Ht].
  sinv H. unfold Vfs.fs_of in E0. sinv E0. unfold st_lift in E0. destruct (zget filesystems a2) as [f|] eqn:Ef; [|done].
  injection E0 as -> <-.
  assert (tame a1) as Hf by (unfold zget in Ef; case_decide; [|done]; by eapply Forall_lookup_1).
  by eapply tm_uread_len.
Qed.

(** The program is read into the block, at its offset. *)
Lemma load_during w0 i f own s path b n size u w w' : 0 < i -> during w0 i f (Kheap.Block b n :: own) w ->
  0 <= size < 2 ^ 31 -> TASK_RESERVED_SPACE + size < n -> load_program filesystems s path b size w = Some (u, w') ->
  during w0 i f (Kheap.Block b n :: own) w' /\ view (wsched w') 0 <> None.
Proof.
  intros Hi Hw Hs Hn H. unfold load_program in H. sinv H. apply quietly_kopen in E. apply (during_quiet _ _ _ _ _ _ E) in Hw.
  sinv H. apply kuread_inv in E0 as (Hq & Hl & H0). rewrite s32_small in Hl by lia.
  apply (during_quiet _ _ _ _ _ _ Hq) in Hw. sinv H. unfold TASK_RESERVED_SPACE in *.
  destruct (own_bounds _ _ _ _ _ (proj1 Hw)) as [Hb1 Hb2]. pose proof (zlen_nonneg a0.2).
  rewrite u32_small in E0 by lia.
  destruct (during_write w0 i f Hi own w2 b n (b + 0x10000) a0.2 _ _ Hw ltac:(lia) ltac:(lia) E0) as [Hw3 S3].
  sinv H. injection H as _ <-. apply quietly_kclose in E1. split; [by apply (during_quiet _ _ _ _ _ _ E1)|].
  destruct E1 as (_ & _ & ->). by rewrite S3.
Qed.

(** ** Lemmas: the texts and the standard handles of the new task *)

Lemma quietly_text_into n a : quietly (text_into n a).
Proof. unfold text_into. apply quietly_bind; [auto with quiet|]. intros s. destruct (_ <? _); auto with quiet. Qed.
Lemma quietly_put_same pid (g : task_t -> task_t) : (forall t, foot (g t) = foot t) ->
  quietly (let! t := get_task pid in put_task pid (g t)).
Proof. intros Hg. apply quietly_task. intros t w u w' Ht. by eapply put_quiet; [exact Ht|apply Hg]. Qed.

Lemma quietly_texts pid a1 a2 a3 a4 a5 a6 : quietly (execute_texts pid a1 a2 a3 a4 a5 a6).
Proof.
  unfold execute_texts. do 6 (apply quietly_bind; [apply quietly_text_into|intros ?]). by apply quietly_put_same.
Qed.
Lemma quietly_std_handle pid p fl : quietly (std_handle pid p fl).
Proof.
  apply quietly_bind; [apply quietly_text_into|]. intros s w r w' H. unfold create_file_handle in H.
  sinv H. apply get_task_inv in E as [Ht ->]. destruct (Handle.create_file_handle _ _) as [n l].
  sinv H. injection H as _ <-. by eapply put_quiet; [exact Ht| |exact E].
Qed.
Lemma quietly_std_stream s pid p fl : quietly (std_stream filesystems s pid p fl).
Proof.
  unfold std_stream. apply quietly_bind; [auto with quiet|]. intros q. apply quietly_bind; [apply quietly_kopen|]. intros k.
  apply quietly_bind; [unfold Vfs.handle_of; quiet|]. intros h. apply quietly_bind; [exact (quietly_new_handle print filesystems Htame pid h)|].
  intros _. apply quietly_task. intros t w u w' Ht H. sinv H. apply quietly_lift in E as Hq1. unfold st_lift in E.
  destruct (zget _ k); [|done]. injection E as _ <-. sinv H. unfold st_lift in E. destruct (zset _ k _); [|done]. injection E as _ <-.
  by eapply put_quiet; [exact Ht| |exact H].
Qed.

(** ** Lemmas: the arguments *)

Lemma view_bounds w own i f : owned w own -> 0 < i -> view (wsched w) i = Some f ->
  0 < fbase f /\ fbase f + fpages f * PAGE_SIZE <= 2 ^ 32.
Proof using.
  intros (bs & K1 & K2 & _) Hi Hf. destruct (K2 i f Hi Hf) as (b & Hb & (B1 & B2 & B3 & _)).
  destruct (Kheap.kheap_block _ _ b K1) as (Hok & Hp & P1 & P2); [apply elem_of_app; by right|].
  destruct (Kheap.bpages_bounds b (Kheap.bk_size _ _ Hok)). unfold PAGE_SIZE, Pmm.PAGE_SIZE in *. lia.
Qed.

(** What the caller's memory holds is read as it was. *)
Section Caller.
Context (w0 : world DV) (i : Z) (t : task_t) (Hi : 0 < i).

Lemma caller_word w o : during w0 i (foot t) [] w -> 0 <= o -> o + 4 <= pages t * PAGE_SIZE ->
  read_word (u32 (o + base t)) w = Some (load32 (wbytes w0) (o + base t), w).
Proof.
  intros (H1 & _ & H3 & H4) Ho Hl. destruct (view_bounds _ _ _ _ H1 Hi H3) as [B1 B2]. cbn [foot fbase fpages] in B1, B2.
  rewrite u32_small by lia. rewrite read_word_ok by lia. f_equal. f_equal. apply load32_frame. intros x Hx.
  apply H4. unfold in_task. cbn [foot fbase fpages]. lia.
Qed.
Lemma caller_str w p s : during w0 i (foot t) [] w -> 0 <= p -> p + zlen s + 1 <= pages t * PAGE_SIZE -> zlen s < TEXT_MAX ->
  cstr_at (wbytes w0) (p + base t) s -> mem_str (u32 (p + base t)) w = Some (s, w).
Proof.
  intros (H1 & _ & H3 & H4) Hp Hl Hs Hc. destruct (view_bounds _ _ _ _ H1 Hi H3) as [B1 B2]. cbn [foot fbase fpages] in B1, B2.
  pose proof (zlen_nonneg s). rewrite u32_small by lia. apply mem_str_ok; [lia|lia|done|].
  apply (cstr_ext (wbytes w0)); [done|]. intros x Hx. apply H4. unfold in_task. cbn [foot fbase fpages]. lia.
Qed.
End Caller.

(** The arguments of the caller, in the state at the call: each entry of the vector
    points to its text, all in the caller's memory. *)
Fixpoint args_within (m : mem) t (vec k : Z) (args : list (list Z)) : Prop :=
  match args with
  | [] => True
  | s :: args =>
      let p := load32 m (vec + 4 * k + base t) in
      0 <= p /\ p + zlen s + 1 <= pages t * PAGE_SIZE /\ zlen s < TEXT_MAX /\ cstr_at m (p + base t) s /\
      args_within m t vec (k + 1) args
  end.

(** [task_info] and the arguments lie in the caller's memory and fit the reserved space
    of the new task. *)
Definition exec_fits w t (task_info : Z) : Prop := exists args vec,
  0 <= task_info /\ task_info + 36 <= pages t * PAGE_SIZE /\
  load32 (wbytes w) (task_info + 28 + base t) = zlen args /\ load32 (wbytes w) (task_info + 32 + base t) = vec /\
  0 <= vec /\ vec + 4 * zlen args <= pages t * PAGE_SIZE /\ args_within (wbytes w) t vec 0 args /\
  0x1010 + 4 * (zlen args + 1) <= 0x4000 /\ 0x4000 + texts_size args <= 0x10000.

Section Copy.
Context (w0 : world DV) (i r : Z) (t : task_t) (g : footprint) (Hi : 0 < i) (Hr : 0 < r) (Hri : r <> i).
Context (Hg : 0x10000 <= fpages g * PAGE_SIZE).

(** A store at an offset of the new task. *)
Lemma copy_store w o l u w' : during w0 i (foot t) [] w -> view (wsched w) r = Some g -> 0 <= o -> 0 < zlen l ->
  o + zlen l <= 0x10000 -> mem_write (u32 (fbase g + o)) l w = Some (u, w') ->
  during w0 i (foot t) [] w' /\ wsched w' = wsched w.
Proof.
  intros Hw Hv Ho Hl Hol H. destruct (view_bounds w [] r g (proj1 Hw) Hr Hv) as [B1 B2]. rewrite u32_small in H by lia.
  apply (during_store w0 i (foot t) r g (fbase g + o) l u w w'); try done; lia.
Qed.

Lemma copy_args_S n k limit dst src vec : copy_args (S n) k limit dst src vec =
  (let! p := read_word (u32 (vec + 4 * k)) in
   let! s := mem_str (u32 (p + src)) in
   mem_write (u32 (dst + limit)) (s ++ [0]) ;;
   write_word (u32 (dst + 0x1010 + 4 * k)) (u32 limit) ;;
   let! p := read_word (u32 (vec + 4 * k)) in
   let! s := mem_str (u32 (p + src)) in
   copy_args n (k + 1) (s32 (limit + zlen s + 1)) dst src vec).
Proof using. reflexivity. Qed.

Lemma copy_during vec args : 0 <= vec -> forall k limit w u w', 0 <= k -> vec + 4 * (k + zlen args) <= pages t * PAGE_SIZE ->
  0x1010 + 4 * (k + zlen args + 1) <= 0x4000 -> 0x4000 <= limit -> limit + texts_size args <= 0x10000 ->
  args_within (wbytes w0) t vec k args -> during w0 i (foot t) [] w -> view (wsched w) r = Some g ->
  copy_args (length args) k limit (fbase g) (base t) (u32 (vec + base t)) w = Some (u, w') ->
  during w0 i (foot t) [] w' /\ wsched w' = wsched w.
Proof.
  intros Hvec. induction args as [|s args IH]; intros k limit w u w' Hk Hv Htbl Hlim Htx Ha Hw Hview H.
  - cbn [length copy_args] in H. rewrite zlen_nil in Htbl. rewrite <- Z.add_assoc in H. apply (copy_store w (0x1010 + 4 * k) (le32 0) u w'); try assumption; change (zlen (le32 0)) with 4; lia.
  - change (length (s :: args)) with (S (length args)) in H. rewrite copy_args_S in H.
    rewrite zlen_cons in Hv, Htbl. cbn [texts_size] in Htx. pose proof (zlen_nonneg args). pose proof (zlen_nonneg s).
    pose proof (texts_size_nonneg args). cbn [args_within] in Ha. destruct Ha as (A1 & A2 & A3 & A4 & A5).
    set (p := load32 (wbytes w0) (vec + 4 * k + base t)) in *.
    destruct (view_bounds w [] i (foot t) (proj1 Hw) Hi (proj1 (proj2 (proj2 Hw)))) as [B1 B2]. cbn [foot fbase fpages] in B1, B2.
    assert (u32 (u32 (vec + base t) + 4 * k) = u32 (vec + 4 * k + base t)) as Ev
      by (rewrite (u32_small (vec + base t)) by lia; f_equal; lia).
    rewrite Ev in H.
    rewrite (st_bind_ok _ _ _ _ _ (caller_word w0 i t Hi w (vec + 4 * k) Hw ltac:(lia) ltac:(lia))) in H. fold p in H.
    rewrite (st_bind_ok _ _ _ _ _ (caller_str w0 i t Hi w p s Hw A1 A2 A3 A4)) in H.
    sinv H. destruct (copy_store w limit (s ++ [0]) _ _ Hw Hview ltac:(lia) ltac:(rewrite zlen_app; change (zlen [0]) with 1; lia)
      ltac:(rewrite zlen_app; change (zlen [0]) with 1; lia) E) as [Hw1 S1]. rewrite <- S1 in Hview.
    rewrite <- Z.add_assoc in H. sinv H.
    destruct (copy_store w1 (0x1010 + 4 * k) (le32 (u32 limit)) _ _ Hw1 Hview ltac:(lia) ltac:(reflexivity)
      ltac:(change (zlen (le32 (u32 limit))) with 4; lia) E0) as [Hw2 S2]. rewrite <- S2 in Hview.
    rewrite (st_bind_ok _ _ _ _ _ (caller_word w0 i t Hi w2 (vec + 4 * k) Hw2 ltac:(lia) ltac:(lia))) in H. fold p in H.
    rewrite (st_bind_ok _ _ _ _ _ (caller_str w0 i t Hi w2 p s Hw2 A1 A2 A3 A4)) in H.
    rewrite s32_small in H by lia.
    edestruct (IH (k + 1) (limit + zlen s + 1) w2 u w') as [Hw' S']; [..|exact H|]; try assumption; try lia.
    split; [done|congruence].
Qed.

(** [execute_args] of the caller's [task_info]. *)
Lemma args_during n task_info w u w' : exec_fits w0 t task_info -> during w0 i (foot t) [] w ->
  zget (task_table (wsched w)) r = Some (Task n) -> foot n = g ->
  execute_args r (u32 (task_info + base t)) w = Some (u, w') -> during w0 i (foot t) [] w'.
Proof.
  intros (args & vec & F1 & F2 & F3 & F4 & F5 & F6 & F7 & F8 & F9) Hw Hn Hng H. unfold execute_args, info_word in H.
  destruct (view_bounds w [] i (foot t) (proj1 Hw) Hi (proj1 (proj2 (proj2 Hw)))) as [B1 B2]. cbn [foot fbase fpages] in B1, B2.
  assert (view (wsched w) r = Some g) as Hview by (unfold view; by rewrite Hn, Hng).
  assert (base n = fbase g) as Eb by (by rewrite <- Hng).
  change (4 * 7) with 28 in H. change (4 * 8) with 32 in H.
  assert (forall o, 0 <= o <= 32 -> u32 (u32 (task_info + base t) + o) = u32 (task_info + o + base t)) as Eo
    by (intros o Ho; rewrite (u32_small (task_info + base t)) by lia; f_equal; lia).
  rewrite Eo in H by lia. erewrite st_bind_ok in H by (apply (caller_word w0 i t Hi w); [done|lia|lia]). rewrite F3 in H.
  sinv H. apply get_task_inv in E as [Hn' ->]. rewrite Hn in Hn'. injection Hn' as <-. rewrite Eb in H.
  sinv H. destruct (copy_store w 0x1000 (le32 (zlen args)) _ _ Hw Hview ltac:(lia) ltac:(reflexivity) ltac:(discriminate) E) as [Hw1 S1].
  rewrite Eo in H by lia. erewrite st_bind_ok in H by (apply (caller_word w0 i t Hi w1); [done|lia|lia]). rewrite F4 in H.
  sinv H. apply this_task_inv in E0 as [Ht ->].
  assert (base a0 = base t) as Et.
  { destruct Hw1 as (_ & Hc & Hv & _). unfold view in Hv. rewrite <- Hc, Ht in Hv. injection Hv. done. }
  rewrite Et in H. pose proof (zlen_nonneg args). rewrite s32_small in H by lia. unfold zlen at 1 in H. rewrite Nat2Z.id in H.
  eapply copy_during; [..|exact H]; try done; try lia. by rewrite S1.
Qed.

End Copy.

(** ** Lemmas: [general_execute] *)

Lemma during_heap w0 i f r t t' u w w' : r <> i -> during w0 i f [] w -> zget (task_table (wsched w)) r = Some (Task t) ->
  foot t' = MkFoot (base t) (pages t) (heap_base t') (fwait (foot t)) (ipc_queue t) -> 0 <= heap_base t' < 2 ^ 32 ->
  heap_base t' mod PAGE_SIZE = 0 -> put_task r t' w = Some (u, w') ->
  during w0 i f [] w' /\ view (wsched w') r = Some (foot t').
Proof.
  intros Hri (H1 & H2 & H3 & H4) Ht Hf Hb Hm H. apply set_slot_inv in H as [-> Hr].
  cbn [wsched with_wsched]. rewrite view_slot by done. unfold vset at 1. rewrite decide_True by done. split; [|done].
  split; [|split; [done|split; [|done]]].
  - unfold owned. cbn [wheap wsched with_wsched]. eapply held_ext; [intros j; by rewrite view_slot|]. cbn [slot_foot]. rewrite Hf.
    apply (held_heap _ (view (wsched w)) [] r (foot t)); [done|unfold view; by rewrite Ht|done|done].
  - cbn [wsched with_wsched]. rewrite view_slot by done. unfold vset. by rewrite decide_False.
Qed.

(** Files are smaller than 2 GiB, so that the size of a task does not wrap. *)
Definition small_files w : Prop := forall path md w1,
  Vfs.vfs_kget_metadata (K := K) filesystems stk path Vfs.FILE_TYPE w = Some (Some md, w1) -> 0 <= Vfs.msize md < 2 ^ 31.

(** It is enough that each file system's files are. *)
Lemma small_files_ok w : Forall (fun fs => forall p d v md v', Vfs.fs_get_metadata fs p Vfs.FILE_TYPE d v = Some (Some md, v') ->
  0 <= Vfs.msize md < 2 ^ 31) filesystems -> small_files w.
Proof.
  intros Hf path md w1 H. unfold Vfs.vfs_kget_metadata, Vfs.on_path in H. sinv H. sinv H.
  destruct (translate_inv print filesystems Htame a w0 a0 w2 E0) as [_ Ha]. destruct a0 as [[[[m fs] lp] d]|]; [|done].
  destruct (Ha m fs lp d eq_refl) as [_ Hin]. rewrite Forall_forall in Hf. by eapply (Hf fs Hin).
Qed.

Lemma arg_same info k b a w w' : (let! p := info_word info k in st_ret (u32 (p + b))) w = Some (a, w') -> w' = w.
Proof.
  intros H. sinv H. injection H as _ <-. unfold info_word, read_word in E. sinv E. injection E0 as _ <-.
  unfold st_lift in E. destruct (word _); [|done]. by injection E as _ <-.
Qed.
Lemma mem_str_same w nm s w' : mem_str nm w = Some (s, w') -> w' = w.
Proof. cbn [mem_str K kernel kernel_over]. destruct (text_at _ _ nm); [|done]. by intros [= _ <-]. Qed.

(** Once the new task is in the table. *)
Lemma filled_during w0 i t r g task_info size pwd_p name_p server_p in_p out_p err_p w u w' :
  0 < i -> 0 < r -> r <> i -> 0 <= size < 2 ^ 31 -> exec_fits w0 t task_info -> during w0 i (foot t) [] w ->
  zget (task_table (wsched w)) r = Some (Task (new_task i g (task_pages size))) ->
  (let! n := get_task r in
   put_task r (with_heap (u32 (task_pages size * PAGE_SIZE)) 0
     (with_cpu (with_entry TASK_RESERVED_SPACE (stack_top size) (cpu n)) n)) ;;
   execute_texts r pwd_p name_p server_p in_p out_p err_p ;;
   std_handle r in_p O_RDONLY ;; std_handle r out_p O_WRONLY ;; std_handle r err_p O_WRONLY ;;
   std_stream filesystems stk r in_p O_RDONLY ;; std_stream filesystems stk r out_p O_WRONLY ;;
   std_stream filesystems stk r err_p O_WRONLY ;;
   execute_args r (u32 (task_info + base t)) ;;
   st_ret r) w = Some (u, w') -> during w0 i (foot t) [] w'.
Proof.
  intros Hi Hr Hri Hs Hfit Hw Hn H. destruct (pages_fit size Hs) as (En & Hp0 & Hp1 & Hp2).
  sinv H. apply get_task_inv in E as [Hn' ->]. rewrite Hn in Hn'. injection Hn' as <-. sinv H.
  eapply (during_heap w0 i (foot t) r (new_task i g (task_pages size))) in E as [Hw1 Hv1];
    [|done|exact Hw|exact Hn|done|cbn; unfold PAGE_SIZE in *; lia|cbn; rewrite En; unfold PAGE_SIZE; apply Z_mod_mult].
  set (g1 := foot _) in Hv1.
  assert (forall {A} (m : ST (world DV) A) v v' a, quietly m -> m v = Some (a, v') ->
    during w0 i (foot t) [] v /\ view (wsched v) r = Some g1 -> during w0 i (foot t) [] v' /\ view (wsched v') r = Some g1) as Hq.
  { intros A m v v' x Hm E [Hd Hv]. apply Hm in E. split; [by apply (during_quiet _ _ _ _ _ _ E)|].
    destruct E as (_ & _ & ->). done. }
  assert (during w0 i (foot t) [] w1 /\ view (wsched w1) r = Some g1) as Hd by done. clear Hw1 Hv1.
  sinv H. apply (Hq _ _ _ _ _ (quietly_texts _ _ _ _ _ _ _) E) in Hd. clear E.
  do 3 (sinv H; apply (Hq _ _ _ _ _ (quietly_std_handle _ _ _) E) in Hd; clear E).
  do 3 (sinv H; apply (Hq _ _ _ _ _ (quietly_std_stream _ _ _ _) E) in Hd; clear E).
  sinv H. injection H as _ <-. destruct Hd as [Hd Hv]. destruct (view_task _ _ _ Hv) as (n & Hn1 & Hg1).
  eapply (args_during w0 i r t g1); [done..| |exact Hfit|exact Hd|exact Hn1|exact Hg1|exact E].
  change (fpages g1) with (task_pages size). unfold TASK_RESERVED_SPACE in Hp1. rewrite En in Hp1. lia.
Qed.

(** [general_execute] keeps the invariant, and the caller goes on with its memory. *)
Lemma general_execute_isolated sz task_info t w r w' : isolated w -> 0 < current_task (wsched w) ->
  zget (task_table (wsched w)) (current_task (wsched w)) = Some (Task t) -> Kheap.size_ok sz ->
  exec_fits w t task_info -> small_files w ->
  general_execute filesystems sz (fun _ => stk) task_info w = Some (r, w') ->
  isolated w' /\ (r <> FAILURE -> current_task (wsched w') = current_task (wsched w) /\
    view (wsched w') (current_task (wsched w)) = Some (foot t)).
Proof.
  intros Hw Hi Ht Hsz Hfit Hsmall H. set (i := current_task (wsched w)) in *.
  assert (forall v, during w i (foot t) [] v ->
    isolated v /\ (r <> FAILURE -> current_task (wsched v) = i /\ view (wsched v) i = Some (foot t))) as Hend
    by (intros v (D1 & D2 & D3 & _); by split).
  assert (during w i (foot t) [] w) as Hd by (split; [done|]; split; [done|]; split; [unfold view; by rewrite Ht|done]).
  unfold general_execute in H. sinv H. apply current_inv in E as [-> ->]. fold i in H.
  sinv H. apply this_task_inv in E as [Ht' ->]. fold i in Ht'. rewrite Ht in Ht'. injection Ht' as <-. cbv zeta in H.
  do 7 (sinv H; apply arg_same in E as ->). sinv H. apply mem_str_same in E as ->.
  sinv H. apply quietly_kmetadata in E as Hq. apply (during_quiet _ _ _ _ _ _ Hq) in Hd.
  destruct a7 as [md|]; [|injection H as _ <-; by apply Hend].
  assert (0 <= Vfs.msize md < 2 ^ 31) as Hs by (by eapply Hsmall). set (size := Vfs.msize md) in *.
  destruct (pages_fit size Hs) as (_ & Hp0 & Hp1 & Hp2). set (n := u32 (task_pages size * PAGE_SIZE)) in *.
  sinv H. edestruct (during_alloc w i (foot t) Hi [] w0 n) as [S1 HH]; [exact Hd| |exact E0|].
  { unfold Kheap.size_ok, TASK_RESERVED_SPACE, PAGE_SIZE, Pmm.PAGE_SIZE in *. lia. }
  destruct HH as [[-> Hd1]|[Hb Hd1]]; [injection H as _ <-; by apply Hend|].
  rewrite (proj2 (Z.eqb_neq _ 0)) in H by done.
  sinv H. destruct (load_during w i (foot t) [] _ _ _ _ _ _ _ _ Hi Hd1 Hs ltac:(lia) E1) as [Hd2 H0].
  destruct (new_task_block i a7 size n Hs eq_refl) as [Hblock Hsane].
  sinv H. destruct (during_create w i (foot t) Hi [] _ _ _ _ _ _ Hd2 Hsz Hblock Hsane H0 E2) as [[-> Ho]|(R0 & R1 & Hd3 & Hn)].
  - change (FAILURE =? FAILURE) with true in H. cbv iota in H. sinv H. injection H as <- <-. split; [|done].
    by apply (kfree_owned print filesystems stk Htame w3 [] (Kheap.Block a7 n) a9 w4 Ho).
  - rewrite (proj2 (Z.eqb_neq _ FAILURE)) in H by (unfold FAILURE; lia). apply Hend.
    by eapply (filled_during w i t a9); [..|exact H].
Qed.

End Programs.
End Programs.
