(* ===== verification/Safety.v ===== *)
(** * The tasks' memories stay apart

    What a task can do, as steps of the kernel of [System.v] between two runs of a task:
    a store through its segment, the system calls and the timer's [task_switch].  Each
    keeps the invariant of [Isolation.v] when the task's pointers lie in its memory; so
    no task's store reaches the memory of another, however long the kernel runs.  The
    bounds are those the task has to respect: what the code itself tests is in the calls.

    Of the table [routine_list] and the special routines of [asm/isr.asm], [execve] (0x03),
    [syscall_new_segment] (0x06), [register_vdev], [vdev_in_ready] and [vdev_out_ready]
    (0x20 to 0x22) are no steps here: the first two break the invariant, the others work
    on devices that are not in the state of [System.v].  All others are. *)

From stdpp Require Import relations.
From S2P Require Import Prelude Mem Pmm Kheap Dev Handle Devfs Gdt Task UserMem VfsPath Vfs Spawn Syscalls System.
From S2P Require Import Transfers Isolation Programs.
Local Open Scope Z_scope.
Local Open Scope st_scope.

Module Safety.
Import Dev Task UserMem Spawn System Isolation Programs.

Section Calls.
Context {DV : Type} (print : list Z -> ST DV unit) (filesystems : list (Vfs.filesystem_t (world DV))).
Context (stk : list Z) (Htame : Forall tame filesystems).
#[local] Instance K : Kernel (world DV) := kernel print filesystems stk.
Implicit Types (w : world DV) (t : task_t).
#[local] Set Default Proof Using "Type*".

(** ** Lemmas: the calls of [syscalls.c] *)

(** The running task. *)
Definition runs w i t : Prop :=
  current_task (wsched w) = i /\ 0 < i /\ zget (task_table (wsched w)) i = Some (Task t) /\
  status t = KRN_STAT_ACTIVE_TASK.

Lemma runs_this w i t t' w' : runs w i t -> this_task w = Some (t', w') -> t' = t /\ w' = w.
Proof using. intros (<- & _ & Ht & _) [Ht' ->]%this_task_inv. rewrite Ht in Ht'. by injection Ht' as <-. Qed.
Lemma runs_view w i t : runs w i t -> view (wsched w) i = Some (foot t).
Proof using. intros (_ & _ & Ht & _). unfold view. by rewrite Ht. Qed.

(** A task that is stored with the same memory and does not wait. *)
Lemma put_runs w i t t' u w' : isolated w -> runs w i t -> put_this t' w = Some (u, w') ->
  base t' = base t -> pages t' = pages t -> heap_base t' = heap_base t -> ipc_queue t' = ipc_queue t ->
  status t' <> KRN_STAT_IOWAIT_TASK -> isolated w'.
Proof.
  intros Hw (<- & _ & Ht & _) H E1 E2 E3 E4 Hs. eapply put_this_isolated; [exact Hw|exact Ht|exact H|done..|].
  by apply (awake_sane _ t); [apply (sane_at w)|..].
Qed.

Lemma quiet_isolated w w' : quiet w w' -> isolated w -> isolated w'.
Proof using. apply quiet_held. Qed.

Lemma terminate_isolated {A} w fuel m1 m2 (r : Syscalls.result A) w' : isolated w -> 0 < current_task (wsched w) ->
  Syscalls.terminate fuel m1 m2 w = Some (r, w') -> isolated w'.
Proof.
  intros Hw Hc H. unfold Syscalls.terminate in H. sinv H. apply quietly_tty_kputs in E as Hq1.
  sinv H. apply quietly_tty_kputs in E0 as Hq2. pose proof (quiet_trans _ _ _ Hq1 Hq2) as Hq.
  sinv H. apply current_inv in E1 as [-> ->]. sinv H. injection H as _ <-.
  eapply quit_isolated; [exact Htame|by eapply quiet_isolated| |exact E1].
  destruct Hq as (_ & -> & _). done.
Qed.

Lemma quiet_gdt w g : quiet w (with_wsched (with_gdt g (wsched w)) w).
Proof. done. Qed.
Lemma quietly_reload_segments : quietly Syscalls.reload_segments.
Proof.
  unfold Syscalls.reload_segments. intros w u w' H. sinv H. apply this_task_inv in E as [_ ->].
  sinv H. apply st_get_inv in E as [-> ->].
  do 3 (sinv H; unfold st_lift in E; destruct (_ : option (list Gdt.dt_entry)); [|done]; injection E as _ <-).
  injection H as _ <-. apply quiet_gdt.
Qed.

(** The size [resize_heap] asks for. *)
Definition heap_pages (sz : Z) : Z := sz / PAGE_SIZE + (if sz mod PAGE_SIZE =? 0 then 0 else 1).

Lemma resize_isolated w i t sz r w' : isolated w -> runs w i t ->
  0 <= sz -> Kheap.size_ok (heap_base t + heap_pages sz * PAGE_SIZE) ->
  Syscalls.resize_heap sz w = Some (r, w') -> isolated w'.
Proof.
  intros Hw Hr Hsz Hn H. pose proof Hr as (Hc & Hi & Ht & Hs). unfold Syscalls.resize_heap in H. fold (heap_pages sz) in H.
  destruct (task_block w i t [] Hw Hi Ht) as (T1 & T2 & T3 & T4 & T5 & T6).
  sinv H. apply (runs_this w i t) in E as [-> ->]; [|done].
  assert (0 <= heap_pages sz) as Hp by (unfold heap_pages, PAGE_SIZE; case_match; zdml).
  pose proof (Z_div_exact_full_2 (heap_base t) PAGE_SIZE ltac:(done) T6) as Ehb.
  assert (0 <= heap_base t / PAGE_SIZE) as Hhb by (apply Z.div_pos; [lia|done]).
  rewrite (u32_small (heap_base t + _)) in H by (unfold Kheap.size_ok, Pmm.PAGE_SIZE in Hn; lia).
  rewrite (u32_small (heap_base t / _ + _)) in H by (unfold Kheap.size_ok, PAGE_SIZE, Pmm.PAGE_SIZE in *; lia).
  sinv H. cbn in E. unfold on_heap in E.
  destruct (Kheap.krealloc (base t) _ (wheap w)) as [[p h]|] eqn:Er; [|done]. injection E as <- <-.
  change (base t) with (fbase (foot t)) in Er.
  destruct (held_realloc _ _ _ _ _ _ _ _ (heap_base t / PAGE_SIZE + heap_pages sz) Hw Hi (runs_view _ _ _ Hr) Hn Er)
    as [[-> Hh]|[Hp0 Hh]]; [lia|lia|cbn; by rewrite Hs| |].
  - by injection H as _ <-.
  - rewrite (proj2 (Z.eqb_neq _ 0)) in H by done. sinv H. sinv H. injection H as _ <-.
    eapply quiet_isolated; [by eapply quietly_reload_segments|].
    unfold put_this in E. sinv E. apply current_inv in E1 as [-> ->]. cbn [wsched with_wheap] in E. rewrite Hc in E.
    apply (set_slot_owned print filesystems stk Htame _ [] i) in E; [exact E|]. eapply held_ext; [|exact Hh].
    intros j. unfold vset. case_decide; reflexivity.
Qed.

(** A store into the memory of a task. *)
Lemma store_isolated w i t o l : isolated w -> 0 < i -> zget (task_table (wsched w)) i = Some (Task t) ->
  0 <= o -> o + zlen l <= pages t * PAGE_SIZE -> isolated (write_bytes (u32 (o + base t)) l w).
Proof using.
  intros Hw Hi Ht Ho Hl. assert (view (wsched w) i = Some (foot t)) as Hv by (unfold view; by rewrite Ht).
  change (base t) with (fbase (foot t)). change (pages t) with (fpages (foot t)) in Hl. destruct l as [|x l].
  - unfold isolated, write_bytes. cbn [wheap wsched with_wheap].
    apply (held_write_task _ _ _ i (foot t) _ (fbase (foot t)) 0); try done; rewrite ?zlen_nil in Hl; try lia.
    intros y Hy. apply store_out. rewrite zlen_nil. lia.
  - rewrite zlen_cons in Hl. pose proof (zlen_nonneg l).
    destruct (task_address w i _ o Hw Hi Hv Ho ltac:(lia)) as [->|?]; [|lia].
    apply (write_isolated w i (foot t)); try done; rewrite ?zlen_cons; lia.
Qed.

(** The text and its end fit. *)
Definition text_fits (to : Z) (l : list Z) t : Prop := 0 <= to /\ to + zlen l + 1 <= pages t * PAGE_SIZE.

Lemma dump_isolated f w i t to u w' : isolated w -> runs w i t -> text_fits to (f t) t ->
  Syscalls.dump f to w = Some (u, w') -> isolated w'.
Proof.
  intros Hw Hr [Ho Hl] H. unfold Syscalls.dump in H. sinv H. apply (runs_this w i t) in E as [-> ->]; [|done].
  injection H as _ <-. destruct Hr as (_ & Hi & Ht & _). apply (store_isolated w i t); try done.
  rewrite zlen_app, zlen_cons, zlen_nil. lia.
Qed.

Lemma send_isolated w i t fuel msgs pid pl len r w' : isolated w -> runs w i t -> Kheap.size_ok len ->
  Syscalls.ipc_send_packet fuel msgs pid pl len w = Some (r, w') -> isolated w'.
Proof.
  intros Hw Hr Hlen H. unfold Syscalls.ipc_send_packet in H. sinv H. apply (runs_this w i t) in E as [-> ->]; [|done].
  pose proof Hr as (Hc & Hi & Ht & Hs). assert (0 < current_task (wsched w)) as Hc0 by lia.
  destruct (_ <=? _); [exact (terminate_isolated w _ _ _ _ _ Hw Hc0 H)|].
  sinv H. apply st_get_inv in E as [-> ->]. sinv H. unfold st_lift in E. destruct (zget _ pid) as [e|]; [|done]. injection E as -> <-.
  destruct (negb _); [exact (terminate_isolated w _ _ _ _ _ Hw Hc0 H)|].
  sinv H. destruct (kalloc_owned print filesystems stk Htame w [] len _ _ Hw Hlen E) as [S1 Hw0].
  destruct (Z.eqb_spec a0 0) as [->|Ha]; [done|]. destruct Hw0 as [[? _]|[_ Hw0]]; [done|]. apply owned_weaken in Hw0.
  sinv H. injection E0 as <- <-. sinv H. apply get_task_inv in E0 as [Hp ->]. sinv H. injection H as _ <-.
  destruct (sane_at _ _ _ Hw0 Hp) as [Hq Hio].
  assert (zlen (bytes_at (wbytes w0) (u32 (pl + base t)) (Z.to_nat len)) = len) as El.
  { rewrite mem_bytes_len. apply Z2Nat.id. by destruct Hlen. }
  set (pkt := MkPacket _ _ _) in E0. assert (Forall whole (ipc_queue a1 ++ [pkt])) as Hq'
    by (apply Forall_app; split; [exact Hq|by constructor]).
  destruct (Z.eqb_spec (status (with_ipc_queue (ipc_queue a1 ++ [pkt]) a1)) KRN_STAT_IPCWAIT_TASK);
    (eapply (put_isolated print filesystems stk); [exact Hw0|exact Hp|exact E0|done..|split; [exact Hq'|]]).
  - done.
  - exact Hio.
Qed.

Lemma push_back_whole n : forall q q', Forall whole q -> Syscalls.push_back n q = Some q' -> Forall whole q'.
Proof using.
  induction n as [|n IH]; intros q q' Hq H; cbn [Syscalls.push_back] in H; [by injection H as <-|].
  obind H. obind H. apply (IH _ _) in H; [done|]. apply zset_Some in E0 as [Hr ->]. apply Forall_insert; [done|].
  rewrite zget_lookup in E by lia. by eapply Forall_lookup_1.
Qed.

(** A task stored with another queue. *)
Lemma put_queue_isolated w j t q u w' : isolated w -> zget (task_table (wsched w)) j = Some (Task t) -> Forall whole q ->
  put_task j (with_ipc_queue q t) w = Some (u, w') -> isolated w'.
Proof.
  intros Hw Ht Hq H. eapply (put_isolated print filesystems stk); [exact Hw|exact Ht|exact H|done..|].
  split; [exact Hq|]. intros io Hio. by apply (sane_at w j t Hw Ht).
Qed.

(** Taking the first packet out of the queues. *)
Lemma pop_isolated w i p (q : list ipc_packet_t) (r : Syscalls.result Z) w' : isolated w -> current_task (wsched w) = i ->
  ((match List.length q with
    | O => st_ret tt
    | _ => let! r := get_task (sender p) in
           let! rq := st_lift (Syscalls.push_back (List.length q) (ipc_queue r)) in
           put_task (sender p) (with_ipc_queue rq r)
    end) ;;
   let! t := this_task in
   put_this (with_ipc_queue (take (List.length q) (ipc_queue t)) t) ;;
   st_ret (Syscalls.Ret (sender p))) w = Some (r, w') -> isolated w'.
Proof.
  intros Hw Hc H. sinv H. assert (isolated w0) as Hw0.
  { destruct (List.length q); [by injection E as _ <-|]. sinv E. apply get_task_inv in E0 as [Hp ->]. sinv E.
    unfold st_lift in E0. destruct (Syscalls.push_back _ _) as [rq|] eqn:Eq; [|done]. injection E0 as <- <-.
    eapply put_queue_isolated; [exact Hw|exact Hp| |exact E].
    eapply push_back_whole; [|exact Eq]. exact (proj1 (sane_at _ _ _ Hw Hp)). }
  sinv H. apply this_task_inv in E0 as [Ht ->]. sinv H. injection H as _ <-.
  unfold put_this in E0. sinv E0. apply current_inv in E1 as [-> ->].
  eapply put_queue_isolated; [exact Hw0|exact Ht| |exact E0].
  apply Forall_take. exact (proj1 (sane_at _ _ _ Hw0 Ht)).
Qed.

(** The sum the code tests against the size of the task does not wrap. *)
Definition packet_fits (pl : Z) t : Prop :=
  match ipc_queue t with p :: _ => 0 <= pl /\ pl + plength p < 2 ^ 32 | [] => True end.

Lemma read_packet_isolated w i t fuel msgs pl r w' : isolated w -> runs w i t -> packet_fits pl t ->
  Syscalls.ipc_read_packet fuel msgs pl w = Some (r, w') -> isolated w'.
Proof.
  intros Hw Hr Hfit H. unfold Syscalls.ipc_read_packet in H. sinv H. apply (runs_this w i t) in E as [-> ->]; [|done].
  pose proof Hr as (Hc & Hi & Ht & Hs). assert (0 < current_task (wsched w)) as Hc0 by lia.
  unfold packet_fits in Hfit. destruct (ipc_queue t) as [|p q] eqn:Eq; [by injection H as _ <-|].
  destruct (Z.leb_spec (Syscalls.memory_size t) (u32 (pl + plength p))) as [_|Hchk];
    [exact (terminate_isolated w _ _ _ _ _ Hw Hc0 H)|].
  destruct (sane_at _ _ _ Hw Ht) as [Hq _]. cbn in Hq. rewrite Eq in Hq. apply Forall_cons in Hq as [Hp Hq].
  destruct (task_block w i t [] Hw Hi Ht) as (T1 & T2 & T3 & T4 & _).
  sinv H. unfold st_lift in E. destruct (payload p) as [bytes|] eqn:Ep; [|done]. injection E as <- <-.
  assert (zlen bytes = plength p) as El by (unfold whole in Hp; by rewrite Ep in Hp). pose proof (zlen_nonneg bytes).
  unfold Syscalls.memory_size in Hchk. rewrite !u32_small in Hchk by (unfold PAGE_SIZE in *; lia).
  sinv H. injection E as _ <-.
  assert (isolated (write_bytes (u32 (pl + base t)) bytes w)) as Hw1 by (apply (store_isolated w i t); try done; lia).
  sinv H. unfold put_this in E. sinv E. apply current_inv in E0 as [-> ->]. cbn [wsched write_bytes with_wheap] in E.
  rewrite Hc in E. eapply (pop_isolated w0 i p q); [| |exact H].
  - eapply put_queue_isolated; [exact Hw1|exact Ht| |exact E]. by constructor.
  - apply set_slot_inv in E as [-> _]. exact Hc.
Qed.

Lemma resolve_isolated w i t fuel msgs nm r w' : isolated w -> runs w i t ->
  Syscalls.ipc_resolve_name fuel msgs nm w = Some (r, w') -> isolated w'.
Proof.
  intros Hw Hr H. unfold Syscalls.ipc_resolve_name in H. sinv H. apply (runs_this w i t) in E as [-> ->]; [|done].
  sinv H. apply (mem_str_same print filesystems stk Htame) in E as ->. destruct Hr as (Hc & Hi & _).
  destruct (_ <=? _); [eapply (terminate_isolated w); [exact Hw|lia|exact H]|].
  sinv H. apply st_get_inv in E as [-> ->]. sinv H. apply quietly_lift in E as Hq. injection H as _ <-.
  by eapply quiet_isolated.
Qed.

(** ** Lemmas: waiting *)

Lemma iowait_isolated w t dv lc pl ty u w' : isolated w -> 0 < current_task (wsched w) ->
  zget (task_table (wsched w)) (current_task (wsched w)) = Some (Task t) -> ty <> Transfers.IO_READ ->
  Syscalls.enter_iowait_status dv lc pl ty w = Some (u, w') -> isolated w'.
Proof.
  intros Hw Hi Ht Hty H. unfold Syscalls.enter_iowait_status in H. sinv H. apply this_task_inv in E as [Ht' ->].
  rewrite Ht in Ht'. injection Ht' as <-. sinv H. apply (mem_str_same print filesystems stk Htame) in E as ->. case_decide; [|done].
  eapply (put_this_isolated print filesystems stk); [exact Hw|exact Ht|exact H|done..|].
  split; [exact (proj1 (sane_at _ _ _ Hw Ht))|]. intros io [= <-]. by split.
Qed.

(** The bytes of a transfer are in the memory of the task. *)
Definition buffer_fits (p l : Z) t : Prop := 0 <= p /\ 0 <= l < 2 ^ 31 /\ p + l <= pages t * PAGE_SIZE.

(** The wait for the rest of a transfer. *)
Lemma iowait1_isolated w hd pt ln ty dn t u w' : isolated w -> 0 < current_task (wsched w) ->
  zget (task_table (wsched w)) (current_task (wsched w)) = Some (Task t) ->
  (ty = Transfers.IO_READ -> buffer_fits pt ln t /\ 0 <= dn <= ln) ->
  Syscalls.enter_iowait_status1 hd pt ln ty dn w = Some (u, w') -> isolated w'.
Proof.
  intros Hw Hc Ht Hfit H. unfold Syscalls.enter_iowait_status1 in H. sinv H. apply this_task_inv in E as [Ht' ->].
  rewrite Ht in Ht'. injection Ht' as <-.
  eapply (put_this_isolated print filesystems stk); [exact Hw|exact Ht|exact H|done..|].
  split; [exact (proj1 (sane_at _ _ _ Hw Ht))|]. intros io [= <-]. split; [done|].
  intros Hty. destruct (Hfit Hty) as [(F1 & F2 & F3) F4]. cbn [ptr done_ len fpages foot pages with_status with_iowait]. 
  cbn in F3. cbn. unfold PAGE_SIZE in *. lia.
Qed.

Lemma sys_read_this w i t n p l r w' : isolated w -> runs w i t -> buffer_fits p l t ->
  sys_read print filesystems n p l w = Some (r, w') ->
  isolated w' /\ current_task (wsched w') = i /\ 0 <= r.1 <= l /\
  exists t', zget (task_table (wsched w')) i = Some (Task t') /\ pages t' = pages t.
Proof.
  intros Hw Hr (F1 & F2 & F3) H. pose proof (runs_view _ _ _ Hr) as Hv. destruct Hr as (Hc & Hi & Ht & _).
  rewrite <- Hc in Hi, Hv. destruct (sys_read_isolated print filesystems Htame _ _ _ _ _ _ (foot t) Hw Hi Hv F1
    (proj1 F2) F3 H) as (Hw' & [S1 S2] & Hb).
  split; [done|]. split; [by rewrite S1|]. split; [done|]. rewrite <- S2, Hc in Hv.
  destruct (view_task _ _ _ Hv) as (t' & Ht' & Ef). exists t'. split; [done|].
  change (fpages (foot t') = fpages (foot t)). by rewrite Ef.
Qed.

Lemma read_call_isolated w i t n p l r w' : isolated w -> runs w i t -> buffer_fits p l t ->
  Transfers.io_call Transfers.IO_READ (sys_read print filesystems) n p l w = Some (r, w') -> isolated w'.
Proof.
  intros Hw Hr Hfit H. unfold Transfers.io_call in H. sinv H.
  destruct (sys_read_this w i t _ _ _ _ _ Hw Hr Hfit E) as (Hw0 & Hc & Hb & t' & Ht' & Hp).
  destruct (_ =? 1); [|by injection H as _ <-]. sinv H. injection H as _ <-. destruct Hr as (_ & Hi & _).
  rewrite <- Hc in Ht'. eapply iowait1_isolated; [exact Hw0|by rewrite Hc|exact Ht'| |exact E0].
  intros _. unfold buffer_fits in *. by rewrite Hp.
Qed.

Lemma write_call_isolated w i t n p l r w' : isolated w -> runs w i t ->
  Transfers.io_call Transfers.IO_WRITE (sys_write print filesystems) n p l w = Some (r, w') -> isolated w'.
Proof.
  intros Hw (Hc & Hi & Ht & _) H. unfold Transfers.io_call in H. sinv H.
  apply quietly_sys_write in E as Hq; [|exact Htame]. pose proof Hq as (_ & Q2 & Q3).
  pose proof (quiet_isolated _ _ Hq Hw) as Hw0.
  destruct (_ =? 1); [|by injection H as _ <-]. sinv H. injection H as _ <-.
  destruct (view_task (wsched w0) i (foot t)) as (t' & Ht' & _); [rewrite Q3; unfold view; by rewrite Ht|].
  rewrite <- Hc, <- Q2 in Ht'.
  refine (iowait1_isolated w0 _ _ _ _ _ t' _ _ Hw0 _ Ht' _ E0); [by rewrite Q2, Hc|done].
Qed.

Lemma safe_task_switch fuel c : safe (task_switch fuel c).
Proof.
  intros w o w' Hw H. unfold task_switch in H. sinv H. apply this_task_inv in E as [Ht ->]. sinv H.
  apply (put_this_quiet _ _ _ _ _ w a) in E; [|exact Ht|done]. sinv H.
  eapply safe_task_scheduler; [exact Htame| |exact H]. refine (safe_modify print filesystems stk _ _ _ _ _ _ E0); [done|].
  by eapply quiet_isolated.
Qed.

Lemma safe_wait {A} fuel c (m : ST (world DV) A) : safe m -> safe (m ;; task_switch fuel c ;; st_ret tt).
Proof.
  intros Hm. apply safe_bind; [exact Hm|]. intros _. apply safe_bind; [apply safe_task_switch|]. intros _.
  apply quietly_safe, quietly_ret.
Qed.

Lemma await_isolated w i t st u w' : isolated w -> runs w i t -> st <> KRN_STAT_IOWAIT_TASK ->
  (let! t := this_task in put_this (with_status st t)) w = Some (u, w') -> isolated w'.
Proof.
  intros Hw Hr Hst H. sinv H. apply (runs_this w i t) in E as [-> ->]; [|done]. by eapply put_runs.
Qed.

(** ** The calls as steps *)

(** What is fixed while the kernel runs: [sizeof(task_t)] and the messages for a task
    that is terminated. *)
Context (sizeof_task : Z) (msgs : list Z * list Z * list Z).

(** A store of the task itself, and the system calls by the names of their handlers: all
    of [routine_list] and the special routines but the five named above. *)
Inductive call :=
  | Store (off v : Z)
  | Quit (v : Z)
  | Fork
  | ResizeHeap (sz : Z)
  | SendPacket (pid pl len : Z)
  | ReadPacket (pl : Z)
  | ResolveName (nm : Z)
  | AwaitPacket
  | AwaitVdev
  | Read (handle ptr len : Z)
  | Write (handle ptr len : Z)
  | VfsRead (path loc val : Z)
  | VfsWrite (path loc val : Z)
  | Pwd (to : Z)
  | WhatStdin (to : Z)
  | WhatStdout (to : Z)
  | WhatStderr (to : Z)
  | Signal (sig handler : Z)
  | Open (path flags mode : Z)
  | Close (handle : Z)
  | Seek (handle offset type : Z)
  | Cd (path : Z)
  | Remove (path : Z)
  | Mkdir (path perms : Z)
  | Create (path perms : Z)
  | GetMetadata (path metadata type : Z)
  | ListEntry (path metadata entry : Z) (with_size : bool)
  | Execute (task_info : Z)
  | ExecuteBlock (task_info : Z)
  | Log (msg : Z)
  | PayloadSender
  | PayloadLength
  | GetHeapBase
  | GetHeapSize
  | GetPid.

(** A call whose task waits goes on with [task_switch]: [fuel] is for the scheduler and
    [regs] are the registers the entry point has saved. *)
Definition wait_switch (fuel : nat) (regs : gpr_state) {A} (m : ST (world DV) A) : ST (world DV) unit :=
  m ;; task_switch fuel regs ;; st_ret tt.
Definition io_step (fuel : nat) (regs : gpr_state) (m : ST (world DV) (option Z)) : ST (world DV) unit :=
  let! r := m in match r with None => wait_switch fuel regs (st_ret tt) | Some _ => st_ret tt end.
(** [vfs_read_isr] and [vfs_write_isr] of [asm/isr.asm]. *)
Definition path_step (fuel : nat) (regs : gpr_state) (type path loc val : Z) : ST (world DV) unit :=
  let! p := Vfs.user_path (K := base_kernel print) path in
  let! r := (if type =? 0 then sys_kread print filesystems stk p loc else sys_kwrite print filesystems stk p loc val) in
  if r =? IO_NOT_READY then wait_switch fuel regs (Syscalls.enter_iowait_status path loc val type) else st_ret tt.

(** The answer of [get_metadata] and [list], a [vfs_metadata_t] of 2048 + 4 + 8 bytes at
    [a]; the [list] of echfs leaves the field [size] as it is. *)
Definition store_metadata (a : Z) (md : Vfs.vfs_metadata_t) (with_size : bool) : ST (world DV) unit :=
  if zlen (Vfs.filename md) <? 2048 then
    mem_write a (Vfs.filename md ++ [0]) ;;
    write_word (u32 (a + 2048)) (Vfs.filetype md) ;;
    if with_size then write_word (u32 (a + 2052)) (Vfs.msize md) ;; write_word (u32 (a + 2056)) (Vfs.msize md / 2 ^ 32)
    else st_ret tt
  else st_fail.
Definition answer (metadata : Z) (with_size : bool) (m : ST (world DV) (option Vfs.vfs_metadata_t)) : ST (world DV) unit :=
  let! t := this_task in
  let! r := m in
  match r with Some md => store_metadata (u32 (metadata + base t)) md with_size | None => st_ret tt end.

Definition perform (fuel : nat) (regs : gpr_state) (k : call) : ST (world DV) unit :=
  match k with
  | Store off v => let! t := this_task in mem_write (u32 (off + base t)) [v]
  | Quit v => task_quit_self fuel v ;; st_ret tt
  | Fork => task_fork filesystems fuel sizeof_task regs ;; st_ret tt
  | ResizeHeap sz => Syscalls.resize_heap sz ;; st_ret tt
  | SendPacket pid pl len => Syscalls.ipc_send_packet fuel msgs pid pl len ;; st_ret tt
  | ReadPacket pl => Syscalls.ipc_read_packet fuel (msgs.1.1, msgs.2) pl ;; st_ret tt
  | ResolveName nm => Syscalls.ipc_resolve_name fuel (msgs.1.1, msgs.2) nm ;; st_ret tt
  | AwaitPacket => wait_switch fuel regs Syscalls.enter_ipcwait_status
  | AwaitVdev => wait_switch fuel regs Syscalls.enter_vdevwait_status
  | Read n p l => io_step fuel regs (Transfers.io_call Transfers.IO_READ (sys_read print filesystems) n p l)
  | Write n p l => io_step fuel regs (Transfers.io_call Transfers.IO_WRITE (sys_write print filesystems) n p l)
  | VfsRead p loc val => path_step fuel regs 0 p loc val
  | VfsWrite p loc val => path_step fuel regs 1 p loc val
  | Pwd to => Syscalls.pwd to
  | WhatStdin to => Syscalls.what_stdin to
  | WhatStdout to => Syscalls.what_stdout to
  | WhatStderr to => Syscalls.what_stderr to
  | Signal sig handler => Syscalls.signal sig handler ;; st_ret tt
  | Open p flags mode => Vfs.vfs_open (K := base_kernel print) filesystems stk p flags mode ;; st_ret tt
  | Close n => Vfs.vfs_close (K := base_kernel print) filesystems n ;; st_ret tt
  | Seek n o ty => Vfs.vfs_seek (K := base_kernel print) filesystems n o ty ;; st_ret tt
  | Cd p => Vfs.vfs_cd (K := base_kernel print) filesystems stk stk p ;; st_ret tt
  | Remove p => Vfs.vfs_remove (K := base_kernel print) filesystems stk p ;; st_ret tt
  | Mkdir p perms => Vfs.vfs_mkdir (K := base_kernel print) filesystems stk p perms ;; st_ret tt
  | Create p perms => Vfs.vfs_create (K := base_kernel print) filesystems stk p perms ;; st_ret tt
  | GetMetadata p md ty => answer md true (Vfs.vfs_get_metadata (K := base_kernel print) filesystems stk p ty)
  | ListEntry p md n sz => answer md sz (Vfs.vfs_list (K := base_kernel print) filesystems stk p n)
  | Execute info => general_execute filesystems sizeof_task (fun _ => stk) info ;; st_ret tt
  | ExecuteBlock info =>
      let! r := general_execute_block filesystems sizeof_task (fun _ => stk) info in
      if r =? -1 then st_ret tt else wait_switch fuel regs (st_ret tt)
  | Log msg => Syscalls.syscall_log msg ;; st_ret tt
  | PayloadSender => Syscalls.ipc_payload_sender ;; st_ret tt
  | PayloadLength => Syscalls.ipc_payload_length ;; st_ret tt
  | GetHeapBase => Syscalls.get_heap_base ;; st_ret tt
  | GetHeapSize => Syscalls.get_heap_size ;; st_ret tt
  | GetPid => Syscalls.getpid ;; st_ret tt
  end.

(** What the running task [t] has to respect when it makes the call [k] in the state
    [w]. *)
Definition in_bounds w (k : call) t : Prop :=
  match k with
  | Store off _ => 0 <= off < pages t * PAGE_SIZE
  | Fork => Kheap.size_ok sizeof_task /\ tables_ok t
  | ResizeHeap sz => 0 <= sz /\ Kheap.size_ok (heap_base t + heap_pages sz * PAGE_SIZE)
  | SendPacket _ _ len => Kheap.size_ok len
  | ReadPacket pl => packet_fits pl t
  | Read _ p l => buffer_fits p l t
  | Pwd to => text_fits to (Task.pwd t) t
  | WhatStdin to => text_fits to (stdin (names t)) t
  | WhatStdout to => text_fits to (stdout (names t)) t
  | WhatStderr to => text_fits to (stderr (names t)) t
  | GetMetadata _ md _ | ListEntry _ md _ _ => 0 <= md /\ md + 2060 <= pages t * PAGE_SIZE
  | Execute info | ExecuteBlock info =>
      exec_fits w t info /\ small_files print filesystems stk w /\ Kheap.size_ok sizeof_task
  | _ => True
  end.

(** One step of the whole: a call of the running task, the timer, or an interrupt that
    changes the state of the drivers. *)
Inductive step : world DV -> world DV -> Prop :=
  | step_call w i t k fuel regs w' : runs w i t -> in_bounds w k t -> perform fuel regs k w = Some (tt, w') -> step w w'
  | step_timer w fuel regs o w' : task_switch fuel regs w = Some (o, w') -> step w w'
  | step_driver w dv : step w (with_wdrv (Devfs.with_world dv (wdrv w)) w).

(** ** Lemmas: every step keeps the invariant *)

Lemma then_isolated {A} (m : ST (world DV) A) w u w' :
  (forall a w1, m w = Some (a, w1) -> isolated w1) -> (m ;; st_ret tt) w = Some (u, w') -> isolated w'.
Proof using. intros Hm H. sinv H. injection H as _ <-. by eapply Hm. Qed.
Lemma quietly_isolated {A} (m : ST (world DV) A) w u w' : isolated w -> quietly m ->
  (m ;; st_ret tt) w = Some (u, w') -> isolated w'.
Proof using. intros Hw Hm. apply then_isolated. intros a w1 H. by eapply quiet_isolated; [eapply Hm|]. Qed.

Lemma wait_isolated {A} fuel regs (m : ST (world DV) A) w u w' :
  (forall a w1, m w = Some (a, w1) -> isolated w1) -> wait_switch fuel regs m w = Some (u, w') -> isolated w'.
Proof.
  intros Hm H. unfold wait_switch in H. sinv H. eapply (then_isolated _ w0); [|exact H].
  intros b w2. apply safe_task_switch. by eapply Hm.
Qed.

Lemma io_isolated fuel regs m w u w' : (forall a w1, m w = Some (a, w1) -> isolated w1) ->
  io_step fuel regs m w = Some (u, w') -> isolated w'.
Proof.
  intros Hm H. unfold io_step in H. sinv H. apply Hm in E. destruct a; [by injection H as _ <-|].
  eapply wait_isolated; [|exact H]. by intros a w1 [= _ <-].
Qed.

Lemma path_isolated w i t fuel regs ty p lc x u w' : isolated w -> runs w i t -> ty = 0 \/ ty = 1 ->
  path_step fuel regs ty p lc x w = Some (u, w') -> isolated w'.
Proof.
  intros Hw Hr Hty H. unfold path_step in H. sinv H.
  pose proof (quietly_user_path print filesystems Htame _ _ _ _ E) as Hq1. sinv H.
  assert (quiet w0 w1) as Hq2.
  { revert E0. destruct (_ =? 0); [apply (quietly_sys_kread print filesystems stk Htame)|
      apply (quietly_sys_kwrite print filesystems stk Htame)]. }
  pose proof (quiet_trans _ _ _ Hq1 Hq2) as Hq. pose proof (quiet_isolated _ _ Hq Hw) as Hw1.
  destruct (a0 =? _); [|by injection H as _ <-]. eapply wait_isolated; [|exact H]. intros a1 w2 E1.
  destruct Hr as (<- & Hi & Ht & _). destruct Hq as (_ & Hc & Hv).
  destruct (view_task (wsched w1) (current_task (wsched w)) (foot t)) as (t' & Ht' & _);
    [rewrite Hv; unfold view; by rewrite Ht|]. rewrite <- Hc in Hi, Ht'.
  eapply iowait_isolated; [exact Hw1|exact Hi|exact Ht'| |exact E1]. by destruct Hty as [-> | ->].
Qed.

Lemma answer_isolated w i t md sz m u w' : isolated w -> runs w i t -> 0 <= md -> md + 2060 <= pages t * PAGE_SIZE ->
  quietly m -> answer md sz m w = Some (u, w') -> isolated w'.
Proof.
  intros Hw Hr Hmd Hfit Hm H. unfold answer in H. sinv H. apply (runs_this w i t) in E as [-> ->]; [|done].
  sinv H. apply Hm in E as Hq. destruct a as [r|]; [|injection H as _ <-; by eapply quiet_isolated].
  pose proof (runs_view _ _ _ Hr) as Hv. destruct Hr as (_ & Hi & _). apply (quiet_isolated _ _ Hq) in Hw.
  destruct Hq as (_ & _ & Hq). rewrite <- Hq in Hv. clear E Hq.
  destruct (view_bounds w0 [] i _ Hw Hi Hv) as [B1 B2]. cbn [foot fbase fpages] in B1, B2. unfold store_metadata in H.
  destruct (Z.ltb_spec (zlen (Vfs.filename r)) 2048); [|done]. rewrite (u32_small (md + base t)) in H by lia.
  assert (forall v o l x v', isolated v /\ view (wsched v) i = Some (foot t) -> 0 <= o -> o + zlen l <= 2060 ->
    mem_write (md + base t + o) l v = Some (x, v') -> isolated v' /\ view (wsched v') i = Some (foot t)) as Hst.
  { intros v o l x v' [Hd1 Hd2] Ho Hl [= _ <-]. split; [|done].
    apply (write_isolated v i (foot t)); [done|done|done|cbn [foot fbase]; lia|cbn [foot fbase fpages]; lia]. }
  pose proof (conj Hw Hv) as Hd. sinv H. rewrite <- (Z.add_0_r (md + base t)) in E.
  apply Hst in E; [|exact Hd|lia|rewrite zlen_app; change (zlen [0]) with 1; lia].
  sinv H. rewrite u32_small in E0 by lia. apply Hst in E0; [|exact E|lia|discriminate].
  destruct sz; [|injection H as _ <-; exact (proj1 E0)]. sinv H. rewrite u32_small in E1 by lia. apply Hst in E1; [|exact E0|lia|discriminate].
  rewrite u32_small in H by lia. apply Hst in H; [|exact E1|lia|discriminate]. by destruct H.
Qed.

Lemma execute_isolated w i t info r w' : isolated w -> runs w i t ->
  exec_fits w t info /\ small_files print filesystems stk w /\ Kheap.size_ok sizeof_task ->
  general_execute filesystems sizeof_task (fun _ => stk) info w = Some (r, w') ->
  isolated w' /\ (r <> Task.FAILURE -> current_task (wsched w') = i /\ view (wsched w') i = Some (foot t)).
Proof.
  intros Hw (<- & Hi & Ht & _) (H1 & H2 & H3) H.
  exact (general_execute_isolated print filesystems stk Htame sizeof_task info t w r w' Hw Hi Ht H3 H1 H2 H).
Qed.

Lemma perform_isolated w i t k fuel regs w' : isolated w -> runs w i t -> in_bounds w k t ->
  perform fuel regs k w = Some (tt, w') -> isolated w'.
Proof.
  intros Hw Hr Hb H. pose proof Hr as (Hc & Hi & Ht & Hs).
  destruct k; cbn [perform in_bounds] in Hb, H.
  - sinv H. apply (runs_this w i t) in E as [-> ->]; [|done]. injection H as <-. apply (store_isolated w i t); [done|done|done|lia|change (zlen [v]) with 1; lia].
  - eapply then_isolated; [|exact H]. intros a w1 E. unfold task_quit_self in E. sinv E. apply current_inv in E0 as [-> ->].
    refine (quit_isolated print filesystems stk Htame w fuel _ v a w1 Hw _ E). lia.
  - eapply then_isolated; [|exact H]. intros a w1 E. destruct Hb as [Hb1 Hb2]. rewrite <- Hc in Hi, Ht.
    eapply fork_isolated; [exact Htame|exact Hw|exact Hi|exact Ht|by rewrite Hs|exact Hb1|exact Hb2|exact E].
  - eapply then_isolated; [|exact H]. intros a w1. destruct Hb. by eapply resize_isolated.
  - eapply then_isolated; [|exact H]. intros a w1. by eapply send_isolated.
  - eapply then_isolated; [|exact H]. intros a w1. by eapply read_packet_isolated.
  - eapply then_isolated; [|exact H]. intros a w1. by eapply resolve_isolated.
  - eapply wait_isolated; [|exact H]. intros a w1 E. unfold Syscalls.enter_ipcwait_status in E. sinv E.
    apply (runs_this w i t) in E0 as [-> ->]; [|done]. destruct (ipc_queue t); [|by injection E as _ <-].
    by eapply put_runs; [exact Hw|exact Hr|exact E|..].
  - eapply wait_isolated; [|exact H]. intros a w1 E. by eapply await_isolated; [exact Hw|exact Hr| |exact E].
  - eapply io_isolated; [|exact H]. intros a w1. by eapply read_call_isolated.
  - eapply io_isolated; [|exact H]. intros a w1. by eapply write_call_isolated.
  - eapply path_isolated; [exact Hw|exact Hr| |exact H]. by left.
  - eapply path_isolated; [exact Hw|exact Hr| |exact H]. by right.
  - exact (dump_isolated _ w i t to _ _ Hw Hr Hb H).
  - exact (dump_isolated (fun t => stdin (names t)) w i t to _ _ Hw Hr Hb H).
  - exact (dump_isolated (fun t => stdout (names t)) w i t to _ _ Hw Hr Hb H).
  - exact (dump_isolated (fun t => stderr (names t)) w i t to _ _ Hw Hr Hb H).
  - eapply then_isolated; [|exact H]. intros a w1 E. unfold Syscalls.signal in E. sinv E.
    apply (runs_this w i t) in E0 as [-> ->]; [|done]. destruct (zget (signals t) sig); [|by injection E as _ <-].
    sinv E. unfold st_lift in E0. destruct (zset _ _ _); [|done]. injection E0 as -> <-. sinv E. injection E as _ <-.
    eapply put_runs; [exact Hw|exact Hr|exact E0|done..|]. change (status t <> KRN_STAT_IOWAIT_TASK). by rewrite Hs.
  - exact (quietly_isolated _ w _ w' Hw (quietly_vfs_open print filesystems Htame _ _ _ _) H).
  - exact (quietly_isolated _ w _ w' Hw (quietly_vfs_close print filesystems Htame _) H).
  - exact (quietly_isolated _ w _ w' Hw (quietly_vfs_seek print filesystems Htame _ _ _) H).
  - exact (quietly_isolated _ w _ w' Hw (quietly_vfs_cd print filesystems Htame _ _ _) H).
  - exact (quietly_isolated _ w _ w' Hw (quietly_vfs_remove print filesystems Htame _ _) H).
  - exact (quietly_isolated _ w _ w' Hw (quietly_vfs_mkdir print filesystems Htame _ _ _) H).
  - exact (quietly_isolated _ w _ w' Hw (quietly_vfs_create print filesystems Htame _ _ _) H).
  - destruct Hb. by eapply answer_isolated; [exact Hw|exact Hr|done|done|apply (quietly_vfs_get_metadata print filesystems Htame)|exact H].
  - destruct Hb. by eapply answer_isolated; [exact Hw|exact Hr|done|done|apply (quietly_vfs_list print filesystems Htame)|exact H].
  - eapply then_isolated; [|exact H]. intros a w1 E. by eapply execute_isolated.
  - sinv H. unfold general_execute_block in E. sinv E. destruct (execute_isolated _ _ _ _ _ _ Hw Hr Hb E0) as [Hw0 Hv0].
    destruct (Z.eqb_spec a0 Task.FAILURE) as [_|Hne]; [injection E as <- <-; by injection H as <-|].
    destruct (Hv0 Hne) as [Hc0 Hv]. sinv E. apply this_task_inv in E1 as [Ht0 ->]. sinv E. injection E as <- <-.
    eapply wait_isolated; [|exact H]. intros a' w'' [= _ <-].
    eapply put_this_isolated; [exact Hw0|exact Ht0|exact E1|done..|].
    by apply (awake_sane _ a1); [apply (sane_at w1)|..].
  - refine (quietly_isolated _ w _ w' Hw _ H). unfold Syscalls.syscall_log. quiet.
  - refine (quietly_isolated _ w _ w' Hw _ H). unfold Syscalls.ipc_payload_sender. quiet.
  - refine (quietly_isolated _ w _ w' Hw _ H). unfold Syscalls.ipc_payload_length. quiet.
  - refine (quietly_isolated _ w _ w' Hw _ H). unfold Syscalls.get_heap_base. quiet.
  - refine (quietly_isolated _ w _ w' Hw _ H). unfold Syscalls.get_heap_size. quiet.
  - refine (quietly_isolated _ w _ w' Hw _ H). unfold Syscalls.getpid. quiet.
Qed.

Lemma step_isolated w w' : isolated w -> step w w' -> isolated w'.
Proof.
  intros Hw H. destruct H as [w i t k fuel regs w' Hr Hb E|w fuel regs o w' E|w dv].
  - by eapply perform_isolated.
  - by eapply safe_task_switch.
  - done.
Qed.
Lemma steps_isolated w w' : isolated w -> rtc step w w' -> isolated w'.
Proof. intros Hw H. induction H as [|w w1 w' H _ IH]; [done|]. by eapply IH, step_isolated. Qed.

(** The calls that store for the running task and do nothing else: the offset and the
    bytes. *)
Definition stored (k : call) t : option (Z * list Z) :=
  match k with
  | Store off v => Some (off, [v])
  | Pwd to => Some (to, Task.pwd t ++ [0])
  | WhatStdin to => Some (to, stdin (names t) ++ [0])
  | WhatStdout to => Some (to, stdout (names t) ++ [0])
  | WhatStderr to => Some (to, stderr (names t) ++ [0])
  | _ => None
  end.

Lemma stored_spec w i t k off l fuel regs u w' : runs w i t -> stored k t = Some (off, l) ->
  perform fuel regs k w = Some (u, w') -> w' = write_bytes (u32 (off + base t)) l w.
Proof using.
  intros Hr Hk H. destruct k; try discriminate Hk; injection Hk as <- <-;
    (sinv H; apply (runs_this w i t) in E as [-> ->]; [|done]; by injection H as _ <-).
Qed.
Lemma zlen_snoc1 {A} (l : list A) x : zlen (l ++ [x]) = zlen l + 1.
Proof using. by rewrite zlen_app. Qed.
Lemma stored_bounds w k t off l : in_bounds w k t -> stored k t = Some (off, l) ->
  0 <= off /\ 0 < zlen l /\ off + zlen l <= pages t * PAGE_SIZE.
Proof using.
  intros Hb Hk. destruct k; try discriminate Hk; injection Hk as <- <-; cbn [in_bounds] in Hb; unfold text_fits in Hb;
    [change (zlen [v]) with 1; lia|rewrite zlen_snoc1; match goal with |- context [zlen ?l] => pose proof (zlen_nonneg l) end; lia..].
Qed.

(** What a store of a task changes: only bytes of its own memory. *)
Lemma store_own w i t off l j g x : isolated w -> runs w i t -> 0 <= off -> 0 < zlen l -> off + zlen l <= pages t * PAGE_SIZE ->
  0 < j -> j <> i -> view (wsched w) j = Some g -> in_task g x ->
  wbytes (write_bytes (u32 (off + base t)) l w) x = wbytes w x.
Proof using.
  intros Hw Hr H0 Hl Hfit Hj Hij Hg Hx. pose proof (runs_view _ _ _ Hr) as Hv. destruct Hr as (_ & Hi & _).
  destruct (task_address w i _ off Hw Hi Hv H0) as [Ea|Ea]; cbn [foot fpages fbase] in *; [lia| |lia].
  rewrite Ea. unfold wbytes, write_bytes. cbn [wheap with_wheap Kheap.hmem Kheap.with_mem]. f_equal. apply store_out.
  destruct (decide (base t + off <= x < base t + off + zlen l)) as [Hin|]; [|lia]. exfalso.
  apply (held_apart _ _ _ j i g (foot t) x Hw Hj Hi Hij Hg Hv Hx). unfold in_task. cbn [foot fpages fbase]. lia.
Qed.

End Calls.

(** The first task of the kernel, with nothing allocated for tasks, has the invariant. *)
Lemma start_isolated {DV} (w : world DV) bs n : Kheap.kheap_inv (wheap w) bs ->
  task_table (wsched w) = Task kernel_task :: replicate n NoTask -> isolated w.
Proof.
  intros Hk Ht. assert (forall i f, view (wsched w) i = Some f -> i = 0 /\ f = foot kernel_task) as Hv.
  { intros i f. unfold view. rewrite Ht. destruct (zget _ i) as [[| |t]|] eqn:E; try done. intros [= <-].
    rewrite zget_cons in E. destruct (decide (i = 0)) as [->|Hi]; [by injection E as <-|].
    unfold zget in E. case_decide; [|done]. apply lookup_replicate_1 in E as [? _]. done. }
  exists bs. split; [done|]. split; [|split].
  - intros i f Hi Hf. apply Hv in Hf as [-> _]. lia.
  - intros i j f g Hi _ _ Hf. apply Hv in Hf as [-> _]. lia.
  - intros i f Hf. apply Hv in Hf as [_ ->]. split; [constructor|]. cbn. done.
Qed.

(** * Properties *)


(** * Witnesses

    One task of a page, which forks; a byte stored by it, then, after the timer, by the
    new task. *)

Definition silent : list Z -> ST unit unit := fun _ => st_ret tt.
Definition demo_heap : Kheap.heap_st := match Kheap.kalloc 4096 Kheap.demo_heap with Some r => r.2 | None => Kheap.demo_heap end.
Definition demo_task : task_t := with_status KRN_STAT_ACTIVE_TASK (with_base 0x101000 1 kernel_task).
Definition demo_world : world unit :=
  MkWorld (MkSched (Task kernel_task :: Task demo_task :: replicate 4 NoTask) 1 0 (Gdt.load_gdt 0 104))
    demo_heap [] 0 0 (Devfs.MkState [] [] tt 0).

Lemma demo_isolated : isolated demo_world.
Proof.
  destruct (Kheap.kalloc_ok 4096 Kheap.demo_heap [] Kheap.demo_heap_inv) as (p & st & E & H).
  { unfold Kheap.size_ok, Pmm.PAGE_SIZE. lia. }
  assert (fst <$> Kheap.kalloc 4096 Kheap.demo_heap = Some 0x101000) as Ep by (vm_compute; reflexivity).
  rewrite E in Ep. cbn in Ep. injection Ep as ->. destruct H as [[? _]|(_ & H & _)]; [lia|].
  assert (forall i f, view (wsched demo_world) i = Some f -> (i = 0 /\ f = foot kernel_task) \/ (i = 1 /\ f = foot demo_task)) as Hv.
  { intros i f. unfold view. change (task_table (wsched demo_world)) with (Task kernel_task :: Task demo_task :: replicate 4 NoTask).
    rewrite !zget_cons. destruct (decide (i = 0)) as [H0|_]; [intros E0; left; split; [exact H0|exact (eq_sym (inj Some _ _ E0))]|].
    destruct (decide (i - 1 = 0)) as [H1|_]; [intros E0; right; split; [lia|exact (eq_sym (inj Some _ _ E0))]|].
    unfold zget. case_decide; [|discriminate]. destruct (replicate 4 NoTask !! _) as [e|] eqn:Er; [|discriminate].
    apply lookup_replicate_1 in Er as [-> _]. discriminate. }
  exists [Kheap.Block 0x101000 4096]. split; [|split; [|split]].
  - unfold demo_world, demo_heap. cbn [wheap]. rewrite E. exact H.
  - intros i f Hi [[-> ->]|[-> ->]]%Hv; [lia|]. eexists. split; [by apply list_elem_of_singleton|].
    split; [reflexivity|]. split; [discriminate|]. split; [discriminate|]. split; [split; [discriminate|reflexivity]|reflexivity].
  - intros i j f g Hi Hj Hij [[-> _]|[-> _]]%Hv [[-> _]|[-> _]]%Hv; lia.
  - intros i f Hf. assert (fqueue f = [] /\ fwait f = None) as [E1 E2] by (apply Hv in Hf as [[_ ->]|[_ ->]]; by split).
    split; [rewrite E1; constructor|]. intros io. by rewrite E2.
Qed.

#[local] Notation demo_perform k w := (perform silent [devfs] [] 8000 ([], [], []) 10 default_cpu_status k w).
#[local] Notation demo_switch w := (task_switch (K := kernel silent [devfs] []) 10 default_cpu_status w).
Definition result_of {A} (d : world unit) (o : option (A * world unit)) : world unit :=
  match o with Some r => r.2 | None => d end.

Definition demo_forked : world unit := result_of demo_world (demo_perform Fork demo_world).
Definition demo_stored : world unit := result_of demo_world (demo_perform (Store 5 42) demo_forked).
Definition demo_switched : world unit := result_of demo_world (demo_switch demo_stored).
Definition demo_end : world unit := result_of demo_world (demo_perform (Store 5 43) demo_switched).

Lemma result_ok (d : world unit) o : (match o with Some _ => true | None => false end) = true -> o = Some (tt, result_of d o).
Proof. by destruct o as [[[] w]|]. Qed.
Lemma switched_ok (d : world unit) (o : option (outcome * world unit)) :
  (match o with Some (Run 2, _) => true | _ => false end) = true -> o = Some (Run 2, result_of d o).
Proof. destruct o as [[[p|] w]|]; try done. destruct p as [|[| [] |]|]; done. Qed.

(** The task of an entry of the table. *)
Definition demo_task_of (i : Z) (w : world unit) : task_t :=
  match zget (task_table (wsched w)) i with Some (Task t) => t | _ => kernel_task end.
Lemma demo_runs (w : world unit) i : 0 < i -> current_task (wsched w) = i ->
  (match zget (task_table (wsched w)) i with Some (Task t) => status t =? KRN_STAT_ACTIVE_TASK | _ => false end) = true ->
  runs w i (demo_task_of i w).
Proof.
  intros Hi Hc H. split; [done|]. split; [done|]. unfold demo_task_of. destruct (zget _ i) as [[| |t]|]; try done.
  split; [done|]. by apply Z.eqb_eq.
Qed.

Lemma demo_fork_ok : demo_perform Fork demo_world = Some (tt, demo_forked).
Proof. unfold demo_forked. apply result_ok. vm_compute. reflexivity. Qed.
Lemma demo_store_ok : demo_perform (Store 5 42) demo_forked = Some (tt, demo_stored).
Proof. unfold demo_stored. apply result_ok. vm_compute. reflexivity. Qed.
Lemma demo_switch_ok : demo_switch demo_stored = Some (Run 2, demo_switched).
Proof. unfold demo_switched. apply switched_ok. vm_compute. reflexivity. Qed.
Lemma demo_end_ok : demo_perform (Store 5 43) demo_switched = Some (tt, demo_end).
Proof. unfold demo_end. apply result_ok. vm_compute. reflexivity. Qed.

Lemma demo_reaches : rtc (step silent [devfs] [] 8000 ([], [], [])) demo_world demo_switched.
Proof.
  eapply rtc_l.
  { apply (step_call _ _ _ _ _ demo_world 1 (demo_task_of 1 demo_world) Fork 10 default_cpu_status demo_forked).
    - apply demo_runs; [done|reflexivity|vm_compute; reflexivity].
    - split; [|split]; (split; [vm_compute; discriminate|vm_compute; discriminate]).
    - exact demo_fork_ok. }
  eapply rtc_l.
  { apply (step_call _ _ _ _ _ demo_forked 1 (demo_task_of 1 demo_forked) (Store 5 42) 10 default_cpu_status demo_stored).
    - apply demo_runs; [done|vm_compute; reflexivity|vm_compute; reflexivity].
    - split; [discriminate|vm_compute; reflexivity].
    - exact demo_store_ok. }
  eapply rtc_l; [|apply rtc_refl].
  apply (step_timer _ _ _ _ _ demo_stored 10 default_cpu_status (Run 2) demo_switched).
  exact demo_switch_ok.
Qed.

(** The step [Execute]: a task of a page starts the program of three bytes at ["/a"]
    with the argument ["hi"]. *)
Definition program_fs : Vfs.filesystem_t (world unit) := Vfs.MkFilesystem (world unit) [112]
  (fun _ _ _ => st_ret 0) (fun _ _ _ _ => st_ret 0) (fun _ _ => st_ret 0) (fun _ _ _ => st_ret 0) (fun _ _ _ => st_ret 0)
  (fun p ty _ => st_ret (if ty =? 0 then Some (Vfs.MkMetadata p 0 3) else None))
  (fun _ _ _ => st_ret None) (fun _ => st_ret 0) (fun _ _ _ _ => st_ret 0) (fun _ => st_ret 0) (fun _ => st_ret 0)
  (fun _ n => st_ret (Z.min 3 (Z.max 0 n), take (Z.to_nat n) [1; 2; 3])) (fun _ _ => st_ret 0) (fun _ _ _ => st_ret 0).
Lemma program_fs_tame : tame program_fs.
Proof.
  split; intros; cbn; try apply quietly_ret. cbn [Vfs.fs_uread program_fs] in H. injection H as <- <-. cbn [fst snd].
  unfold zlen. rewrite length_take. cbn [length]. lia.
Qed.
Definition program_info : mem :=
  store_bytes (store_bytes (store_bytes (store_bytes (store_bytes (fun _ => 0)
    0x101000 (concat (le32 <$> [100; 120; 120; 120; 130; 130; 130; 1; 200])))
    0x101064 [47; 97; 0]) 0x101078 [47; 100; 0]) 0x101082 [47; 0])
    0x1010C8 (le32 300 ++ replicate 96 0 ++ [104; 105; 0]).
Definition program_world : world unit :=
  MkWorld (wsched demo_world)
    (Kheap.MkHeapSt (Pmm.MkPmm 0x80000 (replicate 258 true ++ replicate 64 false) 0 0x142000) program_info)
    [VfsPath.MkMountpoint [47] [] [112]] 0 0 (Devfs.MkState [] [] tt 0).
#[local] Notation program_perform k w :=
  (perform silent [program_fs] (replicate 2048 0) 8000 ([], [], []) 10 default_cpu_status k w).

Lemma program_starts : in_bounds silent [program_fs] (replicate 2048 0) 8000 program_world (Execute 0) demo_task /\
  exists w', program_perform (Execute 0) program_world = Some (tt, w') /\ base (demo_task_of 2 w') = 0x103000 /\
    bytes_at (wbytes w') 0x113000 3 = [1; 2; 3] /\ bytes_at (wbytes w') 0x107000 3 = [104; 105; 0].
Proof.
  split; [split; [|split]|].
  - exists [[104; 105]], 200. unfold args_within, cstr_at. repeat split; try (vm_compute; discriminate); try reflexivity.
    repeat constructor; discriminate.
  - apply (small_files_ok silent [program_fs] (replicate 2048 0)).
    + constructor; [exact program_fs_tame|constructor].
    + constructor; [|constructor]. intros p d v md v' [= <- _]. cbn. lia.
  - split; [vm_compute; discriminate|vm_compute; discriminate].
  - exists (result_of program_world (program_perform (Execute 0) program_world)).
    split; [apply result_ok; vm_compute; reflexivity|]. split; [vm_compute; reflexivity|]. split; vm_compute; reflexivity.
Qed.


End Safety.
