(* ===== verification/Startup.v ===== *)
(** * The start of the boot: [kernel_init] of [kernel/init.c], up to the first task

    The interrupt controllers are masked and mapped, the tables of the processor are
    filled, the terminals drawn, the free pages found, the timer sped up and the task
    table made.  [Boot.v] has the end of the boot; between the two the drivers register
    their devices.  The state here is what these calls leave behind: the ports, the
    two tables, the console and the memory; [early_init] returns from them the state
    [System.world] in which the tasks run. *)

From S2P Require Import Prelude Pmm Mem Kheap Tty Chardev Interrupts Dev Devfs Gdt Task UserMem VfsPath Vfs RealMode System Isolation Safety.
Local Open Scope Z_scope.
Local Open Scope st_scope.

Module Startup.
Import System Task Isolation.

Definition KRNL_PIT_FREQ : Z := 4000.

(** Addresses the build determines: the real-mode code, the entry points of the
    interrupts, the task state segment; and [sizeof(task_t)]. *)
Record build := MkBuild {
  rm_int_begin : Z; rm_int_end : Z;
  exception_thunks : list Z; irq0 : Z; keyboard_isr : Z; syscall : Z; escalate : Z;
  TSS : Z; TSS_size : Z;
  sizeof_task : Z
}.

Record machine (P : Type) := MkMachine {
  ports : P; idt : list Interrupts.idt_entry; gdt : list Gdt.dt_entry; screen : Tty.console; memory : mem
}.
#[global] Arguments MkMachine {P} _ _ _ _ _. #[global] Arguments ports {P} _. #[global] Arguments idt {P} _.
#[global] Arguments gdt {P} _. #[global] Arguments screen {P} _. #[global] Arguments memory {P} _.

Section Startup.
Context {P : Type} {HP : Chardev.Ports P}.
Context {DV : Type} (print : list Z -> ST DV unit) (dv : DV).

Definition on_hardware {A} (m : ST P A) : ST (machine P) A := fun s =>
  match m (ports s) with Some (a, p) => Some (a, MkMachine p (idt s) (gdt s) (screen s) (memory s)) | None => None end.
Definition on_idt (f : list Interrupts.idt_entry -> option (list Interrupts.idt_entry)) : ST (machine P) unit := fun s =>
  i ← f (idt s); Some (tt, MkMachine (ports s) i (gdt s) (screen s) (memory s)).
Definition set_gdt (g : list Gdt.dt_entry) : ST (machine P) unit := fun s =>
  Some (tt, MkMachine (ports s) (idt s) g (screen s) (memory s)).
Definition on_screen (f : Tty.console -> option Tty.console) : ST (machine P) unit := fun s =>
  c ← f (screen s); Some (tt, MkMachine (ports s) (idt s) (gdt s) c (memory s)).
Definition on_memory (f : mem -> mem) : ST (machine P) unit := fun s =>
  Some (tt, MkMachine (ports s) (idt s) (gdt s) (screen s) (f (memory s))).

(** No task, device, handle or mount point yet; [idle_cpu] is 1 from the start. *)
Definition first_world (pm : Pmm.pmm) (s : machine P) : world DV :=
  MkWorld (MkSched [] 0 1 (gdt s)) (Kheap.MkHeapSt pm (memory s)) [] 0 0 (Devfs.MkState [] [] dv 0).

(** [kernel_init] up to [task_init]; a panic is [None]. *)
Definition setup_tables (b : build) : ST (machine P) unit :=
  on_memory (RealMode.init_realmode (rm_int_begin b) (rm_int_end b)) ;;
  on_hardware (Interrupts.set_PIC0_mask 0xff) ;;
  on_hardware (Interrupts.set_PIC1_mask 0xff) ;;
  on_hardware (Interrupts.map_PIC 0x20 0x28) ;;
  on_idt (Interrupts.load_idt (exception_thunks b) (irq0 b) (keyboard_isr b) (syscall b) (escalate b)) ;;
  set_gdt (Gdt.load_gdt (TSS b) (TSS_size b)).
(** [_BIG_FONTS_] is defined: the screen keeps its 25 rows. *)
Definition setup_screen : ST (machine P) unit :=
  on_hardware (Chardev.port_out_b 0x3d4 0x0a) ;;
  on_hardware (Chardev.port_out_b 0x3d5 0x20) ;;
  on_screen Tty.init_tty ;;
  on_screen (Tty.switch_tty 0).
Definition early_init (b : build) (memory_map : list Pmm.mmap_entry) : ST (machine P) (world DV) :=
  setup_tables b ;;
  setup_screen ;;
  let! pm := st_lift (Pmm.init_pmm memory_map) in
  on_hardware (Interrupts.set_pit_freq KRNL_PIT_FREQ) ;;
  fun s => match task_init (K := base_kernel print) (sizeof_task b) (first_world pm s) with
           | Some (_, w) => Some (w, s)
           | None => None
           end.

(** ** Specification *)

(** Writes to ports, in order. *)
Fixpoint outs (l : list (Z * Z)) : ST P unit :=
  match l with [] => st_ret tt | (port, v) :: l => Chardev.port_out_b port v ;; outs l end.

(** All interrupts are masked before and after the controllers are told their vectors. *)
Definition pic_writes : list (Z * Z) :=
  [(0x21, 0xff); (0xA1, 0xff);
   (0x20, 0x11); (0xA0, 0x11); (0x21, 0x20); (0xA1, 0x28); (0x21, 0x04); (0xA1, 0x02); (0x21, 0x01); (0xA1, 0x01);
   (0x21, 0xff); (0xA1, 0xff)].
(** The cursor is hidden; the timer divides its 1193182 Hz by 298. *)
Definition other_writes : list (Z * Z) := [(0x3d4, 0x0a); (0x3d5, 0x20); (0x40, 298 mod 256); (0x40, 298 / 256)].

(** An interrupt controller (8259A) as far as the boot uses it: its mask, the words of an
    initialisation it still waits for, and its first vector. *)
Inductive icw := ICW2 | ICW3 | ICW4.
Record pic := MkPic { imr : Z; expects : list icw; vector : Z }.
(** A write to the command port: bit 4 starts an initialisation, which clears the mask;
    bits 1 and 0 tell which words follow. *)
Definition pic_command (v : Z) (c : pic) : pic :=
  if Z.testbit v 4
  then MkPic 0 (ICW2 :: (if Z.testbit v 1 then [] else [ICW3]) ++ (if Z.testbit v 0 then [ICW4] else [])) (vector c)
  else c.
(** A write to the data port: the next word of the initialisation, else the mask. *)
Definition pic_data (v : Z) (c : pic) : pic :=
  match expects c with
  | [] => MkPic (u8 v) [] (vector c)
  | ICW2 :: r => MkPic (imr c) r (Z.land v 0xf8)
  | _ :: r => MkPic (imr c) r (vector c)
  end.
Definition pics_out (port v : Z) (c : pic * pic) : pic * pic :=
  if port =? 0x20 then (pic_command v c.1, c.2)
  else if port =? 0x21 then (pic_data v c.1, c.2)
  else if port =? 0xA0 then (c.1, pic_command v c.2)
  else if port =? 0xA1 then (c.1, pic_data v c.2)
  else c.

(** What the calls need of the hardware: writes to ports return, the two controllers
    take those to their ports as their documentation says, and the data port of one
    that is not being initialised reads as its mask. *)
Record hardware (pics : P -> pic * pic) : Prop := {
  hw_out port v p : exists p', Chardev.port_out_b port v p = Some (tt, p') /\ pics p' = pics_out port v (pics p);
  hw_in0 p : expects (pics p).1 = [] -> Chardev.port_in_b 0x21 p = Some (imr (pics p).1, p);
  hw_in1 p : expects (pics p).2 = [] -> Chardev.port_in_b 0xA1 p = Some (imr (pics p).2, p)
}.
(** Neither controller is being initialised. *)
Definition idle (c : pic * pic) : Prop := expects c.1 = [] /\ expects c.2 = [].
Definition pics_outs (l : list (Z * Z)) (c : pic * pic) : pic * pic := fold_left (fun c w => pics_out w.1 w.2 c) l c.

(** The gates of the interrupts. *)
Definition gate_at (i : Z) (cs h ty : Z) (l : list Interrupts.idt_entry) : Prop :=
  exists g, zget l i = Some g /\ Interrupts.gate cs h ty g.
Record gates (b : build) (l : list Interrupts.idt_entry) : Prop := {
  gt_exceptions i h : zget (exception_thunks b) i = Some h -> gate_at i 0x08 h 0x8e l;
  gt_timer : gate_at 0x20 0x08 (irq0 b) 0x8e l;
  gt_keyboard : gate_at 0x21 0x08 (keyboard_isr b) 0x8e l;
  gt_syscall : gate_at 0x80 0x19 (syscall b) 0xee l;
  gt_escalate : gate_at 0x90 0x08 (escalate b) 0xae l;
  gt_others i : 32 <= i < 256 -> i <> 0x20 -> i <> 0x21 -> i <> 0x80 -> i <> 0x90 -> zget l i = Some Interrupts.no_gate
}.

(** ** Lemmas: the hardware *)

Lemma hardware_ok {A} (m : ST P A) s a p : m (ports s) = Some (a, p) ->
  on_hardware m s = Some (a, MkMachine p (idt s) (gdt s) (screen s) (memory s)).
Proof. intros E. unfold on_hardware. by rewrite E. Qed.
Lemma outs_app l k p p' : outs l p = Some (tt, p') -> outs (l ++ k) p = outs k p'.
Proof.
  revert p. induction l as [|[port v] l IH]; intros p; [by intros [= <-]|]. cbn [outs app]. unfold st_bind.
  destruct (Chardev.port_out_b port v p) as [[[] p1]|]; [apply IH|done].
Qed.

Context (pics : P -> pic * pic) (Hhw : hardware pics).
#[local] Set Default Proof Using "Type*".

Lemma outs_total l p : exists p', outs l p = Some (tt, p') /\ pics p' = pics_outs l (pics p).
Proof.
  revert p. induction l as [|[port v] l IH]; intros p; [by exists p|]. cbn [outs].
  destruct (hw_out _ Hhw port v p) as (p1 & E & Hp). rewrite (st_bind_ok _ _ _ _ _ E).
  destruct (IH p1) as (p' & E' & Hp'). exists p'. split; [exact E'|]. by rewrite Hp', Hp.
Qed.

(** Mapping the controllers writes their masks back. *)
Lemma map_pic_ok p : pics p = (MkPic 0xff [] (vector (pics p).1), MkPic 0xff [] (vector (pics p).2)) ->
  Interrupts.map_PIC 0x20 0x28 p = outs (drop 2 pic_writes) p.
Proof.
  intros E. pose proof (hw_in0 _ Hhw p) as E0. pose proof (hw_in1 _ Hhw p) as E1. rewrite E in E0, E1. cbn in E0, E1.
  specialize (E0 eq_refl). specialize (E1 eq_refl).
  unfold Interrupts.map_PIC, Interrupts.get_PIC0_mask, Interrupts.get_PIC1_mask. rewrite (st_bind_ok _ _ _ _ _ E0), (st_bind_ok _ _ _ _ _ E1).
  unfold Interrupts.set_PIC0_mask, Interrupts.set_PIC1_mask. cbn [drop pic_writes outs].
  repeat (unfold st_bind at 1; symmetry; unfold st_bind at 1; destruct (Chardev.port_out_b _ _ _) as [[[] ?]|]; [|done]; symmetry).
  unfold st_bind, st_ret. by destruct (Chardev.port_out_b _ _ _) as [[[] ?]|].
Qed.

(** What the writes leave of the controllers. *)
Lemma first_masks c : idle c -> pics_outs [(0x21, 0xff); (0xA1, 0xff)] c = (MkPic 0xff [] (vector c.1), MkPic 0xff [] (vector c.2)).
Proof using. destruct c as [[i0 e0 v0] [i1 e1 v1]]. intros [E0 E1]. cbn in E0, E1. by subst. Qed.
Lemma pics_mapped c : idle c -> pics_outs pic_writes c = (MkPic 0xff [] 0x20, MkPic 0xff [] 0x28).
Proof using. destruct c as [[i0 e0 v0] [i1 e1 v1]]. intros [E0 E1]. cbn in E0, E1. by subst. Qed.

Lemma setup_tables_ok b s : zlen (exception_thunks b) = 32 ->
  Forall (fun h => 0 <= h < 2 ^ 32) (irq0 b :: keyboard_isr b :: syscall b :: escalate b :: exception_thunks b) ->
  idt s = Interrupts.idt0 -> idle (pics (ports s)) -> exists p l, outs pic_writes (ports s) = Some (tt, p) /\
  pics p = (MkPic 0xff [] 0x20, MkPic 0xff [] 0x28) /\ gates b l /\
  setup_tables b s = Some (tt, MkMachine p l (Gdt.load_gdt (TSS b) (TSS_size b)) (screen s)
    (RealMode.init_realmode (rm_int_begin b) (rm_int_end b) (memory s))).
Proof.
  intros Hlen Hall Hi Hidle. destruct (outs_total [(0x21, 0xff); (0xA1, 0xff)] (ports s)) as (p1 & E1 & P1).
  rewrite (first_masks _ Hidle) in P1. assert (Interrupts.map_PIC 0x20 0x28 p1 = outs (drop 2 pic_writes) p1) as E3
    by (apply map_pic_ok; by rewrite P1).
  destruct (outs_total (drop 2 pic_writes) p1) as (p2 & E2 & P2). rewrite E2 in E3.
  destruct (Interrupts.load_idt_correct _ _ _ _ _ Hlen Hall) as (l & El & Hl & Hex & Ht & Hk & Hs & He & Ho).
  exists p2, l. split; [|split; [|split]].
  - change pic_writes with ([(0x21, 0xff); (0xA1, 0xff)] ++ drop 2 pic_writes). by rewrite (outs_app _ _ _ _ E1).
  - rewrite P2, P1. reflexivity.
  - split; try done. intros i h Hh. pose proof (zget_Some _ _ _ Hh). destruct (Hex i) as (h' & g & E & Hg); [lia|].
    rewrite Hh in E. injection E as <-. by exists g.
  - unfold setup_tables. cbn [outs] in E1. unfold st_bind at 1, on_memory. unfold Interrupts.set_PIC0_mask, Interrupts.set_PIC1_mask.
    destruct (hw_out _ Hhw 0x21 0xff (ports s)) as (q & Eq & _). rewrite (st_bind_ok _ _ _ _ _ Eq) in E1.
    rewrite (st_bind_ok _ _ _ _ _ (hardware_ok _ (MkMachine (ports s) _ _ _ _) _ _ Eq)). cbn [ports idt gdt screen memory].
    destruct (hw_out _ Hhw 0xA1 0xff q) as (q1 & Eq1 & _). rewrite (st_bind_ok _ _ _ _ _ Eq1) in E1. injection E1 as ->.
    rewrite (st_bind_ok _ _ _ _ _ (hardware_ok _ (MkMachine q _ _ _ _) _ _ Eq1)). cbn [ports idt gdt screen memory].
    rewrite (st_bind_ok _ _ _ _ _ (hardware_ok _ (MkMachine p1 _ _ _ _) _ _ E3)). cbn [ports idt gdt screen memory].
    unfold st_bind, on_idt, set_gdt. cbn [idt]. rewrite Hi, El. done.
Qed.

Definition screen_blank (c : Tty.console) : Prop :=
  Tty.cons_ok c /\ Tty.current_tty c = 0 /\ forall i t, Tty.tty_at i c = Some t -> Tty.fresh t.
Definition screen_sized (c : Tty.console) : Prop :=
  zlen (Tty.ttys c) = Tty.KRNL_TTY_COUNT /\ zlen (Tty.video_mem c) = Tty.SCREEN /\
  forall i t, Tty.tty_at i c = Some t -> zlen (Tty.field t) = Tty.SCREEN.

Lemma setup_screen_ok s : screen_sized (screen s) -> exists p c,
  outs [(0x3d4, 0x0a); (0x3d5, 0x20)] (ports s) = Some (tt, p) /\ pics p = pics (ports s) /\ screen_blank c /\
  setup_screen s = Some (tt, MkMachine p (idt s) (gdt s) c (memory s)).
Proof.
  intros (H1 & H2 & H3). destruct (hw_out _ Hhw 0x3d4 0x0a (ports s)) as (q & Eq & Pq).
  destruct (hw_out _ Hhw 0x3d5 0x20 q) as (p & E & Hp).
  destruct (Tty.init_tty_correct 0 (screen s) H1 H2 H3) as (c' & c & Ei & Es & Hok & Hc & Hf); [by split|].
  exists p, c. split; [|split; [by rewrite Hp, Pq|split; [done|]]].
  - cbn [outs]. rewrite (st_bind_ok _ _ _ _ _ Eq). by rewrite (st_bind_ok _ _ _ _ _ E).
  - unfold setup_screen. rewrite (st_bind_ok _ _ _ _ _ (hardware_ok _ s _ _ Eq)).
    rewrite (st_bind_ok _ _ _ _ _ (hardware_ok _ (MkMachine q _ _ _ _) _ _ E)). cbn [ports idt gdt screen memory].
    unfold st_bind, on_screen. cbn [screen]. rewrite Ei. cbn [mbind option_bind screen]. by rewrite Es.
Qed.

Lemma set_pit_ok p p' : outs (drop 2 other_writes) p = Some (tt, p') -> Interrupts.set_pit_freq KRNL_PIT_FREQ p = Some (tt, p').
Proof using Type.
  unfold Interrupts.set_pit_freq. assert (Interrupts.pit_divisor KRNL_PIT_FREQ = Some 298) as -> by (vm_compute; reflexivity).
  cbn [drop other_writes outs]. unfold st_bind, st_lift, st_ret.
  change (Z.land 298 0xff) with (298 mod 256). change (u8 (298 / 0x100)) with (298 / 256).
  destruct (Chardev.port_out_b _ _ p) as [[[] q]|]; [|done]. destruct (Chardev.port_out_b _ _ q) as [[[] q']|]; [|done]. by intros [= ->].
Qed.

(** ** Lemmas: memory and the first task *)

(** The number of pages below the highest usable address is a multiple of 8, so that the
    bitmap, whose size is rounded down, covers them; an entry has room for it; no usable
    memory begins in page 0. *)
Definition map_ok (mm : list Pmm.mmap_entry) : Prop :=
  let high := Pmm.find_highest mm 0 in
  Forall Pmm.entry_ok mm /\ 0 < high /\ Pmm.DIV_ROUNDUP high Pmm.PAGE_SIZE mod 8 = 0 /\
  Exists (fun e => Pmm.mtype e = Pmm.STIVALE_MMAP_USABLE /\ Pmm.bitmap_bytes high <= Pmm.mlength e) mm /\
  Forall (fun e => Pmm.mtype e = Pmm.STIVALE_MMAP_USABLE -> Pmm.PAGE_SIZE <= Pmm.mbase e) mm.

Lemma first_heap mm m : map_ok mm -> exists pm, Pmm.init_pmm mm = Some pm /\ Kheap.kheap_inv (Kheap.MkHeapSt pm m) [].
Proof using Type.
  intros (Hok & Hpos & Hcov & Hex & H0).
  apply Pmm.whole_bitmap_iff in Hcov; [|lia|by apply Pmm.find_highest_room; [done|lia|unfold Pmm.PAGE_SIZE; lia]].
  destruct (Pmm.init_pmm_spec mm Hok Hcov Hex) as (pm & mm' & Ei & Ec & Hlen & Hlast & Hhigh & Hiff).
  exists pm. split; [done|]. split; [|constructor]. split; [|split; constructor]. apply (Pmm.init_pmm_wf mm pm mm'); try done.
  pose proof (Pmm.bitmap_bytes_nonneg (Pmm.find_highest mm 0)) as Hb. destruct (Pmm.find_highest_spec mm 0 Hok) as [_ Hall]; [lia|].
  destruct (Pmm.carve_bitmap_spec _ _ _ _ _ Hb Hok Hall Ec) as (_ & _ & l1 & e & l2 & -> & Hu & _ & _ & ->).
  rewrite Exists_exists. intros (x & Hx & Hm & Hp). rewrite Forall_app, Forall_cons in H0. destruct H0 as (H1 & H2 & H3).
  rewrite !Forall_forall in *. assert (Pmm.PAGE_SIZE <= Pmm.mbase x) as Hge.
  { apply elem_of_app in Hx as [Hx|[->|Hx]%elem_of_cons]; [by apply H1| |by apply H3]. specialize (H2 Hu). cbn. lia. }
  unfold Pmm.PAGE_SIZE in *. revert Hp. zdml.
Qed.

(** The two allocations of [task_init]. *)
Definition no_memory (n : Z) (h : Kheap.heap_st) : Prop := exists ptr h1,
  Kheap.kalloc (KRNL_MAX_TASKS * 4) h = Some (ptr, h1) /\ (ptr = 0 \/ exists h2, Kheap.kalloc n h1 = Some (0, h2)).

Lemma task_init_ok n w : Kheap.kheap_inv (wheap w) [] -> Kheap.size_ok n ->
  match task_init (K := base_kernel print) n w with
  | Some (_, w') => isolated w' /\ wsched w' = with_table (Task kernel_task :: replicate (Z.to_nat (KRNL_MAX_TASKS - 1)) NoTask) (wsched w) /\
      wmounts w' = wmounts w /\ wdrv w' = wdrv w
  | None => no_memory n (wheap w)
  end.
Proof using Type.
  intros Hh Hn. destruct (Kheap.kalloc_ok (KRNL_MAX_TASKS * 4) _ _ Hh) as (p & h1 & E1 & H1); [by split|].
  unfold task_init. cbn [kalloc base_kernel kernel_over]. unfold st_bind, on_heap at 1. rewrite E1.
  destruct (Z.eqb_spec p 0) as [->|Hp]; [by exists 0, h1; auto|]. destruct H1 as [[? _]|(_ & H1 & _)]; [done|].
  destruct (Kheap.kalloc_ok n _ _ H1 Hn) as (q & h2 & E2 & H2). unfold on_heap. cbn [wheap with_wheap]. rewrite E2.
  destruct (Z.eqb_spec q 0) as [->|Hq]; [by exists p, h1; split; [|right; exists h2]|]. destruct H2 as [[? _]|(_ & H2 & _)]; [done|].
  cbn [st_modify set_sched base_kernel kernel_over get_sched]. split; [|done].
  match goal with |- isolated ?w' => exact (Safety.start_isolated w' _ (Z.to_nat (KRNL_MAX_TASKS - 1)) H2 eq_refl) end.
Qed.

End Startup.

(** * Properties *)

(** C12: What the boot builds is well formed before anything uses it.  From a map of the
    memory with its usable entries below 4 GiB, a multiple of 8 pages below its highest
    usable address (with another number [init_pmm] writes behind its bitmap), room for the
    bitmap and no usable memory in page 0, and interrupt controllers that are not in the middle of an initialisation,
    [kernel_init] up to [task_init] writes to the ports, in this order, what masks all
    interrupts, tells the controllers their vectors and masks all interrupts again, hides
    the cursor and sets the timer, and leaves both controllers out of initialisation, with
    all interrupts masked and the vectors 0x20 and 0x28;
    the vectors of the exceptions, the timer, the keyboard, the system call and the privilege
    gate lead to their handlers and no other vector leads anywhere; every terminal
    is blank and terminal 0 is on the screen; the allocator and the heap satisfy their
    invariant; and either the table has the kernel's task alone and satisfies the
    invariant from which tasks are kept apart, or the boot stops with a panic because
    one of the two allocations of [task_init] has found no memory. *)
Theorem early_boot_ready {P : Type} {HP : Chardev.Ports P} (pics : P -> pic * pic) {DV : Type} (print : list Z -> ST DV unit) (dv : DV)
    (b : build) (memory_map : list Pmm.mmap_entry) (s : machine P) :
  hardware pics -> idle (pics (ports s)) -> zlen (exception_thunks b) = 32 ->
  Forall (fun h => 0 <= h < 2 ^ 32) (irq0 b :: keyboard_isr b :: syscall b :: escalate b :: exception_thunks b) ->
  Kheap.size_ok (sizeof_task b) -> map_ok memory_map -> idt s = Interrupts.idt0 -> screen_sized (screen s) ->
  exists p l c pm, let m := RealMode.init_realmode (rm_int_begin b) (rm_int_end b) (memory s) in
    let g := Gdt.load_gdt (TSS b) (TSS_size b) in
    outs (pic_writes ++ other_writes) (ports s) = Some (tt, p) /\ pics p = (MkPic 0xff [] 0x20, MkPic 0xff [] 0x28) /\
    gates b l /\ screen_blank c /\ Pmm.init_pmm memory_map = Some pm /\ Kheap.kheap_inv (Kheap.MkHeapSt pm m) [] /\
    match early_init print dv b memory_map s with
    | Some (w, s') => isolated w /\ s' = MkMachine p l g c m /\
        wsched w = MkSched (Task kernel_task :: replicate (Z.to_nat (KRNL_MAX_TASKS - 1)) NoTask) 0 1 g /\
        wmounts w = [] /\ wdrv w = Devfs.MkState [] [] dv 0
    | None => no_memory (sizeof_task b) (Kheap.MkHeapSt pm m)
    end.
Proof.
  intros Hhw Hidle Hlen Hall Hn Hmm Hi Hsc. destruct (setup_tables_ok pics Hhw b s Hlen Hall Hi Hidle) as (p1 & l & E1 & P1 & Hg & R1).
  set (s1 := MkMachine p1 l _ _ _) in R1. destruct (setup_screen_ok pics Hhw s1 Hsc) as (q & c & E3 & P3 & Hc & R2).
  destruct (first_heap memory_map (memory s1) Hmm) as (pm & Ei & Hh).
  destruct (outs_total pics Hhw (drop 2 other_writes) q) as (p3 & E4 & P4).
  exists p3, l, c, pm. cbv zeta. split.
  { rewrite (outs_app _ _ _ _ E1). change other_writes with ([(0x3d4, 0x0a); (0x3d5, 0x20)] ++ drop 2 other_writes).
    by rewrite (outs_app _ _ _ _ E3). }
  split; [rewrite P4, P3; cbn [ports s1]; by rewrite P1|].
  do 4 (split; [done|]). unfold early_init. rewrite (st_bind_ok _ _ _ _ _ R1), (st_bind_ok _ _ _ _ _ R2). rewrite Ei.
  unfold st_bind at 1, st_lift. rewrite (st_bind_ok _ _ _ _ _ (hardware_ok _ (MkMachine q _ _ _ _) _ _ (set_pit_ok _ _ E4))).
  cbn [ports idt gdt screen memory s1].
  match goal with |- context [task_init _ ?w] => pose proof (task_init_ok print (sizeof_task b) w Hh Hn) as Ht; destruct (task_init _ w) as [[[] w']|] end; [|done].
  destruct Ht as (H1 & H2 & H3 & H4). by rewrite H2, H3, H4.
Qed.

(** * Witness: two megabytes of memory from 1 MiB on, two controllers and the list of the writes *)

#[local] Instance demo_ports : Chardev.Ports ((pic * pic) * list (Z * Z)) := {|
  Chardev.port_in_b port := fun p => Some (if port =? 0x21 then imr p.1.1 else imr p.1.2, p);
  Chardev.port_out_b port v := fun p => Some (tt, (pics_out port v p.1, (port, v) :: p.2))
|}.

Definition demo_memory : list Pmm.mmap_entry := [Pmm.MmapEntry 0 0x9f000 2; Pmm.MmapEntry 0x100000 0x200000 1].
Definition demo_build : build := MkBuild 0x1000 0x1200 (replicate 32 0x100200) 0x100400 0x100500 0x100600 0x100700 0x100800 104 3000.
Definition demo_machine : machine ((pic * pic) * list (Z * Z)) :=
  MkMachine ((MkPic 0 [] 8, MkPic 0 [] 0x70), []) Interrupts.idt0 [] Tty.demo (fun _ => 0).

Lemma demo_hardware : hardware fst.
Proof. split; [by eexists|by intros p _|by intros p _]. Qed.
Lemma startup_map_ok : map_ok demo_memory.
Proof.
  split; [|split; [reflexivity|split; [reflexivity|split]]].
  - constructor; [by intros|]. constructor; [|constructor]. intros _. split; [discriminate|]. split; discriminate.
  - right. left. split; [reflexivity|discriminate].
  - constructor; [by intros|]. constructor; [discriminate|constructor].
Qed.
Lemma demo_has_memory pm m : Pmm.init_pmm demo_memory = Some pm -> ~ no_memory 3000 (Kheap.MkHeapSt pm m).
Proof.
  intros Ei (ptr & h1 & E1 & H).
  assert ((pm ← Pmm.init_pmm demo_memory; r ← Kheap.kalloc (KRNL_MAX_TASKS * 4) (Kheap.MkHeapSt pm m);
    q ← Kheap.kalloc 3000 r.2; Some (r.1, q.1)) = Some (0x101000, 0x142000)) as E by (vm_compute; reflexivity).
  rewrite Ei in E. cbn [mbind option_bind] in E. rewrite E1 in E. cbn [mbind option_bind snd fst] in E.
  destruct (Kheap.kalloc 3000 h1) as [[q h2]|] eqn:E2; [|done]. injection E as -> ->. destruct H as [?|(h3 & ?)]; congruence.
Qed.

Lemma early_boot_ready_witness : exists w s',
  early_init Safety.silent tt demo_build demo_memory demo_machine = Some (w, s') /\ isolated w /\
  (ports s').1 = (MkPic 0xff [] 0x20, MkPic 0xff [] 0x28) /\ (ports s').2 = rev (pic_writes ++ other_writes) /\ screen_blank (screen s').
Proof.
  destruct (early_boot_ready fst Safety.silent tt demo_build demo_memory demo_machine)
    as (p & l & c & pm & H1 & H2 & _ & Hc & Ei & _ & H).
  - exact demo_hardware.
  - split; reflexivity.
  - reflexivity.
  - repeat (constructor; [split; [discriminate|reflexivity]|]). constructor.
  - split; discriminate.
  - exact startup_map_ok.
  - reflexivity.
  - split; [reflexivity|]. split; [apply Tty.cells_len|]. intros i t Ht. rewrite (Tty.demo_at i t Ht). apply Tty.cells_len.
  - destruct (early_init Safety.silent tt demo_build demo_memory demo_machine) as [[w s']|];
      [|destruct (demo_has_memory pm _ Ei H)].
    destruct H as (Hw & -> & _). exists w. eexists. split; [reflexivity|]. split; [exact Hw|]. cbn [ports screen].
    split; [exact H2|]. split; [|exact Hc]. injection H1 as <-. reflexivity.
Defined.

End Startup.
