(* ===== verification/Shell.v ===== *)
(** * The command line of the shell: [get_argc] and [get_argv] of [shell/shell.c]

    A line is cut at its spaces.  [>], [<], [2>] and [&>] redirect the streams of the
    program to the file named right behind them or by the next word, [&] at the start
    of a word runs the program in the background, and the other words are the
    arguments.  [get_argc] counts them; [get_argv] ends each of them with a zero byte
    in the line itself and stores their addresses, here indices of the line.

    An access outside of the line or of an array of 128 entries is [None].  The calls
    of the C library and of the system are recorded: their results do not change what
    is parsed, and the call that depends on one is recorded as such; [ShellMain.v] makes
    them. *)

From S2P Require Import Prelude.
Local Open Scope Z_scope.

Module Shell.

(** A character, and [' '], ['>'], ['<'], ['2'], ['&']. *)
Definition SPACE : Z := 32.
Definition GT : Z := 62.
Definition LT : Z := 60.
Definition TWO : Z := 50.
Definition AMP : Z := 38.
Definition space (c : Z) : bool := c =? SPACE.
Definition inword (c : Z) : bool := negb (c =? SPACE) && negb (c =? 0).

Definition VFS_FILE_TYPE : Z := 0.
Definition VFS_DEVICE_TYPE : Z := 2.

(** What [get_argv] calls: [remove(path)], [OS_vfs_create(path, perms)], and
    [OS_vfs_get_metadata] for the path and each of the types in turn, as long as the
    answer is [VFS_FAILURE] (the [&&] of the code). *)
Inductive call := Remove (path : list Z) | Create (path : list Z) (perms : Z) | GetMetadata (path : list Z) (types : list Z).

(** The texts of [prog_stdin], [prog_stdout] and [prog_stderr], which are arrays of
    128 bytes, and [no_block]. *)
Record shell := MkShell {
  prog_stdin : list Z; prog_stdout : list Z; prog_stderr : list Z; no_block : Z; calls : list call
}.
Definition PROG_LEN : Z := 128.
Definition ARGV_LEN : Z := 128.

Inductive op := OpOut | OpIn | OpErr | OpBoth.

(** What a redirection does once its file name has been copied. *)
Definition redirect (o : op) (f : list Z) (sh : shell) : option shell :=
  if zlen f <? PROG_LEN then
    Some (match o with
    | OpOut => MkShell (prog_stdin sh) f (prog_stderr sh) (no_block sh) (calls sh ++ [Remove f; Create f 0])
    | OpIn => MkShell f (prog_stdout sh) (prog_stderr sh) (no_block sh)
        (calls sh ++ [GetMetadata f [VFS_FILE_TYPE; VFS_DEVICE_TYPE]])
    | OpErr => MkShell (prog_stdin sh) (prog_stdout sh) f (no_block sh) (calls sh ++ [Remove f; Create f 0])
    | OpBoth => MkShell (prog_stdin sh) f f (no_block sh) (calls sh ++ [Remove f; Remove f; Create f 0; Create f 0])
    end)
  else None.
Definition background (sh : shell) : shell :=
  MkShell (prog_stdin sh) (prog_stdout sh) (prog_stderr sh) 1 (calls sh).

(** [!strncmp(&string[index], {x, y}, 2)] *)
Definition starts (x y : Z) (b : list Z) (i : Z) : option bool :=
  c ← zget b i; if c =? x then d ← zget b (i + 1); Some (d =? y) else Some false.

(** [while (f(string[index])) index++;] *)
Fixpoint skip_while (f : Z -> bool) (fuel : nat) (b : list Z) (i : Z) : option Z :=
  match fuel with
  | O => None
  | S fuel => c ← zget b i; if f c then skip_while f fuel b (i + 1) else Some i
  end.

(** The file name behind a redirection, which [get_argc] skips. *)
Definition skip_file (fuel : nat) (b : list Z) (i : Z) : option Z :=
  j ← skip_while space fuel b i; skip_while inword fuel b j.

Fixpoint argc_loop (fuel : nat) (b : list Z) (i argc : Z) : option Z :=
  match fuel with
  | O => None
  | S fuel' =>
      c ← zget b i;
      if c =? 0 then Some argc
      else if c =? SPACE then argc_loop fuel' b (i + 1) argc
      else
        r1 ← starts TWO GT b i;
        r2 ← starts AMP GT b i;
        if (r1 || r2 : bool) then j ← skip_file fuel b (i + 2); argc_loop fuel' b j argc
        else if (c =? GT) || (c =? LT) then j ← skip_file fuel b (i + 1); argc_loop fuel' b j argc
        else if c =? AMP then argc_loop fuel' b (i + 1) argc
        else j ← skip_while inword fuel b i; argc_loop fuel' b j (argc + 1)
  end.
Definition get_argc (string : list Z) : option Z := argc_loop (S (length string)) string 0 0.

(** [while (string[index] == ' ') string[index++] = 0;] *)
Fixpoint zero_spaces (fuel : nat) (b : list Z) (i : Z) : option (list Z * Z) :=
  match fuel with
  | O => None
  | S fuel => c ← zget b i;
              if space c then b ← zset b i 0; zero_spaces fuel b (i + 1) else Some (b, i)
  end.
(** The loop that moves a file name out of the line. *)
Fixpoint take_name (fuel : nat) (name b : list Z) (i : Z) : option (list Z * list Z * Z) :=
  match fuel with
  | O => None
  | S fuel => c ← zget b i;
              if inword c then b ← zset b i 0; take_name fuel (name ++ [c]) b (i + 1) else Some (name, b, i)
  end.
Definition take_file (fuel : nat) (b : list Z) (i : Z) : option (list Z * list Z * Z) :=
  '(b, j) ← zero_spaces fuel b i; take_name fuel [] b j.

(** The loop of [get_argv]: the line, the index, the addresses stored and the shell. *)
Fixpoint argv_loop (fuel : nat) (b : list Z) (i : Z) (argv : list Z) (sh : shell) : option (list Z * list Z * shell) :=
  match fuel with
  | O => None
  | S fuel' =>
      c ← zget b i;
      if c =? 0 then Some (b, argv, sh)
      else if c =? SPACE then b ← zset b i 0; argv_loop fuel' b (i + 1) argv sh
      else if c =? GT then
        b ← zset b i 0;
        '(f, b, j) ← take_file fuel b (i + 1);
        sh ← redirect OpOut f sh; argv_loop fuel' b j argv sh
      else if c =? LT then
        b ← zset b i 0;
        '(f, b, j) ← take_file fuel b (i + 1);
        sh ← redirect OpIn f sh; argv_loop fuel' b j argv sh
      else
        r1 ← starts TWO GT b i;
        r2 ← starts AMP GT b i;
        if (r1 || r2 : bool) then
          b ← zset b i 0; b ← zset b (i + 1) 0;
          '(f, b, j) ← take_file fuel b (i + 2);
          sh ← redirect (if r1 : bool then OpErr else OpBoth) f sh; argv_loop fuel' b j argv sh
        else if c =? AMP then b ← zset b i 0; argv_loop fuel' b (i + 1) argv (background sh)
        else if ARGV_LEN <=? zlen argv then None
        else
          let argv := argv ++ [i] in
          j ← skip_while inword fuel b i;
          e ← zget b j;
          if e =? 0 then Some (b, argv, sh)
          else b ← zset b j 0; argv_loop fuel' b (j + 1) argv sh
  end.

(** [ins], [outs] and [errs] are what [OS_what_stdin] and the others store. *)
Definition get_argv (ins outs errs string : list Z) : option (list Z * list Z * shell) :=
  argv_loop (S (length string)) string 0 [] (MkShell ins outs errs 0 []).

(** ** Specification: words *)

Fixpoint takew (f : Z -> bool) (s : list Z) : list Z :=
  match s with c :: s => if f c then c :: takew f s else [] | [] => [] end.
Fixpoint dropw (f : Z -> bool) (s : list Z) : list Z :=
  match s with c :: s' => if f c then dropw f s' else s | [] => [] end.

(** The words of a line. *)
Fixpoint words (s : list Z) : list (list Z) :=
  match s with
  | [] => []
  | c :: s =>
      if c =? SPACE then words s
      else match s with
           | d :: _ => if d =? SPACE then [c] :: words s
                       else match words s with w :: ws => (c :: w) :: ws | [] => [[c]] end
           | [] => [[c]]
           end
  end.

(** A word without the background marks at its start. *)
Fixpoint strip (w : list Z) : bool * list Z :=
  match w with
  | c :: w' =>
      if c =? AMP then
        match w' with
        | d :: _ => if d =? GT then (false, w) else (true, (strip w').2)
        | [] => (true, [])
        end
      else (false, w)
  | [] => (false, [])
  end.

(** A redirection, and what is behind it in its word. *)
Definition classify (w : list Z) : option (op * list Z) :=
  match w with
  | c :: r =>
      if c =? GT then Some (OpOut, r)
      else if c =? LT then Some (OpIn, r)
      else match r with
           | d :: r => if d =? GT then
                         if c =? TWO then Some (OpErr, r) else if c =? AMP then Some (OpBoth, r) else None
                       else None
           | [] => None
           end
  | [] => None
  end.

(** The meaning of a list of words: the arguments, and the shell afterwards. *)
Fixpoint interp (ts : list (list Z)) (sh : shell) : option (list (list Z) * shell) :=
  match ts with
  | [] => Some ([], sh)
  | w :: ts =>
      let sh := if (strip w).1 then background sh else sh in
      let w := (strip w).2 in
      match classify w with
      | Some (o, rest) =>
          match rest, ts with
          | [], f :: ts' => sh ← redirect o f sh; interp ts' sh
          | _, _ => sh ← redirect o rest sh; interp ts sh
          end
      | None =>
          match w with
          | [] => interp ts sh
          | _ => '(args, sh) ← interp ts sh; Some (w :: args, sh)
          end
      end
  end.

(** ** Lemmas: the line as what is done and what is left

    The line is [p ++ s ++ 0 :: r]: [p] has been read, [s] is left, and [r] is behind
    the end of the text. *)

Definition text (s : list Z) : Prop := Forall (fun c => c <> 0) s.

Lemma zget_mid {A} (p r : list A) x : zget (p ++ x :: r) (zlen p) = Some x.
Proof. rewrite zget_app, decide_False by lia. by rewrite Z.sub_diag. Qed.

Lemma zset_at {A} (p r : list A) x y : zset (p ++ x :: r) (zlen p) y = Some (p ++ y :: r).
Proof.
  rewrite zset_ok by (rewrite zlen_app, zlen_cons; pose proof (zlen_nonneg p); pose proof (zlen_nonneg r); lia).
  f_equal. rewrite (insert_mid p x y r) by (unfold zlen; lia). by rewrite <- app_assoc.
Qed.

Lemma mid_assoc {A} (p s : list A) x r : p ++ (x :: s) ++ r = (p ++ [x]) ++ s ++ r.
Proof. by rewrite <- app_assoc. Qed.
Lemma zlen_snoc {A} (p : list A) x : zlen (p ++ [x]) = zlen p + 1.
Proof. by rewrite zlen_app. Qed.

Lemma dropw_length f s : (length (dropw f s) <= length s)%nat.
Proof. induction s as [|c s IH]; cbn; [done|]. destruct (f c); cbn; lia. Qed.
Lemma takew_dropw f s : takew f s ++ dropw f s = s.
Proof. induction s as [|c s IH]; cbn; [done|]. destruct (f c); cbn; by rewrite ?IH. Qed.
Lemma dropw_text f s : text s -> text (dropw f s).
Proof. intros H. induction H as [|c s Hc Hs IH]; cbn; [constructor|]. destruct (f c); [done|by constructor]. Qed.
Lemma takew_text f s : text s -> text (takew f s).
Proof. intros H. induction H as [|c s Hc Hs IH]; cbn; [constructor|]. destruct (f c); [by constructor|constructor]. Qed.

Lemma skip_while_ok f fuel p s r : f 0 = false -> (length s < fuel)%nat ->
  skip_while f fuel (p ++ s ++ 0 :: r) (zlen p) = Some (zlen (p ++ takew f s)).
Proof.
  intros Hf. revert fuel p. induction s as [|c s IH]; intros [|fuel] p Hl; cbn in Hl; try lia; cbn [skip_while].
  - cbn [app]. rewrite zget_mid. cbn [mbind option_bind]. by rewrite Hf, app_nil_r.
  - cbn [app]. rewrite zget_mid. cbn [mbind option_bind takew]. destruct (f c); [|by rewrite app_nil_r].
    change (p ++ c :: s ++ 0 :: r) with (p ++ (c :: s) ++ 0 :: r). rewrite mid_assoc, <- zlen_snoc with (x := c).
    rewrite IH by lia. by rewrite <- app_assoc.
Qed.

(** Reading past a prefix of what is left. *)
Lemma line_split f p s r : p ++ s ++ 0 :: r = (p ++ takew f s) ++ dropw f s ++ 0 :: r.
Proof. by rewrite <- app_assoc, (app_assoc (takew f s)), takew_dropw. Qed.

Lemma skip_file_ok fuel p s r : (length s < fuel)%nat ->
  let p' := (p ++ takew space s) ++ takew inword (dropw space s) in
  skip_file fuel (p ++ s ++ 0 :: r) (zlen p) = Some (zlen p') /\
  p ++ s ++ 0 :: r = p' ++ dropw inword (dropw space s) ++ 0 :: r.
Proof.
  intros Hl p'. unfold skip_file. rewrite skip_while_ok by done. cbn [mbind option_bind].
  rewrite (line_split space p s r). split; [|by rewrite (line_split inword _ (dropw space s))].
  apply skip_while_ok; [done|]. pose proof (dropw_length space s). lia.
Qed.

Lemma starts_ok x y p c s r : 0 <> y -> starts x y (p ++ (c :: s) ++ 0 :: r) (zlen p) =
  Some ((c =? x) && match s with d :: _ => d =? y | [] => false end).
Proof.
  intros Hy. unfold starts. cbn [app]. rewrite zget_mid. cbn [mbind option_bind].
  destruct (c =? x); [|done]. rewrite <- zlen_snoc with (x := c).
  replace (p ++ c :: s ++ 0 :: r) with ((p ++ [c]) ++ s ++ 0 :: r) by (by rewrite <- app_assoc).
  destruct s as [|d s]; cbn [app]; rewrite zget_mid; cbn [mbind option_bind andb]; [|done].
  by rewrite (proj2 (Z.eqb_neq _ _)).
Qed.

(** ** Lemmas: words *)

Lemma inword_char c : c <> SPACE -> c <> 0 -> inword c = true.
Proof. intros H1 H2. unfold inword. by rewrite !(proj2 (Z.eqb_neq _ _)). Qed.

Lemma words_cons c s : c <> SPACE -> text s -> words (c :: s) = (c :: takew inword s) :: words (dropw inword s).
Proof.
  revert c. induction s as [|d s IH]; intros c Hc Hs.
  - cbn. by rewrite (proj2 (Z.eqb_neq c SPACE)).
  - apply Forall_cons in Hs as [Hd Hs]. cbn [words]. rewrite (proj2 (Z.eqb_neq c SPACE)) by done. cbn [takew dropw].
    unfold inword at 1 3. rewrite (proj2 (Z.eqb_neq d 0)) by done. rewrite andb_true_r.
    destruct (Z.eqb_spec d SPACE) as [->|Hd']; cbn [negb]; [done|].
    pose proof (IH d Hd' Hs) as E. cbn [words] in E. rewrite (proj2 (Z.eqb_neq d SPACE)) in E by done.
    by rewrite E.
Qed.

Lemma words_dropw s : words (dropw space s) = words s.
Proof. induction s as [|c s IH]; [done|]. cbn [dropw words]. unfold space at 1. destruct (Z.eqb_spec c SPACE) as [->|H]; [exact IH|].
  cbn [words]. by rewrite (proj2 (Z.eqb_neq c SPACE)). Qed.

Lemma dropw_head s c s' : dropw space s = c :: s' -> c <> SPACE.
Proof.
  induction s as [|d s IH]; cbn [dropw]; [done|]. unfold space at 1. destruct (Z.eqb_spec d SPACE); [exact IH|]. by intros [= <- _].
Qed.

(** The file name behind a redirection: the rest of its word, or the next word. *)
Lemma file_word {A} (k : list Z -> list (list Z) -> A) s : text s ->
  match takew inword s, words (dropw inword s) with
  | [], f :: ts => k f ts
  | _, _ => k (takew inword s) (words (dropw inword s))
  end = k (takew inword (dropw space s)) (words (dropw inword (dropw space s))).
Proof.
  intros Hs. destruct s as [|c s]; [done|]. pose proof Hs as Hs'. apply Forall_cons in Hs as [Hc Hs].
  destruct (Z.eq_dec c SPACE) as [->|Hsp].
  - assert (takew inword (SPACE :: s) = []) as -> by done. assert (dropw inword (SPACE :: s) = SPACE :: s) as -> by done.
    rewrite <- (words_dropw (SPACE :: s)). pose proof (dropw_text space _ Hs') as Ht.
    destruct (dropw space (SPACE :: s)) as [|d s'] eqn:E; [done|]. apply dropw_head in E.
    apply Forall_cons in Ht as [Hd Ht]. rewrite (words_cons d s' E Ht). cbn [takew dropw].
    by rewrite (inword_char d E Hd).
  - assert (dropw space (c :: s) = c :: s) as -> by (cbn; unfold space; by rewrite (proj2 (Z.eqb_neq _ _))).
    cbn [takew dropw]. by rewrite (inword_char c Hsp Hc).
Qed.

(** ** Lemmas: the meaning of a line by its first character *)

(** The file named in what is left, and the redirection to it. *)
Definition file (s : list Z) : list Z := takew inword (dropw space s).
Definition past_file (s : list Z) : list Z := dropw inword (dropw space s).
Definition to_file (o : op) (s : list Z) (sh : shell) : option (list (list Z) * shell) :=
  sh ← redirect o (file s) sh; interp (words (past_file s)) sh.

Definition next_gt (s : list Z) : bool := match s with d :: _ => d =? GT | [] => false end.

Lemma interp_file w ts o s sh : (strip w).1 = false -> classify (strip w).2 = Some (o, takew inword s) ->
  ts = words (dropw inword s) -> text s -> interp (w :: ts) sh = to_file o s sh.
Proof.
  intros E1 E2 -> Hs. cbn [interp]. rewrite E1, E2.
  exact (file_word (fun f ts => sh ← redirect o f sh; interp ts sh) s Hs).
Qed.

Lemma interp_one c o s sh : (c, o) = (GT, OpOut) \/ (c, o) = (LT, OpIn) -> text s ->
  interp (words (c :: s)) sh = to_file o s sh.
Proof.
  intros H Hs. rewrite words_cons by (done || by destruct H as [[= -> _]|[= -> _]]).
  apply interp_file; [..|done|done]; by destruct H as [[= -> ->]|[= -> ->]].
Qed.

Lemma interp_two c o s sh : (c, o) = (TWO, OpErr) \/ (c, o) = (AMP, OpBoth) -> text s ->
  interp (words (c :: GT :: s)) sh = to_file o s sh.
Proof.
  intros H Hs. rewrite words_cons by (by (constructor; done) || by destruct H as [[= -> _]|[= -> _]]).
  apply interp_file; [..|done|done]; by destruct H as [[= -> ->]|[= -> ->]].
Qed.

Lemma strip_background w sh : (if (strip w).1 then background (background sh) else background sh) = background sh.
Proof. by destruct (strip w).1. Qed.

Lemma interp_amp s sh : next_gt s = false -> text s -> interp (words (AMP :: s)) sh = interp (words s) (background sh).
Proof.
  intros Hn Hs. rewrite words_cons by done. destruct s as [|d s]; [done|]. apply Forall_cons in Hs as [Hd Hs].
  destruct (Z.eq_dec d SPACE) as [->|Hsp]; [done|]. rewrite (words_cons d s Hsp Hs). cbn [takew dropw].
  rewrite (inword_char d Hsp Hd). cbn [interp]. cbn [next_gt] in Hn.
  set (w := d :: takew inword s). assert (strip (AMP :: w) = (true, (strip w).2)) as ->.
  { unfold w. cbn [strip]. by rewrite Hn. }
  cbn [fst snd]. by rewrite strip_background.
Qed.

(** A word that is an argument. *)
Definition plain (c : Z) (s : list Z) : Prop :=
  c <> GT /\ c <> LT /\ c <> AMP /\ c <> SPACE /\ c <> 0 /\ ((c =? TWO) && next_gt s) = false.

Lemma interp_arg c s sh : plain c s -> text s ->
  interp (words (c :: s)) sh =
    '(args, sh) ← interp (words (dropw inword s)) sh; Some ((c :: takew inword s) :: args, sh).
Proof.
  intros (H1 & H2 & H3 & H4 & H5 & H6) Hs. rewrite (words_cons c s H4 Hs). cbn [interp].
  assert (strip (c :: takew inword s) = (false, c :: takew inword s)) as -> by (cbn; by rewrite (proj2 (Z.eqb_neq c AMP))).
  cbn [fst snd]. assert (classify (c :: takew inword s) = None) as ->; [|done].
  cbn [classify]. rewrite (proj2 (Z.eqb_neq c GT)), (proj2 (Z.eqb_neq c LT)), (proj2 (Z.eqb_neq c AMP)) by done.
  destruct s as [|d s]; [done|]. apply Forall_cons in Hs as [Hd Hs]. cbn [takew next_gt] in *. destruct (inword d); [|done].
  destruct (d =? GT); [|done]. rewrite andb_true_r in H6. by rewrite H6.
Qed.

(** The cases of a line that is left. *)
Lemma line_cases c s : c <> 0 -> c = SPACE \/ (exists o, (c, o) = (GT, OpOut) \/ (c, o) = (LT, OpIn)) \/
  (exists o s', s = GT :: s' /\ ((c, o) = (TWO, OpErr) \/ (c, o) = (AMP, OpBoth))) \/
  (c = AMP /\ next_gt s = false) \/ plain c s.
Proof.
  intros Hc. destruct (Z.eq_dec c SPACE) as [|H1]; [by left|right].
  destruct (Z.eq_dec c GT) as [->|H2]; [left; by eauto|]. destruct (Z.eq_dec c LT) as [->|H3]; [left; by eauto|right].
  assert (next_gt s = true -> exists s', s = GT :: s') as Hn
    by (destruct s as [|d s]; cbn; [done|]; intros ->%Z.eqb_eq; by eexists).
  destruct (Z.eq_dec c AMP) as [->|H4].
  - destruct (next_gt s) eqn:E; [left|right; by left]. destruct (Hn eq_refl) as (s' & ->). by eauto 6.
  - destruct ((c =? TWO) && next_gt s) eqn:E; [left|right; right; by repeat split].
    apply andb_prop in E as [->%Z.eqb_eq E]. destruct (Hn E) as (s' & ->). by eauto 6.
Qed.

Lemma to_file_ok o s sh args sh' : to_file o s sh = Some (args, sh') -> exists sh1,
  redirect o (file s) sh = Some sh1 /\ interp (words (past_file s)) sh1 = Some (args, sh').
Proof. unfold to_file. intros H. obind H. by exists x. Qed.

Lemma past_file_length s : (length (past_file s) <= length s)%nat.
Proof. unfold past_file. pose proof (dropw_length inword (dropw space s)). pose proof (dropw_length space s). lia. Qed.
Lemma past_file_text s : text s -> text (past_file s).
Proof. intros H. by apply dropw_text, dropw_text. Qed.

Lemma dropw_inword_head s c s' : text s -> dropw inword s = c :: s' -> c = SPACE.
Proof.
  intros Hs E. pose proof (dropw_text inword s Hs) as Ht. rewrite E in Ht. apply Forall_cons in Ht as [Hc _].
  clear Hs. revert E. induction s as [|d s IH]; cbn [dropw]; [done|]. destruct (inword d) eqn:Ed; [exact IH|].
  intros [= -> _]. destruct (Z.eq_dec c SPACE) as [|H]; [done|]. by rewrite (inword_char c H Hc) in Ed.
Qed.

Lemma argc_ok fuel p s r n sh args sh' : text s -> (length s < fuel)%nat ->
  interp (words s) sh = Some (args, sh') ->
  argc_loop fuel (p ++ s ++ 0 :: r) (zlen p) n = Some (n + zlen args).
Proof.
  revert p s n sh args. induction fuel as [|fuel IH]; intros p s n sh args Hs Hl E; [lia|].
  destruct s as [|c s]; cbn [argc_loop].
  { injection E as <- _. cbn [app]. rewrite zget_mid. cbn. by rewrite Z.add_0_r. }
  apply Forall_cons in Hs as [Hc Hs]. cbn [length] in Hl. cbn [app]. rewrite zget_mid. cbn [mbind option_bind].
  rewrite (proj2 (Z.eqb_neq c 0)) by done.
  change (p ++ c :: s ++ 0 :: r) with (p ++ (c :: s) ++ 0 :: r). rewrite !starts_ok by done.
  fold (next_gt s). cbn [mbind option_bind]. rewrite mid_assoc.
  destruct (line_cases c s Hc) as [->|[(o & Ho)|[(o & s' & -> & Ho)|[[-> Hn]|Hp]]]].
  - rewrite <- zlen_snoc with (x := SPACE). apply (IH _ _ _ sh); [done|lia|exact E].
  - rewrite (interp_one c o) in E by done. apply to_file_ok in E as (sh1 & _ & E).
    assert (c <> SPACE /\ (c =? TWO) = false /\ (c =? AMP) = false /\ (c =? GT) || (c =? LT) = true) as (H1 & -> & -> & ->)
      by (by destruct Ho as [[= -> _]|[= -> _]]). rewrite (proj2 (Z.eqb_neq c SPACE)) by done. cbn [andb orb].
    rewrite <- zlen_snoc with (x := c). destruct (skip_file_ok (S fuel) (p ++ [c]) s r) as [-> ->]; [lia|].
    cbn [mbind option_bind]. apply (IH _ _ _ sh1); [by apply past_file_text|pose proof (past_file_length s); unfold past_file in *; lia|exact E].
  - apply Forall_cons in Hs as [_ Hs]. rewrite (interp_two c o) in E by done. apply to_file_ok in E as (sh1 & _ & E).
    assert (c <> SPACE /\ ((c =? TWO) && next_gt (GT :: s')) || ((c =? AMP) && next_gt (GT :: s')) = true) as (H1 & ->)
      by (by destruct Ho as [[= -> _]|[= -> _]]). rewrite (proj2 (Z.eqb_neq c SPACE)) by done. cbn [length] in Hl.
    rewrite mid_assoc. replace (zlen p + 2) with (zlen ((p ++ [c]) ++ [GT])) by (rewrite !zlen_snoc; lia).
    destruct (skip_file_ok (S fuel) ((p ++ [c]) ++ [GT]) s' r) as [-> ->]; [lia|].
    cbn [mbind option_bind]. apply (IH _ _ _ sh1); [by apply past_file_text|pose proof (past_file_length s'); unfold past_file in *; lia|exact E].
  - rewrite interp_amp in E by done. rewrite Hn. change (AMP =? SPACE) with false. change (AMP =? TWO) with false.
    cbn [andb orb]. rewrite andb_false_r. change ((AMP =? GT) || (AMP =? LT)) with false. rewrite Z.eqb_refl.
    rewrite <- zlen_snoc with (x := AMP). apply (IH _ _ _ (background sh)); [done|lia|exact E].
  - rewrite (interp_arg c s sh Hp Hs) in E. destruct Hp as (H1 & H2 & H3 & H4 & H5 & H6).
    rewrite H6, (proj2 (Z.eqb_neq c SPACE)), (proj2 (Z.eqb_neq c AMP)), (proj2 (Z.eqb_neq c GT)),
      (proj2 (Z.eqb_neq c LT)) by done. cbn [andb orb].
    obind E. destruct x as [args1 sh1]. injection E as <- <-.
    rewrite <- mid_assoc, skip_while_ok by (cbn [length]; done || lia). cbn [mbind option_bind takew].
    rewrite (inword_char c H4 H5), (line_split inword). cbn [takew dropw]. rewrite (inword_char c H4 H5).
    rewrite zlen_cons. replace (n + (zlen args1 + 1)) with (n + 1 + zlen args1) by lia.
    apply (IH _ _ _ sh _ ltac:(by apply dropw_text)); [pose proof (dropw_length inword s); lia|exact E0].
Qed.

(** ** Lemmas: [get_argv] *)

Lemma zero_spaces_ok fuel p s r : (length s < fuel)%nat -> exists z,
  zero_spaces fuel (p ++ s ++ 0 :: r) (zlen p) = Some ((p ++ z) ++ dropw space s ++ 0 :: r, zlen (p ++ z)).
Proof.
  revert fuel p. induction s as [|c s IH]; intros [|fuel] p Hl; cbn in Hl; try lia; cbn [zero_spaces]; cbn [app];
    rewrite zget_mid; cbn [mbind option_bind].
  - exists []. by rewrite app_nil_r.
  - cbn [dropw]. destruct (space c); [|exists []; by rewrite app_nil_r]. rewrite zset_at. cbn [mbind option_bind].
    rewrite <- zlen_snoc with (x := 0). change (p ++ 0 :: s ++ 0 :: r) with (p ++ (0 :: s) ++ 0 :: r). rewrite mid_assoc.
    destruct (IH fuel (p ++ [0])) as (z & ->); [lia|]. exists (0 :: z). by rewrite <- !app_assoc.
Qed.

Lemma take_name_ok fuel name p s r : (length s < fuel)%nat -> exists z,
  take_name fuel name (p ++ s ++ 0 :: r) (zlen p) =
    Some (name ++ takew inword s, (p ++ z) ++ dropw inword s ++ 0 :: r, zlen (p ++ z)).
Proof.
  revert fuel name p. induction s as [|c s IH]; intros [|fuel] name p Hl; cbn in Hl; try lia; cbn [take_name]; cbn [app];
    rewrite zget_mid; cbn [mbind option_bind].
  - exists []. by rewrite !app_nil_r.
  - cbn [takew dropw]. destruct (inword c); [|exists []; by rewrite !app_nil_r]. rewrite zset_at. cbn [mbind option_bind].
    rewrite <- zlen_snoc with (x := 0). change (p ++ 0 :: s ++ 0 :: r) with (p ++ (0 :: s) ++ 0 :: r). rewrite mid_assoc.
    destruct (IH fuel (name ++ [c]) (p ++ [0])) as (z & ->); [lia|]. exists (0 :: z). by rewrite <- !app_assoc.
Qed.

Lemma take_file_ok fuel p s r : (length s < fuel)%nat -> exists z,
  take_file fuel (p ++ s ++ 0 :: r) (zlen p) = Some (file s, (p ++ z) ++ past_file s ++ 0 :: r, zlen (p ++ z)).
Proof.
  intros Hl. unfold take_file. destruct (zero_spaces_ok fuel p s r Hl) as (z & ->). cbn [mbind option_bind].
  destruct (take_name_ok fuel [] (p ++ z) (dropw space s) r) as (z' & ->); [pose proof (dropw_length space s); lia|].
  exists (z ++ z'). by rewrite <- !app_assoc.
Qed.

(** The argument [w] is at the index [i] of the line, ended by a zero byte. *)
Definition word_at (b : list Z) (i : Z) (w : list Z) : Prop :=
  (forall j c, zget w j = Some c -> zget b (i + j) = Some c) /\ zget b (i + zlen w) = Some 0.

(** What the loop promises, from a line of which [p] has been read. *)
Definition argv_spec (p argv : list Z) (args : list (list Z)) (sh' : shell) (res : option (list Z * list Z * shell)) : Prop :=
  exists b' idx, res = Some (b', argv ++ idx, sh') /\ (forall j c, zget p j = Some c -> zget b' j = Some c) /\
    Forall2 (word_at b') idx args.

Lemma argv_spec_prefix p z argv args sh' res : argv_spec (p ++ z) argv args sh' res -> argv_spec p argv args sh' res.
Proof.
  intros (b' & idx & E & Hp & HF). exists b', idx. split; [done|]. split; [|done]. intros j c Hj. apply Hp.
  pose proof (zget_Some _ _ _ Hj). rewrite zget_app. by rewrite decide_True by lia.
Qed.

Lemma argv_spec_done p x argv sh res : res = Some (p ++ x, argv, sh) -> argv_spec p argv [] sh res.
Proof.
  intros ->. exists (p ++ x), []. rewrite app_nil_r. split; [done|]. split; [|constructor]. intros j c Hj.
  pose proof (zget_Some _ _ _ Hj). rewrite zget_app. by rewrite decide_True by lia.
Qed.

(** An argument behind [p], and the rest of the line. *)
Lemma argv_spec_arg p w argv args sh' res : argv_spec ((p ++ w) ++ [0]) (argv ++ [zlen p]) args sh' res ->
  argv_spec p argv (w :: args) sh' res.
Proof.
  intros (b' & idx & E & Hp & HF). exists b', (zlen p :: idx). split; [by rewrite E, <- app_assoc|]. split.
  - intros j c Hj. apply Hp. pose proof (zget_Some _ _ _ Hj). pose proof (zlen_nonneg w).
    rewrite <- app_assoc, zget_app. by rewrite decide_True by lia.
  - constructor; [|done]. split.
    + intros j c Hj. apply Hp. pose proof (zget_Some _ _ _ Hj). rewrite zget_app, decide_True by (rewrite zlen_app; lia).
      rewrite zget_app, decide_False by lia. by replace (zlen p + j - zlen p) with j by lia.
    + apply Hp. rewrite <- zlen_app. apply zget_mid.
Qed.

(** A redirection in the loop: the file name is taken out of the line behind [p]. *)
Lemma argv_redirect_ok fuel p s r o argv sh args sh' : (length s <= fuel)%nat -> text s ->
  to_file o s sh = Some (args, sh') ->
  (forall p s sh args, text s -> (length s < fuel)%nat -> interp (words s) sh = Some (args, sh') ->
     zlen argv + zlen args <= ARGV_LEN -> argv_spec p argv args sh' (argv_loop fuel (p ++ s ++ 0 :: r) (zlen p) argv sh)) ->
  (length (past_file s) < fuel)%nat -> zlen argv + zlen args <= ARGV_LEN ->
  argv_spec p argv args sh'
    ('(f, b, j) ← take_file (S fuel) (p ++ s ++ 0 :: r) (zlen p);
     sh ← redirect o f sh; argv_loop fuel b j argv sh).
Proof.
  intros Hl Hs E IH Hl' Ha. apply to_file_ok in E as (sh1 & E1 & E2).
  destruct (take_file_ok (S fuel) p s r) as (z & ->); [lia|]. cbn [mbind option_bind]. rewrite E1. cbn [mbind option_bind].
  apply (argv_spec_prefix p z). apply IH; [by apply past_file_text|done|done|done].
Qed.

(** An argument in the loop: its word ends at a space, or with the line. *)
Lemma argv_arg_ok fuel p c s r argv sh args sh' : text s -> (length s < fuel)%nat -> c <> SPACE -> c <> 0 ->
  (forall p s argv args, text s -> (length s < fuel)%nat -> interp (words s) sh = Some (args, sh') ->
     zlen argv + zlen args <= ARGV_LEN -> argv_spec p argv args sh' (argv_loop fuel (p ++ s ++ 0 :: r) (zlen p) argv sh)) ->
  interp (words (dropw inword s)) sh = Some (args, sh') -> zlen argv + zlen args + 1 <= ARGV_LEN ->
  argv_spec ((p ++ c :: takew inword s) ++ [0]) (argv ++ [zlen p]) args sh'
    (j ← skip_while inword (S fuel) (p ++ (c :: s) ++ 0 :: r) (zlen p);
     e ← zget (p ++ (c :: s) ++ 0 :: r) j;
     if e =? 0 then Some (p ++ (c :: s) ++ 0 :: r, argv ++ [zlen p], sh)
     else b ← zset (p ++ (c :: s) ++ 0 :: r) j 0; argv_loop fuel b (j + 1) (argv ++ [zlen p]) sh).
Proof.
  intros Hs Hl H4 H5 IH E0 Ha. rewrite skip_while_ok by (cbn [length]; done || lia). cbn [mbind option_bind takew].
  rewrite (inword_char c H4 H5), (line_split inword). cbn [takew dropw]. rewrite (inword_char c H4 H5).
  pose proof (dropw_length inword s) as Hd. pose proof (dropw_text inword s Hs) as Ht.
  destruct (dropw inword s) as [|e s'] eqn:Ed; cbn [app]; rewrite zget_mid; cbn [mbind option_bind].
  - injection E0 as <- <-. cbn [Z.eqb]. apply (argv_spec_done _ r). by rewrite <- !app_assoc.
  - apply dropw_inword_head in Ed as ->; [|done]. apply Forall_cons in Ht as [_ Ht]. cbn [length] in Hd.
    change (SPACE =? 0) with false. cbv iota. rewrite zset_at. cbn [mbind option_bind].
    set (q := p ++ c :: takew inword s). change (q ++ 0 :: s' ++ 0 :: r) with (q ++ (0 :: s') ++ 0 :: r).
    rewrite mid_assoc, <- zlen_snoc with (x := 0).
    apply IH; [done|lia|exact E0|rewrite zlen_snoc; lia].
Qed.

(** What the loop promises with this fuel, and one turn of it: an argument, or
    something else, which is cut out of the line. *)
Definition argv_upto (fuel : nat) (r : list Z) (sh' : shell) : Prop := forall p s argv sh args,
  text s -> (length s < fuel)%nat -> interp (words s) sh = Some (args, sh') -> zlen argv + zlen args <= ARGV_LEN ->
  argv_spec p argv args sh' (argv_loop fuel (p ++ s ++ 0 :: r) (zlen p) argv sh).

Lemma argv_plain_ok fuel p c s r argv sh args sh' : plain c s -> text s -> (length s < fuel)%nat -> argv_upto fuel r sh' ->
  interp (words (dropw inword s)) sh = Some (args, sh') -> zlen argv + zlen args + 1 <= ARGV_LEN ->
  argv_spec ((p ++ c :: takew inword s) ++ [0]) (argv ++ [zlen p]) args sh'
    (argv_loop (S fuel) (p ++ (c :: s) ++ 0 :: r) (zlen p) argv sh).
Proof.
  intros (H1 & H2 & H3 & H4 & H5 & H6) Hs Hl IH E Ha. pose proof (zlen_nonneg args). cbn [argv_loop app].
  rewrite zget_mid. cbn [mbind option_bind]. change (p ++ c :: s ++ 0 :: r) with (p ++ (c :: s) ++ 0 :: r).
  rewrite !starts_ok by done. fold (next_gt s). cbn [mbind option_bind].
  rewrite H6, (proj2 (Z.eqb_neq c 0)), (proj2 (Z.eqb_neq c SPACE)), (proj2 (Z.eqb_neq c AMP)), (proj2 (Z.eqb_neq c GT)),
    (proj2 (Z.eqb_neq c LT)) by done. cbn [andb orb]. rewrite (proj2 (Z.leb_gt _ _)) by lia.
  apply (argv_arg_ok fuel p c s r argv sh args sh'); [done|lia|done|done|intros; by apply IH|exact E|done].
Qed.

Lemma argv_other_ok fuel p c s r argv sh args sh' : c <> 0 -> ~ plain c s -> text s -> (length s < fuel)%nat ->
  argv_upto fuel r sh' -> interp (words (c :: s)) sh = Some (args, sh') -> zlen argv + zlen args <= ARGV_LEN ->
  argv_spec (p ++ [0]) argv args sh' (argv_loop (S fuel) (p ++ (c :: s) ++ 0 :: r) (zlen p) argv sh).
Proof.
  intros Hc Hp Hs Hl IH E Ha. cbn [argv_loop app]. rewrite zget_mid. cbn [mbind option_bind].
  rewrite (proj2 (Z.eqb_neq c 0)) by done. pose proof (past_file_length s) as Hpf.
  change (p ++ c :: s ++ 0 :: r) with (p ++ (c :: s) ++ 0 :: r). rewrite !starts_ok by done. fold (next_gt s).
  cbn [app]. rewrite zset_at. cbn [mbind option_bind].
  change (p ++ 0 :: s ++ 0 :: r) with (p ++ (0 :: s) ++ 0 :: r). rewrite mid_assoc, <- zlen_snoc with (x := 0).
  destruct (line_cases c s Hc) as [->|[(o & Ho)|[(o & s' & -> & Ho)|[[-> Hn]|Hp']]]]; [..|by destruct Hp].
  - by apply IH.
  - rewrite (interp_one c o) in E by done.
    destruct Ho as [[= -> ->]|[= -> ->]]; cbn [Z.eqb Pos.eqb GT LT SPACE];
      (apply argv_redirect_ok; [lia|done|done|intros; by apply IH|lia|done]).
  - apply Forall_cons in Hs as [_ Hs]. rewrite (interp_two c o) in E by done. cbn [length] in Hl.
    pose proof (past_file_length s'). replace (zlen p + 2) with (zlen ((p ++ [0]) ++ [0])) by (rewrite !zlen_snoc; lia).
    cbn [app]. rewrite zset_at. cbn [mbind option_bind].
    change ((p ++ [0]) ++ 0 :: s' ++ 0 :: r) with ((p ++ [0]) ++ (0 :: s') ++ 0 :: r). rewrite mid_assoc.
    apply (argv_spec_prefix (p ++ [0]) [0]).
    destruct Ho as [[= -> ->]|[= -> ->]]; cbn [Z.eqb Pos.eqb GT LT SPACE TWO AMP next_gt andb orb];
      (apply argv_redirect_ok; [lia|done|done|intros; by apply IH|lia|done]).
  - rewrite interp_amp in E by done. rewrite Hn. cbn [Z.eqb Pos.eqb GT LT SPACE TWO AMP andb orb]. by apply IH.
Qed.

#[export] Instance plain_dec c s : Decision (plain c s).
Proof. unfold plain. apply _. Defined.

Lemma argv_ok fuel r sh' : argv_upto fuel r sh'.
Proof.
  induction fuel as [|fuel IH]; intros p s argv sh args Hs Hl E Ha; [lia|].
  destruct s as [|c s].
  { injection E as <- <-. cbn [argv_loop app]. rewrite zget_mid. by eapply argv_spec_done. }
  apply Forall_cons in Hs as [Hc Hs]. cbn [length] in Hl. destruct (decide (plain c s)) as [Hp|Hp].
  - rewrite (interp_arg c s sh Hp Hs) in E. obind E. destruct x as [args1 sh1]. injection E as <- <-.
    rewrite zlen_cons in Ha. apply argv_spec_arg. apply (argv_plain_ok _ _ _ _ _ _ _ _ _ Hp); [done|lia|done|done|lia].
  - apply (argv_spec_prefix p [0]). by apply argv_other_ok; [..|lia| | |].
Qed.

(** * Properties *)

(** The shell's parser reads a line as a list of words: for every line whose file
    names and arguments fit the arrays, [get_argc] ends with the number of arguments
    of that reading, and [get_argv] ends with that many addresses, at each of which
    the line holds the argument with a zero byte behind it, with the file names of the
    redirections, the background mark and the calls of that reading.  So both agree. *)
Theorem command_line_correct (s r ins outs errs : list Z) (args : list (list Z)) (sh : shell) :
  text s -> interp (words s) (MkShell ins outs errs 0 []) = Some (args, sh) -> zlen args <= ARGV_LEN ->
  let string := s ++ 0 :: r in
  get_argc string = Some (zlen args) /\
  exists b' argv, get_argv ins outs errs string = Some (b', argv, sh) /\ zlen argv = zlen args /\
    Forall2 (word_at b') argv args.
Proof.
  intros Hs E Ha string. assert (length s < S (length string))%nat as Hl by (unfold string; rewrite length_app; lia).
  split.
  - exact (argc_ok (S (length string)) [] s r 0 _ args sh Hs Hl E).
  - destruct (argv_ok (S (length string)) r sh [] s [] _ args Hs Hl E) as (b' & idx & Er & _ & HF); [by rewrite zlen_nil|].
    exists b', idx. split; [exact Er|]. split; [|done]. unfold zlen. by rewrite (Forall2_length _ _ _ HF).
Qed.

(** * Witnesses *)

(** The line [ls -l 2>e > o &]. *)
Lemma command_line_correct_witness :
  get_argc [108; 115; 32; 45; 108; 32; 50; 62; 101; 32; 62; 32; 111; 32; 38; 0; 0] = Some 2 /\
  exists b' argv sh, get_argv [] [] [] [108; 115; 32; 45; 108; 32; 50; 62; 101; 32; 62; 32; 111; 32; 38; 0; 0] =
      Some (b', argv, sh) /\ Forall2 (word_at b') argv [[108; 115]; [45; 108]] /\
    prog_stderr sh = [101] /\ prog_stdout sh = [111] /\ no_block sh = 1.
Proof.
  destruct (command_line_correct [108; 115; 32; 45; 108; 32; 50; 62; 101; 32; 62; 32; 111; 32; 38] [0] [] [] []
    [[108; 115]; [45; 108]] (MkShell [] [111] [101] 1 [Remove [101]; Create [101] 0; Remove [111]; Create [111] 0]))
    as (H1 & b' & argv & H2 & _ & H3); [repeat (constructor; [discriminate|]); constructor|reflexivity|discriminate|].
  split; [exact H1|]. exists b', argv. eexists. split; [exact H2|]. split; [exact H3|]. repeat split.
Defined.

End Shell.
