(* ===== verification/ShellMain.v ===== *)
(** * The command loop of the shell: [main] of [shell/shell.c]

    [main] prints a prompt, reads a line into [input], parses it with [get_argc] and
    [get_argv] of [Shell.v], and runs a command of its own or a program.  It is an
    interaction tree over the calls it makes of the C library and of the system
    ([sysE]), whose answers are not constrained: the loop need not end.

    What the code keeps is kept: the buffer [input] with what earlier lines left
    behind, the addresses in [s_argv] (indices of [input]; an entry never stored is
    [None]) and the virtual device.  An access outside of an array, an entry not
    stored and a text that does not fit are the event [Undefined].

    The specification is a shell over words: it has neither buffer nor addresses. *)

From Stdlib Require Import Ascii String.
From Paco Require Import paco.
From ITree Require Import ITree ITreeFacts Basics.HeterogeneousRelations.
From S2P Require Import Prelude Shell.
Local Open Scope Z_scope.

Declare Scope shell_scope.
Delimit Scope shell_scope with shell.
Notation "'let!' x := m 'in' k" := (ITree.bind m (fun x => k))
  (at level 10, x name, m at level 100, k at level 200) : shell_scope.
Notation "m ;; k" := (ITree.bind m (fun _ => k)) (at level 100, k at level 200, right associativity) : shell_scope.
Local Open Scope shell_scope.

Module ShellMain.
Import Shell.

(** ** The calls of the shell *)

Inductive stream := Stdout | Stderr.
(** An argument of [printf]. *)
Inductive parg := PInt (z : Z) | PStr (s : list Z) | PChar (c : Z).

(** [vfs_metadata_t] *)
Record vfs_metadata_t := MkMetadata { filename : list Z; filetype : Z; size : Z }.
(** [task_info_t] as the system reads it: the texts behind its pointers. *)
Record task_info_t := MkInfo {
  path : list Z; ti_stdin : list Z; ti_stdout : list Z; ti_stderr : list Z; ti_pwd : list Z;
  name : list Z; server_name : list Z; argv : list (list Z)
}.

(** The calls of the C library, then those of the system.  [LoadVdevIn] and [StoreVdevOut] are accesses to the bytes that are
    shared with the kernel. *)
Variant sysE : Type -> Type :=
| Getcwd (size : Z) : sysE (list Z)
| Printf (f : stream) (fmt : string) (args : list parg) : sysE unit
| Fputs (f : stream) (s : list Z) : sysE unit
| Puts (s : list Z) : sysE unit
| Putchar (c : Z) : sysE unit
| Fflush : sysE unit
| Fgets (size : Z) : sysE (option (list Z))
| Fopen (path : list Z) (mode : string) : sysE Z
| Fgetc (fp : Z) : sysE Z
| Fputc (c fp : Z) : sysE unit
| Ftell (fp : Z) : sysE Z
| FseekEnd (fp : Z) : sysE unit
| Fclose (fp : Z) : sysE unit
| Fork : sysE Z
| WhatStdin : sysE (list Z)
| WhatStdout : sysE (list Z)
| WhatStderr : sysE (list Z)
| RemovePath (path : list Z) : sysE Z
| VfsGetMetadata (path : list Z) (type : Z) : sysE (Z * vfs_metadata_t)
| GetHeapBase : sysE Z
| GetHeapSize : sysE Z
| ResizeHeap (n : Z) : sysE unit
| NewSegment (base size type : Z) : sysE Z
| LoadFs (seg : Z) : sysE unit
| VdevRegister : sysE Z
| VdevInReady (vdev : Z) : sysE unit
| VdevOutReady (vdev : Z) : sysE unit
| VdevAwait : sysE Z
| LoadVdevIn : sysE Z
| StoreVdevOut (c : Z) : sysE unit
| Getpid : sysE Z
| OpenFile (path : list Z) (flags mode : Z) : sysE Z
| ReadFile (handle : Z) (buf : list Z) (len : Z) : sysE (Z * list Z)
| WriteFile (handle : Z) (buf : list Z) (len : Z) : sysE Z
| CloseFile (handle : Z) : sysE Z
| VfsMkdir (path : list Z) (perms : Z) : sysE Z
| VfsCreate (path : list Z) (perms : Z) : sysE Z
| VfsRemove (path : list Z) : sysE Z
| VfsList (path : list Z) (metadata : vfs_metadata_t) (entry : Z) : sysE (Z * vfs_metadata_t)
| VfsRead (path : list Z) (loc : Z) : sysE Z
| VfsWrite (path : list Z) (loc val : Z) : sysE unit
| VfsCd (path : list Z) : sysE Z
| Pwd : sysE (list Z)
| ResolveName (server : list Z) : sysE Z
| SendPacket (pid : Z) (payload : list Z) (len : Z) : sysE unit
| GeneralExecute (info : task_info_t) : sysE Z
| GeneralExecuteBlock (info : task_info_t) : sysE Z
| Undefined : sysE Empty_set.

Definition prog : Type -> Type := itree sysE.
Definition sys {A} (e : sysE A) : prog A := ITree.trigger e.
Definition undefined {A} : prog A := let! x := sys Undefined in match x : Empty_set with end.
Definition need {A} (o : option A) : prog A := match o with Some a => Ret a | None => undefined end.
Definition say (fmt : string) (args : list parg) : prog unit := sys (Printf Stdout fmt args).
Definition complain (fmt : string) (args : list parg) : prog unit := sys (Printf Stderr fmt args).

(** [\e] and [\n] *)
Definition esc (s : string) : string := String "027"%char s.
Definition nl : string := String "010"%char EmptyString.
Infix "+++" := String.append (at level 60, right associativity) : shell_scope.

Definition EOF : Z := -1.
Definition VFS_FAILURE : Z := -2.
Definition ECH_O_RDONLY : Z := 1.
Definition ECH_O_WRONLY : Z := 2.
Definition ECH_O_CREAT : Z := 16.
Definition ECH_O_TRUNC : Z := 32.
Definition INPUT_LEN : Z := 256.

(** ** Texts in memory *)

Fixpoint text_of (l : list Z) : option (list Z) :=
  match l with
  | [] => None
  | c :: l => if c =? 0 then Some [] else s ← text_of l; Some (c :: s)
  end.
(** The text at the index [i] of a buffer. *)
Definition cstr_at (b : list Z) (i : Z) : option (list Z) :=
  if decide (0 <= i) then text_of (drop (Z.to_nat i) b) else None.

(** [atoi] *)
Fixpoint digits (acc : Z) (s : list Z) : Z :=
  match s with c :: s' => if (48 <=? c) && (c <=? 57) then digits (10 * acc + (c - 48)) s' else acc | [] => acc end.
Fixpoint skip_blanks (s : list Z) : list Z :=
  match s with c :: s' => if (c =? 32) || ((9 <=? c) && (c <=? 13)) then skip_blanks s' else s | [] => [] end.
Definition atoi (s : list Z) : option Z :=
  let n := match skip_blanks s with
           | c :: s' => if c =? 45 then - digits 0 s' else if c =? 43 then digits 0 s' else digits 0 (c :: s')
           | [] => 0
           end in
  if decide (- 2 ^ 31 <= n < 2 ^ 31) then Some n else None.

(** ** The variables of [main] *)

Record state := MkState { metadata : vfs_metadata_t; vdev : Z; vdev_reg : bool }.
Definition set_metadata (m : vfs_metadata_t) (v : state) : state := MkState m (vdev v) (vdev_reg v).
Definition set_vdev (d : Z) (r : bool) (v : state) : state := MkState (metadata v) d r.
Definition state0 : state := MkState (MkMetadata [] 0 0) 0 false.

(** [input], [s_argv] and the others. *)
Record vars := MkVars { input : list Z; s_argv : list (option Z); rest : state }.
Definition vars0 (input : list Z) : vars := MkVars input (replicate (Z.to_nat ARGV_LEN) None) state0.

(** ** The commands of the shell *)

Inductive builtin :=
  Heap | Segm | Col | VdevCmd | VdevIn | VdevOut | PidCmd | ReadCmd | WriteCmd | Div0 | EscCmd | Mkdir | Touch | Rm |
  Clear | ForkCmd | Ls | Beep | Rdspk | Send | Exit | Dump | SizeCmd | Dumpr | CdCmd.

(** The chain of [strcmp]s. *)
Definition builtins : list (string * builtin) := [
  ("heap", Heap); ("segm", Segm); ("col", Col); ("vdev", VdevCmd); ("vdevin", VdevIn); ("vdevout", VdevOut);
  ("pid", PidCmd); ("read", ReadCmd); ("write", WriteCmd); ("div0", Div0); ("esc", EscCmd); ("mkdir", Mkdir);
  ("touch", Touch); ("rm", Rm); ("clear", Clear); ("fork", ForkCmd); ("ls", Ls); ("beep", Beep); ("rdspk", Rdspk);
  ("send", Send); ("exit", Exit); ("dump", Dump); ("size", SizeCmd); ("dumpr", Dumpr); ("cd", CdCmd)]%string.
Definition builtin_of (s : list Z) : option builtin :=
  snd <$> List.find (fun p => bool_decide (bytes p.1 = s)) builtins.

(** [argc], the text of an argument, and the directory of the prompt. *)
Section Commands.
Context (argc : Z) (arg : Z -> prog (list Z)) (cwd : list Z).

(** To the next turn of the loop, or out of it. *)
Definition continue (v : state) : prog (state + Z) := Ret (inl v).
Definition with_arg (v : state) (k : list Z -> prog (state + Z)) : prog (state + Z) :=
  if argc =? 1 then continue v else ITree.bind (arg 1) k.

Definition cmd_heap (v : state) : prog (state + Z) :=
  let! base := sys GetHeapBase in
  let! size := sys GetHeapSize in
  say ("heap base: %d" +++ nl +++ "heap size: %d" +++ nl) [PInt base; PInt size] ;;
  sys (ResizeHeap 0x100) ;; continue v.

Definition cmd_segm (v : state) : prog (state + Z) :=
  let! r := sys (NewSegment 0x10 1 0) in
  let seg := u16 r in
  say ("created LDT segment: 0x%04x" +++ nl) [PInt seg] ;;
  sys (LoadFs seg) ;; continue v.

Definition cmd_col (v : state) : prog (state + Z) :=
  sys (Puts (bytes (esc "[40m " +++ esc "[41m " +++ esc "[42m " +++ esc "[43m " +++ esc "[44m " +++ esc "[45m " +++
    esc "[46m " +++ esc "[47m " +++ esc "[40m"))) ;; continue v.

Definition cmd_vdev (v : state) : prog (state + Z) :=
  if vdev_reg v then sys (Puts (bytes "vdev already registered")) ;; continue v
  else
    sys (Puts (bytes "registering vdev")) ;;
    let! d := sys VdevRegister in
    if d =? -1 then sys (Puts (bytes "vdev registration failed")) ;; continue (set_vdev d false v)
    else say ("vdev%d registered successfully" +++ nl) [PInt d] ;; continue (set_vdev d true v).

Definition cmd_vdevin (v : state) : prog (state + Z) :=
  if negb (vdev_reg v) then sys (Puts (bytes "vdev not registered")) ;; continue v
  else
    sys (VdevInReady (vdev v)) ;;
    let! w := sys VdevAwait in
    let! c := sys LoadVdevIn in
    say ("activity on vdev%d: `%c`" +++ nl) [PInt w; PChar c] ;; continue v.

Definition cmd_vdevout (v : state) : prog (state + Z) :=
  if argc =? 1 then continue v
  else if negb (vdev_reg v) then sys (Puts (bytes "vdev not registered")) ;; continue v
  else
    let! s := arg 1 in
    sys (StoreVdevOut (u8 (hd 0 s))) ;;
    sys (VdevOutReady (vdev v)) ;;
    let! w := sys VdevAwait in
    say ("activity on vdev%d" +++ nl) [PInt w] ;; continue v.

Definition cmd_pid (v : state) : prog (state + Z) :=
  let! p := sys Getpid in say ("pid: %d" +++ nl) [PInt p] ;; continue v.

(** The ends of [read] and [write], which are the same. *)
Definition opened (handle : Z) : prog unit :=
  (if handle =? -1 then sys (Fputs Stderr (bytes ("couldn't open file" +++ nl))) else Ret tt) ;;
  say ("received handle %d" +++ nl) [PInt handle].
Definition closed (handle : Z) (buf : list Z) : prog unit :=
  let! s := need (cstr_at buf 0) in
  sys (Puts s) ;;
  let! r := sys (CloseFile handle) in
  if r =? -1 then say ("couldn't close" +++ nl) [] else say ("handle closed" +++ nl) [].

Definition cmd_read (v : state) : prog (state + Z) :=
  with_arg v (fun path =>
    let! handle := sys (OpenFile path ECH_O_RDONLY 0) in
    opened handle ;;
    let! r := sys (ReadFile handle (replicate 6 0) 5) in
    (if r.1 =? -1 then say ("couldn't read" +++ nl) [] else say ("read 5 bytes" +++ nl) []) ;;
    closed handle r.2 ;; continue v).

Definition cmd_write (v : state) : prog (state + Z) :=
  with_arg v (fun path =>
    let buf := bytes "12345" ++ [0] in
    let! handle := sys (OpenFile path (Z.lor ECH_O_WRONLY (Z.lor ECH_O_CREAT ECH_O_TRUNC)) 0) in
    opened handle ;;
    let! r := sys (WriteFile handle buf 5) in
    (if r =? -1 then say ("couldn't write" +++ nl) [] else say ("wrote 5 bytes" +++ nl) []) ;;
    closed handle buf ;; continue v).

Definition cmd_esc (v : state) : prog (state + Z) :=
  with_arg v (fun s => sys (Putchar 27) ;; sys (Fputs Stdout s) ;; continue v).

(** [mkdir], [touch] and [rm]: a call that complains when its result is not 0. *)
Definition cmd_path (e : list Z -> sysE Z) (fmt : string) (v : state) : prog (state + Z) :=
  with_arg v (fun path =>
    let! r := sys (e path) in
    (if r =? 0 then Ret tt else complain fmt [PStr path]) ;; continue v).
Definition cmd_mkdir : state -> prog (state + Z) :=
  cmd_path (fun path => VfsMkdir path 0) ("couldn't create directory `%s`." +++ nl).
Definition cmd_touch : state -> prog (state + Z) :=
  cmd_path (fun path => VfsCreate path 0) ("couldn't create file `%s`." +++ nl).
Definition cmd_rm : state -> prog (state + Z) :=
  cmd_path VfsRemove ("couldn't remove file `%s`." +++ nl).

Definition cmd_fork (v : state) : prog (state + Z) :=
  let! pid := sys Fork in
  (if pid =? -1 then sys (Puts (bytes "Fork fail."))
   else if pid =? 0 then sys (Puts (bytes "Child process OK."))
   else say ("Child PID: %d" +++ nl) [PInt pid]) ;; continue v.

(** One entry of [ls], [inr] at the end of the directory. *)
Definition ls_entry (ls_path : list Z) (l : Z * vfs_metadata_t) : prog (Z * vfs_metadata_t + vfs_metadata_t) :=
  let! r := sys (VfsList ls_path l.2 l.1) in
  let m := r.2 in
  if r.1 =? -2 then Ret (inr m)
  else
    (if filetype m =? 1 then sys (Fputs Stdout (bytes (esc "[36m"))) else Ret tt) ;;
    (if filetype m =? 2 then sys (Fputs Stdout (bytes (esc "[33m"))) else Ret tt) ;;
    say "%s" [PStr (filename m)] ;;
    sys (Fputs Stdout (bytes (esc "[0m"))) ;;
    sys (Putchar 10) ;;
    let! i := need (if l.1 <? 2 ^ 31 - 1 then Some (l.1 + 1) else None) in
    Ret (inl (i, m)).
Definition cmd_ls (v : state) : prog (state + Z) :=
  let! ls_path := (if argc =? 1 then Ret cwd else arg 1) in
  let! m := ITree.iter (ls_entry ls_path) (0, metadata v) in
  continue (set_metadata m v).

Definition SPEAKER : list Z := bytes "/dev/PC Speaker".
Definition cmd_beep (v : state) : prog (state + Z) :=
  with_arg v (fun s => let! n := need (atoi s) in sys (VfsWrite SPEAKER 0 n) ;; continue v).
Definition cmd_rdspk (v : state) : prog (state + Z) :=
  let! r := sys (VfsRead SPEAKER 0) in say ("%d" +++ nl) [PInt r] ;; continue v.

Definition cmd_send (v : state) : prog (state + Z) :=
  let server := bytes "server" in
  let! r := sys (ResolveName server) in
  let pid := u32 r in
  say ("%s's PID is: %d" +++ nl) [PStr server; PInt pid] ;;
  let! s := arg 1 in
  say ("payload is: %s" +++ nl) [PStr s] ;;
  sys (SendPacket pid (s ++ [0]) (zlen s + 1)) ;; continue v.

Definition open_or_complain (path : list Z) (mode : string) (v : state) (k : Z -> prog (state + Z)) : prog (state + Z) :=
  let! fp := sys (Fopen path mode) in
  if fp =? 0 then complain ("can't open `%s`." +++ nl) [PStr path] ;; continue v else k fp.
(** The loop over the bytes of a file. *)
Definition each_byte (fp : Z) (put : Z -> sysE unit) : prog unit :=
  ITree.iter (fun _ : unit =>
    let! c := sys (Fgetc fp) in
    if c =? EOF then Ret (inr tt) else sys (put c) ;; Ret (inl tt)) tt.

Definition cmd_dump (v : state) : prog (state + Z) :=
  with_arg v (fun path => open_or_complain path "r" v (fun fp =>
    each_byte fp Putchar ;;
    let! n := sys (Ftell fp) in
    say (nl +++ "File length: %d" +++ nl) [PInt n] ;;
    sys (Fclose fp) ;; continue v)).
Definition cmd_size (v : state) : prog (state + Z) :=
  with_arg v (fun path => open_or_complain path "r" v (fun fp =>
    sys (FseekEnd fp) ;;
    let! n := sys (Ftell fp) in
    say (nl +++ "File length: %d" +++ nl) [PInt n] ;;
    sys (Fclose fp) ;; continue v)).
Definition cmd_dumpr (v : state) : prog (state + Z) :=
  if argc <? 3 then continue v
  else
    let! from := arg 1 in
    open_or_complain from "rb" v (fun src =>
      let! to := arg 2 in
      open_or_complain to "rb+" v (fun dest =>
        each_byte src (fun c => Fputc c dest) ;;
        sys (Fclose dest) ;; continue v)).

Definition cmd_cd (v : state) : prog (state + Z) :=
  with_arg v (fun path =>
    let! r := sys (VfsCd path) in
    (if r =? -2 then complain ("shell: invalid directory: `%s`." +++ nl) [PStr path] else Ret tt) ;; continue v).

Definition run_builtin (b : builtin) : state -> prog (state + Z) :=
  match b with
  | Heap => cmd_heap | Segm => cmd_segm | Col => cmd_col | VdevCmd => cmd_vdev | VdevIn => cmd_vdevin
  | VdevOut => cmd_vdevout | PidCmd => cmd_pid | ReadCmd => cmd_read | WriteCmd => cmd_write
  | Div0 => fun _ => undefined
  | EscCmd => cmd_esc | Mkdir => cmd_mkdir | Touch => cmd_touch | Rm => cmd_rm
  | Clear => fun v => sys (Fputs Stdout (bytes (esc "[2J" +++ esc "[H"))) ;; continue v
  | ForkCmd => cmd_fork | Ls => cmd_ls | Beep => cmd_beep | Rdspk => cmd_rdspk | Send => cmd_send
  | Exit => fun _ => Ret (inr 0)
  | Dump => cmd_dump | SizeCmd => cmd_size | Dumpr => cmd_dumpr | CdCmd => cmd_cd
  end.

(** [prog_path] and the others are arrays of 128 bytes. *)
Definition fits (s : list Z) : prog unit := need (if zlen s <? PROG_LEN then Some tt else None).
Fixpoint args_from (i : Z) (n : nat) : prog (list (list Z)) :=
  match n with
  | O => Ret []
  | S n => let! s := arg i in let! l := args_from (i + 1) n in Ret (s :: l)
  end.

(** A program; [line] is what is left of the line at the start of [input].
    [OS_general_execute_block] gives a [uint64_t], which is compared with -1. *)
Definition run_program (sh : shell) (line : list Z) (v : state) : prog (state + Z) :=
  let! s := arg 0 in
  fits s ;;
  let! d := sys Pwd in
  fits d ;;
  let! args := args_from 0 (Z.to_nat argc) in
  let info := MkInfo s (prog_stdin sh) (prog_stdout sh) (prog_stderr sh) d s [] args in
  let invalid := complain ("shell: invalid command: `%s`." +++ nl) [PStr line] in
  (if no_block sh =? 0 then
     let! r := sys (GeneralExecuteBlock info) in
     if u64 r =? 2 ^ 64 - 1 then invalid else Ret tt
   else
     let! pid := sys (GeneralExecute info) in
     if pid =? -1 then invalid else complain ("PID %d launched." +++ nl) [PInt pid]) ;;
  continue v.

End Commands.

(** ** One turn of the loop *)

Definition prompt : prog (list Z) :=
  let! cwd := sys (Getcwd 2048) in
  say (esc "[32mechidnaOS" +++ esc "[0m:" +++ esc "[36m%s" +++ esc "[0m# ") [PStr cwd] ;;
  sys Fflush ;; Ret cwd.

(** [fgets(input, 256, stdin)], then [input[strlen(input) - 1] = 0]; at the end of the
    file the buffer keeps its contents. *)
Definition read_line (r : option (list Z)) (input : list Z) : option (list Z) :=
  input ← match r with
          | Some l => if zlen l <? INPUT_LEN then Some (l ++ 0 :: drop (S (length l)) input) else None
          | None => Some input
          end;
  s ← cstr_at input 0;
  zset input (zlen s - 1) 0.

(** [s_argv] after [get_argv] has stored the addresses [l]. *)
Definition store_argv (l : list Z) (a : list (option Z)) : list (option Z) := (Some <$> l) ++ drop (length l) a.

(** The three streams and their texts. *)
Definition streams : prog (list Z * list Z * list Z) :=
  let! i := sys WhatStdin in fits i ;;
  let! o := sys WhatStdout in fits o ;;
  let! e := sys WhatStderr in fits e ;;
  Ret (i, o, e).
(** The calls of [get_argv]: only whether a file has no metadata decides on another call,
    the one for a device.  They are made in their order once the line is parsed, since the
    parsing does not depend on them; a line whose parsing is undefined makes none. *)
Fixpoint find_metadata (path : list Z) (types : list Z) : prog unit :=
  match types with
  | [] => Ret tt
  | t :: types => let! r := sys (VfsGetMetadata path t) in
                  if r.1 =? VFS_FAILURE then find_metadata path types else Ret tt
  end.
Definition path_call (c : call) : prog unit :=
  match c with
  | Remove path => let! r := sys (RemovePath path) in Ret tt
  | Create path perms => let! r := sys (VfsCreate path perms) in Ret tt
  | GetMetadata path types => find_metadata path types
  end.
Fixpoint path_calls (l : list call) : prog unit :=
  match l with [] => Ret tt | c :: l => path_call c ;; path_calls l end.

(** The text of [s_argv[i]]. *)
Definition arg_of (v : vars) (i : Z) : prog (list Z) := need (p ← zget (s_argv v) i; p ← p; cstr_at (input v) p).

Definition command (cwd : list Z) (argc : Z) (sh : shell) (v : vars) : prog (state + Z) :=
  let! s := arg_of v 0 in
  match builtin_of s with
  | Some b => run_builtin argc (arg_of v) cwd b (rest v)
  | None =>
      let! line := need (cstr_at (input v) 0) in
      match line with
      | [] => continue (rest v)
      | _ => run_program argc (arg_of v) sh line (rest v)
      end
  end.

(** The end of a turn, with the buffer and [s_argv] as the parser left them. *)
Definition keep (b : list Z) (a : list (option Z)) (r : state + Z) : vars + Z :=
  match r with inl v => inl (MkVars b a v) | inr n => inr n end.

(** What follows [fgets]. *)
Definition after_line (cwd : list Z) (r : option (list Z)) (v : vars) : prog (vars + Z) :=
  let! b := need (read_line r (input v)) in
  let! argc := need (get_argc b) in
  let! st := streams in
  let! res := need (get_argv st.1.1 st.1.2 st.2 b) in
  let v := MkVars res.1.1 (store_argv res.1.2 (s_argv v)) (rest v) in
  path_calls (calls res.2) ;;
  let! r := command cwd argc res.2 v in
  Ret (keep (input v) (s_argv v) r).

Definition turn (v : vars) : prog (vars + Z) :=
  let! cwd := prompt in
  let! r := sys (Fgets INPUT_LEN) in
  after_line cwd r v.
Definition main (v : vars) : prog Z := ITree.iter turn v.

(** ** Specification: a shell over words *)

(** [started]: a command has been read before. *)
Record words_state := MkWords { started : bool; wrest : state }.

Definition line_text (r : option (list Z)) : list Z := match r with Some l => removelast l | None => [] end.

Definition words_line (cwd : list Z) (r : option (list Z)) (w : words_state) : prog (words_state + Z) :=
  let! st := streams in
  let! res := need (interp (words (line_text r)) (MkShell st.1.1 st.1.2 st.2 0 [])) in
  path_calls (calls res.2) ;;
  match res.1 with
  | [] => if started w then Ret (inl w) else undefined
  | s :: _ =>
      let arg i := need (zget res.1 i) in
      let! r := match builtin_of s with
                | Some b => run_builtin (zlen res.1) arg cwd b (wrest w)
                | None => run_program (zlen res.1) arg res.2 s (wrest w)
                end in
      Ret (match r with inl v => inl (MkWords true v) | inr n => inr n end)
  end.
Definition words_turn (w : words_state) : prog (words_state + Z) :=
  let! cwd := prompt in
  let! r := sys (Fgets INPUT_LEN) in
  words_line cwd r w.
Definition words_main : prog Z := ITree.iter words_turn (MkWords false state0).

(** The lines that are read right: a text with a newline, which begins with its first
    argument if it has one; its file names fit; and [send] has an argument. *)
Definition shell_none : shell := MkShell [] [] [] 0 [].
Definition good_text (s : list Z) : bool :=
  bool_decide (text s) &&
  match interp (words s) shell_none with
  | Some ([], _) => true
  | Some (args, _) =>
      (zlen args <=? ARGV_LEN) && negb (bool_decide (args = [bytes "send"])) &&
      match s with c :: s => bool_decide (plain c s) | [] => false end
  | None => false
  end.
Definition good_line (r : option (list Z)) : bool :=
  match r with
  | Some l => bool_decide (l = removelast l ++ [10]) && (zlen l <? INPUT_LEN) && good_text (removelast l)
  | None => false
  end.

(** The calls, with the assumption that [fgets] gives such a line; nothing is said of
    what follows another one. *)
Definition assume (A : Type) (e : sysE A) : prog A :=
  match e with
  | Fgets n => let! r := sys (Fgets n) in if good_line r then Ret r else undefined
  | e => sys e
  end.
Definition assuming {A} (t : prog A) : prog A := Interp.interp (M := itree sysE) assume t.

(** ** Running the shell

    A user who types lines, in front of a system where files can be removed: the lines
    left and the files removed so far. *)
Definition user : Type := list (list Z) * list (list Z).
Definition answer (A : Type) (e : sysE A) (u : user) : option (A * user) :=
  match e in sysE A return option (A * user) with
  | Fgets _ => match u.1 with l :: ls => Some (Some (l ++ [10]), (ls, u.2)) | [] => Some (None, u) end
  | Getcwd _ | WhatStdin | WhatStdout | WhatStderr => Some (bytes "/", u)
  | Printf _ _ _ | Fflush => Some (tt, u)
  | VfsRemove f => Some (0, (u.1, u.2 ++ [f]))
  | _ => None
  end.
(** [fuel] nodes of the tree; [None] where it stops at a call without an answer. *)
Fixpoint run {R} (fuel : nat) (t : prog R) (u : user) : option (option R * user) :=
  match fuel with
  | O => Some (None, u)
  | S fuel => match observe t with
              | RetF r => Some (Some r, u)
              | TauF t => run fuel t u
              | VisF e k => '(a, u) ← answer _ e u; run fuel (k a) u
              end
  end.

(** ** Lemmas: texts in memory *)

Lemma text_of_ok s r : text s -> text_of (s ++ 0 :: r) = Some s.
Proof.
  intros H. induction H as [|c s Hc Hs IH]; [done|]. cbn [app text_of]. rewrite (proj2 (Z.eqb_neq c 0)) by done.
  by rewrite IH.
Qed.
Lemma cstr_at_ok p s r : text s -> cstr_at (p ++ s ++ 0 :: r) (zlen p) = Some s.
Proof.
  intros H. unfold cstr_at. rewrite decide_True by apply zlen_nonneg. unfold zlen. rewrite Nat2Z.id.
  rewrite drop_app_length. by apply text_of_ok.
Qed.

Lemma text_of_word l w : text w -> (forall j c, zget w j = Some c -> zget l j = Some c) -> zget l (zlen w) = Some 0 ->
  text_of l = Some w.
Proof.
  intros Hw. revert l. induction Hw as [|c w Hc Hw IH]; intros [|d l] H H0; cbn [text_of]; try done.
  - rewrite zlen_nil in H0. injection H0 as ->. done.
  - pose proof (H 0 c eq_refl) as Hd. injection Hd as ->. rewrite (proj2 (Z.eqb_neq c 0)) by done.
    rewrite IH; [done| |].
    + intros j e Hj. pose proof (zget_Some _ _ _ Hj). specialize (H (j + 1) e). rewrite !zget_cons, !decide_False in H by lia.
      replace (j + 1 - 1) with j in H by lia. by apply H.
    + rewrite zlen_cons, zget_cons, decide_False in H0 by (pose proof (zlen_nonneg w); lia).
      by replace (zlen w + 1 - 1) with (zlen w) in H0 by lia.
Qed.

Lemma cstr_at_word b i w : text w -> word_at b i w -> cstr_at b i = Some w.
Proof.
  intros Hw [H H0]. assert (0 <= i) as Hi.
  { destruct w as [|c w]; [rewrite zlen_nil in H0; apply zget_Some in H0; lia|].
    specialize (H 0 c eq_refl). apply zget_Some in H. lia. }
  unfold cstr_at. rewrite decide_True by done. apply text_of_word; [done|..].
  - intros j c Hj. pose proof (zget_Some _ _ _ Hj). rewrite zget_drop by lia. by apply H.
  - rewrite zget_drop; [done|apply zlen_nonneg|done].
Qed.

(** ** Lemmas: the words of a line *)

Lemma words_text s : text s -> Forall text (words s).
Proof.
  intros H. induction H as [|c s Hc Hs IH]; cbn [words]; [constructor|]. destruct (c =? SPACE); [done|].
  destruct s as [|d s]; [by repeat constructor|]. destruct (d =? SPACE); [by repeat constructor|].
  destruct (words (d :: s)) as [|w ws]; [by repeat constructor|]. apply Forall_cons in IH as [Hw IH].
  by repeat constructor.
Qed.
Lemma strip_text w : text w -> text (strip w).2.
Proof.
  intros H. induction H as [|c w Hc Hw IH]; cbn [strip]; [constructor|].
  destruct (c =? AMP); [|by constructor]. destruct w as [|d w]; [constructor|].
  destruct (d =? GT); [by constructor|exact IH].
Qed.

(** Induction on the words, two of which are read where a file name stands alone. *)
Lemma words_ind (Q : list (list Z) -> Prop) :
  Q [] -> (forall w ts, Q ts -> (forall f ts', ts = f :: ts' -> Q ts') -> Q (w :: ts)) -> forall ts, Q ts.
Proof.
  intros H0 H1 ts. enough (Q ts /\ (forall f ts', ts = f :: ts' -> Q ts')) as [? _] by done.
  induction ts as [|w ts [IH1 IH2]]; [done|]. split; [by apply H1|]. by intros f ts' [= -> ->].
Qed.

Lemma interp_args_text ts : forall sh args sh', Forall text ts -> interp ts sh = Some (args, sh') -> Forall text args.
Proof.
  induction ts as [|w ts IH IH2] using words_ind; intros sh args sh' Ht E; cbn [interp] in E.
  { injection E as <- _. constructor. }
  apply Forall_cons in Ht as [Hw Ht]. apply strip_text in Hw. set (sh1 := if (strip w).1 then background sh else sh) in E.
  destruct (classify (strip w).2) as [[o [|c f]]|].
  - destruct ts as [|f ts']; obind E; cbn [interp] in E; [injection E as <- _; constructor|].
    apply Forall_cons in Ht as [_ Ht]. by apply (IH2 _ _ eq_refl) in E.
  - obind E. by apply IH in E.
  - destruct (strip w).2 as [|c w'] eqn:Ew; [by apply IH in E|]. obind E. destruct x as [l sh2]. injection E as <- _.
    constructor; [done|]. by apply IH in E0.
Qed.

(** Whether a line is read, and its arguments, do not depend on the streams. *)
Lemma redirect_any o f sh1 sh2 sh' : redirect o f sh1 = Some sh' -> exists sh2', redirect o f sh2 = Some sh2'.
Proof. unfold redirect. destruct (_ <? _); [by eexists|done]. Qed.

Lemma interp_any ts : forall sh1 sh2 args sh', interp ts sh1 = Some (args, sh') -> exists sh2', interp ts sh2 = Some (args, sh2').
Proof.
  induction ts as [|w ts IH IH2] using words_ind; intros sh1 sh2 args sh' E; cbn [interp] in *.
  { injection E as <- _. by eexists. }
  set (s1 := if (strip w).1 then background sh1 else sh1) in E.
  set (s2 := if (strip w).1 then background sh2 else sh2).
  destruct (classify (strip w).2) as [[o [|c f]]|].
  - destruct ts as [|f ts']; obind E; destruct (redirect_any _ _ _ s2 _ E0) as [s2' ->]; cbn [mbind option_bind].
    + cbn [interp] in *. injection E as <- _. by eexists.
    + by apply (IH2 _ _ eq_refl _ s2' _ _ E).
  - obind E. destruct (redirect_any _ _ _ s2 _ E0) as [s2' ->]. cbn [mbind option_bind]. by apply (IH _ s2' _ _ E).
  - destruct (strip w).2 as [|c w']; [by apply (IH _ s2 _ _ E)|]. obind E. destruct x as [l sh3]. injection E as <- _.
    destruct (IH _ s2 _ _ E0) as [s2' ->]. by eexists.
Qed.

(** ** Lemmas: reading and parsing a line *)

Lemma read_line_ok s input : text s -> zlen s + 1 < INPUT_LEN ->
  read_line (Some (s ++ [10])) input = Some (s ++ 0 :: 0 :: drop (S (S (length s))) input).
Proof.
  intros Hs Hl. unfold read_line.
  rewrite zlen_app, (proj2 (Z.ltb_lt _ _)) by (change (zlen [10]) with 1; lia). cbn [mbind option_bind].
  rewrite length_app. cbn [length]. rewrite Nat.add_1_r. set (d := drop _ input).
  assert (cstr_at ((s ++ [10]) ++ 0 :: d) 0 = Some (s ++ [10])) as ->
    by (apply (cstr_at_ok [] (s ++ [10]) d), Forall_app; by repeat constructor).
  cbn [mbind option_bind]. rewrite zlen_app. change (zlen [10]) with 1. replace (zlen s + 1 - 1) with (zlen s) by lia.
  rewrite <- app_assoc. cbn [app]. by rewrite zset_at.
Qed.

(** What the parser makes of a line: without arguments the buffer begins with a zero
    byte; with arguments the first of them is there. *)
Lemma parse_ok s r i o e args sh0 : good_text s = true -> interp (words s) shell_none = Some (args, sh0) ->
  exists b idx sh, interp (words s) (MkShell i o e 0 []) = Some (args, sh) /\
    get_argv i o e (s ++ 0 :: r) = Some (b, idx, sh) /\ Forall text args /\ Forall2 (word_at b) idx args /\
    match args with [] => cstr_at b 0 = Some [] | w :: _ => hd_error idx = Some 0 /\ cstr_at b 0 = Some w /\ w <> [] end.
Proof.
  intros Hg E0. unfold good_text in Hg. rewrite E0 in Hg. apply andb_prop in Hg as [Hs%bool_decide_eq_true Hg].
  destruct (interp_any _ _ (MkShell i o e 0 []) _ _ E0) as [sh E].
  pose proof (interp_args_text _ _ _ _ (words_text s Hs) E) as Ht.
  destruct s as [|c s].
  { injection E as <- <-. by exists (0 :: r), [], (MkShell i o e 0 []). }
  apply Forall_cons in Hs as [Hc Hs]. unfold get_argv. set (fuel := length ((c :: s) ++ 0 :: r)).
  assert (length s < fuel)%nat as Hl by (unfold fuel; rewrite length_app; cbn; lia).
  destruct args as [|w args].
  - destruct (decide (plain c s)) as [Hp|Hp].
    { rewrite (interp_arg c s _ Hp Hs) in E. obind E. by destruct x. }
    destruct (argv_other_ok fuel [] c s r [] _ [] sh Hc Hp Hs Hl (argv_ok _ _ _) E ltac:(done)) as (b & idx & E1 & Hb & HF).
    exists b, idx, sh. split; [done|]. split; [exact E1|]. split; [done|]. split; [done|].
    apply (cstr_at_word b 0 []); [constructor|]. split; [|by apply Hb].
    intros j d Hj. apply zget_Some in Hj. change (zlen []) with 0 in Hj. lia.
  - apply andb_prop in Hg as [Hg Hp%bool_decide_eq_true]. apply andb_prop in Hg as [Ha%Z.leb_le _].
    pose proof E as E'. rewrite (interp_arg c s _ Hp Hs) in E'. obind E'. destruct x as [args1 sh1]. injection E' as <- <- <-.
    rewrite zlen_cons in Ha.
    destruct (argv_plain_ok fuel [] c s r [] _ args1 sh1 Hp Hs Hl (argv_ok _ _ _) E1 ltac:(rewrite zlen_nil; lia))
      as (b & idx & E2 & Hb & HF).
    assert (word_at b 0 (c :: takew inword s)) as Hw.
    { split; [intros j d Hj|]; apply Hb; change (([] ++ c :: takew inword s) ++ [0]) with ((c :: takew inword s) ++ 0 :: []);
        rewrite Z.add_0_l.
      - pose proof (zget_Some _ _ _ Hj). rewrite zget_app, decide_True by lia. exact Hj.
      - apply zget_mid. }
    exists b, (0 :: idx), sh1. split; [exact E|]. split; [exact E2|]. split; [done|].
    split; [by constructor|]. split; [done|]. apply Forall_cons in Ht as [Ht _]. split; [by apply cstr_at_word|done].
Qed.

(** ** Lemmas: the commands *)

(** The commands use the arguments they have; but [send], and all of them when there
    is none, use the second one. *)
Lemma run_builtin_ext argc arg1 arg2 cwd b v : (argc <> 1 \/ b = Send -> arg1 1 = arg2 1) ->
  (3 <= argc -> arg1 2 = arg2 2) -> run_builtin argc arg1 cwd b v = run_builtin argc arg2 cwd b v.
Proof.
  intros H1 H2.
  assert (forall k, with_arg argc arg1 v k = with_arg argc arg2 v k) as Hw.
  { intros k. unfold with_arg. destruct (Z.eqb_spec argc 1); [done|]. by rewrite H1 by (by left). }
  destruct b; cbn [run_builtin]; try done; try apply Hw.
  - unfold cmd_vdevout. destruct (Z.eqb_spec argc 1); [done|]. by rewrite H1 by (by left).
  - unfold cmd_ls. destruct (Z.eqb_spec argc 1); [done|]. by rewrite H1 by (by left).
  - unfold cmd_send. by rewrite H1 by (by right).
  - unfold cmd_dumpr. destruct (Z.ltb_spec argc 3); [done|]. by rewrite H1, H2 by (by lia || (left; lia)).
Qed.

Lemma args_from_ext arg1 arg2 n : forall i, (forall k, i <= k < i + Z.of_nat n -> arg1 k = arg2 k) ->
  args_from arg1 i n = args_from arg2 i n.
Proof.
  induction n as [|n IH]; intros i H; [done|]. cbn [args_from]. rewrite H by lia. rewrite (IH (i + 1)); [done|].
  intros k Hk. apply H. lia.
Qed.
Lemma run_program_ext argc arg1 arg2 sh line v : 0 < argc -> (forall i, 0 <= i < argc -> arg1 i = arg2 i) ->
  run_program argc arg1 sh line v = run_program argc arg2 sh line v.
Proof.
  intros Hc H. unfold run_program. rewrite H by lia. rewrite (args_from_ext arg1 arg2); [done|].
  intros k Hk. apply H. lia.
Qed.

Lemma send_name s : builtin_of s = Some Send -> s = bytes "send".
Proof.
  intros H. destruct (decide (s = bytes "send")) as [|Hn]; [done|]. exfalso. revert H. unfold builtin_of, builtins.
  cbn [List.find fst snd]. repeat (case_bool_decide; [done|]). done.
Qed.

(** ** Lemmas: a turn *)

Lemma arg_of_ok b idx args a v i : Forall text args -> Forall2 (word_at b) idx args -> 0 <= i < zlen args ->
  arg_of (MkVars b (store_argv idx a) v) i = need (zget args i).
Proof.
  intros Ht HF Hi. destruct (zget_is_Some args i Hi) as [w Hw]. rewrite Hw. unfold arg_of, store_argv. cbn [s_argv input].
  assert (zlen (Some <$> idx) = zlen args) as Hl by (unfold zlen; by rewrite length_fmap, (Forall2_length _ _ _ HF)).
  rewrite zget_app, Hl, decide_True by lia.
  rewrite zget_lookup in Hw by lia. destruct (Forall2_lookup_r _ _ _ _ _ HF Hw) as (p & Hp & Hwp).
  rewrite zget_lookup, list_lookup_fmap, Hp by lia. cbn [fmap option_fmap option_map mbind option_bind].
  rewrite (cstr_at_word b p w); [done| |done]. by apply (Forall_lookup_1 _ _ _ _ Ht Hw).
Qed.

(** The variables and the words: after a first command [s_argv[0]] is the start of [input]. *)
Definition related (v : vars) (w : words_state) : Prop :=
  rest v = wrest w /\ zget (s_argv v) 0 = Some (if started w then Some 0 else None).
Definition same_end : vars + Z -> words_state + Z -> Prop := sum_rel related eq.

(** The tree goes on as what it is bound to. *)
Lemma bind_same {A R1 R2} (RR : R1 -> R2 -> Prop) (t : prog A) k1 k2 :
  (forall a, eutt RR (k1 a) (k2 a)) -> eutt RR (ITree.bind t k1) (ITree.bind t k2).
Proof. intros H. eapply eutt_clo_bind; [reflexivity|]. by intros a _ <-. Qed.
Lemma need_ok {A R} (a : A) (k : A -> prog R) : (ITree.bind (need (Some a)) k) ≈ k a.
Proof. cbn [need]. by rewrite bind_ret_l. Qed.
Lemma undefined_same {A R1 R2} (RR : R1 -> R2 -> Prop) (k1 : A -> prog R1) (k2 : A -> prog R2) :
  eutt RR (ITree.bind undefined k1) (ITree.bind undefined k2).
Proof. unfold undefined. rewrite !bind_bind. apply bind_same. intros []. Qed.

Lemma good_text_args s : good_text s = true -> text s /\ exists args sh0,
  interp (words s) shell_none = Some (args, sh0) /\ zlen args <= ARGV_LEN /\ args <> [bytes "send"].
Proof.
  unfold good_text. intros [Hs%bool_decide_eq_true H]%andb_prop. split; [done|].
  destruct (interp (words s) shell_none) as [[args sh0]|]; [|done]. exists args, sh0. split; [done|].
  destruct args as [|w args]; [done|]. apply andb_prop in H as [H _]. apply andb_prop in H as [H1%Z.leb_le H2].
  by rewrite negb_true_iff, bool_decide_eq_false in H2.
Qed.

(** A line without arguments does nothing, once a command has been read. *)
Lemma command_none cwd sh b a v (st : bool) : zget a 0 = Some (if st then Some 0 else None) -> cstr_at b 0 = Some [] ->
  command cwd 0 sh (MkVars b a v) ≈ if st then continue v else undefined.
Proof.
  intros Ha Hb. unfold command, arg_of. cbn [s_argv input rest]. rewrite Ha. cbn [mbind option_bind]. destruct st.
  - cbn [mbind option_bind]. rewrite Hb, need_ok. change (builtin_of []) with (@None builtin). cbv iota. by rewrite need_ok.
  - cbn [mbind option_bind need]. unfold undefined. rewrite bind_bind. apply bind_same. intros [].
Qed.

(** A line with arguments is the command that they are. *)
Lemma command_some cwd sh b idx s args a v : Forall text (s :: args) -> Forall2 (word_at b) idx (s :: args) ->
  s :: args <> [bytes "send"] -> cstr_at b 0 = Some s -> s <> [] ->
  command cwd (zlen (s :: args)) sh (MkVars b (store_argv idx a) v) ≈
  match builtin_of s with
  | Some c => run_builtin (zlen (s :: args)) (fun i => need (zget (s :: args) i)) cwd c v
  | None => run_program (zlen (s :: args)) (fun i => need (zget (s :: args) i)) sh s v
  end.
Proof.
  intros Ht HF Hsend Hb Hs. pose proof (zlen_cons s args) as El. pose proof (zlen_nonneg args).
  assert (forall i, 0 <= i < zlen (s :: args) -> arg_of (MkVars b (store_argv idx a) v) i = need (zget (s :: args) i)) as Ha
    by (intros i Hi; by apply arg_of_ok).
  unfold command. rewrite Ha by lia. change (zget (s :: args) 0) with (Some s). rewrite need_ok. cbn [rest input].
  destruct (builtin_of s) as [c|] eqn:E.
  - rewrite (run_builtin_ext _ _ (fun i => need (zget (s :: args) i))); [done| |intros; apply Ha; lia].
    intros Hc. apply Ha. destruct Hc as [Hc| ->]; [lia|]. apply send_name in E as ->.
    destruct args as [|w args]; [done|]. rewrite !zlen_cons. pose proof (zlen_nonneg args). lia.
  - rewrite Hb, need_ok. destruct s as [|x s]; [done|]. rewrite (run_program_ext _ _ (fun i => need (zget ((x :: s) :: args) i))); [done|lia|exact Ha].
Qed.

Lemma after_line_ok cwd r v w : good_line r = true -> related v w ->
  eutt same_end (after_line cwd r v) (words_line cwd r w).
Proof.
  intros Hg [Hr Ha]. destruct r as [l|]; [|done]. unfold good_line in Hg.
  apply andb_prop in Hg as [Hg Ht]. apply andb_prop in Hg as [El%bool_decide_eq_true Hl%Z.ltb_lt].
  unfold words_line, line_text, after_line. set (s := removelast l) in *. rewrite El in Hl |- *. clearbody s. clear El l.
  destruct (good_text_args s Ht) as (Hs & args & sh0 & E0 & Hlen & Hsend).
  rewrite zlen_app in Hl. change (zlen [10]) with 1 in Hl. rewrite read_line_ok, need_ok by done.
  set (d := 0 :: drop _ (input v)).
  assert (get_argc (s ++ 0 :: d) = Some (zlen args)) as ->.
  { apply (argc_ok _ [] s d 0 shell_none args sh0); [done| |done]. rewrite length_app. lia. }
  rewrite need_ok. apply bind_same. intros [[i o] e]. cbn [fst snd].
  destruct (parse_ok s d i o e args sh0 Ht E0) as (b & idx & sh & -> & -> & Htx & HF & Hb).
  rewrite !need_ok. cbn [fst snd]. apply bind_same. intros _. cbn [input s_argv]. destruct args as [|x args].
  - apply Forall2_nil_inv_r in HF as ->. unfold store_argv. cbn [fmap list_fmap app length]. rewrite drop_0.
    rewrite (command_none _ _ _ _ _ _ Ha Hb). destruct (started w) eqn:Ew.
    + unfold continue. rewrite bind_ret_l. apply eqit_Ret. constructor. split; [exact Hr|]. by rewrite Ew.
    + unfold undefined. rewrite !bind_bind. apply bind_same. intros [].
  - destruct Hb as (Hi & Hb & Hx). rewrite command_some by done. rewrite Hr. apply bind_same. intros [u|n]; apply eqit_Ret; constructor; [|done].
    split; [done|]. destruct idx as [|j idx]; [done|]. injection Hi as ->. done.
Qed.

(** The assumption on related trees. *)
Lemma assuming_same {R1 R2} (RR : R1 -> R2 -> Prop) (t1 : prog R1) (t2 : prog R2) :
  eutt RR t1 t2 -> eutt RR (assuming t1) (assuming t2).
Proof.
  unfold assuming. revert t1 t2. einit. ecofix CIH. intros t1 t2 H. rewrite !unfold_interp. punfold H.
  induction H; subst; pclearbot; cbn.
  - estep.
  - estep.
  - ebind. econstructor; [reflexivity|]. intros a _ <-. estep. ebase.
  - rewrite tau_euttge, unfold_interp. eauto.
  - rewrite tau_euttge, unfold_interp. eauto.
Qed.

Lemma turn_ok v w : related v w -> eutt same_end (assuming (turn v)) (assuming (words_turn w)).
Proof.
  intros H. unfold assuming, turn, words_turn. rewrite !interp_bind. apply bind_same. intros cwd.
  rewrite !interp_bind, !interp_trigger. cbn [assume]. rewrite !bind_bind. apply bind_same. intros r.
  destruct (good_line r) eqn:E; [|apply undefined_same]. rewrite !bind_ret_l.
  apply assuming_same. by apply after_line_ok.
Qed.

(** ** Lemmas: what an indented line leaves behind *)

(** A word that is an argument. *)
Definition argument (w : list Z) : Prop :=
  match w with c :: w => plain c w /\ Forall (fun c => inword c = true) w | [] => False end.
#[export] Instance argument_dec w : Decision (argument w).
Proof. destruct w; apply _. Defined.

Lemma inword_text w : Forall (fun c => inword c = true) w -> text w.
Proof. intros H. apply (Forall_impl _ _ _ H). by intros c Hc ->. Qed.
Lemma inword_words w s : Forall (fun c => inword c = true) w ->
  takew inword (w ++ SPACE :: s) = w /\ dropw inword (w ++ SPACE :: s) = SPACE :: s /\ takew inword w = w /\ dropw inword w = [].
Proof.
  intros H. induction H as [|c w Hc Hw (E1 & E2 & E3 & E4)]; [done|]. cbn [app takew dropw]. rewrite Hc.
  by rewrite E1, E2, E3, E4.
Qed.

Lemma builtin_argument s b : builtin_of s = Some b -> argument s.
Proof.
  intros H. destruct (decide (argument s)) as [|Hn]; [done|]. exfalso. revert H Hn. unfold builtin_of, builtins.
  cbn [List.find fst snd]. repeat (case_bool_decide as Hs; [subst s; intros _ Hn; apply Hn, (bool_decide_unpack _); vm_compute; exact I|clear Hs]).
  done.
Qed.

Lemma argv_spaces fuel k p s argv sh :
  argv_loop (k + fuel) (p ++ replicate k SPACE ++ s) (zlen p) argv sh =
  argv_loop fuel ((p ++ replicate k 0) ++ s) (zlen (p ++ replicate k 0)) argv sh.
Proof.
  revert p. induction k as [|k IH]; intros p; [by rewrite app_nil_r|]. cbn [Nat.add argv_loop replicate app].
  rewrite zget_mid. cbn [mbind option_bind]. change (SPACE =? 0) with false. rewrite Z.eqb_refl. cbv iota.
  rewrite zset_at. cbn [mbind option_bind]. rewrite <- zlen_snoc with (x := 0).
  replace (p ++ 0 :: replicate k SPACE ++ s) with ((p ++ [0]) ++ replicate k SPACE ++ s) by (by rewrite <- app_assoc).
  rewrite IH. by rewrite <- !app_assoc.
Qed.

Lemma words_spaces k s : words (replicate k SPACE ++ s) = words s.
Proof. induction k as [|k IH]; [done|]. cbn [replicate app words]. by rewrite Z.eqb_refl. Qed.

Lemma plain_app c w s : plain c w -> plain c (w ++ SPACE :: s).
Proof.
  intros (H1 & H2 & H3 & H4 & H5 & H6). do 5 (split; [done|]). destruct w; [|exact H6]. apply andb_false_r.
Qed.

(** A command [s] with the argument [f], indented by [k] spaces. *)
Definition indented (k : nat) (s f : list Z) : list Z := replicate k SPACE ++ s ++ SPACE :: f.

Lemma indented_text k s f : argument s -> argument f -> text (indented k s f).
Proof.
  unfold indented, argument. destruct s as [|c s], f as [|d f]; try done. intros [(_ & _ & _ & _ & Hc & _) Hs%inword_text].
  intros [(_ & _ & _ & _ & Hd & _) Hf%inword_text]. apply Forall_app. split; [by apply Forall_replicate|].
  constructor; [done|]. apply Forall_app. by repeat constructor.
Qed.

Lemma indented_interp k s f sh : argument s -> argument f -> interp (words (indented k s f)) sh = Some ([s; f], sh).
Proof.
  unfold indented, argument. destruct s as [|c s], f as [|d f]; try done. intros [Hc Hs] [Hd Hf].
  destruct (inword_words s (d :: f) Hs) as (E1 & E2 & _). destruct (inword_words f [] Hf) as (_ & _ & E3 & E4).
  rewrite words_spaces. cbn [app]. rewrite interp_arg, E1, E2; [|by apply plain_app|].
  - change (words (SPACE :: d :: f)) with (words (d :: f)). rewrite interp_arg, E3, E4 by (done || by apply inword_text). done.
  - apply Forall_app. split; [by apply inword_text|]. constructor; [done|]. destruct Hd as (_ & _ & _ & _ & Hd & _).
    constructor; [done|by apply inword_text].
Qed.

(** The parser ends its first word where it begins, behind the zero bytes of the spaces. *)
Lemma indented_argv k s f r i o e : argument s -> argument f -> exists b j,
  get_argv i o e (indented k s f ++ 0 :: r) = Some (b, [Z.of_nat k; j], MkShell i o e 0 []) /\
  (forall n c, zget (replicate k 0) n = Some c -> zget b n = Some c) /\ word_at b (Z.of_nat k) s /\ word_at b j f.
Proof.
  intros Hs Hf. pose proof (indented_interp 0 s f (MkShell i o e 0 []) Hs Hf) as E. unfold indented in *. cbn [replicate app] in E.
  unfold argument in Hs. destruct s as [|c s]; [done|]. destruct Hs as [Hc Hs]. pose proof (inword_words s f Hs) as (E1 & E2 & _).
  assert (text (s ++ SPACE :: f)) as Ht.
  { apply Forall_app. split; [by apply inword_text|]. unfold argument in Hf. destruct f as [|d f]; [done|].
    destruct Hf as [(_ & _ & _ & _ & Hd & _) Hf%inword_text]. by repeat constructor. }
  cbn [app] in E. rewrite interp_arg in E by (done || by apply plain_app). rewrite E1, E2 in E. obind E. destruct x as [args sh].
  injection E as -> ->. unfold get_argv. set (ln := (c :: s) ++ SPACE :: f). rewrite <- app_assoc.
  set (n := length (ln ++ 0 :: r)).
  replace (S (length (replicate k SPACE ++ ln ++ 0 :: r))) with (k + S n)%nat
    by (unfold n; rewrite (length_app (replicate k SPACE)), length_replicate; lia).
  pose proof (argv_spaces (S n) k [] (ln ++ 0 :: r) [] (MkShell i o e 0 [])) as Es. cbn [app] in Es. change (zlen []) with 0 in Es. rewrite Es.
  destruct (argv_plain_ok n (replicate k 0) c (s ++ SPACE :: f) r [] (MkShell i o e 0 []) [f] (MkShell i o e 0 [])
    (plain_app _ _ _ Hc) Ht) as (b & idx & Eb & Hb & HF); [unfold n, ln; rewrite !length_app; cbn [length]; lia|apply argv_ok|by rewrite E2|done|].
  rewrite E1 in Hb. change ((c :: s ++ SPACE :: f)) with ln in Eb. rewrite Eb. rewrite zlen_replicate.
  apply Forall2_cons_inv_r in HF as (j & idx' & Hj & ->%Forall2_nil_inv_r & ->).
  exists b, j. split; [done|]. split; [|split; [|done]].
  - intros m d Hm. apply Hb. pose proof (zget_Some _ _ _ Hm). rewrite <- app_assoc, zget_app. by rewrite decide_True by lia.
  - rewrite <- (zlen_replicate k 0) at 1. split.
    + intros m d Hm. apply Hb. pose proof (zget_Some _ _ _ Hm). rewrite <- app_assoc, zget_app, decide_False by lia.
      rewrite zget_app, decide_True by lia. by replace (zlen (replicate k 0) + m - zlen (replicate k 0)) with m by lia.
    + apply Hb. rewrite <- zlen_app. apply zget_mid.
Qed.

(** A blank line on a buffer that begins with two zero bytes changes nothing. *)
Lemma blank_line b c : zget b 0 = Some 0 -> zget b 1 = Some 0 -> c = Some [10] ->
  exists d, b = 0 :: 0 :: d /\ read_line c b = Some b.
Proof.
  intros H0 H1 ->. destruct b as [|x [|y d]]; [done..|]. injection H0 as ->. injection H1 as ->. by exists d.
Qed.

Lemma command_stale cwd argc sh b i j l s f c v : argc <> 1 -> argc < 3 -> text s -> text f ->
  word_at b i s -> word_at b j f -> builtin_of s = Some c ->
  command cwd argc sh (MkVars b (store_argv [i; j] l) v) ≈
  run_builtin argc (fun i => need (zget [s; f] i)) cwd c v.
Proof.
  intros H1 H3 Hs Hf Hws Hwf Hb. unfold command, arg_of. cbn [s_argv input rest]. change (zget (store_argv [i; j] l) 0) with (Some (Some i)).
  cbn [mbind option_bind]. rewrite (cstr_at_word b i s Hs Hws), need_ok, Hb.
  rewrite (run_builtin_ext _ _ (fun i => need (zget [s; f] i))); [done| |lia]. intros _.
  change (zget (store_argv [i; j] l) 1) with (Some (Some j)). cbn [mbind option_bind]. by rewrite (cstr_at_word b j f Hf Hwf).
Qed.

Lemma argument_text w : argument w -> text w.
Proof. destruct w as [|c w]; [done|]. intros [(_ & _ & _ & _ & Hc & _) Hw%inword_text]. by constructor. Qed.

(** The turn of a blank line, with a command in [s_argv]. *)
Lemma stale_ok b i j l s f c cwd v : (forall n, 0 <= n < 2 -> zget b n = Some 0) -> argument s -> argument f ->
  word_at b i s -> word_at b j f -> builtin_of s = Some c ->
  eutt (sum_rel (fun v v' => rest v = v') eq)
    (after_line cwd (Some [10]) (MkVars b (store_argv [i; j] l) v))
    (streams ;; run_builtin 0 (fun i => need (zget [s; f] i)) cwd c v).
Proof.
  intros Hb Hs%argument_text Hf%argument_text Hws Hwf Hc. unfold after_line. cbn [input].
  destruct (blank_line b (Some [10])) as (d & Ed & ->); [by apply Hb..|done|]. rewrite need_ok.
  assert (get_argc b = Some 0) as -> by (by rewrite Ed). rewrite need_ok. apply bind_same. intros [[i' o] e]. cbn [fst snd].
  assert (get_argv i' o e b = Some (b, [], MkShell i' o e 0 [])) as -> by (by rewrite Ed). rewrite need_ok.
  cbn [fst snd calls path_calls rest s_argv]. rewrite bind_ret_l.
  change (store_argv [] (store_argv [i; j] l)) with (store_argv [i; j] l).
  rewrite (command_stale _ _ _ _ _ _ _ s f c) by done. rewrite <- (bind_ret_r (run_builtin _ _ _ _ _)) at 2. apply bind_same.
  intros [v'|n]; apply eqit_Ret; by constructor.
Qed.

(** * Properties *)

(** C30: The shell is a shell over words.  While the lines typed are well formed - their
    first character begins an argument if they have one, their file names fit, [send] has
    its argument - the loop of [main] does, call by call and with whatever answers,
    what the loop over words does (also where an answer decides on the next call, as for
    the file and then the device behind [<]): no turn sees what the line buffer and [s_argv] keep
    of earlier lines.  A first line without arguments is undefined behaviour in both. *)
Theorem shell_runs_words (buf : list Z) :
  eutt eq (assuming (main (vars0 buf))) (assuming words_main).
Proof.
  unfold assuming, main, words_main.
  rewrite (interp_iter'_eutt assume turn (fun v => assuming (turn v))) by reflexivity.
  rewrite (interp_iter'_eutt assume words_turn (fun w => assuming (words_turn w))) by reflexivity.
  apply (eutt_iter' related); [exact turn_ok|]. by split.
Qed.

(** A blank line repeats an indented command.  After a line that begins with two or
    more spaces and a command of the shell with an argument, a line without anything
    runs the command once more, on the same argument, with [s_argc] = 0: its address is
    still in [s_argv], and its text still in [input] behind the new end of the line. *)
Theorem blank_line_repeats (k : nat) (s f : list Z) (c : builtin) (cwd cwd' : list Z) (v : vars) :
  (2 <= k)%nat -> builtin_of s = Some c -> argument f -> zlen (indented k s f) + 1 < INPUT_LEN ->
  let arg i := need (zget [s; f] i) in
  eutt (sum_rel (fun v v' => rest v = v') eq)
    (let! r := after_line cwd (Some (indented k s f ++ [10])) v in
     match r with inl v => after_line cwd' (Some [10]) v | inr n => Ret (inr n) end)
    (streams ;;
     let! r := run_builtin 2 arg cwd c (rest v) in
     match r with inl v' => streams ;; run_builtin 0 arg cwd' c v' | inr n => Ret (inr n) end).
Proof.
  intros Hk Hc Hf Hl arg. pose proof (builtin_argument s c Hc) as Hs.
  unfold after_line at 1. rewrite (read_line_ok _ _ (indented_text k s f Hs Hf) Hl), need_ok. set (d := 0 :: drop _ _).
  assert (get_argc (indented k s f ++ 0 :: d) = Some 2) as ->.
  { apply (argc_ok _ [] _ d 0 shell_none [s; f] shell_none); [by apply indented_text| |by apply indented_interp].
    rewrite length_app. lia. }
  rewrite need_ok, bind_bind. apply bind_same. intros [[i o] e]. cbn [fst snd].
  destruct (indented_argv k s f d i o e Hs Hf) as (b & j & -> & Hb & Hws & Hwf). rewrite need_ok. cbn [fst snd calls path_calls].
  rewrite bind_bind, bind_ret_l, bind_bind. cbn [input s_argv].
  rewrite (command_stale _ _ _ _ _ _ _ s f c) by (done || by apply argument_text). apply bind_same.
  intros [v'|n]; cbn [keep]; rewrite bind_ret_l; [|apply eqit_Ret; by constructor].
  apply (stale_ok b (Z.of_nat k) j); try done. intros n Hn. apply Hb. rewrite zget_lookup by lia. apply lookup_replicate_2. lia.
Qed.

(** * Witnesses *)

Definition stale_lines : list (list Z) := [bytes "rm a"; []; bytes "   rm b"; []; bytes "exit"].

(** The lines [rm a], nothing, [   rm b], nothing, [exit]: [b] is removed twice. *)
Lemma blank_line_repeats_witness :
  run 200 (main (vars0 (replicate 256 1))) (stale_lines, []) = Some (Some 0, ([], [bytes "a"; bytes "b"; bytes "b"])) /\
  forall v, eutt (sum_rel (fun v v' => rest v = v') eq)
    (let! r := after_line [] (Some (bytes "   rm b" ++ [10])) v in
     match r with inl v => after_line [] (Some [10]) v | inr n => Ret (inr n) end)
    (streams ;;
     let! r := run_builtin 2 (fun i => need (zget [bytes "rm"; bytes "b"] i)) [] Rm (rest v) in
     match r with
     | inl v' => streams ;; run_builtin 0 (fun i => need (zget [bytes "rm"; bytes "b"] i)) [] Rm v'
     | inr n => Ret (inr n)
     end).
Proof.
  split; [vm_compute; reflexivity|]. intros v.
  apply (blank_line_repeats 3 (bytes "rm") (bytes "b") Rm [] [] v).
  - lia.
  - vm_compute. reflexivity.
  - apply (bool_decide_unpack _). vm_compute. exact I.
  - vm_compute. reflexivity.
Defined.

End ShellMain.
